(* ===== verification/_CoqProject ===== *)
-Q . S2P
Prelude.v
TcpAck.v
Reorder.v
CmdMgr.v
Txq.v
TxqInv.v
TxqSteps.v
TxqSys.v
TxqProps.v
TxqLayout.v
Xmit.v
Radar.v
RadarFacts.v
RadarProps.v
RxInd.v
BusRx.v
Usb.v
XmitFacts.v
XmitProps.v
Regdb.v
Regulatory.v
ConfigTables.v
UserConfig.v
Digest.v
LoaderCmd.v
Loader.v
LoaderFacts.v
LoaderTrace.v
LoaderEnds.v
LoaderScript.v
LoaderProps.v
