(* ===== verification/Prelude.v ===== *)
(** Verification of the AIC8800 USB Wi-Fi driver, [src/drivers/aic8800].

    The driver joins the Linux wireless stack (cfg80211, netdev) to a firmware
    behind USB.  Its own logic is the traffic in between: frames to send wait in
    software queues until the hardware queues and the sleeping stations may have
    them; received frames are put back in order; pure TCP acknowledgements are
    thinned out; commands to the firmware wait for their confirmations; radar
    pulses are matched against the regulatory patterns; received MPDUs become
    Ethernet frames; the power tables of a configuration file and the rules of a
    country are sent to the firmware; and everything passes through the pools and
    threads of the USB transport.  Before any of this a second module,
    [aic_load_fw], puts the firmware on the chip.  These parts are modelled here
    operation by operation, in the build configuration of the two Makefiles (full
    MAC, USB, no MU-MIMO, no A-MSDU transmit).

    ** Files

    - [Prelude]: machine integers ([wrapU], [wrapS]: the value a [w]-bit object
      holds after a store), flag tests, results of code that can go wrong
      ([res]: a value or a [fault]), byte buffers with checked reads, update of
      record fields ([<| f := v |>]), and the tactics over them.
    - [TcpAck]: [aicwf_tcp_ack.c].  [Parse]: header inspection
      ([tcp_check_ack], [is_drop_tcp_ack]).  [Filter]: the table of connections
      and what the transmit path ([filter_send_tcp_ack]), the receive path
      ([filter_rx_tcp_ack]) and the timers do to it.
    - [Reorder]: the reordering of [rwnx_rx.c].  [Rx]: [reord_process_unit] and
      all it calls, timer, work item and flush, and
      [rwnx_rxdata_process_amsdu].  The consumer of delivered frames is the
      class [RxSink] with its laws [RxSinkLaws].
    - [CmdMgr]: [rwnx_cmds.c] and the slots of [rwnx_msg_tx.c].  [Mgr]: the
      operations; [Sched]: callers, work item and firmware as a step relation;
      [Wire]: the bytes of [aicwf_set_cmd_tx].
    - [Txq], [TxqInv], [TxqSteps], [TxqSys], [TxqProps]: [rwnx_txq.c], the queue
      side of [rwnx_tx.c] and the confirmation table of [usb_host.c]; the
      invariant, its preservation by each operation, the transition system over
      all entry points, and the properties.
    - [TxqLayout]: which queue is whose, in every reachable state.
    - [Xmit], [XmitFacts], [XmitProps]: how frames get to those queues:
      [rwnx_select_txq], [rwnx_start_xmit] with the ACK filter in front of it,
      [intf_tx] and [rwnx_start_mgmt_xmit] of [rwnx_tx.c], and the bytes of the
      descriptor as [Usb] sends them; runs compose entry, filter and queues.
    - [Radar], [RadarFacts], [RadarProps]: [rwnx_radar.c] with the report handler
      [rwnx_radar_detect_ind] of [rwnx_msg_rx.c] and the status kept by the
      message builders of [rwnx_msg_tx.c].
    - [RxInd]: [rwnx_rxdataind_aicwf] of [rwnx_rx.c].  [Ind]: the MAC header, the
      ciphers, conversion to Ethernet, fragments, relay by an access point;
      [Frames]: the MPDUs the standard prescribes, written down independently.
      It hands frames to [Reorder].
    - [BusRx]: the frame queues and the receive half of [aicwf_txrxif.c].
      [FrameQ]: the priority queues; [FrameQSpec]: the bounded list they stand
      for; [Split]: the taking apart of a transfer, against the class
      [RxHandlers]; [Transfer]: its layout; [Decode]: the receive header, and
      [RxInd] as an instance of [RxHandlers].
    - [Usb]: [aicwf_usb.c].  [UsbTx], [UsbRx]: the operations; [TxSys], [RxSys]:
      callers, threads and completion handlers as step relations, at the
      granularity of the locks.
    - [Regdb], [Regulatory]: [regdb.c].  [Regdb]: the tables of regulatory domains
      themselves; [Regulatory]: the lookup by code and by index and the text of
      allowed channels of [rwnx_mod_params.c], against the reading of the rules in
      [RegSpec].
    - [ConfigTables], [UserConfig]: the configuration file of the firmware,
      [rwnx_plat_userconfig_parsing*] of [rwnx_platform.c] and the copy in
      [aic_load_fw].  [ConfigTables]: the
      C structures with their layout, and the tables that tie a key to the member
      it sets; [UserConfig]: the three parsers, and the power messages of [rwnx_msg_tx.c] that
      carry the result to the firmware.
    - [Digest]: [aic_crc32] and [md5.c], against the remainder taken bit by bit
      and the digest of RFC 1321.
    - [LoaderCmd], [Loader]: the module [aic_load_fw].  [LoaderCmd.Fw]: its
      command manager ([aicbluetooth_cmds.c]) and the requests to the boot ROM;
      [Loader]: upload, flash image, patch table, tables of settings, and the
      download of each chip up to [aicwf_usb_probe].  The probe is one thread
      that waits for every confirmation, so it is a program in a state and error
      monad; what comes from outside to each request is a [turn], the state holds
      the list of turns to come and the trace of what was handed to the bus.
    - [LoaderFacts], [LoaderTrace], [LoaderEnds], [LoaderScript], [LoaderProps]:
      the lemmas of the monad; what is on the bus in any run; termination; the
      exchanges of a run whose requests are answered; the properties.

    A received transfer goes [UsbRx] -> [Split] -> [Decode] -> [Ind] -> [Rx] (the
    reordering) -> [RxSink]; [BusRx.Props.usb_to_stack] is about the whole way.

    ** Conventions

    A definition has the name of the C function, type or constant it translates;
    helpers that have no name in the code translate a loop or a branch of it.
    A pointer to an element of a table is the index of the element; a list of
    the kernel is the list of its elements, in order.  What leaves the driver is
    a log of events.  An operation that holds its lock throughout is one step;
    an operation that sleeps or drops its lock is split there, and the
    interleavings are the runs of the step relation of its file ([Sched],
    [TxqSys.Sys], [RadarProps.Sys]).  What the kernel decides is an argument:
    [jiffies], [msecs_to_jiffies], the results of allocations, the state of the
    bus.  A read outside of a buffer or table, of a member never written,
    through a null pointer, a [BUG_ON] and a loop without end are the values of
    [fault], and it is proved for each part from which states they arise.

    ** Fuel

    A loop that the code bounds by a list is recursion on that list.  Fuel is
    used in these places, and is proved to be enough: [Reorder.Rx.amsdu_loop]
    (one more than the length of the aggregate, every round but the endless one
    of [amsdu_malformed] consumes a byte), [Txq.Hw.hwq_loop] ([process_fuel]: the
    measure that every round decreases), [Radar.Pri.check_window_loop] and
    [Radar.Pri.long_trim] (the number of pulses, each round removes one), and
    [BusRx.Split.split_loop] (one more than the length of the transfer; every
    round but the endless one of [rx_transfer_ends] consumes a byte).  The loops
    of [Usb] that go on while the USB core takes URBs are recursion on the list
    of its answers.  In the loader the digest has a round for every 64 bytes, an
    upload one for every 1024, the erasing one for every sector of 0x40000, the
    parser of a patch table one for every 24 bytes it consumes at least, each
    with one to spare; [loader_terminates] is that none of them runs out.

    ** What is shown

    - Account: messages held by the ACK filter ([filter_run_conserves]), frames
      and descriptors of the reordering ([reord_unit_conserves]), slots of the
      command manager ([cmd_accounting]) and frames in the transmit queues
      ([hwq_process_fifo], [reachable_linked]) are neither lost nor duplicated.
    - Invariants over all runs: [filter_run_wf], [reord_reachable_ok],
      [cmd_single_in_flight], [reachable_step_safe], [radar_reachable_safe],
      [usb_tx_invariant].
    - What the code is for: in-order delivery of any arrival order
      ([reord_in_order], against the specification [adv] in
      [reord_accept_spec]), thinning of ACKs ([ack_thinning]), one command in
      flight and none forgotten ([cmd_progress]), first in first out transmission
      ([hwq_process_fifo]), detection of every regulatory radar pattern
      ([clean_burst_detected]), conversion of every form of MPDU
      ([station_decap], [usb_to_stack]), fragments as good as whole frames
      ([defrag_equiv]), frame queues that are a bounded priority list
      ([frame_queue_refines]), transmission that drains ([usb_tx_drains]) and
      wake-ups that are not lost ([usb_rx_no_lost_wakeup]); round trips of
      A-MSDUs, of transfers ([rx_transfer_roundtrip]) and of the pulse ring.
    - The entry of frames: every interleaving of frames, timers and queue
      operations is safe ([entry_step_safe]) and accounts for every frame over
      filter and queues ([entry_accounts]); a frame reaches the station chosen for
      it ([frame_reaches_station]) and what goes over the bus gives it back
      ([frame_on_bus]); the admission downgrade is right ([downgrade_ac_highest])
      and then undone ([admission_bypassed]).
    - The loader: when everything is answered, the trace of a probe is a plan
      written down independently ([probe_loads]), after it the chip's memory holds
      the files ([upload_installs]) and a patch table has the meaning of its
      entries ([patch_table_meaning], [patch_table_roundtrip]); whatever happens,
      the firmware is started last and not after a timeout
      ([download_start_last]), and the probe comes to an end
      ([loader_terminates]).  Its digest is RFC 1321 however the file is cut
      ([md5_stream]).
    - Configuration: every regulatory domain of the database is well formed
      ([regdb_types]) and a lookup finds the right one ([regdom_lookup]); a
      configuration file means what an independent reading of it says
      ([config_meaning]), what is written is read back ([config_roundtrip]) and it
      arrives in the power messages ([config_reaches_firmware]).
    - Where the code goes wrong: theorems that exhibit the run, named in the
      findings ([tcp_options_eol_overrun], [amsdu_malformed],
      [cmd_late_confirmation], [tx_retry_credits_wrap], [usb_rx_deaf],
      [usb_tx_stall_after_failures], [ccode_channels_overflow],
      [config_line_overrun], [na_rates_become_valid], [patch_table_truncated],
      [killed_wait_use_after_free], ...).

    ** Not modelled, and why

    Calls into the kernel and to the firmware (the USB core, cfg80211 events,
    timers and work items as such: the moments they fire are steps of the runs);
    the setting up and tearing down of the bus and its suspension; frames for a
    monitor interface and probe responses sent by a work item;
    the message builders (other than those of the power tables) and handlers,
    which copy fields between kernel structures and messages; how the kernel
    reads the configuration and firmware files from disk (their contents are the
    environment of the loader, and its [vmalloc] succeeds), and the power limits
    per country ([CONFIG_POWER_LIMIT], off in the Makefile); the loader's USB
    endpoints, its over-the-air update and Bluetooth configuration, which its
    Makefile leaves out; printing and debugfs; the SDIO and PCI variants,
    the bridge extension, MU-MIMO and beamforming, which the Makefile leaves
    out.  The tables of stations and interfaces are fixed within a run of the
    transmit queues.  The debugging ring of radar pulses ([RWNX_RADAR_DUMP_EN])
    and the interface statistics are left out.

    ** Plan

    Next: the message builders and handlers that decide something (scan, key and
    station requests, the reception of events), and the tables of stations and
    interfaces as they change. *)
From stdpp Require Import base list numbers option.
From Stdlib Require Import ZArith Lia.

(** * Machine integers *)

Declare Scope aic_scope.
Delimit Scope aic_scope with aic.

#[local] Open Scope Z_scope.

(** Value of an unsigned [w]-bit object after storing [z]. *)
Definition wrapU (w z : Z) : Z := z mod 2 ^ w.

(** Value of a two's complement [w]-bit object after storing [z]. *)
Definition wrapS (w z : Z) : Z := (z + 2 ^ (w - 1)) mod 2 ^ w - 2 ^ (w - 1).

Abbreviation u8 := (wrapU 8).
Abbreviation u16 := (wrapU 16).
Abbreviation u32 := (wrapU 32).
Abbreviation u64 := (wrapU 64).
Abbreviation s8 := (wrapS 8).
Abbreviation s16 := (wrapS 16).
Abbreviation s32 := (wrapS 32).
Abbreviation s64 := (wrapS 64).

#[global] Arguments wrapU : simpl never.
#[global] Arguments wrapS : simpl never.

Lemma wrapU_bound w z : 0 <= w -> 0 <= wrapU w z < 2 ^ w.
Proof. intros; apply Z.mod_pos_bound; lia. Qed.

Lemma wrapU_small w z : 0 <= z < 2 ^ w -> wrapU w z = z.
Proof. intros; now apply Z.mod_small. Qed.

Lemma wrapS_small w z : 0 < w -> - 2 ^ (w - 1) <= z < 2 ^ (w - 1) -> wrapS w z = z.
Proof.
  intros Hw Hz. unfold wrapS.
  assert (2 ^ w = 2 * 2 ^ (w - 1)) as E by (rewrite <- Z.pow_succ_r by lia; f_equal; lia).
  rewrite Z.mod_small; lia.
Qed.

Lemma wrapS_bound w z : 0 < w -> - 2 ^ (w - 1) <= wrapS w z < 2 ^ (w - 1).
Proof.
  intros Hw. unfold wrapS.
  assert (2 ^ w = 2 * 2 ^ (w - 1)) as E by (rewrite <- Z.pow_succ_r by lia; f_equal; lia).
  pose proof (Z.mod_pos_bound (z + 2 ^ (w - 1)) (2 ^ w)).
  assert (0 < 2 ^ (w - 1)) by (apply Z.pow_pos_nonneg; lia). lia.
Qed.

(** [BIT n] and the flag tests of the C code, [flags & m], [flags | m],
    [flags & ~m]. *)
Definition BIT (n : Z) : Z := Z.shiftl 1 n.
Definition has (flags m : Z) : bool := negb (Z.land flags m =? 0).
Definition setf (flags m : Z) : Z := Z.lor flags m.
Definition clrf (flags m : Z) : Z := Z.ldiff flags m.

Lemma has_BIT flags n : 0 <= n -> has flags (BIT n) = Z.testbit flags n.
Proof.
  intros Hn. unfold has, BIT.
  destruct (Z.testbit flags n) eqn:E.
  - apply negb_true_iff, Z.eqb_neq. intros H.
    apply (f_equal (fun z => Z.testbit z n)) in H.
    rewrite Z.land_spec, Z.shiftl_spec, Z.sub_diag, E, Z.bits_0 in H by lia. discriminate.
  - apply negb_false_iff, Z.eqb_eq, Z.bits_inj'. intros i Hi.
    rewrite Z.land_spec, Z.shiftl_spec, Z.bits_0 by lia.
    destruct (decide (i = n)) as [->|Hne]; [now rewrite E|].
    destruct (decide (i < n)).
    + rewrite (Z.testbit_neg_r 1) by lia. apply andb_false_r.
    + change 1 with (2 ^ 0). rewrite Z.pow2_bits_false by lia. apply andb_false_r.
Qed.

Lemma testbit_BIT n i : 0 <= n -> 0 <= i -> Z.testbit (BIT n) i = bool_decide (i = n).
Proof.
  intros Hn Hi. unfold BIT. rewrite Z.shiftl_spec by lia. case_bool_decide as H.
  - subst. now rewrite Z.sub_diag.
  - destruct (decide (i < n)); [apply Z.testbit_neg_r; lia|].
    change 1 with (2 ^ 0). apply Z.pow2_bits_false; lia.
Qed.

Lemma has_setf flags m k : has (setf flags k) m = has flags m || has k m.
Proof.
  unfold has, setf. rewrite Z.land_lor_distr_l.
  destruct (Z.eqb_spec (Z.land flags m) 0) as [->|H1];
    destruct (Z.eqb_spec (Z.land k m) 0) as [->|H2]; rewrite ?Z.lor_0_l, ?Z.lor_0_r; simpl.
  - reflexivity.
  - now apply negb_true_iff, Z.eqb_neq.
  - now apply negb_true_iff, Z.eqb_neq.
  - apply negb_true_iff, Z.eqb_neq. rewrite Z.lor_eq_0_iff. tauto.
Qed.

Lemma has_clrf_same flags m : has (clrf flags m) m = false.
Proof.
  unfold has, clrf. apply negb_false_iff, Z.eqb_eq.
  apply Z.bits_inj'; intros i Hi.
  rewrite Z.land_spec, Z.ldiff_spec, Z.bits_0. now destruct (Z.testbit flags i), (Z.testbit m i).
Qed.

Lemma has_clrf_disjoint flags m k : Z.land k m = 0 -> has (clrf flags k) m = has flags m.
Proof.
  intros Hd. unfold has, clrf. do 2 f_equal. apply Z.bits_inj'; intros i Hi.
  apply (f_equal (fun z => Z.testbit z i)) in Hd.
  rewrite Z.land_spec, Z.bits_0 in Hd.
  rewrite !Z.land_spec, Z.ldiff_spec.
  destruct (Z.testbit flags i), (Z.testbit m i), (Z.testbit k i); simpl in *; congruence.
Qed.

(** * Results of code that can go wrong *)

(** What an execution can run into: a read outside its buffer, a read of an
    object that was never written, a [BUG_ON] / [BUG], more loop iterations
    than the fuel given, the use of a null pointer or of freed memory. *)
Inductive fault : Set :=
| OutOfBounds
| Uninitialised
| BugOn
| OutOfFuel
| NullDeref
| UseAfterFree.

Inductive res (A : Type) : Type :=
| Ok (a : A)
| Fault (f : fault).
Arguments Ok {A} _.
Arguments Fault {A} _.

#[export] Instance fault_eq_dec : EqDecision fault.
Proof. solve_decision. Defined.
#[export] Instance res_eq_dec {A} `{EqDecision A} : EqDecision (res A).
Proof. solve_decision. Defined.
#[export] Instance res_ret : MRet res := fun A a => Ok a.
#[export] Instance res_bind : MBind res := fun A B f m =>
  match m with Ok a => f a | Fault e => Fault e end.

#[export] Instance res_fmap : FMap res := fun A B f m =>
  match m with Ok a => Ok (f a) | Fault e => Fault e end.

Definition from_option_res {A} (e : fault) (o : option A) : res A :=
  match o with Some a => Ok a | None => Fault e end.

Lemma bind_Ok_inv {A B} (m : res A) (f : A -> res B) b :
  m ≫= f = Ok b -> exists a, m = Ok a /\ f a = Ok b.
Proof. destruct m as [a|e]; simpl; [eauto|discriminate]. Qed.

(** A loop over a list whose body can fault. *)
Fixpoint foldM {A T} (f : A -> T -> res T) (l : list A) (t : T) : res T :=
  match l with
  | [] => Ok t
  | a :: l => t ← f a t; foldM f l t
  end.

Lemma foldM_app {A T} (f : A -> T -> res T) l l' t : foldM f (l ++ l') t = (t ← foldM f l t; foldM f l' t).
Proof. revert t. induction l as [|a l IH]; intros t; [done|]. cbn. destruct (f a t); [apply IH|done]. Qed.

(** A loop invariant of [foldM]. *)
Lemma foldM_inv {A T} (I : T -> Prop) (f : A -> T -> res T) l t :
  I t -> (forall a t, a ∈ l -> I t -> exists t', f a t = Ok t' /\ I t') ->
  exists t', foldM f l t = Ok t' /\ I t'.
Proof.
  revert t. induction l as [|a l IH]; intros t Ht Hf; simpl; [eauto|].
  destruct (Hf a t) as (t1 & -> & H1); [now left|done|]. simpl.
  apply IH; [done|]. intros b u Hb. apply Hf. now right.
Qed.

(** * Buffers of bytes *)

(** [buf[i]] *)
Definition rd8 (buf : list Z) (i : Z) : res Z :=
  if 0 <=? i then from_option_res OutOfBounds (buf !! Z.to_nat i) else Fault OutOfBounds.

(** big-endian loads ([ntohs], [ntohl] of a field) *)
Definition be16 (buf : list Z) (i : Z) : res Z :=
  a ← rd8 buf i; b ← rd8 buf (i + 1); Ok (a * 256 + b).
Definition be32 (buf : list Z) (i : Z) : res Z :=
  a ← be16 buf i; b ← be16 buf (i + 2); Ok (a * 65536 + b).

(** little-endian loads (a field read without byte swapping) *)
Definition le16 (buf : list Z) (i : Z) : res Z :=
  a ← rd8 buf i; b ← rd8 buf (i + 1); Ok (a + b * 256).
Definition le32 (buf : list Z) (i : Z) : res Z :=
  a ← le16 buf i; b ← le16 buf (i + 2); Ok (a + b * 65536).

Lemma rd8_ok buf i : 0 <= i < Z.of_nat (length buf) -> exists b, rd8 buf i = Ok b.
Proof.
  intros Hi. unfold rd8. destruct (Z.leb_spec 0 i); [|lia].
  destruct (lookup_lt_is_Some_2 buf (Z.to_nat i)) as [b ->]; [lia|]. now exists b.
Qed.

Lemma rd8_oob buf i : Z.of_nat (length buf) <= i -> rd8 buf i = Fault OutOfBounds.
Proof.
  intros Hi. unfold rd8. destruct (Z.leb_spec 0 i); [|reflexivity].
  now rewrite lookup_ge_None_2 by lia.
Qed.

Lemma rd8_inv buf i b : rd8 buf i = Ok b -> 0 <= i < Z.of_nat (length buf).
Proof.
  unfold rd8. destruct (Z.leb_spec 0 i); [|discriminate].
  destruct (buf !! Z.to_nat i) eqn:E; [|discriminate].
  apply lookup_lt_Some in E. lia.
Qed.

Lemma rd8_fault buf i e : rd8 buf i = Fault e -> e = OutOfBounds.
Proof.
  unfold rd8. destruct (0 <=? i); [|naive_solver].
  destruct (buf !! Z.to_nat i); naive_solver.
Qed.

(** Computations whose only possible fault is a read outside the buffer. *)
Definition oob_only {A} (m : res A) : Prop := forall e, m = Fault e -> e = OutOfBounds.

Create HintDb oob.

Lemma oob_ok {A} (a : A) : oob_only (Ok a).
Proof. now intros e. Qed.
Lemma oob_bind {A B} (m : res A) (f : A -> res B) :
  oob_only m -> (forall a, m = Ok a -> oob_only (f a)) -> oob_only (m ≫= f).
Proof. intros Hm Hf e. destruct m as [a|e']; cbn; [apply Hf, eq_refl|]. intros [= ->]. now apply Hm. Qed.
Lemma oob_if {A} (b : bool) (m n : res A) : oob_only m -> oob_only n -> oob_only (if b then m else n).
Proof. now destruct b. Qed.
Lemma oob_rd8 buf i : oob_only (rd8 buf i).
Proof. intros e. apply rd8_fault. Qed.
#[export] Hint Resolve oob_ok oob_rd8 oob_if : oob.
#[export] Hint Extern 1 (oob_only (_ ≫= _)) => (apply oob_bind; [|intros ? ?]) : oob.
Lemma oob_be16 buf i : oob_only (be16 buf i).
Proof. unfold be16. auto with oob. Qed.
Lemma oob_le16 buf i : oob_only (le16 buf i).
Proof. unfold le16. auto with oob. Qed.
#[export] Hint Resolve oob_be16 oob_le16 : oob.
Lemma oob_be32 buf i : oob_only (be32 buf i).
Proof. unfold be32. auto with oob. Qed.
Lemma oob_le32 buf i : oob_only (le32 buf i).
Proof. unfold le32. auto with oob. Qed.
#[export] Hint Resolve oob_be32 oob_le32 : oob.

Lemma rd8_app_l pre post i : 0 <= i < Z.of_nat (length pre) ->
  rd8 (pre ++ post) i = rd8 pre i.
Proof. intros Hi. unfold rd8. now rewrite lookup_app_l by lia. Qed.

Lemma rd8_app_r pre post i : Z.of_nat (length pre) <= i ->
  rd8 (pre ++ post) i = rd8 post (i - Z.of_nat (length pre)).
Proof.
  intros Hi. unfold rd8. destruct (Z.leb_spec 0 i), (Z.leb_spec 0 (i - Z.of_nat (length pre))); try lia.
  rewrite lookup_app_r by lia. do 2 f_equal. lia.
Qed.

(** Reading the byte just after a prefix. *)
Lemma rd8_middle pre b post : rd8 (pre ++ b :: post) (Z.of_nat (length pre)) = Ok b.
Proof. rewrite rd8_app_r by lia. now rewrite Z.sub_diag. Qed.

(** [memcpy] of [n] bytes from [buf + i]. *)
Definition slice (buf : list Z) (i : Z) (n : nat) : res (list Z) :=
  if (0 <=? i) && (i + Z.of_nat n <=? Z.of_nat (length buf)) then Ok (take n (drop (Z.to_nat i) buf)) else Fault OutOfBounds.

Lemma slice_app pre mid post i n : i = Z.of_nat (length pre) -> n = length mid -> slice (pre ++ mid ++ post) i n = Ok mid.
Proof.
  intros -> ->. unfold slice. rewrite !length_app.
  replace ((0 <=? _) && _) with true by (symmetry; rewrite andb_true_iff, !Z.leb_le; lia).
  rewrite Nat2Z.id, drop_app_length, take_app_length. done.
Qed.

Lemma slice_prefix pre rest i n : 0 <= i -> i + Z.of_nat n <= Z.of_nat (length pre) -> slice (pre ++ rest) i n = slice pre i n.
Proof.
  intros Hi Hn. unfold slice. rewrite length_app.
  replace ((0 <=? i) && (i + Z.of_nat n <=? Z.of_nat (length pre + length rest))) with true
    by (symmetry; rewrite andb_true_iff, !Z.leb_le; lia).
  replace ((0 <=? i) && (i + Z.of_nat n <=? Z.of_nat (length pre))) with true
    by (symmetry; rewrite andb_true_iff, !Z.leb_le; lia).
  rewrite drop_app_le, take_app_le by (rewrite ?length_drop; lia). done.
Qed.

(** * Arrays as lists *)

(** Number of elements of an array that satisfy a test. *)
Definition countb {A} (p : A -> bool) (l : list A) : Z :=
  Z.of_nat (length (List.filter p l)).

Lemma countb_bound {A} (p : A -> bool) l : 0 <= countb p l <= Z.of_nat (length l).
Proof. unfold countb. pose proof (List.filter_length_le p l). lia. Qed.

Lemma countb_insert {A} (p : A -> bool) l i x y : l !! i = Some x ->
  countb p (<[i:=y]> l) = countb p l - (if p x then 1 else 0) + (if p y then 1 else 0).
Proof.
  unfold countb. revert i. induction l as [|a l IH]; intros [|i] Hx; simplify_eq/=.
  - destruct (p x), (p y); simpl; lia.
  - specialize (IH i Hx). destruct (p a); simpl; lia.
Qed.

Lemma countb_fmap {A} (p : A -> bool) (f : A -> A) l : (forall a, p (f a) = p a) ->
  countb p (f <$> l) = countb p l.
Proof.
  intros Hf. unfold countb. f_equal. induction l as [|a l IH]; [done|].
  rewrite fmap_cons. cbn [List.filter]. rewrite Hf.
  destruct (p a); cbn [length]; now rewrite IH.
Qed.

Lemma countb_full {A} (p : A -> bool) l : countb p l = Z.of_nat (length l) ->
  forall i x, l !! i = Some x -> p x = true.
Proof.
  unfold countb. induction l as [|a l IH]; intros H [|i] x Hx; simplify_eq/=.
  - pose proof (List.filter_length_le p l). destruct (p x); [done|lia].
  - pose proof (List.filter_length_le p l). destruct (p a); simpl in *; [|lia].
    eapply IH; [lia|done].
Qed.

(** Replacing one cell of an array changes the multiset of the values
    found in its cells by that cell's values only. *)
Lemma omap_insert_perm {A B} (f : A -> option B) (l : list A) i x y : l !! i = Some x ->
  option_list (f x) ++ omap f (<[i:=y]> l) ≡ₚ option_list (f y) ++ omap f l.
Proof.
  revert i. induction l as [|a l IH]; intros [|i] Hx; simplify_eq/=.
  - destruct (f x), (f y); simpl; try reflexivity. apply Permutation_swap.
  - specialize (IH i Hx). destruct (f a) as [b|]; [|exact IH].
    rewrite <- !Permutation_middle. now constructor.
Qed.

Lemma omap_fmap_same {A B} (g : A -> option B) (f : A -> A) (l : list A) : (forall a, g (f a) = g a) ->
  omap g (f <$> l) = omap g l.
Proof.
  intros Hf. induction l as [|a l IH]; [done|]. rewrite fmap_cons.
  cbn [omap list_omap]. rewrite Hf. destruct (g a); [f_equal|]; exact IH.
Qed.

Lemma list_filter_all {A} (P : A -> Prop) `{forall x, Decision (P x)} (l : list A) : Forall P l -> filter P l = l.
Proof. induction 1 as [|a l Ha Hl IH]; [done|]. rewrite filter_cons_True by done. now f_equal. Qed.

Lemma omap_none {A B} (g : A -> option B) (l : list A) : (forall a, a ∈ l -> g a = None) -> omap g l = [].
Proof.
  intros Hg. induction l as [|a l IH]; [done|]. cbn [omap list_omap].
  rewrite Hg by now left. apply IH. intros b Hb. apply Hg. now right.
Qed.

Lemma perm_exchange {A} (a b h h' n e : list A) :
  a ++ h' ≡ₚ b ++ h -> b ++ e ≡ₚ n ++ a -> h' ++ e ≡ₚ n ++ h.
Proof.
  intros H1 H2. apply (Permutation_app_inv_l a).
  rewrite app_assoc, H1, <- app_assoc, (Permutation_app_comm h), app_assoc, H2.
  rewrite <- !app_assoc, !(app_assoc _ _ h). f_equiv. apply Permutation_app_comm.
Qed.

Lemma perm_swap_mid {A} (a b c : list A) : a ++ b ++ c ≡ₚ b ++ a ++ c.
Proof. rewrite !app_assoc. f_equiv. apply Permutation_app_comm. Qed.

(** * Record update *)

(** [r <| f := v |>] is the struct assignment [r.f = v].  A record type
    declares its fields once, as an instance of [RecordEta]. *)
Class RecordEta (R : Type) := record_eta : R -> R.
Class FieldSet {R T : Type} (proj : R -> T) := field_set : (T -> T) -> R -> R.
Arguments field_set {R T} proj {_} g r /.

Ltac find_field_set :=
  lazymatch goal with
  | |- @FieldSet ?R ?T ?proj =>
      let inst := constr:(_ : RecordEta R) in
      let eta := eval hnf in inst in
      exact (fun (g : T -> T) (r : R) =>
               ltac:(let body := eval cbv beta in (eta r) in
                     lazymatch eval pattern (proj r) in body with
                     | ?F _ => let out := eval cbv beta in (F (g (proj r))) in exact out
                     end))
  end.
#[export] Hint Extern 0 (FieldSet _) => find_field_set : typeclass_instances.

Notation "r <| f := v |>" := (field_set f (fun _ => v) r)
  (at level 1, f at next level, left associativity, format "r  <| f  :=  v |>") : aic_scope.
Notation "r <| f ::= g |>" := (field_set f g r)
  (at level 1, f at next level, left associativity, format "r  <| f  ::=  g |>") : aic_scope.
