(* ===== verification/TcpAck.v ===== *)
(** TCP ACK filter of the transmit path ([aicwf_tcp_ack.c],
    [aicwf_tcp_ack.h]).

    [Module Parse] translates the header inspection of an Ethernet frame;
    [Module Filter] the table of tracked connections and the operations on
    it.  A frame is a list of bytes, a [struct msg_buf *] is a natural
    number, the values of the pointed-to buffers being irrelevant to the
    filter.  A function that frees a message ([intf_tcp_drop_msg]) or sends
    one ([intf_tx]) records an event.  Each operation runs under the lock of
    the entry it touches; it is modelled as one atomic step. *)

From stdpp Require Import base list numbers option.
From Stdlib Require Import ZArith Lia.
From S2P Require Import Prelude.

#[local] Open Scope Z_scope.
#[local] Open Scope aic_scope.

Definition TCP_ACK_NUM : nat := 32.
Definition TCP_ACK_DROP_CNT : Z := 10.
Definition ACK_OLD_TIME : Z := 4000.
Definition MAX_TCP_ACK : Z := 200.
Definition MIN_WIN : Z := 256.
Definition SIZE_KB : Z := 1024.

(** [U32_BEFORE(a, b)] *)
Definition U32_BEFORE (a b : Z) : bool := s32 (u32 a - u32 b) <=? 0.

#[global] Arguments U32_BEFORE : simpl never.

(** constants of the kernel's [net/tcp.h], [if_ether.h] and [in.h] *)
Definition TCPOPT_EOL : Z := 0.
Definition TCPOPT_NOP : Z := 1.
Definition TCPOPT_WINDOW : Z := 3.
Definition TCPOPT_TIMESTAMP : Z := 8.
Definition ETH_P_IP : Z := 2048.
Definition IPPROTO_TCP : Z := 6.
Definition ETH_HLEN : Z := 14.
Definition TCP_HLEN : Z := 20.

Record tcp_ack_msg := mk_tcp_ack_msg {
  source : Z; dest : Z; saddr : Z; daddr : Z; seq : Z; win : Z }.
#[export] Instance tcp_ack_msg_eta : RecordEta tcp_ack_msg := fun m =>
  mk_tcp_ack_msg (source m) (dest m) (saddr m) (daddr m) (seq m) (win m).

Module Parse.

(** The option scan of [is_drop_tcp_ack]: [ptr] is an index of [buf]. *)
Fixpoint tcp_opt_loop (fuel : nat) (buf : list Z) (ptr len drop win_scale : Z)
  : res (Z * Z) :=
  if (0 <? len) && negb (drop =? 0) then
    match fuel with
    | O => Fault OutOfFuel
    | S fuel =>
      opcode ← rd8 buf ptr;
      let ptr := ptr + 1 in
      if opcode =? TCPOPT_EOL then tcp_opt_loop fuel buf ptr len drop win_scale
      else if opcode =? TCPOPT_NOP then
        tcp_opt_loop fuel buf ptr (len - 1) drop win_scale
      else
        opsize ← rd8 buf ptr;
        let ptr := ptr + 1 in
        if opsize <? 2 then tcp_opt_loop fuel buf ptr len drop win_scale
        else if len <? opsize then tcp_opt_loop fuel buf ptr len drop win_scale
        else
          r ← (if opcode =? TCPOPT_TIMESTAMP then Ok (drop, win_scale)
               else if opcode =? TCPOPT_WINDOW then
                 v ← rd8 buf ptr;
                 Ok (drop, if v <? 15 then u16 (Z.shiftl 1 v) else win_scale)
               else Ok (2, win_scale));
          tcp_opt_loop fuel buf (ptr + (opsize - 2)) (len - opsize) r.1 r.2
    end
  else Ok (drop, win_scale).

(** [is_drop_tcp_ack(tcphdr, tcp_tot_len, win_scale)]: the header starts at
    index [tcphdr] of [buf]; the result pairs the return value with the
    final value of [win_scale].  Every iteration of the scan consumes a
    byte, so one unit of fuel per byte of the buffer is enough. *)
Definition is_drop_tcp_ack (buf : list Z) (tcphdr tcp_tot_len win_scale : Z)
  : res (Z * Z) :=
  off ← rd8 buf (tcphdr + 12);
  let len := Z.shiftr off 4 * 4 in
  if len <? tcp_tot_len then Ok (0, win_scale)
  else tcp_opt_loop (S (length buf)) buf (tcphdr + TCP_HLEN) (len - TCP_HLEN) 1 win_scale.

(** [tcp_check_quick_ack(buf, msg)]: [Some msg] when it returns 1. *)
Definition tcp_check_quick_ack (buf : list Z) : res (option tcp_ack_msg) :=
  h_proto ← be16 buf 12;
  if negb (h_proto =? ETH_P_IP) then Ok None else
  vihl ← rd8 buf ETH_HLEN;
  if negb (Z.shiftr vihl 4 =? 4) then Ok None else
  protocol ← rd8 buf (ETH_HLEN + 9);
  if negb (protocol =? IPPROTO_TCP) then Ok None else
  let ip_hdr_len := Z.land vihl 15 * 4 in
  let temp := ETH_HLEN + ip_hdr_len in
  flags ← rd8 buf (temp + 13);
  if negb (has flags 16) then Ok None else
  if has flags 8 then
    saddr ← le32 buf (ETH_HLEN + 16);
    daddr ← le32 buf (ETH_HLEN + 12);
    source ← le16 buf (temp + 2);
    dest ← le16 buf temp;
    seq ← be32 buf (temp + 4);
    Ok (Some (mk_tcp_ack_msg source dest (s32 saddr) (s32 daddr) seq 0))
  else Ok None.

(** [tcp_check_ack(buf, msg, win_scale)] with [*win_scale] initially 0: the
    return value, the message (absent when it is left unwritten) and
    [*win_scale]. *)
Definition tcp_check_ack (buf : list Z) : res (Z * option tcp_ack_msg * Z) :=
  h_proto ← be16 buf 12;
  if negb (h_proto =? ETH_P_IP) then Ok (0, None, 0) else
  vihl ← rd8 buf ETH_HLEN;
  if negb (Z.shiftr vihl 4 =? 4) then Ok (0, None, 0) else
  protocol ← rd8 buf (ETH_HLEN + 9);
  if negb (protocol =? IPPROTO_TCP) then Ok (0, None, 0) else
  let ip_hdr_len := Z.land vihl 15 * 4 in
  let temp := ETH_HLEN + ip_hdr_len in
  flags ← rd8 buf (temp + 13);
  if negb (has flags 16) then Ok (0, None, 0) else
  tot_len ← be16 buf (ETH_HLEN + 2);
  r ← is_drop_tcp_ack buf temp (tot_len - ip_hdr_len) 0;
  if 0 <? r.1 then
    saddr ← le32 buf (ETH_HLEN + 12);
    daddr ← le32 buf (ETH_HLEN + 16);
    source ← le16 buf temp;
    dest ← le16 buf (temp + 2);
    ack_seq ← be32 buf (temp + 8);
    window ← be16 buf (temp + 14);
    Ok (r.1, Some (mk_tcp_ack_msg source dest (s32 saddr) (s32 daddr) ack_seq window), r.2)
  else Ok (r.1, None, r.2).

End Parse.

Module Filter.
Import Parse.

Record tcp_ack_info := mk_tcp_ack_info {
  ack_info_num : Z;
  busy : bool;
  drop_cnt : Z;
  psh_flag : bool;
  psh_seq : Z;
  win_scale : Z;
  info_last_time : Z;
  info_timeout : Z;
  timer : option Z;            (* expiry of a pending timer *)
  msgbuf : option nat;
  in_send_msg : option nat;
  ack_msg : tcp_ack_msg }.
#[export] Instance tcp_ack_info_eta : RecordEta tcp_ack_info := fun a =>
  mk_tcp_ack_info (ack_info_num a) (busy a) (drop_cnt a) (psh_flag a) (psh_seq a)
    (win_scale a) (info_last_time a) (info_timeout a) (timer a) (msgbuf a)
    (in_send_msg a) (ack_msg a).

Record tcp_ack_manage := mk_tcp_ack_manage {
  enable : bool;
  max_num : Z;
  free_index : Z;
  last_time : Z;
  timeout : Z;
  max_drop_cnt : Z;
  ack_info : list tcp_ack_info;
  ack_winsize : Z }.
#[export] Instance tcp_ack_manage_eta : RecordEta tcp_ack_manage := fun m =>
  mk_tcp_ack_manage (enable m) (max_num m) (free_index m) (last_time m) (timeout m)
    (max_drop_cnt m) (ack_info m) (ack_winsize m).

(** What the filter does with a message it holds. *)
Inductive tcp_event :=
| DropMsg (m : nat)     (* intf_tcp_drop_msg *)
| TxMsg (m : nat).      (* intf_tx *)

(** [time_after(a, b)] of the kernel, on 64-bit jiffies *)
Definition time_after (a b : Z) : bool := s64 (b - a) <? 0.

(** Replacement of entry [i]. *)
Definition put_info (i : nat) (a : tcp_ack_info) (ack_m : tcp_ack_manage) :=
  ack_m <| ack_info ::= <[i := a]> |>.

Section Operations.
(** [msecs_to_jiffies] is a kernel service whose result depends on HZ. *)
Context (msecs_to_jiffies : Z -> Z).

Definition zero_info (i : nat) : tcp_ack_info :=
  mk_tcp_ack_info (Z.of_nat i) false 0 false 0 0 0 0 None None None
    (mk_tcp_ack_msg 0 0 0 0 0 0).

Definition tcp_ack_init (jiffies : Z) : tcp_ack_manage :=
  let entry i := (zero_info i) <| info_last_time := jiffies |>
                             <| info_timeout := msecs_to_jiffies ACK_OLD_TIME |> in
  mk_tcp_ack_manage true 0 0 jiffies (msecs_to_jiffies ACK_OLD_TIME) TCP_ACK_DROP_CNT
    (entry <$> List.seq 0 TCP_ACK_NUM) MIN_WIN.

(** [tcp_ack_deinit] *)
Definition tcp_ack_deinit (ack_m : tcp_ack_manage) : tcp_ack_manage * list tcp_event :=
  (ack_m <| enable := false |>
         <| ack_info := (fun a => a <| timer := None |> <| msgbuf := None |>) <$> ack_info ack_m |>,
   DropMsg <$> omap msgbuf (ack_info ack_m)).

(** [tcp_ack_timeout], run by the timer of entry [i] once it is no longer
    pending. *)
Definition tcp_ack_timeout (i : nat) (ack_m : tcp_ack_manage)
  : tcp_ack_manage * list tcp_event :=
  match ack_info ack_m !! i with
  | None => (ack_m, [])
  | Some a =>
    let a := a <| timer := None |> in
    match busy a, msgbuf a, in_send_msg a with
    | true, Some msg, None =>
      (put_info i (a <| msgbuf := None |> <| drop_cnt := 0 |>
                     <| in_send_msg := Some msg |>) ack_m, [TxMsg msg])
    | _, _, _ => (put_info i a ack_m, [])
    end
  end.

(** [tcp_ack_match]: the first busy entry of the same connection *)
Definition same_flow (a b : tcp_ack_msg) : bool :=
  (dest a =? dest b) && (source a =? source b) && (saddr a =? saddr b) && (daddr a =? daddr b).

Fixpoint match_from (i : Z) (l : list tcp_ack_info) (m : tcp_ack_msg) : Z :=
  match l with
  | [] => -1
  | a :: l => if busy a && same_flow (ack_msg a) m then i else match_from (i + 1) l m
  end.

Definition tcp_ack_match (ack_m : tcp_ack_manage) (m : tcp_ack_msg) : Z :=
  match_from 0 (ack_info ack_m) m.

(** One iteration of the loop of [tcp_ack_update]. *)
Definition update_entry (jiffies : Z) (ack_m : tcp_ack_manage) (i : nat) : tcp_ack_manage :=
  match ack_info ack_m !! i with
  | None => ack_m
  | Some a =>
    if busy a && time_after jiffies (u64 (info_last_time a + info_timeout a)) then
      put_info i (a <| busy := false |>)
        (ack_m <| free_index := Z.of_nat i |> <| max_num ::= Z.pred |>)
    else ack_m
  end.

Definition tcp_ack_update (jiffies : Z) (ack_m : tcp_ack_manage) : tcp_ack_manage :=
  if time_after jiffies (u64 (last_time ack_m + timeout ack_m)) then
    foldl (update_entry jiffies) (ack_m <| last_time := jiffies |>)
      (rev (List.seq 0 TCP_ACK_NUM))
  else ack_m.

(** [tcp_ack_alloc_index]: the index, or -1 *)
Fixpoint free_from (i : Z) (l : list tcp_ack_info) : Z :=
  match l with
  | [] => -1
  | a :: l => if busy a then free_from (i + 1) l else i
  end.

Definition tcp_ack_alloc_index (ack_m : tcp_ack_manage) : Z * tcp_ack_manage :=
  if max_num ack_m =? Z.of_nat TCP_ACK_NUM then (-1, ack_m)
  else if 0 <=? free_index ack_m then
    (free_index ack_m, ack_m <| free_index := -1 |> <| max_num ::= Z.succ |>)
  else
    let i := free_from 0 (ack_info ack_m) in
    if 0 <=? i then (i, ack_m <| free_index := -1 |> <| max_num ::= Z.succ |>)
    else (-1, ack_m).

(** [tcp_ack_handle_new]: return value, updated entry, events *)
Definition tcp_ack_handle_new (jiffies : Z) (new_msgbuf : nat) (ack_m : tcp_ack_manage)
    (a : tcp_ack_info) (m : tcp_ack_msg) (type : Z) : Z * tcp_ack_info * list tcp_event :=
  let a := a <| info_last_time := jiffies |> in
  if U32_BEFORE (seq (ack_msg a)) (seq m) then
    let drop_msg := option_list (DropMsg <$> msgbuf a) in
    let a := a <| msgbuf := None |> in
    let quick_ack := psh_flag a && negb (U32_BEFORE (seq m) (psh_seq a)) in
    let a := if quick_ack then a <| psh_flag := false |>
             else a <| drop_cnt := s32 (drop_cnt a + 1) |> in
    let a := a <| ack_msg ::= fun k => k <| seq := seq m |> |> in
    if quick_ack || (bool_decide (in_send_msg a = None) && (max_drop_cnt ack_m <=? drop_cnt a)) then
      (0, a <| drop_cnt := 0 |> <| in_send_msg := Some new_msgbuf |> <| timer := None |>, drop_msg)
    else
      (1, a <| msgbuf := Some new_msgbuf |>
            <| timer := match timer a with
                        | Some e => Some e
                        | None => Some (u64 (jiffies + msecs_to_jiffies 5))
                        end |>, drop_msg)
  else (1, a, [DropMsg new_msgbuf]).

(** [filter_rx_tcp_ack] *)
Definition filter_rx_tcp_ack (ack_m : tcp_ack_manage) (buf : list Z) (plen : Z)
  : res tcp_ack_manage :=
  if negb (enable ack_m) then Ok ack_m else
  if MAX_TCP_ACK <? plen then Ok ack_m else
  q ← tcp_check_quick_ack buf;
  match q with
  | None => Ok ack_m
  | Some m =>
    let index := tcp_ack_match ack_m m in
    match (if 0 <=? index then ack_info ack_m !! Z.to_nat index else None) with
    | Some a => Ok (put_info (Z.to_nat index)
                      (a <| psh_flag := true |> <| psh_seq := seq m |>) ack_m)
    | None => Ok ack_m
    end
  end.

(** Writing a fresh entry at the end of [filter_send_tcp_ack]. *)
Definition new_entry (jiffies : Z) (ack_m : tcp_ack_manage) (a : tcp_ack_info)
    (m : tcp_ack_msg) (ws : Z) : tcp_ack_info :=
  a <| busy := true |> <| psh_flag := false |> <| info_last_time := jiffies |>
    <| drop_cnt := max_drop_cnt ack_m |>
    <| win_scale := if negb (ws =? 0) then ws else 1 |>
    <| ack_msg ::= fun k => k <| dest := dest m |> <| source := source m |>
                              <| saddr := saddr m |> <| daddr := daddr m |> <| seq := seq m |> |>.

(** The part of [filter_send_tcp_ack] after the header checks. *)
Definition filter_send_checked (jiffies : Z) (ack_m : tcp_ack_manage) (msg : nat)
    (drop : Z) (m : tcp_ack_msg) (ws : Z) : Z * tcp_ack_manage * list tcp_event :=
  let index := tcp_ack_match ack_m m in
  match (if 0 <=? index then ack_info ack_m !! Z.to_nat index else None) with
  | Some a =>
    let a := if negb (ws =? 0) && negb (win_scale a =? ws) then a <| win_scale := ws |> else a in
    if (0 <? drop) && enable ack_m then
      let win := u32 (win_scale a * win m) in
      let drop := if negb (ws =? 0) && (win <? ack_winsize ack_m * SIZE_KB) then 2 else drop in
      let '(ret, a, evs) := tcp_ack_handle_new jiffies msg ack_m a m drop in
      (ret, put_info (Z.to_nat index) a ack_m, evs)
    else (0, put_info (Z.to_nat index) a ack_m, [])
  | None =>
    let '(index, ack_m) := tcp_ack_alloc_index ack_m in
    match (if 0 <=? index then ack_info ack_m !! Z.to_nat index else None) with
    | Some a => (0, put_info (Z.to_nat index) (new_entry jiffies ack_m a m ws) ack_m, [])
    | None => (0, ack_m, [])
    end
  end.

(** [filter_send_tcp_ack]: 1 when the message is kept by the filter *)
Definition filter_send_tcp_ack (jiffies : Z) (ack_m : tcp_ack_manage) (msg : nat)
    (buf : list Z) (plen : Z) : res (Z * tcp_ack_manage * list tcp_event) :=
  let ack_m := tcp_ack_update jiffies ack_m in
  c ← tcp_check_ack buf;
  let '(drop, omsg, ws) := c in
  if (drop =? 0) && (ws =? 0) then Ok (0, ack_m, [])
  else
    m ← from_option_res Uninitialised omsg;
    Ok (filter_send_checked jiffies ack_m msg drop m ws).

(** [move_tcpack_msg] *)
Definition move_tcpack_msg (ack_m : tcp_ack_manage) (msg : nat) : tcp_ack_manage :=
  if negb (enable ack_m) then ack_m
  else ack_m <| ack_info ::= fmap (fun a =>
         if busy a && bool_decide (in_send_msg a = Some msg)
         then a <| in_send_msg := None |> else a) |>.

End Operations.
End Filter.

(** * Header parsing: specification and theorems *)

Module ParseSpec.
Import Parse.


(** TCP options as the standard describes them: padding, or a kind, a length
    and data. *)
Inductive tcp_opt :=
| Nop
| Tlv (kind : Z) (data : list Z).

Definition encode_opt (o : tcp_opt) : list Z :=
  match o with
  | Nop => [TCPOPT_NOP]
  | Tlv k d => k :: Z.of_nat (length d) + 2 :: d
  end.
Definition encode_opts (os : list tcp_opt) : list Z := concat (encode_opt <$> os).

(** A kind other than the two one-byte options; a window scale option
    carries its shift count. *)
Definition opt_wf (o : tcp_opt) : Prop :=
  match o with
  | Nop => True
  | Tlv k d => k <> TCPOPT_EOL /\ k <> TCPOPT_NOP /\ (k = TCPOPT_WINDOW -> d <> [])
  end.

(** Options that make an ACK more than a plain one, and the window scale
    announced last. *)
Definition opt_is_extra (o : tcp_opt) : bool :=
  match o with
  | Nop => false
  | Tlv k _ => negb (k =? TCPOPT_TIMESTAMP) && negb (k =? TCPOPT_WINDOW)
  end.
Definition opt_scale (ws : Z) (o : tcp_opt) : Z :=
  match o with
  | Tlv k (v :: _) => if (k =? TCPOPT_WINDOW) && (v <? 15) then u16 (Z.shiftl 1 v) else ws
  | _ => ws
  end.
Definition opts_drop (drop : Z) (os : list tcp_opt) : Z :=
  if existsb opt_is_extra os then 2 else drop.

Lemma tcp_opt_loop_step fuel buf ptr len drop ws : 0 < len -> drop <> 0 ->
  tcp_opt_loop (S fuel) buf ptr len drop ws =
    (opcode ← rd8 buf ptr;
     if opcode =? TCPOPT_EOL then tcp_opt_loop fuel buf (ptr + 1) len drop ws
     else if opcode =? TCPOPT_NOP then tcp_opt_loop fuel buf (ptr + 1) (len - 1) drop ws
     else
       opsize ← rd8 buf (ptr + 1);
       if opsize <? 2 then tcp_opt_loop fuel buf (ptr + 1 + 1) len drop ws
       else if len <? opsize then tcp_opt_loop fuel buf (ptr + 1 + 1) len drop ws
       else
         r ← (if opcode =? TCPOPT_TIMESTAMP then Ok (drop, ws)
              else if opcode =? TCPOPT_WINDOW then
                v ← rd8 buf (ptr + 1 + 1);
                Ok (drop, if v <? 15 then u16 (Z.shiftl 1 v) else ws)
              else Ok (2, ws));
         tcp_opt_loop fuel buf (ptr + 1 + 1 + (opsize - 2)) (len - opsize) r.1 r.2).
Proof.
  intros Hl Hd. cbn [tcp_opt_loop].
  destruct (Z.ltb_spec 0 len); [|lia]. destruct (Z.eqb_spec drop 0); [lia|]. reflexivity.
Qed.

Lemma tcp_opt_loop_stop fuel buf ptr len drop ws : len <= 0 ->
  tcp_opt_loop fuel buf ptr len drop ws = Ok (drop, ws).
Proof. intros. destruct fuel; simpl; (destruct (Z.ltb_spec 0 len); [lia|done]). Qed.

(** A read at or past the end of the buffer stops the scan, so the scan uses
    at most one unit of fuel per remaining byte, plus one. *)
Lemma tcp_opt_loop_oob fuel buf ptr len drop ws :
  0 <= ptr -> drop <> 0 -> Z.of_nat (length buf) < ptr + Z.of_nat fuel -> (0 < fuel)%nat ->
  oob_only (tcp_opt_loop fuel buf ptr len drop ws).
Proof.
  revert ptr len drop ws. induction fuel as [|fuel IH]; intros ptr len drop ws Hp Hd Hf Hpos; [lia|].
  destruct (decide (len <= 0)); [now rewrite tcp_opt_loop_stop|].
  rewrite tcp_opt_loop_step by lia.
  apply oob_bind; [auto with oob|]. intros op E0%rd8_inv.
  apply oob_if; [apply IH; lia|]. apply oob_if; [apply IH; lia|].
  apply oob_bind; [auto with oob|]. intros sz E1%rd8_inv.
  destruct (Z.ltb_spec sz 2); [apply IH; lia|]. destruct (Z.ltb_spec len sz); [apply IH; lia|].
  apply oob_bind; [auto 6 with oob|]. intros [d w] Hr. cbn [fst snd]. apply IH; try lia.
  repeat case_match; simplify_eq; try lia. apply bind_Ok_inv in Hr as (v & _ & Hr). now simplify_eq.
Qed.

(** The scan never turns a non-zero [drop] into zero. *)
Lemma tcp_opt_loop_drop fuel buf ptr len drop ws r :
  0 < drop -> tcp_opt_loop fuel buf ptr len drop ws = Ok r -> 0 < r.1.
Proof.
  revert ptr len drop ws. induction fuel as [|fuel IH]; intros ptr len drop ws Hd.
  { cbn. case_match; intros; now simplify_eq. }
  destruct (decide (len <= 0)); [rewrite tcp_opt_loop_stop by done; intros; now simplify_eq|].
  rewrite tcp_opt_loop_step by lia. intros (op & _ & H)%bind_Ok_inv.
  destruct (op =? TCPOPT_EOL); [eauto|]. destruct (op =? TCPOPT_NOP); [eauto|].
  apply bind_Ok_inv in H as (sz & _ & H).
  destruct (sz <? 2); [eauto|]. destruct (len <? sz); [eauto|].
  apply bind_Ok_inv in H as ([d w] & Hr & H). apply IH in H; [done|]. cbn [fst].
  repeat case_match; simplify_eq; try lia. apply bind_Ok_inv in Hr as (v & _ & Hr). now simplify_eq.
Qed.

Lemma is_drop_tcp_ack_oob buf tcphdr tot ws : 0 <= tcphdr -> oob_only (is_drop_tcp_ack buf tcphdr tot ws).
Proof.
  intros. unfold is_drop_tcp_ack. apply oob_bind; [auto with oob|]. intros off _.
  apply oob_if; [auto with oob|]. apply tcp_opt_loop_oob; unfold TCP_HLEN; lia.
Qed.

Lemma is_drop_tcp_ack_zero buf tcphdr tot ws r : is_drop_tcp_ack buf tcphdr tot ws = Ok r ->
  r = (0, ws) \/ 0 < r.1.
Proof.
  unfold is_drop_tcp_ack. intros (off & _ & H)%bind_Ok_inv.
  case_match; [naive_solver|]. apply tcp_opt_loop_drop in H; [auto|lia].
Qed.

Lemma tcp_check_ack_oob buf : oob_only (tcp_check_ack buf).
Proof.
  unfold tcp_check_ack. apply oob_bind; [auto with oob|]. intros hp _. apply oob_if; [auto with oob|].
  apply oob_bind; [auto with oob|]. intros vihl _. apply oob_if; [auto with oob|].
  apply oob_bind; [auto with oob|]. intros pr _. apply oob_if; [auto with oob|].
  apply oob_bind; [auto with oob|]. intros fl _. apply oob_if; [auto with oob|].
  apply oob_bind; [auto with oob|]. intros tl _. apply oob_bind; [|intros r _; auto 20 with oob].
  apply is_drop_tcp_ack_oob. unfold ETH_HLEN.
  assert (0 <= Z.land vihl 15) by (apply Z.land_nonneg; lia). lia.
Qed.

(** The message is left unwritten only with both results zero. *)
Lemma tcp_check_ack_none buf drop ws : tcp_check_ack buf = Ok (drop, None, ws) -> drop = 0 /\ ws = 0.
Proof.
  unfold tcp_check_ack. intros (hp & _ & H)%bind_Ok_inv. case_match; [naive_solver|].
  apply bind_Ok_inv in H as (vihl & _ & H). case_match; [naive_solver|].
  apply bind_Ok_inv in H as (pr & _ & H). case_match; [naive_solver|].
  apply bind_Ok_inv in H as (fl & _ & H). case_match; [naive_solver|].
  apply bind_Ok_inv in H as (tl & _ & H). apply bind_Ok_inv in H as (r & Hr & H).
  apply is_drop_tcp_ack_zero in Hr as [->|Hr]; [cbn in H; naive_solver|].
  destruct (Z.ltb_spec 0 r.1); [|lia]. exfalso.
  repeat (let x := fresh in apply bind_Ok_inv in H as (x & _ & H)). discriminate.
Qed.

(** One well-formed option at the scan position. *)
Lemma tcp_opt_loop_opt fuel pre o post len drop ws :
  opt_wf o -> drop <> 0 -> Z.of_nat (length (encode_opt o)) <= len ->
  tcp_opt_loop (S fuel) (pre ++ encode_opt o ++ post) (Z.of_nat (length pre)) len drop ws =
  tcp_opt_loop fuel (pre ++ encode_opt o ++ post) (Z.of_nat (length (pre ++ encode_opt o)))
    (len - Z.of_nat (length (encode_opt o))) (if opt_is_extra o then 2 else drop) (opt_scale ws o).
Proof.
  intros Hwf Hd Hl. rewrite length_app, Nat2Z.inj_add.
  destruct o as [|k d]; cbn [encode_opt] in *; cbn [length] in Hl;
    rewrite tcp_opt_loop_step by lia; cbn [app]; rewrite rd8_middle; cbn [mbind res_bind].
  { reflexivity. }
  destruct Hwf as (He & Hn & Hw). unfold TCPOPT_EOL, TCPOPT_NOP in *.
  destruct (Z.eqb_spec k 0); [lia|]. destruct (Z.eqb_spec k 1); [lia|].
  assert (Hrd : forall j, 0 <= j < Z.of_nat (length d) + 2 ->
    rd8 (pre ++ k :: Z.of_nat (length d) + 2 :: d ++ post) (Z.of_nat (length pre) + j) =
    rd8 (k :: Z.of_nat (length d) + 2 :: d) j).
  { intros j Hj. rewrite rd8_app_r by lia.
    replace (Z.of_nat (length pre) + j - Z.of_nat (length pre)) with j by lia.
    change (k :: Z.of_nat (length d) + 2 :: d ++ post) with
      ((k :: Z.of_nat (length d) + 2 :: d) ++ post).
    apply rd8_app_l. simpl. lia. }
  rewrite Hrd by lia. change (rd8 (k :: Z.of_nat (length d) + 2 :: d) 1) with (Ok (Z.of_nat (length d) + 2)).
  cbn [mbind res_bind].
  destruct (Z.ltb_spec (Z.of_nat (length d) + 2) 2); [lia|].
  destruct (Z.ltb_spec len (Z.of_nat (length d) + 2)); [lia|].
  replace (Z.of_nat (length pre) + 1 + 1 + (Z.of_nat (length d) + 2 - 2))
    with (Z.of_nat (length pre) + Z.of_nat (length (k :: Z.of_nat (length d) + 2 :: d))) by (simpl; lia).
  replace (len - (Z.of_nat (length d) + 2))
    with (len - Z.of_nat (length (k :: Z.of_nat (length d) + 2 :: d))) by (simpl; lia).
  unfold opt_is_extra, opt_scale.
  destruct (Z.eqb_spec k TCPOPT_TIMESTAMP) as [->|]; cbn [mbind res_bind fst snd negb andb].
  { now destruct d. }
  destruct (Z.eqb_spec k TCPOPT_WINDOW) as [->|]; cbn [mbind res_bind fst snd negb andb].
  2: { now destruct d. }
  destruct d as [|v d]; [now destruct (Hw eq_refl eq_refl)|].
  replace (Z.of_nat (length pre) + 1 + 1) with (Z.of_nat (length pre) + 2) by lia.
  rewrite Hrd by (simpl; lia). reflexivity.
Qed.

Lemma tcp_opt_loop_encode os fuel pre post drop ws :
  Forall opt_wf os -> drop <> 0 -> (length os <= fuel)%nat ->
  tcp_opt_loop fuel (pre ++ encode_opts os ++ post) (Z.of_nat (length pre))
    (Z.of_nat (length (encode_opts os))) drop ws =
  Ok (opts_drop drop os, foldl opt_scale ws os).
Proof.
  revert fuel pre drop ws. induction os as [|o os IH]; intros fuel pre drop ws Hwf Hd Hf.
  { now apply tcp_opt_loop_stop. }
  inversion_clear Hwf as [|? ? Ho Hos]. destruct fuel as [|fuel]; [simpl in Hf; lia|].
  unfold encode_opts in *. cbn [fmap list_fmap concat]. rewrite <- app_assoc.
  rewrite tcp_opt_loop_opt; [|done|done|rewrite length_app; lia].
  rewrite (length_app (encode_opt o)), Nat2Z.inj_add, Z.add_simpl_l.
  rewrite (app_assoc pre), IH; [|done|case_match; lia|simpl in Hf; lia].
  unfold opts_drop; cbn [existsb foldl]. do 2 f_equal. destruct (opt_is_extra o); simpl; [|done].
  now destruct (existsb opt_is_extra os).
Qed.

(** An end-of-options byte does not end the scan. *)
Lemma tcp_opt_loop_zeros fuel pre n len drop ws : 0 < len -> drop <> 0 -> (n < fuel)%nat ->
  tcp_opt_loop fuel (pre ++ replicate n TCPOPT_EOL) (Z.of_nat (length pre)) len drop ws =
  Fault OutOfBounds.
Proof.
  intros Hl Hd. revert fuel pre. induction n as [|n IH]; intros [|fuel] pre Hf; try lia;
    rewrite tcp_opt_loop_step by lia.
  { cbn [replicate]. rewrite app_nil_r, (rd8_oob pre (Z.of_nat (length pre))) by lia. reflexivity. }
  cbn [replicate]. rewrite rd8_middle. cbn [mbind res_bind]. rewrite Z.eqb_refl.
  specialize (IH fuel (pre ++ [TCPOPT_EOL])). rewrite length_app, <- app_assoc in IH.
  cbn [app length] in IH. rewrite Nat2Z.inj_add in IH. apply IH. lia.
Qed.
End ParseSpec.

(** * The connection table: invariant and conservation of messages *)

Module FilterSpec.
Import Parse ParseSpec Filter.

(** Every tracked connection has one entry; [max_num] counts the entries in
    use; [free_index], when set, names an unused one. *)
Record ack_wf (ack_m : tcp_ack_manage) : Prop := {
  wf_length : length (ack_info ack_m) = TCP_ACK_NUM;
  wf_count : max_num ack_m = countb busy (ack_info ack_m);
  wf_free : 0 <= free_index ack_m ->
    exists a, ack_info ack_m !! Z.to_nat (free_index ack_m) = Some a /\ busy a = false;
  wf_flows : forall i j a b, ack_info ack_m !! i = Some a -> ack_info ack_m !! j = Some b ->
    busy a = true -> busy b = true -> same_flow (ack_msg a) (ack_msg b) = true -> i = j }.

Lemma same_flow_refl m : same_flow m m = true.
Proof. unfold same_flow. now rewrite !Z.eqb_refl. Qed.

Lemma same_flow_true a b : same_flow a b = true <->
  dest a = dest b /\ source a = source b /\ saddr a = saddr b /\ daddr a = daddr b.
Proof. unfold same_flow. rewrite !andb_true_iff, !Z.eqb_eq. tauto. Qed.

Lemma same_flow_sym a b : same_flow a b = same_flow b a.
Proof. apply eq_true_iff_eq. rewrite !same_flow_true. intuition congruence. Qed.

Lemma same_flow_trans a b c : same_flow a b = true -> same_flow b c = true -> same_flow a c = true.
Proof. rewrite !same_flow_true. intuition congruence. Qed.

(** [tcp_ack_match] returns the index of a busy entry of the connection, and
    -1 only when there is none. *)
Lemma match_from_spec l i m :
  (match_from i l m = -1 /\ forall j a, l !! j = Some a -> busy a && same_flow (ack_msg a) m = false) \/
  (exists j a, match_from i l m = i + Z.of_nat j /\ l !! j = Some a /\
     busy a = true /\ same_flow (ack_msg a) m = true).
Proof.
  revert i. induction l as [|a l IH]; intros i; cbn [match_from].
  { left. split; [done|]. intros j a Ha. now rewrite lookup_nil in Ha. }
  destruct (busy a && same_flow (ack_msg a) m) eqn:E.
  - right. exists 0%nat, a. apply andb_true_iff in E as [??]. repeat split; auto; lia.
  - destruct (IH (i + 1)) as [[-> Hn]|(j & b & -> & Hb & ? & ?)].
    + left. split; [done|]. intros [|j] b Hb; simplify_eq/=; eauto.
    + right. exists (S j), b. repeat split; auto; lia.
Qed.

Lemma tcp_ack_match_spec ack_m m :
  (tcp_ack_match ack_m m = -1 /\
   forall j a, ack_info ack_m !! j = Some a -> busy a && same_flow (ack_msg a) m = false) \/
  (exists j a, tcp_ack_match ack_m m = Z.of_nat j /\ ack_info ack_m !! j = Some a /\
     busy a = true /\ same_flow (ack_msg a) m = true).
Proof. exact (match_from_spec (ack_info ack_m) 0 m). Qed.

Lemma free_from_spec l i :
  (free_from i l = -1 /\ forall j a, l !! j = Some a -> busy a = true) \/
  (exists j a, free_from i l = i + Z.of_nat j /\ l !! j = Some a /\ busy a = false).
Proof.
  revert i. induction l as [|a l IH]; intros i; cbn [free_from].
  { left. split; [done|]. intros j a Ha. now rewrite lookup_nil in Ha. }
  destruct (busy a) eqn:E.
  - destruct (IH (i + 1)) as [[-> Hn]|(j & b & -> & Hb & ?)].
    + left. split; [done|]. intros [|j] b Hb; simplify_eq/=; eauto.
    + right. exists (S j), b. repeat split; auto; lia.
  - right. exists 0%nat, a. repeat split; auto; lia.
Qed.

Lemma countb_all {A} (p : A -> bool) l : (forall j a, l !! j = Some a -> p a = true) ->
  countb p l = Z.of_nat (length l).
Proof.
  unfold countb. induction l as [|a l IH]; intros H; [done|].
  cbn [List.filter]. rewrite (H 0%nat a eq_refl). cbn [length].
  rewrite !Nat2Z.inj_succ, IH; [done|]. intros j. exact (H (S j)).
Qed.

(** Writing back an entry with the same use flag and connection. *)
Lemma put_info_wf ack_m i a b : ack_wf ack_m -> ack_info ack_m !! i = Some a ->
  busy b = busy a -> (busy a = true -> same_flow (ack_msg a) (ack_msg b) = true) ->
  ack_wf (put_info i b ack_m).
Proof.
  intros [Hl Hc Hf Hk] Ha Hb Hs. split; cbn [put_info ack_info max_num free_index field_set].
  - cbn. now rewrite length_insert.
  - cbn. rewrite (countb_insert _ _ _ a) by done. rewrite Hb, Hc. lia.
  - cbn. intros Hfree. destruct (Hf Hfree) as (c & Hc1 & Hc2).
    destruct (decide (i = Z.to_nat (free_index ack_m))) as [->|Hne].
    + exists b. split; [|congruence]. apply list_lookup_insert_eq. eapply lookup_lt_Some; eauto.
    + exists c. now rewrite list_lookup_insert_ne.
  - cbn. intros j k x y Hx Hy Bx By Hxy.
    apply list_lookup_insert_Some in Hx as [(-> & <- & _)|[Hne Hx]];
      apply list_lookup_insert_Some in Hy as [(-> & <- & _)|[Hne' Hy]]; auto.
    + apply (Hk j k a y); [done|done|congruence|done|].
      eapply same_flow_trans; [|done]. apply Hs. congruence.
    + apply (Hk j k x a); [done|done|done|congruence|].
      eapply same_flow_trans; [done|]. rewrite same_flow_sym. apply Hs. congruence.
    + now apply (Hk j k x y).
Qed.

Lemma handle_new_keeps jms jiffies msg ack_m a m ty :
  let '(_, b, _) := tcp_ack_handle_new jms jiffies msg ack_m a m ty in
  busy b = busy a /\ same_flow (ack_msg a) (ack_msg b) = true.
Proof.
  unfold tcp_ack_handle_new. repeat case_match; simplify_eq/=; split; try done;
    apply same_flow_true; simpl; repeat case_match; simplify_eq/=; auto.
Qed.

Lemma update_entry_wf jiffies ack_m i : ack_wf ack_m -> ack_wf (update_entry jiffies ack_m i).
Proof.
  intros Hwf. unfold update_entry. destruct (ack_info ack_m !! i) as [a|] eqn:Ha; [|done].
  destruct (busy a && _) eqn:E; [|done]. apply andb_true_iff in E as [Eb _].
  destruct Hwf as [Hl Hc Hf Hk]. split; cbn.
  - now rewrite length_insert.
  - rewrite (countb_insert _ _ _ a) by done. rewrite Eb. cbn. lia.
  - intros _. exists (a <| busy := false |>). rewrite Nat2Z.id. split; [|done].
    apply list_lookup_insert_eq. eapply lookup_lt_Some; eauto.
  - intros j k x y Hx Hy Bx By Hxy.
    apply list_lookup_insert_Some in Hx as [(-> & <- & _)|[Hne Hx]]; [done|].
    apply list_lookup_insert_Some in Hy as [(-> & <- & _)|[Hne' Hy]]; [done|eauto].
Qed.

Lemma foldl_preserves {A B} (P : A -> Prop) (f : A -> B -> A) l a :
  (forall a b, P a -> P (f a b)) -> P a -> P (foldl f a l).
Proof. intros Hf. revert a. induction l; simpl; eauto. Qed.

Lemma tcp_ack_update_wf jiffies ack_m : ack_wf ack_m -> ack_wf (tcp_ack_update jiffies ack_m).
Proof.
  intros Hwf. unfold tcp_ack_update. case_match; [|done].
  apply foldl_preserves; [intros; now apply update_entry_wf|].
  destruct Hwf as [Hl Hc Hf Hk]. split; cbn; auto.
Qed.

(** Allocation never hands out an entry in use, and succeeds while one is
    unused. *)
Lemma tcp_ack_alloc_spec ack_m : ack_wf ack_m ->
  let '(index, ack_m') := tcp_ack_alloc_index ack_m in
  (index = -1 /\ ack_m' = ack_m /\ max_num ack_m = Z.of_nat TCP_ACK_NUM) \/
  (exists j a, index = Z.of_nat j /\ ack_info ack_m !! j = Some a /\ busy a = false /\
     ack_m' = ack_m <| free_index := -1 |> <| max_num ::= Z.succ |>).
Proof.
  intros [Hl Hc Hf Hk]. unfold tcp_ack_alloc_index.
  destruct (Z.eqb_spec (max_num ack_m) (Z.of_nat TCP_ACK_NUM)); [now left|].
  destruct (Z.leb_spec 0 (free_index ack_m)) as [Hge|Hlt].
  - right. destruct (Hf Hge) as (a & Ha & Hb).
    exists (Z.to_nat (free_index ack_m)), a. repeat split; auto; lia.
  - destruct (free_from_spec (ack_info ack_m) 0) as [[E Hall]|(j & a & E & Ha & Hb)]; rewrite E.
    + exfalso. apply countb_all in Hall. rewrite Hl in Hall. lia.
    + rewrite Z.add_0_l. destruct (Z.leb_spec 0 (Z.of_nat j)); [|lia].
      right. exists j, a. repeat split; auto.
Qed.

Lemma new_entry_wf jiffies ack_m ack_m' i a m ws : ack_wf ack_m -> ack_info ack_m !! i = Some a ->
  busy a = false ->
  (forall j b, ack_info ack_m !! j = Some b -> busy b && same_flow (ack_msg b) m = false) ->
  ack_wf (put_info i (new_entry jiffies ack_m' a m ws)
            (ack_m <| free_index := -1 |> <| max_num ::= Z.succ |>)).
Proof.
  intros [Hl Hc Hf Hk] Ha Hb Hno. split; cbn.
  - now rewrite length_insert.
  - rewrite (countb_insert _ _ _ a) by done. rewrite Hb. cbn. lia.
  - lia.
  - intros j k x y Hx Hy Bx By Hxy.
    apply list_lookup_insert_Some in Hx as [(-> & <- & _)|[Hne Hx]];
      apply list_lookup_insert_Some in Hy as [(-> & <- & _)|[Hne' Hy]]; eauto; exfalso.
    + specialize (Hno k y Hy). rewrite By in Hno. cbn in Hno.
      rewrite same_flow_sym in Hxy. unfold new_entry in Hxy. cbn in Hxy.
      apply (eq_true_false_abs _ Hxy). rewrite <- Hno. reflexivity.
    + specialize (Hno j x Hx). rewrite Bx in Hno. cbn in Hno.
      apply (eq_true_false_abs _ Hxy). rewrite <- Hno. reflexivity.
Qed.

Lemma filter_send_checked_wf jms jiffies ack_m msg drop m ws : ack_wf ack_m ->
  ack_wf (filter_send_checked jms jiffies ack_m msg drop m ws).1.2.
Proof.
  intros Hwf. unfold filter_send_checked.
  destruct (tcp_ack_match_spec ack_m m) as [[-> Hno]|(j & a & -> & Ha & Hb & Hs)].
  - cbn [Z.leb Z.compare]. pose proof (tcp_ack_alloc_spec ack_m Hwf) as Halloc.
    destruct (tcp_ack_alloc_index ack_m) as [index ack_m'].
    destruct Halloc as [(-> & -> & _)|(j & a & -> & Ha & Hb & ->)]; [done|].
    destruct (Z.leb_spec 0 (Z.of_nat j)); [|lia]. rewrite Nat2Z.id. cbn. rewrite Ha.
    now apply new_entry_wf.
  - destruct (Z.leb_spec 0 (Z.of_nat j)); [|lia]. rewrite Nat2Z.id, Ha.
    set (a' := if negb (ws =? 0) && negb (win_scale a =? ws) then a <| win_scale := ws |> else a).
    assert (busy a' = busy a /\ ack_msg a' = ack_msg a) as [E1 E2]
      by (unfold a'; case_match; done).
    destruct (0 <? drop); cbn [andb].
    + destruct (enable ack_m); cbn [andb].
      * match goal with |- context [tcp_ack_handle_new jms jiffies msg ack_m a' m ?d] =>
          pose proof (handle_new_keeps jms jiffies msg ack_m a' m d) as Hh;
          destruct (tcp_ack_handle_new jms jiffies msg ack_m a' m d) as [[ret b] evs] end.
        destruct Hh as [H1 H2]. cbn. apply (put_info_wf _ _ a); [done|done|congruence|intros _; now rewrite <- E2].
      * apply (put_info_wf _ _ a); [done|done|done|intros _; rewrite E2; apply same_flow_refl].
    + apply (put_info_wf _ _ a); [done|done|done|intros _; rewrite E2; apply same_flow_refl].
Qed.

(** Messages the filter holds back, and those it disposes of. *)
Definition held (ack_m : tcp_ack_manage) : list nat := omap msgbuf (ack_info ack_m).
#[global] Arguments held : simpl never.
Definition ev_msg (e : tcp_event) : nat := match e with DropMsg m | TxMsg m => m end.
Definition kept (ret : Z) (msg : nat) : list nat := if ret =? 1 then [msg] else [].

Lemma held_put ack_m i a b : ack_info ack_m !! i = Some a ->
  option_list (msgbuf a) ++ held (put_info i b ack_m) ≡ₚ option_list (msgbuf b) ++ held ack_m.
Proof. apply omap_insert_perm. Qed.

Lemma held_put_same ack_m i a b : ack_info ack_m !! i = Some a -> msgbuf b = msgbuf a ->
  held (put_info i b ack_m) ≡ₚ held ack_m.
Proof.
  intros Ha Hb. apply (Permutation_app_inv_l (option_list (msgbuf a))).
  rewrite (held_put _ _ _ _ Ha). now rewrite Hb.
Qed.

Lemma handle_new_held jms jiffies msg ack_m a m ty :
  let '(ret, b, evs) := tcp_ack_handle_new jms jiffies msg ack_m a m ty in
  option_list (msgbuf b) ++ (ev_msg <$> evs) ≡ₚ kept ret msg ++ option_list (msgbuf a).
Proof.
  unfold tcp_ack_handle_new, kept. cbn.
  destruct (U32_BEFORE (seq (ack_msg a)) (seq m)); [|apply Permutation_app_comm].
  destruct (psh_flag a && negb (U32_BEFORE (seq m) (psh_seq a))); cbn.
  { now destruct (msgbuf a). }
  destruct (bool_decide (in_send_msg a = None) && (max_drop_cnt ack_m <=? s32 (drop_cnt a + 1)));
    now destruct (msgbuf a).
Qed.

Lemma filter_send_checked_held jms jiffies ack_m msg drop m ws :
  let '(ret, ack_m', evs) := filter_send_checked jms jiffies ack_m msg drop m ws in
  held ack_m' ++ (ev_msg <$> evs) ≡ₚ kept ret msg ++ held ack_m.
Proof.
  unfold filter_send_checked.
  destruct (tcp_ack_match_spec ack_m m) as [[-> _]|(j & a & -> & Ha & _ & _)].
  - cbn [Z.leb Z.compare]. destruct (tcp_ack_alloc_index ack_m) as [index ack_m'] eqn:E.
    assert (ack_info ack_m' = ack_info ack_m) as Eq.
    { revert E. unfold tcp_ack_alloc_index. repeat case_match; intros; simplify_eq; done. }
    destruct (if 0 <=? index then _ else None) as [a|] eqn:Ea.
    + rewrite app_nil_r. cbn -[put_info]. destruct (0 <=? index); [|done].
      rewrite (held_put_same _ _ a) by done. unfold held. now rewrite Eq.
    + rewrite app_nil_r. cbn -[put_info]. unfold held. now rewrite Eq.
  - destruct (Z.leb_spec 0 (Z.of_nat j)); [|lia]. rewrite Nat2Z.id, Ha.
    set (a' := if negb (ws =? 0) && negb (win_scale a =? ws) then a <| win_scale := ws |> else a).
    assert (msgbuf a' = msgbuf a) as E by (unfold a'; case_match; done).
    destruct ((0 <? drop) && enable ack_m).
    + match goal with |- context [tcp_ack_handle_new jms jiffies msg ack_m a' m ?d] =>
        pose proof (handle_new_held jms jiffies msg ack_m a' m d) as Hh;
        destruct (tcp_ack_handle_new jms jiffies msg ack_m a' m d) as [[ret b] evs] end.
      rewrite E in Hh. eapply perm_exchange; [|exact Hh]. now apply held_put.
    + cbn -[put_info]. rewrite app_nil_r. now apply (held_put_same _ _ a).
Qed.

Lemma tcp_ack_update_held jiffies ack_m : held (tcp_ack_update jiffies ack_m) ≡ₚ held ack_m.
Proof.
  unfold tcp_ack_update. case_match; [|done].
  change (held ack_m) with (held (ack_m <| last_time := jiffies |>)).
  generalize (ack_m <| last_time := jiffies |>). clear. intros m.
  apply (foldl_preserves (fun m' => held m' ≡ₚ held m)); [|done].
  intros m' i IH. unfold update_entry. destruct (ack_info m' !! i) as [a|] eqn:Ha; [|done].
  case_match; [|done]. now rewrite (held_put_same _ i a) by done.
Qed.

Lemma tcp_ack_timeout_held i ack_m :
  let '(ack_m', evs) := tcp_ack_timeout i ack_m in
  held ack_m' ++ (ev_msg <$> evs) ≡ₚ held ack_m.
Proof.
  unfold tcp_ack_timeout. destruct (ack_info ack_m !! i) as [a|] eqn:Ha; cbn [busy msgbuf in_send_msg field_set].
  2: { cbn -[put_info]. now rewrite app_nil_r. }
  destruct (busy a); [|cbn -[put_info]; rewrite app_nil_r; now apply (held_put_same _ _ a)].
  destruct (msgbuf a) as [x|] eqn:Ex;
    [|cbn -[put_info]; rewrite app_nil_r; apply (held_put_same _ _ a); [done|exact (eq_sym Ex)]].
  destruct (in_send_msg a); [cbn -[put_info]; rewrite app_nil_r; apply (held_put_same _ _ a); [done|now rewrite Ex]|].
  cbn [fmap list_fmap ev_msg]. rewrite Permutation_app_comm.
  match goal with |- context [put_info i ?b ack_m] => pose proof (held_put ack_m i a b Ha) as H end.
  rewrite Ex in H. exact H.
Qed.

(** Runs of the filter from its initialisation. *)
Inductive filter_op :=
| OpSend (jiffies : Z) (msg : nat) (buf : list Z)
| OpRx (buf : list Z)
| OpTimeout (i : nat)
| OpMoved (msg : nat)
| OpDeinit.

(** New table, messages the filter accepted for keeping, events. *)
Definition filter_step (jms : Z -> Z) (ack_m : tcp_ack_manage) (o : filter_op)
  : res (tcp_ack_manage * list nat * list tcp_event) :=
  match o with
  | OpSend jiffies msg buf =>
      r ← filter_send_tcp_ack jms jiffies ack_m msg buf (Z.of_nat (length buf));
      let '(ret, ack_m, evs) := r in Ok (ack_m, kept ret msg, evs)
  | OpRx buf => ack_m ← filter_rx_tcp_ack ack_m buf (Z.of_nat (length buf)); Ok (ack_m, [], [])
  | OpTimeout i => let '(ack_m, evs) := tcp_ack_timeout i ack_m in Ok (ack_m, [], evs)
  | OpMoved msg => Ok (move_tcpack_msg ack_m msg, [], [])
  | OpDeinit => let '(ack_m, evs) := tcp_ack_deinit ack_m in Ok (ack_m, [], evs)
  end.

Fixpoint filter_run (jms : Z -> Z) (ack_m : tcp_ack_manage) (os : list filter_op)
  : res (tcp_ack_manage * list nat * list tcp_event) :=
  match os with
  | [] => Ok (ack_m, [], [])
  | o :: os =>
      s ← filter_step jms ack_m o;
      r ← filter_run jms s.1.1 os;
      Ok (r.1.1, s.1.2 ++ r.1.2, s.2 ++ r.2)
  end.

Lemma tcp_ack_init_wf jms jiffies : ack_wf (tcp_ack_init jms jiffies).
Proof.
  split; [done|done| |].
  - intros _. eexists. split; [reflexivity|done].
  - intros i j a b Ha _ Hb _. exfalso.
    apply list_lookup_fmap_Some in Ha as (k & -> & Hk). discriminate Hb.
Qed.

Lemma fmap_info_wf ack_m (f : tcp_ack_info -> tcp_ack_info) e :
  (forall a, busy (f a) = busy a /\ ack_msg (f a) = ack_msg a) -> ack_wf ack_m ->
  ack_wf (ack_m <| enable := e |> <| ack_info ::= fmap f |>).
Proof.
  intros Hf [Hl Hc Hfr Hk]. split; cbn.
  - now rewrite length_fmap.
  - rewrite Hc. symmetry. apply countb_fmap. apply Hf.
  - intros H. destruct (Hfr H) as (a & Ha & Hb). exists (f a).
    rewrite list_lookup_fmap, Ha. split; [done|]. now rewrite (proj1 (Hf a)).
  - intros i j a b Ha Hb. apply list_lookup_fmap_Some in Ha as (x & -> & Hx).
    apply list_lookup_fmap_Some in Hb as (y & -> & Hy).
    rewrite !(proj1 (Hf _)), !(proj2 (Hf _)). eauto.
Qed.

Lemma move_tcpack_msg_wf ack_m msg : ack_wf ack_m -> ack_wf (move_tcpack_msg ack_m msg).
Proof.
  intros Hwf. unfold move_tcpack_msg. destruct (negb (enable ack_m)) eqn:E; [done|].
  apply (fmap_info_wf ack_m _ (enable ack_m)); [|done]. intros a. now case_match.
Qed.

Lemma move_tcpack_msg_held ack_m msg : held (move_tcpack_msg ack_m msg) = held ack_m.
Proof.
  unfold move_tcpack_msg, held. case_match; [done|]. cbn.
  apply omap_fmap_same. intros a. now case_match.
Qed.

Lemma filter_rx_spec ack_m buf plen ack_m' : filter_rx_tcp_ack ack_m buf plen = Ok ack_m' ->
  ack_m' = ack_m \/ exists i a p s, ack_info ack_m !! i = Some a /\
    ack_m' = put_info i (a <| psh_flag := p |> <| psh_seq := s |>) ack_m.
Proof.
  unfold filter_rx_tcp_ack. case_match; [naive_solver|]. case_match; [naive_solver|].
  intros (q & _ & Hq)%bind_Ok_inv. destruct q as [m|]; [|naive_solver].
  destruct (if 0 <=? tcp_ack_match ack_m m then _ else None) as [a|] eqn:Ha; [|naive_solver].
  case_match; [|done]. simplify_eq. right. eauto 10.
Qed.

Lemma filter_send_inv jms jiffies ack_m msg buf plen r :
  filter_send_tcp_ack jms jiffies ack_m msg buf plen = Ok r ->
  r = (0, tcp_ack_update jiffies ack_m, []) \/
  exists drop m ws, r = filter_send_checked jms jiffies (tcp_ack_update jiffies ack_m) msg drop m ws.
Proof.
  unfold filter_send_tcp_ack. intros ([[drop om] ws] & _ & H)%bind_Ok_inv.
  case_match; [naive_solver|]. apply bind_Ok_inv in H as (m & _ & H). naive_solver.
Qed.

Lemma filter_step_wf jms ack_m o r : ack_wf ack_m -> filter_step jms ack_m o = Ok r -> ack_wf r.1.1.
Proof.
  intros Hwf. destruct o; cbn [filter_step].
  - intros (r' & Hr & H)%bind_Ok_inv. destruct r' as [[ret m'] evs]. simplify_eq/=.
    apply filter_send_inv in Hr as [Hr|(drop & m & ws & Hr)]; simplify_eq.
    + now apply tcp_ack_update_wf.
    + pose proof (filter_send_checked_wf jms jiffies _ msg drop m ws (tcp_ack_update_wf jiffies _ Hwf)) as H.
      now rewrite <- Hr in H.
  - intros (m' & Hr & H)%bind_Ok_inv. simplify_eq/=.
    apply filter_rx_spec in Hr as [->|(i & a & p & s & Ha & ->)]; [done|].
    apply (put_info_wf _ _ a); [done|done|done|]. intros _. apply same_flow_refl.
  - unfold tcp_ack_timeout. destruct (ack_info ack_m !! i) as [a|] eqn:Ha; intros; [|now simplify_eq].
    repeat case_match; simplify_eq;
      (apply (put_info_wf _ _ a); [done|done|done|intros _; apply same_flow_refl]).
  - intros; simplify_eq. now apply move_tcpack_msg_wf.
  - intros [= <-]. now apply (fmap_info_wf ack_m _ false).
Qed.

Lemma filter_step_held jms ack_m o r : filter_step jms ack_m o = Ok r ->
  held r.1.1 ++ (ev_msg <$> r.2) ≡ₚ r.1.2 ++ held ack_m.
Proof.
  destruct o; cbn [filter_step].
  - intros (r' & Hr & H)%bind_Ok_inv. destruct r' as [[ret m'] evs]. simplify_eq.
    cbn [fst snd]. rewrite <- (tcp_ack_update_held jiffies ack_m).
    apply filter_send_inv in Hr as [Hr|(drop & m & ws & Hr)].
    + simplify_eq. cbn [kept Z.eqb app]. now rewrite app_nil_r.
    + pose proof (filter_send_checked_held jms jiffies (tcp_ack_update jiffies ack_m) msg drop m ws) as H.
      now rewrite <- Hr in H.
  - intros (m' & Hr & H)%bind_Ok_inv. simplify_eq. cbn [fst snd fmap list_fmap app]. rewrite app_nil_r.
    apply filter_rx_spec in Hr as [->|(i & a & p & s & Ha & ->)]; [done|].
    now apply (held_put_same _ _ a).
  - pose proof (tcp_ack_timeout_held i ack_m) as H. destruct (tcp_ack_timeout i ack_m) as [m' evs].
    intros; now simplify_eq.
  - intros; simplify_eq. cbn [fst snd fmap list_fmap app]. now rewrite app_nil_r, move_tcpack_msg_held.
  - intros [= <-]. cbn [fst snd app].
    match goal with |- held ?x ++ _ ≡ₚ _ => assert (held x = []) as -> end.
    { unfold held. apply omap_none. intros a (b & -> & _)%list_elem_of_fmap_1. done. }
    cbn [app]. unfold held. now rewrite <- list_fmap_compose, list_fmap_id.
Qed.
End FilterSpec.

(** * Properties *)

Module Props.
Import Parse ParseSpec Filter FilterSpec.

(** [U32_BEFORE] compares sequence numbers around the 2^32 wrap: [a] is
    before [b] or equal to it exactly when [b] is at most 2^31 ahead of [a]. *)
Theorem U32_BEFORE_spec a b : 0 <= a < 2 ^ 32 -> 0 <= b < 2 ^ 32 ->
  U32_BEFORE a b = true <-> (b - a) mod 2 ^ 32 <= 2 ^ 31.
Proof.
  intros Ha Hb. unfold U32_BEFORE. rewrite !wrapU_small by done.
  unfold wrapS. change (32 - 1) with 31. change (2 ^ 32) with 4294967296 in *.
  change (2 ^ 31) with 2147483648. rewrite Z.leb_le.
  Z.div_mod_to_equations. lia.
Qed.

Lemma U32_BEFORE_spec_witness :
  U32_BEFORE 4294967290 3 = true <-> (3 - 4294967290) mod 2 ^ 32 <= 2 ^ 31.
Proof. apply (U32_BEFORE_spec 4294967290 3); lia. Defined.

(** On a segment without payload whose options are well formed, the scan
    of [is_drop_tcp_ack] reads exactly the option bytes, classifies the ACK
    (1: droppable, 2: it carries an option other than time stamps and window
    scale) and returns the window scale announced last. *)
Theorem is_drop_tcp_ack_options pre hdr os post tot_len off :
  length hdr = 20%nat -> hdr !! 12%nat = Some off -> Forall opt_wf os ->
  Z.shiftr off 4 * 4 = TCP_HLEN + Z.of_nat (length (encode_opts os)) ->
  tot_len <= Z.shiftr off 4 * 4 ->
  is_drop_tcp_ack (pre ++ hdr ++ encode_opts os ++ post) (Z.of_nat (length pre)) tot_len 0 =
  Ok (opts_drop 1 os, foldl opt_scale 0 os).
Proof.
  intros Hh Hoff Hwf Hlen Htot. unfold is_drop_tcp_ack.
  rewrite rd8_app_r by lia. rewrite Z.add_simpl_l.
  rewrite rd8_app_l by lia. unfold rd8 at 1. cbn [Z.leb Z.compare].
  change (Z.to_nat 12) with 12%nat. rewrite Hoff. cbn [from_option_res mbind res_bind].
  destruct (Z.ltb_spec (Z.shiftr off 4 * 4) tot_len); [lia|].
  rewrite Hlen, Z.add_simpl_l. rewrite (app_assoc pre).
  replace (Z.of_nat (length pre) + TCP_HLEN) with (Z.of_nat (length (pre ++ hdr)))
    by (rewrite length_app, Hh; unfold TCP_HLEN; lia).
  apply tcp_opt_loop_encode; [done|done|].
  rewrite !length_app. assert (length os <= length (encode_opts os))%nat; [|lia].
  clear. induction os as [|o os IH]; [done|]. unfold encode_opts in *.
  rewrite fmap_cons. cbn [concat length]. rewrite length_app.
  destruct o; cbn [encode_opt length]; lia.
Qed.

(** A 20-byte header with data offset [doff], flag byte ACK. *)
Definition tcp_header (doff ackseq : Z) : list Z :=
  [19; 137; 0; 80; 0; 0; 0; 1;
   u8 (Z.shiftr ackseq 24); u8 (Z.shiftr ackseq 16); u8 (Z.shiftr ackseq 8); u8 ackseq;
   Z.shiftl doff 4; 16; 1; 0; 0; 0; 0; 0].
(** Window scale 7, padding, time stamps. *)
Definition sample_opts : list tcp_opt :=
  [Tlv TCPOPT_WINDOW [7]; Nop; Nop; Nop; Nop; Nop; Tlv TCPOPT_TIMESTAMP [0;0;0;1;0;0;0;2]; Nop; Nop].

Lemma is_drop_tcp_ack_options_witness :
  is_drop_tcp_ack ([1;2] ++ tcp_header 10 5 ++ encode_opts sample_opts ++ [9]) 2 40 0 = Ok (1, 128).
Proof.
  exact (is_drop_tcp_ack_options [1;2] (tcp_header 10 5) sample_opts [9] 40 160
    eq_refl eq_refl
    ltac:(repeat constructor; cbn; try lia; discriminate) eq_refl ltac:(vm_compute; discriminate)).
Defined.

(** An end-of-options byte does not end the scan: when the option area
    starts with one and the rest of the frame is zero padding, the scan runs
    off the end of the frame, however long the padding is. *)
Theorem tcp_options_eol_overrun pre hdr n tot_len off :
  length hdr = 20%nat -> hdr !! 12%nat = Some off ->
  20 < Z.shiftr off 4 * 4 -> tot_len <= Z.shiftr off 4 * 4 ->
  is_drop_tcp_ack (pre ++ hdr ++ replicate n TCPOPT_EOL) (Z.of_nat (length pre)) tot_len 0 =
  Fault OutOfBounds.
Proof.
  intros Hh Hoff Hlen Htot. unfold is_drop_tcp_ack.
  rewrite rd8_app_r by lia. rewrite Z.add_simpl_l.
  rewrite rd8_app_l by lia. unfold rd8 at 1. cbn [Z.leb Z.compare].
  change (Z.to_nat 12) with 12%nat. rewrite Hoff. cbn [from_option_res mbind res_bind].
  destruct (Z.ltb_spec (Z.shiftr off 4 * 4) tot_len); [lia|].
  rewrite (app_assoc pre).
  replace (Z.of_nat (length pre) + TCP_HLEN) with (Z.of_nat (length (pre ++ hdr)))
    by (rewrite length_app, Hh; unfold TCP_HLEN; lia).
  apply tcp_opt_loop_zeros; [unfold TCP_HLEN; lia|lia|].
  rewrite !length_app, length_replicate. lia.
Qed.

Lemma tcp_options_eol_overrun_witness :
  is_drop_tcp_ack ([] ++ tcp_header 6 5 ++ replicate 4 TCPOPT_EOL) 0 24 0 = Fault OutOfBounds.
Proof.
  exact (tcp_options_eol_overrun [] (tcp_header 6 5) 4 24 96 eq_refl eq_refl
    ltac:(vm_compute; reflexivity) ltac:(vm_compute; discriminate)).
Defined.

(** Handling a frame on the transmit path can only go wrong by reading
    past the end of the frame: the option scan always stops and the message
    record is never used unwritten. *)
Theorem filter_send_faults jms jiffies ack_m msg buf plen e :
  filter_send_tcp_ack jms jiffies ack_m msg buf plen = Fault e -> e = OutOfBounds.
Proof.
  unfold filter_send_tcp_ack.
  destruct (tcp_check_ack buf) as [[[drop om] ws]|e'] eqn:E.
  - cbn [mbind res_bind]. destruct ((drop =? 0) && (ws =? 0)) eqn:Ed; [discriminate|].
    destruct om as [m|]; [discriminate|]. exfalso.
    apply tcp_check_ack_none in E as [-> ->]. discriminate Ed.
  - cbn. intros [= <-]. exact (tcp_check_ack_oob _ _ E).
Qed.

Lemma filter_send_faults_witness :
  filter_send_tcp_ack (fun j => j) 0 (tcp_ack_init (fun j => j) 0) 1%nat [1; 2] 2 = Fault OutOfBounds /\
  OutOfBounds = OutOfBounds.
Proof.
  split; [vm_compute; reflexivity|].
  exact (filter_send_faults (fun j => j) 0 (tcp_ack_init (fun j => j) 0) 1%nat [1; 2] 2 OutOfBounds
    ltac:(vm_compute; reflexivity)).
Defined.

(** Whatever sequence of frames, timer expiries and completions the
    filter sees after its initialisation, each tracked connection has one
    table entry, the count of used entries is exact and the cached free
    index names an unused entry. *)
Theorem filter_run_wf jms jiffies os ack_m acc evs :
  filter_run jms (tcp_ack_init jms jiffies) os = Ok (ack_m, acc, evs) -> ack_wf ack_m.
Proof.
  assert (forall m r, ack_wf m -> filter_run jms m os = Ok r -> ack_wf r.1.1) as H.
  { induction os as [|o os IH]; intros m r Hm; cbn [filter_run].
    - intros [= <-]. done.
    - intros (s & Hs & Hr)%bind_Ok_inv. apply bind_Ok_inv in Hr as (r' & Hr' & [= <-]).
      cbn [fst]. eapply IH; [|done]. now apply (filter_step_wf _ _ _ _ Hm Hs). }
  intros Hr. exact (H _ _ (tcp_ack_init_wf jms jiffies) Hr).
Qed.

(** C25. No message is lost or disposed of twice: the messages the filter
    accepted for keeping are those it freed or sent plus those it holds. *)
Theorem filter_run_conserves jms jiffies os ack_m acc evs :
  filter_run jms (tcp_ack_init jms jiffies) os = Ok (ack_m, acc, evs) ->
  held ack_m ++ (ev_msg <$> evs) ≡ₚ acc.
Proof.
  assert (forall m r, filter_run jms m os = Ok r ->
    held r.1.1 ++ (ev_msg <$> r.2) ≡ₚ r.1.2 ++ held m) as H.
  { induction os as [|o os IH]; intros m r; cbn [filter_run].
    - intros [= <-]. cbn. now rewrite app_nil_r.
    - intros (s & Hs & Hr)%bind_Ok_inv. apply bind_Ok_inv in Hr as (r' & Hr' & [= <-]).
      cbn [fst snd]. apply IH in Hr'. apply filter_step_held in Hs.
      rewrite fmap_app, perm_swap_mid, Hr', (Permutation_app_comm (ev_msg <$> s.2)), <- app_assoc, Hs.
      rewrite <- app_assoc. apply perm_swap_mid. }
  intros Hr. apply H in Hr. cbn [fst snd] in Hr. rewrite Hr.
  assert (held (tcp_ack_init jms jiffies) = []) as -> by done. now rewrite app_nil_r.
Qed.

(** A pure ACK of one connection, as an Ethernet frame. *)
Definition ack_frame (ackseq : Z) : list Z :=
  replicate 12 0 ++ [8; 0] ++
  [69; 0; 0; 40; 0; 0; 0; 0; 64; 6; 0; 0; 10; 0; 0; 1; 10; 0; 0; 2] ++ tcp_header 5 ackseq.
Definition jms_250 (ms : Z) : Z := ms / 4.
(** The first ACK opens the entry, the second is sent at once, the third is
    held while the second is being sent; the timer expires before the second
    is reported sent. *)
Definition hold_ops : list filter_op :=
  [OpSend 0 1 (ack_frame 1000); OpSend 1 2 (ack_frame 2000); OpSend 2 3 (ack_frame 3000);
   OpTimeout 0; OpMoved 2].

Lemma filter_run_wf_witness : exists ack_m,
  filter_run jms_250 (tcp_ack_init jms_250 0) hold_ops = Ok (ack_m, [3%nat], []) /\ ack_wf ack_m.
Proof.
  eexists. split; [vm_compute; reflexivity|].
  eapply (filter_run_wf jms_250 0 hold_ops). vm_compute. reflexivity.
Defined.

Lemma filter_run_conserves_witness : exists ack_m,
  filter_run jms_250 (tcp_ack_init jms_250 0) hold_ops = Ok (ack_m, [3%nat], []) /\
  held ack_m ++ [] ≡ₚ [3%nat].
Proof.
  eexists. split; [vm_compute; reflexivity|].
  eapply (filter_run_conserves jms_250 0 hold_ops _ [3%nat] []). vm_compute. reflexivity.
Defined.

(** An ACK can be left in the table with nothing scheduled to release it:
    when the timer of the entry expires while an earlier ACK is being sent,
    and that one completes afterwards, the held message stays with no timer
    pending and no transmission outstanding. *)
Theorem held_ack_without_timer : exists ack_m a,
  filter_run jms_250 (tcp_ack_init jms_250 0) hold_ops = Ok (ack_m, [3%nat], []) /\
  ack_info ack_m !! 0%nat = Some a /\ busy a = true /\
  msgbuf a = Some 3%nat /\ in_send_msg a = None /\ timer a = None.
Proof.
  eexists _, _. split; [vm_compute; reflexivity|]. split; [vm_compute; reflexivity|].
  vm_compute. auto.
Qed.

(** A connection receiving ACKs one after the other: return values of
    [tcp_ack_handle_new]. *)
Fixpoint feed (jms : Z -> Z) (ack_m : tcp_ack_manage) (a : tcp_ack_info)
    (ms : list (Z * nat * tcp_ack_msg)) : list Z :=
  match ms with
  | [] => []
  | (jiffies, msg, m) :: ms =>
      let '(ret, a, _) := tcp_ack_handle_new jms jiffies msg ack_m a m 1 in
      ret :: feed jms ack_m a ms
  end.

(** Sequence numbers that never go back. *)
Fixpoint seq_chain (s : Z) (ms : list (Z * nat * tcp_ack_msg)) : Prop :=
  match ms with
  | [] => True
  | (_, _, m) :: ms => U32_BEFORE s (seq m) = true /\ seq_chain (seq m) ms
  end.

(** C29. While no push is pending and no ACK is being sent, advancing ACKs of a
    connection are thinned out: all are kept back until the drop count
    reaches its maximum, and the one that reaches it is let through. *)
Theorem ack_thinning jms ack_m a ms last :
  psh_flag a = false -> in_send_msg a = None ->
  0 <= drop_cnt a -> max_drop_cnt ack_m < 2 ^ 31 ->
  drop_cnt a + Z.of_nat (length ms) + 1 = max_drop_cnt ack_m ->
  seq_chain (seq (ack_msg a)) (ms ++ [last]) ->
  feed jms ack_m a (ms ++ [last]) = replicate (length ms) 1 ++ [0].
Proof.
  revert a. induction ms as [|[[j msg] m] ms IH]; intros a Hp Hs Hd Hmax Hn Hc.
  - destruct last as [[j msg] m]. cbn in Hc, Hn |- *. destruct Hc as [Hc _].
    unfold tcp_ack_handle_new. cbn. rewrite Hc, Hp, Hs. cbn.
    rewrite wrapS_small by (cbn; lia). destruct (Z.leb_spec (max_drop_cnt ack_m) (drop_cnt a + 1)); [done|lia].
  - cbn [app feed replicate length] in *. destruct Hc as [Hc Hc'].
    unfold tcp_ack_handle_new. cbn. rewrite Hc, Hp, Hs. cbn.
    rewrite wrapS_small by (cbn; lia). destruct (Z.leb_spec (max_drop_cnt ack_m) (drop_cnt a + 1)); [lia|].
    f_equal. apply IH; cbn; try done; lia.
Qed.

Lemma ack_thinning_witness :
  feed jms_250 (tcp_ack_init jms_250 0) (zero_info 0)
    (((fun k => (k, Z.to_nat k, mk_tcp_ack_msg 0 0 0 0 (k + 1) 0)) <$> [1;2;3;4;5;6;7;8;9])
       ++ [(10, 10%nat, mk_tcp_ack_msg 0 0 0 0 20 0)]) = [1;1;1;1;1;1;1;1;1;0].
Proof.
  exact (ack_thinning jms_250 (tcp_ack_init jms_250 0) (zero_info 0)
    ((fun k => (k, Z.to_nat k, mk_tcp_ack_msg 0 0 0 0 (k + 1) 0)) <$> [1;2;3;4;5;6;7;8;9])
    (10, 10%nat, mk_tcp_ack_msg 0 0 0 0 20 0) eq_refl eq_refl
    ltac:(vm_compute; discriminate) ltac:(vm_compute; reflexivity) eq_refl
    ltac:(vm_compute; tauto)).
Defined.
End Props.
