(* ===== verification/Reorder.v ===== *)
(** Receive path, block-ack reordering: [rwnx_rx.c] (the [AICWF_RX_REORDER]
    section and [rwnx_rxdata_process_amsdu]) and [aicwf_txrxif.h].

    - [Rx]: frames, descriptors, the per-(station, TID) reorder control, and
      every operation of the reorder code, in source order.  The consumer of
      the frames (the network stack behind [netif_receive_skb], and the skb
      allocator) is the interface [RxSink].
    - [SeqNum]: the modular order of 12-bit sequence numbers.
    - [Spec]: the window as a sorted set of offsets from [ind_sn], and the
      release function [adv] that the two list walks of the code implement.
    - [Props]: the properties.

    Every operation that takes [reord_list_lock] for its whole body is one
    atomic step.  [kmalloc]/[alloc_skb] outcomes and the bus and interface
    states are fields of [rx_env]. *)
From stdpp Require Import base list numbers option relations.
From Stdlib Require Import ZArith Lia.
From S2P Require Import Prelude.

#[local] Open Scope Z_scope.
#[local] Open Scope aic_scope.

Module Rx.

(** [struct sk_buff]: the buffer's identity and its bytes from [skb->data]. *)
Record sk_buff := mk_skb { skb_id : Z; skb_data : list Z }.
#[export] Instance sk_buff_eta : RecordEta sk_buff := fun s => mk_skb (skb_id s) (skb_data s).
#[export] Instance sk_buff_eq_dec : EqDecision sk_buff.
Proof. solve_decision. Defined.
Definition skb_len (s : sk_buff) : Z := Z.of_nat (length (skb_data s)).

(** What the receive path hands its buffers to. *)
Class RxSink (S : Type) := {
  rx_deliver : sk_buff -> S -> S;      (* netif_receive_skb and what precedes it *)
  rx_free : sk_buff -> S -> S          (* dev_kfree_skb *)
}.

(** The promise the reorder code relies on: buffers are taken one at a time,
    in the order given. *)
Class RxSinkLaws (S : Type) `{RxSink S} := {
  delivered : S -> list sk_buff;
  freed : S -> list sk_buff;
  delivered_deliver s x : delivered (rx_deliver s x) = delivered x ++ [s];
  freed_deliver s x : freed (rx_deliver s x) = freed x;
  delivered_free s x : delivered (rx_free s x) = delivered x;
  freed_free s x : freed (rx_free s x) = freed x ++ [s]
}.

(** The interfaces the driver distinguishes ([enum nl80211_iftype]). *)
Inductive nl80211_iftype := IFTYPE_STATION | IFTYPE_P2P_CLIENT | IFTYPE_AP | IFTYPE_P2P_GO | IFTYPE_OTHER.

(** The outcome of everything the reorder code consults and does not own. *)
Record rx_env := mk_env {
  iftype : nl80211_iftype;       (* rwnx_vif->wdev.iftype *)
  bus_up : bool;                 (* bus_if->state == BUS_UP_ST *)
  usb_up : bool;                 (* g_rwnx_plat->usbdev->state *)
  kmalloc_ok : bool;
  alloc_skb_ok : Z -> bool;      (* __dev_alloc_skb, by size *)
  vif_found : bool               (* rwnx_rx_get_vif *)
}.

Definition AICWF_REORDER_WINSIZE : Z := 64.
Definition ETH_P_PAE : Z := 34958.
Definition ETH_ALEN : nat := 6.

(** [SN_LESS(a, b)]: (((a-b)&0x800)!=0) *)
Definition SN_LESS (a b : Z) : bool := negb (Z.land (a - b) 2048 =? 0).
Definition SN_EQUAL (a b : Z) : bool := a =? b.

Record recv_msdu := mk_msdu {
  msdu_id : Z;                   (* the descriptor: index in recv_frames[] *)
  pkt : option sk_buff;
  tid : Z;
  forward : Z;
  seq_num : Z;
  is_amsdu : Z;
  is_ap_reord : Z;
  ap_fwd_cnt : Z;
  ap_resend_cnt : Z;
  rx_data : list Z;
  fwd_skbs : list sk_buff;       (* first_fwd_skb .. last_fwd_skb *)
  resend_skbs : list sk_buff     (* first_resend_skb .. last_resend_skb *)
}.
#[export] Instance recv_msdu_eta : RecordEta recv_msdu := fun f =>
  mk_msdu (msdu_id f) (pkt f) (tid f) (forward f) (seq_num f) (is_amsdu f) (is_ap_reord f)
          (ap_fwd_cnt f) (ap_resend_cnt f) (rx_data f) (fwd_skbs f) (resend_skbs f).

Record reord_ctrl := mk_ctrl {
  enable : bool;
  ind_sn : Z;
  wsize_b : Z;
  reord_list : list recv_msdu;
  reord_timer : bool;            (* timer_pending *)
  reord_timer_work : bool        (* work_pending *)
}.
#[export] Instance reord_ctrl_eta : RecordEta reord_ctrl := fun c =>
  mk_ctrl (enable c) (ind_sn c) (wsize_b c) (reord_list c) (reord_timer c) (reord_timer_work c).

Record reord_ctrl_info := mk_info {
  mac_addr : list Z;
  preorder_ctrl : list reord_ctrl
}.
#[export] Instance reord_ctrl_info_eta : RecordEta reord_ctrl_info := fun r =>
  mk_info (mac_addr r) (preorder_ctrl r).

(** [struct aicwf_rx_priv], with the counters of [rwnx_vif->net_stats]. *)
Record aicwf_rx_priv {S : Type} := mk_priv {
  rxframes_freequeue : list recv_msdu;
  stas_reord_list : list reord_ctrl_info;
  rx_packets : Z;
  rx_bytes : Z;
  sink : S
}.
Arguments aicwf_rx_priv : clear implicits.
Arguments mk_priv {S} _ _ _ _ _.
#[export] Instance aicwf_rx_priv_eta {S} : RecordEta (aicwf_rx_priv S) := fun p =>
  mk_priv (rxframes_freequeue p) (stas_reord_list p) (rx_packets p) (rx_bytes p) (sink p).

Section Ops.
Context {S : Type} `{RxSink S}.
Implicit Types (p : aicwf_rx_priv S) (f : recv_msdu) (c : reord_ctrl).

(** [list_add(list, q)]: at the head. *)
Definition reord_rxframe_free f p : aicwf_rx_priv S := p <| rxframes_freequeue ::= cons f |>.

Definition reord_rxframe_alloc p : option (recv_msdu * aicwf_rx_priv S) :=
  match rxframes_freequeue p with
  | [] => None
  | f :: q => Some (f, p <| rxframes_freequeue := q |>)
  end.

Definition dev_kfree_skb (s : sk_buff) p : aicwf_rx_priv S := p <| sink ::= rx_free s |>.

Definition init_ctrl : reord_ctrl := mk_ctrl true 65535 AICWF_REORDER_WINSIZE [] false false.

Definition reord_init_sta (env : rx_env) (mac : list Z) : option reord_ctrl_info :=
  if negb (bus_up env) then None
  else if negb (kmalloc_ok env) then None
  else Some (mk_info mac (replicate 8 init_ctrl)).

(** One round of the A-MSDU loop: the subframe at the head of [data], as the
    Ethernet frame built for it, and the bytes [skb_pull] removes.  A copy of
    [sublen - 6] bytes with [sublen < 6] is a copy of about 2^64 bytes. *)
Definition roundup4 (n : Z) : Z := (n + 3) / 4 * 4.

Definition amsdu_subframe (data : list Z) : res (option (Z * Z)) :=
  hi ← rd8 data 12; lo ← rd8 data 13;
  let sublen := u16 (Z.lor (Z.shiftl hi 8) lo) in
  let len := Z.of_nat (length data) in
  if sublen + 14 <? len then Ok (Some (sublen, u16 (roundup4 (sublen + 14))))
  else if len =? sublen + 14 then Ok (Some (sublen, sublen + 14))
  else Ok None.

Definition amsdu_sub_skb (id : Z) (data : list Z) (sublen : Z) : res sk_buff :=
  if sublen <? 6 then Fault OutOfBounds
  else Ok (mk_skb id (take 12 data ++ take (Z.to_nat (sublen - 6)) (drop 20 data))).

(** [skb_pull] past the end of the buffer leaves it as it is. *)
Definition skb_pull (n : Z) (data : list Z) : list Z :=
  if Z.of_nat (length data) <? n then data else drop (Z.to_nat n) data.

Fixpoint amsdu_loop (fuel : nat) (env : rx_env) (id : Z) (data : list Z) (acc : list sk_buff)
  : res (list sk_buff) :=
  match fuel with
  | O => Fault OutOfFuel
  | Datatypes.S fuel' =>
      if Z.of_nat (length data) <=? 16 then Ok acc
      else
        r ← amsdu_subframe data;
        match r with
        | None => Ok acc
        | Some (sublen, len_alligned) =>
            if negb (alloc_skb_ok env (sublen - 6 + 12)) then Ok acc
            else
              sub_skb ← amsdu_sub_skb id data sublen;
              if negb (vif_found env) then Ok acc
              else amsdu_loop fuel' env id (skb_pull len_alligned data) (acc ++ [sub_skb])
        end
  end.

(** Returns the queue [list]; the aggregate itself is freed. *)
Definition rwnx_rxdata_process_amsdu (env : rx_env) (skb : sk_buff) p
  : res (list sk_buff * aicwf_rx_priv S) :=
  l ← amsdu_loop (Datatypes.S (length (skb_data skb))) env (skb_id skb) (skb_data skb) [];
  Ok (l, dev_kfree_skb skb p).

(** The body of the delivery loop for one buffer. *)
Definition netif_one (s : sk_buff) p : aicwf_rx_priv S :=
  p <| rx_packets ::= fun n => u64 (n + 1) |>
    <| rx_bytes ::= fun n => u64 (n + skb_len s) |>
    <| sink ::= rx_deliver s |>.

Definition netif_all (l : list sk_buff) p : aicwf_rx_priv S := fold_left (fun q s => netif_one s q) l p.

Definition reord_single_frame_ind (env : rx_env) p f : res (aicwf_rx_priv S * Z) :=
  let release q := reord_rxframe_free (f <| pkt := None |>) q in
  match pkt f with
  | None => Ok (p, -1)
  | Some skb =>
      if is_ap_reord f =? 0 then
        if forward f =? 0 then Ok (release (dev_kfree_skb skb p), 0)
        else if is_amsdu f =? 0 then Ok (release (netif_all [skb] p), 0)
        else
          '(l, q) ← rwnx_rxdata_process_amsdu env skb p;
          Ok (release (netif_all l q), 0)
      else
        let q := if ap_resend_cnt f =? 0 then p
                 else fold_left (fun q s => dev_kfree_skb s q) (resend_skbs f) p in
        if negb (ap_resend_cnt f =? 0) && (ap_fwd_cnt f =? 0) then Ok (release q, 0)
        else Ok (release (netif_all (fwd_skbs f) q), 0)
  end.

(** The walk of [reord_rxframes_process]: the new [ind_sn], and whether a
    frame stays behind a gap. *)
Fixpoint process_walk (ind : Z) (l : list recv_msdu) : Z * bool :=
  match l with
  | [] => (ind, false)
  | f :: l' =>
      if SN_LESS ind (seq_num f) then (ind, true)
      else if SN_EQUAL ind (seq_num f) then process_walk (Z.land (ind + 1) 4095) l'
      else process_walk ind l'
  end.

Definition reord_rxframes_process (bforced : bool) c : bool * reord_ctrl :=
  match reord_list c with
  | [] => (false, c)
  | h :: _ =>
      let ind := if bforced then seq_num h else ind_sn c in
      let '(ind', bPktInBuf) := process_walk ind (reord_list c) in
      (bPktInBuf, c <| ind_sn := ind' |>)
  end.

Fixpoint ind_walk (env : rx_env) (ind : Z) p (l : list recv_msdu) : res (aicwf_rx_priv S * list recv_msdu) :=
  match l with
  | [] => Ok (p, [])
  | f :: l' =>
      if SN_LESS ind (seq_num f) then Ok (p, l)
      else '(q, _) ← reord_single_frame_ind env p f; ind_walk env ind q l'
  end.

Definition reord_rxframes_ind (env : rx_env) p c : res (aicwf_rx_priv S * reord_ctrl) :=
  '(q, l) ← ind_walk env (ind_sn c) p (reord_list c);
  Ok (q, c <| reord_list := l |>).

(** The window check; [true] is the [-1] of the code ("no need to reord"). *)
Definition reord_need_check c (seq : Z) : bool * reord_ctrl :=
  let wsize := wsize_b c in
  let wend := Z.land (ind_sn c + wsize - 1) 4095 in
  let c := if ind_sn c =? 65535 then c <| ind_sn := seq |> else c in
  if SN_LESS seq (ind_sn c) then (true, c)
  else if SN_EQUAL seq (ind_sn c) then (false, c <| ind_sn := Z.land (ind_sn c + 1) 4095 |>)
  else if SN_LESS wend seq then
    if wsize - 1 <=? seq then (false, c <| ind_sn := u16 (seq - (wsize - 1)) |>)
    else (false, c <| ind_sn := u16 (4095 - (wsize - (seq + 1)) + 1) |>)
  else (false, c).

(** [None] is the [-1] of the code: the sequence number is already held. *)
Fixpoint enqueue_walk f (l : list recv_msdu) : option (list recv_msdu) :=
  match l with
  | [] => Some [f]
  | g :: l' =>
      if SN_LESS (seq_num g) (seq_num f) then cons g <$> enqueue_walk f l'
      else if SN_EQUAL (seq_num g) (seq_num f) then None
      else Some (f :: l)
  end.

Definition reord_rxframe_enqueue c f : option reord_ctrl :=
  (fun l => c <| reord_list := l |>) <$> enqueue_walk f (reord_list c).

(** The [fail:] path: free the buffer and give the descriptor back. *)
Definition unit_drop f p : aicwf_rx_priv S :=
  let q := match pkt f with Some s => dev_kfree_skb s p | None => p end in
  reord_rxframe_free (f <| pkt := None |>) q.

(** The part of [reord_process_unit] under [reord_list_lock]. *)
Definition reord_unit_locked (env : rx_env) p c f : res (aicwf_rx_priv S * reord_ctrl * Z) :=
  let '(late, c) := reord_need_check c (seq_num f) in
  if late then
    b ← rd8 (rx_data f) 42;
    if b =? 128 then
      if seq_num f =? ind_sn c then
        '(q, _) ← reord_single_frame_ind env p f; Ok (q, c, 0)
      else Ok (unit_drop f p, c, 0)
    else '(q, _) ← reord_single_frame_ind env p f; Ok (q, c, 0)
  else
    match reord_rxframe_enqueue c f with
    | None => Ok (unit_drop f p, c, 0)
    | Some c =>
        let '(more, c) := reord_rxframes_process false c in
        let c := c <| reord_timer := more |> in
        '(q, c) ← reord_rxframes_ind env p c;
        Ok (q, c, 0)
    end.

Definition is_sta (env : rx_env) : option bool :=
  match iftype env with
  | IFTYPE_STATION | IFTYPE_P2P_CLIENT => Some true
  | IFTYPE_AP | IFTYPE_P2P_GO => Some false
  | IFTYPE_OTHER => None
  end.

(** [eh->h_dest] for a station, [eh->h_source] for an access point. *)
Definition reord_mac (sta : bool) (data : list Z) : list Z :=
  if sta then take ETH_ALEN data else take ETH_ALEN (drop ETH_ALEN data).

Definition find_sta (mac : list Z) (l : list reord_ctrl_info) : option (nat * reord_ctrl_info) :=
  list_find (fun r => mac = mac_addr r) l.

Definition set_ctrl (i tid : nat) c p : aicwf_rx_priv S :=
  p <| stas_reord_list ::= alter (fun r => r <| preorder_ctrl ::= <[tid := c]> |>) i |>.

Definition reenable c : reord_ctrl :=
  if enable c then c
  else c <| enable := true |> <| ind_sn := 65535 |> <| wsize_b := AICWF_REORDER_WINSIZE |>.

(** The reorder control of the frame's station and TID: the index of the
    station in the list, creating it or re-enabling the control when needed.
    [Ok None] is the failure of [reord_init_sta]. *)
Definition reord_lookup (env : rx_env) (mac : list Z) (tid : Z) p
  : res (option (nat * reord_ctrl * aicwf_rx_priv S)) :=
  match find_sta mac (stas_reord_list p) with
  | None =>
      match reord_init_sta env mac with
      | None => Ok None
      | Some r =>
          c ← from_option_res OutOfBounds (preorder_ctrl r !! Z.to_nat tid);
          Ok (Some (length (stas_reord_list p), c, p <| stas_reord_list ::= fun l => l ++ [r] |>))
      end
  | Some (i, r) =>
      c ← from_option_res OutOfBounds (preorder_ctrl r !! Z.to_nat tid);
      Ok (Some (i, reenable c, p))
  end.

Definition unit_fill f (skb : sk_buff) (seq t fwd amsdu : Z) : recv_msdu :=
  f <| seq_num := seq |> <| tid := t |> <| rx_data := skb_data skb |> <| pkt := Some skb |>
    <| forward := fwd |> <| is_amsdu := amsdu |>.

Definition reord_process_unit (env : rx_env) p f (skb : sk_buff) (seq t fwd amsdu : Z)
  : res (aicwf_rx_priv S * Z) :=
  let f := unit_fill f skb seq t fwd amsdu in
  da ← rd8 (skb_data skb) 0;
  proto ← be16 (skb_data skb) 12;
  if (proto =? ETH_P_PAE) || has da 1 then reord_single_frame_ind env p f
  else
    match is_sta env with
    | None => Ok (dev_kfree_skb skb p, -1)
    | Some sta =>
        o ← reord_lookup env (reord_mac sta (skb_data skb)) t p;
        match o with
        | None => '(q, _) ← reord_single_frame_ind env p f; Ok (q, -1)
        | Some (i, c, p) =>
            if negb (enable c) then
              '(q, _) ← reord_single_frame_ind env p f;
              Ok (set_ctrl i (Z.to_nat t) (c <| ind_sn := (seq_num f + 1) mod 4096 |>) q, 0)
            else
              '(q, c, r) ← reord_unit_locked env p c f;
              Ok (set_ctrl i (Z.to_nat t) c q, r)
        end
    end.

(** The timer has expired: it is no longer pending, its handler runs. *)
Definition reord_timeout_handler (env : rx_env) c : reord_ctrl :=
  let c := c <| reord_timer := false |> in
  if negb (usb_up env) then c
  else if reord_timer_work c then c
  else c <| reord_timer_work := true |>.

(** The work item has been dequeued and runs. *)
Definition reord_timeout_worker (env : rx_env) p c : res (aicwf_rx_priv S * reord_ctrl) :=
  let c := c <| reord_timer_work := false |> in
  let '(more, c) := reord_rxframes_process true c in
  let c := if more then c <| reord_timer := true |> else c in
  reord_rxframes_ind env p c.

Fixpoint flush_walk (env : rx_env) p (l : list recv_msdu) : res (aicwf_rx_priv S) :=
  match l with
  | [] => Ok p
  | f :: l' => '(q, _) ← reord_single_frame_ind env p f; flush_walk env q l'
  end.

Definition flush_ctrl (env : rx_env) p c : res (aicwf_rx_priv S * reord_ctrl) :=
  q ← flush_walk env p (reord_list c);
  Ok (q, c <| reord_list := [] |> <| enable := false |> <| reord_timer := false |>
           <| reord_timer_work := false |>).

Definition reord_flush_tid (env : rx_env) p (skb : sk_buff) (t : Z) : res (aicwf_rx_priv S * Z) :=
  match is_sta env with
  | None => Ok (dev_kfree_skb skb p, -1)
  | Some sta =>
      match find_sta (reord_mac sta (skb_data skb)) (stas_reord_list p) with
      | None => Ok (p, 0)
      | Some (i, r) =>
          c ← from_option_res OutOfBounds (preorder_ctrl r !! Z.to_nat t);
          if negb (enable c) then Ok (p, 0)
          else '(q, c) ← flush_ctrl env p c; Ok (set_ctrl i (Z.to_nat t) c q, 0)
      end
  end.

(** The held frames of one control are freed with their buffers. *)
Definition deinit_ctrl p c : aicwf_rx_priv S := fold_left (fun q f => unit_drop f q) (reord_list c) p.

Definition reord_deinit_sta (i : nat) p : aicwf_rx_priv S :=
  match stas_reord_list p !! i with
  | None => p
  | Some r =>
      (fold_left deinit_ctrl (preorder_ctrl r) p) <| stas_reord_list ::= delete i |>
  end.

End Ops.

(** The plain consumer: a log of what it was given. *)
Record rx_log := mk_log { log_delivered : list sk_buff; log_freed : list sk_buff }.
#[export] Instance rx_log_sink : RxSink rx_log := {
  rx_deliver s x := mk_log (log_delivered x ++ [s]) (log_freed x);
  rx_free s x := mk_log (log_delivered x) (log_freed x ++ [s])
}.
#[export] Instance rx_log_laws : RxSinkLaws rx_log := {
  delivered := log_delivered;
  freed := log_freed;
  delivered_deliver _ _ := eq_refl;
  freed_deliver _ _ := eq_refl;
  delivered_free _ _ := eq_refl;
  freed_free _ _ := eq_refl
}.

End Rx.

Module SeqNum.
Import Rx.

(** How far [s] is ahead of [n], in 12 bits. *)
Definition off (n s : Z) : Z := (s - n) mod 4096.

Definition seq12 (s : Z) : Prop := 0 <= s < 4096.

Lemma off_bound n s : 0 <= off n s < 4096.
Proof. apply Z.mod_pos_bound. lia. Qed.

Lemma seq_off n s : seq12 s -> s = (n + off n s) mod 4096.
Proof.
  intros Hs. unfold off. rewrite Zplus_mod_idemp_r.
  replace (n + (s - n)) with s by lia. now rewrite Z.mod_small.
Qed.

Lemma off_seq n d : 0 <= d < 4096 -> off n ((n + d) mod 4096) = d.
Proof.
  intros Hd. unfold off. rewrite Zminus_mod_idemp_l.
  replace (n + d - n) with d by lia. now apply Z.mod_small.
Qed.

Lemma off_refl n : off n n = 0.
Proof. unfold off. now rewrite Z.sub_diag. Qed.

(** Moving the origin forward by [k]. *)
Lemma off_shift n s k : k <= off n s -> off ((n + k) mod 4096) s = (off n s - k) mod 4096.
Proof.
  intros _. unfold off. rewrite Zminus_mod_idemp_r, Zminus_mod_idemp_l. f_equal. lia.
Qed.

Lemma land_2048 x : (Z.land x 2048 =? 0) = (x mod 4096 <? 2048).
Proof.
  replace 2048 with (BIT 11) at 1 by reflexivity.
  pose proof (has_BIT x 11 ltac:(lia)) as Hb. unfold has in Hb.
  assert ((Z.land x (BIT 11) =? 0) = negb (Z.testbit x 11)) as ->.
  { rewrite <- Hb. now rewrite negb_involutive. }
  rewrite Z.testbit_eqb by lia. change (2 ^ 11) with 2048.
  pose proof (Z.div_mod x 2048 ltac:(lia)). pose proof (Z.mod_pos_bound x 2048 ltac:(lia)).
  pose proof (Z.div_mod x 4096 ltac:(lia)). pose proof (Z.mod_pos_bound x 4096 ltac:(lia)).
  pose proof (Z.div_mod (x / 2048) 2 ltac:(lia)). pose proof (Z.mod_pos_bound (x / 2048) 2 ltac:(lia)).
  destruct (Z.eqb_spec ((x / 2048) mod 2) 1), (Z.ltb_spec (x mod 4096) 2048); simpl; lia.
Qed.

Lemma SN_LESS_off a b : SN_LESS a b = (2048 <=? (a - b) mod 4096).
Proof.
  unfold SN_LESS. rewrite land_2048.
  destruct (Z.ltb_spec ((a - b) mod 4096) 2048), (Z.leb_spec 2048 ((a - b) mod 4096)); simpl; lia.
Qed.

(** Within half the sequence space the order is the order of the offsets. *)
Lemma SN_LESS_near n x y : -2048 <= x - y < 2048 ->
  SN_LESS ((n + x) mod 4096) ((n + y) mod 4096) = (x <? y).
Proof.
  intros Hxy. rewrite SN_LESS_off, Zminus_mod_idemp_r, Zminus_mod_idemp_l.
  replace (n + x - (n + y)) with (x - y) by lia.
  destruct (Z.ltb_spec x y).
  - apply Z.leb_le. replace (x - y) with (x - y + 4096 + -1 * 4096) by lia.
    rewrite Z_mod_plus_full, Z.mod_small; lia.
  - apply Z.leb_gt. rewrite Z.mod_small; lia.
Qed.

Lemma SN_EQUAL_near n x y : -4096 < x - y < 4096 ->
  SN_EQUAL ((n + x) mod 4096) ((n + y) mod 4096) = (x =? y).
Proof.
  intros Hxy. unfold SN_EQUAL. destruct (Z.eqb_spec x y) as [->|Hne]; [apply Z.eqb_refl|].
  apply Z.eqb_neq. intros E.
  pose proof (Z.div_mod (n + x) 4096 ltac:(lia)). pose proof (Z.div_mod (n + y) 4096 ltac:(lia)). lia.
Qed.

Lemma land_4095 x : Z.land x 4095 = x mod 4096.
Proof. change 4095 with (Z.ones 12). now rewrite Z.land_ones by lia. Qed.

Lemma seq12_mod x : seq12 (x mod 4096).
Proof. apply Z.mod_pos_bound. lia. Qed.

Lemma off_inj n s t : seq12 s -> seq12 t -> off n s = off n t -> s = t.
Proof. intros Hs Ht E. rewrite (seq_off n s), (seq_off n t) by done. now rewrite E. Qed.

End SeqNum.

Module Spec.
Import Rx SeqNum.

(** The offset of a held frame from the number [n]. *)
Definition foff (n : Z) (f : recv_msdu) : Z := off n (seq_num f).

(** What a frame must satisfy for a release to be one delivery: a station's
    frame carrying one MSDU. *)
Definition plain (f : recv_msdu) : bool :=
  bool_decide (is_Some (pkt f)) && (is_ap_reord f =? 0) && (is_amsdu f =? 0) && negb (forward f =? 0).

(** [adv k ds]: with everything before offset [k] released, and frames at the
    increasing offsets [ds] held, the offset [ind_sn] moves to. *)
Fixpoint adv (k : Z) (ds : list Z) : Z :=
  match ds with
  | [] => k
  | d :: ds' => if k <? d then k else adv (if k =? d then k + 1 else k) ds'
  end.

(** Strictly increasing offsets from [n], all in [lo, hi]. *)
Fixpoint increasing (n lo hi : Z) (l : list recv_msdu) : Prop :=
  match l with
  | [] => True
  | f :: l' => seq12 (seq_num f) /\ lo <= foff n f <= hi /\ increasing n (foff n f + 1) hi l'
  end.

(** The held frames of a live control: 12-bit numbers, strictly increasing,
    all inside the window and after a gap. *)
Definition ctrl_wf (c : reord_ctrl) : Prop :=
  wsize_b c = AICWF_REORDER_WINSIZE /\
  ((ind_sn c = 65535 /\ reord_list c = []) \/
   (seq12 (ind_sn c) /\ increasing (ind_sn c) 1 63 (reord_list c))).

Lemma increasing_weaken n lo lo' hi hi' l : lo' <= lo -> hi <= hi' -> increasing n lo hi l -> increasing n lo' hi' l.
Proof.
  intros Hlo Hhi. revert lo lo' Hlo. induction l as [|f l IH]; intros lo lo' Hlo; [done|].
  cbn. intros (?&?&?). split_and!; [done|lia|lia|]. eapply IH; [|done]. lia.
Qed.

Lemma increasing_elem n lo hi l f : increasing n lo hi l -> f ∈ l -> seq12 (seq_num f) /\ lo <= foff n f <= hi.
Proof.
  revert lo. induction l as [|g l IH]; intros lo Hi Hf; [now apply not_elem_of_nil in Hf|].
  cbn in Hi. destruct Hi as (?&?&Hi). apply elem_of_cons in Hf as [->|Hf]; [easy|].
  destruct (IH _ Hi Hf). split; [done|lia].
Qed.

(** Changing the origin to [n + k], for frames at offsets [k] or more. *)
Lemma increasing_shift n k lo hi l : 0 <= k <= lo -> hi < 4096 ->
  increasing n lo hi l -> increasing ((n + k) mod 4096) (lo - k) (hi - k) l.
Proof.
  intros Hk Hhi. revert lo Hk. induction l as [|f l IH]; intros lo Hk; [done|].
  cbn. intros (Hs&Hb&Hl). unfold foff in *. rewrite off_shift by lia.
  rewrite Z.mod_small by lia. split_and!; [done|lia|lia|].
  apply IH in Hl; [|lia]. replace (off n (seq_num f) + 1 - k) with (off n (seq_num f) - k + 1) in Hl by lia.
  done.
Qed.

Lemma adv_ge k ds : k <= adv k ds.
Proof.
  revert k. induction ds as [|d ds IH]; intros k; cbn; [lia|].
  destruct (Z.ltb_spec k d); [lia|]. destruct (Z.eqb_spec k d); [specialize (IH (k + 1)); lia|apply IH].
Qed.

Lemma adv_le k ds hi : k <= hi + 1 -> Forall (fun d => d <= hi) ds -> adv k ds <= hi + 1.
Proof.
  intros Hk Hds. revert k Hk. induction Hds as [|d ds Hd _ IH]; intros k Hk; cbn; [lia|].
  destruct (Z.ltb_spec k d); [lia|]. apply IH. destruct (Z.eqb_spec k d); lia.
Qed.

(** [adv k ds] is the first offset from [k] on that is not held. *)
Lemma adv_covers k ds x : k <= x < adv k ds -> x ∈ ds.
Proof.
  revert k. induction ds as [|d ds IH]; intros k; cbn; [lia|].
  destruct (Z.ltb_spec k d); [lia|]. destruct (Z.eqb_spec k d) as [->|].
  - intros Hx. destruct (decide (x = d)) as [->|]; [left|right]. apply (IH (d + 1)). lia.
  - intros Hx. right. now apply (IH k).
Qed.

Lemma adv_fresh n k lo hi l f : increasing n lo hi l -> f ∈ l -> foff n f <> adv k (foff n <$> l).
Proof.
  revert k lo. induction l as [|g l IH]; intros k lo Hl Hf; [now apply not_elem_of_nil in Hf|].
  rewrite fmap_cons. cbn in *. destruct Hl as (_&Hb&Hl).
  destruct (Z.ltb_spec k (foff n g)) as [Hk|Hk].
  - apply elem_of_cons in Hf as [->|Hf]; [lia|]. destruct (increasing_elem _ _ _ _ _ Hl Hf). lia.
  - apply elem_of_cons in Hf as [->|Hf]; [|now apply (IH _ _ Hl)].
    destruct (Z.eqb_spec k (foff n g)) as [->|].
    + pose proof (adv_ge (foff n g + 1) (foff n <$> l)). lia.
    + pose proof (adv_ge k (foff n <$> l)). lia.
Qed.

Lemma increasing_offsets_le n lo hi l : increasing n lo hi l -> Forall (fun d => d <= hi) (foff n <$> l).
Proof.
  intros Hl. apply Forall_fmap, Forall_forall. intros f Hf.
  apply (increasing_elem _ _ _ _ _ Hl) in Hf. cbn. lia.
Qed.

(** The held frames before and from an offset. *)
Definition before (n K : Z) (l : list recv_msdu) : list recv_msdu := filter (fun f => foff n f < K) l.
Definition from (n K : Z) (l : list recv_msdu) : list recv_msdu := filter (fun f => K <= foff n f) l.

Lemma from_all n K lo hi l : K <= lo -> increasing n lo hi l -> from n K l = l /\ before n K l = [].
Proof.
  revert lo. induction l as [|f l IH]; intros lo HK Hl; [done|]. cbn in Hl. destruct Hl as (_&Hb&Hl).
  unfold from, before in *. rewrite filter_cons_True, filter_cons_False by lia.
  destruct (IH (foff n f + 1)) as [-> ->]; [lia|done|done].
Qed.

Lemma before_from n K lo hi l : increasing n lo hi l -> before n K l ++ from n K l = l.
Proof.
  revert lo. induction l as [|f l IH]; intros lo Hl; [done|]. pose proof Hl as Hl'.
  cbn in Hl. destruct Hl as (_&Hb&Hl).
  destruct (decide (foff n f < K)).
  - unfold from, before in *. rewrite filter_cons_True, filter_cons_False by lia. cbn. now rewrite (IH _ Hl).
  - destruct (from_all n K (foff n f) hi (f :: l)) as [-> ->]; [lia| |done].
    cbn in *. split_and!; [easy|lia|lia|easy].
Qed.

Lemma increasing_from n K lo hi l : increasing n lo hi l -> increasing n (Z.max K lo) hi (from n K l).
Proof.
  revert lo. induction l as [|f l IH]; intros lo Hl; [done|]. cbn in Hl. destruct Hl as (Hs&Hb&Hl).
  unfold from in *. destruct (decide (K <= foff n f)).
  - rewrite filter_cons_True by done. cbn. split_and!; [done|lia|lia|].
    eapply increasing_weaken; [| |exact (IH _ Hl)]; lia.
  - rewrite filter_cons_False by done. eapply increasing_weaken; [| |exact (IH _ Hl)]; lia.
Qed.

(** Shifting the bound past a missing offset. *)
Lemma from_fresh n K l : (forall f, f ∈ l -> foff n f <> K) -> from n (K + 1) l = from n K l.
Proof.
  intros Hf. unfold from. induction l as [|f l IH]; [done|].
  specialize (Hf f ltac:(left)) as Hne. specialize (IH (fun g Hg => Hf g ltac:(now right))).
  destruct (decide (K <= foff n f)).
  - rewrite !filter_cons_True by lia. now rewrite IH.
  - rewrite !filter_cons_False by lia. exact IH.
Qed.

Lemma increasing_from_fresh n K lo hi l : (forall f, f ∈ l -> foff n f <> K) -> lo <= K + 1 ->
  increasing n lo hi l -> increasing n (K + 1) hi (from n K l).
Proof.
  intros Hf Hlo Hl. rewrite <- from_fresh by done.
  eapply increasing_weaken; [| |apply increasing_from, Hl]; lia.
Qed.

(** The walk of [reord_rxframes_process] computes [adv]. *)
Lemma process_walk_adv n k lo l :
  0 <= k <= 2048 -> 0 <= lo -> (k <= 2047 \/ 1 <= lo) -> increasing n lo 2047 l ->
  process_walk ((n + k) mod 4096) l =
    ((n + adv k (foff n <$> l)) mod 4096,
     negb (bool_decide (from n (adv k (foff n <$> l)) l = []))).
Proof.
  revert k lo. induction l as [|f l IH]; intros k lo Hk Hlo Hc Hl; [done|].
  pose proof Hl as Hl0. cbn in Hl. destruct Hl as (Hs&Hb&Hl). rewrite fmap_cons. cbn [process_walk adv].
  rewrite (seq_off n (seq_num f)) by done. fold (foff n f).
  rewrite SN_LESS_near, SN_EQUAL_near by lia.
  destruct (Z.ltb_spec k (foff n f)) as [Hkf|Hkf].
  - f_equal. destruct (from_all n k (foff n f) 2047 (f :: l)) as [-> _]; [lia| |done].
    cbn in *. split_and!; [easy|lia|lia|easy].
  - set (k' := if k =? foff n f then k + 1 else k).
    assert (foff n f < adv k' (foff n <$> l)) as Hlt.
    { pose proof (adv_ge k' (foff n <$> l)). subst k'. destruct (Z.eqb_spec k (foff n f)); lia. }
    unfold from. rewrite filter_cons_False by lia. fold (from n (adv k' (foff n <$> l)) l).
    assert ((if k =? foff n f then process_walk (Z.land ((n + k) mod 4096 + 1) 4095) l
             else process_walk ((n + k) mod 4096) l) = process_walk ((n + k') mod 4096) l) as ->.
    { subst k'. destruct (k =? foff n f); [|done].
      rewrite land_4095, Zplus_mod_idemp_l. do 2 f_equal. lia. }
    apply (IH k' (foff n f + 1)); subst k'; destruct (Z.eqb_spec k (foff n f)); try lia; done.
Qed.

Section Walks.
Context {S : Type} `{RxSinkLaws S}.

(** Releasing a plain frame is one delivery and one descriptor given back. *)
Definition emit (f : recv_msdu) (p : aicwf_rx_priv S) : aicwf_rx_priv S :=
  reord_rxframe_free (f <| pkt := None |>)
    (match pkt f with Some s => netif_one s p | None => p end).
Definition emits (l : list recv_msdu) (p : aicwf_rx_priv S) : aicwf_rx_priv S :=
  fold_left (fun q f => emit f q) l p.

Lemma plain_inv f : plain f = true ->
  exists s, pkt f = Some s /\ is_ap_reord f = 0 /\ is_amsdu f = 0 /\ forward f <> 0.
Proof.
  unfold plain. rewrite !andb_true_iff, bool_decide_eq_true, negb_true_iff, Z.eqb_neq, !Z.eqb_eq.
  intros [[[[s Hs] ?] ?] ?]. eauto.
Qed.

Lemma single_plain env p f : plain f = true -> reord_single_frame_ind env p f = Ok (emit f p, 0).
Proof.
  intros (s&Hs&Ha&Hm&Hf)%plain_inv. unfold reord_single_frame_ind, emit.
  rewrite Hs, Ha, Hm. destruct (Z.eqb_spec (forward f) 0); [done|]. reflexivity.
Qed.

Lemma ind_walk_kept env n K lo hi p l q l' : 0 <= K <= 2048 -> 1 <= lo \/ K <= 2047 -> 0 <= lo -> hi <= 2047 ->
  increasing n lo hi l -> (forall f, f ∈ l -> foff n f <> K) ->
  ind_walk env ((n + K) mod 4096) p l = Ok (q, l') -> l' = from n K l.
Proof.
  intros HK Hc Hlo Hhi. revert p lo Hc Hlo. induction l as [|f l IH]; intros p lo Hc Hlo Hl Hf.
  - now intros [= _ <-].
  - pose proof Hl as Hl0. cbn in Hl. destruct Hl as (Hs&Hb&Hl). cbn [ind_walk].
    rewrite (seq_off n (seq_num f)) by done. fold (foff n f). rewrite SN_LESS_near by lia.
    destruct (Z.ltb_spec K (foff n f)).
    + intros [= _ <-]. symmetry. apply (from_all n K (foff n f) hi); [lia|].
      cbn in *. split_and!; [easy|lia|lia|easy].
    + intros ([q' r]&_&E)%bind_Ok_inv. unfold from. specialize (Hf f ltac:(left)) as Hne.
      rewrite filter_cons_False by lia. eapply (IH q' (foff n f + 1)); [lia|lia|done| |exact E].
      intros g Hg. apply Hf. now right.
Qed.

Lemma ind_walk_plain env n K lo hi p l : 0 <= K <= 2048 -> 1 <= lo \/ K <= 2047 -> 0 <= lo -> hi <= 2047 ->
  increasing n lo hi l -> Forall (fun f => plain f = true) l ->
  (forall f, f ∈ l -> foff n f <> K) ->
  ind_walk env ((n + K) mod 4096) p l = Ok (emits (before n K l) p, from n K l).
Proof.
  intros HK Hc Hlo Hhi. revert p lo Hc Hlo. induction l as [|f l IH]; intros p lo Hc Hlo Hl Hpl Hf; [done|].
  pose proof Hl as Hl0. cbn in Hl. destruct Hl as (Hs&Hb&Hl). cbn [ind_walk].
  rewrite (seq_off n (seq_num f)) by done. fold (foff n f). rewrite SN_LESS_near by lia.
  inversion_clear Hpl as [|? ? Hpf Hpl'].
  destruct (Z.ltb_spec K (foff n f)).
  - destruct (from_all n K (foff n f) hi (f :: l)) as [-> ->]; [lia| |done].
    cbn in *. split_and!; [easy|lia|lia|easy].
  - rewrite single_plain by done. cbn [mbind res_bind]. specialize (Hf f ltac:(left)) as Hne.
    unfold from, before.
    rewrite (filter_cons_True (fun g => foff n g < K)), (filter_cons_False (fun g => K <= foff n g)) by lia.
    apply (IH _ (foff n f + 1)); [lia|lia|done|done|].
    intros g Hg. apply Hf. now right.
Qed.

Lemma delivered_emits l p : delivered (sink (emits l p)) = delivered (sink p) ++ omap pkt l.
Proof.
  revert p. induction l as [|f l IH]; intros p; [now rewrite app_nil_r|].
  unfold emits in *. cbn [fold_left]. rewrite IH. cbn [omap list_omap].
  unfold emit. destruct (pkt f); cbn; [|done].
  rewrite delivered_deliver, <- app_assoc. reflexivity.
Qed.

Lemma freed_emits l p : freed (sink (emits l p)) = freed (sink p).
Proof.
  revert p. induction l as [|f l IH]; intros p; [done|].
  unfold emits in *. cbn [fold_left]. rewrite IH. unfold emit. destruct (pkt f); cbn; [|done].
  apply freed_deliver.
Qed.

Lemma freequeue_emits l p :
  rxframes_freequeue (emits l p) = reverse ((fun f => f <| pkt := None |>) <$> l) ++ rxframes_freequeue p.
Proof.
  revert p. induction l as [|f l IH]; intros p; [done|].
  unfold emits in *. cbn [fold_left]. rewrite IH, fmap_cons, reverse_cons, <- app_assoc.
  f_equal. unfold emit. now destruct (pkt f).
Qed.

Lemma stas_emits l p : stas_reord_list (emits l p) = stas_reord_list p.
Proof.
  revert p. induction l as [|f l IH]; intros p; [done|].
  unfold emits in *. cbn [fold_left]. rewrite IH. unfold emit. now destruct (pkt f).
Qed.

End Walks.

(** Where the window check leaves [ind_sn], as an offset from its old value,
    for a frame at offset [d]: past the frame when it is the expected one,
    unchanged inside the window, the window's end on the frame beyond it. *)
Definition slide (d : Z) : Z := if d =? 0 then 1 else if d <=? 63 then 0 else d - 63.

Lemma ctrl_set_ind c : c <| ind_sn := ind_sn c |> = c.
Proof. now destruct c. Qed.

Lemma need_check_spec c n s : wsize_b c = 64 -> ind_sn c = n -> seq12 n -> seq12 s ->
  reord_need_check c s =
    if 2048 <=? off n s then (true, c)
    else (false, c <| ind_sn := (n + slide (off n s)) mod 4096 |>).
Proof.
  intros Hw <- Hn Hs. unfold reord_need_check. rewrite Hw.
  pose proof (off_bound (ind_sn c) s). set (d := off (ind_sn c) s) in *. unfold seq12 in *.
  assert (s = (ind_sn c + d) mod 4096) as Es by now apply seq_off.
  destruct (Z.eqb_spec (ind_sn c) 65535); [lia|].
  assert (SN_LESS s (ind_sn c) = (2048 <=? d)) as ->.
  { rewrite SN_LESS_off. subst d. reflexivity. }
  destruct (Z.leb_spec 2048 d); [done|].
  assert (SN_EQUAL s (ind_sn c) = (d =? 0)) as ->.
  { pose proof (SN_EQUAL_near (ind_sn c) d 0 ltac:(lia)) as Hq.
    rewrite <- Es, Z.add_0_r, (Z.mod_small (ind_sn c)) in Hq by lia. exact Hq. }
  unfold slide. destruct (Z.eqb_spec d 0); [now rewrite land_4095|].
  assert (SN_LESS (Z.land (ind_sn c + 64 - 1) 4095) s = (63 <? d)) as ->.
  { rewrite land_4095, Es. replace (ind_sn c + 64 - 1) with (ind_sn c + 63) by lia.
    apply SN_LESS_near. lia. }
  destruct (Z.leb_spec d 63), (Z.ltb_spec 63 d); try lia.
  - rewrite Z.add_0_r, Z.mod_small by lia. now rewrite ctrl_set_ind.
  - change (64 - 1) with 63.
    assert ((ind_sn c + (d - 63)) mod 4096 = (s - 63) mod 4096) as ->.
    { rewrite Es, Zminus_mod_idemp_l. f_equal. lia. }
    destruct (Z.leb_spec 63 s).
    + rewrite wrapU_small by lia. now rewrite Z.mod_small by lia.
    + rewrite wrapU_small by lia.
      assert ((s - 63) mod 4096 = 4095 - (64 - (s + 1)) + 1) as ->; [|done].
      replace (s - 63) with (s - 63 + 4096 + -1 * 4096) by lia.
      rewrite Z_mod_plus_full, Z.mod_small by lia. lia.
Qed.

Lemma need_check_first c s : wsize_b c = 64 -> ind_sn c = 65535 -> seq12 s ->
  reord_need_check c s = (false, c <| ind_sn := (s + 1) mod 4096 |>).
Proof.
  intros Hw Hi Hs. unfold reord_need_check. rewrite Hi. cbn [Z.eqb Pos.eqb field_set ind_sn].
  rewrite SN_LESS_off, Z.sub_diag. change (2048 <=? 0 mod 4096) with false.
  unfold SN_EQUAL. rewrite Z.eqb_refl, land_4095. now destruct c.
Qed.

(** Sorted insertion by offset. *)
Definition insert_off (n : Z) (f : recv_msdu) (l : list recv_msdu) : list recv_msdu :=
  before n (foff n f) l ++ f :: from n (foff n f) l.

Lemma enqueue_walk_spec n lo hi f l : 0 <= lo -> hi <= 2047 -> increasing n lo hi l ->
  seq12 (seq_num f) -> foff n f <= 2047 ->
  enqueue_walk f l =
    if bool_decide (foff n f ∈ foff n <$> l) then None else Some (insert_off n f l).
Proof.
  intros Hlo Hhi Hl Hs Hd. pose proof (off_bound n (seq_num f)) as Hd0. fold (foff n f) in Hd0.
  revert lo Hlo Hl. induction l as [|g l IH]; intros lo Hlo Hl; [done|].
  pose proof Hl as Hl0. cbn in Hl. destruct Hl as (Hg&Hb&Hl). cbn [enqueue_walk].
  rewrite (seq_off n (seq_num f)), (seq_off n (seq_num g)) by done. fold (foff n f) (foff n g).
  rewrite SN_LESS_near, SN_EQUAL_near by lia. rewrite fmap_cons.
  destruct (Z.ltb_spec (foff n g) (foff n f)).
  - rewrite (IH (foff n g + 1)) by (done || lia). unfold insert_off, before, from.
    rewrite (filter_cons_True (fun h => foff n h < foff n f)),
      (filter_cons_False (fun h => foff n f <= foff n h)) by lia.
    assert (bool_decide (foff n f ∈ foff n g :: (foff n <$> l)) = bool_decide (foff n f ∈ foff n <$> l)) as ->.
    { apply bool_decide_ext. rewrite elem_of_cons. split; [intros [?|?]; [lia|done]|auto]. }
    now case_bool_decide.
  - destruct (Z.eqb_spec (foff n g) (foff n f)) as [E|E].
    + rewrite bool_decide_eq_true_2; [done|]. rewrite E. left.
    + rewrite bool_decide_eq_false_2.
      * unfold insert_off. destruct (from_all n (foff n f) (foff n g) hi (g :: l)) as [-> ->]; [lia| |done].
        cbn in *. split_and!; [easy|lia|lia|easy].
      * rewrite elem_of_cons, list_elem_of_fmap. intros [?|(h & Eh & Hh)]; [lia|].
        destruct (increasing_elem _ _ _ _ _ Hl Hh). lia.
Qed.

Lemma increasing_insert n lo hi f l : increasing n lo hi l -> seq12 (seq_num f) ->
  foff n f ∉ foff n <$> l ->
  increasing n (Z.min lo (foff n f)) (Z.max hi (foff n f)) (insert_off n f l).
Proof.
  intros Hl Hs. revert lo Hl. induction l as [|g l IH]; intros lo Hl Hn.
  - cbn. split_and!; [done|lia|lia|done].
  - pose proof Hl as Hl0. cbn in Hl. destruct Hl as (Hg&Hb&Hl). rewrite fmap_cons, not_elem_of_cons in Hn.
    destruct Hn as [Hne Hn]. unfold insert_off. destruct (decide (foff n g < foff n f)).
    + unfold before, from. rewrite (filter_cons_True (fun h => foff n h < foff n f)),
        (filter_cons_False (fun h => foff n f <= foff n h)) by lia.
      cbn. split_and!; [done|lia|lia|].
      eapply increasing_weaken; [| |apply (IH _ Hl Hn)]; lia.
    + destruct (from_all n (foff n f) (foff n g) hi (g :: l)) as [-> ->]; [lia| |].
      { cbn in *. split_and!; [easy|lia|lia|easy]. }
      cbn. split_and!; [done|lia|lia|done|lia|lia|].
      eapply increasing_weaken; [| |exact Hl]; lia.
Qed.

Lemma insert_off_perm n f lo hi l : increasing n lo hi l -> insert_off n f l ≡ₚ f :: l.
Proof.
  intros Hl. unfold insert_off. rewrite <- Permutation_middle. constructor.
  now rewrite (before_from _ _ _ _ _ Hl).
Qed.

Section Accept.
Context {S : Type} `{RxSinkLaws S}.

(** The frames and bounds an accepted frame at offset [d] gives rise to. *)
Lemma accept_bounds n d f l l' K : increasing n 1 63 l -> seq12 (seq_num f) -> d = foff n f -> d <= 2047 ->
  d ∉ foff n <$> l -> l' = insert_off n f l -> K = adv (slide d) (foff n <$> l') ->
  0 <= d /\ 0 <= slide d <= 2048 /\ (slide d <= 2047 \/ 1 <= Z.min 1 d) /\
  slide d <= K <= Z.max 63 d + 1 /\ increasing n (Z.min 1 d) (Z.max 63 d) l' /\
  (forall g, g ∈ l' -> foff n g <> K).
Proof.
  intros Hinc Hs Hd Hd2 Hnew Hl HK.
  pose proof (off_bound n (seq_num f)) as Hd0. fold (foff n f) in Hd0. rewrite <- Hd in Hd0.
  assert (increasing n (Z.min 1 d) (Z.max 63 d) l') as Hincl.
  { subst l' d. now apply increasing_insert. }
  assert (0 <= slide d <= 2048 /\ slide d <= Z.max 63 d + 1 /\ (slide d <= 2047 \/ 1 <= Z.min 1 d)).
  { unfold slide. destruct (Z.eqb_spec d 0), (Z.leb_spec d 63); lia. }
  split_and!; try lia; [subst K; apply adv_ge| |done|].
  - subst K. apply adv_le; [lia|]. eapply increasing_offsets_le, Hincl.
  - intros g Hg. subst K. now apply (adv_fresh _ _ _ _ _ _ Hincl).
Qed.

(** What accepting a new frame at offset [d] does: the frame joins the held
    ones, and everything before the next missing number is released. *)
Lemma unit_accept_walk env p c f n d l K :
  wsize_b c = 64 -> ind_sn c = n -> seq12 n -> increasing n 1 63 (reord_list c) ->
  seq12 (seq_num f) -> d = foff n f -> d <= 2047 -> d ∉ foff n <$> reord_list c ->
  l = insert_off n f (reord_list c) -> K = adv (slide d) (foff n <$> l) ->
  reord_unit_locked env p c f =
    '(q, l') ← ind_walk env ((n + K) mod 4096) p l;
    Ok (q, c <| ind_sn := (n + K) mod 4096 |> <| reord_list := l' |>
             <| reord_timer := negb (bool_decide (from n K l = [])) |>, 0).
Proof.
  intros Hw Hi Hn Hinc Hs Hd Hd2 Hnew Hl HK.
  destruct (accept_bounds n d f _ l K Hinc Hs Hd Hd2 Hnew Hl HK) as (Hd0&Hsl&Hsl'&HKb&Hincl&Hfresh).
  unfold reord_unit_locked. rewrite (need_check_spec c n) by done. fold (foff n f). rewrite <- Hd.
  destruct (Z.leb_spec 2048 d); [lia|].
  assert (increasing n (Z.min 1 d) 2047 l) as Hinc2 by (eapply increasing_weaken; [| |exact Hincl]; lia).
  unfold reord_rxframe_enqueue. cbn [field_set reord_list].
  rewrite (enqueue_walk_spec n 1 63) by (done || lia). rewrite <- Hd.
  rewrite bool_decide_eq_false_2 by done. cbn [fmap option_fmap option_map].
  rewrite <- Hl. unfold reord_rxframes_process. cbn [field_set reord_list ind_sn].
  assert (l <> []) as Hl0 by (subst l; unfold insert_off; intros E; destruct (before n (foff n f) (reord_list c)); discriminate).
  destruct l as [|h t] eqn:El; [done|]. rewrite <- El in *.
  rewrite (process_walk_adv n (slide d) (Z.min 1 d)) by (done || lia).
  rewrite <- HK. unfold reord_rxframes_ind. cbn [field_set reord_list ind_sn].
  now destruct (ind_walk env ((n + K) mod 4096) p l) as [[q l']|e].
Qed.

Lemma unit_accept env p c f n d l K :
  wsize_b c = 64 -> ind_sn c = n -> seq12 n -> increasing n 1 63 (reord_list c) ->
  seq12 (seq_num f) -> d = foff n f -> d <= 2047 -> d ∉ foff n <$> reord_list c ->
  l = insert_off n f (reord_list c) -> K = adv (slide d) (foff n <$> l) ->
  Forall (fun g => plain g = true) (f :: reord_list c) ->
  reord_unit_locked env p c f =
    Ok (emits (before n K l) p,
        c <| ind_sn := (n + K) mod 4096 |> <| reord_list := from n K l |>
          <| reord_timer := negb (bool_decide (from n K l = [])) |>, 0).
Proof.
  intros Hw Hi Hn Hinc Hs Hd Hd2 Hnew Hl HK Hpl. erewrite unit_accept_walk by eassumption.
  destruct (accept_bounds n d f _ l K Hinc Hs Hd Hd2 Hnew Hl HK) as (Hd0&Hsl&Hsl'&HKb&Hincl&Hfresh).
  rewrite (ind_walk_plain env n K (Z.min 1 d) 2047); [done|lia|lia|lia|lia| | |done].
  - eapply increasing_weaken; [| |exact Hincl]; lia.
  - subst l. now rewrite (insert_off_perm _ _ _ _ _ Hinc).
Qed.

(** The window of the next state. *)
Lemma accept_wf n d f l l' K : increasing n 1 63 l -> seq12 (seq_num f) -> d = foff n f -> d <= 2047 ->
  d ∉ foff n <$> l -> l' = insert_off n f l -> K = adv (slide d) (foff n <$> l') ->
  increasing ((n + K) mod 4096) 1 63 (from n K l').
Proof.
  intros Hinc Hs Hd Hd2 Hnew Hl HK.
  destruct (accept_bounds n d f _ l' K Hinc Hs Hd Hd2 Hnew Hl HK) as (Hd0&Hsl&Hsl'&HKb&Hincl&Hfresh).
  assert (increasing n (K + 1) (Z.max 63 d) (from n K l')) as Hf.
  { eapply increasing_from_fresh; [exact Hfresh| |exact Hincl]. lia. }
  eapply increasing_shift with (k := K) in Hf; [|lia|lia].
  eapply increasing_weaken; [| |exact Hf]; [lia|].
  unfold slide in HKb. destruct (Z.eqb_spec d 0), (Z.leb_spec d 63); lia.
Qed.

(** A frame from behind [ind_sn]: the window is not touched. *)
Lemma unit_late env p c f n : wsize_b c = 64 -> ind_sn c = n -> seq12 n -> seq12 (seq_num f) ->
  2048 <= foff n f ->
  reord_unit_locked env p c f =
    b ← rd8 (rx_data f) 42;
    if b =? 128 then Ok (unit_drop f p, c, 0)
    else '(q, _) ← reord_single_frame_ind env p f; Ok (q, c, 0).
Proof.
  intros Hw Hi Hn Hs Hd. unfold reord_unit_locked. rewrite (need_check_spec c n) by done. fold (foff n f).
  destruct (Z.leb_spec 2048 (foff n f)); [|lia].
  destruct (Z.eqb_spec (seq_num f) (ind_sn c)) as [E|E]; [|done].
  unfold foff in Hd. rewrite E, Hi, off_refl in Hd. lia.
Qed.

(** A number already held: the new copy is freed. *)
Lemma unit_dup env p c f n : wsize_b c = 64 -> ind_sn c = n -> seq12 n ->
  increasing n 1 63 (reord_list c) -> seq12 (seq_num f) -> foff n f ∈ foff n <$> reord_list c ->
  reord_unit_locked env p c f = Ok (unit_drop f p, c, 0).
Proof.
  intros Hw Hi Hn Hinc Hs Hd.
  assert (1 <= foff n f <= 63) as Hb.
  { apply list_elem_of_fmap in Hd as (g&->&Hg). now apply (increasing_elem _ _ _ _ _ Hinc). }
  unfold reord_unit_locked. rewrite (need_check_spec c n) by done. fold (foff n f).
  destruct (Z.leb_spec 2048 (foff n f)); [lia|].
  assert (slide (foff n f) = 0) as ->.
  { unfold slide. destruct (Z.eqb_spec (foff n f) 0), (Z.leb_spec (foff n f) 63); lia. }
  rewrite Z.add_0_r, Z.mod_small by done. subst n. rewrite ctrl_set_ind.
  unfold reord_rxframe_enqueue. rewrite (enqueue_walk_spec (ind_sn c) 1 63) by (done || lia).
  now rewrite bool_decide_eq_true_2 by done.
Qed.

(** The first frame after the control was (re-)enabled. *)
Lemma unit_first env p c f : wsize_b c = 64 -> ind_sn c = 65535 -> reord_list c = [] -> seq12 (seq_num f) ->
  reord_unit_locked env p c f =
    '(q, _) ← reord_single_frame_ind env p f;
    Ok (q, c <| ind_sn := (seq_num f + 1) mod 4096 |> <| reord_list := [] |> <| reord_timer := false |>, 0).
Proof.
  intros Hw Hi Hl Hs. unfold reord_unit_locked. rewrite need_check_first by done.
  unfold reord_rxframe_enqueue. cbn [field_set reord_list]. rewrite Hl. cbn [enqueue_walk fmap option_fmap option_map].
  unfold reord_rxframes_process. cbn [field_set reord_list ind_sn process_walk].
  assert (SN_LESS ((seq_num f + 1) mod 4096) (seq_num f) = false) as E.
  { pose proof (SN_LESS_near (seq_num f) 1 0 ltac:(lia)) as HL.
    rewrite Z.add_0_r, (Z.mod_small (seq_num f)) in HL by done. exact HL. }
  assert (SN_EQUAL ((seq_num f + 1) mod 4096) (seq_num f) = false) as E2.
  { pose proof (SN_EQUAL_near (seq_num f) 1 0 ltac:(lia)) as HL.
    rewrite Z.add_0_r, (Z.mod_small (seq_num f)) in HL by done. exact HL. }
  rewrite E, E2. unfold reord_rxframes_ind. cbn [field_set reord_list ind_sn ind_walk]. rewrite E.
  now destruct (reord_single_frame_ind env p f) as [[q r]|e].
Qed.

(** The timeout's walk: from the first held frame, at offset [d], on. *)
Definition timeout_next (n : Z) (l : list recv_msdu) : Z :=
  match l with [] => 0 | h :: _ => adv (foff n h) (foff n <$> l) end.

Lemma timeout_bounds n h t K : increasing n 1 63 (h :: t) -> K = timeout_next n (h :: t) ->
  foff n h < K <= 64 /\ (forall g, g ∈ h :: t -> foff n g <> K).
Proof.
  intros Hinc ->. unfold timeout_next. split; [|intros g Hg; exact (adv_fresh n _ _ _ _ _ Hinc Hg)].
  split.
  - rewrite fmap_cons. cbn [adv]. rewrite Z.ltb_irrefl, Z.eqb_refl.
    pose proof (adv_ge (foff n h + 1) (foff n <$> t)). lia.
  - apply (adv_le _ _ 63); [|eapply increasing_offsets_le, Hinc]. cbn in Hinc. lia.
Qed.

Lemma worker_walk env p c n h t K :
  seq12 n -> ind_sn c = n -> reord_list c = h :: t -> increasing n 1 63 (h :: t) -> K = timeout_next n (h :: t) ->
  reord_timeout_worker env p c =
    '(q, l') ← ind_walk env ((n + K) mod 4096) p (h :: t);
    Ok (q, c <| reord_timer_work := false |> <| ind_sn := (n + K) mod 4096 |>
             <| reord_timer ::= fun b => negb (bool_decide (from n K (h :: t) = [])) || b |>
             <| reord_list := l' |>).
Proof.
  intros Hn Hi Hl Hinc HK. destruct (timeout_bounds n h t K Hinc HK) as [HKb Hfr].
  unfold reord_timeout_worker, reord_rxframes_process. cbn [field_set reord_list]. rewrite Hl.
  assert (seq12 (seq_num h) /\ 1 <= foff n h <= 63) as [Hsh Hbh] by (cbn in Hinc; easy).
  rewrite (seq_off n (seq_num h)) by done. fold (foff n h).
  rewrite (process_walk_adv n (foff n h) 1); [|lia|lia|lia|eapply increasing_weaken; [| |exact Hinc]; lia].
  change (adv (foff n h) (foff n <$> h :: t)) with (timeout_next n (h :: t)). rewrite <- HK.
  unfold reord_rxframes_ind.
  destruct (bool_decide (from n K (h :: t) = [])); cbn [negb orb field_set reord_list ind_sn];
    destruct (ind_walk env ((n + K) mod 4096) p (h :: t)) as [[q l']|e]; reflexivity.
Qed.

Lemma timeout_wf n h t K : increasing n 1 63 (h :: t) -> K = timeout_next n (h :: t) ->
  increasing ((n + K) mod 4096) 1 63 (from n K (h :: t)).
Proof.
  intros Hinc HK. destruct (timeout_bounds n h t K Hinc HK) as [HKb Hfr].
  assert (increasing n (K + 1) 63 (from n K (h :: t))) as Hf.
  { eapply increasing_from_fresh; [exact Hfr| |exact Hinc]. cbn in Hinc. lia. }
  cbn in Hinc. eapply increasing_shift with (k := K) in Hf; [|lia|lia].
  eapply increasing_weaken; [| |exact Hf]; lia.
Qed.

End Accept.

End Spec.

Module Window.
Import Rx SeqNum Spec.

Lemma off_unshift n k s : 0 <= k -> off ((n + k) mod 4096) s + k < 4096 ->
  off n s = off ((n + k) mod 4096) s + k.
Proof.
  intros Hk Hlt. pose proof (off_bound ((n + k) mod 4096) s).
  rewrite <- (Z.mod_small (off ((n + k) mod 4096) s + k) 4096) by lia.
  unfold off. rewrite Zplus_mod_idemp_l.
  replace (s - (n + k) mod 4096 + k) with (s + k - (n + k) mod 4096) by lia.
  rewrite Zminus_mod_idemp_r. f_equal. lia.
Qed.

Lemma increasing_unshift n k lo hi l : 0 <= k -> 0 <= lo -> hi + k < 4096 ->
  increasing ((n + k) mod 4096) lo hi l -> increasing n (lo + k) (hi + k) l.
Proof.
  intros Hk Hlo Hhi. revert lo Hlo. induction l as [|f l IH]; intros lo Hlo; [done|].
  cbn. intros (Hs&Hb&Hl). unfold foff in *. rewrite (off_unshift n k) by lia.
  split_and!; [done|lia|lia|]. apply IH in Hl; [|lia].
  replace (off ((n + k) mod 4096) (seq_num f) + k + 1) with (off ((n + k) mod 4096) (seq_num f) + 1 + k) by lia.
  done.
Qed.

Lemma increasing_app n lo k hi a b : lo <= k -> k <= hi + 1 ->
  increasing n lo (k - 1) a -> increasing n k hi b -> increasing n lo hi (a ++ b).
Proof.
  intros Hlo Hk. revert lo Hlo. induction a as [|f a IH]; intros lo Hlo Ha Hb.
  - eapply increasing_weaken; [| |exact Hb]; lia.
  - cbn in *. destruct Ha as (?&?&Ha). split_and!; [done|lia|lia|]. apply IH; [lia|done|done].
Qed.

Lemma increasing_before n K lo hi l : increasing n lo hi l -> increasing n lo (K - 1) (before n K l).
Proof.
  revert lo. induction l as [|f l IH]; intros lo Hl; [done|]. cbn in Hl. destruct Hl as (Hs&Hb&Hl).
  unfold before in *. destruct (decide (foff n f < K)).
  - rewrite filter_cons_True by done. cbn. split_and!; [done|lia|lia|]. apply IH, Hl.
  - rewrite filter_cons_False by done. eapply increasing_weaken; [| |exact (IH _ Hl)]; lia.
Qed.

Lemma increasing_tighten n lo hi hi' l : increasing n lo hi l -> Forall (fun f => foff n f <= hi') l ->
  increasing n lo hi' l.
Proof.
  revert lo. induction l as [|f l IH]; intros lo Hl Hf; [done|]. cbn in *.
  inversion_clear Hf. destruct Hl as (?&?&?). split_and!; [done|lia|lia|]. now apply IH.
Qed.

Lemma increasing_unique n lo hi lo' hi' a b : a ≡ₚ b -> increasing n lo hi a -> increasing n lo' hi' b -> a = b.
Proof.
  revert lo lo' b. induction a as [|f a IH]; intros lo lo' b Hp Ha Hb.
  - now apply Permutation_nil_l in Hp.
  - destruct b as [|g b]; [now apply Permutation_nil_r in Hp|].
    pose proof Ha as Ha0. pose proof Hb as Hb0. cbn in Ha, Hb.
    destruct Ha as (_&_&Ha), Hb as (_&_&Hb).
    assert (f = g) as <-.
    { assert (f ∈ g :: b) as Hf by (rewrite <- Hp; left).
      assert (g ∈ f :: a) as Hg by (rewrite Hp; left).
      apply elem_of_cons in Hf as [?|Hf]; [done|]. apply elem_of_cons in Hg as [?|Hg]; [done|].
      apply (increasing_elem _ _ _ _ _ Hb) in Hf. apply (increasing_elem _ _ _ _ _ Ha) in Hg. lia. }
    f_equal. eapply IH; [|exact Ha|exact Hb]. eapply Permutation_cons_inv, Hp.
Qed.

Lemma increasing_consecutive n k l :
  (forall i f, l !! i = Some f -> seq12 (seq_num f) /\ foff n f = k + Z.of_nat i) ->
  increasing n k (k + Z.of_nat (length l)) l.
Proof.
  revert k. induction l as [|f l IH]; intros k Hk; [done|].
  destruct (Hk O f eq_refl) as [Hs0 E0]. cbn [increasing length]. split_and!; [done|lia|lia|].
  replace (k + Z.of_nat (Datatypes.S (length l))) with (foff n f + 1 + Z.of_nat (length l)) by lia.
  apply IH. intros i g Hg. destruct (Hk (Datatypes.S i) g Hg). split; [done|lia].
Qed.

(** A run of the locked part over a sequence of arrivals. *)
Fixpoint run_units {S} `{RxSink S} (env : rx_env) (p : aicwf_rx_priv S) (c : reord_ctrl) (fs : list recv_msdu)
  : res (aicwf_rx_priv S * reord_ctrl) :=
  match fs with
  | [] => Ok (p, c)
  | f :: fs' => '(q, c', _) ← reord_unit_locked env p c f; run_units env q c' fs'
  end.

Section Run.
Context {S : Type} `{RxSinkLaws S}.

(** After the arrivals [A]: the released frames [D] are those at the offsets
    below [K], the held ones are above [K]. *)
Record arrived (n : Z) (p0 : aicwf_rx_priv S) (A : list recv_msdu) (p : aicwf_rx_priv S) (c : reord_ctrl)
  (D : list recv_msdu) (K : Z) : Prop := {
  ar_perm : D ++ reord_list c ≡ₚ A;
  ar_K : 0 <= K;
  ar_D : increasing n 0 (K - 1) D;
  ar_l : increasing n (K + 1) 63 (reord_list c);
  ar_cov : forall x, 0 <= x < K -> x ∈ foff n <$> D;
  ar_ind : ind_sn c = (n + K) mod 4096;
  ar_w : wsize_b c = 64;
  ar_out : delivered (sink p) = delivered (sink p0) ++ omap pkt D;
  ar_freed : freed (sink p) = freed (sink p0);
  ar_timer : reord_timer c = negb (bool_decide (reord_list c = []))
}.

Lemma arrived_step env n p0 A p c D K f :
  arrived n p0 A p c D K -> K <= 64 ->
  seq12 (seq_num f) -> foff n f <= 63 -> foff n f ∉ foff n <$> A ->
  Forall (fun g => plain g = true) (f :: A) ->
  exists q c' D' K', reord_unit_locked env p c f = Ok (q, c', 0) /\ arrived n p0 (f :: A) q c' D' K'.
Proof.
  intros [Hp HK HD Hl Hcov Hind Hw Hout Hfr Ht] HK64 Hs Hd Hnew Hpl.
  inversion_clear Hpl as [|? ? Hpf HplA].
  set (n' := (n + K) mod 4096) in *.
  assert (Forall (fun g => plain g = true) (reord_list c)) as Hpll.
  { rewrite <- Hp, Forall_app in HplA. easy. }
  assert (K <= foff n f) as HKf.
  { destruct (Z.le_gt_cases K (foff n f)); [done|]. exfalso. apply Hnew. rewrite <- Hp, fmap_app.
    apply elem_of_app. left. apply Hcov. pose proof (off_bound n (seq_num f)). unfold foff in *. lia. }
  assert (foff n' f = foff n f - K) as Ed.
  { unfold foff, n'. rewrite off_shift by done. apply Z.mod_small.
    pose proof (off_bound n (seq_num f)). unfold foff in *. lia. }
  assert (increasing n' 1 63 (reord_list c)) as Hinc.
  { eapply increasing_weaken; [| |apply (increasing_shift n K (K + 1) 63)]; [lia|lia|lia|lia|done]. }
  assert (forall g, g ∈ reord_list c -> foff n g = foff n' g + K) as Hgs.
  { intros g Hg. destruct (increasing_elem _ _ _ _ _ Hinc Hg). unfold foff in *.
    apply off_unshift; subst n'; lia. }
  assert (foff n' f ∉ foff n' <$> reord_list c) as Hnew'.
  { rewrite list_elem_of_fmap. intros (g&E&Hg). apply Hnew. rewrite <- Hp, fmap_app.
    apply elem_of_app. right. apply list_elem_of_fmap. exists g. split; [|done].
    rewrite (Hgs g Hg). lia. }
  set (l2 := insert_off n' f (reord_list c)).
  set (K' := adv (slide (foff n' f)) (foff n' <$> l2)).
  destruct (accept_bounds n' (foff n' f) f (reord_list c) l2 K') as (Hd0&Hsl&_&HKb&Hincl&Hfresh);
    try done; [lia|].
  exists (emits (before n' K' l2) p),
    (c <| ind_sn := (n' + K') mod 4096 |> <| reord_list := from n' K' l2 |>
       <| reord_timer := negb (bool_decide (from n' K' l2 = [])) |>),
    (D ++ before n' K' l2), (K + K').
  split.
  { apply (unit_accept env p c f n' (foff n' f)); try done; [apply seq12_mod|lia|now constructor]. }
  assert (l2 ≡ₚ f :: reord_list c) as Hl2 by (eapply insert_off_perm, Hinc).
  assert (Forall (fun g => foff n g <= 63) l2) as H63.
  { rewrite Hl2. constructor; [lia|]. apply Forall_forall. intros g Hg.
    now apply (increasing_elem _ _ _ _ _ Hl). }
  pose proof (before_from n' K' _ _ l2 Hincl) as Hbf.
  assert (increasing n' 0 63 l2) as Hinc0.
  { eapply increasing_weaken; [| |exact Hincl]; lia. }
  constructor; cbn [field_set reord_list ind_sn wsize_b reord_timer]; try done.
  - rewrite <- app_assoc, Hbf, Hl2, <- Hp. symmetry. apply Permutation_middle.
  - lia.
  - apply (increasing_app n 0 K); [lia|lia|done|].
    pose proof (increasing_before n' K' _ _ _ Hinc0) as Hb.
    apply (increasing_unshift n K) in Hb; [|lia|lia|lia].
    eapply increasing_weaken; [| |exact Hb]; lia.
  - apply (increasing_tighten _ _ (63 + K)).
    + assert (increasing n' (K' + 1) 63 (from n' K' l2)) as Hf.
      { eapply increasing_from_fresh; [exact Hfresh| |exact Hinc0]. lia. }
      apply (increasing_unshift n K) in Hf; [|lia|lia|lia].
      eapply increasing_weaken; [| |exact Hf]; lia.
    + rewrite <- Hbf, Forall_app in H63. easy.
  - intros x Hx. rewrite fmap_app. apply elem_of_app.
    destruct (Z.lt_ge_cases x K); [left; apply Hcov; lia|right].
    assert (x - K ∈ foff n' <$> l2) as Hin.
    { destruct (decide (slide (foff n' f) <= x - K)).
      - apply (adv_covers (slide (foff n' f))). fold K'. lia.
      - assert (x - K = foff n' f) as ->.
        { unfold slide in *. destruct (Z.eqb_spec (foff n' f) 0), (Z.leb_spec (foff n' f) 63); lia. }
        rewrite Hl2. left. }
    apply list_elem_of_fmap in Hin as (g&Eg&Hg). apply list_elem_of_fmap. exists g. split.
    + unfold foff in *. rewrite (off_unshift n K); subst n'; lia.
    + apply list_elem_of_filter. split; [lia|done].
  - subst n'. rewrite Zplus_mod_idemp_l. f_equal. lia.
  - rewrite delivered_emits, Hout, omap_app, app_assoc. done.
  - rewrite freed_emits. done.
Qed.

Lemma run_arrived env n p0 fs : forall A p c D K,
  arrived n p0 A p c D K -> NoDup (foff n <$> A ++ fs) ->
  Forall (fun g => plain g = true) (A ++ fs) ->
  Forall (fun g => seq12 (seq_num g) /\ foff n g <= 63) (A ++ fs) ->
  exists q c' D' K', run_units env p c fs = Ok (q, c') /\ arrived n p0 (fs ++ A) q c' D' K'.
Proof.
  induction fs as [|f fs IH]; intros A p c D K Ha Hnd Hpl Hb.
  - exists p, c, D, K. done.
  - rewrite <- (Permutation_middle A) in Hb, Hpl, Hnd.
    assert (K <= 64) as HK.
    { destruct (Z.le_gt_cases K 64); [done|].
      pose proof (ar_cov _ _ _ _ _ _ _ Ha 64 ltac:(lia)) as (g&Eg&Hg)%list_elem_of_fmap.
      inversion_clear Hb as [|? ? _ Hb']. rewrite Forall_app in Hb'. destruct Hb' as [Hb' _].
      rewrite Forall_forall in Hb'. destruct (Hb' g); [|lia].
      rewrite <- (ar_perm _ _ _ _ _ _ _ Ha). apply elem_of_app. now left. }
    destruct (arrived_step env n p0 A p c D K f) as (q&c'&D'&K'&E&Ha'); try done.
    + now inversion_clear Hb as [|? ? []].
    + now inversion_clear Hb as [|? ? []].
    + rewrite fmap_cons, fmap_app in Hnd. apply NoDup_cons in Hnd as [Hnd _].
      intros Hin. apply Hnd, elem_of_app. now left.
    + inversion_clear Hpl as [|? ? ? Hpl']. constructor; [done|]. rewrite Forall_app in Hpl'. easy.
    + destruct (IH (f :: A) q c' D' K' Ha') as (q2&c2&D2&K2&E2&Ha2).
      * exact Hnd.
      * exact Hpl.
      * exact Hb.
      * exists q2, c2, D2, K2. cbn [run_units]. rewrite E. cbn [mbind res_bind]. split; [done|].
        destruct Ha2. constructor; try done. rewrite ar_perm0. rewrite <- Permutation_middle. done.
Qed.

End Run.
End Window.

Module Account.
Import Rx SeqNum Spec.

(** Every frame a driver's reorder lists hold. *)
Definition held (p_stas : list reord_ctrl_info) : list recv_msdu :=
  p_stas ≫= (fun r => preorder_ctrl r ≫= reord_list).

(** A control as the code maintains it. *)
Record ctrl_inv (c : reord_ctrl) : Prop := {
  ci_wf : ctrl_wf c;
  ci_plain : Forall (fun g => plain g = true) (reord_list c);
  ci_off : enable c = false -> reord_list c = []
}.

Definition stas_inv (l : list reord_ctrl_info) : Prop :=
  Forall (fun r => length (preorder_ctrl r) = 8%nat /\ Forall ctrl_inv (preorder_ctrl r)) l.

Lemma bind_alter_perm {A B} (f : A -> list B) (g : A -> A) l i x : l !! i = Some x ->
  (alter g i l ≫= f) ++ f x ≡ₚ (l ≫= f) ++ f (g x).
Proof.
  revert i. induction l as [|a l IH]; intros [|i] Hx; simplify_eq/=.
  - change (mbind f l) with (l ≫= f). rewrite <- !app_assoc, (Permutation_app_comm (l ≫= f)).
    rewrite (Permutation_app_comm (l ≫= f)), app_assoc, (Permutation_app_comm (f (g x)) (f x)), <- app_assoc.
    reflexivity.
  - rewrite <- !app_assoc. f_equiv. apply (IH i Hx).
Qed.

Lemma held_set_ctrl l i t r c0 c : l !! i = Some r -> preorder_ctrl r !! t = Some c0 ->
  held (alter (fun r => r <| preorder_ctrl ::= <[t := c]> |>) i l) ++ reord_list c0
    ≡ₚ held l ++ reord_list c.
Proof.
  intros Hi Ht. unfold held.
  pose proof (bind_alter_perm (fun r => preorder_ctrl r ≫= reord_list)
    (fun r => r <| preorder_ctrl ::= <[t := c]> |>) l i r Hi) as H1. cbn beta in H1.
  pose proof (bind_alter_perm reord_list (fun _ => c) (preorder_ctrl r) t c0 Ht) as H2.
  assert (<[t:=c]> (preorder_ctrl r) = alter (fun _ => c) t (preorder_ctrl r)) as E.
  { apply list_eq. intros j. destruct (decide (j = t)) as [->|].
    - rewrite list_lookup_insert_eq by eauto using lookup_lt_Some. rewrite list_lookup_alter_eq, Ht. done.
    - rewrite list_lookup_insert_ne, list_lookup_alter_ne by done. done. }
  cbn [field_set preorder_ctrl] in H1. rewrite E in H1.
  set (L := alter _ i l ≫= _) in *. set (R := l ≫= _) in *.
  apply (Permutation_app_inv_r (preorder_ctrl r ≫= reord_list)).
  rewrite <- app_assoc, (Permutation_app_comm (reord_list c0)), app_assoc, H1.
  rewrite <- !app_assoc, H2. f_equiv. apply Permutation_app_comm.
Qed.

Lemma stas_inv_set l i t c : stas_inv l -> ctrl_inv c ->
  stas_inv (alter (fun r => r <| preorder_ctrl ::= <[t := c]> |>) i l).
Proof.
  intros Hl Hc. unfold stas_inv. apply Forall_alter; [done|]. intros r Hr [Hlen Hcs]. cbn.
  rewrite length_insert. split; [done|]. now apply Forall_insert.
Qed.

Lemma init_ctrl_inv : ctrl_inv init_ctrl.
Proof. split; [split; [done|left; done]|constructor|done]. Qed.

Lemma reenable_inv c : ctrl_inv c -> ctrl_inv (reenable c) /\ enable (reenable c) = true.
Proof.
  intros Hc. unfold reenable. destruct (enable c) eqn:E; [done|].
  split; [|done]. pose proof (ci_off _ Hc E) as Hl. split; cbn; rewrite ?Hl; [|constructor|done].
  split; [done|]. left. done.
Qed.

Lemma reenable_list c : reord_list (reenable c) = reord_list c.
Proof. unfold reenable. now destruct (enable c). Qed.

Section Unit.
Context {S : Type} `{RxSinkLaws S}.

(** The buffers and descriptors around one control. *)
Definition unit_balance (p q : aicwf_rx_priv S) (l l' : list recv_msdu) (f : recv_msdu) : Prop :=
  (delivered (sink q) ++ freed (sink q) ++ omap pkt l'
     ≡ₚ option_list (pkt f) ++ delivered (sink p) ++ freed (sink p) ++ omap pkt l) /\
  (msdu_id <$> rxframes_freequeue q ++ l' ≡ₚ msdu_id f :: (msdu_id <$> rxframes_freequeue p ++ l)) /\
  stas_reord_list q = stas_reord_list p.

Lemma emits_balance p l l' gone f : f :: l ≡ₚ gone ++ l' -> unit_balance p (emits gone p) l l' f.
Proof.
  intros Hp. unfold unit_balance. rewrite delivered_emits, freed_emits, freequeue_emits, stas_emits.
  split_and!; [| |done].
  - assert (option_list (pkt f) ++ omap pkt l ≡ₚ omap pkt gone ++ omap pkt l') as E.
    { rewrite <- omap_app, <- Hp. cbn [omap list_omap]. now destruct (pkt f). }
    rewrite <- app_assoc, (perm_swap_mid (omap pkt gone)), <- E.
    rewrite (perm_swap_mid (freed (sink p)) (option_list (pkt f))), (perm_swap_mid _ (option_list (pkt f))).
    done.
  - rewrite <- app_assoc, fmap_app, fmap_reverse, reverse_Permutation, <- list_fmap_compose.
    assert ((msdu_id ∘ (fun f0 : recv_msdu => f0 <| pkt := None |>)) <$> gone = msdu_id <$> gone) as ->.
    { now apply list_fmap_ext. }
    rewrite fmap_app, (perm_swap_mid (msdu_id <$> gone)), <- fmap_app, <- Hp.
    rewrite fmap_cons, fmap_app. symmetry. apply Permutation_middle.
Qed.

Lemma drop_balance p l f : unit_balance p (unit_drop f p) l l f.
Proof.
  unfold unit_balance, unit_drop. destruct (pkt f) as [s|]; cbn; split_and!; try done.
  rewrite delivered_free, freed_free. rewrite <- (Permutation_cons_append (freed (sink p)) s).
  cbn. symmetry. apply Permutation_middle.
Qed.

Lemma unit_locked_balance env p c f q c' r :
  ctrl_inv c -> enable c = true -> plain f = true -> seq12 (seq_num f) ->
  reord_unit_locked env p c f = Ok (q, c', r) ->
  ctrl_inv c' /\ unit_balance p q (reord_list c) (reord_list c') f.
Proof.
  intros [[Hw Hwf] Hpl Hoff] Hen Hpf Hs. unfold AICWF_REORDER_WINSIZE in Hw.
  destruct Hwf as [[Hi Hl]|[Hn Hinc]].
  - rewrite unit_first, single_plain by done. cbn [mbind res_bind]. intros [= <- <- _].
    split.
    + split; cbn; [|constructor|done]. split; [done|]. right. split; [apply seq12_mod|done].
    + rewrite Hl. cbn. apply (emits_balance p [] [] [f] f). done.
  - destruct (Z.le_gt_cases 2048 (foff (ind_sn c) f)) as [Hd|Hd].
    + rewrite (unit_late env p c f (ind_sn c)) by done.
      intros (b&_&E)%bind_Ok_inv. revert E. destruct (b =? 128).
      * intros [= <- <- _]. split; [|apply drop_balance]. split; [split; [done|right; done]|done|done].
      * rewrite single_plain by done. intros [= <- <- _].
        split; [split; [split; [done|right; done]|done|done]|]. now apply (emits_balance p _ _ [f] f).
    + destruct (decide (foff (ind_sn c) f ∈ foff (ind_sn c) <$> reord_list c)) as [Hin|Hin].
      * rewrite (unit_dup env p c f (ind_sn c)) by done. intros [= <- <- _].
        split; [split; [split; [done|right; done]|done|done]|apply drop_balance].
      * set (l := insert_off (ind_sn c) f (reord_list c)).
        set (K := adv (slide (foff (ind_sn c) f)) (foff (ind_sn c) <$> l)).
        rewrite (unit_accept env p c f (ind_sn c) (foff (ind_sn c) f) l K); try done; [|lia|now constructor].
        intros [= <- <- _].
        destruct (accept_bounds (ind_sn c) (foff (ind_sn c) f) f _ l K Hinc) as (_&_&_&_&Hincl&_);
          try done; [lia|].
        assert (f :: reord_list c ≡ₚ before (ind_sn c) K l ++ from (ind_sn c) K l) as Hp.
        { rewrite (before_from _ _ _ _ _ Hincl). symmetry. eapply insert_off_perm, Hinc. }
        split; [|cbn; now apply emits_balance].
        split; cbn; [split; [done|right; split; [apply seq12_mod|]]| |congruence].
        -- eapply (accept_wf _ (foff (ind_sn c) f) f (reord_list c)); try done. lia.
        -- assert (Forall (fun g => plain g = true) (before (ind_sn c) K l ++ from (ind_sn c) K l)) as Hall.
           { rewrite <- Hp. now constructor. }
           rewrite Forall_app in Hall. easy.
Qed.

Lemma find_sta_some mac l i r : find_sta mac l = Some (i, r) -> l !! i = Some r.
Proof. intros (?&_&_)%list_find_Some. done. Qed.

(** The lookup leaves the held frames alone and returns a live control. *)
Lemma reord_lookup_inv env mac t (p : aicwf_rx_priv S) i c (q : aicwf_rx_priv S) :
  stas_inv (stas_reord_list p) -> reord_lookup env mac t p = Ok (Some (i, c, q)) ->
  ctrl_inv c /\ enable c = true /\ stas_inv (stas_reord_list q) /\
  (exists r c0, stas_reord_list q !! i = Some r /\ preorder_ctrl r !! Z.to_nat t = Some c0 /\
     reord_list c = reord_list c0) /\
  held (stas_reord_list q) = held (stas_reord_list p) /\
  sink q = sink p /\ rxframes_freequeue q = rxframes_freequeue p.
Proof.
  intros Hinv. unfold reord_lookup. destruct (find_sta mac (stas_reord_list p)) as [[j r]|] eqn:Ef.
  - intros (c0&Ec&E)%bind_Ok_inv. injection E as <- <- <-.
    apply find_sta_some in Ef. destruct (preorder_ctrl r !! Z.to_nat t) as [c1|] eqn:Et; [|discriminate].
    injection Ec as ->. pose proof Hinv as Hinv'. unfold stas_inv in Hinv'. rewrite Forall_lookup in Hinv'.
    destruct (Hinv' j r Ef) as [_ Hc]. rewrite Forall_lookup in Hc. specialize (Hc _ _ Et).
    destruct (reenable_inv c0 Hc) as [? ?]. split_and!; try done.
    exists r, c0. split_and!; [done|done|apply reenable_list].
  - unfold reord_init_sta. destruct (bus_up env), (kmalloc_ok env); try discriminate. cbn [negb preorder_ctrl].
    intros (c0&Ec&E)%bind_Ok_inv. injection E as <- <- <-.
    destruct (replicate 8 init_ctrl !! Z.to_nat t) as [c1|] eqn:Et; [|discriminate].
    injection Ec as ->. pose proof Et as [-> _]%lookup_replicate. cbn [field_set stas_reord_list sink rxframes_freequeue].
    split_and!; try done.
    + apply init_ctrl_inv.
    + apply Forall_app. split; [done|]. constructor; [|constructor]. split; [done|].
      exact (Forall_replicate ctrl_inv 8 _ init_ctrl_inv).
    + exists (mk_info mac (replicate 8 init_ctrl)), init_ctrl.
      split_and!; [now rewrite list_lookup_middle|done|done].
    + unfold held. rewrite bind_app. cbn. now rewrite app_nil_r.
Qed.

End Unit.
End Account.

Module Props.
Import Rx SeqNum Spec Window Account.

(** A small frame for the witnesses. *)
Definition mkf (i s : Z) (data : list Z) : recv_msdu :=
  mk_msdu i (Some (mk_skb i data)) 0 1 s 0 0 0 0 data [] [].
Definition p_nil : aicwf_rx_priv rx_log := mk_priv [] [] 0 0 (mk_log [] []).
Definition env_sta : rx_env := mk_env IFTYPE_STATION true true true (fun _ => true) true.

(** C9. Reordering does its job: the frames [n], [n+1], ... of a window
    (at most 64, each carrying one MSDU), arriving in any order at a control
    that expects [n], are all handed to the network stack, in sequence order,
    each exactly once; nothing is freed, nothing is left behind, the timer is
    off and the next expected number is the one after the last frame. *)
Theorem reord_in_order {S} `{RxSinkLaws S} env (p : aicwf_rx_priv S) c n fs arrivals :
  wsize_b c = AICWF_REORDER_WINSIZE -> ind_sn c = n -> seq12 n -> reord_list c = [] -> reord_timer c = false ->
  (length fs <= 64)%nat ->
  (forall i f, fs !! i = Some f -> seq_num f = (n + Z.of_nat i) mod 4096 /\ plain f = true) ->
  arrivals ≡ₚ fs ->
  exists q c', run_units env p c arrivals = Ok (q, c') /\
    delivered (sink q) = delivered (sink p) ++ omap pkt fs /\ freed (sink q) = freed (sink p) /\
    reord_list c' = [] /\ ind_sn c' = (n + Z.of_nat (length fs)) mod 4096 /\ reord_timer c' = false.
Proof.
  intros Hw Hi Hn Hl Ht Hlen Hfs Hperm.
  assert (forall i f, fs !! i = Some f -> foff n f = Z.of_nat i) as Hoff.
  { intros i f Hf. unfold foff. destruct (Hfs i f Hf) as [-> _]. apply off_seq.
    apply lookup_lt_Some in Hf. lia. }
  assert (foff n <$> fs = Z.of_nat <$> seq 0 (length fs)) as Eoff.
  { apply list_eq. intros i. rewrite !list_lookup_fmap. destruct (fs !! i) as [f|] eqn:Hf.
    - rewrite lookup_seq_lt by (eapply lookup_lt_Some, Hf). cbn. now rewrite (Hoff i f Hf).
    - now rewrite lookup_seq_ge by (now apply lookup_ge_None). }
  destruct (run_arrived env n p arrivals [] p c [] 0) as (q&c'&D&K&E&Ha).
  - constructor; rewrite ?Hl; cbn; rewrite ?app_nil_r; try done; try lia. now rewrite Hi, Z.add_0_r, Z.mod_small.
  - cbn. rewrite Hperm, Eoff. apply NoDup_fmap_2; [apply _|]. apply NoDup_ListNoDup, List.seq_NoDup.
  - cbn. rewrite Hperm, Forall_lookup. intros i f Hf. now apply (Hfs i f).
  - cbn. rewrite Hperm, Forall_lookup. intros i f Hf. split.
    + destruct (Hfs i f Hf) as [-> _]. apply seq12_mod.
    + rewrite (Hoff i f Hf). apply lookup_lt_Some in Hf. lia.
  - destruct Ha as [Ap AK AD Al Acov Aind Aw Aout Afr At].
    rewrite app_nil_r in Ap. rewrite Hperm in Ap.
    assert (forall g, g ∈ D ++ reord_list c' -> 0 <= foff n g < Z.of_nat (length fs)) as Hin.
    { intros g Hg. rewrite Ap in Hg. apply list_elem_of_lookup in Hg as (i&Hg).
      rewrite (Hoff i g Hg). apply lookup_lt_Some in Hg. lia. }
    assert (Z.of_nat (length fs) <= K) as HKl.
    { destruct (Z.le_gt_cases (Z.of_nat (length fs)) K); [done|]. exfalso.
      destruct (lookup_lt_is_Some_2 fs (Z.to_nat K)) as [g Hg]; [lia|].
      pose proof (Hoff _ _ Hg) as Eg. assert (g ∈ D ++ reord_list c') as Hgin.
      { rewrite Ap. eapply list_elem_of_lookup_2, Hg. }
      apply elem_of_app in Hgin as [HgD|Hgl].
      - apply (increasing_elem _ _ _ _ _ AD) in HgD. lia.
      - apply (increasing_elem _ _ _ _ _ Al) in Hgl. lia. }
    assert (reord_list c' = []) as El'.
    { destruct (reord_list c') as [|g l] eqn:El'; [done|]. exfalso.
      assert (g ∈ D ++ g :: l) as Hg by (apply elem_of_app; right; left).
      apply Hin in Hg. assert (g ∈ g :: l) as Hg2 by left.
      apply (increasing_elem _ _ _ _ _ Al) in Hg2. lia. }
    rewrite El', app_nil_r in *.
    assert (K = Z.of_nat (length fs)) as ->.
    { destruct (decide (K = Z.of_nat (length fs))); [done|]. exfalso.
      pose proof (Acov (K - 1) ltac:(lia)) as (g&Eg&Hg)%list_elem_of_fmap. apply Hin in Hg. lia. }
    assert (D = fs) as ->.
    { eapply (increasing_unique n _ _ 0 (Z.of_nat (length fs))); [exact Ap|exact AD|].
      clear -Hoff Hfs.
      apply (increasing_consecutive n 0). intros i f Hf. rewrite (Hoff i f Hf). split; [|lia].
      destruct (Hfs i f Hf) as [-> _]. apply seq12_mod. }
    exists q, c'. split_and!; done.
Qed.

Definition order_ctrl : reord_ctrl := mk_ctrl true 4094 64 [] false false.
Definition order_fs : list recv_msdu := [mkf 0 4094 []; mkf 1 4095 []; mkf 2 0 []; mkf 3 1 []].
Definition order_arrivals : list recv_msdu := [mkf 3 1 []; mkf 1 4095 []; mkf 0 4094 []; mkf 2 0 []].

Lemma reord_in_order_witness : exists q c',
  run_units env_sta p_nil order_ctrl order_arrivals = Ok (q, c') /\
  delivered (sink q) = delivered (sink p_nil) ++ omap pkt order_fs /\ freed (sink q) = freed (sink p_nil) /\
  reord_list c' = [] /\ ind_sn c' = (4094 + Z.of_nat (length order_fs)) mod 4096 /\ reord_timer c' = false.
Proof.
  apply (reord_in_order env_sta p_nil order_ctrl 4094 order_fs order_arrivals);
    try reflexivity; [unfold seq12; lia|cbn; lia| |].
  - intros [|[|[|[|i]]]] f Hf; try discriminate Hf; injection Hf as <-; split; reflexivity.
  - unfold order_arrivals, order_fs.
    apply (Permutation_cons_app [mkf 0 4094 []; mkf 1 4095 []; mkf 2 0 []] [] (mkf 3 1 [])).
    cbn. apply perm_swap.
Defined.

(** C26. Accepting one new frame, as a specification: with [l] the held frames
    and the new one in sequence order and [start] the window's position after
    the check (past the frame, unchanged, or 63 before it), the next expected
    number moves to the first number from [start] on that is not in [l];
    exactly the frames of [l] before it are delivered, in order, the others
    stay held, and the timer runs exactly when some stay. *)
Theorem reord_accept_spec {S} `{RxSinkLaws S} env (p : aicwf_rx_priv S) c f n :
  wsize_b c = AICWF_REORDER_WINSIZE -> ind_sn c = n -> seq12 n -> increasing n 1 63 (reord_list c) ->
  seq12 (seq_num f) -> foff n f < 2048 -> foff n f ∉ foff n <$> reord_list c ->
  Forall (fun g => plain g = true) (f :: reord_list c) ->
  exists q c' l K, reord_unit_locked env p c f = Ok (q, c', 0) /\
    l ≡ₚ f :: reord_list c /\ increasing n 0 2047 l /\
    (slide (foff n f) <= K /\ (forall x, slide (foff n f) <= x < K -> x ∈ foff n <$> l) /\ K ∉ foff n <$> l) /\
    delivered (sink q) = delivered (sink p) ++ omap pkt (before n K l) /\ freed (sink q) = freed (sink p) /\
    ind_sn c' = (n + K) mod 4096 /\ reord_list c' = from n K l /\ ctrl_wf c' /\
    (reord_timer c' = true <-> reord_list c' <> []).
Proof.
  intros Hw Hi Hn Hinc Hs Hd Hnew Hpl.
  set (l := insert_off n f (reord_list c)). set (K := adv (slide (foff n f)) (foff n <$> l)).
  destruct (accept_bounds n (foff n f) f _ l K Hinc) as (Hd0&_&_&HKb&Hincl&Hfr); try done; [lia|].
  eexists _, _, l, K. split; [apply (unit_accept env p c f n (foff n f)); try done; lia|].
  cbn. split_and!; try done.
  - eapply insert_off_perm, Hinc.
  - eapply increasing_weaken; [| |exact Hincl]; lia.
  - apply HKb.
  - intros x Hx. now apply (adv_covers (slide (foff n f))).
  - intros (g&E&Hg)%list_elem_of_fmap. now apply (Hfr g Hg).
  - apply delivered_emits.
  - apply freed_emits.
  - split; [done|]. right. split; [apply seq12_mod|]. eapply (accept_wf n (foff n f) f (reord_list c)); try done. lia.
  - case_bool_decide as E; cbn [negb]; [now split|now split].
Qed.

Lemma reord_accept_spec_witness : exists q c' l K,
  reord_unit_locked env_sta p_nil (mk_ctrl true 4000 64 [mkf 1 4010 []] true false) (mkf 2 100 []) = Ok (q, c', 0) /\
  l ≡ₚ [mkf 2 100 []; mkf 1 4010 []] /\ increasing 4000 0 2047 l /\
  (slide 196 <= K /\ (forall x, slide 196 <= x < K -> x ∈ foff 4000 <$> l) /\ K ∉ foff 4000 <$> l) /\
  delivered (sink q) = delivered (sink p_nil) ++ omap pkt (before 4000 K l) /\ freed (sink q) = freed (sink p_nil) /\
  ind_sn c' = (4000 + K) mod 4096 /\ reord_list c' = from 4000 K l /\ ctrl_wf c' /\
  (reord_timer c' = true <-> reord_list c' <> []).
Proof.
  apply (reord_accept_spec env_sta p_nil (mk_ctrl true 4000 64 [mkf 1 4010 []] true false) (mkf 2 100 []) 4000).
  - reflexivity.
  - reflexivity.
  - unfold seq12; lia.
  - cbn. unfold seq12. split_and!; (reflexivity || discriminate || exact I).
  - cbn. unfold seq12; lia.
  - reflexivity.
  - cbn. intros Hin. apply list_elem_of_singleton in Hin. discriminate Hin.
  - repeat constructor.
Defined.

(** Frames the window does not take: one from behind the next expected
    number leaves the control as it is, and is passed on at once, unless its
    byte 42 is 0x80 (an RTP packet), when it is freed; one whose number is
    already held is freed, and the control is unchanged too.  Byte 42 is read
    without a length check: a shorter late frame is read past its end. *)
Theorem reord_not_accepted {S} `{RxSinkLaws S} env (p : aicwf_rx_priv S) c f skb n :
  wsize_b c = AICWF_REORDER_WINSIZE -> ind_sn c = n -> seq12 n -> increasing n 1 63 (reord_list c) ->
  seq12 (seq_num f) -> plain f = true -> pkt f = Some skb -> rx_data f = skb_data skb ->
  (2048 <= foff n f ->
     (skb_len skb <= 42 -> reord_unit_locked env p c f = Fault OutOfBounds) /\
     (forall b, rd8 (skb_data skb) 42 = Ok b -> exists q, reord_unit_locked env p c f = Ok (q, c, 0) /\
        delivered (sink q) = delivered (sink p) ++ (if b =? 128 then [] else [skb]) /\
        freed (sink q) = freed (sink p) ++ (if b =? 128 then [skb] else []))) /\
  (foff n f ∈ foff n <$> reord_list c -> exists q, reord_unit_locked env p c f = Ok (q, c, 0) /\
     delivered (sink q) = delivered (sink p) /\ freed (sink q) = freed (sink p) ++ [skb]).
Proof.
  intros Hw Hi Hn Hinc Hs Hpl Hpk Hrx. split.
  - intros Hd. rewrite (unit_late env p c f n) by done. rewrite Hrx. split.
    + intros Hlen. now rewrite rd8_oob.
    + intros b ->. cbn [mbind res_bind]. rewrite single_plain by done. unfold unit_drop, emit. rewrite Hpk.
      destruct (b =? 128); eexists; (split; [reflexivity|]); cbn;
        rewrite ?delivered_free, ?freed_free, ?delivered_deliver, ?freed_deliver, ?app_nil_r; done.
  - intros Hin. rewrite (unit_dup env p c f n) by done. eexists. split; [reflexivity|].
    unfold unit_drop. rewrite Hpk. cbn. now rewrite delivered_free, freed_free.
Qed.

Definition rtp_data : list Z := replicate 42 0 ++ [128].
Lemma reord_not_accepted_witness : exists q,
  reord_unit_locked env_sta p_nil (mk_ctrl true 5 64 [] false false) (mkf 1 4 rtp_data) =
    Ok (q, mk_ctrl true 5 64 [] false false, 0) /\
  delivered (sink q) = [] ++ [] /\ freed (sink q) = [] ++ [mk_skb 1 rtp_data].
Proof.
  destruct (reord_not_accepted env_sta p_nil (mk_ctrl true 5 64 [] false false) (mkf 1 4 rtp_data)
    (mk_skb 1 rtp_data) 5) as [Hl _]; try reflexivity;
    [unfold seq12; lia|cbn; unfold seq12; lia|].
  destruct (Hl ltac:(discriminate)) as [_ Hb]. exact (Hb 128 eq_refl).
Defined.

(** When the reorder timer has run out, the work item makes progress on
    whatever is held: the first held frame is released with the unbroken run
    of numbers behind it, in order; the next expected number is the first
    missing one after it; what stays held is the rest, and the timer has been
    restarted if anything stays. *)
Theorem reord_timeout_progress {S} `{RxSinkLaws S} env (p : aicwf_rx_priv S) c n h t :
  ind_sn c = n -> seq12 n -> reord_list c = h :: t -> wsize_b c = AICWF_REORDER_WINSIZE ->
  increasing n 1 63 (h :: t) -> Forall (fun g => plain g = true) (h :: t) ->
  exists q c' K, reord_timeout_worker env p c = Ok (q, c') /\
    foff n h < K /\ (forall x, foff n h <= x < K -> x ∈ foff n <$> h :: t) /\ (K ∉ foff n <$> h :: t) /\
    delivered (sink q) = delivered (sink p) ++ omap pkt (before n K (h :: t)) /\
    freed (sink q) = freed (sink p) /\
    before n K (h :: t) ++ reord_list c' = h :: t /\ (length (reord_list c') < length (reord_list c))%nat /\
    ind_sn c' = (n + K) mod 4096 /\ ctrl_wf c' /\ reord_timer_work c' = false /\
    (reord_list c' <> [] -> reord_timer c' = true).
Proof.
  intros Hi Hn Hl Hw Hinc Hpl. set (K := timeout_next n (h :: t)).
  destruct (timeout_bounds n h t K Hinc eq_refl) as [HKb Hfr].
  assert (before n K (h :: t) ++ from n K (h :: t) = h :: t) as Hbf by (eapply before_from, Hinc).
  assert (reord_timeout_worker env p c =
    Ok (emits (before n K (h :: t)) p, c <| reord_timer_work := false |> <| ind_sn := (n + K) mod 4096 |>
             <| reord_timer ::= fun b => negb (bool_decide (from n K (h :: t) = [])) || b |>
             <| reord_list := from n K (h :: t) |>)) as E.
  { rewrite (worker_walk env p c n h t K) by done. cbn in Hinc.
    rewrite (ind_walk_plain env n K 1 63); [done|lia|lia|lia|lia|exact Hinc|exact Hpl|exact Hfr]. }
  eexists _, _, K. split; [exact E|]. cbn [field_set reord_list ind_sn reord_timer_work reord_timer].
  split_and!; try done.
  - lia.
  - intros x Hx. now apply (adv_covers (foff n h)).
  - intros (g&Eg&Hg)%list_elem_of_fmap. now apply (Hfr g Hg).
  - apply delivered_emits.
  - apply freed_emits.
  - rewrite Hl. rewrite <- Hbf at 2. rewrite length_app. unfold before at 1.
    rewrite filter_cons_True by lia. cbn. lia.
  - split; [done|]. right. split; [apply seq12_mod|]. now apply (timeout_wf n h t K).
  - intros Hne. now rewrite bool_decide_eq_false_2.
Qed.

Definition to_ctrl : reord_ctrl := mk_ctrl true 5 64 [mkf 1 7 []; mkf 2 8 []; mkf 3 12 []] false true.
Lemma reord_timeout_progress_witness : exists q c' K,
  reord_timeout_worker env_sta p_nil to_ctrl = Ok (q, c') /\
  2 < K /\ (forall x, 2 <= x < K -> x ∈ foff 5 <$> reord_list to_ctrl) /\ (K ∉ foff 5 <$> reord_list to_ctrl) /\
  delivered (sink q) = delivered (sink p_nil) ++ omap pkt (before 5 K (reord_list to_ctrl)) /\
  freed (sink q) = freed (sink p_nil) /\
  before 5 K (reord_list to_ctrl) ++ reord_list c' = reord_list to_ctrl /\
  (length (reord_list c') < length (reord_list to_ctrl))%nat /\
  ind_sn c' = (5 + K) mod 4096 /\ ctrl_wf c' /\ reord_timer_work c' = false /\
  (reord_list c' <> [] -> reord_timer c' = true).
Proof.
  apply (reord_timeout_progress env_sta p_nil to_ctrl 5 (mkf 1 7 []) [mkf 2 8 []; mkf 3 12 []]); try reflexivity.
  - unfold seq12; lia.
  - cbn. unfold seq12. split_and!; (reflexivity || discriminate || exact I).
  - repeat constructor.
Defined.

(** The buffers and the descriptors the receive path accounts for. *)
Definition all_skbs {S} `{RxSinkLaws S} (p : aicwf_rx_priv S) : list sk_buff :=
  delivered (sink p) ++ freed (sink p) ++ omap pkt (held (stas_reord_list p)).
Definition all_msdus {S} (p : aicwf_rx_priv S) : list Z :=
  msdu_id <$> rxframes_freequeue p ++ held (stas_reord_list p).


Definition eth_data : list Z := [2;0;0;0;0;1; 2;0;0;0;0;2; 8;0] ++ replicate 30 0.

(** The steps of one control: frames, the timer, the work item, a flush. *)
Inductive ctrl_step {S} `{RxSink S} (env : rx_env) :
  aicwf_rx_priv S * reord_ctrl -> aicwf_rx_priv S * reord_ctrl -> Prop :=
| step_unit p c f q c' r : seq12 (seq_num f) ->
    reord_unit_locked env p (reenable c) f = Ok (q, c', r) -> ctrl_step env (p, c) (q, c')
| step_timeout p c : reord_timer c = true -> ctrl_step env (p, c) (p, reord_timeout_handler env c)
| step_worker p c q c' : reord_timer_work c = true ->
    reord_timeout_worker env p c = Ok (q, c') -> ctrl_step env (p, c) (q, c')
| step_flush p c q c' : enable c = true -> flush_ctrl env p c = Ok (q, c') -> ctrl_step env (p, c) (q, c').

(** Held frames always have something coming that will release them. *)
Definition attended (env : rx_env) (c : reord_ctrl) : Prop :=
  usb_up env = true -> reord_list c <> [] -> reord_timer c || reord_timer_work c = true.

Definition ctrl_ok (env : rx_env) (c : reord_ctrl) : Prop :=
  ctrl_wf c /\ (enable c = false -> reord_list c = []) /\ attended env c.

Lemma attended_nil env c : reord_list c = [] -> attended env c.
Proof. intros Hl _ Hne. now rewrite Hl in Hne. Qed.

Lemma ctrl_ok_init env : ctrl_ok env init_ctrl.
Proof. split_and!; [|done|now apply attended_nil]. split; [done|]. now left. Qed.

Lemma unit_step_ok {S} `{RxSinkLaws S} env (p : aicwf_rx_priv S) c f q c' r :
  ctrl_ok env c -> enable c = true -> seq12 (seq_num f) ->
  reord_unit_locked env p c f = Ok (q, c', r) -> ctrl_ok env c'.
Proof.
  intros ([Hw Hwf]&Hoff&Hatt) Hen Hs. destruct Hwf as [[Hi Hl]|[Hn Hinc]].
  - rewrite unit_first by done. intros ([q1 r1]&_&[= _ <- _])%bind_Ok_inv.
    split_and!; [|done|now apply attended_nil]. split; [done|]. right. split; [apply seq12_mod|done].
  - destruct (Z.le_gt_cases 2048 (foff (ind_sn c) f)) as [Hd|Hd].
    + rewrite (unit_late env p c f (ind_sn c)) by done. intros (b&_&E)%bind_Ok_inv. revert E.
      assert (ctrl_ok env c) by (split_and!; try done; split; [done|right; done]).
      destruct (b =? 128); [now intros [= _ <- _]|]. now intros ([q1 r1]&_&[= _ <- _])%bind_Ok_inv.
    + destruct (decide (foff (ind_sn c) f ∈ foff (ind_sn c) <$> reord_list c)) as [Hin|Hin].
      * rewrite (unit_dup env p c f (ind_sn c)) by done. intros [= _ <- _].
        split_and!; try done; split; [done|right; done].
      * set (l := insert_off (ind_sn c) f (reord_list c)).
        set (K := adv (slide (foff (ind_sn c) f)) (foff (ind_sn c) <$> l)).
        rewrite (unit_accept_walk env p c f (ind_sn c) (foff (ind_sn c) f) l K); try done; [|lia].
        destruct (accept_bounds (ind_sn c) (foff (ind_sn c) f) f _ l K Hinc) as (Hd0&Hsl&Hsl'&HKb&Hincl&Hfr);
          try done; [lia|].
        intros ([q1 l']&Ew&[= _ <- _])%bind_Ok_inv.
        assert (l' = from (ind_sn c) K l) as ->.
        { eapply (ind_walk_kept env (ind_sn c) K (Z.min 1 (foff (ind_sn c) f)) 2047); [lia|lia|lia|lia| |exact Hfr|exact Ew].
          eapply increasing_weaken; [| |exact Hincl]; lia. }
        split_and!; cbn [field_set reord_list enable]; [|congruence|].
        -- split; [done|]. right. split; [apply seq12_mod|].
           eapply (accept_wf _ (foff (ind_sn c) f) f (reord_list c)); try done. lia.
        -- intros _ Hne. cbn [field_set reord_list reord_timer] in *. now rewrite bool_decide_eq_false_2.
Qed.

Lemma worker_step_ok {S} `{RxSinkLaws S} env (p : aicwf_rx_priv S) c q c' :
  ctrl_ok env c -> reord_timeout_worker env p c = Ok (q, c') -> ctrl_ok env c'.
Proof.
  intros ([Hw Hwf]&Hoff&Hatt). destruct (reord_list c) as [|h t] eqn:Hl.
  - unfold reord_timeout_worker, reord_rxframes_process, reord_rxframes_ind.
    cbn [field_set reord_list]. rewrite Hl. cbn. rewrite ?Hl. intros [= _ <-].
    split_and!; [|done|now apply attended_nil]. split; [done|].
    destruct Hwf as [[]|[]]; [left|right]; done.
  - destruct Hwf as [[]|[Hn Hinc]]; [done|].
    destruct (timeout_bounds (ind_sn c) h t _ Hinc eq_refl) as [HKb Hfr].
    rewrite (worker_walk env p c (ind_sn c) h t _ Hn eq_refl Hl Hinc eq_refl).
    set (K := timeout_next (ind_sn c) (h :: t)) in *.
    intros ([q1 l']&Ew&[= _ <-])%bind_Ok_inv.
    assert (l' = from (ind_sn c) K (h :: t)) as ->.
    { cbn in Hinc. eapply (ind_walk_kept env (ind_sn c) K 1 63); [lia|lia|lia|lia|exact Hinc|exact Hfr|exact Ew]. }
    split_and!; cbn [field_set reord_list enable].
    + split; [done|]. right. split; [apply seq12_mod|]. now apply timeout_wf.
    + intros E. now apply Hoff in E.
    + intros _ Hne. cbn [field_set reord_list reord_timer] in *. now rewrite bool_decide_eq_false_2.
Qed.

(** C20. In every state a control reaches, whatever frames arrive (any
    sequence numbers, aggregates included) and however timer, work item and
    flushes interleave: the held frames are strictly ordered, have numbers 1
    to 63 after the next expected one, a disabled control holds none, and, as
    long as the bus is up, held frames have their timer running or their work
    item queued. *)
Theorem reord_reachable_ok {S} `{RxSinkLaws S} env (p0 p : aicwf_rx_priv S) c :
  rtc (ctrl_step env) (p0, init_ctrl) (p, c) -> ctrl_ok env c.
Proof.
  intros Hr. enough (forall x y, rtc (ctrl_step env) x y -> ctrl_ok env x.2 -> ctrl_ok env y.2) as Hall
    by (apply (Hall _ _ Hr), ctrl_ok_init).
  clear Hr. intros x y Hr. induction Hr as [|x y z Hstep _ IH]; [done|]. intros Hok. apply IH. clear IH.
  destruct Hstep as [p' c0 f q c' r Hs E|p' c0 Ht|p' c0 q c' Hwk E|p' c0 q c' Hen E]; cbn [snd] in *.
  - eapply (unit_step_ok env p' (reenable c0)); [| |exact Hs|exact E].
    + unfold reenable. destruct (enable c0) eqn:Een; [done|]. destruct Hok as (Hwf&Hoff&Hatt).
      specialize (Hoff Een). split_and!; [|done|now apply attended_nil].
      split; [done|]. now left.
    + unfold reenable. now destruct (enable c0) eqn:Een.
  - destruct Hok as (Hwf&Hoff&Hatt). unfold reord_timeout_handler. cbn [field_set reord_timer_work].
    destruct (usb_up env) eqn:Eu, (reord_timer_work c0) eqn:Ew; cbn [negb]; split_and!; try done;
      intros Eu'; cbn [field_set reord_timer reord_timer_work]; rewrite ?Ew; done || congruence.
  - eapply worker_step_ok; eassumption.
  - unfold flush_ctrl in E. apply bind_Ok_inv in E as (q1&_&[= _ <-]). destruct Hok as ([Hw Hwf]&Hoff&Hatt).
    split_and!; [|done|now apply attended_nil]. split; [done|]. cbn.
    destruct Hwf as [[]|[]]; [left; done|right; done].
Qed.

Lemma reord_reachable_ok_witness : exists p c,
  rtc (ctrl_step env_sta) (p_nil, init_ctrl) (p, c) /\ reord_list c <> [] /\ ctrl_ok env_sta c.
Proof.
  destruct (reord_unit_locked env_sta p_nil (reenable init_ctrl) (mkf 1 7 [])) as [[[q c] r]|e] eqn:E1;
    [|vm_compute in E1; discriminate].
  destruct (reord_unit_locked env_sta q (reenable c) (mkf 2 9 [])) as [[[q2 c2] r2]|e] eqn:E2;
    [|vm_compute in E1; injection E1 as <- <- <-; vm_compute in E2; discriminate].
  assert (rtc (ctrl_step env_sta) (p_nil, init_ctrl) (q2, c2)) as Hr.
  { eapply rtc_l; [eapply step_unit; [|exact E1]; cbn; unfold seq12; lia|].
    eapply rtc_l; [eapply step_unit; [|exact E2]; cbn; unfold seq12; lia|]. apply rtc_refl. }
  exists q2, c2. split; [exact Hr|]. split; [|exact (reord_reachable_ok env_sta p_nil q2 c2 Hr)].
  vm_compute in E1. injection E1 as <- <- <-. vm_compute in E2. injection E2 as <- <- <-. discriminate.
Defined.

(** The TID is used as an index into eight controls, but the caller takes
    it from four bits of the QoS field: a unicast frame with TID 8 to 15 that
    gets as far as its control reads past the array. *)
Theorem reord_tid_out_of_bounds {S} `{RxSink S} env (p : aicwf_rx_priv S) f skb s t fwd am sta :
  8 <= t -> stas_inv (stas_reord_list p) -> is_sta env = Some sta -> bus_up env = true -> kmalloc_ok env = true ->
  rd8 (skb_data skb) 0 = Ok 2 -> be16 (skb_data skb) 12 = Ok 2048 ->
  reord_process_unit env p f skb s t fwd am = Fault OutOfBounds.
Proof.
  intros Ht Hinv Hsta Hbus Hk Hda Hpr. unfold reord_process_unit. rewrite Hda. cbn [mbind res_bind].
  rewrite Hpr. cbn [mbind res_bind]. change ((2048 =? ETH_P_PAE) || has 2 1) with false. cbn iota. rewrite Hsta.
  unfold reord_lookup. destruct (find_sta _ _) as [[i r]|] eqn:Ef.
  - apply find_sta_some in Ef. unfold stas_inv in Hinv. rewrite Forall_lookup in Hinv.
    destruct (Hinv _ _ Ef) as [Hlen _]. now rewrite lookup_ge_None_2 by lia.
  - unfold reord_init_sta. rewrite Hbus, Hk. cbn [negb preorder_ctrl].
    now rewrite lookup_ge_None_2 by (rewrite length_replicate; lia).
Qed.

Lemma reord_tid_out_of_bounds_witness :
  reord_process_unit env_sta p_nil (mkf 1 0 []) (mk_skb 9 eth_data) 7 9 1 0 = Fault OutOfBounds.
Proof.
  apply (reord_tid_out_of_bounds env_sta p_nil (mkf 1 0 []) (mk_skb 9 eth_data) 7 9 1 0 true);
    try reflexivity; [lia|constructor].
Defined.

(** On an interface that is neither a station's nor an access point's the
    frame is freed, but its descriptor is not put back on the free queue: it
    is in no list any more. *)
Theorem reord_bad_iftype_leaks {S} `{RxSinkLaws S} env (p : aicwf_rx_priv S) f skb s t fwd am :
  is_sta env = None -> rd8 (skb_data skb) 0 = Ok 2 -> be16 (skb_data skb) 12 = Ok 2048 ->
  exists q, reord_process_unit env p f skb s t fwd am = Ok (q, -1) /\
    freed (sink q) = freed (sink p) ++ [skb] /\ all_msdus q = all_msdus p.
Proof.
  intros Hsta Hda Hpr. unfold reord_process_unit. rewrite Hda. cbn [mbind res_bind].
  rewrite Hpr. cbn [mbind res_bind]. change ((2048 =? ETH_P_PAE) || has 2 1) with false. cbn iota. rewrite Hsta.
  eexists. split; [reflexivity|]. split; [apply freed_free|done].
Qed.

Definition env_mon : rx_env := mk_env IFTYPE_OTHER true true true (fun _ => true) true.
Lemma reord_bad_iftype_leaks_witness :
  exists q, reord_process_unit env_mon p_nil (mkf 1 0 []) (mk_skb 9 eth_data) 7 0 1 0 = Ok (q, -1) /\
    freed (sink q) = [mk_skb 9 eth_data] /\ all_msdus q = [].
Proof. exact (reord_bad_iftype_leaks env_mon p_nil (mkf 1 0 []) (mk_skb 9 eth_data) 7 0 1 0 eq_refl eq_refl eq_refl). Defined.

Lemma flush_plain {S} `{RxSinkLaws S} env (p : aicwf_rx_priv S) l :
  Forall (fun g => plain g = true) l -> flush_walk env p l = Ok (emits l p).
Proof.
  intros Hl. revert p. induction Hl as [|f l Hf _ IH]; intros p; [done|].
  cbn [flush_walk]. rewrite single_plain by done. cbn [mbind res_bind]. apply IH.
Qed.

(** A frame outside the block-ack session flushes its station's TID: all
    held frames are delivered in order, the control is left disabled, empty,
    with neither timer nor work item; and the next frame for the TID, whatever
    its number, re-enables it and restarts the sequence after that frame. *)
Theorem reord_flush_restart {S} `{RxSinkLaws S} env (p : aicwf_rx_priv S) c g :
  ctrl_inv c -> plain g = true -> seq12 (seq_num g) ->
  exists q c' q2 c2, flush_ctrl env p c = Ok (q, c') /\
    delivered (sink q) = delivered (sink p) ++ omap pkt (reord_list c) /\ freed (sink q) = freed (sink p) /\
    (enable c' = false /\ reord_list c' = [] /\ reord_timer c' = false /\ reord_timer_work c' = false) /\
    reord_unit_locked env q (reenable c') g = Ok (q2, c2, 0) /\
    delivered (sink q2) = delivered (sink q) ++ omap pkt [g] /\
    enable c2 = true /\ ind_sn c2 = (seq_num g + 1) mod 4096 /\ reord_list c2 = [].
Proof.
  intros Hc Hg Hs. unfold flush_ctrl. rewrite flush_plain by apply (ci_plain _ Hc). cbn [mbind res_bind].
  eexists _, _, _, _. split; [reflexivity|]. split; [apply delivered_emits|]. split; [apply freed_emits|].
  split; [done|]. cbn [reenable enable field_set]. split; [now rewrite unit_first, single_plain|].
  split; [|done]. exact (delivered_emits [g] _).
Qed.

Lemma reord_flush_restart_witness : exists q c' q2 c2,
  flush_ctrl env_sta p_nil to_ctrl = Ok (q, c') /\
  delivered (sink q) = delivered (sink p_nil) ++ omap pkt (reord_list to_ctrl) /\ freed (sink q) = freed (sink p_nil) /\
  (enable c' = false /\ reord_list c' = [] /\ reord_timer c' = false /\ reord_timer_work c' = false) /\
  reord_unit_locked env_sta q (reenable c') (mkf 4 3000 []) = Ok (q2, c2, 0) /\
  delivered (sink q2) = delivered (sink q) ++ omap pkt [mkf 4 3000 []] /\
  enable c2 = true /\ ind_sn c2 = (3000 + 1) mod 4096 /\ reord_list c2 = [].
Proof.
  apply (reord_flush_restart env_sta p_nil to_ctrl (mkf 4 3000 [])).
  - split; [split; [reflexivity|right]|repeat constructor|discriminate].
    split; [cbn; unfold seq12; lia|]. cbn. unfold seq12. split_and!; (reflexivity || discriminate || exact I).
  - reflexivity.
  - cbn. unfold seq12. lia.
Defined.

(** ** A-MSDU *)

(** An MSDU as the standard aggregates it: the two addresses, a 6-byte
    LLC/SNAP header, and the Ethernet type with its payload. *)
Record msdu := mk_m { m_addrs : list Z; m_llc : list Z; m_body : list Z }.
Definition msdu_ok (m : msdu) : Prop :=
  length (m_addrs m) = 12%nat /\ length (m_llc m) = 6%nat /\ Z.of_nat (length (m_body m)) < 65000.
Definition subframe (m : msdu) : list Z :=
  let len := 6 + Z.of_nat (length (m_body m)) in
  m_addrs m ++ [len / 256; len mod 256] ++ m_llc m ++ m_body m.
Definition padding (m : msdu) : list Z :=
  let len := Z.of_nat (length (subframe m)) in replicate (Z.to_nat (roundup4 len - len)) 0.
Fixpoint amsdu_encode (ms : list msdu) : list Z :=
  match ms with
  | [] => []
  | [m] => subframe m
  | m :: ms' => subframe m ++ padding m ++ amsdu_encode ms'
  end.
(** The Ethernet frame of an MSDU. *)
Definition eth_frame (m : msdu) : list Z := m_addrs m ++ m_body m.

Lemma subframe_len m : msdu_ok m -> Z.of_nat (length (subframe m)) = 20 + Z.of_nat (length (m_body m)).
Proof. intros (H1&H2&_). unfold subframe. rewrite !length_app, H1, H2. cbn [length]. lia. Qed.

Lemma roundup4_bound n : n <= roundup4 n < n + 4.
Proof. unfold roundup4. pose proof (Z.div_mod (n + 3) 4). pose proof (Z.mod_pos_bound (n + 3) 4). lia. Qed.

Lemma lor_bytes a b : 0 <= a -> 0 <= b < 256 -> Z.lor (Z.shiftl a 8) b = a * 256 + b.
Proof.
  intros Ha Hb. assert (Z.land (Z.shiftl a 8) b = 0) as E.
  { apply Z.bits_inj'. intros i Hi. rewrite Z.land_spec, Z.bits_0, Z.shiftl_spec by lia.
    destruct (Z.lt_ge_cases i 8); [now rewrite Z.testbit_neg_r by lia|].
    rewrite (Z.bits_above_log2 b); [apply andb_false_r|lia|].
    destruct (Z.eq_dec b 0) as [->|]; [cbn; lia|]. apply Z.log2_lt_pow2; [lia|].
    apply Z.lt_le_trans with (2 ^ 8); [cbn; lia|]. apply Z.pow_le_mono_r; lia. }
  rewrite <- Z.lxor_lor, <- Z.add_nocarry_lxor by exact E. rewrite Z.shiftl_mul_pow2 by lia. reflexivity.
Qed.

(** Reading the length of the subframe at the head of a buffer, and copying
    its frame out. *)
Lemma subframe_read m rest : msdu_ok m ->
  rd8 (subframe m ++ rest) 12 = Ok ((6 + Z.of_nat (length (m_body m))) / 256) /\
  rd8 (subframe m ++ rest) 13 = Ok ((6 + Z.of_nat (length (m_body m))) mod 256).
Proof.
  intros (H1&H2&_). unfold subframe. rewrite <- !app_assoc.
  split; rewrite rd8_app_r by (rewrite H1; cbn; lia); rewrite H1; reflexivity.
Qed.

Lemma subframe_copy id m rest : msdu_ok m ->
  amsdu_sub_skb id (subframe m ++ rest) (6 + Z.of_nat (length (m_body m))) = Ok (mk_skb id (eth_frame m)).
Proof.
  intros (H1&H2&_). unfold amsdu_sub_skb. destruct (Z.ltb_spec (6 + Z.of_nat (length (m_body m))) 6); [lia|].
  do 2 f_equal. unfold subframe, eth_frame. rewrite <- !app_assoc. f_equal.
  - now rewrite take_app_length' by done.
  - replace (Z.to_nat (6 + Z.of_nat (length (m_body m)) - 6)) with (length (m_body m)) by lia.
    rewrite !app_assoc, <- (app_assoc _ (m_body m)).
    rewrite drop_app_length' by (rewrite !length_app, H1, H2; done). apply take_app_length.
Qed.

Lemma amsdu_loop_step fuel env id m rest acc : msdu_ok m -> (forall n, alloc_skb_ok env n = true) ->
  vif_found env = true ->
  (rest = [] \/ exists rest', rest = padding m ++ rest' /\ rest' <> []) ->
  amsdu_loop (Datatypes.S fuel) env id (subframe m ++ rest) acc =
    amsdu_loop fuel env id (drop (length (padding m)) rest) (acc ++ [mk_skb id (eth_frame m)]).
Proof.
  intros Hm Hal Hv Hrest. pose proof (subframe_len m Hm) as Hlen. pose proof Hm as (_&_&Hb).
  cbn [amsdu_loop]. rewrite length_app.
  destruct (Z.leb_spec (Z.of_nat (length (subframe m) + length rest)) 16); [lia|].
  unfold amsdu_subframe. destruct (subframe_read m rest Hm) as [-> ->]. cbn [mbind res_bind].
  rewrite lor_bytes; [|apply Z.div_pos; lia|apply Z.mod_pos_bound; lia].
  assert ((6 + Z.of_nat (length (m_body m))) / 256 * 256 + (6 + Z.of_nat (length (m_body m))) mod 256 =
    6 + Z.of_nat (length (m_body m))) as -> by (rewrite (Z.div_mod (6 + _) 256) at 3; lia).
  rewrite wrapU_small by lia. rewrite length_app. pose proof (roundup4_bound (Z.of_nat (length (subframe m)))).
  assert (Z.of_nat (length (padding m)) = roundup4 (Z.of_nat (length (subframe m))) - Z.of_nat (length (subframe m)))
    as Hpad by (unfold padding; rewrite length_replicate; lia).
  destruct Hrest as [->|(rest'&->&Hne)].
  - rewrite app_nil_r, drop_nil, Nat.add_0_r.
    destruct (Z.ltb_spec (6 + Z.of_nat (length (m_body m)) + 14) (Z.of_nat (length (subframe m)))); [lia|].
    destruct (Z.eqb_spec (Z.of_nat (length (subframe m))) (6 + Z.of_nat (length (m_body m)) + 14)); [|lia].
    cbn [mbind res_bind]. rewrite Hal. cbn [negb]. rewrite <- (app_nil_r (subframe m)) at 1.
    rewrite subframe_copy by done. cbn [mbind res_bind]. rewrite Hv. cbn [negb]. f_equal.
    unfold skb_pull. destruct (Z.ltb_spec (Z.of_nat (length (subframe m))) (6 + Z.of_nat (length (m_body m)) + 14)); [lia|].
    apply drop_ge. lia.
  - assert (0 < Z.of_nat (length rest')) by (destruct rest'; [done|cbn; lia]). rewrite length_app in *.
    destruct (Z.ltb_spec (6 + Z.of_nat (length (m_body m)) + 14)
      (Z.of_nat (length (subframe m) + (length (padding m) + length rest')))); [|lia].
    cbn [mbind res_bind]. rewrite Hal. cbn [negb]. rewrite subframe_copy by done. cbn [mbind res_bind]. rewrite Hv. cbn [negb].
    replace (6 + Z.of_nat (length (m_body m)) + 14) with (Z.of_nat (length (subframe m))) by lia.
    rewrite wrapU_small by lia. f_equal. unfold skb_pull. rewrite !length_app.
    destruct (Z.ltb_spec (Z.of_nat (length (subframe m) + (length (padding m) + length rest')))
      (roundup4 (Z.of_nat (length (subframe m))))); [lia|].
    replace (Z.to_nat (roundup4 (Z.of_nat (length (subframe m))))) with (length (subframe m) + length (padding m))%nat by lia.
    rewrite <- drop_drop, drop_app_length. done.
Qed.

(** C30. Deaggregation inverts aggregation: from an A-MSDU built as the
    standard says (every subframe but the last padded to four bytes), with
    the allocations succeeding, [rwnx_rxdata_process_amsdu] returns the
    Ethernet frame of every MSDU, in order (LLC/SNAP headers and lengths
    removed), and frees the aggregate.  The loop ends within one round per
    subframe. *)
Theorem amsdu_roundtrip {S} `{RxSinkLaws S} env (p : aicwf_rx_priv S) id ms :
  Forall msdu_ok ms -> (forall n, alloc_skb_ok env n = true) -> vif_found env = true ->
  exists q, rwnx_rxdata_process_amsdu env (mk_skb id (amsdu_encode ms)) p =
      Ok ((fun m => mk_skb id (eth_frame m)) <$> ms, q) /\
    freed (sink q) = freed (sink p) ++ [mk_skb id (amsdu_encode ms)].
Proof.
  intros Hms Hal Hv. unfold rwnx_rxdata_process_amsdu. cbn [skb_data skb_id].
  assert (forall fuel acc, (length ms < fuel)%nat ->
    amsdu_loop fuel env id (amsdu_encode ms) acc = Ok (acc ++ ((fun m => mk_skb id (eth_frame m)) <$> ms))) as E.
  { induction Hms as [|m ms Hm Hms IH]; intros [|fuel] acc Hf; try (cbn in Hf; lia).
    - cbn. now rewrite app_nil_r.
    - cbn in Hf. rewrite fmap_cons. destruct ms as [|m2 ms].
      + cbn [amsdu_encode]. rewrite <- (app_nil_r (subframe m)).
        rewrite amsdu_loop_step by auto. rewrite drop_nil. rewrite (IH fuel) by (cbn; lia). now rewrite <- app_assoc.
      + change (amsdu_encode (m :: m2 :: ms)) with (subframe m ++ padding m ++ amsdu_encode (m2 :: ms)).
        rewrite amsdu_loop_step; try done.
        * rewrite drop_app_length, IH by lia. now rewrite <- app_assoc.
        * right. eexists. split; [reflexivity|]. inversion_clear Hms as [|? ? Hm2 _].
          pose proof (subframe_len m2 Hm2). intros E.
          assert (length (amsdu_encode (m2 :: ms)) = O) as E2 by now rewrite E.
          cbn [amsdu_encode] in E2. destruct ms; rewrite ?length_app in E2; lia. }
  assert (length ms <= length (amsdu_encode ms))%nat as Hlen.
  { clear E Hal Hv. induction Hms as [|m ms Hm Hms IH]; [done|]. pose proof (subframe_len m Hm).
    cbn [amsdu_encode]. destruct ms; rewrite ?length_app; cbn [length] in *; lia. }
  rewrite E by lia. cbn [mbind res_bind app]. eexists. split; [reflexivity|]. apply freed_free.
Qed.

Definition m1 : msdu := mk_m (replicate 12 1) [170;170;3;0;0;0] [8;0;5].
Definition m2 : msdu := mk_m (replicate 12 2) [170;170;3;0;0;0] [8;6;7;7].
Lemma amsdu_roundtrip_witness : exists q,
  rwnx_rxdata_process_amsdu env_sta (mk_skb 5 (amsdu_encode [m1; m2])) p_nil =
    Ok ((fun m => mk_skb 5 (eth_frame m)) <$> [m1; m2], q) /\
  freed (sink q) = freed (sink p_nil) ++ [mk_skb 5 (amsdu_encode [m1; m2])].
Proof.
  apply (amsdu_roundtrip env_sta p_nil 5 [m1; m2]); try reflexivity.
  repeat constructor; cbn; lia.
Defined.

(** Malformed aggregates: (1) one to three bytes after the last subframe,
    fewer than its padding would be, and the loop never ends: [skb_pull]
    refuses to pull past the end, the buffer stays as it is, and every round
    queues one more copy of the same frame (no number of rounds is enough);
    (2) a subframe whose length field is less than six (and fits the buffer)
    makes a copy of a negative, that is huge, size. *)
Theorem amsdu_malformed env id data hi lo acc :
  rd8 data 12 = Ok hi -> rd8 data 13 = Ok lo -> 0 <= hi < 250 -> 0 <= lo < 256 ->
  (forall n, alloc_skb_ok env n = true) -> vif_found env = true -> 16 < Z.of_nat (length data) ->
  let sublen := hi * 256 + lo in
  (6 <= sublen -> sublen + 14 < Z.of_nat (length data) < roundup4 (sublen + 14) ->
     forall fuel, amsdu_loop fuel env id data acc = Fault OutOfFuel) /\
  (sublen < 6 -> sublen + 14 <= Z.of_nat (length data) -> forall fuel, amsdu_loop (Datatypes.S fuel) env id data acc = Fault OutOfBounds).
Proof.
  intros Hhi Hlo Bhi Blo Hal Hv Hlen sublen. pose proof (roundup4_bound (sublen + 14)) as Hr.
  assert (sublen + 14 < Z.of_nat (length data) ->
    amsdu_subframe data = Ok (Some (sublen, roundup4 (sublen + 14)))) as E.
  { intros Hb. unfold amsdu_subframe. rewrite Hhi. cbn [mbind res_bind]. rewrite Hlo. cbn [mbind res_bind].
    rewrite lor_bytes by lia. fold sublen. rewrite (wrapU_small 16 sublen) by (subst sublen; lia).
    destruct (Z.ltb_spec (sublen + 14) (Z.of_nat (length data))); [|lia].
    rewrite wrapU_small; [done|]. subst sublen; lia. }
  split.
  - intros H6 Hb fuel. revert acc. induction fuel as [|fuel IH]; intros acc; [done|].
    cbn [amsdu_loop]. destruct (Z.leb_spec (Z.of_nat (length data)) 16); [lia|].
    rewrite E by lia. cbn [mbind res_bind]. rewrite Hal. cbn [negb].
    unfold amsdu_sub_skb. destruct (Z.ltb_spec sublen 6); [lia|]. cbn [mbind res_bind]. rewrite Hv. cbn [negb].
    unfold skb_pull. destruct (Z.ltb_spec (Z.of_nat (length data)) (roundup4 (sublen + 14))); [|lia]. apply IH.
  - intros H6 Hb fuel. cbn [amsdu_loop]. destruct (Z.leb_spec (Z.of_nat (length data)) 16); [lia|].
    assert (exists n, amsdu_subframe data = Ok (Some (sublen, n))) as [n ->].
    { destruct (Z.lt_ge_cases (sublen + 14) (Z.of_nat (length data))); [eexists; now apply E|].
      unfold amsdu_subframe. rewrite Hhi. cbn [mbind res_bind]. rewrite Hlo. cbn [mbind res_bind].
      rewrite lor_bytes by lia. fold sublen. rewrite (wrapU_small 16 sublen) by (subst sublen; lia).
      destruct (Z.ltb_spec (sublen + 14) (Z.of_nat (length data))); [lia|].
      destruct (Z.eqb_spec (Z.of_nat (length data)) (sublen + 14)); [now eexists|lia]. }
    cbn [mbind res_bind]. rewrite Hal. cbn [negb]. unfold amsdu_sub_skb.
    now destruct (Z.ltb_spec sublen 6); [|lia].
Qed.

Definition bad_data : list Z := replicate 12 1 ++ [0; 8] ++ replicate 9 7.
Lemma amsdu_malformed_witness :
  amsdu_loop 1000 env_sta 3 bad_data [] = Fault OutOfFuel.
Proof.
  refine (proj1 (amsdu_malformed env_sta 3 bad_data 0 8 [] _ _ _ _ _ _ _) _ _ 1000%nat);
    (reflexivity || lia || (split; reflexivity)).
Defined.

End Props.
