(* ===== verification/CmdMgr.v ===== *)
(** Command manager: the queue of firmware commands ([rwnx_cmds.c],
    [rwnx_cmds.h]) and the slots commands live in ([cmd_array] and
    [rwnx_send_msg] of [rwnx_msg_tx.c]).

    - [Mgr]: slots, the manager and every operation; a pointer to a command is
      its index in [cmd_array].  An operation that sleeps is split where it
      sleeps: [cmd_mgr_queue] up to the wait and its three ways to wake up,
      one round of [cmd_mgr_task_process] in the same way.
    - [Sched]: the threads around the manager as a step relation, with its
      invariant.
    - [Wire]: the message as written to the command buffer.
    - [Props]: the properties. *)
From stdpp Require Import base list numbers option relations.
From Stdlib Require Import ZArith Lia.
From S2P Require Import Prelude.

#[local] Open Scope Z_scope.
#[local] Open Scope aic_scope.

Module Mgr.

Definition RWNX_CMD_FLAG_NONBLOCK : Z := BIT 0.
Definition RWNX_CMD_FLAG_REQ_CFM : Z := BIT 1.
Definition RWNX_CMD_FLAG_WAIT_PUSH : Z := BIT 2.
Definition RWNX_CMD_FLAG_WAIT_ACK : Z := BIT 3.
Definition RWNX_CMD_FLAG_WAIT_CFM : Z := BIT 4.
Definition RWNX_CMD_FLAG_DONE : Z := BIT 5.
Definition RWNX_CMD_WAIT_COMPLETE (flags : Z) : bool :=
  negb (has flags (Z.lor RWNX_CMD_FLAG_WAIT_ACK RWNX_CMD_FLAG_WAIT_CFM)).
Definition RWNX_CMD_MAX_QUEUED : Z := 16.
Definition RWNX_CMD_E2AMSG_LEN_MAX : Z := 256 * 4.
Definition RWNX_CMD_ARRAY_SIZE : nat := 40.
Definition EINTR : Z := 4.
Definition ENOMEM : Z := 12.
Definition EPIPE : Z := 32.
Definition ETIMEDOUT : Z := 110.
Definition ME_TRAFFIC_IND_REQ : Z := 5 * 1024 + 12.
Definition MM_SET_ARPOFFLOAD_REQ : Z := 97.

Inductive rwnx_cmd_mgr_state :=
| RWNX_CMD_MGR_STATE_DEINIT
| RWNX_CMD_MGR_STATE_INITED
| RWNX_CMD_MGR_STATE_CRASHED.
#[export] Instance rwnx_cmd_mgr_state_eq_dec : EqDecision rwnx_cmd_mgr_state.
Proof. solve_decision. Defined.

(** [struct lmac_msg]; [param] holds the parameter bytes. *)
Record lmac_msg := mk_msg {
  msg_id : Z; dest_id : Z; src_id : Z; param_len : Z; param : list Z
}.

Record rwnx_cmd := mk_cmd {
  id : Z;
  reqid : Z;
  a2e_msg : option lmac_msg;     (* None once freed *)
  e2a_msg : option Z;            (* the caller's confirmation buffer *)
  tkn : Z;
  flags : Z;
  complete : Z;                  (* completion.done *)
  result : Z;
  used : bool
}.
#[export] Instance rwnx_cmd_eta : RecordEta rwnx_cmd := fun c =>
  mk_cmd (id c) (reqid c) (a2e_msg c) (e2a_msg c) (tkn c) (flags c) (complete c) (result c) (used c).

Record rwnx_cmd_mgr := mk_mgr {
  state : rwnx_cmd_mgr_state;
  next_tkn : Z;
  queue_sz : Z;
  max_queue_sz : Z;
  cmds : list nat
}.
#[export] Instance rwnx_cmd_mgr_eta : RecordEta rwnx_cmd_mgr := fun m =>
  mk_mgr (state m) (next_tkn m) (queue_sz m) (max_queue_sz m) (cmds m).

(** The manager with the slots, the bus, and the threads that are inside it:
    [spinners] have a slot and are not linked
    yet (they may be waiting for the queue to empty), [waiters] for the completion of
    the command they pushed, [worker] is the command the work item waits for,
    [cmdWork] says that the work item is queued or about to look again. *)
Record sys := mk_sys {
  mgr : rwnx_cmd_mgr;
  cmd_array : list rwnx_cmd;
  usb_up : bool;
  ws_tx : bool;                          (* the wake lock *)
  pushed : list (nat * lmac_msg);        (* aicwf_set_cmd_tx, oldest first *)
  written : list (Z * list Z);           (* copies into confirmation buffers *)
  spinners : list nat;
  waiters : list nat;
  worker : option nat;
  cmdWork : bool
}.
#[export] Instance sys_eta : RecordEta sys := fun s =>
  mk_sys (mgr s) (cmd_array s) (usb_up s) (ws_tx s) (pushed s) (written s) (spinners s) (waiters s)
         (worker s) (cmdWork s).

Definition upd (i : nat) (g : rwnx_cmd -> rwnx_cmd) (s : sys) : sys := s <| cmd_array ::= alter g i |>.
Definition get (i : nat) (s : sys) : res rwnx_cmd := from_option_res NullDeref (cmd_array s !! i).

Definition rwnx_cmd_free (i : nat) (s : sys) : sys := upd i (fun c => c <| used := false |>) s.

(** The first free slot. *)
Fixpoint first_free (l : list rwnx_cmd) : option nat :=
  match l with
  | [] => None
  | c :: l' => if used c then Datatypes.S <$> first_free l' else Some O
  end.

Definition rwnx_cmd_malloc (s : sys) : option (nat * sys) :=
  match first_free (cmd_array s) with
  | None => None
  | Some i => Some (i, upd i (fun c => c <| used := true |>) s)
  end.

Definition zero_cmd : rwnx_cmd := mk_cmd 0 0 None None 0 0 0 0 false.
Definition rwnx_init_cmd_array (s : sys) : sys := s <| cmd_array ::= fmap (fun c => c <| used := false |>) |>.
Definition rwnx_free_cmd_array (s : sys) : sys := s <| cmd_array ::= fmap (fun c => c <| used := false |>) |>.

Definition set_state (x : rwnx_cmd_mgr_state) (s : sys) : sys := s <| mgr ::= fun m => m <| state := x |> |>.

Definition cmd_complete (i : nat) (s : sys) : sys :=
  let s := upd i (fun c => c <| flags ::= fun f => setf f RWNX_CMD_FLAG_DONE |>) s in
  let s :=
    match cmd_array s !! i with
    | None => s
    | Some c =>
        if has (flags c) RWNX_CMD_FLAG_NONBLOCK then rwnx_cmd_free i s
        else if RWNX_CMD_WAIT_COMPLETE (flags c) then
          upd i (fun c => c <| result := 0 |> <| complete ::= Z.add 1 |>) s
        else s
    end in
  if queue_sz (mgr s) =? 0 then s <| ws_tx := false |> else s.

(** [list_add_tail], the token and the count, common to both ways in. *)
Definition cmd_link (i : nat) (s : sys) : sys :=
  let t := next_tkn (mgr s) in
  let s := upd i (fun c => c <| tkn := t |> <| result := u32 (- EINTR) |>
                             <| complete ::= fun n => if has (flags c) RWNX_CMD_FLAG_NONBLOCK then n else 0 |>) s in
  let s := s <| ws_tx ::= fun w => (queue_sz (mgr s) =? 0) || w |> in
  s <| mgr ::= fun m => m <| next_tkn := u32 (t + 1) |> <| cmds ::= fun l => l ++ [i] |>
                          <| queue_sz ::= fun n => u32 (n + 1) |> |>.

Definition req_cfm_flags (f : Z) : Z :=
  if has f RWNX_CMD_FLAG_REQ_CFM then setf f RWNX_CMD_FLAG_WAIT_CFM else f.

Definition queue_full (s : sys) : bool :=
  negb (bool_decide (cmds (mgr s) = [])) && (queue_sz (mgr s) =? max_queue_sz (mgr s)).

Definition set_result (i : nat) (e : Z) (s : sys) : sys := upd i (fun c => c <| result := u32 (- e) |>) s.

Definition cmd_mgr_queue_force_defer (i : nat) (s : sys) : Z * sys :=
  if decide (state (mgr s) = RWNX_CMD_MGR_STATE_CRASHED) then (- EPIPE, set_result i EPIPE s)
  else if queue_full s then (- ENOMEM, set_result i ENOMEM s)
  else
    let s := upd i (fun c => c <| flags ::= fun f => req_cfm_flags (setf f RWNX_CMD_FLAG_WAIT_PUSH) |>) s in
    (0, (cmd_link i s) <| cmdWork := true |>).

(** [aicwf_set_cmd_tx], and with [kfree(a2e_msg)] after it. *)
Definition cmd_tx (i : nat) (m : lmac_msg) (s : sys) : sys :=
  if usb_up s then s <| pushed ::= fun l => l ++ [(i, m)] |> else s.
Definition cmd_push (i : nat) (m : lmac_msg) (s : sys) : sys :=
  upd i (fun c => c <| a2e_msg := None |>) (cmd_tx i m s).

Inductive queue_outcome := Returned (ret : Z) | Spinning | Waiting.

Definition defer_always (m : lmac_msg) : bool :=
  (msg_id m =? ME_TRAFFIC_IND_REQ) || (msg_id m =? MM_SET_ARPOFFLOAD_REQ).

Definition last_busy (s : sys) : bool :=
  match last (cmds (mgr s)) with
  | None => false
  | Some j =>
      match cmd_array s !! j with
      | None => false
      | Some c => has (flags c) (Z.lor (Z.lor RWNX_CMD_FLAG_WAIT_ACK RWNX_CMD_FLAG_WAIT_PUSH) RWNX_CMD_FLAG_WAIT_CFM)
      end
  end.

(** [cmd_mgr_queue] up to the point where it sleeps or returns.  [Spinning]
    is one look at the queue by a caller that wants an answer and finds the
    queue not empty; it looks again later. *)
Definition cmd_mgr_queue (i : nat) (s : sys) : res (queue_outcome * sys) :=
  c ← get i s;
  if decide (state (mgr s) = RWNX_CMD_MGR_STATE_CRASHED) then Ok (Returned (- EPIPE), set_result i EPIPE s)
  else if bool_decide (e2a_msg c <> None) && negb (bool_decide (cmds (mgr s) = [])) then Ok (Spinning, s)
  else if queue_full s then Ok (Returned (- ENOMEM), set_result i ENOMEM s)
  else
    m ← from_option_res NullDeref (a2e_msg c);
    let defer1 := last_busy s in
    let s := upd i (fun c => c <| flags ::= fun f =>
               req_cfm_flags (if defer1 then setf f RWNX_CMD_FLAG_WAIT_PUSH else f) |>) s in
    let s := cmd_link i s in
    let s := if defer_always m then upd i (fun c => c <| flags ::= fun f => setf f RWNX_CMD_FLAG_WAIT_PUSH |>) s
             else s in
    if defer1 || defer_always m then
      Ok (Returned 0, if queue_sz (mgr s) <=? 1 then s <| cmdWork := true |> else s)
    else
      let s := cmd_push i m s in
      if has (flags c) RWNX_CMD_FLAG_NONBLOCK then Ok (Returned 0, upd i (fun c => c <| result := 0 |>) s)
      else Ok (Waiting, s <| waiters ::= cons i |>).

(** [list_del], the count, and the slot given back. *)
Definition cmd_unlink (i : nat) (s : sys) : sys :=
  let s := s <| mgr ::= fun m => m <| cmds ::= List.filter (fun j => negb (Nat.eqb j i)) |>
                                   <| queue_sz ::= fun n => u32 (n - 1) |> |> in
  let s := if queue_sz (mgr s) =? 0 then s <| ws_tx := false |> else s in
  rwnx_cmd_free i s.

Definition not_waiting (i : nat) (s : sys) : sys :=
  s <| waiters ::= List.filter (fun j => negb (Nat.eqb j i)) |>.

Definition take_completion (i : nat) (s : sys) : sys :=
  upd i (fun c => c <| complete ::= fun n => n - 1 |>) s.

(** The wait of [cmd_mgr_queue] is over with a completion, or by a fatal
    signal: both take the same branch, and the call returns 0. *)
Definition queue_wait_over (i : nat) (s : sys) : sys :=
  let s := cmd_unlink i (not_waiting i s) in
  if negb (bool_decide (cmds (mgr s) = [])) && usb_up s then s <| cmdWork := true |> else s.

(** The wait timed out: the call returns [-ETIMEDOUT]. *)
Definition wait_timeout (i : nat) (s : sys) : sys :=
  let s := set_state RWNX_CMD_MGR_STATE_CRASHED s in
  match cmd_array s !! i with
  | Some c => if has (flags c) RWNX_CMD_FLAG_DONE then s else cmd_complete i (set_result i ETIMEDOUT s)
  | None => s
  end.

Definition cmd_mgr_llind (i : nat) (s : sys) : sys :=
  match cmd_array s !! i with
  | None => s
  | Some c =>
      if existsb (fun j => match cmd_array s !! j with Some d => tkn d =? tkn c | None => false end) (cmds (mgr s))
      then
        let s := upd i (fun c => c <| flags ::= fun f => clrf f RWNX_CMD_FLAG_WAIT_ACK |>) s in
        if RWNX_CMD_WAIT_COMPLETE (clrf (flags c) RWNX_CMD_FLAG_WAIT_ACK) then cmd_complete i s else s
      else s
  end.

(** One round of [cmd_mgr_task_process]: only the first command is judged. *)
Definition task_pick (s : sys) : res sys :=
  match cmds (mgr s) with
  | [] => Ok (s <| cmdWork := false |>)
  | i :: _ =>
      c ← get i s;
      if has (flags c) RWNX_CMD_FLAG_WAIT_PUSH then
        m ← from_option_res NullDeref (a2e_msg c);
        Ok ((cmd_push i m (upd i (fun c => c <| flags ::= fun f => clrf f RWNX_CMD_FLAG_WAIT_PUSH |>) s))
              <| worker := Some i |>)
      else Ok (s <| cmdWork := false |>)
  end.

Definition task_wait_over (i : nat) (s : sys) : sys := (cmd_unlink i s) <| worker := None |>.
Definition task_timeout (i : nat) (s : sys) : sys := (wait_timeout i s) <| worker := None |>.

(** The confirmation [msg]; [cb_busy i] is a non-zero result of the callback. *)
Fixpoint msgind_find (cb_busy : nat -> bool) (mid : Z) (a : list rwnx_cmd) (l : list nat) : option nat :=
  match l with
  | [] => None
  | i :: l' =>
      match a !! i with
      | Some c =>
          if (reqid c =? mid) && has (flags c) RWNX_CMD_FLAG_WAIT_CFM && negb (cb_busy i) then Some i
          else msgind_find cb_busy mid a l'
      | None => msgind_find cb_busy mid a l'
      end
  end.

Definition cmd_mgr_msgind (cb_busy : nat -> bool) (msg : lmac_msg) (s : sys) : sys :=
  match msgind_find cb_busy (msg_id msg) (cmd_array s) (cmds (mgr s)) with
  | None => s
  | Some i =>
      let plen := Z.min (param_len msg) RWNX_CMD_E2AMSG_LEN_MAX in
      let s := upd i (fun c => c <| flags ::= fun f => clrf f RWNX_CMD_FLAG_WAIT_CFM |>) s in
      match cmd_array s !! i with
      | None => s
      | Some c =>
          let s := match e2a_msg c with
                   | Some b => if plen =? 0 then s
                               else s <| written ::= fun l => l ++ [(b, take (Z.to_nat plen) (param msg))] |>
                   | None => s
                   end in
          if RWNX_CMD_WAIT_COMPLETE (flags c) then cmd_complete i s else s
      end
  end.

(** [queue_sz] is left alone. *)
Definition cmd_mgr_drain (s : sys) : sys :=
  let s' := fold_left (fun s i => upd i (fun c => c <| complete ::= fun n =>
              if has (flags c) RWNX_CMD_FLAG_NONBLOCK then n else n + 1 |>) s) (cmds (mgr s)) s in
  s' <| mgr ::= fun m => m <| cmds := [] |> |>.

Definition rwnx_cmd_mgr_init (s : sys) : sys :=
  s <| mgr ::= fun m => m <| cmds := [] |> <| state := RWNX_CMD_MGR_STATE_INITED |>
                          <| max_queue_sz := RWNX_CMD_MAX_QUEUED |> |>.

Definition rwnx_cmd_mgr_deinit (s : sys) : sys :=
  (cmd_mgr_drain s) <| mgr := mk_mgr RWNX_CMD_MGR_STATE_DEINIT 0 0 0 [] |> <| cmdWork := false |>.

(** The fields [rwnx_send_msg] sets; [flags] is only added to. *)
Definition fill_cmd (m : lmac_msg) (rid : Z) (cfm : option Z) (reqcfm : bool) (c : rwnx_cmd) : rwnx_cmd :=
  c <| result := u32 (- EINTR) |> <| id := msg_id m |> <| reqid := rid |> <| a2e_msg := Some m |>
    <| e2a_msg := cfm |>
    <| flags ::= fun f => if reqcfm then clrf (setf f RWNX_CMD_FLAG_REQ_CFM) RWNX_CMD_FLAG_WAIT_ACK else f |>.

(** The end of [rwnx_send_msg] once the queue call has returned [ret]. *)
Definition send_msg_ret (i : nat) (reqcfm : bool) (ret : Z) (s : sys) : sys :=
  if negb reqcfm || negb (ret =? 0) then rwnx_cmd_free i s else s.

(** What follows the first (or a repeated) look at the queue. *)
Definition send_msg_queued (i : nat) (s : sys) : res (queue_outcome * sys) :=
  '(o, s) ← cmd_mgr_queue i s;
  match o with
  | Returned ret => Ok (o, send_msg_ret i true ret s)
  | _ => Ok (o, s)
  end.

(** A caller that has a slot and is not linked yet looks at the queue. *)
Definition send_msg_retry (i : nat) (s : sys) : res (queue_outcome * sys) :=
  '(o, s) ← send_msg_queued i s;
  match o with
  | Spinning => Ok (o, s)
  | _ => Ok (o, s <| spinners ::= List.filter (fun j => negb (Nat.eqb j i)) |>)
  end.

Definition rwnx_send_msg (m : lmac_msg) (reqcfm : bool) (rid : Z) (cfm : option Z) (s : sys)
  : res (queue_outcome * sys) :=
  if negb (usb_up s) then Ok (Returned 0, s)
  else
    match rwnx_cmd_malloc s with
    | None => Fault NullDeref
    | Some (i, s) =>
        let s := upd i (fill_cmd m rid cfm reqcfm) s in
        if reqcfm then send_msg_retry i (s <| spinners ::= cons i |>)
        else Ok (Returned 0, send_msg_ret i false 0 (cmd_tx i m s))
    end.

Definition queue_timeout (i : nat) (s : sys) : sys := send_msg_ret i true (- ETIMEDOUT) (not_waiting i (wait_timeout i s)).

End Mgr.

Module Sched.
Import Mgr.

Definition fl (s : sys) (i : nat) : Z := match cmd_array s !! i with Some c => flags c | None => 0 end.
Definition wait_push (s : sys) (i : nat) : bool := has (fl s i) RWNX_CMD_FLAG_WAIT_PUSH.
Definition wait_cfm (s : sys) (i : nat) : bool := has (fl s i) RWNX_CMD_FLAG_WAIT_CFM.
Definition completed (s : sys) (i : nat) : Prop := exists c, cmd_array s !! i = Some c /\ 0 < complete c.

(** Everything that happens around the manager: a caller sends, looks again,
    is woken up (by its completion, a signal or the timeout); the work item
    takes a round, is woken up or times out; a confirmation arrives. *)
Inductive step : sys -> sys -> Prop :=
| st_send m reqcfm rid cfm s o s' : rwnx_send_msg m reqcfm rid cfm s = Ok (o, s') -> step s s'
| st_retry i s o s' : i ∈ spinners s -> send_msg_retry i s = Ok (o, s') -> step s s'
| st_done i s : i ∈ waiters s -> completed s i -> step s (queue_wait_over i (take_completion i s))
| st_killed i s : i ∈ waiters s -> step s (queue_wait_over i s)
| st_timeout i s : i ∈ waiters s -> step s (queue_timeout i s)
| st_pick s s' : worker s = None -> cmdWork s = true -> task_pick s = Ok s' -> step s s'
| st_work_done i s : worker s = Some i -> completed s i -> step s (task_wait_over i (take_completion i s))
| st_work_timeout i s : worker s = Some i -> step s (task_timeout i s)
| st_cfm cb msg s : step s (cmd_mgr_msgind cb msg s).

(** The manager after [rwnx_init_cmd_array] and [rwnx_cmd_mgr_init]. *)
Definition boot : sys :=
  rwnx_cmd_mgr_init (rwnx_init_cmd_array
    (mk_sys (mk_mgr RWNX_CMD_MGR_STATE_DEINIT 0 0 0 []) (replicate RWNX_CMD_ARRAY_SIZE zero_cmd) true false
            [] [] [] [] None false)).

(** ** The invariant *)

Definition drop_from (i : nat) (l : list nat) : list nat := List.filter (fun j => negb (Nat.eqb j i)) l.

Lemma elem_of_drop_from i j l : j ∈ drop_from i l <-> j ∈ l /\ j <> i.
Proof.
  unfold drop_from. rewrite !list_elem_of_In, List.filter_In, negb_true_iff, Nat.eqb_neq. done.
Qed.

Lemma drop_from_not i l : i ∉ l -> drop_from i l = l.
Proof.
  intros Hi. induction l as [|j l IH]; [done|]. cbn. apply not_elem_of_cons in Hi as [Hne Hi].
  destruct (Nat.eqb_spec j i); [congruence|]. cbn. f_equal. now apply IH.
Qed.

Lemma NoDup_drop_from i l : NoDup l -> NoDup (drop_from i l).
Proof. rewrite !NoDup_ListNoDup. apply List.NoDup_filter. Qed.

Lemma length_drop_from i l : NoDup l -> i ∈ l -> (length l = Datatypes.S (length (drop_from i l)))%nat.
Proof.
  induction 1 as [|j l Hj Hnd IH]; intros Hi; [now apply not_elem_of_nil in Hi|].
  cbn. destruct (Nat.eqb_spec j i) as [->|Hne]; cbn.
  - f_equal. symmetry. f_equal. now apply drop_from_not.
  - f_equal. apply elem_of_cons in Hi as [?|Hi]; [congruence|]. now apply IH.
Qed.

(** Everything behind a command the firmware owes an answer, or that is still
    to be pushed, is still to be pushed. *)
Fixpoint ordered (busy push : nat -> bool) (l : list nat) : Prop :=
  match l with
  | [] => True
  | i :: l' => (busy i = true -> Forall (fun j => push j = true) l') /\ ordered busy push l'
  end.

Lemma ordered_mono busy busy' push push' l :
  (forall i, i ∈ l -> busy' i = true -> busy i = true) -> (forall i, i ∈ l -> push i = true -> push' i = true) ->
  ordered busy push l -> ordered busy' push' l.
Proof.
  induction l as [|i l IH]; intros Hb Hp; [done|]. cbn. intros [H1 H2]. split.
  - intros Hi. apply Hb in Hi; [|left]. specialize (H1 Hi). rewrite Forall_forall in *.
    intros j Hj. apply Hp; [now right|]. now apply H1.
  - apply IH; [| |done]; intros j Hj; [apply Hb|apply Hp]; now right.
Qed.

Lemma ordered_snoc busy push l i : (forall j, j ∈ l -> busy j = true -> push i = true) ->
  ordered busy push l -> ordered busy push (l ++ [i]).
Proof.
  induction l as [|j l IH]; intros Hb; cbn; [done|]. intros [H1 H2]. split.
  - intros Hj. apply Forall_app. split; [now apply H1|]. constructor; [|constructor]. apply (Hb j); [left|done].
  - apply IH; [|done]. intros k Hk. apply Hb. now right.
Qed.

Lemma ordered_filter busy push f l : ordered busy push l -> ordered busy push (List.filter f l).
Proof.
  induction l as [|i l IH]; [done|]. cbn. intros [H1 H2]. destruct (f i); [|now apply IH]. cbn. split; [|now apply IH].
  intros Hi. specialize (H1 Hi). rewrite List.Forall_forall in *. intros j [Hj _]%List.filter_In. now apply H1.
Qed.

Lemma ordered_last busy push l i j : (forall k, push k = true -> busy k = true) ->
  ordered busy push l -> last l = Some i -> busy i = false -> j ∈ l -> busy j = false.
Proof.
  intros Hpb. induction l as [|k l IH]; intros Ho Hl Hi Hj; [now apply not_elem_of_nil in Hj|].
  cbn in Ho. destruct Ho as [H1 H2]. destruct l as [|k2 l].
  - injection Hl as ->. apply list_elem_of_singleton in Hj as ->. done.
  - rewrite last_cons_cons in Hl. specialize (IH H2 Hl Hi).
    apply elem_of_cons in Hj as [->|Hj]; [|now apply IH].
    destruct (busy k) eqn:Ek; [|done]. exfalso. specialize (H1 eq_refl). rewrite Forall_forall in H1.
    assert (i ∈ k2 :: l) as Hin by (apply last_Some_elem_of in Hl; done).
    specialize (H1 i Hin). apply Hpb in H1. congruence.
Qed.

(** One slot. *)
Record cinv (s : sys) (i : nat) (c : rwnx_cmd) : Prop := {
  ci_nb : has (flags c) RWNX_CMD_FLAG_NONBLOCK = false;
  ci_ack : has (flags c) RWNX_CMD_FLAG_WAIT_ACK = false;
  ci_used : used c = true <-> i ∈ cmds (mgr s) \/ i ∈ spinners s;
  ci_push : has (flags c) RWNX_CMD_FLAG_WAIT_PUSH = true ->
    i ∈ cmds (mgr s) /\ (i ∉ waiters s) /\ worker s <> Some i /\ a2e_msg c <> None;
  ci_owned : i ∈ cmds (mgr s) -> has (flags c) RWNX_CMD_FLAG_WAIT_PUSH = false ->
    i ∈ waiters s \/ worker s = Some i;
  ci_done : i ∈ cmds (mgr s) -> 0 <= complete c /\
    (has (flags c) RWNX_CMD_FLAG_WAIT_CFM = false <-> 0 < complete c);
  ci_spin : i ∈ spinners s -> has (flags c) RWNX_CMD_FLAG_REQ_CFM = true /\ a2e_msg c <> None
}.

Definition busy (s : sys) (i : nat) : bool := wait_push s i || wait_cfm s i.

Record inv (s : sys) : Prop := {
  i_state : state (mgr s) = RWNX_CMD_MGR_STATE_INITED;
  i_usb : usb_up s = true;
  i_all : forall i c, cmd_array s !! i = Some c -> cinv s i c;
  i_in : forall i, i ∈ cmds (mgr s) \/ i ∈ spinners s -> is_Some (cmd_array s !! i);
  i_nodup : NoDup (cmds (mgr s));
  i_sz : queue_sz (mgr s) = Z.of_nat (length (cmds (mgr s)));
  i_max : max_queue_sz (mgr s) = RWNX_CMD_MAX_QUEUED;
  i_le : Z.of_nat (length (cmds (mgr s))) <= RWNX_CMD_MAX_QUEUED;
  i_disj : forall i, i ∈ spinners s -> i ∉ cmds (mgr s);
  i_waiters : forall i, i ∈ waiters s -> i ∈ cmds (mgr s);
  i_worker : forall i, worker s = Some i -> i ∈ cmds (mgr s) /\ (i ∉ waiters s) /\ cmdWork s = true;
  i_order : ordered (busy s) (wait_push s) (cmds (mgr s));
  i_head : forall h, head (cmds (mgr s)) = Some h -> h ∈ waiters s \/ worker s = Some h \/ cmdWork s = true;
  i_ws : ws_tx s = negb (bool_decide (cmds (mgr s) = []))
}.

Lemma has_lor f a b : has f (Z.lor a b) = has f a || has f b.
Proof.
  unfold has. rewrite Z.land_lor_distr_r.
  destruct (Z.eqb_spec (Z.land f a) 0) as [->|H1]; [now rewrite Z.lor_0_l|].
  destruct (Z.eqb_spec (Z.land f b) 0) as [->|H2]; rewrite ?Z.lor_0_r; cbn [negb orb].
  - now apply negb_true_iff, Z.eqb_neq.
  - apply negb_true_iff, Z.eqb_neq. rewrite Z.lor_eq_0_iff. tauto.
Qed.

(** Tests of flags that were just set or cleared. *)
Ltac flag_eval :=
  repeat match goal with
  | |- context [has ?a ?b] =>
      let v := eval vm_compute in (has a b) in
      match v with
      | true => change (has a b) with true
      | false => change (has a b) with false
      end
  end.
Ltac flags_tac :=
  repeat first
    [ rewrite has_setf | rewrite has_clrf_same | rewrite has_clrf_disjoint by reflexivity ];
  flag_eval; rewrite ?orb_false_r, ?orb_true_r.

(** The slots after one of them was changed. *)
Lemma alter_all (P P' : nat -> rwnx_cmd -> Prop) i g (a : list rwnx_cmd) :
  (forall j c, a !! j = Some c -> P j c) ->
  (forall j c, j <> i -> a !! j = Some c -> P j c -> P' j c) ->
  (forall c, a !! i = Some c -> P i c -> P' i (g c)) ->
  forall j c, alter g i a !! j = Some c -> P' j c.
Proof.
  intros HP Hne Hi j c. destruct (decide (j = i)) as [->|Hj].
  - rewrite list_lookup_alter_eq. destruct (a !! i) as [d|] eqn:Ed; [|done]. intros [= <-]. apply (Hi d); auto.
  - rewrite list_lookup_alter_ne by done. intros Hc. apply Hne; auto.
Qed.

Lemma fl_upd_ne s i g j : j <> i -> fl (upd i g s) j = fl s j.
Proof. intros Hj. unfold fl, upd. cbn. now rewrite list_lookup_alter_ne. Qed.

Lemma fl_upd_eq s i g c : cmd_array s !! i = Some c -> fl (upd i g s) i = flags (g c).
Proof. intros Hc. unfold fl, upd. cbn. now rewrite list_lookup_alter_eq, Hc. Qed.

Lemma upd_upd i f g s : upd i f (upd i g s) = upd i (fun c => f (g c)) s.
Proof.
  unfold upd. destruct s. cbn. f_equal. apply list_eq. intros j. destruct (decide (j = i)) as [->|].
  - rewrite !list_lookup_alter_eq. now destruct (_ !! _).
  - now rewrite !list_lookup_alter_ne.
Qed.

Lemma is_Some_alter (g : rwnx_cmd -> rwnx_cmd) i (a : list rwnx_cmd) j : is_Some (a !! j) -> is_Some (alter g i a !! j).
Proof.
  intros [c Hc]. destruct (decide (j = i)) as [->|]; [rewrite list_lookup_alter_eq, Hc|rewrite list_lookup_alter_ne by done]; eauto.
Qed.

Lemma nin_nil {A} (x : A) (P : Prop) : x ∈ [] -> P.
Proof. intros H. now apply not_elem_of_nil in H. Qed.

Lemma boot_inv : inv boot.
Proof.
  assert (cmd_array boot = replicate RWNX_CMD_ARRAY_SIZE zero_cmd) as Ea by reflexivity.
  constructor; try done; cbn [mgr boot cmds].
  - intros i c. rewrite Ea. intros [-> _]%lookup_replicate.
    constructor; try done; cbn; try (intros H; now apply (nin_nil _ _ H)).
    split; [done|]. intros [H|H]; apply (nin_nil _ _ H).
  - intros i [H|H]; apply (nin_nil _ _ H).
  - constructor.
  - intros i H. apply (nin_nil _ _ H).
Qed.

(** Leaving the queue: the common part of every successful wake-up. *)
Lemma unlink_inv s s' i g : inv s -> i ∈ cmds (mgr s) -> wait_push s i = false ->
  cmd_array s' = alter g i (cmd_array s) -> (forall c, flags (g c) = flags c /\ used (g c) = false) ->
  state (mgr s') = state (mgr s) -> max_queue_sz (mgr s') = max_queue_sz (mgr s) ->
  cmds (mgr s') = drop_from i (cmds (mgr s)) ->
  queue_sz (mgr s') = queue_sz (mgr s) - 1 ->
  usb_up s' = usb_up s -> spinners s' = spinners s -> waiters s' = drop_from i (waiters s) ->
  (worker s' = worker s /\ worker s <> Some i \/ worker s = Some i /\ worker s' = None) ->
  ws_tx s' = negb (bool_decide (cmds (mgr s') = [])) ->
  (cmdWork s' = true \/ cmdWork s' = cmdWork s /\ cmds (mgr s') = []) -> inv s'.
Proof.
  intros [Hst Husb Hall Hin Hnd Hsz Hmax Hle Hdisj Hwt Hwk Hord Hhd Hws] Hi Hpi Ha Hg Es Em Ec Eq Eu Esp Ew Ewk Ews Ecw.
  assert (forall j, j <> i -> fl s' j = fl s j) as Hfl.
  { intros j Hj. unfold fl. now rewrite Ha, list_lookup_alter_ne. }
  assert (forall j, worker s' = Some j -> worker s = Some j /\ j <> i) as Hwk'.
  { intros j Hj. destruct Ewk as [[E Hne]|[_ E]]; [|congruence]. rewrite E in Hj. split; [done|congruence]. }
  constructor; rewrite ?Es, ?Eu, ?Em, ?Esp; try done.
  - rewrite Ha. apply (alter_all (cinv s)); [done| |].
    + intros j c Hj Hc [Hnb Hack Hu Hp Ho Hd Hs]. constructor; rewrite ?Ec, ?Esp, ?Ew; try done.
      * rewrite Hu, elem_of_drop_from. tauto.
      * intros E. destruct (Hp E) as (?&?&?&?). rewrite !elem_of_drop_from. split_and!; try tauto.
        intros E2. apply Hwk' in E2. tauto.
      * rewrite elem_of_drop_from. intros [Hjc _] E. rewrite elem_of_drop_from.
        destruct (Ho Hjc E) as [?|Hwj]; [now left|]. right. destruct Ewk as [[-> _]|[E2 _]]; [done|congruence].
      * rewrite elem_of_drop_from. intros [Hjc _]. now apply Hd.
    + intros c Hc [Hnb Hack Hu Hp Ho Hd Hs]. destruct (Hg c) as [Ef Eus].
      assert (i ∉ spinners s) as Hisp by (intros E; now apply (Hdisj _ E)).
      constructor; rewrite ?Ec, ?Esp, ?Ew, ?Ef, ?Eus, ?elem_of_drop_from; try done.
      * split; [done|]. intros [[_ ?]|?]; done.
      * intros E. unfold wait_push, fl in Hpi. rewrite Hc in Hpi. congruence.
      * intros [_ ?]. done.
      * intros [_ ?]. done.
  - intros j Hj. rewrite Ha. apply is_Some_alter, Hin. rewrite Ec, elem_of_drop_from in Hj. tauto.
  - rewrite Ec. now apply NoDup_drop_from.
  - rewrite Ec, Eq, Hsz. rewrite (length_drop_from i) by done. lia.
  - rewrite Ec. pose proof (length_drop_from i _ Hnd Hi). lia.
  - intros j Hj. rewrite Ec, elem_of_drop_from. intros [E _]. now apply (Hdisj j).
  - intros j. rewrite Ew, Ec, !elem_of_drop_from. intros [? ?]. split; [now apply Hwt|done].
  - intros j Hj. apply Hwk' in Hj as [Hj Hne]. destruct (Hwk j Hj) as (?&?&?). rewrite Ec, Ew, !elem_of_drop_from.
    split_and!; try tauto. destruct Ecw as [?|[-> _]]; done.
  - rewrite Ec. apply (ordered_mono (busy s) _ (wait_push s)); [| |now apply ordered_filter];
      intros j [_ Hj]%elem_of_drop_from; unfold busy, wait_push, wait_cfm; now rewrite Hfl.
  - intros h Hh. destruct Ecw as [?|[_ E]]; [tauto|]. rewrite E in Hh. discriminate.
Qed.

Lemma waiter_flags s i : inv s -> i ∈ waiters s -> i ∈ cmds (mgr s) /\ wait_push s i = false.
Proof.
  intros Hs Hi. pose proof (i_waiters _ Hs _ Hi) as Hc. split; [done|].
  destruct (i_in _ Hs i (or_introl Hc)) as [c Ec]. unfold wait_push, fl. rewrite Ec.
  destruct (has (flags c) RWNX_CMD_FLAG_WAIT_PUSH) eqn:E; [|done].
  destruct (ci_push _ _ _ (i_all _ Hs _ _ Ec) E) as (_&?&_). done.
Qed.

Lemma worker_flags s i : inv s -> worker s = Some i -> i ∈ cmds (mgr s) /\ wait_push s i = false.
Proof.
  intros Hs Hi. destruct (i_worker _ Hs _ Hi) as (Hc&_&_). split; [done|].
  destruct (i_in _ Hs i (or_introl Hc)) as [c Ec]. unfold wait_push, fl. rewrite Ec.
  destruct (has (flags c) RWNX_CMD_FLAG_WAIT_PUSH) eqn:E; [|done].
  destruct (ci_push _ _ _ (i_all _ Hs _ _ Ec) E) as (_&_&?&_). done.
Qed.

Lemma queue_pos s i : inv s -> i ∈ cmds (mgr s) ->
  u32 (queue_sz (mgr s) - 1) = queue_sz (mgr s) - 1 /\
  (queue_sz (mgr s) - 1 = 0 <-> drop_from i (cmds (mgr s)) = []).
Proof.
  intros Hs Hi. pose proof (i_sz _ Hs) as Hsz. pose proof (i_le _ Hs) as Hle.
  pose proof (length_drop_from i _ (i_nodup _ Hs) Hi) as Hl. unfold RWNX_CMD_MAX_QUEUED in Hle.
  rewrite wrapU_small by lia. split; [done|].
  destruct (drop_from i (cmds (mgr s))); cbn in *; [split; [done|lia]|split; [lia|done]].
Qed.

(** The state after [cmd_unlink], field by field. *)
Lemma unlink_eq s i g : inv s -> i ∈ cmds (mgr s) ->
  let s' := cmd_unlink i (upd i g s) in
  cmd_array s' = alter (fun c => (g c) <| used := false |>) i (cmd_array s) /\
  state (mgr s') = state (mgr s) /\ max_queue_sz (mgr s') = max_queue_sz (mgr s) /\
  cmds (mgr s') = drop_from i (cmds (mgr s)) /\ queue_sz (mgr s') = queue_sz (mgr s) - 1 /\
  usb_up s' = usb_up s /\ spinners s' = spinners s /\ waiters s' = waiters s /\ worker s' = worker s /\
  cmdWork s' = cmdWork s /\ ws_tx s' = negb (bool_decide (cmds (mgr s') = [])) /\ pushed s' = pushed s.
Proof.
  intros Hs Hi. cbn zeta. destruct (queue_pos s i Hs Hi) as [Eu Ez]. pose proof (i_ws _ Hs) as Hws.
  assert (bool_decide (cmds (mgr s) = []) = false) as Hne.
  { apply bool_decide_eq_false_2. intros E. rewrite E in Hi. now apply not_elem_of_nil in Hi. }
  unfold cmd_unlink. cbn [mgr field_set queue_sz cmds upd]. rewrite Eu.
  assert (forall (a : list rwnx_cmd), alter (fun c => c <| used := false |>) i (alter g i a) =
    alter (fun c => (g c) <| used := false |>) i a) as Ea.
  { intros a. apply list_eq. intros j. destruct (decide (j = i)) as [->|].
    - rewrite !list_lookup_alter_eq. now destruct (_ !! _).
    - now rewrite !list_lookup_alter_ne. }
  destruct (Z.eqb_spec (queue_sz (mgr s) - 1) 0) as [E|E]; cbn; rewrite Ea; split_and!; try done.
  - apply Ez in E. change (List.filter _ (cmds (mgr s))) with (drop_from i (cmds (mgr s))). now rewrite E.
  - rewrite Hws, Hne. rewrite bool_decide_eq_false_2; [done|]. intros E2. now apply Ez in E2.
Qed.

Lemma wait_over_inv s i g : inv s -> i ∈ waiters s -> (forall c, flags (g c) = flags c) ->
  inv (queue_wait_over i (upd i g s)).
Proof.
  intros Hs Hi Hg. destruct (waiter_flags s i Hs Hi) as [Hc Hp].
  destruct (unlink_eq s i g Hs Hc) as (Ea&Es&Em&Ec&Eq&Eu&Esp&Ew&Ewk&Ecw&Ews&_).
  assert (queue_wait_over i (upd i g s) =
    let t := not_waiting i (cmd_unlink i (upd i g s)) in
    if negb (bool_decide (cmds (mgr t) = [])) && usb_up t then t <| cmdWork := true |> else t) as ->.
  { unfold queue_wait_over, not_waiting, cmd_unlink. cbn. now destruct (_ =? 0). }
  cbn zeta. set (t := not_waiting i (cmd_unlink i (upd i g s))) in *.
  assert (usb_up t = true) as Et by exact (eq_trans Eu (i_usb _ Hs)). rewrite Et.
  rewrite andb_true_r.
  assert (worker s <> Some i) as Hnw.
  { intros E. destruct (i_worker _ Hs _ E) as (_&?&_). done. }
  assert (forall c, flags ((g c) <| used := false |>) = flags c /\ used ((g c) <| used := false |>) = false) as Hg2
    by (intros c; split; [apply Hg|done]).
  assert (waiters t = drop_from i (waiters s)) as Ewt by exact (f_equal (drop_from i) Ew).
  destruct (bool_decide (cmds (mgr t) = [])) eqn:Eb; cbn [negb];
    lazymatch goal with |- inv ?x =>
      refine (unlink_inv s x i _ Hs Hc Hp Ea Hg2 Es Em Ec Eq Eu Esp Ewt (or_introl (conj Ewk Hnw)) Ews _) end.
  - right. split; [exact Ecw|]. now apply bool_decide_eq_true_1 in Eb.
  - now left.
Qed.

Lemma task_over_inv s i : inv s -> worker s = Some i -> inv (task_wait_over i (take_completion i s)).
Proof.
  intros Hs Hi. destruct (worker_flags s i Hs Hi) as [Hc Hp].
  destruct (i_worker _ Hs i Hi) as (_&Hnw&Hcw).
  destruct (unlink_eq s i (fun c => c <| complete ::= fun n => n - 1 |>) Hs Hc) as (Ea&Es&Em&Ec&Eq&Eu&Esp&Ew&Ewk&Ecw&Ews&_).
  assert (waiters (task_wait_over i (take_completion i s)) = drop_from i (waiters s)) as Ewt.
  { rewrite drop_from_not by done. exact Ew. }
  refine (unlink_inv s (task_wait_over i (take_completion i s)) i _ Hs Hc Hp Ea _ Es Em Ec Eq Eu Esp Ewt
    (or_intror (conj Hi eq_refl)) Ews _); [done|].
  left. exact (eq_trans Ecw Hcw).
Qed.

(** A confirmation. *)
Lemma msgind_find_some cb mid a l i : msgind_find cb mid a l = Some i ->
  i ∈ l /\ exists c, a !! i = Some c /\ reqid c = mid /\ has (flags c) RWNX_CMD_FLAG_WAIT_CFM = true.
Proof.
  induction l as [|j l IH]; [done|]. cbn. destruct (a !! j) as [c|] eqn:Ec.
  - destruct (reqid c =? mid) eqn:E1; cbn [andb]; [|intros H; apply IH in H as [? ?]; split; [now right|done]].
    destruct (has (flags c) RWNX_CMD_FLAG_WAIT_CFM) eqn:E2; cbn [andb];
      [|intros H; apply IH in H as [? ?]; split; [now right|done]].
    destruct (negb (cb j)); [|intros H; apply IH in H as [? ?]; split; [now right|done]].
    intros [= <-]. split; [left|]. exists c. apply Z.eqb_eq in E1. done.
  - intros H. apply IH in H as [? ?]. split; [now right|done].
Qed.

Lemma complete_eq i s c : cmd_array s !! i = Some c -> has (flags c) RWNX_CMD_FLAG_NONBLOCK = false ->
  RWNX_CMD_WAIT_COMPLETE (flags c) = true -> queue_sz (mgr s) <> 0 ->
  cmd_complete i s = upd i (fun c => c <| flags ::= fun f => setf f RWNX_CMD_FLAG_DONE |> <| result := 0 |>
                                       <| complete ::= Z.add 1 |>) s.
Proof.
  intros Hc Hnb Hw Hz. unfold cmd_complete. cbn [upd field_set cmd_array].
  rewrite list_lookup_alter_eq, Hc. cbn [fmap option_fmap option_map flags].
  assert (has (setf (flags c) RWNX_CMD_FLAG_DONE) RWNX_CMD_FLAG_NONBLOCK = false) as -> by (flags_tac; done).
  assert (RWNX_CMD_WAIT_COMPLETE (setf (flags c) RWNX_CMD_FLAG_DONE) = true) as ->.
  { unfold RWNX_CMD_WAIT_COMPLETE in *. flags_tac. done. }
  cbn [upd field_set mgr queue_sz]. destruct (Z.eqb_spec (queue_sz (mgr s)) 0); [done|].
  etransitivity; [apply upd_upd|]. reflexivity.
Qed.

(** The confirmed command: the flag goes, [DONE] comes, and one completion. *)
Definition confirmed (c : rwnx_cmd) : rwnx_cmd :=
  c <| flags ::= fun f => setf (clrf f RWNX_CMD_FLAG_WAIT_CFM) RWNX_CMD_FLAG_DONE |>
    <| result := 0 |> <| complete ::= Z.add 1 |>.

Lemma msgind_eq cb msg s i c : msgind_find cb (msg_id msg) (cmd_array s) (cmds (mgr s)) = Some i ->
  cmd_array s !! i = Some c -> has (flags c) RWNX_CMD_FLAG_NONBLOCK = false ->
  has (flags c) RWNX_CMD_FLAG_WAIT_ACK = false -> queue_sz (mgr s) <> 0 ->
  exists w, cmd_mgr_msgind cb msg s = (upd i confirmed s) <| written := w |>.
Proof.
  intros Hf Hc Hnb Hack Hz. unfold cmd_mgr_msgind. rewrite Hf.
  cbn [upd field_set cmd_array]. rewrite list_lookup_alter_eq, Hc. cbn [fmap option_fmap option_map e2a_msg flags].
  assert (RWNX_CMD_WAIT_COMPLETE (clrf (flags c) RWNX_CMD_FLAG_WAIT_CFM) = true) as Hw.
  { unfold RWNX_CMD_WAIT_COMPLETE. rewrite has_lor. flags_tac. now rewrite Hack. }
  rewrite Hw.
  assert (forall t, cmd_array t = alter (fun c => c <| flags ::= fun f => clrf f RWNX_CMD_FLAG_WAIT_CFM |>) i (cmd_array s) ->
    mgr t = mgr s -> cmd_complete i t = upd i (fun c => c <| flags ::= fun f => setf f RWNX_CMD_FLAG_DONE |>
      <| result := 0 |> <| complete ::= Z.add 1 |>) t) as E.
  { intros t Et Em. eapply complete_eq; [rewrite Et, list_lookup_alter_eq, Hc; reflexivity| |exact Hw|now rewrite Em].
    cbn [flags field_set]. flags_tac. done. }
  destruct (e2a_msg c) as [b|]; [destruct (Z.min (param_len msg) RWNX_CMD_E2AMSG_LEN_MAX =? 0)|];
    (rewrite E by done); eexists; unfold upd; cbn [field_set];
    (etransitivity; [|reflexivity]); cbn;
    (f_equal; apply list_eq; intros j; destruct (decide (j = i)) as [->|];
      [rewrite !list_lookup_alter_eq; now destruct (cmd_array s !! i)|now rewrite !list_lookup_alter_ne]).
Qed.

(** Fields of [upd]. *)
Lemma msgind_inv cb msg s : inv s -> inv (cmd_mgr_msgind cb msg s).
Proof.
  intros Hs. destruct (msgind_find cb (msg_id msg) (cmd_array s) (cmds (mgr s))) as [i|] eqn:Hf;
    [|unfold cmd_mgr_msgind; now rewrite Hf].
  destruct (msgind_find_some _ _ _ _ _ Hf) as [Hi (c&Ec&_&Hcfm)].
  destruct (i_all _ Hs _ _ Ec) as [Hnb Hack _ _ _ _ _].
  assert (queue_sz (mgr s) <> 0) as Hz.
  { rewrite (i_sz _ Hs). destruct (cmds (mgr s)); [now apply not_elem_of_nil in Hi|cbn; lia]. }
  destruct (msgind_eq cb msg s i c Hf Ec Hnb Hack Hz) as [w ->].
  destruct Hs as [Hst Husb Hall Hin Hnd Hsz Hmax Hle Hdisj Hwt Hwk Hord Hhd Hws].
  constructor; cbn [field_set mgr cmd_array usb_up ws_tx spinners waiters worker cmdWork upd]; try done.
  - apply (alter_all (cinv s)); [done| |].
    + intros j d _ _ [? ? ? ? ? ? ?]. now constructor.
    + intros d Hd [? ? Hu Hp Ho Hdn Hsp]. rewrite Ec in Hd. injection Hd as <-.
      constructor; unfold confirmed; cbn [flags field_set used complete a2e_msg upd mgr spinners waiters worker cmds] in *;
        try (flags_tac; done).
      * intros Hj. destruct (Hdn Hj) as [H0 Hiff]. flags_tac. split; [lia|]. split; [lia|done].
  - intros j Hj. apply is_Some_alter, Hin, Hj.
  - assert (forall j, fl (upd i confirmed s <| written := w |>) j = fl (upd i confirmed s) j) as Ew by done.
    apply (ordered_mono (busy s) _ (wait_push s)); [| |done]; intros j _;
      unfold busy, wait_push, wait_cfm; rewrite Ew;
      (destruct (decide (j = i)) as [->|]; [|now rewrite fl_upd_ne by done]);
      rewrite (fl_upd_eq _ _ _ c) by done; unfold fl; rewrite Ec; unfold confirmed; cbn [flags field_set]; flags_tac;
      rewrite ?orb_true_iff; tauto.
Qed.

(** One round of the work item. *)
Lemma pick_inv s s' : inv s -> worker s = None -> task_pick s = Ok s' -> inv s'.
Proof.
  intros Hs Hnw. unfold task_pick. pose proof Hs as [Hst Husb Hall Hin Hnd Hsz Hmax Hle Hdisj Hwt Hwk Hord Hhd Hws].
  destruct (cmds (mgr s)) as [|h t] eqn:Ecs.
  { intros [= <-]. constructor; cbn [field_set mgr cmd_array usb_up ws_tx spinners waiters worker cmdWork];
      rewrite ?Ecs; try done.
    - intros i c Hc. destruct (Hall i c Hc). now constructor.
    - intros i Hi. congruence. }
  unfold get. destruct (cmd_array s !! h) as [c|] eqn:Ec; [|discriminate]. cbn [from_option_res mbind res_bind].
  destruct (Hall h c Ec) as [Hnb Hack Hu Hp Ho Hd Hsp].
  assert (h ∈ cmds (mgr s)) as Hh by (rewrite Ecs; left).
  destruct (has (flags c) RWNX_CMD_FLAG_WAIT_PUSH) eqn:Epush.
  - destruct (Hp eq_refl) as (_&Hnwt&_&Ha). destruct (a2e_msg c) as [m|]; [|done].
    cbn [from_option_res mbind res_bind]. intros [= <-].
    set (g := fun c : rwnx_cmd => (c <| flags ::= fun f => clrf f RWNX_CMD_FLAG_WAIT_PUSH |>) <| a2e_msg := None |>).
    lazymatch goal with |- inv ?x =>
      assert (exists pu, x = (upd h g s) <| pushed := pu |> <| worker := Some h |>) as [pu ->] end.
    { unfold cmd_push, cmd_tx. cbn [upd usb_up field_set]. rewrite Husb. eexists. unfold upd. cbn.
      f_equal. apply list_eq. intros j. destruct (decide (j = h)) as [->|];
        [rewrite !list_lookup_alter_eq; now destruct (cmd_array s !! h)|now rewrite !list_lookup_alter_ne]. }
    assert (forall j, fl (upd h g s <| pushed := pu |> <| worker := Some h |>) j = fl (upd h g s) j) as Ef by done.
    assert (h ∉ t) as Hht by (apply NoDup_cons in Hnd; tauto).
    constructor; cbn [field_set mgr cmd_array usb_up ws_tx spinners waiters worker cmdWork upd]; rewrite ?Ecs; try done.
    + apply (alter_all (cinv s)); [done| |].
      * intros j d Hj _ [? ? Hu' Hp' Ho' ? ?]. constructor; try done; cbn [mgr spinners waiters worker field_set].
        -- intros E. destruct (Hp' E) as (?&?&?&?). split_and!; try done. congruence.
        -- intros Hjc E. destruct (Ho' Hjc E); [now left|congruence].
      * intros d Ed _. rewrite Ec in Ed. injection Ed as <-.
        constructor; unfold g; cbn [flags field_set used complete a2e_msg mgr spinners waiters worker cmds] in *;
          try (flags_tac; done).
        -- intros _ _. now right.
        -- intros E. exfalso. apply (Hdisj h E). left.
    + intros j Hj. apply is_Some_alter, Hin, Hj.
    + intros j [= <-]. split; [left|]. split; [done|]. destruct (Hhd h eq_refl) as [?|[?|?]]; [done|congruence|done].
    + cbn [ordered]. cbn [ordered] in Hord. destruct Hord as [H1 H2].
      assert (Forall (fun j => wait_push s j = true) t) as Hall'.
      { apply H1. unfold busy, wait_push, fl. rewrite Ec, Epush. done. }
      assert (forall j, j ∈ t -> fl (upd h g s) j = fl s j) as Ef2.
      { intros j Hj. apply fl_upd_ne. intros ->. done. }
      split.
      * intros _. rewrite Forall_forall in *. intros j Hj. unfold wait_push. rewrite Ef, Ef2 by done. now apply Hall'.
      * apply (ordered_mono (busy s) _ (wait_push s)); [| |done]; intros j Hj;
          unfold busy, wait_push, wait_cfm; now rewrite Ef, Ef2.
    + intros h' [= <-]. right. now left.
  - intros [= <-].
    constructor; cbn [field_set mgr cmd_array usb_up ws_tx spinners waiters worker cmdWork]; rewrite ?Ecs; try done.
    + intros i d Hi. destruct (Hall i d Hi). now constructor.
    + intros i Hi. congruence.
    + intros h' [= <-]. destruct (Ho Hh eq_refl); tauto.
Qed.

(** A slot is taken for a new command. *)
Lemma first_free_some a i : first_free a = Some i -> exists c, a !! i = Some c /\ used c = false.
Proof.
  revert i. induction a as [|c a IH]; intros i; [done|]. cbn. destruct (used c) eqn:E.
  - destruct (first_free a) as [j|]; [|done]. intros [= <-]. apply IH. done.
  - intros [= <-]. exists c. done.
Qed.

Lemma first_free_none a : first_free a = None -> Forall (fun c => used c = true) a.
Proof.
  induction a as [|c a IH]; [constructor|]. cbn. destruct (used c) eqn:E; [|done].
  destruct (first_free a); [done|]. intros _. constructor; [done|]. now apply IH.
Qed.

Lemma malloc_inv s i m rid cfm : inv s -> first_free (cmd_array s) = Some i ->
  inv (upd i (fun c => fill_cmd m rid cfm true (c <| used := true |>)) s <| spinners ::= cons i |>) /\
  (i ∉ cmds (mgr s)) /\ (i ∉ spinners s).
Proof.
  intros Hs Hf. apply first_free_some in Hf as (c&Ec&Eu).
  pose proof Hs as [Hst Husb Hall Hin Hnd Hsz Hmax Hle Hdisj Hwt Hwk Hord Hhd Hws].
  destruct (Hall i c Ec) as [Hnb Hack Hu Hp Ho Hd Hsp]. rewrite Eu in Hu.
  assert (i ∉ cmds (mgr s)) as Hic by (intros E; assert (false = true) by tauto; done).
  assert (i ∉ spinners s) as His by (intros E; assert (false = true) by tauto; done).
  assert (has (flags c) RWNX_CMD_FLAG_WAIT_PUSH = false) as Hnp.
  { destruct (has (flags c) RWNX_CMD_FLAG_WAIT_PUSH); [|done]. now destruct (Hp eq_refl). }
  set (g := fun c => fill_cmd m rid cfm true (c <| used := true |>)).
  split; [|done].
  assert (forall j, fl (upd i g s <| spinners ::= cons i |>) j = fl (upd i g s) j) as Ef by done.
  constructor; cbn [field_set mgr cmd_array usb_up ws_tx spinners waiters worker cmdWork upd]; try done.
  - apply (alter_all (cinv s)); [done| |].
    + intros j d Hj _ [? ? Hu' ? ? ? Hsp']. constructor; cbn [mgr spinners waiters worker field_set upd]; try done.
      * rewrite Hu', elem_of_cons. tauto.
      * rewrite elem_of_cons. intros [?|?]; [done|]. now apply Hsp'.
    + intros d Ed _. rewrite Ec in Ed. injection Ed as <-.
      constructor; unfold g, fill_cmd; cbn [flags field_set used complete a2e_msg mgr spinners waiters worker upd];
        try done; try (flags_tac; done).
      * split; [|done]. intros _. right. left.
      * flags_tac. rewrite Hnp. done.
  - intros j [Hj|Hj]; apply is_Some_alter; [apply Hin; now left|].
    apply elem_of_cons in Hj as [->|Hj]; [now exists c|apply Hin; now right].
  - intros j [->|Hj]%elem_of_cons; [done|now apply Hdisj].
  - apply (ordered_mono (busy s) _ (wait_push s)); [| |done]; intros j Hj;
      assert (fl (upd i g s) j = fl s j) as E by (apply fl_upd_ne; intros ->; done);
      unfold busy, wait_push, wait_cfm; now rewrite Ef, E.
Qed.

(** The slot of a caller whose command was refused. *)
Lemma refuse_inv s i g : inv s -> i ∈ spinners s ->
  (forall c, flags (g c) = flags c /\ used (g c) = false) ->
  inv (upd i g s <| spinners ::= drop_from i |>).
Proof.
  intros Hs Hi Hg.
  pose proof Hs as [Hst Husb Hall Hin Hnd Hsz Hmax Hle Hdisj Hwt Hwk Hord Hhd Hws].
  assert (i ∉ cmds (mgr s)) as Hic by now apply Hdisj.
  assert (forall j, fl (upd i g s <| spinners ::= drop_from i |>) j = fl (upd i g s) j) as Ef by done.
  constructor; cbn [field_set mgr cmd_array usb_up ws_tx spinners waiters worker cmdWork upd]; try done.
  - apply (alter_all (cinv s)); [done| |].
    + intros j d Hj _ [? ? Hu' ? ? ? Hsp']. constructor; cbn [mgr spinners waiters worker field_set upd]; try done.
      * rewrite Hu', elem_of_drop_from. tauto.
      * rewrite elem_of_drop_from. intros [? _]. now apply Hsp'.
    + intros d _ [? ? ? Hp ? ? ?]. destruct (Hg d) as [E1 E2].
      constructor; cbn [mgr spinners waiters worker field_set upd]; rewrite ?E1, ?E2; try done.
      * split; [done|]. rewrite elem_of_drop_from. tauto.
      * intros E. now destruct (Hp E).
      * rewrite elem_of_drop_from. tauto.
  - intros j Hj. apply is_Some_alter, Hin. rewrite elem_of_drop_from in Hj. tauto.
  - intros j [Hj _]%elem_of_drop_from. now apply Hdisj.
  - apply (ordered_mono (busy s) _ (wait_push s)); [| |done]; intros j Hj;
      assert (fl (upd i g s) j = fl s j) as E by (apply fl_upd_ne; intros ->; done);
      unfold busy, wait_push, wait_cfm; now rewrite Ef, E.
Qed.

(** A command is linked: [pp] says whether it is left to be pushed. *)
Lemma link_inv s s' i g (pp : bool) : inv s -> i ∈ spinners s ->
  cmd_array s' = alter g i (cmd_array s) ->
  (forall c, cinv s i c -> has (flags (g c)) RWNX_CMD_FLAG_NONBLOCK = false /\
     has (flags (g c)) RWNX_CMD_FLAG_WAIT_ACK = false /\ has (flags (g c)) RWNX_CMD_FLAG_WAIT_CFM = true /\
     has (flags (g c)) RWNX_CMD_FLAG_WAIT_PUSH = pp /\ complete (g c) = 0 /\ used (g c) = used c /\
     (pp = true -> a2e_msg (g c) <> None)) ->
  (pp = false -> forall j, j ∈ cmds (mgr s) -> busy s j = false) ->
  mgr s' = (mgr s) <| next_tkn := next_tkn (mgr s') |> <| cmds := cmds (mgr s) ++ [i] |>
                   <| queue_sz := queue_sz (mgr s) + 1 |> ->
  Z.of_nat (length (cmds (mgr s))) < RWNX_CMD_MAX_QUEUED ->
  usb_up s' = usb_up s -> spinners s' = drop_from i (spinners s) ->
  waiters s' = (if pp then waiters s else i :: waiters s) -> worker s' = worker s ->
  ws_tx s' = true -> (cmdWork s = true -> cmdWork s' = true) ->
  (cmds (mgr s) = [] -> pp = true -> cmdWork s' = true) -> inv s'.
Proof.
  intros Hs Hi Ha Hg Hbz Em Hlt Eu Esp Ew Ewk Ews Ecw Ecw0.
  pose proof Hs as [Hst Husb Hall Hin Hnd Hsz Hmax Hle Hdisj Hwt Hwk Hord Hhd Hws].
  assert (i ∉ cmds (mgr s)) as Hic by now apply Hdisj.
  assert (cmds (mgr s') = cmds (mgr s) ++ [i]) as Ec by now rewrite Em.
  assert (forall j, j <> i -> fl s' j = fl s j) as Hfl.
  { intros j Hj. unfold fl. now rewrite Ha, list_lookup_alter_ne. }
  assert (i ∉ waiters s) as Hiw by (intros E; now apply Hwt in E).
  assert (worker s <> Some i) as Hiwk by (intros E; now apply Hwk in E).
  assert (forall j, j ∈ cmds (mgr s) -> j <> i) as Hne by (intros j Hj ->; done).
  assert (wait_push s' i = pp) as Hpi.
  { destruct (Hin i) as [c Hc]; [now right|]. unfold wait_push, fl. rewrite Ha, list_lookup_alter_eq, Hc.
    now destruct (Hg c (Hall _ _ Hc)) as (_&_&_&?&_). }
  constructor; rewrite ?Eu, ?Esp, ?Ewk; try done.
  - now rewrite Em.
  - rewrite Ha. apply (alter_all (cinv s)); [done| |].
    + intros j c Hj _ [? ? Hu Hp Ho Hd Hsp]. constructor; rewrite ?Ec, ?Esp, ?Ew, ?Ewk; try done.
      * rewrite Hu, elem_of_app, elem_of_drop_from, list_elem_of_singleton. tauto.
      * intros E. destruct (Hp E) as (?&?&?&?). rewrite elem_of_app. split_and!; try tauto.
        destruct pp; [done|]. rewrite elem_of_cons. tauto.
      * rewrite elem_of_app, list_elem_of_singleton. intros [Hjc|?] E; [|done].
        destruct (Ho Hjc E); [|tauto]. left. destruct pp; [done|]. now right.
      * rewrite elem_of_app, list_elem_of_singleton. intros [Hjc|?]; [|done]. now apply Hd.
      * rewrite elem_of_drop_from. intros [? _]. now apply Hsp.
    + intros c Hc Hcv. destruct (Hg c Hcv) as (Gnb&Gack&Gcfm&Gp&Gc&Gu&Ga). destruct Hcv as [? ? Hu ? ? ? ?].
      constructor; rewrite ?Ec, ?Esp, ?Ew, ?Ewk, ?Gnb, ?Gack, ?Gcfm, ?Gp, ?Gc, ?Gu; try done.
      * rewrite Hu, elem_of_app, list_elem_of_singleton. tauto.
      * intros ->. rewrite elem_of_app, list_elem_of_singleton. specialize (Ga eq_refl). tauto.
      * intros _ ->. left. left.
      * rewrite elem_of_drop_from. tauto.
  - intros j Hj. rewrite Ha. apply is_Some_alter, Hin. rewrite Ec, elem_of_app, list_elem_of_singleton, elem_of_drop_from in Hj.
    destruct Hj as [[?|?]|[? _]]; subst; tauto.
  - rewrite Ec. apply NoDup_app. split_and!; [done| |apply NoDup_singleton].
    intros j Hj ->%list_elem_of_singleton. done.
  - rewrite Em. cbn. rewrite Hsz, length_app. cbn. lia.
  - now rewrite Em.
  - rewrite Ec, length_app. cbn. lia.
  - intros j. rewrite Ec, elem_of_drop_from, elem_of_app, list_elem_of_singleton. intros [Hj ?] [?|?]; [|done].
    now apply (Hdisj j).
  - intros j. rewrite Ew, Ec, elem_of_app, list_elem_of_singleton. destruct pp; [left; auto|].
    rewrite elem_of_cons. intros [->|?]; [now right|left; auto].
  - intros j Hj. destruct (Hwk j Hj) as (?&?&?). rewrite Ec, Ew, elem_of_app. split_and!; auto.
    destruct pp; [done|]. rewrite elem_of_cons. intros [->|?]; done.
  - rewrite Ec. apply ordered_snoc.
    + intros j Hj Eb. rewrite Hpi. destruct pp; [done|]. specialize (Hbz eq_refl j Hj).
      unfold busy, wait_push, wait_cfm in *. rewrite Hfl in Eb by auto. congruence.
    + apply (ordered_mono (busy s) _ (wait_push s)); [| |done]; intros j Hj;
        unfold busy, wait_push, wait_cfm; rewrite Hfl; auto.
  - intros h. rewrite Ec, Ew. destruct (cmds (mgr s)) as [|h' t] eqn:Ecs.
    + intros [= <-]. destruct pp; [right; right; auto|left; left].
    + intros [= <-]. destruct (Hhd h' eq_refl) as [?|[?|?]]; auto. left. destruct pp; [done|now right].
  - rewrite Ec, Ews, bool_decide_eq_false_2; [done|]. now destruct (cmds (mgr s)).
Qed.

Lemma last_busy_false s : inv s -> last_busy s = false -> forall j, j ∈ cmds (mgr s) -> busy s j = false.
Proof.
  intros Hs Hl j Hj. unfold last_busy in Hl. destruct (last (cmds (mgr s))) as [k|] eqn:Ek.
  - apply (ordered_last (busy s) (wait_push s) (cmds (mgr s)) k); try done.
    + intros x Hx. unfold busy. now rewrite Hx.
    + apply (i_order _ Hs).
    + unfold busy, wait_push, wait_cfm, fl. destruct (cmd_array s !! k) as [c|]; [|done].
      rewrite !has_lor in Hl. destruct (has (flags c) RWNX_CMD_FLAG_WAIT_PUSH), (has (flags c) RWNX_CMD_FLAG_WAIT_CFM);
        rewrite ?orb_true_r in Hl; done.
  - apply last_None in Ek. rewrite Ek in Hj. now apply not_elem_of_nil in Hj.
Qed.

(** The slot of a command that has just been linked. *)
Definition link_cmd (d da : bool) (t : Z) (c : rwnx_cmd) : rwnx_cmd :=
  c <| flags ::= fun f => let f := req_cfm_flags (if d then setf f RWNX_CMD_FLAG_WAIT_PUSH else f) in
                          if da then setf f RWNX_CMD_FLAG_WAIT_PUSH else f |>
    <| tkn := t |> <| result := u32 (- EINTR) |> <| complete := 0 |>
    <| a2e_msg ::= fun a => if d || da then a else None |>.

Lemma has_req_cfm f d : has f RWNX_CMD_FLAG_REQ_CFM = true ->
  req_cfm_flags (if d : bool then setf f RWNX_CMD_FLAG_WAIT_PUSH else f) =
    setf (if d then setf f RWNX_CMD_FLAG_WAIT_PUSH else f) RWNX_CMD_FLAG_WAIT_CFM.
Proof.
  intros E. unfold req_cfm_flags. destruct d; [|now rewrite E].
  now rewrite has_setf, E.
Qed.

Lemma req_cfm_nb f : has (req_cfm_flags f) RWNX_CMD_FLAG_NONBLOCK = has f RWNX_CMD_FLAG_NONBLOCK.
Proof. unfold req_cfm_flags. destruct (has f RWNX_CMD_FLAG_REQ_CFM); [flags_tac|]; done. Qed.

Lemma link_cmd_flags s i c d da t : inv s -> cinv s i c -> i ∈ spinners s -> 
  has (flags (link_cmd d da t c)) RWNX_CMD_FLAG_NONBLOCK = false /\
  has (flags (link_cmd d da t c)) RWNX_CMD_FLAG_WAIT_ACK = false /\
  has (flags (link_cmd d da t c)) RWNX_CMD_FLAG_WAIT_CFM = true /\
  has (flags (link_cmd d da t c)) RWNX_CMD_FLAG_WAIT_PUSH = d || da.
Proof.
  intros Hs [Hnb Hack Hu Hp Ho Hd Hsp] Hi. destruct (Hsp Hi) as [Hreq _].
  assert (has (flags c) RWNX_CMD_FLAG_WAIT_PUSH = false) as Hnp.
  { destruct (has (flags c) RWNX_CMD_FLAG_WAIT_PUSH); [|done]. destruct (Hp eq_refl) as [E _].
    now destruct (i_disj _ Hs i Hi). }
  unfold link_cmd. cbn [flags field_set]. rewrite has_req_cfm by done.
  destruct d, da; split_and!; flags_tac; rewrite ?Hnb, ?Hack, ?Hnp; done.
Qed.

Ltac slots_tac i Ec :=
  apply list_eq; intros j; destruct (decide (j = i)) as [->|];
  [repeat rewrite list_lookup_alter_eq; rewrite Ec; cbn; try done|repeat rewrite list_lookup_alter_ne by done; try done].

(** A look at the queue by a caller that is not linked yet. *)
Lemma retry_inv s i o s' : inv s -> i ∈ spinners s -> send_msg_retry i s = Ok (o, s') -> inv s'.
Proof.
  intros Hs Hi. destruct (i_in _ Hs i (or_intror Hi)) as [c Ec]. pose proof (i_all _ Hs _ _ Ec) as Hcv.
  pose proof Hcv as [Hnb _ _ _ _ _ Hsp]. destruct (Hsp Hi) as [Hreq Ha]. destruct (a2e_msg c) as [m|] eqn:Ea; [|done].
  unfold send_msg_retry, send_msg_queued, cmd_mgr_queue, get. rewrite Ec. cbn [from_option_res mbind res_bind].
  rewrite (i_state _ Hs). rewrite decide_False by done.
  destruct (bool_decide (e2a_msg c <> None) && negb (bool_decide (cmds (mgr s) = []))); [now intros [= _ <-]|].
  destruct (queue_full s) eqn:Efull.
  { cbn [mbind res_bind]. intros [= _ <-].
    lazymatch goal with |- inv ?x => assert (x =
      upd i (fun c => c <| result := u32 (- ENOMEM) |> <| used := false |>) s <| spinners ::= drop_from i |>) as -> end.
    { unfold upd, set_result, rwnx_cmd_free, upd. cbn. f_equal. slots_tac i Ec. }
    now apply refuse_inv. }
  rewrite Ea. cbn [from_option_res mbind res_bind].
  assert (Z.of_nat (length (cmds (mgr s))) < RWNX_CMD_MAX_QUEUED) as Hlt.
  { unfold queue_full in Efull. rewrite (i_max _ Hs), (i_sz _ Hs) in Efull. pose proof (i_le _ Hs) as Hle.
    destruct (cmds (mgr s)) eqn:E; [now vm_compute|]. cbn in Efull. apply Z.eqb_neq in Efull. cbn in Hle |- *. lia. }
  assert (u32 (queue_sz (mgr s) + 1) = queue_sz (mgr s) + 1) as Eq1.
  { apply wrapU_small. rewrite (i_sz _ Hs). unfold RWNX_CMD_MAX_QUEUED in Hlt. lia. }
  pose proof (i_usb _ Hs) as Husb. pose proof (i_ws _ Hs) as Hws.
  assert ((queue_sz (mgr s) =? 0) || ws_tx s = true) as Ews.
  { rewrite Hws, (i_sz _ Hs). now destruct (cmds (mgr s)). }
  pose proof (link_cmd_flags s i c (last_busy s) (defer_always m) (next_tkn (mgr s)) Hs Hcv Hi) as (F1&F2&F3&F4).
  assert (cmds (mgr s) = [] -> (queue_sz (mgr s) + 1 <=? 1) = true) as Hle1.
  { intros E. rewrite (i_sz _ Hs), E. done. }
  pose proof (last_busy_false s Hs) as Hlb.
  assert (forall s1, cmd_array s1 = alter (link_cmd (last_busy s) (defer_always m) (next_tkn (mgr s))) i (cmd_array s) ->
    mgr s1 = (mgr s) <| next_tkn := next_tkn (mgr s1) |> <| cmds := cmds (mgr s) ++ [i] |>
                     <| queue_sz := queue_sz (mgr s) + 1 |> ->
    usb_up s1 = usb_up s -> spinners s1 = drop_from i (spinners s) ->
    waiters s1 = (if last_busy s || defer_always m then waiters s else i :: waiters s) -> worker s1 = worker s ->
    ws_tx s1 = true -> (cmdWork s = true -> cmdWork s1 = true) ->
    (cmds (mgr s) = [] -> last_busy s || defer_always m = true -> cmdWork s1 = true) -> inv s1) as Hfin.
  { intros s1 E1 E2 E3 E4 E5 E6 E7 E8 E9.
    apply (link_inv s s1 i (link_cmd (last_busy s) (defer_always m) (next_tkn (mgr s)))
      (last_busy s || defer_always m)); try done.
    - intros d Hd. destruct (link_cmd_flags s i d (last_busy s) (defer_always m) (next_tkn (mgr s)) Hs Hd Hi) as (?&?&?&?).
      split_and!; try done. intros E. cbn. rewrite E. now destruct (ci_spin _ _ _ Hd Hi).
    - intros E. apply orb_false_iff in E as [E _]. now apply last_busy_false. }
  destruct (last_busy s) eqn:Ed, (defer_always m) eqn:Eda; cbn [orb] in *.
  1-3: cbn [mbind res_bind]; intros [= _ <-]; apply Hfin;
    unfold send_msg_ret, cmd_link, upd; cbn [negb orb Z.eqb field_set mgr queue_sz cmd_array usb_up ws_tx spinners waiters worker cmdWork next_tkn cmds];
    rewrite ?Eq1, ?Ews; (destruct (queue_sz (mgr s) + 1 <=? 1) eqn:E1);
    cbn [field_set mgr queue_sz cmd_array usb_up ws_tx spinners waiters worker cmdWork next_tkn cmds]; try done;
    try (intros E; specialize (Hle1 E); discriminate);
    slots_tac i Ec; unfold link_cmd; cbn; rewrite ?req_cfm_nb; flags_tac; now rewrite Hnb.
  rewrite Hnb. cbn [mbind res_bind]. intros [= _ <-]. apply Hfin;
    unfold cmd_push, cmd_tx, cmd_link, upd;
    cbn [field_set mgr queue_sz cmd_array usb_up ws_tx spinners waiters worker cmdWork next_tkn cmds];
    rewrite Husb, ?Eq1, ?Ews; 
    cbn [field_set mgr queue_sz cmd_array usb_up ws_tx spinners waiters worker cmdWork next_tkn cmds]; try done.
  slots_tac i Ec; unfold link_cmd; cbn; rewrite ?req_cfm_nb; flags_tac; now rewrite Hnb.
Qed.

(** A command sent without asking for a confirmation never enters the queue. *)
Lemma free_slot_inv s i g p : inv s -> first_free (cmd_array s) = Some i ->
  (forall c, flags (g c) = flags c /\ used (g c) = false) ->
  inv (upd i g s <| pushed := p |>).
Proof.
  intros Hs Hf Hg. apply first_free_some in Hf as (c&Ec&Eu).
  pose proof Hs as [Hst Husb Hall Hin Hnd Hsz Hmax Hle Hdisj Hwt Hwk Hord Hhd Hws].
  assert (forall j, fl (upd i g s <| pushed := p |>) j = fl s j) as Ef.
  { intros j. change (fl (upd i g s) j = fl s j). destruct (decide (j = i)) as [->|]; [|now apply fl_upd_ne].
    rewrite (fl_upd_eq _ _ _ c) by done. unfold fl. rewrite Ec. apply Hg. }
  constructor; cbn [field_set mgr cmd_array usb_up ws_tx spinners waiters worker cmdWork upd]; try done.
  - apply (alter_all (cinv s)); [done| |].
    + intros j d _ _ [? ? ? ? ? ? ?]. now constructor.
    + intros d Ed [? ? Hu Hp Ho Hd Hsp]. rewrite Ec in Ed. injection Ed as <-. destruct (Hg c) as [E1 E2].
      rewrite Eu in Hu.
      constructor; cbn [mgr spinners waiters worker field_set upd]; rewrite ?E1, ?E2; try done; intros E.
      * destruct (Hp E) as [Hc _]. assert (false = true) by tauto. done.
      * assert (false = true) by tauto. done.
      * assert (false = true) by tauto. done.
  - intros j Hj. apply is_Some_alter, Hin, Hj.
  - apply (ordered_mono (busy s) _ (wait_push s)); [| |done]; intros j _; unfold busy, wait_push, wait_cfm; now rewrite Ef.
Qed.

Lemma send_inv m rc rid cfm s o s' : inv s -> rwnx_send_msg m rc rid cfm s = Ok (o, s') -> inv s'.
Proof.
  intros Hs. unfold rwnx_send_msg. rewrite (i_usb _ Hs). cbn [negb]. unfold rwnx_cmd_malloc.
  destruct (first_free (cmd_array s)) as [i|] eqn:Hf; [|discriminate]. rewrite upd_upd. destruct rc.
  - destruct (malloc_inv s i m rid cfm Hs Hf) as [Hinv _]. intros E.
    refine (retry_inv _ i o s' Hinv _ E). left.
  - intros [= _ <-].
    lazymatch goal with |- inv ?x => assert (x = upd i (fun c => (fill_cmd m rid cfm false (c <| used := true |>)) <| used := false |>) s
      <| pushed := pushed s ++ [(i, m)] |>) as -> end.
    { apply first_free_some in Hf as (c&Ec&_). unfold send_msg_ret, cmd_tx, rwnx_cmd_free, upd. cbn.
      rewrite (i_usb _ Hs). cbn. f_equal. slots_tac i Ec. }
    apply free_slot_inv; [done|done|]. intros c. done.
Qed.

(** ** The crashed state *)

Lemma complete_mgr i s : mgr (cmd_complete i s) = mgr s.
Proof.
  unfold cmd_complete. cbn [upd field_set cmd_array].
  destruct (alter _ i (cmd_array s) !! i) as [c|]; [|now destruct (_ =? 0)].
  destruct (has (flags c) RWNX_CMD_FLAG_NONBLOCK); [now destruct (_ =? 0)|].
  destruct (RWNX_CMD_WAIT_COMPLETE (flags c)); now destruct (_ =? 0).
Qed.

Lemma timeout_mgr i s : mgr (wait_timeout i s) = (mgr s) <| state := RWNX_CMD_MGR_STATE_CRASHED |>.
Proof.
  unfold wait_timeout. destruct (cmd_array (set_state RWNX_CMD_MGR_STATE_CRASHED s) !! i) as [c|]; [|done].
  destruct (has (flags c) RWNX_CMD_FLAG_DONE); [done|]. now rewrite complete_mgr.
Qed.

Lemma msgind_mgr cb msg s : mgr (cmd_mgr_msgind cb msg s) = mgr s.
Proof.
  unfold cmd_mgr_msgind. destruct (msgind_find _ _ _ _) as [i|]; [|done].
  destruct (cmd_array _ !! i) as [c|]; [|done]. destruct (RWNX_CMD_WAIT_COMPLETE (flags c)).
  - rewrite complete_mgr. destruct (e2a_msg c); [|done]. now destruct (_ =? 0).
  - destruct (e2a_msg c); [|done]. now destruct (_ =? 0).
Qed.

Lemma unlink_mgr i s : exists n, mgr (cmd_unlink i s) = (mgr s) <| cmds ::= drop_from i |> <| queue_sz := n |>.
Proof. unfold cmd_unlink. cbn. destruct (_ =? 0); cbn; eauto. Qed.

(** The state of the manager changes only by a timeout. *)
Lemma retry_crashed i s o s' : state (mgr s) = RWNX_CMD_MGR_STATE_CRASHED -> send_msg_retry i s = Ok (o, s') ->
  o = Returned (- EPIPE) /\ mgr s' = mgr s.
Proof.
  intros Hc. unfold send_msg_retry, send_msg_queued, cmd_mgr_queue, get.
  destruct (cmd_array s !! i); [|discriminate]. cbn [from_option_res mbind res_bind]. rewrite decide_True by done.
  cbn [mbind res_bind]. now intros [= <- <-].
Qed.

Lemma pick_mgr s s' : task_pick s = Ok s' -> mgr s' = mgr s.
Proof.
  unfold task_pick. destruct (cmds (mgr s)) as [|i l]; [now intros [= <-]|].
  intros (c&_&E)%bind_Ok_inv. destruct (has (flags c) RWNX_CMD_FLAG_WAIT_PUSH); [|now injection E as <-].
  apply bind_Ok_inv in E as (m&_&E). injection E as <-. unfold cmd_push, cmd_tx. cbn. now destruct (usb_up s).
Qed.

Lemma step_crashed s s' : step s s' -> state (mgr s) = RWNX_CMD_MGR_STATE_CRASHED ->
  state (mgr s') = RWNX_CMD_MGR_STATE_CRASHED /\ (forall j, j ∈ cmds (mgr s') -> j ∈ cmds (mgr s)).
Proof.
  intros Hstep Hc. destruct Hstep as [m rc rid cfm s o s' E|i s o s' _ E|i s _ _|i s _|i s _|s s' _ _ E|i s _ _|i s _|cb msg s].
  - unfold rwnx_send_msg in E. destruct (negb (usb_up s)); [now injection E as _ <-|].
    unfold rwnx_cmd_malloc in E. destruct (first_free (cmd_array s)) as [i|]; [|discriminate]. destruct rc.
    + apply retry_crashed in E as [_ ->]; done.
    + injection E as _ <-. unfold send_msg_ret, cmd_tx. cbn. now destruct (usb_up s).
  - apply retry_crashed in E as [_ ->]; done.
  - unfold queue_wait_over. destruct (unlink_mgr i (not_waiting i (take_completion i s))) as [n E].
    destruct (_ && _); cbn [field_set mgr]; rewrite E; cbn; (split; [done|]); intros j Hj; apply elem_of_drop_from in Hj; tauto.
  - unfold queue_wait_over. destruct (unlink_mgr i (not_waiting i s)) as [n E].
    destruct (_ && _); cbn [field_set mgr]; rewrite E; cbn; (split; [done|]); intros j Hj; apply elem_of_drop_from in Hj; tauto.
  - change (mgr (queue_timeout i s)) with (mgr (wait_timeout i s)). rewrite timeout_mgr. done.
  - apply pick_mgr in E as ->. done.
  - unfold task_wait_over. destruct (unlink_mgr i (take_completion i s)) as [n E].
    cbn [field_set mgr]. rewrite E. cbn. split; [done|]. intros j Hj. apply elem_of_drop_from in Hj. tauto.
  - change (mgr (task_timeout i s)) with (mgr (wait_timeout i s)). rewrite timeout_mgr. done.
  - rewrite msgind_mgr. done.
Qed.

Lemma step_inv s s' : step s s' -> inv s -> inv s' \/ state (mgr s') = RWNX_CMD_MGR_STATE_CRASHED.
Proof.
  intros Hstep Hs. destruct Hstep as [m rc rid cfm s o s' E|i s o s' Hi E|i s Hi _|i s Hi|i s _|s s' Hw _ E|i s Hi _|i s _|cb msg s].
  - left. eapply send_inv; eassumption.
  - left. eapply retry_inv; eassumption.
  - left. unfold take_completion. now apply wait_over_inv.
  - left. assert (s = upd i (fun c => c) s) as E.
    { destruct s. unfold upd. cbn. f_equal. apply list_eq. intros j. destruct (decide (j = i)) as [->|].
      + rewrite list_lookup_alter_eq. now destruct (_ !! i).
      + now rewrite list_lookup_alter_ne. }
    rewrite E. now apply wait_over_inv.
  - right. change (mgr (queue_timeout i s)) with (mgr (wait_timeout i s)). now rewrite timeout_mgr.
  - left. eapply pick_inv; eassumption.
  - left. now apply task_over_inv.
  - right. change (mgr (task_timeout i s)) with (mgr (wait_timeout i s)). now rewrite timeout_mgr.
  - left. now apply msgind_inv.
Qed.

Lemma reach_inv s : rtc step boot s -> inv s \/ state (mgr s) = RWNX_CMD_MGR_STATE_CRASHED.
Proof.
  intros Hr. enough (forall x, rtc step x s -> inv x \/ state (mgr x) = RWNX_CMD_MGR_STATE_CRASHED ->
    inv s \/ state (mgr s) = RWNX_CMD_MGR_STATE_CRASHED) as Hall.
  { apply (Hall _ Hr). left. apply boot_inv. }
  clear Hr. intros x Hr. induction Hr as [x|x y z Hstep Hr IH]; [done|]. intros Hx. apply IH.
  destruct Hx as [Hx|Hx]; [now apply (step_inv x)|]. right. now apply (step_crashed _ _ Hstep).
Qed.

Lemma reach_inited s : rtc step boot s -> state (mgr s) = RWNX_CMD_MGR_STATE_INITED -> inv s.
Proof. intros [Hs|E]%reach_inv Hi; [done|congruence]. Qed.

End Sched.

Module Wire.
Import Mgr.

Definition CMD_BUF_MAX : Z := 1536.
Definition put_u16 (data : Z) : list Z := [Z.land data 255; Z.land (Z.shiftr data 8) 255].

(** The bytes handed to [aicwf_bus_txmsg]: the first [len + 8] of the command
    buffer.  The parameters are copied behind the 16 bytes of headers without
    a check of the buffer's size. *)
Definition aicwf_set_cmd_tx (m : lmac_msg) (len : Z) : res (list Z) :=
  if CMD_BUF_MAX - 16 <? param_len m then Fault OutOfBounds
  else if Z.of_nat (length (param m)) <? param_len m then Fault OutOfBounds
  else
    let hdr := [Z.land (len + 4) 255; Z.land (Z.shiftr (len + 4) 8) 15; 17; 0; 0; 0; 0; 0] in
    let buffer := hdr ++ put_u16 (msg_id m) ++ put_u16 (dest_id m) ++ put_u16 (src_id m) ++ put_u16 (param_len m)
                  ++ take (Z.to_nat (param_len m)) (param m) in
    Ok (take (Z.to_nat (len + 8)) (buffer ++ replicate (Z.to_nat (CMD_BUF_MAX - 16 - param_len m)) 0)).

(** The length the callers pass: [sizeof(struct lmac_msg) + param_len]. *)
Definition RWNX_CMD_A2EMSG_LEN (m : lmac_msg) : Z := 8 + param_len m.

Lemma le16_put_u16 d pre post : 0 <= d < 65536 ->
  le16 (pre ++ put_u16 d ++ post) (Z.of_nat (length pre)) = Ok d.
Proof.
  intros Hd. unfold le16.
  rewrite (rd8_app_r pre _ (Z.of_nat (length pre))), (rd8_app_r pre _ (Z.of_nat (length pre) + 1)) by lia.
  rewrite Z.sub_diag. replace (Z.of_nat (length pre) + 1 - Z.of_nat (length pre)) with 1 by lia.
  unfold put_u16, rd8. change (0 <=? 0) with true. change (0 <=? 1) with true. cbn [app].
  change 255 with (Z.ones 8). rewrite !Z.land_ones by lia. rewrite Z.shiftr_div_pow2 by lia.
  change (2 ^ 8) with 256.
  pose proof (Z.div_mod d 256 ltac:(lia)). pose proof (Z.mod_pos_bound d 256 ltac:(lia)).
  rewrite (Z.mod_small (d / 256)) by lia. change (Z.to_nat 0) with O. change (Z.to_nat 1) with 1%nat.
  cbn [lookup list_lookup from_option_res mbind res_bind]. f_equal. lia.
Qed.

End Wire.

Module Props.
Import Mgr Sched Wire.

(** C10. One command at a time: in every state the manager reaches from its
    initialisation (through any interleaving of senders, the work item,
    wake-ups, signals and confirmations) and before a timeout, the commands
    queued behind one that is still to be pushed, or whose confirmation is
    still awaited, are all still to be pushed.  So at most one command is with
    the firmware, and commands reach it in the order they were queued. *)
Theorem cmd_single_in_flight s l1 i l2 :
  rtc step boot s -> state (mgr s) = RWNX_CMD_MGR_STATE_INITED ->
  cmds (mgr s) = l1 ++ i :: l2 -> wait_push s i || wait_cfm s i = true ->
  Forall (fun j => wait_push s j = true) l2.
Proof.
  intros Hr Hst E Hb. pose proof (i_order _ (reach_inited _ Hr Hst)) as Ho. rewrite E in Ho. clear E.
  induction l1 as [|k l1 IH]; cbn in Ho; [|apply IH, Ho]. now apply Ho.
Qed.

Definition msg1 : lmac_msg := mk_msg 7 5 100 0 [].
Definition after1 (m : lmac_msg) (cfm : option Z) (s : sys) : sys :=
  match rwnx_send_msg m true (msg_id m + 1) cfm s with Ok (_, s') => s' | Fault _ => s end.
Definition two_sent : sys := after1 msg1 None (after1 msg1 None boot).

Definition sends (m : lmac_msg) (cfm : option Z) (s : sys) : bool :=
  match rwnx_send_msg m true (msg_id m + 1) cfm s with Ok _ => true | Fault _ => false end.

Lemma after1_step m cfm s : sends m cfm s = true -> step s (after1 m cfm s).
Proof.
  unfold sends, after1. destruct (rwnx_send_msg m true (msg_id m + 1) cfm s) as [[o s']|] eqn:E; [|discriminate].
  intros _. eapply st_send, E.
Qed.

Lemma two_sent_reach : rtc step boot two_sent.
Proof.
  apply (rtc_l _ _ (after1 msg1 None boot)); [apply after1_step; vm_compute; reflexivity|].
  apply rtc_once. apply after1_step. vm_compute. reflexivity.
Qed.

Lemma cmd_single_in_flight_witness : Forall (fun j => wait_push two_sent j = true) [1%nat].
Proof. apply (cmd_single_in_flight two_sent [] 0%nat [1%nat] two_sent_reach); vm_compute; reflexivity. Defined.





(** A command's whole life on an idle manager: it is pushed at once and
    its sender waits; the confirmation it asked for clears the wait, sets the
    result to zero, copies the answer to the sender's buffer and wakes the
    sender; and when the sender has gone the queue is empty and the slot free
    again. *)
Theorem cmd_lifecycle m rid b ans cb :
  defer_always m = false -> msg_id ans = rid -> 0 < param_len ans <= RWNX_CMD_E2AMSG_LEN_MAX -> cb 0%nat = false ->
  exists s1 s2 s3, rwnx_send_msg m true rid (Some b) boot = Ok (Waiting, s1) /\
    pushed s1 = [(0%nat, m)] /\ cmds (mgr s1) = [0%nat] /\ waiters s1 = [0%nat] /\
    s2 = cmd_mgr_msgind cb ans s1 /\ completed s2 0 /\ (result <$> cmd_array s2 !! 0%nat) = Some 0 /\
    written s2 = [(b, take (Z.to_nat (param_len ans)) (param ans))] /\
    s3 = queue_wait_over 0 (take_completion 0 s2) /\
    cmds (mgr s3) = [] /\ waiters s3 = [] /\ queue_sz (mgr s3) = 0 /\ ws_tx s3 = false /\
    Forall (fun c => used c = false) (cmd_array s3).
Proof.
  intros Hda Hid Hlen Hcb.
  assert (exists s1, rwnx_send_msg m true rid (Some b) boot = Ok (Waiting, s1) /\
    cmd_array s1 = mk_cmd (msg_id m) rid None (Some b) 0 18 0 (u32 (- EINTR)) true :: replicate 39 zero_cmd /\
    pushed s1 = [(0%nat, m)] /\ mgr s1 = mk_mgr RWNX_CMD_MGR_STATE_INITED 1 1 16 [0%nat] /\ waiters s1 = [0%nat] /\
    written s1 = [] /\ usb_up s1 = true /\ ws_tx s1 = true) as (s1&E1&Ea&Ep&Em&Ew&Ewr&Eu&Ews).
  { unfold rwnx_send_msg, send_msg_retry, send_msg_queued, cmd_mgr_queue. cbn -[defer_always u32].
    rewrite Hda. cbn -[u32]. eexists. split; [reflexivity|]. split_and!; reflexivity. }
  exists s1, (cmd_mgr_msgind cb ans s1), (queue_wait_over 0 (take_completion 0 (cmd_mgr_msgind cb ans s1))).
  assert (cmd_mgr_msgind cb ans s1 = (upd 0 confirmed s1) <| written := [(b, take (Z.to_nat (param_len ans)) (param ans))] |>) as E2.
  { unfold cmd_mgr_msgind. rewrite Em, Ea. cbn [cmds msgind_find lookup list_lookup reqid flags]. rewrite Hid, Z.eqb_refl.
    change (has 18 RWNX_CMD_FLAG_WAIT_CFM) with true. rewrite Hcb. cbn [andb negb upd field_set cmd_array]. rewrite Ea.
    cbn [alter list_alter lookup list_lookup e2a_msg flags].
    rewrite Z.min_l by lia. destruct (Z.eqb_spec (param_len ans) 0); [lia|].
    change (RWNX_CMD_WAIT_COMPLETE (clrf 18 RWNX_CMD_FLAG_WAIT_CFM)) with true. cbn iota.
    unfold cmd_complete. cbn. rewrite Em, Ewr. destruct s1. cbn in *. subst. reflexivity. }
  rewrite E2. destruct s1 as [mg ar u w pu wr sp wt wk cw]. cbn in Ea, Ep, Em, Ew, Ewr, Eu, Ews. subst.
  split_and!; try reflexivity; [exact E1|now exists (confirmed (mk_cmd (msg_id m) (msg_id ans) None (Some b) 0 18 0 (u32 (- EINTR)) true))|].
  cbn. repeat constructor.
Qed.

Lemma cmd_lifecycle_witness : exists s1 s2 s3, rwnx_send_msg msg1 true 8 (Some 77) boot = Ok (Waiting, s1) /\
    pushed s1 = [(0%nat, msg1)] /\ cmds (mgr s1) = [0%nat] /\ waiters s1 = [0%nat] /\
    s2 = cmd_mgr_msgind (fun _ => false) (mk_msg 8 100 5 2 [1; 2]) s1 /\ completed s2 0 /\
    (result <$> cmd_array s2 !! 0%nat) = Some 0 /\
    written s2 = [(77, take (Z.to_nat 2) [1; 2])] /\
    s3 = queue_wait_over 0 (take_completion 0 s2) /\
    cmds (mgr s3) = [] /\ waiters s3 = [] /\ queue_sz (mgr s3) = 0 /\ ws_tx s3 = false /\
    Forall (fun c => used c = false) (cmd_array s3).
Proof.
  apply (cmd_lifecycle msg1 8 77 (mk_msg 8 100 5 2 [1; 2]) (fun _ => false)); try reflexivity.
  cbn. unfold RWNX_CMD_E2AMSG_LEN_MAX. lia.
Defined.

(** A timeout is final: from then on the manager stays in the crashed
    state whatever happens, no command is ever queued again (the queue only
    loses members), and every attempt to send with a confirmation that finds
    a slot returns [-EPIPE] and gives the slot back. *)
Theorem cmd_crashed_absorbing s s' :
  state (mgr s) = RWNX_CMD_MGR_STATE_CRASHED -> rtc step s s' ->
  state (mgr s') = RWNX_CMD_MGR_STATE_CRASHED /\ (forall j, j ∈ cmds (mgr s') -> j ∈ cmds (mgr s)) /\
  (forall m rid cfm i, usb_up s' = true -> first_free (cmd_array s') = Some i ->
     exists s2 c, rwnx_send_msg m true rid cfm s' = Ok (Returned (- EPIPE), s2) /\
       cmd_array s2 !! i = Some c /\ used c = false /\ cmds (mgr s2) = cmds (mgr s')).
Proof.
  intros Hc Hr. assert (state (mgr s') = RWNX_CMD_MGR_STATE_CRASHED /\
    (forall j, j ∈ cmds (mgr s') -> j ∈ cmds (mgr s))) as [Hc' Hsub].
  { induction Hr as [s|x y z Hstep Hr IH]; [done|]. destruct (step_crashed _ _ Hstep Hc) as [Hy Hsub].
    destruct (IH Hy) as [? Hsub']. split; [done|]. intros j Hj. auto. }
  split; [done|]. split; [done|]. intros m rid cfm i Hu Hf.
  destruct (first_free_some _ _ Hf) as (c&Ec&_).
  unfold rwnx_send_msg. rewrite Hu. cbn [negb]. unfold rwnx_cmd_malloc. rewrite Hf.
  unfold send_msg_retry, send_msg_queued, cmd_mgr_queue, get. rewrite upd_upd. cbn [upd field_set cmd_array].
  rewrite list_lookup_alter_eq, Ec. cbn [fmap option_fmap option_map from_option_res mbind res_bind mgr].
  rewrite decide_True by done. cbn [mbind res_bind]. eexists _, _. split; [reflexivity|].
  unfold send_msg_ret, set_result, rwnx_cmd_free, upd. cbn. change (- EPIPE =? 0) with false. cbn.
  repeat rewrite list_lookup_alter_eq. rewrite Ec. split; [reflexivity|]. done.
Qed.

Definition crashed1 : sys := queue_timeout 0 (after1 msg1 (Some 77) boot).
Lemma cmd_crashed_absorbing_witness :
  state (mgr crashed1) = RWNX_CMD_MGR_STATE_CRASHED /\ (forall j, j ∈ cmds (mgr crashed1) -> j ∈ cmds (mgr crashed1)) /\
  (forall m rid cfm i, usb_up crashed1 = true -> first_free (cmd_array crashed1) = Some i ->
     exists s2 c, rwnx_send_msg m true rid cfm crashed1 = Ok (Returned (- EPIPE), s2) /\
       cmd_array s2 !! i = Some c /\ used c = false /\ cmds (mgr s2) = cmds (mgr crashed1)).
Proof. apply (cmd_crashed_absorbing crashed1 crashed1); [vm_compute; reflexivity|apply rtc_refl]. Defined.

(** The slot of a command that timed out before its confirmation. *)
Lemma timeout_slot i s c : cmd_array s !! i = Some c -> has (flags c) RWNX_CMD_FLAG_NONBLOCK = false ->
  has (flags c) RWNX_CMD_FLAG_WAIT_CFM = true ->
  exists d, cmd_array (wait_timeout i s) = <[i := d]> (cmd_array s) /\ reqid d = reqid c /\ e2a_msg d = e2a_msg c /\
    has (flags d) RWNX_CMD_FLAG_WAIT_CFM = true /\ has (flags d) RWNX_CMD_FLAG_NONBLOCK = false /\
    written (wait_timeout i s) = written s.
Proof.
  intros Ec Hnb Hcfm. assert (forall f (a : list rwnx_cmd), a !! i = Some c -> alter f i a = <[i := f c]> a) as Hai.
  { intros f a Ha. apply list_eq. intros j. destruct (decide (j = i)) as [->|].
    - rewrite list_lookup_alter_eq, list_lookup_insert_eq by eauto using lookup_lt_Some. now rewrite Ha.
    - now rewrite list_lookup_alter_ne, list_lookup_insert_ne. }
  unfold wait_timeout. cbn [set_state field_set cmd_array]. rewrite Ec.
  destruct (has (flags c) RWNX_CMD_FLAG_DONE).
  { exists c. cbn. now rewrite list_insert_id. }
  unfold cmd_complete, set_result, set_state, upd, rwnx_cmd_free, upd. cbn [field_set cmd_array mgr].
  repeat rewrite list_lookup_alter_eq. rewrite Ec. cbn [fmap option_fmap option_map flags].
  assert (has (setf (flags c) RWNX_CMD_FLAG_DONE) RWNX_CMD_FLAG_NONBLOCK = false) as -> by (flags_tac; done).
  assert (RWNX_CMD_WAIT_COMPLETE (setf (flags c) RWNX_CMD_FLAG_DONE) = false) as ->.
  { unfold RWNX_CMD_WAIT_COMPLETE. rewrite has_lor. flags_tac. now rewrite Hcfm, orb_true_r. }
  exists (c <| result := u32 (- ETIMEDOUT) |> <| flags := setf (flags c) RWNX_CMD_FLAG_DONE |>).
  split; [|cbn; split_and!; try done; [flags_tac; now rewrite Hcfm|flags_tac; done|now destruct (_ =? 0)]].
  transitivity (alter (fun c => c <| result := u32 (- ETIMEDOUT) |> <| flags ::= fun f => setf f RWNX_CMD_FLAG_DONE |>)
    i (cmd_array s)); [|exact (Hai _ _ Ec)].
  cbn. destruct (_ =? 0); cbn; slots_tac i Ec.
Qed.

Lemma complete_written i s : written (cmd_complete i s) = written s.
Proof.
  unfold cmd_complete. cbn [upd field_set cmd_array].
  destruct (alter _ i (cmd_array s) !! i) as [c|]; [|now destruct (_ =? 0)].
  destruct (has (flags c) RWNX_CMD_FLAG_NONBLOCK); [now destruct (_ =? 0)|].
  destruct (RWNX_CMD_WAIT_COMPLETE (flags c)); now destruct (_ =? 0).
Qed.

(** A command that times out stays in the queue although its slot is given
    back and its sender has returned: a confirmation that arrives later still
    finds it and writes the answer to the confirmation buffer of the sender
    that is gone. *)
Theorem cmd_late_confirmation s i c b ans cb :
  rtc step boot s -> state (mgr s) = RWNX_CMD_MGR_STATE_INITED -> i ∈ waiters s -> cmd_array s !! i = Some c ->
  e2a_msg c = Some b -> wait_cfm s i = true -> msg_id ans = reqid c -> 0 < param_len ans <= RWNX_CMD_E2AMSG_LEN_MAX ->
  (forall j d, j ∈ cmds (mgr s) -> cmd_array s !! j = Some d -> j <> i -> reqid d <> reqid c) -> cb i = false ->
  let s1 := queue_timeout i s in
  i ∈ cmds (mgr s1) /\ (used <$> cmd_array s1 !! i) = Some false /\ (i ∉ waiters s1) /\
  written (cmd_mgr_msgind cb ans s1) = written s ++ [(b, take (Z.to_nat (param_len ans)) (param ans))].
Proof.
  intros Hr Hst Hi Ec Eb Hcfm Hid Hlen Huniq Hcb s1. pose proof (reach_inited _ Hr Hst) as Hs.
  pose proof (i_waiters _ Hs _ Hi) as Hin. unfold wait_cfm, fl in Hcfm. rewrite Ec in Hcfm.
  destruct (timeout_slot i s c Ec (ci_nb _ _ _ (i_all _ Hs _ _ Ec)) Hcfm) as (d&Ea&Ed1&Ed2&Ed3&Ed4&Ew).
  assert (cmds (mgr s1) = cmds (mgr s)) as Ecs.
  { change (mgr s1) with (mgr (wait_timeout i s)). rewrite timeout_mgr. done. }
  assert (cmd_array s1 = alter (fun c => c <| used := false |>) i (cmd_array (wait_timeout i s))) as Ea1 by done.
  assert (cmd_array s1 !! i = Some (d <| used := false |>)) as Es1 by now rewrite Ea1, list_lookup_alter_eq, Ea, list_lookup_insert_eq
    by eauto using lookup_lt_Some.
  split; [now rewrite Ecs|]. split; [now rewrite Es1|].
  split; [change (waiters s1) with (drop_from i (waiters (wait_timeout i s))); rewrite elem_of_drop_from; tauto|].
  assert (msgind_find cb (msg_id ans) (cmd_array s1) (cmds (mgr s1)) = Some i) as Hf.
  { rewrite Ecs, Hid. clear -Hin Huniq Es1 Ea Ea1 Ed1 Ed2 Ed3 Hcb Hcfm Ec. induction (cmds (mgr s)) as [|j l IH];
      [now apply not_elem_of_nil in Hin|]. cbn. destruct (decide (j = i)) as [->|Hj].
    - rewrite Es1. cbn. now rewrite Ed1, Z.eqb_refl, Ed3, Hcb.
    - assert (cmd_array s1 !! j = cmd_array s !! j) as ->.
      { now rewrite Ea1, list_lookup_alter_ne, Ea, list_lookup_insert_ne by done. }
      assert (i ∈ l) as Hil by (apply elem_of_cons in Hin as [?|?]; [congruence|done]).
      assert (msgind_find cb (reqid c) (cmd_array s1) l = Some i) as E.
      { apply IH; try done. intros k e Hk. apply Huniq. now right. }
      destruct (cmd_array s !! j) as [e|] eqn:Ee; [|done].
      specialize (Huniq j e ltac:(left) Ee Hj). apply Z.eqb_neq in Huniq. now rewrite Huniq. }
  assert (written s1 = written s) as Ews by exact Ew. clearbody s1.
  unfold cmd_mgr_msgind. rewrite Hf. cbn [upd field_set cmd_array].
  rewrite list_lookup_alter_eq, Es1. cbn -[cmd_complete RWNX_CMD_WAIT_COMPLETE Z.min RWNX_CMD_E2AMSG_LEN_MAX clrf].
  rewrite Ed2, Eb.
  rewrite Z.min_l by lia. destruct (Z.eqb_spec (param_len ans) 0); [lia|].
  destruct (RWNX_CMD_WAIT_COMPLETE _); rewrite ?complete_written; cbn; now rewrite Ews.
Qed.

Lemma cmd_late_confirmation_witness :
  0%nat ∈ cmds (mgr crashed1) /\ (used <$> cmd_array crashed1 !! 0%nat) = Some false /\ (0%nat ∉ waiters crashed1) /\
  written (cmd_mgr_msgind (fun _ => false) (mk_msg 8 100 5 2 [1; 2]) crashed1) =
    written (after1 msg1 (Some 77) boot) ++ [(77, take (Z.to_nat 2) [1; 2])].
Proof.
  destruct (cmd_array (after1 msg1 (Some 77) boot) !! 0%nat) as [c|] eqn:Ec; [|vm_compute in Ec; discriminate].
  refine (cmd_late_confirmation (after1 msg1 (Some 77) boot) 0%nat c 77 (mk_msg 8 100 5 2 [1; 2]) (fun _ => false)
    _ _ _ Ec _ _ _ _ _ _).
  - apply rtc_once, after1_step. vm_compute. reflexivity.
  - vm_compute. reflexivity.
  - vm_compute. left.
  - vm_compute in Ec. injection Ec as <-. reflexivity.
  - vm_compute. reflexivity.
  - vm_compute in Ec. injection Ec as <-. reflexivity.
  - unfold RWNX_CMD_E2AMSG_LEN_MAX. cbn. lia.
  - intros j d Hj _ Hne. vm_compute in Hj. apply list_elem_of_singleton in Hj. done.
  - reflexivity.
Defined.

(** [flags] is never cleared when a slot is used again, so the [DONE] of
    its last command is still there: the first command of a slot that times
    out gets the result [-ETIMEDOUT] and a completion, a later one gets
    neither and keeps [-EINTR]. *)
Theorem cmd_stale_done m rid cfm ans cb m2 rid2 cfm2 :
  defer_always m = false -> defer_always m2 = false -> msg_id ans = rid -> cb 0%nat = false ->
  exists s1 s2 s3, rwnx_send_msg m true rid cfm boot = Ok (Waiting, s1) /\
    (result <$> cmd_array (queue_timeout 0 s1) !! 0%nat) = Some (u32 (- ETIMEDOUT)) /\
    s2 = queue_wait_over 0 (take_completion 0 (cmd_mgr_msgind cb ans s1)) /\
    rwnx_send_msg m2 true rid2 cfm2 s2 = Ok (Waiting, s3) /\
    (result <$> cmd_array (queue_timeout 0 s3) !! 0%nat) = Some (u32 (- EINTR)).
Proof.
  intros Hda Hda2 Hid Hcb.
  assert (exists s1, rwnx_send_msg m true rid cfm boot = Ok (Waiting, s1) /\
    s1 = mk_sys (mk_mgr RWNX_CMD_MGR_STATE_INITED 1 1 16 [0%nat])
           (mk_cmd (msg_id m) rid None cfm 0 18 0 (u32 (- EINTR)) true :: replicate 39 zero_cmd)
           true true [(0%nat, m)] [] [] [0%nat] None false) as (s1&E1&Es1).
  { unfold rwnx_send_msg, send_msg_retry, send_msg_queued, cmd_mgr_queue. cbn -[defer_always u32].
    rewrite Hda. cbn -[u32]. rewrite andb_false_r. cbn -[u32]. eexists. split; [reflexivity|]. reflexivity. }
  assert (exists w, queue_wait_over 0 (take_completion 0 (cmd_mgr_msgind cb ans s1)) =
    mk_sys (mk_mgr RWNX_CMD_MGR_STATE_INITED 1 0 16 [])
           (mk_cmd (msg_id m) rid None cfm 0 34 0 0 false :: replicate 39 zero_cmd)
           true false [(0%nat, m)] w [] [] None false) as (w&E2).
  { subst s1. unfold cmd_mgr_msgind. cbn [mgr cmd_array cmds msgind_find lookup list_lookup reqid flags].
    rewrite Hid, Z.eqb_refl, Hcb. change (has 18 RWNX_CMD_FLAG_WAIT_CFM) with true. cbn -[Z.min].
    destruct cfm as [b|]; [destruct (Z.min (param_len ans) RWNX_CMD_E2AMSG_LEN_MAX =? 0)|]; eexists; vm_compute; reflexivity. }
  exists s1. eexists _, _. split; [exact E1|]. split; [subst s1; reflexivity|]. split; [reflexivity|].
  rewrite E2. split.
  { unfold rwnx_send_msg, send_msg_retry, send_msg_queued, cmd_mgr_queue. cbn -[defer_always u32].
    rewrite Hda2. cbn -[u32]. rewrite andb_false_r. cbn -[u32]. reflexivity. }
  reflexivity.
Qed.

Lemma cmd_stale_done_witness :
  exists s1 s2 s3, rwnx_send_msg msg1 true 8 None boot = Ok (Waiting, s1) /\
    (result <$> cmd_array (queue_timeout 0 s1) !! 0%nat) = Some (u32 (- ETIMEDOUT)) /\
    s2 = queue_wait_over 0 (take_completion 0 (cmd_mgr_msgind (fun _ => false) (mk_msg 8 100 5 0 []) s1)) /\
    rwnx_send_msg msg1 true 8 None s2 = Ok (Waiting, s3) /\
    (result <$> cmd_array (queue_timeout 0 s3) !! 0%nat) = Some (u32 (- EINTR)).
Proof. now apply (cmd_stale_done msg1 8 None (mk_msg 8 100 5 0 []) (fun _ => false) msg1 8 None). Defined.

(** When all 40 slots are in use, [rwnx_cmd_malloc] returns no slot, and
    [rwnx_send_msg] writes through the null pointer. *)
Theorem cmd_slots_exhausted m rc rid cfm s :
  usb_up s = true -> (first_free (cmd_array s) = None <-> Forall (fun c => used c = true) (cmd_array s)) /\
  (Forall (fun c => used c = true) (cmd_array s) -> rwnx_send_msg m rc rid cfm s = Fault NullDeref).
Proof.
  intros Hu. assert (Forall (fun c => used c = true) (cmd_array s) -> first_free (cmd_array s) = None) as Hf.
  { induction 1 as [|c l Hc _ IH]; [done|]. cbn. now rewrite Hc, IH. }
  split; [split; [apply first_free_none|exact Hf]|].
  intros Hall. unfold rwnx_send_msg, rwnx_cmd_malloc. rewrite Hu, (Hf Hall). done.
Qed.

Definition all_used : sys := boot <| cmd_array ::= fmap (fun c => c <| used := true |>) |>.
Lemma cmd_slots_exhausted_witness : rwnx_send_msg msg1 true 8 None all_used = Fault NullDeref.
Proof. apply (cmd_slots_exhausted msg1 true 8 None all_used eq_refl). repeat constructor. Defined.

(** What goes to the firmware: for a message of 16-bit fields that fits
    the command buffer, the bytes are a 12-bit length (of everything behind
    it), the type 0x11, a dummy word, the four message fields in little-endian
    order at 8, 10, 12 and 14, and the parameters; a longer message overruns
    the buffer. *)
Theorem set_cmd_tx_format m :
  0 <= msg_id m < 65536 -> 0 <= dest_id m < 65536 -> 0 <= src_id m < 65536 -> 0 <= param_len m < 65536 ->
  Z.of_nat (length (param m)) = param_len m ->
  (param_len m <= 1520 -> exists buf, aicwf_set_cmd_tx m (RWNX_CMD_A2EMSG_LEN m) = Ok buf /\
     Z.of_nat (length buf) = 16 + param_len m /\
     (exists b0 b1, rd8 buf 0 = Ok b0 /\ rd8 buf 1 = Ok b1 /\ b0 + 256 * b1 = 12 + param_len m) /\
     rd8 buf 2 = Ok 17 /\ le16 buf 8 = Ok (msg_id m) /\ le16 buf 10 = Ok (dest_id m) /\
     le16 buf 12 = Ok (src_id m) /\ le16 buf 14 = Ok (param_len m) /\ drop 16 buf = param m) /\
  (1520 < param_len m -> aicwf_set_cmd_tx m (RWNX_CMD_A2EMSG_LEN m) = Fault OutOfBounds).
Proof.
  intros H1 H2 H3 H4 Hlen. unfold aicwf_set_cmd_tx, RWNX_CMD_A2EMSG_LEN, CMD_BUF_MAX.
  change (1536 - 16) with 1520. split.
  2:{ intros Hb. now destruct (Z.ltb_spec 1520 (param_len m)); [|lia]. }
  intros Hb. destruct (Z.ltb_spec 1520 (param_len m)); [lia|].
  destruct (Z.ltb_spec (Z.of_nat (length (param m))) (param_len m)); [lia|].
  rewrite (take_ge (param m)) by lia.
  set (hdr := [Z.land (8 + param_len m + 4) 255; Z.land (Z.shiftr (8 + param_len m + 4) 8) 15; 17; 0; 0; 0; 0; 0]).
  assert (length hdr = 8%nat) as Hh by done.
  set (body := hdr ++ put_u16 (msg_id m) ++ put_u16 (dest_id m) ++ put_u16 (src_id m) ++ put_u16 (param_len m) ++ param m).
  assert (length body = Z.to_nat (8 + param_len m + 8)) as Hbl.
  { unfold body. rewrite !length_app. cbn [put_u16 length]. lia. }
  rewrite <- Hbl, take_app_length. exists body. split; [done|]. split; [lia|]. split_and!.
  - exists (Z.land (8 + param_len m + 4) 255), (Z.land (Z.shiftr (8 + param_len m + 4) 8) 15).
    split; [done|]. split; [done|]. change 255 with (Z.ones 8). change 15 with (Z.ones 4).
    rewrite !Z.land_ones, Z.shiftr_div_pow2 by lia. change (2 ^ 8) with 256. change (2 ^ 4) with 16.
    pose proof (Z.div_mod (8 + param_len m + 4) 256 ltac:(lia)).
    pose proof (Z.mod_pos_bound (8 + param_len m + 4) 256 ltac:(lia)).
    rewrite (Z.mod_small (_ / 256)) by lia. lia.
  - done.
  - exact (le16_put_u16 (msg_id m) hdr _ H1).
  - exact (le16_put_u16 (dest_id m) (hdr ++ put_u16 (msg_id m)) _ H2).
  - exact (le16_put_u16 (src_id m) (hdr ++ put_u16 (msg_id m) ++ put_u16 (dest_id m)) _ H3).
  - exact (le16_put_u16 (param_len m) (hdr ++ put_u16 (msg_id m) ++ put_u16 (dest_id m) ++ put_u16 (src_id m)) _ H4).
  - done.
Qed.

Definition msg3 : lmac_msg := mk_msg 5132 5 100 3 [9; 8; 7].
Lemma set_cmd_tx_format_witness : exists buf, aicwf_set_cmd_tx msg3 11 = Ok buf /\
     Z.of_nat (length buf) = 16 + 3 /\
     (exists b0 b1, rd8 buf 0 = Ok b0 /\ rd8 buf 1 = Ok b1 /\ b0 + 256 * b1 = 12 + 3) /\
     rd8 buf 2 = Ok 17 /\ le16 buf 8 = Ok 5132 /\ le16 buf 10 = Ok 5 /\
     le16 buf 12 = Ok 100 /\ le16 buf 14 = Ok 3 /\ drop 16 buf = [9; 8; 7].
Proof. apply (set_cmd_tx_format msg3); cbn; lia. Defined.

End Props.
