(* ===== verification/Txq.v ===== *)
(** Transmit queues: the software queues of every station and interface, the
    five hardware queue lists that schedule them ([rwnx_txq.c], [rwnx_txq.h]),
    and the functions of [rwnx_tx.c] and [usb_host.c] that move a frame through
    them: power save, push, confirmation, retry.

    [Hw] holds the data and the operations.  A pointer to a transmit queue,
    hardware queue, station or interface is its index in [rwnx_hw.txq],
    [rwnx_hw.hwq], [rwnx_hw.sta_table] or [rwnx_hw.vif_table]; a pointer to a
    frame is its [sk_id]; the list links [sched_list] are the lists of indices
    [hwq_list].  What leaves the driver is the log [ev].  The invariant is in
    [TxqInv.v], its preservation in [TxqSteps.v] and [TxqSys.v], the properties
    are in [TxqProps.v]. *)
From stdpp Require Import base list numbers option relations.
From Stdlib Require Import ZArith Lia.
From S2P Require Import Prelude.

#[local] Open Scope Z_scope.
#[local] Open Scope aic_scope.

Module Hw.

Definition NX_NB_TID_PER_STA : Z := 8.
Definition NX_NB_TXQ_PER_STA : Z := NX_NB_TID_PER_STA + 1.
Definition NX_NB_TXQ_PER_VIF : Z := 2.
Definition NX_VIRT_DEV_MAX : Z := 4.
Definition NX_REMOTE_STA_MAX : Z := 32.
Definition NX_REMOTE_STA_MAX_FOR_OLD_IC : Z := 8.
Definition NX_NB_TXQ : Z := NX_NB_TXQ_PER_STA * NX_REMOTE_STA_MAX + NX_NB_TXQ_PER_VIF * NX_VIRT_DEV_MAX + 1.
Definition NX_FIRST_VIF_TXQ_IDX : Z := NX_REMOTE_STA_MAX * NX_NB_TXQ_PER_STA.
Definition NX_FIRST_BCMC_TXQ_IDX : Z := NX_FIRST_VIF_TXQ_IDX.
Definition NX_FIRST_UNK_TXQ_IDX : Z := NX_FIRST_BCMC_TXQ_IDX + NX_VIRT_DEV_MAX.
Definition NX_FIRST_VIF_TXQ_IDX_FOR_OLD_IC : Z := NX_REMOTE_STA_MAX_FOR_OLD_IC * NX_NB_TXQ_PER_STA.
Definition NX_FIRST_BCMC_TXQ_IDX_FOR_OLD_IC : Z := NX_FIRST_VIF_TXQ_IDX_FOR_OLD_IC.
Definition NX_FIRST_UNK_TXQ_IDX_FOR_OLD_IC : Z := NX_FIRST_BCMC_TXQ_IDX_FOR_OLD_IC + NX_VIRT_DEV_MAX.
Definition NX_OFF_CHAN_TXQ_IDX : Z := NX_FIRST_VIF_TXQ_IDX + NX_VIRT_DEV_MAX * NX_NB_TXQ_PER_VIF.
Definition NX_OFF_CHAN_TXQ_IDX_FOR_OLD_IC : Z :=
  NX_FIRST_VIF_TXQ_IDX_FOR_OLD_IC + NX_VIRT_DEV_MAX * NX_NB_TXQ_PER_VIF.
Definition NX_BCMC_TXQ_TYPE : Z := 0.
Definition NX_UNK_TXQ_TYPE : Z := 1.
Definition NX_BCMC_TXQ_NDEV_IDX : Z := NX_NB_TID_PER_STA * NX_REMOTE_STA_MAX.
Definition NX_BCMC_TXQ_NDEV_IDX_FOR_OLD_IC : Z := NX_NB_TID_PER_STA * NX_REMOTE_STA_MAX_FOR_OLD_IC.
Definition NX_STA_NDEV_IDX (tid sta_idx : Z) : Z := tid + sta_idx * NX_NB_TID_PER_STA.
Definition NDEV_NO_TXQ : Z := 65535.
Definition RWNX_NDEV_FLOW_CTRL_STOP : Z := 64.
Definition RWNX_NDEV_FLOW_CTRL_RESTART : Z := 64.
Definition TXQ_INACTIVE : Z := 65535.
Definition NX_TXQ_INITIAL_CREDITS : Z := 64.
Definition nx_tid_prio : list Z := [7; 6; 5; 4; 3; 0; 2; 1].
Definition RWNX_HWQ_BK : nat := 0.
Definition RWNX_HWQ_BE : nat := 1.
Definition RWNX_HWQ_VI : nat := 2.
Definition RWNX_HWQ_VO : nat := 3.
Definition TID_MGT : Z := 8.
Definition rwnx_tid2hwq : list nat :=
  [RWNX_HWQ_BE; RWNX_HWQ_BK; RWNX_HWQ_BK; RWNX_HWQ_BE; RWNX_HWQ_VI; RWNX_HWQ_VI; RWNX_HWQ_VO; RWNX_HWQ_VO;
   RWNX_HWQ_VO; RWNX_HWQ_BE; RWNX_HWQ_BE; RWNX_HWQ_BE; RWNX_HWQ_BE; RWNX_HWQ_BE; RWNX_HWQ_BE; RWNX_HWQ_BE].
Definition nx_txdesc_cnt : list Z := [8; 64; 64; 32; 8].
Definition USB_TXDESC_CNT : Z := 64.
Definition LEGACY_PS_ID : Z := 0.
Definition UAPSD_ID : Z := 1.
Definition PS_SP_INTERRUPTED : Z := 255.

Definition RWNX_PUSH_RETRY : Z := BIT 0.
Definition RWNX_TXQ_IN_HWQ_LIST : Z := BIT 0.
Definition RWNX_TXQ_STOP_FULL : Z := BIT 1.
Definition RWNX_TXQ_STOP_CSA : Z := BIT 2.
Definition RWNX_TXQ_STOP_STA_PS : Z := BIT 3.
Definition RWNX_TXQ_STOP_VIF_PS : Z := BIT 4.
Definition RWNX_TXQ_STOP_CHAN : Z := BIT 5.
Definition RWNX_TXQ_STOP_MU_POS : Z := BIT 6.
Definition RWNX_TXQ_STOP : Z :=
  Z.lor (Z.lor (Z.lor (Z.lor RWNX_TXQ_STOP_FULL RWNX_TXQ_STOP_CSA) RWNX_TXQ_STOP_STA_PS) RWNX_TXQ_STOP_VIF_PS)
        RWNX_TXQ_STOP_CHAN.
Definition RWNX_TXQ_NDEV_FLOW_CTRL : Z := BIT 7.

Definition TXU_CNTRL_RETRY : Z := BIT 0.
Definition TXU_CNTRL_MORE_DATA : Z := BIT 2.
Definition TXU_CNTRL_MGMT : Z := BIT 3.
Definition TXU_CNTRL_EOSP : Z := BIT 9.

Inductive product_id :=
| PRODUCT_ID_AIC8801 | PRODUCT_ID_AIC8800DC | PRODUCT_ID_AIC8800DW
| PRODUCT_ID_AIC8800D81 | PRODUCT_ID_AIC8800D81X2 | PRODUCT_ID_AIC8800D89X2.

(** [g_rwnx_plat->usbdev->chipid] and the global [chip_id]. *)
Record rwnx_plat := mk_plat { chipid : product_id; chip_id : Z }.

(** The test every layout function starts with. *)
Definition old_ic (p : rwnx_plat) : bool :=
  match chipid p with
  | PRODUCT_ID_AIC8801 => true
  | PRODUCT_ID_AIC8800DC | PRODUCT_ID_AIC8800DW => chip_id p <? 3
  | _ => false
  end.

Inductive nl80211_iftype :=
| NL80211_IFTYPE_STATION | NL80211_IFTYPE_P2P_CLIENT | NL80211_IFTYPE_AP_VLAN | NL80211_IFTYPE_AP
| NL80211_IFTYPE_MESH_POINT | NL80211_IFTYPE_P2P_GO | NL80211_IFTYPE_MONITOR | NL80211_IFTYPE_OTHER.
#[export] Instance nl80211_iftype_eq_dec : EqDecision nl80211_iftype.
Proof. solve_decision. Defined.

(** A frame: [skb] with its [rwnx_sw_txhdr] and the bytes of it [rwnx_tx_push] looks at. *)
Record sk_buff := mk_skb {
  sk_id : Z;                    (* the pointer *)
  sw_txq : nat;                 (* sw_txhdr->txq *)
  sw_sta : option nat;          (* sw_txhdr->rwnx_sta *)
  sw_vif : nat;                 (* sw_txhdr->rwnx_vif *)
  hw_queue : Z;
  desc_flags : Z;               (* desc.host.flags, 16 bits *)
  status_desc_addr : Z;         (* desc.host.status_desc_addr, 32 bits *)
  need_cfm : bool;
  ethertype : Z;                (* desc.host.ethertype *)
  fc0 : Z;                      (* skb->data[headroom] *)
  raw_frame : bool;
  fixed_rate : bool;
  rate_config : Z
}.
#[export] Instance sk_buff_eta : RecordEta sk_buff := fun k =>
  mk_skb (sk_id k) (sw_txq k) (sw_sta k) (sw_vif k) (hw_queue k) (desc_flags k) (status_desc_addr k)
         (need_cfm k) (ethertype k) (fc0 k) (raw_frame k) (fixed_rate k) (rate_config k).

Record rwnx_txq := mk_txq {
  idx : Z;                      (* u16 *)
  status : Z;                   (* u8 *)
  credits : Z;                  (* s8 *)
  pkt_sent : Z;                 (* u8 *)
  pkt_pushed : Z;               (* u8[CONFIG_USER_MAX] *)
  sk_list : list sk_buff;
  last_retry_skb : option Z;
  txq_hwq : option nat;
  nb_retry : Z;                 (* int *)
  push_limit : Z;               (* u8 *)
  tid : Z;                      (* u8 *)
  txq_sta : option nat;
  ps_id : Z;                    (* u8 *)
  ndev_idx : Z;                 (* u16 *)
  ndev : Z
}.
#[export] Instance rwnx_txq_eta : RecordEta rwnx_txq := fun q =>
  mk_txq (idx q) (status q) (credits q) (pkt_sent q) (pkt_pushed q) (sk_list q) (last_retry_skb q) (txq_hwq q)
         (nb_retry q) (push_limit q) (tid q) (txq_sta q) (ps_id q) (ndev_idx q) (ndev q).

Record rwnx_hwq := mk_hwq { hwq_list : list nat; hwq_size : Z; hwq_id : nat; need_processing : bool }.
#[export] Instance rwnx_hwq_eta : RecordEta rwnx_hwq := fun h =>
  mk_hwq (hwq_list h) (hwq_size h) (hwq_id h) (need_processing h).

(** A [u16 x[2]] indexed by [ps_id]. *)
Record by_ps := mk_by_ps { legacy : Z; uapsd : Z }.
#[export] Instance by_ps_eta : RecordEta by_ps := fun b => mk_by_ps (legacy b) (uapsd b).
Definition ps_get (p : Z) (b : by_ps) : Z := if p =? LEGACY_PS_ID then legacy b else uapsd b.
Definition ps_upd (p : Z) (f : Z -> Z) (b : by_ps) : by_ps :=
  if p =? LEGACY_PS_ID then b <| legacy ::= fun x => u16 (f x) |> else b <| uapsd ::= fun x => u16 (f x) |>.

Record rwnx_sta_ps := mk_ps { active : bool; pkt_ready : by_ps; sp_cnt : by_ps }.
#[export] Instance rwnx_sta_ps_eta : RecordEta rwnx_sta_ps := fun p =>
  mk_ps (active p) (pkt_ready p) (sp_cnt p).

Record rwnx_sta := mk_sta {
  sta_idx : Z; vif_idx : Z; acm : Z; uapsd_tids : Z; ps : rwnx_sta_ps; tdls_active : bool; tdls_chsw_en : bool
}.
#[export] Instance rwnx_sta_eta : RecordEta rwnx_sta := fun s =>
  mk_sta (sta_idx s) (vif_idx s) (acm s) (uapsd_tids s) (ps s) (tdls_active s) (tdls_chsw_en s).

Record rwnx_vif := mk_vif {
  vif_index : Z; iftype : nl80211_iftype; vif_ndev : Z;
  bcmc_index : nat;             (* ap.bcmc_index *)
  ap_sta_list : list nat;       (* ap.sta_list *)
  vlan_master : nat;            (* ap_vlan.master *)
  sta_ap : option nat;          (* sta.ap *)
  tdls_sta : option nat;        (* sta.tdls_sta *)
  tdls_link_active : bool;      (* tdls_status == TDLS_LINK_ACTIVE *)
  roc_tdls : bool
}.

(** What the driver does to the bus, the kernel and the firmware. *)
Inductive event :=
| EvPushed (k : sk_buff)                       (* aicwf_frame_tx *)
| EvFreed (k : sk_buff)                        (* dev_kfree_skb_any / consume_skb and its sw_txhdr *)
| EvOverwritten (k : sk_buff)                  (* the last pointer to a frame is overwritten *)
| EvTrafficInd (sta : Z) (uapsd available : bool)
| EvTdlsTrafficInd (vif : Z)
| EvStopSubqueue (ndev idx : Z)
| EvWakeSubqueue (ndev idx : Z)
| EvCarrierOn (ndev : Z)
| EvMgmtTxStatus (k : Z) (acknowledged : bool)
| EvTasklet.

Record usb_host_env_tag := mk_env {
  txdesc_free_idx : Z; txdesc_used_idx : Z; tx_host_id : list (option sk_buff)
}.
#[export] Instance usb_host_env_eta : RecordEta usb_host_env_tag := fun e =>
  mk_env (txdesc_free_idx e) (txdesc_used_idx e) (tx_host_id e).

Record rwnx_hw := mk_hw {
  txq : list rwnx_txq;
  hwq : list rwnx_hwq;
  sta_table : list rwnx_sta;
  vif_table : list rwnx_vif;
  usb_env : usb_host_env_tag;
  cfm_balance : list Z;         (* stats.cfm_balance *)
  tbusy : bool;                 (* usbdev->tbusy *)
  usb_down : bool;              (* usbdev->state == USB_DOWN_ST *)
  ev : list event               (* oldest first *)
}.
#[export] Instance rwnx_hw_eta : RecordEta rwnx_hw := fun hw =>
  mk_hw (txq hw) (hwq hw) (sta_table hw) (vif_table hw) (usb_env hw) (cfm_balance hw) (tbusy hw) (usb_down hw)
        (ev hw).

Definition get_txq (t : nat) (hw : rwnx_hw) : res rwnx_txq := from_option_res OutOfBounds (txq hw !! t).
Definition upd_txq (t : nat) (g : rwnx_txq -> rwnx_txq) (hw : rwnx_hw) : rwnx_hw := hw <| txq ::= alter g t |>.
Definition get_hwq (h : nat) (hw : rwnx_hw) : res rwnx_hwq := from_option_res OutOfBounds (hwq hw !! h).
Definition upd_hwq (h : nat) (g : rwnx_hwq -> rwnx_hwq) (hw : rwnx_hw) : rwnx_hw := hw <| hwq ::= alter g h |>.
Definition get_sta (s : nat) (hw : rwnx_hw) : res rwnx_sta := from_option_res OutOfBounds (sta_table hw !! s).
Definition upd_ps (s : nat) (g : rwnx_sta_ps -> rwnx_sta_ps) (hw : rwnx_hw) : rwnx_hw :=
  hw <| sta_table ::= alter (fun st => st <| ps ::= g |>) s |>.
Definition get_vif (v : nat) (hw : rwnx_hw) : res rwnx_vif := from_option_res NullDeref (vif_table hw !! v).
Definition log (e : event) (hw : rwnx_hw) : rwnx_hw := hw <| ev ::= fun l => l ++ [e] |>.

Definition is_null {A} (o : option A) : bool := match o with None => true | Some _ => false end.
Definition empty {A} (l : list A) : bool := match l with [] => true | _ => false end.

(** ** Where a queue is *)
Section Plat.
Context (plat : rwnx_plat).

Definition is_multicast_sta (sta_idx : Z) : bool :=
  if old_ic plat then NX_REMOTE_STA_MAX_FOR_OLD_IC <=? sta_idx else NX_REMOTE_STA_MAX <=? sta_idx.

Definition rwnx_txq_sta_idx (sta : rwnx_sta) (tid : Z) : Z :=
  if is_multicast_sta (sta_idx sta) then
    if old_ic plat then NX_FIRST_VIF_TXQ_IDX_FOR_OLD_IC + vif_idx sta else NX_FIRST_VIF_TXQ_IDX + vif_idx sta
  else sta_idx sta * NX_NB_TXQ_PER_STA + tid.

Definition master_vif_idx (vif : rwnx_vif) (hw : rwnx_hw) : res Z :=
  match iftype vif with
  | NL80211_IFTYPE_AP_VLAN => vif_index <$> get_vif (vlan_master vif) hw
  | _ => Ok (vif_index vif)
  end.

Definition rwnx_txq_vif_idx (vif : rwnx_vif) (type : Z) (hw : rwnx_hw) : res Z :=
  m ← master_vif_idx vif hw;
  Ok ((if old_ic plat then NX_FIRST_VIF_TXQ_IDX_FOR_OLD_IC else NX_FIRST_VIF_TXQ_IDX) + m + type * NX_VIRT_DEV_MAX).

Definition rwnx_txq_sta_get (sta : rwnx_sta) (tid : Z) : nat :=
  let tid := if NX_NB_TXQ_PER_STA <=? tid then 0 else tid in
  Z.to_nat (rwnx_txq_sta_idx sta tid).

Definition rwnx_txq_vif_get (vif : rwnx_vif) (type : Z) (hw : rwnx_hw) : res nat :=
  let type := if NX_UNK_TXQ_TYPE <? type then NX_BCMC_TXQ_TYPE else type in
  Z.to_nat <$> rwnx_txq_vif_idx vif type hw.

Definition nx_off_chan_txq_idx : Z := if old_ic plat then NX_OFF_CHAN_TXQ_IDX_FOR_OLD_IC else NX_OFF_CHAN_TXQ_IDX.

(** [foreach_sta_txq]: the queues of a station with their [tid]. *)
Definition sta_txqs (sta : rwnx_sta) : list (nat * Z) :=
  (fun i => ((rwnx_txq_sta_get sta 0 + i)%nat, Z.of_nat i)) <$>
  seq 0 (if is_multicast_sta (sta_idx sta) then 1 else Z.to_nat NX_NB_TXQ_PER_STA).
Definition foreach_sta_txq (sta : rwnx_sta) (body : nat -> Z -> rwnx_hw -> res rwnx_hw) : rwnx_hw -> res rwnx_hw :=
  foldM (fun tt => body tt.1 tt.2) (sta_txqs sta).

(** ** Scheduling lists *)

Definition rwnx_txq_is_stopped (q : rwnx_txq) : bool := has (status q) RWNX_TXQ_STOP.
Definition rwnx_txq_is_full (q : rwnx_txq) : bool := has (status q) RWNX_TXQ_STOP_FULL.
Definition rwnx_txq_is_scheduled (q : rwnx_txq) : bool := has (status q) RWNX_TXQ_IN_HWQ_LIST.

Definition rwnx_txq_add_to_hw_list (t : nat) (hw : rwnx_hw) : res rwnx_hw :=
  q ← get_txq t hw;
  if negb (has (status q) RWNX_TXQ_IN_HWQ_LIST) then
    let hw := upd_txq t (fun q => q <| status ::= fun s => setf s RWNX_TXQ_IN_HWQ_LIST |>) hw in
    h ← from_option_res NullDeref (txq_hwq q);
    _ ← get_hwq h hw;
    Ok (upd_hwq h (fun h => h <| hwq_list ::= fun l => l ++ [t] |> <| need_processing := true |>) hw)
  else Ok hw.

(** [list_del(&txq->sched_list)]: the node is unlinked from the list it is on. *)
Definition list_del (t : nat) (hw : rwnx_hw) : rwnx_hw :=
  hw <| hwq ::= fmap (fun h => h <| hwq_list ::= filter (fun t' => t' <> t) |>) |>.

Definition rwnx_txq_del_from_hw_list (t : nat) (hw : rwnx_hw) : res rwnx_hw :=
  q ← get_txq t hw;
  if has (status q) RWNX_TXQ_IN_HWQ_LIST then
    Ok (list_del t (upd_txq t (fun q => q <| status ::= fun s => clrf s RWNX_TXQ_IN_HWQ_LIST |>) hw))
  else Ok hw.

Definition rwnx_txq_skb_ready (q : rwnx_txq) : bool := negb (empty (sk_list q)).

Definition rwnx_txq_start (t : nat) (reason : Z) (hw : rwnx_hw) : res rwnx_hw :=
  q ← get_txq t hw;
  if negb (idx q =? TXQ_INACTIVE) && has (status q) reason then
    let q' := q <| status ::= fun s => clrf s reason |> in
    let hw := upd_txq t (fun _ => q') hw in
    if negb (rwnx_txq_is_stopped q') && rwnx_txq_skb_ready q' then rwnx_txq_add_to_hw_list t hw else Ok hw
  else Ok hw.

Definition rwnx_txq_stop (t : nat) (reason : Z) (hw : rwnx_hw) : res rwnx_hw :=
  q ← get_txq t hw;
  if negb (idx q =? TXQ_INACTIVE) then
    rwnx_txq_del_from_hw_list t (upd_txq t (fun q => q <| status ::= fun s => u8 (setf s reason) |>) hw)
  else Ok hw.

(** ** Initialisation *)

(** The netdev queue a transmit queue stands for. *)
Definition init_ndev_idx (idx_ : Z) (sta_ : option nat) (hw : rwnx_hw) : res Z :=
  let first_vif := if old_ic plat then NX_FIRST_VIF_TXQ_IDX_FOR_OLD_IC else NX_FIRST_VIF_TXQ_IDX in
  let first_unk := if old_ic plat then NX_FIRST_UNK_TXQ_IDX_FOR_OLD_IC else NX_FIRST_UNK_TXQ_IDX in
  let bcmc_ndev := if old_ic plat then NX_BCMC_TXQ_NDEV_IDX_FOR_OLD_IC else NX_BCMC_TXQ_NDEV_IDX in
  if idx_ <? first_vif then
    s ← from_option_res NullDeref sta_; st ← get_sta s hw;
    let tid := idx_ - sta_idx st * NX_NB_TXQ_PER_STA in
    Ok (if tid <? NX_NB_TID_PER_STA then NX_STA_NDEV_IDX tid (sta_idx st) else NDEV_NO_TXQ)
  else if idx_ <? first_unk then Ok bcmc_ndev
  else Ok NDEV_NO_TXQ.

Definition rwnx_txq_init (t : nat) (idx_ status_ : Z) (hwq_ : nat) (tid_ : Z) (sta_ : option nat) (ndev_ : Z)
  (hw : rwnx_hw) : res rwnx_hw :=
  nd ← init_ndev_idx idx_ sta_ hw;
  _ ← get_txq t hw;
  Ok (upd_txq t (fun _ =>
        mk_txq (u16 idx_) (u8 status_) NX_TXQ_INITIAL_CREDITS 0 0 [] None (Some hwq_) 0 0 (u8 tid_) sta_
               LEGACY_PS_ID (u16 nd) ndev_) hw).

Definition rwnx_txq_flush (t : nat) (hw : rwnx_hw) : res rwnx_hw :=
  q ← get_txq t hw;
  Ok (upd_txq t (fun q => q <| sk_list := [] |>) hw <| ev ::= fun l => l ++ (EvFreed <$> sk_list q) |>).

Definition rwnx_txq_deinit (t : nat) (hw : rwnx_hw) : res rwnx_hw :=
  q ← get_txq t hw;
  if idx q =? TXQ_INACTIVE then Ok hw else
  hw ← rwnx_txq_del_from_hw_list t hw;
  rwnx_txq_flush t (upd_txq t (fun q => q <| idx := TXQ_INACTIVE |>) hw).

Definition rwnx_txq_unk_vif_init_with (vif : rwnx_vif) (status : Z) (hw : rwnx_hw) : res rwnx_hw :=
  t ← rwnx_txq_vif_get vif NX_UNK_TXQ_TYPE hw;
  i ← rwnx_txq_vif_idx vif NX_UNK_TXQ_TYPE hw;
  rwnx_txq_init t i status RWNX_HWQ_VO TID_MGT None (vif_ndev vif) hw.

Definition rwnx_txq_vif_init (vif : rwnx_vif) (status : Z) (hw : rwnx_hw) : res rwnx_hw :=
  t ← rwnx_txq_vif_get vif NX_BCMC_TXQ_TYPE hw;
  i ← rwnx_txq_vif_idx vif NX_BCMC_TXQ_TYPE hw;
  hw ← rwnx_txq_init t i status RWNX_HWQ_BE 0 (Some (bcmc_index vif)) (vif_ndev vif) hw;
  rwnx_txq_unk_vif_init_with vif status hw.

Definition rwnx_txq_unk_vif_init (vif : rwnx_vif) (hw : rwnx_hw) : res rwnx_hw :=
  rwnx_txq_unk_vif_init_with vif 0 hw.

Definition rwnx_txq_unk_vif_deinit (vif : rwnx_vif) (hw : rwnx_hw) : res rwnx_hw :=
  t ← rwnx_txq_vif_get vif NX_UNK_TXQ_TYPE hw; rwnx_txq_deinit t hw.

Definition rwnx_txq_vif_deinit (vif : rwnx_vif) (hw : rwnx_hw) : res rwnx_hw :=
  t ← rwnx_txq_vif_get vif NX_BCMC_TXQ_TYPE hw;
  hw ← rwnx_txq_deinit t hw;
  t ← rwnx_txq_vif_get vif NX_UNK_TXQ_TYPE hw;
  rwnx_txq_deinit t hw.

Definition rwnx_txq_sta_init (s : nat) (status : Z) (hw : rwnx_hw) : res rwnx_hw :=
  sta ← get_sta s hw;
  vif ← get_vif (Z.to_nat (vif_idx sta)) hw;
  let idx0 := rwnx_txq_sta_idx sta 0 in
  foreach_sta_txq sta (fun t tid hw =>
    h ← from_option_res OutOfBounds (rwnx_tid2hwq !! Z.to_nat tid);
    hw ← rwnx_txq_init t (idx0 + tid) status h tid (Some s) (vif_ndev vif) hw;
    Ok (upd_txq t (fun q => q <| ps_id := if has (uapsd_tids sta) (BIT tid) then UAPSD_ID else LEGACY_PS_ID |>) hw))
    hw.

Definition rwnx_txq_sta_deinit (s : nat) (hw : rwnx_hw) : res rwnx_hw :=
  sta ← get_sta s hw; foreach_sta_txq sta (fun t _ => rwnx_txq_deinit t) hw.

Definition rwnx_txq_offchan_init (vif : rwnx_vif) (hw : rwnx_hw) : res rwnx_hw :=
  rwnx_txq_init (Z.to_nat nx_off_chan_txq_idx) nx_off_chan_txq_idx RWNX_TXQ_STOP_CHAN RWNX_HWQ_VO TID_MGT None
    (vif_ndev vif) hw.
Definition rwnx_txq_offchan_deinit (hw : rwnx_hw) : res rwnx_hw := rwnx_txq_deinit (Z.to_nat nx_off_chan_txq_idx) hw.
Definition rwnx_txq_tdls_vif_init (supports_tdls : bool) (vif : rwnx_vif) (hw : rwnx_hw) : res rwnx_hw :=
  if negb supports_tdls then Ok hw else rwnx_txq_unk_vif_init vif hw.
Definition rwnx_txq_tdls_vif_deinit (supports_tdls : bool) (vif : rwnx_vif) (hw : rwnx_hw) : res rwnx_hw :=
  if negb supports_tdls then Ok hw else rwnx_txq_unk_vif_deinit vif hw.

(** ** Start and stop *)

Definition rwnx_txq_sta_start (s : nat) (reason : Z) (hw : rwnx_hw) : res rwnx_hw :=
  sta ← get_sta s hw; foreach_sta_txq sta (fun t _ => rwnx_txq_start t reason) hw.

Definition rwnx_txq_sta_stop (s : nat) (reason : Z) (hw : rwnx_hw) : res rwnx_hw :=
  sta ← get_sta s hw; foreach_sta_txq sta (fun t _ => rwnx_txq_stop t reason) hw.

(** Applied to a station pointer: stopping accepts a null pointer, starting does not. *)
Definition sta_start_ptr (s : option nat) (reason : Z) (hw : rwnx_hw) : res rwnx_hw :=
  s ← from_option_res NullDeref s; rwnx_txq_sta_start s reason hw.
Definition sta_stop_ptr (s : option nat) (reason : Z) (hw : rwnx_hw) : res rwnx_hw :=
  match s with None => Ok hw | Some s => rwnx_txq_sta_stop s reason hw end.

Definition rwnx_txq_tdls_sta_start (vif : rwnx_vif) (reason : Z) (hw : rwnx_hw) : res rwnx_hw :=
  match tdls_sta vif with Some s => rwnx_txq_sta_start s reason hw | None => Ok hw end.
Definition rwnx_txq_tdls_sta_stop (vif : rwnx_vif) (reason : Z) (hw : rwnx_hw) : res rwnx_hw :=
  match tdls_sta vif with Some s => rwnx_txq_sta_stop s reason hw | None => Ok hw end.

Definition rwnx_txq_vif_for_each_sta (vif : rwnx_vif) (f : option nat -> Z -> rwnx_hw -> res rwnx_hw) (reason : Z)
  (hw : rwnx_hw) : res rwnx_hw :=
  let each vif := foldM (fun s => f (Some s) reason) (ap_sta_list vif) hw in
  match iftype vif with
  | NL80211_IFTYPE_STATION | NL80211_IFTYPE_P2P_CLIENT =>
      hw ← (if tdls_link_active vif then f (tdls_sta vif) reason hw else Ok hw);
      if is_null (sta_ap vif) then Ok hw else f (sta_ap vif) reason hw
  | NL80211_IFTYPE_AP_VLAN => m ← get_vif (vlan_master vif) hw; each m
  | NL80211_IFTYPE_AP | NL80211_IFTYPE_MESH_POINT | NL80211_IFTYPE_P2P_GO => each vif
  | _ => Fault BugOn
  end.

(** [rwnx_vif] is advanced to the master only inside [rwnx_txq_vif_for_each_sta]. *)
Definition rwnx_txq_vif_start (vif : rwnx_vif) (reason : Z) (hw : rwnx_hw) : res rwnx_hw :=
  if decide (iftype vif = NL80211_IFTYPE_MONITOR) then Ok hw else
  hw ← (if roc_tdls vif then
          match tdls_sta vif with
          | Some s => sta ← get_sta s hw; if tdls_chsw_en sta then rwnx_txq_sta_start s reason hw else Ok hw
          | None => Ok hw
          end
        else rwnx_txq_vif_for_each_sta vif sta_start_ptr reason hw);
  t ← rwnx_txq_vif_get vif NX_BCMC_TXQ_TYPE hw;
  hw ← rwnx_txq_start t reason hw;
  t ← rwnx_txq_vif_get vif NX_UNK_TXQ_TYPE hw;
  rwnx_txq_start t reason hw.

Definition rwnx_txq_vif_stop (vif : rwnx_vif) (reason : Z) (hw : rwnx_hw) : res rwnx_hw :=
  if decide (iftype vif = NL80211_IFTYPE_MONITOR) then Ok hw else
  hw ← rwnx_txq_vif_for_each_sta vif sta_stop_ptr reason hw;
  t ← rwnx_txq_vif_get vif NX_BCMC_TXQ_TYPE hw;
  hw ← rwnx_txq_stop t reason hw;
  t ← rwnx_txq_vif_get vif NX_UNK_TXQ_TYPE hw;
  rwnx_txq_stop t reason hw.

Definition rwnx_txq_offchan_start (hw : rwnx_hw) : res rwnx_hw :=
  rwnx_txq_start (Z.to_nat nx_off_chan_txq_idx) RWNX_TXQ_STOP_CHAN hw.

Definition rwnx_txq_vif_get_status (vif : rwnx_vif) (hw : rwnx_hw) : res Z :=
  t ← rwnx_txq_vif_get vif 0 hw; q ← get_txq t hw;
  Ok (Z.land (status q) (Z.lor RWNX_TXQ_STOP_CHAN RWNX_TXQ_STOP_VIF_PS)).

Definition rwnx_txq_sta_switch_vif (s : nat) (new_vif : rwnx_vif) (carrier_ok : bool) (hw : rwnx_hw) : res rwnx_hw :=
  let hw := if carrier_ok then hw else log (EvCarrierOn (vif_ndev new_vif)) hw in
  sta ← get_sta s hw;
  foldM (fun i hw =>
    let t := (rwnx_txq_sta_get sta 0 + i)%nat in
    q ← get_txq t hw;
    Ok (log (EvWakeSubqueue (vif_ndev new_vif) (ndev_idx q)) (upd_txq t (fun q => q <| ndev := vif_ndev new_vif |>) hw)))
    (seq 0 (Z.to_nat NX_NB_TID_PER_STA)) hw.

(** ** Traffic indications *)

Definition rwnx_set_traffic_status (sta : rwnx_sta) (available : bool) (ps_id : Z) (hw : rwnx_hw) : rwnx_hw :=
  if tdls_active sta then log (EvTdlsTrafficInd (vif_idx sta)) hw
  else log (EvTrafficInd (sta_idx sta) (negb (ps_id =? LEGACY_PS_ID)) available) hw.

Definition rwnx_set_more_data_flag (k : sk_buff) (s : nat) (hw : rwnx_hw) : res (sk_buff * rwnx_hw) :=
  sta ← get_sta s hw;
  if active (ps sta) then
    vif ← get_vif (sw_vif k) hw;
    q ← get_txq (sw_txq k) hw;
    let ps' := (ps sta) <| pkt_ready ::= ps_upd (ps_id q) (fun n => n - 1) |>
                      <| sp_cnt ::= ps_upd (ps_id q) (fun n => n - 1) |> in
    let hw := upd_ps s (fun _ => ps') hw in
    let k := if ((ps_id q =? UAPSD_ID) || bool_decide (iftype vif = NL80211_IFTYPE_MESH_POINT) || tdls_active sta)
                && (ps_get (ps_id q) (sp_cnt ps') =? 0)
             then k <| desc_flags ::= fun f => setf f TXU_CNTRL_EOSP |> else k in
    if negb (ps_get (ps_id q) (pkt_ready ps') =? 0)
    then Ok (k <| desc_flags ::= fun f => setf f TXU_CNTRL_MORE_DATA |>, hw)
    else Ok (k, rwnx_set_traffic_status sta false (ps_id q) hw)
  else Ok (k, hw).

(** ** Push *)

(** The slot of the table of frames waiting for a confirmation. *)
Definition txdesc_slot (i : Z) : nat := Z.to_nat (i mod USB_TXDESC_CNT).

Definition aicwf_usb_host_txdesc_push (k : sk_buff) (hw : rwnx_hw) : rwnx_hw :=
  let e := usb_env hw in
  let i := txdesc_free_idx e in
  let i' := i + 1 in
  let hw := match tx_host_id e !! txdesc_slot i with
            | Some (Some old) => log (EvOverwritten old) hw
            | _ => hw
            end in
  hw <| usb_env := e <| tx_host_id ::= <[txdesc_slot i := Some k]> |>
                     <| txdesc_free_idx := if i' =? 1073741824 then 0 else i' |> |>.

(** Frames the firmware confirms: action and association response frames,
    EAPOL and WAPI. *)
Definition wants_cfm (k : sk_buff) : bool :=
  has (desc_flags k) TXU_CNTRL_MGMT && ((fc0 k =? 208) || (fc0 k =? 16) || (fc0 k =? 48))
  || (ethertype k =? 36488) || (ethertype k =? 46216).

(** The retry and burst counters of the queue. *)
Definition push_retry (flags : Z) (q : rwnx_txq) : rwnx_txq :=
  if negb (nb_retry q =? 0) then
    let q := q <| nb_retry ::= fun n => n - 1 |> in
    if nb_retry q =? 0 then q <| last_retry_skb := None |> else q
  else if negb (has flags RWNX_PUSH_RETRY) then q <| pkt_sent ::= fun n => u8 (n + 1) |> else q.

(** The frames in flight and what is left of the service period. *)
Definition push_count (q : rwnx_txq) : rwnx_txq :=
  let q := q <| pkt_pushed ::= fun n => u8 (n + 1) |> in
  if negb (push_limit q =? 0) then q <| push_limit ::= fun n => n - 1 |> else q.

(** The descriptor is completed and the frame goes to the bus. *)
Definition push_out (k : sk_buff) (h : nat) (hw : rwnx_hw) : rwnx_hw :=
  let '(k, hw) :=
    if wants_cfm k then
      let k := k <| need_cfm := true |>
                 <| status_desc_addr := Z.lor (Z.shiftl 1 31) (txdesc_free_idx (usb_env hw)) |> in
      (k, aicwf_usb_host_txdesc_push k hw)
    else
      let k := k <| need_cfm := false |> in
      let k := if raw_frame k then k <| desc_flags ::= fun f => setf f TXU_CNTRL_MGMT |> else k in
      (k <| status_desc_addr := if fixed_rate k then Z.lor (Z.shiftl 1 30) (rate_config k) else 0 |>, hw) in
  log (EvPushed k) hw <| cfm_balance ::= alter (fun n => s32 (n + 1)) h |>.

Definition rwnx_tx_push (k : sk_buff) (flags : Z) (hw : rwnx_hw) : res rwnx_hw :=
  let t := sw_txq k in
  q ← get_txq t hw;
  h ← from_option_res NullDeref (txq_hwq q);
  hq ← get_hwq h hw;
  let hw := upd_txq t (push_retry flags) hw in
  let k := k <| hw_queue := Z.of_nat (hwq_id hq) |> in
  kh ← match sw_sta k with
       | Some s => rwnx_set_more_data_flag k s hw
       | None => Ok (k, hw)
       end;
  let '(k, hw) := (kh : sk_buff * rwnx_hw) in
  Ok (push_out k (hwq_id hq) (upd_txq t push_count hw)).

(** ** Queueing *)

(** [rwnx_skb_append]: insert after the frame [old]. *)
Fixpoint rwnx_skb_append (old : Z) (k : sk_buff) (l : list sk_buff) : res (list sk_buff) :=
  match l with
  | [] => Fault OutOfBounds
  | x :: l => if sk_id x =? old then Ok (x :: k :: l) else l' ← rwnx_skb_append old k l; Ok (x :: l')
  end.

Definition queue_ps (q : rwnx_txq) (hw : rwnx_hw) : res rwnx_hw :=
  match txq_sta q with
  | None => Ok hw
  | Some s =>
      sta ← get_sta s hw;
      if active (ps sta) then
        let ps' := (ps sta) <| pkt_ready ::= ps_upd (ps_id q) (fun n => n + 1) |> in
        let hw := upd_ps s (fun _ => ps') hw in
        Ok (if ps_get (ps_id q) (pkt_ready ps') =? 1 then rwnx_set_traffic_status sta true (ps_id q) hw else hw)
      else Ok hw
  end.

Definition queue_sk_list (k : sk_buff) (retry : bool) (q : rwnx_txq) : res rwnx_txq :=
  if negb retry then Ok (q <| sk_list ::= fun l => l ++ [k] |>) else
  l ← match last_retry_skb q with
      | Some last => rwnx_skb_append last k (sk_list q)
      | None => Ok (k :: sk_list q)
      end;
  Ok (q <| sk_list := l |> <| last_retry_skb := Some (sk_id k) |> <| nb_retry ::= fun n => s32 (n + 1) |>).

Definition queue_flow_ctrl (t : nat) (hw : rwnx_hw) : res rwnx_hw :=
  q ← get_txq t hw;
  if negb (ndev_idx q =? NDEV_NO_TXQ) && negb (tbusy hw)
     && (RWNX_NDEV_FLOW_CTRL_STOP <? Z.of_nat (length (sk_list q)))
  then Ok (log (EvStopSubqueue (ndev q) (ndev_idx q))
             (upd_txq t (fun q => q <| status ::= fun s => setf s RWNX_TXQ_NDEV_FLOW_CTRL |>) hw))
  else Ok hw.

Definition rwnx_txq_queue_skb (k : sk_buff) (t : nat) (retry : bool) (hw : rwnx_hw) : res (bool * rwnx_hw) :=
  q ← get_txq t hw;
  hw ← queue_ps q hw;
  q ← queue_sk_list k retry q;
  let hw := upd_txq t (fun _ => q) hw in
  hw ← queue_flow_ctrl t hw;
  q ← get_txq t hw;
  if negb (rwnx_txq_is_stopped q) then
    hw ← rwnx_txq_add_to_hw_list t hw; Ok (true, hw)
  else Ok (false, hw).

Definition rwnx_txq_confirm_any (t h : nat) (hw : rwnx_hw) : res rwnx_hw :=
  _ ← get_txq t hw;
  hq ← get_hwq h hw;
  let hw := upd_txq t (fun q =>
    if negb (pkt_pushed q =? 0) then q <| pkt_pushed ::= fun n => n - 1 |> else q) hw in
  let hw := upd_hwq h (fun h => h <| need_processing := true |>) hw in
  Ok (hw <| cfm_balance ::= alter (fun n => s32 (n - 1)) (hwq_id hq) |>).

(** ** Processing a hardware queue *)

Definition rwnx_txq_get_credits (q : rwnx_txq) : Z :=
  let cred := credits q in
  if negb (push_limit q =? 0) && (push_limit q <? cred) then s8 (push_limit q) else cred.

(** [skb_queue_extract]: the first [nb_elt] frames, for [0 < nb_elt] not above the length. *)
Definition skb_queue_extract (nb_elt : Z) (l : list sk_buff) : list sk_buff * list sk_buff :=
  (take (Z.to_nat nb_elt) l, drop (Z.to_nat nb_elt) l).

(** The result, the frames to push and the frames left. *)
Definition rwnx_txq_get_skb_to_push (q : rwnx_txq) : bool * list sk_buff * list sk_buff :=
  let nb_ready := Z.of_nat (length (sk_list q)) in
  let credits := rwnx_txq_get_credits q in
  if nb_ready <=? credits then (true, sk_list q, [])
  else
    let '(push, rest) := skb_queue_extract credits (sk_list q) in
    (negb (push_limit q =? 0) && (credits =? push_limit q), push, rest).

Definition list_rotate_left (l : list nat) : list nat := match l with [] => [] | x :: l => l ++ [x] end.

Definition process_sp (t : nat) (hw : rwnx_hw) : res rwnx_hw :=
  q ← get_txq t hw;
  match txq_sta q with
  | Some s =>
      if negb (push_limit q =? 0) && (ps_id q =? LEGACY_PS_ID) then
        _ ← get_sta s hw;
        Ok (upd_txq t (fun q => q <| push_limit := 0 |>)
             (upd_ps s (fun p => p <| sp_cnt ::= ps_upd (ps_id q) (fun n => n - push_limit q) |>) hw))
      else Ok hw
  | None => Ok hw
  end.

Definition process_flow_ctrl (t : nat) (hw : rwnx_hw) : res rwnx_hw :=
  q ← get_txq t hw;
  if has (status q) RWNX_TXQ_NDEV_FLOW_CTRL && (Z.of_nat (length (sk_list q)) <? RWNX_NDEV_FLOW_CTRL_RESTART) then
    let hw := upd_txq t (fun q => q <| status ::= fun s => clrf s RWNX_TXQ_NDEV_FLOW_CTRL |>) hw in
    Ok (if negb (tbusy hw) then log (EvWakeSubqueue (ndev q) (ndev_idx q)) hw else hw)
  else Ok hw.

(** One iteration of the loop of [rwnx_hwq_process]. *)
Definition hwq_process_txq (h t : nat) (hw : rwnx_hw) : res rwnx_hw :=
  q ← get_txq t hw;
  if negb (has (status q) RWNX_TXQ_IN_HWQ_LIST) then Fault BugOn
  else if idx q =? TXQ_INACTIVE then hw ← rwnx_txq_del_from_hw_list t hw; rwnx_txq_flush t hw
  else if credits q <=? 0 then Fault BugOn
  else if negb (rwnx_txq_skb_ready q) then Fault BugOn
  else
    let '(txq_empty, push, rest) := rwnx_txq_get_skb_to_push q in
    hw ← foldM (fun k => rwnx_tx_push k 0) push (upd_txq t (fun q => q <| sk_list := rest |>) hw);
    hw ← (if txq_empty then
            hw ← rwnx_txq_del_from_hw_list t hw; Ok (upd_txq t (fun q => q <| pkt_sent := 0 |>) hw)
          else
            q ← get_txq t hw;
            hq ← get_hwq h hw;
            if rwnx_txq_is_scheduled q && (hwq_size hq <? pkt_sent q) then
              Ok (upd_hwq h (fun h => h <| hwq_list ::= list_rotate_left |>)
                    (upd_txq t (fun q => q <| pkt_sent := 0 |>) hw))
            else Ok hw);
    hw ← process_sp t hw;
    process_flow_ctrl t hw.

(** [sched_list.next] of a linked queue: [None] is the list head. *)
Fixpoint next_of (t : nat) (l : list nat) : res (option nat) :=
  match l with
  | [] => Fault OutOfBounds
  | x :: l => if decide (x = t) then Ok (head l) else next_of t l
  end.

(** [list_for_each_entry_safe]: [cur] and then its successor are fixed before
    the body runs. *)
Fixpoint hwq_loop (fuel : nat) (h : nat) (cur : option nat) (hw : rwnx_hw) : res rwnx_hw :=
  match cur with
  | None => Ok hw
  | Some t =>
      match fuel with
      | O => Fault OutOfFuel
      | S fuel =>
          hq ← get_hwq h hw;
          next ← next_of t (hwq_list hq);
          hw ← hwq_process_txq h t hw;
          hwq_loop fuel h next hw
      end
  end.

(** Every round unlinks a queue or pushes a frame. *)
Definition frames (hw : rwnx_hw) : list sk_buff := txq hw ≫= sk_list.
Definition process_fuel (l : list nat) (hw : rwnx_hw) : nat := length l + length (frames hw).

Definition rwnx_hwq_process (h : nat) (hw : rwnx_hw) : res rwnx_hw :=
  let hw := upd_hwq h (fun h => h <| need_processing := false |>) hw in
  hq ← get_hwq h hw;
  hwq_loop (process_fuel (hwq_list hq) hw) h (head (hwq_list hq)) hw.

Definition rwnx_hwq_process_all (hw : rwnx_hw) : res rwnx_hw :=
  foldM (fun h hw =>
    hq ← get_hwq h hw; if need_processing hq then rwnx_hwq_process h hw else Ok hw)
    [4; 3; 2; 1; 0]%nat hw.

Definition rwnx_hwq_init (l : list rwnx_hwq) : list rwnx_hwq :=
  imap (fun i h => h <| hwq_id := i |> <| hwq_size := u8 (nth i nx_txdesc_cnt 0) |> <| hwq_list := [] |>) l.

(** ** Power save *)

Definition rwnx_ps_bh_enable (s : nat) (enable : bool) (hw : rwnx_hw) : res rwnx_hw :=
  sta ← get_sta s hw;
  if enable then
    let hw := upd_ps s (fun p => p <| active := true |> <| sp_cnt := mk_by_ps 0 0 |>) hw in
    hw ← rwnx_txq_sta_stop s RWNX_TXQ_STOP_STA_PS hw;
    if is_multicast_sta (sta_idx sta) then
      q ← get_txq (rwnx_txq_sta_get sta 0) hw;
      Ok (upd_ps s (fun p => p <| pkt_ready := mk_by_ps (u16 (Z.of_nat (length (sk_list q)))) 0 |>) hw)
    else
      let hw := upd_ps s (fun p => p <| pkt_ready := mk_by_ps 0 0 |>) hw in
      foreach_sta_txq sta (fun t _ hw =>
        q ← get_txq t hw;
        Ok (upd_ps s (fun p =>
              p <| pkt_ready ::= ps_upd (ps_id q) (fun n => n + Z.of_nat (length (sk_list q))) |>) hw)) hw
  else
    let hw := upd_ps s (fun p => p <| active := false |>) hw in
    hw ← (if is_multicast_sta (sta_idx sta) then
            let t := rwnx_txq_sta_get sta 0 in
            _ ← get_txq t hw;
            Ok (upd_txq t (fun q => q <| txq_hwq := Some RWNX_HWQ_BE |> <| push_limit := 0 |>) hw)
          else foreach_sta_txq sta (fun t _ hw =>
                 _ ← get_txq t hw; Ok (upd_txq t (fun q => q <| push_limit := 0 |>) hw)) hw);
    hw ← rwnx_txq_sta_start s RWNX_TXQ_STOP_STA_PS hw;
    sta ← get_sta s hw;
    let hw := if negb (legacy (pkt_ready (ps sta)) =? 0)
              then rwnx_set_traffic_status sta false LEGACY_PS_ID hw else hw in
    Ok (log EvTasklet hw).

(** Give a queue [n] frames of the service period. *)
Definition sp_grant (s t : nat) (p n : Z) (hw : rwnx_hw) : res rwnx_hw :=
  let hw := upd_txq t (fun q => q <| push_limit := u8 n |>) hw in
  let hw := upd_ps s (fun x => x <| sp_cnt ::= ps_upd p (fun c => c + n) |>) hw in
  rwnx_txq_add_to_hw_list t hw.

(** The body of the loop over the queues of a station: [next] is [continue]. *)
Definition prio_body (s : nat) (sta : rwnx_sta) (p : Z) (tid : Z) (next : Z -> rwnx_hw -> res rwnx_hw) (pkt_req : Z)
  (hw : rwnx_hw) : res rwnx_hw :=
  let t := rwnx_txq_sta_get sta tid in
  q ← get_txq t hw;
  let txq_len := u16 (Z.of_nat (length (sk_list q))) in
  if negb (ps_id q =? p) then next pkt_req hw else
  let txq_len := if credits q <? txq_len then u16 (credits q) else txq_len in
  if txq_len =? 0 then next pkt_req hw
  else if txq_len <? pkt_req then
    hw ← sp_grant s t p txq_len hw; next (u16 (pkt_req - txq_len)) hw
  else sp_grant s t p pkt_req hw.

(** [foreach_sta_txq_prio]: the next priority is read before the bound is tested. *)
Fixpoint prio_loop (s : nat) (sta : rwnx_sta) (p : Z) (tid : Z) (rest : list Z) (pkt_req : Z) (hw : rwnx_hw)
  : res rwnx_hw :=
  prio_body s sta p tid (fun pkt_req hw =>
    match rest with
    | [] => Fault OutOfBounds                  (* nx_tid_prio[NX_NB_TID_PER_STA] *)
    | tid :: rest => prio_loop s sta p tid rest pkt_req hw
    end) pkt_req hw.

Definition rwnx_ps_bh_traffic_req (s : nat) (pkt_req p : Z) (hw : rwnx_hw) : res rwnx_hw :=
  sta ← get_sta s hw;
  if negb (active (ps sta)) then Ok hw
  else if (pkt_req =? PS_SP_INTERRUPTED) && (p =? UAPSD_ID) then
    foreach_sta_txq sta (fun t _ hw =>
        _ ← get_txq t hw; Ok (upd_txq t (fun q => q <| push_limit := 0 |>) hw))
      (upd_ps s (fun x => x <| sp_cnt ::= ps_upd p (fun _ => 0) |>) hw)
  else
    let pkt_ready_all := ps_get p (pkt_ready (ps sta)) - ps_get p (sp_cnt (ps sta)) in
    if negb (ps_get p (sp_cnt (ps sta)) =? 0) || (pkt_ready_all <=? 0) then Ok hw
    else
      let pkt_req := if (pkt_req =? 0) || (pkt_ready_all <? pkt_req) then u16 pkt_ready_all else pkt_req in
      let hw := upd_ps s (fun x => x <| sp_cnt ::= ps_upd p (fun _ => 0) |>) hw in
      hw ← (if is_multicast_sta (sta_idx sta) then
              let t := rwnx_txq_sta_get sta 0 in
              q ← get_txq t hw;
              sp_grant s t p (if credits q <? pkt_req then u16 (credits q) else pkt_req) hw
            else
              match nx_tid_prio with
              | [] => Fault OutOfBounds
              | tid :: rest => prio_loop s sta p tid rest pkt_req hw
              end);
      Ok (log EvTasklet hw).

(** ** Confirmation and retry *)

(** [union rwnx_hw_txstatus]: bit fields of the status word. *)
Definition tx_done (v : Z) : bool := has v (BIT 0).
Definition retry_required (v : Z) : bool := has v (BIT 1).
Definition sw_retry_required (v : Z) : bool := has v (BIT 2).
Definition acknowledged (v : Z) : bool := has v (BIT 3).

Definition rwnx_tx_retry (k : sk_buff) (sw_retry : bool) (hw : rwnx_hw) : res rwnx_hw :=
  let t := sw_txq k in
  let k := if negb sw_retry then k <| desc_flags ::= fun f => setf f TXU_CNTRL_RETRY |> else k in
  let k := k <| desc_flags ::= fun f => clrf f TXU_CNTRL_MORE_DATA |> in
  _ ← get_txq t hw;
  let hw := upd_txq t (fun q => q <| credits ::= fun c => s8 (c + 1) |>) hw in
  q ← get_txq t hw;
  hw ← (if 0 <? credits q then rwnx_txq_start t RWNX_TXQ_STOP_FULL hw else Ok hw);
  bh ← rwnx_txq_queue_skb k t true hw;
  Ok bh.2.

Definition rwnx_txdatacfm (k : sk_buff) (value : Z) (hw : rwnx_hw) : res rwnx_hw :=
  let st := if value =? 0 then BIT 0 else value in
  if usb_down hw then Ok (log (EvFreed k) hw) else
  let t := sw_txq k in
  hw ← rwnx_txq_confirm_any t (Z.to_nat (hw_queue k)) hw;
  q ← get_txq t hw;
  let finish hw :=
    hw ← (if negb (idx q =? TXQ_INACTIVE) && (negb (push_limit q =? 0) && negb (rwnx_txq_is_full q))
          then rwnx_txq_add_to_hw_list t hw else Ok hw);
    Ok (log (EvFreed k) hw) in
  if has (desc_flags k) TXU_CNTRL_MGMT then finish (log (EvMgmtTxStatus (sk_id k) (acknowledged st)) hw)
  else if negb (idx q =? TXQ_INACTIVE) && (retry_required st || sw_retry_required st) then
    rwnx_tx_retry k (sw_retry_required st) hw
  else finish hw.

Definition aicwf_usb_host_tx_cfm_handler (status used_idx : Z) (hw : rwnx_hw) : res rwnx_hw :=
  let i := txdesc_slot used_idx in
  let host_id := tx_host_id (usb_env hw) !! i in
  let hw := hw <| usb_env ::= fun e => e <| tx_host_id ::= <[i := None]> |> |> in
  match host_id with
  | Some (Some k) => rwnx_txdatacfm k status hw
  | _ => Ok (hw <| usb_env ::= fun e => e <| txdesc_used_idx := used_idx |> |>)
  end.

Definition rwnx_txq_credit_update (sta_idx tid : Z) (update : Z) (hw : rwnx_hw) : res rwnx_hw :=
  sta ← get_sta (Z.to_nat sta_idx) hw;
  let t := rwnx_txq_sta_get sta tid in
  q ← get_txq t hw;
  if negb (idx q =? TXQ_INACTIVE) then
    if credits q <=? 0 then rwnx_txq_stop t RWNX_TXQ_STOP_FULL hw else rwnx_txq_start t RWNX_TXQ_STOP_FULL hw
  else Ok hw.

(** The end of every transmit entry point: queue the frame under [tx_lock] and,
    when the queue is not stopped, process its hardware queue. *)
Definition queue_and_process (k : sk_buff) (t : nat) (hw : rwnx_hw) : res rwnx_hw :=
  bh ← rwnx_txq_queue_skb k t false hw;
  let '(added, hw) := (bh : bool * rwnx_hw) in
  if added then
    q ← get_txq t hw;
    h ← from_option_res NullDeref (txq_hwq q);
    rwnx_hwq_process h hw
  else Ok hw.

End Plat.

End Hw.
