(* ===== verification/TxqInv.v ===== *)
(** The invariant of the transmit queues of [Txq.v]: each queue by itself, the
    linkage of queues and hardware lists, the power-save counters of group
    addressed traffic, and the account of every frame.  [Spec] holds the
    statements, [Prim], [Sched] and [Drain] their preservation by the
    operations, from the list primitives up to [rwnx_hwq_process]. *)
From stdpp Require Import base list numbers option relations.
From Stdlib Require Import ZArith Lia.
From S2P Require Import Prelude Txq.

#[local] Open Scope Z_scope.
#[local] Open Scope aic_scope.

Import Hw.

Module Spec.

(** ** Bits of [status] *)

Lemma sched_setf s r : has (setf s r) RWNX_TXQ_IN_HWQ_LIST = has s RWNX_TXQ_IN_HWQ_LIST || has r RWNX_TXQ_IN_HWQ_LIST.
Proof. apply has_setf. Qed.

Lemma has_in_bit s : has s RWNX_TXQ_IN_HWQ_LIST = Z.testbit s 0.
Proof. apply has_BIT. lia. Qed.

Lemma sched_clrf s r : has r RWNX_TXQ_IN_HWQ_LIST = false ->
  has (clrf s r) RWNX_TXQ_IN_HWQ_LIST = has s RWNX_TXQ_IN_HWQ_LIST.
Proof. rewrite !has_in_bit. unfold clrf. rewrite Z.ldiff_spec by lia. intros ->. apply andb_true_r. Qed.

Lemma sched_u8 s : has (u8 s) RWNX_TXQ_IN_HWQ_LIST = has s RWNX_TXQ_IN_HWQ_LIST.
Proof. rewrite !has_in_bit. unfold wrapU. apply Z.mod_pow2_bits_low. lia. Qed.

(** ** The parts of the invariant *)

(** A queue being worked on: its index, the frames taken off it that are still
    to be pushed, and how many frames the counters of its station are ahead. *)
Definition focus : Type := option (nat * list sk_buff * Z).
Definition xP (X : focus) (t : nat) : list sk_buff :=
  match X with Some (t', P, _) => if decide (t' = t) then P else [] | None => [] end.
Definition xd (X : focus) (t : nat) : Z :=
  match X with Some (t', _, d) => if decide (t' = t) then d else 0 | None => 0 end.
Definition focused (X : focus) (t : nat) : Prop :=
  match X with Some (t', _, _) => t' = t | None => False end.

(** The frames of a queue in the order they will be pushed. *)
Definition line (X : focus) (t : nat) (q : rwnx_txq) : list sk_buff := xP X t ++ sk_list q.

Definition frame_ok (nvif : nat) (t : nat) (o : option nat) (k : sk_buff) : Prop :=
  sw_txq k = t /\ sw_sta k = o /\ (sw_vif k < nvif)%nat.

(** Retried frames come first and [last_retry_skb] is the last of them. *)
Definition retry_ok (n : Z) (last : option Z) (l : list sk_buff) : Prop :=
  0 <= n <= Z.of_nat (length l) /\
  match last with
  | None => n = 0
  | Some i => 0 < n /\ exists k, l !! Z.to_nat (n - 1) = Some k /\ sk_id k = i
  end.

(** A station without its power-save state. *)
Definition no_ps : rwnx_sta_ps := mk_ps false (mk_by_ps 0 0) (mk_by_ps 0 0).
Definition strip (s : rwnx_sta) : rwnx_sta := s <| ps := no_ps |>.

(** Frames that have left the driver for good, or that nothing points to any more. *)
Definition gone (e : event) : list Z :=
  match e with
  | EvPushed k => if need_cfm k then [] else [sk_id k]
  | EvFreed k | EvOverwritten k => [sk_id k]
  | _ => []
  end.
Definition ring_frames (hw : rwnx_hw) : list sk_buff := omap id (tx_host_id (usb_env hw)).

(** The frames handed to the bus from a queue. *)
Definition pushed_of (t : nat) (e : event) : list Z :=
  match e with EvPushed k => if decide (sw_txq k = t) then [sk_id k] else [] | _ => [] end.

Section Config.
Context (plat : rwnx_plat) (stas : list rwnx_sta) (vifs : list rwnx_vif).

Record config_ok : Prop := {
  c_nsta : (length stas <= Z.to_nat (NX_REMOTE_STA_MAX + NX_VIRT_DEV_MAX))%nat;
  c_sta s st : stas !! s = Some st ->
    sta_idx st = Z.of_nat s /\ 0 <= vif_idx st < NX_VIRT_DEV_MAX /\ (Z.to_nat (vif_idx st) < length vifs)%nat;
  c_vif v vif : vifs !! v = Some vif ->
    0 <= vif_index vif < NX_VIRT_DEV_MAX /\
    (iftype vif = NL80211_IFTYPE_AP_VLAN -> (vlan_master vif < length vifs)%nat) /\
    (bcmc_index vif < length stas)%nat /\
    Forall (fun s => (s < length stas)%nat) (ap_sta_list vif ++ option_list (sta_ap vif) ++ option_list (tdls_sta vif)) /\
    (tdls_link_active vif = true -> is_Some (tdls_sta vif))
}.

(** The queue a station pointer stored in a queue belongs to, for group
    addressed stations. *)
Definition sta_ptr_ok (t : nat) (q : rwnx_txq) : Prop :=
  forall s, txq_sta q = Some s -> exists st, stas !! s = Some st /\
    (is_multicast_sta plat (sta_idx st) = true -> t = rwnx_txq_sta_get plat st 0 /\ ps_id q = LEGACY_PS_ID).

(** The queues of group addressed traffic. *)
Definition bcmc_queue (t : nat) : Prop :=
  let first := Z.to_nat (if old_ic plat then NX_FIRST_BCMC_TXQ_IDX_FOR_OLD_IC else NX_FIRST_BCMC_TXQ_IDX) in
  (first <= t < first + Z.to_nat NX_VIRT_DEV_MAX)%nat.

Record txq_ok (X : focus) (t : nat) (q : rwnx_txq) : Prop := {
  q_hwq : match txq_hwq q with
          | Some h => (h < 5)%nat /\ (bcmc_queue t -> h = RWNX_HWQ_BE)
          | None => idx q = TXQ_INACTIVE /\ rwnx_txq_is_scheduled q = false /\ line X t q = []
          end;
  q_credits : 0 <= credits q <= 127 /\ (idx q <> TXQ_INACTIVE -> 0 < credits q);
  q_limit : 0 <= push_limit q /\ (idx q <> TXQ_INACTIVE -> push_limit q <= Z.of_nat (length (line X t q)));
  q_retry : idx q <> TXQ_INACTIVE -> retry_ok (nb_retry q) (last_retry_skb q) (line X t q);
  q_frames : Forall (frame_ok (length vifs) t (txq_sta q)) (line X t q);
  q_sched : rwnx_txq_is_scheduled q = true -> idx q <> TXQ_INACTIVE -> focused X t \/ sk_list q <> [];
  q_len : Z.of_nat (length (line X t q)) + xd X t <= 65535 /\ 0 <= xd X t;
  q_sta : sta_ptr_ok t q
}.

(** Queues and hardware lists point to each other. *)
Record linked (hw : rwnx_hw) : Prop := {
  l_ntxq : length (txq hw) = Z.to_nat NX_NB_TXQ;
  l_nhwq : length (hwq hw) = 5%nat;
  l_id h hq : hwq hw !! h = Some hq -> hwq_id hq = h;
  l_nodup h hq : hwq hw !! h = Some hq -> NoDup (hwq_list hq);
  l_list h hq t : hwq hw !! h = Some hq ->
    t ∈ hwq_list hq <-> exists q, txq hw !! t = Some q /\ rwnx_txq_is_scheduled q = true /\ txq_hwq q = Some h
}.

(** The counters of a group addressed station in power save. *)
Definition mc_ps_ok (X : focus) (hw : rwnx_hw) : Prop :=
  forall s st q, sta_table hw !! s = Some st -> is_multicast_sta plat (sta_idx st) = true ->
    active (ps st) = true -> txq hw !! rwnx_txq_sta_get plat st 0 = Some q ->
    txq_hwq q <> None /\ uapsd (pkt_ready (ps st)) = 0 /\
    (idx q <> TXQ_INACTIVE ->
       txq_sta q = Some s /\
       legacy (pkt_ready (ps st)) =
         Z.of_nat (length (line X (rwnx_txq_sta_get plat st 0) q)) + xd X (rwnx_txq_sta_get plat st 0)).

(** A frame waiting for its confirmation. *)
Definition waiting_ok (hw : rwnx_hw) (k : sk_buff) : Prop :=
  exists q, txq hw !! sw_txq k = Some q /\ txq_hwq q <> None /\
    frame_ok (length vifs) (sw_txq k) (txq_sta q) k /\ (exists h, (h < 5)%nat /\ hw_queue k = Z.of_nat h).

(** Every frame ever queued is in exactly one place. *)
Definition all_ids (X : focus) (hw : rwnx_hw) : list Z :=
  (match X with Some (_, P, _) => sk_id <$> P | None => [] end) ++
  (sk_id <$> frames hw) ++ (sk_id <$> ring_frames hw) ++ (ev hw ≫= gone).

Record inv (X : focus) (Q : list Z) (hw : rwnx_hw) : Prop := {
  i_linked : linked hw;
  i_ring : length (tx_host_id (usb_env hw)) = Z.to_nat USB_TXDESC_CNT;
  i_bal : length (cfm_balance hw) = 5%nat;
  i_stas : strip <$> sta_table hw = stas;
  i_vifs : vif_table hw = vifs;
  i_txq t q : txq hw !! t = Some q -> txq_ok X t q;
  i_wait k : k ∈ ring_frames hw -> waiting_ok hw k;
  i_ids : all_ids X hw ≡ₚ Q;
  i_nodup : NoDup Q;
  i_ps : mc_ps_ok X hw
}.

(** What an operation on the queues [T] keeps: every other queue stays
    scheduled as it was, and what a queue has pushed and still holds, in order. *)
Definition pushed (t : nat) (hw : rwnx_hw) : list Z := ev hw ≫= pushed_of t.
Definition history (X : focus) (t : nat) (hw : rwnx_hw) (q : rwnx_txq) : list Z :=
  pushed t hw ++ (sk_id <$> line X t q).
Definition keeps (T : nat -> Prop) (X X' : focus) (hw hw' : rwnx_hw) : Prop :=
  forall t q, txq hw !! t = Some q -> exists q', txq hw' !! t = Some q' /\
    idx q' = idx q /\ txq_hwq q' = txq_hwq q /\
    (~ T t -> rwnx_txq_is_scheduled q' = rwnx_txq_is_scheduled q) /\
    (idx q <> TXQ_INACTIVE -> history X' t hw' q' = history X t hw q).

Lemma keeps_refl T X hw : keeps T X X hw hw.
Proof. intros t q Hq. exists q. repeat split; auto. Qed.

Lemma keeps_trans T X1 X2 X3 a b c : keeps T X1 X2 a b -> keeps T X2 X3 b c -> keeps T X1 X3 a c.
Proof.
  intros H1 H2 t q Hq. destruct (H1 t q Hq) as (q1 & Hq1 & E1 & F1 & G1 & L1).
  destruct (H2 t q1 Hq1) as (q2 & Hq2 & E2 & F2 & G2 & L2).
  exists q2. repeat split; [done|congruence|congruence| |].
  - intros HT. rewrite G2, G1; done.
  - intros Hi. rewrite L2, L1; [done|done|congruence].
Qed.

Lemma keeps_weaken (T T' : nat -> Prop) X X' a b : (forall t, T t -> T' t) -> keeps T X X' a b -> keeps T' X X' a b.
Proof.
  intros HT H t q Hq. destruct (H t q Hq) as (q' & ? & ? & ? & G & ?). exists q'. repeat split; auto.
Qed.

End Config.
End Spec.

Module Prim.
Import Spec.

(** ** Reading and writing *)

Lemma get_txq_ok t hw q : txq hw !! t = Some q -> get_txq t hw = Ok q.
Proof. unfold get_txq. now intros ->. Qed.
Lemma get_hwq_ok h hw q : hwq hw !! h = Some q -> get_hwq h hw = Ok q.
Proof. unfold get_hwq. now intros ->. Qed.
Lemma get_sta_ok s hw st : sta_table hw !! s = Some st -> get_sta s hw = Ok st.
Proof. unfold get_sta. now intros ->. Qed.
Lemma get_vif_ok v hw vif : vif_table hw !! v = Some vif -> get_vif v hw = Ok vif.
Proof. unfold get_vif. now intros ->. Qed.

Lemma upd_txq_insert t g hw q : txq hw !! t = Some q -> txq (upd_txq t g hw) = <[t := g q]> (txq hw).
Proof.
  intros Hq. cbn. apply list_eq. intros i. destruct (decide (i = t)) as [->|Hn].
  - rewrite list_lookup_alter_eq, Hq, list_lookup_insert_eq; [done|eauto using lookup_lt_Some].
  - now rewrite list_lookup_alter_ne, list_lookup_insert_ne by done.
Qed.

(** [txq hw' = <[t := _]> (txq _)] for [hw' := upd_txq t _ _]. *)
Ltac txq_insert hw' Hq :=
  unfold hw'; match goal with |- txq (upd_txq ?t ?g ?h) = _ => exact (upd_txq_insert t g h _ Hq) end.

Lemma txq_insert_lookup hw hw' t q q' : txq hw !! t = Some q -> txq hw' = <[t := q']> (txq hw) ->
  txq hw' !! t = Some q'.
Proof. intros Hq ->. apply list_lookup_insert_eq. eauto using lookup_lt_Some. Qed.

(** Looking a queue up after one was replaced. *)
Lemma txq_insert_inv hw hw' t q q' u x : txq hw !! t = Some q -> txq hw' = <[t := q']> (txq hw) ->
  txq hw' !! u = Some x -> (u = t /\ x = q') \/ (u <> t /\ txq hw !! u = Some x).
Proof.
  intros Hq E Hx. rewrite E in Hx. destruct (decide (u = t)) as [->|Hn].
  - rewrite list_lookup_insert_eq in Hx by eauto using lookup_lt_Some. left. split; congruence.
  - rewrite list_lookup_insert_ne in Hx by done. now right.
Qed.

Lemma frames_insert hw hw' t q q' : txq hw !! t = Some q -> txq hw' = <[t := q']> (txq hw) ->
  frames hw' ++ sk_list q ≡ₚ frames hw ++ sk_list q'.
Proof.
  intros Hq E. unfold frames. rewrite E. rewrite insert_take_drop by eauto using lookup_lt_Some.
  rewrite <- (take_drop_middle _ _ _ Hq) at 3. rewrite !bind_app. cbn.
  rewrite <- !app_assoc. f_equiv.
  rewrite (Permutation_app_comm _ (sk_list q)), (Permutation_app_comm _ (sk_list q')), !app_assoc.
  f_equiv. apply Permutation_app_comm.
Qed.

Section Config.
Context (plat : rwnx_plat) (stas : list rwnx_sta) (vifs : list rwnx_vif).
#[local] Abbreviation txq_ok := (txq_ok plat stas vifs).
#[local] Abbreviation inv := (inv plat stas vifs).
#[local] Abbreviation mc_ps_ok := (mc_ps_ok plat).
#[local] Abbreviation waiting_ok := (waiting_ok vifs).

Lemma txq_exists X Q hw t : inv X Q hw -> (t < Z.to_nat NX_NB_TXQ)%nat -> exists q, txq hw !! t = Some q.
Proof. intros H Ht. apply lookup_lt_is_Some_2. now rewrite (l_ntxq _ (i_linked _ _ _ _ _ _ H)). Qed.

Lemma hwq_exists X Q hw h : inv X Q hw -> (h < 5)%nat -> exists q, hwq hw !! h = Some q /\ hwq_id q = h.
Proof.
  intros H Hh. destruct (lookup_lt_is_Some_2 (hwq hw) h) as [q Hq].
  { now rewrite (l_nhwq _ (i_linked _ _ _ _ _ _ H)). }
  exists q. split; [done|]. eapply l_id; [apply H|done].
Qed.

Lemma sta_exists X Q hw s st : inv X Q hw -> stas !! s = Some st ->
  exists st', sta_table hw !! s = Some st' /\ strip st' = st.
Proof.
  intros H Hs. rewrite <- (i_stas _ _ _ _ _ _ H), list_lookup_fmap in Hs.
  destruct (sta_table hw !! s) eqn:E; [|done]. exists r. now simplify_eq/=.
Qed.

Lemma sta_static X Q hw s st : inv X Q hw -> sta_table hw !! s = Some st -> stas !! s = Some (strip st).
Proof. intros H Hs. now rewrite <- (i_stas _ _ _ _ _ _ H), list_lookup_fmap, Hs. Qed.

(** A queue that is linked to a hardware queue. *)
Lemma txq_hwq_ok X Q hw t q h : inv X Q hw -> txq hw !! t = Some q -> txq_hwq q = Some h ->
  exists hq, hwq hw !! h = Some hq /\ hwq_id hq = h /\ (h < 5)%nat.
Proof.
  intros H Hq Hh. pose proof (q_hwq _ _ _ _ _ _ (i_txq _ _ _ _ _ _ H _ _ Hq)) as Hok.
  rewrite Hh in Hok. destruct Hok as [Hok _]. destruct (hwq_exists _ _ _ _ H Hok) as (hq & ? & ?). eauto.
Qed.

(** ** Replacing a queue *)

Lemma linked_set hw hw' t q q' : linked hw -> txq hw !! t = Some q -> txq hw' = <[t := q']> (txq hw) ->
  hwq hw' = hwq hw -> rwnx_txq_is_scheduled q' = rwnx_txq_is_scheduled q -> txq_hwq q' = txq_hwq q -> linked hw'.
Proof.
  intros [L1 L2 L3 L4 L5] Hq Et Eh Hs Hh. split; rewrite ?Eh.
  - now rewrite Et, length_insert.
  - done.
  - done.
  - done.
  - intros h hq u Hh'. rewrite (L5 h hq u Hh'). split.
    + intros (x & Hx & Hx1 & Hx2). destruct (decide (u = t)) as [->|Hn].
      * exists q'. split; [eauto using txq_insert_lookup|]. simplify_eq. now rewrite Hs, Hh.
      * exists x. rewrite Et, list_lookup_insert_ne by done. done.
    + intros (x & Hx & Hx1 & Hx2).
      destruct (txq_insert_inv _ _ _ _ _ _ _ Hq Et Hx) as [[-> ->]|[Hn Hx']]; [exists q|exists x]; repeat split; try done;
        congruence.
Qed.

Lemma waiting_set hw hw' t q q' k : txq hw !! t = Some q -> txq hw' = <[t := q']> (txq hw) ->
  (txq_hwq q <> None -> txq_hwq q' <> None) -> (sw_txq k = t -> txq_sta q' = txq_sta q) ->
  waiting_ok hw k -> waiting_ok hw' k.
Proof.
  intros Hq Et Hh Hs (x & Hx & Hx1 & Hx2 & Hx3). destruct (decide (sw_txq k = t)) as [E|E].
  - exists q'. rewrite E in *. simplify_eq. split; [eauto using txq_insert_lookup|].
    split; [auto|]. split; [|done]. now rewrite Hs.
  - exists x. now rewrite Et, list_lookup_insert_ne by done.
Qed.

(** The same focus away from [t]. *)
Definition focus_at (t : nat) (X X' : focus) : Prop :=
  forall u, u <> t -> xP X' u = xP X u /\ xd X' u = xd X u /\ (focused X u -> focused X' u).

Lemma focus_at_refl t X : focus_at t X X.
Proof. done. Qed.
Lemma focus_at_some t P d P' d' : focus_at t (Some (t, P, d)) (Some (t, P', d')).
Proof. intros u Hu. cbn. repeat case_decide; naive_solver. Qed.
Lemma focus_at_open t P d : focus_at t None (Some (t, P, d)).
Proof. intros u Hu. cbn. repeat case_decide; naive_solver. Qed.
Lemma focus_at_close t P d : focus_at t (Some (t, P, d)) None.
Proof. intros u Hu. cbn. repeat case_decide; naive_solver. Qed.

Lemma txq_ok_focus X X' t u q : focus_at t X X' -> u <> t -> txq_ok X u q -> txq_ok X' u q.
Proof.
  intros HX Hu [A B C D E F G H]. destruct (HX u Hu) as (EP & Ed & Ef).
  split; unfold line in *; rewrite ?EP, ?Ed; try done. intros H1 H2. destruct (F H1 H2); auto.
Qed.

(** The counters after replacing queue [t], for stations of other queues. *)
Lemma mc_ps_set X X' hw hw' t q q' : mc_ps_ok X hw -> txq hw !! t = Some q -> txq hw' = <[t := q']> (txq hw) ->
  focus_at t X X' ->
  (forall s st', sta_table hw' !! s = Some st' -> is_multicast_sta plat (sta_idx st') = true ->
     active (ps st') = true ->
     (rwnx_txq_sta_get plat st' 0 <> t -> sta_table hw !! s = Some st') /\
     (rwnx_txq_sta_get plat st' 0 = t ->
        txq_hwq q' <> None /\ uapsd (pkt_ready (ps st')) = 0 /\
        (idx q' <> TXQ_INACTIVE -> txq_sta q' = Some s /\
           legacy (pkt_ready (ps st')) = Z.of_nat (length (line X' t q')) + xd X' t))) ->
  mc_ps_ok X' hw'.
Proof.
  intros H Hq Et HX Hst s st x Hs Hm Ha Hx. destruct (Hst s st Hs Hm Ha) as [H1 H2].
  destruct (txq_insert_inv _ _ _ _ _ _ _ Hq Et Hx) as [[Hu ->]|[Hn Hx']].
  - rewrite Hu. now apply H2.
  - specialize (H s st x (H1 Hn) Hm Ha Hx'). destruct (HX _ Hn) as (EP & Ed & _).
    unfold line in *. now rewrite EP, Ed.
Qed.

Lemma inv_set X X' Q Q' hw hw' t q q' : inv X Q hw -> txq hw !! t = Some q -> txq hw' = <[t := q']> (txq hw) ->
  linked hw' -> length (tx_host_id (usb_env hw')) = Z.to_nat USB_TXDESC_CNT ->
  length (cfm_balance hw') = 5%nat -> strip <$> sta_table hw' = strip <$> sta_table hw -> vif_table hw' = vif_table hw ->
  focus_at t X X' -> txq_ok X' t q' -> (forall k, k ∈ ring_frames hw' -> waiting_ok hw' k) ->
  all_ids X' hw' ≡ₚ Q' -> NoDup Q' -> mc_ps_ok X' hw' -> inv X' Q' hw'.
Proof.
  intros H Hq Et Hl Er Eb Es Ev HX Hok Hw Hid HQ Hps. split; try done.
  - rewrite Es. apply H.
  - rewrite Ev. apply H.
  - intros u x Hx. destruct (txq_insert_inv _ _ _ _ _ _ _ Hq Et Hx) as [[-> ->]|[Hn Hx']]; [done|].
    eapply txq_ok_focus; [done..|]. eapply i_txq; eauto.
Qed.

(** Changing fields of a queue other than its frames, list and owner. *)
Definition txq_like (q q' : rwnx_txq) : Prop :=
  txq_hwq q' = txq_hwq q /\ txq_sta q' = txq_sta q /\ sk_list q' = sk_list q /\ idx q' = idx q /\ ps_id q' = ps_id q.

Lemma all_ids_set X hw hw' t q q' : txq hw !! t = Some q -> txq hw' = <[t := q']> (txq hw) ->
  sk_list q' = sk_list q -> usb_env hw' = usb_env hw -> ev hw' ≫= gone = ev hw ≫= gone ->
  all_ids X hw' ≡ₚ all_ids X hw.
Proof.
  intros Hq Et Es Eu Ee. unfold all_ids, ring_frames. rewrite Eu, Ee. do 2 f_equiv. apply fmap_Permutation.
  pose proof (frames_insert _ _ _ _ _ Hq Et) as HP. rewrite Es in HP. now apply Permutation_app_inv_r in HP.
Qed.

Lemma inv_relink X Q hw hw' t q q' : inv X Q hw -> txq hw !! t = Some q -> txq hw' = <[t := q']> (txq hw) ->
  linked hw' -> usb_env hw' = usb_env hw -> length (cfm_balance hw') = 5%nat ->
  sta_table hw' = sta_table hw -> vif_table hw' = vif_table hw -> ev hw' ≫= gone = ev hw ≫= gone ->
  txq_like q q' -> txq_ok X t q' -> inv X Q hw'.
Proof.
  intros H Hq Et Hl Eu Eb Es Ev Ee (L2 & L3 & L4 & L5 & L6) Hok.
  eapply (inv_set X X Q Q hw hw'); eauto; try (rewrite ?Eu, ?Es; apply H).
  - now rewrite Es.
  - apply focus_at_refl.
  - intros k. unfold ring_frames. rewrite Eu. intros Hk. eapply waiting_set; eauto; [congruence|].
    eapply i_wait; eauto.
  - etrans; [eapply all_ids_set; eauto|apply H].
  - eapply mc_ps_set; eauto using focus_at_refl; [apply H|]. intros s st Hs Hm Ha. split; [now rewrite <- Es|].
    intros <-. rewrite Es in Hs. destruct (i_ps _ _ _ _ _ _ H s st q Hs Hm Ha Hq) as (A & B & C).
    rewrite L2, L5, L3. unfold line in *. now rewrite L4.
Qed.

Lemma inv_like X Q hw hw' t q q' : inv X Q hw -> txq hw !! t = Some q -> txq hw' = <[t := q']> (txq hw) ->
  hwq hw' = hwq hw -> usb_env hw' = usb_env hw -> length (cfm_balance hw') = 5%nat ->
  sta_table hw' = sta_table hw -> vif_table hw' = vif_table hw -> ev hw' ≫= gone = ev hw ≫= gone ->
  rwnx_txq_is_scheduled q' = rwnx_txq_is_scheduled q -> txq_like q q' -> txq_ok X t q' -> inv X Q hw'.
Proof.
  intros H Hq Et Eh Eu Eb Es Ev Ee Hs HL Hok. eapply inv_relink; eauto.
  eapply linked_set; eauto; [apply H|apply HL].
Qed.

(** [ev], [tbusy] and [usb_down] are not constrained. *)
Lemma inv_same X Q hw hw' : inv X Q hw -> txq hw' = txq hw -> hwq hw' = hwq hw -> usb_env hw' = usb_env hw ->
  length (cfm_balance hw') = 5%nat -> sta_table hw' = sta_table hw -> vif_table hw' = vif_table hw ->
  ev hw' ≫= gone = ev hw ≫= gone -> inv X Q hw'.
Proof.
  intros H Et Eh Eu Eb Es Ev Ee. destruct hw, hw'. cbn in *. subst.
  destruct H as [[L1 L2 L3 L4 L5] B C D E F G I J K].
  split; try done. unfold all_ids in *. cbn in *. now rewrite Ee.
Qed.

Lemma inv_log X Q hw e : inv X Q hw -> gone e = [] -> inv X Q (log e hw).
Proof.
  intros H He. eapply inv_same; [exact H|..]; try done; [apply H|]. cbn. rewrite bind_app. cbn.
  rewrite He. now rewrite !app_nil_r.
Qed.

(** ** Focusing a queue *)

Lemma inv_open Q hw t : inv None Q hw -> inv (Some (t, [], 0)) Q hw.
Proof.
  intros H. destruct H as [A B C D E F G I J K]. split; try done.
  - intros u q Hq. destruct (F u q Hq) as [F1 F2 F3 F4 F5 F6 F7 F8].
    split; unfold line in *; cbn in *; repeat case_decide; auto; try lia.
    intros H1 H2. right. destruct (F6 H1 H2); done.
  - intros s st q Hs Hm Ha Hq. destruct (K s st q Hs Hm Ha Hq) as (K1 & K2 & K3).
    unfold line in *. cbn in *. repeat case_decide; auto.
Qed.

Lemma inv_close Q hw t : inv (Some (t, [], 0)) Q hw ->
  (forall q, txq hw !! t = Some q -> rwnx_txq_is_scheduled q = true -> idx q <> TXQ_INACTIVE -> sk_list q <> []) ->
  inv None Q hw.
Proof.
  intros H Hc. destruct H as [A B C D E F G I J K]. split; try done.
  - intros u q Hq. destruct (F u q Hq) as [F1 F2 F3 F4 F5 F6 F7 F8].
    split; unfold line in *; cbn in *; repeat case_decide; auto; try lia.
    + intros H1 H2. subst. right. eauto.
    + intros H1 H2. destruct (F6 H1 H2); [done|now right].
  - intros s st q Hs Hm Ha Hq. destruct (K s st q Hs Hm Ha Hq) as (K1 & K2 & K3).
    unfold line in *. cbn in *. repeat case_decide; auto.
Qed.

End Config.
End Prim.

Module Sched.
Import Spec Prim.

(** Only the status of queues in [T] may have changed. *)
Record status_only (T : nat -> Prop) (hw hw' : rwnx_hw) : Prop := {
  so_txq u q : txq hw !! u = Some q ->
    exists s, txq hw' !! u = Some (q <| status := s |>) /\ (~ T u -> s = status q);
  so_sta : sta_table hw' = sta_table hw;
  so_env : usb_env hw' = usb_env hw;
  so_ev : ev hw' = ev hw;
  so_frames : frames hw' = frames hw
}.

Lemma status_eta q : q <| status := status q |> = q.
Proof. now destruct q. Qed.

Lemma frames_status hw hw' t q s : txq hw !! t = Some q -> txq hw' = <[t := q <| status := s |>]> (txq hw) ->
  frames hw' = frames hw.
Proof.
  intros Hq E. unfold frames. rewrite E, insert_take_drop by eauto using lookup_lt_Some.
  rewrite <- (take_drop_middle _ _ _ Hq) at 3. now rewrite !bind_app.
Qed.

Lemma status_only_insert t hw hw' q s : txq hw !! t = Some q -> txq hw' = <[t := q <| status := s |>]> (txq hw) ->
  sta_table hw' = sta_table hw -> usb_env hw' = usb_env hw -> ev hw' = ev hw -> status_only (eq t) hw hw'.
Proof.
  intros Hq E H1 H2 H3. split; try done; [|eauto using frames_status].
  intros u x Hx. destruct (decide (t = u)) as [<-|Hn].
  - exists s. split; [|done]. simplify_eq. eauto using txq_insert_lookup.
  - exists (status x). split; [|done]. rewrite E, list_lookup_insert_ne by done. now rewrite status_eta.
Qed.

Lemma status_only_refl T hw : status_only T hw hw.
Proof. split; try done. intros u q Hq. exists (status q). split; [|done]. now rewrite status_eta. Qed.

Lemma status_only_trans T a b c : status_only T a b -> status_only T b c -> status_only T a c.
Proof.
  intros H1 H2. split; [|etrans; [apply H2|apply H1]..].
  intros u q Hq. destruct (so_txq _ _ _ H1 u q Hq) as (s1 & Hs1 & E1).
  destruct (so_txq _ _ _ H2 u _ Hs1) as (s2 & Hs2 & E2).
  exists s2. split; [done|]. intros HT. rewrite E2 by done. now apply E1.
Qed.

Lemma status_only_keeps T X hw hw' : status_only T hw hw' -> keeps T X X hw hw'.
Proof.
  intros H u q Hq. destruct (so_txq _ _ _ H u q Hq) as (s & Hs & E).
  eexists. split; [exact Hs|]. repeat split; try done.
  - intros HT. unfold rwnx_txq_is_scheduled. cbn. now rewrite E.
  - intros _. unfold history, pushed, line. cbn. now rewrite (so_ev _ _ _ H).
Qed.

Section Config.
Context (plat : rwnx_plat) (stas : list rwnx_sta) (vifs : list rwnx_vif).
#[local] Abbreviation txq_ok := (txq_ok plat stas vifs).
#[local] Abbreviation inv := (inv plat stas vifs).

(** A queue keeps its own invariant when only its status changes. *)
Lemma txq_ok_status X t q s : txq_ok X t q ->
  (txq_hwq q = None -> has s RWNX_TXQ_IN_HWQ_LIST = false) ->
  (has s RWNX_TXQ_IN_HWQ_LIST = true -> idx q <> TXQ_INACTIVE -> focused X t \/ sk_list q <> []) ->
  txq_ok X t (q <| status := s |>).
Proof.
  intros [A B C D E F G H] Hn Hs. split; try done.
  cbn. destruct (txq_hwq q); [done|]. destruct A as (A1 & A2 & A3). repeat split; try done. now apply Hn.
Qed.

Lemma unscheduled_not_in hw t q h hq : linked hw -> txq hw !! t = Some q -> rwnx_txq_is_scheduled q = false ->
  hwq hw !! h = Some hq -> t ∉ hwq_list hq.
Proof. intros L Hq Hs Hh Hin. apply (l_list _ L _ _ _ Hh) in Hin as (x & ? & ? & ?). congruence. Qed.

Lemma linked_add hw t q h hq : linked hw -> txq hw !! t = Some q -> rwnx_txq_is_scheduled q = false ->
  txq_hwq q = Some h -> hwq hw !! h = Some hq ->
  linked (upd_hwq h (fun h => h <| hwq_list ::= fun l => l ++ [t] |> <| need_processing := true |>)
            (upd_txq t (fun q => q <| status ::= fun s => setf s RWNX_TXQ_IN_HWQ_LIST |>) hw)).
Proof.
  intros L Hq Hs Hh Hhq. pose proof (unscheduled_not_in _ _ _ _ _ L Hq Hs Hhq) as Hni.
  assert (forall h' x, hwq (upd_hwq h (fun h => h <| hwq_list ::= fun l => l ++ [t] |> <| need_processing := true |>)
            (upd_txq t (fun q => q <| status ::= fun s => setf s RWNX_TXQ_IN_HWQ_LIST |>) hw)) !! h' = Some x ->
          (h' = h /\ x = hq <| hwq_list ::= fun l => l ++ [t] |> <| need_processing := true |>) \/
          (h' <> h /\ hwq hw !! h' = Some x)) as Hcase.
  { intros h' x. cbn. destruct (decide (h' = h)) as [->|Hn].
    - rewrite list_lookup_alter_eq, Hhq. intros [= <-]. now left.
    - rewrite list_lookup_alter_ne by done. now right. }
  split.
  - cbn. rewrite length_alter. apply L.
  - cbn. rewrite length_alter. apply L.
  - intros h' x Hx. destruct (Hcase _ _ Hx) as [[-> ->]|[Hn Hx']]; [apply (l_id _ L _ _ Hhq)|eapply l_id; eauto].
  - intros h' x Hx. destruct (Hcase _ _ Hx) as [[-> ->]|[Hn Hx']]; [|eapply l_nodup; eauto].
    cbn. apply NoDup_app. split; [eapply l_nodup; eauto|]. split; [|apply NoDup_singleton].
    intros u Hu ->%list_elem_of_singleton. done.
  - intros h' x u Hx.
    assert (forall u, txq (upd_hwq h (fun h => h <| hwq_list ::= fun l => l ++ [t] |> <| need_processing := true |>)
            (upd_txq t (fun q => q <| status ::= fun s => setf s RWNX_TXQ_IN_HWQ_LIST |>) hw)) !! u =
            if decide (u = t) then Some (q <| status ::= fun s => setf s RWNX_TXQ_IN_HWQ_LIST |>) else txq hw !! u) as Hlk.
    { intros v. cbn. case_decide as Hv; [subst; now rewrite list_lookup_alter_eq, Hq|].
      now rewrite list_lookup_alter_ne by done. }
    setoid_rewrite Hlk. destruct (decide (u = t)) as [->|Hu].
    + destruct (Hcase _ _ Hx) as [[-> ->]|[Hn Hx']].
      * split; [intros _|intros _; cbn; set_solver].
        eexists. split; [done|]. split; [|done]. unfold rwnx_txq_is_scheduled. cbn. rewrite sched_setf.
        apply orb_true_r.
      * split.
        -- intros Hin. destruct (unscheduled_not_in _ _ _ _ _ L Hq Hs Hx' Hin).
        -- intros (y & [= <-] & _ & Hy). cbn in Hy. congruence.
    + destruct (Hcase _ _ Hx) as [[-> ->]|[Hn Hx']]; [|now apply l_list].
      cbn. rewrite elem_of_app, list_elem_of_singleton. rewrite (l_list _ L _ _ _ Hhq). tauto.
Qed.

Lemma inv_add X Q hw t q : inv X Q hw -> txq hw !! t = Some q -> txq_hwq q <> None ->
  (idx q <> TXQ_INACTIVE -> focused X t \/ sk_list q <> []) ->
  exists hw', rwnx_txq_add_to_hw_list t hw = Ok hw' /\ inv X Q hw' /\ status_only (eq t) hw hw'.
Proof.
  intros H Hq Hh Hr. unfold rwnx_txq_add_to_hw_list. rewrite (get_txq_ok _ _ _ Hq). cbn [mbind res_bind].
  destruct (has (status q) RWNX_TXQ_IN_HWQ_LIST) eqn:Hs; cbn [negb].
  { exists hw. eauto using status_only_refl. }
  destruct (txq_hwq q) as [h|] eqn:Eh; [|done].
  destruct (txq_hwq_ok _ _ _ _ _ _ _ _ _ H Hq Eh) as (hq & Hhq & _).
  cbn. unfold get_hwq. cbn. rewrite Hhq. cbn. eexists. split; [reflexivity|].
  pose proof (upd_txq_insert t (fun q => q <| status ::= fun s => setf s RWNX_TXQ_IN_HWQ_LIST |>) hw q Hq) as Et.
  split.
  - eapply inv_relink; [exact H|exact Hq|exact Et|..]; try done.
    + eapply linked_add; eauto. apply H.
    + apply H.
    + apply txq_ok_status; [eapply i_txq; eauto|congruence|]. intros _. apply Hr.
  - eapply status_only_insert; [exact Hq|exact Et|done..].
Qed.

Lemma linked_del hw t q : linked hw -> txq hw !! t = Some q ->
  linked (list_del t (upd_txq t (fun q => q <| status ::= fun s => clrf s RWNX_TXQ_IN_HWQ_LIST |>) hw)).
Proof.
  intros L Hq. split.
  - cbn. rewrite length_alter. apply L.
  - cbn. rewrite length_fmap. apply L.
  - intros h x. cbn. rewrite list_lookup_fmap. destruct (hwq hw !! h) eqn:E; [|done]. intros [= <-]. cbn.
    eapply l_id; eauto.
  - intros h x. cbn. rewrite list_lookup_fmap. destruct (hwq hw !! h) eqn:E; [|done]. intros [= <-]. cbn.
    apply NoDup_filter. eapply l_nodup; eauto.
  - intros h x u. cbn. rewrite list_lookup_fmap. destruct (hwq hw !! h) eqn:E; [|done]. intros [= <-]. cbn.
    rewrite list_elem_of_filter. destruct (decide (u = t)) as [->|Hn].
    + rewrite list_lookup_alter_eq, Hq. split; [now intros [? _]|].
      intros (y & [= <-] & Hy & _). unfold rwnx_txq_is_scheduled in Hy. cbn in Hy.
      rewrite has_clrf_same in Hy. done.
    + rewrite list_lookup_alter_ne by done. rewrite (l_list _ L _ _ _ E). tauto.
Qed.

Lemma inv_del X Q hw t q : inv X Q hw -> txq hw !! t = Some q ->
  exists hw', rwnx_txq_del_from_hw_list t hw = Ok hw' /\ inv X Q hw' /\ status_only (eq t) hw hw' /\
    (forall q', txq hw' !! t = Some q' -> rwnx_txq_is_scheduled q' = false) /\
    hwq_list <$> hwq hw' = filter (fun t' => t' <> t) <$> (hwq_list <$> hwq hw).
Proof.
  intros H Hq. unfold rwnx_txq_del_from_hw_list. rewrite (get_txq_ok _ _ _ Hq). cbn [mbind res_bind].
  destruct (has (status q) RWNX_TXQ_IN_HWQ_LIST) eqn:Hs.
  - eexists. split; [reflexivity|].
    pose proof (upd_txq_insert t (fun q => q <| status ::= fun s => clrf s RWNX_TXQ_IN_HWQ_LIST |>) hw q Hq) as Et.
    split_and!.
    + eapply inv_relink; [exact H|exact Hq|exact Et|..]; try done.
      * eapply linked_del; eauto. apply H.
      * apply H.
      * apply txq_ok_status; [eapply i_txq; eauto|intros _; apply has_clrf_same|]. now rewrite has_clrf_same.
    + eapply status_only_insert; [exact Hq|exact Et|done..].
    + intros q' Hq'. cbn in Hq'. rewrite list_lookup_alter_eq, Hq in Hq'. injection Hq' as <-. apply has_clrf_same.
    + cbn. rewrite <- !list_fmap_compose. done.
  - exists hw. split_and!; eauto using status_only_refl.
    + intros q' Hq'. now simplify_eq.
    + symmetry. apply list_eq. intros i. rewrite !list_lookup_fmap. destruct (hwq hw !! i) as [hq|] eqn:E; [|done].
      cbn. f_equal. apply list_filter_all. apply Forall_forall. intros u Hu ->.
      eapply unscheduled_not_in; [apply H|..]; eauto.
Qed.

Lemma inv_start X Q hw t q reason : inv X Q hw -> txq hw !! t = Some q -> has reason RWNX_TXQ_IN_HWQ_LIST = false ->
  exists hw', rwnx_txq_start t reason hw = Ok hw' /\ inv X Q hw' /\ status_only (eq t) hw hw'.
Proof.
  intros H Hq Hr. unfold rwnx_txq_start. rewrite (get_txq_ok _ _ _ Hq). cbn [mbind res_bind].
  destruct (idx q =? TXQ_INACTIVE) eqn:Ei, (has (status q) reason) eqn:Es; cbn [negb andb];
    try by (exists hw; eauto using status_only_refl).
  set (q' := q <| status ::= fun s => clrf s reason |>).
  set (hw1 := upd_txq t (fun _ => q') hw).
  pose proof (upd_txq_insert t (fun _ => q') hw q Hq) as Et.
  assert (txq hw1 !! t = Some q') as Hq1 by (eapply txq_insert_lookup; eauto).
  assert (txq_ok X t q') as Hok.
  { pose proof (i_txq _ _ _ _ _ _ H _ _ Hq) as Hok. apply txq_ok_status; [done|..]; rewrite sched_clrf by done.
    - intros Hn. pose proof (q_hwq _ _ _ _ _ _ Hok) as Hh. rewrite Hn in Hh. apply Hh.
    - apply Hok. }
  assert (inv X Q hw1) as H1.
  { eapply inv_like; [exact H|exact Hq|exact Et|..]; try done; [apply H|].
    unfold rwnx_txq_is_scheduled. cbn. now apply sched_clrf. }
  assert (status_only (eq t) hw hw1) as S1 by (eapply status_only_insert; [exact Hq|exact Et|done..]).
  destruct (negb (rwnx_txq_is_stopped q') && rwnx_txq_skb_ready q') eqn:Ea; [|exists hw1; eauto].
  apply andb_true_iff in Ea as [_ Ea].
  assert (sk_list q <> []) as Hne by (unfold rwnx_txq_skb_ready in Ea; cbn in Ea; now destruct (sk_list q)).
  destruct (inv_add X Q hw1 t q' H1 Hq1) as (hw2 & E2 & H2 & S2).
  - pose proof (q_hwq _ _ _ _ _ _ Hok) as Hh. cbn in *. destruct (txq_hwq q); [done|].
    destruct Hh as (Hi & _). apply Z.eqb_neq in Ei. done.
  - intros _. now right.
  - exists hw2. eauto using status_only_trans.
Qed.

Lemma inv_stop X Q hw t q reason : inv X Q hw -> txq hw !! t = Some q -> has reason RWNX_TXQ_IN_HWQ_LIST = false ->
  exists hw', rwnx_txq_stop t reason hw = Ok hw' /\ inv X Q hw' /\ status_only (eq t) hw hw'.
Proof.
  intros H Hq Hr. unfold rwnx_txq_stop. rewrite (get_txq_ok _ _ _ Hq). cbn [mbind res_bind].
  destruct (idx q =? TXQ_INACTIVE) eqn:Ei; cbn [negb]; [exists hw; eauto using status_only_refl|].
  pose proof (upd_txq_insert t (fun q => q <| status ::= fun s => u8 (setf s reason) |>) hw q Hq) as Et.
  set (hw1 := upd_txq t _ hw) in *. set (q' := q <| status ::= fun s => u8 (setf s reason) |>) in *.
  assert (rwnx_txq_is_scheduled q' = rwnx_txq_is_scheduled q) as Es.
  { unfold rwnx_txq_is_scheduled. cbn. rewrite sched_u8, sched_setf, Hr. apply orb_false_r. }
  assert (inv X Q hw1) as H1.
  { eapply inv_like; [exact H|exact Hq|exact Et|..]; try done; [apply H|].
    pose proof (i_txq _ _ _ _ _ _ H _ _ Hq) as Hok. unfold rwnx_txq_is_scheduled in Es. cbn in Es.
    apply txq_ok_status; [done|..]; rewrite Es.
    - intros Hn. pose proof (q_hwq _ _ _ _ _ _ Hok) as Hh. rewrite Hn in Hh. apply Hh.
    - apply Hok. }
  destruct (inv_del X Q hw1 t q' H1) as (hw2 & E2 & H2 & S2 & _); [eapply txq_insert_lookup; eauto|].
  exists hw2. split; [done|]. split; [done|]. eapply status_only_trans; [|done].
  eapply status_only_insert; [exact Hq|exact Et|done..].
Qed.

(** ** Loops over the queues of a station *)

Context (Hc : config_ok stas vifs).

Lemma sta_range s st X Q hw : inv X Q hw -> sta_table hw !! s = Some st ->
  sta_idx st = Z.of_nat s /\ 0 <= vif_idx st < NX_VIRT_DEV_MAX /\ (Z.to_nat (vif_idx st) < length vifs)%nat.
Proof. intros H Hs. apply (c_sta _ _ Hc s (strip st)). eapply sta_static; eauto. Qed.

Lemma sta_txq_range s st X Q hw tid : inv X Q hw -> sta_table hw !! s = Some st -> 0 <= tid < NX_NB_TXQ_PER_STA ->
  (rwnx_txq_sta_get plat st tid < Z.to_nat NX_NB_TXQ)%nat.
Proof.
  intros H Hs Ht. destruct (sta_range _ _ _ _ _ H Hs) as (E1 & E2 & _).
  unfold rwnx_txq_sta_get, rwnx_txq_sta_idx, is_multicast_sta. rewrite E1.
  unfold NX_NB_TXQ, NX_FIRST_VIF_TXQ_IDX, NX_FIRST_VIF_TXQ_IDX_FOR_OLD_IC, NX_REMOTE_STA_MAX,
    NX_REMOTE_STA_MAX_FOR_OLD_IC, NX_VIRT_DEV_MAX, NX_NB_TXQ_PER_STA, NX_NB_TID_PER_STA, NX_NB_TXQ_PER_VIF in *.
  repeat case_match; lia.
Qed.

Lemma sta_txqs_range s st X Q hw tt : inv X Q hw -> sta_table hw !! s = Some st -> tt ∈ sta_txqs plat st ->
  (tt.1 < Z.to_nat NX_NB_TXQ)%nat /\ 0 <= tt.2 < NX_NB_TXQ_PER_STA /\ tt.1 = rwnx_txq_sta_get plat st tt.2 /\
  tt.1 = (rwnx_txq_sta_get plat st 0 + Z.to_nat tt.2)%nat.
Proof.
  intros H Hs (i & -> & Hi)%list_elem_of_fmap. apply elem_of_seq in Hi. cbn.
  assert (0 <= Z.of_nat i < NX_NB_TXQ_PER_STA) as Hr.
  { unfold NX_NB_TXQ_PER_STA, NX_NB_TID_PER_STA in *. case_match; lia. }
  assert ((rwnx_txq_sta_get plat st 0 + i)%nat = rwnx_txq_sta_get plat st (Z.of_nat i)) as E.
  { destruct (sta_range _ _ _ _ _ H Hs) as (E1 & E2 & _).
    unfold rwnx_txq_sta_get, rwnx_txq_sta_idx in *. rewrite E1 in *.
    replace (NX_NB_TXQ_PER_STA <=? Z.of_nat i) with false by (symmetry; apply Z.leb_gt; lia).
    replace (NX_NB_TXQ_PER_STA <=? 0) with false by done.
    destruct (is_multicast_sta plat (Z.of_nat s)); [|unfold NX_NB_TXQ_PER_STA, NX_NB_TID_PER_STA in *; lia].
    assert (i = O) as -> by lia. apply Nat.add_0_r. }
  rewrite E, Nat2Z.id. split; [eapply sta_txq_range; eauto|]. auto.
Qed.

Lemma inv_foreach (body : nat -> Z -> rwnx_hw -> res rwnx_hw) (R : rwnx_hw -> Prop) s st X Q hw :
  inv X Q hw -> sta_table hw !! s = Some st -> R hw ->
  (forall t tid hw', (t < Z.to_nat NX_NB_TXQ)%nat -> inv X Q hw' -> R hw' ->
     exists hw2, body t tid hw' = Ok hw2 /\ inv X Q hw2 /\ R hw2) ->
  exists hw', foreach_sta_txq plat st body hw = Ok hw' /\ inv X Q hw' /\ R hw'.
Proof.
  intros H Hs HR Hb. unfold foreach_sta_txq.
  apply (foldM_inv (fun hw' => inv X Q hw' /\ R hw')); [done|]. intros [t tid] h Hin [Hh HRh]. cbn.
  apply Hb; [|done..]. destruct (sta_txqs_range _ _ _ _ _ _ H Hs Hin) as (Hlt & _). exact Hlt.
Qed.

(** Both [rwnx_txq_sta_start] and [rwnx_txq_sta_stop]. *)
Lemma inv_sta_each (f : nat -> Z -> rwnx_hw -> res rwnx_hw) reason X Q hw s st : inv X Q hw -> stas !! s = Some st ->
  (forall t q hw', inv X Q hw' -> txq hw' !! t = Some q ->
     exists hw2, f t reason hw' = Ok hw2 /\ inv X Q hw2 /\ status_only (eq t) hw' hw2) ->
  exists hw', (sta ← get_sta s hw; foreach_sta_txq plat sta (fun t _ => f t reason) hw) = Ok hw' /\ inv X Q hw' /\
    status_only (fun _ => True) hw hw'.
Proof.
  intros H Hs Hf. destruct (sta_exists _ _ _ _ _ _ _ _ H Hs) as (st' & Hst & _).
  rewrite (get_sta_ok _ _ _ Hst). cbn.
  eapply (inv_foreach _ (status_only (fun _ => True) hw)); eauto using status_only_refl.
  intros t tid h Hlt Hh HR. destruct (txq_exists _ _ _ _ _ _ _ Hh Hlt) as [q Hq].
  destruct (Hf t q h Hh Hq) as (h' & E & ? & S). exists h'. split; [done|]. split; [done|].
  eapply status_only_trans; [exact HR|]. destruct S as [S1 S2 S3 S4 S5]. split; try done.
  intros u x Hx. destruct (S1 u x Hx) as (s' & ? & ?). exists s'. split; [done|]. intros HT. now destruct HT.
Qed.

Lemma inv_sta_start X Q hw s st reason : inv X Q hw -> stas !! s = Some st ->
  has reason RWNX_TXQ_IN_HWQ_LIST = false ->
  exists hw', rwnx_txq_sta_start plat s reason hw = Ok hw' /\ inv X Q hw' /\ status_only (fun _ => True) hw hw'.
Proof. intros H Hs Hr. eapply (inv_sta_each rwnx_txq_start); eauto. intros t q h Hh Hq. eapply inv_start; eauto. Qed.

Lemma inv_sta_stop X Q hw s st reason : inv X Q hw -> stas !! s = Some st ->
  has reason RWNX_TXQ_IN_HWQ_LIST = false ->
  exists hw', rwnx_txq_sta_stop plat s reason hw = Ok hw' /\ inv X Q hw' /\ status_only (fun _ => True) hw hw'.
Proof. intros H Hs Hr. eapply (inv_sta_each rwnx_txq_stop); eauto. intros t q h Hh Hq. eapply inv_stop; eauto. Qed.

End Config.
End Sched.

Module Drain.
Import Spec Prim Sched.

(** ** Ring of frames waiting for a confirmation *)

Lemma txdesc_slot_lt i : (txdesc_slot i < Z.to_nat USB_TXDESC_CNT)%nat.
Proof. unfold txdesc_slot, USB_TXDESC_CNT. pose proof (Z.mod_pos_bound i 64). lia. Qed.

Lemma elem_of_ring_insert {A} (l : list (option A)) i (o : option A) k :
  k ∈ omap id (<[i := o]> l) -> o = Some k \/ k ∈ omap id l.
Proof.
  intros (x & Hx & E)%list_elem_of_omap. cbn in E. subst x.
  apply list_elem_of_lookup in Hx as [j Hj]. destruct (decide (j = i)) as [->|Hn].
  - destruct (decide (i < length l)%nat).
    + rewrite list_lookup_insert_eq in Hj by done. injection Hj as ->. now left.
    + rewrite list_insert_ge in Hj by lia. right. apply list_elem_of_omap. exists (Some k).
      split; [eapply list_elem_of_lookup_2; eauto|done].
  - rewrite list_lookup_insert_ne in Hj by done. right. apply list_elem_of_omap. exists (Some k).
    split; [eapply list_elem_of_lookup_2; eauto|done].
Qed.

(** ** Steps that only touch the counters of a station *)

Definition silent (e : event) : Prop := gone e = [] /\ forall t, pushed_of t e = [].

Lemma silent_bind {A} (f : event -> list A) evs : Forall (fun e => f e = []) evs -> evs ≫= f = [].
Proof. induction 1 as [|e l He Hl IH]; [done|]. cbn. now rewrite He, IH. Qed.

(** [g] applied to the counters of [o], if that station is in power save. *)
Record ps_step (o : option nat) (g : rwnx_sta_ps -> rwnx_sta_ps) (hw hw1 : rwnx_hw) : Prop := {
  pp_txq : txq hw1 = txq hw;
  pp_hwq : hwq hw1 = hwq hw;
  pp_vif : vif_table hw1 = vif_table hw;
  pp_env : usb_env hw1 = usb_env hw;
  pp_bal : cfm_balance hw1 = cfm_balance hw;
  pp_strip : strip <$> sta_table hw1 = strip <$> sta_table hw;
  pp_sta s st' : sta_table hw1 !! s = Some st' ->
    (o <> Some s -> sta_table hw !! s = Some st') /\
    exists st, sta_table hw !! s = Some st /\ strip st' = strip st /\ active (ps st') = active (ps st) /\
      (o = Some s -> active (ps st) = true -> ps st' = g (ps st));
  pp_ev : exists evs, ev hw1 = ev hw ++ evs /\ Forall silent evs
}.

Lemma ps_step_refl g hw : ps_step None g hw hw.
Proof.
  split; try done.
  - intros s st' Hs. split; [done|]. exists st'. done.
  - exists []. split; [now rewrite app_nil_r|done].
Qed.

Lemma ps_step_idle s st g hw : sta_table hw !! s = Some st -> active (ps st) = false -> ps_step (Some s) g hw hw.
Proof.
  intros Hs Ha. split; try done.
  - intros s' st' Hs'. split; [done|]. exists st'. repeat split; try done. intros [= ->]. congruence.
  - exists []. split; [now rewrite app_nil_r|done].
Qed.

Lemma ps_step_upd s st g hw hw1 evs : sta_table hw !! s = Some st -> active (g (ps st)) = active (ps st) ->
  hw1 = upd_ps s (fun _ => g (ps st)) hw <| ev ::= fun l => l ++ evs |> -> Forall silent evs ->
  ps_step (Some s) g hw hw1.
Proof.
  intros Hs Ha -> He. split; try done; [..|now exists evs].
  - apply list_eq. intros i. cbn. rewrite !list_lookup_fmap. destruct (decide (i = s)) as [->|Hn].
    + rewrite list_lookup_alter_eq, Hs. done.
    + now rewrite list_lookup_alter_ne by done.
  - intros s' st' Hs'. cbn in Hs'. destruct (decide (s' = s)) as [->|Hn].
    + rewrite list_lookup_alter_eq, Hs in Hs'. injection Hs' as <-. split; [congruence|]. exists st. done.
    + rewrite list_lookup_alter_ne in Hs' by done. split; [done|]. exists st'. repeat split; try done. congruence.
Qed.

Lemma ps_step_bind {A} o g hw hw1 (f : event -> list A) : ps_step o g hw hw1 ->
  (forall e, silent e -> f e = []) -> ev hw1 ≫= f = ev hw ≫= f.
Proof.
  intros H Hf. destruct (pp_ev _ _ _ _ H) as (evs & -> & He). rewrite bind_app, (silent_bind f evs), app_nil_r; [done|].
  eapply Forall_impl; eauto.
Qed.

Lemma upd_ps_nil s g hw : upd_ps s g hw <| ev ::= fun l => l ++ [] |> = upd_ps s g hw.
Proof. destruct hw. unfold upd_ps. cbn. now rewrite app_nil_r. Qed.

Definition sk_same (k k' : sk_buff) : Prop :=
  sk_id k' = sk_id k /\ sw_txq k' = sw_txq k /\ sw_sta k' = sw_sta k /\ sw_vif k' = sw_vif k /\ hw_queue k' = hw_queue k.

Definition ps_dec (p : Z) (x : rwnx_sta_ps) : rwnx_sta_ps :=
  x <| pkt_ready ::= ps_upd p (fun n => n - 1) |> <| sp_cnt ::= ps_upd p (fun n => n - 1) |>.
Definition ps_inc (p : Z) (x : rwnx_sta_ps) : rwnx_sta_ps := x <| pkt_ready ::= ps_upd p (fun n => n + 1) |>.

Lemma more_data_spec k s hw st q vif : sta_table hw !! s = Some st -> txq hw !! sw_txq k = Some q ->
  vif_table hw !! sw_vif k = Some vif ->
  exists k' hw1, rwnx_set_more_data_flag k s hw = Ok (k', hw1) /\ sk_same k k' /\ ps_step (Some s) (ps_dec (ps_id q)) hw hw1.
Proof.
  intros Hs Hq Hv. unfold rwnx_set_more_data_flag. rewrite (get_sta_ok _ _ _ Hs). cbn [mbind res_bind].
  destruct (active (ps st)) eqn:Ha; [|exists k, hw; split; [done|split; [done|eapply ps_step_idle; eauto]]].
  rewrite (get_vif_ok _ _ _ Hv), (get_txq_ok _ _ _ Hq). cbn [mbind res_bind].
  fold (ps_dec (ps_id q) (ps st)). unfold rwnx_set_traffic_status.
  assert (forall evs, Forall silent evs -> ps_step (Some s) (ps_dec (ps_id q)) hw
    (upd_ps s (fun _ => ps_dec (ps_id q) (ps st)) hw <| ev ::= fun l => l ++ evs |>)) as HP.
  { intros evs He. eapply ps_step_upd; eauto. }
  destruct (_ && _), (negb _); try destruct (tdls_active st); eexists _, _; (split; [reflexivity|]);
    (split; [done|]).
  all: try (apply (HP [EvTdlsTrafficInd (vif_idx st)]); by repeat constructor).
  all: try (apply (HP [EvTrafficInd (sta_idx st) (negb (ps_id q =? LEGACY_PS_ID)) false]); by repeat constructor).
  all: specialize (HP [] (Forall_nil_2 _)); rewrite upd_ps_nil in HP; exact HP.
Qed.

Lemma queue_ps_spec q hw : (forall s, txq_sta q = Some s -> is_Some (sta_table hw !! s)) ->
  exists hw1, queue_ps q hw = Ok hw1 /\ ps_step (txq_sta q) (ps_inc (ps_id q)) hw hw1.
Proof.
  intros Hs. unfold queue_ps. destruct (txq_sta q) as [s|]; [|exists hw; split; [done|apply ps_step_refl]].
  destruct (Hs s eq_refl) as [st Hst]. rewrite (get_sta_ok _ _ _ Hst). cbn [mbind res_bind].
  destruct (active (ps st)) eqn:Ha; [|exists hw; split; [done|eapply ps_step_idle; eauto]].
  fold (ps_inc (ps_id q) (ps st)). eexists. split; [reflexivity|]. unfold rwnx_set_traffic_status.
  assert (forall evs, Forall silent evs -> ps_step (Some s) (ps_inc (ps_id q)) hw
    (upd_ps s (fun _ => ps_inc (ps_id q) (ps st)) hw <| ev ::= fun l => l ++ evs |>)) as HP.
  { intros evs He. eapply ps_step_upd; eauto. }
  destruct (_ =? 1); [destruct (tdls_active st)|].
  - apply (HP [EvTdlsTrafficInd (vif_idx st)]). by repeat constructor.
  - apply (HP [EvTrafficInd (sta_idx st) (negb (ps_id q =? LEGACY_PS_ID)) true]). by repeat constructor.
  - specialize (HP [] (Forall_nil_2 _)). rewrite upd_ps_nil in HP. exact HP.
Qed.

(** ** Pushing a frame *)

Definition push_q (q : rwnx_txq) : rwnx_txq := push_count (push_retry 0 q).

Lemma push_q_like q : txq_like q (push_q q) /\ status (push_q q) = status q /\
  credits (push_q q) = credits q.
Proof. unfold push_q, push_count, push_retry, txq_like. cbn. repeat case_match; done. Qed.

Lemma push_q_limit q : 0 <= push_limit q ->
  push_limit (push_q q) = (if push_limit q =? 0 then 0 else push_limit q - 1).
Proof.
  intros Hl. unfold push_q, push_count, push_retry. cbn. repeat case_match; cbn in *; rewrite ?negb_true_iff, ?negb_false_iff in *;
    rewrite ?Z.eqb_eq, ?Z.eqb_neq in *; try congruence; lia.
Qed.

Lemma push_q_retry q k l : retry_ok (nb_retry q) (last_retry_skb q) (k :: l) ->
  retry_ok (nb_retry (push_q q)) (last_retry_skb (push_q q)) l.
Proof.
  intros [H1 H2].
  assert (nb_retry (push_q q) = nb_retry (push_retry 0 q) /\
          last_retry_skb (push_q q) = last_retry_skb (push_retry 0 q)) as [-> ->].
  { unfold push_q, push_count. cbn. now destruct (negb (push_limit _ =? 0)). }
  unfold push_retry, retry_ok in *. change (negb (has 0 RWNX_PUSH_RETRY)) with true. cbn in *. destruct (Z.eqb_spec (nb_retry q) 0) as [E|E]; cbn.
  - rewrite E. split; [lia|]. destruct (last_retry_skb q); [lia|done].
  - destruct (Z.eqb_spec (nb_retry q - 1) 0) as [E1|E1]; cbn; [split; [lia|done]|].
    split; [lia|]. destruct (last_retry_skb q) as [i|]; [|lia]. split; [lia|].
    destruct H2 as [_ (k' & Hk & Ei)]. exists k'. split; [|done].
    replace (Z.to_nat (nb_retry q - 1)) with (S (Z.to_nat (nb_retry q - 1 - 1))) in Hk by lia. done.
Qed.

Record push_out_post (k : sk_buff) (hw hw1 : rwnx_hw) : Prop := {
  po_txq : txq hw1 = txq hw;
  po_hwq : hwq hw1 = hwq hw;
  po_vif : vif_table hw1 = vif_table hw;
  po_sta : sta_table hw1 = sta_table hw;
  po_bal : length (cfm_balance hw1) = length (cfm_balance hw);
  po_ring : length (tx_host_id (usb_env hw1)) = length (tx_host_id (usb_env hw));
  po_wait k' : k' ∈ ring_frames hw1 -> sk_same k k' \/ k' ∈ ring_frames hw;
  po_ids : (sk_id <$> ring_frames hw1) ++ (ev hw1 ≫= gone) ≡ₚ
           sk_id k :: (sk_id <$> ring_frames hw) ++ (ev hw ≫= gone);
  po_pushed t : pushed t hw1 = pushed t hw ++ (if decide (sw_txq k = t) then [sk_id k] else [])
}.

Lemma push_out_spec k h hw : length (tx_host_id (usb_env hw)) = Z.to_nat USB_TXDESC_CNT ->
  push_out_post k hw (push_out k h hw).
Proof.
  intros Hr. unfold push_out. destruct (wants_cfm k).
  - set (k' := k <| need_cfm := true |> <| status_desc_addr := _ |>).
    set (i := txdesc_slot (txdesc_free_idx (usb_env hw))).
    destruct (lookup_lt_is_Some_2 (tx_host_id (usb_env hw)) i) as [o Ho]; [rewrite Hr; apply txdesc_slot_lt|].
    unfold aicwf_usb_host_txdesc_push. fold i. rewrite Ho.
    split; cbn; try (destruct o; done).
    + destruct o; cbn; now rewrite length_alter.
    + now rewrite length_insert.
    + intros x Hx. destruct o; cbn in Hx; apply elem_of_ring_insert in Hx as [[= <-]|Hx]; try (now right); now left.
    + pose proof (omap_insert_perm id _ _ _ (Some k') Ho) as HP. apply (fmap_Permutation sk_id) in HP.
      unfold ring_frames. destruct o as [old|]; cbn in HP |- *; rewrite !bind_app; cbn; rewrite ?app_nil_r.
      * change (sk_id k) with (sk_id k'). rewrite app_assoc, (Permutation_app_comm _ [_]). cbn.
        rewrite app_comm_cons. rewrite HP. done.
      * change (sk_id k) with (sk_id k'). rewrite HP. done.
    + intros t. unfold pushed. destruct o; cbn; rewrite !bind_app; cbn; rewrite ?app_nil_r; done.
  - set (k' := (if raw_frame _ then _ else _) <| status_desc_addr := _ |>).
    assert (sk_same k k' /\ need_cfm k' = false) as [Hk Hn] by (subst k'; cbn; case_match; done).
    clearbody k'.
    split; cbn; try done.
    + now rewrite length_alter.
    + intros x Hx. now right.
    + rewrite bind_app. cbn. rewrite Hn. destruct Hk as (-> & _). cbn.
      rewrite app_assoc. symmetry. apply Permutation_cons_append.
    + intros t. unfold pushed. cbn. rewrite bind_app. cbn. destruct Hk as (-> & -> & _). now rewrite app_nil_r.
Qed.
Section Config.
Context (plat : rwnx_plat) (stas : list rwnx_sta) (vifs : list rwnx_vif).
#[local] Abbreviation txq_ok := (txq_ok plat stas vifs).
#[local] Abbreviation inv := (inv plat stas vifs).
Context (Hc : config_ok stas vifs).

Lemma frame_head X Q hw t k P q : inv X Q hw -> txq hw !! t = Some q -> line X t q = k :: P ->
  sw_txq k = t /\ sw_sta k = txq_sta q /\ exists vif, vif_table hw !! sw_vif k = Some vif.
Proof.
  intros H Hq E. pose proof (q_frames _ _ _ _ _ _ (i_txq _ _ _ _ _ _ H _ _ Hq)) as Hf.
  rewrite E in Hf. apply Forall_cons in Hf as [(H1 & H2 & H3) _]. repeat split; try done.
  rewrite <- (i_vifs _ _ _ _ _ _ H) in H3. now apply lookup_lt_is_Some_2.
Qed.

Lemma sta_ptr_exists X Q hw t q s : inv X Q hw -> txq hw !! t = Some q -> txq_sta q = Some s ->
  exists st, sta_table hw !! s = Some st /\ (is_multicast_sta plat (sta_idx st) = true ->
    t = rwnx_txq_sta_get plat st 0 /\ ps_id q = LEGACY_PS_ID).
Proof.
  intros H Hq Hs. destruct (q_sta _ _ _ _ _ _ (i_txq _ _ _ _ _ _ H _ _ Hq) s Hs) as (st & Hst & Hm).
  destruct (sta_exists _ _ _ _ _ _ _ _ H Hst) as (st' & Hst' & <-). eauto.
Qed.

(** The counters after a step on the station of queue [t] that moves the
    focused account of [t] with them. *)
Lemma mc_ps_step X X' Q hw hw' t q q' o g : inv X Q hw -> txq hw !! t = Some q -> txq hw' = <[t := q']> (txq hw) ->
  focus_at t X X' -> o = txq_sta q -> txq_sta q' = txq_sta q -> txq_hwq q' = txq_hwq q -> idx q' = idx q ->
  (forall s st', sta_table hw' !! s = Some st' ->
     (o <> Some s -> sta_table hw !! s = Some st') /\
     exists st, sta_table hw !! s = Some st /\ strip st' = strip st /\ active (ps st') = active (ps st) /\
       (o = Some s -> active (ps st) = true -> ps st' = g (ps st))) ->
  (ps_id q = LEGACY_PS_ID -> forall x, uapsd (pkt_ready x) = 0 ->
     uapsd (pkt_ready (g x)) = 0 /\
     (idx q <> TXQ_INACTIVE -> legacy (pkt_ready x) = Z.of_nat (length (line X t q)) + xd X t ->
      legacy (pkt_ready (g x)) = Z.of_nat (length (line X' t q')) + xd X' t)) ->
  (idx q <> TXQ_INACTIVE -> txq_sta q = None -> forall s st, sta_table hw !! s = Some st ->
     is_multicast_sta plat (sta_idx st) = true -> active (ps st) = true -> rwnx_txq_sta_get plat st 0 <> t) ->
  mc_ps_ok plat X' hw'.
Proof.
  intros H Hq Et HX Eo Es Eh Ei Hst Hg Hno. eapply mc_ps_set; eauto; [apply H|].
  intros s st' Hs' Hm Ha. destruct (Hst s st' Hs') as (Hne & st & Hs & Estrip & Ea & Hupd).
  assert (is_multicast_sta plat (sta_idx st) = true) as Hm'.
  { change (sta_idx st) with (sta_idx (strip st)). now rewrite <- Estrip. }
  assert (rwnx_txq_sta_get plat st 0 = rwnx_txq_sta_get plat st' 0) as Eg.
  { change (rwnx_txq_sta_get plat st 0) with (rwnx_txq_sta_get plat (strip st) 0). now rewrite <- Estrip. }
  destruct (decide (o = Some s)) as [E|E].
  - rewrite Eo in E. destruct (sta_ptr_exists _ _ _ _ _ _ H Hq E) as (st2 & Hst2 & Hm2). simplify_eq.
    destruct (Hm2 Hm') as [Ht Hp]. split; [congruence|]. intros _. rewrite Ea in Ha.
    rewrite Ht in Hq. destruct (i_ps _ _ _ _ _ _ H s st q Hs Hm' Ha Hq) as (K1 & K2 & K3).
    rewrite (Hupd E Ha). destruct (Hg Hp _ K2) as [G1 G2].
    rewrite Eh, Ei, Es. split; [done|]. split; [done|]. intros Hi. destruct (K3 Hi) as [K4 K5].
    split; [done|]. apply G2; [done|]. now rewrite Ht.
  - split; [intros _; now apply Hne|]. specialize (Hne E). simplify_eq. intros Ht. rewrite <- Ht in Hq.
    destruct (i_ps _ _ _ _ _ _ H s st' q Hne Hm' Ha Hq) as (K1 & K2 & K3).
    rewrite Eh, Ei, Es. split; [done|]. split; [done|]. intros Hi. destruct (K3 Hi) as [K4 K5]. congruence.
Qed.

Lemma u16_small z : 0 <= z <= 65535 -> u16 z = z.
Proof. intros Hz. apply wrapU_small. lia. Qed.

Lemma inv_push Q hw t k P q : inv (Some (t, k :: P, 0)) Q hw -> txq hw !! t = Some q -> idx q <> TXQ_INACTIVE ->
  exists hw', rwnx_tx_push k 0 hw = Ok hw' /\ inv (Some (t, P, 0)) Q hw' /\
    keeps (fun _ => False) (Some (t, k :: P, 0)) (Some (t, P, 0)) hw hw' /\
    txq hw' = <[t := push_q q]> (txq hw) /\ hwq hw' = hwq hw.
Proof.
  intros H Hq Hi. set (X := Some (t, k :: P, 0)) in *. set (X' := Some (t, P, 0)).
  assert (line X t q = k :: P ++ sk_list q) as El by (unfold line; cbn; now rewrite decide_True).
  assert (line X' t (push_q q) = P ++ sk_list q) as El'.
  { unfold line. cbn. rewrite decide_True by done. f_equal. apply push_q_like. }
  destruct (frame_head _ _ _ _ _ _ _ H Hq El) as (Ht & Hsta & vif & Hvif).
  pose proof (i_txq _ _ _ _ _ _ H _ _ Hq) as Hok. pose proof (q_hwq _ _ _ _ _ _ Hok) as Hh.
  destruct (txq_hwq q) as [h|] eqn:Eh; [|now destruct Hh].
  destruct Hh as [Hh _].
  destruct (hwq_exists _ _ _ _ _ _ _ H Hh) as (hq & Hhq & Eid).
  unfold rwnx_tx_push. rewrite Ht, (get_txq_ok _ _ _ Hq). cbn [mbind res_bind]. rewrite Eh.
  cbn [from_option_res mbind res_bind]. rewrite (get_hwq_ok _ _ _ Hhq). cbn [mbind res_bind]. rewrite Eid.
  set (k1 := k <| hw_queue := Z.of_nat h |>). set (hw1 := upd_txq t (push_retry 0) hw).
  assert (txq hw1 = <[t := push_retry 0 q]> (txq hw)) as Et1 by now apply upd_txq_insert.
  assert (ps_id (push_retry 0 q) = ps_id q) as Ep.
  { unfold push_retry. cbn. repeat case_match; done. }
  assert (exists k' hw2, match sw_sta k1 with
            | Some s => rwnx_set_more_data_flag k1 s hw1 | None => Ok (k1, hw1) end = Ok (k', hw2) /\
          sk_same k1 k' /\ ps_step (txq_sta q) (ps_dec (ps_id q)) hw1 hw2) as (k' & hw2 & E2 & Hk' & H2).
  { cbn. rewrite Hsta. destruct (txq_sta q) as [s|] eqn:Es; [|exists k1, hw1; split; [done|]; split; [done|apply ps_step_refl]].
    destruct (sta_ptr_exists _ _ _ _ _ _ H Hq Es) as (st & Hst & _). rewrite <- Ep.
    apply (more_data_spec k1 s hw1 st (push_retry 0 q) vif); [done| |done].
    change (sw_txq k1) with (sw_txq k). rewrite Ht. exact (txq_insert_lookup _ _ _ _ _ Hq Et1). }
  rewrite E2. cbn [mbind res_bind]. set (hw3 := upd_txq t push_count hw2). eexists. split; [reflexivity|].
  assert (txq hw3 = <[t := push_q q]> (txq hw)) as Et3.
  { unfold hw3. rewrite (upd_txq_insert t _ hw2 (push_retry 0 q)); rewrite (pp_txq _ _ _ _ H2), Et1.
    - now rewrite list_insert_insert_eq.
    - apply list_lookup_insert_eq. eauto using lookup_lt_Some. }
  assert (push_out_post k' hw3 (push_out k' h hw3)) as HP.
  { apply push_out_spec. change (usb_env hw3) with (usb_env hw2). rewrite (pp_env _ _ _ _ H2). apply H. }
  destruct HP as [P1 P2 P3 P4 P5 P6 P7 P8 P9]. set (hw4 := push_out k' h hw3) in *.
  destruct (push_q_like q) as ((L1 & L2 & L3 & L4 & L5) & L6 & L7).
  assert (txq hw4 = <[t := push_q q]> (txq hw)) as Et4 by (now rewrite P1).
  assert (hwq hw4 = hwq hw) as Eh4.
  { rewrite P2. change (hwq hw3) with (hwq hw2). now rewrite (pp_hwq _ _ _ _ H2). }
  assert (ring_frames hw3 = ring_frames hw) as Er.
  { unfold ring_frames. change (usb_env hw3) with (usb_env hw2). now rewrite (pp_env _ _ _ _ H2). }
  assert (sk_id k' = sk_id k /\ sw_txq k' = t) as [Ek Ekt] by (destruct Hk' as (-> & -> & _); done).
  assert (rwnx_txq_is_scheduled (push_q q) = rwnx_txq_is_scheduled q) as Esch.
  { unfold rwnx_txq_is_scheduled. now rewrite L6. }
  assert (forall (f : event -> list Z), (forall e, silent e -> f e = []) -> ev hw3 ≫= f = ev hw ≫= f) as Eev.
  { intros f Hf. change (ev hw3) with (ev hw2). now rewrite (ps_step_bind _ _ _ _ f H2 Hf). }
  split; [|split; [|done]].
  - eapply (inv_set _ _ _ X X' Q Q hw hw4 t q (push_q q)); eauto.
    + eapply linked_set; eauto. apply H.
    + rewrite P6. change (usb_env hw3) with (usb_env hw2). rewrite (pp_env _ _ _ _ H2). apply H.
    + rewrite P5. change (cfm_balance hw3) with (cfm_balance hw2). rewrite (pp_bal _ _ _ _ H2). apply H.
    + rewrite P4. change (sta_table hw3) with (sta_table hw2). now rewrite (pp_strip _ _ _ _ H2).
    + rewrite P3. change (vif_table hw3) with (vif_table hw2). now rewrite (pp_vif _ _ _ _ H2).
    + apply focus_at_some.
    + destruct Hok as [A B C D E F G I].
      rewrite El in *. rewrite Eh in A. split; rewrite ?El', ?L1, ?L2, ?L4, ?L7, ?Esch.
      * rewrite Eh. exact A.
      * done.
      * destruct C as [C1 C2]. specialize (C2 Hi). rewrite push_q_limit by done.
        cbn [length] in C2. destruct (Z.eqb_spec (push_limit q) 0); lia.
      * intros _. apply (push_q_retry _ k). now apply D.
      * now apply Forall_cons in E as [_ E].
      * intros _ _. now left.
      * cbn in *. rewrite decide_True in * by done. lia.
      * intros s. unfold sta_ptr_ok in I. rewrite L2, L5. apply I.
    + intros x Hx. destruct (P7 x Hx) as [(S1 & S2 & S3 & S4 & S5)|Hx'].
      * exists (push_q q). destruct Hk' as (K1 & K2 & K3 & K4 & K5). cbn in *.
        rewrite S2, Ekt. split; [eauto using txq_insert_lookup|]. split; [now rewrite L1, Eh|]. split.
        -- repeat split; [congruence|rewrite L2; congruence|]. rewrite S4, K4.
           rewrite <- (i_vifs _ _ _ _ _ _ H). eauto using lookup_lt_Some.
        -- exists h. split; [done|]. congruence.
      * rewrite Er in Hx'. eapply waiting_set; eauto; [now rewrite L1|]. eapply i_wait; eauto.
    + rewrite <- (i_ids _ _ _ _ _ _ H). unfold all_ids, X, X'.
      rewrite P8, Er, Eev by (now intros e [He _]). rewrite Ek, fmap_cons. cbn [app].
      rewrite <- Permutation_middle. rewrite <- Permutation_middle. do 3 f_equiv. apply fmap_Permutation.
      pose proof (frames_insert _ _ _ _ _ Hq Et4) as HF. rewrite L3 in HF. now apply Permutation_app_inv_r in HF.
    + apply H.
    + eapply (mc_ps_step X X' Q hw hw4 t q _ (txq_sta q) (ps_dec (ps_id q))); eauto using focus_at_some.
      * intros s st' Hs'. rewrite P4 in Hs'. apply (pp_sta _ _ _ _ H2 s st' Hs').
      * intros Hp x Hu. rewrite Hp, El, El'. cbn. rewrite !decide_True by done. split; [done|].
        intros _ ->. rewrite u16_small; [lia|].
        pose proof (q_len _ _ _ _ _ _ Hok) as HL. rewrite El in HL. cbn in HL.
        rewrite decide_True in HL by done. lia.
      * intros _ Hn s st Hs Hm Ha Hg. rewrite <- Hg in Hq.
        destruct (i_ps _ _ _ _ _ _ H s st q Hs Hm Ha Hq) as (_ & _ & K). destruct (K Hi). congruence.
  - intros u x Hx. destruct (decide (u = t)) as [->|Hn].
    + exists (push_q q). simplify_eq. split; [eauto using txq_insert_lookup|]. repeat split; try done.
      intros _. unfold history. rewrite P9, El, El', Ekt, decide_True, Ek by done.
      unfold pushed. rewrite Eev by (now intros e [_ He]). cbn [fmap list_fmap]. now rewrite <- app_assoc.
    + exists x. rewrite Et4, list_lookup_insert_ne by done. repeat split; try done.
      intros _. unfold history. rewrite P9, Ekt, decide_False by congruence.
      unfold pushed. rewrite Eev, app_nil_r by (now intros e [_ He]). unfold line. cbn.
      rewrite !decide_False by congruence. done.
Qed.

Lemma inv_pushes Q t : forall P hw q, inv (Some (t, P, 0)) Q hw -> txq hw !! t = Some q -> idx q <> TXQ_INACTIVE ->
  exists hw' q', foldM (fun k => rwnx_tx_push k 0) P hw = Ok hw' /\ inv (Some (t, [], 0)) Q hw' /\
    keeps (fun _ => False) (Some (t, P, 0)) (Some (t, [], 0)) hw hw' /\
    txq hw' !! t = Some q' /\ idx q' = idx q /\ sk_list q' = sk_list q /\ status q' = status q /\ hwq hw' = hwq hw /\
    length (frames hw') = length (frames hw).
Proof.
  induction P as [|k P IH]; intros hw q H Hq Hi.
  - exists hw, q. split_and!; auto using keeps_refl.
  - destruct (inv_push _ _ _ _ _ _ H Hq Hi) as (hw1 & E1 & H1 & K1 & T1 & W1).
    destruct (push_q_like q) as ((L1 & L2 & L3 & L4 & L5) & L6 & L7).
    destruct (IH hw1 (push_q q) H1) as (hw2 & q2 & E2 & H2 & K2 & T2 & I2 & S2 & U2 & W2 & F2);
      [eauto using txq_insert_lookup|congruence|].
    exists hw2, q2. cbn [foldM]. rewrite E1. cbn [mbind res_bind]. split_and!; try done; try congruence.
    + eapply keeps_trans; eauto.
    + rewrite F2. pose proof (frames_insert _ _ _ _ _ Hq T1) as HF. rewrite L3 in HF.
      apply Permutation_app_inv_r in HF. now apply Permutation_length.
Qed.

(** ** Taking frames off a queue *)

Lemma inv_pop Q hw t q P rest : inv None Q hw -> txq hw !! t = Some q -> idx q <> TXQ_INACTIVE ->
  sk_list q = P ++ rest ->
  inv (Some (t, P, 0)) Q (upd_txq t (fun q => q <| sk_list := rest |>) hw) /\
  keeps (fun _ => False) None (Some (t, P, 0)) hw (upd_txq t (fun q => q <| sk_list := rest |>) hw).
Proof.
  intros H Hq Hi E. set (hw' := upd_txq t _ hw). set (q' := q <| sk_list := rest |>).
  assert (txq hw' = <[t := q']> (txq hw)) as Et by txq_insert hw' Hq.
  assert (line (Some (t, P, 0)) t q' = line None t q) as El.
  { unfold line. cbn. rewrite decide_True by done. now rewrite E. }
  pose proof (i_txq _ _ _ _ _ _ H _ _ Hq) as Hok. split.
  - eapply (inv_set _ _ _ None _ Q Q hw hw' t q q'); eauto; try solve [apply H].
    + eapply linked_set; eauto. apply H.
    + apply focus_at_open.
    + destruct Hok as [A B C D F G I J]. split; rewrite ?El; try done.
      * intros _ _. now left.
      * cbn in *. rewrite decide_True by done. lia.
    + intros k Hk. eapply waiting_set; eauto. eapply i_wait; eauto.
    + rewrite <- (i_ids _ _ _ _ _ _ H). unfold all_ids. change (ring_frames hw') with (ring_frames hw).
      change (ev hw') with (ev hw). cbn [app]. rewrite !app_assoc. do 2 f_equiv.
      rewrite <- fmap_app. apply fmap_Permutation.
      pose proof (frames_insert _ _ _ _ _ Hq Et) as HF. cbn in HF. rewrite E in HF.
      rewrite app_assoc in HF. apply Permutation_app_inv_r in HF. now rewrite Permutation_app_comm.
    + eapply (mc_ps_step None _ Q hw hw' t q q' (txq_sta q) (fun x => x)); eauto using focus_at_open.
      * intros s st' Hs. split; [done|]. now exists st'.
      * intros _ x Hu. split; [done|]. intros _. rewrite El. cbn. rewrite decide_True by done. done.
      * intros _ Hn s st Hs Hm Ha Hg. rewrite <- Hg in Hq.
        destruct (i_ps _ _ _ _ _ _ H s st q Hs Hm Ha Hq) as (_ & _ & K). destruct (K Hi). congruence.
  - intros u x Hx. destruct (decide (u = t)) as [->|Hn].
    + exists q'. simplify_eq. split; [eauto using txq_insert_lookup|]. repeat split; try done.
      intros _. unfold history. now rewrite El.
    + exists x. rewrite Et, list_lookup_insert_ne by done. repeat split; try done.
      intros _. unfold history, line. cbn. rewrite decide_False by congruence. done.
Qed.

Lemma inv_flush Q hw t q : inv None Q hw -> txq hw !! t = Some q -> idx q = TXQ_INACTIVE ->
  exists hw', rwnx_txq_flush t hw = Ok hw' /\ inv None Q hw' /\ keeps (fun _ => False) None None hw hw' /\
    txq hw' = <[t := q <| sk_list := [] |>]> (txq hw) /\ ev hw' = ev hw ++ (EvFreed <$> sk_list q) /\
    hwq hw' = hwq hw /\ usb_env hw' = usb_env hw /\ (length (frames hw') <= length (frames hw))%nat.
Proof.
  intros H Hq Hi. unfold rwnx_txq_flush. rewrite (get_txq_ok _ _ _ Hq). cbn [mbind res_bind].
  eexists. split; [reflexivity|]. set (hw' := upd_txq t _ hw <| ev ::= _ |>). set (q' := q <| sk_list := [] |>).
  assert (txq hw' = <[t := q']> (txq hw)) as Et by txq_insert hw' Hq.
  pose proof (frames_insert _ _ _ _ _ Hq Et) as HF. change (sk_list q') with (@nil sk_buff) in HF.
  rewrite app_nil_r in HF. pose proof (i_txq _ _ _ _ _ _ H _ _ Hq) as Hok.
  assert (forall l : list sk_buff, (EvFreed <$> l) ≫= gone = sk_id <$> l) as Hgone.
  { induction l as [|k l IH]; [done|]. cbn. now rewrite <- IH. }
  assert (forall u (l : list sk_buff), (EvFreed <$> l) ≫= pushed_of u = []) as Hpush.
  { intros u. induction l as [|k l IH]; [done|]. cbn. now rewrite <- IH. }
  split_and!; try done.
  - eapply (inv_set _ _ _ None None Q Q hw hw' t q q'); eauto; try solve [apply H].
    + eapply linked_set; eauto. apply H.
    + apply focus_at_refl.
    + destruct Hok as [A B C D F G I J]. split; try done.
      * change (txq_hwq q') with (txq_hwq q). destruct (txq_hwq q); [done|]. now destruct A as (? & ? & _).
      * split; [apply C|]. now intros [].
    + intros k Hk. eapply waiting_set; eauto. eapply i_wait; eauto.
    + rewrite <- (i_ids _ _ _ _ _ _ H). unfold all_ids. change (ring_frames hw') with (ring_frames hw).
      cbn [app]. replace (ev hw' ≫= gone) with ((ev hw ≫= gone) ++ (sk_id <$> sk_list q))
        by (cbn; now rewrite bind_app, Hgone).
      rewrite <- HF, fmap_app. rewrite <- !app_assoc. f_equiv.
      rewrite (Permutation_app_comm (sk_id <$> sk_list q)), <- !app_assoc. done.
    + eapply (mc_ps_step None _ Q hw hw' t q q' (txq_sta q) (fun x => x)); eauto using focus_at_refl.
      * intros s st' Hs. split; [done|]. now exists st'.
      * intros _ x Hu. split; [done|]. now intros [].
  - intros u x Hx. destruct (decide (u = t)) as [->|Hn].
    + exists q'. simplify_eq. split; [eauto using txq_insert_lookup|]. repeat split; try done.
    + exists x. rewrite Et, list_lookup_insert_ne by done. repeat split; try done.
      intros _. unfold history, pushed. cbn. now rewrite bind_app, Hpush, app_nil_r.
  - apply Permutation_length in HF. rewrite length_app in HF. lia.
Qed.

(** ** One round of [rwnx_hwq_process] *)

Lemma inv_rotate X Q hw h : inv X Q hw -> inv X Q (upd_hwq h (fun h => h <| hwq_list ::= list_rotate_left |>) hw).
Proof.
  intros H. destruct H as [[L1 L2 L3 L4 L5] B C D E F G I J K]. split; try done. split; cbn.
  - done.
  - now rewrite length_alter.
  - intros h' hq Hh. destruct (decide (h' = h)) as [->|Hn].
    + rewrite list_lookup_alter_eq in Hh. destruct (hwq hw !! h) eqn:E2; [|done]. injection Hh as <-. exact (L3 _ _ E2).
    + rewrite list_lookup_alter_ne in Hh by done. now apply L3.
  - intros h' hq Hh. destruct (decide (h' = h)) as [->|Hn].
    + rewrite list_lookup_alter_eq in Hh. destruct (hwq hw !! h) as [x|] eqn:E2; [|done]. injection Hh as <-.
      cbn. specialize (L4 _ _ E2). unfold list_rotate_left. destruct (hwq_list x); [done|].
      now rewrite <- Permutation_cons_append.
    + rewrite list_lookup_alter_ne in Hh by done. eauto.
  - intros h' hq u Hh. destruct (decide (h' = h)) as [->|Hn].
    + rewrite list_lookup_alter_eq in Hh. destruct (hwq hw !! h) as [x|] eqn:E2; [|done]. injection Hh as <-.
      cbn. rewrite <- (L5 _ _ _ E2). unfold list_rotate_left. destruct (hwq_list x); [done|].
      now rewrite <- Permutation_cons_append.
    + rewrite list_lookup_alter_ne in Hh by done. eauto.
Qed.

(** What the last parts of a round keep of the queue. *)
Definition tail_step (X : focus) (t : nat) (hw hw' : rwnx_hw) : Prop :=
  keeps (eq t) X X hw hw' /\ hwq hw' = hwq hw /\ length (frames hw') = length (frames hw) /\
  forall q, txq hw !! t = Some q -> exists q', txq hw' !! t = Some q' /\ sk_list q' = sk_list q /\
    rwnx_txq_is_scheduled q' = rwnx_txq_is_scheduled q /\ idx q' = idx q.

Lemma tail_step_upd X t hw hw' q q' : txq hw !! t = Some q -> txq hw' = <[t := q']> (txq hw) ->
  hwq hw' = hwq hw -> (forall u, pushed u hw' = pushed u hw) -> txq_like q q' ->
  rwnx_txq_is_scheduled q' = rwnx_txq_is_scheduled q -> tail_step X t hw hw'.
Proof.
  intros Hq Et Eh Ep (L1 & L2 & L3 & L4 & L5) Es. split_and!; try done.
  - intros u x Hx. destruct (decide (u = t)) as [->|Hn].
    + exists q'. simplify_eq. split; [eauto using txq_insert_lookup|]. repeat split; try done.
      intros _. unfold history, line. now rewrite Ep, L3.
    + exists x. rewrite Et, list_lookup_insert_ne by done. repeat split; try done.
      intros _. unfold history. now rewrite Ep.
  - pose proof (frames_insert _ _ _ _ _ Hq Et) as HF. rewrite L3 in HF.
    apply Permutation_app_inv_r in HF. now apply Permutation_length.
  - intros x Hx. simplify_eq. exists q'. split; [eauto using txq_insert_lookup|done].
Qed.

Lemma tail_step_refl X t hw : tail_step X t hw hw.
Proof. split_and!; auto using keeps_refl. intros q Hq. eauto. Qed.

Lemma inv_process_sp P d Q hw t q : inv (Some (t, P, d)) Q hw -> txq hw !! t = Some q -> idx q <> TXQ_INACTIVE ->
  exists hw', process_sp t hw = Ok hw' /\ inv (Some (t, P, d)) Q hw' /\ tail_step (Some (t, P, d)) t hw hw'.
Proof.
  intros H Hq Hi. unfold process_sp. rewrite (get_txq_ok _ _ _ Hq). cbn [mbind res_bind].
  destruct (txq_sta q) as [s|] eqn:Es; [|exists hw; eauto using tail_step_refl].
  destruct (negb (push_limit q =? 0) && (ps_id q =? LEGACY_PS_ID)); [|exists hw; eauto using tail_step_refl].
  destruct (sta_ptr_exists _ _ _ _ _ _ H Hq Es) as (st & Hst & _). rewrite (get_sta_ok _ _ _ Hst). cbn [mbind res_bind].
  eexists. split; [reflexivity|]. set (hw' := upd_txq t _ _). set (q' := q <| push_limit := 0 |>).
  assert (txq hw' = <[t := q']> (txq hw)) as Et by txq_insert hw' Hq.
  set (g := fun p => p <| sp_cnt ::= ps_upd (ps_id q) (fun n => n - push_limit q) |>) in hw'.
  pose proof (i_txq _ _ _ _ _ _ H _ _ Hq) as Hok.
  assert (ps_step (Some s) g hw (upd_ps s g hw)) as HP.
  { rewrite <- (upd_ps_nil s g hw). eapply (ps_step_upd s st g hw _ []); [done..| |done].
    unfold upd_ps. destruct hw; cbn in *. f_equal. apply list_eq. intros i. destruct (decide (i = s)) as [->|Hn].
    - rewrite !list_lookup_alter_eq, Hst. done.
    - now rewrite !list_lookup_alter_ne by done. }
  split.
  - eapply (inv_set _ _ _ _ _ Q Q hw hw' t q q'); eauto; try solve [apply H].
    + eapply linked_set; eauto. apply H.
    + apply (pp_strip _ _ _ _ HP).
    + apply focus_at_refl.
    + destruct Hok as [A B C D F G I J]. split; try done. change (push_limit q') with 0. lia.
    + intros k Hk. eapply waiting_set; eauto. eapply i_wait; eauto.
    + etrans; [eapply all_ids_set; eauto|apply H].
    + eapply (mc_ps_step _ _ Q hw hw' t q q' (txq_sta q) g); eauto using focus_at_refl.
      * rewrite Es. apply (pp_sta _ _ _ _ HP).
      * congruence.
  - eapply tail_step_upd; eauto; done.
Qed.

Lemma inv_process_flow X Q hw t q : inv X Q hw -> txq hw !! t = Some q ->
  exists hw', process_flow_ctrl t hw = Ok hw' /\ inv X Q hw' /\ tail_step X t hw hw'.
Proof.
  intros H Hq. unfold process_flow_ctrl. rewrite (get_txq_ok _ _ _ Hq). cbn [mbind res_bind].
  destruct (_ && _); [|exists hw; eauto using tail_step_refl].
  set (hw1 := upd_txq t _ hw). set (q' := q <| status ::= fun s => clrf s RWNX_TXQ_NDEV_FLOW_CTRL |>).
  assert (txq hw1 = <[t := q']> (txq hw)) as Et by txq_insert hw1 Hq.
  assert (rwnx_txq_is_scheduled q' = rwnx_txq_is_scheduled q) as Es.
  { unfold rwnx_txq_is_scheduled. cbn. now apply sched_clrf. }
  assert (inv X Q hw1) as H1.
  { eapply inv_like; [exact H|exact Hq|exact Et|..]; try done; [apply H|].
    pose proof (i_txq _ _ _ _ _ _ H _ _ Hq) as Hok. unfold rwnx_txq_is_scheduled in Es. cbn in Es.
    apply txq_ok_status; [done|..]; rewrite Es.
    - intros Hn. pose proof (q_hwq _ _ _ _ _ _ Hok) as Hh. rewrite Hn in Hh. apply Hh.
    - apply Hok. }
  eexists. split; [reflexivity|]. destruct (negb (tbusy hw1)).
  - split; [now apply inv_log|]. eapply tail_step_upd; eauto; try done.
    intros u. unfold pushed. cbn. rewrite bind_app. cbn. now rewrite app_nil_r.
  - split; [done|]. eapply tail_step_upd; eauto; done.
Qed.

Lemma get_credits_bound q : 0 < credits q <= 127 -> 0 <= push_limit q -> 0 < rwnx_txq_get_credits q <= 127.
Proof.
  intros Hc1 Hl. unfold rwnx_txq_get_credits. cbn. destruct (Z.eqb_spec (push_limit q) 0); cbn; [lia|].
  destruct (Z.ltb_spec (push_limit q) (credits q)); [|lia]. rewrite wrapS_small; lia.
Qed.

(** What is pushed is a non-empty prefix; a queue left with nothing is unlinked. *)
Lemma get_skb_spec q : 0 < credits q <= 127 -> 0 <= push_limit q -> sk_list q <> [] ->
  exists b P rest, rwnx_txq_get_skb_to_push q = (b, P, rest) /\ sk_list q = P ++ rest /\ P <> [] /\
    (b = false -> rest <> []).
Proof.
  intros Hc1 Hl Hne. pose proof (get_credits_bound q Hc1 Hl) as Hb. unfold rwnx_txq_get_skb_to_push.
  destruct (Z.leb_spec (Z.of_nat (length (sk_list q))) (rwnx_txq_get_credits q)) as [Hle|Hlt].
  - exists true, (sk_list q), []. now rewrite app_nil_r.
  - cbn. eexists _, _, _. split; [reflexivity|]. split; [symmetry; apply take_drop|]. split.
    + intros E. apply (f_equal length) in E. rewrite length_take in E. cbn in E. lia.
    + intros _ E. apply (f_equal length) in E. rewrite length_drop in E. cbn in E. lia.
Qed.

(** Unlinking or rotating, after the frames were pushed. *)
Lemma inv_round_end Q hw t h q hq (b : bool) : inv (Some (t, [], 0)) Q hw -> txq hw !! t = Some q ->
  idx q <> TXQ_INACTIVE -> hwq hw !! h = Some hq -> t ∈ hwq_list hq -> (b = false -> sk_list q <> []) ->
  exists hw' q' hq',
    (if b then hw ← rwnx_txq_del_from_hw_list t hw; Ok (upd_txq t (fun q => q <| pkt_sent := 0 |>) hw)
     else q ← get_txq t hw; hq ← get_hwq h hw;
       if rwnx_txq_is_scheduled q && (hwq_size hq <? pkt_sent q) then
         Ok (upd_hwq h (fun h => h <| hwq_list ::= list_rotate_left |>) (upd_txq t (fun q => q <| pkt_sent := 0 |>) hw))
       else Ok hw) = Ok hw' /\
    inv (Some (t, [], 0)) Q hw' /\ keeps (eq t) (Some (t, [], 0)) (Some (t, [], 0)) hw hw' /\
    txq hw' !! t = Some q' /\ sk_list q' = sk_list q /\ idx q' = idx q /\
    (rwnx_txq_is_scheduled q' = true -> sk_list q <> []) /\
    hwq hw' !! h = Some hq' /\ (length (hwq_list hq') <= length (hwq_list hq))%nat /\
    length (frames hw') = length (frames hw).
Proof.
  intros H Hq Hi Hh Hin Hb. destruct b.
  - destruct (inv_del _ _ _ _ _ _ _ _ H Hq) as (hw1 & E1 & H1 & S1 & U1 & L1). rewrite E1. cbn [mbind res_bind].
    destruct (so_txq _ _ _ S1 t q Hq) as (s & Hs & _). specialize (U1 _ Hs).
    set (hw2 := upd_txq t _ hw1). set (q2 := q <| status := s |> <| pkt_sent := 0 |>).
    assert (txq hw2 = <[t := q2]> (txq hw1)) as Et by txq_insert hw2 Hs.
    assert (tail_step (Some (t, [], 0)) t hw1 hw2) as (K2 & W2 & F2 & _) by (eapply tail_step_upd; eauto; done).
    assert (exists hq', hwq hw2 !! h = Some hq' /\ (length (hwq_list hq') <= length (hwq_list hq))%nat) as (hq' & Hq' & Hl).
    { rewrite W2. apply (f_equal (fun l => l !! h)) in L1. rewrite !list_lookup_fmap, Hh in L1. cbn in L1.
      destruct (hwq hw1 !! h) as [x|]; [|done]. cbn in L1. injection L1 as L1. exists x. split; [done|].
      rewrite L1. apply length_filter. }
    exists hw2, q2, hq'. split_and!; try done.
    + eapply inv_like; [exact H1|exact Hs|exact Et|..]; try done; [apply H1|].
      destruct (i_txq _ _ _ _ _ _ H1 _ _ Hs) as [A B C D F G I J]. by split.
    + eapply keeps_trans; [|exact K2]. apply (status_only_keeps _ _ _ _ S1).
    + eauto using txq_insert_lookup.
    + intros HU. unfold rwnx_txq_is_scheduled in *. cbn in *. congruence.
    + rewrite F2. now rewrite (so_frames _ _ _ S1).
  - rewrite (get_txq_ok _ _ _ Hq), (get_hwq_ok _ _ _ Hh). cbn [mbind res_bind].
    destruct (_ && _); [|exists hw, q, hq; split_and!; auto using keeps_refl].
    set (hw1 := upd_txq t _ hw). set (q2 := q <| pkt_sent := 0 |>).
    assert (txq hw1 = <[t := q2]> (txq hw)) as Et by txq_insert hw1 Hq.
    assert (tail_step (Some (t, [], 0)) t hw hw1) as (K2 & W2 & F2 & _) by (eapply tail_step_upd; eauto; done).
    eexists _, q2, (hq <| hwq_list ::= list_rotate_left |>). split; [reflexivity|]. split_and!; try done.
    + apply inv_rotate. eapply inv_like; [exact H|exact Hq|exact Et|..]; try done; [apply H|].
      destruct (i_txq _ _ _ _ _ _ H _ _ Hq) as [A B C D F G I J]. by split.
    + eauto using txq_insert_lookup.
    + auto.
    + cbn. rewrite list_lookup_alter_eq. now rewrite Hh.
    + cbn. unfold list_rotate_left. destruct (hwq_list hq); [done|]. rewrite length_app. cbn. lia.
Qed.

Lemma inv_process_txq Q hw h hq t : inv None Q hw -> hwq hw !! h = Some hq -> t ∈ hwq_list hq ->
  exists hw' hq', hwq_process_txq h t hw = Ok hw' /\ inv None Q hw' /\ keeps (eq t) None None hw hw' /\
    hwq hw' !! h = Some hq' /\
    (length (hwq_list hq') + length (frames hw') < length (hwq_list hq) + length (frames hw))%nat.
Proof.
  intros H Hh Hin. destruct (proj1 (l_list _ (i_linked _ _ _ _ _ _ H) _ _ _ Hh) Hin) as (q & Hq & Hs & Eh).
  unfold hwq_process_txq. rewrite (get_txq_ok _ _ _ Hq). cbn [mbind res_bind].
  unfold rwnx_txq_is_scheduled in Hs. rewrite Hs. cbn [negb].
  pose proof (i_txq _ _ _ _ _ _ H _ _ Hq) as Hok.
  destruct (Z.eqb_spec (idx q) TXQ_INACTIVE) as [Hi|Hi].
  - destruct (inv_del _ _ _ _ _ _ _ _ H Hq) as (hw1 & E1 & H1 & S1 & U1 & L1). rewrite E1. cbn [mbind res_bind].
    destruct (so_txq _ _ _ S1 t q Hq) as (s & Hs1 & _).
    destruct (inv_flush _ _ _ _ H1 Hs1 Hi) as (hw2 & E2 & H2 & K2 & T2 & V2 & W2 & _ & F2).
    apply (f_equal (fun l => l !! h)) in L1. rewrite !list_lookup_fmap, Hh in L1. cbn in L1.
    destruct (hwq hw1 !! h) as [x|] eqn:Ex; [|done]. cbn in L1. injection L1 as L1.
    exists hw2, x. split_and!; try done.
    + eapply keeps_trans; [apply (status_only_keeps _ _ _ _ S1)|]. eapply keeps_weaken; [|exact K2]. done.
    + now rewrite W2.
    + rewrite (so_frames _ _ _ S1) in F2. rewrite L1.
      assert (length (filter (fun t' => t' <> t) (hwq_list hq)) < length (hwq_list hq))%nat; [|lia].
      eapply length_filter_lt; [exact Hin|]. auto.
  - assert (0 < credits q <= 127) as Hcr by (pose proof (q_credits _ _ _ _ _ _ Hok); intuition lia). pose proof (proj1 (q_limit _ _ _ _ _ _ Hok)) as Hlim.
    destruct (q_sched _ _ _ _ _ _ Hok Hs Hi) as [[]|Hne].
    replace (credits q <=? 0) with false by (symmetry; apply Z.leb_gt; lia).
    replace (negb (rwnx_txq_skb_ready q)) with false by (unfold rwnx_txq_skb_ready; now destruct (sk_list q)).
    destruct (get_skb_spec q Hcr Hlim Hne) as (b & P & rest & -> & Esk & HP & Hb).
    destruct (inv_pop _ _ _ _ _ _ H Hq Hi Esk) as [H1 K1]. set (hw1 := upd_txq t _ hw) in *.
    assert (txq hw1 = <[t := q <| sk_list := rest |>]> (txq hw)) as Et1 by txq_insert hw1 Hq.
    destruct (inv_pushes _ _ P hw1 _ H1 (txq_insert_lookup _ _ _ _ _ Hq Et1) Hi)
      as (hw2 & q2 & E2 & H2 & K2 & T2 & I2 & S2 & U2 & W2 & F2).
    rewrite E2. cbn [mbind res_bind]. cbn in S2, U2, I2.
    assert (hwq hw2 !! h = Some hq) as Hh2 by (now rewrite W2).
    destruct (inv_round_end _ _ t h q2 hq b H2 T2) as (hw3 & q3 & hq3 & E3 & H3 & K3 & T3 & S3 & I3 & U3 & W3 & L3 & F3);
      [congruence|done|done|rewrite S2; done|].
    rewrite E3. cbn [mbind res_bind].
    destruct (inv_process_sp [] 0 _ _ _ _ H3 T3) as (hw4 & E4 & H4 & K4 & W4 & F4 & Y4); [congruence|].
    rewrite E4. cbn [mbind res_bind]. destruct (Y4 _ T3) as (q4 & T4 & S4 & U4 & I4).
    destruct (inv_process_flow _ _ _ _ _ H4 T4) as (hw5 & E5 & H5 & K5 & W5 & F5 & Y5).
    destruct (Y5 _ T4) as (q5 & T5 & S5 & U5 & I5).
    exists hw5, hq3. split_and!; try done.
    + eapply inv_close; [exact H5|]. intros x Hx HU _. simplify_eq. rewrite S5, S4, S3. apply U3. congruence.
    + eapply keeps_trans; [eapply keeps_weaken, K1; done|]. eapply keeps_trans; [eapply keeps_weaken, K2; done|].
      eapply keeps_trans; [exact K3|]. eapply keeps_trans; [exact K4|]. eapply keeps_trans; [exact K5|].
      intros u x Hx. exists x. repeat split; try done. intros _. unfold history, line. cbn.
      destruct (decide (t = u)); done.
    + now rewrite W5, W4.
    + rewrite F5, F4, F3, F2. pose proof (frames_insert _ _ _ _ _ Hq Et1) as HF. apply Permutation_length in HF.
      change (sk_list (q <| sk_list := rest |>)) with rest in HF.
      rewrite !length_app, Esk, length_app in HF. destruct P; [done|]. cbn [length] in HF. lia.
Qed.

Lemma next_of_spec t l : t ∈ l -> exists o, next_of t l = Ok o /\
  forall u, o = Some u -> u ∈ l /\ (NoDup l -> u <> t).
Proof.
  induction l as [|x l IH]; intros Hin; [now apply not_elem_of_nil in Hin|]. cbn. case_decide as Hx.
  - exists (head l). split; [done|]. intros u Hu. destruct l as [|y l]; [done|]. cbn in Hu. injection Hu as ->.
    split; [right; left|]. intros [Hnd _]%NoDup_cons ->. subst. apply Hnd. left.
  - apply elem_of_cons in Hin as [->|Hin]; [done|]. destruct (IH Hin) as (o & -> & Ho). exists o. split; [done|].
    intros u Hu. destruct (Ho u Hu) as [H1 H2]. split; [now right|]. intros [_ Hnd]%NoDup_cons. auto.
Qed.

Lemma inv_loop Q h : forall fuel hw cur hq, inv None Q hw -> hwq hw !! h = Some hq ->
  (forall t, cur = Some t -> t ∈ hwq_list hq) -> (length (hwq_list hq) + length (frames hw) <= fuel)%nat ->
  exists hw', hwq_loop fuel h cur hw = Ok hw' /\ inv None Q hw' /\ keeps (fun _ => True) None None hw hw'.
Proof.
  induction fuel as [|fuel IH]; intros hw [t|] hq H Hh Hcur Hf.
  - specialize (Hcur t eq_refl). destruct (hwq_list hq); [now apply not_elem_of_nil in Hcur|cbn in Hf; lia].
  - exists hw. cbn. auto using keeps_refl.
  - specialize (Hcur t eq_refl). cbn [hwq_loop]. rewrite (get_hwq_ok _ _ _ Hh). cbn [mbind res_bind].
    destruct (next_of_spec t _ Hcur) as (o & Eo & Ho). rewrite Eo. cbn [mbind res_bind].
    destruct (inv_process_txq _ _ _ _ _ H Hh Hcur) as (hw1 & hq1 & E1 & H1 & K1 & W1 & M1). rewrite E1. cbn [mbind res_bind].
    destruct (IH hw1 o hq1 H1 W1) as (hw2 & E2 & H2 & K2); [|lia|].
    + intros u Hu. destruct (Ho u Hu) as [Hu1 Hu2].
      assert (u <> t) as Hne by (apply Hu2; eapply l_nodup; eauto; apply H).
      apply (l_list _ (i_linked _ _ _ _ _ _ H1) _ _ _ W1).
      apply (l_list _ (i_linked _ _ _ _ _ _ H) _ _ _ Hh) in Hu1 as (q & Hq & HU & HE).
      destruct (K1 u q Hq) as (q' & Hq' & _ & Eh & Es & _). exists q'. split; [done|].
      rewrite Es, Eh by congruence. done.
    + exists hw2. split; [done|]. split; [done|]. eapply keeps_trans; [|exact K2]. eapply keeps_weaken, K1. done.
  - exists hw. cbn. auto using keeps_refl.
Qed.

Lemma inv_need X Q hw h b : inv X Q hw -> inv X Q (upd_hwq h (fun h => h <| need_processing := b |>) hw).
Proof.
  intros H. destruct H as [[L1 L2 L3 L4 L5] B C D E F G I J K]. split; try done. split; cbn.
  1: done.
  1: now rewrite length_alter.
  all: intros h' hq; (destruct (decide (h' = h)) as [->|Hn];
    [rewrite list_lookup_alter_eq; destruct (hwq hw !! h) as [x|] eqn:E2; [intros * [= <-]|done]
    |rewrite list_lookup_alter_ne by done]); cbn; eauto.
Qed.

Lemma inv_process Q hw h : inv None Q hw -> (h < 5)%nat ->
  exists hw', rwnx_hwq_process h hw = Ok hw' /\ inv None Q hw' /\ keeps (fun _ => True) None None hw hw'.
Proof.
  intros H Hh. unfold rwnx_hwq_process. set (hw1 := upd_hwq h _ hw).
  assert (inv None Q hw1) as H1 by now apply inv_need.
  destruct (hwq_exists _ _ _ _ _ _ _ H1 Hh) as (hq & Hhq & _). rewrite (get_hwq_ok _ _ _ Hhq). cbn [mbind res_bind].
  destruct (inv_loop Q h (process_fuel (hwq_list hq) hw1) hw1 (head (hwq_list hq)) hq H1 Hhq) as (hw2 & E2 & H2 & K2).
  - intros t Ht. destruct (hwq_list hq); [done|]. cbn in Ht. injection Ht as ->. left.
  - done.
  - eauto.
Qed.

Lemma inv_process_all Q hw : inv None Q hw ->
  exists hw', rwnx_hwq_process_all hw = Ok hw' /\ inv None Q hw' /\ keeps (fun _ => True) None None hw hw'.
Proof.
  intros H. unfold rwnx_hwq_process_all.
  apply (foldM_inv (fun hw' => inv None Q hw' /\ keeps (fun _ => True) None None hw hw')); [auto using keeps_refl|].
  intros h hw1 Hh [H1 K1]. assert (h < 5)%nat as Hlt by (set_unfold; lia).
  destruct (hwq_exists _ _ _ _ _ _ _ H1 Hlt) as (hq & Hhq & _). rewrite (get_hwq_ok _ _ _ Hhq). cbn [mbind res_bind].
  destruct (need_processing hq); [|eauto].
  destruct (inv_process _ _ _ H1 Hlt) as (hw2 & E2 & H2 & K2). exists hw2. eauto using keeps_trans.
Qed.

End Config.
End Drain.
