(* ===== verification/TxqSteps.v ===== *)
(** Operations on the transmit queues preserve the invariant of [TxqInv.v]:
    queueing a frame, confirmations and retries, initialisation, power save,
    and the transition system over all of them ([Steps]). *)
From stdpp Require Import base list numbers option relations.
From Stdlib Require Import ZArith Lia.
From S2P Require Import Prelude Txq TxqInv.

#[local] Open Scope Z_scope.
#[local] Open Scope aic_scope.

Import Hw.

Module Steps.
Import Spec Prim Sched Drain.

(** ** Retried frames *)

Lemma skb_append_spec i k l1 x l2 : sk_id x = i -> i ∉ (sk_id <$> l1) ->
  rwnx_skb_append i k (l1 ++ x :: l2) = Ok (l1 ++ x :: k :: l2).
Proof.
  intros Hx. induction l1 as [|y l1 IH]; intros Hn; cbn.
  - now rewrite Hx, Z.eqb_refl.
  - rewrite fmap_cons, not_elem_of_cons in Hn. destruct Hn as [Hy Hn].
    replace (sk_id y =? i) with false by (symmetry; apply Z.eqb_neq; congruence).
    now rewrite IH.
Qed.

Lemma queue_sk_list_spec k retry q : NoDup (sk_id <$> sk_list q) -> Z.of_nat (length (sk_list q)) < 65535 ->
  (idx q <> TXQ_INACTIVE -> retry_ok (nb_retry q) (last_retry_skb q) (sk_list q)) ->
  (retry = true -> idx q <> TXQ_INACTIVE) ->
  exists q', queue_sk_list k retry q = Ok q' /\
    q' = q <| sk_list := sk_list q' |> <| last_retry_skb := last_retry_skb q' |> <| nb_retry := nb_retry q' |> /\
    sk_list q' ≡ₚ k :: sk_list q /\ (retry = false -> sk_list q' = sk_list q ++ [k]) /\
    (idx q <> TXQ_INACTIVE -> retry_ok (nb_retry q') (last_retry_skb q') (sk_list q')).
Proof.
  intros Hnd Hl Hr Hret. unfold queue_sk_list. destruct retry; cbn [negb].
  - specialize (Hr (Hret eq_refl)). destruct Hr as [Hn Hlast].
    assert (s32 (nb_retry q + 1) = nb_retry q + 1) as E32 by (apply wrapS_small; lia).
    destruct (last_retry_skb q) as [i|].
    + destruct Hlast as [Hpos (x & Hx & Hi)].
      pose proof (take_drop_middle _ _ _ Hx) as Esp.
      set (l1 := take (Z.to_nat (nb_retry q - 1)) (sk_list q)) in *.
      set (l2 := drop (S (Z.to_nat (nb_retry q - 1))) (sk_list q)) in *.
      assert (length l1 = Z.to_nat (nb_retry q - 1)) as El by (unfold l1; rewrite length_take; lia).
      assert (rwnx_skb_append i k (sk_list q) = Ok (l1 ++ x :: k :: l2)) as ->.
      { rewrite <- Esp in Hnd |- *. apply skb_append_spec; [done|].
        rewrite fmap_app, fmap_cons, Hi in Hnd. apply NoDup_app in Hnd as (_ & Hd & _).
        intros Hin. apply (Hd _ Hin). left. }
      cbn [mbind res_bind]. eexists. split; [reflexivity|]. cbn. rewrite E32. split_and!; try done.
      * rewrite <- Esp. rewrite <- !Permutation_middle. apply Permutation_swap.
      * intros _. assert (length (sk_list q) = S (length l1 + length l2)) as EL.
        { rewrite <- Esp, length_app. cbn. lia. }
        split; [rewrite length_app; cbn; lia|]. split; [lia|]. exists k. split; [|done].
        rewrite lookup_app_r by lia. now replace (Z.to_nat (nb_retry q + 1 - 1) - length l1)%nat with 1%nat by lia.
    + cbn [mbind res_bind]. eexists. split; [reflexivity|]. cbn. rewrite E32, Hlast. split_and!; try done.
      intros _. split; [cbn; lia|]. split; [lia|]. now exists k.
  - eexists. split; [reflexivity|]. cbn. split_and!; try done.
    + now rewrite Permutation_app_comm.
    + intros Hi. destruct (Hr Hi) as [Hn Hlast]. split; [rewrite length_app; cbn; lia|].
      destruct (last_retry_skb q); [|done]. destruct Hlast as [Hp (x & Hx & Hx2)]. split; [done|].
      exists x. split; [|done]. now apply lookup_app_l_Some.
Qed.

Section Config.
Context (plat : rwnx_plat) (stas : list rwnx_sta) (vifs : list rwnx_vif).
#[local] Abbreviation txq_ok := (txq_ok plat stas vifs).
#[local] Abbreviation inv := (inv plat stas vifs).
Context (Hc : config_ok stas vifs).

Lemma inv_perm X Q Q' hw : inv X Q hw -> Q ≡ₚ Q' -> inv X Q' hw.
Proof.
  intros [A B C D E F G I J K] HP. split; try done; [now rewrite I|now rewrite <- HP].
Qed.

(** The frames of one queue have different identities. *)
Lemma sk_list_nodup Q hw t q : inv None Q hw -> txq hw !! t = Some q -> NoDup (sk_id <$> sk_list q).
Proof.
  intros H Hq. pose proof (i_nodup _ _ _ _ _ _ H) as Hn. rewrite <- (i_ids _ _ _ _ _ _ H) in Hn.
  unfold all_ids in Hn. cbn [app] in Hn. apply NoDup_app in Hn as (Hn & _).
  unfold frames in Hn. rewrite <- (take_drop_middle _ _ _ Hq) in Hn.
  rewrite bind_app, fmap_app in Hn. apply NoDup_app in Hn as (_ & _ & Hn). cbn in Hn.
  rewrite fmap_app in Hn. now apply NoDup_app in Hn as (Hn & _).
Qed.

Lemma status_flag_inv X Q hw t q f : inv X Q hw -> txq hw !! t = Some q ->
  has f RWNX_TXQ_IN_HWQ_LIST = false ->
  inv X Q (upd_txq t (fun q => q <| status ::= fun s => setf s f |>) hw).
Proof.
  intros H Hq Hf. set (hw1 := upd_txq t _ hw). set (q' := q <| status ::= fun s => setf s f |>).
  assert (txq hw1 = <[t := q']> (txq hw)) as Et by txq_insert hw1 Hq.
  assert (rwnx_txq_is_scheduled q' = rwnx_txq_is_scheduled q) as Es.
  { unfold rwnx_txq_is_scheduled. cbn. rewrite sched_setf, Hf. apply orb_false_r. }
  eapply inv_like; [exact H|exact Hq|exact Et|..]; try done; [apply H|].
  pose proof (i_txq _ _ _ _ _ _ H _ _ Hq) as Hok. unfold rwnx_txq_is_scheduled in Es. cbn in Es.
  apply txq_ok_status; [done|..]; rewrite Es.
  - intros Hn. pose proof (q_hwq _ _ _ _ _ _ Hok) as Hh. rewrite Hn in Hh. apply Hh.
  - apply Hok.
Qed.

(** The step on the station's counters that comes before the frame is linked. *)
Lemma inv_queue_ps Q hw t q : inv None Q hw -> txq hw !! t = Some q -> Z.of_nat (length (sk_list q)) < 65535 ->
  txq_hwq q <> None ->
  exists hw1, queue_ps q hw = Ok hw1 /\ inv (Some (t, [], 1)) Q hw1 /\ txq hw1 = txq hw /\ hwq hw1 = hwq hw /\
    tbusy hw1 = tbusy hw /\ (forall u, pushed u hw1 = pushed u hw).
Proof.
  intros H Hq Hl Hh. destruct (queue_ps_spec q hw) as (hw1 & E1 & HP).
  { intros s Hs. destruct (sta_ptr_exists _ _ _ _ _ _ _ _ _ H Hq Hs) as (st & Hst & _). eauto. }
  exists hw1. split; [done|].
  assert (txq hw1 = <[t := q]> (txq hw)) as Et by (rewrite (pp_txq _ _ _ _ HP); now rewrite list_insert_id).
  assert (forall (f : event -> list Z), (forall e, silent e -> f e = []) -> ev hw1 ≫= f = ev hw ≫= f) as Eev.
  { intros f Hf. apply (ps_step_bind _ _ _ _ f HP Hf). }
  assert (inv (Some (t, [], 0)) Q hw) as H0 by now apply inv_open.
  assert (line (Some (t, [], 1)) t q = sk_list q) as El by (unfold line; cbn; now rewrite decide_True).
  assert (line (Some (t, [], 0)) t q = sk_list q) as El0 by (unfold line; cbn; now rewrite decide_True).
  pose proof (i_txq _ _ _ _ _ _ H0 _ _ Hq) as Hok.
  split; [|split; [apply HP|split; [apply HP|split]]].
  - eapply (inv_set _ _ _ (Some (t, [], 0)) _ Q Q hw hw1 t q q); eauto; try solve [apply H].
    + eapply linked_set; eauto; [apply H|apply HP].
    + rewrite (pp_env _ _ _ _ HP). apply H.
    + rewrite (pp_bal _ _ _ _ HP). apply H.
    + apply (pp_strip _ _ _ _ HP).
    + apply HP.
    + apply focus_at_some.
    + destruct Hok as [A B C D E F G I]. split; rewrite ?El, ?El0 in *; try done.
      cbn. rewrite decide_True by done. lia.
    + intros k. unfold ring_frames. rewrite (pp_env _ _ _ _ HP). intros Hk.
      eapply waiting_set; eauto. eapply i_wait; eauto.
    + rewrite (all_ids_set _ hw hw1 t q q Hq Et eq_refl (pp_env _ _ _ _ HP));
        [exact (i_ids _ _ _ _ _ _ H)|]. apply Eev. now intros e [He _].
    + eapply (mc_ps_step _ _ _ (Some (t, [], 0)) (Some (t, [], 1)) Q hw hw1 t q q (txq_sta q) (ps_inc (ps_id q))); eauto using focus_at_some.
      * apply (pp_sta _ _ _ _ HP).
      * intros Hp x Hu. rewrite Hp, El, El0. cbn. rewrite !decide_True by done. split; [done|].
        intros Hi ->. rewrite u16_small; lia.
      * intros Hi Hn s st Hs Hm Ha Hg. rewrite <- Hg in Hq.
        destruct (i_ps _ _ _ _ _ _ H s st q Hs Hm Ha Hq) as (_ & _ & K). destruct (K Hi). congruence.
  - unfold queue_ps in E1. destruct (txq_sta q) as [s|]; [|now injection E1 as <-].
    destruct (get_sta s hw); [|done]. cbn in E1. unfold rwnx_set_traffic_status in E1.
    repeat case_match; injection E1 as <-; done.
  - intros u. apply Eev. now intros e [_ He].
Qed.

Lemma inv_link Q hw t q k retry : inv (Some (t, [], 1)) Q hw -> txq hw !! t = Some q -> txq_hwq q <> None ->
  NoDup (sk_id <$> sk_list q) -> Z.of_nat (length (sk_list q)) < 65535 ->
  frame_ok (length vifs) t (txq_sta q) k -> NoDup (sk_id k :: Q) -> (retry = true -> idx q <> TXQ_INACTIVE) ->
  exists q', queue_sk_list k retry q = Ok q' /\
    inv (Some (t, [], 0)) (sk_id k :: Q) (upd_txq t (fun _ => q') hw) /\
    q' = q <| sk_list := sk_list q' |> <| last_retry_skb := last_retry_skb q' |> <| nb_retry := nb_retry q' |> /\
    sk_list q' <> [] /\ (retry = false -> sk_list q' = sk_list q ++ [k]).
Proof.
  intros H Hq Hh Hnd Hl Hk HQ Hret. pose proof (i_txq _ _ _ _ _ _ H _ _ Hq) as Hok.
  assert (line (Some (t, [], 1)) t q = sk_list q) as El by (unfold line; cbn; now rewrite decide_True).
  destruct (queue_sk_list_spec k retry q Hnd Hl) as (q' & E & Eq & HP & Hf & Hr); [|done|].
  { intros Hi. rewrite <- El. now apply Hok. }
  exists q'. split; [done|]. set (hw' := upd_txq t _ hw).
  assert (txq hw' = <[t := q']> (txq hw)) as Et by txq_insert hw' Hq.
  assert (line (Some (t, [], 0)) t q' = sk_list q') as El' by (unfold line; cbn; now rewrite decide_True).
  assert (length (sk_list q') = S (length (sk_list q))) as Elen by (now rewrite HP).
  assert (txq_like q (q' <| sk_list := sk_list q |>) /\ status q' = status q /\ credits q' = credits q /\
          push_limit q' = push_limit q) as ((L1 & L2 & _ & L4 & L5) & L6 & L7 & L8) by (now rewrite Eq).
  cbn in L1, L2, L4, L5.
  split; [|split; [done|split; [|done]]].
  2:{ intros E0. rewrite E0 in Elen. done. }
  eapply (inv_set _ _ _ (Some (t, [], 1)) _ Q _ hw hw' t q q'); eauto; try solve [apply H].
  - eapply linked_set; eauto; [apply H|]. unfold rwnx_txq_is_scheduled. now rewrite L6.
  - apply focus_at_some.
  - destruct Hok as [A B C D F G I J]. rewrite El in *. split; rewrite ?El', ?L1, ?L2, ?L4, ?L7, ?L8.
    + destruct (txq_hwq q); done.
    + done.
    + rewrite Elen. split; [apply C|]. intros Hi. apply C in Hi. lia.
    + done.
    + rewrite HP. now constructor.
    + intros _ _. now left.
    + cbn in *. rewrite decide_True in * by done. lia.
    + intros s. unfold sta_ptr_ok in J. rewrite L2, L5. apply J.
  - intros x Hx. eapply waiting_set; eauto; [now rewrite L1|]. eapply i_wait; eauto.
  - rewrite <- (i_ids _ _ _ _ _ _ H). unfold all_ids. cbn [app fmap list_fmap].
    change (ring_frames hw') with (ring_frames hw). change (ev hw') with (ev hw).
    rewrite app_comm_cons. f_equiv. change (sk_id k :: (sk_id <$> frames hw)) with (sk_id <$> (k :: frames hw)).
    apply fmap_Permutation. pose proof (frames_insert _ _ _ _ _ Hq Et) as HF. rewrite HP in HF.
    apply (Permutation_app_inv_r (sk_list q)). rewrite HF. cbn. now rewrite Permutation_middle.
  - eapply (mc_ps_step _ _ _ (Some (t, [], 1)) (Some (t, [], 0)) Q hw hw' t q q' (txq_sta q) (fun x => x)); eauto using focus_at_some.
    + intros s st' Hs. split; [done|]. now exists st'.
    + intros _ x Hu. split; [done|]. intros _. rewrite El, El', Elen. cbn. rewrite !decide_True by done. lia.
    + intros Hi Hn s st Hs Hm Ha Hg. rewrite <- Hg in Hq.
      destruct (i_ps _ _ _ _ _ _ H s st q Hs Hm Ha Hq) as (_ & _ & K). destruct (K Hi). congruence.
Qed.

(** What [rwnx_txq_queue_skb] leaves: the queue with the frame, the others as they were. *)
Definition queued (t : nat) (k : sk_buff) (retry : bool) (hw hw' : rwnx_hw) : Prop :=
  (forall u, pushed u hw' = pushed u hw) /\
  (forall u x, u <> t -> txq hw !! u = Some x -> txq hw' !! u = Some x) /\
  forall q, txq hw !! t = Some q -> exists q', txq hw' !! t = Some q' /\ idx q' = idx q /\ txq_hwq q' = txq_hwq q /\
    (retry = false -> sk_list q' = sk_list q ++ [k]).

Lemma inv_queue Q hw t q k retry : inv None Q hw -> txq hw !! t = Some q -> txq_hwq q <> None ->
  Z.of_nat (length (sk_list q)) < 65535 -> frame_ok (length vifs) t (txq_sta q) k -> NoDup (sk_id k :: Q) ->
  (retry = true -> idx q <> TXQ_INACTIVE) ->
  exists b hw', rwnx_txq_queue_skb k t retry hw = Ok (b, hw') /\ inv None (sk_id k :: Q) hw' /\
    queued t k retry hw hw'.
Proof.
  intros H Hq Hh Hl Hk HQ Hret. pose proof (sk_list_nodup _ _ _ _ H Hq) as Hnd.
  unfold rwnx_txq_queue_skb. rewrite (get_txq_ok _ _ _ Hq). cbn [mbind res_bind].
  destruct (inv_queue_ps _ _ _ _ H Hq Hl Hh) as (hw1 & E1 & H1 & T1 & W1 & B1 & P1). rewrite E1. cbn [mbind res_bind].
  assert (txq hw1 !! t = Some q) as Hq1 by (now rewrite T1).
  destruct (inv_link _ _ _ _ _ retry H1 Hq1 Hh Hnd Hl Hk HQ Hret) as (q' & E2 & H2 & Eq & Hne & Hf).
  rewrite E2. cbn [mbind res_bind]. set (hw2 := upd_txq t _ hw1) in *.
  assert (txq hw2 = <[t := q']> (txq hw)) as Et2.
  { rewrite <- T1. txq_insert hw2 Hq1. }
  assert (txq hw2 !! t = Some q') as Hq2 by exact (txq_insert_lookup _ _ _ _ _ Hq Et2).
  assert (exists hw3 s3, queue_flow_ctrl t hw2 = Ok hw3 /\ inv (Some (t, [], 0)) (sk_id k :: Q) hw3 /\
            txq hw3 = <[t := q' <| status := s3 |>]> (txq hw) /\ (forall u, pushed u hw3 = pushed u hw)) as
    (hw3 & s3 & E3 & H3 & Et3 & P3).
  { unfold queue_flow_ctrl. rewrite (get_txq_ok _ _ _ Hq2). cbn [mbind res_bind]. destruct (_ && _ && _).
    - eexists _, (setf (status q') RWNX_TXQ_NDEV_FLOW_CTRL). split; [reflexivity|].
      pose proof (status_flag_inv _ _ _ _ _ RWNX_TXQ_NDEV_FLOW_CTRL H2 Hq2 eq_refl) as H3.
      split; [now apply inv_log|]. split.
      + change (txq (log ?e ?h)) with (txq h). rewrite (upd_txq_insert t _ hw2 _ Hq2), Et2.
        now rewrite list_insert_insert_eq.
      + intros u. unfold pushed. cbn. rewrite bind_app. cbn. rewrite app_nil_r. apply P1.
    - exists hw2, (status q'). split; [done|]. split; [done|]. now rewrite status_eta. }
  rewrite E3. cbn [mbind res_bind]. set (q3 := q' <| status := s3 |>).
  assert (txq hw3 !! t = Some q3) as Hq3 by exact (txq_insert_lookup _ _ _ _ _ Hq Et3).
  rewrite (get_txq_ok _ _ _ Hq3). cbn [mbind res_bind].
  assert (sk_list q3 = sk_list q' /\ idx q3 = idx q /\ txq_hwq q3 = txq_hwq q) as (S3 & I3 & W3) by
    (split; [done|]; unfold q3; rewrite Eq; done).
  assert (queued t k retry hw hw3) as HQ3.
  { split; [done|]. split.
    - intros u x Hn Hx. now rewrite Et3, list_lookup_insert_ne by done.
    - intros x Hx. exists q3. split; [done|]. replace x with q in * by congruence. rewrite S3. auto. }
  destruct (negb (rwnx_txq_is_stopped q3)).
  - destruct (inv_add _ _ _ _ _ _ _ _ H3 Hq3) as (hw4 & E4 & H4 & S4); [congruence|intros _; now right; rewrite S3|].
    rewrite E4. cbn [mbind res_bind]. exists true, hw4. split; [done|]. split.
    + eapply inv_close; [exact H4|]. intros x Hx _ _. destruct (so_txq _ _ _ S4 t q3 Hq3) as (s & Hs & _).
      simplify_eq. cbn. done.
    + destruct HQ3 as (A & B & C). split; [|split].
      * intros u. unfold pushed. rewrite (so_ev _ _ _ S4). apply A.
      * intros u x Hn Hx. destruct (so_txq _ _ _ S4 u x) as (s & Hs & Es); [auto|].
        rewrite Hs, (Es (fun e => Hn (eq_sym e))). now rewrite status_eta.
      * intros x Hx. destruct (C x Hx) as (x' & Hx' & ? & ? & ?). destruct (so_txq _ _ _ S4 t x' Hx') as (s & Hs & _).
        eexists. split; [exact Hs|]. cbn. auto.
  - exists false, hw3. split; [done|]. split; [|done]. eapply inv_close; [exact H3|].
    intros x Hx _ _. simplify_eq. now rewrite S3.
Qed.

(** ** Confirmations *)

Lemma inv_log_gone Q hw e i : inv None Q hw -> gone e = [i] -> NoDup (i :: Q) -> inv None (i :: Q) (log e hw).
Proof.
  intros [[L1 L2 L3 L4 L5] B C D E F G I J K] He HQ. split; try done. rewrite <- I. unfold all_ids. cbn.
  rewrite bind_app. cbn. rewrite He. cbn. rewrite !app_assoc. symmetry. apply Permutation_cons_append.
Qed.

Lemma inv_ring_take Q hw i k : inv None Q hw -> tx_host_id (usb_env hw) !! i = Some (Some k) ->
  exists Q1, Q ≡ₚ sk_id k :: Q1 /\ waiting_ok vifs hw k /\
    inv None Q1 (hw <| usb_env ::= fun e => e <| tx_host_id ::= <[i := None]> |> |>).
Proof.
  intros H Hi. set (hw' := hw <| usb_env ::= _ |>). exists (all_ids None hw').
  pose proof (omap_insert_perm id _ _ _ None Hi) as HP. cbn in HP.
  assert (all_ids None hw ≡ₚ sk_id k :: all_ids None hw') as HQ.
  { unfold all_ids. cbn [app]. change (frames hw') with (frames hw). change (ev hw') with (ev hw).
    unfold ring_frames. rewrite <- HP. cbn. now rewrite <- Permutation_middle. }
  split; [rewrite <- (i_ids _ _ _ _ _ _ H); exact HQ|]. split.
  - eapply i_wait; eauto. apply list_elem_of_omap. exists (Some k). split; [eapply list_elem_of_lookup_2; eauto|done].
  - destruct H as [[L1 L2 L3 L4 L5] B C D E F G I J K]. split; try done.
    + cbn. now rewrite length_insert.
    + intros x Hx. apply G. apply elem_of_ring_insert in Hx. now destruct Hx.
    + rewrite <- I, HQ in J. now apply NoDup_cons in J as [_ J].
Qed.

Lemma inv_ring_none Q hw i : inv None Q hw ->
  (forall k, tx_host_id (usb_env hw) !! i <> Some (Some k)) -> forall u,
  inv None Q (hw <| usb_env ::= fun e => e <| tx_host_id ::= <[i := None]> |> |>
                 <| usb_env ::= fun e => e <| txdesc_used_idx := u |> |>).
Proof.
  intros H Hi u.
  assert (<[i := None]> (tx_host_id (usb_env hw)) = tx_host_id (usb_env hw)) as Ei.
  { destruct (tx_host_id (usb_env hw) !! i) as [[k|]|] eqn:Ei; [now destruct (Hi k)|now apply list_insert_id|].
    apply list_insert_ge. now apply lookup_ge_None. }
  destruct H as [[L1 L2 L3 L4 L5] B C D E F G I J K]. cbn.
  split; unfold all_ids, ring_frames, Spec.waiting_ok in *; cbn; rewrite ?Ei; done.
Qed.

Lemma inv_confirm Q hw t h q : inv None Q hw -> txq hw !! t = Some q -> (h < 5)%nat ->
  exists hw' q', rwnx_txq_confirm_any t h hw = Ok hw' /\ inv None Q hw' /\ txq hw' = <[t := q']> (txq hw) /\
    q' = q <| pkt_pushed := pkt_pushed q' |> /\ usb_env hw' = usb_env hw /\ ev hw' = ev hw.
Proof.
  intros H Hq Hh. unfold rwnx_txq_confirm_any. rewrite (get_txq_ok _ _ _ Hq). cbn [mbind res_bind].
  destruct (hwq_exists _ _ _ _ _ _ _ H Hh) as (hq & Hhq & Eid). rewrite (get_hwq_ok _ _ _ Hhq). cbn [mbind res_bind].
  set (f := fun q => if negb (pkt_pushed q =? 0) then q <| pkt_pushed ::= fun n => n - 1 |> else q).
  set (hw1 := upd_txq t f hw).
  assert (txq hw1 = <[t := f q]> (txq hw)) as Et by txq_insert hw1 Hq.
  assert (f q = q <| pkt_pushed := pkt_pushed (f q) |>) as Ef by (unfold f; destruct q; cbn; case_match; done).
  assert (inv None Q hw1) as H1.
  { eapply inv_like; [exact H|exact Hq|exact Et|..]; try done; [apply H|now rewrite Ef|now rewrite Ef|].
    rewrite Ef. destruct (i_txq _ _ _ _ _ _ H _ _ Hq) as [A B C D F G I J]. by split. }
  eexists _, (f q). split; [reflexivity|]. split; [|done].
  eapply inv_same; [apply (inv_need _ _ _ _ _ _ h true H1)|..]; try done. cbn. rewrite length_alter. apply H.
Qed.

Lemma inv_credit Q hw t q : inv None Q hw -> txq hw !! t = Some q -> credits q < 127 -> idx q <> TXQ_INACTIVE ->
  inv None Q (upd_txq t (fun q => q <| credits ::= fun c => s8 (c + 1) |>) hw) /\ s8 (credits q + 1) = credits q + 1 /\
  0 < credits q.
Proof.
  intros H Hq Hcr Hi. pose proof (i_txq _ _ _ _ _ _ H _ _ Hq) as Hok.
  assert (0 < credits q <= 127) as Hb by (pose proof (q_credits _ _ _ _ _ _ Hok); intuition lia).
  assert (s8 (credits q + 1) = credits q + 1) as E8 by (apply wrapS_small; lia).
  split; [|lia]. set (hw1 := upd_txq t _ hw). set (q' := q <| credits ::= fun c => s8 (c + 1) |>).
  assert (txq hw1 = <[t := q']> (txq hw)) as Et by txq_insert hw1 Hq.
  eapply inv_like; [exact H|exact Hq|exact Et|..]; try done; [apply H|].
  destruct Hok as [A B C D F G I J]. split; try done. unfold q'. cbn. rewrite E8. lia.
Qed.

Lemma inv_retry Q hw t q k b : inv None Q hw -> txq hw !! t = Some q -> idx q <> TXQ_INACTIVE -> credits q < 127 ->
  Z.of_nat (length (sk_list q)) < 65535 -> frame_ok (length vifs) t (txq_sta q) k -> NoDup (sk_id k :: Q) ->
  exists hw', rwnx_tx_retry k b hw = Ok hw' /\ inv None (sk_id k :: Q) hw'.
Proof.
  intros H Hq Hi Hcr Hl Hk HQ. destruct (inv_credit _ _ _ _ H Hq Hcr Hi) as (H1 & E8 & Hpos).
  unfold rwnx_tx_retry. destruct Hk as (Hk1 & Hk2 & Hk3). rewrite Hk1, (get_txq_ok _ _ _ Hq). cbn [mbind res_bind].
  set (hw1 := upd_txq t _ hw) in *. set (q1 := q <| credits ::= fun c => s8 (c + 1) |>).
  assert (txq hw1 = <[t := q1]> (txq hw)) as Et by txq_insert hw1 Hq.
  assert (txq hw1 !! t = Some q1) as Hq1 by exact (txq_insert_lookup _ _ _ _ _ Hq Et).
  rewrite (get_txq_ok _ _ _ Hq1). cbn [mbind res_bind].
  replace (0 <? credits q1) with true by (symmetry; apply Z.ltb_lt; unfold q1; cbn; lia).
  destruct (inv_start _ _ _ _ _ _ _ _ RWNX_TXQ_STOP_FULL H1 Hq1) as (hw2 & E2 & H2 & S2); [done|].
  rewrite E2. cbn [mbind res_bind]. destruct (so_txq _ _ _ S2 _ _ Hq1) as (s & Hs & _).
  assert (txq_hwq q <> None) as Hh.
  { pose proof (q_hwq _ _ _ _ _ _ (i_txq _ _ _ _ _ _ H _ _ Hq)) as Hok. destruct (txq_hwq q); [done|].
    now destruct Hok. }
  set (k' := (if negb b then _ else _) <| desc_flags ::= _ |>).
  assert (sk_id k' = sk_id k /\ sw_txq k' = t /\ sw_sta k' = sw_sta k /\ sw_vif k' = sw_vif k) as (E1' & E2' & E3' & E4').
  { subst k'. destruct (negb b); done. }
  clearbody k'. rewrite <- E1' in HQ |- *.
  destruct (inv_queue Q hw2 t _ k' true H2 Hs) as (b' & hw3 & E3 & H3 & _); try done.
  - repeat split; [done|now rewrite E3'|now rewrite E4'].
  - rewrite E3. cbn [mbind res_bind]. eauto.
Qed.

(** The next retry of the frame in slot [i] does not overflow the credits of its queue. *)
Definition retry_room (i : nat) (hw : rwnx_hw) : Prop :=
  forall k q, tx_host_id (usb_env hw) !! i = Some (Some k) -> txq hw !! sw_txq k = Some q ->
    credits q < 127 /\ Z.of_nat (length (sk_list q)) < 65535.

Lemma inv_txdatacfm Q hw k v : inv None Q hw -> waiting_ok vifs hw k -> NoDup (sk_id k :: Q) ->
  (forall q, txq hw !! sw_txq k = Some q -> credits q < 127 /\ Z.of_nat (length (sk_list q)) < 65535) ->
  exists hw', rwnx_txdatacfm k v hw = Ok hw' /\ inv None (sk_id k :: Q) hw'.
Proof.
  intros H (q & Hq & Hh & Hk & h & Hlt & Eh) HQ Hroom. unfold rwnx_txdatacfm. destruct (usb_down hw).
  { eexists. split; [reflexivity|]. now apply inv_log_gone. }
  rewrite Eh, Nat2Z.id. destruct (inv_confirm _ _ _ _ _ H Hq Hlt) as (hw1 & q1 & E1 & H1 & Et & Eq & Eu & Ev).
  rewrite E1. cbn [mbind res_bind].
  assert (txq hw1 !! sw_txq k = Some q1) as Hq1 by exact (txq_insert_lookup _ _ _ _ _ Hq Et).
  rewrite (get_txq_ok _ _ _ Hq1). cbn [mbind res_bind].
  assert (idx q1 = idx q /\ credits q1 = credits q /\ sk_list q1 = sk_list q /\ txq_sta q1 = txq_sta q /\
    txq_hwq q1 = txq_hwq q /\ push_limit q1 = push_limit q) as (I1 & C1 & S1 & A1 & W1 & L1) by (now rewrite Eq).
  assert (forall hw2, inv None Q hw2 -> txq hw2 = txq hw1 -> exists hw3,
    (hw3 ← (if negb (idx q1 =? TXQ_INACTIVE) && (negb (push_limit q1 =? 0) && negb (rwnx_txq_is_full q1))
            then rwnx_txq_add_to_hw_list (sw_txq k) hw2 else Ok hw2);
     Ok (log (EvFreed k) hw3)) = Ok hw3 /\ inv None (sk_id k :: Q) hw3) as Hfin.
  { intros hw2 H2 E2. destruct (_ && _) eqn:Eb.
    - apply andb_true_iff in Eb as [Ei Eb]. apply andb_true_iff in Eb as [Ep _].
      rewrite negb_true_iff in Ei, Ep. apply Z.eqb_neq in Ei, Ep. rewrite <- E2 in Hq1.
      destruct (inv_add _ _ _ _ _ _ _ _ H2 Hq1) as (hw3 & E3 & H3 & _); [congruence| |].
      + intros _. right. destruct (q_limit _ _ _ _ _ _ (i_txq _ _ _ _ _ _ H2 _ _ Hq1)) as [P1 P2].
        specialize (P2 Ei). intros E0. unfold line in P2. rewrite E0 in P2. cbn in P2. lia.
      + rewrite E3. cbn [mbind res_bind]. eexists. split; [reflexivity|]. now apply inv_log_gone.
    - cbn [mbind res_bind]. eexists. split; [reflexivity|]. now apply inv_log_gone. }
  destruct (has (desc_flags k) TXU_CNTRL_MGMT).
  { apply Hfin; [|done]. now apply inv_log. }
  destruct (negb (idx q1 =? TXQ_INACTIVE) && (retry_required _ || _)) eqn:Eb; [|now apply Hfin].
  apply andb_true_iff in Eb as [Ei _]. rewrite negb_true_iff in Ei. apply Z.eqb_neq in Ei.
  destruct (Hroom q Hq) as [R1 R2].
  eapply inv_retry; eauto; [now rewrite C1|now rewrite S1|now rewrite A1].
Qed.

Lemma inv_cfm Q hw v u : inv None Q hw -> retry_room (txdesc_slot u) hw ->
  exists hw', aicwf_usb_host_tx_cfm_handler v u hw = Ok hw' /\ inv None Q hw'.
Proof.
  intros H Hroom. unfold aicwf_usb_host_tx_cfm_handler.
  destruct (tx_host_id (usb_env hw) !! txdesc_slot u) as [[k|]|] eqn:Ek.
  - destruct (inv_ring_take _ _ _ _ H Ek) as (Q1 & HP & Hw & H1).
    destruct (inv_txdatacfm Q1 (hw <| usb_env ::= fun e => e <| tx_host_id ::= <[txdesc_slot u := None]> |> |>) k v H1)
      as (hw' & E & H').
    + exact Hw.
    + rewrite <- HP. apply H.
    + intros q Hq. now apply (Hroom k q).
    + exists hw'. split; [done|]. eapply inv_perm; [exact H'|]. now rewrite HP.
  - eexists. split; [reflexivity|]. apply inv_ring_none; [done|]. now rewrite Ek.
  - eexists. split; [reflexivity|]. apply inv_ring_none; [done|]. now rewrite Ek.
Qed.

(** ** Initialisation *)

(** A queue nothing refers to: not scheduled, without frames. *)
Definition idle (q : rwnx_txq) : Prop := rwnx_txq_is_scheduled q = false /\ sk_list q = [].

(** A queue ready to be used again for the station [o]: frames in flight that
    name it, and group addressed stations in power save, do not conflict. *)
Definition renewable (t : nat) (o : option nat) (hw : rwnx_hw) : Prop :=
  (forall q, txq hw !! t = Some q -> idle q) /\
  (forall k, k ∈ ring_frames hw -> sw_txq k = t -> sw_sta k = o) /\
  (forall s st, sta_table hw !! s = Some st -> is_multicast_sta plat (sta_idx st) = true -> active (ps st) = true ->
     rwnx_txq_sta_get plat st 0 <> t).

Lemma linked_idle hw hw' t q q' : linked hw -> txq hw !! t = Some q -> txq hw' = <[t := q']> (txq hw) ->
  hwq hw' = hwq hw -> rwnx_txq_is_scheduled q' = false -> rwnx_txq_is_scheduled q = false -> linked hw'.
Proof.
  intros [L1 L2 L3 L4 L5] Hq Et Eh Hs' Hs. split; rewrite ?Eh.
  - now rewrite Et, length_insert.
  - done.
  - done.
  - done.
  - intros h hq u Hh'. rewrite (L5 h hq u Hh'). split.
    + intros (x & Hx & Hx1 & Hx2). exists x. rewrite Et, list_lookup_insert_ne; [done|]. intros ->. congruence.
    + intros (x & Hx & Hx1 & Hx2). destruct (txq_insert_inv _ _ _ _ _ _ _ Hq Et Hx) as [[-> ->]|[Hn Hx']]; [congruence|].
      now exists x.
Qed.

Lemma inv_renew Q hw hw' t q q' h : inv None Q hw -> txq hw !! t = Some q -> txq hw' = <[t := q']> (txq hw) ->
  hwq hw' = hwq hw -> sta_table hw' = sta_table hw -> vif_table hw' = vif_table hw -> usb_env hw' = usb_env hw ->
  cfm_balance hw' = cfm_balance hw -> ev hw' = ev hw -> renewable t (txq_sta q') hw ->
  idle q' -> txq_hwq q' = Some h -> (h < 5)%nat -> (bcmc_queue plat t -> h = RWNX_HWQ_BE) ->
  0 < credits q' <= 127 -> push_limit q' = 0 -> last_retry_skb q' = None -> nb_retry q' = 0 ->
  sta_ptr_ok plat stas t q' -> inv None Q hw'.
Proof.
  intros H Hq Et Eh Es Ev Eu Eb Ee (R1 & R2 & R3) [I1 I2] Hh Hlt Hbe Hcr Hpl Hlr Hnr Hsp.
  destruct (R1 q Hq) as [I3 I4]. eapply (inv_set _ _ _ None None Q Q hw hw' t q q'); eauto.
  - eapply linked_idle; eauto. apply H.
  - rewrite Eu. apply H.
  - rewrite Eb. apply H.
  - now rewrite Es.
  - apply focus_at_refl.
  - split; unfold line; cbn; rewrite ?Hh, ?Hpl, ?Hlr, ?Hnr, ?I2; cbn; try done; try lia. congruence.
  - intros k. unfold ring_frames. rewrite Eu. intros Hk. destruct (i_wait _ _ _ _ _ _ H k Hk) as (x & X1 & X2 & X3 & X4).
    destruct (decide (sw_txq k = t)) as [E|E].
    + exists q'. rewrite E in *. split; [eauto using txq_insert_lookup|]. split; [congruence|]. split; [|done].
      destruct X3 as (Y1 & Y2 & Y3). repeat split; try done. now apply R2.
    + exists x. rewrite Et, list_lookup_insert_ne by done. done.
  - rewrite (all_ids_set None hw hw' t q q' Hq Et); [apply H|congruence|done|now rewrite Ee].
  - apply H.
  - intros s st x Hs Hm Ha Hx. rewrite Es in Hs. specialize (R3 s st Hs Hm Ha).
    destruct (txq_insert_inv _ _ _ _ _ _ _ Hq Et Hx) as [[E _]|[Hn Hx']]; [now destruct (R3 E)|].
    eapply i_ps; eauto.
Qed.

Lemma sched_lt s : 0 <= s < 256 -> has s RWNX_TXQ_IN_HWQ_LIST = false -> has (u8 s) RWNX_TXQ_IN_HWQ_LIST = false.
Proof. intros Hs. now rewrite sched_u8. Qed.

(** [rwnx_txq_init], possibly followed by the choice of [ps_id]. *)
Lemma inv_init Q hw t i st h td o nd (f : rwnx_txq -> Z) : inv None Q hw -> (t < Z.to_nat NX_NB_TXQ)%nat ->
  ((i <? (if old_ic plat then NX_FIRST_VIF_TXQ_IDX_FOR_OLD_IC else NX_FIRST_VIF_TXQ_IDX)) = true -> is_Some o) ->
  (forall s, o = Some s -> is_Some (stas !! s)) ->
  has st RWNX_TXQ_IN_HWQ_LIST = false -> (h < 5)%nat -> (bcmc_queue plat t -> h = RWNX_HWQ_BE) ->
  renewable t o hw ->
  (forall s x, o = Some s -> stas !! s = Some x -> is_multicast_sta plat (sta_idx x) = true ->
     t = rwnx_txq_sta_get plat x 0 /\ forall q, f q = LEGACY_PS_ID) ->
  exists hw', rwnx_txq_init plat t i st h td o nd hw = Ok hw' /\
    inv None Q hw' /\ inv None Q (upd_txq t (fun q => q <| ps_id := f q |>) hw') /\
    sta_table hw' = sta_table hw /\ vif_table hw' = vif_table hw /\ usb_env hw' = usb_env hw /\
    (forall u, u <> t -> txq hw' !! u = txq hw !! u).
Proof.
  intros H Ht Hvif Ho Hst Hh Hbe Hren Hmc. destruct (txq_exists _ _ _ _ _ _ _ H Ht) as [q Hq].
  assert (exists nd', init_ndev_idx plat i o hw = Ok nd') as [nd' End].
  { unfold init_ndev_idx. cbn zeta. destruct (i <? _) eqn:Ei; [|match goal with |- exists _, (if ?b then _ else _) = _ => destruct b end; eexists; reflexivity].
    destruct (Hvif eq_refl) as [s ->]. cbn [from_option_res mbind res_bind].
    destruct (Ho s eq_refl) as [x Hx]. destruct (sta_exists _ _ _ _ _ _ _ _ H Hx) as (x' & Hx' & _).
    rewrite (get_sta_ok _ _ _ Hx'). cbn [mbind res_bind]. eexists. reflexivity. }
  unfold rwnx_txq_init. rewrite End.
  cbn [mbind res_bind]. rewrite (get_txq_ok _ _ _ Hq). cbn [mbind res_bind].
  set (q0 := mk_txq _ _ _ _ _ _ _ _ _ _ _ _ _ _ _). set (hw0 := upd_txq t _ hw).
  assert (txq hw0 = <[t := q0]> (txq hw)) as Et by txq_insert hw0 Hq.
  assert (txq hw0 !! t = Some q0) as Hq0 by exact (txq_insert_lookup _ _ _ _ _ Hq Et).
  assert (forall q1 hw1, q1 = q0 <| ps_id := ps_id q1 |> -> txq hw1 = <[t := q1]> (txq hw) ->
    hwq hw1 = hwq hw -> sta_table hw1 = sta_table hw -> vif_table hw1 = vif_table hw -> usb_env hw1 = usb_env hw ->
    cfm_balance hw1 = cfm_balance hw -> ev hw1 = ev hw ->
    (ps_id q1 = LEGACY_PS_ID \/ exists q, ps_id q1 = f q) -> inv None Q hw1) as Hinv.
  { intros q1 hw1 E1 T1 T2 T3 T4 T5 T6 T7 Hps. eapply (inv_renew _ _ _ _ _ q1 h); eauto; rewrite E1; try done.
    - split; [|done]. unfold rwnx_txq_is_scheduled. cbn. now rewrite sched_u8.
    - intros s Hs. destruct (Ho s Hs) as [x Hx]. exists x. split; [done|]. intros Hm.
      destruct (Hmc s x Hs Hx Hm) as [-> Hf]. split; [done|]. cbn. destruct Hps as [->|[y ->]]; auto. }
  exists hw0. split; [done|]. split; [|split; [|split; [done|split; [done|split; [done|]]]]].
  - apply (Hinv q0 hw0); try done. now left.
  - set (hw1 := upd_txq t _ hw0). set (q1 := q0 <| ps_id := f q0 |>).
    assert (txq hw1 = <[t := q1]> (txq hw0)) as Et1 by txq_insert hw1 Hq0.
    apply (Hinv q1 hw1); try done; [now rewrite Et1, Et, list_insert_insert_eq|]. right. now exists q0.
  - intros u Hu. rewrite Et. now rewrite list_lookup_insert_ne by done.
Qed.

(** [rwnx_txq_deinit]: the queue is unlinked, inactive and empty. *)
Lemma inv_deinit Q hw t q : inv None Q hw -> txq hw !! t = Some q ->
  exists hw', rwnx_txq_deinit t hw = Ok hw' /\ inv None Q hw' /\
    (idx q <> TXQ_INACTIVE -> ev hw' = ev hw ++ (EvFreed <$> sk_list q)) /\
    (exists q', txq hw' !! t = Some q' /\ idx q' = TXQ_INACTIVE /\
       (idx q <> TXQ_INACTIVE -> idle q') /\ (idx q = TXQ_INACTIVE -> hw' = hw)) /\
    (forall u x, u <> t -> txq hw !! u = Some x -> txq hw' !! u = Some x).
Proof.
  intros H Hq. unfold rwnx_txq_deinit. rewrite (get_txq_ok _ _ _ Hq). cbn [mbind res_bind].
  destruct (Z.eqb_spec (idx q) TXQ_INACTIVE) as [Hi|Hi].
  { exists hw. split; [done|]. split; [done|]. split; [done|]. split; [|done]. exists q. done. }
  destruct (inv_del _ _ _ _ _ _ _ _ H Hq) as (hw1 & E1 & H1 & S1 & U1 & L1). rewrite E1. cbn [mbind res_bind].
  destruct (so_txq _ _ _ S1 t q Hq) as (s & Hs & _). specialize (U1 _ Hs). set (q1 := q <| status := s |>) in *.
  set (hw2 := upd_txq t _ hw1). set (q2 := q1 <| idx := TXQ_INACTIVE |>).
  assert (txq hw2 = <[t := q2]> (txq hw1)) as Et by txq_insert hw2 Hs.
  assert (txq hw2 !! t = Some q2) as Hq2 by exact (txq_insert_lookup _ _ _ _ _ Hs Et).
  pose proof (i_txq _ _ _ _ _ _ H1 _ _ Hs) as Hok.
  assert (txq_hwq q1 <> None) as Hh.
  { pose proof (q_hwq _ _ _ _ _ _ Hok) as Hh. destruct (txq_hwq q1); [done|]. now destruct Hh. }
  assert (inv None Q hw2) as H2.
  { eapply (inv_set _ _ _ None None Q Q hw1 hw2 t q1 q2); eauto; try solve [apply H1].
    - apply (linked_set hw1 hw2 t q1 q2); try done. apply H1.
    - apply focus_at_refl.
    - destruct Hok as [A B C D F G I J]. split; try done.
      + change (txq_hwq q2) with (txq_hwq q1). destruct (txq_hwq q1); done.
      + split; [apply B|]. now intros [].
      + split; [apply C|]. now intros [].
    - intros k Hk. apply (waiting_set vifs hw1 hw2 t q1 q2); try done. apply (i_wait _ _ _ _ _ _ H1 k Hk).
    - rewrite (all_ids_set None hw1 hw2 t q1 q2 Hs Et); try done. apply H1.
    - intros s' st x Hs' Hm Ha Hx. destruct (txq_insert_inv _ _ _ _ _ _ _ Hs Et Hx) as [[Eu ->]|[Hn Hx']].
      + rewrite <- Eu in Hs. destruct (i_ps _ _ _ _ _ _ H1 s' st q1 Hs' Hm Ha Hs) as (K1 & K2 & _).
        split; [done|]. split; [done|]. now intros [].
      + eapply i_ps; eauto. }
  destruct (inv_flush _ _ _ _ _ _ _ H2 Hq2 eq_refl) as (hw3 & E3 & H3 & _ & T3 & V3 & _).
  exists hw3. split; [done|]. split; [done|]. split.
  { intros _. rewrite V3. cbn. now rewrite (so_ev _ _ _ S1). }
  split.
  - eexists. split; [exact (txq_insert_lookup _ _ _ _ _ Hq2 T3)|]. split; [done|]. split; [|done].
    intros _. split; [exact U1|done].
  - intros u x Hn Hx. rewrite T3, list_lookup_insert_ne, Et, list_lookup_insert_ne by done.
    destruct (so_txq _ _ _ S1 u x Hx) as (s' & Hs' & Es'). rewrite Hs', (Es' (fun e => Hn (eq_sym e))).
    now rewrite status_eta.
Qed.

(** ** Power save *)

Lemma inv_upd_ps Q hw s g : inv None Q hw ->
  (forall st q, sta_table hw !! s = Some st -> is_multicast_sta plat (sta_idx st) = true ->
     active (g (ps st)) = true -> txq hw !! rwnx_txq_sta_get plat st 0 = Some q ->
     txq_hwq q <> None /\ uapsd (pkt_ready (g (ps st))) = 0 /\
     (idx q <> TXQ_INACTIVE -> txq_sta q = Some s /\
        legacy (pkt_ready (g (ps st))) = Z.of_nat (length (sk_list q)))) ->
  inv None Q (upd_ps s g hw).
Proof.
  intros [[L1 L2 L3 L4 L5] B C D E F G I J K] Hg. split; try done.
  - rewrite <- D. apply list_eq. intros i. cbn. rewrite !list_lookup_fmap. destruct (decide (i = s)) as [->|Hn].
    + rewrite list_lookup_alter_eq. now destruct (sta_table hw !! s).
    + now rewrite list_lookup_alter_ne by done.
  - intros s' st q Hs Hm Ha Hq. cbn in Hs. destruct (decide (s' = s)) as [->|Hn].
    + rewrite list_lookup_alter_eq in Hs. destruct (sta_table hw !! s) as [st0|] eqn:E0; [|done]. injection Hs as <-.
      destruct (Hg st0 q eq_refl Hm Ha Hq) as (K1 & K2 & K3). split; [done|]. split; [done|]. intros Hi.
      destruct (K3 Hi). split; [done|]. unfold line. cbn in *. lia.
    + rewrite list_lookup_alter_ne in Hs by done. now apply (K s' st q).
Qed.

Lemma stop_upd_ps t r s g hw : rwnx_txq_stop t r (upd_ps s g hw) = upd_ps s g <$> rwnx_txq_stop t r hw.
Proof.
  unfold rwnx_txq_stop, rwnx_txq_del_from_hw_list, get_txq. cbn. destruct (txq hw !! t) as [q|] eqn:Eq; [|done]. cbn.
  destruct (negb (idx q =? TXQ_INACTIVE)); [|done]. rewrite list_lookup_alter_eq, Eq. cbn.
  now destruct (has _ _).
Qed.

Lemma foldM_fmap {A T} (f : A -> T -> res T) (h : T -> T) l x : (forall a y, f a (h y) = h <$> f a y) ->
  foldM f l (h x) = h <$> foldM f l x.
Proof.
  intros Hf. revert x. induction l as [|a l IH]; intros x; [done|]. cbn. rewrite Hf.
  destruct (f a x); [|done]. cbn. apply IH.
Qed.

(** Stopping a station's queues does not look at its counters. *)
Lemma sta_stop_upd_ps s r g hw st : sta_table hw !! s = Some st ->
  rwnx_txq_sta_stop plat s r (upd_ps s g hw) = upd_ps s g <$> rwnx_txq_sta_stop plat s r hw.
Proof.
  intros Hs. unfold rwnx_txq_sta_stop, get_sta. cbn. rewrite list_lookup_alter_eq, Hs. cbn.
  change (foreach_sta_txq plat (st <| ps ::= g |>)) with (foreach_sta_txq plat st).
  unfold foreach_sta_txq. apply (foldM_fmap (fun (tt : nat * Z) => rwnx_txq_stop tt.1 r)).
  intros a y. apply stop_upd_ps.
Qed.

Lemma upd_ps_comp s f g hw : upd_ps s g (upd_ps s f hw) = upd_ps s (fun p => g (f p)) hw.
Proof.
  destruct hw as [q h l v e b t d ev]. unfold upd_ps. cbn. f_equal. apply list_eq. intros i.
  destruct (decide (i = s)) as [->|Hn].
  - rewrite !list_lookup_alter_eq. now destruct (l !! s).
  - now rewrite !list_lookup_alter_ne by done.
Qed.

(** A station whose queues have been initialised and, for a group addressed
    one, whose queue belongs to it. *)
Definition ps_ready (s : nat) (hw : rwnx_hw) : Prop :=
  match sta_table hw !! s with
  | None => False
  | Some st =>
      is_multicast_sta plat (sta_idx st) = true ->
      match txq hw !! rwnx_txq_sta_get plat st 0 with
      | Some q => txq_hwq q <> None /\ (idx q <> TXQ_INACTIVE -> txq_sta q = Some s)
      | None => False
      end
  end.

Lemma inv_ps_enable_true Q hw s : inv None Q hw -> ps_ready s hw ->
  exists hw', rwnx_ps_bh_enable plat s true hw = Ok hw' /\ inv None Q hw'.
Proof.
  intros H Hr. unfold ps_ready in Hr. destruct (sta_table hw !! s) as [st|] eqn:Hs; [|done].
  unfold rwnx_ps_bh_enable. rewrite (get_sta_ok _ _ _ Hs). cbn [mbind res_bind].
  set (f := fun p : rwnx_sta_ps => p <| active := true |> <| sp_cnt := mk_by_ps 0 0 |>).
  rewrite (sta_stop_upd_ps _ _ _ _ _ Hs).
  destruct (inv_sta_stop _ _ _ Hc _ _ _ s (strip st) RWNX_TXQ_STOP_STA_PS H) as (hw1 & E1 & H1 & S1);
    [eapply sta_static; eauto|done|].
  rewrite E1. cbn [fmap res_fmap mbind res_bind].
  assert (sta_table hw1 !! s = Some st) as Hs1 by (now rewrite (so_sta _ _ _ S1)).
  destruct (is_multicast_sta plat (sta_idx st)) eqn:Em.
  - specialize (Hr eq_refl). destruct (txq hw !! rwnx_txq_sta_get plat st 0) as [q|] eqn:Hq; [|done].
    destruct Hr as [Hh Ho]. destruct (so_txq _ _ _ S1 _ _ Hq) as (x & Hx & _).
    unfold get_txq. cbn [txq upd_ps]. change (txq (upd_ps s f hw1)) with (txq hw1). rewrite Hx. cbn [from_option_res mbind res_bind].
    eexists. split; [reflexivity|]. rewrite upd_ps_comp. apply inv_upd_ps; [done|].
    intros st' q' Hs' _ _ Hq'. simplify_eq. cbn in *. split; [done|]. split; [done|]. intros Hi.
    split; [now apply Ho|]. apply u16_small. pose proof (q_len _ _ _ _ _ _ (i_txq _ _ _ _ _ _ H _ _ Hq)) as Hl.
    unfold line in Hl. cbn in Hl. lia.
  - assert (forall g hw', inv None Q hw' -> sta_table hw' !! s <> None -> inv None Q (upd_ps s g hw')) as Hup.
    { intros g hw' H' _. apply inv_upd_ps; [done|]. intros st' q Hs' Hm. exfalso.
      assert (is_multicast_sta plat (sta_idx (strip st')) = is_multicast_sta plat (sta_idx (strip st))) as E2.
      { pose proof (sta_static _ _ _ _ _ _ _ _ H' Hs') as A1. pose proof (sta_static _ _ _ _ _ _ _ _ H Hs) as A2. congruence. }
      change (sta_idx (strip st')) with (sta_idx st') in E2. change (sta_idx (strip st)) with (sta_idx st) in E2. congruence. }
    set (hw2 := upd_ps s f hw1).
    assert (inv None Q hw2) as H2 by (apply Hup; [done|congruence]).
    assert (exists st2, sta_table hw2 !! s = Some st2 /\ foreach_sta_txq plat st2 = foreach_sta_txq plat st) as (st2 & Hs2 & E2).
    { exists (st <| ps ::= f |>). split; [|done]. cbn. now rewrite list_lookup_alter_eq, Hs1. }
    set (hw3 := upd_ps s _ hw2).
    assert (inv None Q hw3) as H3 by (apply Hup; [done|congruence]).
    assert (exists st3, sta_table hw3 !! s = Some st3 /\ foreach_sta_txq plat st3 = foreach_sta_txq plat st) as (st3 & Hs3 & E3).
    { eexists. split; [cbn; rewrite list_lookup_alter_eq, list_lookup_alter_eq, Hs1; reflexivity|done]. }
    rewrite <- E3.
    destruct (inv_foreach _ _ _ Hc (fun t _ hw => q ← get_txq t hw;
        Ok (upd_ps s (fun p => p <| pkt_ready ::= ps_upd (ps_id q) (fun n => n + Z.of_nat (length (sk_list q))) |>) hw))
        (fun _ => True) s st3 None Q hw3 H3 Hs3 I) as (hw4 & E4 & H4 & _); [|eauto].
    intros t tid hw' Hlt H' _. destruct (txq_exists _ _ _ _ _ _ _ H' Hlt) as [q Hq].
    rewrite (get_txq_ok _ _ _ Hq). cbn [mbind res_bind]. eexists. split; [reflexivity|]. split; [|done].
    apply Hup; [done|]. intros E0. destruct (sta_exists _ _ _ _ _ _ _ _ H' (sta_static _ _ _ _ _ _ _ _ H Hs)) as (? & ? & _).
    congruence.
Qed.

(** Giving up the rest of a service period. *)
Lemma inv_limit0 Q hw t q : inv None Q hw -> txq hw !! t = Some q ->
  inv None Q (upd_txq t (fun q => q <| push_limit := 0 |>) hw).
Proof.
  intros H Hq. set (hw1 := upd_txq t _ hw). set (q' := q <| push_limit := 0 |>).
  assert (txq hw1 = <[t := q']> (txq hw)) as Et by txq_insert hw1 Hq.
  eapply inv_like; [exact H|exact Hq|exact Et|..]; try done; [apply H|].
  destruct (i_txq _ _ _ _ _ _ H _ _ Hq) as [A B C D F G I J]. split; try done.
  split; [done|]. intros _. change (push_limit q') with 0. lia.
Qed.

Lemma inv_foreach_limit0 Q hw s st : inv None Q hw -> sta_table hw !! s = Some st ->
  exists hw', foreach_sta_txq plat st (fun t _ hw => _ ← get_txq t hw; Ok (upd_txq t (fun q => q <| push_limit := 0 |>) hw)) hw
    = Ok hw' /\ inv None Q hw' /\ sta_table hw' = sta_table hw.
Proof.
  intros H Hs. eapply (inv_foreach _ _ _ Hc _ (fun hw' => sta_table hw' = sta_table hw)); eauto.
  intros t tid hw' Hlt H' E. destruct (txq_exists _ _ _ _ _ _ _ H' Hlt) as [q Hq].
  rewrite (get_txq_ok _ _ _ Hq). cbn [mbind res_bind]. eexists. split; [reflexivity|].
  split; [eapply inv_limit0; eauto|done].
Qed.

Lemma mc_txq_be X Q hw s st q : inv X Q hw -> sta_table hw !! s = Some st -> is_multicast_sta plat (sta_idx st) = true ->
  txq hw !! rwnx_txq_sta_get plat st 0 = Some q ->
  bcmc_queue plat (rwnx_txq_sta_get plat st 0) /\
  (txq_hwq q = None \/ txq_hwq q = Some RWNX_HWQ_BE).
Proof.
  intros H Hs Hm Hq. assert (bcmc_queue plat (rwnx_txq_sta_get plat st 0)) as Hb.
  { destruct (sta_range _ _ _ Hc _ _ _ _ _ H Hs) as (_ & E2 & _). unfold bcmc_queue, rwnx_txq_sta_get, rwnx_txq_sta_idx.
    rewrite Hm. change (NX_NB_TXQ_PER_STA <=? 0) with false. cbn match. unfold NX_VIRT_DEV_MAX in *.
    destruct (old_ic plat); unfold NX_FIRST_BCMC_TXQ_IDX_FOR_OLD_IC, NX_FIRST_BCMC_TXQ_IDX,
      NX_FIRST_VIF_TXQ_IDX, NX_FIRST_VIF_TXQ_IDX_FOR_OLD_IC, NX_REMOTE_STA_MAX_FOR_OLD_IC, NX_REMOTE_STA_MAX,
      NX_NB_TXQ_PER_STA, NX_NB_TID_PER_STA; lia. }
  split; [done|]. pose proof (q_hwq _ _ _ _ _ _ (i_txq _ _ _ _ _ _ H _ _ Hq)) as Hh.
  destruct (txq_hwq q); [|now left]. right. f_equal. now apply Hh.
Qed.

Lemma inv_ps_enable_false Q hw s st : inv None Q hw -> stas !! s = Some st ->
  exists hw', rwnx_ps_bh_enable plat s false hw = Ok hw' /\ inv None Q hw'.
Proof.
  intros H Hst. destruct (sta_exists _ _ _ _ _ _ _ _ H Hst) as (st' & Hs & Est).
  unfold rwnx_ps_bh_enable. rewrite (get_sta_ok _ _ _ Hs). cbn [mbind res_bind].
  set (hw1 := upd_ps s _ hw). assert (inv None Q hw1) as H1 by (apply inv_upd_ps; [done|]; cbn; done).
  assert (exists st1, sta_table hw1 !! s = Some st1 /\ strip st1 = strip st') as (st1 & Hs1 & Est1).
  { eexists. split; [cbn; rewrite list_lookup_alter_eq, Hs; reflexivity|done]. }
  assert (foreach_sta_txq plat st' = foreach_sta_txq plat st1) as Ef.
  { change (foreach_sta_txq plat st') with (foreach_sta_txq plat (strip st')). now rewrite <- Est1. }
  assert (rwnx_txq_sta_get plat st' = rwnx_txq_sta_get plat st1) as Eg.
  { change (rwnx_txq_sta_get plat st') with (rwnx_txq_sta_get plat (strip st')). now rewrite <- Est1. }
  assert (sta_idx st' = sta_idx st1) as Ei.
  { change (sta_idx st') with (sta_idx (strip st')). now rewrite <- Est1. }
  rewrite Ef, Eg, Ei.
  assert (exists hw2, (if is_multicast_sta plat (sta_idx st1) then
      _ ← get_txq (rwnx_txq_sta_get plat st1 0) hw1;
      Ok (upd_txq (rwnx_txq_sta_get plat st1 0) (fun q => q <| txq_hwq := Some RWNX_HWQ_BE |> <| push_limit := 0 |>) hw1)
    else foreach_sta_txq plat st1 (fun t _ hw => _ ← get_txq t hw; Ok (upd_txq t (fun q => q <| push_limit := 0 |>) hw)) hw1)
      = Ok hw2 /\ inv None Q hw2) as (hw2 & E2 & H2).
  { destruct (is_multicast_sta plat (sta_idx st1)) eqn:Em.
    - assert (rwnx_txq_sta_get plat st1 0 < Z.to_nat NX_NB_TXQ)%nat as Hlt by (eapply sta_txq_range; eauto; done).
      destruct (txq_exists _ _ _ _ _ _ _ H1 Hlt) as [q Hq]. rewrite (get_txq_ok _ _ _ Hq). cbn [mbind res_bind].
      eexists. split; [reflexivity|]. destruct (mc_txq_be _ _ _ _ _ _ H1 Hs1 Em Hq) as [Hb Hh].
      set (t := rwnx_txq_sta_get plat st1 0) in *. set (hw2 := upd_txq t _ hw1).
      set (q' := q <| txq_hwq := Some RWNX_HWQ_BE |> <| push_limit := 0 |>).
      assert (txq hw2 = <[t := q']> (txq hw1)) as Et by txq_insert hw2 Hq.
      pose proof (i_txq _ _ _ _ _ _ H1 _ _ Hq) as Hok.
      eapply (inv_set _ _ _ None None Q Q hw1 hw2 t q q'); eauto; try solve [apply H1].
      + destruct Hh as [Hh|Hh].
        * pose proof (q_hwq _ _ _ _ _ _ Hok) as Hn. rewrite Hh in Hn. destruct Hn as (_ & Hn & _).
          eapply (linked_idle hw1 hw2 t q q'); try done. apply H1.
        * eapply (linked_set hw1 hw2 t q q'); try done. apply H1.
      + apply focus_at_refl.
      + destruct Hok as [A B C D F G I J]. split; try done.
        * split; [unfold RWNX_HWQ_BE; lia|done].
        * split; [done|]. intros _. change (push_limit q') with 0. lia.
      + intros k Hk. apply (waiting_set vifs hw1 hw2 t q q'); try done. apply (i_wait _ _ _ _ _ _ H1 k Hk).
      + rewrite (all_ids_set None hw1 hw2 t q q' Hq Et); try done. apply H1.
      + intros s' x y Hs' Hm Ha Hy. destruct (txq_insert_inv _ _ _ _ _ _ _ Hq Et Hy) as [[Eu ->]|[Hn Hy']].
        * rewrite <- Eu in Hq. destruct (i_ps _ _ _ _ _ _ H1 s' x q Hs' Hm Ha Hq) as (K1 & K2 & K3). done.
        * apply (i_ps _ _ _ _ _ _ H1 s' x y Hs' Hm Ha Hy').
    - destruct (inv_foreach_limit0 _ _ _ _ H1 Hs1) as (hw2 & ? & ? & _). eauto. }
  rewrite E2. cbn [mbind res_bind].
  destruct (inv_sta_start _ _ _ Hc _ _ _ s st RWNX_TXQ_STOP_STA_PS H2 Hst) as (hw3 & E3 & H3 & S3); [done|].
  rewrite E3. cbn [mbind res_bind]. destruct (sta_exists _ _ _ _ _ _ _ _ H3 Hst) as (st3 & Hs3 & _).
  rewrite (get_sta_ok _ _ _ Hs3). cbn [mbind res_bind]. eexists. split; [reflexivity|]. apply inv_log; [|done].
  destruct (negb _); [|done]. unfold rwnx_set_traffic_status. destruct (tdls_active st3); now apply inv_log.
Qed.

(** ** Traffic requests *)

Lemma inv_sp_grant Q hw s t q p n : inv None Q hw -> txq hw !! t = Some q -> txq_hwq q <> None -> 0 <= n ->
  (idx q <> TXQ_INACTIVE -> sk_list q <> [] /\ n <= Z.of_nat (length (sk_list q)) /\ n <= 127) ->
  exists hw', sp_grant s t p n hw = Ok hw' /\ inv None Q hw'.
Proof.
  intros H Hq Hh Hn Hb. unfold sp_grant. set (hw1 := upd_txq t _ hw). set (q' := q <| push_limit := u8 n |>).
  assert (txq hw1 = <[t := q']> (txq hw)) as Et by txq_insert hw1 Hq.
  pose proof (i_txq _ _ _ _ _ _ H _ _ Hq) as Hok.
  assert (inv None Q hw1) as H1.
  { eapply inv_like; [exact H|exact Hq|exact Et|..]; try done; [apply H|].
    destruct Hok as [A B C D F G I J]. split; try done. split; [apply wrapU_bound; lia|].
    intros Hi. destruct (Hb Hi) as (_ & ? & ?). change (push_limit q') with (u8 n). rewrite wrapU_small by lia. done. }
  set (hw2 := upd_ps s _ hw1).
  assert (inv None Q hw2) as H2.
  { apply inv_upd_ps; [done|]. intros st x Hs Hm Ha Hx.
    destruct (i_ps _ _ _ _ _ _ H1 s st x Hs Hm Ha Hx) as (K1 & K2 & K3). split; [done|]. split; [done|].
    intros Hi. destruct (K3 Hi). split; [done|]. unfold line in *. cbn in *. lia. }
  destruct (inv_add plat stas vifs None Q hw2 t q') as (hw3 & E3 & H3 & _); eauto.
  - exact (txq_insert_lookup _ _ _ _ _ Hq Et).
  - intros Hi. right. now destruct (Hb Hi).
Qed.

(** What a loop over the queues can come to. *)
Definition ok_or_oob (Q : list Z) (r : res rwnx_hw) : Prop :=
  (exists hw', r = Ok hw' /\ inv None Q hw') \/ r = Fault OutOfBounds.

Lemma inv_prio_body Q s st p tid next pkt_req hw : inv None Q hw -> sta_table hw !! s = Some st ->
  0 <= tid < NX_NB_TXQ_PER_STA -> 0 <= pkt_req <= 65535 ->
  (forall r hw', inv None Q hw' -> 0 <= r <= 65535 -> ok_or_oob Q (next r hw')) ->
  ok_or_oob Q (prio_body plat s st p tid next pkt_req hw).
Proof.
  intros H Hs Ht Hp Hnext. pose proof (sta_txq_range _ _ _ Hc _ _ _ _ _ tid H Hs Ht) as Hlt.
  destruct (txq_exists _ _ _ _ _ _ _ H Hlt) as [q Hq]. unfold prio_body. rewrite (get_txq_ok _ _ _ Hq). cbn [mbind res_bind].
  pose proof (i_txq _ _ _ _ _ _ H _ _ Hq) as Hok.
  assert (0 <= Z.of_nat (length (sk_list q)) <= 65535) as Hlen.
  { pose proof (q_len _ _ _ _ _ _ Hok) as Hl. unfold line in Hl. cbn in Hl. lia. }
  rewrite (u16_small (Z.of_nat (length (sk_list q)))) by done.
  destruct (negb (ps_id q =? p)); [auto|].
  destruct (q_credits _ _ _ _ _ _ Hok) as [Hcr _].
  rewrite (u16_small (credits q)) by lia. set (n := if credits q <? _ then _ else _).
  assert (0 <= n <= 127 /\ n <= Z.of_nat (length (sk_list q))) as [Hn1 Hn2].
  { unfold n. destruct (Z.ltb_spec (credits q) (Z.of_nat (length (sk_list q)))); lia. }
  clearbody n. destruct (Z.eqb_spec n 0) as [En|En]; [auto|].
  assert (sk_list q <> []) as Hne by (intros E0; rewrite E0 in Hn2; cbn in Hn2; lia).
  assert (txq_hwq q <> None) as Hh.
  { pose proof (q_hwq _ _ _ _ _ _ Hok) as Hh. destruct (txq_hwq q); [done|]. destruct Hh as (_ & _ & Hl). done. }
  destruct (Z.ltb_spec n pkt_req).
  - destruct (inv_sp_grant Q hw s _ q p n H Hq Hh) as (hw' & -> & H'); [lia|intros _; split; [done|lia]|].
    cbn [mbind res_bind]. apply Hnext; [done|]. rewrite u16_small; lia.
  - left. apply (inv_sp_grant Q hw s _ q p pkt_req H Hq Hh); [lia|intros _; split; [done|lia]].
Qed.

Lemma inv_prio_loop Q s st p : forall rest tid pkt_req hw, inv None Q hw -> stas !! s = Some (strip st) ->
  Forall (fun t => 0 <= t < NX_NB_TXQ_PER_STA) (tid :: rest) -> 0 <= pkt_req <= 65535 ->
  ok_or_oob Q (prio_loop plat s st p tid rest pkt_req hw).
Proof.
  assert (forall hw, inv None Q hw -> stas !! s = Some (strip st) -> exists st', sta_table hw !! s = Some st' /\
    forall tid next r, prio_body plat s st p tid next r hw = prio_body plat s st' p tid next r hw) as Hst.
  { intros hw H Hs. destruct (sta_exists _ _ _ _ _ _ _ _ H Hs) as (st' & Hs' & E). exists st'. split; [done|].
    intros tid next r. unfold prio_body.
    change (rwnx_txq_sta_get plat st) with (rwnx_txq_sta_get plat (strip st)). now rewrite <- E. }
  induction rest as [|tid' rest IH]; intros tid pkt_req hw H Hs Ht Hp; apply Forall_cons in Ht as [Ht Hrest];
    destruct (Hst hw H Hs) as (st' & Hs' & E); cbn [prio_loop]; rewrite E;
    (eapply inv_prio_body; [exact H|exact Hs'|exact Ht|exact Hp|]); intros r hw' H' Hr; [now right|now apply IH].
Qed.

Lemma inv_traffic Q hw s n p : inv None Q hw -> ps_ready s hw -> (p = LEGACY_PS_ID \/ p = UAPSD_ID) -> 0 <= n <= 65535 ->
  ok_or_oob Q (rwnx_ps_bh_traffic_req plat s n p hw).
Proof.
  intros H Hr Hp Hn. unfold ps_ready in Hr. destruct (sta_table hw !! s) as [st|] eqn:Hs; [|done].
  pose proof (sta_static _ _ _ _ _ _ _ _ H Hs) as Hst.
  unfold rwnx_ps_bh_traffic_req. rewrite (get_sta_ok _ _ _ Hs). cbn [mbind res_bind].
  destruct (active (ps st)) eqn:Ha; cbn [negb]; [|left; eauto].
  assert (forall g, (forall x, active (g x) = active x /\ pkt_ready (g x) = pkt_ready x) -> inv None Q (upd_ps s g hw)) as Hup.
  { intros g Hg. apply inv_upd_ps; [done|]. intros st' q Hs' Hm Ha' Hq. destruct (Hg (ps st')) as [G1 G2].
    rewrite G1 in Ha'. rewrite G2. destruct (i_ps _ _ _ _ _ _ H s st' q Hs' Hm Ha' Hq) as (K1 & K2 & K3).
    split; [done|]. split; [done|]. intros Hi. destruct (K3 Hi). split; [done|]. unfold line in *. cbn in *. lia. }
  destruct ((n =? PS_SP_INTERRUPTED) && (p =? UAPSD_ID)).
  { set (hw1 := upd_ps s _ hw). assert (inv None Q hw1) as H1 by (apply Hup; intros []; done).
    left. destruct (inv_foreach_limit0 Q hw1 s (st <| ps ::= fun x => x <| sp_cnt ::= ps_upd p (fun _ => 0) |> |>) H1)
      as (hw2 & E2 & H2 & _).
    - cbn. now rewrite list_lookup_alter_eq, Hs.
    - eauto. }
  destruct (_ || _) eqn:Eb; [left; eauto|].
  apply orb_false_iff in Eb as [Esp Eall]. rewrite negb_false_iff in Esp. apply Z.eqb_eq in Esp. apply Z.leb_gt in Eall.
  rewrite Esp in *. rewrite Z.sub_0_r in *. set (all := ps_get p (pkt_ready (ps st))) in *.
  set (req := if (n =? 0) || (all <? n) then u16 all else n).
  assert (0 <= req <= 65535) as Hreq.
  { unfold req. destruct (_ || _); [|lia]. pose proof (wrapU_bound 16 all). lia. }
  set (hw1 := upd_ps s _ hw). assert (inv None Q hw1) as H1 by (apply Hup; intros []; done).
  assert (ok_or_oob Q (if is_multicast_sta plat (sta_idx st) then
      q ← get_txq (rwnx_txq_sta_get plat st 0) hw1;
      sp_grant s (rwnx_txq_sta_get plat st 0) p (if credits q <? req then u16 (credits q) else req) hw1
    else match nx_tid_prio with [] => Fault OutOfBounds
         | tid :: rest => prio_loop plat s st p tid rest req hw1 end)) as [(hw2 & E2 & H2)|E2].
  { destruct (is_multicast_sta plat (sta_idx st)) eqn:Em.
    - specialize (Hr eq_refl). change (txq hw) with (txq hw1) in Hr.
      destruct (txq hw1 !! rwnx_txq_sta_get plat st 0) as [q|] eqn:Hq; [|done].
      rewrite (get_txq_ok _ _ _ Hq). cbn [mbind res_bind]. left.
      destruct (i_ps _ _ _ _ _ _ H s st q Hs Em Ha Hq) as (K1 & K2 & K3).
      pose proof (i_txq _ _ _ _ _ _ H1 _ _ Hq) as Hok. destruct (q_credits _ _ _ _ _ _ Hok) as [Hcr _].
      set (m := if credits q <? req then u16 (credits q) else req).
      assert (0 <= m /\ m <= req /\ m <= 127) as (M1 & M2 & M3).
      { unfold m. rewrite u16_small by lia. destruct (Z.ltb_spec (credits q) req); lia. }
      apply (inv_sp_grant Q hw1 s _ q p m H1 Hq K1 M1). intros Hi. destruct (K3 Hi) as [_ K4].
      unfold line in K4. cbn in K4.
      assert (all = Z.of_nat (length (sk_list q))) as Ea.
      { destruct Hp as [->| ->]; [change all with (legacy (pkt_ready (ps st))); lia|].
        change all with (uapsd (pkt_ready (ps st))) in Eall. lia. }
      pose proof (q_len _ _ _ _ _ _ Hok) as Hl. unfold line in Hl. cbn in Hl.
      assert (req <= all) as Hra.
      { unfold req. destruct (_ || _) eqn:Eb; [rewrite u16_small; lia|].
        apply orb_false_iff in Eb as [_ Eb%Z.ltb_ge]. done. }
      split; [intros E0; rewrite E0 in Ea; cbn in Ea|]; lia.
    - apply inv_prio_loop; [done|done| |done]. repeat constructor; done. }
  - rewrite E2. cbn [mbind res_bind]. left. eexists. split; [reflexivity|]. now apply inv_log.
  - rewrite E2. now right.
Qed.
End Config. End Steps.
