(* ===== verification/TxqSys.v ===== *)
(** The transmit queues as a transition system: the entry points of the driver
    that act on the queues of [Txq.v] are the operations [op], each one is
    shown to return and to preserve the invariant of [TxqInv.v], and the states
    reachable from the one [rwnx_cfg80211_init] builds are characterised
    ([Sys]).  Operations that hold [tx_lock] are one step. *)
From stdpp Require Import base list numbers option relations.
From Stdlib Require Import ZArith Lia.
From S2P Require Import Prelude Txq TxqInv TxqSteps.

#[local] Open Scope Z_scope.
#[local] Open Scope aic_scope.

Import Hw.

Module Sys.
Import Spec Prim Sched Drain Steps.

(** The state after the loops of [rwnx_cfg80211_init] over the queues. *)
Definition null_txq : rwnx_txq := mk_txq TXQ_INACTIVE 0 0 0 0 [] None None 0 0 0 None 0 0 0.
Definition init_hw (stas : list rwnx_sta) (vifs : list rwnx_vif) : rwnx_hw :=
  mk_hw (replicate (Z.to_nat NX_NB_TXQ) null_txq) (rwnx_hwq_init (replicate 5 (mk_hwq [] 0 0 false))) stas vifs
        (mk_env 0 0 (replicate (Z.to_nat USB_TXDESC_CNT) None)) (replicate 5 0) false false [].

Inductive op :=
| OpXmit (k : sk_buff) (t : nat)
| OpCfm (value used_idx : Z)
| OpTask
| OpStaInit (s : nat) (status : Z) | OpStaDeinit (s : nat)
| OpVifInit (v : nat) (status : Z) | OpVifDeinit (v : nat)
| OpUnkInit (v : nat) | OpUnkDeinit (v : nat)
| OpOffchanInit (v : nat) | OpOffchanDeinit | OpOffchanStart
| OpStaStart (s : nat) (reason : Z) | OpStaStop (s : nat) (reason : Z)
| OpVifStart (v : nat) (reason : Z) | OpVifStop (v : nat) (reason : Z)
| OpSwitch (s v : nat) (carrier_ok : bool)
| OpCredit (s : nat) (tid update : Z)
| OpPsEnable (s : nat) (enable : bool)
| OpTraffic (s : nat) (pkt_req p : Z)
| OpBusy (busy down : bool).

Section Plat.
Context (plat : rwnx_plat).

Definition with_vif (v : nat) (f : rwnx_vif -> rwnx_hw -> res rwnx_hw) (hw : rwnx_hw) : res rwnx_hw :=
  vif ← get_vif v hw; f vif hw.

Definition step (o : op) (hw : rwnx_hw) : res rwnx_hw :=
  match o with
  | OpXmit k t => queue_and_process k t hw
  | OpCfm value used_idx => aicwf_usb_host_tx_cfm_handler value used_idx hw
  | OpTask => rwnx_hwq_process_all hw
  | OpStaInit s status => rwnx_txq_sta_init plat s status hw
  | OpStaDeinit s => rwnx_txq_sta_deinit plat s hw
  | OpVifInit v status => with_vif v (fun vif => rwnx_txq_vif_init plat vif status) hw
  | OpVifDeinit v => with_vif v (rwnx_txq_vif_deinit plat) hw
  | OpUnkInit v => with_vif v (rwnx_txq_unk_vif_init plat) hw
  | OpUnkDeinit v => with_vif v (rwnx_txq_unk_vif_deinit plat) hw
  | OpOffchanInit v => with_vif v (rwnx_txq_offchan_init plat) hw
  | OpOffchanDeinit => rwnx_txq_offchan_deinit plat hw
  | OpOffchanStart => rwnx_txq_offchan_start plat hw
  | OpStaStart s reason => rwnx_txq_sta_start plat s reason hw
  | OpStaStop s reason => rwnx_txq_sta_stop plat s reason hw
  | OpVifStart v reason => with_vif v (fun vif => rwnx_txq_vif_start plat vif reason) hw
  | OpVifStop v reason => with_vif v (fun vif => rwnx_txq_vif_stop plat vif reason) hw
  | OpSwitch s v carrier_ok => with_vif v (fun vif => rwnx_txq_sta_switch_vif plat s vif carrier_ok) hw
  | OpCredit s tid update => rwnx_txq_credit_update plat (Z.of_nat s) tid update hw
  | OpPsEnable s enable => rwnx_ps_bh_enable plat s enable hw
  | OpTraffic s pkt_req p => rwnx_ps_bh_traffic_req plat s pkt_req p hw
  | OpBusy busy down => Ok (hw <| tbusy := busy |> <| usb_down := down |>)
  end.

Section Config.
Context (stas : list rwnx_sta) (vifs : list rwnx_vif).

(** A new frame for a queue that has been initialised. *)
Definition xmit_ok (k : sk_buff) (t : nat) (hw : rwnx_hw) : Prop :=
  match txq hw !! t with
  | Some q => txq_hwq q <> None /\ Z.of_nat (length (sk_list q)) < 65535 /\
              frame_ok (length vifs) t (txq_sta q) k /\ sk_id k ∉ all_ids None hw
  | None => False
  end.

(** The group addressed queue of a station belongs to an interface, and back. *)
Definition sta_init_ok (s : nat) (hw : rwnx_hw) : Prop :=
  match stas !! s with
  | Some st => (forall tt, tt ∈ sta_txqs plat st -> renewable plat tt.1 (Some s) hw) /\
               (is_multicast_sta plat (sta_idx st) = true -> has (uapsd_tids st) (BIT 0) = false)
  | None => False
  end.
Definition bcmc_init_ok (vif : rwnx_vif) (hw : rwnx_hw) : Prop :=
  forall t, rwnx_txq_vif_get plat vif NX_BCMC_TXQ_TYPE hw = Ok t ->
    renewable plat t (Some (bcmc_index vif)) hw /\
    forall st, stas !! bcmc_index vif = Some st -> is_multicast_sta plat (sta_idx st) = true ->
      t = rwnx_txq_sta_get plat st 0.
Definition unk_init_ok (vif : rwnx_vif) (hw : rwnx_hw) : Prop :=
  forall t, rwnx_txq_vif_get plat vif NX_UNK_TXQ_TYPE hw = Ok t -> renewable plat t None hw.

Definition plain (r : Z) : Prop := has r RWNX_TXQ_IN_HWQ_LIST = false.
Definition is_vif (v : nat) (P : rwnx_vif -> Prop) : Prop :=
  match vifs !! v with Some vif => P vif | None => False end.
Definition is_sta (s : nat) : Prop := (s < length stas)%nat.

(** When the driver performs an operation. *)
Definition op_ok (o : op) (hw : rwnx_hw) : Prop :=
  match o with
  | OpXmit k t => xmit_ok k t hw
  | OpCfm _ used_idx => retry_room (txdesc_slot used_idx) hw
  | OpTask | OpOffchanDeinit | OpOffchanStart | OpBusy _ _ => True
  | OpStaInit s status => plain status /\ sta_init_ok s hw
  | OpStaDeinit s => is_sta s
  | OpVifInit v status => plain status /\ is_vif v (fun vif => bcmc_init_ok vif hw /\ unk_init_ok vif hw)
  | OpUnkInit v => is_vif v (fun vif => unk_init_ok vif hw)
  | OpVifDeinit v | OpUnkDeinit v => is_vif v (fun _ => True)
  | OpOffchanInit v => is_vif v (fun _ => renewable plat (Z.to_nat (nx_off_chan_txq_idx plat)) None hw)
  | OpStaStart s reason | OpStaStop s reason => plain reason /\ is_sta s
  | OpVifStart v reason | OpVifStop v reason =>
      plain reason /\ is_vif v (fun vif => iftype vif <> NL80211_IFTYPE_OTHER)
  | OpSwitch s v _ => is_sta s /\ is_multicast_sta plat (Z.of_nat s) = false /\ is_vif v (fun _ => True)
  | OpCredit s tid _ => is_sta s /\ 0 <= tid
  | OpPsEnable s true => ps_ready plat s hw
  | OpPsEnable s false => is_sta s
  | OpTraffic s pkt_req p =>
      ps_ready plat s hw /\ (p = LEGACY_PS_ID \/ p = UAPSD_ID) /\ 0 <= pkt_req <= 65535
  end.

(** Traces of operations from the initial state. *)
Inductive reachable : rwnx_hw -> Prop :=
| reach_init : reachable (init_hw stas vifs)
| reach_step o hw hw' : reachable hw -> op_ok o hw -> step o hw = Ok hw' -> reachable hw'.

End Config.
End Plat.

Section Proofs.
Context (plat : rwnx_plat) (stas : list rwnx_sta) (vifs : list rwnx_vif).
Context (Hc : config_ok stas vifs).
#[local] Abbreviation inv := (inv plat stas vifs).

(** Every operation is total and keeps the invariant for the frames it leaves. *)
Definition good (Q : list Z) (r : res rwnx_hw) : Prop := exists hw', r = Ok hw' /\ inv None Q hw'.

Lemma good_ok Q hw : inv None Q hw -> good Q (Ok hw).
Proof. intros H. exists hw. eauto. Qed.

(** ** Interfaces *)

Definition first_vif_txq : Z := if old_ic plat then NX_FIRST_VIF_TXQ_IDX_FOR_OLD_IC else NX_FIRST_VIF_TXQ_IDX.

Lemma first_vif_range : 0 <= first_vif_txq /\ first_vif_txq + 2 * NX_VIRT_DEV_MAX < NX_NB_TXQ.
Proof. unfold first_vif_txq. destruct (old_ic plat); vm_compute; split; congruence. Qed.

Lemma bcmc_queue_iff t : bcmc_queue plat t <-> (Z.to_nat first_vif_txq <= t < Z.to_nat first_vif_txq + 4)%nat.
Proof. unfold bcmc_queue, first_vif_txq. destruct (old_ic plat); reflexivity. Qed.

Lemma off_chan_idx : nx_off_chan_txq_idx plat = first_vif_txq + 2 * NX_VIRT_DEV_MAX.
Proof. unfold nx_off_chan_txq_idx, first_vif_txq. now destruct (old_ic plat). Qed.

Lemma vif_idx_spec X Q hw v vif : inv X Q hw -> vifs !! v = Some vif -> exists m, 0 <= m < NX_VIRT_DEV_MAX /\
  forall hw', vif_table hw' = vifs -> forall type, rwnx_txq_vif_idx plat vif type hw' = Ok (first_vif_txq + m + type * NX_VIRT_DEV_MAX).
Proof.
  intros H Hv. destruct (c_vif _ _ Hc v vif Hv) as (Hm & Hmaster & _).
  assert (exists m, 0 <= m < NX_VIRT_DEV_MAX /\ forall hw', vif_table hw' = vifs -> master_vif_idx vif hw' = Ok m)
    as (m & Hr & Em).
  { unfold master_vif_idx. destruct (iftype vif) eqn:Ei; try (exists (vif_index vif); eauto; fail).
    destruct (lookup_lt_is_Some_2 vifs (vlan_master vif)) as [mv Hmv]; [auto|].
    exists (vif_index mv). split; [apply (c_vif _ _ Hc _ _ Hmv)|]. intros hw' E.
    rewrite (get_vif_ok _ _ mv); [done|]. now rewrite E. }
  exists m. split; [done|]. intros hw' E type. unfold rwnx_txq_vif_idx. now rewrite (Em hw' E).
Qed.

Lemma vif_get_spec X Q hw v vif : inv X Q hw -> vifs !! v = Some vif -> exists m, 0 <= m < NX_VIRT_DEV_MAX /\
  forall hw', vif_table hw' = vifs ->
    rwnx_txq_vif_get plat vif NX_BCMC_TXQ_TYPE hw' = Ok (Z.to_nat (first_vif_txq + m)) /\
    rwnx_txq_vif_idx plat vif NX_BCMC_TXQ_TYPE hw' = Ok (first_vif_txq + m) /\
    rwnx_txq_vif_get plat vif NX_UNK_TXQ_TYPE hw' = Ok (Z.to_nat (first_vif_txq + m + NX_VIRT_DEV_MAX)) /\
    rwnx_txq_vif_idx plat vif NX_UNK_TXQ_TYPE hw' = Ok (first_vif_txq + m + NX_VIRT_DEV_MAX).
Proof.
  intros H Hv. destruct (vif_idx_spec _ _ _ _ _ H Hv) as (m & Hr & E). exists m. split; [done|]. intros hw' E'.
  assert (forall ty, rwnx_txq_vif_get plat vif ty hw' =
    Ok (Z.to_nat (first_vif_txq + m + (if NX_UNK_TXQ_TYPE <? ty then NX_BCMC_TXQ_TYPE else ty) * NX_VIRT_DEV_MAX))) as G.
  { intros ty. unfold rwnx_txq_vif_get. now rewrite (E hw' E'). }
  rewrite !G, !(E hw' E'). cbn match.
  change (NX_BCMC_TXQ_TYPE * NX_VIRT_DEV_MAX) with 0. change (NX_UNK_TXQ_TYPE * NX_VIRT_DEV_MAX) with NX_VIRT_DEV_MAX.
  change (if NX_UNK_TXQ_TYPE <? NX_BCMC_TXQ_TYPE then NX_BCMC_TXQ_TYPE else NX_BCMC_TXQ_TYPE) with 0.
  change (if NX_UNK_TXQ_TYPE <? NX_UNK_TXQ_TYPE then NX_BCMC_TXQ_TYPE else NX_UNK_TXQ_TYPE) with 1.
  rewrite !Z.mul_0_l, !Z.mul_1_l, !Z.add_0_r. done.
Qed.

Lemma vif_txq_lt m d : 0 <= m < NX_VIRT_DEV_MAX -> 0 <= d <= NX_VIRT_DEV_MAX ->
  (Z.to_nat (first_vif_txq + m + d) < Z.to_nat NX_NB_TXQ)%nat.
Proof. pose proof first_vif_range. lia. Qed.

(** ** Deinitialisation *)

Lemma deinit_good Q hw t : inv None Q hw -> (t < Z.to_nat NX_NB_TXQ)%nat ->
  exists hw', rwnx_txq_deinit t hw = Ok hw' /\ inv None Q hw'.
Proof.
  intros H Ht. destruct (txq_exists _ _ _ _ _ _ _ H Ht) as [q Hq].
  destruct (inv_deinit _ _ _ _ _ _ _ H Hq) as (hw' & ? & ? & _). eauto.
Qed.

Lemma sta_deinit_good Q hw s : inv None Q hw -> is_sta stas s ->
  exists hw', rwnx_txq_sta_deinit plat s hw = Ok hw' /\ inv None Q hw'.
Proof.
  intros H [st Hst]%lookup_lt_is_Some_2. destruct (sta_exists _ _ _ _ _ _ _ _ H Hst) as (st' & Hs & _).
  unfold rwnx_txq_sta_deinit. rewrite (get_sta_ok _ _ _ Hs). cbn [mbind res_bind].
  destruct (inv_foreach _ _ _ Hc (fun t _ => rwnx_txq_deinit t) (fun _ => True) s st' None Q hw H Hs I)
    as (hw' & ? & ? & _); [|eauto].
  intros t tid h Hlt Hh _. destruct (deinit_good _ _ _ Hh Hlt) as (h' & ? & ?). eauto.
Qed.

Lemma unk_deinit_good Q hw v vif : inv None Q hw -> vifs !! v = Some vif ->
  exists hw', rwnx_txq_unk_vif_deinit plat vif hw = Ok hw' /\ inv None Q hw'.
Proof.
  intros H Hv. destruct (vif_get_spec _ _ _ _ _ H Hv) as (m & Hm & E). unfold rwnx_txq_unk_vif_deinit.
  destruct (E hw (i_vifs _ _ _ _ _ _ H)) as (_ & _ & -> & _). cbn [mbind res_bind].
  apply deinit_good; [done|]. apply vif_txq_lt; unfold NX_VIRT_DEV_MAX in *; lia.
Qed.

Lemma vif_deinit_good Q hw v vif : inv None Q hw -> vifs !! v = Some vif ->
  exists hw', rwnx_txq_vif_deinit plat vif hw = Ok hw' /\ inv None Q hw'.
Proof.
  intros H Hv. destruct (vif_get_spec _ _ _ _ _ H Hv) as (m & Hm & E). unfold rwnx_txq_vif_deinit.
  destruct (E hw (i_vifs _ _ _ _ _ _ H)) as (-> & _). cbn [mbind res_bind].
  destruct (deinit_good Q hw (Z.to_nat (first_vif_txq + m))) as (hw1 & E1 & H1); [done| |].
  { rewrite <- (Z.add_0_r (first_vif_txq + m)). apply vif_txq_lt; unfold NX_VIRT_DEV_MAX in *; lia. }
  rewrite E1. cbn [mbind res_bind]. apply (unk_deinit_good _ _ _ _ H1 Hv).
Qed.

(** ** Initialisation *)

Lemma renewable_same t o hw hw' : renewable plat t o hw -> sta_table hw' = sta_table hw -> usb_env hw' = usb_env hw ->
  txq hw' !! t = txq hw !! t -> renewable plat t o hw'.
Proof.
  intros (A & B & C) Es Eu Et. split; [|split].
  - intros q. rewrite Et. apply A.
  - unfold ring_frames. rewrite Eu. apply B.
  - intros s st. rewrite Es. apply C.
Qed.

(** [rwnx_txq_init] for an interface. *)
Lemma plain_init_good Q hw t i status h td o nd : inv None Q hw -> (t < Z.to_nat NX_NB_TXQ)%nat ->
  first_vif_txq <= i -> (forall s, o = Some s -> is_Some (stas !! s)) -> plain status -> (h < 5)%nat ->
  (bcmc_queue plat t -> h = RWNX_HWQ_BE) -> renewable plat t o hw ->
  (forall s x, o = Some s -> stas !! s = Some x -> is_multicast_sta plat (sta_idx x) = true ->
     t = rwnx_txq_sta_get plat x 0) ->
  exists hw', rwnx_txq_init plat t i status h td o nd hw = Ok hw' /\ inv None Q hw' /\
    sta_table hw' = sta_table hw /\ vif_table hw' = vif_table hw /\ usb_env hw' = usb_env hw /\
    (forall u, u <> t -> txq hw' !! u = txq hw !! u).
Proof.
  intros H Ht Hi Ho Hst Hh Hbe Hren Hmc.
  destruct (inv_init plat stas vifs Q hw t i status h td o nd (fun _ => LEGACY_PS_ID) H Ht)
    as (hw' & E & H' & _ & R); try done; [|eauto|exists hw'; auto].
  intros Hlt. apply Z.ltb_lt in Hlt. unfold first_vif_txq in Hi. lia.
Qed.

Lemma unk_init_good Q hw v vif status : inv None Q hw -> vifs !! v = Some vif -> plain status ->
  unk_init_ok plat vif hw -> exists hw', rwnx_txq_unk_vif_init_with plat vif status hw = Ok hw' /\ inv None Q hw'.
Proof.
  intros H Hv Hp Hok. destruct (vif_get_spec _ _ _ _ _ H Hv) as (m & Hm & E). unfold rwnx_txq_unk_vif_init_with.
  destruct (E hw (i_vifs _ _ _ _ _ _ H)) as (_ & _ & E1 & E2). specialize (Hok _ E1). rewrite E1, E2. cbn [mbind res_bind].
  pose proof first_vif_range as [Hf1 Hf2]. pose proof (vif_txq_lt m NX_VIRT_DEV_MAX Hm) as Hlt.
  destruct (plain_init_good Q hw (Z.to_nat (first_vif_txq + m + NX_VIRT_DEV_MAX)) (first_vif_txq + m + NX_VIRT_DEV_MAX)
    status RWNX_HWQ_VO TID_MGT None (vif_ndev vif) H) as (hw' & ? & ? & _); eauto; try done.
  - apply Hlt. unfold NX_VIRT_DEV_MAX. lia.
  - unfold NX_VIRT_DEV_MAX. lia.
  - rewrite bcmc_queue_iff. unfold NX_VIRT_DEV_MAX in *. intros ?. exfalso. lia.
Qed.

Lemma vif_init_good Q hw v vif status : inv None Q hw -> vifs !! v = Some vif -> plain status ->
  bcmc_init_ok plat stas vif hw -> unk_init_ok plat vif hw ->
  exists hw', rwnx_txq_vif_init plat vif status hw = Ok hw' /\ inv None Q hw'.
Proof.
  intros H Hv Hp Hb Hu. destruct (vif_get_spec _ _ _ _ _ H Hv) as (m & Hm & E). unfold rwnx_txq_vif_init.
  destruct (E hw (i_vifs _ _ _ _ _ _ H)) as (E1 & E2 & E3 & _). destruct (Hb _ E1) as [Hb1 Hb2]. rewrite E1, E2. cbn [mbind res_bind].
  pose proof first_vif_range as [Hf1 Hf2]. pose proof (vif_txq_lt m 0 Hm) as Hlt. rewrite Z.add_0_r in Hlt.
  destruct (c_vif _ _ Hc v vif Hv) as (_ & _ & Hbi & _).
  destruct (plain_init_good Q hw (Z.to_nat (first_vif_txq + m)) (first_vif_txq + m) status RWNX_HWQ_BE 0
    (Some (bcmc_index vif)) (vif_ndev vif) H) as (hw1 & I1 & H1 & S1 & V1 & U1 & T1); eauto; try done.
  - apply Hlt. unfold NX_VIRT_DEV_MAX. lia.
  - lia.
  - intros s [= <-]. now apply lookup_lt_is_Some_2.
  - intros s x [= <-] Hx. eauto.
  - rewrite I1. cbn [mbind res_bind]. apply (unk_init_good _ _ _ _ _ H1 Hv Hp).
    intros t Ht. destruct (E hw1 (i_vifs _ _ _ _ _ _ H1)) as (_ & _ & E4 & _).
    assert (t = Z.to_nat (first_vif_txq + m + NX_VIRT_DEV_MAX)) as -> by congruence.
    eapply (renewable_same _ _ hw hw1); try done; [auto|]. apply T1. unfold NX_VIRT_DEV_MAX. lia.
Qed.

Lemma offchan_init_good Q hw v vif : inv None Q hw -> vifs !! v = Some vif ->
  renewable plat (Z.to_nat (nx_off_chan_txq_idx plat)) None hw ->
  exists hw', rwnx_txq_offchan_init plat vif hw = Ok hw' /\ inv None Q hw'.
Proof.
  intros H Hv Hr. pose proof first_vif_range as [Hf1 Hf2]. unfold rwnx_txq_offchan_init. rewrite off_chan_idx in *.
  unfold NX_VIRT_DEV_MAX in *.
  destruct (plain_init_good Q hw (Z.to_nat (first_vif_txq + 2 * 4)) (first_vif_txq + 2 * 4)
    RWNX_TXQ_STOP_CHAN RWNX_HWQ_VO TID_MGT None (vif_ndev vif) H) as (hw' & ? & ? & _); eauto; try done; try lia.
  - rewrite bcmc_queue_iff. intros ?. exfalso. lia.
Qed.

(** The loop of [rwnx_txq_sta_init]. *)
Lemma sta_init_loop Q s st idx0 status nd (Hst : stas !! s = Some (strip st)) (Hp : plain status) :
  (is_multicast_sta plat (sta_idx st) = true -> has (uapsd_tids st) (BIT 0) = false) ->
  forall l hw, inv None Q hw -> NoDup (l.*1) -> l ⊆ sta_txqs plat st ->
  (forall tt, tt ∈ l -> renewable plat tt.1 (Some s) hw) -> sta_table hw !! s = Some st ->
  exists hw', foldM (fun tt hw =>
    h ← from_option_res OutOfBounds (rwnx_tid2hwq !! Z.to_nat tt.2);
    hw ← rwnx_txq_init plat tt.1 (idx0 + tt.2) status h tt.2 (Some s) nd hw;
    Ok (upd_txq tt.1 (fun q => q <| ps_id := if has (uapsd_tids st) (BIT tt.2) then UAPSD_ID else LEGACY_PS_ID |>) hw))
    l hw = Ok hw' /\ inv None Q hw'.
Proof.
  intros Hu l. induction l as [|[t tid] l IH]; intros hw H Hnd Hsub Hren Hs; [exists hw; done|].
  cbn [foldM fst snd]. assert ((t, tid) ∈ sta_txqs plat st) as Hin by (apply Hsub; left).
  destruct (sta_txqs_range _ _ _ Hc _ _ _ _ _ _ H Hs Hin) as (Hlt & Htid & Et & _). cbn in Hlt, Htid, Et.
  destruct (sta_range _ _ _ Hc _ _ _ _ _ H Hs) as (Ei & Ev & _).
  assert (exists h, rwnx_tid2hwq !! Z.to_nat tid = Some h /\ (h < 5)%nat) as (h & Eh & Hh).
  { unfold NX_NB_TXQ_PER_STA, NX_NB_TID_PER_STA in Htid.
    destruct (lookup_lt_is_Some_2 rwnx_tid2hwq (Z.to_nat tid)) as [h Eh]; [cbn; lia|]. exists h. split; [done|].
    assert (Forall (fun h => h < 5)%nat rwnx_tid2hwq) as HF by (repeat constructor).
    rewrite Forall_lookup in HF. eauto. }
  rewrite Eh. cbn [from_option_res mbind res_bind].
  assert (is_multicast_sta plat (sta_idx st) = true -> tid = 0) as Hm0.
  { intros Hm. unfold sta_txqs in Hin. rewrite Hm in Hin. apply list_elem_of_fmap in Hin as (i & Ei' & Hi). apply elem_of_seq in Hi.
    injection Ei' as _ ->. lia. }
  destruct (inv_init plat stas vifs Q hw t (idx0 + tid) status h tid (Some s) nd
    (fun _ => if has (uapsd_tids st) (BIT tid) then UAPSD_ID else LEGACY_PS_ID) H Hlt)
    as (hw1 & I1 & _ & H1 & S1 & V1 & U1 & T1); try done.
  - intros s' [= <-]. eauto.
  - intros Hb. destruct (is_multicast_sta plat (sta_idx st)) eqn:Hm.
    + rewrite (Hm0 eq_refl) in Eh. now injection Eh as <-.
    + exfalso. revert Hb. rewrite bcmc_queue_iff, Et. unfold rwnx_txq_sta_get, rwnx_txq_sta_idx.
      replace (NX_NB_TXQ_PER_STA <=? tid) with false by (symmetry; apply Z.leb_gt; lia). rewrite Hm.
      unfold first_vif_txq, is_multicast_sta in *. rewrite Ei in Hm |- *.
      destruct (old_ic plat); apply Z.leb_gt in Hm;
      unfold NX_FIRST_VIF_TXQ_IDX, NX_FIRST_VIF_TXQ_IDX_FOR_OLD_IC, NX_REMOTE_STA_MAX, NX_REMOTE_STA_MAX_FOR_OLD_IC,
        NX_NB_TXQ_PER_STA, NX_NB_TID_PER_STA in *; lia.
  - apply (Hren (t, tid)). left.
  - intros s' x [= <-] Hx Hm. assert (x = strip st) as -> by congruence. change (sta_idx (strip st)) with (sta_idx st) in Hm.
    specialize (Hm0 Hm). subst tid. split; [exact Et|]. intros _. now rewrite (Hu Hm).
  - rewrite I1. cbn [mbind res_bind]. apply NoDup_cons in Hnd as [Hni Hnd].
    apply IH; [done|done|intros y Hy; apply Hsub; now right| |exact (eq_trans (f_equal (fun l => l !! s) S1) Hs)].
    intros tt Htt. apply (renewable_same _ _ hw); [apply Hren; now right|exact S1|exact U1|].
    assert (tt.1 <> t) as Hne by (intros E0; apply Hni; cbn; rewrite <- E0; exact (list_elem_of_fmap_2 fst l tt Htt)).
    cbn. rewrite list_lookup_alter_ne by congruence. now apply T1.
Qed.

Lemma sta_init_good Q hw s status : inv None Q hw -> plain status -> sta_init_ok plat stas s hw ->
  exists hw', rwnx_txq_sta_init plat s status hw = Ok hw' /\ inv None Q hw'.
Proof.
  intros H Hp Hok. unfold sta_init_ok in Hok. destruct (stas !! s) as [st|] eqn:Hst; [|done]. destruct Hok as [Hren Hu].
  destruct (sta_exists _ _ _ _ _ _ _ _ H Hst) as (st' & Hs & <-).
  unfold rwnx_txq_sta_init. rewrite (get_sta_ok _ _ _ Hs). cbn [mbind res_bind].
  destruct (sta_range _ _ _ Hc _ _ _ _ _ H Hs) as (_ & _ & Hv). destruct (lookup_lt_is_Some_2 _ _ Hv) as [vif Hvif].
  rewrite (get_vif_ok _ _ vif) by (now rewrite (i_vifs _ _ _ _ _ _ H)). cbn [mbind res_bind].
  unfold foreach_sta_txq. apply (sta_init_loop Q s st'); try done.
  unfold sta_txqs. rewrite <- list_fmap_compose. apply NoDup_fmap_2; [|apply NoDup_seq]. intros i j. cbn. lia.
Qed.

(** ** Start and stop *)

Lemma sta_start_good Q hw s reason : inv None Q hw -> is_sta stas s -> plain reason ->
  exists hw', rwnx_txq_sta_start plat s reason hw = Ok hw' /\ inv None Q hw'.
Proof.
  intros H [st Hst]%lookup_lt_is_Some_2 Hr. destruct (inv_sta_start _ _ _ Hc _ _ _ s st reason H Hst Hr) as (hw' & ? & ? & _).
  eauto.
Qed.
Lemma sta_stop_good Q hw s reason : inv None Q hw -> is_sta stas s -> plain reason ->
  exists hw', rwnx_txq_sta_stop plat s reason hw = Ok hw' /\ inv None Q hw'.
Proof.
  intros H [st Hst]%lookup_lt_is_Some_2 Hr. destruct (inv_sta_stop _ _ _ Hc _ _ _ s st reason H Hst Hr) as (hw' & ? & ? & _).
  eauto.
Qed.

Lemma foldM_good Q (f : nat -> rwnx_hw -> res rwnx_hw) l hw : inv None Q hw ->
  (forall s hw', s ∈ l -> inv None Q hw' -> exists hw2, f s hw' = Ok hw2 /\ inv None Q hw2) ->
  exists hw', foldM f l hw = Ok hw' /\ inv None Q hw'.
Proof. intros H Hf. apply (foldM_inv (inv None Q)); [done|]. intros s h Hin Hh. now apply Hf. Qed.

Lemma for_each_sta_good Q hw v vif (f : option nat -> Z -> rwnx_hw -> res rwnx_hw) reason : inv None Q hw ->
  vifs !! v = Some vif -> iftype vif <> NL80211_IFTYPE_OTHER -> iftype vif <> NL80211_IFTYPE_MONITOR ->
  (forall s hw', is_sta stas s -> inv None Q hw' -> exists hw2, f (Some s) reason hw' = Ok hw2 /\ inv None Q hw2) ->
  exists hw', rwnx_txq_vif_for_each_sta vif f reason hw = Ok hw' /\ inv None Q hw'.
Proof.
  intros H Hv Ho Hm Hf. destruct (c_vif _ _ Hc v vif Hv) as (_ & Hmaster & _ & HF & Ht).
  assert (forall u w, vifs !! u = Some w -> exists hw', foldM (fun s => f (Some s) reason) (ap_sta_list w) hw = Ok hw' /\
    inv None Q hw') as Heach.
  { intros u w Hw. apply foldM_good; [done|]. intros s hw' Hs. apply Hf. destruct (c_vif _ _ Hc u w Hw) as (_ & _ & _ & HF' & _).
    rewrite Forall_app, Forall_forall in HF'. now apply HF'. }
  assert (forall o, o = sta_ap vif \/ o = tdls_sta vif -> forall s, o = Some s -> is_sta stas s) as Hptr.
  { rewrite !Forall_app in HF. destruct HF as (_ & HF1 & HF2). intros o [->| ->] s E; rewrite E in *; cbn in *.
    - now apply Forall_cons in HF1 as [? _].
    - now apply Forall_cons in HF2 as [? _]. }
  assert (exists hw', (hw ← (if tdls_link_active vif then f (tdls_sta vif) reason hw else Ok hw);
      if is_null (sta_ap vif) then Ok hw else f (sta_ap vif) reason hw) = Ok hw' /\ inv None Q hw') as Hclient.
  { assert (exists hw1, (if tdls_link_active vif then f (tdls_sta vif) reason hw else Ok hw) = Ok hw1 /\ inv None Q hw1)
      as (hw1 & E1 & H1).
    { destruct (tdls_link_active vif); [|eauto]. destruct (Ht eq_refl) as [s Es]. rewrite Es. apply Hf; [|done]. eauto. }
    rewrite E1. cbn [mbind res_bind]. destruct (sta_ap vif) as [s|] eqn:Es; cbn [is_null]; [|eauto].
    apply Hf; [|done]. eauto. }
  unfold rwnx_txq_vif_for_each_sta. cbn zeta.
  destruct (iftype vif) eqn:Ei; try done; try exact Hclient; try exact (Heach v vif Hv).
  destruct (lookup_lt_is_Some_2 vifs (vlan_master vif)) as [w Hw]; [auto|].
  rewrite (get_vif_ok _ _ w) by (now rewrite (i_vifs _ _ _ _ _ _ H)). cbn [mbind res_bind]. eauto.
Qed.

(** The two queues of an interface. *)
Lemma vif_pair_good Q hw v vif (f : nat -> Z -> rwnx_hw -> res rwnx_hw) reason : inv None Q hw -> vifs !! v = Some vif ->
  (forall t q hw', inv None Q hw' -> txq hw' !! t = Some q -> exists hw2, f t reason hw' = Ok hw2 /\ inv None Q hw2) ->
  exists hw', (t ← rwnx_txq_vif_get plat vif NX_BCMC_TXQ_TYPE hw; hw ← f t reason hw;
               t ← rwnx_txq_vif_get plat vif NX_UNK_TXQ_TYPE hw; f t reason hw) = Ok hw' /\ inv None Q hw'.
Proof.
  intros H Hv Hf. destruct (vif_get_spec _ _ _ _ _ H Hv) as (m & Hm & E).
  destruct (E hw (i_vifs _ _ _ _ _ _ H)) as (-> & _). cbn [mbind res_bind].
  pose proof (vif_txq_lt m 0 Hm) as L0. pose proof (vif_txq_lt m NX_VIRT_DEV_MAX Hm) as L1. rewrite Z.add_0_r in L0.
  destruct (txq_exists _ _ _ _ _ _ _ H (L0 ltac:(unfold NX_VIRT_DEV_MAX; lia))) as [q Hq].
  destruct (Hf _ _ _ H Hq) as (hw1 & -> & H1). cbn [mbind res_bind].
  destruct (E hw1 (i_vifs _ _ _ _ _ _ H1)) as (_ & _ & -> & _). cbn [mbind res_bind].
  destruct (txq_exists _ _ _ _ _ _ _ H1 (L1 ltac:(unfold NX_VIRT_DEV_MAX; lia))) as [q1 Hq1]. eauto.
Qed.

Lemma vif_start_good Q hw v vif reason : inv None Q hw -> vifs !! v = Some vif -> plain reason ->
  iftype vif <> NL80211_IFTYPE_OTHER -> exists hw', rwnx_txq_vif_start plat vif reason hw = Ok hw' /\ inv None Q hw'.
Proof.
  intros H Hv Hp Ho. unfold rwnx_txq_vif_start. case_decide as Hm; [eauto|].
  assert (exists hw1, (if roc_tdls vif then
      match tdls_sta vif with
      | Some s => sta ← get_sta s hw; if tdls_chsw_en sta then rwnx_txq_sta_start plat s reason hw else Ok hw
      | None => Ok hw
      end
    else rwnx_txq_vif_for_each_sta vif (sta_start_ptr plat) reason hw) = Ok hw1 /\ inv None Q hw1) as (hw1 & E1 & H1).
  { destruct (roc_tdls vif).
    - destruct (tdls_sta vif) as [s|] eqn:Es; [|eauto].
      assert (is_sta stas s) as Hs.
      { destruct (c_vif _ _ Hc v vif Hv) as (_ & _ & _ & HF & _). rewrite Es, !Forall_app in HF.
        destruct HF as (_ & _ & HF). now apply Forall_cons in HF as [? _]. }
      destruct (lookup_lt_is_Some_2 _ _ Hs) as [st Hst]. destruct (sta_exists _ _ _ _ _ _ _ _ H Hst) as (st' & Hs' & _).
      rewrite (get_sta_ok _ _ _ Hs'). cbn [mbind res_bind]. destruct (tdls_chsw_en st'); [|eauto]. now apply sta_start_good.
    - eapply for_each_sta_good; eauto. intros s hw' Hs H'. now apply sta_start_good. }
  rewrite E1. cbn [mbind res_bind]. eapply vif_pair_good; [done|exact Hv|]. intros t q hw' H' Hq.
  destruct (inv_start _ _ _ _ _ _ _ _ reason H' Hq Hp) as (hw2 & ? & ? & _). eauto.
Qed.

Lemma vif_stop_good Q hw v vif reason : inv None Q hw -> vifs !! v = Some vif -> plain reason ->
  iftype vif <> NL80211_IFTYPE_OTHER -> exists hw', rwnx_txq_vif_stop plat vif reason hw = Ok hw' /\ inv None Q hw'.
Proof.
  intros H Hv Hp Ho. unfold rwnx_txq_vif_stop. case_decide as Hm; [eauto|].
  destruct (for_each_sta_good Q hw v vif (sta_stop_ptr plat) reason H Hv Ho Hm) as (hw1 & E1 & H1).
  { intros s hw' Hs H'. now apply sta_stop_good. }
  rewrite E1. cbn [mbind res_bind]. eapply vif_pair_good; [done|exact Hv|]. intros t q hw' H' Hq.
  destruct (inv_stop _ _ _ _ _ _ _ _ reason H' Hq Hp) as (hw2 & ? & ? & _). eauto.
Qed.

(** ** The remaining operations *)

Lemma credit_good Q hw s tid update : inv None Q hw -> is_sta stas s -> 0 <= tid ->
  exists hw', rwnx_txq_credit_update plat (Z.of_nat s) tid update hw = Ok hw' /\ inv None Q hw'.
Proof.
  intros H [st Hst]%lookup_lt_is_Some_2 Ht. destruct (sta_exists _ _ _ _ _ _ _ _ H Hst) as (st' & Hs & _).
  unfold rwnx_txq_credit_update. rewrite Nat2Z.id, (get_sta_ok _ _ _ Hs). cbn [mbind res_bind].
  assert (exists u, 0 <= u < NX_NB_TXQ_PER_STA /\ rwnx_txq_sta_get plat st' tid = rwnx_txq_sta_get plat st' u) as (u & Hu & ->).
  { destruct (Z.leb_spec NX_NB_TXQ_PER_STA tid) as [Hle|Hlt]; [|exists tid; done].
    exists 0. split; [done|]. unfold rwnx_txq_sta_get. apply Z.leb_le in Hle. now rewrite Hle. }
  pose proof (sta_txq_range _ _ _ Hc _ _ _ _ _ u H Hs Hu) as Hlt.
  destruct (txq_exists _ _ _ _ _ _ _ H Hlt) as [q Hq]. rewrite (get_txq_ok _ _ _ Hq). cbn [mbind res_bind].
  destruct (negb (idx q =? TXQ_INACTIVE)); [|eauto]. destruct (credits q <=? 0).
  - destruct (inv_stop _ _ _ _ _ _ _ _ RWNX_TXQ_STOP_FULL H Hq eq_refl) as (hw2 & ? & ? & _). eauto.
  - destruct (inv_start _ _ _ _ _ _ _ _ RWNX_TXQ_STOP_FULL H Hq eq_refl) as (hw2 & ? & ? & _). eauto.
Qed.

Lemma inv_ndev Q hw t q n : inv None Q hw -> txq hw !! t = Some q ->
  inv None Q (upd_txq t (fun q => q <| ndev := n |>) hw).
Proof.
  intros H Hq. set (hw1 := upd_txq t _ hw). set (q' := q <| ndev := n |>).
  assert (txq hw1 = <[t := q']> (txq hw)) as Et by txq_insert hw1 Hq.
  eapply inv_like; [exact H|exact Hq|exact Et|..]; try done; [apply H|].
  destruct (i_txq _ _ _ _ _ _ H _ _ Hq) as [A B C D F G I J]. by split.
Qed.

Lemma switch_good Q hw s vif carrier_ok : inv None Q hw -> is_sta stas s ->
  is_multicast_sta plat (Z.of_nat s) = false ->
  exists hw', rwnx_txq_sta_switch_vif plat s vif carrier_ok hw = Ok hw' /\ inv None Q hw'.
Proof.
  intros H [st Hst]%lookup_lt_is_Some_2 Hm. unfold rwnx_txq_sta_switch_vif. set (hw0 := if carrier_ok then hw else _).
  assert (inv None Q hw0) as H0 by (unfold hw0; destruct carrier_ok; [done|now apply inv_log]).
  destruct (sta_exists _ _ _ _ _ _ _ _ H0 Hst) as (st' & Hs & _). rewrite (get_sta_ok _ _ _ Hs). cbn [mbind res_bind].
  apply foldM_good; [done|]. intros i hw' [_ Hi]%elem_of_seq H'.
  assert (rwnx_txq_sta_get plat st' 0 + i < Z.to_nat NX_NB_TXQ)%nat as Hlt.
  { destruct (sta_range _ _ _ Hc _ _ _ _ _ H0 Hs) as (Ei & Ev & _). unfold rwnx_txq_sta_get, rwnx_txq_sta_idx.
    change (NX_NB_TXQ_PER_STA <=? 0) with false. cbn match. rewrite Ei, Hm.
    unfold is_multicast_sta in Hm. unfold NX_NB_TXQ, NX_FIRST_VIF_TXQ_IDX, NX_FIRST_VIF_TXQ_IDX_FOR_OLD_IC, NX_REMOTE_STA_MAX,
      NX_REMOTE_STA_MAX_FOR_OLD_IC, NX_VIRT_DEV_MAX, NX_NB_TXQ_PER_STA, NX_NB_TID_PER_STA, NX_NB_TXQ_PER_VIF in *.
    destruct (old_ic plat); apply Z.leb_gt in Hm; lia. }
  destruct (txq_exists _ _ _ _ _ _ _ H' Hlt) as [q Hq]. rewrite (get_txq_ok _ _ _ Hq). cbn [mbind res_bind].
  eexists. split; [reflexivity|]. apply inv_log; [|done]. eapply inv_ndev; eauto.
Qed.

Lemma xmit_good Q hw k t : inv None Q hw -> xmit_ok vifs k t hw ->
  exists hw', queue_and_process k t hw = Ok hw' /\ inv None (sk_id k :: Q) hw'.
Proof.
  intros H Hok. unfold xmit_ok in Hok. destruct (txq hw !! t) as [q|] eqn:Hq; [|done].
  destruct Hok as (Hh & Hl & Hk & Hid). unfold queue_and_process.
  destruct (inv_queue plat stas vifs Q hw t q k false H Hq Hh Hl Hk) as (b & hw1 & E1 & H1 & _ & _ & HQ); [|done|].
  { rewrite (i_ids _ _ _ _ _ _ H) in Hid. constructor; [done|apply H]. }
  rewrite E1. cbn [mbind res_bind]. destruct b; [|eauto].
  destruct (HQ q Hq) as (q1 & Hq1 & _ & Eh & _). rewrite (get_txq_ok _ _ _ Hq1). cbn [mbind res_bind].
  destruct (txq_hwq q1) as [h|] eqn:Eh1; [|congruence]. cbn [from_option_res mbind res_bind].
  destruct (txq_hwq_ok _ _ _ _ _ _ _ _ _ H1 Hq1 Eh1) as (_ & _ & _ & Hlt).
  destruct (inv_process plat stas vifs _ _ _ H1 Hlt) as (hw2 & ? & ? & _). eauto.
Qed.

(** A traffic request may read past [nx_tid_prio]; nothing else goes wrong. *)
Definition new_ids (o : op) : list Z := match o with OpXmit k _ => [sk_id k] | _ => [] end.
Definition step_result (Q : list Z) (o : op) (r : res rwnx_hw) : Prop :=
  good (new_ids o ++ Q) r \/ (exists s n p, o = OpTraffic s n p) /\ r = Fault OutOfBounds.

Lemma get_vif_inv Q hw v vif : inv None Q hw -> vifs !! v = Some vif -> get_vif v hw = Ok vif.
Proof. intros H Hv. apply get_vif_ok. now rewrite (i_vifs _ _ _ _ _ _ H). Qed.

(** The interface operations. *)
Lemma with_vif_good Q hw v (P : rwnx_vif -> Prop) f : inv None Q hw -> is_vif vifs v P ->
  (forall vif, vifs !! v = Some vif -> P vif -> exists hw', f vif hw = Ok hw' /\ inv None Q hw') ->
  good Q (with_vif v f hw).
Proof.
  intros H Hv Hf. unfold is_vif in Hv. destruct (vifs !! v) as [vif|] eqn:Ev; [|done].
  unfold with_vif. rewrite (get_vif_inv _ _ _ _ H Ev). cbn [mbind res_bind].
  destruct (Hf vif eq_refl Hv) as (hw' & -> & H'). eauto using good_ok.
Qed.

Lemma good_intro Q r : (exists hw', r = Ok hw' /\ inv None Q hw') -> good Q r.
Proof. intros (hw' & -> & H'). eauto using good_ok. Qed.

Lemma step_good o Q hw : inv None Q hw -> op_ok plat stas vifs o hw -> step_result Q o (step plat o hw).
Proof.
  intros H Hok. destruct o; cbn [op_ok step] in *;
    lazymatch goal with |- step_result _ (OpTraffic _ _ _) _ => idtac | _ => left end.
  - eapply good_intro, xmit_good; eauto.
  - eapply good_intro, inv_cfm; eauto.
  - destruct (inv_process_all plat stas vifs Hc _ _ H) as (hw' & -> & H' & _). eauto using good_ok.
  - eapply good_intro, sta_init_good; eauto; apply Hok.
  - eapply good_intro, sta_deinit_good; eauto.
  - destruct Hok as [Hp Hok]. eapply with_vif_good; eauto. intros vif Hv [? ?]. eapply vif_init_good; eauto.
  - eapply with_vif_good; eauto. intros vif Hv _. eapply vif_deinit_good; eauto.
  - eapply with_vif_good; eauto. intros vif Hv ?. eapply unk_init_good; eauto. done.
  - eapply with_vif_good; eauto. intros vif Hv _. eapply unk_deinit_good; eauto.
  - eapply with_vif_good; eauto. intros vif Hv ?. eapply offchan_init_good; eauto.
  - eapply good_intro, deinit_good; eauto. rewrite off_chan_idx. pose proof first_vif_range; unfold NX_VIRT_DEV_MAX in *; lia.
  - assert (Z.to_nat (nx_off_chan_txq_idx plat) < Z.to_nat NX_NB_TXQ)%nat as Hlt
      by (rewrite off_chan_idx; pose proof first_vif_range; unfold NX_VIRT_DEV_MAX in *; lia).
    destruct (txq_exists _ _ _ _ _ _ _ H Hlt) as [q Hq].
    destruct (inv_start _ _ _ _ _ _ _ _ RWNX_TXQ_STOP_CHAN H Hq eq_refl) as (hw2 & E & ? & _).
    unfold rwnx_txq_offchan_start. rewrite E. eauto using good_ok.
  - eapply good_intro, sta_start_good; eauto; apply Hok.
  - eapply good_intro, sta_stop_good; eauto; apply Hok.
  - destruct Hok as [Hp Hok]. eapply with_vif_good; eauto. intros vif Hv ?. eapply vif_start_good; eauto.
  - destruct Hok as [Hp Hok]. eapply with_vif_good; eauto. intros vif Hv ?. eapply vif_stop_good; eauto.
  - destruct Hok as (Hs & Hm & Hok). eapply with_vif_good; eauto. intros vif Hv _. eapply switch_good; eauto.
  - eapply good_intro, credit_good; eauto; apply Hok.
  - destruct enable.
    + eapply good_intro, inv_ps_enable_true; eauto.
    + destruct (lookup_lt_is_Some_2 _ _ Hok) as [st Hst]. eapply good_intro, inv_ps_enable_false; eauto.
  - destruct Hok as (Hr & Hp & Hn).
    destruct (inv_traffic plat stas vifs Hc Q hw s pkt_req p H Hr Hp Hn) as [(hw' & E & H')| ->].
    + left. rewrite E. eauto using good_ok.
    + right. eauto.
  - apply (good_ok Q). eapply inv_same; eauto. apply H.
Qed.

(** ** The initial state *)

Lemma init_frames : frames (init_hw stas vifs) = [].
Proof. unfold frames. cbn [txq init_hw]. generalize (Z.to_nat NX_NB_TXQ). intros n. now induction n. Qed.

Lemma init_txq t q : txq (init_hw stas vifs) !! t = Some q -> q = null_txq.
Proof. cbn [txq init_hw]. now intros [-> _]%lookup_replicate. Qed.

Lemma inv_init_hw : strip <$> stas = stas -> inv None [] (init_hw stas vifs).
Proof.
  intros Hs. assert (forall s st, stas !! s = Some st -> active (ps st) = false) as Hps.
  { intros s st Hst. rewrite <- Hs, list_lookup_fmap in Hst. destruct (stas !! s); [|done]. cbn in Hst. now simplify_eq. }
  split; try done.
  - split; try done.
    + intros h hq. do 5 (destruct h as [|h]; [intros [= <-]; reflexivity|]). done.
    + intros h hq. do 5 (destruct h as [|h]; [intros [= <-]; constructor|]). done.
    + intros h hq t Hh. split.
      * intros Hin. exfalso. revert Hh Hin. do 5 (destruct h as [|h]; [intros [= <-] Hin; now apply not_elem_of_nil in Hin|]). done.
      * intros (q & ->%init_txq & Hsch & _). done.
  - intros t q ->%init_txq. split; try done.
  - unfold ring_frames. cbn [usb_env init_hw tx_host_id]. generalize (Z.to_nat USB_TXDESC_CNT). intros n k Hk.
    exfalso. induction n as [|n IH]; cbn in Hk; [now apply not_elem_of_nil in Hk|done].
  - constructor.
  - intros s st q Hst _ Ha. now rewrite (Hps _ _ Hst) in Ha.
Qed.

Lemma reachable_inv hw : strip <$> stas = stas -> reachable plat stas vifs hw -> exists Q, inv None Q hw.
Proof.
  intros Hs. induction 1 as [|o hw hw' _ [Q H] Hok Hst]; [eauto using inv_init_hw|].
  destruct (step_good o Q hw H Hok) as [(hw2 & E & H')|[_ E]]; [|congruence].
  exists (new_ids o ++ Q). congruence.
Qed.

End Proofs.
End Sys.
