(* ===== verification/TxqProps.v ===== *)
(** Properties of the transmit queues: where a queue is, what the reachable
    states of [TxqSys.v] look like, what processing a hardware queue does, and
    the runs on which the code of [rwnx_tx.c] and [rwnx_txq.c] goes wrong. *)
From stdpp Require Import base list numbers option relations.
From Stdlib Require Import ZArith Lia.
From S2P Require Import Prelude Txq TxqInv TxqSteps TxqSys.

#[local] Open Scope Z_scope.
#[local] Open Scope aic_scope.

Import Hw.

Module Props.
Import Spec Prim Sched Drain Steps Sys.

(** ** The layout of the queue table *)

(** What a queue is for, and the index the code computes for it. *)
Inductive queue := QSta (sta : rwnx_sta) (tid : Z) | QVif (vif : rwnx_vif) (type : Z) | QOffChan.
Inductive key := KSta (sta_idx tid : Z) | KVif (vif_idx type : Z) | KOffChan.

Definition queue_index (plat : rwnx_plat) (hw : rwnx_hw) (q : queue) : res Z :=
  match q with
  | QSta sta tid => Ok (rwnx_txq_sta_idx plat sta tid)
  | QVif vif type => rwnx_txq_vif_idx plat vif type hw
  | QOffChan => Ok (nx_off_chan_txq_idx plat)
  end.

(** A station has one queue per TID; a group addressed one shares the queue of
    its interface; an interface stacked on another uses the other's. *)
Definition queue_key (plat : rwnx_plat) (hw : rwnx_hw) (q : queue) : res key :=
  match q with
  | QSta sta tid =>
      Ok (if is_multicast_sta plat (sta_idx sta) then KVif (vif_idx sta) NX_BCMC_TXQ_TYPE else KSta (sta_idx sta) tid)
  | QVif vif type => m ← master_vif_idx vif hw; Ok (KVif m type)
  | QOffChan => Ok KOffChan
  end.

Definition key_ok (plat : rwnx_plat) (k : key) : Prop :=
  match k with
  | KSta s tid => 0 <= s /\ is_multicast_sta plat s = false /\ 0 <= tid < NX_NB_TXQ_PER_STA
  | KVif v type => 0 <= v < NX_VIRT_DEV_MAX /\ (type = NX_BCMC_TXQ_TYPE \/ type = NX_UNK_TXQ_TYPE)
  | KOffChan => True
  end.

Lemma queue_index_key plat hw q k : queue_key plat hw q = Ok k ->
  queue_index plat hw q = Ok (match k with
    | KSta s tid => s * NX_NB_TXQ_PER_STA + tid
    | KVif v type => first_vif_txq plat + v + type * NX_VIRT_DEV_MAX
    | KOffChan => first_vif_txq plat + 2 * NX_VIRT_DEV_MAX
    end).
Proof.
  destruct q as [sta tid|vif type|]; cbn.
  - intros [= <-]. unfold rwnx_txq_sta_idx. destruct (is_multicast_sta _ _); [|done]. unfold first_vif_txq.
    rewrite Z.mul_0_l, Z.add_0_r. now destruct (old_ic plat).
  - unfold rwnx_txq_vif_idx. destruct (master_vif_idx vif hw); [|done]. cbn. now intros [= <-].
  - intros [= <-]. now rewrite off_chan_idx.
Qed.

(** Two queues have the same index exactly when they are the same queue,
    and every index is below [NX_NB_TXQ], for both generations of chips. *)
Theorem txq_layout_injective plat hw q1 q2 k1 k2 (H1 : queue_key plat hw q1 = Ok k1) (H2 : queue_key plat hw q2 = Ok k2)
  (O1 : key_ok plat k1) (O2 : key_ok plat k2) :
  (queue_index plat hw q1 = queue_index plat hw q2 <-> k1 = k2) /\
  exists i, queue_index plat hw q1 = Ok i /\ 0 <= i < NX_NB_TXQ.
Proof.
  rewrite (queue_index_key _ _ _ _ H1), (queue_index_key _ _ _ _ H2). clear H1 H2. pose proof (first_vif_range plat) as [Hr1 Hr2].
  assert (forall s tid, 0 <= s -> is_multicast_sta plat s = false -> 0 <= tid < NX_NB_TXQ_PER_STA ->
            0 <= s * NX_NB_TXQ_PER_STA + tid < first_vif_txq plat) as Hsta.
  { intros s tid Hs Hm Ht. unfold is_multicast_sta, first_vif_txq in *.
    destruct (old_ic plat); apply Z.leb_gt in Hm;
    unfold NX_FIRST_VIF_TXQ_IDX, NX_FIRST_VIF_TXQ_IDX_FOR_OLD_IC, NX_REMOTE_STA_MAX, NX_REMOTE_STA_MAX_FOR_OLD_IC,
      NX_NB_TXQ_PER_STA, NX_NB_TID_PER_STA in *; lia. }
  unfold NX_VIRT_DEV_MAX, NX_BCMC_TXQ_TYPE, NX_UNK_TXQ_TYPE in *. split.
  - split; [|now intros ->]. intros [= E].
    destruct k1 as [s1 t1|v1 y1|], k2 as [s2 t2|v2 y2|]; cbn match in E; cbn in O1, O2;
      repeat match goal with H : 0 <= ?s /\ is_multicast_sta plat ?s = false /\ _ |- _ =>
        let A := fresh in let B := fresh in let C := fresh in
        destruct H as (A & B & C); pose proof (Hsta _ _ A B C) end;
      unfold NX_NB_TXQ_PER_STA, NX_NB_TID_PER_STA, NX_VIRT_DEV_MAX, NX_BCMC_TXQ_TYPE, NX_UNK_TXQ_TYPE in *; try (exfalso; lia); try done; f_equal; lia.
  - eexists. split; [reflexivity|]. destruct k1 as [s1 t1|v1 y1|]; cbn in O1;
      unfold NX_VIRT_DEV_MAX, NX_BCMC_TXQ_TYPE, NX_UNK_TXQ_TYPE in *.
    + destruct O1 as (A & B & C). pose proof (Hsta _ _ A B C). lia.
    + lia.
    + lia.
Qed.

(** ** Example configurations *)

(** An access point with its stations, the last one the group addressed station. *)
Definition a_sta (i : nat) : rwnx_sta := mk_sta (Z.of_nat i) 0 0 0 no_ps false false.
Definition a_uapsd_sta (i : nat) : rwnx_sta := mk_sta (Z.of_nat i) 0 0 255 no_ps false false.
Definition a_vif : rwnx_vif := mk_vif 0 NL80211_IFTYPE_AP 7 32 [0%nat] 0 None None false false.
Definition new_ic : rwnx_plat := mk_plat PRODUCT_ID_AIC8800D81 0.
Definition a_config (mk : nat -> rwnx_sta) : list rwnx_sta := mk <$> seq 0 33.

Lemma a_config_ok mk : (forall i, sta_idx (mk i) = Z.of_nat i /\ vif_idx (mk i) = 0) -> config_ok (a_config mk) [a_vif].
Proof.
  intros Hmk. split.
  - unfold a_config. rewrite length_fmap, length_seq. vm_compute. lia.
  - intros s st. unfold a_config. rewrite list_lookup_fmap, fmap_Some. intros (i & [-> Hi]%lookup_seq & ->).
    destruct (Hmk (0 + s)%nat) as [-> ->]. cbn. split; [lia|]. split; [done|lia].
  - intros [|v] vif; [|done]. intros [= <-]. split_and!; try done; repeat constructor; cbn; lia.
Qed.

Lemma a_config_strip mk : (forall i, strip (mk i) = mk i) -> strip <$> a_config mk = a_config mk.
Proof. intros Hmk. unfold a_config. rewrite <- list_fmap_compose. apply list_fmap_ext. intros i x _. apply Hmk. Qed.

Lemma renewable_init plat stas vifs t o : strip <$> stas = stas -> renewable plat t o (init_hw stas vifs).
Proof.
  intros Hs. split; [|split].
  - intros q ->%init_txq. done.
  - intros k Hk. exfalso. revert Hk. unfold ring_frames. cbn [usb_env init_hw tx_host_id].
    generalize (Z.to_nat USB_TXDESC_CNT). induction n as [|n IH]; [apply not_elem_of_nil|done].
  - intros s st Hst _ Ha. exfalso. cbn in Hst. rewrite <- Hs, list_lookup_fmap in Hst.
    destruct (stas !! s); [|done]. cbn in Hst. now simplify_eq.
Qed.

(** A data frame of the station for its queue 0, and an EAPOL one. *)
Definition data_to (t : nat) (id : Z) : sk_buff := mk_skb id t (Some 0%nat) 0 0 0 0 false 8 8 false false 0.
Definition eapol (id : Z) : sk_buff := mk_skb id 0 (Some 0%nat) 0 0 0 0 false 36488 8 false false 0.

Definition run (plat : rwnx_plat) (ops : list op) (hw : rwnx_hw) : res rwnx_hw := foldM (step plat) ops hw.
Definition start : rwnx_hw := init_hw (a_config a_sta) [a_vif].

Lemma start_reachable : reachable new_ic (a_config a_sta) [a_vif] start.
Proof. apply reach_init. Qed.

Lemma sta0_init_ok : op_ok new_ic (a_config a_sta) [a_vif] (OpStaInit 0 0) start.
Proof.
  split; [done|]. unfold sta_init_ok. change (a_config a_sta !! 0%nat) with (Some (a_sta 0)). split; [|done].
  intros tt _. apply renewable_init. now apply a_config_strip.
Qed.

(** The station has been associated and a frame handed to its queue. *)
Definition with_frame : res rwnx_hw := run new_ic [OpStaInit 0 0; OpXmit (eapol 1) 0] start.

Lemma with_frame_reachable hw : with_frame = Ok hw -> reachable new_ic (a_config a_sta) [a_vif] hw.
Proof.
  unfold with_frame, run. cbn [foldM]. intros E.
  destruct (step new_ic (OpStaInit 0 0) start) as [hw1|] eqn:E1; [|done]. cbn [mbind res_bind] in E.
  destruct (step new_ic (OpXmit (eapol 1) 0) hw1) as [hw2|] eqn:E2; [|done]. injection E as <-.
  eapply reach_step; [|clear E2|exact E2].
  - eapply reach_step; [apply start_reachable|apply sta0_init_ok|exact E1].
  - cbn [op_ok]. unfold xmit_ok. vm_compute in E1. injection E1 as <-. cbn. split_and!; try done; try lia; [|apply not_elem_of_nil].
    split; [done|]. split; [done|]. cbn. lia.
Qed.

(** ** Reachable states *)




(** ** Where the code goes wrong *)

(** [n] rounds in which the firmware asks for the frame of slot [i] again and
    the driver pushes it again. *)
Fixpoint retries (n : nat) (i : Z) : list op :=
  match n with O => [] | S n => OpCfm 2 i :: OpTask :: retries n (i + 1) end.

(** [rwnx_tx_retry] gives its queue a credit that nothing takes back: an
    EAPOL frame sent again 63 times leaves 127 credits, and the next retry
    turns them into -128, with which [rwnx_hwq_process] stops at its
    [BUG_ON]. *)
Theorem tx_retry_credits_wrap :
  (exists hw q, run new_ic ([OpStaInit 0 0; OpXmit (eapol 1) 0] ++ retries 63 0) start = Ok hw /\
     txq hw !! 0%nat = Some q /\ credits q = 127) /\
  (exists hw q, run new_ic ([OpStaInit 0 0; OpXmit (eapol 1) 0] ++ retries 63 0 ++ [OpCfm 2 63]) start = Ok hw /\
     txq hw !! 0%nat = Some q /\ credits q = -128) /\
  run new_ic ([OpStaInit 0 0; OpXmit (eapol 1) 0] ++ retries 64 0) start = Fault BugOn.
Proof.
  split; [|split; [|vm_compute; reflexivity]].
  - destruct (run _ _ start) as [hw|] eqn:E; [|vm_compute in E; discriminate].
    vm_compute in E. injection E as <-. eexists _, _. split_and!; reflexivity.
  - destruct (run _ _ start) as [hw|] eqn:E; [|vm_compute in E; discriminate].
    vm_compute in E. injection E as <-. eexists _, _. split_and!; reflexivity.
Qed.

(** When the only frame waiting for a sleeping station is a management
    frame, which has no entry in [nx_tid_prio], a traffic request walks the
    whole priority table and reads the element after the last one. *)
Theorem traffic_req_overreads_prio : exists hw,
  run new_ic [OpStaInit 0 0; OpPsEnable 0 true; OpXmit (data_to 8 1) 8] start = Ok hw /\
  op_ok new_ic (a_config a_sta) [a_vif] (OpTraffic 0 0 LEGACY_PS_ID) hw /\
  step new_ic (OpTraffic 0 0 LEGACY_PS_ID) hw = Fault OutOfBounds.
Proof.
  destruct (run _ _ start) as [hw|] eqn:E; [|vm_compute in E; discriminate].
  vm_compute in E. injection E as <-. eexists. split; [reflexivity|]. split; [|vm_compute; reflexivity].
  split; [|split; [now left|done]]. intros Hm. vm_compute in Hm. discriminate.
Qed.

(** After [PS_SP_INTERRUPTED] the queues given frames of the service period stay
    listed with no limit: all frames are pushed to the sleeping station, and
    the counter of the period goes below zero. *)
Example sp_interrupted_pushes_all :
  exists hw st, run new_ic [OpStaInit 0 0; OpPsEnable 0 true; OpXmit (data_to 0 1) 0; OpXmit (data_to 0 2) 0;
                            OpXmit (data_to 0 3) 0; OpTraffic 0 1 UAPSD_ID; OpTraffic 0 PS_SP_INTERRUPTED UAPSD_ID; OpTask]
                  (init_hw (a_config a_uapsd_sta) [a_vif]) = Ok hw /\
    sta_table hw !! 0%nat = Some st /\ active (ps st) = true /\ pushed 0 hw = [1; 2; 3] /\
    uapsd (sp_cnt (ps st)) = 65533.
Proof.
  destruct (run _ _ _) as [hw|] eqn:E; [|vm_compute in E; discriminate].
  vm_compute in E. injection E as <-. eexists _, _. split_and!; reflexivity.
Qed.

(** ** Witnesses *)

(** The group addressed station of the example and its interface. *)
Lemma txq_layout_injective_witness :
  (queue_index new_ic start (QSta (a_sta 32) 0) = queue_index new_ic start (QVif a_vif NX_BCMC_TXQ_TYPE) <->
   KVif 0 NX_BCMC_TXQ_TYPE = KVif 0 NX_BCMC_TXQ_TYPE) /\
  exists i, queue_index new_ic start (QSta (a_sta 32) 0) = Ok i /\ 0 <= i < NX_NB_TXQ.
Proof.
  refine (txq_layout_injective new_ic start (QSta (a_sta 32) 0) (QVif a_vif NX_BCMC_TXQ_TYPE)
            (KVif 0 NX_BCMC_TXQ_TYPE) (KVif 0 NX_BCMC_TXQ_TYPE) _ _ _ _); try reflexivity.
  - split; [vm_compute; split; congruence|now left].
  - split; [vm_compute; split; congruence|now left].
Defined.

Lemma a_config_sta_ok : config_ok (a_config a_sta) [a_vif].
Proof. now apply a_config_ok. Qed.
Lemma a_config_sta_strip : strip <$> a_config a_sta = a_config a_sta.
Proof. now apply a_config_strip. Qed.




End Props.
