(* ===== verification/TxqLayout.v ===== *)
(** The netdev queue of a transmit queue, through the runs of [TxqSys.v].  Which
    queue of the network device an initialised transmit queue stands for, and
    which station it belongs to, are functions of its place in the table
    ([layout_ok]); no operation changes them but initialisation, which writes
    the same values ([reachable_layout]). *)
From stdpp Require Import base list numbers option relations.
From Stdlib Require Import ZArith Lia.
From S2P Require Import Prelude Txq TxqInv TxqSteps TxqSys.

#[local] Open Scope Z_scope.
#[local] Open Scope aic_scope.

Module Layout.
Import Hw Spec Prim Sched Drain Steps Sys.

(** A queue that keeps its place, if it is not deinitialised. *)
Definition same_place (q q' : rwnx_txq) : Prop :=
  (idx q' = idx q \/ idx q' = TXQ_INACTIVE) /\ ndev_idx q' = ndev_idx q /\ txq_sta q' = txq_sta q.
Definition lay (a b : rwnx_hw) : Prop :=
  forall t q', txq b !! t = Some q' -> exists q, txq a !! t = Some q /\ same_place q q'.
Definition Lay (a : rwnx_hw) (r : res rwnx_hw) : Prop := forall b, r = Ok b -> lay a b.
Definition LayP {A} (a : rwnx_hw) (r : res (A * rwnx_hw)) : Prop := forall b, r = Ok b -> lay a b.2.

Lemma lay_same a b : txq b = txq a -> lay a b.
Proof. intros E t q' Hq. rewrite E in Hq. exists q'. unfold same_place. tauto. Qed.
Lemma lay_trans a b c : lay a b -> lay b c -> lay a c.
Proof.
  intros H1 H2 t q3 Hq3. destruct (H2 _ _ Hq3) as (q2 & Hq2 & A & B & C).
  destruct (H1 _ _ Hq2) as (q1 & Hq1 & A1 & B1 & C1).
  exists q1. split; [done|]. split_and!; [|congruence..]. destruct A as [A|A]; [rewrite A; exact A1|now right].
Qed.
Lemma lay_upd t g a : (forall q, same_place q (g q)) -> lay a (upd_txq t g a).
Proof.
  intros Hg u q' Hq. cbn in Hq. destruct (decide (u = t)) as [->|Hn].
  - rewrite list_lookup_alter_eq in Hq. destruct (txq a !! t) as [q|]; [|done]. simplify_eq/=. eauto.
  - rewrite list_lookup_alter_ne in Hq by done. exists q'. unfold same_place. tauto.
Qed.

Lemma Lay_ok a b : lay a b -> Lay a (Ok b).
Proof. now intros H c [= <-]. Qed.
Lemma LayP_ok {A} a (x : A) b : lay a b -> LayP a (Ok (x, b)).
Proof. now intros H c [= <-]. Qed.
Lemma Lay_fault a f : Lay a (Fault f).
Proof. now intros b. Qed.
Lemma LayP_fault {A} a f : LayP (A := A) a (Fault f).
Proof. now intros b. Qed.
Lemma Lay_bind a (r : res rwnx_hw) f : Lay a r -> (forall b, Lay b (f b)) -> Lay a (r ≫= f).
Proof. intros H1 H2 c (b & E & F)%bind_Ok_inv. exact (lay_trans _ _ _ (H1 _ E) (H2 _ _ F)). Qed.
Lemma LayP_bind {A} a (r : res rwnx_hw) (f : rwnx_hw -> res (A * rwnx_hw)) : Lay a r -> (forall b, LayP b (f b)) -> LayP a (r ≫= f).
Proof. intros H1 H2 c (b & E & F)%bind_Ok_inv. exact (lay_trans _ _ _ (H1 _ E) (H2 _ _ F)). Qed.
Lemma Lay_bindP {A} a (r : res (A * rwnx_hw)) f : LayP a r -> (forall x b, Lay b (f (x, b))) -> Lay a (r ≫= f).
Proof. intros H1 H2 c ([x b] & E & F)%bind_Ok_inv. exact (lay_trans _ _ _ (H1 _ E) (H2 x _ _ F)). Qed.
Lemma Lay_get {A} a (r : res A) f : (forall x, r = Ok x -> Lay a (f x)) -> Lay a (r ≫= f).
Proof. intros H c (x & E & F)%bind_Ok_inv. exact (H x E c F). Qed.
Lemma LayP_get {A B} a (r : res A) (f : A -> res (B * rwnx_hw)) : (forall x, r = Ok x -> LayP a (f x)) -> LayP a (r ≫= f).
Proof. intros H c (x & E & F)%bind_Ok_inv. exact (H x E c F). Qed.
Lemma Lay_from a b r : lay a b -> Lay b r -> Lay a r.
Proof. intros H1 H2 c E. exact (lay_trans _ _ _ H1 (H2 _ E)). Qed.
Lemma Lay_fold {A} (f : A -> rwnx_hw -> res rwnx_hw) l a : (forall x b, Lay b (f x b)) -> Lay a (foldM f l a).
Proof. intros H. revert a. induction l as [|x l IH]; intros a; cbn; [now apply Lay_ok, lay_same|]. apply Lay_bind; auto. Qed.

(** Closes [lay a b] when [b] updates [a] outside of the place of a queue. *)
Ltac lay_upds :=
  lazymatch goal with
  | |- lay ?a ?a => now apply lay_same
  | |- lay ?a (upd_txq ?t ?g ?b) =>
      eapply lay_trans; [|apply lay_upd; intros q; cbn; try (unfold push_retry, push_count; repeat case_match); unfold same_place; cbn; tauto]; lay_upds
  | |- lay ?a (upd_ps ?s ?g ?b) => apply (lay_trans a b); [lay_upds|now apply lay_same]
  | |- lay ?a (upd_hwq ?s ?g ?b) => apply (lay_trans a b); [lay_upds|now apply lay_same]
  | |- lay ?a (log ?e ?b) => apply (lay_trans a b); [lay_upds|now apply lay_same]
  | |- lay ?a (list_del ?e ?b) => apply (lay_trans a b); [lay_upds|now apply lay_same]
  | |- lay ?a (field_set _ _ ?b) => apply (lay_trans a b); [lay_upds|now apply lay_same]
  | |- lay _ _ => first [now apply lay_same | case_match; lay_upds]
  end.

Create HintDb lay.
#[local] Hint Resolve Lay_fault LayP_fault : lay.
#[local] Hint Extern 1 (lay _ _) => lay_upds : lay.
Ltac lay_step :=
  lazymatch goal with
  | |- forall _, _ => intro
  | |- Lay _ (Fault _) => apply Lay_fault
  | |- LayP _ (Fault _) => apply LayP_fault
  | |- Lay _ (Ok _) => apply Lay_ok; lay_upds
  | |- LayP _ (Ok _) => apply LayP_ok; lay_upds
  | |- Lay _ (foldM _ _ _) => first [apply Lay_fold | eapply Lay_from; [|apply Lay_fold]; [lay_upds|]]
  | |- Lay _ (@mbind _ _ rwnx_hw _ _ _) => apply Lay_bind
  | |- LayP _ (@mbind _ _ rwnx_hw _ _ _) => apply LayP_bind
  | |- Lay _ (@mbind _ _ (_ * rwnx_hw)%type _ _ _) => apply Lay_bindP
  | |- Lay _ (@mbind _ _ _ _ _ _) => apply Lay_get
  | |- LayP _ (@mbind _ _ _ _ _ _) => apply LayP_get
  | |- Lay _ (let _ := _ in _) => cbn zeta
  | |- _ => case_match
  end.
(** Uses the lemmas of the operations called, on an updated state if need be. *)
Ltac lay_auto := repeat first [solve [eauto 3 with lay] | solve [eapply Lay_from; [|solve [eauto 3 with lay]]; lay_upds] | lay_step].

Section Plat.
Context (plat : rwnx_plat).

Lemma add_lay t a : Lay a (rwnx_txq_add_to_hw_list t a).
Proof. unfold rwnx_txq_add_to_hw_list. lay_auto. Qed.
Lemma del_lay t a : Lay a (rwnx_txq_del_from_hw_list t a).
Proof. unfold rwnx_txq_del_from_hw_list. lay_auto. Qed.
#[local] Hint Resolve add_lay del_lay : lay.
Lemma lay_set t q q' a : get_txq t a = Ok q -> same_place q q' -> lay a (upd_txq t (fun _ => q') a).
Proof.
  intros Hq Hp u x Hx. unfold get_txq in Hq. destruct (txq a !! t) as [q0|] eqn:E; [|done]. injection Hq as ->.
  cbn in Hx. destruct (decide (u = t)) as [->|Hn].
  - rewrite list_lookup_alter_eq, E in Hx. simplify_eq/=. eauto.
  - rewrite list_lookup_alter_ne in Hx by done. exists x. unfold same_place. tauto.
Qed.

Lemma start_lay t r a : Lay a (rwnx_txq_start t r a).
Proof.
  unfold rwnx_txq_start. apply Lay_get. intros q Hq. case_match; [|lay_auto].
  cbn zeta. match goal with |- context [upd_txq t ?g a] => apply (Lay_from _ (upd_txq t g a)) end; [eapply lay_set; [exact Hq|unfold same_place; cbn; tauto]|]. lay_auto.
Qed.
Lemma stop_lay t r a : Lay a (rwnx_txq_stop t r a).
Proof. unfold rwnx_txq_stop. lay_auto. Qed.
Lemma flush_lay t a : Lay a (rwnx_txq_flush t a).
Proof. unfold rwnx_txq_flush. lay_auto. Qed.
#[local] Hint Resolve start_lay stop_lay flush_lay : lay.
Lemma deinit_lay t a : Lay a (rwnx_txq_deinit t a).
Proof. unfold rwnx_txq_deinit. lay_auto. Qed.
#[local] Hint Resolve deinit_lay : lay.

Lemma foreach_lay sta body a : (forall t tid b, Lay b (body t tid b)) -> Lay a (foreach_sta_txq plat sta body a).
Proof. intros H. unfold foreach_sta_txq. apply Lay_fold. intros [t tid] b. apply H. Qed.

Lemma sta_start_lay s r a : Lay a (rwnx_txq_sta_start plat s r a).
Proof. unfold rwnx_txq_sta_start. apply Lay_get. intros. apply foreach_lay. auto with lay. Qed.
Lemma sta_stop_lay s r a : Lay a (rwnx_txq_sta_stop plat s r a).
Proof. unfold rwnx_txq_sta_stop. apply Lay_get. intros. apply foreach_lay. auto with lay. Qed.
Lemma sta_deinit_lay s a : Lay a (rwnx_txq_sta_deinit plat s a).
Proof. unfold rwnx_txq_sta_deinit. apply Lay_get. intros. apply foreach_lay. auto with lay. Qed.
#[local] Hint Resolve sta_start_lay sta_stop_lay sta_deinit_lay : lay.
Lemma for_each_lay vif f r a : (forall s r b, Lay b (f s r b)) -> Lay a (rwnx_txq_vif_for_each_sta vif f r a).
Proof. intros H. unfold rwnx_txq_vif_for_each_sta. lay_auto. Qed.
Lemma start_ptr_lay s r a : Lay a (sta_start_ptr plat s r a).
Proof. unfold sta_start_ptr. lay_auto. Qed.
Lemma stop_ptr_lay s r a : Lay a (sta_stop_ptr plat s r a).
Proof. unfold sta_stop_ptr. lay_auto. Qed.
#[local] Hint Resolve start_ptr_lay stop_ptr_lay for_each_lay : lay.
Lemma vif_start_lay vif r a : Lay a (rwnx_txq_vif_start plat vif r a).
Proof. unfold rwnx_txq_vif_start. lay_auto. Qed.
Lemma vif_stop_lay vif r a : Lay a (rwnx_txq_vif_stop plat vif r a).
Proof. unfold rwnx_txq_vif_stop. lay_auto. Qed.
Lemma switch_lay s vif c a : Lay a (rwnx_txq_sta_switch_vif plat s vif c a).
Proof. unfold rwnx_txq_sta_switch_vif. lay_auto. Qed.

Lemma more_data_lay k s a : LayP a (rwnx_set_more_data_flag k s a).
Proof. unfold rwnx_set_more_data_flag, rwnx_set_traffic_status. lay_auto. Qed.
#[local] Hint Resolve more_data_lay : lay.
Lemma push_out_lay k h a : lay a (push_out k h a).
Proof. apply lay_same. unfold push_out, aicwf_usb_host_txdesc_push. repeat case_match; simplify_eq/=; done. Qed.
Lemma tx_push_lay k f a : Lay a (rwnx_tx_push k f a).
Proof.
  unfold rwnx_tx_push. do 3 (apply Lay_get; intros). cbn zeta.
  apply (Lay_from _ (upd_txq (sw_txq k) (push_retry f) a)); [lay_upds|]. apply Lay_bindP.
  - lay_auto.
  - intros k' b. apply Lay_ok. eapply lay_trans; [|apply push_out_lay]. lay_upds.
Qed.
#[local] Hint Resolve tx_push_lay : lay.

Lemma queue_ps_txq q a b : queue_ps q a = Ok b -> txq b = txq a.
Proof.
  unfold queue_ps, rwnx_set_traffic_status. destruct (txq_sta q); [|now intros [= ->]].
  intros (sta & _ & E)%bind_Ok_inv. revert E. repeat case_match; now intros [= <-].
Qed.
Lemma queue_sk_list_place k retry q q' : queue_sk_list k retry q = Ok q' -> same_place q q'.
Proof.
  unfold queue_sk_list, same_place. destruct (negb retry); [intros [= <-]; cbn; tauto|].
  intros (l & _ & [= <-])%bind_Ok_inv. cbn. tauto.
Qed.
Lemma flow_ctrl_lay t a : Lay a (queue_flow_ctrl t a).
Proof. unfold queue_flow_ctrl. lay_auto. Qed.
#[local] Hint Resolve flow_ctrl_lay : lay.
Lemma queue_skb_lay k t retry a : LayP a (rwnx_txq_queue_skb k t retry a).
Proof.
  unfold rwnx_txq_queue_skb. apply LayP_get. intros q Hq c (b & Hb & E)%bind_Ok_inv.
  apply bind_Ok_inv in E as (q' & Hq' & E). pose proof (queue_ps_txq _ _ _ Hb) as Et.
  assert (get_txq t b = Ok q) as Hq1 by (unfold get_txq; now rewrite Et).
  apply (lay_trans _ b); [now apply lay_same|].
  apply (lay_trans _ (upd_txq t (fun _ => q') b)); [apply (lay_set _ _ _ _ Hq1); now apply queue_sk_list_place in Hq'|].
  revert E. assert (forall d, LayP d (hw ← queue_flow_ctrl t d; q ← get_txq t hw;
    if negb (rwnx_txq_is_stopped q) then hw ← rwnx_txq_add_to_hw_list t hw; Ok (true, hw) else Ok (false, hw))) as H by lay_auto.
  apply H.
Qed.
#[local] Hint Resolve queue_skb_lay : lay.

Lemma sp_lay t a : Lay a (process_sp t a).
Proof. unfold process_sp. lay_auto. Qed.
Lemma process_flow_lay t a : Lay a (process_flow_ctrl t a).
Proof. unfold process_flow_ctrl. lay_auto. Qed.
#[local] Hint Resolve sp_lay process_flow_lay : lay.
Lemma process_txq_lay h t a : Lay a (hwq_process_txq h t a).
Proof. unfold hwq_process_txq. lay_auto. Qed.
#[local] Hint Resolve process_txq_lay : lay.
Lemma loop_lay fuel h cur a : Lay a (hwq_loop fuel h cur a).
Proof. revert cur a. induction fuel as [|fuel IH]; intros [t|] a; cbn [hwq_loop]; lay_auto. Qed.
#[local] Hint Resolve loop_lay : lay.
Lemma process_lay h a : Lay a (rwnx_hwq_process h a).
Proof. unfold rwnx_hwq_process. lay_auto. Qed.
#[local] Hint Resolve process_lay : lay.
Lemma process_all_lay a : Lay a (rwnx_hwq_process_all a).
Proof. unfold rwnx_hwq_process_all. apply Lay_fold. lay_auto. Qed.
Lemma queue_process_lay k t a : Lay a (queue_and_process k t a).
Proof. unfold queue_and_process. lay_auto. Qed.

Lemma ps_enable_lay s e a : Lay a (rwnx_ps_bh_enable plat s e a).
Proof.
  unfold rwnx_ps_bh_enable, rwnx_set_traffic_status. apply Lay_get. intros sta _. destruct e.
  - cbn zeta. eapply Lay_from; [|apply Lay_bind; [apply sta_stop_lay|]]; [now apply lay_same|]. intros b. case_match; [lay_auto|].
    eapply Lay_from; [|apply foreach_lay]; [now apply lay_same|]. lay_auto.
  - cbn zeta. match goal with |- context [upd_ps s ?g a] => apply (Lay_from _ (upd_ps s g a)) end; [now apply lay_same|].
    apply Lay_bind; [case_match; [lay_auto|apply foreach_lay; lay_auto]|]. lay_auto.
Qed.
Lemma grant_lay s t p n a : Lay a (sp_grant s t p n a).
Proof. unfold sp_grant. lay_auto. Qed.
#[local] Hint Resolve grant_lay : lay.
Lemma prio_lay s sta p tid rest n a : Lay a (prio_loop plat s sta p tid rest n a).
Proof.
  revert tid n a. induction rest as [|t rest IH]; intros tid n a; cbn [prio_loop]; unfold prio_body; lay_auto.
Qed.
#[local] Hint Resolve prio_lay : lay.
Lemma traffic_lay s n p a : Lay a (rwnx_ps_bh_traffic_req plat s n p a).
Proof.
  unfold rwnx_ps_bh_traffic_req. apply Lay_get. intros sta _. case_match; [lay_auto|]. case_match.
  - eapply Lay_from; [|apply foreach_lay]; [now apply lay_same|]. lay_auto.
  - lay_auto.
Qed.

Lemma retry_lay k b a : Lay a (rwnx_tx_retry k b a).
Proof. unfold rwnx_tx_retry. lay_auto. Qed.
Lemma confirm_lay t h a : Lay a (rwnx_txq_confirm_any t h a).
Proof. unfold rwnx_txq_confirm_any. lay_auto. Qed.
#[local] Hint Resolve retry_lay confirm_lay : lay.
Lemma datacfm_lay k v a : Lay a (rwnx_txdatacfm k v a).
Proof. unfold rwnx_txdatacfm. lay_auto. Qed.
#[local] Hint Resolve datacfm_lay : lay.
Lemma cfm_lay v i a : Lay a (aicwf_usb_host_tx_cfm_handler v i a).
Proof. unfold aicwf_usb_host_tx_cfm_handler. lay_auto. Qed.
Lemma credit_lay s tid u a : Lay a (rwnx_txq_credit_update plat s tid u a).
Proof. unfold rwnx_txq_credit_update. lay_auto. Qed.

(** ** The place of a queue *)

Definition nx_remote_sta_max : Z := if old_ic plat then NX_REMOTE_STA_MAX_FOR_OLD_IC else NX_REMOTE_STA_MAX.
Definition bcmc_ndev_idx : Z := if old_ic plat then NX_BCMC_TXQ_NDEV_IDX_FOR_OLD_IC else NX_BCMC_TXQ_NDEV_IDX.
Definition first_vif : Z := first_vif_txq plat.

(** The netdev queue and the station of the transmit queue [t]. *)
Definition ndev_of (t : Z) : Z :=
  if t <? first_vif then
    if t mod NX_NB_TXQ_PER_STA <? NX_NB_TID_PER_STA
    then NX_STA_NDEV_IDX (t mod NX_NB_TXQ_PER_STA) (t / NX_NB_TXQ_PER_STA) else NDEV_NO_TXQ
  else if t <? first_vif + NX_VIRT_DEV_MAX then bcmc_ndev_idx else NDEV_NO_TXQ.
Definition owner_of (t : Z) : option nat :=
  if t <? first_vif then Some (Z.to_nat (t / NX_NB_TXQ_PER_STA))
  else if t <? first_vif + NX_VIRT_DEV_MAX then Some (Z.to_nat (nx_remote_sta_max + (t - first_vif))) else None.
Definition place (t : nat) (q : rwnx_txq) : Prop :=
  (idx q = Z.of_nat t \/ idx q = TXQ_INACTIVE) /\ ndev_idx q = ndev_of (Z.of_nat t) /\ txq_sta q = owner_of (Z.of_nat t).
(** A queue that was never initialised. *)
Definition blank (q : rwnx_txq) : Prop := idx q = TXQ_INACTIVE /\ ndev_idx q = 0.
Definition layout_ok (a : rwnx_hw) : Prop := forall t q, txq a !! t = Some q -> place t q \/ blank q.

Lemma lay_layout a b : lay a b -> layout_ok a -> layout_ok b.
Proof.
  intros H Ha t q' Hq. destruct (H t q' Hq) as (q & Hq1 & A & B & C). unfold place, blank. rewrite B, C.
  destruct (Ha t q Hq1) as [(A1 & B1 & C1)|[A1 B1]]; destruct A as [A|A]; rewrite ?A; tauto.
Qed.

Lemma first_vif_eq : first_vif = nx_remote_sta_max * NX_NB_TXQ_PER_STA /\ 0 < nx_remote_sta_max <= 32.
Proof. unfold first_vif, first_vif_txq, nx_remote_sta_max. destruct (old_ic plat); vm_compute; repeat split; congruence. Qed.
Lemma multicast_iff i : is_multicast_sta plat i = (nx_remote_sta_max <=? i).
Proof. unfold is_multicast_sta, nx_remote_sta_max. now destruct (old_ic plat). Qed.

(** The stations, and the firmware's numbering of the group addressed ones. *)
Record stations_ok (stas : list rwnx_sta) (vifs : list rwnx_vif) : Prop := {
  k_sta s st : stas !! s = Some st -> nx_remote_sta_max <= Z.of_nat s -> Z.of_nat s = nx_remote_sta_max + vif_idx st;
  k_bcmc v vif (a : rwnx_hw) m : vifs !! v = Some vif -> vif_table a = vifs -> master_vif_idx vif a = Ok m ->
    Z.of_nat (bcmc_index vif) = nx_remote_sta_max + m
}.

Lemma upd_layout t g a : (forall q, place t (g q)) -> layout_ok a -> layout_ok (upd_txq t g a).
Proof.
  intros Hg Ha u x Hx. cbn in Hx. destruct (decide (u = t)) as [->|Hn].
  - rewrite list_lookup_alter_eq in Hx. destruct (txq a !! t) as [q|]; [|done]. simplify_eq/=. auto.
  - rewrite list_lookup_alter_ne in Hx by done. eauto.
Qed.

Definition stas_numbered (a : rwnx_hw) : Prop := forall s st, sta_table a !! s = Some st -> sta_idx st = Z.of_nat s.

Lemma init_layout t i status h tid0 o nd a b : layout_ok a -> stas_numbered a -> i = Z.of_nat t -> (t < Z.to_nat NX_NB_TXQ)%nat ->
  o = owner_of i -> rwnx_txq_init plat t i status h tid0 o nd a = Ok b -> layout_ok b /\ sta_table b = sta_table a.
Proof.
  intros Ha Hs Ei Ht Ho. unfold rwnx_txq_init. intros (n & Hn & E)%bind_Ok_inv. apply bind_Ok_inv in E as (_ & _ & [= <-]).
  split; [|done]. apply upd_layout; [|done]. intros q. unfold place. cbn.
  assert (0 <= i < 297) as Hi by (change (Z.to_nat NX_NB_TXQ) with 297%nat in Ht; lia).
  rewrite Ei in Ho. rewrite (wrapU_small 16 i) by lia. split; [now left|]. split; [|done].
  rewrite <- Ei. subst o. revert Hn. unfold init_ndev_idx, ndev_of.
  change (if old_ic plat then NX_FIRST_VIF_TXQ_IDX_FOR_OLD_IC else NX_FIRST_VIF_TXQ_IDX) with first_vif.
  destruct first_vif_eq as [Ev Hr].
  replace (if old_ic plat then NX_FIRST_UNK_TXQ_IDX_FOR_OLD_IC else NX_FIRST_UNK_TXQ_IDX) with (first_vif + NX_VIRT_DEV_MAX)
    by (unfold first_vif, first_vif_txq; now destruct (old_ic plat)).
  rewrite <- Ei. unfold owner_of.
  destruct (i <? first_vif) eqn:E1.
  - cbn [from_option_res mbind res_bind]. intros (st & Est & [= <-])%bind_Ok_inv.
    assert (sta_idx st = i / NX_NB_TXQ_PER_STA) as ->.
    { unfold get_sta in Est. destruct (sta_table a !! _) as [x|] eqn:Ex; [|done]. injection Est as ->.
      rewrite (Hs _ _ Ex), Z2Nat.id; [done|]. apply Z.div_pos; [lia|done]. }
    replace (i - i / NX_NB_TXQ_PER_STA * NX_NB_TXQ_PER_STA) with (i mod NX_NB_TXQ_PER_STA)
      by (rewrite Z.mod_eq by done; lia).
    apply Z.ltb_lt in E1. pose proof (Z.mod_pos_bound i NX_NB_TXQ_PER_STA ltac:(done)) as Hm.
    change NX_NB_TXQ_PER_STA with 9 in *. assert (0 <= i / 9 < 32).
    { split; [apply Z.div_pos; [lia|done]|]. apply Z.div_lt_upper_bound; [done|]. lia. }
    destruct (_ <? NX_NB_TID_PER_STA); [|done]. apply wrapU_small.
    unfold NX_STA_NDEV_IDX. change NX_NB_TID_PER_STA with 8. lia.
  - destruct (i <? first_vif + NX_VIRT_DEV_MAX); intros [= <-]; [|done].
    apply wrapU_small. unfold bcmc_ndev_idx. destruct (old_ic plat); vm_compute; split; congruence.
Qed.

(** A loop that faults or keeps an invariant. *)
Lemma fold_keeps {A T} (I : T -> Prop) (f : A -> T -> res T) l t t' : I t ->
  (forall x t t', x ∈ l -> I t -> f x t = Ok t' -> I t') -> foldM f l t = Ok t' -> I t'.
Proof.
  revert t. induction l as [|x l IH]; intros t Ht Hf; cbn; [now intros [= <-]|].
  intros (t1 & E1 & E)%bind_Ok_inv. apply (IH t1); [|intros y u u' Hy; apply (Hf y); now right|exact E].
  apply (Hf x t); [now left|done..].
Qed.

Section Config.
Context (stas : list rwnx_sta) (vifs : list rwnx_vif).
Context (Hc : config_ok stas vifs) (Hs : strip <$> stas = stas) (Hk : stations_ok stas vifs).
#[local] Abbreviation inv := (inv plat stas vifs).

Lemma inv_numbered Q a : inv None Q a -> stas_numbered a.
Proof.
  intros H s st E. pose proof (sta_static _ _ _ _ _ _ _ _ H E) as E'.
  now destruct (c_sta _ _ Hc _ _ E') as [<- _].
Qed.

Lemma place_bound i n : 0 <= i < 297 -> i = Z.of_nat n -> (n < Z.to_nat NX_NB_TXQ)%nat.
Proof. change (Z.to_nat NX_NB_TXQ) with 297%nat. lia. Qed.

Lemma vif_queue v vif Q a m : inv None Q a -> vifs !! v = Some vif -> master_vif_idx vif a = Ok m -> 0 <= m < NX_VIRT_DEV_MAX.
Proof.
  intros H Hv. unfold master_vif_idx. destruct (c_vif _ _ Hc _ _ Hv) as (Hi & Hm & _).
  destruct (iftype vif) eqn:Ei; try (now intros [= <-]).
  unfold get_vif. rewrite (i_vifs _ _ _ _ _ _ H).
  destruct (vifs !! vlan_master vif) as [mv|] eqn:Em; [|done]. cbn. intros [= <-]. now destruct (c_vif _ _ Hc _ _ Em).
Qed.

Lemma offs_range m ty : 0 <= m < NX_VIRT_DEV_MAX -> 0 <= ty <= 1 -> 0 <= first_vif + m + ty * NX_VIRT_DEV_MAX < 297.
Proof. destruct first_vif_eq as [-> Hr]. change NX_VIRT_DEV_MAX with 4. change NX_NB_TXQ_PER_STA with 9. lia. Qed.

Lemma unk_init_layout vif st v Q a b : inv None Q a -> vifs !! v = Some vif -> forall a', layout_ok a' -> sta_table a' = sta_table a ->
  master_vif_idx vif a' = master_vif_idx vif a ->
  rwnx_txq_unk_vif_init_with plat vif st a' = Ok b -> layout_ok b.
Proof.
  intros H Hv a' Ha Es Em. unfold rwnx_txq_unk_vif_init_with, rwnx_txq_vif_get, rwnx_txq_vif_idx. rewrite Em.
  destruct (master_vif_idx vif a) as [m|] eqn:E; [|done]. cbn [mbind res_bind fmap res_fmap].
  pose proof (offs_range m 1 (vif_queue _ _ _ _ _ H Hv E) ltac:(lia)) as Hr.
  change (if NX_UNK_TXQ_TYPE <? NX_UNK_TXQ_TYPE then NX_BCMC_TXQ_TYPE else NX_UNK_TXQ_TYPE) with 1. change NX_UNK_TXQ_TYPE with 1.
  change (if old_ic plat then NX_FIRST_VIF_TXQ_IDX_FOR_OLD_IC else NX_FIRST_VIF_TXQ_IDX) with first_vif.
  intros Ei. eapply init_layout in Ei; [now destruct Ei|done| | | |].
  - intros s x. rewrite Es. exact (inv_numbered _ _ H s x).
  - now rewrite Z2Nat.id by lia.
  - apply (place_bound (first_vif + m + 1 * NX_VIRT_DEV_MAX)); [done|]. now rewrite Z2Nat.id by lia.
  - unfold owner_of. pose proof (vif_queue _ _ _ _ _ H Hv E). rewrite !(proj2 (Z.ltb_ge _ _)) by (change NX_VIRT_DEV_MAX with 4; lia). done.
Qed.

Lemma vif_init_layout v vif st Q a b : inv None Q a -> layout_ok a -> vifs !! v = Some vif ->
  rwnx_txq_vif_init plat vif st a = Ok b -> layout_ok b.
Proof.
  intros H Ha Hv. unfold rwnx_txq_vif_init, rwnx_txq_vif_get, rwnx_txq_vif_idx.
  destruct (master_vif_idx vif a) as [m|] eqn:E; [|done]. cbn [mbind res_bind fmap res_fmap].
  pose proof (vif_queue _ _ _ _ _ H Hv E) as Hm. pose proof (offs_range m 0 Hm ltac:(lia)) as Hr.
  change (if NX_UNK_TXQ_TYPE <? NX_BCMC_TXQ_TYPE then NX_BCMC_TXQ_TYPE else NX_BCMC_TXQ_TYPE) with 0. change NX_BCMC_TXQ_TYPE with 0.
  change (if old_ic plat then NX_FIRST_VIF_TXQ_IDX_FOR_OLD_IC else NX_FIRST_VIF_TXQ_IDX) with first_vif.
  intros (a1 & E1 & E2)%bind_Ok_inv. pose proof E1 as E1'. eapply init_layout in E1' as [H1 H2].
  - eapply (unk_init_layout vif st v Q a b H Hv a1); [done|done| |done].
    unfold master_vif_idx, get_vif. assert (vif_table a1 = vif_table a) as ->; [|done].
    revert E1. unfold rwnx_txq_init. intros (n & _ & (x & _ & [= <-])%bind_Ok_inv)%bind_Ok_inv. done.
  - done.
  - exact (inv_numbered _ _ H).
  - now rewrite Z2Nat.id by lia.
  - apply (place_bound (first_vif + m + 0 * NX_VIRT_DEV_MAX)); [done|]. now rewrite Z2Nat.id by lia.
  - unfold owner_of. rewrite (proj2 (Z.ltb_ge _ _)) by (change NX_VIRT_DEV_MAX with 4; lia).
    rewrite (proj2 (Z.ltb_lt _ _)) by (change NX_VIRT_DEV_MAX with 4 in *; lia). f_equal.
    pose proof (k_bcmc _ _ Hk _ _ _ _ Hv (i_vifs _ _ _ _ _ _ H) E). lia.
Qed.

Lemma sta_init_layout s st Q a b : inv None Q a -> layout_ok a -> rwnx_txq_sta_init plat s st a = Ok b -> layout_ok b.
Proof.
  intros H Ha. unfold rwnx_txq_sta_init. intros (sta & E1 & (vif & _ & E)%bind_Ok_inv)%bind_Ok_inv.
  unfold get_sta in E1. destruct (sta_table a !! s) as [x|] eqn:Ex; [|done]. injection E1 as ->.
  pose proof (inv_numbered _ _ H _ _ Ex) as Ei. pose proof (sta_static _ _ _ _ _ _ _ _ H Ex) as Est.
  destruct (c_sta _ _ Hc _ _ Est) as (_ & Hv & _). pose proof (k_sta _ _ Hk _ _ Est) as Hm. cbn in Hv, Hm.
  assert (forall tt, tt ∈ sta_txqs plat sta -> let i := rwnx_txq_sta_idx plat sta 0 + tt.2 in
    i = Z.of_nat tt.1 /\ 0 <= i < 297 /\ Some s = owner_of i) as Hq.
  { intros tt (n & -> & Hn%elem_of_seq)%list_elem_of_fmap_1. cbn [fst snd]. revert Hn. destruct first_vif_eq as [Ef Hr].
    unfold rwnx_txq_sta_get, rwnx_txq_sta_idx. change (if NX_NB_TXQ_PER_STA <=? 0 then 0 else 0) with 0.
    rewrite multicast_iff, Ei. unfold owner_of. change NX_NB_TXQ_PER_STA with 9 in *. change NX_VIRT_DEV_MAX with 4 in *.
    replace (if old_ic plat then NX_FIRST_VIF_TXQ_IDX_FOR_OLD_IC + vif_idx sta else NX_FIRST_VIF_TXQ_IDX + vif_idx sta)
      with (first_vif + vif_idx sta) by (unfold first_vif, first_vif_txq; now destruct (old_ic plat)).
    destruct (Z.leb_spec nx_remote_sta_max (Z.of_nat s)); intros Hn.
    - specialize (Hm ltac:(done)). split; [lia|]. split; [lia|].
      rewrite (proj2 (Z.ltb_ge _ _)), (proj2 (Z.ltb_lt _ _)) by lia. f_equal. lia.
    - split; [lia|]. split; [lia|]. rewrite (proj2 (Z.ltb_lt _ _)) by lia. f_equal.
      rewrite Z.add_0_r, Z.add_comm, Z.div_add, Z.div_small by lia. lia. }
  unfold foreach_sta_txq in E. eapply (fold_keeps (fun a' => layout_ok a' /\ sta_table a' = sta_table a)) in E; [exact (proj1 E)|done|].
  intros tt c d Htt [Hl Es] (h & _ & (c1 & Ec & [= <-])%bind_Ok_inv)%bind_Ok_inv. destruct (Hq _ Htt) as (A & B & C).
  eapply init_layout in Ec as [H1 H2]; [|done| |done|now apply (place_bound _ _ B)|done].
  - split; [|cbn; congruence]. eapply lay_layout; [|exact H1]. lay_upds.
  - intros j y. rewrite Es. exact (inv_numbered _ _ H j y).
Qed.

Lemma Lay_layout a r b : Lay a r -> layout_ok a -> r = Ok b -> layout_ok b.
Proof. intros H Ha E. exact (lay_layout _ _ (H b E) Ha). Qed.

Lemma step_layout o Q a b : inv None Q a -> layout_ok a -> step plat o a = Ok b -> layout_ok b.
Proof.
  intros H Ha. pose proof (i_vifs _ _ _ _ _ _ H) as Ev.
  destruct o; cbn [step]; unfold with_vif, get_vif; rewrite ?Ev;
    try (destruct (vifs !! v) as [vif|] eqn:Hv; [cbn [from_option_res mbind res_bind]|done]).
  - apply (Lay_layout a); [apply queue_process_lay|done].
  - apply (Lay_layout a); [apply cfm_lay|done].
  - apply (Lay_layout a); [apply process_all_lay|done].
  - now apply (sta_init_layout _ _ _ _ _ H).
  - apply (Lay_layout a); [apply sta_deinit_lay|done].
  - exact (vif_init_layout v vif _ Q a b H Ha Hv).
  - apply (Lay_layout a); [|exact Ha]. unfold rwnx_txq_vif_deinit. apply Lay_get. intros t _. lay_auto.
  - exact (unk_init_layout vif 0 v Q a b H Hv a Ha eq_refl eq_refl).
  - apply (Lay_layout a); [|exact Ha]. unfold rwnx_txq_unk_vif_deinit. apply Lay_get. intros t _. auto with lay.
  - unfold rwnx_txq_offchan_init. intros E. pose proof (offs_range 0 0 ltac:(done) ltac:(lia)). destruct first_vif_eq as [Ef Hr].
    assert (nx_off_chan_txq_idx plat = first_vif + 8) as Eo by (unfold first_vif; now rewrite off_chan_idx).
    assert (0 <= first_vif + 8 < 297) as Hb by (rewrite Ef; change NX_NB_TXQ_PER_STA with 9; lia).
    rewrite Eo in E. eapply init_layout in E; [exact (proj1 E)|done|exact (inv_numbered _ _ H)| | |].
    + now rewrite Z2Nat.id by lia.
    + apply (place_bound (first_vif + 8)); [done|]. now rewrite Z2Nat.id by lia.
    + unfold owner_of. change NX_VIRT_DEV_MAX with 4. rewrite !(proj2 (Z.ltb_ge _ _)) by lia. done.
  - apply (Lay_layout a); [apply deinit_lay|done].
  - apply (Lay_layout a); [apply start_lay|done].
  - apply (Lay_layout a); [apply sta_start_lay|done].
  - apply (Lay_layout a); [apply sta_stop_lay|done].
  - apply (Lay_layout a); [apply vif_start_lay|done].
  - apply (Lay_layout a); [apply vif_stop_lay|done].
  - apply (Lay_layout a); [apply switch_lay|done].
  - apply (Lay_layout a); [apply credit_lay|done].
  - apply (Lay_layout a); [apply ps_enable_lay|done].
  - apply (Lay_layout a); [apply traffic_lay|done].
  - intros [= <-]. eapply lay_layout; [now apply lay_same|done].
Qed.

(** Every initialised queue of a reachable state stands for its netdev queue. *)
Lemma reachable_layout a : reachable plat stas vifs a -> layout_ok a.
Proof.
  induction 1 as [|o a b Hr IH Hok Hst].
  - intros t q Hq. rewrite (init_txq _ _ _ _ Hq). now right.
  - destruct (reachable_inv plat stas vifs Hc a Hs Hr) as [Q H]. eapply step_layout; eauto.
Qed.

End Config.
End Plat.
End Layout.
