(* ===== verification/Xmit.v ===== *)
(** The entry of frames into the driver: the choice of a queue
    ([rwnx_select_txq]), [rwnx_start_xmit] with the filter of TCP
    acknowledgements in front of it, [intf_tx], [rwnx_start_mgmt_xmit] of
    [rwnx_tx.c], and [rwnx_get_mesh_proxy_info] of [rwnx_mesh.c].

    [Entry] holds the data and the operations, over the transmit queues of
    [Txq.v] and the filter of [TcpAck.v].  What these functions read of a station
    or an interface beyond the records of [Txq.v] is in [sta_more] and
    [vif_more]; an address is its six bytes, a [struct msg_buf *] an index of
    [msgs].  The properties are in [XmitProps.v]. *)
From stdpp Require Import base list numbers option gmap.
From Stdlib Require Import ZArith Lia.
From S2P Require Import Prelude TcpAck Txq.

#[local] Open Scope Z_scope.
#[local] Open Scope aic_scope.

Module Entry.
Import Hw.

Definition PRIO_STA_NULL : Z := 170.
Definition rwnx_down_hwq2tid : list Z := [2; 3; 5].
Definition NX_NB_NDEV_TXQ : Z := NX_NB_TID_PER_STA * NX_REMOTE_STA_MAX + 1.
Definition RWNX_SWTXHDR_ALIGN_SZ : Z := 4.
Definition RWNX_SWTXHDR_ALIGN_MSK : Z := RWNX_SWTXHDR_ALIGN_SZ - 1.
Definition RWNX_SWTXHDR_ALIGN_PADS (x : Z) : Z :=
  Z.land (RWNX_SWTXHDR_ALIGN_SZ - Z.land x RWNX_SWTXHDR_ALIGN_MSK) RWNX_SWTXHDR_ALIGN_MSK.
Definition TXU_CNTRL_MGMT_NO_CCK : Z := BIT 4.
Definition TXU_CNTRL_MGMT_ROBUST : Z := BIT 7.
Definition TXU_CNTRL_USE_4ADDR : Z := BIT 8.
Definition TXU_CNTRL_MESH_FWD : Z := BIT 10.
Definition TXU_CNTRL_TDLS : Z := BIT 11.
(** Constants of the kernel. *)
Definition IEEE80211_QOS_CTL_TAG1D_MASK : Z := 7.
Definition ETH_P_TDLS : Z := 35085.
Definition EBUSY : Z := 16.
Definition ENOMEM : Z := 12.

(** A frame of the network stack: [data] runs from [skb->data] without the
    [hdr_len] bytes of headers that the driver has pushed in front of it. *)
Record net_skb := mk_net_skb {
  skb_id : Z;                   (* the pointer *)
  data : list Z;
  hdr_len : Z;
  skb_headroom : Z;
  data_addr : Z;                (* skb->data *)
  priority : Z;                 (* u32 *)
  queue_mapping : Z;            (* u16 *)
  skb_shared : bool;
  skb_cloned : bool
}.
#[export] Instance net_skb_eta : RecordEta net_skb := fun k =>
  mk_net_skb (skb_id k) (data k) (hdr_len k) (skb_headroom k) (data_addr k) (priority k) (queue_mapping k)
    (skb_shared k) (skb_cloned k).
Definition skb_len (k : net_skb) : Z := hdr_len k + Z.of_nat (length (data k)).

(** [skb_pull] leaves a frame that is too short alone; [skb_push] is a [BUG]
    without room. *)
Definition skb_pull (n : nat) (k : net_skb) : net_skb :=
  if (n <=? length (data k))%nat then
    k <| data ::= drop n |> <| skb_headroom ::= fun h => h + Z.of_nat n |> <| data_addr ::= fun a => a + Z.of_nat n |>
  else k.
Definition skb_push (n : Z) (k : net_skb) : res net_skb :=
  if skb_headroom k <? n then Fault BugOn
  else Ok (k <| hdr_len ::= fun h => h + n |> <| skb_headroom ::= fun h => h - n |> <| data_addr ::= fun a => a - n |>).

(** The members of [struct rwnx_sta] and [struct rwnx_vif] used here and not in [Txq.v]. *)
Record sta_more := mk_sta_more { mac_addr : list Z; qos : bool; last_tid : Z (* tdls.last_tid *) }.
#[export] Instance sta_more_eta : RecordEta sta_more := fun s => mk_sta_more (mac_addr s) (qos s) (last_tid s).

Record rwnx_mesh_path := mk_mesh_path { tgt_mac_addr : list Z; p_nhop_sta : option nat }.
Record rwnx_mesh_proxy := mk_mesh_proxy { ext_sta_addr : list Z; proxy_addr : list Z; local : bool }.

Record vif_more := mk_vif_more {
  use_4addr : bool; is_resending : bool;
  sta_4a : option nat;                       (* ap_vlan.sta_4a *)
  mpath_list : list rwnx_mesh_path;          (* ap.mpath_list *)
  proxy_list : list rwnx_mesh_proxy;         (* ap.proxy_list *)
  create_path : bool;                        (* ap.create_path *)
  csa_count : option Z;                      (* ap.csa->count, when ap.csa is set *)
  perm_addr : list Z;                        (* ndev->perm_addr *)
  bridge_port : bool                         (* ndev->priv_flags & IFF_BRIDGE_PORT *)
}.
#[export] Instance vif_more_eta : RecordEta vif_more := fun v =>
  mk_vif_more (use_4addr v) (is_resending v) (sta_4a v) (mpath_list v) (proxy_list v) (create_path v) (csa_count v)
    (perm_addr v) (bridge_port v).

(** [struct hostdesc], without the members that are in the frame of [Txq.v]
    ([status_desc_addr], [ethertype], [ac], [flags]). *)
Record hostdesc := mk_hostdesc {
  packet_len : Z; flags_ext : Z; eth_dest_addr : list Z; eth_src_addr : list Z; desc_tid : Z; desc_vif_idx : Z; staid : Z
}.

(** [struct rwnx_sw_txhdr] of a frame, with the payload behind its headers. *)
Record rwnx_sw_txhdr := mk_txhdr {
  frame_len : Z; headroom : Z; map_len : Z; desc : hostdesc; payload : list Z
}.

Inductive mesh_msg :=
| MESH_PROXY_ADD_REQ (vif : Z) (ext_addr : list Z)
| MESH_PATH_CREATE_REQ (vif : Z) (tgt_addr : list Z).

Record xmit_hw := mk_xw {
  hw : rwnx_hw;
  x_stas : list sta_more;                      (* by index in sta_table *)
  x_vifs : list vif_more;                      (* by index in vif_table *)
  ack_m : Filter.tcp_ack_manage;
  msgs : gmap nat (nat * net_skb);           (* the msg_bufs: their interface and frame *)
  hdrs : gmap Z rwnx_sw_txhdr;               (* by frame *)
  freed : list Z;                            (* frames freed before they had a header *)
  mesh_sent : list mesh_msg
}.
#[export] Instance xmit_hw_eta : RecordEta xmit_hw := fun w =>
  mk_xw (hw w) (x_stas w) (x_vifs w) (ack_m w) (msgs w) (hdrs w) (freed w) (mesh_sent w).

(** What an [rwnx_sw_txhdr] holds when it is allocated: members nothing writes
    before the frame is pushed. *)
Record sw_mem := mk_sw_mem {
  m_hw_queue : Z; m_dma_addr : Z; m_need_cfm : bool; m_rate_config : Z; m_flags_ext : Z; m_addrs : list Z * list Z
}.

(** The answers of the allocators, and the time. *)
Record xmit_env := mk_xenv {
  jiffies : Z;
  e_skb : option (Z * Z);                    (* a new sk_buff: pointer and address of its buffer *)
  e_msg : option nat;                        (* intf_tcp_alloc_msg *)
  e_sw : option sw_mem;                      (* kmem_cache_alloc *)
  e_mesh : bool                              (* rwnx_msg_zalloc *)
}.

Definition get_sta_more (s : nat) (w : xmit_hw) : res sta_more := from_option_res OutOfBounds (x_stas w !! s).
Definition get_vif_more (v : nat) (w : xmit_hw) : res vif_more := from_option_res OutOfBounds (x_vifs w !! v).
(** [dev_kfree_skb_any] of a frame without a header. *)
Definition free_skb (id : Z) (w : xmit_hw) : xmit_hw := w <| freed ::= fun l => l ++ [id] |>.
Definition is_multicast_ether_addr (a : list Z) : bool := match a with b :: _ => Z.odd b | [] => false end.

Section Plat.
Context (plat : rwnx_plat).
(** Kernel services: the 802.1d tag of a frame, robust management frames, ticks. *)
Context (cfg80211_classify8021d : list Z -> Z) (ieee80211_is_robust_mgmt_frame : list Z -> bool)
        (msecs_to_jiffies : Z -> Z).
(** The size of a pointer and of a cache line. *)
Context (ptr_size L1_CACHE_BYTES : Z).

(** [struct rwnx_txhdr]: a pointer, the guard, and [struct tx_cfm_tag], whose
    20 bytes are aligned to 4. *)
Definition offset_hw_hdr : Z := ptr_size + L1_CACHE_BYTES.
Definition sizeof_txhdr : Z := (offset_hw_hdr + 20 + ptr_size - 1) / ptr_size * ptr_size.

Definition nx_bcmc_txq_ndev_idx : Z := if old_ic plat then NX_BCMC_TXQ_NDEV_IDX_FOR_OLD_IC else NX_BCMC_TXQ_NDEV_IDX.
Definition nx_remote_sta_max : Z := if old_ic plat then NX_REMOTE_STA_MAX_FOR_OLD_IC else NX_REMOTE_STA_MAX.

(** ** Choice of a queue *)

(** The loop of [rwnx_downgrade_ac]: the access category goes down as long as
    it needs an admission. *)
Fixpoint downgrade_loop (acm_ : Z) (ac : nat) (prio : Z) : res Z :=
  if has acm_ (BIT (Z.of_nat ac)) then
    match ac with
    | O => Ok 1
    | S ac => prio ← from_option_res OutOfBounds (rwnx_down_hwq2tid !! ac); downgrade_loop acm_ ac prio
    end
  else Ok prio.

Definition rwnx_downgrade_ac (acm_ prio : Z) : res Z :=
  ac ← from_option_res OutOfBounds (rwnx_tid2hwq !! Z.to_nat prio);
  downgrade_loop acm_ (if (RWNX_HWQ_VO <? ac)%nat then RWNX_HWQ_VO else ac) prio.

Definition rwnx_get_mesh_proxy_info (v : vif_more) (addr : list Z) (loc : bool) : option rwnx_mesh_proxy :=
  list_find (fun p => local p = loc /\ ext_sta_addr p = addr) (proxy_list v) ≫= fun ip => Some ip.2.

Definition rwnx_send_mesh_proxy_add_req (alloc : bool) (vif : rwnx_vif) (ext_addr : list Z) (w : xmit_hw) : xmit_hw :=
  if alloc then w <| mesh_sent ::= fun l => l ++ [MESH_PROXY_ADD_REQ (vif_index vif) ext_addr] |> else w.
Definition rwnx_send_mesh_path_create_req (alloc : bool) (v : nat) (vif : rwnx_vif) (tgt_addr : list Z) (w : xmit_hw)
  : res xmit_hw :=
  m ← get_vif_more v w;
  Ok (if negb (create_path m) && alloc then
        w <| x_vifs ::= alter (fun m => m <| create_path := true |>) v |>
          <| mesh_sent ::= fun l => l ++ [MESH_PATH_CREATE_REQ (vif_index vif) tgt_addr] |>
      else w).

(** The station of the list with this address. *)
Fixpoint find_sta (l : list nat) (addr : list Z) (w : xmit_hw) : res (option nat) :=
  match l with
  | [] => Ok None
  | s :: l => m ← get_sta_more s w; if decide (mac_addr m = addr) then Ok (Some s) else find_sta l addr w
  end.

Definition is_tdls_peer (vif : rwnx_vif) (addr : list Z) (w : xmit_hw) : res (option nat) :=
  match tdls_link_active vif, tdls_sta vif with
  | true, Some s => m ← get_sta_more s w; Ok (if decide (mac_addr m = addr) then Some s else None)
  | _, _ => Ok None
  end.

(** The cases of the [switch] over the type of the interface. *)
Definition pick_ap (vif : rwnx_vif) (d : list Z) (w : xmit_hw) : res (option nat) :=
  dest ← slice d 0 6;
  if is_multicast_ether_addr dest then Ok (Some (bcmc_index vif)) else find_sta (ap_sta_list vif) dest w.

Definition pick_mesh (env : xmit_env) (v : nat) (vif : rwnx_vif) (d : list Z) (w : xmit_hw)
  : res (option nat * xmit_hw) :=
  m ← get_vif_more v w;
  w ← (if negb (is_resending m) then
         source ← slice d 6 6;
         Ok (if negb (bool_decide (source = perm_addr m)) && is_null (rwnx_get_mesh_proxy_info m source true)
             then rwnx_send_mesh_proxy_add_req (e_mesh env) vif source w else w)
       else Ok w);
  dest ← slice d 0 6;
  if is_multicast_ether_addr dest then Ok (Some (bcmc_index vif), w) else
  let tgt := match rwnx_get_mesh_proxy_info m dest false with Some p => proxy_addr p | None => dest end in
  match list_find (fun p => tgt_mac_addr p = tgt) (mpath_list m) with
  | Some (_, p) => Ok (p_nhop_sta p, w)
  | None => w ← rwnx_send_mesh_path_create_req (e_mesh env) v vif tgt w; Ok (None, w)
  end.

(** The station, and [tdls_mgmgt_frame]. *)
Definition pick_sta (env : xmit_env) (v : nat) (d : list Z) (w : xmit_hw) : res (option nat * bool * xmit_hw) :=
  vif ← get_vif v (hw w);
  match iftype vif with
  | NL80211_IFTYPE_STATION | NL80211_IFTYPE_P2P_CLIENT =>
      proto ← be16 d 12; dest ← slice d 0 6;
      p ← is_tdls_peer vif dest w;
      Ok (match p with Some s => Some s | None => sta_ap vif end, proto =? ETH_P_TDLS, w)
  | NL80211_IFTYPE_AP_VLAN =>
      m ← get_vif_more v w;
      match sta_4a m with
      | Some s => Ok (Some s, false, w)
      | None => master ← get_vif (vlan_master vif) (hw w); s ← pick_ap master d w; Ok (s, false, w)
      end
  | NL80211_IFTYPE_AP | NL80211_IFTYPE_P2P_GO => s ← pick_ap vif d w; Ok (s, false, w)
  | NL80211_IFTYPE_MESH_POINT => r ← pick_mesh env v vif d w; Ok (r.1, false, r.2)
  | _ => Ok (None, false, w)
  end.

(** The priority of a frame to a station that supports QoS. *)
Definition qos_priority (sta : rwnx_sta) (tdls : bool) (k : net_skb) : res net_skb :=
  let k := if tdls then k <| queue_mapping := u16 (NX_STA_NDEV_IDX (priority k) (sta_idx sta)) |>
           else k <| priority := Z.land (cfg80211_classify8021d (data k)) IEEE80211_QOS_CTL_TAG1D_MASK |> in
  if negb (acm sta =? 0) then p ← rwnx_downgrade_ac (acm sta) (priority k); Ok (k <| priority := p |>) else Ok k.

Definition select_for (s : option nat) (tdls : bool) (k : net_skb) (w : xmit_hw) : res (Z * net_skb) :=
  match s with
  | Some s =>
      sta ← get_sta s (hw w); m ← get_sta_more s w;
      k ← (if qos m then qos_priority sta tdls k else Ok (k <| priority := 255 |>));
      q ← get_txq (rwnx_txq_sta_get plat sta (if qos m then u8 (priority k) else 0)) (hw w);
      Ok (ndev_idx q, k)
  | None => Ok (nx_bcmc_txq_ndev_idx, k <| priority := PRIO_STA_NULL |>)
  end.

Definition rwnx_select_txq (env : xmit_env) (v : nat) (k : net_skb) (w : xmit_hw) : res (Z * net_skb * xmit_hw) :=
  p ← pick_sta env v (data k) w;
  let '(s, tdls, w) := p in
  nk ← select_for s tdls k w;
  if NX_NB_NDEV_TXQ <=? nk.1 then Fault BugOn else Ok (nk.1, nk.2, w).

(** ** Transmission *)

(** The station of a frame, if any, and its TID. *)
Definition rwnx_get_tx_priv (v : nat) (k : net_skb) (w : xmit_hw) : res (option nat * Z) :=
  let tid := u8 (priority k) in
  if priority k =? PRIO_STA_NULL then Ok (None, tid) else
  vif ← get_vif v (hw w);
  if queue_mapping k =? nx_bcmc_txq_ndev_idx then
    m ← master_vif_idx vif (hw w); Ok (Some (Z.to_nat (nx_remote_sta_max + m)), tid)
  else Ok (Some (Z.to_nat (queue_mapping k / NX_NB_TID_PER_STA)), tid).

(** The flags of a data frame; the TID of the last frame over a TDLS link is kept. *)
Definition data_flags (v : nat) (vif : rwnx_vif) (sta : rwnx_sta) (dest : list Z) (tid : Z) (w : xmit_hw)
  : res (Z * xmit_hw) :=
  m ← get_vif_more v w;
  let f := if use_4addr m && (sta_idx sta <? NX_REMOTE_STA_MAX) then TXU_CNTRL_USE_4ADDR else 0 in
  p ← is_tdls_peer vif dest w;
  let '(f, w) := match p with
                 | Some s => (setf f TXU_CNTRL_TDLS, w <| x_stas ::= alter (fun s => s <| last_tid := tid |>) s |>)
                 | None => (f, w)
                 end in
  Ok (if bool_decide (iftype vif = NL80211_IFTYPE_MESH_POINT) && is_resending m then setf f TXU_CNTRL_MESH_FWD else f, w).

(** The second half of [rwnx_start_xmit] and of [intf_tx], the same text in
    both: the frame is freed, or gets its header and goes to its queue
    ([rwnx_prep_tx] does nothing and answers 0). *)
Definition xmit_frame (env : xmit_env) (v : nat) (k : net_skb) (w : xmit_hw) : res xmit_hw :=
  dest ← slice (data k) 0 6; source ← slice (data k) 6 6; proto ← le16 (data k) 12;
  st ← rwnx_get_tx_priv v k w;
  match st with
  | (None, _) => Ok (free_skb (skb_id k) w)
  | (Some s, tid) =>
      sta ← get_sta s (hw w);
      let t := rwnx_txq_sta_get plat sta tid in
      q ← get_txq t (hw w);
      if idx q =? TXQ_INACTIVE then Ok (free_skb (skb_id k) w) else
      let k := skb_pull 14 k in
      let hdr_pads := RWNX_SWTXHDR_ALIGN_PADS (data_addr k) in
      let headroom := sizeof_txhdr + hdr_pads in
      k ← skb_push headroom k;
      match e_sw env with
      | None => Ok (free_skb (skb_id k) w)
      | Some mem =>
          vif ← get_vif v (hw w);
          vif_idx ← master_vif_idx vif (hw w);
          fw ← data_flags v vif sta dest tid w;
          let frame_len := u16 (u16 (skb_len k) - headroom) in
          let d := mk_hostdesc frame_len (m_flags_ext mem) dest source tid (u8 vif_idx) (sta_idx sta) in
          let h := mk_txhdr frame_len (u16 headroom) (skb_len k - offset_hw_hdr) d (data k) in
          let f := mk_skb (skb_id k) t (Some s) v (m_hw_queue mem) fw.1 (u32 (m_dma_addr mem)) (m_need_cfm mem) proto
                     (default 0 (data k !! 0%nat)) false false (m_rate_config mem) in
          hw' ← queue_and_process f t (hw fw.2);
          Ok (fw.2 <| hw := hw' |> <| hdrs ::= <[skb_id k := h]> |>)
      end
  end.

(** [intf_tcp_drop_msg] and [intf_tx]: a message that is no longer there is
    read after it was freed. *)
Definition intf_tcp_drop_msg (m : nat) (w : xmit_hw) : res xmit_hw :=
  vk ← from_option_res Uninitialised (msgs w !! m);
  Ok (free_skb (skb_id vk.2) w <| msgs ::= delete m |>).

Definition intf_tx (env : xmit_env) (m : nat) (w : xmit_hw) : res xmit_hw :=
  vk ← from_option_res Uninitialised (msgs w !! m);
  xmit_frame env vk.1 vk.2 (w <| ack_m ::= fun a => Filter.move_tcpack_msg a m |> <| msgs ::= delete m |>).

Definition tcp_event (env : xmit_env) (e : Filter.tcp_event) (w : xmit_hw) : res xmit_hw :=
  match e with
  | Filter.DropMsg m => intf_tcp_drop_msg m w
  | Filter.TxMsg m => intf_tx env m w
  end.

(** The timer of entry [i] of the filter. *)
Definition ack_timer (env : xmit_env) (i : nat) (w : xmit_hw) : res xmit_hw :=
  let '(a, evs) := Filter.tcp_ack_timeout i (ack_m w) in
  foldM (tcp_event env) evs (w <| ack_m := a |>).

(** The frame to work on: a copy when the frame is shared, has no room for the
    header or is a clone on a bridge; [None] when there is no memory. *)
Definition unshare (env : xmit_env) (m : vif_more) (k : net_skb) : option (net_skb * bool) :=
  if skb_shared k || (skb_headroom k <? sizeof_txhdr) || (skb_cloned k && bridge_port m) then
    match e_skb env with
    | None => None
    | Some (id, head) =>
        Some (k <| skb_id := id |> <| skb_headroom := sizeof_txhdr |> <| data_addr := head + sizeof_txhdr |>
                <| skb_shared := false |> <| skb_cloned := false |>, true)
    end
  else Some (k, false).

(** The part of [rwnx_start_xmit] under [CONFIG_FILTER_TCP_ACK]: [true] when the
    filter keeps the frame. *)
Definition xmit_filter (env : xmit_env) (v : nat) (k : net_skb) (w : xmit_hw) : res (bool * xmit_hw) :=
  if u16 (skb_len k) <=? MAX_TCP_ACK then
    m ← from_option_res NullDeref (e_msg env);
    r ← Filter.filter_send_tcp_ack msecs_to_jiffies (jiffies env) (ack_m w) m (data k) (u16 (skb_len k));
    let '(ret, a, evs) := r in
    w ← foldM (tcp_event env) evs (w <| ack_m := a |> <| msgs ::= <[m := (v, k)]> |>);
    if negb (ret =? 0) then Ok (true, w)
    else Ok (false, w <| ack_m ::= fun a => Filter.move_tcpack_msg a m |> <| msgs ::= delete m |>)
  else Ok (false, w).

Definition rwnx_start_xmit (env : xmit_env) (v : nat) (k : net_skb) (w : xmit_hw) : res xmit_hw :=
  m ← get_vif_more v w;
  match unshare env m k with
  | None => Ok (free_skb (skb_id k) w)
  | Some (k', copied) =>
      let w := if copied then free_skb (skb_id k) w else w in
      let k' := if priority k' <? 3 then k' <| priority := 0 |> else k' in
      r ← xmit_filter env v k' w;
      let '(kept, w) := (r : bool * xmit_hw) in
      if kept then Ok w else xmit_frame env v k' w
  end.

(** A frame from the network: the kernel calls [ndo_select_queue], notes its
    answer in the frame and calls [ndo_start_xmit]. *)
Definition dev_queue_xmit (env : xmit_env) (v : nat) (k : net_skb) (w : xmit_hw) : res xmit_hw :=
  r ← rwnx_select_txq env v k w;
  let '(n, k, w) := r in
  rwnx_start_xmit env v (k <| queue_mapping := u16 n |>) w.

(** The end of [rwnx_tdls_send_mgmt_packet_data]: the answer of
    [rwnx_select_txq] is not noted. *)
Definition tdls_send (env : xmit_env) (setup : bool) (v : nat) (k : net_skb) (w : xmit_hw) : res xmit_hw :=
  r ← rwnx_select_txq env v (k <| priority := if setup then 2 else 5 |>) w;
  let '(_, k, w) := r in
  rwnx_start_xmit env v k w.

(** ** Management frames *)

(** [struct cfg80211_mgmt_tx_params] *)
Record cfg80211_mgmt_tx_params := mk_mgmt { buf : list Z; no_cck : bool; csa_offsets : list Z }.

(** The CSA counters are written into the copy of the frame. *)
Definition put_csa (count : Z) (o : Z) (d : list Z) : res (list Z) :=
  _ ← rd8 d o; Ok (<[Z.to_nat o := count]> d).

Definition mgmt_txq (v : nat) (s : option nat) (offchan : bool) (w : xmit_hw) : res nat :=
  match s with
  | Some s => sta ← get_sta s (hw w); Ok (rwnx_txq_sta_get plat sta TID_MGT)
  | None =>
      if offchan then Ok (Z.to_nat (nx_off_chan_txq_idx plat))
      else vif ← get_vif v (hw w); rwnx_txq_vif_get plat vif NX_UNK_TXQ_TYPE (hw w)
  end.

(** The return value, 0 or a negated error, and the state. *)
Definition rwnx_start_mgmt_xmit (env : xmit_env) (v : nat) (s : option nat) (params : cfg80211_mgmt_tx_params) (offchan : bool)
  (w : xmit_hw) : res (Z * xmit_hw) :=
  let headroom := u16 sizeof_txhdr in
  let frame_len := u16 (Z.of_nat (length (buf params))) in
  t ← mgmt_txq v s offchan w;
  q ← get_txq t (hw w);
  if idx q =? TXQ_INACTIVE then Ok (- EBUSY, w) else
  match e_skb env with
  | None => Ok (- ENOMEM, w)
  | Some (id, _) =>
      let d := take (Z.to_nat frame_len) (buf params) in
      let robust := ieee80211_is_robust_mgmt_frame d in
      vif ← get_vif v (hw w);
      m ← get_vif_more v w;
      d ← match bool_decide (iftype vif = NL80211_IFTYPE_AP), csa_count m with
          | true, Some count => foldM (put_csa count) (csa_offsets params) d
          | _, _ => Ok d
          end;
      match e_sw env with
      | None => Ok (- ENOMEM, free_skb id w)
      | Some mem =>
          idx ← match s with Some s => sta ← get_sta s (hw w); Ok (sta_idx sta) | None => Ok 255 end;
          let flags := if robust then setf TXU_CNTRL_MGMT TXU_CNTRL_MGMT_ROBUST else TXU_CNTRL_MGMT in
          let flags := if no_cck params then setf flags TXU_CNTRL_MGMT_NO_CCK else flags in
          let desc := mk_hostdesc frame_len (m_flags_ext mem) (m_addrs mem).1 (m_addrs mem).2 255 (vif_index vif) idx in
          let h := mk_txhdr frame_len headroom (headroom + Z.of_nat (length d) - offset_hw_hdr) desc d in
          let f := mk_skb id t s v (m_hw_queue mem) flags (u32 (m_dma_addr mem)) (m_need_cfm mem) 0
                     (default 0 (d !! 0%nat)) false false (m_rate_config mem) in
          hw' ← queue_and_process f t (hw w);
          Ok (0, w <| hw := hw' |> <| hdrs ::= <[id := h]> |>)
      end
  end.

(** ** On the bus *)

Definition le2 (x : Z) : list Z := [x mod 256; x / 256 mod 256].
Definition le4 (x : Z) : list Z := le2 x ++ le2 (x / 65536).

(** The bytes of [struct hostdesc] for the frame [f] as it is pushed. *)
Definition desc_bytes (f : sk_buff) (h : hostdesc) : list Z :=
  le2 (packet_len h) ++ le2 (flags_ext h) ++ le4 (status_desc_addr f) ++ eth_dest_addr h ++ eth_src_addr h ++
  le2 (ethertype f) ++ [hw_queue f; desc_tid h; desc_vif_idx h; staid h] ++ le2 (desc_flags f).

End Plat.
End Entry.
