(* ===== verification/Radar.v ===== *)
(** Radar (DFS) detection of [rwnx_radar.c] and [rwnx_radar.h]: the pulses the
    firmware reports ([rwnx_radar_detect_ind] of [rwnx_msg_rx.c]), the work
    item that runs every pulse through the detectors of each radar type of the
    regulatory domain, and the channel availability check.

    - [Specs]: the radar types of the domains.
    - [Pri]: the detector of one radar type on one frequency: a queue of pulses
      and sequences of pulses with one repetition interval.
    - [Dfs]: all detectors of a chain, and the driver interface.

    The facts and the properties are in RadarFacts.v and RadarProps.v.

    A queue of pulses is the list of their time stamps, newest first, as the
    linked list is; a pointer to a detector is its place in its list.  The
    pools of free elements are counters; [kmalloc] answers what is left of the
    list [allocs], and succeeds when nothing is left of it. *)
From stdpp Require Import base list numbers option.
From Stdlib Require Import ZArith Lia Sorted.
From S2P Require Import Prelude.

#[local] Open Scope Z_scope.
#[local] Open Scope aic_scope.

Module Specs.

Definition PRI_TOLERANCE : Z := 16.

Inductive nl80211_dfs_regions := NL80211_DFS_UNSET | NL80211_DFS_FCC | NL80211_DFS_ETSI | NL80211_DFS_JP.
#[export] Instance nl80211_dfs_regions_eq_dec : EqDecision nl80211_dfs_regions.
Proof. solve_decision. Defined.

Inductive radar_waveform_type :=
| RADAR_WAVEFORM_SHORT | RADAR_WAVEFORM_WEATHER | RADAR_WAVEFORM_INTERLEAVED | RADAR_WAVEFORM_LONG.
#[export] Instance radar_waveform_type_eq_dec : EqDecision radar_waveform_type.
Proof. solve_decision. Defined.

Record radar_detector_specs := mk_specs {
  type_id : Z; width_min : Z; width_max : Z;
  pri_min : Z; pri_max : Z;            (* u16 *)
  num_pri : Z; ppb : Z; ppb_thresh : Z; max_pri_tolerance : Z;  (* u8 *)
  type : radar_waveform_type
}.

(** An initialiser: the values are stored in the fields' widths. *)
Definition specs (id wmin wmax pmin pmax num ppb thresh tol : Z) (ty : radar_waveform_type) : radar_detector_specs :=
  mk_specs (u8 id) (u8 wmin) (u8 wmax) (u16 pmin) (u16 pmax) (u8 num) (u8 ppb) (u8 thresh) (u8 tol) ty.

Definition MIN_PPB_THRESH : Z := 50.
Definition PPB_THRESH (PPB : Z) : Z := (PPB * MIN_PPB_THRESH + 50) / 100.
Definition PRF2PRI (PRF : Z) : Z := (1000000 + PRF / 2) / PRF.
Definition WIDTH_LOWER (X : Z) : Z := X.
Definition WIDTH_UPPER (X : Z) : Z := X.

Definition ETSI_PATTERN_SHORT (ID WMIN WMAX PMIN PMAX PPB : Z) : radar_detector_specs :=
  specs ID (WIDTH_LOWER WMIN) (WIDTH_UPPER WMAX) (PRF2PRI PMAX - PRI_TOLERANCE) (PRF2PRI PMIN + PRI_TOLERANCE)
        1 PPB (PPB_THRESH PPB) PRI_TOLERANCE RADAR_WAVEFORM_SHORT.

Definition ETSI_PATTERN_INTERLEAVED (ID WMIN WMAX PMIN PMAX PRFMIN PRFMAX PPB : Z) : radar_detector_specs :=
  specs ID (WIDTH_LOWER WMIN) (WIDTH_UPPER WMAX) (PRF2PRI PMAX * PRFMIN - PRI_TOLERANCE)
        (PRF2PRI PMIN * PRFMAX + PRI_TOLERANCE)
        PRFMAX (PPB * PRFMAX) (PPB_THRESH PPB) PRI_TOLERANCE RADAR_WAVEFORM_INTERLEAVED.

Definition FCC_PATTERN (ID WMIN WMAX PMIN PMAX PRF PPB : Z) (TYPE : radar_waveform_type) : radar_detector_specs :=
  specs ID (WIDTH_LOWER WMIN) (WIDTH_UPPER WMAX) (PMIN - PRI_TOLERANCE) (PMAX * PRF + PRI_TOLERANCE)
        PRF (PPB * PRF) (PPB_THRESH PPB) PRI_TOLERANCE TYPE.
Definition JP_PATTERN := FCC_PATTERN.

Definition etsi_radar_ref_types_v17_riu : list radar_detector_specs := [
  ETSI_PATTERN_SHORT 0  0  8  700  700 18;
  ETSI_PATTERN_SHORT 1  0 10  200 1000 10;
  ETSI_PATTERN_SHORT 2  0 22  200 1600 15;
  ETSI_PATTERN_SHORT 3  0 22 2300 4000 25;
  ETSI_PATTERN_SHORT 4 20 38 2000 4000 20;
  ETSI_PATTERN_INTERLEAVED 5 0 8  300  400 2 3 10;
  ETSI_PATTERN_INTERLEAVED 6 0 8  400 1200 2 3 15].

Definition etsi_radar_ref_types_v17_fcu : list radar_detector_specs := [
  ETSI_PATTERN_SHORT 0  0  8  700  700 18;
  ETSI_PATTERN_SHORT 1  0  8  200 1000 10;
  ETSI_PATTERN_SHORT 2  0 16  200 1600 15;
  ETSI_PATTERN_SHORT 3  0 16 2300 4000 25;
  ETSI_PATTERN_SHORT 4 20 34 2000 4000 20;
  ETSI_PATTERN_INTERLEAVED 5 0 8  300  400 2 3 10;
  ETSI_PATTERN_INTERLEAVED 6 0 8  400 1200 2 3 15].

Definition fcc_radar_ref_types_riu : list radar_detector_specs := [
  FCC_PATTERN 0  0   8 1428 1428 1  18 RADAR_WAVEFORM_SHORT;
  FCC_PATTERN 1  0   8  518 3066 1 102 RADAR_WAVEFORM_WEATHER;
  FCC_PATTERN 2  0   8  150  230 1  23 RADAR_WAVEFORM_SHORT;
  FCC_PATTERN 3  6  20  200  500 1  16 RADAR_WAVEFORM_SHORT;
  FCC_PATTERN 4 10  28  200  500 1  12 RADAR_WAVEFORM_SHORT;
  FCC_PATTERN 5 50 110 1000 2000 1   8 RADAR_WAVEFORM_LONG;
  FCC_PATTERN 6  0   8  333  333 1   9 RADAR_WAVEFORM_SHORT].

Definition fcc_radar_ref_types_fcu : list radar_detector_specs := [
  FCC_PATTERN 0  0   8 1428 1428 1  18 RADAR_WAVEFORM_SHORT;
  FCC_PATTERN 1  0   8  518 3066 1 102 RADAR_WAVEFORM_WEATHER;
  FCC_PATTERN 2  0   8  150  230 1  23 RADAR_WAVEFORM_SHORT;
  FCC_PATTERN 3  6  12  200  500 1  16 RADAR_WAVEFORM_SHORT;
  FCC_PATTERN 4 10  22  200  500 1  12 RADAR_WAVEFORM_SHORT;
  FCC_PATTERN 5 50 104 1000 2000 1   8 RADAR_WAVEFORM_LONG;
  FCC_PATTERN 6  0   8  333  333 1   9 RADAR_WAVEFORM_SHORT].

Definition jp_radar_ref_types_riu : list radar_detector_specs := [
  JP_PATTERN 0  0   4 1388 1388 1 18 RADAR_WAVEFORM_SHORT;
  JP_PATTERN 1  0   4 1428 1428 1 18 RADAR_WAVEFORM_SHORT;
  JP_PATTERN 2  0   4 4000 4000 1 18 RADAR_WAVEFORM_SHORT;
  JP_PATTERN 3  0   6  150  230 1 23 RADAR_WAVEFORM_SHORT;
  JP_PATTERN 4  6  12  200  500 1 16 RADAR_WAVEFORM_SHORT;
  JP_PATTERN 5 10  22  200  500 1 12 RADAR_WAVEFORM_SHORT;
  JP_PATTERN 6 48 110 1000 2000 1  8 RADAR_WAVEFORM_LONG;
  JP_PATTERN 7  0   4  333  333 1  9 RADAR_WAVEFORM_SHORT].

Definition jp_radar_ref_types_fcu : list radar_detector_specs := [
  JP_PATTERN 0  0   4 1388 1388 1 18 RADAR_WAVEFORM_SHORT;
  JP_PATTERN 1  0   4 1428 1428 1 18 RADAR_WAVEFORM_SHORT;
  JP_PATTERN 2  0   4 4000 4000 1 18 RADAR_WAVEFORM_SHORT;
  JP_PATTERN 3  0   6  150  230 1 23 RADAR_WAVEFORM_SHORT;
  JP_PATTERN 4  6  12  200  500 1 16 RADAR_WAVEFORM_SHORT;
  JP_PATTERN 5 10  22  200  500 1 12 RADAR_WAVEFORM_SHORT;
  JP_PATTERN 6 48 110 1000 2000 1  8 RADAR_WAVEFORM_LONG;
  JP_PATTERN 7  0   4  333  333 1  9 RADAR_WAVEFORM_SHORT].

Record radar_types := mk_radar_types {
  rt_region : nl80211_dfs_regions; num_radar_types : nat;
  spec_riu : list radar_detector_specs; spec_fcu : list radar_detector_specs
}.

Definition etsi_radar_types_v17 : radar_types :=
  mk_radar_types NL80211_DFS_ETSI (length etsi_radar_ref_types_v17_riu) etsi_radar_ref_types_v17_riu etsi_radar_ref_types_v17_fcu.
Definition fcc_radar_types : radar_types :=
  mk_radar_types NL80211_DFS_FCC (length fcc_radar_ref_types_riu) fcc_radar_ref_types_riu fcc_radar_ref_types_fcu.
Definition jp_radar_types : radar_types :=
  mk_radar_types NL80211_DFS_JP (length jp_radar_ref_types_riu) jp_radar_ref_types_riu jp_radar_ref_types_fcu.
Definition dfs_domains : list radar_types := [etsi_radar_types_v17; fcc_radar_types; jp_radar_types].

Definition get_dfs_domain_radar_types (region : nl80211_dfs_regions) : option radar_types :=
  List.find (fun rt => bool_decide (rt_region rt = region)) dfs_domains.
Definition get_dfs_max_radar_types : nat :=
  fold_left (fun max rt => if (max <? num_radar_types rt)%nat then num_radar_types rt else max) dfs_domains 0%nat.

End Specs.

Module Pri.
Import Specs.

(** [dur] of a sequence taken from the pool for a long radar is not written
    before its first burst has ended. *)
Record pri_sequence := mk_seq {
  pri : Z; dur : option Z; count : Z; count_falses : Z;          (* u32 *)
  first_ts : Z; last_ts : Z; deadline_ts : Z;                    (* u64 *)
  seq_thresh : option Z                                          (* ppb_thresh, u8 *)
}.
#[export] Instance pri_sequence_eta : RecordEta pri_sequence := fun s =>
  mk_seq (pri s) (dur s) (count s) (count_falses s) (first_ts s) (last_ts s) (deadline_ts s) (seq_thresh s).

Record pri_detector := mk_pde {
  rs : radar_detector_specs;
  pde_last_ts : Z;
  sequences : list pri_sequence;
  pulses : list Z;                   (* pulse_elem: ts *)
  pulse_count : Z; max_count : Z; window_size : Z;               (* u32 *)
  freq : Z
}.
#[export] Instance pri_detector_eta : RecordEta pri_detector := fun d =>
  mk_pde (rs d) (pde_last_ts d) (sequences d) (pulses d) (pulse_count d) (max_count d) (window_size d) (freq d).

Record pool := mk_pool {
  singleton_pool_references : Z; pulse_pool : nat; pseq_pool : nat; allocs : list bool
}.
#[export] Instance pool_eta : RecordEta pool := fun p =>
  mk_pool (singleton_pool_references p) (pulse_pool p) (pseq_pool p) (allocs p).

Definition kmalloc (p : pool) : bool * pool :=
  match allocs p with [] => (true, p) | b :: l => (b, p <| allocs := l |>) end.

Definition pool_register_ref (p : pool) : pool := p <| singleton_pool_references ::= fun n => u32 (n + 1) |>.
Definition pool_deregister_ref (p : pool) : pool :=
  let p := p <| singleton_pool_references ::= fun n => u32 (n - 1) |> in
  if singleton_pool_references p =? 0 then p <| pulse_pool := 0%nat |> <| pseq_pool := 0%nat |> else p.
Definition pool_put_pulse_elem (p : pool) : pool := p <| pulse_pool ::= S |>.
Definition pool_put_pseq_elem (p : pool) : pool := p <| pseq_pool ::= S |>.
Definition pool_get_pseq_elem (p : pool) : bool * pool :=
  match pseq_pool p with S n => (true, p <| pseq_pool := n |>) | O => kmalloc p end.
Definition pool_get_pulse_elem (p : pool) : bool * pool :=
  match pulse_pool p with S n => (true, p <| pulse_pool := n |>) | O => (false, p) end.

Definition pulse_queue_get_tail (d : pri_detector) : option Z := list.last (pulses d).

Definition pulse_queue_dequeue (d : pri_detector) (p : pool) : pri_detector * pool :=
  match pulse_queue_get_tail d with
  | Some _ => (d <| pulses ::= fun l => removelast l |> <| pulse_count ::= fun n => u32 (n - 1) |>, pool_put_pulse_elem p)
  | None => (d, p)
  end.

(** The loop that drops the pulses before [min_valid_ts], at most one per element. *)
Fixpoint check_window_loop (fuel : nat) (min_valid_ts : Z) (d : pri_detector) (p : pool) : pri_detector * pool :=
  match fuel with
  | O => (d, p)
  | S fuel =>
      match pulse_queue_get_tail d with
      | None => (d, p)
      | Some ts =>
          if min_valid_ts <=? ts then (d, p)
          else let '(d, p) := pulse_queue_dequeue d p in check_window_loop fuel min_valid_ts d p
      end
  end.

Definition pulse_queue_check_window (d : pri_detector) (p : pool) : pri_detector * pool :=
  if pulse_count d <? 2 then (d, p)
  else if pde_last_ts d <=? window_size d then (d, p)
  else check_window_loop (length (pulses d)) (u64 (pde_last_ts d - window_size d)) d p.

Definition pulse_queue_enqueue (d : pri_detector) (ts : Z) (p : pool) : bool * pri_detector * pool :=
  let '(ok, p) := pool_get_pulse_elem p in
  let '(ok, p) := if ok then (true, p) else kmalloc p in
  if negb ok then (false, d, p) else
  let d := d <| pulses ::= cons ts |> <| pulse_count ::= fun n => u32 (n + 1) |> <| pde_last_ts := ts |> in
  let '(d, p) := pulse_queue_check_window d p in
  let '(d, p) := if max_count d <=? pulse_count d then pulse_queue_dequeue d p else (d, p) in
  (true, d, p).

(** ** Short waveforms *)

Definition pde_get_multiple (val fraction tolerance : Z) : Z :=
  if fraction =? 0 then 0 else
  let delta := if val <? fraction then fraction - val else val - fraction in
  if delta <=? tolerance then 1 else
  let factor := val / fraction in
  let remainder := val mod fraction in
  if tolerance <? remainder then
    if fraction - remainder <=? tolerance then u32 (factor + 1) else 0
  else factor.

(** The past pulses that belong to the new sequence [ps]. *)
Fixpoint match_older (tol min_valid_ts : Z) (ps : pri_sequence) (tmp_false_count : Z) (l : list Z) : pri_sequence :=
  match l with
  | [] => ps
  | t :: l =>
      if t <? min_valid_ts then ps
      else if 0 <? pde_get_multiple (u32 (last_ts ps - t)) (pri ps) tol then
        match_older tol min_valid_ts
          (ps <| count ::= fun n => u32 (n + 1) |> <| first_ts := t |>
              <| count_falses ::= fun n => u32 (n + tmp_false_count) |>) 0 l
      else match_older tol min_valid_ts ps (u32 (tmp_false_count + 1)) l
  end.

(** The sequence of the pulses [ts] and [t], [idx] pulses apart. *)
Definition new_sequence (r : radar_detector_specs) (ts t idx : Z) (older : list Z) : pri_sequence :=
  let pri := u32 (ts - t) in
  let dur := u32 (pri * (ppb r - 1) + 2 * max_pri_tolerance r) in
  let min_valid_ts := if ts <? dur then 0 else u64 (ts - dur) in
  match_older (max_pri_tolerance r) min_valid_ts (mk_seq pri (Some dur) 2 (u32 (idx - 1)) t ts 0 None) 0 older.

Definition sequence_thresh (r : radar_detector_specs) (pri : Z) : Z :=
  match type r with
  | RADAR_WAVEFORM_WEATHER => u8 (PPB_THRESH (u8 (19000000 / u32 (360 * pri))))
  | _ => ppb_thresh r
  end.

Fixpoint create_loop (r : radar_detector_specs) (ts min_count pulse_idx : Z) (l : list Z) (seqs : list pri_sequence)
  (p : pool) : bool * list pri_sequence * pool :=
  match l with
  | [] => (true, seqs, p)
  | t :: l =>
      let delta_ts := u32 (ts - t) in
      let pulse_idx := u16 (pulse_idx + 1) in
      if delta_ts <? pri_min r then create_loop r ts min_count pulse_idx l seqs p
      else if pri_max r <? delta_ts then (true, seqs, p)
      else
        let ps := new_sequence r ts t pulse_idx l in
        if count ps <=? min_count then create_loop r ts min_count pulse_idx l seqs p
        else
          let ps := ps <| deadline_ts := u64 (first_ts ps + default 0 (dur ps)) |>
                       <| seq_thresh := Some (sequence_thresh r (pri ps)) |> in
          let '(ok, p) := pool_get_pseq_elem p in
          if ok then create_loop r ts min_count pulse_idx l (ps :: seqs) p else (false, seqs, p)
  end.

Definition pde_short_create_sequences (d : pri_detector) (ts min_count : Z) (p : pool) : bool * pri_detector * pool :=
  let '(ok, seqs, p) := create_loop (rs d) ts min_count 0 (pulses d) (sequences d) p in
  (ok, d <| sequences := seqs |>, p).

Fixpoint existing_loop (r : radar_detector_specs) (ts max_count : Z) (l : list pri_sequence) (p : pool)
  : Z * list pri_sequence * pool :=
  match l with
  | [] => (max_count, [], p)
  | ps :: l =>
      if deadline_ts ps <? ts then existing_loop r ts max_count l (pool_put_pseq_elem p)
      else
        let delta_ts := u32 (ts - last_ts ps) in
        let factor := pde_get_multiple delta_ts (pri ps) (max_pri_tolerance r) in
        let ps := if 0 <? factor then ps <| last_ts := ts |> <| count ::= fun n => u32 (n + 1) |>
                  else ps <| count_falses ::= fun n => u32 (n + 1) |> in
        let max_count := if (0 <? factor) && (max_count <? count ps) then count ps else max_count in
        let '(m, l, p) := existing_loop r ts max_count l p in
        (m, ps :: l, p)
  end.

Definition pde_short_add_to_existing_seqs (d : pri_detector) (ts : Z) (p : pool) : Z * pri_detector * pool :=
  let '(m, l, p) := existing_loop (rs d) ts 0 (sequences d) p in (m, d <| sequences := l |>, p).

(** Enough matching pulses, and more of them than false ones. *)
Definition complete (r : radar_detector_specs) (ps : pri_sequence) : bool :=
  (default 0 (seq_thresh ps) <=? count ps) && (count_falses ps <? u32 (count ps * num_pri r)).

Definition pde_short_check_detection (d : pri_detector) : option pri_sequence :=
  List.find (complete (rs d)) (sequences d).

Definition pde_short_init (d : pri_detector) : pri_detector :=
  d <| window_size := u32 (pri_max (rs d) * ppb (rs d) * num_pri (rs d)) |> <| max_count := u32 (ppb (rs d) * 2) |>.

(** ** Detectors *)

Definition pri_detector_reset (d : pri_detector) (ts : Z) (p : pool) : pri_detector * pool :=
  (d <| sequences := [] |> <| pulses := [] |> <| pulse_count := 0 |> <| pde_last_ts := ts |>,
   p <| pseq_pool ::= Nat.add (length (sequences d)) |> <| pulse_pool ::= Nat.add (length (pulses d)) |>).

Definition pde_short_add_pulse (d : pri_detector) (ts : Z) (p : pool) : option pri_sequence * pri_detector * pool :=
  if pulse_count d =? 0 then
    let '(_, d, p) := pulse_queue_enqueue d ts p in (None, d, p)
  else if u64 (ts - pde_last_ts d) <? max_pri_tolerance (rs d) then (None, d, p)
  else
    let '(max_updated_seq, d, p) := pde_short_add_to_existing_seqs d ts p in
    let '(ok, d, p) := pde_short_create_sequences d ts max_updated_seq p in
    if negb ok then let '(d, p) := pri_detector_reset d ts p in (None, d, p)
    else
      match pde_short_check_detection d with
      | None => let '(_, d, p) := pulse_queue_enqueue d ts p in (None, d, p)
      | Some ps => (Some ps, d, p)
      end.

(** ** The long waveform *)

Definition LONG_RADAR_DURATION : Z := 12000000.
Definition LONG_RADAR_BURST_MIN_DURATION : Z := 12000000 / 20.
Definition LONG_RADAR_MAX_BURST : Z := 20.

Definition pde_long_init (d : pri_detector) : pri_detector :=
  d <| window_size := LONG_RADAR_DURATION |> <| max_count := LONG_RADAR_MAX_BURST |>.

(** The bursts that left the window are forgotten. *)
Fixpoint long_trim (fuel : nat) (min_valid_ts : Z) (ps : pri_sequence) (d : pri_detector) (p : pool)
  : pri_sequence * pri_detector * pool :=
  match fuel with
  | O => (ps, d, p)
  | S fuel =>
      match pulse_queue_get_tail d with
      | None => (ps, d, p)
      | Some t =>
          if min_valid_ts <=? t then
            (ps <| first_ts := t |> <| deadline_ts := u64 (t + window_size d) |>, d, p)
          else
            let '(d, p) := pulse_queue_dequeue d p in
            long_trim fuel min_valid_ts (ps <| count ::= fun n => u32 (n - 1) |>) d p
      end
  end.

Definition pde_long_add_pulse (d : pri_detector) (ts : Z) (p : pool) : res (option pri_sequence * pri_detector * pool) :=
  match sequences d with
  | [] =>
      let '(ok, p) := pool_get_pseq_elem p in
      if negb ok then Ok (None, d, p) else
      let ps := mk_seq 0 None 1 1 ts ts (u64 (ts + window_size d)) None in
      let '(_, d, p) := pulse_queue_enqueue (d <| sequences := [ps] |>) ts p in
      Ok (None, d, p)
  | ps :: seqs =>
      let delta_ts := u32 (ts - last_ts ps) in
      let ps := ps <| last_ts := ts |> in
      let keep ps d p := Ok (None, d <| sequences := ps :: seqs |>, p) in
      if delta_ts <? pri_max (rs d) then keep ps d p
      else if (pri_min (rs d) <=? delta_ts) && (delta_ts <=? pri_max (rs d)) then
        keep (ps <| count_falses ::= fun n => u32 (n + 1) |>) d p
      else
        early ← (if 2 <? count ps then
                   dr ← from_option_res Uninitialised (dur ps);
                   Ok (u32 (dr + delta_ts) <? LONG_RADAR_BURST_MIN_DURATION)
                 else Ok false);
        if early : bool then keep ps d p
        else
          let ps := ps <| count ::= fun n => u32 (n + 1) |> <| count_falses := 1 |> in
          let '(ps, d, p) :=
            if deadline_ts ps <? ts then long_trim (length (pulses d)) (u64 (ts - window_size d)) ps d p else (ps, d, p) in
          if (ppb_thresh (rs d) <? count ps) && (window_size d / 2 <? u64 (ts - first_ts ps)) then
            Ok (Some ps, d <| sequences := ps :: seqs |>, p)
          else
            let '(_, d, p) := pulse_queue_enqueue d ts p in
            keep (ps <| dur := Some delta_ts |>) d p
  end.

(** [pde->ops->add_pulse] and the other operations of the waveform. *)
Definition is_long (r : radar_detector_specs) : bool := bool_decide (type r = RADAR_WAVEFORM_LONG).
Definition add_pulse (d : pri_detector) (ts : Z) (p : pool) : res (option pri_sequence * pri_detector * pool) :=
  if is_long (rs d) then pde_long_add_pulse d ts p else Ok (pde_short_add_pulse d ts p).
Definition reset_on_pri_overflow (d : pri_detector) : bool := negb (is_long (rs d)).

(** A detector as [pri_detector_init] sets it up. *)
Definition new_detector (r : radar_detector_specs) (freq : Z) : pri_detector :=
  let d := mk_pde r 0 [] [] 0 0 0 freq in
  if is_long r then pde_long_init d else pde_short_init d.

End Pri.

Module Dfs.
Import Specs Pri.

Definition RWNX_RADAR_RIU : nat := 0.
Definition RWNX_RADAR_FCU : nat := 1.
Definition RWNX_RADAR_LAST : nat := 2.
Definition RWNX_RADAR_DETECT_DISABLE : Z := 0.
Definition RWNX_RADAR_DETECT_ENABLE : Z := 1.
Definition RWNX_RADAR_DETECT_REPORT : Z := 2.
Definition RWNX_RADAR_PULSE_MAX : nat := 32.
Definition NX_NB_RADAR_DETECTED : Z := 4.
Definition RADAR_PULSE_MAX : Z := 4.
Inductive rwnx_radar_status :=
| RWNX_RADAR_IDLE | RWNX_RADAR_CAC_BUSY | RWNX_RADAR_CAC_DONE | RWNX_RADAR_INSERVICE_BUSY | RWNX_RADAR_INSERVICE_DONE.
#[export] Instance rwnx_radar_status_eq_dec : EqDecision rwnx_radar_status.
Proof. solve_decision. Defined.

Record dfs_pattern_detector := mk_dpd {
  enabled : Z;
  region : nl80211_dfs_regions;
  dpd_num_types : nat;
  last_pulse_ts : Z;                 (* u64 *)
  prev_jiffies : Z;                  (* u32 *)
  radar_spec : list radar_detector_specs;
  detectors : list (list pri_detector)
}.
#[export] Instance dfs_pattern_detector_eta : RecordEta dfs_pattern_detector := fun d =>
  mk_dpd (enabled d) (region d) (dpd_num_types d) (last_pulse_ts d) (prev_jiffies d) (radar_spec d) (detectors d).

Record rwnx_radar_pulses := mk_pulses { index : Z; pcount : Z; buffer : list Z }.
#[export] Instance rwnx_radar_pulses_eta : RecordEta rwnx_radar_pulses := fun p =>
  mk_pulses (index p) (pcount p) (buffer p).

Record rwnx_radar_detected := mk_detected { det_index : Z; det_count : Z; det_time : list Z; det_freq : list Z }.
#[export] Instance rwnx_radar_detected_eta : RecordEta rwnx_radar_detected := fun d =>
  mk_detected (det_index d) (det_count d) (det_time d) (det_freq d).

(** [struct radar_pulse]: the bit fields of a reported word. *)
Definition pulse_freq (w : Z) : Z := wrapS 6 w.
Definition pulse_len (w : Z) : Z := Z.shiftr w 10 mod 64.
Definition pulse_rep (w : Z) : Z := Z.shiftr w 16 mod 65536.

Inductive event :=
| EvRadar (center_freq1 : Z)                      (* cfg80211_radar_event *)
| EvStopCacReq (vif : nat)                        (* APM_STOP_CAC_REQ *)
| EvCacFinished (vif : nat) | EvCacAborted (vif : nat)   (* cfg80211_cac_event *)
| EvUnlink (vif : nat)                            (* rwnx_chanctx_unlink *)
| EvWorkScheduled.                                (* detection_work *)

(** The channel of [cur_chanctx], when there is one. *)
Record chan := mk_chan { center_freq1 : Z; chan_radar : bool }.

Record rwnx_radar := mk_radar {
  rpulses : list rwnx_radar_pulses;
  dpd : list (option dfs_pattern_detector);
  detected : list rwnx_radar_detected;
  rstatus : rwnx_radar_status;
  sta_num : Z;                                    (* u16 *)
  cac_vif : option nat;
  cac_pending : bool;                             (* cac_work is queued *)
  cur_chan : option chan;
  sec_freq : Z;                                   (* phy.sec_chan.center_freq1 *)
  rpool : pool;
  rev : list event
}.
#[export] Instance rwnx_radar_eta : RecordEta rwnx_radar := fun r =>
  mk_radar (rpulses r) (dpd r) (detected r) (rstatus r) (sta_num r) (cac_vif r) (cac_pending r) (cur_chan r) (sec_freq r) (rpool r)
           (rev r).
Definition log (e : event) (r : rwnx_radar) : rwnx_radar := r <| rev ::= fun l => l ++ [e] |>.

(** ** Finding the detector of a frequency *)

Fixpoint get_walk (f : Z) (l : list pri_detector) (i : nat) (cur : option nat) : option nat :=
  match l with
  | [] => cur
  | d :: l =>
      let busy := negb (pulse_count d =? 0) in
      if freq d =? f then if busy then Some i else get_walk f l (S i) (Some i)
      else if (freq d - 2 =? f) && busy then Some i
      else if (freq d + 2 =? f) && busy then Some i
      else get_walk f l (S i) cur
  end.

Definition pri_detector_init (r : radar_detector_specs) (f : Z) (p : pool) : option pri_detector * pool :=
  let '(ok, p) := kmalloc p in
  if ok then (Some (new_detector r f), pool_register_ref p) else (None, p).

(** The list of detectors of one radar type and the place in it of the detector
    for [f]; [None] for the null pointer. *)
Definition pri_detector_get (r : radar_detector_specs) (f : Z) (l : list pri_detector) (p : pool)
  : option nat * list pri_detector * pool :=
  match get_walk f l 0 None with
  | Some i => (Some i, l, p)
  | None =>
      let '(o, p) := pri_detector_init r f p in
      match o with Some d => (Some 0%nat, d :: l, p) | None => (None, l, p) end
  end.

Definition pri_detector_exit (d : pri_detector) (p : pool) : pool :=
  pool_deregister_ref (pri_detector_reset d 0 p).2.

(** Applied to each detector of a list that satisfies [which]. *)
Fixpoint reset_each (which : pri_detector -> bool) (ts : Z) (l : list pri_detector) (p : pool) : list pri_detector * pool :=
  match l with
  | [] => ([], p)
  | d :: l =>
      let '(d, p) := if which d then pri_detector_reset d ts p else (d, p) in
      let '(l, p) := reset_each which ts l p in (d :: l, p)
  end.

Fixpoint reset_types (which : pri_detector -> bool) (ts : Z) (n : nat) (ll : list (list pri_detector)) (p : pool)
  : list (list pri_detector) * pool :=
  match n, ll with
  | S n, l :: ll =>
      let '(l, p) := reset_each which ts l p in
      let '(ll, p) := reset_types which ts n ll p in (l :: ll, p)
  | _, _ => (ll, p)
  end.

Definition dfs_pattern_detector_reset (jiffies : Z) (d : dfs_pattern_detector) (p : pool) : dfs_pattern_detector * pool :=
  let '(ll, p) := reset_types (fun _ => true) (last_pulse_ts d) (dpd_num_types d) (detectors d) p in
  (d <| detectors := ll |> <| last_pulse_ts := 0 |> <| prev_jiffies := u32 jiffies |>, p).

Definition dfs_pattern_detector_pri_overflow (d : dfs_pattern_detector) (p : pool) : dfs_pattern_detector * pool :=
  let '(ll, p) := reset_types reset_on_pri_overflow (last_pulse_ts d) (dpd_num_types d) (detectors d) p in
  (d <| detectors := ll |>, p).

Fixpoint exit_types (n : nat) (ll : list (list pri_detector)) (p : pool) : list (list pri_detector) * pool :=
  match n, ll with
  | S n, l :: ll =>
      let p := fold_left (fun p d => pri_detector_exit d p) l p in
      let '(ll, p) := exit_types n ll p in ([] :: ll, p)
  | _, _ => (ll, p)
  end.

Definition dfs_pattern_detector_exit (d : dfs_pattern_detector) (p : pool) : pool :=
  (exit_types (dpd_num_types d) (detectors d) p).2.

(** How the driver was built: [LINUX_VERSION_CODE >= KERNEL_VERSION(6, 12, 0)]
    and [CONFIG_RADAR_OR_IR_DETECT]. *)
Record kconfig := mk_kconfig { new_kernel : bool; radar_or_ir : bool }.

Section Kernel.
Context (jiffies_to_usecs : Z -> Z).

(** The time stamp of a pulse, [pri] microseconds after the one before. *)
Definition pulse_time (pri now : Z) (d : dfs_pattern_detector) (p : pool) : dfs_pattern_detector * pool :=
  if pri =? 0 then
    let delta_jiffie := u32 (if now <? prev_jiffies d then 4294967295 - prev_jiffies d + now else now - prev_jiffies d) in
    dfs_pattern_detector_pri_overflow
      (d <| last_pulse_ts ::= fun t => u64 (t + jiffies_to_usecs delta_jiffie) |> <| prev_jiffies := now |>) p
  else (d <| last_pulse_ts ::= fun t => u64 (t + pri) |>, p).

(** The pulse goes through the radar types [i], [i + 1], ... *)
Fixpoint types_loop (jiffies f len : Z) (n i : nat) (d : dfs_pattern_detector) (p : pool)
  : res (bool * dfs_pattern_detector * pool) :=
  match n with
  | O => Ok (false, d, p)
  | S n =>
      r ← from_option_res OutOfBounds (radar_spec d !! i);
      if (len <? width_min r) || (width_max r <? len) then types_loop jiffies f len n (S i) d p
      else
        l ← from_option_res OutOfBounds (detectors d !! i);
        let '(o, l, p) := pri_detector_get r f l p in
        j ← from_option_res NullDeref o;
        e ← from_option_res OutOfBounds (l !! j);
        a ← add_pulse e (last_pulse_ts d) p;
        let '(ps, e, p) := (a : option pri_sequence * pri_detector * pool) in
        let d := d <| detectors ::= <[i := <[j := e]> l]> |> in
        match ps with
        | Some _ => let '(d, p) := dfs_pattern_detector_reset jiffies d p in Ok (true, d, p)
        | None => types_loop jiffies f len n (S i) d p
        end
  end.

Definition dfs_pattern_detector_add_pulse (jiffies f pri len now : Z) (d : dfs_pattern_detector) (p : pool)
  : res (bool * dfs_pattern_detector * pool) :=
  if decide (region d = NL80211_DFS_UNSET) then Ok (true, d, p) else
  let '(d, p) := pulse_time pri now d p in
  types_loop jiffies f len (dpd_num_types d) 0 d p.

Definition dfs_pattern_detector_set_domain (reg : nl80211_dfs_regions) (chain : nat) (d : dfs_pattern_detector) (p : pool)
  : bool * dfs_pattern_detector * pool :=
  if decide (region d = reg) then (true, d, p) else
  let d := d <| region := NL80211_DFS_UNSET |> in
  match get_dfs_domain_radar_types reg with
  | None => (false, d, p)
  | Some rt =>
      let '(ll, p) := exit_types (dpd_num_types d) (detectors d) p in
      (true, d <| detectors := ll |>
               <| radar_spec := if decide (chain = RWNX_RADAR_RIU) then spec_riu rt else spec_fcu rt |>
               <| dpd_num_types := num_radar_types rt |> <| region := reg |>, p)
  end.

Definition dfs_pattern_detector_init (jiffies : Z) (reg : nl80211_dfs_regions) (chain : nat) (p : pool)
  : option dfs_pattern_detector * pool :=
  let '(ok, p) := kmalloc p in
  if negb ok then (None, p) else
  let d := mk_dpd RWNX_RADAR_DETECT_DISABLE NL80211_DFS_UNSET 0 0 (u32 jiffies) []
                  (replicate get_dfs_max_radar_types []) in
  let '(ok, d, p) := dfs_pattern_detector_set_domain reg chain d p in
  if ok then (Some d, p) else (None, p).

(** ** Channel availability check *)

Definition rwnx_radar_start_cac (vif : nat) (r : rwnx_radar) : rwnx_radar :=
  r <| cac_vif := Some vif |> <| cac_pending := true |>.

(** [rwnx_send_apm_start_cac_req], [rwnx_send_sta_add] and [rwnx_send_sta_del]:
    what they do to the state of the radar. *)
Definition start_cac_req (kc : kconfig) (r : rwnx_radar) : rwnx_radar :=
  if radar_or_ir kc then r <| rstatus := RWNX_RADAR_CAC_BUSY |> else r.
Definition sta_add_status (kc : kconfig) (r : rwnx_radar) : rwnx_radar :=
  if negb (radar_or_ir kc) then r else
  let r := if (sta_num r =? 0) && bool_decide (rstatus r <> RWNX_RADAR_INSERVICE_BUSY)
           then r <| rstatus := RWNX_RADAR_INSERVICE_BUSY |> else r in
  if sta_num r <? 4095 then r <| sta_num ::= fun n => u16 (n + 1) |> else r.
Definition sta_del_status (kc : kconfig) (r : rwnx_radar) : rwnx_radar :=
  if negb (radar_or_ir kc) then r else
  let r := if (sta_num r =? 1) && bool_decide (rstatus r = RWNX_RADAR_INSERVICE_BUSY)
           then r <| rstatus := RWNX_RADAR_INSERVICE_DONE |> else r in
  if 0 <? sta_num r then r <| sta_num ::= fun n => u16 (n - 1) |> else r.

(** [rwnx_send_apm_stop_cac_req], up to sending the message. *)
Definition stop_cac_req (kc : kconfig) (vif : nat) (r : rwnx_radar) : rwnx_radar :=
  let '(ok, p) := kmalloc (rpool r) in
  let r := r <| rpool := p |> in
  if ok then log (EvStopCacReq vif) (if radar_or_ir kc then r <| rstatus := RWNX_RADAR_CAC_DONE |> else r) else r.

Definition rwnx_radar_cac_work (kc : kconfig) (r : rwnx_radar) : rwnx_radar :=
  let r := r <| cac_pending := false |> in
  match cac_vif r with
  | None => r
  | Some v => log (EvUnlink v) (stop_cac_req kc v (log (EvCacFinished v) r)) <| cac_vif := None |>
  end.

Definition rwnx_radar_cancel_cac (kc : kconfig) (r : rwnx_radar) : rwnx_radar :=
  match cac_vif r with
  | None => r
  | Some v =>
      let pending := cac_pending r in
      let r := r <| cac_pending := false |> in
      let r := if pending then
                 log (EvUnlink v) (log (if new_kernel kc then EvCacFinished v else EvCacAborted v) (stop_cac_req kc v r))
               else r in
      r <| cac_vif := None |>
  end.

(** ** Driver interface *)

Definition get_dpd (chain : nat) (r : rwnx_radar) : res dfs_pattern_detector :=
  o ← from_option_res OutOfBounds (dpd r !! chain); from_option_res NullDeref o.
Definition set_dpd (chain : nat) (d : dfs_pattern_detector) (r : rwnx_radar) : rwnx_radar :=
  r <| dpd ::= <[chain := Some d]> |>.

Definition rwnx_radar_detection_deinit (r : rwnx_radar) : rwnx_radar :=
  let exit1 chain r :=
    match dpd r !! chain with
    | Some (Some d) => r <| rpool ::= dfs_pattern_detector_exit d |> <| dpd ::= <[chain := None]> |>
    | _ => r
    end in
  exit1 RWNX_RADAR_FCU (exit1 RWNX_RADAR_RIU r).

Definition rwnx_radar_detection_init (jiffies : Z) (r : rwnx_radar) : bool * rwnx_radar :=
  let '(o, p) := dfs_pattern_detector_init jiffies NL80211_DFS_UNSET RWNX_RADAR_RIU (rpool r) in
  let r := r <| rpool := p |> <| dpd ::= <[RWNX_RADAR_RIU := o]> |> in
  match o with
  | None => (false, r)
  | Some _ =>
      let '(o, p) := dfs_pattern_detector_init jiffies NL80211_DFS_UNSET RWNX_RADAR_FCU (rpool r) in
      let r := r <| rpool := p |> <| dpd ::= <[RWNX_RADAR_FCU := o]> |> <| rstatus := RWNX_RADAR_IDLE |> in
      match o with
      | None => (false, rwnx_radar_detection_deinit r)
      | Some _ => (true, r <| cac_vif := None |> <| cac_pending := false |>)
      end
  end.

Definition set_domain1 (reg : nl80211_dfs_regions) (chain : nat) (r : rwnx_radar) : res (bool * rwnx_radar) :=
  d ← get_dpd chain r;
  let '(ok, d, p) := dfs_pattern_detector_set_domain reg chain d (rpool r) in
  Ok (ok, set_dpd chain d r <| rpool := p |>).

Definition rwnx_radar_set_domain (reg : nl80211_dfs_regions) (r : rwnx_radar) : res (bool * rwnx_radar) :=
  match dpd r !! RWNX_RADAR_RIU with
  | Some (Some _) =>
      a ← set_domain1 reg RWNX_RADAR_RIU r;
      let '(ok, r) := (a : bool * rwnx_radar) in
      if ok then set_domain1 reg RWNX_RADAR_FCU r else Ok (false, r)
  | _ => Ok (false, r)
  end.

Definition rwnx_radar_detection_enable (enable : Z) (chain : nat) (r : rwnx_radar) : res rwnx_radar :=
  if (chain <? RWNX_RADAR_LAST)%nat then
    d ← get_dpd chain r; Ok (set_dpd chain (d <| enabled := enable |>) r)
  else Ok r.

Definition rwnx_radar_detection_is_enable (chain : nat) (r : rwnx_radar) : res bool :=
  d ← get_dpd chain r; Ok (negb (enabled d =? RWNX_RADAR_DETECT_DISABLE)).

Definition rwnx_radar_detection_enable_on_cur_channel (r : rwnx_radar) : res rwnx_radar :=
  match cur_chan r with
  | None => Ok r
  | Some c =>
      if chan_radar c then rwnx_radar_detection_enable RWNX_RADAR_DETECT_REPORT RWNX_RADAR_RIU r
      else rwnx_radar_detection_enable RWNX_RADAR_DETECT_DISABLE RWNX_RADAR_RIU r
  end.

Definition rwnx_radar_get_center_freq (chain : nat) (r : rwnx_radar) : Z :=
  if decide (chain = RWNX_RADAR_FCU) then u16 (sec_freq r)
  else if decide (chain = RWNX_RADAR_RIU) then match cur_chan r with Some c => u16 (center_freq1 c) | None => 0 end
  else 0.

Definition rwnx_radar_detected_report (kc : kconfig) (r : rwnx_radar) : rwnx_radar :=
  match cur_chan r with
  | None => r
  | Some c => log (EvRadar (center_freq1 c)) (rwnx_radar_cancel_cac kc r)
  end.

(** One pulse word is stored in the ring of its chain. *)
Definition ring_put (w : Z) (q : rwnx_radar_pulses) : rwnx_radar_pulses :=
  q <| buffer ::= <[Z.to_nat (index q) := w]> |>
    <| index := (index q + 1) mod Z.of_nat RWNX_RADAR_PULSE_MAX |>
    <| pcount ::= fun n => if n <? Z.of_nat RWNX_RADAR_PULSE_MAX then n + 1 else n |>.

Definition rwnx_radar_detect_ind (pulse : list Z) (idx cnt : Z) (r : rwnx_radar) : res (Z * rwnx_radar) :=
  if cnt =? 0 then Ok (-1, r) else
  en ← rwnx_radar_detection_is_enable (Z.to_nat idx) r;
  if en : bool then
    q ← from_option_res OutOfBounds (rpulses r !! Z.to_nat idx);
    q ← foldM (fun i q => w ← from_option_res OutOfBounds (pulse !! i); Ok (ring_put w q)) (seq 0 (Z.to_nat cnt)) q;
    Ok (0, log EvWorkScheduled (r <| rpulses ::= <[Z.to_nat idx := q]> |>))
  else Ok (0, r).

(** The pulses waiting in the ring, oldest first, as the two [memcpy] take them. *)
Definition ring_copy (q : rwnx_radar_pulses) : list Z :=
  let start := index q - pcount q in
  let start := if start <? 0 then start + Z.of_nat RWNX_RADAR_PULSE_MAX else start in
  let from i n := take (Z.to_nat n) (drop (Z.to_nat i) (buffer q)) in
  if Z.of_nat RWNX_RADAR_PULSE_MAX <? start + pcount q then
    let count1 := Z.of_nat RWNX_RADAR_PULSE_MAX - start in from start count1 ++ from 0 (pcount q - count1)
  else from start (pcount q).

(** A radar was found by the pulse [w] of a chain. *)
Definition found (kc : kconfig) (chain : nat) (f w time : Z) (r : rwnx_radar) : res rwnx_radar :=
  det ← from_option_res OutOfBounds (detected r !! chain);
  r ← (if decide (chain = RWNX_RADAR_RIU) then
         d ← get_dpd chain r;
         if enabled d =? RWNX_RADAR_DETECT_REPORT then
           r ← rwnx_radar_detection_enable RWNX_RADAR_DETECT_DISABLE chain (rwnx_radar_detected_report kc r);
           Ok (r <| rpulses ::= alter (fun q => q <| pcount := 0 |>) chain |>)
         else Ok r
       else Ok r);
  let i := det_index det in
  Ok (r <| detected ::= <[chain :=
        det <| det_freq ::= <[Z.to_nat i := s16 (s16 f + 2 * pulse_freq w)]> |> <| det_time ::= <[Z.to_nat i := time]> |>
            <| det_index := (i + 1) mod NX_NB_RADAR_DETECTED |> <| det_count ::= fun n => u16 (n + 1) |>]> |>).

Fixpoint pulses_loop (kc : kconfig) (chain : nat) (f now time : Z) (l : list Z) (r : rwnx_radar) : res rwnx_radar :=
  match l with
  | [] => Ok r
  | w :: l =>
      if bool_decide (rstatus r <> RWNX_RADAR_CAC_BUSY) && bool_decide (rstatus r <> RWNX_RADAR_INSERVICE_BUSY) then Ok r
      else
        d ← get_dpd chain r;
        a ← dfs_pattern_detector_add_pulse now (u16 (s16 f + 2 * pulse_freq w)) (pulse_rep w) (pulse_len w * 2) now d (rpool r);
        let '(hit, d, p) := (a : bool * dfs_pattern_detector * pool) in
        let r := set_dpd chain d r <| rpool := p |> in
        if hit then found kc chain f w time r
        else pulses_loop kc chain f now time l r
  end.

Definition rwnx_radar_process_pulse (kc : kconfig) (jiffies time : Z) (r : rwnx_radar) : res rwnx_radar :=
  let copies := ring_copy <$> rpulses r in
  let r := r <| rpulses ::= fmap (fun q => q <| pcount := 0 |>) |> in
  foldM (fun chain r =>
    let l := default [] (copies !! chain) in
    match l with
    | [] => Ok r
    | _ => pulses_loop kc chain (rwnx_radar_get_center_freq chain r) (u32 jiffies) time l r
    end) [RWNX_RADAR_RIU; RWNX_RADAR_FCU] r.

(** ** Everything that happens to the radar state *)
Inductive op :=
| OpDetectInd (pulse : list Z) (idx cnt : Z)
| OpWork (jiffies time : Z)
| OpSetDomain (reg : nl80211_dfs_regions)
| OpEnable (enable : Z) (chain : nat) | OpEnableCur
| OpStartCacReq | OpStartCac (vif : nat) | OpCacWork | OpCancelCac
| OpStaAdd | OpStaDel
| OpChan (c : option chan) (sec : Z).

Definition step (kc : kconfig) (o : op) (r : rwnx_radar) : res rwnx_radar :=
  match o with
  | OpDetectInd pulse idx cnt => snd <$> rwnx_radar_detect_ind pulse idx cnt r
  | OpWork jiffies time => rwnx_radar_process_pulse kc jiffies time r
  | OpSetDomain reg => snd <$> rwnx_radar_set_domain reg r
  | OpEnable enable chain => rwnx_radar_detection_enable enable chain r
  | OpEnableCur => rwnx_radar_detection_enable_on_cur_channel r
  | OpStartCacReq => Ok (start_cac_req kc r)
  | OpStartCac vif => Ok (rwnx_radar_start_cac vif r)
  | OpCacWork => Ok (if cac_pending r then rwnx_radar_cac_work kc r else r)
  | OpCancelCac => Ok (rwnx_radar_cancel_cac kc r)
  | OpStaAdd => Ok (sta_add_status kc r)
  | OpStaDel => Ok (sta_del_status kc r)
  | OpChan c sec => Ok (r <| cur_chan := c |> <| sec_freq := sec |>)
  end.

End Kernel.
End Dfs.
