(* ===== verification/RadarFacts.v ===== *)
(** Facts of [Radar.v]: the ring of pulses, the queues and sequences of one
    detector ([pulses_ok], [detector_ok]), the progress of a clean burst
    ([tracking], [burst_step]), and all detectors of a chain ([dpd_ok]). *)
From stdpp Require Import base list numbers option.
From Stdlib Require Import ZArith Lia Sorted.
From S2P Require Import Prelude Radar.

#[local] Open Scope Z_scope.
#[local] Open Scope aic_scope.

Module Facts.
Import Specs Pri Dfs.

Lemma u32_le x : 0 <= x -> 0 <= u32 x <= x.
Proof.
  intros Hx. unfold wrapU. split; [apply Z.mod_pos_bound; lia|]. apply Z.mod_le; lia.
Qed.

Lemma pde_get_multiple_bound val fraction tol : 0 <= val < 2 ^ 32 -> 0 < fraction -> 0 <= tol ->
  0 <= pde_get_multiple val fraction tol < 2 ^ 32.
Proof.
  intros Hv Hf Ht. unfold pde_get_multiple.
  destruct (Z.eqb_spec fraction 0); [lia|]. destruct (_ <=? tol); [lia|].
  assert (0 <= val / fraction <= val) by (split; [apply Z.div_pos; lia|apply Z.div_le_upper_bound; nia]).
  destruct (tol <? val mod fraction); [|lia]. destruct (fraction - _ <=? tol); [|lia]. apply wrapU_bound. lia.
Qed.

(** The cases of [pde_get_multiple] by quotient and remainder. *)
Lemma pde_get_multiple_cases val fraction tol : 0 <= val < 2 ^ 32 -> 0 < fraction -> 0 <= tol ->
  let f := pde_get_multiple val fraction tol in
  (f = 1 /\ Z.abs (val - fraction) <= tol) \/
  (tol < Z.abs (val - fraction) /\
   ((f = val / fraction /\ val mod fraction <= tol) \/
    (f = val / fraction + 1 /\ tol < val mod fraction /\ fraction - val mod fraction <= tol) \/
    (f = 0 /\ tol < val mod fraction /\ tol < fraction - val mod fraction))).
Proof.
  intros Hv Hf Ht. unfold pde_get_multiple. destruct (Z.eqb_spec fraction 0); [lia|]. cbn zeta.
  set (delta := if val <? fraction then _ else _).
  assert (delta = Z.abs (val - fraction)) as -> by (unfold delta; destruct (Z.ltb_spec val fraction); lia).
  destruct (Z.leb_spec (Z.abs (val - fraction)) tol); [left; lia|right; split; [done|]].
  pose proof (Z.div_mod val fraction ltac:(lia)) as E. pose proof (Z.mod_pos_bound val fraction Hf) as Hr.
  assert (0 <= val / fraction) by (apply Z.div_pos; lia).
  destruct (Z.ltb_spec tol (val mod fraction)); [|left; split; [done|lia]]. right.
  destruct (Z.leb_spec (fraction - val mod fraction) tol); [left|right; lia].
  split; [|lia]. apply wrapU_small. split; [lia|].
  destruct (Z.eq_dec fraction 1) as [->|]; [rewrite Z.mod_1_r in *; lia|]. nia.
Qed.

(** ** Ring of pulses *)

(** The ring holds the last [pcount] of the words [ws] put into it. *)
Definition ring_ok (ws : list Z) (q : rwnx_radar_pulses) : Prop :=
  length (buffer q) = RWNX_RADAR_PULSE_MAX /\ 0 <= pcount q <= 32 /\ 0 <= index q < 32 /\
  pcount q <= Z.of_nat (length ws) /\
  forall i, 0 <= i < pcount q ->
    buffer q !! Z.to_nat ((index q - 1 - i) mod 32) = ws !! (length ws - 1 - Z.to_nat i)%nat.

Lemma ring_put_ok ws q w : ring_ok ws q -> ring_ok (ws ++ [w]) (ring_put w q) /\ pcount (ring_put w q) = Z.min 32 (pcount q + 1).
Proof.
  intros (HL & Hc & Hi & Hw & Hb).
  assert (ring_put w q = mk_pulses ((index q + 1) mod 32) (Z.min 32 (pcount q + 1)) (<[Z.to_nat (index q) := w]> (buffer q)))
    as ->.
  { unfold ring_put. change (Z.of_nat RWNX_RADAR_PULSE_MAX) with 32. destruct q as [i c b]. cbn in *. f_equal.
    destruct (Z.ltb_spec c 32); lia. }
  split; [|done]. unfold ring_ok. cbn [buffer index pcount]. rewrite length_app. cbn [length].
  pose proof (Z.mod_pos_bound (index q + 1) 32 ltac:(lia)).
  split; [now rewrite length_insert|]. split; [lia|]. split; [done|]. split; [lia|]. intros i Hr.
  assert (((index q + 1) mod 32 - 1 - i) mod 32 = (index q - i) mod 32) as ->.
  { replace ((index q + 1) mod 32 - 1 - i) with ((index q + 1) mod 32 - (1 + i)) by lia.
    rewrite Zminus_mod_idemp_l. f_equal. lia. }
  destruct (Z.eq_dec i 0) as [->|Hne].
  - rewrite Z.sub_0_r, Z.mod_small by lia. rewrite list_lookup_insert_eq by (rewrite HL; unfold RWNX_RADAR_PULSE_MAX; lia).
    rewrite lookup_app_r by lia. now replace (length ws + 1 - 1 - Z.to_nat 0 - length ws)%nat with 0%nat by lia.
  - assert ((index q - i) mod 32 <> index q) as Hne2.
    { intros E. pose proof (Z.div_mod (index q - i) 32 ltac:(lia)) as D. rewrite E in D. lia. }
    pose proof (Z.mod_pos_bound (index q - i) 32 ltac:(lia)).
    rewrite list_lookup_insert_ne by lia.
    replace (index q - i) with (index q - 1 - (i - 1)) by lia. rewrite Hb by lia.
    rewrite lookup_app_l by lia. f_equal. lia.
Qed.

Lemma ring_copy_spec ws q : ring_ok ws q -> ring_copy q = drop (length ws - Z.to_nat (pcount q)) ws.
Proof.
  intros (HL & Hc & Hi & Hw & Hb). unfold ring_copy. change (Z.of_nat RWNX_RADAR_PULSE_MAX) with 32.
  change RWNX_RADAR_PULSE_MAX with 32%nat in HL.
  assert (forall k, (k < Z.to_nat (pcount q))%nat ->
    drop (length ws - Z.to_nat (pcount q)) ws !! k =
    buffer q !! Z.to_nat ((index q - pcount q + Z.of_nat k) mod 32)) as Hk.
  { intros k Hlt. rewrite lookup_drop. specialize (Hb (pcount q - 1 - Z.of_nat k) ltac:(lia)).
    replace (index q - 1 - (pcount q - 1 - Z.of_nat k)) with (index q - pcount q + Z.of_nat k) in Hb by lia.
    rewrite Hb. f_equal. lia. }
  set (st := if index q - pcount q <? 0 then index q - pcount q + 32 else index q - pcount q).
  assert (0 <= st < 32 /\ forall k, 0 <= k -> (index q - pcount q + k) mod 32 = (st + k) mod 32) as [Hst Hmod].
  { unfold st. destruct (Z.ltb_spec (index q - pcount q) 0); split; try lia; intros k Hk0.
    rewrite <- (Z.mod_add (index q - pcount q + k) 1 32) by lia. f_equal. lia. }
  clearbody st. apply list_eq. intros k.
  assert (length (drop (length ws - Z.to_nat (pcount q)) ws) = Z.to_nat (pcount q)) as EL.
  { rewrite length_drop. lia. }
  destruct (Z.ltb_spec 32 (st + pcount q)) as [Hlt|Hge].
  - destruct (le_lt_dec (Z.to_nat (pcount q)) k) as [Hout|Hin].
    + rewrite !lookup_ge_None_2; [done|lia|]. rewrite length_app, !length_take, !length_drop, HL. lia.
    + rewrite Hk, Hmod by lia. destruct (le_lt_dec (Z.to_nat (32 - st)) k).
      * rewrite lookup_app_r by (rewrite length_take, length_drop; lia).
        rewrite length_take, length_drop, HL, lookup_take_lt, lookup_drop by lia. f_equal.
        rewrite <- (Z.mod_add _ (-1) 32) by lia. rewrite Z.mod_small; lia.
      * rewrite lookup_app_l by (rewrite length_take, length_drop; lia).
        rewrite lookup_take_lt, lookup_drop by lia. f_equal. rewrite Z.mod_small; lia.
  - destruct (le_lt_dec (Z.to_nat (pcount q)) k) as [Hout|Hin].
    + rewrite !lookup_ge_None_2; [done|lia|]. rewrite length_take, length_drop, HL. lia.
    + rewrite Hk, Hmod by lia. rewrite lookup_take_lt, lookup_drop by lia. f_equal. rewrite Z.mod_small; lia.
Qed.

(** ** Queue of pulses *)

(** The counter agrees with the list, the queue is bounded, ordered and begins
    with the last pulse. *)
Record pulses_ok (d : pri_detector) : Prop := {
  p_count : pulse_count d = Z.of_nat (length (pulses d));
  p_max : 2 <= max_count d < 65536 /\ pulse_count d < max_count d;
  p_head t : head (pulses d) = Some t -> pde_last_ts d = t;
  p_sorted : StronglySorted Z.ge (pulses d);
  p_window : 0 <= window_size d
}.

(** What the queue operations leave alone. *)
Definition same_but_pulses (d d' : pri_detector) : Prop :=
  rs d' = rs d /\ sequences d' = sequences d /\ max_count d' = max_count d /\ window_size d' = window_size d /\
  freq d' = freq d.
Lemma same_but_pulses_refl d : same_but_pulses d d.
Proof. done. Qed.
Lemma same_but_pulses_trans a b c : same_but_pulses a b -> same_but_pulses b c -> same_but_pulses a c.
Proof. unfold same_but_pulses. intuition congruence. Qed.

Lemma removelast_last {A} (l : list A) x : list.last l = Some x -> l = removelast l ++ [x].
Proof.
  intros H. destruct (exists_last (l := l)) as (l' & y & ->); [now intros ->|].
  rewrite last_snoc in H. injection H as ->. now rewrite removelast_last.
Qed.

(** Dequeueing takes the oldest pulse; [d] may be over its bound by one. *)
Lemma dequeue_spec d p t : list.last (pulses d) = Some t -> pulse_count d = Z.of_nat (length (pulses d)) ->
  pulse_count d < 2 ^ 32 -> exists d' p', pulse_queue_dequeue d p = (d', p') /\ allocs p' = allocs p /\
    pulses d = pulses d' ++ [t] /\ pulse_count d' = Z.of_nat (length (pulses d')) /\ pde_last_ts d' = pde_last_ts d /\
    same_but_pulses d d'.
Proof.
  intros Hl Hc Hb. unfold pulse_queue_dequeue, pulse_queue_get_tail. rewrite Hl.
  pose proof (removelast_last _ _ Hl) as E. eexists _, _. split; [reflexivity|]. split; [done|].
  split; [exact E|]. split; [|done]. cbn. rewrite Hc. rewrite E at 1. rewrite length_app. cbn [length].
  assert (length (pulses d) = length (removelast (pulses d)) + 1)%nat by (rewrite E at 1; now rewrite length_app).
  rewrite wrapU_small; lia.
Qed.

Lemma check_window_spec : forall fuel mv d p, pulse_count d = Z.of_nat (length (pulses d)) -> pulse_count d < 2 ^ 32 ->
  (length (pulses d) <= fuel)%nat ->
  exists d' p' old, check_window_loop fuel mv d p = (d', p') /\ allocs p' = allocs p /\ pulses d = pulses d' ++ old /\
    Forall (fun t => t < mv) old /\ (forall t, list.last (pulses d') = Some t -> mv <= t) /\
    pulse_count d' = Z.of_nat (length (pulses d')) /\ pde_last_ts d' = pde_last_ts d /\ same_but_pulses d d'.
Proof.
  induction fuel as [|fuel IH]; intros mv d p Hc Hb Hf.
  - assert (pulses d = []) as E by (destruct (pulses d); [done|cbn in Hf; lia]).
    exists d, p, []. rewrite E, app_nil_r. rewrite E in Hc. split_and!; try done.
  - cbn [check_window_loop]. unfold pulse_queue_get_tail. destruct (list.last (pulses d)) as [t|] eqn:El.
    + destruct (Z.leb_spec mv t).
      * exists d, p, []. rewrite app_nil_r. split_and!; try done. intros x Hx. congruence.
      * destruct (dequeue_spec d p t El Hc Hb) as (d1 & p1 & E1 & A1 & P1 & C1 & L1 & S1). rewrite E1.
        assert (length (pulses d) = length (pulses d1) + 1)%nat as EL by (rewrite P1; now rewrite length_app).
        destruct (IH mv d1 p1) as (d2 & p2 & old & E2 & A2 & P2 & F2 & T2 & C2 & L2 & S2); [done|lia|lia|].
        exists d2, p2, (old ++ [t]). rewrite E2. split; [done|]. split; [congruence|].
        split; [rewrite P1, P2; now rewrite app_assoc|]. split; [now apply Forall_app; auto|]. split; [done|].
        split; [done|]. split; [congruence|]. eapply same_but_pulses_trans; eauto.
    + exists d, p, []. apply last_None in El. rewrite El in *. split_and!; try done.
Qed.

(** A queue that was only cut at its end. *)
Lemma sorted_prefix (l old : list Z) : StronglySorted Z.ge (l ++ old) -> StronglySorted Z.ge l.
Proof.
  induction l as [|x l IH]; intros H; [constructor|]. cbn in H. apply StronglySorted_inv in H as [H1 H2].
  constructor; [auto|]. now apply List.Forall_app in H2.
Qed.

Lemma cut_ok (d d' : pri_detector) old : StronglySorted Z.ge (pulses d) -> pulses d = pulses d' ++ old ->
  StronglySorted Z.ge (pulses d') /\ (forall t, head (pulses d') = Some t -> head (pulses d) = Some t).
Proof.
  intros Hs E. rewrite E in *. split; [now apply sorted_prefix in Hs|]. intros t. destruct (pulses d'); done.
Qed.

(** Queueing a pulse not older than the others. *)
Lemma enqueue_spec d ts p : pulses_ok d -> (forall t, t ∈ pulses d -> t <= ts) ->
  exists ok d' p', pulse_queue_enqueue d ts p = (ok, d', p') /\ pulses_ok d' /\ same_but_pulses d d' /\
    (allocs p = [] -> ok = true /\ allocs p' = []) /\
    (ok = true -> pde_last_ts d' = ts /\ exists old, ts :: pulses d = pulses d' ++ old /\ pulses d' <> []) /\
    (ok = false -> d' = d).
Proof.
  intros [Hc Hm Hh Hs Hw] Ht. unfold pulse_queue_enqueue.
  destruct (pool_get_pulse_elem p) as [ok0 p0] eqn:E0. destruct (if ok0 then (true, p0) else kmalloc p0) as [ok p1] eqn:E1.
  assert (allocs p = [] -> ok = true /\ allocs p1 = []) as Ha.
  { intros Hn. unfold pool_get_pulse_elem in E0. destruct (pulse_pool p); injection E0 as <- <-.
    - unfold kmalloc in E1. rewrite Hn in E1. now injection E1 as <- <-.
    - now injection E1 as <- <-. }
  destruct ok; cbn [negb]; [|exists false, d, p1; split_and!; try done; now constructor].
  set (d1 := d <| pulses ::= cons ts |> <| pulse_count ::= fun n => u32 (n + 1) |> <| pde_last_ts := ts |>).
  assert (pulse_count d1 = Z.of_nat (length (pulses d1))) as C1.
  { change (pulse_count d1) with (u32 (pulse_count d + 1)). rewrite wrapU_small; [cbn; lia|lia]. }
  assert (exists d2 p2 old, pulse_queue_check_window d1 p1 = (d2, p2) /\ allocs p2 = allocs p1 /\ pulses d1 = pulses d2 ++ old /\
    pulses d2 <> [] /\ pulse_count d2 = Z.of_nat (length (pulses d2)) /\ pde_last_ts d2 = ts /\ same_but_pulses d d2) as
    (d2 & p2 & old & E2 & A2 & P2 & N2 & C2 & L2 & S2).
  { unfold pulse_queue_check_window. destruct (Z.ltb_spec (pulse_count d1) 2).
    { exists d1, p1, []. split_and!; try done. symmetry. apply app_nil_r. }
    destruct (Z.leb_spec (pde_last_ts d1) (window_size d1)).
    { exists d1, p1, []. split_and!; try done. symmetry. apply app_nil_r. }
    destruct (check_window_spec (length (pulses d1)) (u64 (pde_last_ts d1 - window_size d1)) d1 p1)
      as (d2 & p2 & old & -> & A2 & P2 & F2 & T2 & C2 & L2 & S2); [done|change (pulse_count d1) with (u32 (pulse_count d + 1)); pose proof (wrapU_bound 32 (pulse_count d + 1)); lia|done|].
    exists d2, p2, old. split_and!; try done. intros E. rewrite E in P2. cbn in P2. rewrite <- P2 in F2.
    apply Forall_cons_1 in F2 as [F2 _]. change (pde_last_ts d1) with ts in F2.
    change (pde_last_ts d1) with ts in *. change (window_size d1) with (window_size d) in *.
    unfold wrapU in F2. pose proof (Z.mod_le (ts - window_size d) (2 ^ 64)). lia. }
  rewrite E2.
  assert (StronglySorted Z.ge (pulses d1)) as Hs1.
  { constructor; [done|]. apply List.Forall_forall. intros t Hin. apply list_elem_of_In in Hin. specialize (Ht _ Hin). lia. }
  assert (exists d3 p3 old', (if max_count d2 <=? pulse_count d2 then pulse_queue_dequeue d2 p2 else (d2, p2)) = (d3, p3) /\
    allocs p3 = allocs p2 /\ pulses d1 = pulses d3 ++ old' /\ pulses d3 <> [] /\
    pulse_count d3 = Z.of_nat (length (pulses d3)) /\ pulse_count d3 < max_count d /\ pde_last_ts d3 = ts /\
    same_but_pulses d d3) as (d3 & p3 & old' & E3 & A3 & P3 & N3 & C3 & M3 & L3 & S3).
  { assert (max_count d2 = max_count d) as EM by apply S2. rewrite EM.
    assert (length (pulses d2) <= S (length (pulses d)))%nat as EL.
    { apply (f_equal length) in P2. cbn in P2. rewrite length_app in P2. lia. }
    destruct (Z.leb_spec (max_count d) (pulse_count d2)).
    - destruct (list.last (pulses d2)) as [t|] eqn:El; [|apply last_None in El; congruence].
      destruct (dequeue_spec d2 p2 t El C2) as (d3 & p3 & E3 & A3 & P3 & C3 & L3 & S3); [lia|].
      assert (length (pulses d2) = length (pulses d3) + 1)%nat by (rewrite P3; now rewrite length_app).
      exists d3, p3, (t :: old). split; [done|]. split; [done|]. split; [rewrite P2, P3, <- app_assoc; done|].
      split; [intros E; rewrite E in *; cbn in *; lia|]. split; [done|]. split; [lia|]. split; [congruence|].
      eapply same_but_pulses_trans; eauto.
    - exists d2, p2, old. split_and!; try done. }
  rewrite E3. exists true, d3, p3. split; [done|].
  destruct (cut_ok d1 d3 old' Hs1 P3) as [Hs3 Hh3].
  assert (max_count d3 = max_count d /\ window_size d3 = window_size d) as [EM EW] by (split; apply S3).
  split; [split|split; [done|split; [|split]]].
  - done.
  - now rewrite EM.
  - intros t Hx. apply Hh3 in Hx. cbn in Hx. congruence.
  - done.
  - now rewrite EW.
  - intros Hn. destruct (Ha Hn) as [_ Hn1]. split; [done|congruence].
  - intros _. split; [done|]. exists old'. done.
  - done.
Qed.

(** ** Sequences *)

Lemma match_older_count tol mv : forall l ps fc, 0 <= count ps ->
  0 <= count (match_older tol mv ps fc l) <= count ps + Z.of_nat (length l).
Proof.
  induction l as [|t l IH]; intros ps fc Hc; cbn [match_older length]; [lia|].
  destruct (t <? mv); [lia|]. destruct (0 <? _).
  - set (ps' := ps <| count ::= _ |> <| first_ts := _ |> <| count_falses ::= _ |>).
    assert (count ps' = u32 (count ps + 1)) as E by reflexivity. pose proof (u32_le (count ps + 1)).
    specialize (IH ps' 0 ltac:(lia)). lia.
  - specialize (IH ps (u32 (fc + 1)) Hc). lia.
Qed.

(** No sequence is longer than the pulses it is made of. *)
Lemma create_none r ts min_count : forall l i seqs p, 1 + Z.of_nat (length l) <= min_count ->
  create_loop r ts min_count i l seqs p = (true, seqs, p).
Proof.
  induction l as [|t l IH]; intros i seqs p Hm; [done|]. cbn [create_loop length] in *.
  destruct (_ <? pri_min r); [apply IH; lia|]. destruct (pri_max r <? _); [done|].
  set (ps := new_sequence _ _ _ _ _).
  assert (count ps <= 2 + Z.of_nat (length l)).
  { unfold ps, new_sequence. pose proof (match_older_count (max_pri_tolerance r)
      (if ts <? u32 (u32 (ts - t) * (ppb r - 1) + 2 * max_pri_tolerance r) then 0
       else u64 (ts - u32 (u32 (ts - t) * (ppb r - 1) + 2 * max_pri_tolerance r))) l
      (mk_seq (u32 (ts - t)) (Some (u32 (u32 (ts - t) * (ppb r - 1) + 2 * max_pri_tolerance r))) 2
         (u32 (u16 (i + 1) - 1)) t ts 0 None) 0 ltac:(cbn; lia)) as [_ Hle]. cbn in Hle |- *. lia. }
  destruct (Z.leb_spec (count ps) min_count); [apply IH; lia|lia].
Qed.

(** ** A regular burst *)

(** Types whose detector follows bursts with one repetition interval. *)
Definition thresh_ok (r : radar_detector_specs) (pri : Z) : bool :=
  (2 <=? sequence_thresh r pri) && (sequence_thresh r pri <=? ppb r).
Definition burst_spec (r : radar_detector_specs) : bool :=
  negb (is_long r) && (0 <? max_pri_tolerance r) && (max_pri_tolerance r <=? pri_min r) && (pri_max r <? 65536) &&
  (2 <=? ppb r) && (ppb r <? 256) && (1 <=? num_pri r) && (num_pri r <? 256) &&
  forallb (fun k => thresh_ok r (pri_min r + Z.of_nat k)) (seq 0 (Z.to_nat (pri_max r - pri_min r + 1))).

Definition all_specs : list radar_detector_specs := dfs_domains ≫= fun rt => spec_riu rt ++ spec_fcu rt.

Lemma domains_burst_spec : forallb (fun r => is_long r || burst_spec r) all_specs = true.
Proof. vm_compute. reflexivity. Qed.

Lemma all_specs_burst r : r ∈ all_specs -> is_long r = false -> burst_spec r = true.
Proof.
  intros Hin Hl. pose proof domains_burst_spec as H. rewrite forallb_forall in H.
  apply list_elem_of_In in Hin. specialize (H r Hin). now rewrite Hl in H.
Qed.

Record burst_facts (r : radar_detector_specs) (pri : Z) : Prop := {
  b_short : is_long r = false;
  b_tol : 0 < max_pri_tolerance r <= pri_min r;
  b_pri : 0 < pri < 65536;
  b_ppb : 2 <= ppb r < 256;
  b_num : 1 <= num_pri r < 256;
  b_thresh : 2 <= sequence_thresh r pri <= ppb r
}.

Lemma burst_spec_facts r pri : burst_spec r = true -> pri_min r <= pri <= pri_max r -> burst_facts r pri.
Proof.
  unfold burst_spec. rewrite !andb_true_iff, negb_true_iff, !Z.ltb_lt, !Z.leb_le. intros ((((((((A & B) & C) & D) & E) & F) & G) & H) & I) Hp.
  rewrite forallb_forall in I. specialize (I (Z.to_nat (pri - pri_min r))).
  assert (thresh_ok r pri = true) as Ht.
  { replace pri with (pri_min r + Z.of_nat (Z.to_nat (pri - pri_min r))) by lia. apply I, in_seq. lia. }
  unfold thresh_ok in Ht. rewrite andb_true_iff, !Z.leb_le in Ht. split; try done; lia.
Qed.

(** The detector after [n] pulses of a burst that began at [t0]. *)
Record tracking (r : radar_detector_specs) (pri t0 n : Z) (d : pri_detector) : Prop := {
  t_rs : rs d = r;
  t_ok : pulses_ok d;
  t_some : pulses d <> [];
  t_le : Z.of_nat (length (pulses d)) <= n;
  t_last : pde_last_ts d = t0 + (n - 1) * pri;
  t_old t : t ∈ pulses d -> t <= t0 + (n - 1) * pri;
  t_seq : if n =? 1 then sequences d = [] /\ pulses d = [t0]
          else exists s, sequences d = [s] /\ Pri.pri s = pri /\ count s = n /\ count_falses s = 0 /\
                 last_ts s = t0 + (n - 1) * pri /\
                 deadline_ts s = t0 + pri * (ppb r - 1) + 2 * max_pri_tolerance r /\
                 seq_thresh s = Some (sequence_thresh r pri)
}.

Lemma complete_regular r pri s n : burst_facts r pri -> 2 <= n <= 256 -> count s = n -> count_falses s = 0 ->
  seq_thresh s = Some (sequence_thresh r pri) -> complete r s = (sequence_thresh r pri <=? n).
Proof.
  intros B Hn Hc Hf Ht. unfold complete. rewrite Hc, Hf, Ht. cbn [from_option id].
  destruct (b_num _ _ B). rewrite wrapU_small by nia.
  assert ((0 <? n * num_pri r) = true) as -> by (apply Z.ltb_lt; nia). now rewrite andb_true_r.
Qed.

(** The first pulse. *)
Lemma burst_first r pri t0 d p : burst_facts r pri -> rs d = r -> pulses_ok d -> pulses d = [] -> sequences d = [] ->
  allocs p = [] -> exists d' p', pde_short_add_pulse d t0 p = (None, d', p') /\ tracking r pri t0 1 d' /\ allocs p' = [].
Proof.
  intros B Hr Hok Hn Hs Ha. unfold pde_short_add_pulse.
  assert (pulse_count d = 0) as Hc by (rewrite (p_count _ Hok), Hn; done). rewrite Hc. cbn [Z.eqb].
  destruct (enqueue_spec d t0 p Hok) as (ok & d' & p' & E & Hok' & (S1 & S2 & _) & H1 & H2 & _).
  { rewrite Hn. intros t Ht. now apply not_elem_of_nil in Ht. }
  destruct (H1 Ha) as [-> Ha']. destruct (H2 eq_refl) as (Hl & old & Eo & Hne). rewrite E. exists d', p'.
  split; [done|]. split; [|done]. rewrite Hn in Eo.
  assert (pulses d' = [t0]) as Ep.
  { destruct (pulses d') as [|x l]; [done|]. cbn in Eo. injection Eo as <- Eo. symmetry in Eo. now apply app_nil in Eo as [-> _]. }
  split; rewrite ?Ep; cbn; try congruence; try lia; [|split; [congruence|done]].
  intros t Ht. apply list_elem_of_singleton in Ht. lia.
Qed.

Lemma multiple_self pri tol : 0 < pri -> 0 <= tol -> pde_get_multiple pri pri tol = 1.
Proof.
  intros Hp Ht. unfold pde_get_multiple. destruct (Z.eqb_spec pri 0); [lia|]. cbn zeta.
  rewrite Z.ltb_irrefl, Z.sub_diag. now replace (0 <=? tol) with true by (symmetry; apply Z.leb_le; lia).
Qed.

(** The sequence after pulse [n + 1], and the detection. *)
Definition burst_seq (r : radar_detector_specs) (pri t0 n : Z) (s : pri_sequence) : Prop :=
  Pri.pri s = pri /\ count s = n /\ count_falses s = 0 /\ last_ts s = t0 + (n - 1) * pri /\
  deadline_ts s = t0 + pri * (ppb r - 1) + 2 * max_pri_tolerance r /\ seq_thresh s = Some (sequence_thresh r pri).

(** Existing sequences are extended and no other is made. *)
Lemma burst_sequences r pri t0 n d p : burst_facts r pri -> pri_min r <= pri <= pri_max r -> max_pri_tolerance r < 256 ->
  0 <= t0 < 2 ^ 63 -> 1 <= n < ppb r -> tracking r pri t0 n d -> allocs p = [] ->
  exists m d1 p1 d2 p2 s,
    pde_short_add_to_existing_seqs d (t0 + n * pri) p = (m, d1, p1) /\
    pde_short_create_sequences d1 (t0 + n * pri) m p1 = (true, d2, p2) /\
    sequences d2 = [s] /\ burst_seq r pri t0 (n + 1) s /\ allocs p2 = [] /\
    d2 = d <| sequences := [s] |>.
Proof.
  intros B Hp Ht8 Ht0 Hn [Hr Hok Hne Hle Hlast Hold Hseq] Ha. destruct B as [Bs Bt Bp Bb Bn Bth].
  unfold pde_short_add_to_existing_seqs, pde_short_create_sequences. rewrite Hr.
  assert (u32 pri = pri) as E32 by (apply wrapU_small; lia).
  destruct (Z.eqb_spec n 1) as [->|Hn1].
  - destruct Hseq as [Hs Hpl]. rewrite Hs. cbn [existing_loop].
    assert (exists p2, pool_get_pseq_elem p = (true, p2) /\ allocs p2 = []) as (p2 & E2 & A2).
    { unfold pool_get_pseq_elem, kmalloc. rewrite Ha. destruct (pseq_pool p); eauto. }
    set (dur := pri * (ppb r - 1) + 2 * max_pri_tolerance r).
    set (s' := mk_seq pri (Some dur) 2 (u32 (u16 (0 + 1) - 1)) t0 (t0 + pri) (t0 + dur) (Some (sequence_thresh r pri))).
    assert (u32 dur = dur) as Ed by (unfold dur; apply wrapU_small; nia).
    assert (u64 (t0 + dur) = t0 + dur) as E64 by (unfold dur; apply wrapU_small; nia).
    exists 0, (d <| sequences := [] |>), p, (d <| sequences := [s'] |>), p2, s'. split; [done|].
    change (pulses (d <| sequences := [] |>)) with (pulses d). change (rs (d <| sequences := [] |>)) with (rs d).
    change (sequences (d <| sequences := [] |>)) with (@nil pri_sequence). rewrite Hpl, Hr.
    rewrite Z.mul_1_l. cbn [create_loop]. replace (t0 + pri - t0) with pri by lia. rewrite E32.
    replace (pri <? pri_min r) with false by (symmetry; apply Z.ltb_ge; lia).
    replace (pri_max r <? pri) with false by (symmetry; apply Z.ltb_ge; lia).
    unfold new_sequence. replace (t0 + pri - t0) with pri by lia. rewrite E32. fold dur. rewrite Ed.
    cbn [match_older]. change (count (mk_seq _ _ 2 _ _ _ _ _) <=? 0) with false. cbn match.
    change (first_ts (mk_seq _ _ _ _ t0 _ _ _)) with t0. change (default 0 (Pri.dur (mk_seq _ (Some dur) _ _ _ _ _ _))) with dur.
    rewrite E64, E2. split; [done|]. split; [done|]. split; [|done].
    split_and!; try done; cbn; lia.
  - destruct Hseq as (s & Hs & E1 & E2 & E3 & E4 & E5 & E6). rewrite Hs. cbn [existing_loop].
    replace (deadline_ts s <? t0 + n * pri) with false by (symmetry; apply Z.ltb_ge; nia).
    replace (t0 + n * pri - last_ts s) with pri by lia. rewrite E32, E1, multiple_self by lia.
    cbn [Z.ltb Z.compare andb]. set (s' := s <| last_ts := _ |> <| count ::= _ |>).
    assert (count s' = n + 1) as Ec by (change (count s') with (u32 (count s + 1)); rewrite wrapU_small; lia).
    replace (0 <? count s') with true by (symmetry; apply Z.ltb_lt; lia). cbn [andb].
    exists (n + 1), (d <| sequences := [s'] |>), p, (d <| sequences := [s'] |>), p, s'.
    split; [now rewrite Ec|]. change (pulses (d <| sequences := [s'] |>)) with (pulses d).
    change (rs (d <| sequences := [s'] |>)) with (rs d). rewrite create_none by lia. split; [done|]. split; [done|].
    split; [|done]. split_and!; try done. change (last_ts s') with (t0 + n * pri). lia.
Qed.

(** One more pulse of the burst. *)
Lemma burst_step r pri t0 n d p : burst_facts r pri -> pri_min r <= pri <= pri_max r -> max_pri_tolerance r < 256 ->
  0 <= t0 < 2 ^ 63 -> 1 <= n < ppb r -> tracking r pri t0 n d -> allocs p = [] ->
  exists o d' p', pde_short_add_pulse d (t0 + n * pri) p = (o, d', p') /\ allocs p' = [] /\
    (if sequence_thresh r pri <=? n + 1 then exists s, o = Some s /\ burst_seq r pri t0 (n + 1) s
     else o = None /\ tracking r pri t0 (n + 1) d').
Proof.
  intros B Hp Ht8 Ht0 Hn T Ha.
  destruct (burst_sequences _ _ _ _ _ _ B Hp Ht8 Ht0 Hn T Ha) as (m & d1 & p1 & d2 & p2 & s & E1 & E2 & Es & Hs & A2 & Ed).
  destruct T as [Hr Hok Hne Hle Hlast Hold _]. unfold pde_short_add_pulse.
  assert ((pulse_count d =? 0) = false) as ->.
  { rewrite (p_count _ Hok). apply Z.eqb_neq. destruct (pulses d); [done|]. cbn. lia. }
  rewrite Hlast, Hr. replace (t0 + n * pri - (t0 + (n - 1) * pri)) with pri by lia.
  destruct B as [Bs Bt Bp Bb Bn Bth] eqn:EB. rewrite wrapU_small by lia.
  replace (pri <? max_pri_tolerance r) with false by (symmetry; apply Z.ltb_ge; lia).
  rewrite E1, E2. cbn [negb]. unfold pde_short_check_detection. rewrite Es. cbn [List.find].
  assert (rs d2 = r) as -> by (now rewrite Ed).
  pose proof Hs as (_ & Hc & Hf & _ & _ & Hth).
  rewrite (complete_regular r pri s (n + 1) B ltac:(lia) Hc Hf Hth).
  destruct (sequence_thresh r pri <=? n + 1); [exists (Some s), d2, p2; eauto|].
  assert (pulses_ok d2) as Hok2 by (rewrite Ed; destruct Hok; by split).
  destruct (enqueue_spec d2 (t0 + n * pri) p2 Hok2) as (ok & d' & p' & E & Hok' & (S1 & S2 & _) & H1 & H2 & _).
  { rewrite Ed. intros t Ht. specialize (Hold t Ht). nia. }
  destruct (H1 A2) as [-> Ha']. destruct (H2 eq_refl) as (Hl & old & Eo & Hne'). rewrite E.
  exists None, d', p'. split; [done|]. split; [done|]. split; [done|].
  change (pulses d2) with (pulses d2) in Eo. assert (pulses d2 = pulses d) as Ep by (now rewrite Ed). rewrite Ep in Eo.
  split.
  - rewrite S1, Ed. done.
  - done.
  - done.
  - apply (f_equal length) in Eo. rewrite length_app in Eo. cbn in Eo. lia.
  - rewrite Hl. lia.
  - intros t Ht. assert (t ∈ t0 + n * pri :: pulses d) as Hin by (rewrite Eo; apply elem_of_app; now left).
    apply elem_of_cons in Hin as [->|Hin]; [lia|]. specialize (Hold t Hin). nia.
  - replace (n + 1 =? 1) with false by (symmetry; apply Z.eqb_neq; lia). exists s. rewrite S2, Es. split; [done|]. exact Hs.
Qed.

(** The pulses [t0], [t0 + pri], ... given to a detector one by one, up to the
    first that completes a sequence: how many were needed, and the sequence. *)
Fixpoint feed (n : nat) (k t pri : Z) (d : pri_detector) (p : pool) : res (option (Z * pri_sequence)) :=
  match n with
  | O => Ok None
  | S n =>
      a ← add_pulse d t p;
      let '(o, d, p) := (a : option pri_sequence * pri_detector * pool) in
      match o with Some s => Ok (Some (k, s)) | None => feed n (k + 1) (t + pri) pri d p end
  end.

Lemma feed_tracking r pri t0 : burst_facts r pri -> pri_min r <= pri <= pri_max r -> max_pri_tolerance r < 256 ->
  0 <= t0 < 2 ^ 63 -> forall m n d p, 1 <= n < sequence_thresh r pri -> tracking r pri t0 n d -> allocs p = [] ->
  sequence_thresh r pri <= n + Z.of_nat m ->
  exists s, feed m (n + 1) (t0 + n * pri) pri d p = Ok (Some (sequence_thresh r pri, s)) /\
    burst_seq r pri t0 (sequence_thresh r pri) s.
Proof.
  intros B Hp Ht8 Ht0. induction m as [|m IH]; intros n d p Hn T Ha Hm; [lia|].
  pose proof (b_thresh _ _ B) as Bth.
  destruct (burst_step r pri t0 n d p B Hp Ht8 Ht0 ltac:(lia) T Ha) as (o & d' & p' & E & A' & H).
  cbn [feed]. unfold add_pulse. rewrite (t_rs _ _ _ _ _ T), (b_short _ _ B), E. cbn [mbind res_bind].
  destruct (Z.leb_spec (sequence_thresh r pri) (n + 1)).
  - destruct H as (s & -> & Hs). assert (n + 1 = sequence_thresh r pri) as En by lia. exists s. rewrite <- En. done.
  - destruct H as [-> T']. replace (t0 + n * pri + pri) with (t0 + (n + 1) * pri) by lia.
    destruct (IH (n + 1) d' p') as (s & E2 & Hs); [lia|done|done|lia|]. exists s. now rewrite E2.
Qed.

(** ** Detectors stay well formed *)

(** A sequence without [dur] has seen its first burst only. *)
Record detector_ok (now : Z) (d : pri_detector) : Prop := {
  d_pulses : pulses_ok d;
  d_old t : t ∈ pulses d -> t <= now;
  d_dur s : s ∈ sequences d -> is_long (rs d) = true -> dur s = None -> count s = 1
}.

Lemma allocs_get_pseq p ok p' : pool_get_pseq_elem p = (ok, p') -> allocs p = [] -> ok = true /\ allocs p' = [].
Proof.
  unfold pool_get_pseq_elem, kmalloc. intros E Ha. destruct (pseq_pool p); [rewrite Ha in E|]; now injection E as <- <-.
Qed.

Lemma allocs_kmalloc p ok p' : kmalloc p = (ok, p') -> allocs p = [] -> ok = true /\ allocs p' = [].
Proof. unfold kmalloc. intros E Ha. rewrite Ha in E. now injection E as <- <-. Qed.

Lemma enqueue_ok now d ts p : detector_ok now d -> now <= ts -> exists ok d' p', pulse_queue_enqueue d ts p = (ok, d', p') /\
  detector_ok ts d' /\ (allocs p = [] -> allocs p' = []) /\ sequences d' = sequences d /\ rs d' = rs d.
Proof.
  intros [Hp Ho Hd] Hle. destruct (enqueue_spec d ts p Hp) as (ok & d' & p' & E & Hp' & S & Ha & Hok & Hno).
  { intros t Ht. specialize (Ho t Ht). lia. }
  exists ok, d', p'. split; [done|]. destruct S as (Sr & Ss & _). split; [|split; [intros Hn; now destruct (Ha Hn)|done]].
  split; [done| |rewrite Ss, Sr; exact Hd]. destruct ok.
  - destruct (Hok eq_refl) as (_ & old & Eo & _). intros t Ht.
    assert (t ∈ ts :: pulses d) as Hin by (rewrite Eo; apply elem_of_app; now left).
    apply elem_of_cons in Hin as [->|Hin]; [lia|]. specialize (Ho t Hin). lia.
  - rewrite (Hno eq_refl). intros t Ht. specialize (Ho t Ht). lia.
Qed.

Lemma reset_ok ts d p : pulses_ok d -> detector_ok ts (pri_detector_reset d ts p).1.
Proof.
  intros [A B C D E]. split; cbn.
  - split; cbn; try done. + split; [apply B|]. lia. + constructor.
  - intros t Ht. now apply not_elem_of_nil in Ht.
  - intros s Hs. now apply not_elem_of_nil in Hs.
Qed.

Lemma existing_allocs r ts : forall l m p m' l' p', existing_loop r ts m l p = (m', l', p') -> allocs p' = allocs p.
Proof.
  induction l as [|s l IH]; intros m p m' l' p'; cbn [existing_loop]; [now intros [= <- <- <-]|].
  destruct (_ <? ts); [intros E; apply IH in E; exact E|].
  match goal with |- context [existing_loop r ts ?a l p] => destruct (existing_loop r ts a l p) as [[x y] z] eqn:E end.
  intros [= <- <- <-]. now apply IH in E.
Qed.

Lemma create_allocs r ts mc : forall l i seqs p ok seqs' p', create_loop r ts mc i l seqs p = (ok, seqs', p') ->
  allocs p = [] -> allocs p' = [].
Proof.
  induction l as [|t l IH]; intros i seqs p ok seqs' p'; cbn [create_loop]; [now intros [= <- <- <-]|].
  destruct (_ <? pri_min r); [apply IH|]. destruct (pri_max r <? _); [now intros [= <- <- <-]|].
  destruct (_ <=? mc); [apply IH|]. destruct (pool_get_pseq_elem p) as [b q] eqn:Eq.
  intros E Ha. destruct (allocs_get_pseq _ _ _ Eq Ha) as [-> Hq]. now apply (IH _ _ _ _ _ _ E).
Qed.

Lemma with_sequences now d l : detector_ok now d -> is_long (rs d) = false -> detector_ok now (d <| sequences := l |>).
Proof. intros [[A B C D E] Ho Hd] Hl. split; [by split|done|]. intros s _ H. cbn in H. congruence. Qed.

Lemma short_ok now d ts p : detector_ok now d -> now <= ts -> is_long (rs d) = false ->
  exists o d' p', pde_short_add_pulse d ts p = (o, d', p') /\ detector_ok ts d' /\ (allocs p = [] -> allocs p' = []) /\ rs d' = rs d.
Proof.
  intros H Hle Hl. assert (detector_ok ts d) as Hts.
  { destruct H as [A B C]. split; try done. intros t Ht. specialize (B t Ht). lia. }
  unfold pde_short_add_pulse. destruct (pulse_count d =? 0).
  { destruct (enqueue_ok _ _ ts p H Hle) as (ok & d' & p' & -> & ? & ? & _ & ?). eauto 10. }
  destruct (_ <? max_pri_tolerance (rs d)); [eauto 10|].
  unfold pde_short_add_to_existing_seqs. destruct (existing_loop (rs d) ts 0 (sequences d) p) as [[m l] p1] eqn:E1.
  pose proof (existing_allocs _ _ _ _ _ _ _ _ E1) as A1. pose proof (with_sequences _ _ l Hts Hl) as H1. set (d1 := d <| sequences := l |>) in *.
  unfold pde_short_create_sequences. destruct (create_loop (rs d1) ts m 0 (pulses d1) (sequences d1) p1) as [[ok l2] p2] eqn:E2.
  pose proof (create_allocs _ _ _ _ _ _ _ _ _ _ E2) as A2. pose proof (with_sequences _ _ l2 H1 Hl) as H2. set (d2 := d1 <| sequences := l2 |>) in *.
  destruct ok; cbn [negb].
  - destruct (pde_short_check_detection d2) as [s|].
    + exists (Some s), d2, p2. split; [done|]. split; [done|]. split; [|done]. intros Ha. apply A2. congruence.
    + destruct (enqueue_ok _ _ ts p2 H2 ltac:(lia)) as (ok & d' & p' & -> & ? & A3 & _ & ?). exists None, d', p'.
      split; [done|]. split; [done|]. split; [|done]. intros Ha. apply A3, A2. congruence.
  - pose proof (reset_ok ts _ p2 (d_pulses _ _ H2)) as H3. unfold pri_detector_reset in *. eexists _, _, _. split; [reflexivity|].
    split; [exact H3|]. split; [|done]. cbn. intros Ha. apply A2. congruence.
Qed.

(** The trimmed long sequence: its pulses are a prefix, and only these fields change. *)
Lemma long_trim_spec mv : forall fuel ps d p, pulse_count d = Z.of_nat (length (pulses d)) -> pulse_count d < 2 ^ 32 ->
  exists ps' d' p' old, long_trim fuel mv ps d p = (ps', d', p') /\ allocs p' = allocs p /\ dur ps' = dur ps /\
    pulses d = pulses d' ++ old /\ pulse_count d' = Z.of_nat (length (pulses d')) /\ pde_last_ts d' = pde_last_ts d /\
    same_but_pulses d d'.
Proof.
  induction fuel as [|fuel IH]; intros ps d p Hc Hb; cbn [long_trim].
  { exists ps, d, p, []. rewrite app_nil_r. split_and!; done. }
  unfold pulse_queue_get_tail. destruct (list.last (pulses d)) as [t|] eqn:El.
  2:{ exists ps, d, p, []. rewrite app_nil_r. split_and!; done. }
  destruct (mv <=? t). { eexists _, d, p, []. rewrite app_nil_r. split; [reflexivity|]. split_and!; done. }
  destruct (dequeue_spec d p t El Hc Hb) as (d1 & p1 & -> & A1 & P1 & C1 & L1 & S1).
  assert (length (pulses d) = length (pulses d1) + 1)%nat as EL by (rewrite P1; now rewrite length_app).
  destruct (IH (ps <| count ::= fun n => u32 (n - 1) |>) d1 p1) as (ps2 & d2 & p2 & old & -> & A2 & D2 & P2 & C2 & L2 & S2);
    [done|lia|].
  exists ps2, d2, p2, (old ++ [t]). split; [done|]. split; [congruence|]. split; [done|].
  split; [rewrite P1, P2; now rewrite app_assoc|]. split; [done|]. split; [congruence|]. eapply same_but_pulses_trans; eauto.
Qed.

Lemma cut_detector_ok now d d' old : pulses_ok d -> (forall t, t ∈ pulses d -> t <= now) -> pulses d = pulses d' ++ old ->
  pulse_count d' = Z.of_nat (length (pulses d')) -> pde_last_ts d' = pde_last_ts d -> same_but_pulses d d' ->
  pulses_ok d' /\ forall t, t ∈ pulses d' -> t <= now.
Proof.
  intros [A B C D E] Ho P Hc Hl (S1 & S2 & S3 & S4 & S5). destruct (cut_ok d d' old D P) as [D' C']. split.
  - split; rewrite ?S3, ?S4; try done.
    + apply (f_equal length) in P. rewrite length_app in P. lia.
    + intros t Ht. rewrite Hl. auto.
  - intros t Ht. apply Ho. rewrite P. apply elem_of_app. now left.
Qed.

Lemma long_ok now d ts p : detector_ok now d -> now <= ts -> is_long (rs d) = true ->
  exists o d' p', pde_long_add_pulse d ts p = Ok (o, d', p') /\ (o = None -> detector_ok ts d') /\
    pulses_ok d' /\ (allocs p = [] -> allocs p' = []) /\ rs d' = rs d.
Proof.
  intros H Hle Hl. assert (detector_ok ts d) as Hts.
  { destruct H as [A B C]. split; try done. intros t Ht. specialize (B t Ht). lia. }
  unfold pde_long_add_pulse. destruct (sequences d) as [|s seqs] eqn:Es.
  { destruct (pool_get_pseq_elem p) as [ok p1] eqn:Ep. pose proof (allocs_get_pseq _ _ _ Ep) as Ap.
    destruct ok; cbn [negb].
    - set (s := mk_seq _ _ _ _ _ _ _ _).
      assert (detector_ok now (d <| sequences := [s] |>)) as H1.
      { destruct H as [[A1 A2 A3 A4 A5] B C]. split; [by split|done|]. intros x ->%list_elem_of_singleton _ _. done. }
      destruct (enqueue_ok _ _ ts p1 H1 Hle) as (ok & d' & p' & -> & H2 & A2 & _ & Er). eexists _, _, _. split; [reflexivity|].
      split; [done|]. split; [apply H2|]. split; [|done]. intros Ha. apply A2. now destruct (Ap Ha).
    - eexists _, _, _. split; [reflexivity|]. split; [done|]. split; [apply H|]. split; [|done]. intros Ha. now destruct (Ap Ha). }
  cbn zeta. set (s1 := s <| last_ts := ts |>).
  assert (forall s2 d2, detector_ok ts d2 -> rs d2 = rs d -> (dur s2 = None -> count s2 = 1) ->
    (forall x, x ∈ seqs -> dur x = None -> count x = 1) -> detector_ok ts (d2 <| sequences := s2 :: seqs |>)) as Hkeep.
  { intros s2 d2 [[A1 A2 A3 A4 A5] B C] Er E1 E2. split; [by split|done|]. intros x Hx _ Hn. cbn in Hx.
    apply elem_of_cons in Hx as [->|Hx]; auto. }
  assert (forall x, x ∈ s :: seqs -> dur x = None -> count x = 1) as Hall.
  { intros x Hx. rewrite <- Es in Hx. intros Hn. eapply d_dur; eauto. }
  assert (forall x, x ∈ seqs -> dur x = None -> count x = 1) as Hseqs by (intros x Hx; apply Hall; now right).
  assert (dur s = None -> count s = 1) as Hs by (apply Hall; now left).
  assert (forall s2, (dur s2 = None -> count s2 = 1) -> exists o d' p',
    (Ok (None, d <| sequences := s2 :: seqs |>, p) : res (option pri_sequence * pri_detector * pool)) = Ok (o, d', p') /\
    (o = None -> detector_ok ts d') /\ pulses_ok d' /\ (allocs p = [] -> allocs p' = []) /\ rs d' = rs d) as Hsame.
  { intros s2 H2. eexists _, _, _. split; [reflexivity|]. split; [intros _; now apply Hkeep|]. split; [|done].
    destruct Hts as [[A1 A2 A3 A4 A5] _ _]. by split. }
  destruct (_ <? pri_max (rs d)); [now apply Hsame|]. destruct (_ && _); [now apply Hsame|].
  assert (exists b, (if 2 <? count s1 then dr ← from_option_res Uninitialised (dur s1);
      Ok (u32 (dr + u32 (ts - last_ts s)) <? LONG_RADAR_BURST_MIN_DURATION) else Ok false) = Ok b) as [b ->].
  { change (count s1) with (count s). change (dur s1) with (dur s). destruct (Z.ltb_spec 2 (count s)); [|eauto].
    destruct (dur s); [|specialize (Hs eq_refl); lia]. cbn. eauto. }
  cbn [mbind res_bind]. destruct b; [now apply Hsame|].
  set (s2 := s1 <| count ::= _ |> <| count_falses := 1 |>).
  assert (exists s3 d3 p3, (if deadline_ts s2 <? ts then long_trim (length (pulses d)) (u64 (ts - window_size d)) s2 d p else (s2, d, p))
    = (s3, d3, p3) /\ allocs p3 = allocs p /\ detector_ok ts d3 /\ rs d3 = rs d) as (s3 & d3 & p3 & -> & A3 & H3 & R3).
  { destruct (deadline_ts s2 <? ts); [|exists s2, d, p; done]. destruct (d_pulses _ _ H) as [B1 B2 B3 B4 B5].
    destruct (long_trim_spec (u64 (ts - window_size d)) (length (pulses d)) s2 d p B1 ltac:(lia))
      as (s3 & d3 & p3 & old & E & A3 & _ & P3 & C3 & L3 & S3).
    exists s3, d3, p3. split; [done|]. split; [done|].
    destruct (cut_detector_ok ts d d3 old ltac:(by split) (d_old _ _ Hts) P3 C3 L3 S3) as [K1 K2].
    pose proof S3 as (S4 & S5 & _). split; [|done]. split; [done|done|]. rewrite S5, S4. apply Hts. }
  destruct (_ && _).
  { eexists _, _, _. split; [reflexivity|]. split; [done|]. split; [|split; [congruence|done]].
    destruct H3 as [[B1 B2 B3 B4 B5] _ _]. by split. }
  destruct (enqueue_ok _ _ ts p3 H3 ltac:(lia)) as (ok & d4 & p4 & -> & H4 & A4 & _ & R4).
  eexists _, _, _. split; [reflexivity|]. split; [intros _; apply Hkeep; try done; exact (eq_trans R4 R3)|].
  split; [destruct H4 as [[B1 B2 B3 B4 B5] _ _]; by split|]. split; [|exact (eq_trans R4 R3)]. intros Ha. apply A4. congruence.
Qed.

(** All detectors of a chain. *)
Definition list_ok (now : Z) (l : list pri_detector) : Prop := forall e, e ∈ l -> detector_ok now e.
Record dpd_ok (d : dfs_pattern_detector) : Prop := {
  dp_specs r : r ∈ radar_spec d -> r ∈ all_specs;
  dp_num : (dpd_num_types d <= length (radar_spec d))%nat /\ (dpd_num_types d <= length (detectors d))%nat;
  dp_dets l : l ∈ detectors d -> list_ok (last_pulse_ts d) l;
  dp_rest i l : (dpd_num_types d <= i)%nat -> detectors d !! i = Some l -> l = [];
  dp_ts : 0 <= last_pulse_ts d;
  dp_len : length (detectors d) = get_dfs_max_radar_types
}.

Lemma detector_ok_mono now ts d : detector_ok now d -> now <= ts -> detector_ok ts d.
Proof. intros [A B C] Hle. split; try done. intros t Ht. specialize (B t Ht). lia. Qed.

Lemma new_detector_ok now r f : r ∈ all_specs -> detector_ok now (new_detector r f).
Proof.
  intros Hr. assert (forallb (fun r => (1 <=? ppb r) && (ppb r <? 256)) all_specs = true) as H by reflexivity.
  rewrite forallb_forall in H. apply list_elem_of_In in Hr. specialize (H r Hr).
  rewrite andb_true_iff, Z.leb_le, Z.ltb_lt in H. unfold new_detector. split.
  - destruct (is_long r); split; cbn; try done; try constructor; try (rewrite wrapU_small; lia). apply wrapU_bound. lia.
  - intros t Ht. exfalso. destruct (is_long r); now apply not_elem_of_nil in Ht.
  - intros s Hs. exfalso. destruct (is_long r); now apply not_elem_of_nil in Hs.
Qed.

Lemma get_walk_range f : forall l i cur j, get_walk f l i cur = Some j ->
  cur = Some j \/ (i <= j < i + length l)%nat.
Proof.
  induction l as [|d l IH]; intros i cur j; cbn [get_walk length]; [now left|].
  destruct (freq d =? f); [destruct (negb _)|destruct (_ && _); [|destruct (_ && _)]]; intros E;
    try (injection E as <-; right; lia); apply IH in E as [E|E]; try (right; lia); [injection E as <-; right; lia|now left].
Qed.

Lemma get_ok now r f l p : r ∈ all_specs -> list_ok now l ->
  (exists (j : nat) (l' : list pri_detector) (p' : pool) (e : pri_detector), pri_detector_get r f l p = (Some j, l', p') /\ list_ok now l' /\ l' !! j = Some e /\
    (allocs p = [] -> allocs p' = [])) \/
  (exists p', pri_detector_get r f l p = (None, l, p') /\ allocs p <> []).
Proof.
  intros Hr Hl. unfold pri_detector_get. destruct (get_walk f l 0 None) as [j|] eqn:E.
  - left. apply get_walk_range in E as [E|E]; [done|]. destruct (lookup_lt_is_Some_2 l j) as [e He]; [lia|]. eauto 10.
  - unfold pri_detector_init. destruct (kmalloc p) as [ok p1] eqn:Ek. pose proof (allocs_kmalloc _ _ _ Ek) as Ha. destruct ok.
    + left. eexists 0%nat, _, _, _. split; [reflexivity|]. split; [|split; [reflexivity|]].
      * intros e [->|He]%elem_of_cons; [now apply new_detector_ok|auto].
      * intros H. now destruct (Ha H).
    + right. eexists. split; [reflexivity|]. intros H. now destruct (Ha H).
Qed.

Lemma add_pulse_ok now d ts p : detector_ok now d -> now <= ts -> exists o d' p', add_pulse d ts p = Ok (o, d', p') /\
  pulses_ok d' /\ (o = None -> detector_ok ts d') /\ (allocs p = [] -> allocs p' = []).
Proof.
  intros H Hle. unfold add_pulse. destruct (is_long (rs d)) eqn:El.
  - destruct (long_ok now d ts p H Hle El) as (o & d' & p' & -> & ? & ? & ? & _). eauto 10.
  - destruct (short_ok now d ts p H Hle El) as (o & d' & p' & -> & H' & ? & _). exists o, d', p'. split; [done|].
    split; [apply H'|]. auto.
Qed.

Lemma reset_each_ok which now ts : forall l p, list_ok now l -> now <= ts ->
  list_ok ts (reset_each which ts l p).1 /\ allocs (reset_each which ts l p).2 = allocs p.
Proof.
  induction l as [|d l IH]; intros p Hl Hle; cbn [reset_each].
  { split; [|done]. intros e He. now apply not_elem_of_nil in He. }
  assert (exists d1 p1, (if which d then pri_detector_reset d ts p else (d, p)) = (d1, p1) /\ detector_ok ts d1 /\ allocs p1 = allocs p)
    as (d1 & p1 & -> & H1 & A1).
  { specialize (Hl d ltac:(left)). destruct (which d).
    - eexists _, _. split; [reflexivity|]. split; [exact (reset_ok ts d p (d_pulses _ _ Hl))|done].
    - exists d, p. split; [done|]. split; [eapply detector_ok_mono; eauto|done]. }
  destruct (IH p1) as [H2 A2]; [intros e He; apply Hl; now right|done|].
  destruct (reset_each which ts l p1) as [l2 p2]. split; [|cbn in *; congruence].
  intros e [->|He]%elem_of_cons; auto.
Qed.

Lemma reset_types_ok which now ts : forall n ll p, (forall l, l ∈ ll -> list_ok now l) -> now <= ts ->
  (forall l, l ∈ (reset_types which ts n ll p).1 -> list_ok ts l) /\ allocs (reset_types which ts n ll p).2 = allocs p /\
  length (reset_types which ts n ll p).1 = length ll.
Proof.
  assert (forall ll : list (list pri_detector), (forall l, l ∈ ll -> list_ok now l) -> now <= ts -> forall l, l ∈ ll -> list_ok ts l) as Hmono.
  { intros ll Hll Hle l Hin e He. eapply detector_ok_mono; [now apply (Hll l)|done]. }
  induction n as [|n IH]; intros [|l ll] p Hll Hle; cbn [reset_types]; try (split; [|done]; now apply Hmono).
  destruct (reset_each_ok which now ts l p) as [H1 A1]; [apply Hll; left|done|].
  destruct (reset_each which ts l p) as [l1 p1]. destruct (IH ll p1) as (H2 & A2 & L2); [intros x Hx; apply Hll; now right|done|].
  destruct (reset_types which ts n ll p1) as [ll2 p2]. cbn in *. split; [|split; congruence].
  intros x [->|Hx]%elem_of_cons; auto.
Qed.

(** A reset leaves empty detectors, whatever the pulses were: they are well
    formed from time 0 on. *)
Lemma reset_each_empty ts : forall l p, (forall e, e ∈ l -> pulses_ok e) ->
  list_ok 0 (reset_each (fun _ => true) ts l p).1 /\ allocs (reset_each (fun _ => true) ts l p).2 = allocs p.
Proof.
  induction l as [|d l IH]; intros p Hl; cbn [reset_each].
  { split; [|done]. intros e He. now apply not_elem_of_nil in He. }
  pose proof (reset_ok ts d p (Hl d ltac:(left))) as H. unfold pri_detector_reset in *.
  match goal with |- context [reset_each _ ts l ?q] => destruct (IH q) as [H2 A2]; [intros x Hx; apply Hl; now right|] end.
  destruct (reset_each _ ts l _) as [l2 p2]. cbn in *. split; [|done]. intros e [->|He]%elem_of_cons; [|auto].
  destruct H as [A B C]. split; [|intros t Ht; now apply not_elem_of_nil in Ht|done].
  exact A.
Qed.

Lemma reset_types_all ts : forall n ll p, (forall l, l ∈ ll -> forall e, e ∈ l -> pulses_ok e) ->
  (forall i l, (n <= i)%nat -> ll !! i = Some l -> l = []) ->
  let ll' := (reset_types (fun _ => true) ts n ll p).1 in
  (forall l, l ∈ ll' -> list_ok 0 l) /\ (forall i l, (n <= i)%nat -> ll' !! i = Some l -> l = []) /\
  length ll' = length ll /\ allocs (reset_types (fun _ => true) ts n ll p).2 = allocs p.
Proof.
  assert (forall ll : list (list pri_detector), (forall i l, (0 <= i)%nat -> ll !! i = Some l -> l = []) ->
    forall l, l ∈ ll -> list_ok 0 l) as Hnil.
  { intros ll H l Hin. apply list_elem_of_lookup in Hin as [i Hi]. rewrite (H i l ltac:(lia) Hi). intros e He.
    now apply not_elem_of_nil in He. }
  induction n as [|n IH]; intros [|l ll] p Hll Hrest; cbn [reset_types]; cbn zeta; cbn [fst snd];
    try (split; [try exact (Hnil _ Hrest)|split; [exact Hrest|done]]).
  { intros l Hl. now apply not_elem_of_nil in Hl. }
  destruct (reset_each_empty ts l p (Hll l ltac:(left))) as [H1 A1].
  destruct (reset_each (fun _ => true) ts l p) as [l1 p1].
  destruct (IH ll p1) as (H2 & H3 & L & A2); [intros x Hx; apply Hll; now right|intros i x Hi; apply (Hrest (S i)); lia|].
  destruct (reset_types (fun _ => true) ts n ll p1) as [ll2 p2]. cbn in *. split_and!; try congruence.
  - intros x [->|Hx]%elem_of_cons; auto.
  - intros [|i] x Hi; [lia|]. cbn. apply H3. lia.
Qed.

(** What a detection leaves before its reset. *)
Record dpd_weak (d : dfs_pattern_detector) : Prop := {
  dw_specs r : r ∈ radar_spec d -> r ∈ all_specs;
  dw_num : (dpd_num_types d <= length (radar_spec d))%nat /\ (dpd_num_types d <= length (detectors d))%nat;
  dw_dets l : l ∈ detectors d -> forall e, e ∈ l -> pulses_ok e;
  dw_rest i l : (dpd_num_types d <= i)%nat -> detectors d !! i = Some l -> l = [];
  dw_len : length (detectors d) = get_dfs_max_radar_types
}.
Lemma dpd_ok_weak d : dpd_ok d -> dpd_weak d.
Proof. intros [A B C D E F]. split; try done. intros l Hl e He. exact (d_pulses _ _ (C l Hl e He)). Qed.

Lemma dfs_reset_ok jiffies d p : dpd_weak d -> exists d' p', dfs_pattern_detector_reset jiffies d p = (d', p') /\ dpd_ok d' /\
  allocs p' = allocs p /\ region d' = region d /\ last_pulse_ts d' = 0.
Proof.
  intros [A [B1 B2] C D F]. unfold dfs_pattern_detector_reset.
  destruct (reset_types_all (last_pulse_ts d) (dpd_num_types d) (detectors d) p C D) as (H1 & H2 & H4 & H3).
  destruct (reset_types _ _ _ _ p) as [ll p1]. cbn in *. eexists _, _. split; [reflexivity|]. split; [|done].
  split; cbn; try done; rewrite H4; done.
Qed.

Lemma rest_reset which ts : forall n ll p i, (n <= i)%nat -> (reset_types which ts n ll p).1 !! i = ll !! i.
Proof.
  induction n as [|n IH]; intros [|l ll] p i Hi; cbn [reset_types]; try done.
  destruct (reset_each which ts l p) as [l1 p1]. destruct i as [|i]; [lia|]. specialize (IH ll p1 i ltac:(lia)).
  destruct (reset_types which ts n ll p1) as [ll2 p2]. cbn in *. done.
Qed.

(** The time stamp advances, without going around. *)
Lemma pulse_time_ok jtu pri now d p : dpd_ok d -> (forall j, 0 <= jtu j < 2 ^ 32) -> 0 <= pri < 65536 -> last_pulse_ts d < 2 ^ 63 ->
  exists d' p', pulse_time jtu pri now d p = (d', p') /\ dpd_ok d' /\ allocs p' = allocs p /\ region d' = region d /\
    last_pulse_ts d' <= last_pulse_ts d + 2 ^ 32.
Proof.
  intros [A [B1 B2] C D E F] Hj Hp Ht. unfold pulse_time. destruct (Z.eqb_spec pri 0).
  - cbn zeta. set (delta := u32 _). specialize (Hj delta). clearbody delta.
    assert (u64 (last_pulse_ts d + jtu delta) = last_pulse_ts d + jtu delta) as Eu by (apply wrapU_small; lia).
    unfold dfs_pattern_detector_pri_overflow. cbn [last_pulse_ts dpd_num_types detectors].
    match goal with |- context [reset_types ?w ?t ?n ?ll p] => set (tt := t); change n with (dpd_num_types d); change ll with (detectors d) end.
    assert (tt = last_pulse_ts d + jtu delta) as Et by exact Eu. clearbody tt.
    destruct (reset_types_ok reset_on_pri_overflow (last_pulse_ts d) tt (dpd_num_types d) (detectors d) p C ltac:(lia)) as (H1 & H3 & H4).
    pose proof (fun i => rest_reset reset_on_pri_overflow tt (dpd_num_types d) (detectors d) p i) as H5.
    destruct (reset_types _ tt _ _ p) as [ll p1]. cbn in H1, H3, H4, H5. eexists _, _. split; [reflexivity|].
    split; [|cbn [fst snd]; split; [done|]; split; [done|]; cbn -[Z.pow]; lia].
    split; cbn; rewrite ?Eu, <- ?Et; try done; try lia.
    + intros i l Hi Hl. rewrite (H5 i Hi) in Hl. eauto.
    + exact (eq_trans H4 F).
  - eexists _, _. split; [reflexivity|].
    assert (u64 (last_pulse_ts d + pri) = last_pulse_ts d + pri) as Eu by (apply wrapU_small; lia).
    split; [|split; [done|]; split; [done|]; cbn -[Z.pow]; lia].
    split; cbn; rewrite ?Eu; try done; try lia.
    intros l Hl e He. eapply detector_ok_mono; [now apply (C l)|lia].
Qed.

(** A pulse through the radar types. *)
Lemma types_loop_ok jiffies f len : forall n i d p, dpd_ok d -> (i + n <= dpd_num_types d)%nat ->
  (exists hit d' p', types_loop jiffies f len n i d p = Ok (hit, d', p') /\ dpd_ok d' /\ (allocs p = [] -> allocs p' = []) /\
     region d' = region d /\ last_pulse_ts d' <= last_pulse_ts d) \/
  (types_loop jiffies f len n i d p = Fault NullDeref /\ allocs p <> []).
Proof.
  induction n as [|n IH]; intros i d p H Hn; cbn [types_loop]; [left; eauto 10 using Z.le_refl|].
  pose proof H as [A [B1 B2] C D E F].
  destruct (lookup_lt_is_Some_2 (radar_spec d) i) as [r Hr]; [lia|]. rewrite Hr. cbn [from_option_res mbind res_bind].
  assert (r ∈ all_specs) as Hall by (apply A; eauto using list_elem_of_lookup_2).
  destruct (_ || _); [apply IH; [done|lia]|].
  destruct (lookup_lt_is_Some_2 (detectors d) i) as [l Hl]; [lia|]. rewrite Hl. cbn [from_option_res mbind res_bind].
  assert (list_ok (last_pulse_ts d) l) as Hlok by (apply C; eauto using list_elem_of_lookup_2).
  destruct (get_ok (last_pulse_ts d) r f l p Hall Hlok) as [(j & l' & p1 & e & -> & Hl' & He & A1)|(p1 & -> & Hne)]; [|right; done].
  cbn [from_option_res mbind res_bind]. rewrite He. cbn [from_option_res mbind res_bind].
  destruct (add_pulse_ok (last_pulse_ts d) e (last_pulse_ts d) p1) as (o & e' & p2 & -> & Hpk & Ho & A2);
    [apply Hl'; eauto using list_elem_of_lookup_2|lia|]. cbn [mbind res_bind].
  assert (forall (P : pri_detector -> Prop) e2, P e2 -> (forall x, x ∈ l' -> P x) ->
    (forall x, x ∈ detectors d -> forall y, y ∈ x -> P y) ->
    forall x, x ∈ <[i := <[j := e2]> l']> (detectors d) -> forall y, y ∈ x -> P y) as Hins.
  { intros P e2 He2 HP HP2 x Hx y Hy. apply list_elem_of_lookup in Hx as [k Hk]. destruct (decide (k = i)) as [->|Hki].
    - rewrite list_lookup_insert_eq in Hk by lia. injection Hk as <-.
      apply list_elem_of_lookup in Hy as [m Hm]. destruct (decide (m = j)) as [->|Hmj].
      + rewrite list_lookup_insert_eq in Hm by eauto using lookup_lt_Some. congruence.
      + rewrite list_lookup_insert_ne in Hm by done. eauto using list_elem_of_lookup_2.
    - rewrite list_lookup_insert_ne in Hk by done. eauto using list_elem_of_lookup_2. }
  set (d2 := d <| detectors ::= <[i := <[j := e']> l']> |>).
  assert (dpd_weak d2) as Hw.
  { split; [done|split; [done|]; cbn; now rewrite length_insert| | |cbn; now rewrite length_insert].
    - apply (Hins pulses_ok); [done|intros x Hx; exact (d_pulses _ _ (Hl' x Hx))|intros x Hx y Hy; exact (d_pulses _ _ (C x Hx y Hy))].
    - intros k x Hk Hx. cbn in Hk, Hx. rewrite list_lookup_insert_ne in Hx by lia. eauto. }
  destruct o as [s|].
  - left. destruct (dfs_reset_ok jiffies d2 p2 Hw) as (d3 & p3 & -> & H3 & A3 & R3 & T3). exists true, d3, p3.
    split; [done|]. split; [done|]. split; [|split; [exact R3|lia]]. intros Ha. rewrite A3. auto.
  - assert (dpd_ok d2) as H2.
    { destruct Hw as [W1 W2 _ W4 W5]. split; try done. exact (Hins (detector_ok (last_pulse_ts d)) e' (Ho eq_refl) Hl' C). }
    destruct (IH (S i) d2 p2 H2 ltac:(cbn; lia)) as [(hit & d3 & p3 & -> & H3 & A3 & R3)|[-> Hne]].
    + left. exists hit, d3, p3. split; [done|]. split; [done|]. split; [auto|exact R3].
    + right. split; [done|]. intros Ha. auto.
Qed.


End Facts.
