(* ===== verification/RadarProps.v ===== *)
(** The radar as a whole and the properties of [Radar.v].

    - [Sys]: the state of the radar is well formed ([radar_ok]) through every
      step, and a step fails only when an allocation failed ([outcome]).
    - [Props]: the properties. *)
From stdpp Require Import base list numbers option.
From Stdlib Require Import ZArith Lia.
From S2P Require Import Prelude Radar RadarFacts.

#[local] Open Scope Z_scope.
#[local] Open Scope aic_scope.

Module Sys.
Import Specs Pri Dfs Facts.

Definition ring_wf (q : rwnx_radar_pulses) : Prop :=
  length (buffer q) = RWNX_RADAR_PULSE_MAX /\ 0 <= index q < 32 /\ 0 <= pcount q <= 32.
Definition det_wf (x : rwnx_radar_detected) : Prop :=
  length (det_time x) = 4%nat /\ length (det_freq x) = 4%nat /\ 0 <= det_index x < 4.

(** The state is well formed, and the time stamps are below [T]. *)
Record radar_ok (T : Z) (r : rwnx_radar) : Prop := {
  ro_rings : length (rpulses r) = RWNX_RADAR_LAST /\ Forall ring_wf (rpulses r);
  ro_dpd : length (dpd r) = RWNX_RADAR_LAST /\
           Forall (fun o => exists d, o = Some d /\ dpd_ok d /\ last_pulse_ts d < T) (dpd r);
  ro_det : length (detected r) = RWNX_RADAR_LAST /\ Forall det_wf (detected r)
}.

(** An operation ends in a well formed state, or ran into the null pointer of an
    allocation that failed. *)
Definition outcome (T : Z) (r : rwnx_radar) (m : res rwnx_radar) : Prop :=
  (exists r', m = Ok r' /\ radar_ok T r' /\ (allocs (rpool r) = [] -> allocs (rpool r') = [])) \/
  (m = Fault NullDeref /\ allocs (rpool r) <> []).

Lemma radar_ok_mono T T' r : radar_ok T r -> T <= T' -> radar_ok T' r.
Proof.
  intros [A [B1 B2] C] Hle. split; try done. split; [done|]. eapply Forall_impl; [|exact B2].
  intros o (d & -> & H & Ht). exists d. split; [done|]. split; [done|lia].
Qed.

Lemma outcome_ok T r : radar_ok T r -> outcome T r (Ok r).
Proof. left. eauto. Qed.
Lemma outcome_mono T T' r m : outcome T r m -> T <= T' -> outcome T' r m.
Proof. intros [(r' & ? & ? & ?)|?] Hle; [|now right]. left. exists r'. eauto using radar_ok_mono. Qed.
Lemma outcome_bind T T' r m k : outcome T r m -> (forall r', radar_ok T r' -> outcome T' r' (k r')) ->
  outcome T' r (m ≫= k).
Proof.
  intros [(r' & -> & H & Ha)|[-> H]] Hk; [|now right]. destruct (Hk r' H) as [(r2 & E & H2 & Ha2)|[E H2]].
  - left. exists r2. split; [exact E|]. auto.
  - right. split; [exact E|]. auto.
Qed.

(** What the channel availability check leaves alone. *)
Definition same_data (r r' : rwnx_radar) : Prop :=
  rpulses r' = rpulses r /\ dpd r' = dpd r /\ detected r' = detected r /\ (allocs (rpool r) = [] -> allocs (rpool r') = []).
#[export] Instance same_data_refl : Reflexive same_data.
Proof. done. Qed.
#[export] Instance same_data_trans : Transitive same_data.
Proof. intros a b c (H1 & H2 & H3 & H4) (K1 & K2 & K3 & K4). split_and!; [congruence..|auto]. Qed.

Lemma radar_ok_same T r r' : same_data r r' -> radar_ok T r -> radar_ok T r'.
Proof. intros (E1 & E2 & E3 & _) [A B C]. split; now rewrite ?E1, ?E2, ?E3. Qed.
Lemma outcome_same T r r' : same_data r r' -> radar_ok T r -> outcome T r (Ok r').
Proof. left. exists r'. split; [done|]. split; [eauto using radar_ok_same|]. apply H. Qed.

Lemma stop_cac_same kc v r : same_data r (stop_cac_req kc v r).
Proof.
  unfold stop_cac_req. destruct (kmalloc (rpool r)) as [ok p] eqn:E. pose proof (allocs_kmalloc _ _ _ E) as Ha.
  destruct ok, (radar_or_ir kc); split_and!; try done; intros H; now destruct (Ha H).
Qed.
Lemma cac_work_same kc r : same_data r (rwnx_radar_cac_work kc r).
Proof.
  unfold rwnx_radar_cac_work. cbn [cac_vif]. destruct (cac_vif _); [|done].
  match goal with |- context [stop_cac_req kc ?n ?x] => pose proof (stop_cac_same kc n x) as H end.
  etransitivity; [|etransitivity; [exact H|]]; done.
Qed.
Lemma cancel_cac_same kc r : same_data r (rwnx_radar_cancel_cac kc r).
Proof.
  unfold rwnx_radar_cancel_cac. destruct (cac_vif r) as [v|]; [|done]. destruct (cac_pending r); [|done].
  match goal with |- context [stop_cac_req kc ?n ?x] => pose proof (stop_cac_same kc n x) as H end.
  etransitivity; [|etransitivity; [exact H|]]; done.
Qed.
Lemma detected_report_same kc r : same_data r (rwnx_radar_detected_report kc r).
Proof.
  unfold rwnx_radar_detected_report. destruct (cur_chan r); [|done].
  etransitivity; [apply cancel_cac_same|done].
Qed.
Lemma sta_status_same kc r : same_data r (sta_add_status kc r) /\ same_data r (sta_del_status kc r).
Proof.
  unfold sta_add_status, sta_del_status. destruct (radar_or_ir kc); cbn [negb]; [|done].
  split; repeat match goal with |- context [if ?b then _ else _] => destruct b end; done.
Qed.

(** ** One chain *)

Lemma get_dpd_ok T chain r : radar_ok T r -> (chain < 2)%nat ->
  exists d, get_dpd chain r = Ok d /\ dpd_ok d /\ last_pulse_ts d < T.
Proof.
  intros [_ [L H] _] Hc. unfold get_dpd. destruct (lookup_lt_is_Some_2 (dpd r) chain) as [o Ho]; [rewrite L; exact Hc|].
  rewrite Ho. pose proof (Forall_lookup_1 _ _ _ _ H Ho) as (d & -> & ?). exists d. done.
Qed.

Lemma set_dpd_ok T chain d r : radar_ok T r -> dpd_ok d -> last_pulse_ts d < T -> radar_ok T (set_dpd chain d r).
Proof.
  intros [A [L H] C] Hd Ht. split; try done. split; [cbn; now rewrite length_insert|].
  cbn. apply Forall_insert; eauto.
Qed.

Lemma enable_ok T e chain r : radar_ok T r -> outcome T r (rwnx_radar_detection_enable e chain r).
Proof.
  intros H. unfold rwnx_radar_detection_enable. destruct (Nat.ltb_spec chain RWNX_RADAR_LAST); [|now apply outcome_ok].
  destruct (get_dpd_ok T chain r H) as (d & -> & Hd & Ht); [done|]. left. eexists. split; [reflexivity|]. split; [|done].
  apply set_dpd_ok; [done| |done]. destruct Hd as [A B C D E F]. by split.
Qed.

Lemma exit_types_nil : forall n ll p, let ll' := (exit_types n ll p).1 in
  length ll' = length ll /\ (allocs (exit_types n ll p).2 = allocs p) /\
  ((forall i l, (n <= i)%nat -> ll !! i = Some l -> l = []) -> Forall (fun l => l = []) ll').
Proof.
  assert (forall l p, allocs (fold_left (fun p d => pri_detector_exit d p) l p) = allocs p) as Hf.
  { induction l as [|d l IH]; intros p; [done|]. cbn [fold_left]. rewrite IH. unfold pri_detector_exit, pool_deregister_ref.
    match goal with |- context [if ?b then _ else _] => destruct b end; done. }
  induction n as [|n IH]; intros [|l ll] p; cbn [exit_types]; cbn zeta; cbn [fst snd]; try (split_and!; [done..|]).
  - constructor.
  - intros H. apply Forall_lookup_2. intros i x Hx. apply (H i); [lia|done].
  - constructor.
  - specialize (IH ll (fold_left (fun p d => pri_detector_exit d p) l p)). cbn zeta in IH.
    destruct (exit_types n ll _) as [ll2 p2]. cbn [fst snd] in *. destruct IH as (H1 & H2 & H3).
    split; [cbn; lia|]. split; [now rewrite H2, Hf|]. intros Hr. constructor; [done|]. apply H3.
    intros i x Hi. apply (Hr (S i)). lia.
Qed.

Lemma domain_specs reg rt : get_dfs_domain_radar_types reg = Some rt ->
  (num_radar_types rt <= length (spec_riu rt) /\ num_radar_types rt <= length (spec_fcu rt) /\
   num_radar_types rt <= get_dfs_max_radar_types)%nat /\
  (forall r, r ∈ spec_riu rt -> r ∈ all_specs) /\ (forall r, r ∈ spec_fcu rt -> r ∈ all_specs).
Proof.
  unfold get_dfs_domain_radar_types. intros E. apply find_some in E as [Hin _].
  split; [destruct Hin as [<-|[<-|[<-|[]]]]; cbn; lia|].
  apply list_elem_of_In in Hin.
  split; intros r Hr; apply list_elem_of_bind; exists rt; split; try done; apply elem_of_app; tauto.
Qed.

Lemma set_domain_dpd_ok reg chain d p : dpd_ok d -> exists ok d' p',
  dfs_pattern_detector_set_domain reg chain d p = (ok, d', p') /\ dpd_ok d' /\ allocs p' = allocs p /\
  last_pulse_ts d' = last_pulse_ts d.
Proof.
  intros [A B C D E F]. unfold dfs_pattern_detector_set_domain. destruct (decide (region d = reg)).
  { eexists _, _, _. split; [reflexivity|]. split; [by split|done]. }
  cbn zeta. destruct (get_dfs_domain_radar_types reg) as [rt|] eqn:Er.
  2:{ eexists _, _, _. split; [reflexivity|]. split; [by split|done]. }
  destruct (domain_specs reg rt Er) as ((N1 & N2 & N3) & S1 & S2).
  match goal with |- context [exit_types ?n ?ll p] => pose proof (exit_types_nil n ll p) as H; cbn zeta in H;
    destruct (exit_types n ll p) as [ll' p'] end.
  cbn [fst snd] in H. destruct H as (H1 & H2 & H3). specialize (H3 D).
  eexists _, _, _. split; [reflexivity|]. split; [|done].
  assert (forall l : list pri_detector, l ∈ ll' -> l = []) as Hnil.
  { intros l Hl. apply list_elem_of_In in Hl. rewrite List.Forall_forall in H3. auto. }
  split.
  - destruct (decide (chain = RWNX_RADAR_RIU)); cbn; auto.
  - assert (num_radar_types rt <= length ll')%nat by (rewrite H1; change (num_radar_types rt <= length (detectors d))%nat; lia).
    destruct (decide (chain = RWNX_RADAR_RIU)); cbn; auto.
  - intros l Hl e He. cbn in Hl. rewrite (Hnil l Hl) in He. now apply not_elem_of_nil in He.
  - intros i l _ Hl. apply Hnil. cbn in Hl. eauto using list_elem_of_lookup_2.
  - done.
  - exact (eq_trans H1 F).
Qed.


(** ** Pulses *)

Lemma ring_put_wf w q : ring_wf q -> ring_wf (ring_put w q).
Proof.
  intros (A & B & C). unfold ring_put, ring_wf. change (Z.of_nat RWNX_RADAR_PULSE_MAX) with 32. cbn.
  split; [now rewrite length_insert|]. split; [apply Z.mod_pos_bound; lia|].
  destruct (Z.ltb_spec (pcount q) 32); lia.
Qed.

(** The words are put one after the other. *)
Lemma put_words pulse : forall n k q, (k + n <= length pulse)%nat ->
  foldM (fun i q => w ← from_option_res OutOfBounds (pulse !! i); Ok (ring_put w q)) (seq k n) q =
  Ok (fold_left (fun q w => ring_put w q) (take n (drop k pulse)) q).
Proof.
  induction n as [|n IH]; intros k q Hn; [done|]. cbn [seq foldM].
  destruct (lookup_lt_is_Some_2 pulse k) as [w Hw]; [lia|]. rewrite Hw. cbn [from_option_res mbind res_bind].
  rewrite (drop_S _ w k Hw). cbn [take fold_left]. apply IH. lia.
Qed.

Lemma puts_wf ws : forall q, ring_wf q -> ring_wf (fold_left (fun q w => ring_put w q) ws q).
Proof. induction ws as [|w ws IH]; intros q H; [done|]. cbn. apply IH. now apply ring_put_wf. Qed.

Lemma puts_ring_ok ws : forall ws0 q, ring_ok ws0 q ->
  let q' := fold_left (fun q w => ring_put w q) ws q in
  ring_ok (ws0 ++ ws) q' /\ pcount q' = Z.min 32 (pcount q + Z.of_nat (length ws)).
Proof.
  induction ws as [|w ws IH]; intros ws0 q H; cbn zeta; cbn [fold_left length].
  - rewrite app_nil_r. split; [done|]. destruct H as (_ & H & _). lia.
  - destruct (ring_put_ok ws0 q w H) as [H1 C1]. destruct (IH _ _ H1) as [H2 C2]. cbn zeta in *.
    rewrite <- app_assoc in H2. split; [exact H2|]. rewrite C2, C1. destruct H as (_ & H & _). lia.
Qed.

(** A report of [cnt] pulses of a chain whose detection is on. *)
Lemma detect_ind_on pulse chain cnt r d q : (chain < 2)%nat -> 0 < cnt <= Z.of_nat (length pulse) ->
  dpd r !! chain = Some (Some d) -> enabled d <> RWNX_RADAR_DETECT_DISABLE -> rpulses r !! chain = Some q ->
  rwnx_radar_detect_ind pulse (Z.of_nat chain) cnt r =
  Ok (0, log EvWorkScheduled
    (r <| rpulses ::= <[chain := fold_left (fun q w => ring_put w q) (take (Z.to_nat cnt) pulse) q]> |>)).
Proof.
  intros Hc Hn Hd He Hq. unfold rwnx_radar_detect_ind. destruct (Z.eqb_spec cnt 0); [lia|].
  rewrite Nat2Z.id. unfold rwnx_radar_detection_is_enable, get_dpd. rewrite Hd. cbn [from_option_res mbind res_bind].
  destruct (Z.eqb_spec (enabled d) RWNX_RADAR_DETECT_DISABLE); [done|]. cbn [negb].
  rewrite Hq. cbn [from_option_res mbind res_bind]. rewrite put_words by lia. done.
Qed.

Lemma detect_ind_ok T pulse idx cnt r : radar_ok T r -> 0 <= idx < 2 -> 0 <= cnt <= Z.of_nat (length pulse) ->
  outcome T r (snd <$> rwnx_radar_detect_ind pulse idx cnt r).
Proof.
  intros H Hi Hc. destruct (Z.eq_dec cnt 0) as [->|].
  { exact (outcome_ok T r H). }
  destruct (get_dpd_ok T (Z.to_nat idx) r H ltac:(lia)) as (d & Ed & _ & _).
  assert (dpd r !! Z.to_nat idx = Some (Some d)) as Hd.
  { unfold get_dpd in Ed. destruct (dpd r !! Z.to_nat idx) as [[x|]|]; [|done..]. cbn in Ed. congruence. }
  pose proof H as [[L F] _ _].
  destruct (lookup_lt_is_Some_2 (rpulses r) (Z.to_nat idx)) as [q Hq]; [rewrite L; unfold RWNX_RADAR_LAST; lia|].
  destruct (Z.eq_dec (enabled d) RWNX_RADAR_DETECT_DISABLE) as [E0|Hne].
  - replace (rwnx_radar_detect_ind pulse idx cnt r) with (Ok (0, r) : res (Z * rwnx_radar)); [now apply outcome_ok|].
    unfold rwnx_radar_detect_ind, rwnx_radar_detection_is_enable. destruct (Z.eqb_spec cnt 0); [done|].
    rewrite Ed. cbn. now rewrite E0.
  - rewrite <- (Z2Nat.id idx) by lia. rewrite (detect_ind_on pulse (Z.to_nat idx) cnt r d q); try done; try lia.
    left. eexists. split; [reflexivity|]. split; [|done]. destruct H as [_ B C]. split; try done. cbn.
    split; [now rewrite length_insert|]. apply Forall_insert; [done|]. apply puts_wf.
    now apply (Forall_lookup_1 _ _ _ _ F Hq).
Qed.

Lemma found_ok T kc chain f w time r : radar_ok T r -> (chain < 2)%nat -> outcome T r (found kc chain f w time r).
Proof.
  intros H Hc. unfold found. pose proof H as [_ _ [L F]].
  destruct (lookup_lt_is_Some_2 (detected r) chain) as [det Hdet]; [rewrite L; exact Hc|].
  rewrite Hdet. cbn [from_option_res mbind res_bind]. destruct (Forall_lookup_1 _ _ _ _ F Hdet) as (D1 & D2 & D3).
  eapply outcome_bind with (T := T).
  - destruct (decide _) as [->|]; [|now apply outcome_ok].
    destruct (get_dpd_ok T RWNX_RADAR_RIU r H Hc) as (d & -> & _ & _). cbn [mbind res_bind].
    destruct (_ =? _); [|now apply outcome_ok].
    pose proof (detected_report_same kc r) as Hs. pose proof (radar_ok_same T _ _ Hs H) as H1.
    destruct (enable_ok T RWNX_RADAR_DETECT_DISABLE RWNX_RADAR_RIU _ H1) as [(r2 & -> & H2 & A2)|[-> Ha]].
    + left. eexists. split; [reflexivity|]. split; [|intros Ha; apply A2; now apply Hs].
      destruct H2 as [[L2 F2] B C]. split; try done. cbn. split; [now rewrite length_alter|].
      apply Forall_alter; [done|]. intros q _ (Q1 & Q2 & Q3). split_and!; try done; cbn; lia.
    + right. split; [done|]. intros E. apply Ha. now apply Hs.
  - intros r1 H1. left. eexists. split; [reflexivity|]. split; [|done].
    destruct H1 as [A B [L1 F1]]. split; try done. cbn. split; [now rewrite length_insert|].
    apply Forall_insert; [done|]. unfold det_wf. cbn. rewrite !length_insert. split; [done|]. split; [done|].
    apply Z.mod_pos_bound. unfold NX_NB_RADAR_DETECTED. lia.
Qed.

Section WithJiffies.
Context (jtu : Z -> Z) (Hjtu : forall j, 0 <= jtu j < 2 ^ 32).

Lemma add_pulse_dpd_ok jiffies f pri len now d p : dpd_ok d -> 0 <= pri < 65536 -> last_pulse_ts d < 2 ^ 63 ->
  (exists hit d' p', dfs_pattern_detector_add_pulse jtu jiffies f pri len now d p = Ok (hit, d', p') /\ dpd_ok d' /\
     (allocs p = [] -> allocs p' = []) /\ last_pulse_ts d' <= last_pulse_ts d + 2 ^ 32) \/
  (dfs_pattern_detector_add_pulse jtu jiffies f pri len now d p = Fault NullDeref /\ allocs p <> []).
Proof.
  intros H Hp Ht. unfold dfs_pattern_detector_add_pulse. destruct (decide _).
  { left. eexists _, _, _. split; [reflexivity|]. split; [done|]. split; [done|lia]. }
  destruct (pulse_time_ok jtu pri now d p H Hjtu Hp Ht) as (d1 & p1 & -> & H1 & A1 & R1 & T1).
  destruct (types_loop_ok jiffies f len (dpd_num_types d1) 0 d1 p1 H1 ltac:(lia)) as [(hit & d2 & p2 & E & H2 & A2 & R2 & T2)|[E Ha]].
  - left. exists hit, d2, p2. split; [exact E|]. split; [done|]. split; [|lia]. intros Ha. apply A2. congruence.
  - right. split; [exact E|]. congruence.
Qed.

Lemma pulses_loop_ok kc chain f now time : (chain < 2)%nat -> forall l T r, radar_ok T r ->
  T + Z.of_nat (length l) * 2 ^ 32 <= 2 ^ 63 ->
  outcome (T + Z.of_nat (length l) * 2 ^ 32) r (pulses_loop jtu kc chain f now time l r).
Proof.
  intros Hc. induction l as [|w l IH]; intros T r H HT.
  { cbn [pulses_loop length]. apply outcome_ok. eapply radar_ok_mono; [exact H|lia]. }
  cbn [pulses_loop]. cbn [length] in *.
  destruct (_ && _); [apply outcome_ok; eapply radar_ok_mono; [exact H|lia]|].
  destruct (get_dpd_ok T chain r H Hc) as (d & -> & Hd & Htd). cbn [mbind res_bind].
  destruct (add_pulse_dpd_ok now (u16 (s16 f + 2 * pulse_freq w)) (pulse_rep w) (pulse_len w * 2) now d (rpool r) Hd)
    as [(hit & d' & p' & -> & Hd' & A' & T')|[-> Ha]]; [apply Z.mod_pos_bound; lia|lia| |right; done].
  cbn [mbind res_bind]. set (r1 := set_dpd chain d' r <| rpool := p' |>).
  assert (radar_ok (T + 2 ^ 32) r1) as H1.
  { assert (radar_ok (T + 2 ^ 32) (set_dpd chain d' r)) as [A B C].
    { apply set_dpd_ok; [eapply radar_ok_mono; [exact H|lia]|done|lia]. }
    by split. }
  assert (outcome (T + Z.of_nat (S (length l)) * 2 ^ 32) r1
    (if hit then found kc chain f w time r1 else pulses_loop jtu kc chain f now time l r1)) as [(r2 & E & H2 & A2)|[E Ha]].
  { destruct hit.
    - eapply outcome_mono; [exact (found_ok _ kc chain f w time r1 H1 Hc)|lia].
    - eapply outcome_mono; [apply IH; [exact H1|lia]|lia]. }
  - left. exists r2. split; [exact E|]. split; [done|]. intros Ha. apply A2, A', Ha.
  - right. split; [exact E|]. intros E2. apply Ha, A', E2.
Qed.

Lemma ring_copy_length q : ring_wf q -> (length (ring_copy q) <= 32)%nat.
Proof.
  intros (A & B & C). unfold ring_copy. change (Z.of_nat RWNX_RADAR_PULSE_MAX) with 32.
  set (st := if _ <? 0 then _ else _). assert (0 <= st < 32) by (unfold st; destruct (Z.ltb_spec (index q - pcount q) 0); lia).
  destruct (Z.ltb_spec 32 (st + pcount q)).
  - rewrite length_app, !length_take. lia.
  - rewrite length_take. lia.
Qed.

Lemma process_pulse_ok kc jiffies time r : radar_ok (2 ^ 62) r ->
  outcome (2 ^ 63) r (rwnx_radar_process_pulse jtu kc jiffies time r).
Proof.
  intros H. unfold rwnx_radar_process_pulse. set (copies := ring_copy <$> rpulses r).
  assert (forall chain, (length (default [] (copies !! chain)) <= 32)%nat) as Hlen.
  { intros chain. unfold copies. rewrite list_lookup_fmap. destruct (rpulses r !! chain) as [q|] eqn:E; [|cbn; lia].
    cbn. apply ring_copy_length. destruct H as [[_ F] _ _]. exact (Forall_lookup_1 _ _ _ _ F E). }
  set (r1 := r <| rpulses ::= fmap (fun q => q <| pcount := 0 |>) |>).
  assert (radar_ok (2 ^ 62) r1) as H1.
  { destruct H as [[L F] B C]. split; try done. cbn. split; [now rewrite length_fmap|].
    apply Forall_fmap. eapply Forall_impl; [|exact F]. intros q (Q1 & Q2 & Q3). split_and!; try done; cbn; lia. }
  assert (forall chain T r, (chain < 2)%nat -> radar_ok T r -> T + 32 * 2 ^ 32 <= 2 ^ 63 ->
    outcome (T + 32 * 2 ^ 32) r (match default [] (copies !! chain) with [] => Ok r
      | _ => pulses_loop jtu kc chain (rwnx_radar_get_center_freq chain r) (u32 jiffies) time (default [] (copies !! chain)) r end))
    as Hone.
  { intros chain T x Hc Hx HT. specialize (Hlen chain). destruct (default [] (copies !! chain)) as [|w l] eqn:El.
    - apply outcome_ok. eapply radar_ok_mono; [exact Hx|lia].
    - eapply outcome_mono; [apply pulses_loop_ok; [done|exact Hx|lia]|lia]. }
  change (outcome (2 ^ 63) r1 (foldM (fun chain r => match default [] (copies !! chain) with [] => Ok r
    | _ => pulses_loop jtu kc chain (rwnx_radar_get_center_freq chain r) (u32 jiffies) time (default [] (copies !! chain)) r end)
    [RWNX_RADAR_RIU; RWNX_RADAR_FCU] r1)).
  cbn [foldM]. eapply outcome_bind; [apply (Hone _ (2 ^ 62)); [unfold RWNX_RADAR_RIU; lia|exact H1|lia]|]. intros r2 H2.
  eapply outcome_mono; [|shelve]. eapply outcome_bind; [apply Hone; [unfold RWNX_RADAR_FCU; lia|exact H2|lia]|].
  intros r3 H3. apply outcome_ok. exact H3.
  Unshelve. lia.
Qed.

Lemma set_domain1_ok T reg chain r : radar_ok T r -> (chain < 2)%nat -> exists ok r',
  set_domain1 reg chain r = Ok (ok, r') /\ radar_ok T r' /\ allocs (rpool r') = allocs (rpool r).
Proof.
  intros H Hc. unfold set_domain1. destruct (get_dpd_ok T chain r H Hc) as (d & -> & Hd & Ht). cbn [mbind res_bind].
  destruct (set_domain_dpd_ok reg chain d (rpool r) Hd) as (ok & d' & p' & -> & Hd' & A & T').
  eexists _, _. split; [reflexivity|]. split; [|exact A].
  assert (radar_ok T (set_dpd chain d' r)) as [X Y Z]; [|by split]. apply set_dpd_ok; [done|done|lia].
Qed.

Lemma set_domain_ok T reg r : radar_ok T r -> outcome T r (snd <$> rwnx_radar_set_domain reg r).
Proof.
  intros H. unfold rwnx_radar_set_domain. destruct (dpd r !! RWNX_RADAR_RIU) as [[d|]|]; try now apply outcome_ok.
  destruct (set_domain1_ok T reg RWNX_RADAR_RIU r H) as (ok & r1 & -> & H1 & A1); [unfold RWNX_RADAR_RIU; lia|].
  cbn [mbind res_bind]. destruct ok.
  - destruct (set_domain1_ok T reg RWNX_RADAR_FCU r1 H1) as (ok & r2 & -> & H2 & A2); [unfold RWNX_RADAR_FCU; lia|].
    left. eexists. split; [reflexivity|]. split; [exact H2|]. cbn. congruence.
  - left. eexists. split; [reflexivity|]. split; [exact H1|]. cbn. congruence.
Qed.

(** ** Runs *)

(** The conditions under which an operation is called: what the firmware
    reports is within the message, and the clock of a chain, a count of
    microseconds since its last detection, is not near its 64 bits. *)
Definition op_ok (o : op) (r : rwnx_radar) : Prop :=
  match o with
  | OpDetectInd pulse idx cnt => 0 <= idx < 2 /\ 0 <= cnt <= Z.of_nat (length pulse)
  | OpWork _ _ => Forall (fun o => match o with Some d => last_pulse_ts d < 2 ^ 62 | None => True end) (dpd r)
  | _ => True
  end.

Lemma radar_ok_clock T r : radar_ok T r -> op_ok (OpWork 0 0) r -> radar_ok (2 ^ 62) r.
Proof.
  intros [A [L F] C] H. split; try done. split; [done|]. cbn in H. apply Forall_lookup_2. intros i o Ho.
  destruct (Forall_lookup_1 _ _ _ _ F Ho) as (d & -> & Hd & _). exists d. split; [done|]. split; [done|].
  exact (Forall_lookup_1 _ _ _ _ H Ho).
Qed.

Lemma step_outcome kc o T r : radar_ok T r -> op_ok o r -> exists T', outcome T' r (step jtu kc o r).
Proof.
  intros H Ho. destruct o; cbn [step op_ok] in *; try (exists T; first [now apply outcome_ok|now apply outcome_same]).
  - exists T. now apply detect_ind_ok.
  - exists (2 ^ 63). apply process_pulse_ok. eapply radar_ok_clock; eauto.
  - exists T. now apply set_domain_ok.
  - exists T. now apply enable_ok.
  - exists T. unfold rwnx_radar_detection_enable_on_cur_channel. destruct (cur_chan r) as [c|]; [|now apply outcome_ok].
    destruct (chan_radar c); now apply enable_ok.
  - exists T. apply outcome_same; [|done]. unfold start_cac_req. destruct (radar_or_ir kc); done.
  - exists T. apply outcome_same; [|done]. destruct (cac_pending r); [apply cac_work_same|done].
  - exists T. apply outcome_same; [|done]. apply cancel_cac_same.
  - exists T. apply outcome_same; [|done]. apply sta_status_same.
  - exists T. apply outcome_same; [|done]. apply sta_status_same.
Qed.

(** The structure as [rwnx_hw] is allocated: all zero. *)
Definition zero_radar (allocs : list bool) : rwnx_radar :=
  mk_radar (replicate 2 (mk_pulses 0 0 (replicate 32 0))) [None; None]
    (replicate 2 (mk_detected 0 0 (replicate 4 0) (replicate 4 0))) RWNX_RADAR_IDLE 0 None false None 0
    (mk_pool 0 0 0 allocs) [].

Lemma init_dpd_ok jiffies chain p d p' : dfs_pattern_detector_init jiffies NL80211_DFS_UNSET chain p = (Some d, p') ->
  dpd_ok d /\ last_pulse_ts d = 0.
Proof.
  unfold dfs_pattern_detector_init. destruct (kmalloc p) as [[] p1]; [|done]. cbn. intros [= <- _]. split; [|done].
  assert (forall l, l ∈ replicate 8 ([] : list pri_detector) -> l = []) as Hn.
  { intros l Hl. now apply elem_of_replicate in Hl as [-> _]. }
  split; cbn [radar_spec dpd_num_types detectors last_pulse_ts]; try done.
  - intros r Hr. now apply not_elem_of_nil in Hr.
  - split; cbn; lia.
  - intros l Hl e He. rewrite (Hn l Hl) in He. now apply not_elem_of_nil in He.
  - intros i l _ Hl. eauto using list_elem_of_lookup_2.
Qed.

Lemma init_ok jiffies al r : rwnx_radar_detection_init jiffies (zero_radar al) = (true, r) -> radar_ok 1 r.
Proof.
  unfold rwnx_radar_detection_init. cbn zeta.
  destruct (dfs_pattern_detector_init jiffies NL80211_DFS_UNSET RWNX_RADAR_RIU _) as [[d1|] p1] eqn:E1; [|done].
  cbn zeta. destruct (dfs_pattern_detector_init jiffies NL80211_DFS_UNSET RWNX_RADAR_FCU _) as [[d2|] p2] eqn:E2; [|done].
  intros [= <-]. destruct (init_dpd_ok _ _ _ _ _ E1) as [H1 T1], (init_dpd_ok _ _ _ _ _ E2) as [H2 T2]. split; cbn.
  - split; [done|]. repeat constructor; cbn; lia.
  - split; [done|]. repeat constructor; eexists; (split; [reflexivity|]); split; try done; lia.
  - split; [done|]. repeat constructor; cbn; lia.
Qed.

(** The states the radar can be in. *)
Inductive reachable (kc : kconfig) : rwnx_radar -> Prop :=
| reach_init jiffies al r : rwnx_radar_detection_init jiffies (zero_radar al) = (true, r) -> reachable kc r
| reach_step o r r' : reachable kc r -> op_ok o r -> step jtu kc o r = Ok r' -> reachable kc r'.

Lemma reachable_ok kc r : reachable kc r -> exists T, radar_ok T r.
Proof.
  induction 1 as [jiffies al r E|o r r' _ [T IH] Ho E]; [exists 1; eapply init_ok; eauto|].
  destruct (step_outcome kc o T r IH Ho) as [T' [(r2 & E2 & H2 & _)|[E2 _]]]; rewrite E in E2; [|done].
  injection E2 as <-. eauto.
Qed.

End WithJiffies.
End Sys.


Module Props.
Import Specs Pri Dfs Facts Sys.

(** The multiple of [fraction] nearest to [val]. *)
Definition nearest (val fraction : Z) : Z := (2 * val + fraction) / (2 * fraction).

(** [pde_get_multiple] finds the multiple of the interval that a time
    difference is within tolerance of, if there is one: its answer is a
    multiple within tolerance, 0 means that none is, and for tolerances below
    half the interval it is the nearest multiple. *)
Theorem pde_get_multiple_spec val fraction tol (Hv : 0 <= val < 2 ^ 32) (Hf : 0 < fraction) (Ht : 0 <= tol) :
  let f := pde_get_multiple val fraction tol in
  (0 < f -> Z.abs (val - f * fraction) <= tol) /\
  (f = 0 <-> forall k, 0 < k -> tol < Z.abs (val - k * fraction)) /\
  (2 * tol < fraction ->
     f = let k := nearest val fraction in if (0 <? k) && (Z.abs (val - k * fraction) <=? tol) then k else 0).
Proof.
  cbn zeta. pose proof (Z.div_mod val fraction ltac:(lia)) as E. pose proof (Z.mod_pos_bound val fraction Hf) as Hr.
  assert (0 <= val / fraction) as Hq by (apply Z.div_pos; lia).
  assert (nearest val fraction = if 2 * (val mod fraction) <? fraction then val / fraction else val / fraction + 1) as En.
  { unfold nearest. symmetry. destruct (Z.ltb_spec (2 * (val mod fraction)) fraction);
      (apply Z.div_unique with (r := 2 * val + fraction - 2 * fraction * (if 2 * (val mod fraction) <? fraction then val / fraction else val / fraction + 1)));
      destruct (Z.ltb_spec (2 * (val mod fraction)) fraction); try lia; nia. }
  pose proof (pde_get_multiple_cases val fraction tol Hv Hf Ht) as Hc. cbn zeta in Hc.
  set (q := val / fraction) in *. set (r := val mod fraction) in *. set (f := pde_get_multiple val fraction tol) in *.
  clearbody q r f. rewrite En. clear En. subst val.
  split; [|split].
  - intros Hpos. destruct Hc as [[-> H1]|[H [[-> H2]|[(-> & H2 & H3)|(-> & _)]]]]; [|nia..|lia].
    rewrite Z.mul_1_l. done.
  - split.
    + intros Hz k Hk. destruct Hc as [[F1 H0]|[H [[Hf0 H2]|[(F1 & H2 & H3)|(_ & H2 & H3)]]]]; [lia| |lia|].
      * assert (q = 0) as -> by lia. nia.
      * destruct (Z.lt_ge_cases q k); nia.
    + intros Hall. destruct Hc as [[F1 H0]|[H [[Hf0 H2]|[(Hf0 & H2 & H3)|(Hf0 & H2 & H3)]]]]; [| | |lia].
      * specialize (Hall 1 ltac:(lia)). rewrite Z.mul_1_l in Hall. lia.
      * destruct (Z.eq_dec q 0); [lia|]. specialize (Hall q ltac:(lia)). nia.
      * specialize (Hall (q + 1) ltac:(lia)). nia.
  - intros Hsmall. replace (fraction * q + r - fraction) with (fraction * (q - 1) + r) in Hc by lia.
    assert ((q = 0 /\ fraction * (q - 1) = - fraction) \/ (q = 1 /\ fraction * (q - 1) = 0) \/
            (1 < q /\ fraction <= fraction * (q - 1))) as Hcase.
    { destruct (Z.eq_dec q 0) as [->|]; [left; lia|]. destruct (Z.eq_dec q 1) as [->|]; [right; left; lia|right; right; nia]. }
    set (m := fraction * (q - 1)) in *. clearbody m.
    destruct (Z.ltb_spec (2 * r) fraction) as [Hlt|Hge].
    + replace (fraction * q + r - q * fraction) with r by lia. rewrite Z.abs_eq by lia.
      destruct (Z.ltb_spec 0 q) as [Hq0|Hq0]; cbn [andb]; [destruct (Z.leb_spec r tol)|]; lia.
    + replace (fraction * q + r - (q + 1) * fraction) with (- (fraction - r)) by lia.
      rewrite Z.abs_opp, Z.abs_eq by lia.
      replace (0 <? q + 1) with true by (symmetry; apply Z.ltb_lt; lia). cbn [andb].
      destruct (Z.leb_spec (fraction - r) tol); lia.
Qed.

(** C12. Every radar type of every domain, other than the long one, is found in a
    clean burst of its kind: whatever the repetition interval the type allows,
    a fresh detector reports the sequence at exactly the pulse that reaches the
    type's threshold, and not before. *)
Theorem clean_burst_detected r pri t0 f n p (Hr : r ∈ all_specs) (Hl : is_long r = false)
  (Hp : pri_min r <= pri <= pri_max r) (Ht : 0 <= t0 < 2 ^ 63) (Ha : allocs p = [])
  (Hn : sequence_thresh r pri <= Z.of_nat n) :
  exists s, feed n 1 t0 pri (new_detector r f) p = Ok (Some (sequence_thresh r pri, s)) /\
    Pri.pri s = pri /\ count s = sequence_thresh r pri /\ count_falses s = 0.
Proof.
  pose proof (all_specs_burst r Hr Hl) as Hb. pose proof (burst_spec_facts r pri Hb Hp) as B.
  assert (max_pri_tolerance r < 256) as Ht8.
  { unfold burst_spec in Hb. clear -Hr. assert (forallb (fun r => max_pri_tolerance r <? 256) all_specs = true) as H by reflexivity.
    rewrite forallb_forall in H. apply list_elem_of_In in Hr. specialize (H r Hr). lia. }
  assert (pulses_ok (new_detector r f)) as Hok.
  { unfold new_detector. rewrite Hl. pose proof (b_ppb _ _ B). split; cbn; try done.
    - rewrite wrapU_small; lia.
    - constructor.
    - apply wrapU_bound. lia. }
  destruct n as [|n]; [pose proof (b_thresh _ _ B); lia|]. cbn [feed]. unfold add_pulse.
  assert (rs (new_detector r f) = r) as Er by (unfold new_detector; now rewrite Hl).
  rewrite Er, Hl.
  destruct (burst_first r pri t0 (new_detector r f) p B Er Hok) as (d' & p' & E & T & A'); try done;
    [unfold new_detector; now rewrite Hl..|].
  rewrite E. cbn [mbind res_bind].
  destruct (feed_tracking r pri t0 B Hp Ht8 Ht n 1 d' p') as (s & E2 & (H1 & H2 & H3 & _)); [pose proof (b_thresh _ _ B); lia|done|done|lia|].
  rewrite Z.mul_1_l in E2. exists s. change (1 + 1) with (1 + 1) in E2. rewrite E2. done.
Qed.

(** A burst of the first European type, as the detector of a chain sees it. *)
Lemma clean_burst_detected_witness :
  let r := ETSI_PATTERN_SHORT 0 0 8 700 700 18 in
  exists s, feed 18 1 1000 1429 (new_detector r 5500) (mk_pool 1 0 0 []) = Ok (Some (9, s)) /\
    Pri.pri s = 1429 /\ count s = 9 /\ count_falses s = 0.
Proof.
  cbn zeta.
  refine (clean_burst_detected (ETSI_PATTERN_SHORT 0 0 8 700 700 18) 1429 1000 5500 18 (mk_pool 1 0 0 []) _ _ _ _ _ _).
  - apply list_elem_of_In. vm_compute. now left.
  - reflexivity.
  - vm_compute. split; discriminate.
  - split; [discriminate|reflexivity].
  - reflexivity.
  - vm_compute. discriminate.
Defined.

Lemma pde_get_multiple_spec_witness :
  pde_get_multiple 2870 1429 16 = 2 /\
  (2 * 16 < 1429 -> 2 = let k := nearest 2870 1429 in if (0 <? k) && (Z.abs (2870 - k * 1429) <=? 16) then k else 0).
Proof.
  split; [reflexivity|].
  refine (proj2 (proj2 (pde_get_multiple_spec 2870 1429 16 _ _ _))); [split; [discriminate|reflexivity]|reflexivity|discriminate].
Defined.


(** The driver as built with radar detection, after its start. *)
Definition started : rwnx_radar := (rwnx_radar_detection_init 100 (zero_radar [])).2.
Definition hz1000 (j : Z) : Z := (j * 1000) mod 2 ^ 32.

Lemma started_reachable kc : reachable hz1000 kc started.
Proof. apply (reach_init _ _ 100 []). reflexivity. Qed.


Definition quiet (r : rwnx_radar) : Prop :=
  rstatus r = RWNX_RADAR_IDLE /\ detected r = detected (zero_radar []) /\ forall f, EvRadar f ∉ rev r.

Lemma quiet_log e r : quiet r -> (forall f, e <> EvRadar f) -> quiet (log e r).
Proof.
  intros (A & B & C) He. split; [exact A|]. split; [exact B|]. intros f. cbn. rewrite elem_of_app, list_elem_of_singleton.
  intros [H|H]; [now apply (C f)|now apply (He f)].
Qed.

Lemma quiet_stop_cac kc v r : radar_or_ir kc = false -> quiet r -> quiet (stop_cac_req kc v r).
Proof.
  intros Hk H. unfold stop_cac_req. rewrite Hk. destruct (kmalloc (rpool r)) as [[] p]; [|exact H]. now apply quiet_log.
Qed.

Lemma quiet_process jtu kc jiffies time r r' : quiet r -> rwnx_radar_process_pulse jtu kc jiffies time r = Ok r' -> quiet r'.
Proof.
  intros H. unfold rwnx_radar_process_pulse. set (r1 := r <| rpulses ::= _ |>). assert (quiet r1) as H1 by exact H.
  clearbody r1. generalize (ring_copy <$> rpulses r). intros copies. revert r1 H1.
  induction [RWNX_RADAR_RIU; RWNX_RADAR_FCU] as [|chain l IH]; intros r1 H1; cbn [foldM]; [now intros [= <-]|].
  assert (forall l f, pulses_loop jtu kc chain f (u32 jiffies) time l r1 = Ok r1) as Hl.
  { intros [|w ws] f; [done|]. cbn [pulses_loop]. destruct H1 as (-> & _ & _). done. }
  replace (match default [] (copies !! chain) with [] => Ok r1 | _ :: _ => _ end) with (Ok r1).
  - cbn [mbind res_bind]. now apply IH.
  - destruct (default [] (copies !! chain)); [done|]. now rewrite Hl.
Qed.

Lemma quiet_step jtu kc o r r' : radar_or_ir kc = false -> quiet r -> step jtu kc o r = Ok r' -> quiet r'.
Proof.
  intros Hk H. destruct o as [pulse idx cnt|jiffies time|reg|e chain| | |v| | | | |c s]; cbn [step].
  - unfold rwnx_radar_detect_ind. destruct (cnt =? 0); [now intros [= <-]|].
    destruct (rwnx_radar_detection_is_enable _ r) as [[]|]; cbn [mbind res_bind]; [|now intros [= <-]|done].
    destruct (from_option_res _ (rpulses r !! _)); [|done]. cbn [mbind res_bind].
    destruct (foldM _ _ _); [|done]. intros [= <-]. now apply quiet_log.
  - now apply quiet_process.
  - unfold rwnx_radar_set_domain, set_domain1. destruct (dpd r !! RWNX_RADAR_RIU) as [[d|]|]; try now intros [= <-].
    destruct (get_dpd RWNX_RADAR_RIU r); [|done]. cbn [mbind res_bind].
    destruct (dfs_pattern_detector_set_domain _ _ _ _) as [[[] d1] p1]; cbn [mbind res_bind]; [|now intros [= <-]].
    destruct (get_dpd RWNX_RADAR_FCU _); [|done]. cbn [mbind res_bind].
    destruct (dfs_pattern_detector_set_domain _ _ _ _) as [[b d2] p2]. now intros [= <-].
  - unfold rwnx_radar_detection_enable. destruct (_ <? _)%nat; [|now intros [= <-]].
    destruct (get_dpd chain r); [|done]. now intros [= <-].
  - unfold rwnx_radar_detection_enable_on_cur_channel, rwnx_radar_detection_enable.
    destruct (cur_chan r) as [c|]; [|now intros [= <-]].
    destruct (chan_radar c); (destruct (_ <? _)%nat; [|now intros [= <-]]); (destruct (get_dpd _ r); [|done]); now intros [= <-].
  - unfold start_cac_req. rewrite Hk. now intros [= <-].
  - now intros [= <-].
  - intros [= <-]. destruct (cac_pending r); [|done]. unfold rwnx_radar_cac_work. cbn [cac_vif].
    destruct (cac_vif _) as [v|]; [|exact H]. refine (quiet_log _ _ (quiet_stop_cac _ _ _ Hk (quiet_log _ _ _ _)) _); done.
  - intros [= <-]. unfold rwnx_radar_cancel_cac. destruct (cac_vif r) as [v|]; [|done]. destruct (cac_pending r); [|exact H].
    refine (quiet_log _ _ (quiet_log _ _ (quiet_stop_cac _ _ _ Hk _) _) _); [done| |done]. now destruct (new_kernel kc).
  - unfold sta_add_status. rewrite Hk. now intros [= <-].
  - unfold sta_del_status. rewrite Hk. now intros [= <-].
  - now intros [= <-].
Qed.

(** A driver built without [CONFIG_RADAR_OR_IR_DETECT], as its Makefile builds
    it, never detects a radar: whatever pulses the firmware reports, the status
    stays idle, every pulse is dropped before it reaches a detector, nothing is
    recorded as detected and no radar event is reported. *)
Theorem radar_off_without_config jtu kc r (Hk : radar_or_ir kc = false) (Hr : reachable jtu kc r) :
  rstatus r = RWNX_RADAR_IDLE /\ detected r = detected (zero_radar []) /\ (forall f, EvRadar f ∉ rev r) /\
  forall chain f now time l, pulses_loop jtu kc chain f now time l r = Ok r.
Proof.
  assert (quiet r) as (A & B & C).
  { induction Hr as [jiffies al r E|o r r' _ IH _ E]; [|eapply quiet_step; eauto].
    unfold rwnx_radar_detection_init in E.
    destruct (dfs_pattern_detector_init jiffies NL80211_DFS_UNSET RWNX_RADAR_RIU _) as [[d1|] p1]; [|done]. cbn zeta in E.
    destruct (dfs_pattern_detector_init jiffies NL80211_DFS_UNSET RWNX_RADAR_FCU _) as [[d2|] p2]; [|done].
    injection E as <-. split; [done|]. split; [done|]. intros f Hf. now apply not_elem_of_nil in Hf. }
  split; [done|]. split; [done|]. split; [done|]. intros chain f now time [|w l]; [done|]. cbn [pulses_loop]. now rewrite A.
Qed.

Lemma radar_off_without_config_witness :
  pulses_loop hz1000 (mk_kconfig true false) 0 5500 0 0 [93585408] started = Ok started.
Proof.
  refine (proj2 (proj2 (proj2 (radar_off_without_config hz1000 (mk_kconfig true false) started eq_refl _))) 0%nat 5500 0 0 [93585408]).
  exact (started_reachable _).
Defined.

(** Several reports of one chain, each the words of a message and their number. *)
Definition reports (chain : nat) (l : list (list Z * Z)) (r : rwnx_radar) : res rwnx_radar :=
  foldM (fun a r => snd <$> rwnx_radar_detect_ind a.1 (Z.of_nat chain) a.2 r) l r.

Lemma reports_ring chain d : forall l r q ws, (chain < 2)%nat -> dpd r !! chain = Some (Some d) ->
  enabled d <> RWNX_RADAR_DETECT_DISABLE -> rpulses r !! chain = Some q -> ring_ok ws q ->
  Forall (fun a => 0 < a.2 <= Z.of_nat (length a.1)) l ->
  let words := concat (map (fun a => take (Z.to_nat a.2) a.1) l) in
  exists r' q', reports chain l r = Ok r' /\ rpulses r' !! chain = Some q' /\ ring_ok (ws ++ words) q' /\
    pcount q' = Z.min 32 (pcount q + Z.of_nat (length words)).
Proof.
  induction l as [|[pulse cnt] l IH]; intros r q ws Hc Hd He Hq Hok HF; cbn zeta.
  - exists r, q. cbn. rewrite app_nil_r. split_and!; try done. destruct Hok as (_ & H & _). lia.
  - apply Forall_cons_1 in HF as [H1 HF]. cbn [fst snd] in H1. unfold reports. cbn [foldM fst snd].
    rewrite (detect_ind_on pulse chain cnt r d q Hc H1 Hd He Hq). cbn [fmap res_fmap snd mbind res_bind].
    destruct (puts_ring_ok (take (Z.to_nat cnt) pulse) ws q Hok) as [Hok' C1]. cbn zeta in *.
    set (r1 := log _ _). set (q1 := fold_left _ _ q) in *.
    assert (rpulses r1 !! chain = Some q1) as Hq1 by (cbn; apply list_lookup_insert_eq; eauto using lookup_lt_Some).
    destruct (IH r1 q1 _ Hc Hd He Hq1 Hok' HF) as (r2 & q2 & E & Hq2 & Hok2 & C2). cbn zeta in *.
    exists r2, q2. split; [exact E|]. split; [exact Hq2|]. cbn [map concat]. rewrite <- app_assoc in Hok2. split; [exact Hok2|].
    rewrite C2, C1, length_app. cbn [fst snd]. lia.
Qed.

(** What the work item takes out of a ring is what was reported, in the order
    of the reports; of more than 32 words since its last run, the last 32. *)
Theorem ring_roundtrip chain d r q l (Hc : (chain < 2)%nat) (Hd : dpd r !! chain = Some (Some d))
  (He : enabled d <> RWNX_RADAR_DETECT_DISABLE) (Hq : rpulses r !! chain = Some q)
  (Hw : length (buffer q) = RWNX_RADAR_PULSE_MAX /\ 0 <= index q < 32 /\ pcount q = 0)
  (Hl : Forall (fun a => 0 < a.2 <= Z.of_nat (length a.1)) l) :
  let words := concat (map (fun a => take (Z.to_nat a.2) a.1) l) in
  exists r' q', reports chain l r = Ok r' /\ rpulses r' !! chain = Some q' /\
    ring_copy q' = drop (length words - 32) words.
Proof.
  cbn zeta. destruct Hw as (W1 & W2 & W3).
  assert (ring_ok [] q) as Hok by (unfold ring_ok; rewrite W3; split_and!; try done; try lia).
  destruct (reports_ring chain d l r q [] Hc Hd He Hq Hok Hl) as (r' & q' & E & Hq' & Hok' & C). cbn zeta in *.
  exists r', q'. split; [exact E|]. split; [exact Hq'|]. rewrite (ring_copy_spec _ _ Hok'), app_nil_l. f_equal. lia.
Qed.

Definition listening : rwnx_radar :=
  match rwnx_radar_detection_enable RWNX_RADAR_DETECT_REPORT RWNX_RADAR_RIU started with Ok r => r | Fault _ => started end.

Lemma ring_roundtrip_witness :
  let l := replicate 9 ([1; 2; 3; 4], 4) in
  exists r' q', reports 0 l listening = Ok r' /\ rpulses r' !! 0%nat = Some q' /\
    ring_copy q' = drop 4 (concat (map (fun a => take (Z.to_nat a.2) a.1) l)).
Proof.
  cbn zeta.
  refine (ring_roundtrip 0 _ listening _ (replicate 9 ([1; 2; 3; 4], 4)) _ _ _ _ _ _);
    [lia|vm_compute; reflexivity|vm_compute; discriminate|vm_compute; reflexivity| |].
  - cbn. split; [reflexivity|]. split; [split; [discriminate|reflexivity]|reflexivity].
  - repeat constructor; cbn; lia.
Defined.

End Props.
