(* ===== verification/RxInd.v ===== *)
(** Receive data indication: [rwnx_rxdataind_aicwf] of [rwnx_rx.c], which turns
    a received MPDU into Ethernet frames, puts fragments together, and hands the
    frames to the reordering of [Reorder.v], to the network stack, or back to the
    air between stations of an access point.

    - [Ind]: the operations.  The buffer of an indication is the list of bytes
      behind the hardware header [struct hw_rxhdr], whose fields are a record.
      Frames for a monitor interface ([is_monitor_vif]) are not modelled.
    - [Frames]: what the air carries: MPDUs and fragments of an MSDU.
    - [Facts], [Props]: the properties. *)
From stdpp Require Import base list numbers option.
From Stdlib Require Import ZArith Lia.
From S2P Require Import Prelude Reorder.

#[local] Open Scope Z_scope.
#[local] Open Scope aic_scope.

Module Ind.
Import Rx.

Definition RWNX_INVALID_STA : Z := 255.
Definition RWNX_INVALID_VIF : Z := 255.
Definition NX_VIRT_DEV_MAX : Z := 4.
Definition MAC_ADDR_LEN : nat := 6.
Definition MAC_FCTRL_MOREFRAG : Z := 1024.
Definition RWNX_RX_HD_DECR_UNENC : Z := 0.
Definition RWNX_RX_HD_DECR_WEP : Z := 1.
Definition RWNX_RX_HD_DECR_TKIP : Z := 2.
Definition RWNX_RX_HD_DECR_CCMP128 : Z := 3.
Definition RWNX_RX_HD_DECR_WAPI : Z := 7.

(** The flags of [struct hw_rxhdr] the driver looks at. *)
Record hw_rxhdr := mk_rxhdr {
  flags_is_amsdu : bool;
  flags_is_80211_mpdu : bool;
  flags_is_4addr : bool;
  flags_need_reord : bool;
  flags_upload : bool;
  flags_vif_idx : Z; flags_sta_idx : Z; flags_dst_idx : Z;    (* 8 bits *)
  decr_status : Z;                                            (* hwvect.decr_status, 3 bits *)
  ga_frame : bool                                             (* hwvect.ga_frame *)
}.
#[export] Instance hw_rxhdr_eta : RecordEta hw_rxhdr := fun h =>
  mk_rxhdr (flags_is_amsdu h) (flags_is_80211_mpdu h) (flags_is_4addr h) (flags_need_reord h) (flags_upload h)
           (flags_vif_idx h) (flags_sta_idx h) (flags_dst_idx h) (decr_status h) (ga_frame h).

Record rwnx_vif := mk_vif {
  vif_type : nl80211_iftype;
  vif_is_ap_vlan : bool; vif_is_mesh : bool;    (* which IFTYPE_OTHER it is *)
  up : bool;
  vif_index : Z;
  ap_isolate : bool;                            (* ap.flags & RWNX_AP_ISOLATE *)
  use_4addr : bool;
  ap_sta_list : list (list Z)                   (* the addresses of ap.sta_list *)
}.
Record rwnx_sta := mk_sta { sta_valid : bool; vlan_idx : Z }.

Record defrag_ctrl_info := mk_defrag {
  df_sta_idx : Z; df_tid : Z; sn : Z;
  next_fn : Z;                     (* u8 *)
  frm_len : Z;                     (* u16 *)
  df_skb : sk_buff
}.
#[export] Instance defrag_ctrl_info_eta : RecordEta defrag_ctrl_info := fun d =>
  mk_defrag (df_sta_idx d) (df_tid d) (sn d) (next_fn d) (frm_len d) (df_skb d).

Inductive rx_event :=
| EvResend (vif : Z) (s : sk_buff)               (* dev_queue_xmit of a copy *)
| EvMgmt (vif : Z) (s : sk_buff)                 (* rwnx_rx_mgmt *)
| EvUnexpected4addr (vif : Z).                   (* cfg80211_rx_unexpected_4addr_frame *)

(** The interfaces and stations, the fragments that wait, and the receive state
    of [Reorder.v]; [next_skb] numbers new buffers. *)
Record rwnx_hw {S : Type} := mk_hw {
  vif_table : list (option rwnx_vif);
  sta_table : list rwnx_sta;
  defrag_list : list defrag_ctrl_info;
  priv : aicwf_rx_priv S;
  ev : list rx_event;
  next_skb : Z
}.
Arguments rwnx_hw : clear implicits.
Arguments mk_hw {S} _ _ _ _ _ _.
#[export] Instance rwnx_hw_eta {S} : RecordEta (rwnx_hw S) := fun h =>
  mk_hw (vif_table h) (sta_table h) (defrag_list h) (priv h) (ev h) (next_skb h).

(** The outcome of what the code asks the kernel for; [defrag_room] is the room
    of [__dev_alloc_skb(2000)]. *)
Record ind_env := mk_ienv {
  e_bus_up : bool; e_usb_up : bool; e_kmalloc_ok : bool; e_alloc_skb_ok : Z -> bool;
  e_copy_ok : bool;                (* skb_copy_expand *)
  defrag_room : Z
}.

(** ** Header *)

Record rx_info := mk_info {
  i_data : bool;                                (* a data frame *)
  frame_ctrl : Z; i_seq_num : Z; i_frag_num : Z;
  i_hdr_len : Z; pull_len : Z;                  (* u8 *)
  i_tid : Z; is_qos : bool; i_is_amsdu : bool;
  ra : list Z; ta : list Z; ether_type : list Z
}.

(** The bytes in front of the LLC header that the cipher takes. *)
Definition cipher_len (decr : Z) : Z :=
  if decr =? RWNX_RX_HD_DECR_CCMP128 then 8
  else if decr =? RWNX_RX_HD_DECR_TKIP then 8
  else if decr =? RWNX_RX_HD_DECR_WEP then 4
  else if decr =? RWNX_RX_HD_DECR_WAPI then 18
  else 0.

Definition parse_addrs (b1 : Z) (d : list Z) : res (list Z * list Z) :=
  let zero := replicate MAC_ADDR_LEN 0 in
  if Z.land b1 3 =? 1 then
    a ← slice d 16 MAC_ADDR_LEN; b ← slice d 10 MAC_ADDR_LEN; Ok (a, b)
  else if Z.land b1 3 =? 2 then
    b ← slice d 16 MAC_ADDR_LEN; a ← slice d 4 MAC_ADDR_LEN; Ok (a, b)
  else Ok (zero, zero).

Definition parse_mpdu (decr : Z) (d : list Z) : res rx_info :=
  b0 ← rd8 d 0; b1 ← rd8 d 1; b22 ← rd8 d 22; b23 ← rd8 d 23;
  let fc := u16 (Z.lor (Z.shiftl b1 8) b0) in
  let seq := u16 (Z.lor (Z.shiftr (Z.land b22 240) 4) (Z.shiftl b23 4)) in
  let frag := Z.land b22 15 in
  if negb (Z.land b0 15 =? 8) then Ok (mk_info false fc seq frag 24 0 0 false false [] [] []) else
  let qos := Z.land b0 128 =? 128 in
  b24 ← (if qos then rd8 d 24 else Ok 0);
  let amsdu := qos && has b24 128 in
  let hdr_len := (if qos then 26 else 24) + (if has b1 128 then 4 else 0) in
  '(r, t) ← parse_addrs b1 d;
  let c := cipher_len decr in
  et ← slice d (hdr_len + 6 + c) 2;
  Ok (mk_info true fc seq frag hdr_len (hdr_len + 8 + c) (if qos then Z.land b24 15 else 0) qos amsdu r t et).

(** [skb_pull(skb, pull_len); skb_push(skb, 14)] and the three copies. *)
Definition decap (i : rx_info) (d : list Z) : list Z := ra i ++ ta i ++ ether_type i ++ skb_pull (pull_len i) d.

Section Ops.
Context {S : Type} `{RxSink S}.
Implicit Types (hw : rwnx_hw S).

Definition upd_priv (g : aicwf_rx_priv S -> aicwf_rx_priv S) hw : rwnx_hw S := hw <| priv ::= g |>.
Definition free_skb (s : sk_buff) hw : rwnx_hw S := upd_priv (dev_kfree_skb s) hw.
Definition log (e : rx_event) hw : rwnx_hw S := hw <| ev ::= fun l => l ++ [e] |>.

Definition rwnx_rx_get_vif (vif_idx : Z) hw : option rwnx_vif :=
  if vif_idx <? NX_VIRT_DEV_MAX then
    match vif_table hw !! Z.to_nat vif_idx with
    | Some (Some v) => if up v then Some v else None
    | _ => None
    end
  else None.

(** What the reorder code consults, for frames of the interface [v]. *)
Definition reord_env (env : ind_env) (v : rwnx_vif) hw : rx_env :=
  mk_env (vif_type v) (e_bus_up env) (e_usb_up env) (e_kmalloc_ok env) (e_alloc_skb_ok env)
         (bool_decide (rwnx_rx_get_vif (vif_index v) hw <> None)).

Definition rwnx_rx_data_skb_resend (env : ind_env) (v : rwnx_vif) (s : sk_buff) hw : rwnx_hw S :=
  if e_copy_ok env then log (EvResend (vif_index v) s) hw else hw.
Definition rwnx_rx_data_skb_forward (s : sk_buff) hw : rwnx_hw S := upd_priv (netif_one s) hw.

(** [is_multicast_ether_addr(eth->h_dest)] *)
Definition is_mcast (s : sk_buff) : res bool := b ← rd8 (skb_data s) 0; Ok (has b 1).

(** The A-MSDU in [s] as the queue of its frames, and [s] freed. *)
Definition amsdu_list (env : ind_env) (vif_idx : Z) (s : sk_buff) hw : res (list sk_buff * rwnx_hw S) :=
  let renv := mk_env IFTYPE_OTHER (e_bus_up env) (e_usb_up env) (e_kmalloc_ok env) (e_alloc_skb_ok env)
                     (bool_decide (rwnx_rx_get_vif vif_idx hw <> None)) in
  '(l, p) ← rwnx_rxdata_process_amsdu renv s (priv hw);
  Ok (l, hw <| priv := p |>).

Definition is_ap_vif (v : rwnx_vif) : bool :=
  match vif_type v with IFTYPE_AP | IFTYPE_P2P_GO => true | IFTYPE_OTHER => vif_is_ap_vlan v | _ => false end.

(** [resend] and [forward] of [rwnx_rx_data_skb], from the first frame. *)
Definition relay_choice (v : rwnx_vif) (dst_idx : Z) (l : list sk_buff) hw : res (bool * bool) :=
  if is_ap_vif v && negb (ap_isolate v) then
    s ← from_option_res NullDeref (head l);
    m ← is_mcast s;
    if m : bool then Ok (true, true)
    else if negb (dst_idx =? RWNX_INVALID_STA) then
      sta ← from_option_res OutOfBounds (sta_table hw !! Z.to_nat dst_idx);
      Ok (if sta_valid sta && (vlan_idx sta =? vif_index v) then (true, false) else (false, true))
    else Ok (false, true)
  else if negb (is_ap_vif v) && vif_is_mesh v then
    s ← from_option_res NullDeref (head l);
    m ← is_mcast s;
    Ok (if negb m && negb (dst_idx =? RWNX_INVALID_STA) then (true, false) else (false, true))
  else Ok (false, true).

Definition relay_one (env : ind_env) (v : rwnx_vif) (resend forward : bool) hw (s : sk_buff) : rwnx_hw S :=
  let hw := if resend then rwnx_rx_data_skb_resend env v s hw else hw in
  if forward then upd_priv (fun p => p <| sink ::= rx_deliver s |>) hw else hw.

Definition rwnx_rx_data_skb (env : ind_env) (v : rwnx_vif) (s : sk_buff) (h : hw_rxhdr) hw : res (bool * rwnx_hw S) :=
  '(l, hw) ← (if flags_is_amsdu h then amsdu_list env (flags_vif_idx h) s hw else Ok ([s], hw));
  '(resend, forward) ← relay_choice v (flags_dst_idx h) l hw;
  Ok (forward, fold_left (relay_one env v resend forward) l hw).

(** ** Fragments *)

Definition defrag_match (seq tid sta : Z) (d : defrag_ctrl_info) : bool :=
  (sn d =? seq) && (df_tid d =? tid) && (df_sta_idx d =? sta).
Definition find_defrag (seq tid sta : Z) hw : option (nat * defrag_ctrl_info) :=
  list_find (fun d => Is_true (defrag_match seq tid sta d)) (defrag_list hw).

(** [skb_put] and the copy of what follows the headers; [skb_put] past the end
    of the buffer stops the kernel. *)
Definition defrag_append (env : ind_env) (i : rx_info) (s : sk_buff) (d : defrag_ctrl_info) : res defrag_ctrl_info :=
  let n := skb_len s - (pull_len i - 8) in
  if (n <? 0) || (defrag_room env <? skb_len (df_skb d) + n) then Fault BugOn
  else if negb (frm_len d =? skb_len (df_skb d)) then Fault Uninitialised
  else Ok (d <| df_skb ::= fun b => mk_skb (skb_id b) (skb_data b ++ drop (Z.to_nat (pull_len i - 8)) (skb_data s)) |>
             <| frm_len ::= fun l => u16 (l + n) |>).

Definition defrag_new (env : ind_env) (i : rx_info) (sta : Z) (s : sk_buff) hw : res (rwnx_hw S) :=
  if negb (e_kmalloc_ok env) then Ok (free_skb s hw)
  else if negb (e_alloc_skb_ok env 2000) then Ok (free_skb s hw)
  else
    let d := decap i (skb_data s) in
    let n := Z.of_nat (length d) in
    if defrag_room env <? n then Fault BugOn else
    let f := mk_defrag sta (i_tid i) (i_seq_num i) 1 (u16 n) (mk_skb (next_skb hw) d) in
    Ok (free_skb s (hw <| defrag_list ::= fun l => l ++ [f] |> <| next_skb ::= Z.add 1 |>)).

(** A fragment that is not the last. *)
Definition defrag_more (env : ind_env) (i : rx_info) (sta : Z) (s : sk_buff) hw : res (rwnx_hw S) :=
  match find_defrag (i_seq_num i) (i_tid i) sta hw with
  | Some (k, d) =>
      if negb (next_fn d =? i_frag_num i) then Ok (free_skb s hw) else
      d ← defrag_append env i s d;
      Ok (free_skb s (hw <| defrag_list ::= <[k := d <| next_fn ::= fun n => u8 (n + 1) |>]> |>))
  | None => defrag_new env i sta s hw
  end.

Definition defrag_end (env : ind_env) (i : rx_info) (s : sk_buff) (h : hw_rxhdr) (k : nat) (d : defrag_ctrl_info) hw
  : res (rwnx_hw S) :=
  if negb (next_fn d =? i_frag_num i) then Ok (free_skb s hw) else
  d ← defrag_append env i s d;
  match rwnx_rx_get_vif (flags_vif_idx h) hw with
  | None => Ok (free_skb s (hw <| defrag_list ::= <[k := d]> |>))
  | Some v =>
      '(fwd, hw) ← rwnx_rx_data_skb env v (df_skb d) h (free_skb s (hw <| defrag_list ::= delete k |>));
      Ok (if fwd : bool then hw else free_skb (df_skb d) hw)
  end.

(** The last fragment; [None] when nothing waits for it. *)
Definition defrag_last (env : ind_env) (i : rx_info) (sta : Z) (s : sk_buff) (h : hw_rxhdr) hw : option (res (rwnx_hw S)) :=
  match find_defrag (i_seq_num i) (i_tid i) sta hw with
  | Some (k, d) => Some (defrag_end env i s h k d hw)
  | None => None
  end.

(** [defrag_timeout_cb] of the fragments at [k]. *)
Definition defrag_timeout_cb (k : nat) hw : rwnx_hw S :=
  match defrag_list hw !! k with
  | Some d => free_skb (df_skb d) (hw <| defrag_list ::= delete k |>)
  | None => hw
  end.

(** ** Delivery *)

Definition give_data (env : ind_env) (v : rwnx_vif) (s : sk_buff) (h : hw_rxhdr) hw : res (rwnx_hw S) :=
  '(fwd, hw) ← rwnx_rx_data_skb env v s h hw;
  Ok (if negb fwd && negb (flags_is_amsdu h) then free_skb s hw else hw).

(** A station or peer-to-peer client. *)
Definition rx_sta (env : ind_env) (v : rwnx_vif) (s : sk_buff) (i : rx_info) (h : hw_rxhdr) hw : res (rwnx_hw S) :=
  let renv := reord_env env v hw in
  if is_qos i && flags_need_reord h then
    match reord_rxframe_alloc (priv hw) with
    | None => Ok (free_skb s hw)
    | Some (f, p) =>
        let f := f <| is_ap_reord := 0 |> <| ap_fwd_cnt := 0 |> <| ap_resend_cnt := 0 |> in
        '(p, _) ← reord_process_unit renv p f s (i_seq_num i) (i_tid i) 1 (if flags_is_amsdu h then 1 else 0);
        Ok (hw <| priv := p |>)
    end
  else if is_qos i then
    '(p, _) ← reord_flush_tid renv (priv hw) s (i_tid i);
    give_data env v s h (hw <| priv := p |>)
  else give_data env v s h hw.

(** Whether a frame of an access point goes back to the air and up the stack. *)
Definition ap_choice (v : rwnx_vif) (h : hw_rxhdr) (amsdu : bool) (s : sk_buff) hw : res (bool * bool) :=
  m ← is_mcast s;
  if m : bool then Ok (true, true)
  else if negb (flags_dst_idx h =? RWNX_INVALID_STA) && negb amsdu then
    sta ← from_option_res OutOfBounds (sta_table hw !! Z.to_nat (flags_dst_idx h));
    Ok (if sta_valid sta && (vlan_idx sta =? vif_index v) then (true, false) else (false, true))
  else
    da ← slice (skb_data s) 0 MAC_ADDR_LEN;
    Ok (if bool_decide (da ∈ ap_sta_list v) then (true, false) else (false, true)).

(** The descriptor of a frame that waits for its turn, taken at the first use. *)
Definition ap_descriptor (pframe : option recv_msdu) hw : option (recv_msdu * rwnx_hw S) :=
  match pframe with
  | Some f => Some (f, hw)
  | None =>
      match reord_rxframe_alloc (priv hw) with
      | None => None
      | Some (f, p) =>
          Some (f <| ap_fwd_cnt := 0 |> <| ap_resend_cnt := 0 |> <| fwd_skbs := [] |> <| resend_skbs := [] |>, hw <| priv := p |>)
      end
  end.

(** One frame of the loop; [None]: no descriptor was left and the function returned. *)
Definition ap_one (env : ind_env) (v : rwnx_vif) (i : rx_info) (h : hw_rxhdr) (amsdu : bool) (s : sk_buff)
  (pframe : option recv_msdu) hw : res (option (option recv_msdu) * rwnx_hw S) :=
  '(resend, forward) ← ap_choice v h amsdu s hw;
  let hw := if resend : bool then rwnx_rx_data_skb_resend env v s hw else hw in
  let renv := reord_env env v hw in
  if forward : bool then
    if is_qos i && flags_need_reord h then
      match ap_descriptor pframe hw with
      | None => Ok (None, free_skb s hw)
      | Some (f, hw) => Ok (Some (Some (f <| ap_fwd_cnt ::= fun n => u8 (n + 1) |> <| fwd_skbs ::= fun l => l ++ [s] |>)), hw)
      end
    else if is_qos i then
      '(p, _) ← reord_flush_tid renv (priv hw) s (i_tid i);
      Ok (Some pframe, rwnx_rx_data_skb_forward s (hw <| priv := p |>))
    else Ok (Some pframe, rwnx_rx_data_skb_forward s hw)
  else if resend : bool then
    if is_qos i && flags_need_reord h then
      match ap_descriptor pframe hw with
      | None => Ok (None, free_skb s hw)
      | Some (f, hw) => Ok (Some (Some (f <| ap_resend_cnt ::= fun n => u8 (n + 1) |> <| resend_skbs ::= fun l => l ++ [s] |>)), hw)
      end
    else if is_qos i then
      '(p, r) ← reord_flush_tid renv (priv hw) s (i_tid i);
      let hw := hw <| priv := p |> in
      Ok (Some pframe, if r =? 0 then free_skb s hw else hw)
    else Ok (Some pframe, free_skb s hw)
  else Ok (Some pframe, free_skb s hw).

Fixpoint ap_loop (env : ind_env) (v : rwnx_vif) (i : rx_info) (h : hw_rxhdr) (amsdu : bool) (l : list sk_buff)
  (last : option sk_buff) (pframe : option recv_msdu) hw : res (rwnx_hw S) :=
  match l with
  | [] =>
      match pframe with
      | None => Ok hw
      | Some f =>
          s ← from_option_res NullDeref last;
          '(p, _) ← reord_process_unit (reord_env env v hw) (priv hw) (f <| is_ap_reord := 1 |>) s (i_seq_num i) (i_tid i) 0 0;
          Ok (hw <| priv := p |>)
      end
  | s :: l =>
      '(o, hw) ← ap_one env v i h amsdu s pframe hw;
      match o with
      | None => Ok hw
      | Some pframe => ap_loop env v i h amsdu l (Some s) pframe hw
      end
  end.

(** An access point or group owner. *)
Definition rx_ap (env : ind_env) (v : rwnx_vif) (s : sk_buff) (i : rx_info) (h : hw_rxhdr) hw : res (rwnx_hw S) :=
  let amsdu := flags_is_amsdu h in
  '(l, hw) ← (if amsdu then amsdu_list env (flags_vif_idx h) s hw else Ok ([s], hw));
  ap_loop env v i h amsdu l None None hw.

Definition remove_sec_hdr_mgmt_frame (h : hw_rxhdr) (d : list Z) : res (list Z) :=
  if ga_frame h then Ok d else
  b0 ← rd8 d 0; b1 ← rd8 d 1;
  if (Z.land b0 12 =? 0) && has b1 64 then
    if decr_status h =? RWNX_RX_HD_DECR_CCMP128 then
      hd ← slice d 0 24; Ok (hd ++ drop 24 (skb_pull 8 d))
    else Ok d
  else Ok d.

Definition rwnx_rx_mgmt_any (s : sk_buff) (h : hw_rxhdr) hw : rwnx_hw S :=
  let give hw v := log (EvMgmt (vif_index v) s) hw in
  let hw :=
    if flags_vif_idx h =? RWNX_INVALID_VIF then
      fold_left give (List.filter up (omap id (vif_table hw))) hw
    else match rwnx_rx_get_vif (flags_vif_idx h) hw with Some v => give hw v | None => hw end in
  free_skb s hw.

(** The interface the frame is for: the one of the header, or the one of the
    station's VLAN. *)
Definition rx_vif (h : hw_rxhdr) hw : res (option rwnx_vif * rwnx_hw S) :=
  match rwnx_rx_get_vif (flags_vif_idx h) hw with
  | None => Ok (None, hw)
  | Some v =>
      if flags_sta_idx h =? RWNX_INVALID_STA then Ok (Some v, hw) else
      sta ← from_option_res OutOfBounds (sta_table hw !! Z.to_nat (flags_sta_idx h));
      o ← (if vlan_idx sta =? vif_index v then Ok (Some v) else from_option_res OutOfBounds (vif_table hw !! Z.to_nat (vlan_idx sta)));
      match o with
      | None => Ok (None, hw)
      | Some v => Ok (Some v, if flags_is_4addr h && negb (use_4addr v) then log (EvUnexpected4addr (vif_index v)) hw else hw)
      end
  end.

Definition rx_deliver_frame (env : ind_env) (s : sk_buff) (i : rx_info) (h : hw_rxhdr) hw : res (rwnx_hw S) :=
  if flags_is_80211_mpdu h then
    d ← remove_sec_hdr_mgmt_frame h (skb_data s);
    Ok (rwnx_rx_mgmt_any (mk_skb (skb_id s) d) h hw)
  else
    '(o, hw) ← rx_vif h hw;
    match o with
    | None => Ok (free_skb s hw)
    | Some v =>
        match vif_type v with
        | IFTYPE_STATION | IFTYPE_P2P_CLIENT => rx_sta env v s i h hw
        | IFTYPE_AP | IFTYPE_P2P_GO => rx_ap env v s i h hw
        | IFTYPE_OTHER => Ok hw
        end
    end.

Definition rwnx_rxdataind_aicwf (env : ind_env) (h : hw_rxhdr) (s : sk_buff) hw : res (rwnx_hw S) :=
  if negb (flags_upload h) then Ok hw else
  i ← parse_mpdu (decr_status h) (skb_data s);
  if negb (i_data i) then rx_deliver_frame env s i h hw else
  let h := h <| flags_is_amsdu := i_is_amsdu i |> in
  let s := if i_is_amsdu i then mk_skb (skb_id s) (skb_pull (pull_len i - 8) (skb_data s)) else s in
  let sta := if flags_dst_idx h =? RWNX_INVALID_STA then 0 else flags_dst_idx h in
  let whole :=
    let s := if i_is_amsdu i then s else mk_skb (skb_id s) (decap i (skb_data s)) in
    rx_deliver_frame env s i h hw in
  let more := has (frame_ctrl i) MAC_FCTRL_MOREFRAG in
  if negb (flags_need_reord h) && (more || negb (i_frag_num i =? 0)) then
    if more then defrag_more env i sta s hw
    else match defrag_last env i sta s h hw with Some r => r | None => whole end
  else whole.

End Ops.
End Ind.

Module Frames.
Import Rx Ind.

(** The MAC header of a data MPDU between a station and its access point:
    direction, QoS and HT control fields, addresses, protection, and the
    remaining fields with any values. *)
Record mac_hdr := mk_mac {
  to_ds : bool;
  qos : option Z;                     (* the TID *)
  htc : option (list Z);              (* 4 bytes *)
  protected : bool;
  duration : Z * Z;
  bssid : list Z; da : list Z; sa : list Z;
  cipher : Z;                         (* decr_status *)
  cipher_hdr : list Z
}.

Definition b2z (b : bool) : Z := if b then 1 else 0.
Definition fc0 (x : mac_hdr) : Z := match qos x with Some _ => 136 | None => 8 end.
Definition fc1 (x : mac_hdr) (more : bool) : Z :=
  (if to_ds x then 1 else 2) + 4 * b2z more + 64 * b2z (protected x)
  + 128 * b2z (match htc x with Some _ => true | None => false end).
Definition qos_ctl (x : mac_hdr) : list Z := match qos x with Some t => [t; 0] | None => [] end.
Definition ht_ctl (x : mac_hdr) : list Z := default [] (htc x).

(** The MPDU of sequence number [sn] and fragment number [frag]. *)
Definition mpdu (x : mac_hdr) (sn frag : Z) (more : bool) (body : list Z) : list Z :=
  [fc0 x; fc1 x more; (duration x).1; (duration x).2]
  ++ (if to_ds x then bssid x ++ sa x ++ da x else da x ++ bssid x ++ sa x)
  ++ [sn mod 16 * 16 + frag; sn / 16] ++ qos_ctl x ++ ht_ctl x ++ cipher_hdr x ++ body.

(** The cipher headers of the standards, by what the hardware reports: nothing,
    the WEP IV, the TKIP IV and extended IV, the CCMP header, the WPI header. *)
Definition cipher_hdr_bytes (decr : Z) : option nat :=
  match decr with 0 => Some 0%nat | 1 => Some 4%nat | 2 => Some 8%nat | 3 => Some 8%nat | 7 => Some 18%nat | _ => None end.

Record mac_ok (x : mac_hdr) : Prop := {
  mo_bssid : length (bssid x) = 6%nat; mo_da : length (da x) = 6%nat; mo_sa : length (sa x) = 6%nat;
  mo_htc : match htc x with Some l => length l = 4%nat | None => True end;
  mo_tid : match qos x with Some t => 0 <= t < 16 | None => True end;
  mo_cipher : cipher_hdr_bytes (cipher x) = Some (length (cipher_hdr x))
}.

(** The MSDU behind its LLC header, and the Ethernet frame it stands for. *)
Definition LLC_SNAP : list Z := [170; 170; 3; 0; 0; 0].
Definition msdu_body (etype payload : list Z) : list Z := LLC_SNAP ++ etype ++ payload.
Definition eth_frame (x : mac_hdr) (etype payload : list Z) : list Z := da x ++ sa x ++ etype ++ payload.

Definition tid_of (x : mac_hdr) : Z := default 0 (qos x).
Definition hdr_bytes (x : mac_hdr) : Z :=
  24 + Z.of_nat (length (qos_ctl x)) + Z.of_nat (length (ht_ctl x)).

End Frames.

Module Facts.
Import Rx Ind Frames.

Lemma forall_range (P : Z -> bool) n : forallb P (Z.of_nat <$> seq 0 n) = true -> forall z, 0 <= z < Z.of_nat n -> P z = true.
Proof.
  intros H z Hz. rewrite forallb_forall in H. apply H. apply list_elem_of_In, list_elem_of_fmap.
  exists (Z.to_nat z). split; [lia|]. apply elem_of_seq. lia.
Qed.

(** The sequence control field. *)
Lemma seq_ctl a f : 0 <= a < 16 -> 0 <= f < 16 ->
  Z.shiftr (Z.land (a * 16 + f) 240) 4 = a /\ Z.land (a * 16 + f) 15 = f.
Proof.
  intros Ha Hf.
  assert (forallb (fun z => (Z.shiftr (Z.land z 240) 4 =? z / 16) && (Z.land z 15 =? z mod 16)) (Z.of_nat <$> seq 0 256) = true)
    as H by reflexivity.
  pose proof (forall_range _ _ H (a * 16 + f) ltac:(lia)) as E. rewrite andb_true_iff, !Z.eqb_eq in E. destruct E as [-> ->].
  rewrite Z.div_add_l, Z.div_small, Z.add_0_r, (Z.add_comm (a * 16)), Z.mod_add, Z.mod_small by lia. done.
Qed.

Lemma seq_join sn : 0 <= sn < 4096 -> u16 (Z.lor (sn mod 16) (Z.shiftl (sn / 16) 4)) = sn.
Proof.
  intros Hs.
  assert (forallb (fun z => u16 (Z.lor (z mod 16) (Z.shiftl (z / 16) 4)) =? z) (Z.of_nat <$> seq 0 4096) = true) as H
    by (vm_compute; reflexivity).
  pose proof (forall_range _ _ H sn ltac:(lia)) as E. now apply Z.eqb_eq in E.
Qed.

(** The fixed part of the header as explicit bytes. *)
Ltac six l H := do 6 (destruct l as [|? l]; [discriminate H|]); destruct l; [|discriminate H]; clear H.

Lemma parse_addrs_mpdu x sn frag more body : mac_ok x ->
  parse_addrs (fc1 x more) (mpdu x sn frag more body) = Ok (da x, sa x).
Proof.
  intros [B D A _ _ _]. unfold mpdu. destruct x as [ds q ht pr [d0 d1] bs dx sx c ch]. cbn [to_ds qos htc protected duration bssid da sa cipher cipher_hdr fst snd] in *.
  set (rest := _ ++ (qos_ctl _ ++ _)). clearbody rest.
  six bs B. six dx D. six sx A. unfold fc1. cbn [to_ds protected htc].
  rewrite !app_assoc. destruct ds, more, pr, ht; unfold parse_addrs; cbn [Z.eqb];
    lazymatch goal with |- context [Z.land ?a 3] => let v := eval vm_compute in (Z.land a 3) in change (Z.land a 3) with v end;
    cbn [Z.eqb Pos.eqb]; rewrite !(slice_prefix _ rest) by (unfold MAC_ADDR_LEN; cbn; lia); reflexivity.
Qed.

Lemma cipher_len_ok decr n : cipher_hdr_bytes decr = Some n -> Z.of_nat n = cipher_len decr.
Proof.
  unfold cipher_hdr_bytes. destruct decr as [|p|]; [intros [= <-]; reflexivity| |discriminate].
  destruct p as [[[p|p|]|[p|p|]|]|[[p|p|]|[p|p|]|]|]; try discriminate; intros [= <-]; reflexivity.
Qed.

Lemma mpdu_split x sn frag more body : mac_ok x -> exists pre, mpdu x sn frag more body = pre ++ body /\
  Z.of_nat (length pre) = hdr_bytes x + cipher_len (cipher x).
Proof.
  intros [B D A _ _ C]. apply cipher_len_ok in C. exists ([fc0 x; fc1 x more; (duration x).1; (duration x).2] ++ (if to_ds x then bssid x ++ sa x ++ da x else da x ++ bssid x ++ sa x)
    ++ [sn mod 16 * 16 + frag; sn / 16] ++ qos_ctl x ++ ht_ctl x ++ cipher_hdr x).
  split; [unfold mpdu; rewrite <- !app_assoc; reflexivity|].
  unfold hdr_bytes. rewrite !length_app. destruct (to_ds x); rewrite !length_app, B, D, A; cbn [length]; lia.
Qed.

(** What the driver reads out of an MPDU. *)
Lemma parse_mpdu_ok x sn frag more body : mac_ok x -> 0 <= sn < 4096 -> 0 <= frag < 16 -> (8 <= length body)%nat ->
  exists i, parse_mpdu (cipher x) (mpdu x sn frag more body) = Ok i /\
    i_data i = true /\ has (frame_ctrl i) MAC_FCTRL_MOREFRAG = more /\ i_seq_num i = sn /\ i_frag_num i = frag /\
    i_tid i = tid_of x /\ is_qos i = bool_decide (qos x <> None) /\ i_is_amsdu i = false /\
    pull_len i = hdr_bytes x + cipher_len (cipher x) + 8 /\
    ra i = da x /\ ta i = sa x /\ ether_type i = take 2 (drop 6 body).
Proof.
  intros Hx Hs Hf Hb. pose proof (parse_addrs_mpdu x sn frag more body Hx) as Ea.
  destruct (mpdu_split x sn frag more body Hx) as (pre & Ep & Lp).
  assert (rd8 (mpdu x sn frag more body) 0 = Ok (fc0 x) /\ rd8 (mpdu x sn frag more body) 1 = Ok (fc1 x more) /\
    rd8 (mpdu x sn frag more body) 22 = Ok (sn mod 16 * 16 + frag) /\ rd8 (mpdu x sn frag more body) 23 = Ok (sn / 16) /\
    (forall t, qos x = Some t -> rd8 (mpdu x sn frag more body) 24 = Ok t)) as (R0 & R1 & R22 & R23 & R24).
  { clear - Hx. destruct Hx as [B D A _ _ _]. unfold mpdu.
    destruct x as [ds q ht pr [d0 d1] bs dx sx c ch]. cbn [to_ds qos htc protected duration bssid da sa cipher cipher_hdr fst snd] in *.
    six bs B. six dx D. six sx A. destruct ds; (split_and!; [reflexivity..|]); intros t ->; reflexivity. }
  unfold parse_mpdu. rewrite R0, R1, R22, R23. cbn [mbind res_bind].
  assert (negb (Z.land (fc0 x) 15 =? 8) = false) as -> by (unfold fc0; now destruct (qos x)).
  assert ((Z.land (fc0 x) 128 =? 128) = bool_decide (qos x <> None)) as -> by (unfold fc0; now destruct (qos x)).
  assert ((if bool_decide (qos x <> None) then rd8 (mpdu x sn frag more body) 24 else Ok 0) = Ok (tid_of x)) as ->.
  { unfold tid_of. destruct (qos x) as [t|]; [exact (R24 t eq_refl)|done]. }
  cbn [mbind res_bind]. rewrite Ea. cbn [mbind res_bind].
  assert ((bool_decide (qos x <> None) && has (tid_of x) 128) = false) as Eam.
  { unfold tid_of. destruct Hx as [_ _ _ _ T _]. destruct (qos x) as [t|]; [|done]. cbn.
    assert (forallb (fun z => negb (has z 128) && (Z.land z 15 =? z)) (Z.of_nat <$> seq 0 16) = true) as H by reflexivity.
    pose proof (forall_range _ _ H t T) as E. rewrite andb_true_iff, negb_true_iff in E. apply E. }
  assert ((if bool_decide (qos x <> None) then Z.land (tid_of x) 15 else 0) = tid_of x) as Et.
  { unfold tid_of. destruct Hx as [_ _ _ _ T _]. destruct (qos x) as [t|]; [|done]. cbn.
    assert (forallb (fun z => (Z.land z 15 =? z)) (Z.of_nat <$> seq 0 16) = true) as H by reflexivity.
    pose proof (forall_range _ _ H t T) as E. now apply Z.eqb_eq in E. }
  assert ((if bool_decide (qos x <> None) then 26 else 24) + (if has (fc1 x more) 128 then 4 else 0) = hdr_bytes x) as Eh.
  { unfold hdr_bytes, qos_ctl, ht_ctl, fc1. destruct Hx as [_ _ _ Hh _ _].
    destruct (qos x), (htc x), (to_ds x), more, (protected x); cbn; rewrite ?Hh; done. }
  rewrite Eh, Eam, Et.
  assert (slice (mpdu x sn frag more body) (hdr_bytes x + 6 + cipher_len (cipher x)) 2 = Ok (take 2 (drop 6 body))) as ->.
  { rewrite Ep. rewrite <- (take_drop 6 body) at 1. rewrite <- (take_drop 2 (drop 6 body)) at 1. rewrite app_assoc.
    apply slice_app; [rewrite length_app, length_take; lia|rewrite length_take, length_drop; lia]. }
  cbn [mbind res_bind]. eexists. split; [reflexivity|]. cbn [i_data frame_ctrl i_seq_num i_frag_num i_tid is_qos i_is_amsdu pull_len ra ta ether_type].
  destruct (seq_ctl (sn mod 16) frag ltac:(apply Z.mod_pos_bound; lia) Hf) as [-> ->].
  rewrite seq_join by done. split_and!; try done; [|lia].
  unfold fc0, fc1. destruct (qos x), (to_ds x), more, (protected x), (htc x); reflexivity.
Qed.



(** The Ethernet frame made of the body of an MPDU. *)
Definition eth_of (x : mac_hdr) (body : list Z) : list Z := da x ++ sa x ++ take 2 (drop 6 body) ++ drop 8 body.

Lemma eth_of_msdu x etype payload : length etype = 2%nat -> eth_of x (msdu_body etype payload) = eth_frame x etype payload.
Proof.
  intros He. unfold eth_of, eth_frame, msdu_body. do 2 f_equal.
  destruct etype as [|a [|b [|]]]; try discriminate He. reflexivity.
Qed.

Lemma pull_mpdu x sn frag more body n : mac_ok x -> 0 <= n <= Z.of_nat (length body) ->
  skb_pull (hdr_bytes x + cipher_len (cipher x) + n) (mpdu x sn frag more body) = drop (Z.to_nat n) body.
Proof.
  intros Hx Hn. destruct (mpdu_split x sn frag more body Hx) as (pre & -> & Lp). unfold skb_pull.
  rewrite length_app. destruct (Z.ltb_spec (Z.of_nat (length pre + length body)) (hdr_bytes x + cipher_len (cipher x) + n)); [lia|].
  replace (Z.to_nat (hdr_bytes x + cipher_len (cipher x) + n)) with (length pre + Z.to_nat n)%nat by lia.
  rewrite <- drop_drop, drop_app_length. done.
Qed.

(** The header flags of a data MPDU of [x] for the host. *)
Record hdr_ok (h : hw_rxhdr) (x : mac_hdr) : Prop := {
  ho_upload : flags_upload h = true;
  ho_data : flags_is_80211_mpdu h = false;
  ho_decr : decr_status h = cipher x
}.

(** The key under which fragments are kept. *)
Definition sta_key (h : hw_rxhdr) : Z := if flags_dst_idx h =? RWNX_INVALID_STA then 0 else flags_dst_idx h.

Section Ind.
Context {S : Type} `{RxSinkLaws S}.
Implicit Types (hw : rwnx_hw S).

(** The indication of an MPDU without A-MSDU: the driver's reading of it, and
    then one of the cases of the fragment handling. *)
Lemma ind_mpdu env h id x sn frag more body hw : mac_ok x -> 0 <= sn < 4096 -> 0 <= frag < 16 -> (8 <= length body)%nat ->
  hdr_ok h x -> exists i,
  i_data i = true /\ has (frame_ctrl i) MAC_FCTRL_MOREFRAG = more /\ i_seq_num i = sn /\ i_frag_num i = frag /\
  i_tid i = tid_of x /\ is_qos i = bool_decide (qos x <> None) /\
  pull_len i = hdr_bytes x + cipher_len (cipher x) + 8 /\
  decap i (mpdu x sn frag more body) = eth_of x body /\
  let h' := h <| flags_is_amsdu := false |> in
  let s := mk_skb id (mpdu x sn frag more body) in
  let whole := rx_deliver_frame env (mk_skb id (eth_of x body)) i h' hw in
  rwnx_rxdataind_aicwf env h s hw =
    if negb (flags_need_reord h) && (more || negb (frag =? 0)) then
      if more then defrag_more env i (sta_key h) s hw
      else match defrag_last env i (sta_key h) s h' hw with Some r => r | None => whole end
    else whole.
Proof.
  intros Hx Hs Hf Hb [Hu Hd Hc].
  destruct (parse_mpdu_ok x sn frag more body Hx Hs Hf Hb) as (i & Ep & I1 & I2 & I3 & I4 & I5 & I6 & I7 & I8 & I9 & I10 & I11).
  exists i. assert (decap i (mpdu x sn frag more body) = eth_of x body) as Ed.
  { unfold decap, eth_of. rewrite I9, I10, I11, I8. rewrite pull_mpdu by (done || lia). reflexivity. }
  split_and!; try done. cbn zeta. unfold rwnx_rxdataind_aicwf. rewrite Hu. cbn [negb skb_data]. rewrite Hc, Ep.
  cbn [mbind res_bind]. rewrite I1, I7, I2, I4. cbn [negb skb_data skb_id]. rewrite Ed. done.
Qed.

Lemma deliver_sta env v s i h hw : flags_is_80211_mpdu h = false -> rx_vif h hw = Ok (Some v, hw) ->
  vif_type v = IFTYPE_STATION \/ vif_type v = IFTYPE_P2P_CLIENT -> rx_deliver_frame env s i h hw = rx_sta env v s i h hw.
Proof. intros Hd Hv Ht. unfold rx_deliver_frame. rewrite Hd, Hv. cbn. destruct Ht as [-> | ->]; done. Qed.

Lemma sta_not_ap v : vif_type v = IFTYPE_STATION \/ vif_type v = IFTYPE_P2P_CLIENT -> is_ap_vif v = false.
Proof. unfold is_ap_vif. intros [-> | ->]; done. Qed.

(** A station gives every frame to the stack. *)
Lemma data_skb_sta env v s h hw : vif_type v = IFTYPE_STATION \/ vif_type v = IFTYPE_P2P_CLIENT -> vif_is_mesh v = false ->
  flags_is_amsdu h = false ->
  rwnx_rx_data_skb env v s h hw = Ok (true, upd_priv (fun p => p <| sink ::= rx_deliver s |>) hw).
Proof.
  intros Ht Hm Ha. unfold rwnx_rx_data_skb. rewrite Ha. cbn [mbind res_bind]. unfold relay_choice.
  rewrite (sta_not_ap v Ht), Hm. reflexivity.
Qed.

Lemma deliver_sta_plain env v s i h hw p : flags_is_80211_mpdu h = false -> rx_vif h hw = Ok (Some v, hw) ->
  vif_type v = IFTYPE_STATION \/ vif_type v = IFTYPE_P2P_CLIENT -> vif_is_mesh v = false ->
  flags_need_reord h = false -> flags_is_amsdu h = false ->
  (if is_qos i then exists r, reord_flush_tid (reord_env env v hw) (priv hw) s (i_tid i) = Ok (p, r) else p = priv hw) ->
  rx_deliver_frame env s i h hw = Ok (hw <| priv := p <| sink ::= rx_deliver s |> |>).
Proof.
  intros Hd Hv Ht Hm Hn Ha Hp. rewrite (deliver_sta _ v) by done. unfold rx_sta. rewrite Hn, andb_false_r. unfold give_data.
  destruct (is_qos i).
  - destruct Hp as [r ->]. cbn [mbind res_bind]. rewrite data_skb_sta by done. done.
  - subst p. rewrite data_skb_sta by done. done.
Qed.

(** ** Fragments *)

Definition df_is (seq t ks : Z) (d : defrag_ctrl_info) : Prop := sn d = seq /\ df_tid d = t /\ df_sta_idx d = ks.

Lemma match_spec seq t ks d : Is_true (defrag_match seq t ks d) <-> df_is seq t ks d.
Proof.
  unfold defrag_match, df_is. rewrite Is_true_true, !andb_true_iff, !Z.eqb_eq. tauto.
Qed.

Lemma find_none seq t ks hw : Forall (fun d => ~ df_is seq t ks d) (defrag_list hw) -> find_defrag seq t ks hw = None.
Proof.
  intros Hf. unfold find_defrag. apply list_find_None. eapply Forall_impl; [|exact Hf]. intros d Hd Hm. apply Hd. now apply match_spec.
Qed.

Lemma find_last seq t ks l d hw : defrag_list hw = l ++ [d] -> Forall (fun d => ~ df_is seq t ks d) l -> df_is seq t ks d ->
  find_defrag seq t ks hw = Some (length l, d).
Proof.
  intros E Hl Hd. unfold find_defrag. rewrite E. rewrite list_find_app_r.
  - cbn. rewrite decide_True by now apply match_spec. reflexivity.
  - apply list_find_None. eapply Forall_impl; [|exact Hl]. intros e He Hm. apply He. now apply match_spec.
Qed.

Lemma insert_end {A} (l : list A) x y : <[length l := y]> (l ++ [x]) = l ++ [y].
Proof. rewrite insert_app_r_alt by lia. now rewrite Nat.sub_diag. Qed.
Lemma delete_end {A} (l : list A) x : delete (length l) (l ++ [x]) = l.
Proof. induction l as [|a l IH]; [done|]. cbn. f_equal. exact IH. Qed.

Lemma drop_mpdu x sn frag more body : mac_ok x ->
  drop (Z.to_nat (hdr_bytes x + cipher_len (cipher x))) (mpdu x sn frag more body) = body.
Proof.
  intros Hx. destruct (mpdu_split x sn frag more body Hx) as (pre & -> & <-). rewrite Nat2Z.id. apply drop_app_length.
Qed.

Lemma mpdu_length x sn frag more body : mac_ok x ->
  Z.of_nat (length (mpdu x sn frag more body)) = hdr_bytes x + cipher_len (cipher x) + Z.of_nat (length body).
Proof. intros Hx. destruct (mpdu_split x sn frag more body Hx) as (pre & -> & <-). rewrite length_app. lia. Qed.

(** Adding a fragment to the ones that wait. *)
Lemma append_ok env i x sn frag more body id d : mac_ok x -> pull_len i = hdr_bytes x + cipher_len (cipher x) + 8 ->
  frm_len d = skb_len (df_skb d) -> skb_len (df_skb d) + Z.of_nat (length body) <= defrag_room env -> defrag_room env < 65536 ->
  defrag_append env i (mk_skb id (mpdu x sn frag more body)) d =
  Ok (d <| df_skb := mk_skb (skb_id (df_skb d)) (skb_data (df_skb d) ++ body) |>
        <| frm_len := skb_len (df_skb d) + Z.of_nat (length body) |>).
Proof.
  intros Hx Hp Hl Hr Hm. unfold defrag_append.
  assert (skb_len (mk_skb id (mpdu x sn frag more body)) - (pull_len i - 8) = Z.of_nat (length body)) as ->.
  { unfold skb_len. cbn [skb_data]. rewrite mpdu_length by done. lia. }
  replace (Z.of_nat (length body) <? 0) with false by (symmetry; apply Z.ltb_ge; lia).
  replace (defrag_room env <? skb_len (df_skb d) + Z.of_nat (length body)) with false by (symmetry; apply Z.ltb_ge; lia).
  rewrite Hl, Z.eqb_refl. cbn [orb negb]. replace (pull_len i - 8) with (hdr_bytes x + cipher_len (cipher x)) by lia.
  cbn [skb_data]. rewrite drop_mpdu by done. cbn. rewrite Hl. rewrite wrapU_small; [done|]. unfold skb_len in *. lia.
Qed.

(** ** A whole MSDU in fragments *)

Record frag := mk_frag { fr_h : hw_rxhdr; fr_mac : mac_hdr; fr_id : Z; fr_body : list Z }.
Definition frag_skb (sn k : Z) (more : bool) (f : frag) : sk_buff := mk_skb (fr_id f) (mpdu (fr_mac f) sn k more (fr_body f)).

(** The indications of the fragments [k], [k + 1], ... up to the last one. *)
Fixpoint frags (sn k : Z) (fs : list frag) : list (hw_rxhdr * sk_buff) :=
  match fs with
  | [] => []
  | f :: fs => (fr_h f, frag_skb sn k (match fs with [] => false | _ => true end) f) :: frags sn (k + 1) fs
  end.

Fixpoint rx_all (env : ind_env) (l : list (hw_rxhdr * sk_buff)) hw : res (rwnx_hw S) :=
  match l with
  | [] => Ok hw
  | (h, s) :: l => hw ← rwnx_rxdataind_aicwf env h s hw; rx_all env l hw
  end.
Definition free_all (l : list sk_buff) hw : rwnx_hw S := fold_left (fun hw s => free_skb s hw) l hw.

(** A fragment of the MSDU of key [t], [ks], under the cipher [c]. *)
Record frag_ok (t ks c : Z) (f : frag) : Prop := {
  fo_mac : mac_ok (fr_mac f);
  fo_hdr : hdr_ok (fr_h f) (fr_mac f);
  fo_reord : flags_need_reord (fr_h f) = false;
  fo_tid : tid_of (fr_mac f) = t;
  fo_sta : sta_key (fr_h f) = ks;
  fo_cipher : cipher (fr_mac f) = c;
  fo_len : (8 <= length (fr_body f))%nat
}.

Definition waiting (sn t ks k id : Z) (buf : list Z) : defrag_ctrl_info :=
  mk_defrag ks t sn k (Z.of_nat (length buf)) (mk_skb id buf).
Definition held (d : defrag_ctrl_info) hw : rwnx_hw S := hw <| defrag_list ::= fun l => l ++ [d] |>.
Definition none_waits (sn t ks : Z) hw : Prop := Forall (fun d => ~ df_is sn t ks d) (defrag_list hw).

Lemma find_held sn t ks d hw : none_waits sn t ks hw -> df_is sn t ks d ->
  find_defrag sn t ks (held d hw) = Some (length (defrag_list hw), d).
Proof. intros Hn Hd. eapply find_last; [reflexivity|exact Hn|exact Hd]. Qed.

Lemma set_held d d' hw : (held d hw) <| defrag_list ::= <[length (defrag_list hw) := d']> |> = held d' hw.
Proof. destruct hw as [a b l e f g]. unfold held. cbn. now rewrite insert_end. Qed.
Lemma drop_held d hw : (held d hw) <| defrag_list ::= delete (length (defrag_list hw)) |> = hw.
Proof. destruct hw as [a b l e f g]. unfold held. cbn. now rewrite delete_end. Qed.

Lemma eth_of_length x body : mac_ok x -> (8 <= length body)%nat -> length (eth_of x body) = (length body + 6)%nat.
Proof.
  intros [_ D A _ _ _] Hb. unfold eth_of. rewrite !length_app, D, A, length_take, !length_drop. lia.
Qed.
Lemma eth_of_app x b0 b : (8 <= length b0)%nat -> eth_of x (b0 ++ b) = eth_of x b0 ++ b.
Proof.
  intros Hb. unfold eth_of. rewrite !drop_app_le, take_app_le by (rewrite ?length_drop; lia). now rewrite <- !app_assoc.
Qed.

Definition alloc_ok (env : ind_env) : Prop := e_kmalloc_ok env = true /\ e_alloc_skb_ok env 2000 = true /\ defrag_room env < 65536.

Lemma frag_first env sn t ks c k f hw : alloc_ok env -> 0 <= sn < 4096 -> 0 <= k < 16 -> frag_ok t ks c f -> none_waits sn t ks hw ->
  Z.of_nat (length (fr_body f)) + 6 <= defrag_room env ->
  rwnx_rxdataind_aicwf env (fr_h f) (frag_skb sn k true f) hw =
  Ok (held (waiting sn t ks 1 (next_skb hw) (eth_of (fr_mac f) (fr_body f)))
        ((free_skb (frag_skb sn k true f) hw) <| next_skb ::= Z.add 1 |>)).
Proof.
  intros (Ek & Ea & Er) Hs Hk [Fm Fh Fr Ft Fs Fc Fl] Hn Hroom.
  destruct (ind_mpdu env (fr_h f) (fr_id f) (fr_mac f) sn k true (fr_body f) hw Fm Hs ltac:(lia) Fl Fh)
    as (i & I1 & I2 & I3 & I4 & I5 & I6 & I7 & I8 & E).
  cbn zeta in E. unfold frag_skb at 1. rewrite E, Fr, Fs. cbn [negb andb orb].
  unfold defrag_more. rewrite I3, I5, Ft, (find_none sn t ks) by exact Hn.
  unfold defrag_new. rewrite Ek, Ea. cbn [negb skb_data]. rewrite I8, I3, I5, Ft.
  rewrite eth_of_length by done. rewrite wrapU_small by lia.
  replace (defrag_room env <? Z.of_nat (length (fr_body f) + 6)) with false by (symmetry; apply Z.ltb_ge; lia).
  unfold waiting. rewrite eth_of_length by done. destruct hw. reflexivity.
Qed.

(** A further fragment, with the context it belongs to. *)
Lemma frag_next env sn t ks c k id buf f hw : alloc_ok env -> 0 <= sn < 4096 -> 0 < k < 16 -> frag_ok t ks c f -> none_waits sn t ks hw ->
  Z.of_nat (length buf) + Z.of_nat (length (fr_body f)) <= defrag_room env ->
  rwnx_rxdataind_aicwf env (fr_h f) (frag_skb sn k true f) (held (waiting sn t ks k id buf) hw) =
  Ok (held (waiting sn t ks (k + 1) id (buf ++ fr_body f)) (free_skb (frag_skb sn k true f) hw)).
Proof.
  intros (Ek & Ea & Er) Hs Hk [Fm Fh Fr Ft Fs Fc Fl] Hn Hroom.
  destruct (ind_mpdu env (fr_h f) (fr_id f) (fr_mac f) sn k true (fr_body f) (held (waiting sn t ks k id buf) hw) Fm Hs ltac:(lia) Fl Fh)
    as (i & I1 & I2 & I3 & I4 & I5 & I6 & I7 & I8 & E).
  cbn zeta in E. unfold frag_skb at 1. rewrite E, Fr, Fs. cbn [negb andb orb].
  unfold defrag_more. rewrite I3, I5, Ft, find_held by done. cbn [next_fn waiting]. rewrite I4, Z.eqb_refl. cbn [negb].
  rewrite append_ok by done. cbn [mbind res_bind]. unfold free_skb at 1. rewrite set_held.
  unfold waiting. cbn. rewrite wrapU_small by lia. rewrite length_app. unfold skb_len. cbn [skb_data].
  rewrite <- Nat2Z.inj_add. destruct hw. reflexivity.
Qed.

Lemma frag_last env v sn t ks c k id buf f hw : alloc_ok env -> 0 <= sn < 4096 -> 0 < k < 16 -> frag_ok t ks c f -> none_waits sn t ks hw ->
  Z.of_nat (length buf) + Z.of_nat (length (fr_body f)) <= defrag_room env ->
  rwnx_rx_get_vif (flags_vif_idx (fr_h f)) hw = Some v ->
  rwnx_rxdataind_aicwf env (fr_h f) (frag_skb sn k false f) (held (waiting sn t ks k id buf) hw) =
  give_data env v (mk_skb id (buf ++ fr_body f)) ((fr_h f) <| flags_is_amsdu := false |>) (free_skb (frag_skb sn k false f) hw).
Proof.
  intros (Ek & Ea & Er) Hs Hk [Fm Fh Fr Ft Fs Fc Fl] Hn Hroom Hv.
  destruct (ind_mpdu env (fr_h f) (fr_id f) (fr_mac f) sn k false (fr_body f) (held (waiting sn t ks k id buf) hw) Fm Hs ltac:(lia) Fl Fh)
    as (i & I1 & I2 & I3 & I4 & I5 & I6 & I7 & I8 & E).
  cbn zeta in E. unfold frag_skb at 1. rewrite E, Fr, Fs.
  replace (k =? 0) with false by (symmetry; apply Z.eqb_neq; lia). cbn [negb andb orb].
  unfold defrag_last. rewrite I3, I5, Ft, find_held by done. unfold defrag_end. cbn [next_fn waiting].
  rewrite I4, Z.eqb_refl. cbn [negb]. rewrite append_ok by done. cbn [mbind res_bind].
  replace (rwnx_rx_get_vif _ (held _ hw)) with (Some v) by (symmetry; exact Hv).
  rewrite drop_held. unfold give_data, waiting, frag_skb. cbn [df_skb skb_id skb_data].
  lazymatch goal with |- context [rwnx_rx_data_skb _ _ (df_skb ?d) _ _] => change (df_skb d) with (mk_skb id (buf ++ fr_body f)) end.
  destruct (rwnx_rx_data_skb _ _ _ _ _) as [[[] ?]|]; reflexivity.
Qed.

Lemma rx_all_step env sn k f f' fs hw : rx_all env (frags sn k (f :: f' :: fs)) hw =
  (hw ← rwnx_rxdataind_aicwf env (fr_h f) (frag_skb sn k true f) hw; rx_all env (frags sn (k + 1) (f' :: fs)) hw).
Proof. reflexivity. Qed.

Lemma frags_run env v sn t ks c h fs : alloc_ok env -> 0 <= sn < 4096 -> forall k id buf hw, fs <> [] -> Forall (frag_ok t ks c) fs ->
  0 < k -> k + Z.of_nat (length fs) <= 16 -> none_waits sn t ks hw ->
  Z.of_nat (length buf) + Z.of_nat (length (concat (fr_body <$> fs))) <= defrag_room env ->
  fr_h <$> list.last fs = Some h -> rwnx_rx_get_vif (flags_vif_idx h) hw = Some v ->
  rx_all env (frags sn k fs) (held (waiting sn t ks k id buf) hw) =
  give_data env v (mk_skb id (buf ++ concat (fr_body <$> fs))) (h <| flags_is_amsdu := false |>) (free_all (snd <$> frags sn k fs) hw).
Proof.
  intros Ha Hs. induction fs as [|f fs IH]; [done|]. intros k id buf hw _ Hf Hk Hl Hn Hr Hh Hv.
  apply Forall_cons_1 in Hf as [Hf Hfs]. cbn in Hl, Hr. rewrite length_app in Hr.
  destruct fs as [|f' fs].
  - cbn in Hh. injection Hh as <-. cbn [frags rx_all fmap list_fmap concat].
    rewrite (frag_last env v sn t ks c) by (done || lia). rewrite app_nil_r. cbn [mbind res_bind].
    unfold free_all, give_data. cbn [fold_left snd]. destruct (rwnx_rx_data_skb _ _ _ _ _) as [[[] ?]|]; reflexivity.
  - rewrite rx_all_step, (frag_next env sn t ks c) by (done || lia). cbn [mbind res_bind].
    rewrite IH; try done; try lia.
    + rewrite <- app_assoc. reflexivity.
    + rewrite length_app.
      cbn in Hr |- *.
      lia.
Qed.

(** The interface [v] is the one of the header, directly or by the station. *)
Record link_ok (h : hw_rxhdr) (v : rwnx_vif) hw : Prop := {
  lk_vif : rwnx_rx_get_vif (flags_vif_idx h) hw = Some v;
  lk_sta : flags_sta_idx h = RWNX_INVALID_STA \/
           exists st, sta_table hw !! Z.to_nat (flags_sta_idx h) = Some st /\ vlan_idx st = vif_index v;
  lk_addr : flags_is_4addr h = false
}.

Lemma link_vif h v hw : link_ok h v hw -> rx_vif h hw = Ok (Some v, hw).
Proof.
  intros [Hv Hs H4]. unfold rx_vif. rewrite Hv. destruct Hs as [-> | (st & Est & Ev)]; [done|].
  destruct (flags_sta_idx h =? RWNX_INVALID_STA); [done|]. rewrite Est. cbn. rewrite Ev, Z.eqb_refl. cbn. now rewrite H4.
Qed.

Lemma free_all_frame l hw : vif_table (free_all l hw) = vif_table hw /\ sta_table (free_all l hw) = sta_table hw /\
  defrag_list (free_all l hw) = defrag_list hw /\ next_skb (free_all l hw) = next_skb hw /\ ev (free_all l hw) = ev hw.
Proof. revert hw. induction l as [|s l IH]; intros hw; [done|]. exact (IH (free_skb s hw)). Qed.

Lemma free_all_next l hw : (free_all l hw) <| next_skb ::= Z.add 1 |> = free_all l (hw <| next_skb ::= Z.add 1 |>).
Proof. revert hw. induction l as [|s l IH]; intros hw; [done|]. exact (IH (free_skb s hw)). Qed.

Definition is_station (v : rwnx_vif) : Prop := vif_type v = IFTYPE_STATION \/ vif_type v = IFTYPE_P2P_CLIENT.

(** What a station does with the Ethernet frame of an MPDU. *)
Definition station_rx (env : ind_env) (v : rwnx_vif) (x : mac_hdr) (sn : Z) (reord : bool) (s : sk_buff) hw : res (rwnx_hw S) :=
  let give hw := Ok (upd_priv (fun p => p <| sink ::= rx_deliver s |>) hw) in
  match qos x with
  | None => give hw
  | Some t =>
      if reord then
        match reord_rxframe_alloc (priv hw) with
        | None => Ok (free_skb s hw)
        | Some (f, p) =>
            '(p, _) ← reord_process_unit (reord_env env v hw) p
                        (f <| is_ap_reord := 0 |> <| ap_fwd_cnt := 0 |> <| ap_resend_cnt := 0 |>) s sn t 1 0;
            Ok (hw <| priv := p |>)
        end
      else '(p, _) ← reord_flush_tid (reord_env env v hw) (priv hw) s t; give (hw <| priv := p |>)
  end.

Lemma give_sta env v s h hw : is_station v -> vif_is_mesh v = false -> flags_is_amsdu h = false ->
  give_data env v s h hw = Ok (upd_priv (fun p => p <| sink ::= rx_deliver s |>) hw).
Proof. intros Ht Hm Ha. unfold give_data. now rewrite data_skb_sta. Qed.

Lemma rx_sta_spec env v x sn i h s hw : is_station v -> vif_is_mesh v = false -> flags_is_amsdu h = false ->
  i_tid i = tid_of x -> is_qos i = bool_decide (qos x <> None) -> i_seq_num i = sn ->
  rx_sta env v s i h hw = station_rx env v x sn (flags_need_reord h) s hw.
Proof.
  intros Ht Hm Ha It Iq <-. unfold rx_sta, station_rx. rewrite Iq, It, Ha. unfold tid_of. destruct (qos x) as [t|]; cbn.
  - destruct (flags_need_reord h); [done|]. destruct (reord_flush_tid _ _ _ _) as [[p r]|]; [|done].
    cbn [mbind res_bind]. now apply give_sta.
  - now apply give_sta.
Qed.

(** The indication of an unfragmented MPDU at a station. *)
Lemma station_whole env v h id x sn body hw : mac_ok x -> 0 <= sn < 4096 -> (8 <= length body)%nat -> hdr_ok h x ->
  link_ok h v hw -> is_station v -> vif_is_mesh v = false ->
  rwnx_rxdataind_aicwf env h (mk_skb id (mpdu x sn 0 false body)) hw =
  station_rx env v x sn (flags_need_reord h) (mk_skb id (eth_of x body)) hw.
Proof.
  intros Hx Hs Hb Hh Hl Ht Hm. destruct (ind_mpdu env h id x sn 0 false body hw Hx Hs ltac:(lia) Hb Hh)
    as (i & I1 & I2 & I3 & I4 & I5 & I6 & I7 & I8 & E).
  cbn zeta in E. rewrite E. cbn [orb Z.eqb negb]. rewrite andb_false_r.
  rewrite (deliver_sta env v); [|apply Hh| |done].
  - rewrite (rx_sta_spec env v x sn) by done. reflexivity.
  - apply link_vif. destruct Hl. now constructor.
Qed.

(** The indication of a fragmented MSDU: what the interface does with the
    frame of all of it. *)
Lemma frags_give env v sn t ks c f0 fs h hw : alloc_ok env -> 0 <= sn < 4096 -> fs <> [] -> Forall (frag_ok t ks c) (f0 :: fs) ->
  Z.of_nat (length fs) < 16 -> none_waits sn t ks hw ->
  Z.of_nat (length (concat (fr_body <$> f0 :: fs))) + 6 <= defrag_room env ->
  fr_h <$> list.last fs = Some h -> rwnx_rx_get_vif (flags_vif_idx h) hw = Some v ->
  rx_all env (frags sn 0 (f0 :: fs)) hw =
  give_data env v (mk_skb (next_skb hw) (eth_of (fr_mac f0) (concat (fr_body <$> f0 :: fs)))) (h <| flags_is_amsdu := false |>)
    ((free_all (snd <$> frags sn 0 (f0 :: fs)) hw) <| next_skb ::= Z.add 1 |>).
Proof.
  intros Ha Hs Hne Hf Hl Hn Hr Hh Hv. apply Forall_cons_1 in Hf as [Hf Hfs].
  assert (8 <= length (fr_body f0))%nat as H8 by apply Hf. cbn in Hr. rewrite length_app in Hr.
  destruct fs as [|f fs]; [done|]. rewrite rx_all_step, (frag_first env sn t ks c 0) by (done || lia). cbn [mbind res_bind].
  change (0 + 1) with 1.
  assert (Z.of_nat (length (eth_of (fr_mac f0) (fr_body f0))) = Z.of_nat (length (fr_body f0)) + 6) as El
    by (rewrite eth_of_length by (done || apply Hf); lia).
  rewrite (frags_run env v sn t ks c h) by (done || (cbn in Hl, Hr |- *; lia)).
  rewrite free_all_next. cbn [fmap list_fmap concat]. rewrite (eth_of_app _ (fr_body f0)) by done. reflexivity.
Qed.

End Ind.
End Facts.

Module Props.
Import Rx Ind Frames Facts.

Section Props.
Context {S : Type} `{RxSinkLaws S}.
Implicit Types (hw : rwnx_hw S).



(** Fragments out of place.  A fragment that is not the next one of the
    context it belongs to is freed and changes nothing else.  Without a context,
    a last fragment passes for a whole frame, whose addresses are its header's
    and whose type is in its middle, and any other one, first or not, starts a
    context that waits for fragment 1. *)
Theorem stray_fragments env sn t ks c k f hw : alloc_ok env -> 0 <= sn < 4096 -> 0 < k < 16 -> frag_ok t ks c f -> none_waits sn t ks hw ->
  (forall n id buf more, n <> k ->
     rwnx_rxdataind_aicwf env (fr_h f) (frag_skb sn k more f) (held (waiting sn t ks n id buf) hw) =
     Ok (free_skb (frag_skb sn k more f) (held (waiting sn t ks n id buf) hw))) /\
  (forall v, link_ok (fr_h f) v hw -> is_station v -> vif_is_mesh v = false ->
     rwnx_rxdataind_aicwf env (fr_h f) (frag_skb sn k false f) hw =
     station_rx env v (fr_mac f) sn false (mk_skb (fr_id f) (eth_of (fr_mac f) (fr_body f))) hw) /\
  (Z.of_nat (length (fr_body f)) + 6 <= defrag_room env ->
     rwnx_rxdataind_aicwf env (fr_h f) (frag_skb sn k true f) hw =
     Ok (held (waiting sn t ks 1 (next_skb hw) (eth_of (fr_mac f) (fr_body f)))
           ((free_skb (frag_skb sn k true f) hw) <| next_skb ::= Z.add 1 |>))).
Proof.
  intros Ha Hs Hk Hf Hn. split_and!.
  - intros n id buf more Hne. destruct Hf as [Fm Fh Fr Ft Fs Fc Fl].
    destruct (ind_mpdu env (fr_h f) (fr_id f) (fr_mac f) sn k more (fr_body f) (held (waiting sn t ks n id buf) hw) Fm Hs ltac:(lia) Fl Fh)
      as (i & I1 & I2 & I3 & I4 & I5 & I6 & I7 & I8 & E).
    cbn zeta in E. unfold frag_skb at 1. rewrite E, Fr, Fs.
    replace (k =? 0) with false by (symmetry; apply Z.eqb_neq; lia). cbn [negb andb]. rewrite orb_true_r.
    assert ((n =? k) = false) as En by now apply Z.eqb_neq.
    destruct more.
    + unfold defrag_more. rewrite I3, I5, Ft, find_held by done. cbn [next_fn waiting]. now rewrite I4, En.
    + unfold defrag_last. rewrite I3, I5, Ft, find_held by done. unfold defrag_end. cbn [next_fn waiting]. now rewrite I4, En.
  - intros v Hl Ht Hm. destruct Hf as [Fm Fh Fr Ft Fs Fc Fl].
    destruct (ind_mpdu env (fr_h f) (fr_id f) (fr_mac f) sn k false (fr_body f) hw Fm Hs ltac:(lia) Fl Fh)
      as (i & I1 & I2 & I3 & I4 & I5 & I6 & I7 & I8 & E).
    cbn zeta in E. unfold frag_skb at 1. rewrite E, Fr, Fs.
    replace (k =? 0) with false by (symmetry; apply Z.eqb_neq; lia). cbn [negb andb orb].
    unfold defrag_last. rewrite I3, I5, Ft, (find_none sn t ks) by exact Hn.
    rewrite (deliver_sta env v); [|apply Fh|apply link_vif; destruct Hl; now constructor|done].
    rewrite (rx_sta_spec env v (fr_mac f) sn) by done. cbn [flags_need_reord]. now rewrite <- Fr.
  - intros Hr. now apply (frag_first env sn t ks c); [..|lia| | |].
Qed.

(** Whether the destination is a station of the access point [v]: the station
    of the header, or without one the addresses of the list. *)
Definition in_bss (h : hw_rxhdr) (v : rwnx_vif) (a : list Z) hw : bool :=
  if flags_dst_idx h =? RWNX_INVALID_STA then bool_decide (a ∈ ap_sta_list v)
  else match sta_table hw !! Z.to_nat (flags_dst_idx h) with
       | Some st => sta_valid st && (vlan_idx st =? vif_index v)
       | None => false
       end.
Definition mcast_addr (a : list Z) : bool := has (hd 0 a) 1.

Definition is_ap (v : rwnx_vif) : Prop := vif_type v = IFTYPE_AP \/ vif_type v = IFTYPE_P2P_GO.

(** The relay of an access point, for frames that are not reordered: a
    group-addressed frame is sent again and goes up the stack, a frame for a
    station of the access point is sent again and not seen by the host, any
    other one only goes up; in each case the buffer is given away once. *)
Theorem ap_relay env v h id x sn body hw p : mac_ok x -> 0 <= sn < 4096 -> (8 <= length body)%nat -> hdr_ok h x -> link_ok h v hw -> is_ap v ->
  flags_need_reord h = false -> e_copy_ok env = true ->
  (flags_dst_idx h = RWNX_INVALID_STA \/ is_Some (sta_table hw !! Z.to_nat (flags_dst_idx h))) ->
  let s := mk_skb id (eth_of x body) in
  match qos x with
  | Some t => reord_flush_tid (reord_env env v hw) (priv hw) s t = Ok (p, 0)
  | None => p = priv hw
  end ->
  let resent hw := log (EvResend (vif_index v) s) hw in
  let up_stack hw := upd_priv (netif_one s) hw in
  let hw' := hw <| priv := p |> in
  rwnx_rxdataind_aicwf env h (mk_skb id (mpdu x sn 0 false body)) hw =
  Ok (if mcast_addr (da x) then up_stack (resent hw')
      else if in_bss h v (da x) hw then free_skb s (resent hw')
      else up_stack hw').
Proof.
  intros Hx Hs Hb Hh Hl Ht Hr Hc Hst s Hp resent up_stack hw'.
  destruct (ind_mpdu env h id x sn 0 false body hw Hx Hs ltac:(lia) Hb Hh) as (i & I1 & I2 & I3 & I4 & I5 & I6 & I7 & I8 & E).
  cbn zeta in E. rewrite E. cbn [orb Z.eqb negb]. rewrite andb_false_r. clear E.
  set (h' := h <| flags_is_amsdu := false |>). fold s.
  unfold rx_deliver_frame. change (flags_is_80211_mpdu h') with (flags_is_80211_mpdu h). rewrite (ho_data _ _ Hh).
  rewrite (link_vif h' v hw) by (destruct Hl; now constructor). cbn [mbind res_bind].
  assert (rx_ap env v s i h' hw = ap_loop env v i h' false [s] None None hw) as Eap by reflexivity.
  assert (is_mcast s = Ok (mcast_addr (da x))) as Em.
  { unfold s. destruct Hx as [_ D _ _ _ _]. unfold eth_of, mcast_addr. destruct (da x) as [|a l]; [discriminate D|]. reflexivity. }
  assert (slice (skb_data s) 0 MAC_ADDR_LEN = Ok (da x)) as Eda.
  { apply (slice_app [] (da x)); [done|]. symmetry. apply Hx. }
  assert (ap_choice v h' false s hw = Ok (if mcast_addr (da x) then (true, true) else if in_bss h v (da x) hw then (true, false) else (false, true))) as Ech.
  { unfold ap_choice. rewrite Em. cbn [mbind res_bind]. destruct (mcast_addr (da x)); [done|]. unfold in_bss.
    change (flags_dst_idx h') with (flags_dst_idx h). destruct (flags_dst_idx h =? RWNX_INVALID_STA) eqn:Ed; cbn [negb andb].
    - rewrite Eda. reflexivity.
    - destruct Hst as [Hst|[st Est]]; [rewrite Hst in Ed; discriminate|]. rewrite Est. reflexivity. }
  assert (ap_one env v i h' false s None hw = Ok (Some None,
    if mcast_addr (da x) then up_stack (resent hw') else if in_bss h v (da x) hw then free_skb s (resent hw') else up_stack hw')) as E1.
  { unfold ap_one. rewrite Ech. cbn [mbind res_bind]. change (flags_need_reord h') with (flags_need_reord h). rewrite Hr, I5, I6.
    rewrite andb_false_r. unfold rwnx_rx_data_skb_resend. rewrite Hc.
    unfold tid_of. destruct (qos x) as [t|]; cbn [bool_decide default].
    - change (bool_decide (Some t <> None)) with true. change (Datatypes.id t) with t. cbn iota.
      destruct (mcast_addr (da x)); [|destruct (in_bss h v (da x) hw)]; cbn [mbind res_bind];
        change (reord_env env v (log ?e hw)) with (reord_env env v hw); change (priv (log ?e hw)) with (priv hw);
        rewrite Hp; reflexivity.
    - change (bool_decide (@None Z <> None)) with false. cbn iota. subst p.
      destruct (mcast_addr (da x)); [|destruct (in_bss h v (da x) hw)]; destruct hw; reflexivity. }
  assert (ap_loop env v i h' false [s] None None hw = Ok (
    if mcast_addr (da x) then up_stack (resent hw') else if in_bss h v (da x) hw then free_skb s (resent hw') else up_stack hw')) as E2
    by (cbn [ap_loop]; rewrite E1; reflexivity).
  destruct Ht as [-> | ->]; rewrite Eap; exact E2.
Qed.

End Props.
End Props.

Module Witnesses.
Import Rx Ind Frames Facts Props.

Definition p0 : aicwf_rx_priv rx_log := mk_priv [] [] 0 0 (mk_log [] []).
Definition w_env : ind_env := mk_ienv true true true (fun _ => true) true 2000.
Definition w_sta : rwnx_vif := mk_vif IFTYPE_STATION false false true 0 false false [].
Definition w_ap : rwnx_vif := mk_vif IFTYPE_AP false false true 0 false false [[2; 2; 2; 2; 2; 2]].
Definition w_hw (v : rwnx_vif) : rwnx_hw rx_log := mk_hw [Some v] [mk_sta true 0] [] p0 [] 100.
Definition w_hdr (cipher dst : Z) : hw_rxhdr := mk_rxhdr false false false false true 0 255 dst cipher false.
Definition w_mac (da : list Z) (q : option Z) : mac_hdr :=
  mk_mac false q None true (0, 0) [1; 1; 1; 1; 1; 1] da [4; 3; 3; 3; 3; 3] 3 [1; 0; 0; 32; 0; 0; 0; 0].
Definition w_body : list Z := msdu_body [8; 0] [69; 0; 0; 28].
Definition w_da : list Z := [2; 2; 2; 2; 2; 2].

Lemma w_mac_ok q : match q with Some t => 0 <= t < 16 | None => True end -> mac_ok (w_mac w_da q).
Proof. intros Hq. now constructor. Qed.
Lemma w_hdr_ok dst q : hdr_ok (w_hdr 3 dst) (w_mac w_da q).
Proof. now constructor. Qed.
Lemma w_link v dst : vif_index v = 0 -> up v = true -> link_ok (w_hdr 3 dst) v (w_hw v).
Proof. intros Hv Hu. constructor; [|now left|done]. unfold rwnx_rx_get_vif. change ((if up v then Some v else None) = Some v). now rewrite Hu. Qed.

Definition f0 : frag := mk_frag (w_hdr 3 255) (w_mac w_da None) 1 w_body.
Definition f1 : frag := mk_frag (w_hdr 3 255) (w_mac w_da None) 2 [1; 2; 3; 4; 5; 6; 7; 8].
Lemma w_frag_ok i b : (8 <= length b)%nat -> frag_ok 0 0 3 (mk_frag (w_hdr 3 255) (w_mac w_da None) i b).
Proof. intros Hb. now constructor. Qed.
Lemma w_alloc_ok : alloc_ok w_env.
Proof. now split_and!. Qed.



Lemma stray_fragments_witness :
  rwnx_rxdataind_aicwf w_env (fr_h f1) (frag_skb 5 3 false f1) (held (waiting 5 0 0 1 9 w_body) (w_hw w_sta)) =
  Ok (free_skb (frag_skb 5 3 false f1) (held (waiting 5 0 0 1 9 w_body) (w_hw w_sta))) /\
  rwnx_rxdataind_aicwf w_env (fr_h f1) (frag_skb 5 3 false f1) (w_hw w_sta) =
  Ok ((w_hw w_sta) <| priv := p0 <| sink := mk_log [mk_skb 2 [2; 2; 2; 2; 2; 2; 4; 3; 3; 3; 3; 3; 7; 8]] [] |> |>).
Proof.
  destruct (stray_fragments w_env 5 0 0 3 3 f1 (w_hw w_sta) w_alloc_ok ltac:(lia) ltac:(lia) (w_frag_ok 2 [1; 2; 3; 4; 5; 6; 7; 8] ltac:(cbn; lia)) ltac:(constructor))
    as (A & B & _).
  split; [apply A; lia|]. exact (B w_sta (w_link w_sta 255 eq_refl eq_refl) (or_introl eq_refl) eq_refl).
Defined.

Lemma ap_relay_witness :
  rwnx_rxdataind_aicwf w_env (w_hdr 3 255) (mk_skb 7 (mpdu (w_mac w_da None) 5 0 false w_body)) (w_hw w_ap) =
  Ok (free_skb (mk_skb 7 (eth_of (w_mac w_da None) w_body))
        (log (EvResend 0 (mk_skb 7 (eth_of (w_mac w_da None) w_body))) (w_hw w_ap))).
Proof.
  exact (ap_relay w_env w_ap (w_hdr 3 255) 7 (w_mac w_da None) 5 w_body (w_hw w_ap) p0
           (w_mac_ok None I) ltac:(lia) ltac:(cbn; lia) (w_hdr_ok 255 None) (w_link w_ap 255 eq_refl eq_refl) (or_introl eq_refl)
           eq_refl eq_refl (or_introl eq_refl) eq_refl).
Defined.

End Witnesses.
