(* ===== verification/BusRx.v ===== *)
(** Bus frame queues and the splitting of received transfers: [aicwf_txrxif.c].

    - [FrameQ]: the priority queues [struct frame_queue], with [A] for the
      frames, and their specification as one list in order of service.
    - [Split]: [aicwf_process_rxframes], which cuts a USB transfer into received
      frames and firmware messages; what it does with them is the class
      [RxHandlers].  The variant without preallocated buffers is modelled
      ([CONFIG_PREALLOC_RX_SKB] is off), for transfers of one frame and for
      aggregated ones ([aicwf_usb_rx_aggr]).
    - [Decode]: the hardware header [struct hw_rxhdr] in front of a received
      frame, and the handler that ties the bus to [RxInd]. *)
From stdpp Require Import base list numbers option sorting.
From Stdlib Require Import ZArith Lia.
From S2P Require Import Prelude Reorder RxInd.

#[local] Open Scope Z_scope.
#[local] Open Scope aic_scope.

Module FrameQ.
Section FrameQ.
Context {A : Type}.

(** [queuelist] has the queues that [aicwf_frame_queue_init] prepared. *)
Record frame_queue := mk_fq {
  num_prio : Z; hi_prio : Z;       (* u16 *)
  qmax : Z; qcnt : Z;              (* u16 *)
  queuelist : list (list A)
}.
#[export] Instance frame_queue_eta : RecordEta frame_queue := fun q =>
  mk_fq (num_prio q) (hi_prio q) (qmax q) (qcnt q) (queuelist q).
Implicit Types (pq : frame_queue).

Definition aicwf_frame_queue_init (n max_len : Z) : frame_queue :=
  mk_fq (u16 n) 0 (u16 max_len) 0 (replicate (Z.to_nat n) []).

Definition queue_at pq (prio : Z) : res (list A) :=
  if prio <? 0 then Fault OutOfBounds else from_option_res OutOfBounds (queuelist pq !! Z.to_nat prio).
Definition set_queue (prio : Z) (l : list A) pq : frame_queue := pq <| queuelist ::= <[Z.to_nat prio := l]> |>.

Definition aicwf_frame_queue_penq pq (prio : Z) (p : A) : res (bool * frame_queue) :=
  q ← queue_at pq prio;
  if qmax pq <=? Z.of_nat (length q) then Ok (false, pq)
  else
    let pq := (set_queue prio (q ++ [p]) pq) <| qcnt ::= fun n => u16 (n + 1) |> in
    Ok (true, if hi_prio pq <? prio then pq <| hi_prio := u16 prio |> else pq).

(** The frames that are freed, and the queue. *)
Definition aicwf_frame_queue_flush pq : list A * frame_queue :=
  let out := concat (queuelist pq) in
  (out, pq <| queuelist ::= fmap (fun _ => []) |> <| qcnt ::= fun n => u16 (n - Z.of_nat (length out)) |>).

(** The first of the queues [0 .. n - 1] with a frame, [n] if there is none. *)
Fixpoint first_busy (l : list (list A)) (n : nat) : nat :=
  match n, l with
  | Datatypes.S n, [] :: l => Datatypes.S (first_busy l n)
  | _, _ => 0%nat
  end.

(** [prio_out] and the frame; [None]: the count is 0 and [prio_out] is not written. *)
Definition aicwf_frame_queue_peek_tail pq : res (option (Z * option A)) :=
  if qcnt pq =? 0 then Ok None
  else
    let prio := Z.of_nat (first_busy (queuelist pq) (Z.to_nat (hi_prio pq))) in
    q ← queue_at pq prio;
    Ok (Some (prio, list.last q)).

Definition aicwf_is_framequeue_empty pq : res bool :=
  len ← foldM (fun p len => q ← queue_at pq (Z.of_nat p); Ok (len + Z.of_nat (length q))) (seq 0 (Datatypes.S (Z.to_nat (hi_prio pq)))) 0;
  Ok (negb (0 <? len)).

(** [while ((prio = pq->hi_prio) > 0 && skb_queue_empty(...)) pq->hi_prio--;] *)
Fixpoint lower_hi (l : list (list A)) (n : nat) : nat :=
  match n with
  | O => O
  | Datatypes.S m => match l !! n with Some [] => lower_hi l m | _ => n end
  end.

Definition aicwf_frame_dequeue pq : res (option A * frame_queue) :=
  if qcnt pq =? 0 then Ok (None, pq)
  else
    let prio := Z.of_nat (lower_hi (queuelist pq) (Z.to_nat (hi_prio pq))) in
    let pq := pq <| hi_prio := prio |> in
    q ← queue_at pq prio;
    match q with
    | [] => Ok (None, pq)
    | p :: q => Ok (Some p, (set_queue prio q pq) <| qcnt ::= fun n => u16 (n - 1) |>)
    end.

Definition aicwf_skb_dequeue_tail pq (prio : Z) : res (option A * frame_queue) :=
  q ← queue_at pq prio;
  match list.last q with
  | None => Ok (None, pq)
  | Some p => Ok (Some p, (set_queue prio (removelast q) pq) <| qcnt ::= fun n => u16 (n - 1) |>)
  end.

(** Whether the frame was taken, the frame that was freed for it, the queue. *)
Definition aicwf_frame_enq pq (pkt : A) (prio : Z) : res (bool * option A * frame_queue) :=
  q ← queue_at pq prio;
  if (Z.of_nat (length q) <? qmax pq) && (qcnt pq <? qmax pq) then
    '(_, pq) ← aicwf_frame_queue_penq pq prio pkt; Ok (true, None, pq)
  else if qmax pq <=? Z.of_nat (length q) then Ok (false, None, pq)
  else
    o ← aicwf_frame_queue_peek_tail pq;
    match o with
    | None => Ok (false, None, pq)
    | Some (prio_modified, _) =>
        if prio <=? prio_modified then Ok (false, None, pq)
        else
          '(p, pq) ← aicwf_skb_dequeue_tail pq prio_modified;
          '(ok, pq) ← aicwf_frame_queue_penq pq prio_modified pkt;
          Ok (ok, p, pq)
    end.

Definition aicwf_rxframe_enqueue pq (pkt : A) : res (bool * option A * frame_queue) := aicwf_frame_enq pq pkt 0.

End FrameQ.
Arguments frame_queue : clear implicits.
End FrameQ.

(** A frame queue as one list, in the order of service: higher priorities
    first, within one the oldest first. *)
Module FrameQSpec.
Import FrameQ.
Section Spec.
Context {A : Type}.
Implicit Types (pq : frame_queue A) (l : list (Z * A)).

Definition tagged (i : nat) (q : list A) : list (Z * A) := pair (Z.of_nat i) <$> q.
Fixpoint order_from (i : nat) (qs : list (list A)) : list (Z * A) :=
  match qs with
  | [] => []
  | q :: qs => order_from (Datatypes.S i) qs ++ tagged i q
  end.
Definition order pq : list (Z * A) := order_from 0 (queuelist pq).

(** The bounded priority list. *)
Definition pl_insert (prio : Z) (p : A) l : list (Z * A) :=
  filter (fun x => prio <= x.1) l ++ (prio, p) :: filter (fun x => x.1 < prio) l.
Definition pl_enq (cap : Z) (prio : Z) (p : A) l : bool * option A * list (Z * A) :=
  if Z.of_nat (length l) <? cap then (true, None, pl_insert prio p l)
  else match list.last l with
       | Some (v, x) => if v <? prio then (true, Some x, removelast l ++ [(v, p)]) else (false, None, l)
       | None => (false, None, l)
       end.

Record fq_wf pq : Prop := {
  fw_num : num_prio pq = Z.of_nat (length (queuelist pq));
  fw_hi : 0 <= hi_prio pq < num_prio pq;
  fw_small : num_prio pq <= 65536;
  fw_cnt : qcnt pq = Z.of_nat (length (order pq));
  fw_max : qcnt pq <= qmax pq < 65536;
  fw_top : Forall (fun x => x.1 <= hi_prio pq) (order pq)
}.

Lemma tagged_length i (q : list A) : length (tagged i q) = length q.
Proof. apply length_fmap. Qed.

Lemma order_split (qs : list (list A)) : forall i k q, qs !! k = Some q ->
  order_from i qs = order_from (i + Datatypes.S k) (drop (Datatypes.S k) qs) ++ tagged (i + k) q ++ order_from i (take k qs).
Proof.
  induction qs as [|a qs IH]; intros i k q Hk; [discriminate|]. destruct k as [|k].
  - injection Hk as ->. cbn. rewrite app_nil_r, Nat.add_1_r, Nat.add_0_r. reflexivity.
  - cbn [lookup list_lookup] in Hk. cbn [order_from]. rewrite (IH (Datatypes.S i) k q Hk). cbn [take order_from drop].
    rewrite <- !app_assoc. replace (Datatypes.S i + k)%nat with (i + Datatypes.S k)%nat by lia.
    replace (Datatypes.S i + Datatypes.S k)%nat with (i + Datatypes.S (Datatypes.S k))%nat by lia. reflexivity.
Qed.

Lemma tagged_all (P : Z -> Prop) i q : P (Z.of_nat i) -> Forall (fun x => P x.1) (tagged i q).
Proof. intros HP. apply Forall_fmap. apply Forall_true. intros p. exact HP. Qed.

Lemma order_ge (qs : list (list A)) : forall i, Forall (fun x => Z.of_nat i <= x.1) (order_from i qs).
Proof.
  induction qs as [|q qs IH]; intros i; [constructor|]. cbn [order_from]. apply Forall_app. split.
  - eapply Forall_impl; [exact (IH (Datatypes.S i))|]. cbn. lia.
  - apply (tagged_all (fun z => Z.of_nat i <= z)). lia.
Qed.

Lemma order_lt (qs : list (list A)) : forall i, Forall (fun x => x.1 < Z.of_nat (i + length qs)) (order_from i qs).
Proof.
  induction qs as [|q qs IH]; intros i; [constructor|]. cbn [order_from]. apply Forall_app. split.
  - eapply Forall_impl; [exact (IH (Datatypes.S i))|]. cbn. lia.
  - apply (tagged_all (fun z => z < Z.of_nat (i + length (q :: qs)))). cbn. lia.
Qed.

Lemma filter_none {B} (P : B -> Prop) `{forall x, Decision (P x)} (l : list B) : Forall (fun x => ~ P x) l -> filter P l = [].
Proof. induction 1 as [|a l Ha Hl IH]; [done|]. now rewrite filter_cons_False. Qed.

(** The parts of the list around the class [k]. *)
Lemma order_around pq k q : queuelist pq !! k = Some q -> exists hi lo,
  order pq = hi ++ tagged k q ++ lo /\
  (forall q', order (pq <| queuelist ::= <[k := q']> |>) = hi ++ tagged k q' ++ lo) /\
  Forall (fun x => Z.of_nat k < x.1) hi /\ Forall (fun x => x.1 < Z.of_nat k) lo.
Proof.
  intros Hk. exists (order_from (Datatypes.S k) (drop (Datatypes.S k) (queuelist pq))), (order_from 0 (take k (queuelist pq))).
  split_and!.
  - unfold order. now rewrite (order_split _ 0 k q Hk).
  - intros q'. unfold order. change (queuelist (pq <| queuelist ::= <[k := q']> |>)) with (<[k := q']> (queuelist pq)).
    rewrite (order_split _ 0 k q') by (apply list_lookup_insert_eq; now apply lookup_lt_Some in Hk).
    rewrite drop_insert_lt, take_insert_ge by lia. reflexivity.
  - eapply Forall_impl; [apply order_ge|]. cbn. lia.
  - eapply Forall_impl; [apply order_lt|]. cbn. rewrite length_take. intros [z p]. cbn. lia.
Qed.

Lemma order_elem (qs : list (list A)) : forall i x, x ∈ order_from i qs -> exists k q, x.1 = Z.of_nat (i + k) /\ qs !! k = Some q /\ x.2 ∈ q.
Proof.
  induction qs as [|q qs IH]; intros i x Hx; [inversion Hx|]. cbn [order_from] in Hx. apply elem_of_app in Hx as [Hx|Hx].
  - destruct (IH _ _ Hx) as (k & q' & E & Hk & Hin). exists (Datatypes.S k), q'. split_and!; [|done|done]. rewrite E. lia.
  - apply list_elem_of_fmap in Hx as (p & -> & Hp). exists 0%nat, q. cbn. split_and!; [lia|done|done].
Qed.

Lemma first_busy_spec (qs : list (list A)) : forall n, (n < length qs)%nat ->
  (first_busy qs n <= n)%nat /\ (forall i, (i < first_busy qs n)%nat -> qs !! i = Some []) /\
  ((first_busy qs n < n)%nat -> qs !! first_busy qs n <> Some []).
Proof.
  induction qs as [|q qs IH]; intros n Hn; [cbn in Hn; lia|]. destruct n as [|n]; [cbn; split_and!; [lia|lia|lia]|].
  destruct q as [|a q]; cbn [first_busy].
  - destruct (IH n) as (H1 & H2 & H3); [cbn in Hn; lia|]. split_and!; [lia| |intros H; apply H3; lia].
    intros [|i] Hi; [done|]. apply H2. lia.
  - split_and!; [lia|lia|]. now intros _ [=].
Qed.

Lemma lower_hi_spec (qs : list (list A)) n :
  (lower_hi qs n <= n)%nat /\ (forall i, (lower_hi qs n < i <= n)%nat -> qs !! i = Some []) /\
  ((0 < lower_hi qs n)%nat -> qs !! lower_hi qs n <> Some []).
Proof.
  induction n as [|n (H1 & H2 & H3)]; [cbn; split_and!; lia|]. cbn [lower_hi].
  destruct (qs !! Datatypes.S n) as [[|a q]|] eqn:E; [|rewrite E; split_and!; (lia || done)..].
  split_and!; [lia| |done]. intros i Hi. destruct (decide (i = Datatypes.S n)) as [-> |Hne]; [done|]. apply H2. lia.
Qed.

Lemma queue_at_ok pq prio : fq_wf pq -> 0 <= prio < num_prio pq -> exists q, queue_at pq prio = Ok q /\ queuelist pq !! Z.to_nat prio = Some q.
Proof.
  intros Hw Hp. unfold queue_at. destruct (Z.ltb_spec prio 0); [lia|].
  destruct (lookup_lt_is_Some_2 (queuelist pq) (Z.to_nat prio)) as [q Hq]; [rewrite (fw_num _ Hw) in Hp; lia|].
  exists q. rewrite Hq. done.
Qed.

(** The class [prio] of the list, and the frame put at its end. *)
Lemma pl_insert_around (k : nat) p (hi lo : list (Z * A)) q :
  Forall (fun x => Z.of_nat k < x.1) hi -> Forall (fun x => x.1 < Z.of_nat k) lo ->
  pl_insert (Z.of_nat k) p (hi ++ tagged k q ++ lo) = hi ++ tagged k (q ++ [p]) ++ lo.
Proof.
  intros Hh Hl. unfold pl_insert. rewrite !filter_app.
  rewrite (list_filter_all (fun x => Z.of_nat k <= x.1) hi) by (eapply Forall_impl; [exact Hh|]; cbn; lia).
  rewrite (list_filter_all (fun x => Z.of_nat k <= x.1) (tagged k q)) by (apply (tagged_all (fun z => Z.of_nat k <= z)); lia).
  rewrite (list_filter_all (fun x => x.1 < Z.of_nat k) lo) by exact Hl.
  rewrite (filter_none (fun x => Z.of_nat k <= x.1) lo) by (eapply Forall_impl; [exact Hl|]; cbn; lia).
  rewrite (filter_none (fun x => x.1 < Z.of_nat k) hi) by (eapply Forall_impl; [exact Hh|]; cbn; lia).
  rewrite (filter_none (fun x => x.1 < Z.of_nat k) (tagged k q)) by (apply (tagged_all (fun z => ~ z < Z.of_nat k)); lia).
  unfold tagged. rewrite fmap_app, !app_nil_r, <- !app_assoc. reflexivity.
Qed.

(** What [aicwf_frame_queue_penq] does when there is room. *)
Lemma penq_ok pq prio p q : fq_wf pq -> 0 <= prio < num_prio pq -> queuelist pq !! Z.to_nat prio = Some q -> qcnt pq < qmax pq ->
  exists pq', aicwf_frame_queue_penq pq prio p = Ok (true, pq') /\ fq_wf pq' /\ order pq' = pl_insert prio p (order pq) /\
    num_prio pq' = num_prio pq /\ qmax pq' = qmax pq.
Proof.
  intros Hw Hp Hq Hc. assert (exists k, prio = Z.of_nat k) as [k ->] by (exists (Z.to_nat prio); lia). rewrite Nat2Z.id in Hq.
  destruct (order_around pq _ _ Hq) as (hi & lo & E & Eu & Hh & Hl).
  assert (Z.of_nat (length (order pq)) < qmax pq) as Hlen by (rewrite <- (fw_cnt _ Hw); lia).
  assert (Z.of_nat (length q) < qmax pq) as Hq'.
  { rewrite E, !length_app, tagged_length in Hlen. lia. }
  unfold aicwf_frame_queue_penq, queue_at, set_queue. destruct (Z.ltb_spec (Z.of_nat k) 0); [lia|]. rewrite Nat2Z.id, Hq. cbn [from_option_res mbind res_bind].
  destruct (Z.leb_spec (qmax pq) (Z.of_nat (length q))); [lia|].
  set (pq1 := (pq <| queuelist ::= <[k := q ++ [p]]> |>) <| qcnt ::= fun n => u16 (n + 1) |>).
  assert (order pq1 = pl_insert (Z.of_nat k) p (order pq)) as Eo.
  { rewrite E. rewrite pl_insert_around by done. rewrite <- (Eu (q ++ [p])). reflexivity. }
  assert (length (order pq1) = Datatypes.S (length (order pq))) as El.
  { change (order pq1) with (order (pq <| queuelist ::= <[k := q ++ [p]]> |>)).
    rewrite Eu, E, !length_app, !tagged_length, length_app. cbn. lia. }
  destruct Hw as [W1 W2 Ws W3 W4 W5].
  assert (Forall (fun x => x.1 <= Z.max (hi_prio pq) (Z.of_nat k)) (order pq1)) as Ht.
  { change (order pq1) with (order (pq <| queuelist ::= <[k := q ++ [p]]> |>)). rewrite Eu.
    rewrite E in W5. apply Forall_app in W5 as [Wa Wb]. apply Forall_app in Wb as [_ Wb].
    rewrite !Forall_app. split_and!; [eapply Forall_impl; [exact Wa|]; cbn; lia| |eapply Forall_impl; [exact Wb|]; cbn; lia].
    apply (tagged_all (fun z => z <= Z.max (hi_prio pq) (Z.of_nat k))). lia. }
  assert (qcnt pq1 = Z.of_nat (length (order pq1))) as Hc1.
  { change (qcnt pq1) with (u16 (qcnt pq + 1)). rewrite wrapU_small, El by lia. lia. }
  assert (num_prio pq = Z.of_nat (length (queuelist pq1))) as Hn1.
  { change (queuelist pq1) with (<[k := q ++ [p]]> (queuelist pq)). now rewrite length_insert. }
  rewrite El in Hc1. change (hi_prio pq1) with (hi_prio pq). destruct (Z.ltb_spec (hi_prio pq) (Z.of_nat k)).
  - eexists. split; [reflexivity|]. split_and!; [|exact Eo|reflexivity|reflexivity].
    assert (u16 (Z.of_nat k) = Z.of_nat k) as Eu16 by (apply wrapU_small; lia).
    constructor; [exact Hn1|change (0 <= u16 (Z.of_nat k) < num_prio pq); lia|exact Ws| | |].
    + change (qcnt pq1 = Z.of_nat (length (order pq1))). rewrite El. exact Hc1.
    + change (qcnt pq1 <= qmax pq < 65536). lia.
    + change (Forall (fun x => x.1 <= u16 (Z.of_nat k)) (order pq1)). rewrite Eu16. eapply Forall_impl; [exact Ht|]. cbn. lia.
  - eexists. split; [reflexivity|]. split_and!; [|exact Eo|reflexivity|reflexivity].
    constructor; [exact Hn1|exact W2|exact Ws| | |].
    + rewrite El. exact Hc1.
    + change (qcnt pq1 <= qmax pq < 65536). lia.
    + eapply Forall_impl; [exact Ht|]. change (hi_prio pq1) with (hi_prio pq). cbn. lia.
Qed.

Lemma empty_class pq x k : x ∈ order pq -> x.1 = Z.of_nat k -> queuelist pq !! k <> Some [].
Proof.
  intros Hx Ek Hk. destruct (order_elem _ _ _ Hx) as (k' & q & E & Hq & Hin). cbn in E.
  replace k' with k in Hq by lia. rewrite Hk in Hq. injection Hq as <-. inversion Hin.
Qed.

Lemma nil_or_elem {B} (l : list B) : (forall x, x ∈ l -> False) -> l = [].
Proof. destruct l as [|a l]; [done|]. intros H. destruct (H a). left. Qed.

(** The queue [peek_tail] finds has the end of the list. *)
Lemma lowest pq : fq_wf pq -> order pq <> [] -> let v := first_busy (queuelist pq) (Z.to_nat (hi_prio pq)) in
  exists hi q x, queuelist pq !! v = Some (q ++ [x]) /\ order pq = hi ++ tagged v (q ++ [x]) /\
    (forall q', order (pq <| queuelist ::= <[v := q']> |>) = hi ++ tagged v q') /\ Z.of_nat v < num_prio pq /\
    Forall (fun x => Z.of_nat v < x.1) hi.
Proof.
  intros Hw Hne v. pose proof (fw_hi _ Hw) as Hhi. pose proof (fw_num _ Hw) as Hnum.
  destruct (first_busy_spec (queuelist pq) (Z.to_nat (hi_prio pq))) as (H1 & H2 & H3); [lia|]. fold v in H1, H2, H3.
  destruct (lookup_lt_is_Some_2 (queuelist pq) v) as [q Hq]; [lia|].
  destruct (order_around pq _ _ Hq) as (hi & lo & E & Eu & Hh & Hl).
  assert (lo = []) as ->.
  { apply nil_or_elem. intros x Hx. assert (x ∈ order pq) as Hin by (rewrite E, !elem_of_app; auto).
    destruct (order_elem _ _ _ Hin) as (k & q' & Ek & Hk & Hin'). cbn in Ek.
    assert (x.1 < Z.of_nat v) by (rewrite Forall_forall in Hl; now apply Hl). rewrite H2 in Hk by lia.
    injection Hk as <-. inversion Hin'. }
  destruct (decide (q = [])) as [-> |Hqne].
  - exfalso. destruct (decide (v < Z.to_nat (hi_prio pq))%nat) as [Hv|Hv]; [exact (H3 Hv Hq)|].
    apply Hne. rewrite E. cbn. rewrite app_nil_r. apply nil_or_elem. intros x Hx.
    assert (x ∈ order pq) as Hin by (rewrite E, elem_of_app; auto). pose proof (fw_top _ Hw) as Ht.
    rewrite Forall_forall in Ht, Hh. specialize (Ht x Hin). specialize (Hh x Hx). cbn in Ht, Hh. lia.
  - destruct (exists_last Hqne) as (q0 & x & ->). exists hi, q0, x. split_and!; [done| | |lia|exact Hh].
    + rewrite E, app_nil_r. done.
    + intros q'. rewrite Eu, app_nil_r. done.
Qed.

(** The queue [dequeue] lowers [hi_prio] to has the front of the list. *)
Lemma highest pq : fq_wf pq -> let v := lower_hi (queuelist pq) (Z.to_nat (hi_prio pq)) in
  exists q lo, queuelist pq !! v = Some q /\ order pq = tagged v q ++ lo /\
    (forall q', order (pq <| queuelist ::= <[v := q']> |>) = tagged v q' ++ lo) /\
    Z.of_nat v <= hi_prio pq /\ (q = [] -> order pq = []) /\ Forall (fun x => x.1 < Z.of_nat v) lo.
Proof.
  intros Hw v. pose proof (fw_hi _ Hw) as Hhi. pose proof (fw_num _ Hw) as Hnum.
  destruct (lower_hi_spec (queuelist pq) (Z.to_nat (hi_prio pq))) as (H1 & H2 & H3). fold v in H1, H2, H3.
  destruct (lookup_lt_is_Some_2 (queuelist pq) v) as [q Hq]; [lia|].
  destruct (order_around pq _ _ Hq) as (hi & lo & E & Eu & Hh & Hl).
  assert (hi = []) as ->.
  { apply nil_or_elem. intros x Hx. assert (x ∈ order pq) as Hin by (rewrite E, elem_of_app; auto).
    destruct (order_elem _ _ _ Hin) as (k & q' & Ek & Hk & Hin'). cbn in Ek. pose proof (fw_top _ Hw) as Ht.
    rewrite Forall_forall in Ht, Hh. specialize (Ht x Hin). specialize (Hh x Hx). cbn in Ht, Hh.
    rewrite H2 in Hk by lia. injection Hk as <-. inversion Hin'. }
  exists q, lo. split_and!; [done|exact E|exact Eu|lia| |exact Hl]. intros ->. rewrite E. cbn.
  destruct (decide (v = 0%nat)) as [Ev|Hv]; [|destruct H3; [lia|done]].
  apply nil_or_elem. intros x Hx. rewrite Forall_forall in Hl. specialize (Hl x Hx). cbn in Hl.
  assert (x ∈ order pq) as Hin by (rewrite E; cbn; done).
  destruct (order_elem _ _ _ Hin) as (k & q' & Ek & _). lia.
Qed.

Lemma dequeue_ok pq : fq_wf pq -> exists pq', aicwf_frame_dequeue pq = Ok (snd <$> head (order pq), pq') /\ fq_wf pq' /\
  order pq' = tail (order pq) /\ num_prio pq' = num_prio pq /\ qmax pq' = qmax pq.
Proof.
  intros Hw. pose proof (fw_cnt _ Hw) as Hc. unfold aicwf_frame_dequeue. destruct (Z.eqb_spec (qcnt pq) 0) as [H0|H0].
  - destruct (order pq) as [|x l] eqn:E; [|cbn in Hc; lia]. exists pq. now split_and!.
  - destruct (highest pq Hw) as (q & lo & Hq & E & Eu & Hv & He & Hl).
    set (v := lower_hi _ _) in *. unfold queue_at. cbn [queuelist field_set].
    destruct (Z.ltb_spec (Z.of_nat v) 0); [lia|]. rewrite Nat2Z.id. change (queuelist (pq <| hi_prio := Z.of_nat v |>)) with (queuelist pq).
    rewrite Hq. cbn [from_option_res mbind res_bind].
    destruct q as [|p q]; [rewrite (He eq_refl) in Hc; cbn in Hc; lia|].
    set (pq1 := pq <| queuelist ::= <[v := q]> |>). assert (order pq1 = tail (order pq)) as Et by (unfold pq1; rewrite Eu, E; reflexivity).
    assert (length (order pq) = Datatypes.S (length (order pq1))) as El by (rewrite Et, E; reflexivity).
    exists (pq1 <| hi_prio := Z.of_nat v |> <| qcnt ::= fun n => u16 (n - 1) |>).
    assert (u16 (qcnt pq - 1) = qcnt pq - 1) as Eu16 by (apply wrapU_small; pose proof (fw_max _ Hw); lia).
    split_and!; [|constructor|exact Et|reflexivity|reflexivity].
    + rewrite E. unfold set_queue. rewrite Nat2Z.id. destruct pq. reflexivity.
    + change (num_prio pq = Z.of_nat (length (<[v := q]> (queuelist pq)))). rewrite length_insert. apply Hw.
    + change (0 <= Z.of_nat v < num_prio pq). pose proof (fw_hi _ Hw). lia.
    + apply Hw.
    + change (u16 (qcnt pq - 1) = Z.of_nat (length (order pq1))). lia.
    + change (u16 (qcnt pq - 1) <= qmax pq < 65536). pose proof (fw_max _ Hw). lia.
    + change (Forall (fun x => x.1 <= Z.of_nat v) (order pq1)). rewrite Et, E. cbn. apply Forall_app. split.
      * apply (tagged_all (fun z => z <= Z.of_nat v)). lia.
      * eapply Forall_impl; [exact Hl|]. cbn. lia.
Qed.

Lemma enq_ok pq p prio : fq_wf pq -> 0 <= prio < num_prio pq ->
  exists pq', aicwf_frame_enq pq p prio = Ok ((pl_enq (qmax pq) prio p (order pq)).1, pq') /\ fq_wf pq' /\
    order pq' = (pl_enq (qmax pq) prio p (order pq)).2 /\ num_prio pq' = num_prio pq /\ qmax pq' = qmax pq.
Proof.
  intros Hw Hp. destruct (queue_at_ok pq prio Hw Hp) as (q & Eq & Hq). pose proof (fw_cnt _ Hw) as Hc. pose proof (fw_max _ Hw) as Hm.
  unfold aicwf_frame_enq. rewrite Eq. cbn [mbind res_bind].
  assert (exists hi lo, order pq = hi ++ tagged (Z.to_nat prio) q ++ lo) as (hi & lo & E).
  { destruct (order_around pq _ _ Hq) as (hi & lo & E & _). eauto. }
  assert (length (order pq) = length hi + length q + length lo)%nat as El by (rewrite E, !length_app, tagged_length; lia).
  unfold pl_enq. destruct (Z.ltb_spec (Z.of_nat (length (order pq))) (qmax pq)) as [Hlt|Hge].
  { replace ((Z.of_nat (length q) <? qmax pq) && (qcnt pq <? qmax pq)) with true by (symmetry; rewrite andb_true_iff, !Z.ltb_lt; lia).
    destruct (penq_ok pq prio p q Hw Hp Hq ltac:(lia)) as (pq' & -> & Hw' & Eo & En & Ex). exists pq'. now split_and!. }
  replace ((Z.of_nat (length q) <? qmax pq) && (qcnt pq <? qmax pq)) with false
    by (symmetry; rewrite andb_false_iff, !Z.ltb_ge; lia).
  destruct (Z.leb_spec (qmax pq) (Z.of_nat (length q))) as [Hfull|Hfull].
  { destruct hi as [|x hi], lo as [|y lo]; cbn in El; try lia. cbn in E. rewrite app_nil_r in E. exists pq.
    rewrite E. destruct (list.last (tagged _ q)) as [[v x]|] eqn:Ela; [|now split_and!].
    apply last_Some in Ela as [l' Ela]. assert ((v, x) ∈ tagged (Z.to_nat prio) q) as Hin by (rewrite Ela, elem_of_app; right; left).
    apply list_elem_of_fmap in Hin as (p' & [= -> <-] & _). destruct (Z.ltb_spec (Z.of_nat (Z.to_nat prio)) prio); [lia|]. now split_and!. }
  assert (order pq <> []) as Hne by (intros E0; rewrite E0 in Hge; cbn in Hge; lia).
  destruct (lowest pq Hw Hne) as (hi' & q0 & x & Hqv & E' & Eu & Hvn & Hhi'). set (v := first_busy _ _) in *.
  unfold aicwf_frame_queue_peek_tail. destruct (Z.eqb_spec (qcnt pq) 0); [lia|]. fold v. unfold queue_at at 1.
  destruct (Z.ltb_spec (Z.of_nat v) 0); [lia|]. rewrite Nat2Z.id, Hqv. cbn [from_option_res mbind res_bind].
  unfold tagged in E'. rewrite fmap_app in E'. cbn in E'. rewrite E', app_assoc, last_snoc, removelast_last.
  destruct (Z.leb_spec prio (Z.of_nat v)) as [Hle|Hgt].
  { destruct (Z.ltb_spec (Z.of_nat v) prio); [lia|]. exists pq. split_and!; try done. now rewrite E', app_assoc. }
  destruct (Z.ltb_spec (Z.of_nat v) prio); [|lia]. unfold aicwf_skb_dequeue_tail, queue_at at 1.
  destruct (Z.ltb_spec (Z.of_nat v) 0); [lia|]. rewrite Nat2Z.id, Hqv. cbn [from_option_res mbind res_bind]. rewrite last_snoc, removelast_last.
  cbn [mbind res_bind]. set (pq1 := (set_queue (Z.of_nat v) q0 pq) <| qcnt ::= fun n => u16 (n - 1) |>).
  assert (order pq1 = hi' ++ tagged v q0) as Eo1.
  { unfold pq1, set_queue. rewrite Nat2Z.id. exact (Eu q0). }
  assert (length (order pq) = Datatypes.S (length (order pq1))) as El1.
  { rewrite E', Eo1, !length_app. cbn. rewrite length_fmap, tagged_length. lia. }
  assert (qcnt pq1 = qcnt pq - 1) as Hc1 by (change (qcnt pq1) with (u16 (qcnt pq - 1)); apply wrapU_small; lia).
  assert (queuelist pq1 !! v = Some q0) as Hq1.
  { unfold pq1, set_queue. rewrite Nat2Z.id. apply list_lookup_insert_eq. now apply lookup_lt_Some in Hqv. }
  assert (fq_wf pq1) as Hw1.
  { destruct Hw as [W1 W2 Ws W3 W4 W5]. constructor.
    - change (num_prio pq = Z.of_nat (length (<[Z.to_nat (Z.of_nat v) := q0]> (queuelist pq)))). now rewrite length_insert.
    - exact W2.
    - exact Ws.
    - lia.
    - change (qcnt pq1 <= qmax pq < 65536). lia.
    - change (hi_prio pq1) with (hi_prio pq). rewrite Eo1. rewrite E' in W5. unfold tagged. rewrite app_assoc in W5.
      now apply Forall_app in W5 as [W5 _]. }
  destruct (penq_ok pq1 (Z.of_nat v) p q0 Hw1) as (pq' & Ep & Hw' & Eo & En & Ex).
  { change (num_prio pq1) with (num_prio pq). lia. }
  { now rewrite Nat2Z.id. }
  { rewrite Hc1. change (qmax pq1) with (qmax pq). lia. }
  rewrite Ep. cbn [mbind res_bind]. exists pq'. split_and!; try done. rewrite Eo, Eo1.
  rewrite <- (app_nil_r (tagged v q0)).
  rewrite pl_insert_around by (done || constructor). unfold tagged. rewrite fmap_app, app_nil_r. cbn. now rewrite app_assoc.
Qed.

Lemma order_from_app (l1 : list (list A)) : forall i (l2 : list (list A)), order_from i (l1 ++ l2) = order_from (i + length l1) l2 ++ order_from i l1.
Proof.
  induction l1 as [|q l1 IH]; intros i l2; cbn; [now rewrite Nat.add_0_r, app_nil_r|].
  rewrite IH, <- app_assoc. replace (Datatypes.S i + length l1)%nat with (i + Datatypes.S (length l1))%nat by lia. reflexivity.
Qed.

Lemma order_low pq : fq_wf pq -> order pq = order_from 0 (take (Datatypes.S (Z.to_nat (hi_prio pq))) (queuelist pq)).
Proof.
  intros Hw. pose proof (fw_hi _ Hw). pose proof (fw_num _ Hw). pose proof (fw_top _ Hw) as Ht. unfold order in *.
  set (n := Datatypes.S _) in *. rewrite <- (take_drop n (queuelist pq)) in Ht |- * at 1. rewrite order_from_app in Ht |- *.
  rewrite length_take_le in Ht |- * by lia. apply Forall_app in Ht as [Ht _].
  rewrite (nil_or_elem (order_from (0 + n) _)); [done|]. intros x Hx. pose proof (order_ge (drop n (queuelist pq)) (0 + n)) as Hge.
  rewrite Forall_forall in Ht, Hge. specialize (Ht x Hx). specialize (Hge x Hx). cbn in Ht, Hge. lia.
Qed.

Lemma empty_ok pq : fq_wf pq -> aicwf_is_framequeue_empty pq = Ok (bool_decide (order pq = [])).
Proof.
  intros Hw. pose proof (fw_hi _ Hw). pose proof (fw_num _ Hw).
  unfold aicwf_is_framequeue_empty. set (f := fun (p : nat) (len : Z) => _).
  assert (forall n, (n <= length (queuelist pq))%nat -> foldM f (seq 0 n) 0 = Ok (Z.of_nat (length (order_from 0 (take n (queuelist pq)))))) as Hsum.
  { induction n as [|n IH]; intros Hn; [reflexivity|]. rewrite seq_S, foldM_app, IH by lia. cbn [mbind res_bind foldM].
    destruct (lookup_lt_is_Some_2 (queuelist pq) n) as [q Hq]; [lia|]. unfold f, queue_at.
    destruct (Z.ltb_spec (Z.of_nat (0 + n)) 0); [lia|]. rewrite Nat2Z.id. cbn [Nat.add]. rewrite Hq. cbn [from_option_res mbind res_bind].
    rewrite (take_S_r _ _ _ Hq), order_from_app. cbn. rewrite length_app, tagged_length. f_equal. lia. }
  rewrite Hsum by lia. cbn [mbind res_bind]. f_equal. rewrite <- order_low by done.
  destruct (order pq) as [|x l]; [reflexivity|]. cbn [length]. destruct (Z.ltb_spec 0 (Z.of_nat (Datatypes.S (length l)))); [done|lia].
Qed.

Lemma order_perm (qs : list (list A)) : forall i, (order_from i qs).*2 ≡ₚ concat qs.
Proof.
  induction qs as [|q qs IH]; intros i; [done|]. cbn [order_from concat]. rewrite fmap_app, IH, Permutation_app_comm.
  f_equiv. unfold tagged. rewrite <- list_fmap_compose. rewrite (list_fmap_ext _ id), list_fmap_id; done.
Qed.

Lemma flush_ok pq : fq_wf pq -> (aicwf_frame_queue_flush pq).1 ≡ₚ (order pq).*2 /\ order (aicwf_frame_queue_flush pq).2 = [] /\
  fq_wf (aicwf_frame_queue_flush pq).2.
Proof.
  intros Hw. assert (forall i, order_from i ((fun _ : list A => []) <$> queuelist pq) = []) as Hnil.
  { induction (queuelist pq) as [|q qs IH]; intros i; [done|]. cbn. now rewrite IH. }
  assert (Z.of_nat (length (concat (queuelist pq))) = qcnt pq) as Hl.
  { rewrite (fw_cnt _ Hw). unfold order. rewrite <- (order_perm (queuelist pq) 0). now rewrite length_fmap. }
  split_and!; [symmetry; apply order_perm|apply Hnil|]. destruct Hw as [W1 W2 Ws W3 W4 W5].
  unfold aicwf_frame_queue_flush. cbn [snd]. constructor.
  - change (num_prio pq = Z.of_nat (length ((fun _ : list A => @nil A) <$> queuelist pq))). now rewrite length_fmap.
  - exact W2.
  - exact Ws.
  - change (u16 (qcnt pq - Z.of_nat (length (concat (queuelist pq)))) = Z.of_nat (length (order_from 0 ((fun _ : list A => @nil A) <$> queuelist pq)))).
    rewrite Hnil, Hl, Z.sub_diag. reflexivity.
  - change (u16 (qcnt pq - Z.of_nat (length (concat (queuelist pq)))) <= qmax pq < 65536). rewrite Hl, Z.sub_diag.
    rewrite W3 in W4. change (u16 0) with 0. lia.
  - change (Forall (fun x => x.1 <= hi_prio pq) (order_from 0 ((fun _ : list A => @nil A) <$> queuelist pq))). rewrite Hnil. constructor.
Qed.

Lemma queue_init_ok n m : 0 < n < 65536 -> 0 <= m < 65536 -> fq_wf (aicwf_frame_queue_init n m) /\ order (aicwf_frame_queue_init n m) = [].
Proof.
  intros Hn Hm. assert (forall k i, order_from i (replicate k (@nil A)) = []) as Hnil.
  { induction k as [|k IH]; intros i; [done|]. cbn. now rewrite IH. }
  split; [|apply Hnil]. unfold aicwf_frame_queue_init. rewrite !wrapU_small by lia.
  constructor; cbn [num_prio hi_prio qmax qcnt queuelist]; [rewrite length_replicate; lia|lia|lia| |lia|].
  - unfold order. cbn [queuelist]. now rewrite Hnil.
  - unfold order. cbn [queuelist]. rewrite Hnil. constructor.
Qed.

(** The operations, and their outcomes. *)
Inductive fq_op := Enq (prio : Z) (p : A) | Deq | IsEmpty | Flush.
Inductive fq_out := OEnq (taken : bool) (freed : option A) | ODeq (p : option A) | OEmpty (b : bool) | OFlush.

Definition fq_step (op : fq_op) pq : res (fq_out * frame_queue A) :=
  match op with
  | Enq prio p => '(b, o, pq) ← aicwf_frame_enq pq p prio; Ok (OEnq b o, pq)
  | Deq => '(p, pq) ← aicwf_frame_dequeue pq; Ok (ODeq p, pq)
  | IsEmpty => b ← aicwf_is_framequeue_empty pq; Ok (OEmpty b, pq)
  | Flush => Ok (OFlush, (aicwf_frame_queue_flush pq).2)
  end.
Definition pl_step (cap : Z) (op : fq_op) l : fq_out * list (Z * A) :=
  match op with
  | Enq prio p => let '(b, o, l') := pl_enq cap prio p l in (OEnq b o, l')
  | Deq => (ODeq (snd <$> head l), tail l)
  | IsEmpty => (OEmpty (bool_decide (l = [])), l)
  | Flush => (OFlush, [])
  end.

Fixpoint fq_run (ops : list fq_op) pq : res (list fq_out * frame_queue A) :=
  match ops with
  | [] => Ok ([], pq)
  | op :: ops => '(o, pq) ← fq_step op pq; '(os, pq) ← fq_run ops pq; Ok (o :: os, pq)
  end.
Fixpoint pl_run (cap : Z) (ops : list fq_op) l : list fq_out * list (Z * A) :=
  match ops with
  | [] => ([], l)
  | op :: ops => let '(o, l) := pl_step cap op l in let '(os, l) := pl_run cap ops l in (o :: os, l)
  end.

Definition op_ok (n : Z) (op : fq_op) : Prop := match op with Enq prio _ => 0 <= prio < n | _ => True end.

Lemma queue_step_ok op pq : fq_wf pq -> op_ok (num_prio pq) op ->
  exists pq', fq_step op pq = Ok ((pl_step (qmax pq) op (order pq)).1, pq') /\ fq_wf pq' /\
    order pq' = (pl_step (qmax pq) op (order pq)).2 /\ num_prio pq' = num_prio pq /\ qmax pq' = qmax pq.
Proof.
  intros Hw Ho. destruct op as [prio p| | |]; cbn [fq_step pl_step].
  - destruct (enq_ok pq p prio Hw Ho) as (pq' & -> & Hw' & Eo & En & Ex). exists pq'.
    destruct (pl_enq _ _ _ _) as [[b o] l]. now split_and!.
  - destruct (dequeue_ok pq Hw) as (pq' & -> & Hw' & Eo & En & Ex). exists pq'. now split_and!.
  - rewrite empty_ok by done. exists pq. now split_and!.
  - destruct (flush_ok pq Hw) as (_ & Eo & Hw'). eexists. now split_and!.
Qed.

End Spec.
Arguments fq_op : clear implicits.
Arguments fq_out : clear implicits.
End FrameQSpec.

Module Split.
Import Rx.

Definition USB_TYPE_CFG : Z := 16.
Definition USB_TYPE_CFG_CMD_RSP : Z := 17.
Definition USB_TYPE_CFG_DATA_CFM : Z := 18.
Definition USB_TYPE_CFG_PRINT : Z := 19.
Definition RX_HWHRD_LEN : Z := 60.
Definition CCMP_OR_WEP_INFO : Z := 8.
Definition RX_ALIGNMENT : Z := 4.

(** What takes the parts of a transfer: [rwnx_rxdataind_aicwf], [rwnx_rx_handle_msg],
    [aicwf_usb_host_tx_cfm_handler] and [rwnx_rx_handle_print]. *)
Class RxHandlers (T : Type) := {
  on_data : list Z -> T -> res T;
  on_cmd_rsp : list Z -> T -> res T;
  on_data_cfm : list Z -> T -> res T;
  on_print : list Z -> T -> res T
}.

Record split_env := mk_senv { s_bus_up : bool; s_skb_ok : Z -> bool; s_kmalloc_ok : bool }.

(** How a transfer ends: it is freed and counted off; the function returns
    [-EBADE] and it is freed only; it is dropped without being freed. *)
Inductive verdict := Next | Ebade | Leak.

Section Split.
Context {T : Type} `{RxHandlers T}.

Definition aicwf_another_ptk (d : list Z) : bool :=
  match d with a :: b :: _ => negb (a + b * 256 =? 0) | _ => false end.

Definition adjust_len (aggr_len : Z) : Z := u16 (if has aggr_len (RX_ALIGNMENT - 1) then roundup4 aggr_len else aggr_len).

(** A firmware message behind its four bytes of header. *)
Definition dispatch_cfg (env : split_env) (msg : list Z) (t : T) : res T :=
  b ← rd8 msg 2;
  let ty := Z.land b 127 in
  t ← (if (ty =? USB_TYPE_CFG_CMD_RSP) && s_bus_up env then on_cmd_rsp (drop 4 msg) t else Ok t);
  t ← (if ty =? USB_TYPE_CFG_DATA_CFM then on_data_cfm (drop 4 msg) t else Ok t);
  if ty =? USB_TYPE_CFG_PRINT then on_print (drop 4 msg) t else Ok t.

Definition is_data (b : Z) : bool := negb (Z.land b USB_TYPE_CFG =? USB_TYPE_CFG).

(** The loop over an aggregated transfer. *)
Fixpoint split_loop (fuel : nat) (env : split_env) (d : list Z) (t : T) : res (verdict * T) :=
  match fuel with
  | O => Fault OutOfFuel
  | Datatypes.S fuel =>
      if negb (aicwf_another_ptk d) then Ok (Next, t) else
      pkt_len ← le16 d 0;
      if Z.of_nat (length d) <? pkt_len then Ok (Next, t) else
      ty ← rd8 d 2;
      if is_data ty then
        let aggr_len := u16 (pkt_len + RX_HWHRD_LEN) in
        if negb (s_skb_ok env (aggr_len + CCMP_OR_WEP_INFO)) then split_loop fuel env (skb_pull aggr_len d) t
        else
          b ← slice d 0 (Z.to_nat aggr_len);
          t ← on_data b t;
          split_loop fuel env (skb_pull aggr_len d) t
      else
        if negb (s_kmalloc_ok env) then Ok (Ebade, t)
        else
          msg ← slice d 0 (Z.to_nat (pkt_len + 4));
          t ← dispatch_cfg env msg t;
          split_loop fuel env (skb_pull (adjust_len pkt_len + 4) d) t
  end.

(** A transfer of one frame or message. *)
Definition split_single (env : split_env) (d : list Z) (t : T) : res (verdict * T) :=
  pkt_len ← le16 d 0;
  if Z.of_nat (length d) <? pkt_len then Ok (Next, t) else
  ty ← rd8 d 2;
  if is_data ty then t ← on_data d t; Ok (Next, t)
  else if negb (s_kmalloc_ok env) then Ok (Ebade, t)
  else msg ← slice d 0 (Z.to_nat (pkt_len + 4)); t ← dispatch_cfg env msg t; Ok (Next, t).

(** A transfer of the message endpoint ([aicwf_process_msg_rxframes]). *)
Definition split_msg (env : split_env) (d : list Z) (t : T) : res (verdict * T) :=
  pkt_len ← le16 d 0;
  ty ← rd8 d 2;
  if is_data ty then
    let aggr_len := u16 (pkt_len + RX_HWHRD_LEN) in
    if negb (s_skb_ok env (aggr_len + CCMP_OR_WEP_INFO)) then Ok (Leak, t)
    else b ← slice d 0 (Z.to_nat aggr_len); t ← on_data b t; Ok (Next, t)
  else if negb (s_kmalloc_ok env) then Ok (Ebade, t)
  else msg ← slice d 0 (Z.to_nat (pkt_len + 4)); t ← dispatch_cfg env msg t; Ok (Next, t).

(** What [aicwf_process_rxframes] does with one transfer of its queue. *)
Definition process_rxframe (aicwf_usb_rx_aggr : bool) (env : split_env) (d : list Z) (t : T) : res (verdict * T) :=
  if aicwf_usb_rx_aggr then split_loop (Datatypes.S (length d)) env d t else split_single env d t.

End Split.
End Split.

(** The format of a transfer. *)
Module Transfer.
Import Rx Split.

(** A received frame: its type byte, the rest of the hardware header and the
    MPDU; or a firmware message: its type and fourth byte, and the payload. *)
Inductive item :=
| Data (ty : Z) (hdr : list Z) (body : list Z)
| Cfg (ty b3 : Z) (payload : list Z).

Definition len_bytes (n : nat) : list Z := [Z.of_nat n mod 256; Z.of_nat n / 256].
Definition pad (n : nat) : list Z := replicate (Z.to_nat (roundup4 (Z.of_nat n)) - n) 0.

Definition head_bytes (x : item) : list Z :=
  match x with
  | Data ty hdr body => len_bytes (length body) ++ [ty] ++ hdr ++ body
  | Cfg ty b3 payload => len_bytes (length payload) ++ [ty; b3] ++ payload
  end.
Definition enc (x : item) : list Z :=
  match x with
  | Data _ _ _ => head_bytes x
  | Cfg _ _ payload => head_bytes x ++ pad (length payload)
  end.

Record item_ok (x : item) : Prop := {
  io_type : match x with Data ty _ _ => is_data ty = true | Cfg ty _ _ => is_data ty = false end;
  io_len : match x with
           | Data _ hdr body => length hdr = 57%nat /\ (0 < length body)%nat /\ Z.of_nat (length body) < 65476
           | Cfg _ _ payload => (0 < length payload)%nat /\ Z.of_nat (length payload) < 65532
           end
}.

(** What follows the last item: nothing, one byte, or a length of zero. *)
Definition ends (d : list Z) : Prop := match d with a :: b :: _ => a + b * 256 = 0 | _ => True end.

Section Transfer.
Context {T : Type} `{RxHandlers T}.

(** One item handed to whom it is for. *)
Definition handle (env : split_env) (x : item) (t : T) : res T :=
  match x with
  | Data _ _ _ => on_data (enc x) t
  | Cfg _ _ _ => dispatch_cfg env (head_bytes x) t
  end.

Lemma len_bytes_join n rest : le16 (len_bytes n ++ rest) 0 = Ok (Z.of_nat n).
Proof.
  change (Ok (Z.of_nat n mod 256 + Z.of_nat n / 256 * 256) = Ok (Z.of_nat n)). f_equal. Z.div_mod_to_equations. lia.
Qed.

Lemma another n rest : (0 < n)%nat -> aicwf_another_ptk (len_bytes n ++ rest) = true.
Proof.
  intros Hn. change (negb (Z.of_nat n mod 256 + Z.of_nat n / 256 * 256 =? 0) = true). apply negb_true_iff, Z.eqb_neq.
  Z.div_mod_to_equations. lia.
Qed.

Lemma not_another d : ends d -> aicwf_another_ptk d = false.
Proof. destruct d as [|a [|b d]]; [done|done|]. cbn. intros ->. done. Qed.

Lemma skb_pull_app a rest n : n = Z.of_nat (length a) -> skb_pull n (a ++ rest) = rest.
Proof.
  intros ->. unfold skb_pull. rewrite length_app. destruct (Z.ltb_spec (Z.of_nat (length a + length rest)) (Z.of_nat (length a))); [lia|].
  rewrite Nat2Z.id. apply drop_app_length.
Qed.

Lemma slice_front a rest n : n = Z.of_nat (length a) -> slice (a ++ rest) 0 (Z.to_nat n) = Ok a.
Proof. intros ->. apply (slice_app [] a rest); [done|lia]. Qed.

Lemma roundup4_bounds n : 0 <= n -> n <= roundup4 n < n + 4 /\ roundup4 n mod 4 = 0.
Proof.
  intros Hn. unfold roundup4. rewrite Z.mod_mul by lia. pose proof (Z.div_mod (n + 3) 4). pose proof (Z.mod_pos_bound (n + 3) 4). lia.
Qed.

Lemma adjust_ok n : 0 <= n < 65532 -> adjust_len n = roundup4 n.
Proof.
  intros Hn. destruct (roundup4_bounds n) as [Hb Hm]; [lia|]. unfold adjust_len. change (RX_ALIGNMENT - 1) with (Z.ones 2).
  unfold has. rewrite Z.land_ones by lia. change (2 ^ 2) with 4. destruct (Z.eqb_spec (n mod 4) 0) as [E|E]; cbn [negb].
  - rewrite wrapU_small by lia. Z.div_mod_to_equations. lia.
  - apply wrapU_small. lia.
Qed.

Definition allocs (env : split_env) : Prop := (forall n, s_skb_ok env n = true) /\ s_kmalloc_ok env = true.

Lemma enc_front x : item_ok x -> exists n b rest, enc x = len_bytes n ++ b :: rest /\ (0 < n)%nat /\
  is_data b = match x with Data _ _ _ => true | Cfg _ _ _ => false end /\
  n = match x with Data _ _ body => length body | Cfg _ _ payload => length payload end /\ (n <= length rest)%nat.
Proof.
  intros [Ht Hl]. destruct x as [ty hdr body|ty b3 payload]; cbn [enc head_bytes].
  - destruct Hl as (Hh & Hb & Hm). exists (length body), ty, (hdr ++ body). rewrite length_app. split_and!; (done || lia).
  - destruct Hl as (Hb & Hm). exists (length payload), ty, (b3 :: payload ++ pad (length payload)).
    cbn [length]. rewrite length_app. split_and!; [|done|done|done|lia]. now rewrite <- !app_assoc.
Qed.

Lemma enc_data_length ty hdr body : length hdr = 57%nat -> length (enc (Data ty hdr body)) = (length body + 60)%nat.
Proof. intros Hh. cbn [enc head_bytes]. rewrite !length_app, Hh. cbn. lia. Qed.

Lemma head_cfg_length ty b3 payload : length (head_bytes (Cfg ty b3 payload)) = (length payload + 4)%nat.
Proof. cbn. lia. Qed.

Lemma enc_cfg_length ty b3 payload : Z.of_nat (length (enc (Cfg ty b3 payload))) = roundup4 (Z.of_nat (length payload)) + 4.
Proof.
  cbn [enc]. rewrite length_app, head_cfg_length. unfold pad. rewrite length_replicate.
  destruct (roundup4_bounds (Z.of_nat (length payload))); lia.
Qed.

(** One round of the loop on a well-formed transfer. *)
Lemma split_step env fuel x rest t : allocs env -> item_ok x ->
  split_loop (Datatypes.S fuel) env (enc x ++ rest) t = (t ← handle env x t; split_loop fuel env rest t).
Proof.
  intros [Hs Hk] Hx. destruct (enc_front x Hx) as (n & b & r & E & Hn & Hd & En & Hr). cbn [split_loop].
  replace (aicwf_another_ptk (enc x ++ rest)) with true by (rewrite E, <- app_assoc; symmetry; now apply another).
  replace (le16 (enc x ++ rest) 0) with (Ok (A := Z) (Z.of_nat n)) by (rewrite E, <- app_assoc; symmetry; apply len_bytes_join).
  replace (rd8 (enc x ++ rest) 2) with (Ok (A := Z) b) by (rewrite E, <- app_assoc; reflexivity).
  cbn [negb mbind res_bind].
  destruct (Z.ltb_spec (Z.of_nat (length (enc x ++ rest))) (Z.of_nat n)) as [Hlt|_].
  { rewrite E, !length_app in Hlt. cbn in Hlt. lia. }
  rewrite Hd. destruct Hx as [_ Hl]. destruct x as [ty hdr body|ty b3 payload]; cbn [handle]; subst n.
  - destruct Hl as (Hh & Hb & Hm). rewrite Hs. cbn [negb].
    assert (u16 (Z.of_nat (length body) + RX_HWHRD_LEN) = Z.of_nat (length (enc (Data ty hdr body)))) as ->.
    { rewrite enc_data_length by done. unfold RX_HWHRD_LEN. rewrite wrapU_small by lia. lia. }
    rewrite slice_front, skb_pull_app by done. reflexivity.
  - destruct Hl as (Hb & Hm). rewrite Hk. cbn [negb]. rewrite adjust_ok by lia. rewrite <- (enc_cfg_length ty b3 payload).
    rewrite skb_pull_app by done. cbn [enc]. rewrite <- app_assoc.
    rewrite (slice_front (head_bytes (Cfg ty b3 payload))) by (rewrite head_cfg_length; lia). reflexivity.
Qed.

Lemma split_items env xs tl : allocs env -> Forall item_ok xs -> ends tl -> forall fuel t, (length xs < fuel)%nat ->
  split_loop fuel env (concat (enc <$> xs) ++ tl) t = (t ← foldM (handle env) xs t; Ok (Next, t)).
Proof.
  intros Ha Hxs Ht. induction xs as [|x xs IH]; intros fuel t Hf; (destruct fuel as [|fuel]; [cbn in Hf; lia|]).
  - cbn [fmap list_fmap concat app split_loop foldM mbind res_bind]. now rewrite not_another.
  - apply Forall_cons_1 in Hxs as [Hx Hxs]. cbn [fmap list_fmap concat foldM]. rewrite <- app_assoc, split_step by done.
    destruct (handle env x t) as [t'|f]; [|reflexivity]. cbn [mbind res_bind]. apply IH; [done|]. cbn in Hf. lia.
Qed.

Lemma items_length xs : Forall item_ok xs -> (length xs <= length (concat (enc <$> xs)))%nat.
Proof.
  induction 1 as [|x xs Hx Hxs IH]; [done|]. cbn. rewrite length_app. destruct (enc_front x Hx) as (n & b & r & -> & _).
  cbn. lia.
Qed.

(** The last message of a transfer without all of its padding: [skb_pull] fails
    and the loop does not get past it. *)
Definition jammed (d : list Z) : Prop := exists w ty,
  le16 d 0 = Ok w /\ 0 < w < 65532 /\ rd8 d 2 = Ok ty /\ is_data ty = false /\ w + 4 <= Z.of_nat (length d) < roundup4 w + 4.

Lemma another_le16 d w : le16 d 0 = Ok w -> aicwf_another_ptk d = negb (w =? 0).
Proof. destruct d as [|a [|b d]]; [discriminate|discriminate|]. now intros [= <-]. Qed.

Lemma another_true d : aicwf_another_ptk d = true -> exists w, le16 d 0 = Ok w /\ w <> 0.
Proof.
  destruct d as [|a [|b d]]; [discriminate|discriminate|]. cbn [aicwf_another_ptk]. intros Hn. exists (a + b * 256).
  split; [reflexivity|]. now apply negb_true_iff, Z.eqb_neq in Hn.
Qed.

Lemma split_jammed env d : s_kmalloc_ok env = true -> jammed d -> (forall a b c msg t, exists t', dispatch_cfg env (a :: b :: c :: msg) t = Ok t') ->
  forall fuel t, split_loop fuel env d t = Fault OutOfFuel.
Proof.
  intros Hk (w & ty & Ew & Hw & Ety & Hty & Hl) Hd fuel. induction fuel as [|fuel IH]; intros t; [done|].
  cbn [split_loop]. rewrite (another_le16 _ _ Ew). destruct (Z.eqb_spec w 0); [lia|]. cbn [negb]. rewrite Ew, Ety. cbn [mbind res_bind].
  destruct (Z.ltb_spec (Z.of_nat (length d)) w); [lia|]. rewrite Hty, Hk. cbn [negb].
  unfold slice. replace ((0 <=? 0) && (0 + Z.of_nat (Z.to_nat (w + 4)) <=? Z.of_nat (length d))) with true
    by (symmetry; rewrite andb_true_iff, !Z.leb_le; lia).
  cbn [mbind res_bind]. assert (exists t', dispatch_cfg env (take (Z.to_nat (w + 4)) (drop (Z.to_nat 0) d)) t = Ok t') as [t' ->].
  { destruct d as [|a [|b [|c d]]]; [cbn in Hl; lia..|]. change (Z.to_nat 0) with 0%nat. cbn [drop].
    destruct (Z.to_nat (w + 4)) as [|[|[|k]]] eqn:En; [lia..|]. apply Hd. }
  cbn [mbind res_bind].
  rewrite adjust_ok by lia. unfold skb_pull. destruct (Z.ltb_spec (Z.of_nat (length d)) (roundup4 w + 4)); [apply IH|lia].
Qed.

Definition handlers_end (env : split_env) : Prop :=
  (forall b t, on_data b t <> Fault OutOfFuel) /\ (forall msg t, dispatch_cfg env msg t <> Fault OutOfFuel).

Lemma le16_range d w : Forall (fun b => 0 <= b < 256) d -> le16 d 0 = Ok w -> 0 <= w < 65536.
Proof.
  intros Hb. destruct d as [|a [|b d]]; [discriminate|discriminate|]. intros [= <-].
  apply Forall_cons_1 in Hb as [Ha Hb]. apply Forall_cons_1 in Hb as [Hb _]. lia.
Qed.

Lemma rd8_not_fuel (d : list Z) i : rd8 d i <> Fault OutOfFuel.
Proof. intros E. now apply rd8_fault in E. Qed.

Lemma split_ends env fuel : allocs env -> handlers_end env -> forall d t, (length d < fuel)%nat -> Z.of_nat (length d) < 65476 ->
  Forall (fun b => 0 <= b < 256) d -> split_loop fuel env d t = Fault OutOfFuel -> exists pre r, d = pre ++ r /\ jammed r.
Proof.
  intros [Hs Hk] [Hd Hc]. induction fuel as [|fuel IH]; intros d t Hf Hm Hb; [lia|]. cbn [split_loop].
  destruct (aicwf_another_ptk d) eqn:Ea; [|discriminate]. cbn [negb]. destruct (another_true d Ea) as (w & Ew & Hw0). rewrite Ew. cbn [mbind res_bind].
  pose proof (le16_range _ _ Hb Ew) as Hw. destruct (Z.ltb_spec (Z.of_nat (length d)) w) as [|Hlen]; [discriminate|].
  destruct (rd8 d 2) as [ty|f] eqn:Ety; cbn [mbind res_bind]; [|intros [= ->]; now destruct (rd8_not_fuel d 2)].
  assert (forall n, 0 < n -> n <= Z.of_nat (length d) -> forall t, split_loop fuel env (skb_pull n d) t = Fault OutOfFuel ->
    exists pre r, d = pre ++ r /\ jammed r) as Hrec.
  { intros n Hn Hle t' E. unfold skb_pull in E. destruct (Z.ltb_spec (Z.of_nat (length d)) n); [lia|].
    destruct (IH (drop (Z.to_nat n) d) t') as (pre & r & Er & Hj); [rewrite length_drop; lia|rewrite length_drop; lia|now apply Forall_drop|done|].
    exists (take (Z.to_nat n) d ++ pre), r. split; [|done]. now rewrite <- app_assoc, <- Er, take_drop. }
  destruct (is_data ty) eqn:Hty.
  - rewrite Hs. cbn [negb]. unfold RX_HWHRD_LEN. rewrite wrapU_small by lia. unfold slice.
    destruct (Z.leb_spec (0 + Z.of_nat (Z.to_nat (w + 60))) (Z.of_nat (length d))); cbn [andb Z.leb Z.compare mbind res_bind]; [|discriminate].
    match goal with |- context [on_data ?b t] => destruct (on_data b t) as [t'|f] eqn:E; cbn [mbind res_bind]; [|intros [= ->]; now destruct (Hd b t)] end.
    apply Hrec; lia.
  - rewrite Hk. cbn [negb]. unfold slice.
    destruct (Z.leb_spec (0 + Z.of_nat (Z.to_nat (w + 4))) (Z.of_nat (length d))); cbn [andb Z.leb Z.compare mbind res_bind]; [|discriminate].
    match goal with |- context [dispatch_cfg env ?m t] => destruct (dispatch_cfg env m t) as [t'|f] eqn:E; cbn [mbind res_bind]; [|intros [= ->]; now destruct (Hc m t)] end.
    rewrite adjust_ok by lia. destruct (Z.ltb_spec (Z.of_nat (length d)) (roundup4 w + 4)).
    + intros _. exists [], d. split; [done|]. exists w, ty. split_and!; (done || lia).
    + destruct (roundup4_bounds w); [lia|]. apply Hrec; lia.
Qed.

End Transfer.
End Transfer.

(** The hardware header in front of a received frame. *)
Module Decode.
Import Rx Ind Split.

(** The fields of the words [hwvect.status] and [flags], at their place in
    [struct hw_rxhdr] as the compilers of the kernel lay out bit fields. *)
Definition parse_rxhdr (d : list Z) : res (hw_rxhdr * bool) :=
  w ← le32 d 36; f ← le32 d 48;
  Ok (mk_rxhdr (has f 1) (has f 2) (has f 4) (has f 32) (has f 64)
        (Z.land (Z.shiftr f 8) 255) (Z.land (Z.shiftr f 16) 255) (Z.land (Z.shiftr f 24) 255)
        (Z.land (Z.shiftr w 2) 7) (has w 1024), has f 128).

Section Decode.
Context {S : Type} `{RxSink S}.
Context (env : ind_env).
(** What happens to frames for a monitor interface, and to firmware messages. *)
Context (monitor cmd_rsp data_cfm print : list Z -> rwnx_hw S -> res (rwnx_hw S)).

Definition bus_data (d : list Z) (hw : rwnx_hw S) : res (rwnx_hw S) :=
  '(h, mon) ← parse_rxhdr d;
  if mon : bool then monitor d hw
  else rwnx_rxdataind_aicwf env h (mk_skb (next_skb hw) (skb_pull RX_HWHRD_LEN d)) (hw <| next_skb ::= Z.add 1 |>).

#[export] Instance bus_handlers : RxHandlers (rwnx_hw S) := {
  on_data := bus_data; on_cmd_rsp := cmd_rsp; on_data_cfm := data_cfm; on_print := print
}.
End Decode.

(** The header the firmware writes for the fields [h]. *)
Definition bit (b : bool) (n : Z) : Z := if b then n else 0.
Definition flag_byte (h : hw_rxhdr) : Z :=
  bit (flags_is_amsdu h) 1 + bit (flags_is_80211_mpdu h) 2 + bit (flags_is_4addr h) 4 + bit (flags_need_reord h) 32 + bit (flags_upload h) 64.
Definition rxhdr_bytes (h : hw_rxhdr) (pre phy post : list Z) : list Z :=
  pre ++ [4 * decr_status h; bit (ga_frame h) 4; 0; 0] ++ phy
  ++ [flag_byte h; flags_vif_idx h; flags_sta_idx h; flags_dst_idx h] ++ post.

Definition rxhdr_ok (h : hw_rxhdr) : Prop :=
  0 <= flags_vif_idx h < 256 /\ 0 <= flags_sta_idx h < 256 /\ 0 <= flags_dst_idx h < 256 /\ 0 <= decr_status h < 8.

Lemma le32_at pre a b c e post : le32 (pre ++ [a; b; c; e] ++ post) (Z.of_nat (length pre)) =
  Ok (a + b * 256 + (c + e * 256) * 65536).
Proof.
  assert (forall k x l r, [a; b; c; e] = l ++ x :: r -> length l = k ->
    rd8 (pre ++ [a; b; c; e] ++ post) (Z.of_nat (length pre) + Z.of_nat k) = Ok x) as R.
  { intros k x l r El <-. rewrite El. rewrite <- Nat2Z.inj_add, <- length_app, <- app_assoc, app_assoc. apply rd8_middle. }
  unfold le32, le16.
  pose proof (R 0%nat a [] _ eq_refl eq_refl) as R0. pose proof (R 1%nat b [a] _ eq_refl eq_refl) as R1.
  pose proof (R 2%nat c [a; b] _ eq_refl eq_refl) as R2. pose proof (R 3%nat e [a; b; c] _ eq_refl eq_refl) as R3.
  change (Z.of_nat 0) with 0 in R0. change (Z.of_nat 1) with 1 in R1. change (Z.of_nat 2) with 2 in R2. change (Z.of_nat 3) with 3 in R3.
  rewrite Z.add_0_r in R0.
  replace (Z.of_nat (length pre) + 2 + 1) with (Z.of_nat (length pre) + 3) by lia. now rewrite R0, R1, R2, R3.
Qed.

Lemma flag_bits f v s t : 0 <= f < 256 -> 0 <= v < 256 -> 0 <= s < 256 -> 0 <= t < 256 ->
  let w := f + v * 256 + (s + t * 256) * 65536 in
  (forall m, 0 <= m < 256 -> Z.land w m = Z.land f m) /\ Z.land (Z.shiftr w 8) 255 = v /\
  Z.land (Z.shiftr w 16) 255 = s /\ Z.land (Z.shiftr w 24) 255 = t.
Proof.
  intros Hf Hv Hs Ht w. assert (forall k x, 0 <= k -> Z.land (Z.shiftr x k) 255 = (x / 2 ^ k) mod 256) as Hb.
  { intros k x Hk. rewrite Z.shiftr_div_pow2 by lia. change 255 with (Z.ones 8). now rewrite Z.land_ones by lia. }
  rewrite !Hb by lia. unfold w. split_and!.
  - intros m Hm. assert (m = Z.land (Z.ones 8) m) as -> by (rewrite Z.land_comm, Z.land_ones, Z.mod_small by lia; reflexivity).
    rewrite !Z.land_assoc. f_equal. rewrite !Z.land_ones by lia. change (2 ^ 8) with 256. Z.div_mod_to_equations. lia.
  - change (2 ^ 8) with 256. Z.div_mod_to_equations. lia.
  - change (2 ^ 16) with 65536. Z.div_mod_to_equations. lia.
  - change (2 ^ 24) with 16777216. Z.div_mod_to_equations. lia.
Qed.

Lemma parse_rxhdr_ok h pre phy post rest : rxhdr_ok h -> length pre = 36%nat -> length phy = 8%nat ->
  parse_rxhdr (rxhdr_bytes h pre phy post ++ rest) = Ok (h, false).
Proof.
  intros (Hv & Hs & Ht & Hd) Lp Lf. unfold parse_rxhdr, rxhdr_bytes.
  assert (le32 ((pre ++ [4 * decr_status h; bit (ga_frame h) 4; 0; 0] ++ phy
    ++ [flag_byte h; flags_vif_idx h; flags_sta_idx h; flags_dst_idx h] ++ post) ++ rest) 36 =
    Ok (4 * decr_status h + bit (ga_frame h) 4 * 256 + (0 + 0 * 256) * 65536)) as ->.
  { rewrite <- !app_assoc. change 36 with (Z.of_nat 36). rewrite <- Lp. apply le32_at. }
  assert (le32 ((pre ++ [4 * decr_status h; bit (ga_frame h) 4; 0; 0] ++ phy
    ++ [flag_byte h; flags_vif_idx h; flags_sta_idx h; flags_dst_idx h] ++ post) ++ rest) 48 =
    Ok (flag_byte h + flags_vif_idx h * 256 + (flags_sta_idx h + flags_dst_idx h * 256) * 65536)) as ->.
  { rewrite <- !app_assoc. change 48 with (Z.of_nat 48).
    replace 48%nat with (length (pre ++ [4 * decr_status h; bit (ga_frame h) 4; 0; 0] ++ phy))
      by (rewrite !length_app, Lp, Lf; reflexivity).
    pose proof (le32_at (pre ++ [4 * decr_status h; bit (ga_frame h) 4; 0; 0] ++ phy) (flag_byte h) (flags_vif_idx h) (flags_sta_idx h)
      (flags_dst_idx h) (post ++ rest)) as E. rewrite <- !app_assoc in E. exact E. }
  cbn [mbind res_bind].
  assert (0 <= flag_byte h < 128) as Hf by (unfold flag_byte, bit; destruct h as [[] [] [] [] [] ? ? ? ? ?]; cbn; lia).
  destruct (flag_bits (flag_byte h) (flags_vif_idx h) (flags_sta_idx h) (flags_dst_idx h)) as (B & -> & -> & ->); [lia..|].
  unfold has. rewrite !B by lia.
  assert (forallb (fun z => (Z.land (Z.shiftr (4 * z + 0) 2) 7 =? z) && (Z.land (Z.shiftr (4 * z + 1024) 2) 7 =? z) &&
    (Z.land (4 * z + 0) 1024 =? 0) && (Z.land (4 * z + 1024) 1024 =? 1024)) (Z.of_nat <$> seq 0 8) = true) as H8 by reflexivity.
  pose proof (Facts.forall_range _ _ H8 (decr_status h) Hd) as E8. rewrite !andb_true_iff, !Z.eqb_eq in E8.
  destruct E8 as [[[E1 E2] E3] E4]. f_equal.
  destruct h as [am mp fa nr up vi si di de ga]; unfold flag_byte, bit; cbn [flags_is_amsdu flags_is_80211_mpdu flags_is_4addr flags_need_reord
    flags_upload flags_vif_idx flags_sta_idx flags_dst_idx decr_status ga_frame] in *.
  destruct ga; [change (4 * 256 + (0 + 0 * 256) * 65536) with 1024|].
  all: f_equal; [|destruct am, mp, fa, nr, up; reflexivity].
  - replace (4 * de + 4 * 256 + (0 + 0 * 256) * 65536) with (4 * de + 1024) by lia. rewrite E2, E4. destruct am, mp, fa, nr, up; reflexivity.
  - replace (4 * de + 0 * 256 + (0 + 0 * 256) * 65536) with (4 * de + 0) by lia. rewrite E1, E3. destruct am, mp, fa, nr, up; reflexivity.
Qed.

End Decode.

Module Props.
Import Rx Ind Frames Facts FrameQ FrameQSpec Split Transfer Decode.

(** C17. A frame queue is a bounded priority list.  Any sequence of operations on
    a queue of [n] priorities and room for [m] frames answers as the list does:
    a frame is taken while there is room and goes behind those of its priority
    and above; the frame with the highest priority leaves first, the oldest of
    them; a full queue gives up its very last frame for one of higher priority
    -- which however takes the priority of the frame it replaces. *)
Theorem frame_queue_refines {A : Type} (n m : Z) (ops : list (fq_op A)) : 0 < n < 65536 -> 0 <= m < 65536 -> Forall (op_ok n) ops ->
  exists pq, fq_run ops (aicwf_frame_queue_init n m) = Ok ((pl_run m ops []).1, pq) /\ order pq = (pl_run m ops []).2 /\ fq_wf pq.
Proof.
  intros Hn Hm. destruct (queue_init_ok (A := A) n m Hn Hm) as [Hw Eo]. revert Hw Eo.
  assert (num_prio (aicwf_frame_queue_init (A := A) n m) = n /\ qmax (aicwf_frame_queue_init (A := A) n m) = m) as [En Em]
    by (cbn; rewrite !wrapU_small by lia; done).
  revert En Em. generalize (aicwf_frame_queue_init (A := A) n m). generalize (@nil (Z * A)).
  induction ops as [|op ops IH]; intros l pq En Em Hw Eo Ho; [exists pq; now split_and!|].
  apply Forall_cons_1 in Ho as [Ho Hos]. rewrite <- En in Ho. destruct (queue_step_ok op pq Hw Ho) as (pq' & Es & Hw' & Eo' & En' & Ex').
  cbn [fq_run pl_run]. rewrite Es. rewrite Eo, Em in *. destruct (pl_step m op l) as [o l']. cbn [fst snd mbind res_bind] in *.
  destruct (IH l' pq') as (pq2 & -> & E2 & W2); try done; try congruence. destruct (pl_run m ops l') as [os l2]. exists pq2. now split_and!.
Qed.

Section Split.
Context {T : Type} `{RxHandlers T}.

(** C23. An aggregated transfer that consists of frames and messages, followed by
    nothing, a stray byte or a length of zero, is taken apart into exactly these,
    in order, each handed once and unchanged to whom it is for. *)
Theorem rx_transfer_roundtrip env xs tl t : allocs env -> Forall item_ok xs -> ends tl ->
  process_rxframe true env (concat (enc <$> xs) ++ tl) t = (t ← foldM (handle env) xs t; Ok (Next, t)).
Proof.
  intros Ha Hxs Ht. unfold process_rxframe. apply split_items; [done..|]. rewrite length_app. pose proof (items_length xs Hxs). lia.
Qed.

(** Taking a transfer apart ends, whatever its bytes are, with one exception:
    when the message it gets to at the end lacks some of its padding bytes, the
    message is handed over again and again, without end. *)
Theorem rx_transfer_ends env d t : allocs env -> handlers_end env -> Z.of_nat (length d) <= 20480 -> Forall (fun b => 0 <= b < 256) d ->
  (process_rxframe true env d t = Fault OutOfFuel -> exists pre r, d = pre ++ r /\ jammed r) /\
  (jammed d -> (forall a b c msg t, exists t', dispatch_cfg env (a :: b :: c :: msg) t = Ok t') -> forall fuel, split_loop fuel env d t = Fault OutOfFuel).
Proof.
  intros Ha He Hl Hb. split.
  - apply (split_ends env _ Ha He); (lia || done).
  - intros Hj Hd fuel. apply split_jammed; [apply Ha|done|done].
Qed.
End Split.

(** A data frame from the access point, as the firmware hands it over. *)
Record sta_frame := mk_sf {
  sf_hdr : hw_rxhdr; sf_ty : Z; sf_pre : list Z; sf_phy : list Z; sf_post : list Z;
  sf_mac : mac_hdr; sf_sn : Z; sf_etype : list Z; sf_payload : list Z
}.
Definition sf_mpdu (f : sta_frame) : list Z := mpdu (sf_mac f) (sf_sn f) 0 false (msdu_body (sf_etype f) (sf_payload f)).
Definition sf_item (f : sta_frame) : item :=
  Data (sf_ty f) (drop 3 (rxhdr_bytes (sf_hdr f) ([0; 0; 0] ++ sf_pre f) (sf_phy f) (sf_post f))) (sf_mpdu f).
Definition sf_eth (f : sta_frame) : list Z := eth_frame (sf_mac f) (sf_etype f) (sf_payload f).

Record sf_ok {S : Type} (v : rwnx_vif) (hw : rwnx_hw S) (f : sta_frame) : Prop := {
  so_item : item_ok (sf_item f);
  so_lens : length (sf_pre f) = 33%nat /\ length (sf_phy f) = 8%nat /\ length (sf_post f) = 8%nat /\ length (sf_etype f) = 2%nat;
  so_hdr : rxhdr_ok (sf_hdr f) /\ hdr_ok (sf_hdr f) (sf_mac f) /\ flags_need_reord (sf_hdr f) = false;
  so_mac : mac_ok (sf_mac f) /\ 0 <= sf_sn f < 4096;
  so_link : link_ok (sf_hdr f) v hw
}.

Section Stack.
Context {S : Type} `{RxSinkLaws S}.
Context (env : ind_env) (monitor cmd_rsp data_cfm print : list Z -> rwnx_hw S -> res (rwnx_hw S)).

Lemma link_same h v (hw hw' : rwnx_hw S) : vif_table hw' = vif_table hw -> sta_table hw' = sta_table hw -> link_ok h v hw -> link_ok h v hw'.
Proof. intros Ev Es [L1 L2 L3]. constructor; [unfold rwnx_rx_get_vif in *; now rewrite Ev|now rewrite Es|done]. Qed.

Lemma sf_enc f : length (sf_pre f) = 33%nat -> enc (sf_item f) =
  rxhdr_bytes (sf_hdr f) (len_bytes (length (sf_mpdu f)) ++ [sf_ty f] ++ sf_pre f) (sf_phy f) (sf_post f) ++ sf_mpdu f.
Proof. intros Lp. cbn [enc head_bytes sf_item]. unfold rxhdr_bytes. rewrite <- (app_assoc [0; 0; 0]). change (drop 3 ([0; 0; 0] ++ ?l)) with l. rewrite <- !app_assoc. reflexivity. Qed.

(** One frame of the transfer. *)
Lemma sf_handle senv v (hw : rwnx_hw S) f : is_station v -> vif_is_mesh v = false -> sf_ok v hw f -> stas_reord_list (priv hw) = [] ->
  handle (H := bus_handlers env monitor cmd_rsp data_cfm print) senv (sf_item f) hw =
  Ok (upd_priv (fun p => p <| sink ::= rx_deliver (mk_skb (next_skb hw) (sf_eth f)) |>) (hw <| next_skb ::= Z.add 1 |>)).
Proof.
  intros Hv Hm [Hi (L1 & L2 & L3 & L4) (Hh & Hho & Hn) (Hx & Hs) Hl] He.
  change (handle senv (sf_item f) hw) with (bus_data env monitor (enc (sf_item f)) hw). unfold bus_data. rewrite sf_enc by done.
  rewrite parse_rxhdr_ok; [|done|rewrite !length_app, L1; reflexivity|done]. cbn [mbind res_bind].
  rewrite skb_pull_app by (unfold rxhdr_bytes, RX_HWHRD_LEN; rewrite !length_app, L1, L2, L3; reflexivity).
  unfold sf_mpdu. rewrite (station_whole env v); try done.
  - rewrite eth_of_msdu by done. fold (sf_eth f). rewrite Hn. unfold station_rx. destruct (qos (sf_mac f)) as [t|]; [|reflexivity].
    set (hw1 := hw <| next_skb ::= Z.add 1 |>).
    assert (reord_flush_tid (reord_env env v hw1) (priv hw1) (mk_skb (next_skb hw) (sf_eth f)) t = Ok (priv hw1, 0)) as ->.
    { unfold reord_flush_tid, reord_env, is_sta. cbn [iftype]. change (stas_reord_list (priv hw1)) with (stas_reord_list (priv hw)).
      rewrite He. destruct Hv as [-> | ->]; reflexivity. }
    cbn [mbind res_bind]. unfold hw1. destruct hw. reflexivity.
  - unfold msdu_body. rewrite !length_app, L4. cbn. lia.
  - now apply (link_same _ _ hw).
Qed.


End Stack.
End Props.

Module Witnesses.
Import Rx Ind Frames Facts FrameQ FrameQSpec Split Transfer Decode Props RxInd.Witnesses.

Lemma frame_queue_refines_witness : exists pq,
  fq_run [Enq 1 10; Enq 3 30; Deq; IsEmpty] (aicwf_frame_queue_init 8 1) =
    Ok ([OEnq true None; OEnq true (Some 10); ODeq (Some 30); OEmpty true], pq) /\ order pq = [] /\ fq_wf pq.
Proof.
  apply (frame_queue_refines 8 1 [Enq 1 10; Enq 3 30; Deq; IsEmpty]); [lia|lia|].
  repeat constructor; cbn; lia.
Defined.

(** Handlers that note what they get. *)
Definition note (k : Z) (d : list Z) (t : list (Z * list Z)) : res (list (Z * list Z)) := Ok (t ++ [(k, d)]).
#[local] Instance note_handlers : RxHandlers (list (Z * list Z)) := {
  on_data := note 0; on_cmd_rsp := note 1; on_data_cfm := note 2; on_print := note 3
}.
Definition w_senv : split_env := mk_senv true (fun _ => true) true.
Lemma w_allocs : allocs w_senv.
Proof. now split. Qed.
Definition w_cfg : item := Cfg 17 0 [7; 8; 9].
Definition w_data : item := Data 0 (replicate 57 0) [1; 2].
Lemma w_items : Forall item_ok [w_cfg; w_data].
Proof. repeat constructor; cbn; lia. Qed.

Lemma rx_transfer_roundtrip_witness :
  process_rxframe true w_senv (concat (enc <$> [w_cfg; w_data]) ++ [0; 0; 5]) [] = Ok (Next, [(1, [7; 8; 9]); (0, enc w_data)]).
Proof. exact (rx_transfer_roundtrip w_senv [w_cfg; w_data] [0; 0; 5] [] w_allocs w_items eq_refl). Defined.

Lemma w_dispatch a b c msg t : exists t', dispatch_cfg w_senv (a :: b :: c :: msg) t = Ok t'.
Proof.
  unfold dispatch_cfg. change (rd8 (a :: b :: c :: msg) 2) with (Ok c). cbn [mbind res_bind].
  destruct (_ && _), (_ =? USB_TYPE_CFG_DATA_CFM), (_ =? USB_TYPE_CFG_PRINT); eexists; reflexivity.
Qed.

Lemma w_no_fuel : handlers_end w_senv.
Proof.
  split; [done|]. intros msg t. unfold dispatch_cfg. destruct (rd8 msg 2) as [b|f] eqn:E; cbn [mbind res_bind].
  - destruct (_ && _), (_ =? USB_TYPE_CFG_DATA_CFM), (_ =? USB_TYPE_CFG_PRINT); discriminate.
  - intros [= ->]. now apply rd8_fault in E.
Qed.

Lemma rx_transfer_ends_witness : split_loop 1000 w_senv [1; 0; 17; 0; 5] [] = Fault OutOfFuel.
Proof.
  apply (rx_transfer_ends w_senv [1; 0; 17; 0; 5] [] w_allocs w_no_fuel).
  - cbn; lia.
  - repeat constructor; lia.
  - exists 1, 17. split_and!; reflexivity || cbn; lia.
  - exact w_dispatch.
Defined.

Definition w_sf : sta_frame :=
  mk_sf (w_hdr 3 255) 0 (replicate 33 9) (replicate 8 9) (replicate 8 9) (w_mac w_da None) 5 [8; 0] [69; 0; 0; 28].


End Witnesses.
