(* ===== verification/Usb.v ===== *)
(** USB transport: [aicwf_usb.c], the pools of URBs, the queues between the
    callers, the threads of the driver and the USB core, and flow control.

    - [UsbTx]: transmission.  A frame takes a URB buffer off the free list, is
      laid out, waits on the post list, is submitted by the transmit thread and
      comes back by [aicwf_usb_tx_complete].  The network queues are stopped
      when few buffers are free and woken when many are.
    - [TxSys]: all of these at once, at the granularity of the code's locks.
    - [UsbRx]: reception.  URBs are submitted and complete with a transfer that
      waits in [rxq] for the receive thread, which is woken by the counter
      [rx_cnt]; [RxSys]: the interleavings of both.

    What the USB core answers to a submission is part of a step. *)
From stdpp Require Import base list numbers option.
From Stdlib Require Import ZArith Lia.
From S2P Require Import Prelude Reorder RxInd BusRx.

#[local] Open Scope Z_scope.
#[local] Open Scope aic_scope.

Module UsbTx.

Definition AICWF_USB_TX_URBS : Z := 200.
Definition AICWF_USB_TX_LOW_WATER : Z := AICWF_USB_TX_URBS / 4.
Definition AICWF_USB_TX_HIGH_WATER : Z := AICWF_USB_TX_LOW_WATER * 3.
Definition TX_ALIGNMENT : Z := 4.

Inductive aicwf_usb_state := USB_DOWN_ST | USB_UP_ST | USB_SLEEP_ST.
#[export] Instance aicwf_usb_state_eq : EqDecision aicwf_usb_state.
Proof. solve_decision. Defined.

(** What a URB carries: the transfer buffer ([None] if there is none), and
    whether the frame is confirmed by the firmware, in which case the buffer is
    a copy and the [sk_buff] waits elsewhere. *)
Record tx_pkt := mk_pkt { pk_buf : option (list Z); cfm : bool }.
Record aicwf_usb_buf := mk_ub { ub_id : nat; ub_pkt : option tx_pkt }.

(** A frame as [rwnx_tx_push] hands it over: the descriptor of [sw_hdr], the
    bytes behind the headroom, and the headroom itself. *)
Record tx_frame := mk_frame { need_cfm : bool; desc : list Z; payload : list Z; headroom : Z }.

Record tx_env := mk_tenv {
  t_kmalloc_ok : bool;             (* the copy of a confirmed frame *)
  t_aligned : bool;                (* the buffer is aligned to align_param *)
  t_align_ok : bool                (* the aligned copy *)
}.

(** ** The bytes of a frame *)

Definition usb_header (len : Z) : list Z := [Z.land len 255; Z.land (Z.shiftr len 8) 15; 1; 0].

Definition tx_bytes (env : tx_env) (f : tx_frame) : res (list Z) :=
  let body := desc f ++ payload f in
  let n := 4 + Z.of_nat (length body) in
  if need_cfm f then
    if negb (t_kmalloc_ok env) then Fault NullDeref
    else
      let buf_len := u16 n in
      let adjust_len := if has buf_len (TX_ALIGNMENT - 1) then Rx.roundup4 buf_len - buf_len else 0 in
      if headroom f + Z.of_nat (length (payload f)) + 1 <? n + adjust_len then Fault OutOfBounds
      else Ok (usb_header (u16 (buf_len + adjust_len)) ++ body ++ replicate (Z.to_nat adjust_len) 0)
  else if headroom f <? 4 + Z.of_nat (length (desc f)) then Fault BugOn
  else Ok (usb_header n ++ body).

Definition tx_packet (env : tx_env) (f : tx_frame) : res tx_pkt :=
  b ← tx_bytes env f;
  Ok (mk_pkt (if t_aligned env || t_align_ok env then Some b else None) (need_cfm f)).

(** ** The device *)

Record aic_usb_dev := mk_dev {
  state : aicwf_usb_state;
  bus_down : bool;                                    (* bus_if->state = BUS_DOWN_ST *)
  tx_free_list : list aicwf_usb_buf; tx_free_count : Z;
  tx_post_list : list aicwf_usb_buf; tx_post_count : Z;
  tbusy : bool;
  stopped : bool;                                     (* the queues of the interfaces *)
  bustx_trgg : nat                                    (* the completion *)
}.
#[export] Instance aic_usb_dev_eta : RecordEta aic_usb_dev := fun d =>
  mk_dev (state d) (bus_down d) (tx_free_list d) (tx_free_count d) (tx_post_list d) (tx_post_count d) (tbusy d) (stopped d) (bustx_trgg d).
Implicit Types (d : aic_usb_dev) (b : aicwf_usb_buf).

Definition tx_free_put (b : aicwf_usb_buf) d : aic_usb_dev :=
  d <| tx_free_list ::= fun l => l ++ [b] |> <| tx_free_count ::= Z.add 1 |>.
Definition tx_post_put (b : aicwf_usb_buf) d : aic_usb_dev :=
  d <| tx_post_list ::= fun l => l ++ [b] |> <| tx_post_count ::= Z.add 1 |>.
Definition tx_free_get d : option aicwf_usb_buf * aic_usb_dev :=
  match tx_free_list d with
  | [] => (None, d)
  | b :: l => (Some b, d <| tx_free_list := l |> <| tx_free_count ::= fun n => n - 1 |>)
  end.
Definition tx_post_get d : option aicwf_usb_buf * aic_usb_dev :=
  match tx_post_list d with
  | [] => (None, d)
  | b :: l => (Some b, d <| tx_post_list := l |> <| tx_post_count ::= fun n => n - 1 |>)
  end.

Definition aicwf_usb_tx_flowctrl (s : bool) d : aic_usb_dev := d <| stopped := s |>.

Definition aicwf_usb_state_change (s : aicwf_usb_state) d : aic_usb_dev :=
  if decide (state d = s) then d
  else
    let d := d <| state := s |> in
    match s with USB_DOWN_ST => d <| bus_down := true |> | USB_UP_ST => d <| bus_down := false |> | USB_SLEEP_ST => d end.

(** The sections of [aicwf_usb_bus_txdata] under [tx_flow_lock], and of
    [aicwf_usb_tx_complete]. *)
Definition flow_ctrl d : aic_usb_dev :=
  if tx_free_count d <? AICWF_USB_TX_LOW_WATER then aicwf_usb_tx_flowctrl true (d <| tbusy := true |>) else d.
Definition flow_wake d : aic_usb_dev :=
  if (AICWF_USB_TX_HIGH_WATER <? tx_free_count d) && tbusy d then aicwf_usb_tx_flowctrl false (d <| tbusy := false |>) else d.

(** [aicwf_usb_bus_txdata] up to the post list: the buffer with its packet,
    or the frame is freed and [-EIO] ([flow_ctrl] is skipped) or [-ENOMEM]. *)
Inductive tx_take := TxTaken (b : aicwf_usb_buf) | TxEio | TxEnomem.
Definition bus_txdata_take (env : tx_env) (f : tx_frame) d : res (tx_take * aic_usb_dev) :=
  if negb (bool_decide (state d = USB_UP_ST)) then Ok (TxEio, d)
  else
    match tx_free_get d with
    | (None, d) => Ok (TxEnomem, d)
    | (Some b, d) => p ← tx_packet env f; Ok (TxTaken (mk_ub (ub_id b) (Some p)), d)
    end.
Definition complete_trgg d : aic_usb_dev := d <| bustx_trgg ::= Datatypes.S |>.

Definition aicwf_usb_bus_txdata (env : tx_env) (f : tx_frame) d : res (bool * aic_usb_dev) :=
  '(r, d) ← bus_txdata_take env f d;
  match r with
  | TxEio => Ok (false, d)
  | TxEnomem => Ok (false, flow_ctrl d)
  | TxTaken b => Ok (true, flow_ctrl (complete_trgg (tx_post_put b d)))
  end.

(** [aicwf_frame_tx]: on a device that is down the queues are stopped without
    a note in [tbusy], and the frame is freed. *)
Definition aicwf_frame_tx (env : tx_env) (f : tx_frame) d : res (bool * aic_usb_dev) :=
  if decide (state d = USB_DOWN_ST) then Ok (false, if tbusy d then d else aicwf_usb_tx_flowctrl true d)
  else aicwf_usb_bus_txdata env f d.

(** [aicwf_usb_tx_complete] gives the frame or its copy back. *)
Definition aicwf_usb_tx_complete (b : aicwf_usb_buf) d : aic_usb_dev :=
  flow_wake (tx_free_put (mk_ub (ub_id b) None) d).

(** A failed submission: the buffer of a confirmed frame is not an [sk_buff],
    what [dev_kfree_skb] reads there was never written. *)
Definition tx_submit_failed (b : aicwf_usb_buf) d : res aic_usb_dev :=
  match ub_pkt b with
  | Some p => if cfm p then Fault Uninitialised else Ok (tx_free_put (mk_ub (ub_id b) None) d)
  | None => Fault NullDeref
  end.

(** [aicwf_usb_tx_process] with the answers of [usb_submit_urb]; the packets
    that are submitted. *)
Fixpoint aicwf_usb_tx_process (answers : list bool) d (out : list aicwf_usb_buf) : res (list aicwf_usb_buf * aic_usb_dev) :=
  match answers with
  | [] => Ok (out, d)
  | a :: answers =>
      if negb (bool_decide (state d = USB_UP_ST)) then Ok (out, d) else
      match tx_post_get d with
      | (None, d) => Ok (out, d)
      | (Some b, d) =>
          if a : bool then aicwf_usb_tx_process answers d (out ++ [b])
          else d ← tx_submit_failed b d; aicwf_usb_tx_process answers d out
      end
  end.

(** [aicwf_usb_tx_prepare], one round. *)
Definition tx_prepare_one d : res aic_usb_dev :=
  match tx_post_get d with
  | (None, d) => Ok d
  | (Some b, d) =>
      match ub_pkt b with
      | Some p => if cfm p then Fault Uninitialised else Ok (tx_free_put (mk_ub (ub_id b) None) d)
      | None => Ok (tx_free_put b d)
      end
  end.

(** [aicwf_usb_alloc_tx_urb] and the start. *)
Definition init_dev : aic_usb_dev :=
  let l := (fun i => mk_ub i None) <$> seq 0 (Z.to_nat AICWF_USB_TX_URBS) in
  mk_dev USB_DOWN_ST true l AICWF_USB_TX_URBS [] 0 false false 0.

End UsbTx.

Module TxSys.
Import UsbTx.

(** The caller under [tx_lock], by what it does next. *)
Inductive tx_call := CNone | CPost (b : aicwf_usb_buf) | CTrigger | CFlow.
(** A completion handler. *)
Inductive tx_comp := CompPut (b : aicwf_usb_buf) | CompFlow.
(** [usb_bustx_thread]: waiting, in the loop of [aicwf_usb_tx_process], about to
    submit, ended. *)
Inductive tx_thread := TIdle | TLoop | TSubmit (b : aicwf_usb_buf) | TEnded.

Record sys := mk_sys {
  dev : aic_usb_dev;
  call : tx_call;
  comps : list tx_comp;
  thread : tx_thread;
  flying : list aicwf_usb_buf;         (* with the USB core *)
  starting : bool;                     (* aicwf_usb_tx_prepare runs *)
  posted : list aicwf_usb_buf;         (* all buffers put on the post list, *)
  taken : list aicwf_usb_buf;          (* and taken off it, so far; *)
  sent : list aicwf_usb_buf;           (* all that were submitted *)
  was_down : bool                      (* a frame came while the device was down *)
}.
#[export] Instance sys_eta : RecordEta sys := fun s =>
  mk_sys (dev s) (call s) (comps s) (thread s) (flying s) (starting s) (posted s) (taken s) (sent s) (was_down s).

(** [Outer]: a new frame, or the bus goes down or up.  [Inner]: work in progress
    goes on.  [Trouble]: a submission fails, or a restart throws frames away. *)
Inductive kind := Outer | Inner | Trouble.

Inductive step : kind -> sys -> sys -> Prop :=
| step_take env f b d s : call s = CNone -> bus_txdata_take env f (dev s) = Ok (TxTaken b, d) ->
    step Outer s (s <| dev := d |> <| call := CPost b |>)
| step_enomem env f d s : call s = CNone -> bus_txdata_take env f (dev s) = Ok (TxEnomem, d) ->
    step Outer s (s <| dev := d |> <| call := CFlow |>)
| step_frame_down env f d s : call s = CNone -> state (dev s) = USB_DOWN_ST -> aicwf_frame_tx env f (dev s) = Ok (false, d) ->
    step Outer s (s <| dev := d |> <| was_down := true |>)
| step_post b s : call s = CPost b ->
    step Inner s (s <| dev ::= tx_post_put b |> <| call := CTrigger |> <| posted ::= fun l => l ++ [b] |>)
| step_trigger s : call s = CTrigger -> step Inner s (s <| dev ::= complete_trgg |> <| call := CFlow |>)
| step_flow s : call s = CFlow -> step Inner s (s <| dev ::= flow_ctrl |> <| call := CNone |>)
| step_wake n s : thread s = TIdle -> bustx_trgg (dev s) = Datatypes.S n ->
    step Inner s (s <| dev ::= fun d => d <| bustx_trgg := n |> |>
                    <| thread := if bus_down (dev s) then TEnded else if 0 <? tx_post_count (dev s) then TLoop else TIdle |>)
| step_loop_end s : thread s = TLoop -> tx_post_list (dev s) = [] \/ state (dev s) <> USB_UP_ST ->
    step Inner s (s <| thread := TIdle |>)
| step_loop_get b d s : thread s = TLoop -> state (dev s) = USB_UP_ST -> tx_post_get (dev s) = (Some b, d) ->
    step Inner s (s <| dev := d |> <| thread := TSubmit b |> <| taken ::= fun l => l ++ [b] |>)
| step_submit b s : thread s = TSubmit b -> step Inner s (s <| thread := TLoop |> <| flying ::= fun l => l ++ [b] |> <| sent ::= fun l => l ++ [b] |>)
| step_submit_fail b d s : thread s = TSubmit b -> tx_submit_failed b (dev s) = Ok d ->
    step Trouble s (s <| dev := d |> <| thread := TLoop |>)
| step_complete l1 b l2 s : flying s = l1 ++ b :: l2 ->
    step Inner s (s <| flying := l1 ++ l2 |> <| comps ::= fun l => l ++ [CompPut b] |>)
| step_comp_put l1 b l2 s : comps s = l1 ++ CompPut b :: l2 ->
    step Inner s (s <| dev ::= tx_free_put (mk_ub (ub_id b) None) |> <| comps := l1 ++ CompFlow :: l2 |>)
| step_comp_flow l1 l2 s : comps s = l1 ++ CompFlow :: l2 -> step Inner s (s <| dev ::= flow_wake |> <| comps := l1 ++ l2 |>)
| step_down s : step Outer s (s <| dev ::= aicwf_usb_state_change USB_DOWN_ST |>)
| step_start s : state (dev s) <> USB_UP_ST -> step Outer s (s <| dev ::= aicwf_usb_state_change USB_UP_ST |> <| starting := true |>)
| step_prepare b d l s : starting s = true -> tx_post_list (dev s) = b :: l -> tx_prepare_one (dev s) = Ok d ->
    step Trouble s (s <| dev := d |> <| taken ::= fun l => l ++ [b] |>)
| step_prepared s : starting s = true -> tx_post_list (dev s) = [] -> step Inner s (s <| starting := false |>).

Definition init_sys : sys := mk_sys init_dev CNone [] TIdle [] false [] [] [] false.

(** The states that runs of the given kinds of steps lead to. *)
Inductive reachable (ok : kind -> Prop) : sys -> Prop :=
| reach_init : reachable ok init_sys
| reach_step k s s' : reachable ok s -> ok k -> step k s s' -> reachable ok s'.

Definition any (k : kind) : Prop := True.
Definition calm (k : kind) : Prop := k <> Trouble.

(** ** The pool *)

Definition call_buf (c : tx_call) : list aicwf_usb_buf := match c with CPost b => [b] | _ => [] end.
Definition comp_buf (c : tx_comp) : list aicwf_usb_buf := match c with CompPut b => [b] | CompFlow => [] end.
Definition thread_buf (t : tx_thread) : list aicwf_usb_buf := match t with TSubmit b => [b] | _ => [] end.

(** The buffers outside of the free list, in whatever hands. *)
Definition busy (s : sys) : list aicwf_usb_buf :=
  call_buf (call s) ++ tx_post_list (dev s) ++ thread_buf (thread s) ++ flying s ++ concat (comp_buf <$> comps s).
Definition pool (s : sys) : list nat := ub_id <$> (tx_free_list (dev s) ++ busy s).

Record wf (s : sys) : Prop := {
  w_pool : pool s ≡ₚ seq 0 (Z.to_nat AICWF_USB_TX_URBS);
  w_free : tx_free_count (dev s) = Z.of_nat (length (tx_free_list (dev s)));
  w_post : tx_post_count (dev s) = Z.of_nat (length (tx_post_list (dev s)));
  w_pkt : Forall (fun b => is_Some (ub_pkt b)) (busy s);
  w_fifo : posted s = taken s ++ tx_post_list (dev s);
  w_wake : state (dev s) = USB_UP_ST -> tx_post_list (dev s) <> [] -> thread s <> TEnded ->
    (0 < bustx_trgg (dev s))%nat \/ thread s <> TIdle \/ call s = CTrigger \/ starting s = true;
  w_busy : (tbusy (dev s) = true -> stopped (dev s) = true) /\ (was_down s = false -> stopped (dev s) = tbusy (dev s))
}.

(** When nothing fails, stopped queues mean that a completion will wake them. *)
Definition will_wake (s : sys) : Prop :=
  tbusy (dev s) = true -> tx_free_count (dev s) <= AICWF_USB_TX_HIGH_WATER \/ CompFlow ∈ comps s.

(** Permutations of buffer numbers, by counting. *)
Lemma perm_ids (l l' : list nat) : (forall x, count_occ Nat.eq_dec l x = count_occ Nat.eq_dec l' x) -> l ≡ₚ l'.
Proof. apply (Permutation_count_occ Nat.eq_dec). Qed.
Lemma count_cons (a : nat) l x : count_occ Nat.eq_dec (a :: l) x = (count_occ Nat.eq_dec [a] x + count_occ Nat.eq_dec l x)%nat.
Proof. cbn. destruct (Nat.eq_dec a x); lia. Qed.

Ltac count_ids :=
  apply perm_ids; let x := fresh "x" in intros x;
  rewrite ?fmap_app, ?concat_app, ?fmap_app; cbn [fmap list_fmap concat app ub_id call_buf comp_buf thread_buf];
  rewrite ?fmap_app, ?fmap_cons, ?fmap_nil, ?concat_app, ?fmap_app; cbn [fmap list_fmap concat app ub_id];
  rewrite ?count_occ_app, ?(count_cons _ (_ :: _)), ?(count_cons _ (_ ++ _)), ?(count_cons _ (_ <$> _)), ?count_occ_app;
  cbn [count_occ]; lia.

Lemma take_inv env f b d d' : bus_txdata_take env f d = Ok (TxTaken b, d') -> exists b0 p,
  state d = USB_UP_ST /\ tx_free_get d = (Some b0, d') /\ b = mk_ub (ub_id b0) (Some p).
Proof.
  unfold bus_txdata_take. destruct (decide (state d = USB_UP_ST)) as [E|E]; [rewrite bool_decide_true by done|now rewrite bool_decide_false by done].
  cbn [negb]. destruct (tx_free_get d) as [[b0|] d0]; [|discriminate]. destruct (tx_packet env f) as [p|]; [|discriminate].
  cbn. intros [= <- <-]. eauto.
Qed.

Lemma enomem_inv env f d d' : bus_txdata_take env f d = Ok (TxEnomem, d') -> d' = d /\ tx_free_list d = [].
Proof.
  unfold bus_txdata_take. destruct (negb _); [discriminate|]. unfold tx_free_get. destruct (tx_free_list d) as [|b l]; [now intros [= <-]|].
  destruct (tx_packet env f); discriminate.
Qed.

Lemma free_get_inv d b d' : tx_free_get d = (Some b, d') -> exists l, tx_free_list d = b :: l /\
  d' = d <| tx_free_list := l |> <| tx_free_count ::= fun n => n - 1 |>.
Proof. unfold tx_free_get. destruct (tx_free_list d) as [|b0 l]; [discriminate|]. intros [= <- <-]. eauto. Qed.

Lemma post_get_inv d b d' : tx_post_get d = (Some b, d') -> exists l, tx_post_list d = b :: l /\
  d' = d <| tx_post_list := l |> <| tx_post_count ::= fun n => n - 1 |>.
Proof. unfold tx_post_get. destruct (tx_post_list d) as [|b0 l]; [discriminate|]. intros [= <- <-]. eauto. Qed.

Lemma failed_inv b d d' : tx_submit_failed b d = Ok d' -> d' = tx_free_put (mk_ub (ub_id b) None) d.
Proof. unfold tx_submit_failed. destruct (ub_pkt b) as [p|]; [|discriminate]. destruct (cfm p); [discriminate|]. now intros [= <-]. Qed.

Lemma prepare_inv b l d d' : tx_post_list d = b :: l -> tx_prepare_one d = Ok d' ->
  exists p, d' = tx_free_put (mk_ub (ub_id b) p) (d <| tx_post_list := l |> <| tx_post_count ::= fun n => n - 1 |>).
Proof.
  unfold tx_prepare_one, tx_post_get. intros ->. destruct b as [i [p|]]; cbn [ub_pkt ub_id].
  - destruct (cfm p); [discriminate|]. intros [= <-]. eauto.
  - intros [= <-]. eauto.
Qed.

Lemma down_inv env f d d' : state d = USB_DOWN_ST -> aicwf_frame_tx env f d = Ok (false, d') ->
  d' = if tbusy d then d else d <| stopped := true |>.
Proof. unfold aicwf_frame_tx. intros E. rewrite decide_True by done. now intros [= <-]. Qed.

Lemma flow_ctrl_frame d : let d' := flow_ctrl d in
  state d' = state d /\ tx_free_list d' = tx_free_list d /\ tx_free_count d' = tx_free_count d /\ tx_post_list d' = tx_post_list d /\
  tx_post_count d' = tx_post_count d /\ bustx_trgg d' = bustx_trgg d.
Proof. unfold flow_ctrl. cbn zeta. destruct (_ <? _); done. Qed.
Lemma flow_wake_frame d : let d' := flow_wake d in
  state d' = state d /\ tx_free_list d' = tx_free_list d /\ tx_free_count d' = tx_free_count d /\ tx_post_list d' = tx_post_list d /\
  tx_post_count d' = tx_post_count d /\ bustx_trgg d' = bustx_trgg d.
Proof. unfold flow_wake. cbn zeta. destruct (_ && _); done. Qed.
Lemma state_change_frame st d : let d' := aicwf_usb_state_change st d in
  state d' = st /\ tx_free_list d' = tx_free_list d /\ tx_free_count d' = tx_free_count d /\ tx_post_list d' = tx_post_list d /\
  tx_post_count d' = tx_post_count d /\ bustx_trgg d' = bustx_trgg d /\ tbusy d' = tbusy d /\ stopped d' = stopped d.
Proof. unfold aicwf_usb_state_change. cbn zeta. destruct (decide (state d = st)); [done|]. now destruct st. Qed.

(** The pool and the packets, from the parts. *)
Lemma pool_eq s : pool s = (ub_id <$> tx_free_list (dev s)) ++ (ub_id <$> call_buf (call s)) ++ (ub_id <$> tx_post_list (dev s)) ++
  (ub_id <$> thread_buf (thread s)) ++ (ub_id <$> flying s) ++ (ub_id <$> concat (comp_buf <$> comps s)).
Proof. unfold pool, busy. now rewrite !fmap_app. Qed.

Lemma step_pool k s s' : step k s s' -> pool s' ≡ₚ pool s.
Proof.
  intros Hs. rewrite !pool_eq. destruct Hs.
  - destruct (take_inv _ _ _ _ _ H0) as (b0 & p & _ & Hg & ->). destruct (free_get_inv _ _ _ Hg) as (l & El & ->).
    cbn. rewrite H, El. count_ids.
  - destruct (enomem_inv _ _ _ _ H0) as [-> _]. cbn. rewrite H. reflexivity.
  - rewrite (down_inv _ _ _ _ H0 H1). cbn. destruct (tbusy (dev s)); reflexivity.
  - cbn. rewrite H. count_ids.
  - cbn. rewrite H. reflexivity.
  - cbn. rewrite H. destruct (flow_ctrl_frame (dev s)) as (_ & -> & _ & -> & _). reflexivity.
  - cbn. rewrite H. destruct (bus_down (dev s)), (0 <? tx_post_count (dev s)); reflexivity.
  - cbn. rewrite H. reflexivity.
  - destruct (post_get_inv _ _ _ H1) as (l & El & ->). cbn. rewrite H, El. count_ids.
  - cbn. rewrite H. count_ids.
  - rewrite (failed_inv _ _ _ H0). cbn. rewrite H. count_ids.
  - cbn. rewrite H. count_ids.
  - cbn. rewrite H. count_ids.
  - cbn. rewrite H. destruct (flow_wake_frame (dev s)) as (_ & -> & _ & -> & _). count_ids.
  - cbn. destruct (state_change_frame USB_DOWN_ST (dev s)) as (_ & -> & _ & -> & _). reflexivity.
  - cbn. destruct (state_change_frame USB_UP_ST (dev s)) as (_ & -> & _ & -> & _). reflexivity.
  - destruct (prepare_inv _ _ _ _ H0 H1) as (p & ->). cbn. rewrite H0. count_ids.
  - reflexivity.
Qed.

Lemma step_counts k s s' : step k s s' ->
  tx_free_count (dev s) = Z.of_nat (length (tx_free_list (dev s))) -> tx_post_count (dev s) = Z.of_nat (length (tx_post_list (dev s))) ->
  tx_free_count (dev s') = Z.of_nat (length (tx_free_list (dev s'))) /\ tx_post_count (dev s') = Z.of_nat (length (tx_post_list (dev s'))).
Proof.
  intros Hs Hf Hp. destruct Hs.
  - destruct (take_inv _ _ _ _ _ H0) as (b0 & p & _ & Hg & ->). destruct (free_get_inv _ _ _ Hg) as (l & El & ->). rewrite El in Hf. cbn in *. lia.
  - destruct (enomem_inv _ _ _ _ H0) as [-> _]. done.
  - rewrite (down_inv _ _ _ _ H0 H1). cbn. destruct (tbusy (dev s)); done.
  - cbn. rewrite length_app. cbn. lia.
  - done.
  - cbn. destruct (flow_ctrl_frame (dev s)) as (_ & -> & -> & -> & -> & _). done.
  - done.
  - done.
  - destruct (post_get_inv _ _ _ H1) as (l & El & ->). rewrite El in Hp. cbn in *. lia.
  - done.
  - rewrite (failed_inv _ _ _ H0). cbn. rewrite length_app. cbn. lia.
  - done.
  - cbn. rewrite length_app. cbn. lia.
  - cbn. destruct (flow_wake_frame (dev s)) as (_ & -> & -> & -> & -> & _). done.
  - cbn. destruct (state_change_frame USB_DOWN_ST (dev s)) as (_ & -> & -> & -> & -> & _). done.
  - cbn. destruct (state_change_frame USB_UP_ST (dev s)) as (_ & -> & -> & -> & -> & _). done.
  - destruct (prepare_inv _ _ _ _ H0 H1) as (p & ->). rewrite H0 in Hp. cbn in *. rewrite length_app. cbn. lia.
  - done.
Qed.

Definition has_pkt (b : aicwf_usb_buf) : Prop := is_Some (ub_pkt b).
Record pkts (s : sys) : Prop := {
  pk_call : Forall has_pkt (call_buf (call s)); pk_post : Forall has_pkt (tx_post_list (dev s));
  pk_thread : Forall has_pkt (thread_buf (thread s)); pk_flying : Forall has_pkt (flying s);
  pk_comps : Forall (fun c => Forall has_pkt (comp_buf c)) (comps s)
}.

Lemma busy_pkts s : Forall has_pkt (busy s) <-> pkts s.
Proof.
  assert (forall l, Forall has_pkt (concat (comp_buf <$> l)) <-> Forall (fun c => Forall has_pkt (comp_buf c)) l) as Hc.
  { induction l as [|c l IH]; [now split; constructor|]. cbn. rewrite Forall_app, IH. split; [intros [? ?]; now constructor|intros Hx; now apply Forall_cons_1 in Hx]. }
  unfold busy. rewrite !Forall_app, Hc. split; [intros (?&?&?&?&?); now constructor|intros []; tauto].
Qed.

Lemma step_pkts k s s' : step k s s' -> pkts s -> pkts s'.
Proof.
  intros Hs [P1 P2 P3 P4 P5]. destruct Hs; constructor; cbn; try assumption; try (now constructor).
  all: try (rewrite H in P1); try (rewrite H in P3); try (rewrite H in P4); try (rewrite H in P5); cbn in P1, P3; try assumption.
  all: try (destruct (take_inv _ _ _ _ _ H0) as (b0 & p & _ & Hg & ->); destruct (free_get_inv _ _ _ Hg) as (l & El & ->); cbn; (assumption || (constructor; [now exists p|constructor]))).
  all: try (destruct (enomem_inv _ _ _ _ H0) as [-> _]; assumption).
  all: try (rewrite (down_inv _ _ _ _ H0 H1); destruct (tbusy (dev s)); assumption).
  all: try (destruct (flow_ctrl_frame (dev s)) as (_ & _ & _ & -> & _); assumption).
  all: try (destruct (flow_wake_frame (dev s)) as (_ & _ & _ & -> & _); assumption).
  all: try (destruct (state_change_frame USB_DOWN_ST (dev s)) as (_ & _ & _ & -> & _); assumption).
  all: try (destruct (state_change_frame USB_UP_ST (dev s)) as (_ & _ & _ & -> & _); assumption).
  all: try (destruct (post_get_inv _ _ _ H1) as (l & El & ->); rewrite El in P2; apply Forall_cons_1 in P2 as [Pb P2]; cbn; (assumption || now repeat constructor)).
  all: try (rewrite (failed_inv _ _ _ H0); assumption).
  all: try (destruct (prepare_inv _ _ _ _ H0 H1) as (p & ->); rewrite H0 in P2; apply Forall_cons_1 in P2 as [Pb P2]; assumption).
  all: try (destruct (bus_down (dev s)), (0 <? tx_post_count (dev s)); now constructor).
  - apply Forall_app. split; assumption.
  - apply Forall_app. split; assumption.
  - apply Forall_app in P4 as [Pa Pb]. apply Forall_cons_1 in Pb as [_ Pb]. now apply Forall_app.
  - apply Forall_app in P4 as [_ Pb]. apply Forall_cons_1 in Pb as [Pb _]. apply Forall_app. split; [assumption|]. now repeat constructor.
  - apply Forall_app in P5 as [Pa Pb]. apply Forall_cons_1 in Pb as [_ Pb]. apply Forall_app. split; [assumption|]. now constructor; [constructor|].
  - apply Forall_app in P5 as [Pa Pb]. apply Forall_cons_1 in Pb as [_ Pb]. now apply Forall_app.
Qed.

Lemma step_fifo k s s' : step k s s' -> posted s = taken s ++ tx_post_list (dev s) -> posted s' = taken s' ++ tx_post_list (dev s').
Proof.
  intros Hs Hb. destruct Hs; try exact Hb.
  - destruct (take_inv _ _ _ _ _ H0) as (b0 & p & _ & Hg & ->). destruct (free_get_inv _ _ _ Hg) as (l & El & ->). exact Hb.
  - destruct (enomem_inv _ _ _ _ H0) as [-> _]. exact Hb.
  - rewrite (down_inv _ _ _ _ H0 H1). cbn. destruct (tbusy (dev s)); exact Hb.
  - cbn. rewrite Hb. now rewrite app_assoc.
  - cbn. destruct (flow_ctrl_frame (dev s)) as (_ & _ & _ & -> & _). exact Hb.
  - destruct (post_get_inv _ _ _ H1) as (l & El & ->). cbn. rewrite Hb, El, <- app_assoc. reflexivity.
  - rewrite (failed_inv _ _ _ H0). exact Hb.
  - cbn. destruct (flow_wake_frame (dev s)) as (_ & _ & _ & -> & _). exact Hb.
  - cbn. destruct (state_change_frame USB_DOWN_ST (dev s)) as (_ & _ & _ & -> & _). exact Hb.
  - cbn. destruct (state_change_frame USB_UP_ST (dev s)) as (_ & _ & _ & -> & _). exact Hb.
  - destruct (prepare_inv _ _ _ _ H0 H1) as (p & ->). cbn. rewrite Hb, H0, <- app_assoc. reflexivity.
Qed.

Definition wake_inv (s : sys) : Prop := state (dev s) = USB_UP_ST -> tx_post_list (dev s) <> [] -> thread s <> TEnded ->
    (0 < bustx_trgg (dev s))%nat \/ thread s <> TIdle \/ call s = CTrigger \/ starting s = true.

Lemma step_wake_inv k s s' : step k s s' -> tx_post_count (dev s) = Z.of_nat (length (tx_post_list (dev s))) -> wake_inv s -> wake_inv s'.
Proof.
  unfold wake_inv. intros Hs Hp Hw. destruct Hs; cbn.
  - destruct (take_inv _ _ _ _ _ H0) as (b0 & p & _ & Hg & ->). destruct (free_get_inv _ _ _ Hg) as (l & El & ->). cbn.
    rewrite H in Hw. intros A B C. destruct (Hw A B C) as [?|[?|[[=]|?]]]; auto.
  - destruct (enomem_inv _ _ _ _ H0) as [-> _]. rewrite H in Hw. intros A B C. destruct (Hw A B C) as [?|[?|[[=]|?]]]; auto.
  - rewrite (down_inv _ _ _ _ H0 H1). intros Hst. exfalso. destruct (tbusy (dev s)); cbn in Hst; congruence.
  - auto.
  - intros _ _ _. left. lia.
  - destruct (flow_ctrl_frame (dev s)) as (-> & _ & _ & -> & _ & ->). rewrite H in Hw. intros A B C. destruct (Hw A B C) as [?|[?|[[=]|?]]]; auto.
  - intros Hst Hne Ht. destruct (bus_down (dev s)); [congruence|]. destruct (Z.ltb_spec 0 (tx_post_count (dev s))); [right; left; congruence|].
    destruct (tx_post_list (dev s)); [done|]. cbn in Hp. lia.
  - intros Hst Hne Ht. destruct H0; congruence.
  - intros _ _ _. right. left. congruence.
  - intros _ _ _. right. left. congruence.
  - intros _ _ _. right. left. congruence.
  - exact Hw.
  - exact Hw.
  - destruct (flow_wake_frame (dev s)) as (-> & _ & _ & -> & _ & ->). exact Hw.
  - intros Hst. destruct (state_change_frame USB_DOWN_ST (dev s)) as (E & _). congruence.
  - auto.
  - auto.
  - intros _ Hne. congruence.
Qed.

Lemma step_busy k s s' : step k s s' ->
  (tbusy (dev s) = true -> stopped (dev s) = true) /\ (was_down s = false -> stopped (dev s) = tbusy (dev s)) ->
  (tbusy (dev s') = true -> stopped (dev s') = true) /\ (was_down s' = false -> stopped (dev s') = tbusy (dev s')).
Proof.
  intros Hs [H1 H2]. destruct Hs; try (split; [exact H1|exact H2]).
  - destruct (take_inv _ _ _ _ _ H0) as (b0 & p & _ & Hg & ->). destruct (free_get_inv _ _ _ Hg) as (l & El & ->). now split.
  - destruct (enomem_inv _ _ _ _ H0) as [-> _]. now split.
  - rewrite (down_inv _ _ _ _ H0 H3). cbn. destruct (tbusy (dev s)) eqn:E; cbn; split; auto; done.
  - cbn. unfold flow_ctrl. destruct (_ <? _); now split.
  - destruct (post_get_inv _ _ _ H3) as (l & El & ->). now split.
  - rewrite (failed_inv _ _ _ H0). now split.
  - cbn. unfold flow_wake. destruct (_ && _); now split.
  - cbn. destruct (state_change_frame USB_DOWN_ST (dev s)) as (_ & _ & _ & _ & _ & _ & -> & ->). now split.
  - cbn. destruct (state_change_frame USB_UP_ST (dev s)) as (_ & _ & _ & _ & _ & _ & -> & ->). now split.
  - destruct (prepare_inv _ _ _ _ H0 H3) as (p & ->). now split.
Qed.

Lemma wf_init : wf init_sys.
Proof.
  now constructor.
Qed.

Lemma step_wf k s s' : step k s s' -> wf s -> wf s'.
Proof.
  intros Hs [W1 W2 W3 W4 W5 W6 W7]. destruct (step_counts _ _ _ Hs W2 W3) as [C1 C2]. constructor; try done.
  - now rewrite (step_pool _ _ _ Hs).
  - apply busy_pkts, (step_pkts _ _ _ Hs), busy_pkts. exact W4.
  - now apply (step_fifo _ _ _ Hs).
  - now apply (step_wake_inv _ _ _ Hs).
  - now apply (step_busy _ _ _ Hs).
Qed.

Lemma reachable_wf ok s : reachable ok s -> wf s.
Proof. induction 1 as [|k s s' _ IH _ Hs]; [exact wf_init|]. now apply (step_wf _ _ _ Hs). Qed.

(** ** Runs without trouble *)

Record calm_inv (s : sys) : Prop := {
  ci_wake : will_wake s;
  ci_sent : taken s = sent s ++ thread_buf (thread s)
}.

Lemma comp_here (c c' : tx_comp) l1 l2 : c ∈ l1 ++ l2 -> c ∈ l1 ++ c' :: l2.
Proof. rewrite !elem_of_app. intros [?|?]; [auto|]. right. now right. Qed.

Lemma step_will_wake k s s' : step k s s' -> calm k -> will_wake s -> will_wake s'.
Proof.
  unfold will_wake, calm. intros Hs Hk Hw. destruct Hs; cbn; try exact Hw; try congruence.
  - destruct (take_inv _ _ _ _ _ H0) as (b0 & p & _ & Hg & ->). destruct (free_get_inv _ _ _ Hg) as (l & El & ->). cbn. intros Hb.
    destruct (Hw Hb); [left; lia|now right].
  - destruct (enomem_inv _ _ _ _ H0) as [-> _]. exact Hw.
  - rewrite (down_inv _ _ _ _ H0 H1). destruct (tbusy (dev s)) eqn:E; cbn; [auto|congruence].
  - unfold flow_ctrl. destruct (Z.ltb_spec (tx_free_count (dev s)) AICWF_USB_TX_LOW_WATER); [|exact Hw]. intros _. left. cbn.
    unfold AICWF_USB_TX_HIGH_WATER, AICWF_USB_TX_LOW_WATER, AICWF_USB_TX_URBS in *. change (200 / 4) with 50 in *. lia.
  - destruct (post_get_inv _ _ _ H1) as (l & El & ->). exact Hw.
  - intros Hb. destruct (Hw Hb) as [?|Hin]; [now left|]. right. rewrite elem_of_app. now left.
  - intros _. right. rewrite elem_of_app. right. left.
  - unfold flow_wake. destruct (Z.ltb_spec AICWF_USB_TX_HIGH_WATER (tx_free_count (dev s))); cbn [andb]; [|intros _; left; lia].
    destruct (tbusy (dev s)) eqn:E; cbn; congruence.
  - destruct (state_change_frame USB_DOWN_ST (dev s)) as (_ & _ & -> & _ & _ & _ & -> & _). exact Hw.
  - destruct (state_change_frame USB_UP_ST (dev s)) as (_ & _ & -> & _ & _ & _ & -> & _). exact Hw.
Qed.

Lemma step_sent k s s' : step k s s' -> calm k -> taken s = sent s ++ thread_buf (thread s) -> taken s' = sent s' ++ thread_buf (thread s').
Proof.
  unfold calm. intros Hs Hk Hw. destruct Hs; cbn; try exact Hw; try congruence; rewrite H in Hw; cbn in Hw.
  - destruct (bus_down (dev s)), (0 <? tx_post_count (dev s)); exact Hw.
  - exact Hw.
  - rewrite Hw. now rewrite app_nil_r.
  - rewrite Hw. now rewrite app_nil_r.
Qed.

Lemma calm_inv_reachable s : reachable calm s -> calm_inv s.
Proof.
  induction 1 as [|k s s' _ [I1 I2] Hk Hs]; [constructor; [|done]|constructor].
  - unfold will_wake. cbn. discriminate.
  - now apply (step_will_wake _ _ _ Hs).
  - now apply (step_sent _ _ _ Hs).
Qed.

(** How much work is in progress. *)
Definition call_weight (c : tx_call) : nat := match c with CNone => 0 | CPost _ => 10 | CTrigger => 4 | CFlow => 1 end.
Definition thread_weight (t : tx_thread) : nat := match t with TIdle | TEnded => 0 | TLoop => 1 | TSubmit _ => 5 end.
Definition comp_weight (c : tx_comp) : nat := match c with CompPut _ => 2 | CompFlow => 1 end.
Definition weight (s : sys) : nat :=
  call_weight (call s) + 5 * length (tx_post_list (dev s)) + thread_weight (thread s) + 3 * length (flying s)
  + sum_list_with comp_weight (comps s) + 2 * bustx_trgg (dev s) + (if starting s then 1 else 0).

Lemma inner_weight s s' : step Inner s s' -> (weight s' < weight s)%nat.
Proof.
  intros Hs. remember Inner as k eqn:Ek. unfold weight. destruct Hs; try discriminate; cbn.
  - rewrite H, length_app. cbn. lia.
  - rewrite H. cbn. lia.
  - destruct (flow_ctrl_frame (dev s)) as (_ & _ & _ & -> & _ & ->). rewrite H. cbn. lia.
  - rewrite H, H0. destruct (bus_down (dev s)), (0 <? tx_post_count (dev s)); cbn; lia.
  - rewrite H. cbn. lia.
  - destruct (post_get_inv _ _ _ H1) as (l & El & ->). rewrite H, El. cbn. lia.
  - rewrite H, length_app. cbn. lia.
  - rewrite H, !length_app, sum_list_with_app. cbn. lia.
  - rewrite H, !sum_list_with_app. cbn. lia.
  - destruct (flow_wake_frame (dev s)) as (_ & _ & _ & -> & _ & ->). rewrite H, !sum_list_with_app. cbn. lia.
  - rewrite H. lia.
Qed.

(** A state in which nothing is in progress. *)
Definition settled (s : sys) : Prop := forall s', ~ step Inner s s'.

Lemma settled_parts s : settled s -> call s = CNone /\ comps s = [] /\ flying s = [] /\
  (thread s = TIdle /\ bustx_trgg (dev s) = 0%nat \/ thread s = TEnded).
Proof.
  intros Hs. split_and!.
  - destruct (call s) as [|b| |] eqn:E; [done|exfalso..].
    + eapply Hs. exact (step_post b s E).
    + eapply Hs. exact (step_trigger s E).
    + eapply Hs. exact (step_flow s E).
  - destruct (comps s) as [|[b|] l] eqn:E; [done|exfalso..].
    + eapply Hs. exact (step_comp_put [] b l s E).
    + eapply Hs. exact (step_comp_flow [] l s E).
  - destruct (flying s) as [|b l] eqn:E; [done|]. exfalso. eapply Hs. exact (step_complete [] b l s E).
  - destruct (thread s) as [| |b|] eqn:E.
    + left. split; [done|]. destruct (bustx_trgg (dev s)) as [|n] eqn:En; [done|]. exfalso. eapply Hs. exact (step_wake n s E En).
    + exfalso. destruct (tx_post_list (dev s)) as [|b l] eqn:El; [eapply Hs; apply step_loop_end; [done|now left]|].
      destruct (decide (state (dev s) = USB_UP_ST)) as [Eu|Eu]; [|eapply Hs; apply step_loop_end; [done|now right]].
      eapply Hs. eapply (step_loop_get b _ s E Eu). unfold tx_post_get. now rewrite El.
    + exfalso. eapply Hs. exact (step_submit b s E).
    + now right.
Qed.

(** Runs of work in progress. *)
Inductive inners : nat -> sys -> sys -> Prop :=
| inners_O s : inners 0 s s
| inners_S n s s' s'' : step Inner s s' -> inners n s' s'' -> inners (Datatypes.S n) s s''.

Lemma inners_bound n s s' : inners n s s' -> (n + weight s' <= weight s)%nat.
Proof. induction 1 as [|n s s' s'' Hs _ IH]; [lia|]. pose proof (inner_weight _ _ Hs). lia. Qed.

Lemma pool_count s : wf s -> (length (tx_free_list (dev s)) + length (busy s) = 200)%nat.
Proof.
  intros Hw. pose proof (w_pool _ Hw) as Hp. apply Permutation_length in Hp. unfold pool in Hp.
  rewrite length_fmap, length_app, length_seq in Hp. exact Hp.
Qed.

Lemma settled_all s : wf s -> calm_inv s -> settled s -> state (dev s) = USB_UP_ST -> thread s <> TEnded -> starting s = false ->
  tx_post_list (dev s) = [] /\ sent s = posted s /\ tx_free_count (dev s) = AICWF_USB_TX_URBS /\ tbusy (dev s) = false /\
  (was_down s = false -> stopped (dev s) = false).
Proof.
  intros Hw [C1 C2] Hs Hu Ht Hst. destruct (settled_parts s Hs) as (Ec & Eo & Ef & [[Et Eg]|Et]); [|done].
  assert (tx_post_list (dev s) = []) as Ep.
  { destruct (tx_post_list (dev s)) as [|b l] eqn:El; [done|]. exfalso.
    destruct (w_wake s Hw Hu) as [?|[?|[?|?]]]; [now rewrite El|done|lia|done|congruence|congruence]. }
  assert (busy s = []) as Eb by (unfold busy; now rewrite Ec, Ep, Et, Ef, Eo).
  pose proof (pool_count s Hw) as Hl. rewrite Eb in Hl. cbn in Hl.
  assert (tx_free_count (dev s) = AICWF_USB_TX_URBS) as En by (rewrite (w_free _ Hw); unfold AICWF_USB_TX_URBS; lia).
  assert (tbusy (dev s) = false) as Etb.
  { destruct (tbusy (dev s)) eqn:E; [|done]. exfalso. destruct (C1 E) as [Hle|Hin]; [|rewrite Eo in Hin; inversion Hin].
    rewrite En in Hle. unfold AICWF_USB_TX_HIGH_WATER, AICWF_USB_TX_LOW_WATER, AICWF_USB_TX_URBS in Hle. now apply Hle. }
  split_and!; try done.
  - rewrite (w_fifo _ Hw), Ep, C2, Et. cbn. now rewrite !app_nil_r.
  - intros Hd. rewrite <- Etb. now apply (w_busy _ Hw).
Qed.

(** A state with nothing to do. *)
Lemma quiet s : call s = CNone -> comps s = [] -> flying s = [] -> (thread s = TIdle /\ bustx_trgg (dev s) = 0%nat \/ thread s = TEnded) ->
  (starting s = false \/ tx_post_list (dev s) <> []) -> settled s.
Proof.
  intros Ec Eo Ef Et Es. intros s' Hs. remember Inner as k eqn:Ek. destruct Hs; try discriminate; try congruence.
  - destruct Et as [[_ E]|E]; congruence.
  - destruct Et as [[E _]|E]; congruence.
  - destruct Et as [[E _]|E]; congruence.
  - destruct Et as [[E _]|E]; congruence.
  - rewrite Ef in H. now destruct l1.
  - rewrite Eo in H. now destruct l1.
  - rewrite Eo in H. now destruct l1.
  - destruct Es; congruence.
Qed.

(** Either nothing is in progress or something can go on. *)
Lemma progress s : settled s \/ exists s', step Inner s s'.
Proof.
  assert ((exists s', step Inner s s') \/ call s = CNone /\ comps s = [] /\ flying s = [] /\
    (thread s = TIdle /\ bustx_trgg (dev s) = 0%nat \/ thread s = TEnded) /\ (starting s = false \/ tx_post_list (dev s) <> [])) as [?|(Ec & Eo & Ef & Et & Es)].
  - destruct (call s) as [|b| |] eqn:E1; [|left; eexists; exact (step_post b s E1)|left; eexists; exact (step_trigger s E1)|left; eexists; exact (step_flow s E1)].
    destruct (comps s) as [|[b|] l] eqn:E2; [|left; eexists; exact (step_comp_put [] b l s E2)|left; eexists; exact (step_comp_flow [] l s E2)].
    destruct (flying s) as [|b l] eqn:E3; [|left; eexists; exact (step_complete [] b l s E3)].
    destruct (thread s) as [| |b|] eqn:E4.
    + destruct (bustx_trgg (dev s)) as [|n] eqn:E5; [|left; eexists; exact (step_wake n s E4 E5)].
      destruct (starting s) eqn:E6; [|right; auto 10]. destruct (tx_post_list (dev s)) eqn:E7; [left; eexists; exact (step_prepared s E6 E7)|right; auto 10].
    + left. destruct (tx_post_list (dev s)) as [|b l] eqn:E5; [eexists; exact (step_loop_end s E4 (or_introl E5))|].
      destruct (decide (state (dev s) = USB_UP_ST)) as [E6|E6]; [|eexists; exact (step_loop_end s E4 (or_intror E6))].
      eexists. eapply (step_loop_get b _ s E4 E6). unfold tx_post_get. now rewrite E5.
    + left. eexists. exact (step_submit b s E4).
    + destruct (starting s) eqn:E6; [|right; auto 10]. destruct (tx_post_list (dev s)) eqn:E7; [left; eexists; exact (step_prepared s E6 E7)|right; auto 10].
  - now right.
  - left. now apply quiet.
Qed.

(** Work in progress comes to an end, *)
Lemma settles s : exists n s', inners n s s' /\ settled s'.
Proof.
  remember (weight s) as w eqn:Ew. revert s Ew. induction w as [w IH] using lt_wf_ind. intros s ->.
  destruct (progress s) as [Hs|[s1 Hs]]; [exists 0%nat, s; split; [constructor|done]|].
  destruct (IH _ (inner_weight _ _ Hs) s1 eq_refl) as (n & s' & Hi & Hd). exists (Datatypes.S n), s'. split; [exact (inners_S n s s1 s' Hs Hi)|done].
Qed.

(** and leaves alone what the other steps set. *)
Record ready (s : sys) : Prop := {
  rd_up : state (dev s) = USB_UP_ST; rd_bus : bus_down (dev s) = false; rd_thread : thread s <> TEnded; rd_start : starting s = false
}.

Lemma inner_ready s s' : step Inner s s' -> ready s -> ready s' /\ was_down s' = was_down s.
Proof.
  intros Hs [R1 R2 R3 R4]. remember Inner as k eqn:Ek. destruct Hs; try discriminate; (split; [|reflexivity]); constructor; cbn; try assumption; try congruence.
  all: try (unfold flow_ctrl; destruct (_ <? _); assumption).
  all: try (unfold flow_wake; destruct (_ && _); assumption).
  all: try (destruct (post_get_inv _ _ _ H1) as (l & El & ->); assumption).
  rewrite R2. destruct (0 <? _); congruence.
Qed.

Lemma inners_ready n s s' : inners n s s' -> ready s -> ready s' /\ was_down s' = was_down s.
Proof.
  induction 1 as [|n s s' s'' Hs _ IH]; [done|]. intros Hr. destruct (inner_ready _ _ Hs Hr) as [Hr' <-]. now apply IH.
Qed.

Lemma inners_reach n s s' : inners n s s' -> reachable calm s -> reachable calm s'.
Proof.
  induction 1 as [|n s s' s'' Hs _ IH]; [done|]. intros Hr. apply IH. eapply reach_step; [exact Hr| |exact Hs]. discriminate.
Qed.

Lemma reachable_bus ok s : reachable ok s -> state (dev s) = USB_UP_ST -> bus_down (dev s) = false.
Proof.
  assert (forall st d, (state d = USB_UP_ST -> bus_down d = false) -> let d' := aicwf_usb_state_change st d in state d' = USB_UP_ST -> bus_down d' = false) as Hc.
  { intros st d Hd. unfold aicwf_usb_state_change. cbn zeta. destruct (decide _); [done|]. now destruct st. }
  induction 1 as [|k s s' _ IH _ Hs]; [discriminate|]. destruct Hs; cbn; try exact IH.
  - destruct (take_inv _ _ _ _ _ H0) as (b0 & p & _ & Hg & ->). destruct (free_get_inv _ _ _ Hg) as (l & El & ->). exact IH.
  - destruct (enomem_inv _ _ _ _ H0) as [-> _]. exact IH.
  - rewrite (down_inv _ _ _ _ H0 H1). destruct (tbusy (dev s)); exact IH.
  - unfold flow_ctrl. destruct (_ <? _); exact IH.
  - destruct (post_get_inv _ _ _ H1) as (l & El & ->). exact IH.
  - rewrite (failed_inv _ _ _ H0). exact IH.
  - unfold flow_wake. destruct (_ && _); exact IH.
  - now apply Hc.
  - now apply Hc.
  - destruct (prepare_inv _ _ _ _ H0 H1) as (p & ->). exact IH.
Qed.

(** ** Steps as a function *)

Inductive act := ATake (env : tx_env) (f : tx_frame) | APost | ATrigger | AFlow | AWake | AEnd | AGet | ASubmit | AFail
  | AComplete | APut | AWakeQueues | AStart | APrepared.

Definition act_step (a : act) (s : sys) : option sys :=
  match a with
  | ATake env f =>
      match call s, bus_txdata_take env f (dev s) with
      | CNone, Ok (TxTaken b, d) => Some (s <| dev := d |> <| call := CPost b |>)
      | _, _ => None
      end
  | APost => match call s with
             | CPost b => Some (s <| dev ::= tx_post_put b |> <| call := CTrigger |> <| posted ::= fun l => l ++ [b] |>)
             | _ => None end
  | ATrigger => match call s with CTrigger => Some (s <| dev ::= complete_trgg |> <| call := CFlow |>) | _ => None end
  | AFlow => match call s with CFlow => Some (s <| dev ::= flow_ctrl |> <| call := CNone |>) | _ => None end
  | AWake =>
      match thread s, bustx_trgg (dev s) with
      | TIdle, Datatypes.S n => Some (s <| dev ::= fun d => d <| bustx_trgg := n |> |>
          <| thread := if bus_down (dev s) then TEnded else if 0 <? tx_post_count (dev s) then TLoop else TIdle |>)
      | _, _ => None
      end
  | AEnd => match thread s, tx_post_list (dev s) with TLoop, [] => Some (s <| thread := TIdle |>) | _, _ => None end
  | AGet =>
      match thread s, state (dev s), tx_post_get (dev s) with
      | TLoop, USB_UP_ST, (Some b, d) => Some (s <| dev := d |> <| thread := TSubmit b |> <| taken ::= fun l => l ++ [b] |>)
      | _, _, _ => None
      end
  | ASubmit => match thread s with
               | TSubmit b => Some (s <| thread := TLoop |> <| flying ::= fun l => l ++ [b] |> <| sent ::= fun l => l ++ [b] |>)
               | _ => None end
  | AFail =>
      match thread s with
      | TSubmit b => match tx_submit_failed b (dev s) with Ok d => Some (s <| dev := d |> <| thread := TLoop |>) | _ => None end
      | _ => None
      end
  | AComplete => match flying s with b :: l => Some (s <| flying := l |> <| comps ::= fun l => l ++ [CompPut b] |>) | _ => None end
  | APut => match comps s with
            | CompPut b :: l => Some (s <| dev ::= tx_free_put (mk_ub (ub_id b) None) |> <| comps := CompFlow :: l |>) | _ => None end
  | AWakeQueues => match comps s with CompFlow :: l => Some (s <| dev ::= flow_wake |> <| comps := l |>) | _ => None end
  | AStart => match state (dev s) with
              | USB_UP_ST => None | _ => Some (s <| dev ::= aicwf_usb_state_change USB_UP_ST |> <| starting := true |>) end
  | APrepared => match starting s, tx_post_list (dev s) with true, [] => Some (s <| starting := false |>) | _, _ => None end
  end.

Definition act_kind (a : act) : kind := match a with ATake _ _ | AStart => Outer | AFail => Trouble | _ => Inner end.

Lemma act_sound a s s' : act_step a s = Some s' -> step (act_kind a) s s'.
Proof.
  destruct a; cbn [act_step act_kind].
  - destruct (call s) eqn:Ec; try discriminate. destruct (bus_txdata_take env f (dev s)) as [[[b| |] d]|] eqn:E; try discriminate.
    intros [= <-]. exact (step_take env f b d s Ec E).
  - destruct (call s) eqn:Ec; try discriminate. intros [= <-]. exact (step_post _ s Ec).
  - destruct (call s) eqn:Ec; try discriminate. intros [= <-]. exact (step_trigger s Ec).
  - destruct (call s) eqn:Ec; try discriminate. intros [= <-]. exact (step_flow s Ec).
  - destruct (thread s) eqn:Et; try discriminate. destruct (bustx_trgg (dev s)) as [|n] eqn:En; [discriminate|]. intros [= <-]. exact (step_wake n s Et En).
  - destruct (thread s) eqn:Et; try discriminate. destruct (tx_post_list (dev s)) eqn:Ep; [|discriminate]. intros [= <-]. exact (step_loop_end s Et (or_introl Ep)).
  - destruct (thread s) eqn:Et; try discriminate. destruct (state (dev s)) eqn:Eu; try discriminate.
    destruct (tx_post_get (dev s)) as [[b|] d] eqn:E; [|discriminate]. intros [= <-]. exact (step_loop_get b d s Et Eu E).
  - destruct (thread s) eqn:Et; try discriminate. intros [= <-]. exact (step_submit _ s Et).
  - destruct (thread s) eqn:Et; try discriminate. destruct (tx_submit_failed b (dev s)) eqn:E; [|discriminate]. intros [= <-]. exact (step_submit_fail _ _ s Et E).
  - destruct (flying s) as [|b l] eqn:E; [discriminate|]. intros [= <-]. exact (step_complete [] b l s E).
  - destruct (comps s) as [|[b|] l] eqn:E; try discriminate. intros [= <-]. exact (step_comp_put [] b l s E).
  - destruct (comps s) as [|[b|] l] eqn:E; try discriminate. intros [= <-]. exact (step_comp_flow [] l s E).
  - destruct (state (dev s)) eqn:E; try discriminate; intros [= <-]; apply step_start; congruence.
  - destruct (starting s) eqn:E; [|discriminate]. destruct (tx_post_list (dev s)) eqn:Ep; [|discriminate]. intros [= <-]. exact (step_prepared s E Ep).
Qed.

Fixpoint acts (l : list act) (s : sys) : option sys :=
  match l with [] => Some s | a :: l => match act_step a s with Some s' => acts l s' | None => None end end.

Lemma acts_reach (ok : kind -> Prop) l : Forall (fun a => ok (act_kind a)) l -> forall s s', reachable ok s -> acts l s = Some s' -> reachable ok s'.
Proof.
  induction 1 as [|a l Ha _ IH]; intros s s' Hr; cbn; [now intros [= <-]|].
  destruct (act_step a s) as [s1|] eqn:E; [|discriminate]. apply IH. eapply reach_step; [exact Hr|exact Ha|now apply act_sound].
Qed.

End TxSys.

Module TxFacts.
Import UsbTx.

Lemma usb_header_len n rest : 0 <= n -> le16 (usb_header n ++ rest) 0 = Ok (n mod 4096).
Proof.
  intros Hn. change (Ok (Z.land n 255 + Z.land (Z.shiftr n 8) 15 * 256) = Ok (n mod 4096)). f_equal.
  change 255 with (Z.ones 8). change 15 with (Z.ones 4). rewrite !Z.land_ones, Z.shiftr_div_pow2 by lia.
  change (2 ^ 8) with 256. change (2 ^ 4) with 16. Z.div_mod_to_equations. lia.
Qed.

(** The padding of a confirmed frame. *)
Lemma pad_bounds n : 0 <= n < 65532 -> let p := if has n (TX_ALIGNMENT - 1) then Rx.roundup4 n - n else 0 in
  0 <= p < 4 /\ (n + p) mod 4 = 0.
Proof.
  intros Hn. unfold has, TX_ALIGNMENT, Rx.roundup4. change (4 - 1) with (Z.ones 2). rewrite Z.land_ones by lia. change (2 ^ 2) with 4.
  cbn zeta. destruct (Z.eqb_spec (n mod 4) 0); cbn [negb]; [rewrite Z.add_0_r; lia|].
  replace (n + ((n + 3) / 4 * 4 - n)) with ((n + 3) / 4 * 4) by lia. rewrite Z.mod_mul by lia. Z.div_mod_to_equations. lia.
Qed.

End TxFacts.

Module UsbRx.
Import UsbTx FrameQ Split.

Definition AICWF_USB_RX_URBS : Z := 20.
Definition MAX_RXQLEN : Z := 2000.

Record aic_rx := mk_rx {
  rx_state : aicwf_usb_state; rx_bus_down : bool;
  rx_free_list : list nat;
  rxq : frame_queue (list Z);
  rx_cnt : Z;
  busrx_trgg : nat
}.
#[export] Instance aic_rx_eta : RecordEta aic_rx := fun r =>
  mk_rx (rx_state r) (rx_bus_down r) (rx_free_list r) (rxq r) (rx_cnt r) (busrx_trgg r).
Implicit Types (r : aic_rx).

Definition aicwf_usb_rx_buf_put (i : nat) r : aic_rx := r <| rx_free_list ::= fun l => l ++ [i] |>.

(** [aicwf_usb_rx_submit_all_urb]: the URBs that are submitted.  Each answer is
    that of one [aicwf_usb_submit_rx_urb], its allocation included; a failure
    puts the buffer back and ends the loop. *)
Fixpoint aicwf_usb_rx_submit_all_urb (answers : list bool) r (out : list nat) : list nat * aic_rx :=
  match answers with
  | [] => (out, r)
  | a :: answers =>
      if negb (bool_decide (rx_state r = USB_UP_ST)) then (out, r) else
      match rx_free_list r with
      | [] => (out, r)
      | i :: l =>
          let r := r <| rx_free_list := l |> in
          if a : bool then aicwf_usb_rx_submit_all_urb answers r (out ++ [i])
          else (out, aicwf_usb_rx_buf_put i r)
      end
  end.

(** How a URB comes back: with an error, with a length that is 0 or too large,
    with a transfer. *)
Inductive urb_result := UrbError | UrbBad | UrbData (d : list Z).

(** [aicwf_usb_rx_complete] up to the counter: the frame is queued; or the
    buffer is put back and the URBs submitted; or only put back. *)
Inductive rx_taken := RxQueued | RxResubmit | RxPut.
Definition rx_complete_take (u : urb_result) r : res (rx_taken * aic_rx) :=
  match u with
  | UrbError => Ok (RxPut, r)
  | UrbBad => Ok (RxResubmit, r)
  | UrbData d =>
      if negb (bool_decide (rx_state r = USB_UP_ST)) then Ok (RxPut, r)
      else
        '(ok, _, q) ← aicwf_rxframe_enqueue (rxq r) d;
        if ok : bool then Ok (RxQueued, r <| rxq := q |>) else Ok (RxResubmit, r)
  end.
Definition rx_inc r : aic_rx := r <| rx_cnt ::= Z.add 1 |>.
Definition rx_test r : aic_rx := if rx_cnt r =? 1 then r <| busrx_trgg ::= Datatypes.S |> else r.

Definition aicwf_usb_rx_complete (u : urb_result) (i : nat) (answers : list bool) r : res (list nat * aic_rx) :=
  '(t, r) ← rx_complete_take u r;
  match t with
  | RxPut => Ok ([], aicwf_usb_rx_buf_put i r)
  | RxResubmit => Ok (aicwf_usb_rx_submit_all_urb answers (aicwf_usb_rx_buf_put i r) [])
  | RxQueued => Ok (aicwf_usb_rx_submit_all_urb answers (aicwf_usb_rx_buf_put i (rx_test (rx_inc r))) [])
  end.

(** [aicwf_usb_state_change], for this half of the device. *)
Definition rx_state_change (st : aicwf_usb_state) r : aic_rx :=
  if decide (rx_state r = st) then r
  else
    let r := r <| rx_state := st |> in
    match st with USB_DOWN_ST => r <| rx_bus_down := true |> | USB_UP_ST => r <| rx_bus_down := false |> | USB_SLEEP_ST => r end.

(** [aicwf_usb_alloc_rx_urb] and [aicwf_rx_init]. *)
Definition init_rx : aic_rx :=
  mk_rx USB_DOWN_ST true (seq 0 (Z.to_nat AICWF_USB_RX_URBS)) (aicwf_frame_queue_init 1 MAX_RXQLEN) 0 0.

Section Process.
Context {T : Type} `{RxHandlers T}.

(** [aicwf_process_rxframes], by transfers; [fuel] bounds their number. *)
Fixpoint aicwf_process_rxframes (fuel : nat) (aggr : bool) (env : split_env) r (t : T) : res (aic_rx * T) :=
  match fuel with
  | O => Fault OutOfFuel
  | Datatypes.S fuel =>
      e ← aicwf_is_framequeue_empty (rxq r);
      if e : bool then Ok (r, t)
      else
        '(o, q) ← aicwf_frame_dequeue (rxq r);
        match o with
        | None => Ok (r <| rxq := q |>, t)
        | Some d =>
            '(v, t) ← process_rxframe aggr env d t;
            match v with
            | Next => aicwf_process_rxframes fuel aggr env (r <| rxq := q |> <| rx_cnt ::= fun n => n - 1 |>) t
            | _ => Ok (r <| rxq := q |>, t)
            end
        end
  end.
End Process.

End UsbRx.

Module RxSys.
Import UsbTx FrameQ FrameQSpec Split UsbRx.

Section Sys.
Context {T : Type} `{RxHandlers T}.

(** The completion handler: the URBs of one endpoint complete one after the
    other. *)
Inductive rx_prod := PNone | PInc (i : nat) | PTest (i : nat) | PPut (i : nat).
(** [usb_busrx_thread] *)
Inductive rx_thread := RIdle | RLoop | RHold (d : list Z) | REnded.

Record sys := mk_sys {
  rx : aic_rx;
  prod : rx_prod;
  thread : rx_thread;
  flying : list nat;
  app : T;
  arrived : list (list Z); handled : list (list Z)
}.
#[export] Instance sys_eta : RecordEta sys := fun s =>
  mk_sys (rx s) (prod s) (thread s) (flying s) (app s) (arrived s) (handled s).

(** [Outer]: the device, the bus.  [Inner]: the driver.  [Trouble]: the driver
    gives up for want of memory. *)
Inductive kind := Outer | Inner | Trouble.

Inductive step : kind -> sys -> sys -> Prop :=
| step_data d l1 i l2 r s : prod s = PNone -> flying s = l1 ++ i :: l2 -> rx_complete_take (UrbData d) (rx s) = Ok (RxQueued, r) ->
    step Outer s (s <| rx := r |> <| flying := l1 ++ l2 |> <| prod := PInc i |> <| arrived ::= fun l => l ++ [d] |>)
| step_resubmit u l1 i l2 r s : prod s = PNone -> flying s = l1 ++ i :: l2 -> rx_complete_take u (rx s) = Ok (RxResubmit, r) ->
    step Outer s (s <| rx := r |> <| flying := l1 ++ l2 |> <| prod := PPut i |>)
| step_put_only u l1 i l2 r s : prod s = PNone -> flying s = l1 ++ i :: l2 -> rx_complete_take u (rx s) = Ok (RxPut, r) ->
    step Outer s (s <| rx := aicwf_usb_rx_buf_put i r |> <| flying := l1 ++ l2 |>)
| step_inc i s : prod s = PInc i -> step Inner s (s <| rx ::= rx_inc |> <| prod := PTest i |>)
| step_test i s : prod s = PTest i -> step Inner s (s <| rx ::= rx_test |> <| prod := PPut i |>)
| step_put i answers out r s : prod s = PPut i -> aicwf_usb_rx_submit_all_urb answers (aicwf_usb_rx_buf_put i (rx s)) [] = (out, r) ->
    step Inner s (s <| rx := r |> <| flying ::= fun l => l ++ out |> <| prod := PNone |>)
| step_wake n s : thread s = RIdle -> busrx_trgg (rx s) = Datatypes.S n ->
    step Inner s (s <| rx ::= fun r => r <| busrx_trgg := n |> |> <| thread := if rx_bus_down (rx s) then REnded else RLoop |>)
| step_end s : thread s = RLoop -> aicwf_is_framequeue_empty (rxq (rx s)) = Ok true -> step Inner s (s <| thread := RIdle |>)
| step_get d q s : thread s = RLoop -> aicwf_is_framequeue_empty (rxq (rx s)) = Ok false -> aicwf_frame_dequeue (rxq (rx s)) = Ok (Some d, q) ->
    step Inner s (s <| rx ::= fun r => r <| rxq := q |> |> <| thread := RHold d |>)
| step_done aggr env d t s : thread s = RHold d -> process_rxframe aggr env d (app s) = Ok (Next, t) ->
    step Inner s (s <| rx ::= fun r => r <| rx_cnt ::= fun n => n - 1 |> |> <| thread := RLoop |> <| app := t |> <| handled ::= fun l => l ++ [d] |>)
| step_ebade aggr env d t s : thread s = RHold d -> process_rxframe aggr env d (app s) = Ok (Ebade, t) ->
    step Trouble s (s <| thread := RIdle |> <| app := t |>)
| step_submit answers out r s : aicwf_usb_rx_submit_all_urb answers (rx s) [] = (out, r) ->
    step Outer s (s <| rx := r |> <| flying ::= fun l => l ++ out |>)
| step_state st s : step Outer s (s <| rx ::= rx_state_change st |>).

Definition init_sys (t : T) : sys := mk_sys init_rx PNone RIdle [] t [] [].

Inductive reachable (ok : kind -> Prop) (t : T) : sys -> Prop :=
| reach_init : reachable ok t (init_sys t)
| reach_step k s s' : reachable ok t s -> ok k -> step k s s' -> reachable ok t s'.

Definition any (k : kind) : Prop := True.
Definition calm (k : kind) : Prop := k <> Trouble.

Definition waiting (s : sys) : list (list Z) := (order (rxq (rx s))).*2.
Definition prod_buf (p : rx_prod) : list nat := match p with PNone => [] | PInc i | PTest i | PPut i => [i] end.
Definition prod_inc (p : rx_prod) : Z := match p with PInc _ => 1 | _ => 0 end.
Definition held (t : rx_thread) : list (list Z) := match t with RHold d => [d] | _ => [] end.

Record wf (s : sys) : Prop := {
  w_pool : rx_free_list (rx s) ++ prod_buf (prod s) ++ flying s ≡ₚ seq 0 (Z.to_nat AICWF_USB_RX_URBS);
  w_queue : fq_wf (rxq (rx s)) /\ num_prio (rxq (rx s)) = 1 /\ qmax (rxq (rx s)) = MAX_RXQLEN
}.

(** Without trouble: nothing is lost, the counter is exact, and a queued frame
    for the sleeping thread is the one whose arrival is being counted. *)
Record calm_inv (s : sys) : Prop := {
  ci_fifo : arrived s = handled s ++ held (thread s) ++ waiting s;
  ci_cnt : rx_cnt (rx s) = Z.of_nat (length (waiting s)) + Z.of_nat (length (held (thread s))) - prod_inc (prod s);
  ci_wake : thread s = RIdle -> busrx_trgg (rx s) = 0%nat -> waiting s <> [] ->
    length (waiting s) = 1%nat /\ exists i, prod s = PInc i \/ prod s = PTest i
}.

(** The state after one failure with frames behind it: the counter is one too
    high, for good. *)
Record deaf (s : sys) : Prop := {
  d_idle : thread s = RIdle /\ busrx_trgg (rx s) = 0%nat;
  d_wait : waiting s <> [];
  d_cnt : rx_cnt (rx s) = Z.of_nat (length (waiting s)) + 1 - prod_inc (prod s)
}.

(** ** The queue of one priority is a list *)

Lemma one_prio (q : frame_queue (list Z)) : fq_wf q -> num_prio q = 1 -> Forall (fun x => x.1 = 0) (order q).
Proof.
  intros Hw Hn. pose proof (fw_num _ Hw) as Hl. pose proof (order_ge (queuelist q) 0) as Hg. pose proof (order_lt (queuelist q) 0) as Hlt.
  apply Forall_forall. intros x Hx. rewrite Forall_forall in Hg, Hlt. specialize (Hg x Hx). specialize (Hlt x Hx). cbn in Hg, Hlt. lia.
Qed.

Lemma enq_inv (q : frame_queue (list Z)) d b o q' : fq_wf q -> num_prio q = 1 -> aicwf_rxframe_enqueue q d = Ok (b, o, q') ->
  fq_wf q' /\ num_prio q' = 1 /\ qmax q' = qmax q /\ (b = true -> (order q').*2 = (order q).*2 ++ [d]).
Proof.
  intros Hw Hn He. destruct (enq_ok q d 0 Hw) as (q2 & E & Hw' & Eo & En & Ex); [lia|].
  unfold aicwf_rxframe_enqueue in He. rewrite E in He. pose proof (one_prio q Hw Hn) as Hz. unfold pl_enq in *.
  destruct (Z.of_nat (length (order q)) <? qmax q).
  - injection He as <- <- <-. split_and!; [done|congruence|done|]. intros _. rewrite Eo. cbn [snd]. unfold pl_insert.
    rewrite (list_filter_all _ (order q)) by (eapply Forall_impl; [|exact Hz]; cbn; lia).
    rewrite (filter_none _ (order q)) by (eapply Forall_impl; [|exact Hz]; cbn; lia). now rewrite fmap_app.
  - destruct (list.last (order q)) as [[v x]|] eqn:El.
    + apply last_Some in El as [l El]. rewrite El in Hz. apply Forall_app in Hz as [_ Hz]. apply Forall_cons_1 in Hz as [Hv _].
      cbn in Hv. subst v. cbn in He. injection He as <- <- <-. split_and!; [done|congruence|done|discriminate].
    + injection He as <- <- <-. split_and!; [done|congruence|done|discriminate].
Qed.

Lemma deq_inv (q : frame_queue (list Z)) d q' : fq_wf q -> aicwf_frame_dequeue q = Ok (Some d, q') ->
  fq_wf q' /\ num_prio q' = num_prio q /\ qmax q' = qmax q /\ (order q).*2 = d :: (order q').*2.
Proof.
  intros Hw He. destruct (dequeue_ok q Hw) as (q2 & E & Hw' & Eo & En & Ex). rewrite E in He. injection He as Hh <-.
  split_and!; try done. rewrite Eo. destruct (order q) as [|x l]; [discriminate|]. cbn in Hh. injection Hh as <-. done.
Qed.

(** ** Submission *)

Lemma submit_all_spec answers : forall r out out' r', aicwf_usb_rx_submit_all_urb answers r out = (out', r') ->
  out' ++ rx_free_list r' ≡ₚ out ++ rx_free_list r /\ rxq r' = rxq r /\ rx_cnt r' = rx_cnt r /\ busrx_trgg r' = busrx_trgg r.
Proof.
  induction answers as [|a answers IH]; intros r out out' r'; cbn; [now intros [= <- <-]|].
  destruct (negb _); [now intros [= <- <-]|]. destruct (rx_free_list r) as [|i l] eqn:El; [intros [= <- <-]; rewrite El; done|].
  destruct a.
  - intros E. destruct (IH _ _ _ _ E) as (Hp & -> & -> & ->). split_and!; try done. rewrite Hp. cbn. now rewrite <- app_assoc.
  - intros [= <- <-]. cbn. split_and!; try done. f_equiv. apply Permutation_app_comm.
Qed.

Lemma rx_take_inv u r t r' : fq_wf (rxq r) -> num_prio (rxq r) = 1 -> rx_complete_take u r = Ok (t, r') ->
  rx_free_list r' = rx_free_list r /\ rx_cnt r' = rx_cnt r /\ busrx_trgg r' = busrx_trgg r /\
  fq_wf (rxq r') /\ num_prio (rxq r') = 1 /\ qmax (rxq r') = qmax (rxq r) /\
  match t with
  | RxQueued => exists d, u = UrbData d /\ (order (rxq r')).*2 = (order (rxq r)).*2 ++ [d]
  | _ => rxq r' = rxq r
  end.
Proof.
  intros Hw Hn. unfold rx_complete_take. destruct u as [| |d]; [now intros [= <- <-]|now intros [= <- <-]|].
  destruct (negb _); [now intros [= <- <-]|]. destruct (aicwf_rxframe_enqueue (rxq r) d) as [[[b o] q]|] eqn:E; [|discriminate].
  destruct (enq_inv _ _ _ _ _ Hw Hn E) as (E1 & E2 & E3 & E4). cbn. destruct b; intros [= <- <-]; split_and!; try done.
  exists d. split; [done|]. now apply E4.
Qed.

Lemma rx_state_frame st r : let r' := rx_state_change st r in
  rx_free_list r' = rx_free_list r /\ rxq r' = rxq r /\ rx_cnt r' = rx_cnt r /\ busrx_trgg r' = busrx_trgg r.
Proof. unfold rx_state_change. cbn zeta. destruct (decide _); [done|]. now destruct st. Qed.

Lemma wf_step k s s' : step k s s' -> wf s -> wf s'.
Proof.
  intros Hs [W1 (W2 & W3 & W4)]. destruct Hs.
  - destruct (rx_take_inv _ _ _ _ W2 W3 H2) as (F1 & F2 & F3 & F4 & F5 & F6 & _). constructor; cbn; [|rewrite F6; done].
    rewrite F1, <- W1, H0, H1. cbn. f_equiv. now rewrite Permutation_middle.
  - destruct (rx_take_inv _ _ _ _ W2 W3 H2) as (F1 & F2 & F3 & F4 & F5 & F6 & _). constructor; cbn; [|rewrite F6; done].
    rewrite F1, <- W1, H0, H1. cbn. f_equiv. now rewrite Permutation_middle.
  - destruct (rx_take_inv _ _ _ _ W2 W3 H2) as (F1 & F2 & F3 & F4 & F5 & F6 & _). constructor; cbn; [|rewrite F6; done].
    rewrite F1, <- W1, H0, H1. cbn. rewrite <- app_assoc. f_equiv. cbn. now rewrite Permutation_middle.
  - constructor; [|done]. cbn. rewrite <- W1, H0. done.
  - constructor; cbn; [rewrite <- W1, H0|]; unfold rx_test; destruct (rx_cnt (rx s) =? 1); done.
  - destruct (submit_all_spec _ _ _ _ _ H1) as (Hp & Hq & _). constructor; cbn; [|rewrite Hq; done].
    rewrite <- W1, H0. cbn in *. rewrite Permutation_app_comm, <- app_assoc, Hp. rewrite (Permutation_app_comm (flying s)), <- app_assoc. done.
  - constructor; done.
  - constructor; done.
  - destruct (deq_inv _ _ _ W2 H2) as (E1 & E2 & E3 & _). constructor; cbn; [done|]. rewrite E2, E3. done.
  - constructor; done.
  - constructor; done.
  - destruct (submit_all_spec _ _ _ _ _ H0) as (Hp & Hq & _). constructor; cbn; [|rewrite Hq; done].
    rewrite <- W1. cbn in Hp. rewrite <- Hp. rewrite (Permutation_app_comm out). rewrite <- !app_assoc. f_equiv.
    rewrite (Permutation_app_comm out), <- app_assoc. done.
  - destruct (rx_state_frame st (rx s)) as (F1 & F2 & _). constructor; cbn; [now rewrite F1|now rewrite F2].
Qed.

Lemma rx_wf_init t : wf (init_sys t).
Proof.
  constructor.
  - cbn. now rewrite app_nil_r.
  - now destruct (queue_init_ok (A := list Z) 1 MAX_RXQLEN ltac:(lia) ltac:(unfold MAX_RXQLEN; lia)).
Qed.

Lemma rx_reachable_wf ok t s : reachable ok t s -> wf s.
Proof. induction 1 as [|k s s' _ IH _ Hs]; [apply rx_wf_init|]. now apply (wf_step _ _ _ Hs). Qed.

Lemma waiting_nil s : waiting s = [] <-> order (rxq (rx s)) = [].
Proof. unfold waiting. destruct (order (rxq (rx s))); cbn; [done|]. split; discriminate. Qed.

Lemma calm_step k s s' : step k s s' -> calm k -> wf s -> calm_inv s -> calm_inv s'.
Proof.
  intros Hs Hk [_ (W2 & W3 & _)] [C1 C2 C3]. unfold waiting in *. destruct Hs; try congruence.
  - destruct (rx_take_inv _ _ _ _ W2 W3 H2) as (F1 & F2 & F3 & F4 & F5 & F6 & d' & [= <-] & Eq). rewrite H0 in C2.
    constructor; unfold waiting; cbn.
    + rewrite Eq, C1. now rewrite <- !app_assoc.
    + rewrite F2, Eq, C2, length_app. cbn. lia.
    + rewrite F3, Eq. intros Hi Ht _. destruct (decide ((order (rxq (rx s))).*2 = [])) as [E|E]; [rewrite E; split; [done|]; exists i; now left|].
      destruct (C3 Hi Ht E) as (_ & j & [?|?]); congruence.
  - destruct (rx_take_inv _ _ _ _ W2 W3 H2) as (F1 & F2 & F3 & F4 & F5 & F6 & Eq). rewrite H0 in C2, C3.
    constructor; unfold waiting; cbn; rewrite ?F2, ?F3, ?Eq; [done|done|]. intros Hi Ht E. destruct (C3 Hi Ht E) as (_ & j & [?|?]); congruence.
  - destruct (rx_take_inv _ _ _ _ W2 W3 H2) as (F1 & F2 & F3 & F4 & F5 & F6 & Eq). rewrite H0 in C2, C3.
    constructor; unfold waiting; cbn; rewrite ?H0, ?F2, ?F3, ?Eq; [done|done|]. intros Hi Ht E. destruct (C3 Hi Ht E) as (_ & j & [?|?]); congruence.
  - rewrite H0 in C2. constructor; unfold waiting; cbn; [done|rewrite C2; cbn; lia|]. intros Hi Ht E. destruct (C3 Hi Ht E) as (Hl & _).
    split; [done|]. exists i. now right.
  - rewrite H0 in C2. constructor; unfold waiting; cbn; unfold rx_test.
    + destruct (rx_cnt (rx s) =? 1); done.
    + destruct (rx_cnt (rx s) =? 1); cbn; rewrite C2; done.
    + intros Hi Ht E. exfalso. assert ((order (rxq (rx s))).*2 <> []) as E' by (destruct (rx_cnt (rx s) =? 1); exact E).
      destruct (Z.eqb_spec (rx_cnt (rx s)) 1) as [E1|E1]; [discriminate Ht|]. destruct (C3 Hi Ht E') as (Hl & _).
      rewrite C2, Hl, Hi in E1. now apply E1.
  - destruct (submit_all_spec _ _ _ _ _ H1) as (_ & Hq & Hc & Ht). rewrite H0 in C2, C3. cbn in Hq, Hc, Ht.
    constructor; unfold waiting; cbn; rewrite ?Hq, ?Hc, ?Ht; [done|done|]. intros Hi Hz E. destruct (C3 Hi Hz E) as (_ & j & [?|?]); congruence.
  - rewrite H0 in C1, C2. constructor; unfold waiting; cbn; [|rewrite C2|]; destruct (rx_bus_down (rx s)); done.
  - rewrite empty_ok in H1 by done. injection H1 as E. apply bool_decide_eq_true in E. rewrite H0 in C1, C2.
    constructor; unfold waiting; cbn; [done|done|]. rewrite E. done.
  - destruct (deq_inv _ _ _ W2 H2) as (_ & _ & _ & Eq). rewrite H0 in C1, C2. rewrite Eq in C1, C2.
    constructor; unfold waiting; cbn; [done| |done]. rewrite C2. cbn [length held]. lia.
  - rewrite H0 in C1, C2. constructor; unfold waiting; cbn; [|rewrite C2; cbn [length held]; lia|done].
    rewrite C1. cbn. now rewrite <- app_assoc.
  - destruct (submit_all_spec _ _ _ _ _ H0) as (_ & Hq & Hc & Ht).
    constructor; unfold waiting; cbn; rewrite ?Hq, ?Hc, ?Ht; done.
  - destruct (rx_state_frame st (rx s)) as (_ & Hq & Hc & Ht). constructor; unfold waiting; cbn; rewrite ?Hq, ?Hc, ?Ht; done.
Qed.

Lemma calm_reachable t s : reachable calm t s -> calm_inv s.
Proof.
  induction 1 as [|k s s' Hr IH Hk Hs].
  - destruct (queue_init_ok (A := list Z) 1 MAX_RXQLEN ltac:(lia) ltac:(unfold MAX_RXQLEN; lia)) as [_ Eo].
    constructor; unfold waiting; cbn [rx init_sys init_rx rxq]; rewrite Eo; done.
  - apply (calm_step _ _ _ Hs Hk); [now apply (rx_reachable_wf _ _ _ Hr)|done].
Qed.

Definition settled (s : sys) : Prop := forall s', ~ step Inner s s'.

Lemma rx_settled_parts s : wf s -> settled s -> prod s = PNone /\
  (thread s = RIdle /\ busrx_trgg (rx s) = 0%nat \/ thread s = REnded \/ exists d, thread s = RHold d).
Proof.
  intros [_ (W2 & W3 & _)] Hs. split.
  - destruct (prod s) as [|i|i|i] eqn:E; [done|exfalso..].
    + eapply Hs. exact (step_inc i s E).
    + eapply Hs. exact (step_test i s E).
    + eapply Hs. eapply (step_put i [] [] _ s E). reflexivity.
  - destruct (thread s) as [| |d|] eqn:E; [| |right; right; eauto|right; now left].
    + left. split; [done|]. destruct (busrx_trgg (rx s)) as [|n] eqn:En; [done|]. exfalso. eapply Hs. exact (step_wake n s E En).
    + exfalso. pose proof (empty_ok _ W2) as Ee. destruct (bool_decide (order (rxq (rx s)) = [])) eqn:Eb.
      * eapply Hs. exact (step_end s E Ee).
      * destruct (dequeue_ok _ W2) as (q & Ed & _). apply bool_decide_eq_false in Eb.
        destruct (order (rxq (rx s))) as [|[z d] l] eqn:Eo; [done|]. cbn in Ed. eapply Hs. exact (step_get d q s E Ee Ed).
Qed.

Lemma rx_quiet s : prod s = PNone -> thread s = RIdle -> busrx_trgg (rx s) = 0%nat -> settled s.
Proof. intros Ep Et Eg s' Hs. remember Inner as k eqn:Ek. destruct Hs; congruence. Qed.

(** Runs, by the kinds of their steps. *)
Inductive run : list kind -> sys -> sys -> Prop :=
| run_nil s : run [] s s
| run_cons k ks s s1 s' : step k s s1 -> run ks s1 s' -> run (k :: ks) s s'.

Lemma deaf_step k s s' : step k s s' -> wf s -> deaf s -> deaf s' /\ handled s' = handled s.
Proof.
  intros Hs [_ (W2 & W3 & _)] [[D1 D2] D3 D4]. unfold waiting in *.
  assert (forall r, order (rxq r) = order (rxq (rx s)) -> busrx_trgg r = 0%nat -> forall p, rx_cnt r = rx_cnt (rx s) + prod_inc (prod s) - prod_inc p ->
    forall s', rx s' = r -> prod s' = p -> thread s' = RIdle -> deaf s') as Hd.
  { intros r Eo Et p Ec s2 <- <- Ei. constructor; unfold waiting; [done|now rewrite Eo|]. rewrite Eo, Ec, D4. lia. }
  destruct Hs; try congruence.
  - destruct (rx_take_inv _ _ _ _ W2 W3 H2) as (F1 & F2 & F3 & F4 & F5 & F6 & d' & [= <-] & Eq). split; [|done]. rewrite H0 in D4.
    constructor; unfold waiting; cbn; rewrite ?F2, ?F3, ?Eq; [done|now destruct (order (rxq (rx s))).*2|]. rewrite D4, length_app. cbn. lia.
  - destruct (rx_take_inv _ _ _ _ W2 W3 H2) as (F1 & F2 & F3 & F4 & F5 & F6 & Eq). split; [|done].
    eapply (Hd r); [now rewrite Eq|congruence| |reflexivity|reflexivity|done]. cbn. rewrite H0, F2. cbn. lia.
  - destruct (rx_take_inv _ _ _ _ W2 W3 H2) as (F1 & F2 & F3 & F4 & F5 & F6 & Eq). split; [|done].
    eapply (Hd (aicwf_usb_rx_buf_put i r)); [cbn; now rewrite Eq|cbn; congruence| |reflexivity|reflexivity|done]. cbn. rewrite H0, F2. cbn. lia.
  - split; [|done]. eapply (Hd (rx_inc (rx s))); [done|done| |reflexivity|reflexivity|done]. cbn. rewrite H0. cbn. lia.
  - split; [|done]. assert (rx_test (rx s) = rx s) as Et.
    { unfold rx_test. destruct (Z.eqb_spec (rx_cnt (rx s)) 1) as [E|E]; [|done]. exfalso. rewrite H0 in D4. cbn in D4.
      destruct (order (rxq (rx s))).*2; [done|]. cbn in D4. lia. }
    eapply (Hd (rx s)); [done|done| |cbn; now rewrite Et|reflexivity|done]. cbn. rewrite H0. cbn. lia.
  - destruct (submit_all_spec _ _ _ _ _ H1) as (_ & Hq & Hc & Ht). cbn in Hq, Hc, Ht. split; [|done].
    eapply (Hd r); [now rewrite Hq|congruence| |reflexivity|reflexivity|done]. cbn. rewrite H0, Hc. cbn. lia.
  - destruct (submit_all_spec _ _ _ _ _ H0) as (_ & Hq & Hc & Ht). split; [|done].
    eapply (Hd r); [now rewrite Hq|congruence| |reflexivity|reflexivity|done]. cbn. rewrite Hc. lia.
  - destruct (rx_state_frame st (rx s)) as (_ & Hq & Hc & Ht). split; [|done].
    eapply (Hd (rx_state_change st (rx s))); [now rewrite Hq|congruence| |reflexivity|reflexivity|done]. cbn. rewrite Hc. lia.
Qed.

End Sys.
End RxSys.

Module Props.
Import UsbTx FrameQSpec.

(** C13. Transmission makes progress: on a device that is up, when no submission
    fails, whatever the callers, the thread and the completion handlers have
    begun comes to an end, in a number of steps that the state bounds.  By then
    every posted frame was submitted, in order, all 200 buffers are free, and no
    queue is left stopped (unless a frame came while the device was down). *)
Theorem usb_tx_drains s : TxSys.reachable TxSys.calm s -> state (TxSys.dev s) = USB_UP_ST -> TxSys.thread s <> TxSys.TEnded -> TxSys.starting s = false ->
  (exists n s', TxSys.inners n s s' /\ TxSys.settled s') /\
  (forall n s', TxSys.inners n s s' -> (n <= TxSys.weight s)%nat /\
    (TxSys.settled s' -> let d := TxSys.dev s' in
      tx_post_list d = [] /\ TxSys.sent s' = TxSys.posted s' /\ tx_free_count d = AICWF_USB_TX_URBS /\ tbusy d = false /\
      (TxSys.was_down s = false -> stopped d = false))).
Proof.
  intros Hr Hu Ht Hst. split; [apply TxSys.settles|]. intros n s' Hi. pose proof (TxSys.inners_bound _ _ _ Hi). split; [lia|].
  intros Hd. cbn zeta. pose proof (TxSys.inners_reach _ _ _ Hi Hr) as Hr'.
  destruct (TxSys.inners_ready _ _ _ Hi) as [[R1 _ R3 R4] <-]; [constructor; try done; now apply (TxSys.reachable_bus TxSys.calm)|].
  apply TxSys.settled_all; try done; [now apply (TxSys.reachable_wf TxSys.calm)|now apply TxSys.calm_inv_reachable].
Qed.

(** C22. In all interleavings, failures and restarts included: the 200 buffers are
    each in one place -- free list, caller, post list, thread, USB core, or
    completion handler; the counters are the lengths of their lists; what is in
    use carries a packet; the post list is first in first out; a posted frame has
    a running thread, a pending wake-up, or a caller about to post one; and
    [tbusy] is set only while the queues are stopped. *)
Theorem usb_tx_invariant s : TxSys.reachable TxSys.any s -> TxSys.wf s.
Proof. apply TxSys.reachable_wf. Qed.

(** The run that stalls: 151 frames stop the queues and all their submissions
    fail. *)
Definition stall_env : tx_env := mk_tenv true true true.
Definition stall_frame : tx_frame := mk_frame false [] [] 8.
Definition stall_run : list TxSys.act :=
  [TxSys.AStart; TxSys.APrepared] ++
  concat (replicate 151 [TxSys.ATake stall_env stall_frame; TxSys.APost; TxSys.ATrigger; TxSys.AFlow]) ++
  [TxSys.AWake] ++ concat (replicate 151 [TxSys.AGet; TxSys.AFail]) ++ [TxSys.AEnd] ++ replicate 150 TxSys.AWake.

Lemma stall_run_ok : exists s, TxSys.acts stall_run TxSys.init_sys = Some s /\
  TxSys.call s = TxSys.CNone /\ TxSys.comps s = [] /\ TxSys.flying s = [] /\ TxSys.thread s = TxSys.TIdle /\ bustx_trgg (TxSys.dev s) = 0%nat /\
  TxSys.starting s = false /\
  state (TxSys.dev s) = USB_UP_ST /\ tx_post_list (TxSys.dev s) = [] /\ tx_free_count (TxSys.dev s) = 200 /\ stopped (TxSys.dev s) = true.
Proof.
  remember (TxSys.acts stall_run TxSys.init_sys) as o eqn:Eo. vm_compute in Eo. subst o. eexists. split; [reflexivity|]. now vm_compute.
Qed.

(** When submissions fail the queues can stay stopped for ever: there is a
    run after which the device is up, every buffer is free, nothing is in
    progress or about to be -- and the queues are stopped, with no completion
    left to wake them. *)
Theorem usb_tx_stall_after_failures : exists s, TxSys.reachable TxSys.any s /\ TxSys.settled s /\
  state (TxSys.dev s) = USB_UP_ST /\ tx_post_list (TxSys.dev s) = [] /\ tx_free_count (TxSys.dev s) = AICWF_USB_TX_URBS /\
  stopped (TxSys.dev s) = true.
Proof.
  destruct stall_run_ok as (s & E & E1 & E2 & E3 & E4 & E5 & E6 & F). exists s. split.
  - apply (TxSys.acts_reach TxSys.any stall_run) with (s := TxSys.init_sys); [|constructor|exact E]. apply Forall_forall. now intros.
  - split; [|exact F]. exact (TxSys.quiet s E1 E2 E3 (or_introl (conj E4 E5)) (or_introl E6)).
Qed.

(** The bytes of a frame: a header of four bytes, whose length field is the
    length of the transfer in 12 bits and whose type is "data"; then the
    descriptor and the payload; for a frame that is to be confirmed, then fewer
    than four zeros that make the length a multiple of four. *)
Theorem usb_tx_frame_format env f b : Z.of_nat (length (desc f ++ payload f)) < 65528 -> tx_bytes env f = Ok b ->
  exists pad, b = take 4 b ++ desc f ++ payload f ++ pad /\ le16 b 0 = Ok (Z.of_nat (length b) mod 4096) /\ rd8 b 2 = Ok 1 /\
    (if need_cfm f then (length pad < 4)%nat /\ Z.of_nat (length b) mod 4 = 0 else pad = []).
Proof.
  intros Hl. unfold tx_bytes. set (body := desc f ++ payload f) in *. set (n := 4 + Z.of_nat (length body)).
  assert (forall m pad, 0 <= m -> m = n + Z.of_nat (length pad) -> forall r, r = usb_header m ++ body ++ pad ->
    r = take 4 r ++ desc f ++ payload f ++ pad /\ le16 r 0 = Ok (Z.of_nat (length r) mod 4096) /\ rd8 r 2 = Ok 1) as Hh.
  { intros m pad Hm Em r ->. split_and!.
    - cbn [usb_header app take]. unfold body. now rewrite <- app_assoc.
    - rewrite TxFacts.usb_header_len by done. do 2 f_equal. rewrite !length_app. cbn [usb_header length]. lia.
    - reflexivity. }
  destruct (need_cfm f).
  - destruct (negb (t_kmalloc_ok env)); [discriminate|]. cbn zeta. rewrite (wrapU_small 16 n) by lia.
    pose proof (TxFacts.pad_bounds n ltac:(lia)) as Hp. cbn zeta in Hp.
    set (p := if has n _ then _ else _) in *. destruct Hp as [Hp1 Hp2]. destruct (_ <? _); [discriminate|]. rewrite wrapU_small by lia. intros [= <-].
    exists (replicate (Z.to_nat p) 0). destruct (Hh (n + p) (replicate (Z.to_nat p) 0) ltac:(lia) ltac:(rewrite length_replicate; lia) _ eq_refl) as (A & B & C).
    split_and!; try done; [rewrite length_replicate; lia|]. transitivity ((n + p) mod 4); [|done]. f_equal. unfold n. cbn [usb_header app length].
    rewrite length_app, length_replicate. lia.
  - destruct (_ <? _); [discriminate|]. intros [= <-]. exists []. destruct (Hh n [] ltac:(lia) ltac:(cbn; lia) (usb_header n ++ body)) as (A & B & C).
    + now rewrite app_nil_r.
    + split_and!; done.
Qed.

Section Rx.
Context {T : Type} `{H : Split.RxHandlers T}.
Implicit Types (s : RxSys.sys (T := T)).

(** C18. No wake-up of the receive thread is lost: in a run without failing
    allocations, once the completion handler and the thread have nothing left to
    do, every transfer that arrived was taken apart, in the order of arrival,
    and the counter is zero. *)
Theorem usb_rx_no_lost_wakeup t s : RxSys.reachable RxSys.calm t s -> RxSys.settled s -> RxSys.thread s = RxSys.RIdle ->
  RxSys.handled s = RxSys.arrived s /\ RxSys.waiting s = [] /\ UsbRx.rx_cnt (RxSys.rx s) = 0.
Proof.
  intros Hr Hs Ht. destruct (RxSys.rx_settled_parts s (RxSys.rx_reachable_wf _ _ _ Hr) Hs) as (Ep & Hc). destruct (RxSys.calm_reachable _ _ Hr) as [C1 C2 C3].
  destruct Hc as [[_ Eg]|[?|[d ?]]]; [|congruence..]. rewrite Ht in C1, C2.
  assert (RxSys.waiting s = []) as Ew.
  { destruct (RxSys.waiting s) as [|x l] eqn:E; [done|]. exfalso. rewrite <- E in C3. destruct (C3 Ht Eg) as (_ & i & [?|?]); congruence. }
  rewrite Ew, Ep in C2. rewrite Ew in C1. cbn in C1, C2. rewrite !app_nil_r in C1. auto.
Qed.

(** One failed allocation can end reception: when [aicwf_process_rxframes]
    gives up with frames behind it, no completion wakes the thread again -- the
    counter is one too high, so it never becomes one -- and whatever happens
    from there on, nothing more is handled. *)
Theorem usb_rx_deaf t s s' ks : RxSys.reachable RxSys.any t s -> RxSys.deaf s -> RxSys.run ks s s' -> RxSys.deaf s' /\ RxSys.handled s' = RxSys.handled s.
Proof.
  intros Hr Hd Hk. induction Hk as [|k ks s s1 s' Hs _ IH]; [done|].
  destruct (RxSys.deaf_step _ _ _ Hs (RxSys.rx_reachable_wf _ _ _ Hr) Hd) as [Hd1 <-]. apply IH; [|done]. exact (RxSys.reach_step RxSys.any t k s s1 Hr I Hs).
Qed.
End Rx.

End Props.

Module Witnesses.
Import UsbTx FrameQ FrameQSpec Split Transfer Props BusRx.Witnesses.

(** Two frames under way, one of them to be confirmed. *)
Definition w_run : list TxSys.act :=
  [TxSys.AStart; TxSys.APrepared; TxSys.ATake stall_env stall_frame; TxSys.APost; TxSys.ATrigger; TxSys.AFlow; TxSys.AWake; TxSys.AGet; TxSys.ASubmit;
   TxSys.ATake stall_env (mk_frame true [7] [8] 8); TxSys.APost].

Lemma w_run_ok : exists s, TxSys.acts w_run TxSys.init_sys = Some s /\ state (TxSys.dev s) = USB_UP_ST /\ TxSys.thread s = TxSys.TLoop /\
  TxSys.starting s = false /\ TxSys.was_down s = false /\ length (tx_post_list (TxSys.dev s)) = 1%nat.
Proof. eexists. split; [vm_compute; reflexivity|]. now vm_compute. Qed.

Lemma w_run_reach ok s : (forall k, k <> TxSys.Trouble -> ok k) -> TxSys.acts w_run TxSys.init_sys = Some s -> TxSys.reachable ok s.
Proof.
  intros Hk. apply (TxSys.acts_reach ok w_run); [|constructor]. repeat (constructor; [apply Hk; discriminate|]). constructor.
Qed.

Lemma usb_tx_drains_witness : exists s n s', TxSys.thread s = TxSys.TLoop /\ TxSys.inners n s s' /\ TxSys.settled s' /\
  TxSys.sent s' = TxSys.posted s' /\ tx_free_count (TxSys.dev s') = 200 /\ stopped (TxSys.dev s') = false.
Proof.
  destruct w_run_ok as (s & E & Eu & Et & Es & Ed & _). exists s.
  destruct (usb_tx_drains s) as [(n & s' & Hi & Hs) Ha]; [now apply w_run_reach|done|congruence|done|].
  exists n, s'. destruct (Ha n s' Hi) as [_ Hb]. destruct (Hb Hs) as (_ & E2 & E3 & _ & E5). auto 10.
Defined.

Lemma usb_tx_invariant_witness : exists s, length (tx_post_list (TxSys.dev s)) = 1%nat /\ TxSys.wf s.
Proof.
  destruct w_run_ok as (s & E & _ & _ & _ & _ & El). exists s. split; [done|]. apply usb_tx_invariant, w_run_reach; done.
Defined.

Lemma usb_tx_frame_format_witness : exists pad,
  [8; 0; 1; 0; 7; 8; 0; 0] = take 4 [8; 0; 1; 0; 7; 8; 0; 0] ++ [7] ++ [8] ++ pad /\
  le16 [8; 0; 1; 0; 7; 8; 0; 0] 0 = Ok (8 mod 4096) /\ rd8 [8; 0; 1; 0; 7; 8; 0; 0] 2 = Ok 1 /\ (length pad < 4)%nat /\ 8 mod 4 = 0.
Proof.
  exact (usb_tx_frame_format stall_env (mk_frame true [7] [8] 8) [8; 0; 1; 0; 7; 8; 0; 0] ltac:(cbn; lia) eq_refl).
Defined.

#[local] Existing Instance note_handlers.
Definition w_msg : list Z := enc w_cfg ++ [0; 0].
Definition w_nomem : split_env := mk_senv true (fun _ => true) false.

Lemma calm_inner : RxSys.calm RxSys.Inner.
Proof. discriminate. Qed.
Lemma calm_outer : RxSys.calm RxSys.Outer.
Proof. discriminate. Qed.

(** One more step of a run. *)
Ltac rx_next R ok st :=
  match type of R with
  | RxSys.reachable ?k ?t ?s =>
      let R' := fresh "R" in
      eassert (RxSys.reachable k t _) as R'; [refine (RxSys.reach_step k t _ s _ R ok _); eapply st; reflexivity|];
      clear R; rename R' into R;
      match type of R with RxSys.reachable _ _ ?x => let y := eval vm_compute in x in change x with y in R end
  end.

(** The device comes up, submits three URBs, a transfer comes and the thread
    takes it. *)
Ltac rx_first R outer inner :=
  rx_next R outer (RxSys.step_state USB_UP_ST); rx_next R outer (RxSys.step_submit [true; true; true]); rx_next R outer (RxSys.step_data w_msg []);
  rx_next R inner RxSys.step_inc; rx_next R inner RxSys.step_test; rx_next R inner (RxSys.step_put 0%nat []); rx_next R inner RxSys.step_wake;
  rx_next R inner RxSys.step_get.

(** It is handled, and the thread goes back to sleep. *)
Lemma w_handled : exists s, RxSys.reachable RxSys.calm ([] : list (Z * list Z)) s /\ RxSys.settled s /\ RxSys.thread s = RxSys.RIdle /\
  RxSys.arrived s = [w_msg].
Proof.
  pose proof (RxSys.reach_init RxSys.calm ([] : list (Z * list Z))) as R. rx_first R calm_outer calm_inner.
  rx_next R calm_inner (RxSys.step_done true w_senv). rx_next R calm_inner RxSys.step_end.
  eexists. split; [exact R|]. split; [now apply RxSys.rx_quiet|]. done.
Qed.

Lemma usb_rx_no_lost_wakeup_witness : exists s, RxSys.reachable RxSys.calm ([] : list (Z * list Z)) s /\
  RxSys.handled s = [w_msg] /\ RxSys.waiting s = [] /\ UsbRx.rx_cnt (RxSys.rx s) = 0.
Proof.
  destruct w_handled as (s & R & Hs & Ht & Ea). exists s. rewrite <- Ea. split; [exact R|]. now apply (usb_rx_no_lost_wakeup []).
Defined.

(** A second transfer comes while the first is taken apart, which fails for
    want of memory; a third comes later. *)
Lemma w_deaf : exists s s', RxSys.reachable RxSys.any ([] : list (Z * list Z)) s /\ RxSys.deaf s /\ RxSys.handled s = [] /\
  RxSys.run [RxSys.Outer; RxSys.Inner; RxSys.Inner; RxSys.Inner] s s' /\ length (RxSys.arrived s') = 3%nat.
Proof.
  pose proof (RxSys.reach_init RxSys.any ([] : list (Z * list Z))) as R. rx_first R I I.
  rx_next R I (RxSys.step_data w_msg []). rx_next R I RxSys.step_inc. rx_next R I RxSys.step_test. rx_next R I (RxSys.step_put 1%nat []).
  rx_next R I (RxSys.step_ebade true w_nomem).
  eexists. eexists. split; [exact R|]. split; [constructor; vm_compute; (done || discriminate)|]. split; [done|]. split.
  - eapply RxSys.run_cons; [eapply (RxSys.step_data w_msg []); reflexivity|].
    eapply RxSys.run_cons; [eapply RxSys.step_inc; reflexivity|].
    eapply RxSys.run_cons; [eapply RxSys.step_test; reflexivity|].
    eapply RxSys.run_cons; [eapply (RxSys.step_put 2%nat []); reflexivity|]. apply RxSys.run_nil.
  - reflexivity.
Qed.

Lemma usb_rx_deaf_witness : exists s : RxSys.sys (T := list (Z * list Z)), length (RxSys.arrived s) = 3%nat /\ RxSys.deaf s /\ RxSys.handled s = [].
Proof.
  destruct w_deaf as (s & s' & R & Hd & Eh & Hr & El). exists s'. rewrite <- Eh. split; [exact El|].
  exact (usb_rx_deaf [] s s' _ R Hd Hr).
Defined.

End Witnesses.
