(* ===== verification/XmitFacts.v ===== *)
(** What holds of the entry of frames, [Xmit.v]: choice of the queue, the states
    it can reach together with the transmit queues ([Facts.wf]), the account of
    frames over filter and queues, and the bytes that reach the bus.  The
    properties are in [XmitProps.v]. *)
From stdpp Require Import base list numbers option gmap relations.
From Stdlib Require Import ZArith Lia.
From S2P Require Import Prelude TcpAck Txq TxqInv TxqSteps TxqSys TxqLayout Xmit Usb.

#[local] Open Scope Z_scope.
#[local] Open Scope aic_scope.

Module Facts.
Import Hw Entry.

(** ** Access categories *)

Definition needs (acm_ : Z) (ac : nat) : bool := has acm_ (BIT (Z.of_nat ac)).
(** The access category of a TID. *)
Definition category (tid : Z) : option nat := rwnx_tid2hwq !! Z.to_nat tid.

Lemma category_range ac prio : category prio = Some ac -> (ac <= 3)%nat.
Proof.
  unfold category. intros H%list_elem_of_lookup_2. revert H. unfold rwnx_tid2hwq. rewrite !elem_of_cons, elem_of_nil.
  unfold RWNX_HWQ_BE, RWNX_HWQ_BK, RWNX_HWQ_VI, RWNX_HWQ_VO. lia.
Qed.

(** The result of [rwnx_downgrade_ac]. *)
Definition downgraded (acm_ : Z) (ac : nat) (prio p : Z) : Prop :=
  exists ac', category p = Some ac' /\ (ac' <= ac)%nat /\ (forall x, (ac' < x <= ac)%nat -> needs acm_ x = true) /\
    (needs acm_ ac' = true -> ac' = RWNX_HWQ_BK) /\ (needs acm_ ac = false -> p = prio) /\ (p = prio \/ 1 <= p <= 5).

Lemma downgrade_loop_ok acm_ ac prio : category prio = Some ac -> exists p, downgrade_loop acm_ ac prio = Ok p /\ downgraded acm_ ac prio p.
Proof.
  intros Hp. pose proof (category_range _ _ Hp) as Hr. revert prio Hp. induction ac as [|ac IH]; intros prio Hp; cbn [downgrade_loop].
  - change (has acm_ (BIT (Z.of_nat 0))) with (needs acm_ 0). destruct (needs acm_ 0) eqn:E.
    + exists 1. split; [done|]. exists 0%nat. split_and!; first [done|lia|congruence].
    + exists prio. split; [done|]. exists 0%nat. split_and!; first [done|lia|congruence|now left].
  - fold (needs acm_ (S ac)). destruct (needs acm_ (S ac)) eqn:E.
    + assert (exists q, rwnx_down_hwq2tid !! ac = Some q /\ category q = Some ac /\ 1 <= q <= 5) as (q & Hq & Hc & Hb).
      { destruct ac as [|[|[|ac]]]; [exists 2|exists 3|exists 5|lia]; split_and!; try done. }
      rewrite Hq. cbn [from_option_res mbind res_bind]. destruct (IH ltac:(lia) q Hc) as (p & Ep & ac' & A & B & C & D & F & G).
      exists p. split; [done|]. exists ac'. split_and!; try done; [lia| |congruence|right; lia].
      intros x Hx. destruct (decide (x = S ac)) as [->|]; [done|]. apply C. lia.
    + exists prio. split; [done|]. exists (S ac). split_and!; first [done|lia|congruence|now left].
Qed.

Lemma downgrade_ok acm_ prio ac : category prio = Some ac -> exists p, rwnx_downgrade_ac acm_ prio = Ok p /\ downgraded acm_ ac prio p.
Proof.
  intros H. unfold rwnx_downgrade_ac. fold (category prio). rewrite H. cbn [from_option_res mbind res_bind].
  pose proof (category_range _ _ H). rewrite (proj2 (Nat.ltb_ge _ _)) by (unfold RWNX_HWQ_VO; lia). now apply downgrade_loop_ok.
Qed.

(** ** Room for the header *)

Lemma align_pads_range a : 0 <= RWNX_SWTXHDR_ALIGN_PADS a < 4.
Proof.
  unfold RWNX_SWTXHDR_ALIGN_PADS, RWNX_SWTXHDR_ALIGN_MSK, RWNX_SWTXHDR_ALIGN_SZ. change (4 - 1) with (Z.ones 2).
  rewrite !Z.land_ones by lia. apply Z.mod_pos_bound. lia.
Qed.

(** The pads make the address of the payload a multiple of four. *)
Lemma align_pads_ok a : (a + RWNX_SWTXHDR_ALIGN_PADS a) mod 4 = 0.
Proof.
  unfold RWNX_SWTXHDR_ALIGN_PADS, RWNX_SWTXHDR_ALIGN_MSK, RWNX_SWTXHDR_ALIGN_SZ. change (4 - 1) with (Z.ones 2).
  rewrite !Z.land_ones by lia. change (2 ^ 2) with 4. rewrite Zplus_mod_idemp_r.
  replace (a + (4 - a mod 4)) with ((a / 4 + 1) * 4) by (pose proof (Z.div_mod a 4); lia). apply Z.mod_mul. lia.
Qed.

Lemma pull_push k n : (14 <= length (data k))%nat -> n - 14 <= skb_headroom k ->
  skb_push n (skb_pull 14 k) = Ok (mk_net_skb (skb_id k) (drop 14 (data k)) (hdr_len k + n) (skb_headroom k + 14 - n)
    (data_addr k + 14 - n) (priority k) (queue_mapping k) (skb_shared k) (skb_cloned k)).
Proof.
  intros Hl Hn. unfold skb_pull. rewrite (proj2 (Nat.leb_le 14 _)) by done. unfold skb_push. cbn. change (Z.of_nat 14) with 14.
  destruct (Z.ltb_spec (skb_headroom k + 14) n); [lia|]. done.
Qed.

Lemma slice_ok b i n : 0 <= i -> i + Z.of_nat n <= Z.of_nat (length b) -> slice b i n = Ok (take n (drop (Z.to_nat i) b)).
Proof. intros H1 H2. unfold slice. now rewrite (proj2 (Z.leb_le _ _) H1), (proj2 (Z.leb_le _ _) H2). Qed.
Lemma rd8_two b i : 0 <= i -> i + 2 <= Z.of_nat (length b) -> exists x y, rd8 b i = Ok x /\ rd8 b (i + 1) = Ok y.
Proof. intros H1 H2. destruct (rd8_ok b i) as [x Hx]; [lia|]. destruct (rd8_ok b (i + 1)) as [y Hy]; [lia|]. eauto. Qed.

(** ** Frames and queues *)

Section Run.
Import Spec Prim Sys Layout.
Context (plat : rwnx_plat) (classify : list Z -> Z) (robust : list Z -> bool) (jms : Z -> Z) (ptr_size L1_CACHE_BYTES : Z).
Context (stas : list rwnx_sta) (vifs : list rwnx_vif).
Context (Hc : config_ok stas vifs) (Hs : strip <$> stas = stas) (Hk : stations_ok plat stas vifs).
#[local] Abbreviation sizeof_txhdr := (sizeof_txhdr ptr_size L1_CACHE_BYTES).
#[local] Abbreviation reachable := (reachable plat stas vifs).

Definition nx_max : Z := Entry.nx_remote_sta_max plat.
Lemma nx_max_eq : nx_max = Layout.nx_remote_sta_max plat /\ 0 < nx_max <= 32.
Proof. split; [done|]. exact (proj2 (first_vif_eq plat)). Qed.

(** What is fixed about stations and interfaces, beyond [config_ok] and [stations_ok]. *)
Definition unicast (s : nat) : Prop := (s < length stas)%nat /\ Z.of_nat s < nx_max.
Record entry_ok (w : xmit_hw) : Prop := {
  e_nsta : length (x_stas w) = length stas;
  e_nvif : length (x_vifs w) = length vifs;
  e_vif v vif : vifs !! v = Some vif -> Forall unicast (ap_sta_list vif ++ option_list (sta_ap vif) ++ option_list (tdls_sta vif));
  e_more v m : x_vifs w !! v = Some m -> Forall unicast (option_list (sta_4a m) ++ omap p_nhop_sta (mpath_list m));
  e_master v vif m : vifs !! v = Some vif -> iftype vif = NL80211_IFTYPE_AP_VLAN -> vifs !! vlan_master vif = Some m ->
    iftype m <> NL80211_IFTYPE_AP_VLAN
}.

(** No queue is near the limit of its 16-bit counters. *)
Definition capacity (a : rwnx_hw) : Prop := forall t q, txq a !! t = Some q -> Z.of_nat (length (sk_list q)) < 65535.

Lemma reach_numbered a : reachable a -> stas_numbered a.
Proof. intros Hr. destruct (reachable_inv plat stas vifs Hc a Hs Hr) as [Q H]. eapply inv_numbered; eauto. Qed.
Lemma reach_sta a s : reachable a -> (s < length stas)%nat -> exists st, get_sta s a = Ok st /\ sta_idx st = Z.of_nat s /\ stas !! s = Some (strip st).
Proof.
  intros Hr Hl. destruct (reachable_inv plat stas vifs Hc a Hs Hr) as [Q H].
  destruct (lookup_lt_is_Some_2 stas s Hl) as [st0 E]. destruct (sta_exists _ _ _ _ _ _ _ _ H E) as (st & E1 & E2).
  exists st. rewrite (get_sta_ok _ _ _ E1), E, E2. split_and!; [done| |done]. exact (reach_numbered a Hr s st E1).
Qed.
Lemma reach_vif a v : reachable a -> (v < length vifs)%nat -> exists vif, get_vif v a = Ok vif /\ vifs !! v = Some vif.
Proof.
  intros Hr Hl. destruct (reachable_inv plat stas vifs Hc a Hs Hr) as [Q H].
  destruct (lookup_lt_is_Some_2 vifs v Hl) as [vif E]. exists vif. split; [|done]. eapply get_vif_inv; eauto.
Qed.
Lemma reach_vif_table a : reachable a -> vif_table a = vifs.
Proof. intros Hr. destruct (reachable_inv plat stas vifs Hc a Hs Hr) as [Q H]. apply (i_vifs _ _ _ _ _ _ H). Qed.

(** The queue of a station, its netdev queue and its owner. *)
Lemma sta_queue a s st tid : reachable a -> get_sta s a = Ok st -> sta_idx st = Z.of_nat s -> stas !! s = Some (strip st) -> 0 <= tid ->
  let t := rwnx_txq_sta_get plat st tid in
  exists q, txq a !! t = Some q /\ owner_of plat (Z.of_nat t) = Some s /\
    ndev_of plat (Z.of_nat t) = (if nx_max <=? Z.of_nat s then Entry.nx_bcmc_txq_ndev_idx plat
      else if tid =? TID_MGT then NDEV_NO_TXQ else (if tid <? NX_NB_TID_PER_STA then tid else 0) + Z.of_nat s * NX_NB_TID_PER_STA).
Proof.
  intros Hr _ Ei Est Ht t. destruct (c_sta _ _ Hc _ _ Est) as (_ & Hv & _). cbn in Hv.
  pose proof (k_sta _ _ _ Hk _ _ Est) as Hm. cbn in Hm. destruct (first_vif_eq plat) as [Ef Hx].
  pose proof (lookup_lt_Some _ _ _ Est) as Hl. pose proof (c_nsta _ _ Hc) as Hn.
  set (T := if NX_NB_TXQ_PER_STA <=? tid then 0 else tid).
  assert (0 <= T <= 8 /\ (T = tid /\ tid <= 8 \/ T = 0 /\ 9 <= tid)) as [HT HT'].
  { unfold T. change NX_NB_TXQ_PER_STA with 9. destruct (Z.leb_spec 9 tid); lia. }
  assert (Z.of_nat t = if nx_max <=? Z.of_nat s then first_vif plat + vif_idx st else Z.of_nat s * 9 + T) as Et.
  { unfold t, rwnx_txq_sta_get. fold T. unfold rwnx_txq_sta_idx. rewrite Ei, multicast_iff.
    replace (if old_ic plat then NX_FIRST_VIF_TXQ_IDX_FOR_OLD_IC + vif_idx st else NX_FIRST_VIF_TXQ_IDX + vif_idx st)
      with (first_vif plat + vif_idx st) by (unfold first_vif, first_vif_txq; now destruct (old_ic plat)).
    change NX_NB_TXQ_PER_STA with 9 in *. change (Layout.nx_remote_sta_max plat) with nx_max in *.
    change NX_VIRT_DEV_MAX with 4 in *. rewrite Z2Nat.id; [done|]. destruct (Z.leb_spec nx_max (Z.of_nat s)); lia. }
  change (Layout.nx_remote_sta_max plat) with nx_max in *. change NX_NB_TXQ_PER_STA with 9 in *. change NX_VIRT_DEV_MAX with 4 in *.
  assert (t < Z.to_nat NX_NB_TXQ)%nat as Hb.
  { change (Z.to_nat NX_NB_TXQ) with 297%nat. revert Et. destruct (Z.leb_spec nx_max (Z.of_nat s)); lia. }
  destruct (reachable_inv plat stas vifs Hc a Hs Hr) as [Q H]. destruct (txq_exists _ _ _ _ _ _ _ H Hb) as [q Hq].
  exists q. split; [done|]. unfold owner_of, ndev_of. rewrite Et. change (Layout.nx_remote_sta_max plat) with nx_max. change NX_NB_TXQ_PER_STA with 9. change NX_VIRT_DEV_MAX with 4.
  destruct (Z.leb_spec nx_max (Z.of_nat s)) as [Hge|Hlt].
  - specialize (Hm Hge). rewrite (proj2 (Z.ltb_ge _ _)), (proj2 (Z.ltb_lt _ _)) by lia. split; [f_equal; lia|done].
  - rewrite (proj2 (Z.ltb_lt _ _)) by lia. rewrite (Z.add_comm _ T), Z.div_add, Z_mod_plus_full, Z.div_small, Z.mod_small by lia.
    split; [f_equal; lia|]. change NX_NB_TID_PER_STA with 8. unfold NX_STA_NDEV_IDX, TID_MGT. change NX_NB_TID_PER_STA with 8.
    destruct (Z.ltb_spec T 8), (Z.eqb_spec tid 8), (Z.ltb_spec tid 8); lia.
Qed.

Lemma bcmc_ndev_range : 64 <= Entry.nx_bcmc_txq_ndev_idx plat <= 256 /\ Entry.nx_bcmc_txq_ndev_idx plat = nx_max * 8.
Proof. unfold Entry.nx_bcmc_txq_ndev_idx, nx_max, Entry.nx_remote_sta_max. destruct (old_ic plat); vm_compute; repeat split; congruence. Qed.

(** ** A frame on its way to a queue *)

(** A frame of interface [v] for which a queue was chosen, and one with room for
    the header. *)
Definition chosen (v : nat) (k : net_skb) : Prop :=
  (v < length vifs)%nat /\ (14 <= length (data k))%nat /\
  (priority k = PRIO_STA_NULL \/ queue_mapping k = Entry.nx_bcmc_txq_ndev_idx plat \/
   0 <= queue_mapping k /\ (Z.to_nat (queue_mapping k / NX_NB_TID_PER_STA) < length stas)%nat).
Definition has_room (k : net_skb) : Prop := sizeof_txhdr <= skb_headroom k.

Lemma master_idx_ok a v vif : reachable a -> vifs !! v = Some vif -> exists m, master_vif_idx vif a = Ok m /\
  0 <= m < NX_VIRT_DEV_MAX /\ Z.of_nat (bcmc_index vif) = nx_max + m.
Proof.
  intros Hr Hv. destruct (c_vif _ _ Hc _ _ Hv) as (Hi & Hm & _).
  assert (exists m, master_vif_idx vif a = Ok m) as [m E].
  { unfold master_vif_idx, get_vif. rewrite (reach_vif_table a Hr). destruct (iftype vif) eqn:Ei; eauto.
    destruct (lookup_lt_is_Some_2 vifs (vlan_master vif)) as [x ->]; [auto|]. cbn. eauto. }
  exists m. split; [done|]. destruct (reachable_inv plat stas vifs Hc a Hs Hr) as [Q H].
  split; [exact (vif_queue plat stas vifs Hc v vif Q a m H Hv E)|exact (k_bcmc _ _ _ Hk _ _ _ _ Hv (reach_vif_table a Hr) E)].
Qed.

Lemma bcmc_in_range a v vif m : reachable a -> vifs !! v = Some vif -> master_vif_idx vif a = Ok m ->
  (Z.to_nat (nx_max + m) < length stas)%nat.
Proof.
  intros Hr Hv E. destruct (master_idx_ok a v vif Hr Hv) as (m' & E' & _ & Hb). rewrite E in E'. injection E' as <-.
  destruct (c_vif _ _ Hc _ _ Hv) as (_ & _ & Hl & _). lia.
Qed.

Lemma get_tx_priv_ok v k w : reachable (hw w) -> chosen v k ->
  exists o, rwnx_get_tx_priv plat v k w = Ok (o, u8 (priority k)) /\ match o with Some s => (s < length stas)%nat | None => True end.
Proof.
  intros Hr (Hv & Hl & Hq). unfold rwnx_get_tx_priv. destruct (Z.eqb_spec (priority k) PRIO_STA_NULL); [now exists None|].
  destruct (reach_vif (hw w) v Hr Hv) as (vif & -> & Ev). cbn [mbind res_bind].
  destruct (Z.eqb_spec (queue_mapping k) (Entry.nx_bcmc_txq_ndev_idx plat)) as [_|Hn].
  - destruct (master_idx_ok _ _ _ Hr Ev) as (m & E & Hm & _). rewrite E. cbn [mbind res_bind]. eexists. split; [done|].
    exact (bcmc_in_range _ _ _ _ Hr Ev E).
  - eexists. split; [done|]. cbn. destruct Hq as [?|[?|[_ ?]]]; done.
Qed.

(** What [xmit_frame] leaves alone. *)
Definition same_entry (w w' : xmit_hw) : Prop :=
  ack_m w' = ack_m w /\ msgs w' = msgs w /\ x_vifs w' = x_vifs w /\ length (x_stas w') = length (x_stas w) /\
  (forall s, mac_addr <$> x_stas w' !! s = mac_addr <$> x_stas w !! s /\ qos <$> x_stas w' !! s = qos <$> x_stas w !! s).
Lemma same_entry_refl w : same_entry w w.
Proof. done. Qed.
Lemma same_entry_trans a b c : same_entry a b -> same_entry b c -> same_entry a c.
Proof.
  intros (A & B & C & D & E) (A' & B' & C' & D' & E'). split_and!; try congruence.
  intros s. destruct (E s), (E' s). split; congruence.
Qed.
Lemma entry_ok_vifs w w' : x_vifs w' = x_vifs w -> length (x_stas w') = length (x_stas w) -> entry_ok w -> entry_ok w'.
Proof. intros E F [A B C D G]. split; rewrite ?E, ?F; done. Qed.
Lemma entry_ok_same w w' : same_entry w w' -> entry_ok w -> entry_ok w'.
Proof. intros (_ & _ & E & F & _). now apply entry_ok_vifs. Qed.

Lemma tdls_peer_ok v vif addr w : entry_ok w -> vifs !! v = Some vif ->
  exists o, is_tdls_peer vif addr w = Ok o /\ match o with Some s => tdls_sta vif = Some s /\ unicast s | None => True end.
Proof.
  intros He Hv. unfold is_tdls_peer. destruct (tdls_link_active vif), (tdls_sta vif) as [s|] eqn:E; try now exists None.
  pose proof (e_vif _ He _ _ Hv) as Hu. rewrite E, !Forall_app in Hu. destruct Hu as (_ & _ & Hu). apply Forall_cons_1 in Hu as [Hu _].
  unfold get_sta_more. destruct (lookup_lt_is_Some_2 (x_stas w) s) as [m ->]; [rewrite (e_nsta _ He); apply Hu|].
  cbn. destruct (decide _); [now exists (Some s)|now exists None].
Qed.

Lemma data_flags_ok v vif sta dest tid w : entry_ok w -> vifs !! v = Some vif ->
  exists f w', data_flags v vif sta dest tid w = Ok (f, w') /\ hw w' = hw w /\ freed w' = freed w /\ same_entry w w'.
Proof.
  intros He Hv. unfold data_flags, get_vif_more.
  destruct (lookup_lt_is_Some_2 (x_vifs w) v) as [m ->]; [rewrite (e_nvif _ He); eauto using lookup_lt_Some|].
  cbn [from_option_res mbind res_bind]. destruct (tdls_peer_ok v vif dest w He Hv) as (o & -> & _). cbn [mbind res_bind].
  destruct o as [s|]; [|eauto 10 using same_entry_refl]. cbn. do 2 eexists. split; [done|]. split_and!; try done.
  unfold same_entry. cbn. rewrite length_alter. split_and!; try done. intros j. cbn. destruct (decide (j = s)) as [->|Hn].
  - rewrite list_lookup_alter_eq. now destruct (x_stas w !! s).
  - now rewrite list_lookup_alter_ne by done.
Qed.

(** The frame [id] was freed, or a transmit queue took it. *)
Definition queued (id : Z) (a b : rwnx_hw) : Prop :=
  exists f t, sk_id f = id /\ op_ok plat stas vifs (OpXmit f t) a /\ step plat (OpXmit f t) a = Ok b.
Definition sent (id : Z) (w w' : xmit_hw) : Prop :=
  hw w' = hw w /\ freed w' = freed w ++ [id] \/ queued id (hw w) (hw w') /\ freed w' = freed w.

Lemma queue_takes a f t q s : reachable a -> capacity a -> sk_id f ∉ all_ids None a -> sw_txq f = t -> sw_sta f = s ->
  (sw_vif f < length vifs)%nat -> txq a !! t = Some q -> idx q <> TXQ_INACTIVE -> owner_of plat (Z.of_nat t) = s ->
  exists b, queue_and_process f t a = Ok b /\ queued (sk_id f) a b.
Proof.
  intros Hr Hcap Hid Ht Hsta Hv Hq Hi Ho. destruct (reachable_inv plat stas vifs Hc a Hs Hr) as [Q H].
  pose proof (i_txq _ _ _ _ _ _ H _ _ Hq) as Hok. pose proof (reachable_layout plat stas vifs Hc Hs Hk a Hr t q Hq) as Hl.
  assert (xmit_ok vifs f t a) as Hx.
  { unfold xmit_ok. rewrite Hq. split_and!; [|exact (Hcap t q Hq)| |done].
    - pose proof (q_hwq _ _ _ _ _ _ Hok) as Hh. destruct (txq_hwq q); [done|]. now destruct Hh.
    - destruct Hl as [(_ & _ & E)|[E _]]; [|done]. split_and!; [done| |done]. congruence. }
  destruct (xmit_good plat stas vifs Q a f t H Hx) as (b & E & _). exists b. split; [done|]. exists f, t. done.
Qed.

Lemma xmit_frame_ok env v k w : reachable (hw w) -> entry_ok w -> chosen v k -> has_room k -> capacity (hw w) ->
  skb_id k ∉ all_ids None (hw w) ->
  exists w', xmit_frame plat ptr_size L1_CACHE_BYTES env v k w = Ok w' /\ sent (skb_id k) w w' /\ same_entry w w'.
Proof.
  intros Hr He Hch Hroom Hcap Hid. pose proof Hch as (Hv & Hl & _). unfold xmit_frame.
  rewrite !slice_ok by (cbn; lia). cbn [mbind res_bind]. unfold le16.
  destruct (rd8_two (data k) 12) as (b0 & b1 & -> & ->); [lia|lia|]. cbn [mbind res_bind].
  destruct (get_tx_priv_ok v k w Hr Hch) as (o & -> & Ho). cbn [mbind res_bind].
  assert (exists w', Ok (free_skb (skb_id k) w) = Ok w' /\ sent (skb_id k) w w' /\ same_entry w w') as Hfree
    by (eexists; split; [done|]; split; [now left|done]).
  destruct o as [s|]; [|exact Hfree]. destruct (reach_sta (hw w) s Hr Ho) as (sta & Esta & Ei & Est).
  rewrite Esta. cbn [mbind res_bind].
  destruct (sta_queue (hw w) s sta (u8 (priority k)) Hr Esta Ei Est) as (q & Hq & Hown & _); [apply wrapU_bound; lia|].
  rewrite (get_txq_ok _ _ _ Hq). cbn [mbind res_bind]. destruct (Z.eqb_spec (idx q) TXQ_INACTIVE) as [_|Hi]; [exact Hfree|].
  pose proof (align_pads_range (data_addr (skb_pull 14 k))) as Hp.
  rewrite pull_push by (unfold has_room in Hroom; lia). cbn [mbind res_bind skb_id data skb_headroom data_addr priority].
  destruct (e_sw env) as [mem|]; [|exact Hfree]. destruct (reach_vif (hw w) v Hr Hv) as (vif & -> & Ev). cbn [mbind res_bind].
  destruct (master_idx_ok _ _ _ Hr Ev) as (m & -> & _). cbn [mbind res_bind].
  destruct (data_flags_ok v vif sta (take 6 (drop (Z.to_nat 0) (data k))) (u8 (priority k)) w He Ev) as (f & w1 & -> & E1 & E2 & E3).
  cbn [mbind res_bind fst snd]. rewrite E1.
  match goal with |- context [queue_and_process ?f ?t] => destruct (queue_takes (hw w) f t q (Some s) Hr Hcap) as (b & -> & Hqd); try done end.
  cbn [mbind res_bind]. eexists. split; [done|]. split; [right|exact E3]. cbn. rewrite E2. done.
Qed.

(** ** The filter in front, and the account of frames *)

Definition held_ids (w : xmit_hw) : list Z := (fun m => skb_id m.2.2) <$> map_to_list (msgs w).
Definition held_msgs (w : xmit_hw) : list nat := (map_to_list (msgs w)).*1.
(** Every frame that was ever handed to the driver: held by the filter, freed
    before it had a header, or with the transmit queues. *)
Definition known (w : xmit_hw) : list Z := held_ids w ++ freed w ++ all_ids None (hw w).

Record wf (w : xmit_hw) : Prop := {
  wf_reach : reachable (hw w);
  wf_entry : entry_ok w;
  wf_nodup : NoDup (known w);
  wf_held : held_msgs w ≡ₚ FilterSpec.held (ack_m w);
  wf_msg m v k : msgs w !! m = Some (v, k) -> chosen v k /\ has_room k
}.

Lemma queued_ids id a b : reachable a -> queued id a b -> all_ids None b ≡ₚ id :: all_ids None a.
Proof.
  intros Hr (f & t & <- & Ho & E). destruct (reachable_inv plat stas vifs Hc a Hs Hr) as [Q H].
  destruct (xmit_good plat stas vifs Q a f t H Ho) as (b' & E' & H'). cbn in E. rewrite E in E'. injection E' as <-.
  now rewrite (i_ids _ _ _ _ _ _ H'), (i_ids _ _ _ _ _ _ H).
Qed.
Lemma queued_reach id a b : reachable a -> queued id a b -> reachable b.
Proof. intros Hr (f & t & _ & Ho & E). exact (reach_step _ _ _ _ _ _ Hr Ho E). Qed.

Lemma sent_known id w w' : reachable (hw w) -> sent id w w' -> msgs w' = msgs w -> known w' ≡ₚ id :: known w.
Proof.
  intros Hr H E. unfold known, held_ids. rewrite E. destruct H as [[-> ->]|[Hq ->]].
  - rewrite <- !app_assoc. cbn [app]. now rewrite <- !Permutation_middle.
  - rewrite (queued_ids _ _ _ Hr Hq). now rewrite <- !Permutation_middle.
Qed.
Lemma sent_reach id w w' : reachable (hw w) -> sent id w w' -> reachable (hw w').
Proof. intros Hr [[-> _]|[Hq _]]; [done|]. eauto using queued_reach. Qed.

Lemma held_ids_delete m x w : msgs w !! m = Some x ->
  skb_id x.2 :: held_ids (w <| msgs ::= delete m |>) ≡ₚ held_ids w /\ m :: held_msgs (w <| msgs ::= delete m |>) ≡ₚ held_msgs w.
Proof.
  intros H. unfold held_ids, held_msgs. cbn. pose proof (map_to_list_delete (msgs w) m x H) as E. split; rewrite <- E; done.
Qed.

Lemma known_unfold w : known w = held_ids w ++ freed w ++ all_ids None (hw w).
Proof. done. Qed.

Definition is_drop (e : Filter.tcp_event) : Prop := match e with Filter.DropMsg _ => True | Filter.TxMsg _ => False end.
(** [w'] is [w] with fewer messages. *)
Definition released (w w' : xmit_hw) : Prop :=
  hw w' = hw w /\ ack_m w' = ack_m w /\ x_vifs w' = x_vifs w /\ x_stas w' = x_stas w /\ msgs w' ⊆ msgs w /\ known w' ≡ₚ known w.

Lemma in_held_msgs w m : m ∈ held_msgs w -> exists x, msgs w !! m = Some x.
Proof.
  unfold held_msgs. intros ([m' x] & E & H)%list_elem_of_fmap_1. cbn in E. subst m'. exists x. now apply elem_of_map_to_list.
Qed.

Lemma drop_ok m rest w : held_msgs w ≡ₚ m :: rest -> exists w', intf_tcp_drop_msg m w = Ok w' /\ held_msgs w' ≡ₚ rest /\ released w w'.
Proof.
  intros H. destruct (in_held_msgs w m) as [x E]; [rewrite H; now left|]. unfold intf_tcp_drop_msg. rewrite E.
  cbn [from_option_res mbind res_bind]. eexists. split; [done|]. destruct (held_ids_delete m x w E) as [A B]. split.
  - apply (Permutation_cons_inv (a := m)). rewrite <- H. exact B.
  - split_and!; try done; cbn; [apply delete_subseteq|]. unfold known. cbn. change (held_ids _) with (held_ids (w <| msgs ::= delete m |>)) at 1.
    rewrite <- A. rewrite <- !app_assoc. cbn [app]. rewrite <- !Permutation_middle. done.
Qed.

Lemma drops_ok env evs rest w : Forall is_drop evs -> held_msgs w ≡ₚ (FilterSpec.ev_msg <$> evs) ++ rest ->
  exists w', foldM (tcp_event plat ptr_size L1_CACHE_BYTES env) evs w = Ok w' /\ held_msgs w' ≡ₚ rest /\ released w w'.
Proof.
  intros Hd. revert w. induction Hd as [|e evs He Hd IH]; intros w H; cbn [foldM].
  - exists w. split; [done|]. split; [done|]. unfold released. split_and!; done.
  - destruct e as [m|]; [|done]. cbn in H. destruct (drop_ok m _ w H) as (w1 & E1 & H1 & R1). cbn [tcp_event]. rewrite E1. cbn [mbind res_bind].
    destruct (IH w1 H1) as (w2 & -> & H2 & R2). exists w2. split; [done|]. split; [done|].
    destruct R1 as (A & B & C & D & F & G), R2 as (A' & B' & C' & D' & F' & G'). unfold released. split_and!; try congruence.
    + etrans; eauto.
    + now rewrite G'.
Qed.

Lemma filter_send_ok jiff a m d plen c : Parse.tcp_check_ack d = Ok c -> exists ret a' evs,
  Filter.filter_send_tcp_ack jms jiff a m d plen = Ok (ret, a', evs) /\ Forall is_drop evs /\ (ret = 0 \/ ret = 1) /\
  FilterSpec.held a' ++ (FilterSpec.ev_msg <$> evs) ≡ₚ FilterSpec.kept ret m ++ FilterSpec.held a.
Proof.
  intros E. unfold Filter.filter_send_tcp_ack. rewrite E. cbn [mbind res_bind]. destruct c as [[drop om] ws].
  assert (FilterSpec.held (Filter.tcp_ack_update jiff a) ≡ₚ FilterSpec.held a) as Hu by apply FilterSpec.tcp_ack_update_held.
  destruct ((drop =? 0) && (ws =? 0)) eqn:Ed.
  { exists 0, (Filter.tcp_ack_update jiff a), []. split_and!; try done; [now left|]. cbn. now rewrite app_nil_r. }
  destruct om as [mm|].
  2: { destruct (ParseSpec.tcp_check_ack_none _ _ _ E) as [-> ->]. done. }
  cbn [from_option_res mbind res_bind].
  pose proof (FilterSpec.filter_send_checked_held jms jiff (Filter.tcp_ack_update jiff a) m drop mm ws) as Hh.
  assert (let r := Filter.filter_send_checked jms jiff (Filter.tcp_ack_update jiff a) m drop mm ws in
          Forall is_drop r.2 /\ (r.1.1 = 0 \/ r.1.1 = 1)) as Hr.
  { unfold Filter.filter_send_checked, Filter.tcp_ack_handle_new. clear. repeat case_match; simplify_eq/=; (split; [|tauto]).
    all: repeat match goal with |- context [option_list (_ <$> ?o)] => destruct o; cbn end; repeat constructor. }
  destruct (Filter.filter_send_checked _ _ _ _ _ _ _) as [[ret a'] evs]. cbn in Hr.
  exists ret, a', evs. destruct Hr. split_and!; try done. now rewrite Hh, Hu.
Qed.

(** ** Transmission *)

Lemma sent_wf id w w' : wf w -> sent id w w' -> same_entry w w' -> id ∉ known w -> wf w' /\ known w' ≡ₚ id :: known w.
Proof.
  intros [A B C D E] Hse Hsame Hid. pose proof Hsame as (F1 & F2 & _).
  pose proof (sent_known id w w' A Hse F2) as Hk'. split; [|done]. split.
  - eauto using sent_reach.
  - eauto using entry_ok_same.
  - rewrite Hk'. now constructor.
  - unfold held_msgs. now rewrite F1, F2.
  - rewrite F2. exact E.
Qed.

Lemma free_wf id w : wf w -> id ∉ known w -> wf (free_skb id w) /\ known (free_skb id w) ≡ₚ id :: known w.
Proof. intros Hw Hid. eapply sent_wf; [done|now left|done|done]. Qed.

(** What the filter needs of a small frame: a message, and a header that can be read. *)
Definition filter_ready (env : xmit_env) (k : net_skb) (w : xmit_hw) : Prop :=
  u16 (skb_len k) <= MAX_TCP_ACK ->
  (exists m, e_msg env = Some m /\ msgs w !! m = None) /\ exists c, Parse.tcp_check_ack (data k) = Ok c.

Lemma held_insert m v k w a : msgs w !! m = None ->
  let w1 := w <| ack_m := a |> <| msgs ::= <[m := (v, k)]> |> in
  held_msgs w1 ≡ₚ m :: held_msgs w /\ known w1 ≡ₚ skb_id k :: known w.
Proof.
  intros Hn w1. assert (map_to_list (msgs w1) ≡ₚ (m, (v, k)) :: map_to_list (msgs w)) as E by now apply map_to_list_insert.
  split; [unfold held_msgs; now rewrite E|]. unfold known, held_ids. rewrite E. done.
Qed.

Lemma xmit_filter_ok env v k w : wf w -> chosen v k -> has_room k -> skb_id k ∉ known w -> filter_ready env k w ->
  exists kept w', xmit_filter plat jms ptr_size L1_CACHE_BYTES env v k w = Ok (kept, w') /\ hw w' = hw w /\ wf w' /\
    known w' ≡ₚ (if kept then [skb_id k] else []) ++ known w.
Proof.
  intros Hw Hch Hroom Hid Hready. unfold xmit_filter. destruct (Z.leb_spec (u16 (skb_len k)) MAX_TCP_ACK) as [Hle|_].
  2: { exists false, w. done. }
  destruct (Hready Hle) as [(m & -> & Hm) (c & Hp)]. cbn [from_option_res mbind res_bind].
  destruct (filter_send_ok (jiffies env) (ack_m w) m (data k) (u16 (skb_len k)) c Hp) as (ret & a & evs & -> & Hd & Hret & Hh).
  cbn [mbind res_bind]. destruct (held_insert m v k w a Hm) as [H1 H2]. set (w1 := w <| ack_m := a |> <| msgs ::= <[m := (v, k)]> |>) in *.
  rewrite (wf_held _ Hw) in H1.
  assert (forall m' v' k', msgs w1 !! m' = Some (v', k') -> chosen v' k' /\ has_room k') as Hmsg.
  { intros m' v' k'. cbn. destruct (decide (m' = m)) as [->|Hn]; [rewrite lookup_insert_eq; now intros [= <- <-]|].
    rewrite lookup_insert_ne by done. apply (wf_msg _ Hw). }
  set (rest := (if ret =? 1 then [] else [m]) ++ FilterSpec.held a).
  assert (held_msgs w1 ≡ₚ (FilterSpec.ev_msg <$> evs) ++ rest) as H3.
  { rewrite H1. unfold rest. destruct Hret as [-> | ->]; cbn [Z.eqb Pos.eqb app] in *; unfold FilterSpec.kept in Hh; cbn in Hh.
    - rewrite <- Hh. rewrite (Permutation_app_comm (FilterSpec.held a)). now rewrite <- Permutation_middle.
    - rewrite <- Hh. apply Permutation_app_comm. }
  destruct (drops_ok env evs rest w1 Hd H3) as (w2 & -> & H4 & R). destruct R as (R1 & R2 & R3 & R4 & R5 & R6). cbn [mbind res_bind].
  assert (NoDup (known w2)) as Hnd by (rewrite R6, H2; constructor; [done|apply Hw]).
  assert (entry_ok w2) as He by (apply (entry_ok_vifs w); [exact R3|now rewrite R4|apply Hw]).
  assert (forall w3, hw w3 = hw w -> x_vifs w3 = x_vifs w -> x_stas w3 = x_stas w -> msgs w3 ⊆ msgs w2 ->
    held_msgs w3 ≡ₚ FilterSpec.held (ack_m w3) -> NoDup (known w3) -> wf w3) as Hwf.
  { intros w3 E1 E2 E3 E4 E5 E6. split; [rewrite E1; apply Hw| |done|done|].
    - apply (entry_ok_vifs w); [done|now rewrite E3|apply Hw].
    - intros m' v' k' E. apply (Hmsg m'). eapply lookup_weaken; [exact E|]. etrans; eauto. }
  destruct Hret as [-> | ->]; cbn [Z.eqb negb]; cbn [Z.eqb Pos.eqb app] in rest.
  - exists false. eexists. split; [done|]. destruct (in_held_msgs w2 m) as [x Ex]; [rewrite H4; now left|].
    assert (x = (v, k)) as ->.
    { pose proof (lookup_weaken _ _ _ _ Ex R5) as E. cbn in E. rewrite lookup_insert_eq in E. congruence. }
    destruct (held_ids_delete m _ w2 Ex) as [D1 D2]. set (w3 := _ <| msgs ::= delete m |>).
    assert (known w3 ≡ₚ known w) as Hkn.
    { apply (Permutation_cons_inv (a := skb_id k)). rewrite <- H2, <- R6. unfold known. cbn in D1 |- *. rewrite <- D1. done. }
    split; [exact R1|]. split; [|exact Hkn]. apply Hwf; [exact R1|exact R3|exact R4|apply delete_subseteq| |].
    + apply (Permutation_cons_inv (a := m)). cbn. rewrite FilterSpec.move_tcpack_msg_held, R2.
      etrans; [exact D2|]. exact H4.
    + rewrite Hkn. apply Hw.
  - exists true, w2. split; [done|]. split; [exact R1|]. split; [|now rewrite R6].
    apply Hwf; [exact R1|exact R3|exact R4|done| |done]. rewrite R2. exact H4.
Qed.

(** A frame with its priority and queue, and the rest as before. *)
Definition same_frame (k k' : net_skb) : Prop :=
  skb_id k' = skb_id k /\ data k' = data k /\ hdr_len k' = hdr_len k /\ skb_headroom k' = skb_headroom k /\
  data_addr k' = data_addr k /\ skb_shared k' = skb_shared k /\ skb_cloned k' = skb_cloned k.

(** The allocators return pointers that are not in use. *)
Definition fresh_skb (env : xmit_env) (w : xmit_hw) : Prop := forall id a, e_skb env = Some (id, a) -> id ∉ known w.

Lemma chosen_data v k k' : chosen v k -> data k' = data k -> queue_mapping k' = queue_mapping k ->
  (priority k' = priority k \/ priority k < 3) -> chosen v k'.
Proof.
  intros (A & B & C) Ed Eq Ep. unfold chosen. rewrite Ed, Eq. split_and!; try done.
  destruct Ep as [-> | ?]; [done|]. right. destruct C as [C|C]; [|done]. unfold PRIO_STA_NULL in C. lia.
Qed.

Lemma unshare_ok env m k k' copied : unshare ptr_size L1_CACHE_BYTES env m k = Some (k', copied) ->
  has_room k' /\ data k' = data k /\ hdr_len k' = hdr_len k /\ queue_mapping k' = queue_mapping k /\ priority k' = priority k /\
  if copied then exists a, e_skb env = Some (skb_id k', a) else k' = k.
Proof.
  unfold unshare, has_room. destruct (_ || _ || _) eqn:E.
  - destruct (e_skb env) as [[id a]|]; [|done]. intros [= <- <-]. cbn. split_and!; eauto; lia.
  - intros [= <- <-]. apply orb_false_iff in E as [E _]. apply orb_false_iff in E as [_ E]. apply Z.ltb_ge in E. done.
Qed.

Definition xmit_done (id : Z) (env : xmit_env) (w w' : xmit_hw) : Prop :=
  wf w' /\ (hw w' = hw w \/ exists i, queued i (hw w) (hw w')) /\
  exists copy, known w' ≡ₚ copy ++ id :: known w /\ (copy = [] \/ exists a, e_skb env = Some a /\ copy = [a.1]).

Lemma start_xmit_ok env v k w : wf w -> chosen v k -> skb_id k ∉ known w -> fresh_skb env (free_skb (skb_id k) w) ->
  filter_ready env k w -> capacity (hw w) ->
  exists w', rwnx_start_xmit plat jms ptr_size L1_CACHE_BYTES env v k w = Ok w' /\ xmit_done (skb_id k) env w w'.
Proof.
  intros Hw Hch Hid Hfresh Hready Hcap. unfold rwnx_start_xmit, get_vif_more.
  destruct (lookup_lt_is_Some_2 (x_vifs w) v) as [m ->]; [rewrite (e_nvif _ (wf_entry _ Hw)); apply Hch|]. cbn [from_option_res mbind res_bind].
  destruct (free_wf _ _ Hw Hid) as [Hw1 Hk1].
  destruct (unshare _ _ env m k) as [[k' copied]|] eqn:Eu.
  2: { eexists. split; [done|]. split_and!; [done|now left|]. exists []. split; [exact Hk1|now left]. }
  destruct (unshare_ok _ _ _ _ _ Eu) as (Hroom & Ed & Eh & Eq & Ep & Hcopy).
  set (w1 := if copied then free_skb (skb_id k) w else w). cbn zeta.
  set (k2 := if priority k' <? 3 then k' <| priority := 0 |> else k').
  assert (chosen v k2) as Hch2.
  { apply (chosen_data v k); [done| | |]; unfold k2; destruct (Z.ltb_spec (priority k') 3); cbn; try done; [right; lia|left; done]. }
  assert (has_room k2 /\ skb_id k2 = skb_id k' /\ data k2 = data k /\ skb_len k2 = skb_len k) as (Hr2 & Ei2 & Ed2 & El2).
  { unfold k2, skb_len. destruct (priority k' <? 3); cbn; rewrite ?Ed, ?Eh; done. }
  assert (wf w1 /\ (skb_id k2 ∉ known w1) /\ filter_ready env k2 w1 /\ hw w1 = hw w /\
    (exists copy, known w1 ++ [skb_id k2] ≡ₚ copy ++ skb_id k :: known w /\ (copy = [] \/ exists a, e_skb env = Some a /\ copy = [a.1])))
    as (Hw2 & Hid2 & Hready2 & Eh2 & copy & Hkn & Hcp).
  { assert (filter_ready env k2 w1) as Hf.
    { unfold filter_ready. rewrite El2, Ed2. replace (msgs w1) with (msgs w) by (unfold w1; now destruct copied). exact Hready. }
    unfold w1 in *. rewrite Ei2. destruct copied.
    - destruct Hcopy as [a Ea]. split_and!; try done; [now apply (Hfresh _ a)|]. exists [skb_id k']. split; [|right; eexists; split; [exact Ea|done]].
      rewrite Hk1. rewrite Permutation_app_comm. done.
    - subst k'. split_and!; try done. exists []. split; [cbn [app]; apply Permutation_sym, Permutation_cons_append|now left]. }
  destruct (xmit_filter_ok env v k2 w1 Hw2 Hch2 Hr2 Hid2 Hready2) as (kept & w2 & -> & E2 & Hw3 & Hk3). cbn [mbind res_bind].
  destruct kept.
  - exists w2. split; [done|]. split_and!; [done|left; congruence|]. exists copy. split; [|done]. rewrite Hk3, <- Hkn. apply Permutation_app_comm.
  - cbn [app] in Hk3. destruct (xmit_frame_ok env v k2 w2) as (w3 & -> & Hsent & Hsame); try done.
    + apply Hw3.
    + apply Hw3.
    + rewrite E2, Eh2. exact Hcap.
    + intros Hin. apply Hid2. rewrite <- Hk3. unfold known. rewrite !elem_of_app. auto.
    + exists w3. split; [done|]. destruct (sent_wf _ _ _ Hw3 Hsent Hsame) as [Hw4 Hk4]; [now rewrite Hk3|]. split_and!; [done| |].
      * destruct Hsent as [[E _]|[Hq _]]; [left; congruence|right]. rewrite E2, Eh2 in Hq. eauto.
      * exists copy. split; [|done]. rewrite Hk4, Hk3, <- Hkn. now rewrite <- Permutation_cons_append.
Qed.

(** ** The timer of the filter *)

Lemma timeout_shape i a : let '(a', evs) := Filter.tcp_ack_timeout i a in evs = [] \/ exists m, evs = [Filter.TxMsg m].
Proof.
  unfold Filter.tcp_ack_timeout. destruct (Filter.ack_info a !! i) as [x|]; [|now left]. cbn.
  destruct (Filter.busy x), (Filter.msgbuf x), (Filter.in_send_msg x); eauto.
Qed.

Lemma ack_timer_ok env i w : wf w -> capacity (hw w) ->
  exists w', ack_timer plat ptr_size L1_CACHE_BYTES env i w = Ok w' /\ wf w' /\ known w' ≡ₚ known w /\
    (hw w' = hw w \/ exists i, queued i (hw w) (hw w')).
Proof.
  intros Hw Hcap. unfold ack_timer. pose proof (timeout_shape i (ack_m w)) as Hsh. pose proof (FilterSpec.tcp_ack_timeout_held i (ack_m w)) as Hh.
  destruct (Filter.tcp_ack_timeout i (ack_m w)) as [a evs]. destruct Hsh as [-> | [m ->]]; cbn [foldM].
  - eexists. split; [done|]. split_and!; [|done|now left]. cbn in Hh. rewrite app_nil_r in Hh. destruct Hw as [A B C D E]. split; try done.
    + now apply (entry_ok_vifs w).
    + cbn. rewrite Hh. exact D.
  - cbn in Hh. cbn [tcp_event]. unfold intf_tx. cbn [msgs field_set].
    destruct (in_held_msgs w m) as [[v k] Ex]; [rewrite (wf_held _ Hw), <- Hh, elem_of_app; right; now left|].
    rewrite Ex. cbn [from_option_res mbind res_bind fst snd].
    match goal with |- context [xmit_frame _ _ _ _ _ _ ?x] => set (w1 := x) end. destruct (held_ids_delete m (v, k) w Ex) as [D1 D2].
    destruct (wf_msg _ Hw _ _ _ Ex) as [Hch Hroom].
    assert (skb_id k :: known w1 ≡ₚ known w) as Hkn by (unfold known; cbn in D1 |- *; now rewrite <- D1).
    assert (wf w1) as Hw1.
    { destruct Hw as [A B C D E]. split; try done.
      - now apply (entry_ok_vifs w).
      - rewrite <- Hkn in C. now inversion C.
      - apply (Permutation_cons_inv (a := m)). etrans; [exact D2|]. rewrite D, <- Hh. cbn. rewrite FilterSpec.move_tcpack_msg_held.
        symmetry. apply Permutation_cons_append.
      - intros m' v' k' E'. cbn in E'. apply lookup_delete_Some in E' as [_ E']. eauto. }
    assert (skb_id k ∉ known w1) as Hid.
    { pose proof (wf_nodup _ Hw) as Hn. rewrite <- Hkn in Hn. now inversion Hn. }
    destruct (xmit_frame_ok env v k w1) as (w2 & -> & Hsent & Hsame); try done.
    + apply Hw1.
    + apply Hw1.
    + intros Hin. apply Hid. unfold known. rewrite !elem_of_app. auto.
    + cbn [mbind res_bind]. exists w2. split; [done|]. destruct (sent_wf _ _ _ Hw1 Hsent Hsame Hid) as [Hw2 Hk2]. split_and!; [done|now rewrite Hk2|].
      destruct Hsent as [[E _]|[Hq _]]; [now left|right; eauto].
Qed.

(** ** The choice of a queue *)

(** The station chosen: one with queues of its own, or the group addressed one
    of the interface. *)
Definition target (a : rwnx_hw) (v : nat) (s : nat) : Prop :=
  (s < length stas)%nat /\ (unicast s \/ exists vif m, vifs !! v = Some vif /\ master_vif_idx vif a = Ok m /\ Z.of_nat s = nx_max + m).
Definition target_opt a v (o : option nat) : Prop := match o with Some s => target a v s | None => True end.

(** Only the messages of the mesh change. *)
Definition mesh_only (w w' : xmit_hw) : Prop :=
  hw w' = hw w /\ freed w' = freed w /\ msgs w' = msgs w /\ ack_m w' = ack_m w /\ x_stas w' = x_stas w /\ entry_ok w'.

Lemma unicast_target a v s : unicast s -> target a v s.
Proof. intros H. split; [apply H|now left]. Qed.

Lemma find_sta_ok l addr w : Forall (fun s => (s < length (x_stas w))%nat) l ->
  exists o, find_sta l addr w = Ok o /\ match o with Some s => s ∈ l | None => True end.
Proof.
  induction 1 as [|s l Hl _ (o & E & Ho)]; cbn [find_sta]; [now exists None|].
  unfold get_sta_more. destruct (lookup_lt_is_Some_2 _ _ Hl) as [m ->]. cbn [from_option_res mbind res_bind].
  destruct (decide _); [exists (Some s); split; [done|now left]|]. exists o. split; [done|]. destruct o; [now right|done].
Qed.

Lemma pick_ap_ok a v vif u d w : reachable a -> entry_ok w -> vifs !! u = Some vif -> iftype vif <> NL80211_IFTYPE_AP_VLAN ->
  (14 <= length d)%nat -> vifs !! v = Some vif \/ (exists x, vifs !! v = Some x /\ iftype x = NL80211_IFTYPE_AP_VLAN /\ vlan_master x = u) ->
  exists o, pick_ap vif d w = Ok o /\ target_opt a v o.
Proof.
  intros Hr He Hu Hnv Hl Hv. unfold pick_ap. rewrite slice_ok by (cbn; lia). cbn [mbind res_bind].
  destruct (is_multicast_ether_addr _).
  - exists (Some (bcmc_index vif)). split; [done|]. destruct (master_idx_ok a u vif Hr Hu) as (m & Em & _ & Eb).
    destruct (c_vif _ _ Hc _ _ Hu) as (_ & _ & Hb & _). split; [done|]. right. destruct Hv as [Hv|(x & Hx & Hi & Hm)].
    + exists vif, m. done.
    + exists x, m. split; [done|]. split; [|done]. rewrite <- Em. unfold master_vif_idx, get_vif. rewrite Hi, Hm, (reach_vif_table a Hr), Hu. cbn.
      destruct (iftype vif); done.
  - pose proof (e_vif _ He _ _ Hu) as Hf. apply Forall_app in Hf as [Hf _].
    destruct (find_sta_ok (ap_sta_list vif) (take 6 (drop (Z.to_nat 0) d)) w) as (o & -> & Ho).
    { eapply Forall_impl; [exact Hf|]. intros s [Hs1 _]. now rewrite (e_nsta _ He). }
    exists o. split; [done|]. destruct o as [s|]; [|done]. apply unicast_target. rewrite Forall_forall in Hf. auto.
Qed.

Lemma create_path_ok alloc v vif tgt w m : x_vifs w !! v = Some m -> entry_ok w ->
  exists w', rwnx_send_mesh_path_create_req alloc v vif tgt w = Ok w' /\ mesh_only w w'.
Proof.
  intros Hm He. unfold rwnx_send_mesh_path_create_req, get_vif_more. rewrite Hm. cbn [from_option_res mbind res_bind].
  destruct (_ && _); eexists; (split; [done|]); unfold mesh_only; cbn; split_and!; try done.
  destruct He as [A B C D E]. split; cbn; rewrite ?length_alter; try done.
  intros j x. destruct (decide (j = v)) as [->|Hn].
  - rewrite list_lookup_alter_eq, Hm. cbn. intros [= <-]. exact (D _ _ Hm).
  - rewrite list_lookup_alter_ne by done. apply D.
Qed.

Lemma pick_mesh_ok env a v vif d w : reachable a -> entry_ok w -> vifs !! v = Some vif -> (14 <= length d)%nat ->
  exists o w', pick_mesh env v vif d w = Ok (o, w') /\ target_opt a v o /\ mesh_only w w'.
Proof.
  intros Hr He Hv Hl. unfold pick_mesh, get_vif_more.
  destruct (lookup_lt_is_Some_2 (x_vifs w) v) as [m Hm]; [rewrite (e_nvif _ He); eauto using lookup_lt_Some|].
  rewrite Hm. cbn [from_option_res mbind res_bind]. rewrite !slice_ok by (cbn; lia).
  assert (exists w1, (if negb (is_resending m) then Ok (take 6 (drop (Z.to_nat 6) d)) ≫= (fun source =>
      Ok (if negb (bool_decide (source = perm_addr m)) && is_null (rwnx_get_mesh_proxy_info m source true)
          then rwnx_send_mesh_proxy_add_req (e_mesh env) vif source w else w)) else Ok w) = Ok w1 /\ mesh_only w w1 /\ x_vifs w1 = x_vifs w) as (w1 & E & H1 & Ev).
  { destruct (negb _); cbn [mbind res_bind]; [|exists w; done]. unfold rwnx_send_mesh_proxy_add_req.
    eexists. split; [done|]. destruct (_ && _), (e_mesh env); unfold mesh_only; cbn; split_and!; try done; now apply (entry_ok_vifs w). }
  rewrite E. cbn [mbind res_bind]. destruct H1 as (A & B & C & D & F & He1).
  destruct (is_multicast_ether_addr _).
  - exists (Some (bcmc_index vif)), w1. split; [done|]. split; [|done]. destruct (master_idx_ok a v vif Hr Hv) as (mm & Em & _ & Eb).
    destruct (c_vif _ _ Hc _ _ Hv) as (_ & _ & Hb & _). split; [done|]. right. eauto.
  - cbn zeta. destruct (list_find _ (mpath_list m)) as [[i p]|] eqn:Ef.
    + exists (p_nhop_sta p), w1. split; [done|]. split; [|done]. destruct (p_nhop_sta p) as [s|] eqn:Ep; [|done].
      apply unicast_target. pose proof (e_more _ He _ _ Hm) as Hf. apply Forall_app in Hf as [_ Hf]. rewrite Forall_forall in Hf.
      apply Hf. apply list_elem_of_omap. exists p. split; [|done]. apply list_find_Some in Ef as (Ef & _). eauto using list_elem_of_lookup_2.
    + rewrite <- Ev in Hm. match goal with |- context [rwnx_send_mesh_path_create_req ?al v vif ?t w1] =>
        destruct (create_path_ok al v vif t w1 m Hm He1) as (w2 & -> & A2 & B2 & C2 & D2 & F2 & He2) end.
      cbn [mbind res_bind]. exists None, w2. split; [done|]. split; [done|]. unfold mesh_only. split_and!; congruence || done.
Qed.

Lemma pick_sta_ok env v d w : reachable (hw w) -> entry_ok w -> (v < length vifs)%nat -> (14 <= length d)%nat ->
  exists o tdls w', pick_sta env v d w = Ok (o, tdls, w') /\ target_opt (hw w) v o /\ mesh_only w w' /\
    (tdls = true -> be16 d 12 = Ok ETH_P_TDLS).
Proof.
  intros Hr He Hv Hl. unfold pick_sta. destruct (reach_vif (hw w) v Hr Hv) as (vif & -> & Ev). cbn [mbind res_bind].
  assert (mesh_only w w) as Hrefl by done.
  assert (exists o tdls w', (proto ← be16 d 12; dest ← slice d 0 6; p ← is_tdls_peer vif dest w;
    Ok (match p with Some s => Some s | None => sta_ap vif end, proto =? ETH_P_TDLS, w)) = Ok (o, tdls, w') /\
    target_opt (hw w) v o /\ mesh_only w w' /\ (tdls = true -> be16 d 12 = Ok ETH_P_TDLS)) as Hsta.
  { unfold be16 at 1. destruct (rd8_two d 12) as (b0 & b1 & E0 & E1); [lia|lia|]. rewrite E0, E1. cbn [mbind res_bind].
    rewrite slice_ok by (cbn; lia). cbn [mbind res_bind].
    destruct (tdls_peer_ok v vif (take 6 (drop (Z.to_nat 0) d)) w He Ev) as (o & -> & Ho). cbn [mbind res_bind].
    do 3 eexists. split; [done|]. split; [|split; [done|]].
    - destruct o as [s|]; [apply unicast_target, Ho|]. pose proof (e_vif _ He _ _ Ev) as Hf. rewrite !Forall_app in Hf.
      destruct Hf as (_ & Hf & _). destruct (sta_ap vif) as [s|]; [|done]. apply Forall_cons_1 in Hf as [Hf _]. now apply unicast_target.
    - intros Ht%Z.eqb_eq. unfold be16. rewrite E0, E1. cbn [mbind res_bind]. now rewrite Ht. }
  assert (forall u x, vifs !! u = Some x -> iftype x <> NL80211_IFTYPE_AP_VLAN -> (u = v \/ iftype vif = NL80211_IFTYPE_AP_VLAN /\ vlan_master vif = u) ->
    exists o tdls w', (s ← pick_ap x d w; Ok (s, false, w)) = Ok (o, tdls, w') /\
    target_opt (hw w) v o /\ mesh_only w w' /\ (tdls = true -> be16 d 12 = Ok ETH_P_TDLS)) as Hap.
  { intros u x Hu Hx Hcase. destruct (pick_ap_ok (hw w) v x u d w Hr He Hu Hx Hl) as (o & -> & Ho).
    { destruct Hcase as [-> | [? ?]]; [now left|right; eauto]. }
    cbn [mbind res_bind]. exists o, false, w. done. }
  destruct (iftype vif) eqn:Ei; try exact Hsta; try (apply (Hap v vif); rewrite ?Ei; auto; done).
  - destruct (c_vif _ _ Hc _ _ Ev) as (_ & Hm & _). specialize (Hm Ei). destruct (reach_vif (hw w) _ Hr Hm) as (x & Ex & Ex').
    unfold get_vif_more. destruct (lookup_lt_is_Some_2 (x_vifs w) v) as [m Em]; [now rewrite (e_nvif _ He)|]. rewrite Em. cbn [from_option_res mbind res_bind].
    destruct (sta_4a m) as [s|] eqn:E4.
    + exists (Some s), false, w. split; [done|]. split; [|done]. apply unicast_target. pose proof (e_more _ He _ _ Em) as Hf.
      rewrite E4, Forall_app in Hf. destruct Hf as [Hf _]. now apply Forall_cons_1 in Hf as [Hf _].
    + rewrite Ex. cbn [mbind res_bind]. apply (Hap (vlan_master vif) x Ex'); [exact (e_master _ He _ _ _ Ev Ei Ex')|]. right. done.
  - destruct (pick_mesh_ok env (hw w) v vif d w Hr He Ev Hl) as (o & w1 & -> & Ho & H1). cbn [mbind res_bind fst snd]. exists o, false, w1. done.
  - now exists None, false, w.
  - now exists None, false, w.
Qed.

(** The frame as [select_for] leaves it, and the netdev queue it answers. *)
Definition selected (a : rwnx_hw) (o : option nat) (tdls : bool) (w : xmit_hw) (k k' : net_skb) (n : Z) : Prop :=
  same_frame k k' /\ 0 <= n < NX_NB_NDEV_TXQ /\
  match o with
  | None => priority k' = PRIO_STA_NULL /\ queue_mapping k' = queue_mapping k
  | Some s => exists m tid q, x_stas w !! s = Some m /\ tid = (if qos m then priority k' else 0) /\
      (if qos m then 0 <= priority k' <= 7 else priority k' = 255) /\
      queue_mapping k' = (if qos m && tdls then NX_STA_NDEV_IDX (priority k) (Z.of_nat s) else queue_mapping k) /\
      (forall st, get_sta s a = Ok st -> txq a !! rwnx_txq_sta_get plat st tid = Some q) /\
      (n = (if nx_max <=? Z.of_nat s then Entry.nx_bcmc_txq_ndev_idx plat else tid + Z.of_nat s * NX_NB_TID_PER_STA) \/ blank q /\ n = 0)
  end.

Lemma downgrade_small acm_ p : 0 <= p <= 7 -> exists p', rwnx_downgrade_ac acm_ p = Ok p' /\ 0 <= p' <= 7.
Proof.
  intros Hp. assert (exists ac, category p = Some ac) as [ac E].
  { unfold category. apply lookup_lt_is_Some_2. change (length rwnx_tid2hwq) with 16%nat. lia. }
  destruct (downgrade_ok acm_ p ac E) as (p' & E' & ac' & _ & _ & _ & _ & _ & Hr). exists p'. split; [done|]. lia.
Qed.

Lemma qos_priority_ok st tdls k : (tdls = true -> 0 <= priority k <= 7) -> 0 <= sta_idx st < 4096 ->
  exists k', qos_priority classify st tdls k = Ok k' /\ same_frame k k' /\ 0 <= priority k' <= 7 /\
    queue_mapping k' = (if tdls then NX_STA_NDEV_IDX (priority k) (sta_idx st) else queue_mapping k).
Proof.
  intros Ht Hi. unfold qos_priority.
  set (k1 := if tdls then k <| queue_mapping := u16 (NX_STA_NDEV_IDX (priority k) (sta_idx st)) |>
             else k <| priority := Z.land (classify (data k)) IEEE80211_QOS_CTL_TAG1D_MASK |>).
  assert (same_frame k k1 /\ 0 <= priority k1 <= 7 /\
    queue_mapping k1 = (if tdls then NX_STA_NDEV_IDX (priority k) (sta_idx st) else queue_mapping k)) as (A & B & C).
  { unfold k1. destruct tdls; cbn; split_and!; try done.
    - apply Ht. done.
    - now apply Ht.
    - apply wrapU_small. unfold NX_STA_NDEV_IDX. change NX_NB_TID_PER_STA with 8. specialize (Ht eq_refl). lia.
    - apply Z.land_nonneg. right. done.
    - change IEEE80211_QOS_CTL_TAG1D_MASK with (Z.ones 3). rewrite Z.land_ones by lia.
      pose proof (Z.mod_pos_bound (classify (data k)) (2 ^ 3) ltac:(lia)). lia. }
  destruct (negb (acm st =? 0)); [|exists k1; done].
  destruct (downgrade_small (acm st) (priority k1) B) as (p & -> & Hp). cbn [mbind res_bind]. eexists. split; [done|]. cbn. done.
Qed.

Lemma select_for_ok v o tdls k w : reachable (hw w) -> entry_ok w -> target_opt (hw w) v o -> (tdls = true -> 0 <= priority k <= 7) ->
  exists n k', select_for plat classify o tdls k w = Ok (n, k') /\ selected (hw w) o tdls w k k' n.
Proof.
  intros Hr He Ho Ht. pose proof nx_max_eq as [_ Hx]. pose proof bcmc_ndev_range as Hb. unfold select_for. destruct o as [s|].
  2: { exists (Entry.nx_bcmc_txq_ndev_idx plat), (k <| priority := PRIO_STA_NULL |>). split; [done|]. unfold selected. change NX_NB_NDEV_TXQ with 257. split_and!; try done; lia. }
  destruct Ho as [Hlen Ho]. destruct (reach_sta (hw w) s Hr Hlen) as (st & Est & Ei & Es). rewrite Est. cbn [mbind res_bind].
  unfold get_sta_more. destruct (lookup_lt_is_Some_2 (x_stas w) s) as [m Em]; [now rewrite (e_nsta _ He)|]. rewrite Em. cbn [from_option_res mbind res_bind].
  pose proof (c_nsta _ _ Hc) as Hn. change (Z.to_nat (NX_REMOTE_STA_MAX + NX_VIRT_DEV_MAX)) with 36%nat in Hn.
  assert (exists k', (if qos m then qos_priority classify st tdls k else Ok (k <| priority := 255 |>)) = Ok k' /\ same_frame k k' /\
    (if qos m then 0 <= priority k' <= 7 else priority k' = 255) /\
    queue_mapping k' = (if qos m && tdls then NX_STA_NDEV_IDX (priority k) (Z.of_nat s) else queue_mapping k)) as (k' & -> & A & B & C).
  { destruct (qos m); [|eexists; split; [done|]; done]. destruct (qos_priority_ok st tdls k Ht) as (k' & E & H1 & H2 & H3); [lia|].
    exists k'. split; [done|]. rewrite <- Ei. done. }
  cbn [mbind res_bind]. set (tid := if qos m then u8 (priority k') else 0).
  assert (tid = (if qos m then priority k' else 0) /\ 0 <= tid <= 7) as [Et Hr7].
  { unfold tid. destruct (qos m); [|lia]. rewrite wrapU_small by lia. lia. }
  destruct (sta_queue (hw w) s st tid Hr Est Ei Es) as (q & Hq & _ & Hnd); [lia|]. rewrite (get_txq_ok _ _ _ Hq). cbn [mbind res_bind].
  exists (ndev_idx q), k'. split; [done|].
  assert (ndev_idx q = (if nx_max <=? Z.of_nat s then Entry.nx_bcmc_txq_ndev_idx plat else tid + Z.of_nat s * NX_NB_TID_PER_STA) \/ blank q /\ ndev_idx q = 0) as Hnq.
  { destruct (reachable_layout plat stas vifs Hc Hs Hk (hw w) Hr _ _ Hq) as [(_ & E & _)|[E1 E2]]; [left|right; done].
    rewrite E, Hnd. destruct (nx_max <=? Z.of_nat s); [done|]. change TID_MGT with 8. change NX_NB_TID_PER_STA with 8.
    rewrite (proj2 (Z.eqb_neq _ _)), (proj2 (Z.ltb_lt _ _)) by lia. done. }
  split; [done|]. split.
  { change NX_NB_NDEV_TXQ with 257. destruct Hnq as [-> |[_ ->]]; [|lia]. destruct (Z.leb_spec nx_max (Z.of_nat s)); [lia|].
    change NX_NB_TID_PER_STA with 8. lia. }
  exists m, tid, q. split_and!; try done. intros st' Est'. rewrite Est in Est'. now injection Est' as <-.
Qed.

(** ** The entry points *)

Lemma mesh_only_wf w w' : mesh_only w w' -> wf w -> wf w' /\ known w' = known w.
Proof.
  intros (A & B & C & D & E & F) [H1 H2 H3 H4 H5]. assert (known w' = known w) as Ek by (unfold known, held_ids; now rewrite A, B, C).
  split; [|done]. split; rewrite ?A, ?Ek; try done.
  - unfold held_msgs. now rewrite C, D.
  - now rewrite C.
Qed.

Lemma selected_chosen a o tdls w v k k' n k2 : selected a o tdls w k k' n -> target_opt a v o -> (v < length vifs)%nat ->
  (14 <= length (data k))%nat -> data k2 = data k' -> priority k2 = priority k' ->
  (queue_mapping k2 = n \/ queue_mapping k2 = queue_mapping k' /\ queue_mapping k = 0 /\ 0 <= priority k <= 7) -> chosen v k2.
Proof.
  intros ((_ & Ed & _) & Hn & Ho) Ht Hv Hl Ed2 Ep Hq. unfold chosen. rewrite Ed2, Ed, Ep. split; [done|]. split; [done|].
  destruct o as [s|]; [|left; apply Ho]. right. destruct Ht as [Hs2 _].
  destruct Ho as (m & tid & q & _ & Et & Hp & Eq & _ & Hnn). change NX_NB_TID_PER_STA with 8 in *. change NX_NB_NDEV_TXQ with 257 in *.
  assert (forall x, 0 <= x <= 7 -> Z.to_nat ((x + Z.of_nat s * 8) / 8) = s) as Hdiv.
  { intros x Hx. rewrite Z.div_add, Z.div_small by lia. lia. }
  destruct Hq as [-> | (-> & E0 & Hk7)].
  - destruct Hnn as [-> |[_ ->]]; [|right; split; [lia|]; change (Z.to_nat (0 / 8)) with 0%nat; lia]. destruct (Z.leb_spec nx_max (Z.of_nat s)); [now left|]. right.
    assert (0 <= tid <= 7) by (destruct (qos m); lia). split; [lia|]. now rewrite Hdiv.
  - right. rewrite Eq. destruct (qos m && tdls); [|rewrite E0; split; [lia|]; change (Z.to_nat (0 / 8)) with 0%nat; lia]. unfold NX_STA_NDEV_IDX.
    change NX_NB_TID_PER_STA with 8. split; [lia|]. now rewrite Hdiv.
Qed.

(** A management frame of a TDLS link is not classified. *)
Definition tdls_priority (k : net_skb) : Prop := be16 (data k) 12 = Ok ETH_P_TDLS -> 0 <= priority k <= 7.

Lemma select_ok env v k w : wf w -> (v < length vifs)%nat -> (14 <= length (data k))%nat -> tdls_priority k ->
  exists n k' w' o tdls, rwnx_select_txq plat classify env v k w = Ok (n, k', w') /\ pick_sta env v (data k) w = Ok (o, tdls, w') /\
    selected (hw w) o tdls w' k k' n /\ target_opt (hw w) v o /\ wf w' /\ known w' = known w /\ hw w' = hw w /\ msgs w' = msgs w.
Proof.
  intros Hw Hv Hl Ht. unfold rwnx_select_txq.
  destruct (pick_sta_ok env v (data k) w (wf_reach _ Hw) (wf_entry _ Hw) Hv Hl) as (o & tdls & w1 & -> & Ho & Hm & Htd).
  cbn [mbind res_bind]. destruct (mesh_only_wf _ _ Hm Hw) as [Hw1 Ek]. destruct Hm as (E & _ & Emm & _).
  destruct (select_for_ok v o tdls k w1) as (n & k' & -> & Hsel); [apply Hw1|apply Hw1|now rewrite E|auto|].
  cbn [mbind res_bind fst snd]. rewrite E in Hsel. pose proof Hsel as (_ & Hn & _).
  rewrite (proj2 (Z.leb_gt _ _)) by lia. exists n, k', w1, o, tdls. done.
Qed.

(** The conditions on a frame from the network. *)
Record frame_ready (env : xmit_env) (v : nat) (k : net_skb) (w : xmit_hw) : Prop := {
  r_vif : (v < length vifs)%nat;
  r_len : (14 <= length (data k))%nat;
  r_tdls : tdls_priority k;
  r_new : skb_id k ∉ known w;
  r_fresh : fresh_skb env (free_skb (skb_id k) w);
  r_filter : filter_ready env k w;
  r_room : capacity (hw w)
}.

Lemma send_ok env v k k2 w w1 o tdls n k' : frame_ready env v k w -> wf w1 -> selected (hw w) o tdls w1 k k' n -> target_opt (hw w) v o ->
  known w1 = known w -> hw w1 = hw w -> msgs w1 = msgs w -> same_frame k' k2 -> priority k2 = priority k' ->
  (queue_mapping k2 = n \/ queue_mapping k2 = queue_mapping k' /\ queue_mapping k = 0 /\ 0 <= priority k <= 7) ->
  exists w', rwnx_start_xmit plat jms ptr_size L1_CACHE_BYTES env v k2 w1 = Ok w' /\ wf w' /\
    (hw w' = hw w \/ exists i, queued i (hw w) (hw w')) /\
    exists copy, known w' ≡ₚ copy ++ skb_id k :: known w /\ (copy = [] \/ exists a, e_skb env = Some a /\ copy = [a.1]).
Proof.
  intros [] Hw1 Hsel Ho Ek Eh Em (I1 & I2 & I3 & I4 & I5 & I6 & I7) Ep Hq. pose proof Hsel as ((J1 & J2 & J3 & _) & _).
  assert (chosen v k2) as Hch by (eapply selected_chosen; eauto).
  assert (skb_id k2 = skb_id k) as Ei by congruence.
  destruct (start_xmit_ok env v k2 w1 Hw1 Hch) as (w' & E & Hd).
  - now rewrite Ei, Ek.
  - intros id a Ha. rewrite Ei. unfold known, held_ids in Ek |- *. specialize (r_fresh0 id a Ha). unfold known, held_ids in r_fresh0. cbn in *.
    rewrite Em, Eh in *. intros Hin. apply r_fresh0. revert Hin. apply app_inv_head in Ek. apply app_inv_tail in Ek. now rewrite Ek.
  - unfold filter_ready, skb_len in *. rewrite I2, J2, I3, J3, Em. exact r_filter0.
  - now rewrite Eh.
  - exists w'. split; [done|]. destruct Hd as (A & B & C). rewrite Eh in B. rewrite Ei, Ek in C. done.
Qed.

Lemma dev_queue_xmit_ok env v k w : wf w -> frame_ready env v k w ->
  exists w', dev_queue_xmit plat classify jms ptr_size L1_CACHE_BYTES env v k w = Ok w' /\ xmit_done (skb_id k) env w w'.
Proof.
  intros Hw Hf. destruct (select_ok env v k w Hw (r_vif _ _ _ _ Hf) (r_len _ _ _ _ Hf) (r_tdls _ _ _ _ Hf))
    as (n & k' & w1 & o & tdls & E & _ & Hsel & Ho & Hw1 & Ek & Eh & Em).
  unfold dev_queue_xmit. rewrite E. cbn [mbind res_bind]. pose proof Hsel as (_ & Hn & _). change NX_NB_NDEV_TXQ with 257 in Hn.
  destruct (send_ok env v k (k' <| queue_mapping := u16 n |>) w w1 o tdls n k') as (w' & -> & H); try done.
  - left. cbn. apply wrapU_small. lia.
  - exists w'. done.
Qed.

Lemma tdls_send_ok env setup v k w : wf w -> frame_ready env v k w -> queue_mapping k = 0 ->
  exists w', tdls_send plat classify jms ptr_size L1_CACHE_BYTES env setup v k w = Ok w' /\ xmit_done (skb_id k) env w w'.
Proof.
  intros Hw Hf E0. unfold tdls_send. set (k0 := k <| priority := if setup then 2 else 5 |>).
  assert (0 <= priority k0 <= 7) as Hp by (cbn; destruct setup; lia).
  assert (frame_ready env v k0 w) as Hf0 by (destruct Hf; split; try done; intros _; exact Hp).
  destruct (select_ok env v k0 w Hw (r_vif _ _ _ _ Hf) (r_len _ _ _ _ Hf) (r_tdls _ _ _ _ Hf0))
    as (n & k' & w1 & o & tdls & -> & _ & Hsel & Ho & Hw1 & Ek & Eh & Em). cbn [mbind res_bind].
  destruct (send_ok env v k0 k' w w1 o tdls n k') as (w' & -> & H); try done; [right; done|]. exists w'. done.
Qed.

(** ** Management frames *)

Lemma csa_ok count offs d n : Forall (fun o => 0 <= o < Z.of_nat n) offs -> length d = n ->
  exists d', foldM (put_csa count) offs d = Ok d' /\ length d' = n.
Proof.
  intros Ho Hd. apply (foldM_inv (fun d => length d = n)); [done|]. intros o d1 Hin Hl. rewrite Forall_forall in Ho.
  unfold put_csa. destruct (rd8_ok d1 o) as [b ->]; [rewrite Hl; auto|]. cbn [mbind res_bind]. eexists. split; [done|]. now rewrite length_insert.
Qed.

Record mgmt_ready (env : xmit_env) (v : nat) (s : option nat) (p : cfg80211_mgmt_tx_params) (w : xmit_hw) : Prop := {
  g_vif : (v < length vifs)%nat;
  g_sta : match s with Some s => (s < length stas)%nat | None => True end;
  g_csa : Forall (fun o => 0 <= o < Z.of_nat (length (take (Z.to_nat (u16 (Z.of_nat (length (buf p))))) (buf p)))) (csa_offsets p);
  g_fresh : fresh_skb env w;
  g_room : capacity (hw w)
}.

Lemma mgmt_txq_ok v s offchan w : wf w -> (v < length vifs)%nat -> match s with Some s => (s < length stas)%nat | None => True end ->
  exists t q, mgmt_txq plat v s offchan w = Ok t /\ txq (hw w) !! t = Some q /\ owner_of plat (Z.of_nat t) = s.
Proof.
  intros Hw Hv Hsta. pose proof (wf_reach _ Hw) as Hr. destruct (reachable_inv plat stas vifs Hc (hw w) Hs Hr) as [Q H].
  destruct (first_vif_eq plat) as [Ef Hx]. change NX_NB_TXQ_PER_STA with 9 in Ef.
  assert (forall i, 4 <= i <= 8 -> exists q, txq (hw w) !! Z.to_nat (first_vif plat + i) = Some q /\
    owner_of plat (Z.of_nat (Z.to_nat (first_vif plat + i))) = None) as Hfix.
  { intros i Hi. destruct (txq_exists _ _ _ _ _ _ (Z.to_nat (first_vif plat + i)) H) as [q Hq].
    - change (Z.to_nat NX_NB_TXQ) with 297%nat. lia.
    - exists q. split; [done|]. unfold owner_of. change NX_VIRT_DEV_MAX with 4. rewrite Z2Nat.id by lia. rewrite !(proj2 (Z.ltb_ge _ _)) by lia. done. }
  unfold mgmt_txq. destruct s as [s|].
  - destruct (reach_sta (hw w) s Hr Hsta) as (st & Est & Ei & Es). rewrite Est. cbn [mbind res_bind].
    destruct (sta_queue (hw w) s st TID_MGT Hr Est Ei Es) as (q & Hq & Ho & _); [done|]. eauto.
  - destruct offchan.
    + destruct (Hfix 8) as (q & Hq & Ho); [lia|]. rewrite off_chan_idx. change (first_vif_txq plat + 2 * NX_VIRT_DEV_MAX) with (first_vif plat + 8). eauto.
    + destruct (reach_vif (hw w) v Hr Hv) as (vif & -> & Ev). cbn [mbind res_bind]. unfold rwnx_txq_vif_get, rwnx_txq_vif_idx.
      destruct (master_idx_ok (hw w) v vif Hr Ev) as (m & -> & Hm & _). cbn [mbind res_bind fmap res_fmap]. change NX_VIRT_DEV_MAX with 4 in *.
      change (if NX_UNK_TXQ_TYPE <? NX_UNK_TXQ_TYPE then NX_BCMC_TXQ_TYPE else NX_UNK_TXQ_TYPE) with 1.
      change (if old_ic plat then NX_FIRST_VIF_TXQ_IDX_FOR_OLD_IC else NX_FIRST_VIF_TXQ_IDX) with (first_vif plat).
      replace (first_vif plat + m + 1 * 4) with (first_vif plat + (m + 4)) by lia. destruct (Hfix (m + 4)) as (q & Hq & Ho); [lia|]. eauto.
Qed.

Lemma mgmt_xmit_ok env v s p offchan w : wf w -> mgmt_ready env v s p w ->
  exists r w', rwnx_start_mgmt_xmit plat robust ptr_size L1_CACHE_BYTES env v s p offchan w = Ok (r, w') /\ wf w' /\
    (hw w' = hw w \/ exists i, queued i (hw w) (hw w')) /\ (known w' = known w \/ exists a, e_skb env = Some a /\ known w' ≡ₚ a.1 :: known w).
Proof.
  intros Hw [Hv Hsta Hcsa Hfresh Hcap]. unfold rwnx_start_mgmt_xmit.
  destruct (mgmt_txq_ok v s offchan w Hw Hv Hsta) as (t & q & -> & Hq & Ho). cbn [mbind res_bind]. rewrite (get_txq_ok _ _ _ Hq). cbn [mbind res_bind].
  assert (forall r : Z, exists r' w', Ok (r, w) = Ok (r', w') /\ wf w' /\ (hw w' = hw w \/ exists i, queued i (hw w) (hw w')) /\
    (known w' = known w \/ exists a, e_skb env = Some a /\ known w' ≡ₚ a.1 :: known w)) as Hno
    by (intros r; exists r, w; split_and!; auto).
  destruct (Z.eqb_spec (idx q) TXQ_INACTIVE) as [_|Hi]; [apply Hno|]. destruct (e_skb env) as [[id ad]|] eqn:Esk; [|apply Hno].
  pose proof (Hfresh id ad Esk) as Hid. destruct (reach_vif (hw w) v (wf_reach _ Hw) Hv) as (vif & -> & Ev). cbn [mbind res_bind].
  unfold get_vif_more. destruct (lookup_lt_is_Some_2 (x_vifs w) v) as [m ->]; [now rewrite (e_nvif _ (wf_entry _ Hw))|]. cbn [from_option_res mbind res_bind].
  set (d := take _ (buf p)) in *.
  assert (exists d', match bool_decide (iftype vif = NL80211_IFTYPE_AP), csa_count m with
    | true, Some count => foldM (put_csa count) (csa_offsets p) d | _, _ => Ok d end = Ok d') as [d' ->].
  { destruct (bool_decide _), (csa_count m) as [c|]; eauto. destruct (csa_ok c (csa_offsets p) d (length d) Hcsa eq_refl) as (d' & E & _). eauto. }
  cbn [mbind res_bind]. destruct (e_sw env) as [mem|].
  2: { destruct (free_wf _ _ Hw Hid) as [A B]. do 2 eexists. split; [done|]. split_and!; [done|now left|]. right. exists (id, ad). done. }
  assert (exists i, match s with Some s => sta ← get_sta s (hw w); Ok (sta_idx sta) | None => Ok 255 end = Ok i) as [i ->].
  { destruct s as [s|]; [|eauto]. destruct (reach_sta (hw w) s (wf_reach _ Hw) Hsta) as (st & -> & _). cbn. eauto. }
  cbn [mbind res_bind]. match goal with |- context [queue_and_process ?f t] =>
    destruct (queue_takes (hw w) f t q s (wf_reach _ Hw) Hcap) as (b & -> & Hqd); try done end.
  { cbn. intros Hin. apply Hid. unfold known. rewrite !elem_of_app. auto. }
  cbn [mbind res_bind sk_id] in *. do 2 eexists. split; [done|].
  match goal with |- wf ?x /\ _ => destruct (sent_wf id w x Hw) as [A B]; [right; split; [exact Hqd|done]|done|done|] end.
  split_and!; [done|right; eauto|]. right. exists (id, ad). done.
Qed.

(** ** A frame that finds its station *)

(** The queues of the station [s] are initialised. *)
Definition sta_ready (a : rwnx_hw) (s : nat) : Prop :=
  forall st tid q, get_sta s a = Ok st -> txq a !! rwnx_txq_sta_get plat st tid = Some q -> idx q <> TXQ_INACTIVE.

Lemma priv_selected w w1 v s tdls k k' n k2 : reachable (hw w) -> selected (hw w) (Some s) tdls w1 k k' n -> target (hw w) v s ->
  sta_ready (hw w) s -> (v < length vifs)%nat -> hw w1 = hw w -> queue_mapping k2 = n -> priority k2 <> PRIO_STA_NULL ->
  rwnx_get_tx_priv plat v k2 w1 = Ok (Some s, u8 (priority k2)).
Proof.
  intros Hr (_ & _ & m & tid & q & _ & Et & Hp & _ & Hq & Hn) [Hlen Ht] Hrd Hv Eh Eq Hnull.
  destruct (reach_sta (hw w) s Hr Hlen) as (st & Est & Ei & Es). specialize (Hq st Est).
  assert (n = (if nx_max <=? Z.of_nat s then Entry.nx_bcmc_txq_ndev_idx plat else tid + Z.of_nat s * NX_NB_TID_PER_STA)) as En.
  { destruct Hn as [?|[[Hi _] _]]; [done|]. now destruct (Hrd st tid q Est Hq). }
  unfold rwnx_get_tx_priv. rewrite (proj2 (Z.eqb_neq _ _) Hnull), Eh, Eq.
  destruct (reach_vif (hw w) v Hr Hv) as (vif & -> & Ev). cbn [mbind res_bind]. pose proof bcmc_ndev_range as [_ Hb].
  destruct (Z.leb_spec nx_max (Z.of_nat s)) as [Hge|Hlt].
  - rewrite En, Z.eqb_refl. destruct Ht as [[_ Ht]|(x & i & Ex & Ei2 & E)]; [lia|]. rewrite Ev in Ex. injection Ex as <-.
    rewrite Ei2. cbn [mbind res_bind]. do 3 f_equal. change (Entry.nx_remote_sta_max plat) with nx_max. lia.
  - assert (0 <= tid <= 7) by (destruct (qos m); lia). change NX_NB_TID_PER_STA with 8 in *.
    rewrite (proj2 (Z.eqb_neq _ _)) by lia. rewrite En, Z.div_add, Z.div_small by lia. do 3 f_equal. lia.
Qed.

(** What is in the header and the frame that a transmit queue gets. *)
Record described (k : net_skb) (s : nat) (tid : Z) (f : sk_buff) (h : rwnx_sw_txhdr) : Prop := {
  d_id : sk_id f = skb_id k;
  d_sta : sw_sta f = Some s;
  d_type : le16 (data k) 12 = Ok (ethertype f);
  d_room : sizeof_txhdr <= headroom h < sizeof_txhdr + 4;
  d_payload : payload h = drop 14 (data k);
  d_dest : eth_dest_addr (desc h) = take 6 (data k);
  d_src : eth_src_addr (desc h) = take 6 (drop 6 (data k));
  d_len : packet_len (desc h) = u16 (Z.of_nat (length (data k)) - 14);
  d_tid : desc_tid (desc h) = tid;
  d_staid : staid (desc h) = Z.of_nat s
}.

Definition sizes_ok : Prop := 4 <= ptr_size <= 16 /\ 16 <= L1_CACHE_BYTES <= 1024.
Lemma sizeof_range : sizes_ok -> 40 <= sizeof_txhdr < 2048.
Proof.
  intros [Hp Hl]. unfold Entry.sizeof_txhdr, offset_hw_hdr.
  pose proof (Z.div_mod (ptr_size + L1_CACHE_BYTES + 20 + ptr_size - 1) ptr_size ltac:(lia)) as E.
  pose proof (Z.mod_pos_bound (ptr_size + L1_CACHE_BYTES + 20 + ptr_size - 1) ptr_size ltac:(lia)). lia.
Qed.

Lemma frame_len_ok a b : 0 <= b -> u16 (u16 (b + a) - b) = u16 a.
Proof. intros Hb. unfold wrapU. rewrite Zminus_mod_idemp_l. f_equal. lia. Qed.

Lemma xmit_frame_queues env v k w s st q mem : sizes_ok -> reachable (hw w) -> entry_ok w -> (v < length vifs)%nat ->
  (14 <= length (data k))%nat -> hdr_len k = 0 -> has_room k -> capacity (hw w) -> skb_id k ∉ all_ids None (hw w) ->
  rwnx_get_tx_priv plat v k w = Ok (Some s, u8 (priority k)) -> (s < length stas)%nat -> get_sta s (hw w) = Ok st ->
  txq (hw w) !! rwnx_txq_sta_get plat st (u8 (priority k)) = Some q -> idx q <> TXQ_INACTIVE -> e_sw env = Some mem ->
  exists w' f h, xmit_frame plat ptr_size L1_CACHE_BYTES env v k w = Ok w' /\
    step plat (OpXmit f (rwnx_txq_sta_get plat st (u8 (priority k)))) (hw w) = Ok (hw w') /\
    hdrs w' !! skb_id k = Some h /\ described k s (u8 (priority k)) f h.
Proof.
  intros Hsz Hr He Hv Hl Eh Hroom Hcap Hid Epriv Hlen Esta Hq Hi Emem. unfold xmit_frame.
  destruct (reach_sta (hw w) s Hr Hlen) as (st' & Est' & Ei & Est). rewrite Esta in Est'. injection Est' as <-.
  rewrite !slice_ok by (cbn; lia). cbn [mbind res_bind].
  assert (exists proto, le16 (data k) 12 = Ok proto) as [proto Eproto].
  { unfold le16. destruct (rd8_two (data k) 12) as (b0 & b1 & -> & ->); [lia|lia|]. eauto. }
  rewrite Eproto. cbn [mbind res_bind]. rewrite Epriv. cbn [mbind res_bind]. rewrite Esta. cbn [mbind res_bind].
  rewrite (get_txq_ok _ _ _ Hq). cbn [mbind res_bind]. rewrite (proj2 (Z.eqb_neq _ _) Hi).
  pose proof (align_pads_range (data_addr (skb_pull 14 k))) as Hp. pose proof (sizeof_range Hsz) as Hs40.
  rewrite pull_push by (unfold has_room in Hroom; lia). cbn [mbind res_bind skb_id data skb_headroom data_addr priority]. rewrite Emem.
  destruct (reach_vif (hw w) v Hr Hv) as (vif & -> & Ev). cbn [mbind res_bind].
  destruct (master_idx_ok _ _ _ Hr Ev) as (m & -> & _). cbn [mbind res_bind].
  destruct (data_flags_ok v vif st (take 6 (drop (Z.to_nat 0) (data k))) (u8 (priority k)) w He Ev) as (fl & w1 & -> & E1 & E2 & E3).
  cbn [mbind res_bind fst snd]. rewrite E1.
  destruct (sta_queue (hw w) s st (u8 (priority k)) Hr Esta Ei Est) as (q' & _ & Hown & _); [apply wrapU_bound; lia|].
  match goal with |- context [queue_and_process ?f ?t] =>
    destruct (queue_takes (hw w) f t q (Some s) Hr Hcap) as (b & E & _); try done; rewrite E; eexists _, f, _ end.
  cbn [mbind res_bind]. split; [done|]. split; [exact E|]. split; [cbn; apply lookup_insert_eq|].
  split; cbn -[Entry.sizeof_txhdr RWNX_SWTXHDR_ALIGN_PADS u16]; try done.
  - rewrite wrapU_small by lia. lia.
  - unfold skb_len. cbn [hdr_len data]. rewrite Eh, length_drop, Z.add_0_l, frame_len_ok by lia. f_equal. lia.
Qed.

(** [dev_queue_xmit] of a frame that the filter has no say about. *)
Lemma delivered env v k w s tdls w1 m mem : sizes_ok -> wf w -> frame_ready env v k w -> pick_sta env v (data k) w = Ok (Some s, tdls, w1) ->
  x_stas w1 !! s = Some m -> sta_ready (hw w) s -> hdr_len k = 0 -> MAX_TCP_ACK < u16 (Z.of_nat (length (data k))) ->
  e_skb env <> None -> e_sw env = Some mem ->
  exists prio st w' k2 f h, (if qos m then exists k1, qos_priority classify st tdls k = Ok k1 /\ prio = priority k1 else prio = 255) /\
    let tid := if prio <? 3 then 0 else prio in
    get_sta s (hw w) = Ok st /\ dev_queue_xmit plat classify jms ptr_size L1_CACHE_BYTES env v k w = Ok w' /\
    data k2 = data k /\ (skb_id k2 = skb_id k \/ exists a, e_skb env = Some (skb_id k2, a)) /\
    step plat (OpXmit f (rwnx_txq_sta_get plat st tid)) (hw w) = Ok (hw w') /\ hdrs w' !! skb_id k2 = Some h /\ described k2 s tid f h.
Proof.
  intros Hsz Hw Hf Epick Em Hrd Eh Hbig Hskb Emem.
  destruct (select_ok env v k w Hw (r_vif _ _ _ _ Hf) (r_len _ _ _ _ Hf) (r_tdls _ _ _ _ Hf))
    as (n & k' & w1' & o & tdls' & E & Epick' & Hsel & Ho & Hw1 & Ek & Ehw & Emsg). rewrite Epick in Epick'. injection Epick' as <- <- <-.
  pose proof Hf as [Hv Hl Ht Hnew Hfresh _ Hcap]. pose proof Hsel as ((I1 & I2 & I3 & I4 & I5 & I6 & I7) & Hn & m' & tid & q & Em' & Et & Hp & _ & Hq & _).
  rewrite Em in Em'. injection Em' as <-. cbn in Ho. destruct (reach_sta (hw w) s (wf_reach _ Hw) (proj1 Ho)) as (st & Est & Ei & Es).
  assert (if qos m then exists k1, qos_priority classify st tdls k = Ok k1 /\ priority k' = priority k1 else priority k' = 255) as Hprio.
  { destruct (qos m) eqn:Eqos; [|done]. revert E. unfold rwnx_select_txq. rewrite Epick. cbn [mbind res_bind].
    unfold select_for, get_sta_more. rewrite Ehw, Est, Em. cbn [mbind res_bind from_option_res]. rewrite Eqos.
    destruct (qos_priority classify st tdls k) as [k1|] eqn:Ek1; [|done]. cbn [mbind res_bind].
    destruct (get_txq _ (hw w)) as [q0|]; [|done]. cbn [mbind res_bind fst snd]. destruct (_ <=? _); [done|]. intros [= _ <-]. eauto. }
  assert (0 <= priority k' <= 255 /\ priority k' <> PRIO_STA_NULL) as [Hpr Hnull] by (unfold PRIO_STA_NULL; destruct (qos m); lia).
  unfold dev_queue_xmit. rewrite E. cbn [mbind res_bind]. unfold rwnx_start_xmit, get_vif_more.
  destruct (lookup_lt_is_Some_2 (x_vifs w1) v) as [mv ->]; [now rewrite (e_nvif _ (wf_entry _ Hw1))|]. cbn [from_option_res mbind res_bind].
  change NX_NB_NDEV_TXQ with 257 in Hn. set (k0 := k' <| queue_mapping := u16 n |>).
  destruct (unshare _ _ env mv k0) as [[k1 copied]|] eqn:Eu.
  2: { exfalso. revert Eu. unfold unshare. destruct (_ || _ || _); [|done]. destruct (e_skb env) as [[? ?]|]; done. }
  destruct (unshare_ok _ _ _ _ _ Eu) as (Hroom & Ed & Eh1 & Eq1 & Ep1 & Hcopy). cbn in Ed, Eh1, Eq1, Ep1.
  set (k2 := if priority k1 <? 3 then k1 <| priority := 0 |> else k1). set (w2 := if copied then free_skb (skb_id k0) w1 else w1).
  assert (data k2 = data k /\ hdr_len k2 = 0 /\ has_room k2 /\ queue_mapping k2 = n /\ skb_id k2 = skb_id k1 /\
    priority k2 = if priority k' <? 3 then 0 else priority k') as (J1 & J2 & J3 & J4 & J5 & J6).
  { unfold k2. rewrite <- Ep1. destruct (priority k1 <? 3); cbn; rewrite ?Ed, ?Eh1, ?Eq1, ?wrapU_small by lia; split_and!; try done; congruence. }
  assert (Hfilt : xmit_filter plat jms ptr_size L1_CACHE_BYTES env v k2 w2 = Ok (false, w2)).
  { unfold xmit_filter, skb_len. rewrite J2, J1, Z.add_0_l. now rewrite (proj2 (Z.leb_gt _ _)) by lia. }
  cbn zeta. fold w2 k2. rewrite Hfilt. cbn [mbind res_bind].
  assert (hw w2 = hw w /\ entry_ok w2 /\ x_stas w2 = x_stas w1) as (K1 & K2 & K3) by (unfold w2; destruct copied; split_and!; first [done | exact Ehw | apply (entry_ok_vifs w1); [done|done|apply Hw1]]).
  assert (u8 (priority k2) = (if priority k' <? 3 then 0 else priority k')) as Et8.
  { rewrite J6. apply wrapU_small. destruct (Z.ltb_spec (priority k') 3); lia. }
  assert (rwnx_get_tx_priv plat v k2 w2 = Ok (Some s, u8 (priority k2))) as Epriv.
  { eapply (priv_selected w w2 v s tdls k k' n k2 (wf_reach _ Hw)); try done.
    - destruct Hsel as (S1 & S2 & mm & tt & qq & S3 & S4). split; [done|]. split; [done|]. exists mm, tt, qq. now rewrite K3.
    - rewrite J6. unfold PRIO_STA_NULL in *. destruct (priority k' <? 3); [done|]. exact Hnull. }
  assert (exists q2, txq (hw w2) !! rwnx_txq_sta_get plat st (u8 (priority k2)) = Some q2) as [q2 Hq2].
  { rewrite K1. destruct (sta_queue (hw w) s st (u8 (priority k2)) (wf_reach _ Hw) Est Ei Es) as (q2 & Hq2 & _); [apply wrapU_bound; lia|]. eauto. }
  destruct (xmit_frame_queues env v k2 w2 s st q2 mem Hsz) as (w' & f & h & Ex & Estep & Eh' & Hd); try done.
  - rewrite K1. apply Hw.
  - now rewrite J1.
  - rewrite K1. exact Hcap.
  - rewrite K1, J5. intros Hin. assert (skb_id k1 ∈ known w) as Hin2 by (unfold known; rewrite !elem_of_app; auto). revert Hin2. destruct copied.
    + destruct Hcopy as [a Ea]. specialize (Hfresh _ _ Ea). intros H2. apply Hfresh. destruct (free_wf _ _ Hw Hnew) as [_ ->]. now right.
    + subst k1. cbn. now rewrite I1.
  - apply Ho.
  - now rewrite K1.
  - eapply (Hrd st); [done|]. rewrite <- K1. exact Hq2.
  - rewrite Et8 in *. rewrite K1 in Estep. exists (priority k'), st, w', k2, f, h. split; [done|]. cbn zeta.
    split; [done|]. split; [done|]. split; [done|]. split; [|done]. rewrite J5. destruct copied; [now right|left]. subst k1. cbn. exact I1.
Qed.

(** ** Runs of all entry points *)

Inductive xop :=
| XSend (env : xmit_env) (v : nat) (k : net_skb)
| XTdls (env : xmit_env) (setup : bool) (v : nat) (k : net_skb)
| XMgmt (env : xmit_env) (v : nat) (s : option nat) (p : cfg80211_mgmt_tx_params) (offchan : bool)
| XTimer (env : xmit_env) (i : nat)
| XRxAck (buf : list Z) (plen : Z)
| XQueue (o : op).

Definition xstep (o : xop) (w : xmit_hw) : res xmit_hw :=
  match o with
  | XSend env v k => dev_queue_xmit plat classify jms ptr_size L1_CACHE_BYTES env v k w
  | XTdls env setup v k => tdls_send plat classify jms ptr_size L1_CACHE_BYTES env setup v k w
  | XMgmt env v s p offchan => r ← rwnx_start_mgmt_xmit plat robust ptr_size L1_CACHE_BYTES env v s p offchan w; Ok r.2
  | XTimer env i => ack_timer plat ptr_size L1_CACHE_BYTES env i w
  | XRxAck buf plen => a ← Filter.filter_rx_tcp_ack (ack_m w) buf plen; Ok (w <| ack_m := a |>)
  | XQueue o => b ← step plat o (hw w); Ok (w <| hw := b |>)
  end.

Definition is_xmit (o : op) : bool := match o with OpXmit _ _ => true | _ => false end.
Definition xop_ok (o : xop) (w : xmit_hw) : Prop :=
  match o with
  | XSend env v k => frame_ready env v k w
  | XTdls env _ v k => frame_ready env v k w /\ queue_mapping k = 0
  | XMgmt env v s p _ => mgmt_ready env v s p w
  | XTimer _ _ => capacity (hw w)
  | XRxAck buf plen => exists a, Filter.filter_rx_tcp_ack (ack_m w) buf plen = Ok a
  | XQueue o => is_xmit o = false /\ op_ok plat stas vifs o (hw w)
  end.
(** The frames the network hands over. *)
Definition handed (o : xop) : list Z := match o with XSend _ _ k | XTdls _ _ _ k => [skb_id k] | _ => [] end.
Definition overread (o : xop) : Prop := exists s n p, o = XQueue (OpTraffic s n p).

Definition xinit (xs : list sta_more) (xv : list vif_more) (jiff : Z) : xmit_hw :=
  mk_xw (init_hw stas vifs) xs xv (Filter.tcp_ack_init jms jiff) ∅ ∅ [] [].

Lemma xinit_wf xs xv jiff : entry_ok (xinit xs xv jiff) -> wf (xinit xs xv jiff).
Proof.
  intros He. pose proof (inv_init_hw plat stas vifs Hs) as Hi. split; [apply reach_init|done| |done|].
  - unfold known. cbn. rewrite (i_ids _ _ _ _ _ _ Hi). constructor.
  - intros m v k. cbn. now rewrite lookup_empty.
Qed.

Lemma xmit_done_new id env w w' : xmit_done id env w w' -> wf w' /\ exists new, known w' ≡ₚ new ++ known w /\ [id] ⊆ new.
Proof.
  intros (Hw & _ & copy & E & _). split; [done|]. exists (copy ++ [id]). split; [now rewrite <- app_assoc|]. intros i Hi. apply elem_of_app. now right.
Qed.

Lemma filter_rx_held a buf plen a' : Filter.filter_rx_tcp_ack a buf plen = Ok a' -> FilterSpec.held a' ≡ₚ FilterSpec.held a.
Proof.
  intros H. apply FilterSpec.filter_rx_spec in H as [->|(i & e & p & s & He & ->)]; [done|]. now apply (FilterSpec.held_put_same _ _ e).
Qed.

Lemma queue_op_ok o w : wf w -> is_xmit o = false -> op_ok plat stas vifs o (hw w) ->
  (exists b, step plat o (hw w) = Ok b /\ wf (w <| hw := b |>) /\ known (w <| hw := b |>) ≡ₚ known w) \/
  (exists s n p, o = OpTraffic s n p) /\ step plat o (hw w) = Fault OutOfBounds.
Proof.
  intros Hw Hx Hok. destruct (reachable_inv plat stas vifs Hc (hw w) Hs (wf_reach _ Hw)) as [Q H].
  destruct (step_good plat stas vifs Hc o Q (hw w) H Hok) as [(b & E & H')|?]; [left|now right]. exists b. split; [done|].
  assert (new_ids o = []) as En by now destruct o. rewrite En in H'. cbn [app] in H'.
  assert (known (w <| hw := b |>) ≡ₚ known w) as Ek.
  { unfold known, held_ids. cbn. now rewrite (i_ids _ _ _ _ _ _ H'), (i_ids _ _ _ _ _ _ H). }
  split; [|done]. destruct Hw as [A B C D F]. split; try done.
  - exact (reach_step _ _ _ _ _ _ A Hok E).
  - now apply (entry_ok_vifs w).
  - now rewrite Ek.
Qed.

Lemma xstep_ok o w : wf w -> xop_ok o w ->
  (exists w', xstep o w = Ok w' /\ wf w' /\ exists new, known w' ≡ₚ new ++ known w /\ handed o ⊆ new) \/
  overread o /\ xstep o w = Fault OutOfBounds.
Proof.
  intros Hw. destruct o as [env v k|env setup v k|env v s p off|env i|buf plen|o]; cbn [xop_ok xstep handed].
  - intros Hf. left. destruct (dev_queue_xmit_ok env v k w Hw Hf) as (w' & E & H%xmit_done_new). eauto.
  - intros [Hf Hq]. left. destruct (tdls_send_ok env setup v k w Hw Hf Hq) as (w' & E & H%xmit_done_new). eauto.
  - intros Hf. left. destruct (mgmt_xmit_ok env v s p off w Hw Hf) as (r & w' & -> & Hw' & _ & Hk'). cbn [mbind res_bind snd]. eexists. split; [done|].
    split; [done|]. destruct Hk' as [E|(a & _ & E)]; [exists []; now rewrite E|exists [a.1]; split; [exact E|intros i Hi; now apply not_elem_of_nil in Hi]].
  - intros Hcap. left. destruct (ack_timer_ok env i w Hw Hcap) as (w' & E & H & Ek & _). exists w'. split; [done|]. split; [done|]. exists []. now rewrite Ek.
  - intros [a E]. left. rewrite E. cbn [mbind res_bind]. eexists. split; [done|]. split; [|now exists []]. destruct Hw as [A B C D F]. split; try done.
    + now apply (entry_ok_vifs w).
    + cbn. now rewrite (filter_rx_held _ _ _ _ E).
  - intros [Hx Hok]. destruct (queue_op_ok o w Hw Hx Hok) as [(b & -> & H & Ek)|[(s & n & p & ->) ->]].
    + left. cbn [mbind res_bind]. eexists. split; [done|]. split; [done|]. exists []. now rewrite Ek.
    + right. split; [now exists s, n, p|done].
Qed.

Inductive xreach : list Z -> xmit_hw -> Prop :=
| xr_init xs xv jiff : entry_ok (xinit xs xv jiff) -> xreach [] (xinit xs xv jiff)
| xr_step l o w w' : xreach l w -> xop_ok o w -> xstep o w = Ok w' -> xreach (handed o ++ l) w'.

Lemma xreach_wf l w : xreach l w -> wf w /\ l ⊆ known w.
Proof.
  induction 1 as [xs xv jiff He|l o w w' _ [IH1 IH2] Hok Hst]; [split; [now apply xinit_wf|intros i Hi; now apply not_elem_of_nil in Hi]|].
  destruct (xstep_ok o w IH1 Hok) as [(w2 & E & H & new & Ek & Hn)|[_ E]]; [|congruence]. rewrite Hst in E. injection E as <-.
  split; [done|]. intros i [Hi|Hi]%elem_of_app; rewrite Ek, elem_of_app; auto.
Qed.

(** ** The bytes on the bus *)

Definition bytes_ok (l : list Z) : Prop := Forall (fun b => 0 <= b < 256) l.
(** The descriptor and the payload of a frame as it is pushed: the queues write
    the hardware queue, flags and status address of [f]. *)
Definition wire (f : sk_buff) (h : rwnx_sw_txhdr) : list Z := desc_bytes f (desc h) ++ payload h.
Definition usb_frame (f : sk_buff) (h : rwnx_sw_txhdr) : UsbTx.tx_frame :=
  UsbTx.mk_frame (need_cfm f) (desc_bytes f (desc h)) (payload h) (headroom h).
(** The Ethernet frame that descriptor and payload stand for. *)
Definition eth_of_wire (b : list Z) : list Z := take 12 (drop 8 b) ++ take 2 (drop 20 b) ++ drop 28 b.

Lemma desc_bytes_len f h : length (eth_dest_addr h) = 6%nat -> length (eth_src_addr h) = 6%nat -> length (desc_bytes f h) = 28%nat.
Proof. intros A B. unfold desc_bytes, le4, le2. repeat rewrite length_app. rewrite A, B. done. Qed.

Lemma le16_split d i x : bytes_ok d -> le16 d i = Ok x -> 0 <= i -> le2 x = take 2 (drop (Z.to_nat i) d).
Proof.
  intros Hb H Hi. unfold le16, rd8 in H. rewrite !(proj2 (Z.leb_le 0 _)) in H by lia.
  destruct (d !! Z.to_nat i) as [a|] eqn:Ea; [|done]. cbn [from_option_res mbind res_bind] in H.
  destruct (d !! Z.to_nat (i + 1)) as [b|] eqn:Eb; [|done]. injection H as <-.
  unfold bytes_ok in Hb. rewrite Forall_lookup in Hb. pose proof (Hb _ _ Ea) as Ha. pose proof (Hb _ _ Eb) as Hb'. cbn in Ha, Hb'.
  rewrite (drop_S _ _ _ Ea). replace (Z.to_nat (i + 1)) with (S (Z.to_nat i)) in Eb by lia. rewrite (drop_S _ _ _ Eb). cbn [take].
  unfold le2. rewrite Z.mod_add, Z.div_add, Z.div_small, Z.mod_small by lia. rewrite Z.add_0_l, Z.mod_small by lia. done.
Qed.

Lemma wire_ok k s tid f h f' : described k s tid f h -> (14 <= length (data k))%nat -> bytes_ok (data k) -> ethertype f' = ethertype f ->
  length (desc_bytes f' (desc h)) = 28%nat /\ eth_of_wire (wire f' h) = data k /\
  rd8 (wire f' h) 23 = Ok tid /\ rd8 (wire f' h) 25 = Ok (Z.of_nat s) /\ le16 (wire f' h) 0 = Ok (Z.of_nat (length (payload h)) mod 65536).
Proof.
  intros [] Hl Hb Et. assert (length (eth_dest_addr (desc h)) = 6%nat) as L1 by (rewrite d_dest0, length_take; lia).
  assert (length (eth_src_addr (desc h)) = 6%nat) as L2 by (rewrite d_src0, length_take, length_drop; lia).
  split; [now apply desc_bytes_len|]. unfold eth_of_wire, wire, desc_bytes, le4. rewrite Et.
  pose proof (le16_split _ _ _ Hb d_type0 ltac:(lia)) as E2. rewrite d_payload0, length_drop.
  rewrite d_tid0, d_staid0, d_len0. destruct (eth_dest_addr (desc h)) as [|a1 [|a2 [|a3 [|a4 [|a5 [|a6 [|]]]]]]]; try done.
  destruct (eth_src_addr (desc h)) as [|b1 [|b2 [|b3 [|b4 [|b5 [|b6 [|]]]]]]]; try done.
  split_and!; try reflexivity.
  - transitivity ([a1; a2; a3; a4; a5; a6] ++ [b1; b2; b3; b4; b5; b6] ++ le2 (ethertype f) ++ drop 14 (data k)); [reflexivity|].
    rewrite d_dest0, d_src0, E2. change (Z.to_nat 12) with 12%nat.
    change (drop 14 (data k)) with (drop (12 + 2) (data k)). rewrite <- (drop_drop (data k) 2 12), (take_drop 2 (drop 12 (data k))).
    change (drop 12 (data k)) with (drop (6 + 6) (data k)). rewrite <- (drop_drop (data k) 6 6), (take_drop 6 (drop 6 (data k))).
    apply take_drop.
  - set (x := u16 (Z.of_nat (length (data k)) - 14)). transitivity (Ok (x mod 256 + x / 256 mod 256 * 256)); [reflexivity|]. f_equal.
    pose proof (wrapU_bound 16 (Z.of_nat (length (data k)) - 14) ltac:(lia)) as Hx. fold x in Hx. change (2 ^ 16) with 65536 in Hx.
    replace (Z.of_nat (length (data k) - 14)) with (Z.of_nat (length (data k)) - 14) by lia. change (_ mod 65536) with x.
    rewrite (Z.mod_small (x / 256)) by (Z.div_mod_to_equations; lia). Z.div_mod_to_equations. lia.
Qed.

(** The header that was reserved is enough for the transfer, confirmed or not. *)
Lemma usb_ok k s tid f h f' env : sizes_ok -> described k s tid f h -> (14 <= length (data k))%nat -> Z.of_nat (length (data k)) < 65000 ->
  (need_cfm f' = true -> UsbTx.t_kmalloc_ok env = true) ->
  exists n pad, UsbTx.tx_bytes env (usb_frame f' h) = Ok (UsbTx.usb_header n ++ wire f' h ++ pad) /\ (length pad < 4)%nat /\
    n = 4 + Z.of_nat (length (wire f' h ++ pad)).
Proof.
  intros Hsz [] Hl Hmax Hk2. pose proof (sizeof_range Hsz) as Hr.
  assert (length (desc_bytes f' (desc h)) = 28%nat) as Hd.
  { apply desc_bytes_len; [rewrite d_dest0, length_take|rewrite d_src0, length_take, length_drop]; lia. }
  assert (length (payload h) = (length (data k) - 14)%nat) as Hp by (rewrite d_payload0; apply length_drop).
  unfold UsbTx.tx_bytes, usb_frame. cbn [UsbTx.need_cfm UsbTx.desc UsbTx.payload UsbTx.headroom]. fold (wire f' h).
  assert (length (wire f' h) = (14 + length (data k))%nat) as Hw by (unfold wire; rewrite length_app; lia).
  set (n := 4 + Z.of_nat (length (wire f' h))) in *. destruct (need_cfm f').
  - rewrite (Hk2 eq_refl). cbn [negb]. rewrite (wrapU_small 16 n) by lia. pose proof (TxFacts.pad_bounds n ltac:(lia)) as Hpad.
    cbn zeta in *. set (p := if has n _ then _ else _) in *. destruct Hpad as [Hp1 _].
    rewrite (proj2 (Z.ltb_ge _ _)) by lia. rewrite wrapU_small by lia. exists (n + p), (replicate (Z.to_nat p) 0).
    split; [done|]. rewrite length_app, length_replicate. clearbody p. unfold n. split; lia.
  - rewrite (proj2 (Z.ltb_ge _ _)) by lia. exists n, []. rewrite app_nil_r. split; [done|]. split; [cbn; lia|done].
Qed.

End Run.
End Facts.
