(* ===== verification/XmitProps.v ===== *)
(** The properties of the entry of frames, [Xmit.v]: safety and the account of
    frames over every run of the entry points and the transmit queues, delivery of
    a frame to its station and to the bus, and admission control.  [Props] holds
    the theorems, [Witnesses] concrete inputs for them. *)
From stdpp Require Import base list numbers option gmap relations.
From Stdlib Require Import ZArith Lia.
From S2P Require Import Prelude TcpAck Txq TxqInv TxqSteps TxqSys TxqProps TxqLayout Xmit Usb XmitFacts.

#[local] Open Scope Z_scope.
#[local] Open Scope aic_scope.

Module Props.
Import Hw Spec Sys Layout Entry Facts.

(** An access category that needs admission is left for the next lower one
    until one is found that does not, or background is reached: the TID that
    [rwnx_downgrade_ac] answers is of the highest category, not above the
    frame's, that may be used without admission (background if there is none),
    and a frame whose category may be used keeps its TID. *)
Theorem downgrade_ac_highest acm_ tid ac (H : category tid = Some ac) :
  exists p ac', rwnx_downgrade_ac acm_ tid = Ok p /\ category p = Some ac' /\ (ac' <= ac)%nat /\
    (forall x, (ac' < x <= ac)%nat -> needs acm_ x = true) /\ (needs acm_ ac' = true -> ac' = RWNX_HWQ_BK) /\
    (needs acm_ ac = false -> p = tid).
Proof. destruct (downgrade_ok acm_ tid ac H) as (p & E & ac' & ? & ? & ? & ? & ? & _). exists p, ac'. done. Qed.

Section Run.
Context (plat : rwnx_plat) (classify : list Z -> Z) (robust : list Z -> bool) (jms : Z -> Z) (ptr_size L1_CACHE_BYTES : Z).
Context (stas : list rwnx_sta) (vifs : list rwnx_vif).
Context (Hc : config_ok stas vifs) (Hs : strip <$> stas = stas) (Hk : stations_ok plat stas vifs).
#[local] Abbreviation send := (dev_queue_xmit plat classify jms ptr_size L1_CACHE_BYTES).


(** C4. In each of these states every frame the network ever handed over is in
    exactly one place (held by the ACK filter, freed, in a transmit queue, in the
    confirmation table or released), the messages that exist are those the
    filter holds, and the transmit queues are in one of their reachable states,
    so that all that is proved of them holds here. *)
Theorem entry_accounts l w (Hr : xreach plat classify robust jms ptr_size L1_CACHE_BYTES stas vifs l w) :
  NoDup (known w) /\ l ⊆ known w /\ held_msgs w ≡ₚ FilterSpec.held (ack_m w) /\ reachable plat stas vifs (hw w).
Proof. destruct (xreach_wf _ _ _ _ _ _ _ _ Hc Hs Hk _ _ Hr) as [[? ? ? ? ?] ?]. done. Qed.

Section Frame.
Context (env : xmit_env) (v : nat) (k : net_skb) (w : xmit_hw) (s : nat) (tdls : bool) (w1 : xmit_hw) (m : sta_more) (mem : sw_mem).
Context (Hsz : sizes_ok ptr_size L1_CACHE_BYTES) (l : list Z)
        (Hr : xreach plat classify robust jms ptr_size L1_CACHE_BYTES stas vifs l w)
        (Hf : frame_ready vifs env v k w) (Hpick : pick_sta env v (data k) w = Ok (Some s, tdls, w1))
        (Hm : x_stas w1 !! s = Some m) (Hrd : sta_ready plat (hw w) s) (Hh : hdr_len k = 0)
        (Hbig : MAX_TCP_ACK < u16 (Z.of_nat (length (data k)))) (Hskb : e_skb env <> None) (Hmem : e_sw env = Some mem).

#[local] Definition delivery :=
  delivered plat classify jms ptr_size L1_CACHE_BYTES stas vifs Hc Hs Hk env v k w s tdls w1 m mem Hsz
    (proj1 (xreach_wf plat classify robust jms ptr_size L1_CACHE_BYTES stas vifs Hc Hs Hk l w Hr)).

(** C3. A frame that is too long for the ACK filter gets to the station that was
    chosen for it: though only a netdev queue and a priority pass from
    [rwnx_select_txq] to [rwnx_start_xmit], the frame (or its copy) is appended to
    a queue of that same station, with the station's number and the TID of that
    queue in its descriptor. *)
Theorem frame_reaches_station :
  exists prio st w' k2 f h, (if qos m then exists k1, qos_priority classify st tdls k = Ok k1 /\ prio = priority k1 else prio = 255) /\
    let tid := if prio <? 3 then 0 else prio in
    get_sta s (hw w) = Ok st /\ send env v k w = Ok w' /\
    step plat (OpXmit f (rwnx_txq_sta_get plat st tid)) (hw w) = Ok (hw w') /\ sw_sta f = Some s /\ data k2 = data k /\
    sk_id f = skb_id k2 /\ (skb_id k2 = skb_id k \/ exists a, e_skb env = Some (skb_id k2, a)) /\
    hdrs w' !! skb_id k2 = Some h /\ desc_tid (desc h) = tid /\ staid (desc h) = Z.of_nat s.
Proof.
  destruct delivery as (prio & st & w' & k2 & f & h & A & B & C & D & E & F & G & I); try done.
  destruct I. exists prio, st, w', k2, f, h. split; [done|]. cbn zeta in *. split_and!; done.
Qed.

(** C5. What goes over the bus for such a frame: a header of four bytes, the
    28 bytes of the descriptor, and the frame without its Ethernet header, padded
    to four bytes when it is to be confirmed; the room reserved in front of the
    frame is enough for that.  Descriptor and payload give the Ethernet frame
    back, byte for byte. *)
Theorem frame_on_bus (Hb : bytes_ok (data k)) (Hmax : Z.of_nat (length (data k)) < 65000) :
  exists t w' f h, send env v k w = Ok w' /\ step plat (OpXmit f t) (hw w) = Ok (hw w') /\ hdrs w' !! sk_id f = Some h /\
    forall f' usb_env, ethertype f' = ethertype f -> (need_cfm f' = true -> UsbTx.t_kmalloc_ok usb_env = true) ->
      length (desc_bytes f' (desc h)) = 28%nat /\ eth_of_wire (wire f' h) = data k /\
      rd8 (wire f' h) 25 = Ok (Z.of_nat s) /\ le16 (wire f' h) 0 = Ok (Z.of_nat (length (payload h))) /\
      exists n pad, UsbTx.tx_bytes usb_env (usb_frame f' h) = Ok (UsbTx.usb_header n ++ wire f' h ++ pad) /\ (length pad < 4)%nat.
Proof.
  destruct delivery as (prio & st & w' & k2 & f & h & _ & _ & C & D & _ & F & G & I); try done.
  pose proof (r_len _ _ _ _ _ Hf) as Hl.
  exists (rwnx_txq_sta_get plat st (if prio <? 3 then 0 else prio)), w', f, h. split; [done|]. split; [done|].
  split; [now rewrite (d_id _ _ _ _ _ _ _ I)|]. intros f' ue Et Hcf. rewrite <- D in *.
  destruct (wire_ok jms _ _ _ _ _ _ _ f' I Hl Hb Et) as (W1 & W2 & _ & W4 & W5).
  destruct (usb_ok _ _ _ _ _ _ _ f' ue Hsz I Hl Hmax Hcf) as (n & pad & U1 & U2 & _).
  split_and!; try done; [|eauto]. rewrite W5, Z.mod_small; [done|]. rewrite (d_payload _ _ _ _ _ _ _ I), length_drop. lia.
Qed.

(** Admission control is bypassed: when the access point demands admission
    for best effort, [rwnx_downgrade_ac] makes every best effort frame a
    background one (TID 2), and [rwnx_start_xmit] turns TIDs 1 and 2 into TID 0:
    the frame is queued as best effort all the same. *)
Theorem admission_bypassed st (Hst : get_sta s (hw w) = Ok st) (Hqos : qos m = true) (Hplain : tdls = false)
  (Hbe : category (Z.land (classify (data k)) IEEE80211_QOS_CTL_TAG1D_MASK) = Some RWNX_HWQ_BE) (Hacm : needs (acm st) RWNX_HWQ_BE = true) :
  exists w' f, send env v k w = Ok w' /\ step plat (OpXmit f (rwnx_txq_sta_get plat st 0)) (hw w) = Ok (hw w') /\
    category 0 = Some RWNX_HWQ_BE /\ sw_sta f = Some s /\ (exists h, hdrs w' !! sk_id f = Some h /\ desc_tid (desc h) = 0).
Proof.
  destruct delivery as (prio & st' & w' & k2 & f & h & A & B & C & D & _ & F & G & I); try done.
  rewrite Hst in B. injection B as <-. rewrite Hqos in A. destruct A as (k1 & E1 & ->).
  assert ((priority k1 <? 3) = true) as Ep.
  { revert E1. unfold qos_priority. rewrite Hplain. destruct (Z.eqb_spec (acm st) 0) as [E0|_].
    { rewrite E0 in Hacm. done. }
    cbn [negb priority field_set]. destruct (downgrade_ok (acm st) _ _ Hbe) as (p & Edg & ac' & Ec & Hle & _ & Hb & _ & Hrg).
    cbn. rewrite Edg. cbn [mbind res_bind]. intros [= <-]. cbn. apply Z.ltb_lt.
    assert (ac' = 0%nat) as ->.
    { destruct (decide (ac' = RWNX_HWQ_BE)) as [->|Hn]; [exact (Hb Hacm)|]. unfold RWNX_HWQ_BE in *. lia. }
    destruct Hrg as [->|Hrg]; [rewrite Hbe in Ec; discriminate|]. unfold category in Ec.
    assert (p = 1 \/ p = 2 \/ p = 3 \/ p = 4 \/ p = 5) as [->|[->|[->|[->| ->]]]] by lia; try lia; discriminate. }
  rewrite Ep in *. destruct I. exists w', f. split; [done|]. split; [done|]. split; [done|]. split; [done|]. exists h. split; [congruence|done].
Qed.
End Frame.
End Run.
End Props.

(** * Witnesses *)

Module Witnesses.
Import Hw Spec Sys Layout Entry Facts Props.

(** The access point of [TxqProps.Props] with stations that need admission for
    best effort, on a machine with pointers of 8 bytes and cache lines of 64. *)
Definition x_sta (i : nat) : rwnx_sta := mk_sta (Z.of_nat i) 0 2 0 no_ps false false.
Definition x_config : list rwnx_sta := TxqProps.Props.a_config x_sta.
Definition x_vif_list : list rwnx_vif := [TxqProps.Props.a_vif].
Definition ic : rwnx_plat := TxqProps.Props.new_ic.
Definition mac (i : nat) : list Z := [2; 0; 0; 0; 0; Z.of_nat i].
Definition more : list sta_more := (fun i => mk_sta_more (mac i) true 0) <$> List.seq 0 33.
Definition vmore : list vif_more := [mk_vif_more false false None [] [] false None (mac 99) false].
Definition tag (d : list Z) : Z := 0.
Definition jms_250 (ms : Z) : Z := ms / 4.
Definition no_robust (d : list Z) : bool := false.

(** Station 0 has associated. *)
Definition w_init : xmit_hw := xinit jms_250 x_config x_vif_list more vmore 0.
Definition w_sta : xmit_hw :=
  match xstep ic tag no_robust jms_250 8 64 (XQueue (OpStaInit 0 0)) w_init with Ok w => w | Fault _ => w_init end.

Definition frame : net_skb := mk_net_skb 1 (mac 0 ++ mac 7 ++ [8; 0] ++ replicate 300 0) 0 200 4096 0 0 false false.
Definition mem0 : sw_mem := mk_sw_mem 0 0 false 0 0 (mac 0, mac 0).
Definition env0 : xmit_env := mk_xenv 0 (Some (900, 8192)) None (Some mem0) true.

Lemma x_config_ok : config_ok x_config x_vif_list.
Proof. now apply TxqProps.Props.a_config_ok. Qed.
Lemma x_config_strip : strip <$> x_config = x_config.
Proof. now apply TxqProps.Props.a_config_strip. Qed.
Lemma x_stations_ok : stations_ok ic x_config x_vif_list.
Proof.
  split.
  - intros s st. unfold x_config, TxqProps.Props.a_config. rewrite list_lookup_fmap, fmap_Some. intros (i & [-> Hi]%lookup_seq & ->).
    change (Layout.nx_remote_sta_max ic) with 32. cbn. lia.
  - intros [|v] vif a m; [|done]. intros [= <-] Hv. unfold master_vif_idx. cbn. now intros [= <-].
Qed.
Lemma x_entry_ok : entry_ok ic x_config x_vif_list w_init.
Proof.
  split; [done|done| | |].
  - intros [|v] vif; [|done]. intros [= <-]. cbn. constructor; [|done]. split; [vm_compute; lia|done].
  - intros [|v] m; [|done]. intros [= <-]. done.
  - intros [|v] vif m; [|done]. now intros [= <-].
Qed.

Lemma w_sta_step : xstep ic tag no_robust jms_250 8 64 (XQueue (OpStaInit 0 0)) w_init = Ok w_sta.
Proof. unfold w_sta. destruct (xstep _ _ _ _ _ _ _ w_init) as [w|] eqn:E; [done|]. vm_compute in E. discriminate. Qed.
Lemma init_op_ok : op_ok ic x_config x_vif_list (OpStaInit 0 0) (hw w_init).
Proof.
  split; [done|]. unfold sta_init_ok. change (x_config !! 0%nat) with (Some (x_sta 0)). split; [|done].
  intros tt _. apply TxqProps.Props.renewable_init, x_config_strip.
Qed.
Lemma w_sta_reach : xreach ic tag no_robust jms_250 8 64 x_config x_vif_list [] w_sta.
Proof.
  refine (xr_step _ _ _ _ _ _ _ _ [] (XQueue (OpStaInit 0 0)) w_init w_sta _ _ w_sta_step).
  - apply xr_init, x_entry_ok.
  - split; [done|apply init_op_ok].
Qed.

Lemma w_sta_capacity : capacity (hw w_sta).
Proof.
  unfold capacity. apply Forall_lookup. refine (bool_decide_unpack (Forall (fun q => Z.of_nat (length (sk_list q)) < 65535) (txq (hw w_sta))) _).
  vm_compute. exact I.
Qed.
Lemma frame_is_ready : frame_ready x_vif_list env0 0 frame w_sta.
Proof.
  split.
  - vm_compute. lia.
  - vm_compute. lia.
  - intros H. vm_compute in H. discriminate.
  - refine (bool_decide_unpack (skb_id frame ∉ known w_sta) _). vm_compute. exact I.
  - intros id a [= <- <-]. refine (bool_decide_unpack (900 ∉ known (free_skb (skb_id frame) w_sta)) _). vm_compute. exact I.
  - intros H. vm_compute in H. now destruct H.
  - exact w_sta_capacity.
Qed.
Lemma frame_pick : pick_sta env0 0 (data frame) w_sta = Ok (Some 0%nat, false, w_sta).
Proof. vm_compute. reflexivity. Qed.
Lemma w_sta_ready : sta_ready ic (hw w_sta) 0.
Proof.
  intros st tid q E. assert (st = x_sta 0) as -> by (vm_compute in E; now injection E as <-).
  unfold rwnx_txq_sta_get. set (T := if NX_NB_TXQ_PER_STA <=? tid then 0 else tid).
  assert (exists n, Z.to_nat (rwnx_txq_sta_idx ic (x_sta 0) T) = n /\ (n <= 8)%nat) as (n & -> & Hn).
  { eexists. split; [done|]. change (rwnx_txq_sta_idx ic (x_sta 0) T) with T. unfold T. change NX_NB_TXQ_PER_STA with 9.
    destruct (Z.leb_spec 9 tid); lia. }
  assert (Forall (fun q => idx q <> TXQ_INACTIVE) (take 9 (txq (hw w_sta)))) as H.
  { refine (bool_decide_unpack (Forall _ _) _). vm_compute. exact I. }
  rewrite Forall_lookup in H. intros Hq. apply (H n). rewrite lookup_take_lt by lia. exact Hq.
Qed.

Lemma downgrade_ac_highest_witness : exists p ac', rwnx_downgrade_ac 12 6 = Ok p /\ category p = Some ac' /\ ac' = 1%nat.
Proof.
  destruct (downgrade_ac_highest 12 6 3 eq_refl) as (p & ac' & E & H & _). exists p, ac'. split; [exact E|]. split; [exact H|].
  vm_compute in E. injection E as <-. vm_compute in H. now injection H.
Defined.


Lemma entry_accounts_witness : NoDup (known w_sta).
Proof.
  exact (proj1 (entry_accounts ic tag no_robust jms_250 8 64 x_config x_vif_list x_config_ok x_config_strip x_stations_ok
    [] w_sta w_sta_reach)).
Defined.

Lemma small_sizes : sizes_ok 8 64.
Proof. unfold sizes_ok. lia. Qed.
Lemma frame_long : MAX_TCP_ACK < u16 (Z.of_nat (length (data frame))).
Proof. vm_compute. reflexivity. Qed.
Lemma x_more : x_stas w_sta !! 0%nat = Some (mk_sta_more (mac 0) true 0).
Proof. vm_compute. reflexivity. Qed.

Lemma frame_reaches_station_witness : exists w' f, dev_queue_xmit ic tag jms_250 8 64 env0 0 frame w_sta = Ok w' /\ sw_sta f = Some 0%nat.
Proof.
  destruct (frame_reaches_station ic tag no_robust jms_250 8 64 x_config x_vif_list x_config_ok x_config_strip x_stations_ok
    env0 0 frame w_sta 0 false w_sta _ mem0 small_sizes [] w_sta_reach frame_is_ready frame_pick x_more w_sta_ready eq_refl frame_long
    ltac:(discriminate) eq_refl) as (prio & st & w' & k2 & f & h & _ & _ & E & _ & Hf & _).
  exists w', f. split; assumption.
Defined.

Lemma frame_on_bus_witness : exists w' f h, dev_queue_xmit ic tag jms_250 8 64 env0 0 frame w_sta = Ok w' /\
  hdrs w' !! sk_id f = Some h.
Proof.
  destruct (frame_on_bus ic tag no_robust jms_250 8 64 x_config x_vif_list x_config_ok x_config_strip x_stations_ok
    env0 0 frame w_sta 0 false w_sta _ mem0 small_sizes [] w_sta_reach frame_is_ready frame_pick x_more w_sta_ready eq_refl frame_long
    ltac:(discriminate) eq_refl) as (t & w' & f & h & E & _ & Hh & _).
  - refine (bool_decide_unpack (Forall _ _) _). vm_compute. exact I.
  - vm_compute. reflexivity.
  - exists w', f, h. split; assumption.
Defined.

Lemma admission_bypassed_witness : exists w' f, dev_queue_xmit ic tag jms_250 8 64 env0 0 frame w_sta = Ok w' /\
  step ic (OpXmit f 0) (hw w_sta) = Ok (hw w').
Proof.
  destruct (admission_bypassed ic tag no_robust jms_250 8 64 x_config x_vif_list x_config_ok x_config_strip x_stations_ok
    env0 0 frame w_sta 0 false w_sta _ mem0 small_sizes [] w_sta_reach frame_is_ready frame_pick x_more w_sta_ready eq_refl frame_long
    ltac:(discriminate) eq_refl (x_sta 0)) as (w' & f & E & Es & _); try reflexivity.
  exists w', f. split; assumption.
Defined.
End Witnesses.
