(* ===== verification/Regdb.v ===== *)
(** The regulatory database: [regdb.c].

    One definition per domain, with the rules in the order and the units of the
    code (MHz, dBi, dBm; the macro [REG_RULE_EXT] converts to kHz, mBi and mBm),
    and the table [reg_regdb] of pointers to them.  The records are the
    structures of the kernel the tables are written in; the flags of a rule are
    the list of the flags or-ed together. *)
From Stdlib Require Import ZArith.
From stdpp Require Import base list strings.
From S2P Require Import Prelude.

#[local] Open Scope Z_scope.
#[local] Open Scope string_scope.

Module Db.

Inductive nl80211_reg_rule_flags :=
  NL80211_RRF_NO_OFDM | NL80211_RRF_NO_OUTDOOR | NL80211_RRF_DFS | NL80211_RRF_NO_IR | NL80211_RRF_AUTO_BW.
Inductive nl80211_dfs_regions := NL80211_DFS_UNSET | NL80211_DFS_FCC | NL80211_DFS_ETSI | NL80211_DFS_JP.
#[export] Instance rrf_eq_dec : EqDecision nl80211_reg_rule_flags.
Proof. solve_decision. Defined.
#[export] Instance dfs_region_eq_dec : EqDecision nl80211_dfs_regions.
Proof. solve_decision. Defined.

Record ieee80211_reg_rule := mk_rule {
  start_freq_khz : Z; end_freq_khz : Z; max_bandwidth_khz : Z;
  max_antenna_gain : Z; max_eirp : Z;
  flags : list nl80211_reg_rule_flags;
  dfs_cac_ms : Z
}.
#[export] Instance reg_rule_eq_dec : EqDecision ieee80211_reg_rule.
Proof. solve_decision. Defined.

Record ieee80211_regdomain := mk_regdom {
  alpha2 : string;
  dfs_region : nl80211_dfs_regions;
  reg_rules : list ieee80211_reg_rule;
  n_reg_rules : Z
}.
#[export] Instance regdomain_eq_dec : EqDecision ieee80211_regdomain.
Proof. solve_decision. Defined.

Definition REG_RULE_EXT (start end_ bw gain eirp dfs_cac : Z) (reg_flags : list nl80211_reg_rule_flags) : ieee80211_reg_rule :=
  mk_rule (start * 1000) (end_ * 1000) (bw * 1000) (gain * 100) (eirp * 100) reg_flags dfs_cac.
Definition REG_RULE (start end_ bw gain eirp : Z) (reg_flags : list nl80211_reg_rule_flags) : ieee80211_reg_rule :=
  REG_RULE_EXT start end_ bw gain eirp 0 reg_flags.

Definition regdom_00 : ieee80211_regdomain := mk_regdom "00" NL80211_DFS_UNSET [
    REG_RULE (2390 - 10) (2510 + 10) 40 0 20 [];
    REG_RULE (5150 - 10) (5970 + 10) 80 0 20 []
  ] 2.

Definition regdom_AD : ieee80211_regdomain := mk_regdom "AD" NL80211_DFS_ETSI [
    REG_RULE_EXT 2400 2483 40 0 20 0 [];
    REG_RULE_EXT 5150 5250 80 0 23 0 [NL80211_RRF_AUTO_BW; NL80211_RRF_NO_OUTDOOR];
    REG_RULE_EXT 5250 5350 80 0 20 0 [NL80211_RRF_DFS; NL80211_RRF_AUTO_BW; NL80211_RRF_NO_OUTDOOR];
    REG_RULE_EXT 5470 5725 160 0 27 0 [NL80211_RRF_DFS];
    REG_RULE_EXT 5725 5875 80 0 14 0 [];
    REG_RULE_EXT 57000 66000 2160 0 40 0 []
  ] 6.

Definition regdom_AE : ieee80211_regdomain := mk_regdom "AE" NL80211_DFS_FCC [
    REG_RULE_EXT 2402 2482 40 0 20 0 [];
    REG_RULE_EXT 5170 5250 80 0 17 0 [NL80211_RRF_AUTO_BW];
    REG_RULE_EXT 5250 5330 80 0 24 0 [NL80211_RRF_DFS; NL80211_RRF_AUTO_BW];
    REG_RULE_EXT 5490 5730 160 0 24 0 [NL80211_RRF_DFS];
    REG_RULE_EXT 5735 5835 80 0 30 0 []
  ] 5.

Definition regdom_AF : ieee80211_regdomain := mk_regdom "AF" NL80211_DFS_ETSI [
    REG_RULE_EXT 2402 2482 40 0 20 0 [];
    REG_RULE_EXT 5170 5250 80 0 20 0 [NL80211_RRF_AUTO_BW];
    REG_RULE_EXT 5250 5330 80 0 20 0 [NL80211_RRF_DFS; NL80211_RRF_AUTO_BW];
    REG_RULE_EXT 5490 5710 160 0 27 0 [NL80211_RRF_DFS]
  ] 4.

Definition regdom_AI : ieee80211_regdomain := mk_regdom "AI" NL80211_DFS_ETSI [
    REG_RULE_EXT 2402 2482 40 0 20 0 [];
    REG_RULE_EXT 5170 5250 80 0 20 0 [NL80211_RRF_AUTO_BW];
    REG_RULE_EXT 5250 5330 80 0 20 0 [NL80211_RRF_DFS; NL80211_RRF_AUTO_BW];
    REG_RULE_EXT 5490 5710 160 0 27 0 [NL80211_RRF_DFS]
  ] 4.

Definition regdom_AL : ieee80211_regdomain := mk_regdom "AL" NL80211_DFS_ETSI [
    REG_RULE_EXT 2400 2483 40 0 20 0 [];
    REG_RULE_EXT 5150 5250 80 0 23 0 [NL80211_RRF_AUTO_BW; NL80211_RRF_NO_OUTDOOR];
    REG_RULE_EXT 5250 5350 80 0 20 0 [NL80211_RRF_DFS; NL80211_RRF_AUTO_BW; NL80211_RRF_NO_OUTDOOR];
    REG_RULE_EXT 5470 5725 160 0 27 0 [NL80211_RRF_DFS];
    REG_RULE_EXT 5725 5875 80 0 14 0 []
  ] 5.

Definition regdom_AM : ieee80211_regdomain := mk_regdom "AM" NL80211_DFS_ETSI [
    REG_RULE_EXT 2402 2482 40 0 20 0 [];
    REG_RULE_EXT 5170 5250 20 0 18 0 [];
    REG_RULE_EXT 5250 5330 20 0 18 0 [NL80211_RRF_DFS]
  ] 3.

Definition regdom_AN : ieee80211_regdomain := mk_regdom "AN" NL80211_DFS_ETSI [
    REG_RULE_EXT 2402 2482 40 0 20 0 [];
    REG_RULE_EXT 5170 5250 80 0 20 0 [NL80211_RRF_AUTO_BW];
    REG_RULE_EXT 5250 5330 80 0 20 0 [NL80211_RRF_DFS; NL80211_RRF_AUTO_BW];
    REG_RULE_EXT 5490 5710 160 0 27 0 [NL80211_RRF_DFS]
  ] 4.

Definition regdom_AR : ieee80211_regdomain := mk_regdom "AR" NL80211_DFS_FCC [
    REG_RULE_EXT 2402 2482 40 0 20 0 [];
    REG_RULE_EXT 5170 5250 80 0 17 0 [NL80211_RRF_AUTO_BW];
    REG_RULE_EXT 5250 5330 80 0 24 0 [NL80211_RRF_DFS; NL80211_RRF_AUTO_BW];
    REG_RULE_EXT 5490 5730 160 0 24 0 [NL80211_RRF_DFS];
    REG_RULE_EXT 5735 5835 80 0 30 0 []
  ] 5.

Definition regdom_AS : ieee80211_regdomain := mk_regdom "AS" NL80211_DFS_FCC [
    REG_RULE_EXT 2402 2472 40 0 30 0 [];
    REG_RULE_EXT 5170 5250 80 0 24 0 [NL80211_RRF_AUTO_BW];
    REG_RULE_EXT 5250 5330 80 0 24 0 [NL80211_RRF_DFS; NL80211_RRF_AUTO_BW];
    REG_RULE_EXT 5490 5730 160 0 24 0 [NL80211_RRF_DFS];
    REG_RULE_EXT 5735 5835 80 0 30 0 []
  ] 5.

Definition regdom_AT : ieee80211_regdomain := mk_regdom "AT" NL80211_DFS_ETSI [
    REG_RULE_EXT 2400 2483 40 0 20 0 [];
    REG_RULE_EXT 5150 5250 80 0 23 0 [NL80211_RRF_AUTO_BW; NL80211_RRF_NO_OUTDOOR];
    REG_RULE_EXT 5250 5350 80 0 20 0 [NL80211_RRF_DFS; NL80211_RRF_AUTO_BW; NL80211_RRF_NO_OUTDOOR];
    REG_RULE_EXT 5470 5725 160 0 27 0 [NL80211_RRF_DFS];
    REG_RULE_EXT 5725 5875 80 0 14 0 [];
    REG_RULE_EXT 5945 6425 160 0 23 0 [NL80211_RRF_NO_OUTDOOR];
    REG_RULE_EXT 57000 66000 2160 0 40 0 []
  ] 7.

Definition regdom_AU : ieee80211_regdomain := mk_regdom "AU" NL80211_DFS_ETSI [
    REG_RULE_EXT 2400 2483 40 0 36 0 [];
    REG_RULE_EXT 5150 5250 80 0 23 0 [NL80211_RRF_AUTO_BW; NL80211_RRF_NO_OUTDOOR];
    REG_RULE_EXT 5250 5350 80 0 20 0 [NL80211_RRF_DFS; NL80211_RRF_AUTO_BW; NL80211_RRF_NO_OUTDOOR];
    REG_RULE_EXT 5470 5600 80 0 27 0 [NL80211_RRF_DFS];
    REG_RULE_EXT 5650 5730 80 0 27 0 [NL80211_RRF_DFS];
    REG_RULE_EXT 5730 5850 80 0 36 0 [NL80211_RRF_AUTO_BW];
    REG_RULE_EXT 5850 5875 20 0 14 0 [NL80211_RRF_AUTO_BW];
    REG_RULE_EXT 5925 6425 160 0 24 0 [NL80211_RRF_NO_OUTDOOR];
    REG_RULE_EXT 57000 71000 2160 0 43 0 [NL80211_RRF_NO_OUTDOOR]
  ] 9.

Definition regdom_AW : ieee80211_regdomain := mk_regdom "AW" NL80211_DFS_ETSI [
    REG_RULE_EXT 2402 2482 40 0 20 0 [];
    REG_RULE_EXT 5170 5250 80 0 20 0 [NL80211_RRF_AUTO_BW];
    REG_RULE_EXT 5250 5330 80 0 20 0 [NL80211_RRF_DFS; NL80211_RRF_AUTO_BW];
    REG_RULE_EXT 5490 5710 160 0 27 0 [NL80211_RRF_DFS]
  ] 4.

Definition regdom_AZ : ieee80211_regdomain := mk_regdom "AZ" NL80211_DFS_ETSI [
    REG_RULE_EXT 2402 2482 40 0 20 0 [];
    REG_RULE_EXT 5170 5250 80 0 18 0 [NL80211_RRF_AUTO_BW];
    REG_RULE_EXT 5250 5330 80 0 18 0 [NL80211_RRF_DFS; NL80211_RRF_AUTO_BW]
  ] 3.

Definition regdom_BA : ieee80211_regdomain := mk_regdom "BA" NL80211_DFS_ETSI [
    REG_RULE_EXT 2400 2483 40 0 20 0 [];
    REG_RULE_EXT 5150 5250 80 0 23 0 [NL80211_RRF_AUTO_BW; NL80211_RRF_NO_OUTDOOR];
    REG_RULE_EXT 5250 5350 80 0 20 0 [NL80211_RRF_NO_OUTDOOR; NL80211_RRF_DFS; NL80211_RRF_AUTO_BW];
    REG_RULE_EXT 5470 5725 160 0 27 0 [NL80211_RRF_DFS];
    REG_RULE_EXT 5725 5875 80 0 14 0 [];
    REG_RULE_EXT 57000 66000 2160 0 40 0 []
  ] 6.

Definition regdom_BB : ieee80211_regdomain := mk_regdom "BB" NL80211_DFS_FCC [
    REG_RULE_EXT 2402 2482 40 0 20 0 [];
    REG_RULE_EXT 5170 5250 80 0 23 0 [NL80211_RRF_AUTO_BW];
    REG_RULE_EXT 5250 5330 80 0 23 0 [NL80211_RRF_DFS; NL80211_RRF_AUTO_BW];
    REG_RULE_EXT 5735 5835 80 0 30 0 []
  ] 4.

Definition regdom_BD : ieee80211_regdomain := mk_regdom "BD" NL80211_DFS_ETSI [
    REG_RULE_EXT 2400 2483 40 0 20 0 [];
    REG_RULE_EXT 5150 5250 80 0 23 0 [NL80211_RRF_NO_OUTDOOR; NL80211_RRF_AUTO_BW];
    REG_RULE_EXT 5250 5350 80 0 20 0 [NL80211_RRF_NO_OUTDOOR; NL80211_RRF_DFS; NL80211_RRF_AUTO_BW];
    REG_RULE_EXT 5470 5725 160 0 27 0 [NL80211_RRF_DFS];
    REG_RULE_EXT 5725 5875 80 0 14 0 [];
    REG_RULE_EXT 5945 6425 160 0 23 0 [NL80211_RRF_NO_OUTDOOR];
    REG_RULE_EXT 57000 66000 2160 0 40 0 []
  ] 7.

Definition regdom_BE : ieee80211_regdomain := mk_regdom "BE" NL80211_DFS_ETSI [
    REG_RULE_EXT 2400 2483 40 0 20 0 [];
    REG_RULE_EXT 5150 5250 80 0 23 0 [NL80211_RRF_AUTO_BW; NL80211_RRF_NO_OUTDOOR];
    REG_RULE_EXT 5250 5350 80 0 20 0 [NL80211_RRF_NO_OUTDOOR; NL80211_RRF_DFS; NL80211_RRF_AUTO_BW];
    REG_RULE_EXT 5470 5725 160 0 27 0 [NL80211_RRF_DFS];
    REG_RULE_EXT 5725 5875 80 0 14 0 [];
    REG_RULE_EXT 5945 6425 160 0 23 0 [NL80211_RRF_NO_OUTDOOR];
    REG_RULE_EXT 57000 66000 2160 0 40 0 []
  ] 7.

Definition regdom_BF : ieee80211_regdomain := mk_regdom "BF" NL80211_DFS_FCC [
    REG_RULE_EXT 2402 2482 40 0 20 0 [];
    REG_RULE_EXT 5170 5250 80 0 17 0 [NL80211_RRF_AUTO_BW];
    REG_RULE_EXT 5250 5330 80 0 24 0 [NL80211_RRF_DFS; NL80211_RRF_AUTO_BW];
    REG_RULE_EXT 5490 5730 160 0 24 0 [NL80211_RRF_DFS];
    REG_RULE_EXT 5735 5835 80 0 30 0 []
  ] 5.

Definition regdom_BG : ieee80211_regdomain := mk_regdom "BG" NL80211_DFS_ETSI [
    REG_RULE_EXT 2400 2483 40 0 20 0 [];
    REG_RULE_EXT 5150 5250 80 0 23 0 [NL80211_RRF_AUTO_BW; NL80211_RRF_NO_OUTDOOR];
    REG_RULE_EXT 5250 5350 80 0 20 0 [NL80211_RRF_NO_OUTDOOR; NL80211_RRF_DFS; NL80211_RRF_AUTO_BW];
    REG_RULE_EXT 5470 5725 160 0 27 0 [NL80211_RRF_DFS];
    REG_RULE_EXT 5725 5875 80 0 14 0 [];
    REG_RULE_EXT 5945 6425 160 0 23 0 [NL80211_RRF_NO_OUTDOOR];
    REG_RULE_EXT 57000 66000 2160 0 40 0 []
  ] 7.

Definition regdom_BH : ieee80211_regdomain := mk_regdom "BH" NL80211_DFS_JP [
    REG_RULE_EXT 2402 2482 40 0 20 0 [];
    REG_RULE_EXT 5170 5250 20 0 20 0 [];
    REG_RULE_EXT 5250 5330 20 0 20 0 [NL80211_RRF_DFS];
    REG_RULE_EXT 5735 5835 20 0 20 0 []
  ] 4.

Definition regdom_BL : ieee80211_regdomain := mk_regdom "BL" NL80211_DFS_ETSI [
    REG_RULE_EXT 2402 2482 40 0 20 0 [];
    REG_RULE_EXT 5170 5250 80 0 20 0 [NL80211_RRF_AUTO_BW];
    REG_RULE_EXT 5250 5330 80 0 20 0 [NL80211_RRF_DFS; NL80211_RRF_AUTO_BW];
    REG_RULE_EXT 5490 5710 160 0 27 0 [NL80211_RRF_DFS]
  ] 4.

Definition regdom_BM : ieee80211_regdomain := mk_regdom "BM" NL80211_DFS_FCC [
    REG_RULE_EXT 2402 2472 40 0 30 0 [];
    REG_RULE_EXT 5170 5250 80 0 24 0 [NL80211_RRF_AUTO_BW];
    REG_RULE_EXT 5250 5330 80 0 24 0 [NL80211_RRF_DFS; NL80211_RRF_AUTO_BW];
    REG_RULE_EXT 5490 5730 160 0 24 0 [NL80211_RRF_DFS];
    REG_RULE_EXT 5735 5835 80 0 30 0 []
  ] 5.

Definition regdom_BN : ieee80211_regdomain := mk_regdom "BN" NL80211_DFS_JP [
    REG_RULE_EXT 2402 2482 40 0 20 0 [];
    REG_RULE_EXT 5170 5250 80 0 20 0 [NL80211_RRF_AUTO_BW];
    REG_RULE_EXT 5250 5330 80 0 20 0 [NL80211_RRF_DFS; NL80211_RRF_AUTO_BW];
    REG_RULE_EXT 5735 5835 80 0 20 0 []
  ] 4.

Definition regdom_BO : ieee80211_regdomain := mk_regdom "BO" NL80211_DFS_JP [
    REG_RULE_EXT 2402 2482 40 0 20 0 [];
    REG_RULE_EXT 5250 5330 80 0 30 0 [NL80211_RRF_DFS];
    REG_RULE_EXT 5735 5835 80 0 30 0 []
  ] 3.

Definition regdom_BR : ieee80211_regdomain := mk_regdom "BR" NL80211_DFS_FCC [
    REG_RULE_EXT 2400 2483 40 0 30 0 [];
    REG_RULE_EXT 5150 5250 80 0 27 0 [NL80211_RRF_AUTO_BW; NL80211_RRF_NO_OUTDOOR];
    REG_RULE_EXT 5250 5350 80 0 27 0 [NL80211_RRF_DFS; NL80211_RRF_AUTO_BW; NL80211_RRF_NO_OUTDOOR];
    REG_RULE_EXT 5470 5725 160 0 27 0 [NL80211_RRF_DFS; NL80211_RRF_AUTO_BW];
    REG_RULE_EXT 5725 5850 80 0 30 0 [NL80211_RRF_AUTO_BW];
    REG_RULE_EXT 5925 7125 320 0 12 0 [NL80211_RRF_NO_OUTDOOR; NL80211_RRF_NO_IR];
    REG_RULE_EXT 57000 71000 2160 0 40 0 []
  ] 7.

Definition regdom_BS : ieee80211_regdomain := mk_regdom "BS" NL80211_DFS_FCC [
    REG_RULE_EXT 2402 2482 40 0 20 0 [];
    REG_RULE_EXT 5170 5250 80 0 24 0 [NL80211_RRF_AUTO_BW];
    REG_RULE_EXT 5250 5330 80 0 24 0 [NL80211_RRF_DFS; NL80211_RRF_AUTO_BW];
    REG_RULE_EXT 5490 5730 160 0 24 0 [NL80211_RRF_DFS];
    REG_RULE_EXT 5735 5835 80 0 30 0 []
  ] 5.

Definition regdom_BT : ieee80211_regdomain := mk_regdom "BT" NL80211_DFS_ETSI [
    REG_RULE_EXT 2402 2482 40 0 20 0 [];
    REG_RULE_EXT 5170 5250 80 0 20 0 [NL80211_RRF_AUTO_BW];
    REG_RULE_EXT 5250 5330 80 0 20 0 [NL80211_RRF_DFS; NL80211_RRF_AUTO_BW];
    REG_RULE_EXT 5490 5710 160 0 27 0 [NL80211_RRF_DFS]
  ] 4.

Definition regdom_BW : ieee80211_regdomain := mk_regdom "BW" NL80211_DFS_ETSI [
    REG_RULE_EXT 2400 2483 40 0 20 0 [];
    REG_RULE_EXT 5150 5250 80 0 23 0 [NL80211_RRF_NO_OUTDOOR; NL80211_RRF_AUTO_BW];
    REG_RULE_EXT 5250 5350 80 0 20 0 [NL80211_RRF_NO_OUTDOOR; NL80211_RRF_DFS; NL80211_RRF_AUTO_BW];
    REG_RULE_EXT 5470 5725 160 0 27 0 [NL80211_RRF_DFS];
    REG_RULE_EXT 5725 5875 80 0 14 0 [];
    REG_RULE_EXT 5945 6425 160 0 23 0 [NL80211_RRF_NO_OUTDOOR];
    REG_RULE_EXT 57000 66000 2160 0 40 0 []
  ] 7.

Definition regdom_BY : ieee80211_regdomain := mk_regdom "BY" NL80211_DFS_ETSI [
    REG_RULE_EXT 2402 2482 40 0 20 0 [];
    REG_RULE_EXT 5170 5250 80 0 20 0 [NL80211_RRF_AUTO_BW];
    REG_RULE_EXT 5250 5330 80 0 20 0 [NL80211_RRF_DFS; NL80211_RRF_AUTO_BW];
    REG_RULE_EXT 5490 5710 160 0 27 0 [NL80211_RRF_DFS]
  ] 4.

Definition regdom_BZ : ieee80211_regdomain := mk_regdom "BZ" NL80211_DFS_JP [
    REG_RULE_EXT 2402 2482 40 0 30 0 [];
    REG_RULE_EXT 5735 5835 80 0 30 0 []
  ] 2.

Definition regdom_CA : ieee80211_regdomain := mk_regdom "CA" NL80211_DFS_FCC [
    REG_RULE_EXT 2402 2472 40 0 30 0 [];
    REG_RULE_EXT 5150 5250 80 0 23 0 [NL80211_RRF_AUTO_BW; NL80211_RRF_NO_OUTDOOR];
    REG_RULE_EXT 5250 5350 80 0 24 0 [NL80211_RRF_DFS; NL80211_RRF_AUTO_BW];
    REG_RULE_EXT 5470 5600 80 0 24 0 [NL80211_RRF_DFS];
    REG_RULE_EXT 5650 5730 80 0 24 0 [NL80211_RRF_DFS];
    REG_RULE_EXT 5735 5835 80 0 30 0 [];
    REG_RULE_EXT 5925 7125 320 0 12 0 [NL80211_RRF_NO_OUTDOOR]
  ] 7.

Definition regdom_CF : ieee80211_regdomain := mk_regdom "CF" NL80211_DFS_FCC [
    REG_RULE_EXT 2402 2482 40 0 20 0 [];
    REG_RULE_EXT 5170 5250 40 0 17 0 [];
    REG_RULE_EXT 5250 5330 40 0 24 0 [NL80211_RRF_DFS];
    REG_RULE_EXT 5490 5730 40 0 24 0 [NL80211_RRF_DFS];
    REG_RULE_EXT 5735 5835 40 0 30 0 []
  ] 5.

Definition regdom_CH : ieee80211_regdomain := mk_regdom "CH" NL80211_DFS_ETSI [
    REG_RULE_EXT 2400 2483 40 0 20 0 [];
    REG_RULE_EXT 5150 5250 80 0 23 0 [NL80211_RRF_AUTO_BW; NL80211_RRF_NO_OUTDOOR];
    REG_RULE_EXT 5250 5350 80 0 20 0 [NL80211_RRF_NO_OUTDOOR; NL80211_RRF_DFS; NL80211_RRF_AUTO_BW];
    REG_RULE_EXT 5470 5725 160 0 27 0 [NL80211_RRF_DFS];
    REG_RULE_EXT 5725 5875 80 0 14 0 [];
    REG_RULE_EXT 5945 6425 160 0 23 0 [NL80211_RRF_NO_OUTDOOR];
    REG_RULE_EXT 57000 71000 2160 0 40 0 []
  ] 7.

Definition regdom_CI : ieee80211_regdomain := mk_regdom "CI" NL80211_DFS_FCC [
    REG_RULE_EXT 2402 2482 40 0 20 0 [];
    REG_RULE_EXT 5170 5250 80 0 17 0 [NL80211_RRF_AUTO_BW];
    REG_RULE_EXT 5250 5330 80 0 24 0 [NL80211_RRF_DFS; NL80211_RRF_AUTO_BW];
    REG_RULE_EXT 5490 5730 160 0 24 0 [NL80211_RRF_DFS];
    REG_RULE_EXT 5735 5835 80 0 30 0 []
  ] 5.

Definition regdom_CL : ieee80211_regdomain := mk_regdom "CL" NL80211_DFS_JP [
    REG_RULE_EXT 2402 2482 40 0 20 0 [];
    REG_RULE_EXT 5170 5250 80 0 20 0 [NL80211_RRF_AUTO_BW];
    REG_RULE_EXT 5250 5330 80 0 20 0 [NL80211_RRF_DFS; NL80211_RRF_AUTO_BW];
    REG_RULE_EXT 5735 5835 80 0 20 0 []
  ] 4.

Definition regdom_CN : ieee80211_regdomain := mk_regdom "CN" NL80211_DFS_FCC [
    REG_RULE_EXT 2400 2483 40 0 20 0 [];
    REG_RULE_EXT 5150 5350 80 0 20 0 [NL80211_RRF_DFS; NL80211_RRF_AUTO_BW; NL80211_RRF_NO_OUTDOOR];
    REG_RULE_EXT 5725 5850 80 0 33 0 [];
    REG_RULE_EXT 57240 59400 2160 0 28 0 [];
    REG_RULE_EXT 59400 63720 2160 0 44 0 [];
    REG_RULE_EXT 63720 65880 2160 0 28 0 []
  ] 6.

Definition regdom_CO : ieee80211_regdomain := mk_regdom "CO" NL80211_DFS_FCC [
    REG_RULE_EXT 2402 2482 40 0 20 0 [];
    REG_RULE_EXT 5170 5250 80 0 17 0 [NL80211_RRF_AUTO_BW];
    REG_RULE_EXT 5250 5330 80 0 24 0 [NL80211_RRF_DFS; NL80211_RRF_AUTO_BW];
    REG_RULE_EXT 5490 5730 160 0 24 0 [NL80211_RRF_DFS];
    REG_RULE_EXT 5735 5835 80 0 30 0 []
  ] 5.

Definition regdom_CR : ieee80211_regdomain := mk_regdom "CR" NL80211_DFS_FCC [
    REG_RULE_EXT 2402 2482 40 0 20 0 [];
    REG_RULE_EXT 5170 5250 20 0 17 0 [];
    REG_RULE_EXT 5250 5330 20 0 24 0 [NL80211_RRF_DFS];
    REG_RULE_EXT 5490 5730 20 0 24 0 [NL80211_RRF_DFS];
    REG_RULE_EXT 5735 5835 20 0 30 0 []
  ] 5.

Definition regdom_CU : ieee80211_regdomain := mk_regdom "CU" NL80211_DFS_FCC [
    REG_RULE_EXT 2400 2483 40 0 23 0 [];
    REG_RULE_EXT 5150 5350 80 0 23 0 [NL80211_RRF_NO_IR; NL80211_RRF_NO_OUTDOOR];
    REG_RULE_EXT 5470 5725 80 0 24 0 [NL80211_RRF_NO_IR];
    REG_RULE_EXT 5725 5850 80 0 23 0 []
  ] 4.

Definition regdom_CX : ieee80211_regdomain := mk_regdom "CX" NL80211_DFS_FCC [
    REG_RULE_EXT 2402 2482 40 0 20 0 [];
    REG_RULE_EXT 5170 5250 80 0 24 0 [NL80211_RRF_AUTO_BW];
    REG_RULE_EXT 5250 5330 80 0 24 0 [NL80211_RRF_DFS; NL80211_RRF_AUTO_BW];
    REG_RULE_EXT 5490 5730 160 0 24 0 [NL80211_RRF_DFS];
    REG_RULE_EXT 5735 5835 80 0 30 0 []
  ] 5.

Definition regdom_CY : ieee80211_regdomain := mk_regdom "CY" NL80211_DFS_ETSI [
    REG_RULE_EXT 2400 2483 40 0 20 0 [];
    REG_RULE_EXT 5150 5250 80 0 23 0 [NL80211_RRF_AUTO_BW; NL80211_RRF_NO_OUTDOOR];
    REG_RULE_EXT 5250 5350 80 0 20 0 [NL80211_RRF_NO_OUTDOOR; NL80211_RRF_DFS; NL80211_RRF_AUTO_BW];
    REG_RULE_EXT 5470 5725 160 0 27 0 [NL80211_RRF_DFS];
    REG_RULE_EXT 5725 5875 80 0 14 0 [];
    REG_RULE_EXT 5945 6425 160 0 23 0 [NL80211_RRF_NO_OUTDOOR];
    REG_RULE_EXT 57000 66000 2160 0 40 0 []
  ] 7.

Definition regdom_CZ : ieee80211_regdomain := mk_regdom "CZ" NL80211_DFS_ETSI [
    REG_RULE_EXT 2400 2483 40 0 20 0 [];
    REG_RULE_EXT 5150 5250 80 0 23 0 [NL80211_RRF_NO_OUTDOOR; NL80211_RRF_AUTO_BW];
    REG_RULE_EXT 5250 5350 80 0 20 0 [NL80211_RRF_NO_OUTDOOR; NL80211_RRF_DFS; NL80211_RRF_AUTO_BW];
    REG_RULE_EXT 5470 5725 160 0 27 0 [NL80211_RRF_DFS];
    REG_RULE_EXT 5725 5875 80 0 14 0 [];
    REG_RULE_EXT 5945 6425 160 0 23 0 [NL80211_RRF_NO_OUTDOOR];
    REG_RULE_EXT 57000 66000 2160 0 40 0 []
  ] 7.

Definition regdom_DE : ieee80211_regdomain := mk_regdom "DE" NL80211_DFS_ETSI [
    REG_RULE_EXT 2400 2483 40 0 20 0 [];
    REG_RULE_EXT 5150 5250 80 0 23 0 [NL80211_RRF_NO_OUTDOOR; NL80211_RRF_AUTO_BW];
    REG_RULE_EXT 5250 5350 80 0 20 0 [NL80211_RRF_NO_OUTDOOR; NL80211_RRF_DFS; NL80211_RRF_AUTO_BW];
    REG_RULE_EXT 5470 5725 160 0 27 0 [NL80211_RRF_DFS];
    REG_RULE_EXT 5725 5875 80 0 14 0 [];
    REG_RULE_EXT 5945 6425 160 0 23 0 [NL80211_RRF_NO_OUTDOOR];
    REG_RULE_EXT 57000 66000 2160 0 40 0 []
  ] 7.

Definition regdom_DK : ieee80211_regdomain := mk_regdom "DK" NL80211_DFS_ETSI [
    REG_RULE_EXT 2400 2483 40 0 20 0 [];
    REG_RULE_EXT 5150 5250 80 0 23 0 [NL80211_RRF_AUTO_BW; NL80211_RRF_NO_OUTDOOR];
    REG_RULE_EXT 5250 5350 80 0 20 0 [NL80211_RRF_NO_OUTDOOR; NL80211_RRF_DFS; NL80211_RRF_AUTO_BW];
    REG_RULE_EXT 5470 5725 160 0 27 0 [NL80211_RRF_DFS];
    REG_RULE_EXT 5725 5875 80 0 14 0 [];
    REG_RULE_EXT 5945 6425 160 0 23 0 [NL80211_RRF_NO_OUTDOOR];
    REG_RULE_EXT 57000 66000 2160 0 40 0 []
  ] 7.

Definition regdom_DM : ieee80211_regdomain := mk_regdom "DM" NL80211_DFS_FCC [
    REG_RULE_EXT 2402 2472 40 0 30 0 [];
    REG_RULE_EXT 5170 5250 80 0 17 0 [NL80211_RRF_AUTO_BW];
    REG_RULE_EXT 5250 5330 80 0 23 0 [NL80211_RRF_DFS; NL80211_RRF_AUTO_BW];
    REG_RULE_EXT 5735 5835 80 0 30 0 []
  ] 4.

Definition regdom_DO : ieee80211_regdomain := mk_regdom "DO" NL80211_DFS_FCC [
    REG_RULE_EXT 2402 2472 40 0 30 0 [];
    REG_RULE_EXT 5170 5250 80 0 17 0 [NL80211_RRF_AUTO_BW];
    REG_RULE_EXT 5250 5330 80 0 23 0 [NL80211_RRF_DFS; NL80211_RRF_AUTO_BW];
    REG_RULE_EXT 5735 5835 80 0 30 0 []
  ] 4.

Definition regdom_DZ : ieee80211_regdomain := mk_regdom "DZ" NL80211_DFS_ETSI [
    REG_RULE_EXT 2400 2483 40 0 20 0 [];
    REG_RULE_EXT 5150 5250 80 0 23 0 [NL80211_RRF_NO_OUTDOOR; NL80211_RRF_AUTO_BW];
    REG_RULE_EXT 5250 5350 80 0 20 0 [NL80211_RRF_NO_OUTDOOR; NL80211_RRF_DFS; NL80211_RRF_AUTO_BW];
    REG_RULE_EXT 5470 5725 160 0 27 0 [NL80211_RRF_DFS];
    REG_RULE_EXT 5725 5875 80 0 14 0 [];
    REG_RULE_EXT 5945 6425 160 0 23 0 [NL80211_RRF_NO_OUTDOOR];
    REG_RULE_EXT 57000 66000 2160 0 40 0 []
  ] 7.

Definition regdom_EC : ieee80211_regdomain := mk_regdom "EC" NL80211_DFS_FCC [
    REG_RULE_EXT 2400 2483 40 0 30 0 [];
    REG_RULE_EXT 5150 5250 80 0 17 0 [NL80211_RRF_AUTO_BW; NL80211_RRF_DFS];
    REG_RULE_EXT 5250 5350 80 0 21 0 [NL80211_RRF_DFS; NL80211_RRF_AUTO_BW];
    REG_RULE_EXT 5470 5725 160 0 21 0 [NL80211_RRF_DFS];
    REG_RULE_EXT 5725 5850 80 0 30 0 []
  ] 5.

Definition regdom_EE : ieee80211_regdomain := mk_regdom "EE" NL80211_DFS_ETSI [
    REG_RULE_EXT 2400 2483 40 0 20 0 [];
    REG_RULE_EXT 5150 5250 80 0 23 0 [NL80211_RRF_NO_OUTDOOR; NL80211_RRF_AUTO_BW];
    REG_RULE_EXT 5250 5350 80 0 20 0 [NL80211_RRF_NO_OUTDOOR; NL80211_RRF_DFS; NL80211_RRF_AUTO_BW];
    REG_RULE_EXT 5470 5725 160 0 27 0 [NL80211_RRF_DFS];
    REG_RULE_EXT 5725 5875 80 0 14 0 [];
    REG_RULE_EXT 5945 6425 160 0 23 0 [NL80211_RRF_NO_OUTDOOR];
    REG_RULE_EXT 57000 66000 2160 0 40 0 []
  ] 7.

Definition regdom_EG : ieee80211_regdomain := mk_regdom "EG" NL80211_DFS_ETSI [
    REG_RULE_EXT 2402 2483 40 0 20 0 [];
    REG_RULE_EXT 5150 5250 80 0 23 0 [NL80211_RRF_AUTO_BW];
    REG_RULE_EXT 5250 5350 80 0 20 0 [NL80211_RRF_DFS; NL80211_RRF_AUTO_BW];
    REG_RULE_EXT 57000 66000 2160 0 40 0 []
  ] 4.

Definition regdom_ES : ieee80211_regdomain := mk_regdom "ES" NL80211_DFS_ETSI [
    REG_RULE_EXT 2400 2483 40 0 20 0 [];
    REG_RULE_EXT 5150 5250 80 0 23 0 [NL80211_RRF_NO_OUTDOOR; NL80211_RRF_AUTO_BW];
    REG_RULE_EXT 5250 5350 80 0 20 0 [NL80211_RRF_NO_OUTDOOR; NL80211_RRF_DFS; NL80211_RRF_AUTO_BW];
    REG_RULE_EXT 5470 5725 160 0 27 0 [NL80211_RRF_DFS];
    REG_RULE_EXT 5725 5875 80 0 14 0 [];
    REG_RULE_EXT 5945 6425 160 0 23 0 [NL80211_RRF_NO_OUTDOOR];
    REG_RULE_EXT 57000 66000 2160 0 40 0 []
  ] 7.

Definition regdom_ET : ieee80211_regdomain := mk_regdom "ET" NL80211_DFS_ETSI [
    REG_RULE_EXT 2402 2482 40 0 20 0 [];
    REG_RULE_EXT 5170 5250 80 0 20 0 [NL80211_RRF_AUTO_BW];
    REG_RULE_EXT 5250 5330 80 0 20 0 [NL80211_RRF_DFS; NL80211_RRF_AUTO_BW];
    REG_RULE_EXT 5490 5710 160 0 27 0 [NL80211_RRF_DFS]
  ] 4.

Definition regdom_FI : ieee80211_regdomain := mk_regdom "FI" NL80211_DFS_ETSI [
    REG_RULE_EXT 2400 2483 40 0 20 0 [];
    REG_RULE_EXT 5150 5250 80 0 23 0 [NL80211_RRF_AUTO_BW; NL80211_RRF_NO_OUTDOOR];
    REG_RULE_EXT 5250 5350 80 0 20 0 [NL80211_RRF_NO_OUTDOOR; NL80211_RRF_DFS; NL80211_RRF_AUTO_BW];
    REG_RULE_EXT 5470 5725 160 0 27 0 [NL80211_RRF_DFS];
    REG_RULE_EXT 5725 5875 80 0 14 0 [];
    REG_RULE_EXT 5945 6425 160 0 23 0 [NL80211_RRF_NO_OUTDOOR];
    REG_RULE_EXT 57000 66000 2160 0 40 0 []
  ] 7.

Definition regdom_FM : ieee80211_regdomain := mk_regdom "FM" NL80211_DFS_FCC [
    REG_RULE_EXT 2402 2472 40 0 30 0 [];
    REG_RULE_EXT 5170 5250 80 0 24 0 [NL80211_RRF_AUTO_BW];
    REG_RULE_EXT 5250 5330 80 0 24 0 [NL80211_RRF_DFS; NL80211_RRF_AUTO_BW];
    REG_RULE_EXT 5490 5730 160 0 24 0 [NL80211_RRF_DFS];
    REG_RULE_EXT 5735 5835 80 0 30 0 []
  ] 5.

Definition regdom_FR : ieee80211_regdomain := mk_regdom "FR" NL80211_DFS_ETSI [
    REG_RULE_EXT 2400 2483 40 0 20 0 [];
    REG_RULE_EXT 5150 5250 80 0 23 0 [NL80211_RRF_NO_OUTDOOR; NL80211_RRF_AUTO_BW];
    REG_RULE_EXT 5250 5350 80 0 20 0 [NL80211_RRF_NO_OUTDOOR; NL80211_RRF_DFS; NL80211_RRF_AUTO_BW];
    REG_RULE_EXT 5470 5725 160 0 27 0 [NL80211_RRF_DFS];
    REG_RULE_EXT 5725 5875 80 0 14 0 [];
    REG_RULE_EXT 5945 6425 160 0 23 0 [NL80211_RRF_NO_OUTDOOR];
    REG_RULE_EXT 57000 66000 2160 0 40 0 []
  ] 7.

Definition regdom_GB : ieee80211_regdomain := mk_regdom "GB" NL80211_DFS_ETSI [
    REG_RULE_EXT 2400 2483 40 0 20 0 [];
    REG_RULE_EXT 5150 5250 80 0 23 0 [NL80211_RRF_NO_OUTDOOR; NL80211_RRF_AUTO_BW];
    REG_RULE_EXT 5250 5350 80 0 20 0 [NL80211_RRF_NO_OUTDOOR; NL80211_RRF_DFS; NL80211_RRF_AUTO_BW];
    REG_RULE_EXT 5470 5730 160 0 27 0 [NL80211_RRF_DFS];
    REG_RULE_EXT 5725 5850 80 0 23 0 [NL80211_RRF_NO_OUTDOOR];
    REG_RULE_EXT 5925 6425 160 0 24 0 [NL80211_RRF_NO_OUTDOOR];
    REG_RULE_EXT 57000 71000 2160 0 40 0 []
  ] 7.

Definition regdom_GD : ieee80211_regdomain := mk_regdom "GD" NL80211_DFS_FCC [
    REG_RULE_EXT 2402 2472 40 0 30 0 [];
    REG_RULE_EXT 5170 5250 80 0 17 0 [NL80211_RRF_AUTO_BW];
    REG_RULE_EXT 5250 5330 80 0 24 0 [NL80211_RRF_DFS; NL80211_RRF_AUTO_BW];
    REG_RULE_EXT 5490 5730 160 0 24 0 [NL80211_RRF_DFS];
    REG_RULE_EXT 5735 5835 80 0 30 0 []
  ] 5.

Definition regdom_GE : ieee80211_regdomain := mk_regdom "GE" NL80211_DFS_ETSI [
    REG_RULE_EXT 2402 2482 40 0 20 0 [];
    REG_RULE_EXT 5170 5250 80 0 18 0 [NL80211_RRF_AUTO_BW];
    REG_RULE_EXT 5250 5330 80 0 18 0 [NL80211_RRF_DFS; NL80211_RRF_AUTO_BW];
    REG_RULE_EXT 57000 66000 2160 0 40 0 []
  ] 4.

Definition regdom_GF : ieee80211_regdomain := mk_regdom "GF" NL80211_DFS_ETSI [
    REG_RULE_EXT 2402 2482 40 0 20 0 [];
    REG_RULE_EXT 5170 5250 80 0 20 0 [NL80211_RRF_AUTO_BW];
    REG_RULE_EXT 5250 5330 80 0 20 0 [NL80211_RRF_DFS; NL80211_RRF_AUTO_BW];
    REG_RULE_EXT 5490 5710 160 0 27 0 [NL80211_RRF_DFS]
  ] 4.

Definition regdom_GH : ieee80211_regdomain := mk_regdom "GH" NL80211_DFS_ETSI [
    REG_RULE_EXT 2400 2483 40 0 20 0 [];
    REG_RULE_EXT 5150 5250 80 0 23 0 [NL80211_RRF_NO_OUTDOOR; NL80211_RRF_AUTO_BW];
    REG_RULE_EXT 5250 5350 80 0 20 0 [NL80211_RRF_NO_OUTDOOR; NL80211_RRF_DFS; NL80211_RRF_AUTO_BW];
    REG_RULE_EXT 5470 5725 160 0 27 0 [NL80211_RRF_DFS];
    REG_RULE_EXT 5725 5875 80 0 14 0 [];
    REG_RULE_EXT 5945 6425 160 0 23 0 [NL80211_RRF_NO_OUTDOOR];
    REG_RULE_EXT 57000 66000 2160 0 40 0 []
  ] 7.

Definition regdom_GI : ieee80211_regdomain := mk_regdom "GI" NL80211_DFS_ETSI [
    REG_RULE_EXT 2400 2483 40 0 20 0 [];
    REG_RULE_EXT 5150 5250 80 0 23 0 [NL80211_RRF_NO_OUTDOOR; NL80211_RRF_AUTO_BW];
    REG_RULE_EXT 5250 5350 80 0 20 0 [NL80211_RRF_NO_OUTDOOR; NL80211_RRF_DFS; NL80211_RRF_AUTO_BW];
    REG_RULE_EXT 5470 5725 160 0 27 0 [NL80211_RRF_DFS];
    REG_RULE_EXT 5725 5875 80 0 14 0 [];
    REG_RULE_EXT 5945 6425 160 0 23 0 [NL80211_RRF_NO_OUTDOOR];
    REG_RULE_EXT 57000 66000 2160 0 40 0 []
  ] 7.

Definition regdom_GL : ieee80211_regdomain := mk_regdom "GL" NL80211_DFS_ETSI [
    REG_RULE_EXT 2402 2482 40 0 20 0 [];
    REG_RULE_EXT 5170 5250 80 0 20 0 [NL80211_RRF_AUTO_BW];
    REG_RULE_EXT 5250 5330 80 0 20 0 [NL80211_RRF_DFS; NL80211_RRF_AUTO_BW];
    REG_RULE_EXT 5490 5710 160 0 27 0 [NL80211_RRF_DFS]
  ] 4.

Definition regdom_GP : ieee80211_regdomain := mk_regdom "GP" NL80211_DFS_ETSI [
    REG_RULE_EXT 2402 2482 40 0 20 0 [];
    REG_RULE_EXT 5170 5250 80 0 20 0 [NL80211_RRF_AUTO_BW];
    REG_RULE_EXT 5250 5330 80 0 20 0 [NL80211_RRF_DFS; NL80211_RRF_AUTO_BW];
    REG_RULE_EXT 5490 5710 160 0 27 0 [NL80211_RRF_DFS]
  ] 4.

Definition regdom_GR : ieee80211_regdomain := mk_regdom "GR" NL80211_DFS_ETSI [
    REG_RULE_EXT 2400 2483 40 0 20 0 [];
    REG_RULE_EXT 5150 5250 80 0 23 0 [NL80211_RRF_NO_OUTDOOR; NL80211_RRF_AUTO_BW];
    REG_RULE_EXT 5250 5350 80 0 20 0 [NL80211_RRF_NO_OUTDOOR; NL80211_RRF_DFS; NL80211_RRF_AUTO_BW];
    REG_RULE_EXT 5470 5725 160 0 27 0 [NL80211_RRF_DFS];
    REG_RULE_EXT 5725 5875 80 0 14 0 [];
    REG_RULE_EXT 5945 6425 160 0 23 0 [NL80211_RRF_NO_OUTDOOR];
    REG_RULE_EXT 57000 66000 2160 0 40 0 []
  ] 7.

Definition regdom_GT : ieee80211_regdomain := mk_regdom "GT" NL80211_DFS_FCC [
    REG_RULE_EXT 2402 2472 40 0 30 0 [];
    REG_RULE_EXT 5170 5250 80 0 17 0 [NL80211_RRF_AUTO_BW];
    REG_RULE_EXT 5250 5330 80 0 23 0 [NL80211_RRF_DFS; NL80211_RRF_AUTO_BW];
    REG_RULE_EXT 5735 5835 80 0 30 0 []
  ] 4.

Definition regdom_GU : ieee80211_regdomain := mk_regdom "GU" NL80211_DFS_FCC [
    REG_RULE_EXT 2402 2472 40 0 30 0 [];
    REG_RULE_EXT 5170 5250 20 0 17 0 [];
    REG_RULE_EXT 5250 5330 20 0 24 0 [NL80211_RRF_DFS];
    REG_RULE_EXT 5490 5730 20 0 24 0 [NL80211_RRF_DFS];
    REG_RULE_EXT 5735 5835 20 0 30 0 []
  ] 5.

Definition regdom_GY : ieee80211_regdomain := mk_regdom "GY" NL80211_DFS_UNSET [
    REG_RULE_EXT 2402 2482 40 0 30 0 [];
    REG_RULE_EXT 5170 5250 80 0 23 0 [NL80211_RRF_AUTO_BW];
    REG_RULE_EXT 5250 5330 80 0 23 0 [NL80211_RRF_DFS; NL80211_RRF_AUTO_BW];
    REG_RULE_EXT 5490 5730 160 0 23 0 [NL80211_RRF_DFS];
    REG_RULE_EXT 5735 5835 80 0 30 0 []
  ] 5.

Definition regdom_HK : ieee80211_regdomain := mk_regdom "HK" NL80211_DFS_ETSI [
    REG_RULE_EXT 2400 2483 40 0 36 0 [];
    REG_RULE_EXT 5150 5250 80 0 23 0 [NL80211_RRF_AUTO_BW; NL80211_RRF_NO_OUTDOOR];
    REG_RULE_EXT 5250 5350 80 0 23 0 [NL80211_RRF_DFS; NL80211_RRF_AUTO_BW; NL80211_RRF_NO_OUTDOOR];
    REG_RULE_EXT 5470 5730 160 0 27 0 [NL80211_RRF_DFS];
    REG_RULE_EXT 5730 5850 80 0 36 0 [];
    REG_RULE_EXT 5925 6425 160 0 14 0 []
  ] 6.

Definition regdom_HN : ieee80211_regdomain := mk_regdom "HN" NL80211_DFS_FCC [
    REG_RULE_EXT 2402 2482 40 0 20 0 [];
    REG_RULE_EXT 5170 5250 80 0 17 0 [NL80211_RRF_AUTO_BW];
    REG_RULE_EXT 5250 5330 80 0 24 0 [NL80211_RRF_DFS; NL80211_RRF_AUTO_BW];
    REG_RULE_EXT 5490 5730 160 0 24 0 [NL80211_RRF_DFS];
    REG_RULE_EXT 5735 5835 80 0 30 0 []
  ] 5.

Definition regdom_HR : ieee80211_regdomain := mk_regdom "HR" NL80211_DFS_ETSI [
    REG_RULE_EXT 2400 2483 40 0 20 0 [];
    REG_RULE_EXT 5150 5250 80 0 23 0 [NL80211_RRF_AUTO_BW];
    REG_RULE_EXT 5250 5350 80 0 23 0 [NL80211_RRF_DFS; NL80211_RRF_AUTO_BW];
    REG_RULE_EXT 5470 5725 160 0 27 0 [NL80211_RRF_DFS];
    REG_RULE_EXT 5725 5875 80 0 14 0 [];
    REG_RULE_EXT 5945 6425 160 0 23 0 [NL80211_RRF_NO_OUTDOOR];
    REG_RULE_EXT 57000 66000 2160 0 40 0 []
  ] 7.

Definition regdom_HT : ieee80211_regdomain := mk_regdom "HT" NL80211_DFS_FCC [
    REG_RULE_EXT 2402 2472 40 0 30 0 [];
    REG_RULE_EXT 5170 5250 80 0 24 0 [NL80211_RRF_AUTO_BW];
    REG_RULE_EXT 5250 5330 80 0 24 0 [NL80211_RRF_DFS; NL80211_RRF_AUTO_BW];
    REG_RULE_EXT 5490 5730 160 0 24 0 [NL80211_RRF_DFS];
    REG_RULE_EXT 5735 5835 80 0 30 0 []
  ] 5.

Definition regdom_HU : ieee80211_regdomain := mk_regdom "HU" NL80211_DFS_ETSI [
    REG_RULE_EXT 2400 2483 40 0 20 0 [];
    REG_RULE_EXT 5150 5250 80 0 23 0 [NL80211_RRF_NO_OUTDOOR; NL80211_RRF_AUTO_BW];
    REG_RULE_EXT 5250 5350 80 0 20 0 [NL80211_RRF_NO_OUTDOOR; NL80211_RRF_DFS; NL80211_RRF_AUTO_BW];
    REG_RULE_EXT 5470 5725 160 0 27 0 [NL80211_RRF_DFS];
    REG_RULE_EXT 5725 5875 80 0 14 0 [];
    REG_RULE_EXT 5945 6425 160 0 23 0 [NL80211_RRF_NO_OUTDOOR];
    REG_RULE_EXT 57000 66000 2160 0 40 0 []
  ] 7.

Definition regdom_ID : ieee80211_regdomain := mk_regdom "ID" NL80211_DFS_JP [
    REG_RULE_EXT 2400 2483 40 0 27 0 [NL80211_RRF_NO_OUTDOOR];
    REG_RULE_EXT 5150 5350 80 0 23 0 [NL80211_RRF_NO_OUTDOOR];
    REG_RULE_EXT 5725 5825 80 0 23 0 [NL80211_RRF_NO_OUTDOOR]
  ] 3.

Definition regdom_IE : ieee80211_regdomain := mk_regdom "IE" NL80211_DFS_ETSI [
    REG_RULE_EXT 2400 2483 40 0 20 0 [];
    REG_RULE_EXT 5150 5250 80 0 23 0 [NL80211_RRF_NO_OUTDOOR; NL80211_RRF_AUTO_BW];
    REG_RULE_EXT 5250 5350 80 0 20 0 [NL80211_RRF_NO_OUTDOOR; NL80211_RRF_DFS; NL80211_RRF_AUTO_BW];
    REG_RULE_EXT 5470 5725 160 0 27 0 [NL80211_RRF_DFS];
    REG_RULE_EXT 5725 5875 80 0 14 0 [];
    REG_RULE_EXT 5945 6425 160 0 23 0 [NL80211_RRF_NO_OUTDOOR];
    REG_RULE_EXT 57000 66000 2160 0 40 0 []
  ] 7.

Definition regdom_IL : ieee80211_regdomain := mk_regdom "IL" NL80211_DFS_ETSI [
    REG_RULE_EXT 2402 2482 40 0 20 0 [];
    REG_RULE_EXT 5150 5250 80 0 23 0 [NL80211_RRF_NO_OUTDOOR; NL80211_RRF_AUTO_BW];
    REG_RULE_EXT 5250 5350 80 0 23 0 [NL80211_RRF_NO_OUTDOOR; NL80211_RRF_DFS; NL80211_RRF_AUTO_BW];
    REG_RULE_EXT 5470 5725 160 0 27 0 [NL80211_RRF_NO_OUTDOOR; NL80211_RRF_AUTO_BW; NL80211_RRF_DFS];
    REG_RULE_EXT 5725 5875 80 0 23 0 [NL80211_RRF_AUTO_BW]
  ] 5.

Definition regdom_IN : ieee80211_regdomain := mk_regdom "IN" NL80211_DFS_UNSET [
    REG_RULE_EXT 2402 2482 40 0 30 0 [];
    REG_RULE_EXT 5150 5250 80 0 30 0 [];
    REG_RULE_EXT 5250 5350 80 0 24 0 [NL80211_RRF_DFS];
    REG_RULE_EXT 5470 5725 160 0 24 0 [NL80211_RRF_DFS];
    REG_RULE_EXT 5725 5875 80 0 30 0 []
  ] 5.

Definition regdom_IQ : ieee80211_regdomain := mk_regdom "IQ" NL80211_DFS_ETSI [
    REG_RULE_EXT 2400 2483 40 0 20 0 [];
    REG_RULE_EXT 5150 5250 80 0 23 0 [NL80211_RRF_NO_OUTDOOR; NL80211_RRF_AUTO_BW];
    REG_RULE_EXT 5250 5350 80 0 20 0 [NL80211_RRF_NO_OUTDOOR; NL80211_RRF_DFS; NL80211_RRF_AUTO_BW];
    REG_RULE_EXT 5470 5725 160 0 27 0 [NL80211_RRF_DFS];
    REG_RULE_EXT 5725 5875 80 0 14 0 [];
    REG_RULE_EXT 5945 6425 160 0 23 0 [NL80211_RRF_NO_OUTDOOR];
    REG_RULE_EXT 57000 66000 2160 0 40 0 []
  ] 7.

Definition regdom_IR : ieee80211_regdomain := mk_regdom "IR" NL80211_DFS_JP [
    REG_RULE_EXT 2402 2482 40 0 20 0 [];
    REG_RULE_EXT 5735 5835 80 0 30 0 []
  ] 2.

Definition regdom_IS : ieee80211_regdomain := mk_regdom "IS" NL80211_DFS_ETSI [
    REG_RULE_EXT 2400 2483 40 0 20 0 [];
    REG_RULE_EXT 5150 5250 80 0 23 0 [NL80211_RRF_AUTO_BW; NL80211_RRF_NO_OUTDOOR];
    REG_RULE_EXT 5250 5350 80 0 20 0 [NL80211_RRF_DFS; NL80211_RRF_AUTO_BW; NL80211_RRF_NO_OUTDOOR];
    REG_RULE_EXT 5470 5725 160 0 27 0 [NL80211_RRF_DFS];
    REG_RULE_EXT 5725 5875 80 0 14 0 [NL80211_RRF_DFS];
    REG_RULE_EXT 57000 66000 2160 0 40 0 []
  ] 6.

Definition regdom_IT : ieee80211_regdomain := mk_regdom "IT" NL80211_DFS_ETSI [
    REG_RULE_EXT 2400 2483 40 0 20 0 [];
    REG_RULE_EXT 5150 5250 80 0 23 0 [NL80211_RRF_NO_OUTDOOR; NL80211_RRF_AUTO_BW];
    REG_RULE_EXT 5250 5350 80 0 20 0 [NL80211_RRF_NO_OUTDOOR; NL80211_RRF_DFS; NL80211_RRF_AUTO_BW];
    REG_RULE_EXT 5470 5725 160 0 27 0 [NL80211_RRF_DFS];
    REG_RULE_EXT 5725 5875 80 0 14 0 [];
    REG_RULE_EXT 5945 6425 160 0 23 0 [NL80211_RRF_NO_OUTDOOR];
    REG_RULE_EXT 57000 66000 2160 0 40 0 []
  ] 5.

Definition regdom_JM : ieee80211_regdomain := mk_regdom "JM" NL80211_DFS_FCC [
    REG_RULE_EXT 2402 2482 40 0 20 0 [];
    REG_RULE_EXT 5170 5250 80 0 17 0 [NL80211_RRF_AUTO_BW];
    REG_RULE_EXT 5250 5330 80 0 24 0 [NL80211_RRF_DFS; NL80211_RRF_AUTO_BW];
    REG_RULE_EXT 5490 5730 160 0 24 0 [NL80211_RRF_DFS];
    REG_RULE_EXT 5735 5835 80 0 30 0 []
  ] 5.

Definition regdom_JO : ieee80211_regdomain := mk_regdom "JO" NL80211_DFS_JP [
    REG_RULE_EXT 2402 2482 40 0 20 0 [];
    REG_RULE_EXT 5170 5250 80 0 23 0 [];
    REG_RULE_EXT 5735 5835 80 0 23 0 []
  ] 3.

Definition regdom_JP : ieee80211_regdomain := mk_regdom "JP" NL80211_DFS_JP [
    REG_RULE_EXT 2402 2482 40 0 20 0 [];
    REG_RULE_EXT 2474 2494 20 0 20 0 [NL80211_RRF_NO_OFDM];
    REG_RULE_EXT 4910 4990 40 0 23 0 [];
    REG_RULE_EXT 5170 5250 80 0 20 0 [NL80211_RRF_AUTO_BW];
    REG_RULE_EXT 5250 5330 80 0 20 0 [NL80211_RRF_DFS; NL80211_RRF_AUTO_BW];
    REG_RULE_EXT 5490 5730 160 0 23 0 [NL80211_RRF_DFS];
    REG_RULE_EXT 5925 6425 320 0 23 0 [NL80211_RRF_NO_OUTDOOR];
    REG_RULE_EXT 57000 66000 2160 0 10 0 []
  ] 8.

Definition regdom_KE : ieee80211_regdomain := mk_regdom "KE" NL80211_DFS_JP [
    REG_RULE_EXT 2402 2482 40 0 20 0 [];
    REG_RULE_EXT 5170 5250 80 0 23 0 [];
    REG_RULE_EXT 5490 5570 80 0 30 0 [NL80211_RRF_DFS];
    REG_RULE_EXT 5735 5775 40 0 23 0 []
  ] 4.

Definition regdom_KG : ieee80211_regdomain := mk_regdom "KG" NL80211_DFS_ETSI [
    REG_RULE_EXT 2400 2483 40 0 20 0 [];
    REG_RULE_EXT 5150 5250 80 0 23 0 [NL80211_RRF_NO_OUTDOOR; NL80211_RRF_AUTO_BW];
    REG_RULE_EXT 5250 5350 80 0 20 0 [NL80211_RRF_NO_OUTDOOR; NL80211_RRF_DFS; NL80211_RRF_AUTO_BW];
    REG_RULE_EXT 5470 5725 160 0 27 0 [NL80211_RRF_DFS];
    REG_RULE_EXT 5725 5875 80 0 14 0 [];
    REG_RULE_EXT 5945 6425 160 0 23 0 [NL80211_RRF_NO_OUTDOOR];
    REG_RULE_EXT 57000 66000 2160 0 40 0 []
  ] 7.

Definition regdom_KH : ieee80211_regdomain := mk_regdom "KH" NL80211_DFS_ETSI [
    REG_RULE_EXT 2402 2482 40 0 20 0 [];
    REG_RULE_EXT 5170 5250 80 0 20 0 [NL80211_RRF_AUTO_BW];
    REG_RULE_EXT 5250 5330 80 0 20 0 [NL80211_RRF_DFS; NL80211_RRF_AUTO_BW];
    REG_RULE_EXT 5490 5710 160 0 27 0 [NL80211_RRF_DFS]
  ] 4.

Definition regdom_KN : ieee80211_regdomain := mk_regdom "KN" NL80211_DFS_ETSI [
    REG_RULE_EXT 2402 2482 40 0 20 0 [];
    REG_RULE_EXT 5170 5250 80 0 20 0 [NL80211_RRF_AUTO_BW];
    REG_RULE_EXT 5250 5330 80 0 20 0 [NL80211_RRF_DFS; NL80211_RRF_AUTO_BW];
    REG_RULE_EXT 5490 5710 160 0 30 0 [NL80211_RRF_DFS];
    REG_RULE_EXT 5735 5815 80 0 30 0 []
  ] 5.

Definition regdom_KP : ieee80211_regdomain := mk_regdom "KP" NL80211_DFS_JP [
    REG_RULE_EXT 2402 2482 20 0 20 0 [];
    REG_RULE_EXT 5170 5250 20 0 20 0 [];
    REG_RULE_EXT 5250 5330 20 0 20 0 [NL80211_RRF_DFS];
    REG_RULE_EXT 5490 5630 20 0 30 0 [NL80211_RRF_DFS];
    REG_RULE_EXT 5735 5815 20 0 30 0 []
  ] 5.

Definition regdom_KR : ieee80211_regdomain := mk_regdom "KR" NL80211_DFS_JP [
    REG_RULE_EXT 2400 2483 40 0 23 0 [];
    REG_RULE_EXT 5150 5230 40 0 23 0 [NL80211_RRF_AUTO_BW];
    REG_RULE_EXT 5230 5250 20 0 17 0 [NL80211_RRF_AUTO_BW];
    REG_RULE_EXT 5250 5350 80 0 20 0 [NL80211_RRF_DFS; NL80211_RRF_AUTO_BW];
    REG_RULE_EXT 5470 5725 160 0 20 0 [NL80211_RRF_DFS];
    REG_RULE_EXT 5725 5850 80 0 23 0 [];
    REG_RULE_EXT 5925 7125 160 0 15 0 [NL80211_RRF_NO_OUTDOOR];
    REG_RULE_EXT 57000 66000 2160 0 43 0 []
  ] 8.

Definition regdom_KW : ieee80211_regdomain := mk_regdom "KW" NL80211_DFS_ETSI [
    REG_RULE_EXT 2402 2482 40 0 20 0 [];
    REG_RULE_EXT 5170 5250 80 0 20 0 [NL80211_RRF_AUTO_BW];
    REG_RULE_EXT 5250 5330 80 0 20 0 [NL80211_RRF_DFS; NL80211_RRF_AUTO_BW]
  ] 3.

Definition regdom_KY : ieee80211_regdomain := mk_regdom "KY" NL80211_DFS_FCC [
    REG_RULE_EXT 2402 2482 40 0 20 0 [];
    REG_RULE_EXT 5170 5250 80 0 24 0 [NL80211_RRF_AUTO_BW];
    REG_RULE_EXT 5250 5330 80 0 24 0 [NL80211_RRF_DFS; NL80211_RRF_AUTO_BW];
    REG_RULE_EXT 5490 5730 160 0 24 0 [NL80211_RRF_DFS];
    REG_RULE_EXT 5735 5835 80 0 30 0 []
  ] 5.

Definition regdom_KZ : ieee80211_regdomain := mk_regdom "KZ" NL80211_DFS_ETSI [
    REG_RULE_EXT 2400 2483 40 0 20 0 [];
    REG_RULE_EXT 5150 5250 80 0 23 0 [NL80211_RRF_NO_OUTDOOR; NL80211_RRF_AUTO_BW];
    REG_RULE_EXT 5250 5350 80 0 20 0 [NL80211_RRF_NO_OUTDOOR; NL80211_RRF_DFS; NL80211_RRF_AUTO_BW];
    REG_RULE_EXT 5470 5725 160 0 20 0 [NL80211_RRF_DFS; NL80211_RRF_NO_OUTDOOR];
    REG_RULE_EXT 5725 5850 80 0 20 0 [NL80211_RRF_NO_OUTDOOR];
    REG_RULE_EXT 57000 66000 2160 0 40 0 []
  ] 6.

Definition regdom_LB : ieee80211_regdomain := mk_regdom "LB" NL80211_DFS_FCC [
    REG_RULE_EXT 2402 2482 40 0 20 0 [];
    REG_RULE_EXT 5170 5250 80 0 17 0 [NL80211_RRF_AUTO_BW];
    REG_RULE_EXT 5250 5330 80 0 24 0 [NL80211_RRF_DFS; NL80211_RRF_AUTO_BW];
    REG_RULE_EXT 5490 5730 160 0 24 0 [NL80211_RRF_DFS];
    REG_RULE_EXT 5735 5835 80 0 30 0 []
  ] 5.

Definition regdom_LC : ieee80211_regdomain := mk_regdom "LC" NL80211_DFS_ETSI [
    REG_RULE_EXT 2402 2482 40 0 20 0 [];
    REG_RULE_EXT 5170 5250 80 0 20 0 [NL80211_RRF_AUTO_BW];
    REG_RULE_EXT 5250 5330 80 0 20 0 [NL80211_RRF_DFS; NL80211_RRF_AUTO_BW];
    REG_RULE_EXT 5490 5710 160 0 30 0 [NL80211_RRF_DFS];
    REG_RULE_EXT 5735 5815 80 0 30 0 []
  ] 5.

Definition regdom_LI : ieee80211_regdomain := mk_regdom "LI" NL80211_DFS_ETSI [
    REG_RULE_EXT 2400 2483 40 0 20 0 [];
    REG_RULE_EXT 5150 5250 80 0 23 0 [NL80211_RRF_AUTO_BW; NL80211_RRF_NO_OUTDOOR];
    REG_RULE_EXT 5250 5350 80 0 20 0 [NL80211_RRF_NO_OUTDOOR; NL80211_RRF_DFS; NL80211_RRF_AUTO_BW];
    REG_RULE_EXT 5470 5725 160 0 27 0 [NL80211_RRF_DFS];
    REG_RULE_EXT 5725 5875 80 0 14 0 [];
    REG_RULE_EXT 57000 66000 2160 0 40 0 []
  ] 6.

Definition regdom_LK : ieee80211_regdomain := mk_regdom "LK" NL80211_DFS_FCC [
    REG_RULE_EXT 2402 2482 40 0 20 0 [];
    REG_RULE_EXT 5170 5250 20 0 17 0 [];
    REG_RULE_EXT 5250 5330 20 0 24 0 [NL80211_RRF_DFS];
    REG_RULE_EXT 5490 5730 20 0 24 0 [NL80211_RRF_DFS];
    REG_RULE_EXT 5735 5835 20 0 30 0 []
  ] 5.

Definition regdom_LS : ieee80211_regdomain := mk_regdom "LS" NL80211_DFS_ETSI [
    REG_RULE_EXT 2402 2482 40 0 20 0 [];
    REG_RULE_EXT 5170 5250 80 0 20 0 [NL80211_RRF_AUTO_BW];
    REG_RULE_EXT 5250 5330 80 0 20 0 [NL80211_RRF_DFS; NL80211_RRF_AUTO_BW];
    REG_RULE_EXT 5490 5710 160 0 27 0 [NL80211_RRF_DFS]
  ] 4.

Definition regdom_LT : ieee80211_regdomain := mk_regdom "LT" NL80211_DFS_ETSI [
    REG_RULE_EXT 2400 2483 40 0 20 0 [];
    REG_RULE_EXT 5150 5250 80 0 23 0 [NL80211_RRF_NO_OUTDOOR; NL80211_RRF_AUTO_BW];
    REG_RULE_EXT 5250 5350 80 0 20 0 [NL80211_RRF_NO_OUTDOOR; NL80211_RRF_DFS; NL80211_RRF_AUTO_BW];
    REG_RULE_EXT 5470 5725 160 0 27 0 [NL80211_RRF_DFS];
    REG_RULE_EXT 5725 5875 80 0 14 0 [];
    REG_RULE_EXT 5945 6425 160 0 23 0 [NL80211_RRF_NO_OUTDOOR];
    REG_RULE_EXT 57000 66000 2160 0 40 0 []
  ] 7.

Definition regdom_LU : ieee80211_regdomain := mk_regdom "LU" NL80211_DFS_ETSI [
    REG_RULE_EXT 2400 2483 40 0 20 0 [];
    REG_RULE_EXT 5150 5250 80 0 23 0 [NL80211_RRF_NO_OUTDOOR; NL80211_RRF_AUTO_BW];
    REG_RULE_EXT 5250 5350 80 0 20 0 [NL80211_RRF_NO_OUTDOOR; NL80211_RRF_DFS; NL80211_RRF_AUTO_BW];
    REG_RULE_EXT 5470 5725 160 0 27 0 [NL80211_RRF_DFS];
    REG_RULE_EXT 5725 5875 80 0 14 0 [];
    REG_RULE_EXT 5945 6425 160 0 23 0 [NL80211_RRF_NO_OUTDOOR];
    REG_RULE_EXT 57000 66000 2160 0 40 0 []
  ] 7.

Definition regdom_LV : ieee80211_regdomain := mk_regdom "LV" NL80211_DFS_ETSI [
    REG_RULE_EXT 2400 2483 40 0 20 0 [];
    REG_RULE_EXT 5150 5250 80 0 23 0 [NL80211_RRF_NO_OUTDOOR; NL80211_RRF_AUTO_BW];
    REG_RULE_EXT 5250 5350 80 0 20 0 [NL80211_RRF_NO_OUTDOOR; NL80211_RRF_DFS; NL80211_RRF_AUTO_BW];
    REG_RULE_EXT 5470 5725 160 0 27 0 [NL80211_RRF_DFS];
    REG_RULE_EXT 5725 5875 80 0 14 0 [];
    REG_RULE_EXT 5945 6425 160 0 23 0 [NL80211_RRF_NO_OUTDOOR];
    REG_RULE_EXT 57000 66000 2160 0 40 0 []
  ] 7.

Definition regdom_LY : ieee80211_regdomain := mk_regdom "LY" NL80211_DFS_ETSI [
    REG_RULE_EXT 2400 2483 40 0 20 0 [];
    REG_RULE_EXT 5150 5250 80 0 23 0 [NL80211_RRF_NO_OUTDOOR; NL80211_RRF_AUTO_BW];
    REG_RULE_EXT 5250 5350 80 0 20 0 [NL80211_RRF_NO_OUTDOOR; NL80211_RRF_DFS; NL80211_RRF_AUTO_BW];
    REG_RULE_EXT 5470 5725 160 0 27 0 [NL80211_RRF_DFS];
    REG_RULE_EXT 5725 5875 80 0 14 0 [];
    REG_RULE_EXT 5945 6425 160 0 23 0 [NL80211_RRF_NO_OUTDOOR];
    REG_RULE_EXT 57000 66000 2160 0 40 0 []
  ] 7.

Definition regdom_MA : ieee80211_regdomain := mk_regdom "MA" NL80211_DFS_ETSI [
    REG_RULE_EXT 2402 2482 40 0 20 0 [];
    REG_RULE_EXT 5170 5250 80 0 20 0 [NL80211_RRF_AUTO_BW];
    REG_RULE_EXT 5250 5330 80 0 20 0 [NL80211_RRF_DFS; NL80211_RRF_AUTO_BW]
  ] 3.

Definition regdom_MC : ieee80211_regdomain := mk_regdom "MC" NL80211_DFS_ETSI [
    REG_RULE_EXT 2400 2483 40 0 20 0 [];
    REG_RULE_EXT 5150 5250 80 0 23 0 [NL80211_RRF_NO_OUTDOOR; NL80211_RRF_AUTO_BW];
    REG_RULE_EXT 5250 5350 80 0 20 0 [NL80211_RRF_NO_OUTDOOR; NL80211_RRF_DFS; NL80211_RRF_AUTO_BW];
    REG_RULE_EXT 5470 5725 160 0 27 0 [NL80211_RRF_DFS];
    REG_RULE_EXT 5725 5875 80 0 14 0 []
  ] 5.

Definition regdom_MD : ieee80211_regdomain := mk_regdom "MD" NL80211_DFS_ETSI [
    REG_RULE_EXT 2400 2483 40 0 20 0 [];
    REG_RULE_EXT 5150 5250 80 0 23 0 [NL80211_RRF_NO_OUTDOOR; NL80211_RRF_AUTO_BW];
    REG_RULE_EXT 5250 5350 80 0 20 0 [NL80211_RRF_NO_OUTDOOR; NL80211_RRF_DFS; NL80211_RRF_AUTO_BW];
    REG_RULE_EXT 5470 5725 160 0 27 0 [NL80211_RRF_DFS];
    REG_RULE_EXT 5725 5875 80 0 14 0 []
  ] 5.

Definition regdom_ME : ieee80211_regdomain := mk_regdom "ME" NL80211_DFS_ETSI [
    REG_RULE_EXT 2400 2483 40 0 20 0 [];
    REG_RULE_EXT 5150 5250 80 0 23 0 [NL80211_RRF_NO_OUTDOOR; NL80211_RRF_AUTO_BW];
    REG_RULE_EXT 5250 5350 80 0 20 0 [NL80211_RRF_NO_OUTDOOR; NL80211_RRF_DFS; NL80211_RRF_AUTO_BW];
    REG_RULE_EXT 5470 5725 160 0 27 0 [NL80211_RRF_DFS];
    REG_RULE_EXT 5725 5875 80 0 14 0 []
  ] 5.

Definition regdom_MF : ieee80211_regdomain := mk_regdom "MF" NL80211_DFS_ETSI [
    REG_RULE_EXT 2402 2482 40 0 20 0 [];
    REG_RULE_EXT 5170 5250 80 0 20 0 [NL80211_RRF_AUTO_BW];
    REG_RULE_EXT 5250 5330 80 0 20 0 [NL80211_RRF_DFS; NL80211_RRF_AUTO_BW];
    REG_RULE_EXT 5490 5710 160 0 27 0 [NL80211_RRF_DFS]
  ] 4.

Definition regdom_MH : ieee80211_regdomain := mk_regdom "MH" NL80211_DFS_FCC [
    REG_RULE_EXT 2402 2472 40 0 30 0 [];
    REG_RULE_EXT 5170 5250 80 0 24 0 [NL80211_RRF_AUTO_BW];
    REG_RULE_EXT 5250 5330 80 0 24 0 [NL80211_RRF_DFS; NL80211_RRF_AUTO_BW];
    REG_RULE_EXT 5490 5730 160 0 24 0 [NL80211_RRF_DFS];
    REG_RULE_EXT 5735 5835 80 0 30 0 []
  ] 5.

Definition regdom_MK : ieee80211_regdomain := mk_regdom "MK" NL80211_DFS_ETSI [
    REG_RULE_EXT 2400 2483 40 0 20 0 [];
    REG_RULE_EXT 5150 5250 80 0 23 0 [NL80211_RRF_NO_OUTDOOR; NL80211_RRF_AUTO_BW];
    REG_RULE_EXT 5250 5350 80 0 20 0 [NL80211_RRF_NO_OUTDOOR; NL80211_RRF_DFS; NL80211_RRF_AUTO_BW];
    REG_RULE_EXT 5470 5725 160 0 27 0 [NL80211_RRF_DFS];
    REG_RULE_EXT 5725 5875 80 0 14 0 [];
    REG_RULE_EXT 57000 66000 2160 0 40 0 []
  ] 6.

Definition regdom_MN : ieee80211_regdomain := mk_regdom "MN" NL80211_DFS_FCC [
    REG_RULE_EXT 2402 2482 40 0 20 0 [];
    REG_RULE_EXT 5170 5250 80 0 24 0 [NL80211_RRF_AUTO_BW];
    REG_RULE_EXT 5250 5330 80 0 24 0 [NL80211_RRF_DFS; NL80211_RRF_AUTO_BW];
    REG_RULE_EXT 5490 5730 160 0 24 0 [NL80211_RRF_DFS];
    REG_RULE_EXT 5735 5835 80 0 30 0 []
  ] 5.

Definition regdom_MO : ieee80211_regdomain := mk_regdom "MO" NL80211_DFS_FCC [
    REG_RULE_EXT 2402 2482 40 0 23 0 [];
    REG_RULE_EXT 5170 5250 80 0 23 0 [NL80211_RRF_AUTO_BW];
    REG_RULE_EXT 5250 5330 80 0 23 0 [NL80211_RRF_DFS; NL80211_RRF_AUTO_BW];
    REG_RULE_EXT 5490 5730 160 0 30 0 [NL80211_RRF_DFS];
    REG_RULE_EXT 5735 5835 80 0 30 0 []
  ] 5.

Definition regdom_MP : ieee80211_regdomain := mk_regdom "MP" NL80211_DFS_FCC [
    REG_RULE_EXT 2402 2472 40 0 30 0 [];
    REG_RULE_EXT 5170 5250 80 0 24 0 [NL80211_RRF_AUTO_BW];
    REG_RULE_EXT 5250 5330 80 0 24 0 [NL80211_RRF_DFS; NL80211_RRF_AUTO_BW];
    REG_RULE_EXT 5490 5730 160 0 24 0 [NL80211_RRF_DFS];
    REG_RULE_EXT 5735 5835 80 0 30 0 []
  ] 5.

Definition regdom_MQ : ieee80211_regdomain := mk_regdom "MQ" NL80211_DFS_ETSI [
    REG_RULE_EXT 2402 2482 40 0 20 0 [];
    REG_RULE_EXT 5170 5250 80 0 20 0 [NL80211_RRF_AUTO_BW];
    REG_RULE_EXT 5250 5330 80 0 20 0 [NL80211_RRF_DFS; NL80211_RRF_AUTO_BW];
    REG_RULE_EXT 5490 5710 160 0 27 0 [NL80211_RRF_DFS]
  ] 4.

Definition regdom_MR : ieee80211_regdomain := mk_regdom "MR" NL80211_DFS_ETSI [
    REG_RULE_EXT 2402 2482 40 0 20 0 [];
    REG_RULE_EXT 5170 5250 80 0 20 0 [NL80211_RRF_AUTO_BW];
    REG_RULE_EXT 5250 5330 80 0 20 0 [NL80211_RRF_DFS; NL80211_RRF_AUTO_BW];
    REG_RULE_EXT 5490 5710 160 0 27 0 [NL80211_RRF_DFS]
  ] 4.

Definition regdom_MT : ieee80211_regdomain := mk_regdom "MT" NL80211_DFS_ETSI [
    REG_RULE_EXT 2400 2483 40 0 20 0 [];
    REG_RULE_EXT 5150 5250 80 0 23 0 [NL80211_RRF_NO_OUTDOOR; NL80211_RRF_AUTO_BW];
    REG_RULE_EXT 5250 5350 80 0 20 0 [NL80211_RRF_NO_OUTDOOR; NL80211_RRF_DFS; NL80211_RRF_AUTO_BW];
    REG_RULE_EXT 5470 5725 160 0 27 0 [NL80211_RRF_DFS];
    REG_RULE_EXT 5725 5875 80 0 14 0 [];
    REG_RULE_EXT 5945 6425 160 0 23 0 [NL80211_RRF_NO_OUTDOOR];
    REG_RULE_EXT 57000 66000 2160 0 40 0 []
  ] 7.

Definition regdom_MU : ieee80211_regdomain := mk_regdom "MU" NL80211_DFS_FCC [
    REG_RULE_EXT 2402 2482 40 0 20 0 [];
    REG_RULE_EXT 5170 5250 80 0 24 0 [NL80211_RRF_AUTO_BW];
    REG_RULE_EXT 5250 5330 80 0 24 0 [NL80211_RRF_DFS; NL80211_RRF_AUTO_BW];
    REG_RULE_EXT 5490 5730 160 0 24 0 [NL80211_RRF_DFS];
    REG_RULE_EXT 5735 5835 80 0 30 0 []
  ] 5.

Definition regdom_MV : ieee80211_regdomain := mk_regdom "MV" NL80211_DFS_ETSI [
    REG_RULE_EXT 2400 2483 40 0 20 0 [];
    REG_RULE_EXT 5150 5250 80 0 23 0 [NL80211_RRF_AUTO_BW];
    REG_RULE_EXT 5250 5350 80 0 20 0 [NL80211_RRF_DFS; NL80211_RRF_AUTO_BW];
    REG_RULE_EXT 5725 5850 80 0 20 0 []
  ] 4.

Definition regdom_MW : ieee80211_regdomain := mk_regdom "MW" NL80211_DFS_ETSI [
    REG_RULE_EXT 2402 2482 40 0 20 0 [];
    REG_RULE_EXT 5170 5250 80 0 20 0 [NL80211_RRF_AUTO_BW];
    REG_RULE_EXT 5250 5330 80 0 20 0 [NL80211_RRF_DFS; NL80211_RRF_AUTO_BW];
    REG_RULE_EXT 5490 5710 160 0 27 0 [NL80211_RRF_DFS]
  ] 4.

Definition regdom_MX : ieee80211_regdomain := mk_regdom "MX" NL80211_DFS_FCC [
    REG_RULE_EXT 2402 2482 40 0 20 0 [];
    REG_RULE_EXT 5170 5250 80 0 17 0 [NL80211_RRF_AUTO_BW];
    REG_RULE_EXT 5250 5330 80 0 24 0 [NL80211_RRF_DFS; NL80211_RRF_AUTO_BW];
    REG_RULE_EXT 5490 5730 160 0 24 0 [NL80211_RRF_DFS];
    REG_RULE_EXT 5735 5835 80 0 30 0 []
  ] 5.

Definition regdom_MY : ieee80211_regdomain := mk_regdom "MY" NL80211_DFS_ETSI [
    REG_RULE_EXT 2400 2483 40 0 20 0 [];
    REG_RULE_EXT 5150 5250 80 0 23 0 [NL80211_RRF_NO_OUTDOOR; NL80211_RRF_AUTO_BW];
    REG_RULE_EXT 5250 5350 80 0 20 0 [NL80211_RRF_NO_OUTDOOR; NL80211_RRF_DFS; NL80211_RRF_AUTO_BW];
    REG_RULE_EXT 5470 5725 160 0 27 0 [NL80211_RRF_DFS];
    REG_RULE_EXT 5725 5875 80 0 14 0 [];
    REG_RULE_EXT 5945 6425 160 0 23 0 [NL80211_RRF_NO_OUTDOOR];
    REG_RULE_EXT 57000 66000 2160 0 40 0 []
  ] 7.

Definition regdom_NA : ieee80211_regdomain := mk_regdom "NA" NL80211_DFS_ETSI [
    REG_RULE_EXT 2400 2483 40 0 20 0 [];
    REG_RULE_EXT 5150 5250 80 0 23 0 [NL80211_RRF_NO_OUTDOOR; NL80211_RRF_AUTO_BW];
    REG_RULE_EXT 5250 5350 80 0 20 0 [NL80211_RRF_NO_OUTDOOR; NL80211_RRF_DFS; NL80211_RRF_AUTO_BW];
    REG_RULE_EXT 5470 5725 160 0 27 0 [NL80211_RRF_DFS];
    REG_RULE_EXT 5725 5875 80 0 14 0 [];
    REG_RULE_EXT 5945 6425 160 0 23 0 [NL80211_RRF_NO_OUTDOOR];
    REG_RULE_EXT 57000 66000 2160 0 40 0 []
  ] 7.

Definition regdom_NG : ieee80211_regdomain := mk_regdom "NG" NL80211_DFS_ETSI [
    REG_RULE_EXT 2402 2482 40 0 20 0 [];
    REG_RULE_EXT 5250 5330 80 0 20 0 [NL80211_RRF_DFS];
    REG_RULE_EXT 5735 5835 80 0 30 0 []
  ] 3.

Definition regdom_NI : ieee80211_regdomain := mk_regdom "NI" NL80211_DFS_FCC [
    REG_RULE_EXT 2402 2472 40 0 30 0 [];
    REG_RULE_EXT 5170 5250 80 0 24 0 [NL80211_RRF_AUTO_BW];
    REG_RULE_EXT 5250 5330 80 0 24 0 [NL80211_RRF_DFS; NL80211_RRF_AUTO_BW];
    REG_RULE_EXT 5490 5730 160 0 24 0 [NL80211_RRF_DFS];
    REG_RULE_EXT 5735 5835 80 0 30 0 []
  ] 5.

Definition regdom_NL : ieee80211_regdomain := mk_regdom "NL" NL80211_DFS_ETSI [
    REG_RULE_EXT 2400 2483 40 0 20 0 [];
    REG_RULE_EXT 5150 5250 80 0 23 0 [NL80211_RRF_NO_OUTDOOR; NL80211_RRF_AUTO_BW];
    REG_RULE_EXT 5250 5350 80 0 20 0 [NL80211_RRF_NO_OUTDOOR; NL80211_RRF_DFS; NL80211_RRF_AUTO_BW];
    REG_RULE_EXT 5470 5725 160 0 27 0 [NL80211_RRF_DFS];
    REG_RULE_EXT 5725 5875 80 0 14 0 [];
    REG_RULE_EXT 5945 6425 160 0 23 0 [NL80211_RRF_NO_OUTDOOR];
    REG_RULE_EXT 57000 66000 2160 0 40 0 []
  ] 7.

Definition regdom_NO : ieee80211_regdomain := mk_regdom "NO" NL80211_DFS_ETSI [
    REG_RULE_EXT 2400 2483 40 0 20 0 [];
    REG_RULE_EXT 5150 5250 80 0 23 0 [NL80211_RRF_NO_OUTDOOR; NL80211_RRF_AUTO_BW];
    REG_RULE_EXT 5250 5350 80 0 20 0 [NL80211_RRF_NO_OUTDOOR; NL80211_RRF_DFS; NL80211_RRF_AUTO_BW];
    REG_RULE_EXT 5470 5725 160 0 27 0 [NL80211_RRF_DFS];
    REG_RULE_EXT 5725 5875 80 0 14 0 [];
    REG_RULE_EXT 5945 6425 160 0 23 0 [NL80211_RRF_NO_OUTDOOR];
    REG_RULE_EXT 57000 71000 2160 0 40 0 []
  ] 7.

Definition regdom_NP : ieee80211_regdomain := mk_regdom "NP" NL80211_DFS_JP [
    REG_RULE_EXT 2402 2482 40 0 20 0 [];
    REG_RULE_EXT 5170 5250 80 0 20 0 [NL80211_RRF_AUTO_BW];
    REG_RULE_EXT 5250 5330 80 0 20 0 [NL80211_RRF_DFS; NL80211_RRF_AUTO_BW];
    REG_RULE_EXT 5735 5835 80 0 20 0 []
  ] 4.

Definition regdom_NZ : ieee80211_regdomain := mk_regdom "NZ" NL80211_DFS_ETSI [
    REG_RULE_EXT 2402 2482 40 0 30 0 [];
    REG_RULE_EXT 5170 5250 80 0 17 0 [NL80211_RRF_AUTO_BW];
    REG_RULE_EXT 5250 5330 80 0 24 0 [NL80211_RRF_DFS; NL80211_RRF_AUTO_BW];
    REG_RULE_EXT 5490 5730 160 0 24 0 [NL80211_RRF_DFS];
    REG_RULE_EXT 5735 5835 80 0 30 0 []
  ] 5.

Definition regdom_OM : ieee80211_regdomain := mk_regdom "OM" NL80211_DFS_ETSI [
    REG_RULE_EXT 2402 2482 40 0 20 0 [];
    REG_RULE_EXT 5170 5250 80 0 20 0 [NL80211_RRF_AUTO_BW];
    REG_RULE_EXT 5250 5330 80 0 20 0 [NL80211_RRF_DFS; NL80211_RRF_AUTO_BW];
    REG_RULE_EXT 5490 5710 160 0 27 0 [NL80211_RRF_DFS]
  ] 4.

Definition regdom_PA : ieee80211_regdomain := mk_regdom "PA" NL80211_DFS_FCC [
    REG_RULE_EXT 2400 2483 40 0 36 0 [];
    REG_RULE_EXT 5150 5250 80 0 36 0 [NL80211_RRF_AUTO_BW];
    REG_RULE_EXT 5250 5350 80 0 30 0 [NL80211_RRF_AUTO_BW];
    REG_RULE_EXT 5470 5725 160 0 30 0 [];
    REG_RULE_EXT 5725 5850 80 0 36 0 [];
    REG_RULE_EXT 57000 64000 2160 0 43 0 []
  ] 6.

Definition regdom_PE : ieee80211_regdomain := mk_regdom "PE" NL80211_DFS_ETSI [
    REG_RULE_EXT 2400 2483 40 0 20 0 [];
    REG_RULE_EXT 5150 5250 80 0 23 0 [NL80211_RRF_NO_OUTDOOR; NL80211_RRF_AUTO_BW];
    REG_RULE_EXT 5250 5350 80 0 20 0 [NL80211_RRF_NO_OUTDOOR; NL80211_RRF_DFS; NL80211_RRF_AUTO_BW];
    REG_RULE_EXT 5470 5725 160 0 27 0 [NL80211_RRF_DFS];
    REG_RULE_EXT 5725 5875 80 0 14 0 [];
    REG_RULE_EXT 5945 6425 160 0 23 0 [NL80211_RRF_NO_OUTDOOR];
    REG_RULE_EXT 57000 66000 2160 0 40 0 []
  ] 7.

Definition regdom_PF : ieee80211_regdomain := mk_regdom "PF" NL80211_DFS_ETSI [
    REG_RULE_EXT 2402 2482 40 0 20 0 [];
    REG_RULE_EXT 5170 5250 80 0 20 0 [NL80211_RRF_AUTO_BW];
    REG_RULE_EXT 5250 5330 80 0 20 0 [NL80211_RRF_DFS; NL80211_RRF_AUTO_BW];
    REG_RULE_EXT 5490 5710 160 0 27 0 [NL80211_RRF_DFS]
  ] 4.

Definition regdom_PG : ieee80211_regdomain := mk_regdom "PG" NL80211_DFS_FCC [
    REG_RULE_EXT 2402 2482 40 0 20 0 [];
    REG_RULE_EXT 5170 5250 80 0 17 0 [NL80211_RRF_AUTO_BW];
    REG_RULE_EXT 5250 5330 80 0 24 0 [NL80211_RRF_DFS; NL80211_RRF_AUTO_BW];
    REG_RULE_EXT 5490 5730 160 0 24 0 [NL80211_RRF_DFS];
    REG_RULE_EXT 5735 5835 80 0 30 0 []
  ] 5.

Definition regdom_PH : ieee80211_regdomain := mk_regdom "PH" NL80211_DFS_ETSI [
    REG_RULE_EXT 2400 2483 40 0 20 0 [];
    REG_RULE_EXT 5150 5250 80 0 23 0 [NL80211_RRF_NO_OUTDOOR; NL80211_RRF_AUTO_BW];
    REG_RULE_EXT 5250 5350 80 0 20 0 [NL80211_RRF_NO_OUTDOOR; NL80211_RRF_DFS; NL80211_RRF_AUTO_BW];
    REG_RULE_EXT 5470 5725 160 0 27 0 [NL80211_RRF_DFS];
    REG_RULE_EXT 5725 5875 80 0 14 0 [];
    REG_RULE_EXT 5945 6425 160 0 23 0 [NL80211_RRF_NO_OUTDOOR];
    REG_RULE_EXT 57000 66000 2160 0 40 0 []
  ] 7.

Definition regdom_PK : ieee80211_regdomain := mk_regdom "PK" NL80211_DFS_JP [
    REG_RULE_EXT 2402 2482 40 0 20 0 [];
    REG_RULE_EXT 5150 5270 80 0 23 0 [NL80211_RRF_AUTO_BW; NL80211_RRF_NO_OUTDOOR];
    REG_RULE_EXT 5270 5350 80 0 20 0 [NL80211_RRF_NO_OUTDOOR; NL80211_RRF_AUTO_BW; NL80211_RRF_DFS];
    REG_RULE_EXT 5470 5610 80 0 20 0 [NL80211_RRF_NO_OUTDOOR; NL80211_RRF_AUTO_BW; NL80211_RRF_DFS];
    REG_RULE_EXT 5610 5725 80 0 23 0 [NL80211_RRF_AUTO_BW];
    REG_RULE_EXT 5725 5875 80 0 30 0 [];
    REG_RULE_EXT 57000 66000 2160 0 40 0 []
  ] 7.

Definition regdom_PL : ieee80211_regdomain := mk_regdom "PL" NL80211_DFS_ETSI [
    REG_RULE_EXT 2400 2483 40 0 20 0 [];
    REG_RULE_EXT 5150 5250 80 0 23 0 [NL80211_RRF_NO_OUTDOOR; NL80211_RRF_AUTO_BW];
    REG_RULE_EXT 5250 5350 80 0 20 0 [NL80211_RRF_NO_OUTDOOR; NL80211_RRF_DFS; NL80211_RRF_AUTO_BW];
    REG_RULE_EXT 5470 5725 160 0 27 0 [NL80211_RRF_DFS];
    REG_RULE_EXT 5725 5875 80 0 14 0 [];
    REG_RULE_EXT 5945 6425 160 0 23 0 [NL80211_RRF_NO_OUTDOOR];
    REG_RULE_EXT 57000 66000 2160 0 40 0 []
  ] 7.

Definition regdom_PM : ieee80211_regdomain := mk_regdom "PM" NL80211_DFS_ETSI [
    REG_RULE_EXT 2402 2482 40 0 20 0 [];
    REG_RULE_EXT 5170 5250 80 0 20 0 [NL80211_RRF_AUTO_BW];
    REG_RULE_EXT 5250 5330 80 0 20 0 [NL80211_RRF_DFS; NL80211_RRF_AUTO_BW];
    REG_RULE_EXT 5490 5710 160 0 27 0 [NL80211_RRF_DFS]
  ] 4.

Definition regdom_PR : ieee80211_regdomain := mk_regdom "PR" NL80211_DFS_FCC [
    REG_RULE_EXT 2402 2472 40 0 30 0 [];
    REG_RULE_EXT 5170 5250 80 0 17 0 [NL80211_RRF_AUTO_BW];
    REG_RULE_EXT 5250 5330 80 0 24 0 [NL80211_RRF_DFS; NL80211_RRF_AUTO_BW];
    REG_RULE_EXT 5490 5730 160 0 24 0 [NL80211_RRF_DFS];
    REG_RULE_EXT 5735 5835 80 0 30 0 []
  ] 5.

Definition regdom_PT : ieee80211_regdomain := mk_regdom "PT" NL80211_DFS_ETSI [
    REG_RULE_EXT 2400 2483 40 0 20 0 [];
    REG_RULE_EXT 5150 5250 80 0 23 0 [NL80211_RRF_NO_OUTDOOR; NL80211_RRF_AUTO_BW];
    REG_RULE_EXT 5250 5350 80 0 20 0 [NL80211_RRF_NO_OUTDOOR; NL80211_RRF_DFS; NL80211_RRF_AUTO_BW];
    REG_RULE_EXT 5470 5725 160 0 27 0 [NL80211_RRF_DFS];
    REG_RULE_EXT 5725 5875 80 0 14 0 [];
    REG_RULE_EXT 5945 6425 160 0 23 0 [NL80211_RRF_NO_OUTDOOR];
    REG_RULE_EXT 57000 66000 2160 0 40 0 []
  ] 7.

Definition regdom_PW : ieee80211_regdomain := mk_regdom "PW" NL80211_DFS_FCC [
    REG_RULE_EXT 2402 2472 40 0 30 0 [];
    REG_RULE_EXT 5170 5250 80 0 24 0 [NL80211_RRF_AUTO_BW];
    REG_RULE_EXT 5250 5330 80 0 24 0 [NL80211_RRF_DFS; NL80211_RRF_AUTO_BW];
    REG_RULE_EXT 5490 5730 160 0 24 0 [NL80211_RRF_DFS];
    REG_RULE_EXT 5735 5835 80 0 30 0 []
  ] 5.

Definition regdom_PY : ieee80211_regdomain := mk_regdom "PY" NL80211_DFS_FCC [
    REG_RULE_EXT 2402 2482 40 0 20 0 [];
    REG_RULE_EXT 5170 5250 80 0 24 0 [NL80211_RRF_AUTO_BW];
    REG_RULE_EXT 5250 5330 80 0 24 0 [NL80211_RRF_DFS; NL80211_RRF_AUTO_BW];
    REG_RULE_EXT 5490 5730 160 0 24 0 [NL80211_RRF_DFS];
    REG_RULE_EXT 5735 5835 80 0 30 0 []
  ] 5.

Definition regdom_QA : ieee80211_regdomain := mk_regdom "QA" NL80211_DFS_ETSI [
    REG_RULE_EXT 2400 2483 40 0 20 0 [NL80211_RRF_NO_OUTDOOR];
    REG_RULE_EXT 5150 5250 80 0 23 0 [NL80211_RRF_AUTO_BW; NL80211_RRF_NO_OUTDOOR];
    REG_RULE_EXT 5250 5350 80 0 23 0 [NL80211_RRF_NO_OUTDOOR; NL80211_RRF_AUTO_BW; NL80211_RRF_DFS];
    REG_RULE_EXT 5470 5725 160 0 20 0 [NL80211_RRF_NO_OUTDOOR; NL80211_RRF_DFS];
    REG_RULE_EXT 5725 5875 80 0 20 0 [NL80211_RRF_NO_OUTDOOR; NL80211_RRF_DFS];
    REG_RULE_EXT 57000 66000 2160 0 40 0 [NL80211_RRF_NO_OUTDOOR]
  ] 6.

Definition regdom_RE : ieee80211_regdomain := mk_regdom "RE" NL80211_DFS_ETSI [
    REG_RULE_EXT 2402 2482 40 0 20 0 [];
    REG_RULE_EXT 5170 5250 80 0 20 0 [NL80211_RRF_AUTO_BW];
    REG_RULE_EXT 5250 5330 80 0 20 0 [NL80211_RRF_DFS; NL80211_RRF_AUTO_BW];
    REG_RULE_EXT 5490 5710 160 0 27 0 [NL80211_RRF_DFS]
  ] 4.

Definition regdom_RO : ieee80211_regdomain := mk_regdom "RO" NL80211_DFS_ETSI [
    REG_RULE_EXT 2400 2483 40 0 20 0 [];
    REG_RULE_EXT 5150 5250 80 0 23 0 [NL80211_RRF_NO_OUTDOOR; NL80211_RRF_AUTO_BW];
    REG_RULE_EXT 5250 5350 80 0 20 0 [NL80211_RRF_NO_OUTDOOR; NL80211_RRF_DFS; NL80211_RRF_AUTO_BW];
    REG_RULE_EXT 5470 5725 160 0 27 0 [NL80211_RRF_DFS];
    REG_RULE_EXT 5725 5875 80 0 14 0 [];
    REG_RULE_EXT 5945 6425 160 0 23 0 [NL80211_RRF_NO_OUTDOOR];
    REG_RULE_EXT 57000 66000 2160 0 40 0 []
  ] 7.

Definition regdom_RS : ieee80211_regdomain := mk_regdom "RS" NL80211_DFS_ETSI [
    REG_RULE_EXT 2400 2483 40 0 20 0 [];
    REG_RULE_EXT 5150 5250 80 0 23 0 [NL80211_RRF_NO_OUTDOOR; NL80211_RRF_AUTO_BW];
    REG_RULE_EXT 5250 5350 80 0 20 0 [NL80211_RRF_NO_OUTDOOR; NL80211_RRF_AUTO_BW; NL80211_RRF_DFS];
    REG_RULE_EXT 5470 5725 160 0 27 0 [NL80211_RRF_DFS];
    REG_RULE_EXT 5725 5875 80 0 14 0 [];
    REG_RULE_EXT 57000 66000 2160 0 40 0 []
  ] 6.

Definition regdom_RU : ieee80211_regdomain := mk_regdom "RU" NL80211_DFS_UNSET [
    REG_RULE_EXT 2400 2483 40 0 20 0 [];
    REG_RULE_EXT 5150 5350 160 0 20 0 [NL80211_RRF_NO_OUTDOOR];
    REG_RULE_EXT 5650 5850 160 0 20 0 [NL80211_RRF_NO_OUTDOOR];
    REG_RULE_EXT 5925 6425 160 0 20 0 [NL80211_RRF_NO_OUTDOOR];
    REG_RULE_EXT 57000 66000 2160 0 40 0 [NL80211_RRF_NO_OUTDOOR]
  ] 5.

Definition regdom_RW : ieee80211_regdomain := mk_regdom "RW" NL80211_DFS_FCC [
    REG_RULE_EXT 2402 2482 40 0 20 0 [];
    REG_RULE_EXT 5170 5250 80 0 17 0 [NL80211_RRF_AUTO_BW];
    REG_RULE_EXT 5250 5330 80 0 24 0 [NL80211_RRF_DFS; NL80211_RRF_AUTO_BW];
    REG_RULE_EXT 5490 5730 160 0 24 0 [NL80211_RRF_DFS];
    REG_RULE_EXT 5735 5835 80 0 30 0 []
  ] 5.

Definition regdom_SA : ieee80211_regdomain := mk_regdom "SA" NL80211_DFS_ETSI [
    REG_RULE_EXT 2402 2482 40 0 20 0 [];
    REG_RULE_EXT 5170 5250 80 0 20 0 [NL80211_RRF_AUTO_BW];
    REG_RULE_EXT 5250 5330 80 0 20 0 [NL80211_RRF_DFS; NL80211_RRF_AUTO_BW];
    REG_RULE_EXT 5490 5710 160 0 27 0 [NL80211_RRF_DFS]
  ] 4.

Definition regdom_SE : ieee80211_regdomain := mk_regdom "SE" NL80211_DFS_ETSI [
    REG_RULE_EXT 2400 2483 40 0 20 0 [];
    REG_RULE_EXT 5150 5250 80 0 23 0 [NL80211_RRF_NO_OUTDOOR; NL80211_RRF_AUTO_BW];
    REG_RULE_EXT 5250 5350 80 0 20 0 [NL80211_RRF_NO_OUTDOOR; NL80211_RRF_DFS; NL80211_RRF_AUTO_BW];
    REG_RULE_EXT 5470 5725 160 0 27 0 [NL80211_RRF_DFS];
    REG_RULE_EXT 5725 5875 80 0 14 0 [];
    REG_RULE_EXT 5945 6425 160 0 23 0 [NL80211_RRF_NO_OUTDOOR];
    REG_RULE_EXT 57000 66000 2160 0 40 0 []
  ] 7.

Definition regdom_SG : ieee80211_regdomain := mk_regdom "SG" NL80211_DFS_FCC [
    REG_RULE_EXT 2400 2483 40 0 23 0 [];
    REG_RULE_EXT 5150 5250 80 0 23 0 [NL80211_RRF_AUTO_BW];
    REG_RULE_EXT 5250 5350 80 0 20 0 [NL80211_RRF_DFS; NL80211_RRF_AUTO_BW];
    REG_RULE_EXT 5470 5730 160 0 27 0 [NL80211_RRF_DFS];
    REG_RULE_EXT 5725 5850 80 0 30 0 [];
    REG_RULE_EXT 5945 6425 320 0 24 0 [NL80211_RRF_NO_OUTDOOR];
    REG_RULE_EXT 57000 66000 2160 0 40 0 []
  ] 7.

Definition regdom_SI : ieee80211_regdomain := mk_regdom "SI" NL80211_DFS_ETSI [
    REG_RULE_EXT 2400 2483 40 0 20 0 [];
    REG_RULE_EXT 5150 5250 80 0 23 0 [NL80211_RRF_NO_OUTDOOR; NL80211_RRF_AUTO_BW];
    REG_RULE_EXT 5250 5350 80 0 20 0 [NL80211_RRF_NO_OUTDOOR; NL80211_RRF_DFS; NL80211_RRF_AUTO_BW];
    REG_RULE_EXT 5470 5725 160 0 27 0 [NL80211_RRF_DFS];
    REG_RULE_EXT 5725 5875 80 0 14 0 [];
    REG_RULE_EXT 5945 6425 160 0 23 0 [NL80211_RRF_NO_OUTDOOR];
    REG_RULE_EXT 57000 66000 2160 0 40 0 []
  ] 7.

Definition regdom_SK : ieee80211_regdomain := mk_regdom "SK" NL80211_DFS_ETSI [
    REG_RULE_EXT 2400 2483 40 0 20 0 [];
    REG_RULE_EXT 5150 5250 80 0 23 0 [NL80211_RRF_NO_OUTDOOR; NL80211_RRF_AUTO_BW];
    REG_RULE_EXT 5250 5350 80 0 20 0 [NL80211_RRF_NO_OUTDOOR; NL80211_RRF_DFS; NL80211_RRF_AUTO_BW];
    REG_RULE_EXT 5470 5725 160 0 27 0 [NL80211_RRF_DFS];
    REG_RULE_EXT 5725 5875 80 0 14 0 [];
    REG_RULE_EXT 5945 6425 160 0 23 0 [NL80211_RRF_NO_OUTDOOR];
    REG_RULE_EXT 57000 66000 2160 0 40 0 []
  ] 7.

Definition regdom_SM : ieee80211_regdomain := mk_regdom "SM" NL80211_DFS_ETSI [
    REG_RULE_EXT 2400 2483 40 0 20 0 [];
    REG_RULE_EXT 5150 5250 80 0 23 0 [NL80211_RRF_NO_OUTDOOR; NL80211_RRF_AUTO_BW];
    REG_RULE_EXT 5250 5350 80 0 20 0 [NL80211_RRF_NO_OUTDOOR; NL80211_RRF_DFS; NL80211_RRF_AUTO_BW];
    REG_RULE_EXT 5470 5725 160 0 27 0 [NL80211_RRF_DFS];
    REG_RULE_EXT 5725 5875 80 0 14 0 [];
    REG_RULE_EXT 5945 6425 160 0 23 0 [NL80211_RRF_NO_OUTDOOR];
    REG_RULE_EXT 57000 66000 2160 0 40 0 []
  ] 7.

Definition regdom_SN : ieee80211_regdomain := mk_regdom "SN" NL80211_DFS_FCC [
    REG_RULE_EXT 2402 2482 40 0 20 0 [];
    REG_RULE_EXT 5170 5250 80 0 17 0 [NL80211_RRF_AUTO_BW];
    REG_RULE_EXT 5250 5330 80 0 24 0 [NL80211_RRF_DFS; NL80211_RRF_AUTO_BW];
    REG_RULE_EXT 5490 5730 160 0 24 0 [NL80211_RRF_DFS];
    REG_RULE_EXT 5735 5835 80 0 30 0 []
  ] 5.

Definition regdom_SR : ieee80211_regdomain := mk_regdom "SR" NL80211_DFS_ETSI [
    REG_RULE_EXT 2402 2482 40 0 20 0 [];
    REG_RULE_EXT 5170 5250 80 0 20 0 [NL80211_RRF_AUTO_BW];
    REG_RULE_EXT 5250 5330 80 0 20 0 [NL80211_RRF_DFS; NL80211_RRF_AUTO_BW];
    REG_RULE_EXT 5490 5710 160 0 27 0 [NL80211_RRF_DFS]
  ] 4.

Definition regdom_SV : ieee80211_regdomain := mk_regdom "SV" NL80211_DFS_FCC [
    REG_RULE_EXT 2402 2482 40 0 20 0 [];
    REG_RULE_EXT 5170 5250 20 0 17 0 [];
    REG_RULE_EXT 5250 5330 20 0 23 0 [NL80211_RRF_DFS];
    REG_RULE_EXT 5735 5835 20 0 30 0 []
  ] 4.

Definition regdom_SY : ieee80211_regdomain := mk_regdom "SY" NL80211_DFS_UNSET [
    REG_RULE_EXT 2402 2482 40 0 20 0 []
  ] 1.

Definition regdom_TC : ieee80211_regdomain := mk_regdom "TC" NL80211_DFS_FCC [
    REG_RULE_EXT 2402 2482 40 0 20 0 [];
    REG_RULE_EXT 5170 5250 80 0 24 0 [NL80211_RRF_AUTO_BW];
    REG_RULE_EXT 5250 5330 80 0 24 0 [NL80211_RRF_DFS; NL80211_RRF_AUTO_BW];
    REG_RULE_EXT 5490 5730 160 0 24 0 [NL80211_RRF_DFS];
    REG_RULE_EXT 5735 5835 80 0 30 0 []
  ] 5.

Definition regdom_TD : ieee80211_regdomain := mk_regdom "TD" NL80211_DFS_ETSI [
    REG_RULE_EXT 2402 2482 40 0 20 0 [];
    REG_RULE_EXT 5170 5250 80 0 20 0 [NL80211_RRF_AUTO_BW];
    REG_RULE_EXT 5250 5330 80 0 20 0 [NL80211_RRF_DFS; NL80211_RRF_AUTO_BW];
    REG_RULE_EXT 5490 5710 160 0 27 0 [NL80211_RRF_DFS]
  ] 4.

Definition regdom_TG : ieee80211_regdomain := mk_regdom "TG" NL80211_DFS_ETSI [
    REG_RULE_EXT 2402 2482 40 0 20 0 [];
    REG_RULE_EXT 5170 5250 40 0 20 0 [];
    REG_RULE_EXT 5250 5330 40 0 20 0 [NL80211_RRF_DFS];
    REG_RULE_EXT 5490 5710 40 0 27 0 [NL80211_RRF_DFS]
  ] 4.

Definition regdom_TH : ieee80211_regdomain := mk_regdom "TH" NL80211_DFS_ETSI [
    REG_RULE_EXT 2400 2483 40 0 20 0 [];
    REG_RULE_EXT 5150 5250 80 0 23 0 [NL80211_RRF_NO_OUTDOOR; NL80211_RRF_AUTO_BW];
    REG_RULE_EXT 5250 5350 80 0 20 0 [NL80211_RRF_NO_OUTDOOR; NL80211_RRF_DFS; NL80211_RRF_AUTO_BW];
    REG_RULE_EXT 5470 5725 160 0 27 0 [NL80211_RRF_DFS];
    REG_RULE_EXT 5725 5875 80 0 14 0 [];
    REG_RULE_EXT 5945 6425 160 0 23 0 [NL80211_RRF_NO_OUTDOOR];
    REG_RULE_EXT 57000 66000 2160 0 40 0 []
  ] 7.

Definition regdom_TJ : ieee80211_regdomain := mk_regdom "TJ" NL80211_DFS_ETSI [
    REG_RULE_EXT 2400 2483 40 0 20 0 [];
    REG_RULE_EXT 5150 5250 80 0 23 0 [NL80211_RRF_NO_OUTDOOR; NL80211_RRF_AUTO_BW];
    REG_RULE_EXT 5250 5350 80 0 20 0 [NL80211_RRF_NO_OUTDOOR; NL80211_RRF_DFS; NL80211_RRF_AUTO_BW];
    REG_RULE_EXT 5470 5725 160 0 27 0 [NL80211_RRF_DFS];
    REG_RULE_EXT 5725 5875 80 0 14 0 [];
    REG_RULE_EXT 5945 6425 160 0 23 0 [NL80211_RRF_NO_OUTDOOR];
    REG_RULE_EXT 57000 66000 2160 0 40 0 []
  ] 7.

Definition regdom_TM : ieee80211_regdomain := mk_regdom "TM" NL80211_DFS_ETSI [
    REG_RULE_EXT 2400 2483 40 0 20 0 [];
    REG_RULE_EXT 5150 5250 80 0 23 0 [NL80211_RRF_NO_OUTDOOR; NL80211_RRF_AUTO_BW];
    REG_RULE_EXT 5250 5350 80 0 20 0 [NL80211_RRF_NO_OUTDOOR; NL80211_RRF_DFS; NL80211_RRF_AUTO_BW];
    REG_RULE_EXT 5470 5725 160 0 27 0 [NL80211_RRF_DFS];
    REG_RULE_EXT 5725 5875 80 0 14 0 [];
    REG_RULE_EXT 5945 6425 160 0 23 0 [NL80211_RRF_NO_OUTDOOR];
    REG_RULE_EXT 57000 66000 2160 0 40 0 []
  ] 7.

Definition regdom_TN : ieee80211_regdomain := mk_regdom "TN" NL80211_DFS_ETSI [
    REG_RULE_EXT 2402 2482 40 0 20 0 [];
    REG_RULE_EXT 5170 5250 80 0 20 0 [NL80211_RRF_AUTO_BW];
    REG_RULE_EXT 5250 5330 80 0 20 0 [NL80211_RRF_DFS; NL80211_RRF_AUTO_BW]
  ] 3.

Definition regdom_TR : ieee80211_regdomain := mk_regdom "TR" NL80211_DFS_ETSI [
    REG_RULE_EXT 2400 2483 40 0 20 0 [];
    REG_RULE_EXT 5150 5250 80 0 23 0 [NL80211_RRF_AUTO_BW; NL80211_RRF_NO_OUTDOOR];
    REG_RULE_EXT 5250 5330 80 0 20 0 [NL80211_RRF_NO_OUTDOOR; NL80211_RRF_DFS; NL80211_RRF_AUTO_BW];
    REG_RULE_EXT 5470 5725 160 0 27 0 [NL80211_RRF_DFS];
    REG_RULE_EXT 5495 6425 160 0 23 0 [NL80211_RRF_NO_OUTDOOR];
    REG_RULE_EXT 57000 66000 2160 0 40 0 []
  ] 6.

Definition regdom_TT : ieee80211_regdomain := mk_regdom "TT" NL80211_DFS_FCC [
    REG_RULE_EXT 2402 2482 40 0 20 0 [];
    REG_RULE_EXT 5170 5250 80 0 17 0 [NL80211_RRF_AUTO_BW];
    REG_RULE_EXT 5250 5330 80 0 24 0 [NL80211_RRF_DFS; NL80211_RRF_AUTO_BW];
    REG_RULE_EXT 5490 5730 160 0 24 0 [NL80211_RRF_DFS];
    REG_RULE_EXT 5735 5835 80 0 30 0 []
  ] 5.

Definition regdom_TW : ieee80211_regdomain := mk_regdom "TW" NL80211_DFS_FCC [
    REG_RULE_EXT 2400 2483 40 0 30 0 [];
    REG_RULE_EXT 5150 5250 80 0 23 0 [NL80211_RRF_AUTO_BW];
    REG_RULE_EXT 5250 5350 80 0 23 0 [NL80211_RRF_DFS; NL80211_RRF_AUTO_BW];
    REG_RULE_EXT 5470 5730 160 0 23 0 [NL80211_RRF_DFS];
    REG_RULE_EXT 5725 5850 80 0 30 0 [];
    REG_RULE_EXT 5945 6425 320 0 23 0 [NL80211_RRF_NO_OUTDOOR];
    REG_RULE_EXT 57000 66000 2160 0 40 0 []
  ] 7.

Definition regdom_TZ : ieee80211_regdomain := mk_regdom "TZ" NL80211_DFS_UNSET [
    REG_RULE_EXT 2402 2482 40 0 20 0 [];
    REG_RULE_EXT 5735 5835 80 0 30 0 []
  ] 2.

Definition regdom_UA : ieee80211_regdomain := mk_regdom "UA" NL80211_DFS_ETSI [
    REG_RULE_EXT 2400 2483 40 0 20 0 [NL80211_RRF_NO_OUTDOOR];
    REG_RULE_EXT 5150 5250 80 0 20 0 [NL80211_RRF_NO_OUTDOOR; NL80211_RRF_AUTO_BW];
    REG_RULE_EXT 5250 5350 80 0 20 0 [NL80211_RRF_DFS; NL80211_RRF_NO_OUTDOOR; NL80211_RRF_AUTO_BW];
    REG_RULE_EXT 5470 5725 160 0 20 0 [NL80211_RRF_DFS; NL80211_RRF_NO_OUTDOOR];
    REG_RULE_EXT 5725 5850 80 0 20 0 [NL80211_RRF_NO_OUTDOOR];
    REG_RULE_EXT 57000 66000 2160 0 16 0 [NL80211_RRF_NO_OUTDOOR]
  ] 6.

Definition regdom_UG : ieee80211_regdomain := mk_regdom "UG" NL80211_DFS_FCC [
    REG_RULE_EXT 2402 2482 40 0 20 0 [];
    REG_RULE_EXT 5170 5250 80 0 24 0 [NL80211_RRF_AUTO_BW];
    REG_RULE_EXT 5250 5330 80 0 24 0 [NL80211_RRF_DFS; NL80211_RRF_AUTO_BW];
    REG_RULE_EXT 5490 5730 160 0 24 0 [NL80211_RRF_DFS];
    REG_RULE_EXT 5735 5835 80 0 30 0 []
  ] 5.

Definition regdom_US : ieee80211_regdomain := mk_regdom "US" NL80211_DFS_FCC [
    REG_RULE_EXT 2400 2472 40 0 30 0 [];
    REG_RULE_EXT 5150 5250 80 0 23 0 [NL80211_RRF_AUTO_BW];
    REG_RULE_EXT 5250 5350 80 0 24 0 [NL80211_RRF_DFS; NL80211_RRF_AUTO_BW];
    REG_RULE_EXT 5470 5730 160 0 24 0 [NL80211_RRF_DFS];
    REG_RULE_EXT 5730 5850 80 0 30 0 [NL80211_RRF_AUTO_BW];
    REG_RULE_EXT 5850 5895 40 0 27 0 [NL80211_RRF_AUTO_BW; NL80211_RRF_NO_OUTDOOR];
    REG_RULE_EXT 5925 7125 320 0 12 0 [NL80211_RRF_NO_IR; NL80211_RRF_NO_OUTDOOR];
    REG_RULE_EXT 57240 71000 2160 0 40 0 []
  ] 8.

Definition regdom_UY : ieee80211_regdomain := mk_regdom "UY" NL80211_DFS_ETSI [
    REG_RULE_EXT 2400 2483 40 0 20 0 [];
    REG_RULE_EXT 5150 5250 80 0 23 0 [NL80211_RRF_NO_OUTDOOR; NL80211_RRF_AUTO_BW];
    REG_RULE_EXT 5250 5350 80 0 20 0 [NL80211_RRF_NO_OUTDOOR; NL80211_RRF_DFS; NL80211_RRF_AUTO_BW];
    REG_RULE_EXT 5470 5725 160 0 27 0 [NL80211_RRF_DFS];
    REG_RULE_EXT 5725 5875 80 0 14 0 [];
    REG_RULE_EXT 5945 6425 160 0 23 0 [NL80211_RRF_NO_OUTDOOR];
    REG_RULE_EXT 57000 66000 2160 0 40 0 []
  ] 7.

Definition regdom_UZ : ieee80211_regdomain := mk_regdom "UZ" NL80211_DFS_ETSI [
    REG_RULE_EXT 2402 2482 40 0 20 0 [];
    REG_RULE_EXT 5170 5250 80 0 20 0 [NL80211_RRF_AUTO_BW];
    REG_RULE_EXT 5250 5330 80 0 20 0 [NL80211_RRF_DFS; NL80211_RRF_AUTO_BW]
  ] 3.

Definition regdom_VC : ieee80211_regdomain := mk_regdom "VC" NL80211_DFS_ETSI [
    REG_RULE_EXT 2402 2482 40 0 20 0 [];
    REG_RULE_EXT 5170 5250 80 0 20 0 [NL80211_RRF_AUTO_BW];
    REG_RULE_EXT 5250 5330 80 0 20 0 [NL80211_RRF_DFS; NL80211_RRF_AUTO_BW];
    REG_RULE_EXT 5490 5710 160 0 27 0 [NL80211_RRF_DFS]
  ] 4.

Definition regdom_VE : ieee80211_regdomain := mk_regdom "VE" NL80211_DFS_FCC [
    REG_RULE_EXT 2402 2482 40 0 30 0 [];
    REG_RULE_EXT 5170 5250 80 0 23 0 [NL80211_RRF_AUTO_BW];
    REG_RULE_EXT 5250 5330 80 0 23 0 [NL80211_RRF_DFS; NL80211_RRF_AUTO_BW];
    REG_RULE_EXT 5735 5835 80 0 30 0 []
  ] 4.

Definition regdom_VI : ieee80211_regdomain := mk_regdom "VI" NL80211_DFS_FCC [
    REG_RULE_EXT 2402 2472 40 0 30 0 [];
    REG_RULE_EXT 5170 5250 80 0 24 0 [NL80211_RRF_AUTO_BW];
    REG_RULE_EXT 5250 5330 80 0 24 0 [NL80211_RRF_DFS; NL80211_RRF_AUTO_BW];
    REG_RULE_EXT 5490 5730 160 0 24 0 [NL80211_RRF_DFS];
    REG_RULE_EXT 5735 5835 80 0 30 0 []
  ] 5.

Definition regdom_VN : ieee80211_regdomain := mk_regdom "VN" NL80211_DFS_FCC [
    REG_RULE_EXT 2402 2482 40 0 20 0 [];
    REG_RULE_EXT 5170 5250 80 0 17 0 [];
    REG_RULE_EXT 5250 5330 80 0 24 0 [NL80211_RRF_DFS];
    REG_RULE_EXT 5490 5730 80 0 24 0 [NL80211_RRF_DFS];
    REG_RULE_EXT 5735 5835 80 0 30 0 []
  ] 5.

Definition regdom_VU : ieee80211_regdomain := mk_regdom "VU" NL80211_DFS_FCC [
    REG_RULE_EXT 2402 2482 40 0 20 0 [];
    REG_RULE_EXT 5170 5250 80 0 17 0 [NL80211_RRF_AUTO_BW];
    REG_RULE_EXT 5250 5330 80 0 24 0 [NL80211_RRF_DFS; NL80211_RRF_AUTO_BW];
    REG_RULE_EXT 5490 5730 160 0 24 0 [NL80211_RRF_DFS];
    REG_RULE_EXT 5735 5835 80 0 30 0 []
  ] 5.

Definition regdom_WF : ieee80211_regdomain := mk_regdom "WF" NL80211_DFS_ETSI [
    REG_RULE_EXT 2402 2482 40 0 20 0 [];
    REG_RULE_EXT 5170 5250 80 0 20 0 [NL80211_RRF_AUTO_BW];
    REG_RULE_EXT 5250 5330 80 0 20 0 [NL80211_RRF_DFS; NL80211_RRF_AUTO_BW];
    REG_RULE_EXT 5490 5710 160 0 27 0 [NL80211_RRF_DFS]
  ] 4.

Definition regdom_WS : ieee80211_regdomain := mk_regdom "WS" NL80211_DFS_ETSI [
    REG_RULE_EXT 2402 2482 40 0 20 0 [];
    REG_RULE_EXT 5170 5250 40 0 20 0 [];
    REG_RULE_EXT 5250 5330 40 0 20 0 [NL80211_RRF_DFS];
    REG_RULE_EXT 5490 5710 40 0 27 0 [NL80211_RRF_DFS]
  ] 4.

Definition regdom_FK : ieee80211_regdomain := mk_regdom "FK" NL80211_DFS_ETSI [
    REG_RULE_EXT 2400 2483 40 0 20 0 [];
    REG_RULE_EXT 5150 5250 80 0 23 0 [NL80211_RRF_NO_OUTDOOR; NL80211_RRF_AUTO_BW];
    REG_RULE_EXT 5250 5350 80 0 20 0 [NL80211_RRF_NO_OUTDOOR; NL80211_RRF_DFS; NL80211_RRF_AUTO_BW];
    REG_RULE_EXT 5470 5725 160 0 27 0 [NL80211_RRF_DFS];
    REG_RULE_EXT 5725 5875 80 0 14 0 [];
    REG_RULE_EXT 5945 6425 160 0 23 0 [NL80211_RRF_NO_OUTDOOR];
    REG_RULE_EXT 57000 66000 2160 0 40 0 []
  ] 7.

Definition regdom_FO : ieee80211_regdomain := mk_regdom "FO" NL80211_DFS_ETSI [
    REG_RULE_EXT 2400 2483 40 0 20 0 [];
    REG_RULE_EXT 5150 5250 80 0 23 0 [NL80211_RRF_NO_OUTDOOR; NL80211_RRF_AUTO_BW];
    REG_RULE_EXT 5250 5350 80 0 20 0 [NL80211_RRF_NO_OUTDOOR; NL80211_RRF_DFS; NL80211_RRF_AUTO_BW];
    REG_RULE_EXT 5470 5725 160 0 27 0 [NL80211_RRF_DFS];
    REG_RULE_EXT 5725 5875 80 0 14 0 [];
    REG_RULE_EXT 5945 6425 160 0 23 0 [NL80211_RRF_NO_OUTDOOR];
    REG_RULE_EXT 57000 66000 2160 0 40 0 []
  ] 7.

Definition regdom_YE : ieee80211_regdomain := mk_regdom "YE" NL80211_DFS_UNSET [
    REG_RULE_EXT 2402 2482 40 0 20 0 []
  ] 1.

Definition regdom_YT : ieee80211_regdomain := mk_regdom "YT" NL80211_DFS_ETSI [
    REG_RULE_EXT 2402 2482 40 0 20 0 [];
    REG_RULE_EXT 5170 5250 80 0 20 0 [NL80211_RRF_AUTO_BW];
    REG_RULE_EXT 5250 5330 80 0 20 0 [NL80211_RRF_DFS; NL80211_RRF_AUTO_BW];
    REG_RULE_EXT 5490 5710 160 0 27 0 [NL80211_RRF_DFS]
  ] 4.

Definition regdom_ZA : ieee80211_regdomain := mk_regdom "ZA" NL80211_DFS_ETSI [
    REG_RULE_EXT 2402 2482 40 0 20 0 [];
    REG_RULE_EXT 5170 5250 80 0 20 0 [NL80211_RRF_AUTO_BW];
    REG_RULE_EXT 5250 5330 80 0 20 0 [NL80211_RRF_DFS; NL80211_RRF_AUTO_BW];
    REG_RULE_EXT 5490 5710 160 0 30 0 []
  ] 4.

Definition regdom_ZM : ieee80211_regdomain := mk_regdom "ZM" NL80211_DFS_ETSI [
    REG_RULE_EXT 2400 2483 40 0 20 0 [];
    REG_RULE_EXT 5150 5250 80 0 23 0 [NL80211_RRF_NO_OUTDOOR; NL80211_RRF_AUTO_BW];
    REG_RULE_EXT 5250 5350 80 0 20 0 [NL80211_RRF_NO_OUTDOOR; NL80211_RRF_DFS; NL80211_RRF_AUTO_BW];
    REG_RULE_EXT 5470 5725 160 0 27 0 [NL80211_RRF_DFS];
    REG_RULE_EXT 5725 5875 80 0 14 0 [];
    REG_RULE_EXT 5945 6425 160 0 23 0 [NL80211_RRF_NO_OUTDOOR];
    REG_RULE_EXT 57000 66000 2160 0 40 0 []
  ] 7.

Definition regdom_ZW : ieee80211_regdomain := mk_regdom "ZW" NL80211_DFS_ETSI [
    REG_RULE_EXT 2402 2482 40 0 20 0 [];
    REG_RULE_EXT 5170 5250 80 0 20 0 [NL80211_RRF_AUTO_BW];
    REG_RULE_EXT 5250 5330 80 0 20 0 [NL80211_RRF_DFS; NL80211_RRF_AUTO_BW];
    REG_RULE_EXT 5490 5710 160 0 27 0 [NL80211_RRF_DFS]
  ] 4.

Definition regdom_WW : ieee80211_regdomain := mk_regdom "WW" NL80211_DFS_UNSET [
    REG_RULE (2390 - 10) (2510 + 10) 40 0 20 [];
    REG_RULE (5150 - 10) (5970 + 10) 80 0 20 []
  ] 2.

Definition regdom_XX : ieee80211_regdomain := mk_regdom "XX" NL80211_DFS_UNSET [
    REG_RULE (2412 - 10) (2462 + 10) 40 0 20 []
  ] 1.

Definition reg_regdb : list ieee80211_regdomain := [
  regdom_00; regdom_AD; regdom_AE; regdom_AF; regdom_AI; regdom_AL; regdom_AM; regdom_AN;
  regdom_AR; regdom_AS; regdom_AT; regdom_AU; regdom_AW; regdom_AZ; regdom_BA; regdom_BB;
  regdom_BD; regdom_BE; regdom_BF; regdom_BG; regdom_BH; regdom_BL; regdom_BM; regdom_BN;
  regdom_BO; regdom_BR; regdom_BS; regdom_BT; regdom_BY; regdom_BZ; regdom_CA; regdom_CF;
  regdom_CH; regdom_CI; regdom_CL; regdom_CN; regdom_CO; regdom_CR; regdom_CX; regdom_CY;
  regdom_CZ; regdom_DE; regdom_DK; regdom_DM; regdom_DO; regdom_DZ; regdom_EC; regdom_EE;
  regdom_EG; regdom_ES; regdom_ET; regdom_FI; regdom_FM; regdom_FR; regdom_GB; regdom_GD;
  regdom_GE; regdom_GF; regdom_GH; regdom_GL; regdom_GP; regdom_GR; regdom_GT; regdom_GU;
  regdom_GY; regdom_HK; regdom_HN; regdom_HR; regdom_HT; regdom_HU; regdom_ID; regdom_IE;
  regdom_IL; regdom_IN; regdom_IR; regdom_IS; regdom_IT; regdom_JM; regdom_JO; regdom_JP;
  regdom_KE; regdom_KH; regdom_KN; regdom_KP; regdom_KR; regdom_KW; regdom_KY; regdom_KZ;
  regdom_LB; regdom_LC; regdom_LI; regdom_LK; regdom_LS; regdom_LT; regdom_LU; regdom_LV;
  regdom_MA; regdom_MC; regdom_MD; regdom_ME; regdom_MF; regdom_MH; regdom_MK; regdom_MN;
  regdom_MO; regdom_MP; regdom_MQ; regdom_MR; regdom_MT; regdom_MU; regdom_MW; regdom_MX;
  regdom_MY; regdom_NI; regdom_NL; regdom_NO; regdom_NP; regdom_NZ; regdom_OM; regdom_PA;
  regdom_PE; regdom_PF; regdom_PG; regdom_PH; regdom_PK; regdom_PL; regdom_PM; regdom_PR;
  regdom_PT; regdom_PW; regdom_PY; regdom_QA; regdom_RE; regdom_RO; regdom_RS; regdom_RU;
  regdom_RW; regdom_SA; regdom_SE; regdom_SG; regdom_SI; regdom_SK; regdom_SN; regdom_SR;
  regdom_SV; regdom_SY; regdom_TC; regdom_TD; regdom_TG; regdom_TH; regdom_TN; regdom_TR;
  regdom_TT; regdom_TW; regdom_UA; regdom_UG; regdom_US; regdom_UY; regdom_UZ; regdom_VC;
  regdom_VE; regdom_VI; regdom_VN; regdom_VU; regdom_WF; regdom_YE; regdom_YT; regdom_ZA;
  regdom_ZW; regdom_BW; regdom_GI; regdom_IQ; regdom_KG; regdom_LY; regdom_MV; regdom_NA;
  regdom_NG; regdom_SM; regdom_TJ; regdom_TM; regdom_FK; regdom_FO; regdom_ZM; regdom_CU;
  regdom_TZ; regdom_WS; regdom_WW; regdom_XX
].

Definition reg_regdb_size : Z := Z.of_nat (length reg_regdb).

End Db.
