(* ===== verification/Regulatory.v ===== *)
(** Regulatory domains: what [rwnx_mod_params.c] does with the database of
    [Regdb].

    [Reg]: the lookup of a country, [getRegdomainFromRwnxDB], with the list of
    allowed channels it writes for user space ([rwnx_get_countrycode_channels]);
    the channels of the two bands come from [rwnx_main.c].  The number of a
    channel is computed by the kernel. *)
From Stdlib Require Import ZArith Lia Ascii String.
From stdpp Require Import base list numbers strings pretty.
From S2P Require Import Prelude Regdb.

#[local] Open Scope Z_scope.
#[local] Open Scope aic_scope.

(** The bytes of a string, and the byte at a position of a C string. *)
Definition chr (a : ascii) : Z := Z.of_N (N_of_ascii a).
Fixpoint bytes (s : string) : list Z :=
  match s with EmptyString => [] | String a s => chr a :: bytes s end.
Definition char_at (s : string) (i : nat) : Z := default 0 (bytes s !! i).

Module Reg.
Import Db.

Inductive nl80211_band := NL80211_BAND_2GHZ | NL80211_BAND_5GHZ.

(** The center frequencies of [rwnx_2ghz_channels] and [rwnx_5ghz_channels];
    the last 13 and 59 are there for measurements only. *)
Definition rwnx_2ghz_channels : list Z :=
  [2412; 2417; 2422; 2427; 2432; 2437; 2442; 2447; 2452; 2457; 2462; 2467; 2472; 2484;
   2390; 2400; 2410; 2420; 2430; 2440; 2450; 2460; 2470; 2480; 2490; 2500; 2510].
Definition rwnx_5ghz_channels : list Z :=
  [5180; 5200; 5220; 5240; 5260; 5280; 5300; 5320; 5500; 5520; 5540; 5560; 5580; 5600; 5620; 5640; 5660; 5680; 5700; 5720;
   5745; 5765; 5785; 5805; 5825;
   5190; 5210; 5230; 5250; 5270; 5290; 5310; 5330; 5340; 5350; 5360; 5370; 5380; 5390; 5400; 5410; 5420; 5430; 5440; 5450;
   5460; 5470; 5480; 5490; 5510; 5530; 5550; 5570; 5590; 5610; 5630; 5650; 5670; 5690; 5710; 5730; 5750; 5760; 5770; 5780;
   5790; 5800; 5810; 5820; 5830; 5840; 5850; 5860; 5870; 5880; 5890; 5900; 5910; 5920; 5930; 5940; 5950; 5960; 5970].

Record ieee80211_supported_band := mk_band { channels : list Z; n_channels : Z }.
Definition rwnx_band_2GHz : ieee80211_supported_band := mk_band rwnx_2ghz_channels (Z.of_nat (length rwnx_2ghz_channels) - 13).
Definition rwnx_band_5GHz : ieee80211_supported_band := mk_band rwnx_5ghz_channels (Z.of_nat (length rwnx_5ghz_channels) - 59).

(** The bands of the device; [custchan] adds the other channels
    ([rwnx_set_wiphy_params]). *)
Definition bands (band_5g_support custchan : bool) : list ieee80211_supported_band :=
  let extra n b := if custchan then mk_band (channels b) (n_channels b + n) else b in
  extra 13 rwnx_band_2GHz :: (if band_5g_support then [extra 59 rwnx_band_5GHz] else []).

Definition default_ccode : list Z := [48; 48; 0; 0].

Record reg_state := mk_reg {
  country_code : list Z;                       (* 4 bytes *)
  ccode_channels : list Z                      (* 200 bytes *)
}.

Section Channels.
(** [ieee80211_frequency_to_channel] *)
Context (freq_to_chan : Z -> Z).

(** [sprintf(channel, "%d", ...)] into the four bytes of [channel]. *)
Definition print_channel (n : Z) : res (list Z) :=
  let s := bytes (pretty n) in
  if (3 <? length s)%nat then Fault OutOfBounds else Ok s.

(** A write of [s] at [index_for_channel_list], which is the number of bytes
    written so far. *)
Definition put_text (s text : list Z) : res (list Z) :=
  if (200 <? length text + length s)%nat then Fault OutOfBounds else Ok (text ++ s).

(** The loop over the rules, with the read of each of them. *)
Fixpoint rules_loop (rules : list ieee80211_reg_rule) (n : nat) (center_freq : Z) : res bool :=
  match n, rules with
  | O, _ => Ok false
  | Datatypes.S _, [] => Fault OutOfBounds
  | Datatypes.S n, r :: rules =>
      let start_freq := Z.quot (start_freq_khz r) 1000 in
      let end_freq := Z.quot (end_freq_khz r) 1000 in
      if (start_freq <=? center_freq - 10) && (center_freq + 10 <=? end_freq) then Ok true
      else rules_loop rules n center_freq
  end.

Definition add_channel (d : ieee80211_regdomain) (f : Z) (text : list Z) : res (list Z) :=
  ok ← rules_loop (reg_rules d) (Z.to_nat (n_reg_rules d)) f;
  if ok : bool then
    s ← print_channel (freq_to_chan f);
    text ← put_text s text;
    put_text [32] text
  else Ok text.

Definition band_loop (d : ieee80211_regdomain) (b : ieee80211_supported_band) (text : list Z) : res (list Z) :=
  foldM (fun i text => match channels b !! i with Some f => add_channel d f text | None => Fault OutOfBounds end)
    (seq 0 (Z.to_nat (n_channels b))) text.

(** The text, in a buffer cleared before. *)
Definition rwnx_get_countrycode_channels (bs : list ieee80211_supported_band) (d : ieee80211_regdomain) : res (list Z) :=
  text ← foldM (band_loop d) bs [];
  Ok (text ++ replicate (200 - length text) 0).

Definition getRegdomainFromRwnxDBIndex (bs : list ieee80211_supported_band) (index : Z) : res (ieee80211_regdomain * reg_state) :=
  match reg_regdb !! Z.to_nat (u8 index) with
  | None => Fault OutOfBounds
  | Some d =>
      t ← rwnx_get_countrycode_channels bs d;
      Ok (d, mk_reg [char_at (alpha2 d) 0; char_at (alpha2 d) 1; 0; 0] t)
  end.

(** The loop over the table.  The test of the pointer comes before the test of
    the index, so behind the last entry a word is read that is not of the
    table: [behind], if there is one that can be read. *)
Fixpoint db_loop (behind : option Z) (db : list ieee80211_regdomain) (cc : string) : res (option ieee80211_regdomain) :=
  match db with
  | [] => match behind with Some _ => Ok None | None => Fault OutOfBounds end
  | d :: db => if (char_at (alpha2 d) 0 =? char_at cc 0) && (char_at (alpha2 d) 1 =? char_at cc 1) then Ok (Some d) else db_loop behind db cc
  end.

Definition getRegdomainFromRwnxDB (behind : option Z) (bs : list ieee80211_supported_band) (cc : string) : res (ieee80211_regdomain * reg_state) :=
  o ← db_loop behind reg_regdb cc;
  match o with
  | Some d => t ← rwnx_get_countrycode_channels bs d; Ok (d, mk_reg [char_at cc 0; char_at cc 1; 0; 0] t)
  | None => t ← rwnx_get_countrycode_channels bs regdom_00; Ok (regdom_00, mk_reg default_ccode t)
  end.

End Channels.
End Reg.

Module RegSpec.
Import Db Reg.

(** ** Well-formed domains *)

Record rule_ok (r : ieee80211_reg_rule) : Prop := {
  ro_range : 0 < start_freq_khz r < end_freq_khz r;
  ro_width : 0 < max_bandwidth_khz r <= end_freq_khz r - start_freq_khz r;
  ro_power : 0 < max_eirp r /\ 0 <= max_antenna_gain r
}.
#[export] Instance rule_ok_dec r : Decision (rule_ok r).
Proof.
  refine (cast_if (decide ((0 < start_freq_khz r < end_freq_khz r) /\ (0 < max_bandwidth_khz r <= end_freq_khz r - start_freq_khz r) /\
    0 < max_eirp r /\ 0 <= max_antenna_gain r))); [constructor; tauto|intros []; tauto].
Defined.

Record dom_ok (d : ieee80211_regdomain) : Prop := {
  do_name : String.length (alpha2 d) = 2%nat;
  do_count : 0 < n_reg_rules d <= Z.of_nat (length (reg_rules d));
  do_rules : Forall rule_ok (reg_rules d)
}.
#[export] Instance dom_ok_dec d : Decision (dom_ok d).
Proof.
  refine (cast_if (decide (String.length (alpha2 d) = 2%nat /\ (0 < n_reg_rules d <= Z.of_nat (length (reg_rules d))) /\ Forall rule_ok (reg_rules d))));
    [constructor; tauto|intros []; tauto].
Defined.

(** ** The channels of a domain *)

(** The 20 MHz around the frequency lie in one of the rules that count. *)
Definition allowed (d : ieee80211_regdomain) (f : Z) : Prop :=
  Exists (fun r => start_freq_khz r / 1000 <= f - 10 /\ f + 10 <= end_freq_khz r / 1000) (take (Z.to_nat (n_reg_rules d)) (reg_rules d)).
#[export] Instance allowed_dec d f : Decision (allowed d f).
Proof. unfold allowed. apply _. Defined.

Definition band_freqs (b : ieee80211_supported_band) : list Z := take (Z.to_nat (n_channels b)) (channels b).
Definition band_ok (b : ieee80211_supported_band) : Prop := 0 <= n_channels b <= Z.of_nat (length (channels b)).

Section Text.
Context (freq_to_chan : Z -> Z).
Definition show (f : Z) : list Z := bytes (pretty (freq_to_chan f)) ++ [32].
Definition channels_text (bs : list ieee80211_supported_band) (d : ieee80211_regdomain) : list Z :=
  concat (show <$> filter (allowed d) (concat (band_freqs <$> bs))).

(** A channel number that fits the four bytes of [channel]. *)
Definition printable (f : Z) : Prop := (length (bytes (pretty (freq_to_chan f))) <= 3)%nat.
#[export] Instance printable_dec f : Decision (printable f) := decide (_ <= _)%nat.

(** A text that fits. *)
Definition fits (t : list Z) : res (list Z) := if (200 <? length t)%nat then Fault OutOfBounds else Ok t.

Lemma fits_ok t : (length t <= 200)%nat -> fits t = Ok t.
Proof. intros H. unfold fits. destruct (Nat.ltb_spec 200 (length t)); [lia|done]. Qed.
Lemma fits_over t : (200 < length t)%nat -> fits t = Fault OutOfBounds.
Proof. intros H. unfold fits. destruct (Nat.ltb_spec 200 (length t)); [done|lia]. Qed.
Lemma put_fits s t : put_text s t = fits (t ++ s).
Proof. unfold put_text, fits. now rewrite length_app. Qed.

Definition covers (f : Z) (r : ieee80211_reg_rule) : Prop :=
  start_freq_khz r / 1000 <= f - 10 /\ f + 10 <= end_freq_khz r / 1000.

Lemma rules_loop_walk f : forall n l, (n <= length l)%nat -> Forall rule_ok l ->
  exists b, rules_loop l n f = Ok b /\ (b = true <-> Exists (covers f) (take n l)).
Proof.
  intros n l. revert n. induction l as [|r l IH]; intros [|n] Hl Hr; cbn [rules_loop take length] in *; try lia;
    try (exists false; split; [done|]; rewrite Exists_nil; done).
  apply Forall_cons_1 in Hr as [[[Hs He] _ _] Hr]. rewrite !Z.quot_div_nonneg by lia.
  destruct ((start_freq_khz r / 1000 <=? f - 10) && (f + 10 <=? end_freq_khz r / 1000)) eqn:E.
  - apply andb_true_iff in E as [E1 E2]. rewrite Z.leb_le in E1, E2. exists true. split; [done|]. split; [|done]. intros _. now constructor.
  - destruct (IH n) as (b & -> & Hb); [lia|done|]. exists b. split; [done|]. rewrite Exists_cons, Hb. split; [auto|]. intros [[H1 H2]|H]; [|done].
    apply andb_false_iff in E as [E|E]; apply Z.leb_gt in E; lia.
Qed.

Lemma rules_loop_spec d f : dom_ok d -> rules_loop (reg_rules d) (Z.to_nat (n_reg_rules d)) f = Ok (bool_decide (allowed d f)).
Proof.
  intros [_ Hn Hr]. destruct (rules_loop_walk f (Z.to_nat (n_reg_rules d)) (reg_rules d)) as (b & -> & Hb); [lia|done|].
  f_equal. symmetry. destruct b; [apply bool_decide_true; now apply Hb|apply bool_decide_false; intros Ha; apply Hb in Ha; discriminate].
Qed.

Definition text_of (d : ieee80211_regdomain) (fs : list Z) : list Z := concat (show <$> filter (allowed d) fs).

(** The text goes on with the channels of [fs], if it can. *)
Definition goes_on (d : ieee80211_regdomain) (fs t : list Z) : res (list Z) :=
  if decide (Forall printable (filter (allowed d) fs)) then fits (t ++ text_of d fs) else Fault OutOfBounds.

Lemma text_of_app d fs gs : text_of d (fs ++ gs) = text_of d fs ++ text_of d gs.
Proof. unfold text_of. now rewrite filter_app, fmap_app, concat_app. Qed.

Lemma goes_on_nil d t : (length t <= 200)%nat -> goes_on d [] t = Ok t.
Proof. intros Ht. unfold goes_on, text_of. cbn. rewrite app_nil_r. now apply fits_ok. Qed.

Lemma goes_on_app d fs gs t : goes_on d (fs ++ gs) t = (u ← goes_on d fs t; goes_on d gs u).
Proof.
  unfold goes_on. rewrite filter_app, text_of_app.
  destruct (decide (Forall printable (filter (allowed d) fs))) as [Hf|Hf]; destruct (decide (Forall printable (_ ++ _))) as [H|H]; cbn [mbind res_bind].
  - apply Forall_app in H as [_ H]. rewrite app_assoc. destruct (Nat.le_gt_cases (length (t ++ text_of d fs)) 200).
    + rewrite (fits_ok (t ++ text_of d fs)) by done. cbn [mbind res_bind]. now rewrite decide_True by done.
    + rewrite (fits_over (t ++ text_of d fs)) by done. cbn [mbind res_bind]. rewrite fits_over; [done|]. rewrite length_app. lia.
  - destruct (Nat.le_gt_cases (length (t ++ text_of d fs)) 200).
    + rewrite fits_ok by done. cbn [mbind res_bind]. rewrite decide_False; [done|]. intros Hg. apply H, Forall_app. done.
    + now rewrite fits_over.
  - apply Forall_app in H as [H _]. done.
  - done.
Qed.

Lemma add_channel_spec d f t : dom_ok d -> (length t <= 200)%nat -> add_channel freq_to_chan d f t = goes_on d [f] t.
Proof.
  intros Hd Ht. unfold add_channel, goes_on, text_of. rewrite rules_loop_spec by done. cbn [mbind res_bind]. rewrite filter_cons, filter_nil.
  destruct (decide (allowed d f)) as [Ha|Ha].
  - rewrite bool_decide_true by done. unfold print_channel. cbn [fmap list_fmap concat]. rewrite app_nil_r.
    destruct (Nat.ltb_spec 3 (length (bytes (pretty (freq_to_chan f))))) as [Hp|Hp]; cbn [mbind res_bind].
    + rewrite decide_False; [done|]. intros H. apply Forall_cons_1 in H as [H _]. unfold printable in H. lia.
    + rewrite decide_True by (constructor; [exact Hp|constructor]). rewrite put_fits. unfold show.
      unfold fits at 1. rewrite length_app. destruct (Nat.ltb_spec 200 (length t + length (bytes (pretty (freq_to_chan f))))); cbn [mbind res_bind].
      * rewrite fits_over; [done|]. rewrite !length_app. cbn. lia.
      * rewrite put_fits. now rewrite <- app_assoc.
  - rewrite bool_decide_false by done. rewrite decide_True by constructor. cbn. rewrite app_nil_r. now rewrite fits_ok.
Qed.

(** A result of [goes_on] is a text that fits. *)
Lemma goes_on_length d fs t u : goes_on d fs t = Ok u -> (length u <= 200)%nat.
Proof.
  unfold goes_on, fits. destruct (decide _); [|done]. destruct (Nat.ltb_spec 200 (length (t ++ text_of d fs))) as [H|H]; [done|]. intros [= <-]. done.
Qed.

Lemma add_all d fs : dom_ok d -> forall t, (length t <= 200)%nat -> foldM (add_channel freq_to_chan d) fs t = goes_on d fs t.
Proof.
  intros Hd. induction fs as [|f fs IH]; intros t Ht; cbn [foldM]; [now rewrite goes_on_nil|].
  rewrite add_channel_spec by done. change (f :: fs) with ([f] ++ fs). rewrite goes_on_app.
  destruct (goes_on d [f] t) as [u|] eqn:E; cbn [mbind res_bind]; [|done]. apply IH. eapply goes_on_length, E.
Qed.

Lemma band_loop_spec d b t : dom_ok d -> band_ok b -> (length t <= 200)%nat ->
  band_loop freq_to_chan d b t = goes_on d (band_freqs b) t.
Proof.
  intros Hd Hb Ht. rewrite <- add_all by done. unfold band_loop, band_freqs. unfold band_ok in Hb.
  assert (Z.to_nat (n_channels b) <= length (channels b))%nat as Hl by lia. clear Hb. revert Hl t Ht.
  generalize (Z.to_nat (n_channels b)) as n, (channels b) as l.
  assert (forall n (l pre : list Z) t, (n <= length l)%nat ->
    foldM (fun i text => match (pre ++ l) !! i with Some f => add_channel freq_to_chan d f text | None => Fault OutOfBounds end) (seq (length pre) n) t
    = foldM (add_channel freq_to_chan d) (take n l) t) as H.
  { induction n as [|n IH]; intros l pre t Hn; [done|]. destruct l as [|f l]; [cbn in Hn; lia|]. cbn [seq take foldM].
    rewrite list_lookup_middle by done. destruct (add_channel freq_to_chan d f t) as [t'|]; [|done]. cbn [mbind res_bind].
    specialize (IH l (pre ++ [f]) t'). rewrite <- app_assoc, length_app, Nat.add_1_r in IH. apply IH. cbn in Hn. lia. }
  intros n l Hl t _. apply (H n l [] t Hl).
Qed.

(** The whole text, without any assumption on the numbers of the channels. *)
Lemma channels_spec bs d : dom_ok d -> Forall band_ok bs ->
  rwnx_get_countrycode_channels freq_to_chan bs d = (t ← goes_on d (concat (band_freqs <$> bs)) []; Ok (t ++ replicate (200 - length t) 0)).
Proof.
  intros Hd Hb. unfold rwnx_get_countrycode_channels. f_equal.
  assert (forall t, (length t <= 200)%nat -> foldM (band_loop freq_to_chan d) bs t = goes_on d (concat (band_freqs <$> bs)) t) as H; [|apply H; cbn; lia].
  induction bs as [|b bs IH]; intros t Ht; cbn [foldM fmap list_fmap concat]; [now rewrite goes_on_nil|].
  apply Forall_cons_1 in Hb as [Hb Hbs]. rewrite band_loop_spec by done. rewrite goes_on_app.
  destruct (goes_on d (band_freqs b) t) as [u|] eqn:E; cbn [mbind res_bind]; [|done]. apply IH; [done|]. eapply goes_on_length, E.
Qed.

Lemma text_length fs : Forall printable fs -> (length (concat (show <$> fs)) <= 4 * length fs)%nat.
Proof.
  induction 1 as [|f fs Hf _ IH]; cbn [fmap list_fmap concat length]; [lia|]. unfold show at 1. rewrite !length_app. cbn [length].
  unfold printable in Hf. lia.
Qed.

End Text.

(** The channel numbers of IEEE 802.11. *)
Definition channel_of (f : Z) : Z :=
  if f =? 2484 then 14 else if f <? 2484 then (f - 2407) / 5 else (f - 5000) / 5.

(** What is relied on of the kernel's [ieee80211_frequency_to_channel]. *)
Definition numbered (freq_to_chan : Z -> Z) : Prop :=
  forall f, 2412 <= f <= 2484 \/ 5180 <= f <= 5920 -> freq_to_chan f = channel_of f.

Lemma bands_ok b5 custchan : Forall band_ok (bands b5 custchan).
Proof. destruct b5, custchan; repeat constructor; cbn; lia. Qed.

(** The standard channels have numbers of one to three digits. *)
Lemma standard_printable freq_to_chan b5 : numbered freq_to_chan ->
  Forall (printable freq_to_chan) (concat (band_freqs <$> bands b5 false)).
Proof.
  intros H. assert (Forall (fun f => (2412 <= f <= 2484 \/ 5180 <= f <= 5920) /\ printable channel_of f) (concat (band_freqs <$> bands b5 false))) as Hs
    by (apply (bool_decide_unpack _); destruct b5; vm_compute; exact I).
  eapply Forall_impl; [exact Hs|]. intros f [Hf Hp]. unfold printable. rewrite H by done. exact Hp.
Qed.

Lemma standard_text freq_to_chan b5 d : numbered freq_to_chan ->
  let t := channels_text freq_to_chan (bands b5 false) d in
  (length t <= 156)%nat /\ goes_on freq_to_chan d (concat (band_freqs <$> bands b5 false)) [] = Ok t.
Proof.
  intros H t. pose proof (standard_printable freq_to_chan b5 H) as Hp.
  assert (Forall (printable freq_to_chan) (filter (allowed d) (concat (band_freqs <$> bands b5 false)))) as Hf.
  { apply Forall_forall. intros f Hin. apply list_elem_of_filter in Hin as [_ Hin]. rewrite Forall_forall in Hp. now apply Hp. }
  assert (length t <= 156)%nat as Hl.
  { unfold t, channels_text. pose proof (text_length freq_to_chan _ Hf) as Ht.
    pose proof (length_filter (allowed d) (concat (band_freqs <$> bands b5 false))) as Hn.
    assert (length (concat (band_freqs <$> bands b5 false)) <= 39)%nat by (destruct b5; apply Nat.leb_le; reflexivity).
    eapply Nat.le_trans; [exact Ht|]. lia. }
  split; [done|]. unfold goes_on. rewrite decide_True by done. cbn [app]. apply (fits_ok t). eapply Nat.le_trans; [exact Hl|lia].
Qed.

(** The part of a text that has a known length. *)
Lemma text_at_least freq_to_chan fs : numbered freq_to_chan ->
  (sum_list_with (fun f => if ((5180 <=? f) && (f <=? 5920))%Z then length (show channel_of f) else 0%nat) fs <= length (concat (show freq_to_chan <$> fs)))%nat.
Proof.
  intros H. induction fs as [|f fs IH]; cbn [fmap list_fmap concat sum_list_with]; [done|]. rewrite length_app.
  destruct ((5180 <=? f) && (f <=? 5920)) eqn:E; [|lia]. apply andb_true_iff in E as [E1 E2].
  replace (show freq_to_chan f) with (show channel_of f) by (unfold show; rewrite H by lia; done). lia.
Qed.

(** The loop of the lookup. *)
Definition same_code (cc : string) (d : ieee80211_regdomain) : Prop :=
  char_at (alpha2 d) 0 = char_at cc 0 /\ char_at (alpha2 d) 1 = char_at cc 1.

Lemma db_loop_none behind db cc : Forall (fun d => ~ same_code cc d) db ->
  db_loop behind db cc = match behind with Some _ => Ok None | None => Fault OutOfBounds end.
Proof.
  induction 1 as [|d db Hd _ IH]; [done|]. cbn [db_loop]. unfold same_code in Hd.
  destruct ((char_at (alpha2 d) 0 =? char_at cc 0) && (char_at (alpha2 d) 1 =? char_at cc 1)) eqn:E; [|done].
  apply andb_true_iff in E as [E1 E2]. apply Z.eqb_eq in E1, E2. tauto.
Qed.

Lemma db_loop_some behind db cc d i : db !! i = Some d -> same_code cc d -> Forall (fun d => ~ same_code cc d) (take i db) ->
  db_loop behind db cc = Ok (Some d).
Proof.
  revert i. induction db as [|e db IH]; intros i Hi Hs Hf; [done|]. cbn [db_loop]. destruct i as [|i].
  - injection Hi as ->. destruct Hs as [-> ->]. now rewrite !Z.eqb_refl.
  - cbn [take] in Hf. apply Forall_cons_1 in Hf as [He Hf]. unfold same_code in He.
    destruct ((char_at (alpha2 e) 0 =? char_at cc 0) && (char_at (alpha2 e) 1 =? char_at cc 1)) eqn:E; [|now apply (IH i)].
    apply andb_true_iff in E as [E1 E2]. apply Z.eqb_eq in E1, E2. tauto.
Qed.

(** What the table promises. *)
Definition codes_distinct : Prop := NoDup ((fun d => (char_at (alpha2 d) 0, char_at (alpha2 d) 1)) <$> reg_regdb).
Lemma reg_regdb_codes : codes_distinct.
Proof. apply (bool_decide_unpack _). vm_compute. exact I. Qed.
Lemma reg_regdb_ok : Forall dom_ok reg_regdb.
Proof. apply (bool_decide_unpack _). vm_compute. exact I. Qed.

Lemma lookup_listed behind d i : reg_regdb !! i = Some d -> db_loop behind reg_regdb (alpha2 d) = Ok (Some d).
Proof.
  intros Hi. apply (db_loop_some _ _ _ _ i); [done|done|]. apply Forall_forall. intros e He [H0 H1].
  apply list_elem_of_lookup in He as [j Hj]. apply lookup_take_Some in Hj as [Hj Hlt].
  pose proof (NoDup_lookup _ j i (char_at (alpha2 e) 0, char_at (alpha2 e) 1) reg_regdb_codes) as Hn.
  rewrite !list_lookup_fmap, Hj, Hi in Hn. cbn in Hn. rewrite H0, H1 in Hn. specialize (Hn eq_refl eq_refl). lia.
Qed.

End RegSpec.

Module Props.
Import Db Reg RegSpec.

(** The database is well formed: every domain has a code of two letters,
    counts at least one and at most all of its rules, and each rule is a range
    of frequencies with a bandwidth that fits in it and a power; no two domains
    share a code; every domain counts all of its rules, except the one of Italy,
    where two of the seven rules are never looked at; and a domain with a rule
    that demands radar detection names the DFS region to detect for, except
    those of Guyana and India. *)
Theorem regdb_types :
  Forall dom_ok reg_regdb /\ codes_distinct /\ reg_regdb_size = 188 /\
  Forall (fun d => n_reg_rules d = Z.of_nat (length (reg_rules d)) \/ d = regdom_IT /\ n_reg_rules d = 5 /\ length (reg_rules d) = 7%nat) reg_regdb /\
  Forall (fun d => Exists (fun r => NL80211_RRF_DFS ∈ flags r) (reg_rules d) -> dfs_region d <> NL80211_DFS_UNSET \/ d = regdom_GY \/ d = regdom_IN) reg_regdb.
Proof.
  split; [exact reg_regdb_ok|]. split; [exact reg_regdb_codes|]. split; [reflexivity|]. split.
  - apply (bool_decide_unpack _). vm_compute. exact I.
  - apply (bool_decide_unpack _). vm_compute. exact I.
Qed.

(** C31. The lookup of a country of the table, by its code or by its index, gives
    its domain, keeps its code as the current one, and leaves in
    [ccode_channels] the numbers of exactly the channels of the device that lie
    with their 20 MHz in a rule of the domain, in the order of the bands, each
    followed by a space, terminated by at least 44 zeros; a code that is not in
    the table falls back to domain 00 and code 00, provided that the word
    behind the table can be read, which the loop does before it compares the
    index with the size. *)
Theorem regdom_lookup (freq_to_chan : Z -> Z) (behind : option Z) (b5 : bool) (Hn : numbered freq_to_chan) :
  let bs := bands b5 false in
  let buffer d := channels_text freq_to_chan bs d ++ replicate (200 - length (channels_text freq_to_chan bs d)) 0 in
  (forall d i, reg_regdb !! i = Some d ->
     let r := Ok (d, mk_reg [char_at (alpha2 d) 0; char_at (alpha2 d) 1; 0; 0] (buffer d)) in
     getRegdomainFromRwnxDB freq_to_chan behind bs (alpha2 d) = r /\
     getRegdomainFromRwnxDBIndex freq_to_chan bs (Z.of_nat i) = r) /\
  (forall cc, Forall (fun d => ~ same_code cc d) reg_regdb ->
     getRegdomainFromRwnxDB freq_to_chan behind bs cc =
       match behind with Some _ => Ok (regdom_00, mk_reg default_ccode (buffer regdom_00)) | None => Fault OutOfBounds end) /\
  (forall d, length (channels_text freq_to_chan bs d) <= 156)%nat.
Proof.
  intros bs buffer.
  assert (forall d, d ∈ reg_regdb -> rwnx_get_countrycode_channels freq_to_chan bs d = Ok (buffer d)) as Hc.
  { intros d Hd. pose proof reg_regdb_ok as Hok. rewrite Forall_forall in Hok. rewrite channels_spec by (apply bands_ok || now apply Hok).
    unfold bs. destruct (standard_text freq_to_chan b5 d Hn) as [_ ->]. reflexivity. }
  split; [|split].
  - intros d i Hi r. pose proof (Hc d (list_elem_of_lookup_2 _ _ _ Hi)) as Hd. split.
    + unfold getRegdomainFromRwnxDB. rewrite (lookup_listed _ _ i) by done. cbn [mbind res_bind]. now rewrite Hd.
    + pose proof (lookup_lt_Some _ _ _ Hi) as Hl. change (length reg_regdb) with 188%nat in Hl. unfold getRegdomainFromRwnxDBIndex.
      rewrite wrapU_small, Nat2Z.id by lia. rewrite Hi, Hd. reflexivity.
  - intros cc Hcc. unfold getRegdomainFromRwnxDB. rewrite db_loop_none by done. destruct behind; [|done]. cbn [mbind res_bind].
    rewrite Hc; [done|]. apply (list_elem_of_lookup_2 _ 0). reflexivity.
  - intros d. apply (standard_text freq_to_chan b5 d Hn).
Qed.

(** With the additional channels of [custchan] and the 5 GHz band the
    numbers of the channels that the default domain allows do not fit the 200
    bytes of [ccode_channels]: choosing the domain, at initialisation or
    through an unknown country, writes behind it (or, already, behind the four
    bytes that hold one number). *)
Theorem ccode_channels_overflow (freq_to_chan : Z -> Z) (junk : Z) (Hn : numbered freq_to_chan) :
  (forall cc, Forall (fun d => ~ same_code cc d) reg_regdb -> getRegdomainFromRwnxDB freq_to_chan (Some junk) (bands true true) cc = Fault OutOfBounds) /\
  getRegdomainFromRwnxDB freq_to_chan (Some junk) (bands true true) "00" = Fault OutOfBounds.
Proof.
  assert (rwnx_get_countrycode_channels freq_to_chan (bands true true) regdom_00 = Fault OutOfBounds) as H.
  { pose proof reg_regdb_ok as Hok. rewrite Forall_forall in Hok. rewrite channels_spec by (apply bands_ok || (apply Hok, (list_elem_of_lookup_2 _ 0); reflexivity)).
    unfold goes_on. destruct (decide _); [|done]. rewrite fits_over; [done|]. cbn [app]. unfold text_of.
    eapply Nat.lt_le_trans; [|apply text_at_least, Hn]. apply Nat.ltb_lt. vm_compute. reflexivity. }
  split.
  - intros c Hc. unfold getRegdomainFromRwnxDB. rewrite db_loop_none by done. cbn [mbind res_bind]. now rewrite H.
  - unfold getRegdomainFromRwnxDB. change "00"%string with (alpha2 regdom_00). rewrite (lookup_listed _ _ 0) by reflexivity.
    cbn [mbind res_bind]. now rewrite H.
Qed.

End Props.

Module Witnesses.
Import Db Reg RegSpec.

Lemma channel_of_numbered : numbered channel_of.
Proof. intros f _. reflexivity. Qed.

Example regdom_lookup_witness :
  getRegdomainFromRwnxDB channel_of None (bands true false) "JP"
    = Ok (regdom_JP, mk_reg [74; 80; 0; 0]
        (let t := bytes "1 2 3 4 5 6 7 8 9 10 11 12 13 14 36 40 44 48 52 56 60 64 100 104 108 112 116 120 124 128 132 136 140 144 " in t ++ replicate (200 - length t) 0)).
Proof.
  destruct (Props.regdom_lookup channel_of None true channel_of_numbered) as (H & _ & _).
  destruct (H regdom_JP 79%nat ltac:(reflexivity)) as [E _]. etransitivity; [exact E|]. vm_compute. reflexivity.
Defined.

Example ccode_channels_overflow_witness :
  getRegdomainFromRwnxDB channel_of (Some 7) (bands true true) "00" = Fault OutOfBounds.
Proof. exact (proj2 (Props.ccode_channels_overflow channel_of 7 channel_of_numbered)). Defined.

End Witnesses.
