(* ===== verification/ConfigTables.v ===== *)
(** The user configuration: data.

    The structures of [lmac_msg.h] that hold the transmit power settings, their
    initial values ([rwnx_platform.c] for this driver, [aicbluetooth.c] for the
    firmware loader) and the tables of keys of the configuration text, as the
    chains of [strcmp] of the setting functions list them.

    All members are single bytes or arrays of them, so a structure has no
    padding, and its bytes are those of its members in order.  The settings are
    a store of arrays, one for each member of each structure; a scalar is an
    array of one element, an array of arrays is stored row by row. *)
From Stdlib Require Import ZArith Lia String.
From stdpp Require Import base list numbers gmap strings countable.
From S2P Require Import Prelude.

#[local] Open Scope Z_scope.
#[local] Open Scope string_scope.

Module Conf.

(** The structures: the members of [userconfig_info], then the variables of the
    firmware loader. *)
Inductive conf :=
  txpwr_lvl
  | txpwr_lvl_v2
  | txpwr_lvl_v3
  | txpwr_lvl_v4
  | txpwr_lvl_adj
  | txpwr_loss
  | txpwr_ofst
  | txpwr_ofst2x
  | txpwr_ofst2x_v2
  | xtal_cap
  | userconfig_txpwr_idx
  | userconfig_txpwr_ofst
  | userconfig_xtal_cap.
(** The names of their members. *)
Inductive member :=
  enable | dsss | ofdmlowrate_2g4 | ofdm64qam_2g4 | ofdm256qam_2g4 | ofdm1024qam_2g4 | ofdmlowrate_5g | ofdm64qam_5g | ofdm256qam_5g | ofdm1024qam_5g | pwrlvl_11b_11ag_2g4 | pwrlvl_11n_11ac_2g4 | pwrlvl_11ax_2g4 | pwrlvl_11a_5g | pwrlvl_11n_11ac_5g | pwrlvl_11ax_5g | pwrlvl_11a_6g | pwrlvl_11n_11ac_6g | pwrlvl_11ax_6g | pwrlvl_adj_tbl_2g4 | pwrlvl_adj_tbl_5g | loss_enable_2g4 | loss_value_2g4 | loss_enable_5g | loss_value_5g | chan_1_4 | chan_5_9 | chan_10_13 | chan_36_64 | chan_100_120 | chan_122_140 | chan_142_165 | pwrofst2x_tbl_2g4 | pwrofst2x_tbl_5g | pwrofst_flags | pwrofst2x_tbl_2g4_ant0 | pwrofst2x_tbl_2g4_ant1 | pwrofst2x_tbl_5g_ant0 | pwrofst2x_tbl_5g_ant1 | pwrofst2x_tbl_6g_ant0 | pwrofst2x_tbl_6g_ant1 | xtal_cap_ | xtal_cap_fine.

#[export] Instance conf_eq_dec : EqDecision conf.
Proof. solve_decision. Defined.

Definition all_confs : list conf := [txpwr_lvl; txpwr_lvl_v2; txpwr_lvl_v3; txpwr_lvl_v4; txpwr_lvl_adj; txpwr_loss; txpwr_ofst; txpwr_ofst2x; txpwr_ofst2x_v2; xtal_cap; userconfig_txpwr_idx; userconfig_txpwr_ofst; userconfig_xtal_cap].

Definition conf_index (c : conf) : nat :=
  match c with txpwr_lvl => 0 | txpwr_lvl_v2 => 1 | txpwr_lvl_v3 => 2 | txpwr_lvl_v4 => 3 | txpwr_lvl_adj => 4 | txpwr_loss => 5 | txpwr_ofst => 6 | txpwr_ofst2x => 7 | txpwr_ofst2x_v2 => 8 | xtal_cap => 9 | userconfig_txpwr_idx => 10 | userconfig_txpwr_ofst => 11 | userconfig_xtal_cap => 12 end.

#[export] Instance conf_countable : Countable conf.
Proof. refine (inj_countable conf_index (fun n => all_confs !! n) _). now intros []. Defined.

Definition all_members : list member := [enable; dsss; ofdmlowrate_2g4; ofdm64qam_2g4; ofdm256qam_2g4; ofdm1024qam_2g4; ofdmlowrate_5g; ofdm64qam_5g; ofdm256qam_5g; ofdm1024qam_5g; pwrlvl_11b_11ag_2g4; pwrlvl_11n_11ac_2g4; pwrlvl_11ax_2g4; pwrlvl_11a_5g; pwrlvl_11n_11ac_5g; pwrlvl_11ax_5g; pwrlvl_11a_6g; pwrlvl_11n_11ac_6g; pwrlvl_11ax_6g; pwrlvl_adj_tbl_2g4; pwrlvl_adj_tbl_5g; loss_enable_2g4; loss_value_2g4; loss_enable_5g; loss_value_5g; chan_1_4; chan_5_9; chan_10_13; chan_36_64; chan_100_120; chan_122_140; chan_142_165; pwrofst2x_tbl_2g4; pwrofst2x_tbl_5g; pwrofst_flags; pwrofst2x_tbl_2g4_ant0; pwrofst2x_tbl_2g4_ant1; pwrofst2x_tbl_5g_ant0; pwrofst2x_tbl_5g_ant1; pwrofst2x_tbl_6g_ant0; pwrofst2x_tbl_6g_ant1; xtal_cap_; xtal_cap_fine].

Definition member_index (m : member) : nat :=
  match m with enable => 0 | dsss => 1 | ofdmlowrate_2g4 => 2 | ofdm64qam_2g4 => 3 | ofdm256qam_2g4 => 4 | ofdm1024qam_2g4 => 5 | ofdmlowrate_5g => 6 | ofdm64qam_5g => 7 | ofdm256qam_5g => 8 | ofdm1024qam_5g => 9 | pwrlvl_11b_11ag_2g4 => 10 | pwrlvl_11n_11ac_2g4 => 11 | pwrlvl_11ax_2g4 => 12 | pwrlvl_11a_5g => 13 | pwrlvl_11n_11ac_5g => 14 | pwrlvl_11ax_5g => 15 | pwrlvl_11a_6g => 16 | pwrlvl_11n_11ac_6g => 17 | pwrlvl_11ax_6g => 18 | pwrlvl_adj_tbl_2g4 => 19 | pwrlvl_adj_tbl_5g => 20 | loss_enable_2g4 => 21 | loss_value_2g4 => 22 | loss_enable_5g => 23 | loss_value_5g => 24 | chan_1_4 => 25 | chan_5_9 => 26 | chan_10_13 => 27 | chan_36_64 => 28 | chan_100_120 => 29 | chan_122_140 => 30 | chan_142_165 => 31 | pwrofst2x_tbl_2g4 => 32 | pwrofst2x_tbl_5g => 33 | pwrofst_flags => 34 | pwrofst2x_tbl_2g4_ant0 => 35 | pwrofst2x_tbl_2g4_ant1 => 36 | pwrofst2x_tbl_5g_ant0 => 37 | pwrofst2x_tbl_5g_ant1 => 38 | pwrofst2x_tbl_6g_ant0 => 39 | pwrofst2x_tbl_6g_ant1 => 40 | xtal_cap_ => 41 | xtal_cap_fine => 42 end.

Lemma member_index_lookup m : all_members !! member_index m = Some m.
Proof. now destruct m. Qed.
#[export] Instance member_eq_dec : EqDecision member.
Proof.
  refine (fun m n => cast_if (decide (member_index m = member_index n))); [|congruence].
  pose proof (member_index_lookup m). pose proof (member_index_lookup n). congruence.
Defined.
#[export] Instance member_countable : Countable member.
Proof. exact (inj_countable member_index (fun n => all_members !! n) member_index_lookup). Defined.

(** A declaration: type and dimensions. *)
Inductive ctype := U8 | S8.
Record decl := mk_decl { d_name : member; d_type : ctype; d_dims : list nat }.
Definition u8_l (m : member) (dims : list nat) := mk_decl m U8 dims.
Definition s8_l (m : member) (dims : list nat) := mk_decl m S8 dims.

Definition txpwr_lvl_conf_t : list decl := [
  u8_l enable [];
  u8_l dsss [];
  u8_l ofdmlowrate_2g4 [];
  u8_l ofdm64qam_2g4 [];
  u8_l ofdm256qam_2g4 [];
  u8_l ofdm1024qam_2g4 [];
  u8_l ofdmlowrate_5g [];
  u8_l ofdm64qam_5g [];
  u8_l ofdm256qam_5g [];
  u8_l ofdm1024qam_5g []
].

Definition txpwr_lvl_conf_v2_t : list decl := [
  u8_l enable [];
  s8_l pwrlvl_11b_11ag_2g4 [12]%nat;
  s8_l pwrlvl_11n_11ac_2g4 [10]%nat;
  s8_l pwrlvl_11ax_2g4 [12]%nat
].

Definition txpwr_lvl_conf_v3_t : list decl := [
  u8_l enable [];
  s8_l pwrlvl_11b_11ag_2g4 [12]%nat;
  s8_l pwrlvl_11n_11ac_2g4 [10]%nat;
  s8_l pwrlvl_11ax_2g4 [12]%nat;
  s8_l pwrlvl_11a_5g [12]%nat;
  s8_l pwrlvl_11n_11ac_5g [10]%nat;
  s8_l pwrlvl_11ax_5g [12]%nat
].

Definition txpwr_lvl_conf_v4_t : list decl := [
  u8_l enable [];
  s8_l pwrlvl_11b_11ag_2g4 [12]%nat;
  s8_l pwrlvl_11n_11ac_2g4 [10]%nat;
  s8_l pwrlvl_11ax_2g4 [12]%nat;
  s8_l pwrlvl_11a_5g [8]%nat;
  s8_l pwrlvl_11n_11ac_5g [10]%nat;
  s8_l pwrlvl_11ax_5g [12]%nat;
  s8_l pwrlvl_11a_6g [8]%nat;
  s8_l pwrlvl_11n_11ac_6g [10]%nat;
  s8_l pwrlvl_11ax_6g [12]%nat
].

Definition txpwr_lvl_adj_conf_t : list decl := [
  u8_l enable [];
  s8_l pwrlvl_adj_tbl_2g4 [3]%nat;
  s8_l pwrlvl_adj_tbl_5g [6]%nat
].

Definition txpwr_loss_conf_t : list decl := [
  u8_l loss_enable_2g4 [];
  s8_l loss_value_2g4 [];
  u8_l loss_enable_5g [];
  s8_l loss_value_5g []
].

Definition txpwr_idx_conf_t : list decl := [
  s8_l enable [];
  s8_l dsss [];
  s8_l ofdmlowrate_2g4 [];
  s8_l ofdm64qam_2g4 [];
  s8_l ofdm256qam_2g4 [];
  s8_l ofdm1024qam_2g4 [];
  s8_l ofdmlowrate_5g [];
  s8_l ofdm64qam_5g [];
  s8_l ofdm256qam_5g [];
  s8_l ofdm1024qam_5g []
].

Definition txpwr_ofst_conf_t : list decl := [
  s8_l enable [];
  s8_l chan_1_4 [];
  s8_l chan_5_9 [];
  s8_l chan_10_13 [];
  s8_l chan_36_64 [];
  s8_l chan_100_120 [];
  s8_l chan_122_140 [];
  s8_l chan_142_165 []
].

Definition txpwr_ofst2x_conf_t : list decl := [
  u8_l enable [];
  s8_l pwrofst2x_tbl_2g4 [3; 3]%nat;
  s8_l pwrofst2x_tbl_5g [3; 6]%nat
].

Definition txpwr_ofst2x_conf_v2_t : list decl := [
  u8_l enable [];
  u8_l pwrofst_flags [];
  s8_l pwrofst2x_tbl_2g4_ant0 [3; 3]%nat;
  s8_l pwrofst2x_tbl_2g4_ant1 [3; 3]%nat;
  s8_l pwrofst2x_tbl_5g_ant0 [6; 3]%nat;
  s8_l pwrofst2x_tbl_5g_ant1 [6; 3]%nat;
  s8_l pwrofst2x_tbl_6g_ant0 [15]%nat;
  s8_l pwrofst2x_tbl_6g_ant1 [15]%nat
].

Definition xtal_cap_conf_t : list decl := [
  u8_l enable [];
  u8_l xtal_cap_ [];
  u8_l xtal_cap_fine []
].

Definition xtal_cap_conf_t_load : list decl := [
  s8_l enable [];
  s8_l xtal_cap_ [];
  s8_l xtal_cap_fine []
].

Definition layout (c : conf) : list decl :=
  match c with
  | txpwr_lvl => txpwr_lvl_conf_t
  | txpwr_lvl_v2 => txpwr_lvl_conf_v2_t
  | txpwr_lvl_v3 => txpwr_lvl_conf_v3_t
  | txpwr_lvl_v4 => txpwr_lvl_conf_v4_t
  | txpwr_lvl_adj => txpwr_lvl_adj_conf_t
  | txpwr_loss => txpwr_loss_conf_t
  | txpwr_ofst => txpwr_ofst_conf_t
  | txpwr_ofst2x => txpwr_ofst2x_conf_t
  | txpwr_ofst2x_v2 => txpwr_ofst2x_conf_v2_t
  | xtal_cap => xtal_cap_conf_t
  | userconfig_txpwr_idx => txpwr_idx_conf_t
  | userconfig_txpwr_ofst => txpwr_ofst_conf_t
  | userconfig_xtal_cap => xtal_cap_conf_t_load
  end.

(** An object that can be assigned to. *)
Inductive lvalue := At (c : conf) (m : member) (index : list nat).
#[export] Instance lvalue_eq_dec : EqDecision lvalue.
Proof. solve_decision. Defined.

(** The initialisers; what is not listed is zero. *)
Definition userconfig_info_init : list (conf * member * list Z) := [
  (txpwr_lvl, enable, [1]);
  (txpwr_lvl, dsss, [9]);
  (txpwr_lvl, ofdmlowrate_2g4, [8]);
  (txpwr_lvl, ofdm64qam_2g4, [8]);
  (txpwr_lvl, ofdm256qam_2g4, [8]);
  (txpwr_lvl, ofdm1024qam_2g4, [8]);
  (txpwr_lvl, ofdmlowrate_5g, [11]);
  (txpwr_lvl, ofdm64qam_5g, [10]);
  (txpwr_lvl, ofdm256qam_5g, [9]);
  (txpwr_lvl, ofdm1024qam_5g, [9]);
  (txpwr_lvl_v2, enable, [1]);
  (txpwr_lvl_v2, pwrlvl_11b_11ag_2g4, [20; 20; 20; 20; 20; 20; 20; 20; 18; 18; 16; 16]);
  (txpwr_lvl_v2, pwrlvl_11n_11ac_2g4, [20; 20; 20; 20; 18; 18; 16; 16; 16; 16]);
  (txpwr_lvl_v2, pwrlvl_11ax_2g4, [20; 20; 20; 20; 18; 18; 16; 16; 16; 16; 15; 15]);
  (txpwr_lvl_v3, enable, [1]);
  (txpwr_lvl_v3, pwrlvl_11b_11ag_2g4, [20; 20; 20; 20; 20; 20; 20; 20; 18; 18; 16; 16]);
  (txpwr_lvl_v3, pwrlvl_11n_11ac_2g4, [20; 20; 20; 20; 18; 18; 16; 16; 16; 16]);
  (txpwr_lvl_v3, pwrlvl_11ax_2g4, [20; 20; 20; 20; 18; 18; 16; 16; 16; 16; 15; 15]);
  (txpwr_lvl_v3, pwrlvl_11a_5g, [128; 128; 128; 128; 20; 20; 20; 20; 18; 18; 16; 16]);
  (txpwr_lvl_v3, pwrlvl_11n_11ac_5g, [20; 20; 20; 20; 18; 18; 16; 16; 16; 15]);
  (txpwr_lvl_v3, pwrlvl_11ax_5g, [20; 20; 20; 20; 18; 18; 16; 16; 16; 15; 14; 14]);
  (txpwr_lvl_v4, enable, [1]);
  (txpwr_lvl_v4, pwrlvl_11b_11ag_2g4, [20; 20; 20; 20; 20; 20; 20; 20; 18; 18; 16; 16]);
  (txpwr_lvl_v4, pwrlvl_11n_11ac_2g4, [20; 20; 20; 20; 18; 18; 16; 16; 16; 16]);
  (txpwr_lvl_v4, pwrlvl_11ax_2g4, [20; 20; 20; 20; 18; 18; 16; 16; 16; 16; 15; 15]);
  (txpwr_lvl_v4, pwrlvl_11a_5g, [20; 20; 20; 20; 18; 18; 16; 16]);
  (txpwr_lvl_v4, pwrlvl_11n_11ac_5g, [20; 20; 20; 20; 18; 18; 16; 16; 16; 15]);
  (txpwr_lvl_v4, pwrlvl_11ax_5g, [20; 20; 20; 20; 18; 18; 16; 16; 16; 15; 14; 14]);
  (txpwr_loss, loss_enable_2g4, [0]);
  (txpwr_loss, loss_value_2g4, [0]);
  (txpwr_loss, loss_enable_5g, [0]);
  (txpwr_loss, loss_value_5g, [0]);
  (txpwr_ofst, enable, [1]);
  (txpwr_ofst, chan_1_4, [0]);
  (txpwr_ofst, chan_5_9, [0]);
  (txpwr_ofst, chan_10_13, [0]);
  (txpwr_ofst, chan_36_64, [0]);
  (txpwr_ofst, chan_100_120, [0]);
  (txpwr_ofst, chan_122_140, [0]);
  (txpwr_ofst, chan_142_165, [0]);
  (txpwr_ofst2x, enable, [0]);
  (txpwr_ofst2x, pwrofst2x_tbl_2g4, [0; 0; 0; 0; 0; 0; 0; 0; 0]);
  (txpwr_ofst2x, pwrofst2x_tbl_5g, [0; 0; 0; 0; 0; 0; 0; 0; 0; 0; 0; 0; 0; 0; 0; 0; 0; 0]);
  (txpwr_ofst2x_v2, enable, [0]);
  (txpwr_ofst2x_v2, pwrofst_flags, [0]);
  (txpwr_ofst2x_v2, pwrofst2x_tbl_2g4_ant0, [0; 0; 0; 0; 0; 0; 0; 0; 0]);
  (txpwr_ofst2x_v2, pwrofst2x_tbl_2g4_ant1, [0; 0; 0; 0; 0; 0; 0; 0; 0]);
  (txpwr_ofst2x_v2, pwrofst2x_tbl_5g_ant0, [0; 0; 0; 0; 0; 0; 0; 0; 0; 0; 0; 0; 0; 0; 0; 0; 0; 0]);
  (txpwr_ofst2x_v2, pwrofst2x_tbl_5g_ant1, [0; 0; 0; 0; 0; 0; 0; 0; 0; 0; 0; 0; 0; 0; 0; 0; 0; 0]);
  (txpwr_ofst2x_v2, pwrofst2x_tbl_6g_ant0, [0]);
  (txpwr_ofst2x_v2, pwrofst2x_tbl_6g_ant1, [0]);
  (xtal_cap, enable, [0]);
  (xtal_cap, xtal_cap_, [24]);
  (xtal_cap, xtal_cap_fine, [31])
].
Definition loader_init : list (conf * member * list Z) := [
  (userconfig_txpwr_idx, enable, [1]);
  (userconfig_txpwr_idx, dsss, [9]);
  (userconfig_txpwr_idx, ofdmlowrate_2g4, [8]);
  (userconfig_txpwr_idx, ofdm64qam_2g4, [8]);
  (userconfig_txpwr_idx, ofdm256qam_2g4, [8]);
  (userconfig_txpwr_idx, ofdm1024qam_2g4, [8]);
  (userconfig_txpwr_idx, ofdmlowrate_5g, [11]);
  (userconfig_txpwr_idx, ofdm64qam_5g, [10]);
  (userconfig_txpwr_idx, ofdm256qam_5g, [9]);
  (userconfig_txpwr_idx, ofdm1024qam_5g, [9]);
  (userconfig_txpwr_ofst, enable, [1]);
  (userconfig_txpwr_ofst, chan_1_4, [0]);
  (userconfig_txpwr_ofst, chan_5_9, [0]);
  (userconfig_txpwr_ofst, chan_10_13, [0]);
  (userconfig_txpwr_ofst, chan_36_64, [0]);
  (userconfig_txpwr_ofst, chan_100_120, [0]);
  (userconfig_txpwr_ofst, chan_122_140, [0]);
  (userconfig_txpwr_ofst, chan_142_165, [0]);
  (userconfig_xtal_cap, enable, [0]);
  (userconfig_xtal_cap, xtal_cap_, [24]);
  (userconfig_xtal_cap, xtal_cap_fine, [31])
].

(** The keys: what each of them sets, in the order of the comparisons. *)
Definition nvram_keys_1 : list (string * list lvalue) := [
  ("enable", [At txpwr_lvl enable []; At txpwr_lvl_v2 enable []; At txpwr_lvl_v3 enable []]);
  ("dsss", [At txpwr_lvl dsss []]);
  ("ofdmlowrate_2g4", [At txpwr_lvl ofdmlowrate_2g4 []]);
  ("ofdm64qam_2g4", [At txpwr_lvl ofdm64qam_2g4 []]);
  ("ofdm256qam_2g4", [At txpwr_lvl ofdm256qam_2g4 []]);
  ("ofdm1024qam_2g4", [At txpwr_lvl ofdm1024qam_2g4 []]);
  ("ofdmlowrate_5g", [At txpwr_lvl ofdmlowrate_5g []]);
  ("ofdm64qam_5g", [At txpwr_lvl ofdm64qam_5g []]);
  ("ofdm256qam_5g", [At txpwr_lvl ofdm256qam_5g []]);
  ("ofdm1024qam_5g", [At txpwr_lvl ofdm1024qam_5g []]);
  ("lvl_11b_11ag_1m_2g4", [At txpwr_lvl_v2 pwrlvl_11b_11ag_2g4 [0]%nat; At txpwr_lvl_v3 pwrlvl_11b_11ag_2g4 [0]%nat]);
  ("lvl_11b_11ag_2m_2g4", [At txpwr_lvl_v2 pwrlvl_11b_11ag_2g4 [1]%nat; At txpwr_lvl_v3 pwrlvl_11b_11ag_2g4 [1]%nat]);
  ("lvl_11b_11ag_5m5_2g4", [At txpwr_lvl_v2 pwrlvl_11b_11ag_2g4 [2]%nat; At txpwr_lvl_v3 pwrlvl_11b_11ag_2g4 [2]%nat]);
  ("lvl_11b_11ag_11m_2g4", [At txpwr_lvl_v2 pwrlvl_11b_11ag_2g4 [3]%nat; At txpwr_lvl_v3 pwrlvl_11b_11ag_2g4 [3]%nat]);
  ("lvl_11b_11ag_6m_2g4", [At txpwr_lvl_v2 pwrlvl_11b_11ag_2g4 [4]%nat; At txpwr_lvl_v3 pwrlvl_11b_11ag_2g4 [4]%nat]);
  ("lvl_11b_11ag_9m_2g4", [At txpwr_lvl_v2 pwrlvl_11b_11ag_2g4 [5]%nat; At txpwr_lvl_v3 pwrlvl_11b_11ag_2g4 [5]%nat]);
  ("lvl_11b_11ag_12m_2g4", [At txpwr_lvl_v2 pwrlvl_11b_11ag_2g4 [6]%nat; At txpwr_lvl_v3 pwrlvl_11b_11ag_2g4 [6]%nat]);
  ("lvl_11b_11ag_18m_2g4", [At txpwr_lvl_v2 pwrlvl_11b_11ag_2g4 [7]%nat; At txpwr_lvl_v3 pwrlvl_11b_11ag_2g4 [7]%nat]);
  ("lvl_11b_11ag_24m_2g4", [At txpwr_lvl_v2 pwrlvl_11b_11ag_2g4 [8]%nat; At txpwr_lvl_v3 pwrlvl_11b_11ag_2g4 [8]%nat]);
  ("lvl_11b_11ag_36m_2g4", [At txpwr_lvl_v2 pwrlvl_11b_11ag_2g4 [9]%nat; At txpwr_lvl_v3 pwrlvl_11b_11ag_2g4 [9]%nat]);
  ("lvl_11b_11ag_48m_2g4", [At txpwr_lvl_v2 pwrlvl_11b_11ag_2g4 [10]%nat; At txpwr_lvl_v3 pwrlvl_11b_11ag_2g4 [10]%nat]);
  ("lvl_11b_11ag_54m_2g4", [At txpwr_lvl_v2 pwrlvl_11b_11ag_2g4 [11]%nat; At txpwr_lvl_v3 pwrlvl_11b_11ag_2g4 [11]%nat]);
  ("lvl_11n_11ac_mcs0_2g4", [At txpwr_lvl_v2 pwrlvl_11n_11ac_2g4 [0]%nat; At txpwr_lvl_v3 pwrlvl_11n_11ac_2g4 [0]%nat]);
  ("lvl_11n_11ac_mcs1_2g4", [At txpwr_lvl_v2 pwrlvl_11n_11ac_2g4 [1]%nat; At txpwr_lvl_v3 pwrlvl_11n_11ac_2g4 [1]%nat]);
  ("lvl_11n_11ac_mcs2_2g4", [At txpwr_lvl_v2 pwrlvl_11n_11ac_2g4 [2]%nat; At txpwr_lvl_v3 pwrlvl_11n_11ac_2g4 [2]%nat]);
  ("lvl_11n_11ac_mcs3_2g4", [At txpwr_lvl_v2 pwrlvl_11n_11ac_2g4 [3]%nat; At txpwr_lvl_v3 pwrlvl_11n_11ac_2g4 [3]%nat]);
  ("lvl_11n_11ac_mcs4_2g4", [At txpwr_lvl_v2 pwrlvl_11n_11ac_2g4 [4]%nat; At txpwr_lvl_v3 pwrlvl_11n_11ac_2g4 [4]%nat]);
  ("lvl_11n_11ac_mcs5_2g4", [At txpwr_lvl_v2 pwrlvl_11n_11ac_2g4 [5]%nat; At txpwr_lvl_v3 pwrlvl_11n_11ac_2g4 [5]%nat]);
  ("lvl_11n_11ac_mcs6_2g4", [At txpwr_lvl_v2 pwrlvl_11n_11ac_2g4 [6]%nat; At txpwr_lvl_v3 pwrlvl_11n_11ac_2g4 [6]%nat]);
  ("lvl_11n_11ac_mcs7_2g4", [At txpwr_lvl_v2 pwrlvl_11n_11ac_2g4 [7]%nat; At txpwr_lvl_v3 pwrlvl_11n_11ac_2g4 [7]%nat]);
  ("lvl_11n_11ac_mcs8_2g4", [At txpwr_lvl_v2 pwrlvl_11n_11ac_2g4 [8]%nat; At txpwr_lvl_v3 pwrlvl_11n_11ac_2g4 [8]%nat]);
  ("lvl_11n_11ac_mcs9_2g4", [At txpwr_lvl_v2 pwrlvl_11n_11ac_2g4 [9]%nat; At txpwr_lvl_v3 pwrlvl_11n_11ac_2g4 [9]%nat]);
  ("lvl_11ax_mcs0_2g4", [At txpwr_lvl_v2 pwrlvl_11ax_2g4 [0]%nat; At txpwr_lvl_v3 pwrlvl_11ax_2g4 [0]%nat]);
  ("lvl_11ax_mcs1_2g4", [At txpwr_lvl_v2 pwrlvl_11ax_2g4 [1]%nat; At txpwr_lvl_v3 pwrlvl_11ax_2g4 [1]%nat]);
  ("lvl_11ax_mcs2_2g4", [At txpwr_lvl_v2 pwrlvl_11ax_2g4 [2]%nat; At txpwr_lvl_v3 pwrlvl_11ax_2g4 [2]%nat]);
  ("lvl_11ax_mcs3_2g4", [At txpwr_lvl_v2 pwrlvl_11ax_2g4 [3]%nat; At txpwr_lvl_v3 pwrlvl_11ax_2g4 [3]%nat]);
  ("lvl_11ax_mcs4_2g4", [At txpwr_lvl_v2 pwrlvl_11ax_2g4 [4]%nat; At txpwr_lvl_v3 pwrlvl_11ax_2g4 [4]%nat]);
  ("lvl_11ax_mcs5_2g4", [At txpwr_lvl_v2 pwrlvl_11ax_2g4 [5]%nat; At txpwr_lvl_v3 pwrlvl_11ax_2g4 [5]%nat]);
  ("lvl_11ax_mcs6_2g4", [At txpwr_lvl_v2 pwrlvl_11ax_2g4 [6]%nat; At txpwr_lvl_v3 pwrlvl_11ax_2g4 [6]%nat]);
  ("lvl_11ax_mcs7_2g4", [At txpwr_lvl_v2 pwrlvl_11ax_2g4 [7]%nat; At txpwr_lvl_v3 pwrlvl_11ax_2g4 [7]%nat]);
  ("lvl_11ax_mcs8_2g4", [At txpwr_lvl_v2 pwrlvl_11ax_2g4 [8]%nat; At txpwr_lvl_v3 pwrlvl_11ax_2g4 [8]%nat]);
  ("lvl_11ax_mcs9_2g4", [At txpwr_lvl_v2 pwrlvl_11ax_2g4 [9]%nat; At txpwr_lvl_v3 pwrlvl_11ax_2g4 [9]%nat]);
  ("lvl_11ax_mcs10_2g4", [At txpwr_lvl_v2 pwrlvl_11ax_2g4 [10]%nat; At txpwr_lvl_v3 pwrlvl_11ax_2g4 [10]%nat]);
  ("lvl_11ax_mcs11_2g4", [At txpwr_lvl_v2 pwrlvl_11ax_2g4 [11]%nat; At txpwr_lvl_v3 pwrlvl_11ax_2g4 [11]%nat]);
  ("lvl_11a_1m_5g", [At txpwr_lvl_v3 pwrlvl_11a_5g [0]%nat]);
  ("lvl_11a_2m_5g", [At txpwr_lvl_v3 pwrlvl_11a_5g [1]%nat]);
  ("lvl_11a_5m5_5g", [At txpwr_lvl_v3 pwrlvl_11a_5g [2]%nat]);
  ("lvl_11a_11m_5g", [At txpwr_lvl_v3 pwrlvl_11a_5g [3]%nat]);
  ("lvl_11a_6m_5g", [At txpwr_lvl_v3 pwrlvl_11a_5g [4]%nat]);
  ("lvl_11a_9m_5g", [At txpwr_lvl_v3 pwrlvl_11a_5g [5]%nat]);
  ("lvl_11a_12m_5g", [At txpwr_lvl_v3 pwrlvl_11a_5g [6]%nat]);
  ("lvl_11a_18m_5g", [At txpwr_lvl_v3 pwrlvl_11a_5g [7]%nat])
].

Definition nvram_keys_2 : list (string * list lvalue) := [
  ("lvl_11a_24m_5g", [At txpwr_lvl_v3 pwrlvl_11a_5g [8]%nat]);
  ("lvl_11a_36m_5g", [At txpwr_lvl_v3 pwrlvl_11a_5g [9]%nat]);
  ("lvl_11a_48m_5g", [At txpwr_lvl_v3 pwrlvl_11a_5g [10]%nat]);
  ("lvl_11a_54m_5g", [At txpwr_lvl_v3 pwrlvl_11a_5g [11]%nat]);
  ("lvl_11n_11ac_mcs0_5g", [At txpwr_lvl_v3 pwrlvl_11n_11ac_5g [0]%nat]);
  ("lvl_11n_11ac_mcs1_5g", [At txpwr_lvl_v3 pwrlvl_11n_11ac_5g [1]%nat]);
  ("lvl_11n_11ac_mcs2_5g", [At txpwr_lvl_v3 pwrlvl_11n_11ac_5g [2]%nat]);
  ("lvl_11n_11ac_mcs3_5g", [At txpwr_lvl_v3 pwrlvl_11n_11ac_5g [3]%nat]);
  ("lvl_11n_11ac_mcs4_5g", [At txpwr_lvl_v3 pwrlvl_11n_11ac_5g [4]%nat]);
  ("lvl_11n_11ac_mcs5_5g", [At txpwr_lvl_v3 pwrlvl_11n_11ac_5g [5]%nat]);
  ("lvl_11n_11ac_mcs6_5g", [At txpwr_lvl_v3 pwrlvl_11n_11ac_5g [6]%nat]);
  ("lvl_11n_11ac_mcs7_5g", [At txpwr_lvl_v3 pwrlvl_11n_11ac_5g [7]%nat]);
  ("lvl_11n_11ac_mcs8_5g", [At txpwr_lvl_v3 pwrlvl_11n_11ac_5g [8]%nat]);
  ("lvl_11n_11ac_mcs9_5g", [At txpwr_lvl_v3 pwrlvl_11n_11ac_5g [9]%nat]);
  ("lvl_11ax_mcs0_5g", [At txpwr_lvl_v3 pwrlvl_11ax_5g [0]%nat]);
  ("lvl_11ax_mcs1_5g", [At txpwr_lvl_v3 pwrlvl_11ax_5g [1]%nat]);
  ("lvl_11ax_mcs2_5g", [At txpwr_lvl_v3 pwrlvl_11ax_5g [2]%nat]);
  ("lvl_11ax_mcs3_5g", [At txpwr_lvl_v3 pwrlvl_11ax_5g [3]%nat]);
  ("lvl_11ax_mcs4_5g", [At txpwr_lvl_v3 pwrlvl_11ax_5g [4]%nat]);
  ("lvl_11ax_mcs5_5g", [At txpwr_lvl_v3 pwrlvl_11ax_5g [5]%nat]);
  ("lvl_11ax_mcs6_5g", [At txpwr_lvl_v3 pwrlvl_11ax_5g [6]%nat]);
  ("lvl_11ax_mcs7_5g", [At txpwr_lvl_v3 pwrlvl_11ax_5g [7]%nat]);
  ("lvl_11ax_mcs8_5g", [At txpwr_lvl_v3 pwrlvl_11ax_5g [8]%nat]);
  ("lvl_11ax_mcs9_5g", [At txpwr_lvl_v3 pwrlvl_11ax_5g [9]%nat]);
  ("lvl_11ax_mcs10_5g", [At txpwr_lvl_v3 pwrlvl_11ax_5g [10]%nat]);
  ("lvl_11ax_mcs11_5g", [At txpwr_lvl_v3 pwrlvl_11ax_5g [11]%nat]);
  ("lvl_adj_enable", [At txpwr_lvl_adj enable []]);
  ("lvl_adj_2g4_chan_1_4", [At txpwr_lvl_adj pwrlvl_adj_tbl_2g4 [0]%nat]);
  ("lvl_adj_2g4_chan_5_9", [At txpwr_lvl_adj pwrlvl_adj_tbl_2g4 [1]%nat]);
  ("lvl_adj_2g4_chan_10_13", [At txpwr_lvl_adj pwrlvl_adj_tbl_2g4 [2]%nat]);
  ("lvl_adj_5g_chan_42", [At txpwr_lvl_adj pwrlvl_adj_tbl_5g [0]%nat]);
  ("lvl_adj_5g_chan_58", [At txpwr_lvl_adj pwrlvl_adj_tbl_5g [1]%nat]);
  ("lvl_adj_5g_chan_106", [At txpwr_lvl_adj pwrlvl_adj_tbl_5g [2]%nat]);
  ("lvl_adj_5g_chan_122", [At txpwr_lvl_adj pwrlvl_adj_tbl_5g [3]%nat]);
  ("lvl_adj_5g_chan_138", [At txpwr_lvl_adj pwrlvl_adj_tbl_5g [4]%nat]);
  ("lvl_adj_5g_chan_155", [At txpwr_lvl_adj pwrlvl_adj_tbl_5g [5]%nat]);
  ("loss_enable_2g4", [At txpwr_loss loss_enable_2g4 []]);
  ("loss_value_2g4", [At txpwr_loss loss_value_2g4 []]);
  ("loss_enable_5g", [At txpwr_loss loss_enable_5g []]);
  ("loss_value_5g", [At txpwr_loss loss_value_5g []]);
  ("ofst_enable", [At txpwr_ofst enable []; At txpwr_ofst2x enable []]);
  ("ofst_chan_1_4", [At txpwr_ofst chan_1_4 []]);
  ("ofst_chan_5_9", [At txpwr_ofst chan_5_9 []]);
  ("ofst_chan_10_13", [At txpwr_ofst chan_10_13 []]);
  ("ofst_chan_36_64", [At txpwr_ofst chan_36_64 []]);
  ("ofst_chan_100_120", [At txpwr_ofst chan_100_120 []]);
  ("ofst_chan_122_140", [At txpwr_ofst chan_122_140 []]);
  ("ofst_chan_142_165", [At txpwr_ofst chan_142_165 []]);
  ("ofst_2g4_11b_chan_1_4", [At txpwr_ofst2x pwrofst2x_tbl_2g4 [0; 0]%nat]);
  ("ofst_2g4_11b_chan_5_9", [At txpwr_ofst2x pwrofst2x_tbl_2g4 [0; 1]%nat]);
  ("ofst_2g4_11b_chan_10_13", [At txpwr_ofst2x pwrofst2x_tbl_2g4 [0; 2]%nat]);
  ("ofst_2g4_ofdm_highrate_chan_1_4", [At txpwr_ofst2x pwrofst2x_tbl_2g4 [1; 0]%nat]);
  ("ofst_2g4_ofdm_highrate_chan_5_9", [At txpwr_ofst2x pwrofst2x_tbl_2g4 [1; 1]%nat]);
  ("ofst_2g4_ofdm_highrate_chan_10_13", [At txpwr_ofst2x pwrofst2x_tbl_2g4 [1; 2]%nat]);
  ("ofst_2g4_ofdm_lowrate_chan_1_4", [At txpwr_ofst2x pwrofst2x_tbl_2g4 [2; 0]%nat]);
  ("ofst_2g4_ofdm_lowrate_chan_5_9", [At txpwr_ofst2x pwrofst2x_tbl_2g4 [2; 1]%nat]);
  ("ofst_2g4_ofdm_lowrate_chan_10_13", [At txpwr_ofst2x pwrofst2x_tbl_2g4 [2; 2]%nat]);
  ("ofst_5g_ofdm_lowrate_chan_42", [At txpwr_ofst2x pwrofst2x_tbl_5g [0; 0]%nat]);
  ("ofst_5g_ofdm_lowrate_chan_58", [At txpwr_ofst2x pwrofst2x_tbl_5g [0; 1]%nat]);
  ("ofst_5g_ofdm_lowrate_chan_106", [At txpwr_ofst2x pwrofst2x_tbl_5g [0; 2]%nat]);
  ("ofst_5g_ofdm_lowrate_chan_122", [At txpwr_ofst2x pwrofst2x_tbl_5g [0; 3]%nat]);
  ("ofst_5g_ofdm_lowrate_chan_138", [At txpwr_ofst2x pwrofst2x_tbl_5g [0; 4]%nat]);
  ("ofst_5g_ofdm_lowrate_chan_155", [At txpwr_ofst2x pwrofst2x_tbl_5g [0; 5]%nat]);
  ("ofst_5g_ofdm_highrate_chan_42", [At txpwr_ofst2x pwrofst2x_tbl_5g [1; 0]%nat]);
  ("ofst_5g_ofdm_highrate_chan_58", [At txpwr_ofst2x pwrofst2x_tbl_5g [1; 1]%nat]);
  ("ofst_5g_ofdm_highrate_chan_106", [At txpwr_ofst2x pwrofst2x_tbl_5g [1; 2]%nat]);
  ("ofst_5g_ofdm_highrate_chan_122", [At txpwr_ofst2x pwrofst2x_tbl_5g [1; 3]%nat]);
  ("ofst_5g_ofdm_highrate_chan_138", [At txpwr_ofst2x pwrofst2x_tbl_5g [1; 4]%nat]);
  ("ofst_5g_ofdm_highrate_chan_155", [At txpwr_ofst2x pwrofst2x_tbl_5g [1; 5]%nat]);
  ("ofst_5g_ofdm_midrate_chan_42", [At txpwr_ofst2x pwrofst2x_tbl_5g [2; 0]%nat])
].

Definition nvram_keys_3 : list (string * list lvalue) := [
  ("ofst_5g_ofdm_midrate_chan_58", [At txpwr_ofst2x pwrofst2x_tbl_5g [2; 1]%nat]);
  ("ofst_5g_ofdm_midrate_chan_106", [At txpwr_ofst2x pwrofst2x_tbl_5g [2; 2]%nat]);
  ("ofst_5g_ofdm_midrate_chan_122", [At txpwr_ofst2x pwrofst2x_tbl_5g [2; 3]%nat]);
  ("ofst_5g_ofdm_midrate_chan_138", [At txpwr_ofst2x pwrofst2x_tbl_5g [2; 4]%nat]);
  ("ofst_5g_ofdm_midrate_chan_155", [At txpwr_ofst2x pwrofst2x_tbl_5g [2; 5]%nat]);
  ("xtal_enable", [At xtal_cap enable []]);
  ("xtal_cap", [At xtal_cap xtal_cap_ []]);
  ("xtal_cap_fine", [At xtal_cap xtal_cap_fine []])
].

Definition nvram_keys : list (string * list lvalue) := (nvram_keys_1 ++ nvram_keys_2 ++ nvram_keys_3)%list.

Definition nvram_keys_8800d80x2_1 : list (string * list lvalue) := [
  ("enable", [At txpwr_lvl_v4 enable []]);
  ("lvl_11b_11ag_1m_2g4", [At txpwr_lvl_v4 pwrlvl_11b_11ag_2g4 [0]%nat]);
  ("lvl_11b_11ag_2m_2g4", [At txpwr_lvl_v4 pwrlvl_11b_11ag_2g4 [1]%nat]);
  ("lvl_11b_11ag_5m5_2g4", [At txpwr_lvl_v4 pwrlvl_11b_11ag_2g4 [2]%nat]);
  ("lvl_11b_11ag_11m_2g4", [At txpwr_lvl_v4 pwrlvl_11b_11ag_2g4 [3]%nat]);
  ("lvl_11b_11ag_6m_2g4", [At txpwr_lvl_v4 pwrlvl_11b_11ag_2g4 [4]%nat]);
  ("lvl_11b_11ag_9m_2g4", [At txpwr_lvl_v4 pwrlvl_11b_11ag_2g4 [5]%nat]);
  ("lvl_11b_11ag_12m_2g4", [At txpwr_lvl_v4 pwrlvl_11b_11ag_2g4 [6]%nat]);
  ("lvl_11b_11ag_18m_2g4", [At txpwr_lvl_v4 pwrlvl_11b_11ag_2g4 [7]%nat]);
  ("lvl_11b_11ag_24m_2g4", [At txpwr_lvl_v4 pwrlvl_11b_11ag_2g4 [8]%nat]);
  ("lvl_11b_11ag_36m_2g4", [At txpwr_lvl_v4 pwrlvl_11b_11ag_2g4 [9]%nat]);
  ("lvl_11b_11ag_48m_2g4", [At txpwr_lvl_v4 pwrlvl_11b_11ag_2g4 [10]%nat]);
  ("lvl_11b_11ag_54m_2g4", [At txpwr_lvl_v4 pwrlvl_11b_11ag_2g4 [11]%nat]);
  ("lvl_11n_11ac_mcs0_2g4", [At txpwr_lvl_v4 pwrlvl_11n_11ac_2g4 [0]%nat]);
  ("lvl_11n_11ac_mcs1_2g4", [At txpwr_lvl_v4 pwrlvl_11n_11ac_2g4 [1]%nat]);
  ("lvl_11n_11ac_mcs2_2g4", [At txpwr_lvl_v4 pwrlvl_11n_11ac_2g4 [2]%nat]);
  ("lvl_11n_11ac_mcs3_2g4", [At txpwr_lvl_v4 pwrlvl_11n_11ac_2g4 [3]%nat]);
  ("lvl_11n_11ac_mcs4_2g4", [At txpwr_lvl_v4 pwrlvl_11n_11ac_2g4 [4]%nat]);
  ("lvl_11n_11ac_mcs5_2g4", [At txpwr_lvl_v4 pwrlvl_11n_11ac_2g4 [5]%nat]);
  ("lvl_11n_11ac_mcs6_2g4", [At txpwr_lvl_v4 pwrlvl_11n_11ac_2g4 [6]%nat]);
  ("lvl_11n_11ac_mcs7_2g4", [At txpwr_lvl_v4 pwrlvl_11n_11ac_2g4 [7]%nat]);
  ("lvl_11n_11ac_mcs8_2g4", [At txpwr_lvl_v4 pwrlvl_11n_11ac_2g4 [8]%nat]);
  ("lvl_11n_11ac_mcs9_2g4", [At txpwr_lvl_v4 pwrlvl_11n_11ac_2g4 [9]%nat]);
  ("lvl_11ax_mcs0_2g4", [At txpwr_lvl_v4 pwrlvl_11ax_2g4 [0]%nat]);
  ("lvl_11ax_mcs1_2g4", [At txpwr_lvl_v4 pwrlvl_11ax_2g4 [1]%nat]);
  ("lvl_11ax_mcs2_2g4", [At txpwr_lvl_v4 pwrlvl_11ax_2g4 [2]%nat]);
  ("lvl_11ax_mcs3_2g4", [At txpwr_lvl_v4 pwrlvl_11ax_2g4 [3]%nat]);
  ("lvl_11ax_mcs4_2g4", [At txpwr_lvl_v4 pwrlvl_11ax_2g4 [4]%nat]);
  ("lvl_11ax_mcs5_2g4", [At txpwr_lvl_v4 pwrlvl_11ax_2g4 [5]%nat]);
  ("lvl_11ax_mcs6_2g4", [At txpwr_lvl_v4 pwrlvl_11ax_2g4 [6]%nat]);
  ("lvl_11ax_mcs7_2g4", [At txpwr_lvl_v4 pwrlvl_11ax_2g4 [7]%nat]);
  ("lvl_11ax_mcs8_2g4", [At txpwr_lvl_v4 pwrlvl_11ax_2g4 [8]%nat]);
  ("lvl_11ax_mcs9_2g4", [At txpwr_lvl_v4 pwrlvl_11ax_2g4 [9]%nat]);
  ("lvl_11ax_mcs10_2g4", [At txpwr_lvl_v4 pwrlvl_11ax_2g4 [10]%nat]);
  ("lvl_11ax_mcs11_2g4", [At txpwr_lvl_v4 pwrlvl_11ax_2g4 [11]%nat]);
  ("lvl_11a_6m_5g", [At txpwr_lvl_v4 pwrlvl_11a_5g [0]%nat]);
  ("lvl_11a_9m_5g", [At txpwr_lvl_v4 pwrlvl_11a_5g [1]%nat]);
  ("lvl_11a_12m_5g", [At txpwr_lvl_v4 pwrlvl_11a_5g [2]%nat]);
  ("lvl_11a_18m_5g", [At txpwr_lvl_v4 pwrlvl_11a_5g [3]%nat]);
  ("lvl_11a_24m_5g", [At txpwr_lvl_v4 pwrlvl_11a_5g [4]%nat]);
  ("lvl_11a_36m_5g", [At txpwr_lvl_v4 pwrlvl_11a_5g [5]%nat]);
  ("lvl_11a_48m_5g", [At txpwr_lvl_v4 pwrlvl_11a_5g [6]%nat]);
  ("lvl_11a_54m_5g", [At txpwr_lvl_v4 pwrlvl_11a_5g [7]%nat]);
  ("lvl_11n_11ac_mcs0_5g", [At txpwr_lvl_v4 pwrlvl_11n_11ac_5g [0]%nat]);
  ("lvl_11n_11ac_mcs1_5g", [At txpwr_lvl_v4 pwrlvl_11n_11ac_5g [1]%nat]);
  ("lvl_11n_11ac_mcs2_5g", [At txpwr_lvl_v4 pwrlvl_11n_11ac_5g [2]%nat]);
  ("lvl_11n_11ac_mcs3_5g", [At txpwr_lvl_v4 pwrlvl_11n_11ac_5g [3]%nat]);
  ("lvl_11n_11ac_mcs4_5g", [At txpwr_lvl_v4 pwrlvl_11n_11ac_5g [4]%nat]);
  ("lvl_11n_11ac_mcs5_5g", [At txpwr_lvl_v4 pwrlvl_11n_11ac_5g [5]%nat]);
  ("lvl_11n_11ac_mcs6_5g", [At txpwr_lvl_v4 pwrlvl_11n_11ac_5g [6]%nat]);
  ("lvl_11n_11ac_mcs7_5g", [At txpwr_lvl_v4 pwrlvl_11n_11ac_5g [7]%nat]);
  ("lvl_11n_11ac_mcs8_5g", [At txpwr_lvl_v4 pwrlvl_11n_11ac_5g [8]%nat]);
  ("lvl_11n_11ac_mcs9_5g", [At txpwr_lvl_v4 pwrlvl_11n_11ac_5g [9]%nat]);
  ("lvl_11ax_mcs0_5g", [At txpwr_lvl_v4 pwrlvl_11ax_5g [0]%nat]);
  ("lvl_11ax_mcs1_5g", [At txpwr_lvl_v4 pwrlvl_11ax_5g [1]%nat]);
  ("lvl_11ax_mcs2_5g", [At txpwr_lvl_v4 pwrlvl_11ax_5g [2]%nat]);
  ("lvl_11ax_mcs3_5g", [At txpwr_lvl_v4 pwrlvl_11ax_5g [3]%nat]);
  ("lvl_11ax_mcs4_5g", [At txpwr_lvl_v4 pwrlvl_11ax_5g [4]%nat]);
  ("lvl_11ax_mcs5_5g", [At txpwr_lvl_v4 pwrlvl_11ax_5g [5]%nat]);
  ("lvl_11ax_mcs6_5g", [At txpwr_lvl_v4 pwrlvl_11ax_5g [6]%nat]);
  ("lvl_11ax_mcs7_5g", [At txpwr_lvl_v4 pwrlvl_11ax_5g [7]%nat]);
  ("lvl_11ax_mcs8_5g", [At txpwr_lvl_v4 pwrlvl_11ax_5g [8]%nat]);
  ("lvl_11ax_mcs9_5g", [At txpwr_lvl_v4 pwrlvl_11ax_5g [9]%nat]);
  ("lvl_11ax_mcs10_5g", [At txpwr_lvl_v4 pwrlvl_11ax_5g [10]%nat]);
  ("lvl_11ax_mcs11_5g", [At txpwr_lvl_v4 pwrlvl_11ax_5g [11]%nat]);
  ("lvl_adj_enable", [At txpwr_lvl_adj enable []]);
  ("lvl_adj_2g4_chan_1_4", [At txpwr_lvl_adj pwrlvl_adj_tbl_2g4 [0]%nat]);
  ("lvl_adj_2g4_chan_5_9", [At txpwr_lvl_adj pwrlvl_adj_tbl_2g4 [1]%nat]);
  ("lvl_adj_2g4_chan_10_13", [At txpwr_lvl_adj pwrlvl_adj_tbl_2g4 [2]%nat]);
  ("lvl_adj_5g_chan_42", [At txpwr_lvl_adj pwrlvl_adj_tbl_5g [0]%nat])
].

Definition nvram_keys_8800d80x2_2 : list (string * list lvalue) := [
  ("lvl_adj_5g_chan_58", [At txpwr_lvl_adj pwrlvl_adj_tbl_5g [1]%nat]);
  ("lvl_adj_5g_chan_106", [At txpwr_lvl_adj pwrlvl_adj_tbl_5g [2]%nat]);
  ("lvl_adj_5g_chan_122", [At txpwr_lvl_adj pwrlvl_adj_tbl_5g [3]%nat]);
  ("lvl_adj_5g_chan_138", [At txpwr_lvl_adj pwrlvl_adj_tbl_5g [4]%nat]);
  ("lvl_adj_5g_chan_155", [At txpwr_lvl_adj pwrlvl_adj_tbl_5g [5]%nat]);
  ("loss_enable_2g4", [At txpwr_loss loss_enable_2g4 []]);
  ("loss_value_2g4", [At txpwr_loss loss_value_2g4 []]);
  ("loss_enable_5g", [At txpwr_loss loss_enable_5g []]);
  ("loss_value_5g", [At txpwr_loss loss_value_5g []]);
  ("ofst_enable", [At txpwr_ofst2x_v2 enable []]);
  ("ofst_2g4_ant0_11b_chan_1_4", [At txpwr_ofst2x_v2 pwrofst2x_tbl_2g4_ant0 [0; 0]%nat]);
  ("ofst_2g4_ant0_11b_chan_5_9", [At txpwr_ofst2x_v2 pwrofst2x_tbl_2g4_ant0 [1; 0]%nat]);
  ("ofst_2g4_ant0_11b_chan_10_13", [At txpwr_ofst2x_v2 pwrofst2x_tbl_2g4_ant0 [2; 0]%nat]);
  ("ofst_2g4_ant0_ofdm_highrate_chan_1_4", [At txpwr_ofst2x_v2 pwrofst2x_tbl_2g4_ant0 [0; 1]%nat]);
  ("ofst_2g4_ant0_ofdm_highrate_chan_5_9", [At txpwr_ofst2x_v2 pwrofst2x_tbl_2g4_ant0 [1; 1]%nat]);
  ("ofst_2g4_ant0_ofdm_highrate_chan_10_13", [At txpwr_ofst2x_v2 pwrofst2x_tbl_2g4_ant0 [2; 1]%nat]);
  ("ofst_2g4_ant1_11b_chan_1_4", [At txpwr_ofst2x_v2 pwrofst2x_tbl_2g4_ant1 [0; 0]%nat]);
  ("ofst_2g4_ant1_11b_chan_5_9", [At txpwr_ofst2x_v2 pwrofst2x_tbl_2g4_ant1 [1; 0]%nat]);
  ("ofst_2g4_ant1_11b_chan_10_13", [At txpwr_ofst2x_v2 pwrofst2x_tbl_2g4_ant1 [2; 0]%nat]);
  ("ofst_2g4_ant1_ofdm_highrate_chan_1_4", [At txpwr_ofst2x_v2 pwrofst2x_tbl_2g4_ant1 [0; 1]%nat]);
  ("ofst_2g4_ant1_ofdm_highrate_chan_5_9", [At txpwr_ofst2x_v2 pwrofst2x_tbl_2g4_ant1 [1; 1]%nat]);
  ("ofst_2g4_ant1_ofdm_highrate_chan_10_13", [At txpwr_ofst2x_v2 pwrofst2x_tbl_2g4_ant1 [2; 1]%nat]);
  ("ofst_5g_ant0_ofdm_highrate_chan_42", [At txpwr_ofst2x_v2 pwrofst2x_tbl_5g_ant0 [0; 0]%nat]);
  ("ofst_5g_ant0_ofdm_highrate_chan_58", [At txpwr_ofst2x_v2 pwrofst2x_tbl_5g_ant0 [1; 0]%nat]);
  ("ofst_5g_ant0_ofdm_highrate_chan_106", [At txpwr_ofst2x_v2 pwrofst2x_tbl_5g_ant0 [2; 0]%nat]);
  ("ofst_5g_ant0_ofdm_highrate_chan_122", [At txpwr_ofst2x_v2 pwrofst2x_tbl_5g_ant0 [3; 0]%nat]);
  ("ofst_5g_ant0_ofdm_highrate_chan_138", [At txpwr_ofst2x_v2 pwrofst2x_tbl_5g_ant0 [4; 0]%nat]);
  ("ofst_5g_ant0_ofdm_highrate_chan_155", [At txpwr_ofst2x_v2 pwrofst2x_tbl_5g_ant0 [5; 0]%nat]);
  ("ofst_5g_ant1_ofdm_highrate_chan_42", [At txpwr_ofst2x_v2 pwrofst2x_tbl_5g_ant1 [0; 0]%nat]);
  ("ofst_5g_ant1_ofdm_highrate_chan_58", [At txpwr_ofst2x_v2 pwrofst2x_tbl_5g_ant1 [1; 0]%nat]);
  ("ofst_5g_ant1_ofdm_highrate_chan_106", [At txpwr_ofst2x_v2 pwrofst2x_tbl_5g_ant1 [2; 0]%nat]);
  ("ofst_5g_ant1_ofdm_highrate_chan_122", [At txpwr_ofst2x_v2 pwrofst2x_tbl_5g_ant1 [3; 0]%nat]);
  ("ofst_5g_ant1_ofdm_highrate_chan_138", [At txpwr_ofst2x_v2 pwrofst2x_tbl_5g_ant1 [4; 0]%nat]);
  ("ofst_5g_ant1_ofdm_highrate_chan_155", [At txpwr_ofst2x_v2 pwrofst2x_tbl_5g_ant1 [5; 0]%nat]);
  ("xtal_enable", [At xtal_cap enable []]);
  ("xtal_cap", [At xtal_cap xtal_cap_ []]);
  ("xtal_cap_fine", [At xtal_cap xtal_cap_fine []])
].

Definition nvram_keys_8800d80x2 : list (string * list lvalue) := (nvram_keys_8800d80x2_1 ++ nvram_keys_8800d80x2_2)%list.

Definition loader_keys : list (string * list lvalue) := [
  ("enable", [At userconfig_txpwr_idx enable []]);
  ("dsss", [At userconfig_txpwr_idx dsss []]);
  ("ofdmlowrate_2g4", [At userconfig_txpwr_idx ofdmlowrate_2g4 []]);
  ("ofdm64qam_2g4", [At userconfig_txpwr_idx ofdm64qam_2g4 []]);
  ("ofdm256qam_2g4", [At userconfig_txpwr_idx ofdm256qam_2g4 []]);
  ("ofdm1024qam_2g4", [At userconfig_txpwr_idx ofdm1024qam_2g4 []]);
  ("ofdmlowrate_5g", [At userconfig_txpwr_idx ofdmlowrate_5g []]);
  ("ofdm64qam_5g", [At userconfig_txpwr_idx ofdm64qam_5g []]);
  ("ofdm256qam_5g", [At userconfig_txpwr_idx ofdm256qam_5g []]);
  ("ofdm1024qam_5g", [At userconfig_txpwr_idx ofdm1024qam_5g []]);
  ("ofst_enable", [At userconfig_txpwr_ofst enable []]);
  ("ofst_chan_1_4", [At userconfig_txpwr_ofst chan_1_4 []]);
  ("ofst_chan_5_9", [At userconfig_txpwr_ofst chan_5_9 []]);
  ("ofst_chan_10_13", [At userconfig_txpwr_ofst chan_10_13 []]);
  ("ofst_chan_36_64", [At userconfig_txpwr_ofst chan_36_64 []]);
  ("ofst_chan_100_120", [At userconfig_txpwr_ofst chan_100_120 []]);
  ("ofst_chan_122_140", [At userconfig_txpwr_ofst chan_122_140 []]);
  ("ofst_chan_142_165", [At userconfig_txpwr_ofst chan_142_165 []]);
  ("xtal_enable", [At userconfig_xtal_cap enable []]);
  ("xtal_cap", [At userconfig_xtal_cap xtal_cap_ []]);
  ("xtal_cap_fine", [At userconfig_xtal_cap xtal_cap_fine []])
].

End Conf.
