(* ===== verification/UserConfig.v ===== *)
(** The user configuration: what is done with the tables of [ConfigTables].

    [Uc]: the store of the settings; the parsers of the configuration text,
    [rwnx_plat_userconfig_parsing] and its variants, character by character with
    their two buffers; the conversion of numbers; and the messages of
    [rwnx_msg_tx.c] that carry the settings to the firmware.
    [UcSpec]: the meaning of a text, line by line. *)
From Stdlib Require Import ZArith Lia Ascii String.
From stdpp Require Import base list numbers gmap strings pretty.
From S2P Require Import Prelude Regulatory ConfigTables.

#[local] Open Scope Z_scope.
#[local] Open Scope aic_scope.

Module Uc.
Import Conf.

(** ** The store *)

Abbreviation info := (gmap (conf * member) (list Z)).

Definition dims_size (ds : list nat) : nat := foldr Nat.mul 1%nat ds.

(** The position of an element in its array, row by row. *)
Fixpoint offset (ds idx : list nat) : option nat :=
  match ds, idx with
  | [], [] => Some 0%nat
  | d :: ds, i :: idx => if (i <? d)%nat then o ← offset ds idx; Some (i * dims_size ds + o)%nat else None
  | _, _ => None
  end.

Definition find_decl (c : conf) (m : member) : option decl := List.find (fun d => bool_decide (d_name d = m)) (layout c).

(** Conversion to the type of an object that is assigned to. *)
Definition conv (t : ctype) (z : Z) : Z := match t with U8 => u8 z | S8 => s8 z end.

Definition place (l : lvalue) : option (ctype * nat) :=
  let 'At c m idx := l in d ← find_decl c m; o ← offset (d_dims d) idx; Some (d_type d, o).

Definition key_of (l : lvalue) : conf * member := let 'At c m _ := l in (c, m).

Definition load (l : lvalue) (u : info) : option Z :=
  '(_, o) ← place l; a ← u !! key_of l; a !! o.

Definition store (l : lvalue) (v : Z) (u : info) : info :=
  match place l with
  | Some (t, o) => alter (fun a => <[o := conv t v]> a) (key_of l) u
  | None => u
  end.

Definition zero_info : info :=
  list_to_map (concat ((fun c => (fun d => ((c, d_name d), replicate (dims_size (d_dims d)) 0)) <$> layout c) <$> all_confs)).

(** An initialiser gives the first elements of an array. *)
Definition init_one (e : conf * member * list Z) (u : info) : info :=
  let '(c, m, vs) := e in
  match find_decl c m with
  | Some d => alter (fun a => (conv (d_type d) <$> vs) ++ drop (length vs) a) (c, m) u
  | None => u
  end.

(** [userconfig_info], and the variables of the firmware loader, at start. *)
Definition userconfig_info : info := foldr init_one zero_info (userconfig_info_init ++ loader_init).

(** ** Numbers *)

(** The characters before the terminator. *)
Fixpoint c_str (buf : list Z) : list Z :=
  match buf with [] => [] | c :: buf => if c =? 0 then [] else c :: c_str buf end.

(** [strlen] runs out of a buffer without a terminator. *)
Definition terminated (buf : list Z) : res (list Z) :=
  if (length (c_str buf) <? length buf)%nat then Ok (c_str buf) else Fault OutOfBounds.

Fixpoint atoi_loop (wrap : Z -> Z) (s : list Z) (result : Z) : Z :=
  match s with
  | [] => result
  | c :: s =>
      let result := wrap (result * 10) in
      if (48 <=? c) && (c <=? 57) then atoi_loop wrap s (wrap (result + (c - 48))) else 0
  end.

(** [rwnx_atoi] of this driver, on an [int]. *)
Definition rwnx_atoi (s : list Z) : Z :=
  match s with
  | 45 :: s => s32 (atoi_loop s32 s 0 * -1)
  | _ => atoi_loop s32 s 0
  end.

(** [rwnx_atoi] of the firmware loader, on an [int8_t]. *)
Definition loader_atoi (s : list Z) : Z :=
  match s with
  | 45 :: s => s8 (atoi_loop s8 s 0 * -1)
  | _ => s8 (atoi_loop s8 s 0 * 1)
  end.

(** ** The parser *)

Definition INIT : Z := 0.
Definition CMD : Z := 1.
Definition PRINT : Z := 2.
Definition GET_VALUE : Z := 3.

(** What the three copies of the parser differ in: the size of [command], how
    much of it [memset] clears, whether only digits and signs are taken into
    [value], the keys and the conversion. *)
Record parser := mk_parser {
  command_size : nat;
  cleared : nat;
  digits_only : bool;
  keys : list (string * list lvalue);
  atoi : list Z -> Z
}.

Record pstate := mk_pstate {
  parse_state : Z;
  command : list Z;
  value : list Z;
  char_counter : nat;
  config : info
}.
#[export] Instance pstate_eta : RecordEta pstate := fun s =>
  mk_pstate (parse_state s) (command s) (value s) (char_counter s) (config s).

Definition put (buf : list Z) (i : nat) (b : Z) : res (list Z) :=
  if (i <? length buf)%nat then Ok (<[i := b]> buf) else Fault OutOfBounds.
Definition at0 (buf : list Z) : Z := default 0 (buf !! 0%nat).

Section Parser.
Context (P : parser).

(** [rwnx_plat_nvram_set_value]: the first key equal to the command. *)
Definition set_value (command value : list Z) (u : info) : res info :=
  match List.find (fun e => bool_decide (bytes (fst e) = c_str command)) (keys P) with
  | Some (_, ls) => v ← terminated value; Ok (fold_left (fun u l => store l (atoi P v) u) ls u)
  | None => Ok u
  end.

(** The end of a line. *)
Definition end_line (s : pstate) : res pstate :=
  u ← (if negb (at0 (command s) =? 0) && negb (at0 (value s) =? 0) then
         if parse_state s =? GET_VALUE then set_value (command s) (value s) (config s) else Ok (config s)
       else Ok (config s));
  Ok (mk_pstate INIT (replicate (cleared P) 0 ++ drop (cleared P) (command s)) (replicate 100 0) 0%nat u).

(** The characters of a line in the states [CMD], [PRINT] and [GET_VALUE]. *)
Definition fill (b : Z) (s : pstate) : res pstate :=
  if parse_state s =? PRINT then
    let s := s <| command ::= <[0%nat := 1]> |> in
    v ← put (value s) (char_counter s) b;
    Ok (s <| value := v |> <| char_counter ::= S |>)
  else if parse_state s =? CMD then
    if negb (at0 (command s) =? 0) && (b =? 61) then Ok (s <| parse_state := GET_VALUE |> <| char_counter := 0%nat |>)
    else
      c ← put (command s) (char_counter s) b;
      Ok (s <| command := c |> <| char_counter ::= S |>)
  else if parse_state s =? GET_VALUE then
    if digits_only P && negb (b =? 45) && ((b <? 48) || (57 <? b)) then Ok s
    else
      v ← put (value s) (char_counter s) b;
      Ok (s <| value := v |> <| char_counter ::= S |>)
  else Ok s.

Definition char_step (b : Z) (s : pstate) : res pstate :=
  if (b =? 10) || (b =? 13) then end_line s
  else if parse_state s =? INIT then
    if b =? 35 then Ok (s <| parse_state := PRINT |>) else fill b (s <| parse_state := CMD |>)
  else fill b s.

(** The whole text.  [junk]: what the stack held where [memset] does not
    reach. *)
Definition parsing (buffer junk : list Z) (u : info) : res info :=
  s ← foldM char_step buffer (mk_pstate INIT (replicate (cleared P) 0 ++ junk) (replicate 100 0) 0%nat u);
  Ok (config s).

End Parser.

Definition rwnx_plat_userconfig : parser := mk_parser 64 64 true nvram_keys rwnx_atoi.
Definition rwnx_plat_userconfig_8800d80x2 : parser := mk_parser 100 64 true nvram_keys_8800d80x2 rwnx_atoi.
Definition loader_userconfig : parser := mk_parser 30 30 false loader_keys loader_atoi.

Definition rwnx_plat_userconfig_parsing := parsing rwnx_plat_userconfig.
Definition rwnx_plat_userconfig_parsing_8800d80x2 := parsing rwnx_plat_userconfig_8800d80x2.
Definition loader_userconfig_parsing := parsing loader_userconfig.

(** ** The messages *)

Definition get (l : lvalue) (u : info) : Z := default 0 (load l u).

(** [set_txpwr_loss_ofst] *)
Definition set_txpwr_loss_ofst (v : Z) (u : info) : info :=
  store (At txpwr_loss loss_value_5g []) (- v) (store (At txpwr_loss loss_enable_5g []) 1
    (store (At txpwr_loss loss_value_2g4 []) (- v) (store (At txpwr_loss loss_enable_2g4 []) 1 u))).

(** The bytes of a structure. *)
Definition image (c : conf) (u : info) : list Z :=
  u8 <$> concat ((fun d => default [] (u !! (c, d_name d))) <$> layout c).

(** A message: not allocated, freed again, or sent with these bytes. *)
Inductive request := NoMemory | Freed | Sent (payload : list Z).

Definition sizeof (ds : list decl) : nat := sum_list_with (fun d => dims_size (d_dims d)) ds.
Definition union_size (us : list (list decl)) : nat := foldr Nat.max 0%nat (sizeof <$> us).
Definition mm_set_txpwr_lvl_req : nat := union_size [txpwr_lvl_conf_t; txpwr_lvl_conf_v2_t; txpwr_lvl_conf_v3_t; txpwr_lvl_conf_v4_t].
Definition mm_set_txpwr_ofst_req : nat := union_size [txpwr_ofst_conf_t; txpwr_ofst2x_conf_t; txpwr_ofst2x_conf_v2_t].

(** The parameters of a message, cleared by [rwnx_msg_zalloc]. *)
Definition zalloc (size : nat) (l : list Z) : list Z := l ++ replicate (size - length l) 0.

(** The loops over the first elements of an array of levels. *)
Definition lose (c : conf) (loss : Z) (a : member * nat) (u : info) : info :=
  alter (fun l => ((fun x => s8 (x - loss)) <$> take (snd a) l) ++ drop (snd a) l) (c, fst a) u.
Definition lose_all (c : conf) (loss : Z) (l : list (member * nat)) (u : info) : info :=
  foldr (lose c loss) u l.

Definition levels_2g4 : list (member * nat) := [(pwrlvl_11b_11ag_2g4, 12%nat); (pwrlvl_11n_11ac_2g4, 10%nat); (pwrlvl_11ax_2g4, 12%nat)].
Definition levels_5g (n : nat) : list (member * nat) := [(pwrlvl_11a_5g, n); (pwrlvl_11n_11ac_5g, 10%nat); (pwrlvl_11ax_5g, 12%nat)].

Definition lose_2g4 (c : conf) (u : info) : info :=
  if get (At txpwr_loss loss_enable_2g4 []) u =? 1 then lose_all c (get (At txpwr_loss loss_value_2g4 []) u) levels_2g4 u else u.
Definition lose_5g (c : conf) (n : nat) (u : info) : info :=
  if get (At txpwr_loss loss_enable_5g []) u =? 1 then lose_all c (get (At txpwr_loss loss_value_5g []) u) (levels_5g n) u else u.

(** The ten bytes for the first version of the chip. *)
Definition lvl_from_v2 (u : info) : list Z :=
  u8 <$> [get (At txpwr_lvl_v2 enable []) u; get (At txpwr_lvl_v2 pwrlvl_11b_11ag_2g4 [3%nat]) u;
          get (At txpwr_lvl_v2 pwrlvl_11ax_2g4 [4%nat]) u; get (At txpwr_lvl_v2 pwrlvl_11ax_2g4 [7%nat]) u;
          get (At txpwr_lvl_v2 pwrlvl_11ax_2g4 [9%nat]) u; get (At txpwr_lvl_v2 pwrlvl_11ax_2g4 [11%nat]) u; 13; 13; 13; 13].

Definition rwnx_send_txpwr_lvl_req (alloc : bool) (testmode chip_sub_id : Z) (u : info) : request :=
  if negb alloc then NoMemory
  else if get (At txpwr_lvl_v2 enable []) u =? 0 then Freed
  else
    let u := lose_2g4 txpwr_lvl_v2 u in
    Sent (zalloc mm_set_txpwr_lvl_req
      (if (testmode =? 0) && (chip_sub_id =? 0) then lvl_from_v2 u else image txpwr_lvl_v2 u)).

Definition rwnx_send_txpwr_lvl_v3_req (alloc : bool) (u : info) : request :=
  if negb alloc then NoMemory
  else
    let u := lose_5g txpwr_lvl_v3 12 (lose_2g4 txpwr_lvl_v3 u) in
    if get (At txpwr_lvl_v3 enable []) u =? 0 then Freed
    else Sent (zalloc mm_set_txpwr_lvl_req (image txpwr_lvl_v3 u)).

Definition rwnx_send_txpwr_lvl_v4_req (alloc : bool) (u : info) : request :=
  if negb alloc then NoMemory
  else
    let u := lose_5g txpwr_lvl_v4 8 (lose_2g4 txpwr_lvl_v4 u) in
    if get (At txpwr_lvl_v4 enable []) u =? 0 then Freed
    else Sent (zalloc mm_set_txpwr_lvl_req (image txpwr_lvl_v4 u)).

Definition rwnx_send_txpwr_lvl_adj_req (alloc : bool) (u : info) : request :=
  if negb alloc then NoMemory
  else if get (At txpwr_lvl_adj enable []) u =? 0 then Freed
  else Sent (image txpwr_lvl_adj u).

Inductive chipid := PRODUCT_ID_AIC8801 | PRODUCT_ID_AIC8800DC | PRODUCT_ID_AIC8800DW
  | PRODUCT_ID_AIC8800D81 | PRODUCT_ID_AIC8800D81X2 | PRODUCT_ID_AIC8800D89X2.

(** The offsets come from the firmware loader or from this driver, by chip. *)
Definition rwnx_send_txpwr_ofst_req (alloc : bool) (chip : chipid) (u : info) : request :=
  if negb alloc then NoMemory
  else
    let from c := if get (At c enable []) u =? 0 then Freed else Sent (zalloc mm_set_txpwr_ofst_req (image c u)) in
    match chip with
    | PRODUCT_ID_AIC8801 => from userconfig_txpwr_ofst
    | PRODUCT_ID_AIC8800DC | PRODUCT_ID_AIC8800DW => from txpwr_ofst
    | _ => Freed
    end.

Definition rwnx_send_txpwr_ofst2x_req (alloc : bool) (chip : chipid) (u : info) : request :=
  if negb alloc then NoMemory
  else
    match chip with
    | PRODUCT_ID_AIC8800D81 | PRODUCT_ID_AIC8800D81X2 | PRODUCT_ID_AIC8800D89X2 =>
        if get (At txpwr_ofst2x enable []) u =? 0 then Freed else Sent (zalloc mm_set_txpwr_ofst_req (image txpwr_ofst2x u))
    | _ => Freed
    end.

Definition rwnx_send_txpwr_ofst2x_v2_req (alloc : bool) (u : info) : request :=
  if negb alloc then NoMemory
  else if get (At txpwr_ofst2x_v2 enable []) u =? 0 then Freed
  else Sent (zalloc mm_set_txpwr_ofst_req (image txpwr_ofst2x_v2 u)).

Definition rwnx_send_txpwr_idx_req (alloc : bool) (u : info) : request :=
  if negb alloc then NoMemory else Sent (image userconfig_txpwr_idx u).

End Uc.

Module UcSpec.
Import Conf Uc.

(** ** The meaning of a text *)

(** A line: nothing, a comment, a line without a value, an assignment. *)
Inductive line :=
| Empty
| Comment (text : list Z)
| NoValue (key : list Z)
| Assign (key digits : list Z).

(** The first [=] separates. *)
Fixpoint split_eq (l : list Z) : list Z * option (list Z) :=
  match l with
  | [] => ([], None)
  | b :: l => if b =? 61 then ([], Some l) else let '(k, v) := split_eq l in (b :: k, v)
  end.

Definition newline (b : Z) : bool := (b =? 10) || (b =? 13).

(** The lines that are terminated, and the rest. *)
Fixpoint lines (cur text : list Z) : list (list Z) * list Z :=
  match text with
  | [] => ([], cur)
  | b :: text => if newline b then let '(ls, tail) := lines [] text in (cur :: ls, tail) else lines (cur ++ [b]) text
  end.

Section Spec.
Context (P : parser).

(** The characters of a value that count. *)
Definition counts (b : Z) : bool := negb (digits_only P && negb (b =? 45) && ((b <? 48) || (57 <? b))).

Definition line_of (l : list Z) : line :=
  match l with
  | [] => Empty
  | c :: l =>
      if c =? 35 then Comment l
      else match split_eq l with
           | (k, None) => NoValue (c :: k)
           | (k, Some v) => Assign (c :: k) (List.filter counts v)
           end
  end.

(** A line that does not fit the buffers. *)
Definition overlong (l : line) : bool :=
  match l with
  | Empty => false
  | Comment t => (100 <? length t)%nat
  | NoValue k => (command_size P <? length k)%nat
  | Assign k v => (command_size P <? length k)%nat || (100 <? length v)%nat
  end.

Definition dests (key : list Z) : option (list lvalue) :=
  snd <$> List.find (fun e => bool_decide (bytes (fst e) = key)) (keys P).

(** What a line does: an assignment to the objects of its key. *)
Definition line_effect (l : line) (u : info) : res info :=
  if overlong l then Fault OutOfBounds
  else match l with
       | Assign k v =>
           if decide (v = []) then Ok u
           else match dests k with
                | Some ls => if (length v =? 100)%nat then Fault OutOfBounds else Ok (fold_left (fun u x => store x (atoi P v) u) ls u)
                | None => Ok u
                end
       | _ => Ok u
       end.

Definition meaning (text : list Z) (u : info) : res info :=
  let '(ls, tail) := lines [] text in
  u ← foldM (fun l u => line_effect (line_of l) u) ls u;
  if overlong (line_of tail) then Fault OutOfBounds else Ok u.

(** ** A line grows by one character *)

Definition extend (l : line) (b : Z) : line :=
  match l with
  | Empty => if b =? 35 then Comment [] else NoValue [b]
  | Comment t => Comment (t ++ [b])
  | NoValue k => if b =? 61 then Assign k [] else NoValue (k ++ [b])
  | Assign k v => Assign k (if counts b then v ++ [b] else v)
  end.

Lemma split_eq_snoc l b : split_eq (l ++ [b]) =
  match split_eq l with
  | (k, None) => if b =? 61 then (k, Some []) else (k ++ [b], None)
  | (k, Some v) => (k, Some (v ++ [b]))
  end.
Proof.
  induction l as [|c l IH]; cbn [app split_eq]; [now destruct (b =? 61)|].
  destruct (c =? 61); [done|]. rewrite IH. destruct (split_eq l) as [k [v|]]; [done|]. now destruct (b =? 61).
Qed.

Lemma line_of_snoc l b : line_of (l ++ [b]) = extend (line_of l) b.
Proof.
  destruct l as [|c l]; cbn [app line_of extend split_eq]; [done|].
  destruct (c =? 35); [done|]. rewrite split_eq_snoc. destruct (split_eq l) as [k [v|]]; cbn [extend].
  - rewrite List.filter_app. cbn [List.filter]. destruct (counts b); [done|now rewrite app_nil_r].
  - now destruct (b =? 61).
Qed.

Lemma overlong_extend l b : overlong l = true -> overlong (extend l b) = true.
Proof.
  destruct l as [|t|k|k v]; cbn [overlong extend]; [discriminate| | |].
  - rewrite !Nat.ltb_lt, length_app. lia.
  - destruct (b =? 61); cbn [overlong]; rewrite ?orb_true_iff, !Nat.ltb_lt, ?length_app; lia.
  - rewrite !orb_true_iff, !Nat.ltb_lt. destruct (counts b); rewrite ?length_app; lia.
Qed.

Lemma line_effect_over l u : overlong l = true -> line_effect l u = Fault OutOfBounds.
Proof. intros H. unfold line_effect. now rewrite H. Qed.

Lemma overlong_lines cur text u : overlong (line_of cur) = true ->
  (let '(ls, tail) := lines cur text in
   u ← foldM (fun l u => line_effect (line_of l) u) ls u;
   if overlong (line_of tail) then Fault OutOfBounds else Ok u) = Fault OutOfBounds.
Proof.
  revert cur. induction text as [|b text IH]; intros cur Hc; cbn [lines].
  - cbn. now rewrite Hc.
  - destruct (newline b).
    + destruct (lines [] text) as [ls tail]. cbn [foldM]. now rewrite line_effect_over.
    + apply IH. rewrite line_of_snoc. now apply overlong_extend.
Qed.

(** ** The parser in the middle of a line *)

(** [value] holds [v] and zeros. *)
Definition padded (v : list Z) : list Z := v ++ replicate (100 - length v) 0.
#[local] Arguments padded : simpl never.


(** [command] holds [k] in front of what was there before. *)
Definition holds (buf k : list Z) : Prop :=
  length buf = command_size P /\ exists j, buf = k ++ drop (length k) (replicate (cleared P) 0 ++ j).

Definition at_line (l : line) (s : pstate) : Prop :=
  match l with
  | Empty => parse_state s = INIT /\ holds (command s) [] /\ value s = padded [] /\ char_counter s = 0%nat
  | Comment t => parse_state s = PRINT /\ (exists k, holds (command s) k /\ (length k <= 1)%nat) /\
      value s = padded t /\ char_counter s = length t /\ (length t <= 100)%nat
  | NoValue k => parse_state s = CMD /\ holds (command s) k /\ value s = padded [] /\ char_counter s = length k /\
      (exists c k', k = c :: k' /\ c <> 0) /\ Forall (fun c => c <> 0) k
  | Assign k v => parse_state s = GET_VALUE /\ holds (command s) k /\ value s = padded v /\ char_counter s = length v /\
      (length v <= 100)%nat /\ (exists c k', k = c :: k' /\ c <> 0) /\ Forall (fun c => c <> 0) k /\ Forall (fun c => c <> 0) v
  end.

(** The buffers are large enough for the first character, [memset] stays inside
    of them, and the keys are shorter than what it clears. *)
Record parser_ok : Prop := {
  po_size : (0 < cleared P <= command_size P)%nat;
  po_keys : Forall (fun e => (length (bytes (fst e)) < cleared P)%nat) (keys P)
}.
Hypothesis HP : parser_ok.

Lemma put_next (pre post : list Z) x b : put (pre ++ x :: post) (length pre) b = Ok (pre ++ b :: post).
Proof.
  unfold put. rewrite length_app. cbn [length]. destruct (Nat.ltb_spec (length pre) (length pre + S (length post))); [|lia].
  now rewrite insert_app_r_alt, Nat.sub_diag by lia.
Qed.
Lemma put_end (buf : list Z) i b : (length buf <= i)%nat -> put buf i b = Fault OutOfBounds.
Proof. intros Hi. unfold put. destruct (Nat.ltb_spec i (length buf)); [lia|done]. Qed.

Lemma put_command c k b : holds c k -> (length k < command_size P)%nat ->
  exists c', put c (length k) b = Ok c' /\ holds c' (k ++ [b]).
Proof.
  intros [Hl [j ->]] Hk. rewrite length_app in Hl. destruct (drop (length k) (replicate (cleared P) 0 ++ j)) as [|x post] eqn:E; [cbn in Hl; lia|].
  rewrite put_next. eexists; split; [done|]. split; [rewrite length_app; cbn in *; lia|]. exists j.
  rewrite <- app_assoc. f_equal. rewrite length_app, <- drop_drop, E. done.
Qed.
Lemma put_value v b : (length v < 100)%nat ->
  put (padded v) (length v) b = Ok (padded (v ++ [b])).
Proof.
  intros Hv. unfold padded. replace (100 - length v)%nat with (S (100 - length (v ++ [b]))) by (rewrite length_app; cbn; lia).
  cbn [replicate]. rewrite put_next. now rewrite <- app_assoc.
Qed.
Lemma value_length v : (length v <= 100)%nat -> length (padded v) = 100%nat.
Proof. intros Hv. unfold padded. rewrite length_app, length_replicate. lia. Qed.

Lemma at0_holds c a k : holds c (a :: k) -> at0 c = a.
Proof. intros [_ [j ->]]. reflexivity. Qed.
Lemma at0_cleared c : holds c [] -> at0 c = 0.
Proof. intros [_ [j ->]]. destruct HP as [[H _] _]. destruct (cleared P); [lia|]. reflexivity. Qed.

Lemma mark_comment c k : holds c k -> (length k <= 1)%nat -> holds (<[0%nat := 1]> c) [1].
Proof.
  intros [Hl [j ->]] Hk. split; [now rewrite length_insert|]. exists j. destruct HP as [[H _] _].
  destruct (cleared P) as [|n]; [lia|]. destruct k as [|a [|]]; [done|done|cbn in Hk; lia].
Qed.

#[local] Ltac line_goals :=
  split_and!; try done; try lia; try (cbn; lia); try (eexists _, _; split; done); try (repeat constructor; done).

(** A character that is not a line end. *)
Lemma char_step_line l s b : at_line l s -> newline b = false -> b <> 0 ->
  if overlong (extend l b) then char_step P b s = Fault OutOfBounds
  else exists s', char_step P b s = Ok s' /\ at_line (extend l b) s' /\ config s' = config s.
Proof.
  intros Hs Hn Hb. unfold char_step. unfold newline in Hn. rewrite Hn. destruct s as [st c v n u]. destruct l as [|t|k|k w]; cbn in Hs; cbn [parse_state].
  - destruct Hs as (-> & Hc & -> & ->). cbn [extend]. change (INIT =? INIT) with true. cbn match. destruct (b =? 35) eqn:E.
    + cbn [overlong length]. eexists; split; [done|]. split; [|done]. cbn. split_and!; try done; try lia. exists []. split; [done|cbn; lia].
    + cbn [overlong length]. destruct HP as [[H1 H2] _]. destruct (Nat.ltb_spec (command_size P) 1); [lia|].
      unfold fill. cbn [parse_state field_set command]. change (CMD =? PRINT) with false. change (CMD =? CMD) with true. cbn match.
      rewrite at0_cleared by done. cbn. destruct (put_command c [] b Hc) as (c' & Hput & Hc'); [cbn; lia|]. cbn [length] in Hput. rewrite Hput. cbn.
      eexists; split; [done|]. split; [|done]. cbn. line_goals.
  - destruct Hs as (-> & (k & Hc & Hk) & -> & -> & Ht). cbn [extend overlong]. change (PRINT =? INIT) with false. cbn match.
    unfold fill. cbn [parse_state field_set command value char_counter]. change (PRINT =? PRINT) with true. cbn match.
    rewrite length_app. cbn [length]. destruct (Nat.ltb_spec 100 (length t + 1)) as [Ho|Ho].
    + rewrite put_end by (rewrite value_length; lia). done.
    + rewrite put_value by lia. cbn. eexists; split; [done|]. split; [|done]. cbn. rewrite length_app. cbn.
      split_and!; try done; try lia. exists [1]. split; [|cbn; lia]. eapply mark_comment; done.
  - destruct Hs as (-> & Hc & -> & -> & (a & k' & -> & Ha) & Hk). change (CMD =? INIT) with false. cbn match.
    unfold fill. cbn [parse_state field_set command value char_counter]. change (CMD =? PRINT) with false. change (CMD =? CMD) with true. cbn match.
    rewrite (at0_holds _ _ _ Hc). apply Z.eqb_neq in Ha as Ha'. rewrite Ha'. cbn [extend negb andb].
    destruct (b =? 61) eqn:E; cbn [overlong].
    + destruct (Nat.ltb_spec (command_size P) (length (a :: k'))) as [Ho|Ho].
      { destruct Hc as [Hl [j ->]]. rewrite length_app in Hl. cbn in Hl, Ho. lia. }
      cbn. eexists; split; [done|]. split; [|done]. cbn. line_goals.
    + rewrite length_app. cbn [length]. destruct (Nat.ltb_spec (command_size P) (S (length k') + 1)) as [Ho|Ho].
      * rewrite put_end; [done|]. destruct Hc as [-> _]. cbn. lia.
      * destruct (put_command c (a :: k') b Hc) as (c' & Hput & Hc'); [cbn; lia|]. cbn [length] in Hput. rewrite Hput. cbn.
        eexists; split; [done|]. split; [|done]. cbn. rewrite length_app. cbn. line_goals. apply (Forall_app_2 _ (a :: k') [b]); [done|]. now constructor.
  - destruct Hs as (-> & Hc & -> & -> & Hw & (a & k' & -> & Ha) & Hk & Hz). change (GET_VALUE =? INIT) with false. cbn match.
    unfold fill. cbn [parse_state field_set command value char_counter]. change (GET_VALUE =? PRINT) with false. change (GET_VALUE =? CMD) with false.
    change (GET_VALUE =? GET_VALUE) with true. cbn match. cbn [extend overlong].
    destruct (Nat.ltb_spec (command_size P) (length (a :: k'))) as [Ho|Ho].
    { destruct Hc as [Hl [j ->]]. rewrite length_app in Hl. cbn in Hl, Ho. lia. }
    cbn [orb]. unfold counts. destruct (digits_only P && negb (b =? 45) && ((b <? 48) || (57 <? b))) eqn:E; cbn [negb].
    + destruct (Nat.ltb_spec 100 (length w)); [lia|]. eexists; split; [done|]. split; [|done]. cbn. line_goals.
    + rewrite length_app. cbn [length]. destruct (Nat.ltb_spec 100 (length w + 1)) as [H|H].
      * rewrite put_end by (rewrite value_length; lia). done.
      * rewrite put_value by lia. cbn. eexists; split; [done|]. split; [|done]. cbn. rewrite length_app. cbn.
        line_goals. apply Forall_app_2; [done|now constructor].
Qed.

(** ** The end of a line *)

Lemma c_str_app v l : Forall (fun c => c <> 0) v -> c_str (v ++ l) = v ++ c_str l.
Proof.
  induction 1 as [|c v Hc Hv IH]; [done|]. cbn [app c_str]. apply Z.eqb_neq in Hc as ->. now rewrite IH.
Qed.
Lemma c_str_zeros n l : (0 < n)%nat -> c_str (replicate n 0 ++ l) = [].
Proof. destruct n; [lia|]. done. Qed.

Lemma c_str_padded v : Forall (fun c => c <> 0) v -> c_str (padded v) = v.
Proof.
  intros Hv. unfold padded. rewrite c_str_app by done. destruct (100 - length v)%nat; cbn; apply app_nil_r.
Qed.

Lemma terminated_padded v : (length v <= 100)%nat -> Forall (fun c => c <> 0) v ->
  terminated (padded v) = if (length v =? 100)%nat then Fault OutOfBounds else Ok v.
Proof.
  intros Hl Hv. unfold terminated. rewrite c_str_padded, value_length by done.
  destruct (Nat.ltb_spec (length v) 100), (Nat.eqb_spec (length v) 100); try lia; done.
Qed.

(** What follows a key in its buffer does not matter. *)
Lemma find_key c k : holds c k -> Forall (fun c => c <> 0) k ->
  List.find (fun e : string * list lvalue => bool_decide (bytes (fst e) = c_str c)) (keys P) =
  List.find (fun e => bool_decide (bytes (fst e) = k)) (keys P).
Proof.
  intros [_ [j ->]] Hk. rewrite c_str_app by done. destruct HP as [_ Hkeys].
  destruct (Nat.lt_ge_cases (length k) (cleared P)) as [Hl|Hl].
  - rewrite drop_app_le by (rewrite length_replicate; lia). rewrite drop_replicate, c_str_zeros by lia. now rewrite app_nil_r.
  - induction Hkeys as [|e l He _ IH]; [done|]. cbn [List.find]. rewrite !bool_decide_false; [done| |]; intros E; apply (f_equal length) in E;
      rewrite ?length_app in E; lia.
Qed.

Lemma set_value_spec c k v u : holds c k -> Forall (fun c => c <> 0) k -> (length v <= 100)%nat -> Forall (fun c => c <> 0) v ->
  set_value P c (padded v) u =
  match dests k with
  | Some ls => if (length v =? 100)%nat then Fault OutOfBounds else Ok (fold_left (fun u x => store x (atoi P v) u) ls u)
  | None => Ok u
  end.
Proof.
  intros Hc Hk Hl Hv. unfold set_value, dests. rewrite (find_key c k) by done.
  destruct (List.find _ (keys P)) as [[key ls]|]; [|done]. cbn [fmap option_fmap option_map snd].
  rewrite terminated_padded by done. now destruct (length v =? 100)%nat.
Qed.

Lemma end_line_spec l s : at_line l s -> overlong l = false ->
  match line_effect l (config s) with
  | Ok u => exists s', end_line P s = Ok s' /\ at_line Empty s' /\ config s' = u
  | Fault e => end_line P s = Fault e
  end.
Proof.
  intros Hs Ho. unfold line_effect. rewrite Ho.
  assert (length (command s) = command_size P) as Hcs.
  { destruct l; cbn in Hs; [destruct Hs as (_ & [H _] & _)|destruct Hs as (_ & (k' & [H _] & _) & _)|destruct Hs as (_ & [H _] & _)|destruct Hs as (_ & [H _] & _)]; done. }
  assert (forall u, at_line Empty (mk_pstate INIT (replicate (cleared P) 0 ++ drop (cleared P) (command s)) (replicate 100 0) 0%nat u)) as Hnew.
  { intros u. cbn. split_and!; try done. split; [|exists (drop (cleared P) (command s)); done].
    destruct HP as [[H1 H2] _]. rewrite length_app, length_replicate, length_drop. lia. }
  unfold end_line. destruct l as [|t|k|k v]; cbn in Hs.
  - destruct Hs as (Hst & Hc & _ & _). rewrite (at0_cleared _ Hc). cbn. eexists; split; [done|]. split; [apply Hnew|done].
  - destruct Hs as (Hst & _). rewrite Hst. change (PRINT =? GET_VALUE) with false.
    destruct (negb (at0 (command s) =? 0) && negb (at0 (value s) =? 0)); cbn; eexists; (split; [done|]; split; [apply Hnew|done]).
  - destruct Hs as (Hst & _). rewrite Hst. change (CMD =? GET_VALUE) with false.
    destruct (negb (at0 (command s) =? 0) && negb (at0 (value s) =? 0)); cbn; eexists; (split; [done|]; split; [apply Hnew|done]).
  - destruct Hs as (Hst & Hc & Hv & _ & Hl & (a & k' & -> & Ha) & Hk & Hz). rewrite Hst, (at0_holds _ _ _ Hc), Hv. change (GET_VALUE =? GET_VALUE) with true.
    apply Z.eqb_neq in Ha as ->. cbn [negb andb]. destruct (decide (v = [])) as [->|Hne].
    + change (at0 (padded []) =? 0) with true. cbn. eexists; split; [done|]. split; [apply Hnew|done].
    + replace (at0 (padded v) =? 0) with false by (destruct v as [|b v]; [done|]; symmetry; apply Z.eqb_neq; now apply Forall_cons_1 in Hz as [Hb _]).
      cbn [negb]. rewrite (set_value_spec _ (a :: k')) by done. destruct (dests (a :: k')) as [ls|]; cbn [mbind res_bind].
      * destruct (length v =? 100)%nat; cbn; [done|]. eexists; split; [done|]. split; [apply Hnew|done].
      * eexists; split; [done|]. split; [apply Hnew|done].
Qed.

(** ** The whole text *)

Lemma char_step_newline b s : newline b = true -> char_step P b s = end_line P s.
Proof. unfold char_step, newline. now intros ->. Qed.

Lemma parse_from text : Forall (fun b => b <> 0) text -> forall cur s, at_line (line_of cur) s -> overlong (line_of cur) = false ->
  (s ← foldM (char_step P) text s; Ok (config s)) =
  (let '(ls, tail) := lines cur text in
   u ← foldM (fun l u => line_effect (line_of l) u) ls (config s);
   if overlong (line_of tail) then Fault OutOfBounds else Ok u).
Proof.
  induction 1 as [|b text Hb Ht IH]; intros cur s Hs Ho; cbn [foldM lines]; [cbn; now rewrite Ho|]. destruct (newline b) eqn:Hn.
  - rewrite char_step_newline by done. pose proof (end_line_spec _ _ Hs Ho) as He.
    destruct (lines [] text) as [ls tail] eqn:E. cbn [foldM]. destruct (line_effect (line_of cur) (config s)) as [u|e].
    + destruct He as (s' & -> & Hs' & <-). cbn [mbind res_bind]. rewrite (IH [] s') by done. rewrite E. done.
    + rewrite He. done.
  - pose proof (char_step_line _ _ b Hs Hn Hb) as He. rewrite <- line_of_snoc in He.
    destruct (overlong (line_of (cur ++ [b]))) eqn:E.
    + rewrite He. cbn [mbind res_bind]. symmetry. now apply overlong_lines.
    + destruct He as (s' & -> & Hs' & <-). cbn [mbind res_bind]. now apply IH.
Qed.

Lemma parsing_meaning text junk u : Forall (fun b => b <> 0) text -> length junk = (command_size P - cleared P)%nat ->
  parsing P text junk u = meaning text u.
Proof.
  intros Ht Hj. unfold parsing, meaning. apply (parse_from text Ht []); [|done]. cbn. split_and!; try done.
  destruct HP as [[H1 H2] _]. split; [rewrite length_app, length_replicate; lia|]. now exists junk.
Qed.

End Spec.
End UcSpec.

Module UcFacts.
Import Conf Uc UcSpec.

(** ** Positions *)

Lemma offset_bound ds : forall idx o, offset ds idx = Some o -> (o < dims_size ds)%nat.
Proof.
  induction ds as [|d ds IH]; intros [|i idx] o H; cbn [offset] in H; try discriminate; [injection H as <-; cbn; lia|].
  destruct (Nat.ltb_spec i d); [|discriminate]. destruct (offset ds idx) as [o'|] eqn:E; [|discriminate]. injection H as <-.
  pose proof (IH _ _ E). change (dims_size (d :: ds)) with (d * dims_size ds)%nat. nia.
Qed.

Lemma offset_inj ds : forall idx idx' o, offset ds idx = Some o -> offset ds idx' = Some o -> idx = idx'.
Proof.
  induction ds as [|d ds IH]; intros [|i idx] [|i' idx'] o H H'; cbn [offset] in H, H'; try discriminate; [done|].
  destruct (Nat.ltb_spec i d); [|discriminate]. destruct (Nat.ltb_spec i' d); [|discriminate].
  destruct (offset ds idx) as [a|] eqn:E; [|discriminate]. destruct (offset ds idx') as [a'|] eqn:E'; [|discriminate].
  injection H as <-. injection H' as Ho. pose proof (offset_bound _ _ _ E). pose proof (offset_bound _ _ _ E').
  assert (i' = i) as -> by nia. assert (a' = a) as -> by nia. f_equal. now apply (IH _ _ a).
Qed.

(** ** Well-typed settings *)

Definition in_type (t : ctype) (z : Z) : Prop := match t with U8 => 0 <= z < 256 | S8 => -128 <= z < 128 end.
#[export] Instance in_type_dec t z : Decision (in_type t z).
Proof. destruct t; apply _. Defined.

Definition cell_ok (d : decl) (o : option (list Z)) : Prop :=
  match o with Some a => length a = dims_size (d_dims d) /\ Forall (in_type (d_type d)) a | None => False end.
#[export] Instance cell_ok_dec d o : Decision (cell_ok d o).
Proof. destruct o; apply _. Defined.

Definition typed (u : info) : Prop := Forall (fun c => Forall (fun d => cell_ok d (u !! (c, d_name d))) (layout c)) all_confs.

Lemma conv_in_type t z : in_type t (conv t z).
Proof. destruct t; cbn; [apply (wrapU_bound 8 z); lia|apply (wrapS_bound 8 z); lia]. Qed.
Lemma conv_id t z : in_type t z -> conv t z = z.
Proof. destruct t; cbn; intros H; [now apply (wrapU_small 8)|now apply (wrapS_small 8)]. Qed.

Lemma all_confs_complete c : c ∈ all_confs.
Proof. destruct c; repeat (apply list_elem_of_here || apply list_elem_of_further). Qed.

Lemma typed_cell u c d : typed u -> d ∈ layout c -> cell_ok d (u !! (c, d_name d)).
Proof.
  intros Hu Hd. pose proof (all_confs_complete c) as Hc. unfold typed in Hu. rewrite Forall_forall in Hu. specialize (Hu c Hc).
  rewrite Forall_forall in Hu. now apply Hu.
Qed.

Lemma find_decl_name c m d : find_decl c m = Some d -> d ∈ layout c /\ d_name d = m.
Proof.
  intros H. apply List.find_some in H as [Hin Hm]. apply bool_decide_eq_true_1 in Hm. split; [|done]. now apply list_elem_of_In.
Qed.

Lemma layout_names : Forall (fun c => NoDup (d_name <$> layout c)) all_confs.
Proof. apply (bool_decide_unpack _). vm_compute. exact I. Qed.

Lemma find_decl_layout c d : d ∈ layout c -> find_decl c (d_name d) = Some d.
Proof.
  intros Hd. pose proof layout_names as Hn. rewrite Forall_forall in Hn. specialize (Hn c (all_confs_complete c)).
  unfold find_decl. induction (layout c) as [|e l IH]; [now apply elem_of_nil in Hd|]. cbn [List.find]. cbn in Hn. apply NoDup_cons in Hn as [Hne Hn].
  apply elem_of_cons in Hd as [->|Hd]; [now rewrite bool_decide_true|].
  rewrite bool_decide_false; [now apply IH|]. intros E. apply Hne. rewrite E. now apply list_elem_of_fmap_2.
Qed.

Lemma place_inv l t o : place l = Some (t, o) -> exists c m idx d,
  l = At c m idx /\ d ∈ layout c /\ d_name d = m /\ d_type d = t /\ offset (d_dims d) idx = Some o /\ (o < dims_size (d_dims d))%nat.
Proof.
  destruct l as [c m idx]. cbn. destruct (find_decl c m) as [d|] eqn:E; [|done]. cbn. destruct (offset (d_dims d) idx) as [o'|] eqn:Eo; [|done].
  cbn. intros [= <- <-]. apply find_decl_name in E as [Hd Hm]. exists c, m, idx, d. pose proof (offset_bound _ _ _ Eo). done.
Qed.

Lemma place_cell u l t o : typed u -> place l = Some (t, o) ->
  exists a, u !! key_of l = Some a /\ (o < length a)%nat /\ Forall (in_type t) a.
Proof.
  intros Hu Hp. destruct (place_inv _ _ _ Hp) as (c & m & idx & d & -> & Hd & <- & <- & Ho & Hlt).
  pose proof (typed_cell u c d Hu Hd) as Hc. cbn [key_of]. destruct (u !! (c, d_name d)) as [a|]; [|done]. destruct Hc as [Hl Ha].
  exists a. rewrite Hl. done.
Qed.

Lemma load_typed u l t o : typed u -> place l = Some (t, o) -> exists x, load l u = Some x /\ in_type t x.
Proof.
  intros Hu Hp. destruct (place_cell u l t o Hu Hp) as (a & Ha & Ho & Ht). unfold load. rewrite Hp. cbn. rewrite Ha. cbn.
  destruct (lookup_lt_is_Some_2 a o Ho) as [x Hx]. exists x. split; [done|]. rewrite Forall_lookup in Ht. now apply (Ht o).
Qed.

Lemma store_typed l v u : typed u -> typed (store l v u).
Proof.
  intros Hu. unfold store. destruct (place l) as [[t o]|] eqn:Hp; [|done].
  destruct (place_inv _ _ _ Hp) as (c & m & idx & d & -> & Hd & Hm & Ht & Ho & Hlt). cbn [key_of].
  unfold typed in *. rewrite Forall_forall in *. intros c' Hc'. specialize (Hu c' Hc'). rewrite Forall_forall in *. intros d' Hd'. specialize (Hu d' Hd').
  destruct (decide ((c', d_name d') = (c, m))) as [[= -> Hm']|Hne].
  - assert (d' = d) as -> by (pose proof (find_decl_layout c d Hd); pose proof (find_decl_layout c d' Hd'); congruence).
    rewrite Hm'. rewrite lookup_alter_eq. rewrite Hm' in Hu. destruct (u !! (c, m)) as [a|]; [|done]. cbn. destruct Hu as [Hl Ha].
    split; [now rewrite length_insert|]. apply Forall_insert; [done|]. rewrite Ht. apply conv_in_type.
  - rewrite lookup_alter_ne by done. done.
Qed.

Lemma load_store_same l v u t o : typed u -> place l = Some (t, o) -> load l (store l v u) = Some (conv t v).
Proof.
  intros Hu Hp. destruct (place_cell u l t o Hu Hp) as (a & Ha & Ho & _). unfold load, store. rewrite Hp. cbn.
  rewrite lookup_alter_eq, Ha. cbn. now apply list_lookup_insert_eq.
Qed.

Lemma load_store_other l l' v u : l <> l' -> load l' (store l v u) = load l' u.
Proof.
  intros Hne. unfold store. destruct (place l) as [[t o]|] eqn:Hp; [|done]. unfold load.
  destruct (place l') as [[t' o']|] eqn:Hp'; [|done]. cbn.
  destruct (decide (key_of l = key_of l')) as [E|E]; [|now rewrite lookup_alter_ne].
  rewrite <- E, lookup_alter_eq. destruct (u !! key_of l) as [a|]; [|done]. cbn. apply list_lookup_insert_ne. intros ->. apply Hne.
  destruct (place_inv _ _ _ Hp) as (c & m & idx & d & -> & Hd & Hm & Ht & Ho & Hlt).
  destruct (place_inv _ _ _ Hp') as (c' & m' & idx' & d' & -> & Hd' & Hm' & Ht' & Ho' & Hlt'). injection E as <- <-. subst m.
  assert (d' = d) as -> by (pose proof (find_decl_layout c d Hd); pose proof (find_decl_layout c d' Hd'); congruence).
  f_equal. eapply offset_inj; done.
Qed.

Lemma userconfig_info_typed : typed userconfig_info.
Proof. apply (bool_decide_unpack _). vm_compute. exact I. Qed.

(** ** The tables of keys *)

Definition key_chars (k : list Z) : Prop :=
  Forall (fun b => b <> 0 /\ b <> 61 /\ newline b = false) k /\ match k with [] => False | b :: _ => b <> 35 end.
#[export] Instance key_chars_dec k : Decision (key_chars k).
Proof. apply and_dec; [apply _|destruct k; apply _]. Defined.

(** No key is given twice, no object is set by two keys, and every object is
    one of the program's. *)
Record table_ok (K : list (string * list lvalue)) : Prop := {
  to_keys : NoDup (fst <$> K);
  to_objects : NoDup (concat (snd <$> K));
  to_places : Forall (fun e => Forall (fun l => is_Some (place l)) (snd e)) K;
  to_chars : Forall (fun e => key_chars (bytes (fst e)) /\ snd e <> []) K
}.
#[export] Instance table_ok_dec K : Decision (table_ok K).
Proof.
  refine (cast_if (decide (NoDup (fst <$> K) /\ NoDup (concat (snd <$> K)) /\ Forall (fun e => Forall (fun l => is_Some (place l)) (snd e)) K /\
    Forall (fun e => key_chars (bytes (fst e)) /\ snd e <> []) K))); [constructor; tauto|intros []; tauto].
Defined.

Definition parsers : list parser := [rwnx_plat_userconfig; rwnx_plat_userconfig_8800d80x2; loader_userconfig].

Lemma tables_ok : Forall (fun P => table_ok (keys P)) parsers.
Proof. apply (bool_decide_unpack _). vm_compute. exact I. Qed.

Lemma parsers_ok P : P ∈ parsers -> parser_ok P.
Proof.
  assert (Forall (fun P => (0 < cleared P <= command_size P)%nat /\ Forall (fun e => (length (bytes (fst e)) < cleared P)%nat) (keys P)) parsers) as H
    by (apply (bool_decide_unpack _); vm_compute; exact I).
  rewrite Forall_forall in H. intros HP. destruct (H P HP). now constructor.
Qed.

Lemma bytes_inj s s' : bytes s = bytes s' -> s = s'.
Proof.
  revert s'. induction s as [|a s IH]; intros [|a' s'] H; cbn in H; try discriminate; [done|]. injection H as Ha Hs. f_equal; [|now apply IH].
  unfold chr in Ha. apply N2Z.inj in Ha. now rewrite <- (ascii_N_embedding a), Ha, ascii_N_embedding.
Qed.

Section Table.
Context (P : parser) (HP : P ∈ parsers).

Lemma dests_inv k ds : dests P k = Some ds -> exists s, (s, ds) ∈ keys P /\ bytes s = k.
Proof.
  unfold dests. destruct (List.find _ _) as [[s ds']|] eqn:E; [|done]. cbn. intros [= ->]. apply List.find_some in E as [Hin Hk].
  apply bool_decide_eq_true_1 in Hk. exists s. split; [now apply list_elem_of_In|done].
Qed.

Lemma table : table_ok (keys P).
Proof. pose proof tables_ok as H. rewrite Forall_forall in H. now apply H. Qed.

Lemma dests_key s ds : (s, ds) ∈ keys P -> dests P (bytes s) = Some ds.
Proof.
  intros Hin. unfold dests. destruct table as [Hn _ _ _]. induction (keys P) as [|[s' ds'] K IH]; [now apply elem_of_nil in Hin|].
  cbn [List.find fst]. cbn in Hn. apply NoDup_cons in Hn as [Hne Hn]. apply elem_of_cons in Hin as [[= <- <-]|Hin]; [now rewrite bool_decide_true|].
  rewrite bool_decide_false; [now apply IH|]. intros E. apply bytes_inj in E as ->. apply Hne. exact (list_elem_of_fmap_2 fst _ _ Hin).
Qed.

Lemma dests_place k ds l : dests P k = Some ds -> l ∈ ds -> exists t o, place l = Some (t, o).
Proof.
  intros Hd Hl. destruct (dests_inv _ _ Hd) as (s & Hin & _). destruct table as [_ _ Hp _]. rewrite Forall_forall in Hp. specialize (Hp _ Hin).
  cbn in Hp. rewrite Forall_forall in Hp. destruct (Hp _ Hl) as [[t o] ?]. now exists t, o.
Qed.
End Table.

(** ** The value an object ends up with *)

Definition assign_all (v : Z) (ls : list lvalue) (u : info) : info := fold_left (fun u x => store x v u) ls u.

Lemma assign_all_typed v ls u : typed u -> typed (assign_all v ls u).
Proof. revert u. induction ls as [|l ls IH]; intros u Hu; [done|]. apply IH. now apply store_typed. Qed.

Lemma assign_all_load v ls u l t o : typed u -> place l = Some (t, o) ->
  load l (assign_all v ls u) = if decide (l ∈ ls) then Some (conv t v) else load l u.
Proof.
  intros Hu Hp. revert u Hu. induction ls as [|x ls IH]; intros u Hu; cbn [assign_all fold_left].
  - rewrite decide_False by apply not_elem_of_nil. done.
  - change (fold_left (fun u x => store x v u) ls (store x v u)) with (assign_all v ls (store x v u)). rewrite IH by now apply store_typed.
    destruct (decide (l ∈ ls)) as [Hl|Hl]; [rewrite decide_True by now apply elem_of_cons; right; done|]. 
    + done.
    + destruct (decide (l = x)) as [->|Hne].
      * rewrite decide_True by (apply elem_of_cons; now left). now apply (load_store_same x v u t o).
      * rewrite decide_False; [now apply load_store_other|]. intros [->|]%elem_of_cons; done.
Qed.

Section Last.
Context (P : parser) (HP : P ∈ parsers).

(** The characters a line assigns to an object. *)
Definition assigns (l : lvalue) (ln : list Z) : option (list Z) :=
  match line_of P ln with
  | Assign k v => if decide (v = []) then None else ds ← dests P k; if decide (l ∈ ds) then Some v else None
  | _ => None
  end.

(** The value after the lines: of the last assignment, or the one before. *)
Definition effective (u : info) (l : lvalue) (lns : list (list Z)) : option Z :=
  match place l with
  | Some (t, _) => match last (omap (assigns l) lns) with Some v => Some (conv t (atoi P v)) | None => load l u end
  | None => None
  end.

Lemma line_effect_inv ln u u' : line_effect P (line_of P ln) u = Ok u' -> typed u ->
  typed u' /\ forall l t o, place l = Some (t, o) -> load l u' = match assigns l ln with Some v => Some (conv t (atoi P v)) | None => load l u end.
Proof.
  unfold line_effect, assigns. destruct (overlong P (line_of P ln)); [done|].
  destruct (line_of P ln) as [|x|k|k v]; try (intros [= <-] Hu; split; [done|]; done).
  destruct (decide (v = [])) as [_|_]; [intros [= <-] Hu; split; [done|]; done|]. destruct (dests P k) as [ds|]; [|intros [= <-] Hu; split; [done|]; done].
  destruct (length v =? 100)%nat; [done|]. intros [= <-] Hu. cbn [mbind option_bind]. split; [exact (assign_all_typed _ _ _ Hu)|].
  intros l t o Hp. pose proof (assign_all_load (atoi P v) ds u l t o Hu Hp) as E. unfold assign_all in E. rewrite E. now destruct (decide (l ∈ ds)).
Qed.

Lemma lines_effective lns : forall u u', foldM (fun l u => line_effect P (line_of P l) u) lns u = Ok u' -> typed u ->
  typed u' /\ forall l t o, place l = Some (t, o) -> load l u' = effective u l lns.
Proof.
  induction lns as [|ln lns IH]; intros u u' H Hu; cbn [foldM] in H.
  - injection H as <-. split; [done|]. intros l t o Hp. unfold effective. rewrite Hp. done.
  - destruct (line_effect P (line_of P ln) u) as [u1|] eqn:E; [|done]. cbn [mbind res_bind] in H.
    destruct (line_effect_inv _ _ _ E Hu) as [Hu1 Hl1]. destruct (IH u1 u' H Hu1) as [Hu' Hl']. split; [done|]. intros l t o Hp.
    rewrite (Hl' l t o Hp). unfold effective. rewrite Hp. cbn [omap list_omap]. specialize (Hl1 l t o Hp).
    destruct (assigns l ln) as [v|]; [|now rewrite Hl1]. rewrite last_cons. destruct (last (omap (assigns l) lns)); [done|]. now rewrite Hl1.
Qed.

(** A text is taken, with every object at its effective value, or it does not
    fit the buffers. *)
Lemma parsing_effective text junk u : Forall (fun b => b <> 0) text -> length junk = (command_size P - cleared P)%nat -> typed u ->
  match parsing P text junk u with
  | Ok u' => typed u' /\ forall l t o, place l = Some (t, o) -> load l u' = effective u l (fst (lines [] text))
  | Fault e => e = OutOfBounds
  end.
Proof.
  intros Ht Hj Hu. rewrite (parsing_meaning P (parsers_ok P HP)) by done. unfold meaning. destruct (lines [] text) as [ls tail]. cbn [fst].
  destruct (foldM _ ls u) as [u1|e] eqn:E; cbn [mbind res_bind].
  - destruct (overlong P (line_of P tail)); [done|]. apply lines_effective; done.
  - assert (oob_only (foldM (fun l u => line_effect P (line_of P l) u) ls u)) as Ho; [|now apply Ho].
    clear. revert u. induction ls as [|l ls IH]; intros u; [apply oob_ok|]. cbn [foldM]. apply oob_bind; [|intros u' _; apply IH].
    unfold line_effect. destruct (overlong _ _); [now intros e [= <-]|]. destruct (line_of P l); try apply oob_ok.
    destruct (decide _); [apply oob_ok|]. destruct (dests P key); [|apply oob_ok]. destruct (_ =? _)%nat; [now intros e [= <-]|apply oob_ok].
Qed.
End Last.

End UcFacts.

Module UcPrint.
Import Conf Uc UcSpec UcFacts.

Lemma elem_of_concat {A} (x : A) ls : x ∈ concat ls <-> exists l, x ∈ l /\ l ∈ ls.
Proof.
  rewrite list_elem_of_In, List.in_concat. split; intros (l & H1 & H2); exists l.
  - now rewrite !list_elem_of_In.
  - now rewrite <- !list_elem_of_In.
Qed.

(** ** Lines *)

Lemma lines_newline_free l text cur : Forall (fun b => newline b = false) l ->
  lines cur (l ++ 10 :: text) = (let '(ls, tail) := lines [] text in ((cur ++ l) :: ls, tail)).
Proof.
  intros Hl. revert cur. induction Hl as [|b l Hb _ IH]; intros cur; cbn [app lines].
  - rewrite app_nil_r. reflexivity.
  - rewrite Hb. rewrite IH. now rewrite <- app_assoc.
Qed.

Lemma lines_concat ls : Forall (Forall (fun b => newline b = false)) ls ->
  lines [] (concat ((fun l => l ++ [10]) <$> ls)) = (ls, []).
Proof.
  induction 1 as [|l ls Hl _ IH]; [done|]. cbn [fmap list_fmap concat]. rewrite <- app_assoc. cbn [app].
  rewrite lines_newline_free by done. fold (@fmap list list_fmap (list Z) (list Z)). now rewrite IH.
Qed.

Lemma split_eq_key k v : Forall (fun b => b <> 61) k -> split_eq (k ++ 61 :: v) = (k, Some v).
Proof.
  induction 1 as [|b k Hb _ IH]; [done|]. cbn [app split_eq]. apply Z.eqb_neq in Hb as ->. now rewrite IH.
Qed.

(** ** Decimal numbers *)

Definition digits (z : Z) : list Z := bytes (pretty z).

Definition digit (b : Z) : Prop := b = 45 \/ 48 <= b <= 57.
#[export] Instance digit_dec b : Decision (digit b).
Proof. unfold digit. apply _. Defined.

Lemma digits_ok z : -128 <= z < 256 -> Forall digit (digits z) /\ (1 <= length (digits z) <= 4)%nat.
Proof.
  intros Hz. assert (Forall (fun z => Forall digit (digits z) /\ (1 <= length (digits z) <= 4)%nat) (seqZ (-128) 384)) as H
    by (apply (bool_decide_unpack _); vm_compute; exact I).
  rewrite Forall_forall in H. apply H, elem_of_seqZ. lia.
Qed.

Lemma atoi_digits P t z : P ∈ parsers -> in_type t z -> conv t (atoi P (digits z)) = z.
Proof.
  assert (Forall (fun P => Forall (fun t => Forall (fun z => in_type t z -> conv t (atoi P (digits z)) = z) (seqZ (-128) 384)) [U8; S8]) parsers) as H
    by (apply (bool_decide_unpack _); vm_compute; exact I).
  intros HP Hz. rewrite Forall_forall in H. specialize (H P HP). rewrite Forall_forall in H.
  assert (t ∈ [U8; S8]) as Ht by (destruct t; repeat (apply list_elem_of_here || apply list_elem_of_further)). specialize (H t Ht).
  rewrite Forall_forall in H. apply H; [|done]. apply elem_of_seqZ. destruct t; cbn in Hz; lia.
Qed.

(** The conversion of the loader is that of this driver, cut to a byte. *)
Lemma s8_s32 x : s8 (s32 x) = s8 x.
Proof.
  unfold wrapS. change (2 ^ (8 - 1)) with 128. change (2 ^ (32 - 1)) with 2147483648. change (2 ^ 8) with 256. change (2 ^ 32) with (256 * 16777216).
  f_equal. rewrite <- Z.add_sub_swap. replace 2147483648 with (256 * 8388608) by lia.
  assert (forall a, (a mod (256 * 16777216)) mod 256 = a mod 256) as Hm.
  { intros a. apply Z.mod_mod_divide. exists 16777216. lia. }
  replace ((x + 256 * 8388608) mod (256 * 16777216) + 128 - 256 * 8388608) with ((x + 256 * 8388608) mod (256 * 16777216) + 128 + (- 8388608) * 256) by lia.
  rewrite Z_mod_plus_full. rewrite Zplus_mod, Hm, <- Zplus_mod. replace (x + 256 * 8388608 + 128) with (x + 128 + 8388608 * 256) by lia. apply Z_mod_plus_full.
Qed.
Lemma s8_cong x y f : s8 x = s8 y -> (exists a b, forall z, f z = a * z + b) -> s8 (f x) = s8 (f y).
Proof.
  intros H (a & b & Hf). rewrite !Hf. revert H. unfold wrapS. change (2 ^ (8 - 1)) with 128. change (2 ^ 8) with 256. intros H.
  assert ((x + 128) mod 256 = (y + 128) mod 256) as E by lia. f_equal.
  replace (a * x + b + 128) with (a * (x + 128) + (b + 128 - a * 128)) by lia. replace (a * y + b + 128) with (a * (y + 128) + (b + 128 - a * 128)) by lia.
  rewrite Zplus_mod, Zmult_mod, E, <- Zmult_mod, <- Zplus_mod. done.
Qed.
Lemma s8_s8 x : s8 (s8 x) = s8 x.
Proof. apply (wrapS_small 8); [lia|]. apply (wrapS_bound 8). lia. Qed.

Lemma atoi_loops s : forall r r', s8 r = s8 r' -> s8 (atoi_loop s8 s r) = s8 (atoi_loop s32 s r').
Proof.
  induction s as [|c s IH]; intros r r' H; cbn [atoi_loop]; [done|]. destruct ((48 <=? c) && (c <=? 57)); [|done]. apply IH.
  rewrite s8_s8, s8_s32. apply (s8_cong _ _ (fun z => z + (c - 48))); [|exists 1, (c - 48); lia]. rewrite s8_s8, s8_s32.
  apply (s8_cong _ _ (fun z => z * 10)); [done|]. exists 10, 0. lia.
Qed.

Lemma loader_atoi_s8 s : loader_atoi s = s8 (rwnx_atoi s).
Proof.
  assert (forall s, s8 (atoi_loop s8 s 0 * -1) = s8 (s32 (atoi_loop s32 s 0 * -1))) as Hneg.
  { intros t. rewrite s8_s32. apply (s8_cong _ _ (fun z => z * -1)); [now apply atoi_loops|]. exists (-1), 0. lia. }
  assert (forall s, s8 (atoi_loop s8 s 0 * 1) = s8 (atoi_loop s32 s 0)) as Hpos.
  { intros t. rewrite Z.mul_1_r. now apply atoi_loops. }
  unfold loader_atoi, rwnx_atoi. destruct s as [|c s]; [apply (Hpos [])|].
  repeat (match goal with |- context [match ?x with _ => _ end] => is_var x; destruct x end; try apply (Hpos (_ :: _))). apply Hneg.
Qed.

(** ** A configuration written out *)

Section Print.
Context (P : parser) (HP : P ∈ parsers).

Definition first_of (ls : list lvalue) (u : info) : Z := match ls with [] => 0 | l :: _ => get l u end.
Definition print_line (u : info) (e : string * list lvalue) : list Z := bytes (fst e) ++ 61 :: digits (first_of (snd e) u).
Definition print (u : info) : list Z := concat ((fun e => print_line u e ++ [10]) <$> keys P).

(** All objects of a key have the same value. *)
Definition agree (u : info) : Prop := Forall (fun e => Forall (fun l => get l u = first_of (snd e) u) (snd e)) (keys P).
#[export] Instance agree_dec u : Decision (agree u) := Forall_dec _ _.

Lemma get_load u l t o : typed u -> place l = Some (t, o) -> load l u = Some (get l u) /\ in_type t (get l u).
Proof. intros Hu Hp. destruct (load_typed u l t o Hu Hp) as (x & Hx & Ht). unfold get. rewrite Hx. done. Qed.

Lemma first_range u e : typed u -> e ∈ keys P -> -128 <= first_of (snd e) u < 256.
Proof.
  intros Hu He. destruct e as [s ls]. destruct (table P HP) as [_ _ Hp Hc]. rewrite Forall_forall in Hp, Hc. specialize (Hp _ He). specialize (Hc _ He).
  cbn in *. destruct ls as [|l ls]; [now destruct Hc|]. apply Forall_cons_1 in Hp as [[[t o] Hl] _]. cbn.
  destruct (get_load u l t o Hu Hl) as [_ Hr]. destruct t; cbn in Hr; lia.
Qed.

Lemma digit_counts b : digit b -> counts P b = true /\ b <> 0 /\ newline b = false.
Proof.
  intros Hb. unfold counts, newline. destruct Hb as [->|Hb].
  - split_and!; [|lia|done]. now destruct (digits_only P).
  - assert ((b <? 48) = false) as -> by (apply Z.ltb_ge; lia). assert ((57 <? b) = false) as -> by (apply Z.ltb_ge; lia).
    cbn [orb]. rewrite andb_false_r. split_and!; [done|lia|]. apply orb_false_iff; split; apply Z.eqb_neq; lia.
Qed.

Lemma print_line_of u e : typed u -> e ∈ keys P ->
  line_of P (print_line u e) = Assign (bytes (fst e)) (digits (first_of (snd e) u)) /\
  Forall (fun b => newline b = false /\ b <> 0) (print_line u e).
Proof.
  intros Hu He. destruct (table P HP) as [_ _ _ Hc]. rewrite Forall_forall in Hc. destruct (Hc _ He) as [[Hk Hh] _].
  destruct (digits_ok _ (first_range u e Hu He)) as [Hd _]. unfold print_line. split.
  - destruct (bytes (fst e)) as [|b k]; [done|]. cbn [app line_of]. apply Z.eqb_neq in Hh as ->. apply Forall_cons_1 in Hk as [_ Hk].
    rewrite split_eq_key by (eapply Forall_impl; [exact Hk|]; cbn; intros x Hx; apply Hx). f_equal. clear - Hd.
    induction Hd as [|b l Hb _ IH]; [done|]. cbn [List.filter]. apply digit_counts in Hb as (-> & _). now f_equal.
  - apply Forall_app; split; [eapply Forall_impl; [exact Hk|]; cbn; intros b Hb; tauto|]. constructor; [done|].
    eapply Forall_impl; [exact Hd|]. intros b Hb. apply digit_counts in Hb. tauto.
Qed.

Lemma print_line_effect u e u0 : typed u -> e ∈ keys P ->
  exists u', line_effect P (line_of P (print_line u e)) u0 = Ok u'.
Proof.
  intros Hu He. destruct (print_line_of u e Hu He) as [-> _]. destruct (digits_ok _ (first_range u e Hu He)) as [_ Hl]. unfold line_effect. cbn [overlong].
  destruct (parsers_ok P HP) as [[_ H2] Hk]. rewrite Forall_forall in Hk. specialize (Hk e He).
  destruct (Nat.ltb_spec (command_size P) (length (bytes (fst e)))); [lia|]. destruct (Nat.ltb_spec 100 (length (digits (first_of (snd e) u)))); [lia|]. cbn [orb].
  destruct (decide _); [now eexists|]. destruct (dests P _); [|now eexists]. destruct (Nat.eqb_spec (length (digits (first_of (snd e) u))) 100); [lia|]. now eexists.
Qed.

Lemma print_assigns u e l : typed u -> e ∈ keys P -> assigns P l (print_line u e) = if decide (l ∈ snd e) then Some (digits (first_of (snd e) u)) else None.
Proof.
  intros Hu He. unfold assigns. destruct (print_line_of u e Hu He) as [-> _]. destruct (digits_ok _ (first_range u e Hu He)) as [_ Hl].
  rewrite decide_False by (intros E; rewrite E in Hl; cbn in Hl; lia). destruct e as [s ls]. cbn [fst snd]. rewrite (dests_key P HP s ls) by done. done.
Qed.

(** Exactly one line assigns to an object. *)
Lemma omap_assigns u l K : (forall e, e ∈ K -> e ∈ keys P) -> typed u -> NoDup (concat (snd <$> K)) ->
  omap (assigns P l) (print_line u <$> K) =
    match List.find (fun e => bool_decide (l ∈ snd e)) K with Some e => [digits (first_of (snd e) u)] | None => [] end.
Proof.
  intros HK Hu. revert HK. induction K as [|e K IH]; intros HK Hn; [done|]. cbn [fmap list_fmap concat] in Hn. change (print_line u <$> e :: K) with (print_line u e :: (print_line u <$> K)). cbn [omap list_omap List.find].
  rewrite print_assigns by (done || apply HK, list_elem_of_here). apply NoDup_app in Hn as (_ & Hd & Hn).
  assert (forall e, e ∈ K -> e ∈ keys P) as HK' by (intros e' He'; apply HK; now apply list_elem_of_further). specialize (IH HK' Hn).
  destruct (decide (l ∈ snd e)) as [Hl|Hl].
  - rewrite bool_decide_true by done. f_equal. change (list_omap _ _ (assigns P l) (print_line u <$> K)) with (omap (assigns P l) (print_line u <$> K)). rewrite IH. destruct (List.find _ K) as [e'|] eqn:E; [|done].
    apply List.find_some in E as [Hin Hb]. apply bool_decide_eq_true_1 in Hb. exfalso. apply (Hd l Hl). apply list_elem_of_In in Hin.
    apply elem_of_concat. exists (snd e'). split; [done|]. now apply list_elem_of_fmap_2.
  - rewrite bool_decide_false by done. exact IH.
Qed.

Lemma print_effective u u0 l t o : typed u -> agree u -> place l = Some (t, o) ->
  effective P u0 l (print_line u <$> keys P) = if decide (l ∈ concat (snd <$> keys P)) then load l u else load l u0.
Proof.
  intros Hu Ha Hp. unfold effective. rewrite Hp. rewrite omap_assigns by (done || apply (table P HP)).
  destruct (List.find _ (keys P)) as [e|] eqn:E.
  - apply List.find_some in E as [Hin Hb]. apply bool_decide_eq_true_1 in Hb. apply list_elem_of_In in Hin. cbn [last].
    rewrite decide_True by (apply elem_of_concat; exists (snd e); split; [done|]; now apply list_elem_of_fmap_2).
    unfold agree in Ha. rewrite Forall_forall in Ha. specialize (Ha e Hin). rewrite Forall_forall in Ha. rewrite <- (Ha l Hb).
    destruct (get_load u l t o Hu Hp) as [-> Hr]. f_equal. now apply atoi_digits.
  - cbn [last]. rewrite decide_False; [done|]. intros Hin. apply elem_of_concat in Hin as (ls & Hl & Hls).
    apply list_elem_of_fmap in Hls as (e & -> & He). apply list_elem_of_In in He. apply (List.find_none _ _ E) in He. apply bool_decide_eq_false_1 in He. done.
Qed.

Lemma print_parse u u0 junk : typed u -> typed u0 -> agree u -> length junk = (command_size P - cleared P)%nat ->
  exists u', parsing P (print u) junk u0 = Ok u' /\ typed u' /\
    forall l, load l u' = if decide (l ∈ concat (snd <$> keys P)) then load l u else load l u0.
Proof.
  intros Hu Hu0 Ha Hj. assert (Forall (fun e => Forall (fun b => newline b = false /\ b <> 0) (print_line u e)) (keys P)) as Hchars.
  { apply Forall_forall. intros e He. now apply print_line_of. }
  assert (lines [] (print u) = (print_line u <$> keys P, [])) as Hlines.
  { unfold print. rewrite <- lines_concat.
    - do 2 f_equal. now rewrite <- list_fmap_compose.
    - apply Forall_fmap. eapply Forall_impl; [exact Hchars|]. intros e He. eapply Forall_impl; [exact He|]. cbn. tauto. }
  assert (exists u', foldM (fun l u => line_effect P (line_of P l) u) (print_line u <$> keys P) u0 = Ok u') as [u' Hf].
  { clear - Hu HP. assert (forall e, e ∈ keys P -> e ∈ keys P) as HK by done. revert HK u0. generalize (keys P) at 1 3 as K.
    induction K as [|e K IH]; intros HK u0; cbn [fmap list_fmap foldM]; [now eexists|].
    destruct (print_line_effect u e u0 Hu (HK e ltac:(apply list_elem_of_here))) as [u1 ->]. cbn [mbind res_bind]. apply IH. intros e' He'. apply HK. now apply list_elem_of_further. }
  exists u'. destruct (lines_effective P _ _ _ Hf Hu0) as [Hu' Hl]. split; [|split; [done|]].
  - rewrite (parsing_meaning P (parsers_ok P HP)); [|apply Forall_concat, Forall_fmap; eapply Forall_impl; [exact Hchars|]|done].
    + unfold meaning. rewrite Hlines, Hf. done.
    + intros e He. cbn. apply Forall_app; split; [eapply Forall_impl; [exact He|]; cbn; tauto|]. now constructor.
  - intros l. destruct (place l) as [[t o]|] eqn:Hp.
    + rewrite (Hl l t o Hp). now apply (print_effective u u0 l t o).
    + assert (forall u, load l u = None) as Hnone by (intros v; unfold load; now rewrite Hp). rewrite !Hnone. now destruct (decide _).
Qed.
End Print.
End UcPrint.

Module UcMsg.
Import Conf Uc UcSpec UcFacts.

(** ** The bytes of a structure *)

(** Where a member begins. *)
Fixpoint position (ds : list decl) (m : member) : nat :=
  match ds with
  | [] => 0%nat
  | d :: ds => if decide (d_name d = m) then 0%nat else (dims_size (d_dims d) + position ds m)%nat
  end.

Lemma image_lookup c u m idx t o : typed u -> place (At c m idx) = Some (t, o) ->
  image c u !! (position (layout c) m + o)%nat = Some (u8 (get (At c m idx) u)).
Proof.
  intros Hu Hp. destruct (place_inv _ _ _ Hp) as (c' & m' & idx' & d & [= <- <- <-] & Hd & Hm & Ht & Ho & Hlt).
  unfold image. rewrite list_lookup_fmap. destruct (load_typed u _ _ _ Hu Hp) as (x & Hx & _). unfold get. rewrite Hx. cbn [from_option id].
  enough (concat ((fun d => default [] (u !! (c, d_name d))) <$> layout c) !! (position (layout c) m + o)%nat = Some x) as -> by done.
  assert (forall d, d ∈ layout c -> find_decl c (d_name d) = Some d /\ cell_ok d (u !! (c, d_name d))) as Hall.
  { intros e He. split; [now apply find_decl_layout|]. now apply typed_cell. }
  revert Hd Hall. induction (layout c) as [|e ds IH]; intros Hd Hall; [now apply elem_of_nil in Hd|]. cbn [fmap list_fmap concat position].
  destruct (Hall e ltac:(apply list_elem_of_here)) as [He Hc]. destruct (decide (d_name e = m)) as [E|E].
  - assert (e = d) as -> by (destruct (Hall d Hd); congruence). subst m. unfold load in Hx. rewrite Hp in Hx. cbn in Hx.
    destruct (u !! (c, d_name d)) as [a|]; [|done]. cbn in Hx |- *. apply lookup_app_l_Some, Hx.
  - apply elem_of_cons in Hd as [->|Hd]; [done|]. destruct (u !! (c, d_name e)) as [a|]; [|done]. destruct Hc as [Hl _]. cbn [from_option id].
    rewrite lookup_app_r by (rewrite Hl; lia). rewrite Hl. replace (dims_size (d_dims e) + position ds m + o - dims_size (d_dims e))%nat with (position ds m + o)%nat by lia.
    apply IH; [done|]. intros e' He'. apply Hall. now apply list_elem_of_further.
Qed.

Lemma image_length c u : typed u -> length (image c u) = sizeof (layout c).
Proof.
  intros Hu. unfold image, sizeof. rewrite length_fmap. assert (forall d, d ∈ layout c -> cell_ok d (u !! (c, d_name d))) as H by (intros; now apply typed_cell).
  induction (layout c) as [|d ds IH]; [done|]. cbn [fmap list_fmap concat sum_list_with]. rewrite length_app.
  pose proof (H d ltac:(apply list_elem_of_here)) as Hd. destruct (u !! (c, d_name d)) as [a|]; [|done]. destruct Hd as [Hl _]. cbn [from_option id]. rewrite Hl.
  f_equal. apply IH. intros e He. apply H. now apply list_elem_of_further.
Qed.

(** ** Levels less the loss *)

Definition full (c : conf) (a : member * nat) : Prop := exists d, find_decl c (fst a) = Some d /\ d_type d = S8 /\ dims_size (d_dims d) = snd a.

Lemma lose_typed c loss a u : typed u -> full c a -> typed (lose c loss a u).
Proof.
  intros Hu (d & Hd & Ht & Hn). apply find_decl_name in Hd as [Hd Hm]. unfold lose, typed in *. rewrite Forall_forall in *. intros c' Hc'. specialize (Hu c' Hc').
  rewrite Forall_forall in *. intros d' Hd'. specialize (Hu d' Hd'). destruct (decide ((c', d_name d') = (c, fst a))) as [[= -> Hm']|Hne].
  - assert (d' = d) as -> by (pose proof (find_decl_layout c d Hd); pose proof (find_decl_layout c d' Hd'); congruence).
    rewrite Hm' in *. rewrite lookup_alter_eq. destruct (u !! (c, fst a)) as [l|]; [|done]. cbn. destruct Hu as [Hl Hf]. split.
    + rewrite length_app, length_fmap, length_take, length_drop. lia.
    + rewrite take_ge, drop_ge, app_nil_r by lia. apply Forall_fmap. rewrite Ht. apply Forall_forall. intros x _. apply (conv_in_type S8).
  - now rewrite lookup_alter_ne.
Qed.

Lemma load_lose c loss a u l t o : typed u -> full c a -> place l = Some (t, o) ->
  load l (lose c loss a u) = if decide (key_of l = (c, fst a)) then (fun x => s8 (x - loss)) <$> load l u else load l u.
Proof.
  intros Hu (d & Hd & Ht & Hn) Hp. unfold lose, load. rewrite Hp. cbn. destruct (decide (key_of l = (c, fst a))) as [E|E].
  - rewrite E, lookup_alter_eq. pose proof (place_cell u l t o Hu Hp) as (b & Hb & Ho & _). rewrite E in Hb. rewrite Hb. cbn.
    apply find_decl_name in Hd as [Hd Hm]. pose proof (typed_cell u c d Hu Hd) as Hc. rewrite Hm, Hb in Hc. destruct Hc as [Hl _].
    rewrite take_ge, drop_ge, app_nil_r by lia. apply list_lookup_fmap.
  - now rewrite lookup_alter_ne.
Qed.

Lemma load_lose_all c loss ls u l t o : typed u -> Forall (full c) ls -> NoDup (fst <$> ls) -> place l = Some (t, o) ->
  typed (lose_all c loss ls u) /\
  load l (lose_all c loss ls u) = if decide (key_of l ∈ pair c <$> (fst <$> ls)) then (fun x => s8 (x - loss)) <$> load l u else load l u.
Proof.
  intros Hu Hf Hn Hp. induction Hf as [|a ls Ha Hf IH]; cbn [lose_all foldr fmap list_fmap] in *.
  - split; [done|]. now rewrite decide_False by apply not_elem_of_nil.
  - apply NoDup_cons in Hn as [Hna Hn]. destruct (IH Hn) as [Ht Hl]. change (foldr (lose c loss) u ls) with (lose_all c loss ls u).
    split; [now apply lose_typed|]. rewrite (load_lose c loss a _ l t o) by done. rewrite Hl.
    destruct (decide (key_of l = (c, fst a))) as [E|E].
    + rewrite (decide_True (P := key_of l ∈ _ :: _)) by (apply elem_of_cons; now left). rewrite decide_False; [done|].
      intros Hin. apply list_elem_of_fmap in Hin as (m & Hm & Hin). rewrite E in Hm. injection Hm as Hm. rewrite Hm in Hna. done.
    + destruct (decide (key_of l ∈ pair c <$> (fst <$> ls))) as [Hin|Hin].
      * now rewrite decide_True by (apply elem_of_cons; now right).
      * rewrite decide_False; [done|]. intros [|]%elem_of_cons; done.
Qed.

(** ** The two devices with levels for each rate *)

Inductive device := D80 | D80X2.
Definition dev_parser (d : device) : parser := match d with D80 => rwnx_plat_userconfig | D80X2 => rwnx_plat_userconfig_8800d80x2 end.
Definition dev_conf (d : device) : conf := match d with D80 => txpwr_lvl_v3 | D80X2 => txpwr_lvl_v4 end.
Definition dev_send (d : device) : bool -> info -> request := match d with D80 => rwnx_send_txpwr_lvl_v3_req | D80X2 => rwnx_send_txpwr_lvl_v4_req end.
Definition dev_rates (d : device) : nat := match d with D80 => 12 | D80X2 => 8 end.

(** What a level is reduced by, when the settings are [val]. *)
Definition loss_of (val : lvalue -> Z) (m : member) : Z :=
  if decide (m ∈ fst <$> levels_2g4) then (if val (At txpwr_loss loss_enable_2g4 []) =? 1 then val (At txpwr_loss loss_value_2g4 []) else 0)
  else if decide (m ∈ fst <$> levels_5g 0) then (if val (At txpwr_loss loss_enable_5g []) =? 1 then val (At txpwr_loss loss_value_5g []) else 0)
  else 0.

Lemma levels_full d : Forall (full (dev_conf d)) levels_2g4 /\ Forall (full (dev_conf d)) (levels_5g (dev_rates d)) /\
  NoDup (fst <$> levels_2g4) /\ NoDup (fst <$> levels_5g (dev_rates d)).
Proof.
  split_and!; try (apply (bool_decide_unpack _); now destruct d);
    repeat (apply Forall_cons; split; [unfold full; destruct d; (eexists; split; [reflexivity|]; done)|]); apply Forall_nil; done.
Qed.

Definition lost (d : device) (u : info) : info := lose_5g (dev_conf d) (dev_rates d) (lose_2g4 (dev_conf d) u).

Lemma dev_send_lost d u : dev_send d true u =
  if get (At (dev_conf d) enable []) (lost d u) =? 0 then Freed else Sent (zalloc mm_set_txpwr_lvl_req (image (dev_conf d) (lost d u))).
Proof. now destruct d. Qed.

Lemma u8_s8 x : u8 (s8 x) = u8 x.
Proof.
  unfold wrapU, wrapS. change (2 ^ (8 - 1)) with 128. change (2 ^ 8) with 256. rewrite Zminus_mod_idemp_l. f_equal. lia.
Qed.

Lemma load_lose_if (b : bool) c loss ls u l t o : typed u -> Forall (full c) ls -> NoDup (fst <$> ls) -> place l = Some (t, o) ->
  typed (if b then lose_all c loss ls u else u) /\
  exists x, load l (if b then lose_all c loss ls u else u) = Some x /\
    (if decide (key_of l ∈ pair c <$> (fst <$> ls)) then u8 x = u8 (get l u - if b then loss else 0) else x = get l u).
Proof.
  intros Hu Hf Hn Hp. destruct (load_typed u l t o Hu Hp) as (x & Hx & _). assert (get l u = x) as Hg by (unfold get; now rewrite Hx). rewrite Hg. destruct b.
  - destruct (load_lose_all c loss ls u l t o Hu Hf Hn Hp) as [Ht Hl]. split; [done|]. rewrite Hl, Hx. destruct (decide _); cbn [fmap option_fmap option_map].
    + eexists; split; [done|]. apply u8_s8.
    + now exists x.
  - split; [done|]. exists x. split; [done|]. destruct (decide _); [|done]. f_equal. lia.
Qed.

Lemma decide_pair (c : conf) m (ls : list member) : (m ∈ ls <-> (c, m) ∈ pair c <$> ls).
Proof.
  split; [apply list_elem_of_fmap_2|]. intros H. apply list_elem_of_fmap in H as (m' & [= <-] & H). done.
Qed.

Lemma lost_load d u m idx t o : typed u -> place (At (dev_conf d) m idx) = Some (t, o) ->
  typed (lost d u) /\ u8 (get (At (dev_conf d) m idx) (lost d u)) = u8 (get (At (dev_conf d) m idx) u - loss_of (fun l => get l u) m).
Proof.
  intros Hu Hp. destruct (levels_full d) as (Hf2 & Hf5 & Hn2 & Hn5). set (l := At (dev_conf d) m idx) in *.
  destruct (load_lose_if (get (At txpwr_loss loss_enable_2g4 []) u =? 1) (dev_conf d) (get (At txpwr_loss loss_value_2g4 []) u) levels_2g4 u l t o Hu Hf2 Hn2 Hp) as (Ht1 & x & Hx & Hx').
  fold (lose_2g4 (dev_conf d) u) in Ht1, Hx.
  destruct (load_lose_if (get (At txpwr_loss loss_enable_5g []) (lose_2g4 (dev_conf d) u) =? 1) (dev_conf d) (get (At txpwr_loss loss_value_5g []) (lose_2g4 (dev_conf d) u))
    (levels_5g (dev_rates d)) (lose_2g4 (dev_conf d) u) l t o Ht1 Hf5 Hn5 Hp) as (Ht2 & y & Hy & Hy').
  fold (lose_5g (dev_conf d) (dev_rates d) (lose_2g4 (dev_conf d) u)) in Ht2, Hy. fold (lost d u) in Ht2, Hy. split; [done|].
  assert (forall l', key_of l' = (txpwr_loss, loss_enable_5g) \/ key_of l' = (txpwr_loss, loss_value_5g) -> get l' (lose_2g4 (dev_conf d) u) = get l' u) as Hother.
  { intros l' Hk. unfold get, load, lose_2g4. destruct (place l') as [[t' o']|]; [|done]. cbn. destruct (_ =? 1); [|done]. unfold lose_all, lose. cbn [foldr levels_2g4].
    rewrite !lookup_alter_ne by (destruct Hk as [-> | ->]; destruct d; discriminate). done. }
  rewrite (Hother (At txpwr_loss loss_enable_5g [])), (Hother (At txpwr_loss loss_value_5g [])) in Hy' by auto.
  unfold get at 1. rewrite Hy. cbn [from_option id]. assert (get l (lose_2g4 (dev_conf d) u) = x) as Hg by (unfold get; now rewrite Hx). rewrite Hg in Hy'.
  unfold loss_of. change (key_of l) with (dev_conf d, m) in *.
  assert (forall n, fst <$> levels_5g n = fst <$> levels_5g 0) as H5 by done. rewrite (H5 (dev_rates d)) in Hy'. clear H5.
  destruct (decide (m ∈ fst <$> levels_2g4)) as [H2|H2].
  - rewrite decide_True in Hx' by now apply decide_pair. rewrite decide_False in Hy'; [now rewrite Hy'|]. intros H5. apply decide_pair in H5.
    assert (Forall (fun m => m ∉ fst <$> levels_5g 0) (fst <$> levels_2g4)) as Hd by (apply (bool_decide_unpack _); vm_compute; exact I).
    rewrite Forall_forall in Hd. now apply (Hd m).
  - rewrite decide_False in Hx' by (intros H; now apply decide_pair in H). subst x. destruct (decide (m ∈ fst <$> levels_5g 0)) as [H5|H5].
    + rewrite decide_True in Hy' by now apply decide_pair. done.
    + rewrite decide_False in Hy' by (intros H; now apply decide_pair in H). subst y. f_equal. lia.
Qed.

Lemma dev_parser_in d : dev_parser d ∈ parsers.
Proof. destruct d; repeat (apply list_elem_of_here || apply list_elem_of_further). Qed.

Lemma lost_enable d u : typed u -> get (At (dev_conf d) enable []) (lost d u) = get (At (dev_conf d) enable []) u.
Proof.
  intros Hu. assert (place (At (dev_conf d) enable []) = Some (U8, 0%nat)) as Hp by now destruct d. destruct (lost_load d u enable [] _ _ Hu Hp) as [Ht Hg].
  destruct (load_typed _ _ _ _ Ht Hp) as (x & Hx & Hxt). destruct (load_typed _ _ _ _ Hu Hp) as (y & Hy & Hyt). unfold get in *. rewrite Hx, Hy in *.
  cbn [from_option id] in *. replace (loss_of _ enable) with 0 in Hg by reflexivity. rewrite Z.sub_0_r, !(wrapU_small 8) in Hg by (cbn in Hxt, Hyt; lia). done.
Qed.

(** The levels of rates that do not exist, after a loss. *)
Definition na_rates_of (loss : Z) : bool :=
  match rwnx_send_txpwr_lvl_v3_req true (set_txpwr_loss_ofst (- loss) userconfig_info) with
  | Sent p => bool_decide (take 4 (drop (position (layout txpwr_lvl_v3) pwrlvl_11a_5g) p) = replicate 4 (128 - loss))
  | _ => false
  end.
Lemma na_rates_check : forallb na_rates_of (seqZ 1 127) = true.
Proof. vm_compute. reflexivity. Qed.

End UcMsg.

Module Props.
Import Conf Uc UcSpec UcFacts UcPrint UcMsg.


(** C40. The keys are a faithful external form of the settings: the text that
    gives every key of a parser the value of its objects, parsed from any
    settings, ends with exactly those values in all objects that have a key,
    and leaves every other object alone. *)
Theorem config_roundtrip (P : parser) (u u0 : info) (junk : list Z)
  (HP : P ∈ parsers) (Hu : typed u) (Hu0 : typed u0) (Ha : agree P u) (Hj : length junk = (command_size P - cleared P)%nat) :
  exists u', parsing P (print P u) junk u0 = Ok u' /\ typed u' /\
    forall l, load l u' = if decide (l ∈ concat (snd <$> keys P)) then load l u else load l u0.
Proof. now apply print_parse. Qed.

(** C38. From the configuration text to the firmware, for the two chips with a
    level for each rate: when a text is accepted, the message with the power
    levels holds, at the place of each level in the structure of the interface,
    the value of the last line that sets it (or the initial one), less the loss
    of its band when the text enables it, modulo 256; or no message is sent,
    when the text disables the levels. *)
Theorem config_reaches_firmware (d : device) (text junk : list Z) (u : info)
  (Ht : Forall (fun b => b <> 0) text) (Hj : length junk = (command_size (dev_parser d) - cleared (dev_parser d))%nat)
  (Hu : parsing (dev_parser d) text junk userconfig_info = Ok u) :
  let val l := default 0 (effective (dev_parser d) userconfig_info l (fst (lines [] text))) in
  if val (At (dev_conf d) enable []) =? 0 then dev_send d true u = Freed
  else exists payload, dev_send d true u = Sent payload /\ length payload = 95%nat /\
    forall m idx t o, place (At (dev_conf d) m idx) = Some (t, o) ->
      payload !! (position (layout (dev_conf d)) m + o)%nat = Some (u8 (val (At (dev_conf d) m idx) - loss_of val m)).
Proof.
  intros val. pose proof (parsing_effective _ (dev_parser_in d) text junk userconfig_info Ht Hj userconfig_info_typed) as H. rewrite Hu in H.
  destruct H as [Htu Hl].
  assert (forall l, is_Some (place l) -> get l u = val l) as Hval.
  { intros l [[t o] Hp]. unfold get. now rewrite (Hl l t o Hp). }
  assert (forall m, loss_of (fun l => get l u) m = loss_of val m) as Hloss by (intros m; unfold loss_of; now rewrite !Hval by (now eexists)).
  rewrite dev_send_lost, lost_enable by done. rewrite Hval by (destruct d; now eexists).
  destruct (val (At (dev_conf d) enable []) =? 0); [done|]. eexists; split; [done|].
  destruct (lost_load d u enable [] U8 0%nat Htu ltac:(now destruct d)) as [Htl _].
  pose proof (image_length (dev_conf d) (lost d u) Htl) as Hlen. split.
  - unfold zalloc. rewrite length_app, length_replicate, Hlen. destruct d; reflexivity.
  - intros m idx t o Hp. destruct (lost_load d u m idx t o Htu Hp) as [_ Hg]. unfold zalloc.
    apply lookup_app_l_Some. rewrite (image_lookup _ _ _ _ t o) by done. rewrite Hg, Hloss, Hval by (eexists; exact Hp). done.
Qed.

(** A line that does not fit the buffers of its parser (a comment of more
    than 100 characters, a key of more than [command_size], more than 100
    digits) is written behind them, whatever comes after it. *)
Theorem config_line_overrun (P : parser) (text rest junk : list Z) (u : info)
  (HP : P ∈ parsers) (Ht : Forall (fun b => b <> 0) text) (Hj : length junk = (command_size P - cleared P)%nat)
  (Hu : typed u) (Ho : overlong P (line_of P (snd (lines [] text))) = true) :
  parsing P (text ++ rest) junk u = Fault OutOfBounds.
Proof.
  assert (parsing P text junk u = Fault OutOfBounds) as H.
  { pose proof (parsing_effective P HP text junk u Ht Hj Hu) as He. rewrite parsing_meaning in He |- * by (done || now apply parsers_ok). unfold meaning in *.
    destruct (lines [] text) as [ls tail]. cbn [snd] in Ho. rewrite Ho in *. destruct (foldM _ ls u) as [u'|e]; [done|]. cbn in *. now subst e. }
  unfold parsing in *. rewrite foldM_app. destruct (foldM _ text _) as [s|e]; [done|]. exact H.
Qed.

(** The first four 5 GHz entries of a D80 level table stand for rates that
    do not exist there and hold -128.  A loss of one to 127 dB, meant to lower
    the power, is subtracted from them like from the others and wraps: the
    firmware is sent a positive level, from 127 down to 1, for each of them. *)
Theorem na_rates_become_valid (loss : Z) (Hl : 1 <= loss <= 127) :
  exists payload, rwnx_send_txpwr_lvl_v3_req true (set_txpwr_loss_ofst (- loss) userconfig_info) = Sent payload /\
    take 4 (drop (position (layout txpwr_lvl_v3) pwrlvl_11a_5g) payload) = replicate 4 (128 - loss).
Proof.
  pose proof na_rates_check as H. rewrite List.forallb_forall in H. specialize (H loss). rewrite <- list_elem_of_In, elem_of_seqZ in H. specialize (H ltac:(lia)).
  unfold na_rates_of in H. destruct (rwnx_send_txpwr_lvl_v3_req _ _) as [| |p]; [done|done|]. exists p. split; [done|]. now apply bool_decide_eq_true_1 in H.
Qed.

End Props.

Module Witnesses.
Import Conf Uc UcSpec UcFacts UcPrint UcMsg.

Definition text_of_lines (ls : list string) : list Z := concat ((fun l => bytes l ++ [10]) <$> ls).

(** The configuration of the D80 that comes with the driver,
    [fw/aic8800D80/aic_userconfig_8800d80.txt]. *)
Definition aic_userconfig_8800d80 : list Z := text_of_lines (
  ["# AIC USERCONFIG 2022/0803/1707"; ""; "# txpwr_lvl";
   "enable=1"; "lvl_11b_11ag_1m_2g4=18"; "lvl_11b_11ag_2m_2g4=18";
   "lvl_11b_11ag_5m5_2g4=18"; "lvl_11b_11ag_11m_2g4=18"; "lvl_11b_11ag_6m_2g4=18";
   "lvl_11b_11ag_9m_2g4=18"; "lvl_11b_11ag_12m_2g4=18"; "lvl_11b_11ag_18m_2g4=18";
   "lvl_11b_11ag_24m_2g4=16"; "lvl_11b_11ag_36m_2g4=16"; "lvl_11b_11ag_48m_2g4=15";
   "lvl_11b_11ag_54m_2g4=15"; "lvl_11n_11ac_mcs0_2g4=18"; "lvl_11n_11ac_mcs1_2g4=18";
   "lvl_11n_11ac_mcs2_2g4=18"; "lvl_11n_11ac_mcs3_2g4=18"; "lvl_11n_11ac_mcs4_2g4=16";
   "lvl_11n_11ac_mcs5_2g4=16"; "lvl_11n_11ac_mcs6_2g4=15"; "lvl_11n_11ac_mcs7_2g4=15";
   "lvl_11n_11ac_mcs8_2g4=14"; "lvl_11n_11ac_mcs9_2g4=14"; "lvl_11ax_mcs0_2g4=18";
   "lvl_11ax_mcs1_2g4=18"; "lvl_11ax_mcs2_2g4=18"; "lvl_11ax_mcs3_2g4=18";
   "lvl_11ax_mcs4_2g4=16"; "lvl_11ax_mcs5_2g4=16"; "lvl_11ax_mcs6_2g4=15";
   "lvl_11ax_mcs7_2g4=15"; "lvl_11ax_mcs8_2g4=14"; "lvl_11ax_mcs9_2g4=14";
   "lvl_11ax_mcs10_2g4=13"; "lvl_11ax_mcs11_2g4=13"; "lvl_11a_6m_5g=18";
   "lvl_11a_9m_5g=18"; "lvl_11a_12m_5g=18"; "lvl_11a_18m_5g=18";
   "lvl_11a_24m_5g=16"; "lvl_11a_36m_5g=16"; "lvl_11a_48m_5g=15";
   "lvl_11a_54m_5g=15"; "lvl_11n_11ac_mcs0_5g=18"; "lvl_11n_11ac_mcs1_5g=18";
   "lvl_11n_11ac_mcs2_5g=18"; "lvl_11n_11ac_mcs3_5g=18"; "lvl_11n_11ac_mcs4_5g=16";
   "lvl_11n_11ac_mcs5_5g=16"; "lvl_11n_11ac_mcs6_5g=15"; "lvl_11n_11ac_mcs7_5g=15";
   "lvl_11n_11ac_mcs8_5g=14"; "lvl_11n_11ac_mcs9_5g=14"; "lvl_11ax_mcs0_5g=18";
   "lvl_11ax_mcs1_5g=18"; "lvl_11ax_mcs2_5g=18"; "lvl_11ax_mcs3_5g=18";
   "lvl_11ax_mcs4_5g=16"; "lvl_11ax_mcs5_5g=16"; "lvl_11ax_mcs6_5g=14";
   "lvl_11ax_mcs7_5g=14"; "lvl_11ax_mcs8_5g=13"; "lvl_11ax_mcs9_5g=13";
   "lvl_11ax_mcs10_5g=12"; "lvl_11ax_mcs11_5g=12"; "";
   "# txpwr_loss"; "loss_enable=0"; "loss_value=2";
   ""; "# txpwr_ofst"; "ofst_enable=0";
   "ofst_2g4_11b_chan_1_4=0"; "ofst_2g4_11b_chan_5_9=0"; "ofst_2g4_11b_chan_10_13=0";
   "ofst_2g4_ofdm_highrate_chan_1_4=0"; "ofst_2g4_ofdm_highrate_chan_5_9=0"; "ofst_2g4_ofdm_highrate_chan_10_13=0";
   "ofst_2g4_ofdm_lowrate_chan_1_4=0"; "ofst_2g4_ofdm_lowrate_chan_5_9=0"; "ofst_2g4_ofdm_lowrate_chan_10_13=0";
   "ofst_5g_ofdm_lowrate_chan_42=0"; "ofst_5g_ofdm_lowrate_chan_58=0"; "ofst_5g_ofdm_lowrate_chan_106=0";
   "ofst_5g_ofdm_lowrate_chan_122=0"; "ofst_5g_ofdm_lowrate_chan_138=0"; "ofst_5g_ofdm_lowrate_chan_155=0";
   "ofst_5g_ofdm_highrate_chan_42=0"; "ofst_5g_ofdm_highrate_chan_58=0"; "ofst_5g_ofdm_highrate_chan_106=0";
   "ofst_5g_ofdm_highrate_chan_122=0"; "ofst_5g_ofdm_highrate_chan_138=0"; "ofst_5g_ofdm_highrate_chan_155=0";
   "ofst_5g_ofdm_midrate_chan_42=0"; "ofst_5g_ofdm_midrate_chan_58=0"; "ofst_5g_ofdm_midrate_chan_106=0";
   "ofst_5g_ofdm_midrate_chan_122=0"; "ofst_5g_ofdm_midrate_chan_138=0"; "ofst_5g_ofdm_midrate_chan_155=0";
   ""; "# xtal cap"; "xtal_enable=0";
   "xtal_cap=24"; "xtal_cap_fine=31"; "";
   ""; ""])%string.

Definition accepted (r : res info) : info := match r with Ok u => u | Fault _ => userconfig_info end.
Definition is_ok (r : res info) : bool := match r with Ok _ => true | Fault _ => false end.
Lemma accepted_ok r : is_ok r = true -> r = Ok (accepted r).
Proof. now destruct r. Qed.

Lemma d80_text : Forall (fun b => b <> 0) aic_userconfig_8800d80.
Proof. apply (bool_decide_unpack _). vm_compute. exact I. Qed.


(** The settings of the D80, printed and parsed by the firmware's defaults. *)
Definition d80_info : info := accepted (parsing rwnx_plat_userconfig aic_userconfig_8800d80 [] userconfig_info).

Lemma d80_accepted : parsing rwnx_plat_userconfig aic_userconfig_8800d80 [] userconfig_info = Ok d80_info.
Proof. apply accepted_ok. vm_compute. reflexivity. Qed.

Lemma d80_typed : typed d80_info.
Proof.
  pose proof (parsing_effective _ (dev_parser_in D80) aic_userconfig_8800d80 [] userconfig_info d80_text eq_refl userconfig_info_typed) as H.
  cbn [dev_parser] in H. rewrite d80_accepted in H. apply H.
Qed.
Lemma d80_agree : agree rwnx_plat_userconfig d80_info.
Proof. refine (bool_decide_unpack (agree rwnx_plat_userconfig d80_info) _). vm_compute. exact I. Qed.

Example config_roundtrip_witness :
  load (At txpwr_lvl_v3 pwrlvl_11ax_5g [11%nat]) (accepted (rwnx_plat_userconfig_parsing (print rwnx_plat_userconfig d80_info) [] userconfig_info)) = Some 12.
Proof.
  destruct (Props.config_roundtrip rwnx_plat_userconfig d80_info userconfig_info [] (list_elem_of_here _ _) d80_typed userconfig_info_typed d80_agree eq_refl)
    as (u & E & _ & H).
  unfold rwnx_plat_userconfig_parsing. rewrite E. cbn [accepted]. rewrite H. vm_compute. reflexivity.
Defined.

Example config_reaches_firmware_witness :
  match rwnx_send_txpwr_lvl_v3_req true d80_info with Sent p => p !! 13%nat = Some 18 /\ p !! 56%nat = Some 14 | _ => False end.
Proof.
  assert (parsing (dev_parser D80) aic_userconfig_8800d80 [] userconfig_info = Ok d80_info) as Hp by exact d80_accepted.
  pose proof (Props.config_reaches_firmware D80 aic_userconfig_8800d80 [] d80_info d80_text eq_refl Hp) as H. cbv zeta in H.
  replace (_ =? 0) with false in H by (vm_compute; reflexivity). destruct H as (p & E & _ & H). cbn [dev_send] in E. rewrite E.
  pose proof (H pwrlvl_11n_11ac_2g4 [0%nat] S8 0%nat eq_refl) as H1. pose proof (H pwrlvl_11n_11ac_5g [9%nat] S8 9%nat eq_refl) as H2. split.
  - etransitivity; [exact H1|]. vm_compute. reflexivity.
  - etransitivity; [exact H2|]. vm_compute. reflexivity.
Defined.

(** The loader's parser, with its 30 bytes, would not take that file. *)
Example config_line_overrun_witness :
  rwnx_plat_userconfig_parsing (35 :: replicate 101 97) [] userconfig_info = Fault OutOfBounds /\
  loader_userconfig_parsing aic_userconfig_8800d80 [] userconfig_info = Fault OutOfBounds.
Proof.
  split; [|vm_compute; reflexivity]. rewrite <- (app_nil_r (35 :: replicate 101 97)).
  apply (Props.config_line_overrun rwnx_plat_userconfig).
  - apply list_elem_of_here.
  - apply (bool_decide_unpack _). vm_compute. exact I.
  - reflexivity.
  - exact userconfig_info_typed.
  - reflexivity.
Defined.

Example na_rates_become_valid_witness :
  match rwnx_send_txpwr_lvl_v3_req true (set_txpwr_loss_ofst (-2) userconfig_info) with Sent p => take 4 (drop 35 p) = [126; 126; 126; 126] | _ => False end.
Proof.
  destruct (Props.na_rates_become_valid 2 ltac:(lia)) as (p & E & H). change (- (2)) with (-2) in E. rewrite E. exact H.
Defined.

End Witnesses.
