(* ===== verification/Digest.v ===== *)
(** The checksums the loader takes of a firmware file: [aic_crc32] of
    [aic_load_fw/aicbluetooth.c] and [md5.c], of which [aic8800_fdrv] has the
    same copy.

    [Crc] and [Md5] hold the code; [CrcSpec] and [Md5Spec] the definitions they
    are proved against: the remainder computed bit by bit, and the digest as
    RFC 1321 defines it, of the whole message.  The constants of RFC 1321 are
    the same numbers here and there. *)
From stdpp Require Import base list numbers option.
From Stdlib Require Import ZArith Lia.
From S2P Require Import Prelude.

#[local] Open Scope Z_scope.
#[local] Open Scope aic_scope.

(** * CRC *)

Module Crc.

Definition crc_tab : list Z :=
  [0x00000000; 0x77073096; 0xee0e612c; 0x990951ba; 0x076dc419; 0x706af48f; 0xe963a535; 0x9e6495a3;
   0x0edb8832; 0x79dcb8a4; 0xe0d5e91e; 0x97d2d988; 0x09b64c2b; 0x7eb17cbd; 0xe7b82d07; 0x90bf1d91;
   0x1db71064; 0x6ab020f2; 0xf3b97148; 0x84be41de; 0x1adad47d; 0x6ddde4eb; 0xf4d4b551; 0x83d385c7;
   0x136c9856; 0x646ba8c0; 0xfd62f97a; 0x8a65c9ec; 0x14015c4f; 0x63066cd9; 0xfa0f3d63; 0x8d080df5;
   0x3b6e20c8; 0x4c69105e; 0xd56041e4; 0xa2677172; 0x3c03e4d1; 0x4b04d447; 0xd20d85fd; 0xa50ab56b;
   0x35b5a8fa; 0x42b2986c; 0xdbbbc9d6; 0xacbcf940; 0x32d86ce3; 0x45df5c75; 0xdcd60dcf; 0xabd13d59;
   0x26d930ac; 0x51de003a; 0xc8d75180; 0xbfd06116; 0x21b4f4b5; 0x56b3c423; 0xcfba9599; 0xb8bda50f;
   0x2802b89e; 0x5f058808; 0xc60cd9b2; 0xb10be924; 0x2f6f7c87; 0x58684c11; 0xc1611dab; 0xb6662d3d;
   0x76dc4190; 0x01db7106; 0x98d220bc; 0xefd5102a; 0x71b18589; 0x06b6b51f; 0x9fbfe4a5; 0xe8b8d433;
   0x7807c9a2; 0x0f00f934; 0x9609a88e; 0xe10e9818; 0x7f6a0dbb; 0x086d3d2d; 0x91646c97; 0xe6635c01;
   0x6b6b51f4; 0x1c6c6162; 0x856530d8; 0xf262004e; 0x6c0695ed; 0x1b01a57b; 0x8208f4c1; 0xf50fc457;
   0x65b0d9c6; 0x12b7e950; 0x8bbeb8ea; 0xfcb9887c; 0x62dd1ddf; 0x15da2d49; 0x8cd37cf3; 0xfbd44c65;
   0x4db26158; 0x3ab551ce; 0xa3bc0074; 0xd4bb30e2; 0x4adfa541; 0x3dd895d7; 0xa4d1c46d; 0xd3d6f4fb;
   0x4369e96a; 0x346ed9fc; 0xad678846; 0xda60b8d0; 0x44042d73; 0x33031de5; 0xaa0a4c5f; 0xdd0d7cc9;
   0x5005713c; 0x270241aa; 0xbe0b1010; 0xc90c2086; 0x5768b525; 0x206f85b3; 0xb966d409; 0xce61e49f;
   0x5edef90e; 0x29d9c998; 0xb0d09822; 0xc7d7a8b4; 0x59b33d17; 0x2eb40d81; 0xb7bd5c3b; 0xc0ba6cad;
   0xedb88320; 0x9abfb3b6; 0x03b6e20c; 0x74b1d29a; 0xead54739; 0x9dd277af; 0x04db2615; 0x73dc1683;
   0xe3630b12; 0x94643b84; 0x0d6d6a3e; 0x7a6a5aa8; 0xe40ecf0b; 0x9309ff9d; 0x0a00ae27; 0x7d079eb1;
   0xf00f9344; 0x8708a3d2; 0x1e01f268; 0x6906c2fe; 0xf762575d; 0x806567cb; 0x196c3671; 0x6e6b06e7;
   0xfed41b76; 0x89d32be0; 0x10da7a5a; 0x67dd4acc; 0xf9b9df6f; 0x8ebeeff9; 0x17b7be43; 0x60b08ed5;
   0xd6d6a3e8; 0xa1d1937e; 0x38d8c2c4; 0x4fdff252; 0xd1bb67f1; 0xa6bc5767; 0x3fb506dd; 0x48b2364b;
   0xd80d2bda; 0xaf0a1b4c; 0x36034af6; 0x41047a60; 0xdf60efc3; 0xa867df55; 0x316e8eef; 0x4669be79;
   0xcb61b38c; 0xbc66831a; 0x256fd2a0; 0x5268e236; 0xcc0c7795; 0xbb0b4703; 0x220216b9; 0x5505262f;
   0xc5ba3bbe; 0xb2bd0b28; 0x2bb45a92; 0x5cb36a04; 0xc2d7ffa7; 0xb5d0cf31; 0x2cd99e8b; 0x5bdeae1d;
   0x9b64c2b0; 0xec63f226; 0x756aa39c; 0x026d930a; 0x9c0906a9; 0xeb0e363f; 0x72076785; 0x05005713;
   0x95bf4a82; 0xe2b87a14; 0x7bb12bae; 0x0cb61b38; 0x92d28e9b; 0xe5d5be0d; 0x7cdcefb7; 0x0bdbdf21;
   0x86d3d2d4; 0xf1d4e242; 0x68ddb3f8; 0x1fda836e; 0x81be16cd; 0xf6b9265b; 0x6fb077e1; 0x18b74777;
   0x88085ae6; 0xff0f6a70; 0x66063bca; 0x11010b5c; 0x8f659eff; 0xf862ae69; 0x616bffd3; 0x166ccf45;
   0xa00ae278; 0xd70dd2ee; 0x4e048354; 0x3903b3c2; 0xa7672661; 0xd06016f7; 0x4969474d; 0x3e6e77db;
   0xaed16a4a; 0xd9d65adc; 0x40df0b66; 0x37d83bf0; 0xa9bcae53; 0xdebb9ec5; 0x47b2cf7f; 0x30b5ffe9;
   0xbdbdf21c; 0xcabac28a; 0x53b39330; 0x24b4a3a6; 0xbad03605; 0xcdd70693; 0x54de5729; 0x23d967bf;
   0xb3667a2e; 0xc4614ab8; 0x5d681b02; 0x2a6f2b94; 0xb40bbe37; 0xc30c8ea1; 0x5a05df1b; 0x2d02ef8d].

(** The loop of [aic_crc32]; [p] are the [len] bytes. *)
Fixpoint aic_crc32 (p : list Z) (crc : Z) : res Z :=
  match p with
  | [] => Ok crc
  | b :: p =>
      t ← from_option_res OutOfBounds (crc_tab !! Z.to_nat (Z.lxor (Z.land crc 0xFF) b));
      aic_crc32 p (Z.lxor t (Z.shiftr crc 8))
  end.

End Crc.

Module CrcSpec.

(** One step of the shift register: a bit leaves at the right, and the
    polynomial is subtracted when it is 1. *)
Definition crc_bit (c : Z) : Z := if Z.odd c then Z.lxor (Z.shiftr c 1) 0xEDB88320 else Z.shiftr c 1.
Fixpoint crc_bits (n : nat) (c : Z) : Z := match n with O => c | S n => crc_bit (crc_bits n c) end.
(** A byte is added to the register and shifted out. *)
Definition crc_byte (c b : Z) : Z := crc_bits 8 (Z.lxor c b).
Definition crc (p : list Z) (c : Z) : Z := fold_left crc_byte p c.

End CrcSpec.

(** * MD5 *)

Module Md5.

Inductive macro := FF | GG | HH | II.
Inductive reg := Ra | Rb | Rc | Rd.
#[export] Instance macro_eq_dec : EqDecision macro.
Proof. solve_decision. Defined.
#[export] Instance reg_eq_dec : EqDecision reg.
Proof. solve_decision. Defined.

Record words := mk_words { wa : Z; wb : Z; wc : Z; wd : Z }.

Definition lnot (x : Z) : Z := u32 (Z.lnot x).
Definition F (x y z : Z) : Z := Z.lor (Z.land x y) (Z.land (lnot x) z).
Definition G (x y z : Z) : Z := Z.lor (Z.land x z) (Z.land y (lnot z)).
Definition H (x y z : Z) : Z := Z.lxor (Z.lxor x y) z.
Definition I (x y z : Z) : Z := Z.lxor y (Z.lor x (lnot z)).
Definition ROTATE_LEFT (x n : Z) : Z := Z.lor (u32 (Z.shiftl x n)) (Z.shiftr x (32 - n)).

Definition mix (m : macro) : Z -> Z -> Z -> Z := match m with FF => F | GG => G | HH => H | II => I end.
(** The value that [FF], [GG], [HH] and [II] leave in their first argument. *)
Definition apply (m : macro) (a b c d x s ac : Z) : Z :=
  u32 (ROTATE_LEFT (u32 (a + (mix m b c d + x + ac))) s + b).

Definition get (w : words) (r : reg) : Z := match r with Ra => wa w | Rb => wb w | Rc => wc w | Rd => wd w end.
Definition set (r : reg) (v : Z) (w : words) : words :=
  match r with
  | Ra => mk_words v (wb w) (wc w) (wd w) | Rb => mk_words (wa w) v (wc w) (wd w)
  | Rc => mk_words (wa w) (wb w) v (wd w) | Rd => mk_words (wa w) (wb w) (wc w) v
  end.

(** The statements of [MD5Transform]: the macro, the variables, the word of the
    block, the shift and the constant. *)
Definition stmt : Type := macro * (reg * reg * reg * reg) * nat * Z * Z.
Definition body : list stmt :=
  [(FF, (Ra, Rb, Rc, Rd), 0%nat, 7, 0xd76aa478); (FF, (Rd, Ra, Rb, Rc), 1%nat, 12, 0xe8c7b756);
   (FF, (Rc, Rd, Ra, Rb), 2%nat, 17, 0x242070db); (FF, (Rb, Rc, Rd, Ra), 3%nat, 22, 0xc1bdceee);
   (FF, (Ra, Rb, Rc, Rd), 4%nat, 7, 0xf57c0faf); (FF, (Rd, Ra, Rb, Rc), 5%nat, 12, 0x4787c62a);
   (FF, (Rc, Rd, Ra, Rb), 6%nat, 17, 0xa8304613); (FF, (Rb, Rc, Rd, Ra), 7%nat, 22, 0xfd469501);
   (FF, (Ra, Rb, Rc, Rd), 8%nat, 7, 0x698098d8); (FF, (Rd, Ra, Rb, Rc), 9%nat, 12, 0x8b44f7af);
   (FF, (Rc, Rd, Ra, Rb), 10%nat, 17, 0xffff5bb1); (FF, (Rb, Rc, Rd, Ra), 11%nat, 22, 0x895cd7be);
   (FF, (Ra, Rb, Rc, Rd), 12%nat, 7, 0x6b901122); (FF, (Rd, Ra, Rb, Rc), 13%nat, 12, 0xfd987193);
   (FF, (Rc, Rd, Ra, Rb), 14%nat, 17, 0xa679438e); (FF, (Rb, Rc, Rd, Ra), 15%nat, 22, 0x49b40821);
   (GG, (Ra, Rb, Rc, Rd), 1%nat, 5, 0xf61e2562); (GG, (Rd, Ra, Rb, Rc), 6%nat, 9, 0xc040b340);
   (GG, (Rc, Rd, Ra, Rb), 11%nat, 14, 0x265e5a51); (GG, (Rb, Rc, Rd, Ra), 0%nat, 20, 0xe9b6c7aa);
   (GG, (Ra, Rb, Rc, Rd), 5%nat, 5, 0xd62f105d); (GG, (Rd, Ra, Rb, Rc), 10%nat, 9, 0x2441453);
   (GG, (Rc, Rd, Ra, Rb), 15%nat, 14, 0xd8a1e681); (GG, (Rb, Rc, Rd, Ra), 4%nat, 20, 0xe7d3fbc8);
   (GG, (Ra, Rb, Rc, Rd), 9%nat, 5, 0x21e1cde6); (GG, (Rd, Ra, Rb, Rc), 14%nat, 9, 0xc33707d6);
   (GG, (Rc, Rd, Ra, Rb), 3%nat, 14, 0xf4d50d87); (GG, (Rb, Rc, Rd, Ra), 8%nat, 20, 0x455a14ed);
   (GG, (Ra, Rb, Rc, Rd), 13%nat, 5, 0xa9e3e905); (GG, (Rd, Ra, Rb, Rc), 2%nat, 9, 0xfcefa3f8);
   (GG, (Rc, Rd, Ra, Rb), 7%nat, 14, 0x676f02d9); (GG, (Rb, Rc, Rd, Ra), 12%nat, 20, 0x8d2a4c8a);
   (HH, (Ra, Rb, Rc, Rd), 5%nat, 4, 0xfffa3942); (HH, (Rd, Ra, Rb, Rc), 8%nat, 11, 0x8771f681);
   (HH, (Rc, Rd, Ra, Rb), 11%nat, 16, 0x6d9d6122); (HH, (Rb, Rc, Rd, Ra), 14%nat, 23, 0xfde5380c);
   (HH, (Ra, Rb, Rc, Rd), 1%nat, 4, 0xa4beea44); (HH, (Rd, Ra, Rb, Rc), 4%nat, 11, 0x4bdecfa9);
   (HH, (Rc, Rd, Ra, Rb), 7%nat, 16, 0xf6bb4b60); (HH, (Rb, Rc, Rd, Ra), 10%nat, 23, 0xbebfbc70);
   (HH, (Ra, Rb, Rc, Rd), 13%nat, 4, 0x289b7ec6); (HH, (Rd, Ra, Rb, Rc), 0%nat, 11, 0xeaa127fa);
   (HH, (Rc, Rd, Ra, Rb), 3%nat, 16, 0xd4ef3085); (HH, (Rb, Rc, Rd, Ra), 6%nat, 23, 0x4881d05);
   (HH, (Ra, Rb, Rc, Rd), 9%nat, 4, 0xd9d4d039); (HH, (Rd, Ra, Rb, Rc), 12%nat, 11, 0xe6db99e5);
   (HH, (Rc, Rd, Ra, Rb), 15%nat, 16, 0x1fa27cf8); (HH, (Rb, Rc, Rd, Ra), 2%nat, 23, 0xc4ac5665);
   (II, (Ra, Rb, Rc, Rd), 0%nat, 6, 0xf4292244); (II, (Rd, Ra, Rb, Rc), 7%nat, 10, 0x432aff97);
   (II, (Rc, Rd, Ra, Rb), 14%nat, 15, 0xab9423a7); (II, (Rb, Rc, Rd, Ra), 5%nat, 21, 0xfc93a039);
   (II, (Ra, Rb, Rc, Rd), 12%nat, 6, 0x655b59c3); (II, (Rd, Ra, Rb, Rc), 3%nat, 10, 0x8f0ccc92);
   (II, (Rc, Rd, Ra, Rb), 10%nat, 15, 0xffeff47d); (II, (Rb, Rc, Rd, Ra), 1%nat, 21, 0x85845dd1);
   (II, (Ra, Rb, Rc, Rd), 8%nat, 6, 0x6fa87e4f); (II, (Rd, Ra, Rb, Rc), 15%nat, 10, 0xfe2ce6e0);
   (II, (Rc, Rd, Ra, Rb), 6%nat, 15, 0xa3014314); (II, (Rb, Rc, Rd, Ra), 13%nat, 21, 0x4e0811a1);
   (II, (Ra, Rb, Rc, Rd), 4%nat, 6, 0xf7537e82); (II, (Rd, Ra, Rb, Rc), 11%nat, 10, 0xbd3af235);
   (II, (Rc, Rd, Ra, Rb), 2%nat, 15, 0x2ad7d2bb); (II, (Rb, Rc, Rd, Ra), 9%nat, 21, 0xeb86d391)].

Definition exec (x : list Z) (w : words) (st : stmt) : res words :=
  let '(m, (a, b, c, d), i, s, ac) := st in
  xi ← from_option_res Uninitialised (x !! i);
  Ok (set a (apply m (get w a) (get w b) (get w c) (get w d) xi s ac) w).
Definition exec_all (x : list Z) (l : list stmt) (w : words) : res words := foldM (fun st w => exec x w st) l w.

(** [MD5Encode] of the words [input], and [MD5Decode] of [n] words. *)
Fixpoint MD5Encode (input : list Z) : list Z :=
  match input with
  | [] => []
  | x :: input => Z.land x 0xFF :: Z.land (Z.shiftr x 8) 0xFF :: Z.land (Z.shiftr x 16) 0xFF ::
                  Z.land (Z.shiftr x 24) 0xFF :: MD5Encode input
  end.
Fixpoint MD5Decode (n : nat) (input : list Z) : res (list Z) :=
  match n, input with
  | O, _ => Ok []
  | S n, b0 :: b1 :: b2 :: b3 :: input =>
      l ← MD5Decode n input;
      Ok (Z.lor (Z.lor (Z.lor b0 (Z.shiftl b1 8)) (Z.shiftl b2 16)) (Z.shiftl b3 24) :: l)
  | S _, _ => Fault OutOfBounds
  end.

Definition MD5Transform (state : words) (block : list Z) : res words :=
  x ← MD5Decode 16 block;
  w ← exec_all x body state;
  Ok (mk_words (u32 (wa state + wa w)) (u32 (wb state + wb w)) (u32 (wc state + wc w)) (u32 (wd state + wd w))).

Record MD5_CTX := mk_ctx { count0 : Z; count1 : Z; state : words; buffer : list Z (* 64 bytes *) }.
#[export] Instance MD5_CTX_eta : RecordEta MD5_CTX := fun c => mk_ctx (count0 c) (count1 c) (state c) (buffer c).

Definition PADDING : list Z := 0x80 :: replicate 63 0.

(** [junk] is what the memory of the context held. *)
Definition MD5Init (junk : list Z) : MD5_CTX :=
  mk_ctx 0 0 (mk_words 0x67452301 0xEFCDAB89 0x98BADCFE 0x10325476) junk.

(** [memcpy(&dst[i], src, n)]. *)
Definition copy_at (dst : list Z) (i : Z) (src : list Z) : res (list Z) :=
  if i + Z.of_nat (length src) <=? Z.of_nat (length dst) then
    Ok (take (Z.to_nat i) dst ++ src ++ drop (Z.to_nat i + length src) dst)
  else Fault OutOfBounds.

(** The loop over whole blocks of [MD5Update]; [i] is an unsigned int. *)
Fixpoint transform_loop (fuel : nat) (input : list Z) (i inputlen : Z) (st : words) : res (Z * words) :=
  if u32 (i + 64) <=? inputlen then
    match fuel with
    | O => Fault OutOfFuel
    | S fuel => block ← slice input i 64; st ← MD5Transform st block; transform_loop fuel input (u32 (i + 64)) inputlen st
    end
  else Ok (i, st).

Definition MD5Update (ctx : MD5_CTX) (input : list Z) : res MD5_CTX :=
  let inputlen := u32 (Z.of_nat (length input)) in
  let index := Z.land (Z.shiftr (count0 ctx) 3) 0x3F in
  let partlen := 64 - index in
  let bits := u32 (Z.shiftl inputlen 3) in
  let c0 := u32 (count0 ctx + bits) in
  let c1 := if c0 <? bits then u32 (count1 ctx + 1) else count1 ctx in
  let c1 := u32 (c1 + Z.shiftr inputlen 29) in
  r ← (if partlen <=? inputlen then
         part ← slice input 0 (Z.to_nat partlen);
         buf ← copy_at (buffer ctx) index part;
         st ← MD5Transform (state ctx) buf;
         l ← transform_loop (S (length input / 64)) input partlen inputlen st;
         Ok (l.1, l.2, 0, buf)
       else Ok (0, state ctx, index, buffer ctx));
  let '(i, st, index, buf) := r in
  rest ← slice input i (Z.to_nat (u32 (inputlen - i)));
  buf ← copy_at buf index rest;
  Ok (mk_ctx c0 c1 st buf).

Definition MD5Final (ctx : MD5_CTX) : res (list Z) :=
  let index := Z.land (Z.shiftr (count0 ctx) 3) 0x3f in
  let padlen := if index <? 56 then 56 - index else 120 - index in
  let bits := MD5Encode [count0 ctx; count1 ctx] in
  ctx ← MD5Update ctx (take (Z.to_nat padlen) PADDING);
  ctx ← MD5Update ctx bits;
  let w := state ctx in
  Ok (MD5Encode [wa w; wb w; wc w; wd w]).

(** The digest of a file that is read in pieces; the loader hands it over in one. *)
Definition digest (junk : list Z) (chunks : list (list Z)) : res (list Z) :=
  ctx ← foldM (fun c ctx => MD5Update ctx c) chunks (MD5Init junk);
  MD5Final ctx.

End Md5.

(** RFC 1321, over the whole message. *)
Module Md5Spec.
Import Md5.

(** The table of section 3.4: the integer part of 2^32 times the absolute value of sin(i + 1). *)
Definition T : list Z :=
  [0xd76aa478; 0xe8c7b756; 0x242070db; 0xc1bdceee; 0xf57c0faf; 0x4787c62a; 0xa8304613; 0xfd469501;
   0x698098d8; 0x8b44f7af; 0xffff5bb1; 0x895cd7be; 0x6b901122; 0xfd987193; 0xa679438e; 0x49b40821;
   0xf61e2562; 0xc040b340; 0x265e5a51; 0xe9b6c7aa; 0xd62f105d; 0x2441453; 0xd8a1e681; 0xe7d3fbc8;
   0x21e1cde6; 0xc33707d6; 0xf4d50d87; 0x455a14ed; 0xa9e3e905; 0xfcefa3f8; 0x676f02d9; 0x8d2a4c8a;
   0xfffa3942; 0x8771f681; 0x6d9d6122; 0xfde5380c; 0xa4beea44; 0x4bdecfa9; 0xf6bb4b60; 0xbebfbc70;
   0x289b7ec6; 0xeaa127fa; 0xd4ef3085; 0x4881d05; 0xd9d4d039; 0xe6db99e5; 0x1fa27cf8; 0xc4ac5665;
   0xf4292244; 0x432aff97; 0xab9423a7; 0xfc93a039; 0x655b59c3; 0x8f0ccc92; 0xffeff47d; 0x85845dd1;
   0x6fa87e4f; 0xfe2ce6e0; 0xa3014314; 0x4e0811a1; 0xf7537e82; 0xbd3af235; 0x2ad7d2bb; 0xeb86d391].
Definition shifts (i : nat) : Z :=
  match (i / 16)%nat, (i mod 4)%nat with
  | 0%nat, 0%nat => 7 | 0%nat, 1%nat => 12 | 0%nat, 2%nat => 17 | 0%nat, _ => 22
  | 1%nat, 0%nat => 5 | 1%nat, 1%nat => 9 | 1%nat, 2%nat => 14 | 1%nat, _ => 20
  | 2%nat, 0%nat => 4 | 2%nat, 1%nat => 11 | 2%nat, 2%nat => 16 | 2%nat, _ => 23
  | _, 0%nat => 6 | _, 1%nat => 10 | _, 2%nat => 15 | _, _ => 21
  end.
Definition index (i : nat) : nat :=
  match (i / 16)%nat with 0%nat => i mod 16 | 1%nat => (5 * i + 1) mod 16 | 2%nat => (3 * i + 5) mod 16 | _ => (7 * i) mod 16 end.
Definition round (i : nat) : macro := match (i / 16)%nat with 0%nat => FF | 1%nat => GG | 2%nat => HH | _ => II end.

(** Operation [i]: the first variable gets its new value and the four rotate. *)
Definition operation (x : list Z) (i : nat) (w : words) : words :=
  mk_words (wd w) (apply (round i) (wa w) (wb w) (wc w) (wd w) (default 0 (x !! index i)) (shifts i) (default 0 (T !! i)))
    (wb w) (wc w).
Fixpoint operations (x : list Z) (n : nat) (w : words) : words :=
  match n with O => w | S n => operation x n (operations x n w) end.

Definition le_word (b : list Z) : Z :=
  match b with [b0; b1; b2; b3] => b0 + 256 * b1 + 65536 * b2 + 16777216 * b3 | _ => 0 end.
Definition block_words (block : list Z) : list Z := (fun i => le_word (take 4 (drop (4 * i) block))) <$> seq 0 16.
Definition compress (w : words) (block : list Z) : words :=
  let v := operations (block_words block) 64 w in
  mk_words (u32 (wa w + wa v)) (u32 (wb w + wb v)) (u32 (wc w + wc v)) (u32 (wd w + wd v)).

(** [n] whole blocks of the message. *)
Fixpoint hash (n : nat) (m : list Z) (w : words) : words :=
  match n with O => w | S n => hash n (drop 64 m) (compress w (take 64 m)) end.

Definition le_bytes (n : nat) (x : Z) : list Z := (fun i => x / 2 ^ (8 * Z.of_nat i) mod 256) <$> seq 0 n.
(** The message, a bit 1, zeros up to eight bytes below a multiple of 64, and the number of bits. *)
Definition padded (m : list Z) : list Z :=
  let len := Z.of_nat (length m) in
  m ++ [128] ++ replicate (Z.to_nat ((55 - len) mod 64)) 0 ++ le_bytes 8 (8 * len).
Definition md5 (m : list Z) : list Z :=
  let p := padded m in
  let w := hash (length p / 64) p (mk_words 0x67452301 0xEFCDAB89 0x98BADCFE 0x10325476) in
  le_bytes 4 (wa w) ++ le_bytes 4 (wb w) ++ le_bytes 4 (wc w) ++ le_bytes 4 (wd w).

End Md5Spec.

(** * Correctness of the CRC *)

Module CrcFacts.
Import Crc CrcSpec.

#[local] Arguments crc_byte : simpl never.

Lemma crc_bit_lxor x y : crc_bit (Z.lxor x y) = Z.lxor (crc_bit x) (crc_bit y).
Proof.
  unfold crc_bit. rewrite <- !Z.bit0_odd, Z.lxor_spec, Z.shiftr_lxor.
  generalize (Z.shiftr x 1) (Z.shiftr y 1). intros a b.
  destruct (Z.testbit x 0), (Z.testbit y 0); cbn [xorb]; apply Z.bits_inj'; intros i Hi; rewrite ?Z.lxor_spec; repeat (destruct (Z.testbit _ _)); done.
Qed.
Lemma crc_bits_lxor n x y : crc_bits n (Z.lxor x y) = Z.lxor (crc_bits n x) (crc_bits n y).
Proof.
  induction n as [|n IH]; [done|]. cbn [crc_bits]. now rewrite IH, crc_bit_lxor.
Qed.
Lemma crc_bits_add n k x : crc_bits (n + k) x = crc_bits n (crc_bits k x).
Proof. induction n as [|n IH]; [done|]. cbn [crc_bits Nat.add]. now rewrite IH. Qed.

(** Zeros on the right are shifted out without effect. *)
Lemma crc_bits_shift n x : crc_bits n (Z.shiftl x (Z.of_nat n)) = x.
Proof.
  induction n as [|n IH]; [apply Z.shiftl_0_r|]. replace (S n) with (n + 1)%nat by lia.
  rewrite crc_bits_add. change (crc_bits 1 ?y) with (crc_bit y).
  assert (crc_bit (Z.shiftl x (Z.of_nat (n + 1))) = Z.shiftl x (Z.of_nat n)) as ->; [|done].
  unfold crc_bit. rewrite <- Z.bit0_odd, Z.shiftl_spec_low by lia. rewrite Z.shiftr_shiftl_l by lia. f_equal. lia.
Qed.

Lemma crc_tab_ok i : 0 <= i < 256 -> crc_tab !! Z.to_nat i = Some (crc_bits 8 i).
Proof.
  intros Hi. assert (forall n, (n < 256)%nat -> crc_tab !! n = Some (crc_bits 8 (Z.of_nat n))) as Hall.
  { intros n Hn. refine (proj1 (Forall_seq (fun n => crc_tab !! n = Some (crc_bits 8 (Z.of_nat n))) 0 256) _ n _); [|lia].
    refine (bool_decide_unpack (Forall _ _) _). vm_compute. exact I. }
  rewrite Hall by lia. now rewrite Z2Nat.id by lia.
Qed.

(** A byte through the table is a byte through the register. *)
Lemma crc_byte_tab c b : crc_byte c b = Z.lxor (crc_bits 8 (Z.lxor (Z.land c 0xFF) b)) (Z.shiftr c 8).
Proof.
  unfold crc_byte. rewrite <- (crc_bits_shift 8 (Z.shiftr c 8)) at 1. rewrite <- crc_bits_lxor. f_equal.
  assert (Z.lxor (Z.land c 0xFF) (Z.shiftl (Z.shiftr c 8) (Z.of_nat 8)) = c) as E.
  { change 0xFF with (Z.ones 8). change (Z.of_nat 8) with 8. apply Z.bits_inj'; intros i Hi. rewrite ?Z.lxor_spec, Z.land_spec.
    destruct (decide (i < 8)); [rewrite Z.shiftl_spec_low, Z.ones_spec_low by lia; now rewrite andb_true_r, xorb_false_r|].
    rewrite Z.shiftl_spec, Z.shiftr_spec, Z.ones_spec_high by lia. rewrite andb_false_r. cbn. f_equal. lia. }
  rewrite <- E at 1. rewrite !Z.lxor_assoc. f_equal. apply Z.lxor_comm.
Qed.

Lemma lxor_byte a b : 0 <= a < 256 -> 0 <= b < 256 -> 0 <= Z.lxor a b < 256.
Proof.
  intros Ha Hb. split; [apply Z.lxor_nonneg; lia|]. destruct (Z.eq_dec (Z.lxor a b) 0) as [->|]; [lia|].
  apply Z.log2_lt_cancel. change (Z.log2 256) with 8. pose proof (Z.log2_lxor a b ltac:(lia) ltac:(lia)).
  pose proof (Z.log2_le_mono a 255 ltac:(lia)). pose proof (Z.log2_le_mono b 255 ltac:(lia)). change (Z.log2 255) with 7 in *. lia.
Qed.
Lemma land_ff a : 0 <= Z.land a 0xFF < 256.
Proof. change 0xFF with (Z.ones 8). rewrite Z.land_ones by lia. apply Z.mod_pos_bound. lia. Qed.

Lemma aic_crc32_ok p c : Forall (fun b => 0 <= b < 256) p -> aic_crc32 p c = Ok (crc p c).
Proof.
  intros Hp. revert c. induction Hp as [|b p Hb _ IH]; intros c; [done|]. cbn [aic_crc32].
  rewrite crc_tab_ok by (apply lxor_byte; [apply land_ff|done]). cbn [from_option_res mbind res_bind]. rewrite IH. cbn [crc fold_left].
  now rewrite <- crc_byte_tab.
Qed.

(** ** Detection of errors *)

Definition word (x : Z) : Prop := 0 <= x < 2 ^ 32.
Lemma lxor_word a b : word a -> word b -> word (Z.lxor a b).
Proof.
  unfold word. intros Ha Hb. split; [apply Z.lxor_nonneg; lia|]. destruct (Z.eq_dec (Z.lxor a b) 0) as [->|]; [lia|].
  apply Z.log2_lt_cancel. rewrite Z.log2_pow2 by lia. pose proof (Z.log2_lxor a b ltac:(lia) ltac:(lia)).
  pose proof (Z.log2_le_mono a (2 ^ 32 - 1) ltac:(lia)). pose proof (Z.log2_le_mono b (2 ^ 32 - 1) ltac:(lia)).
  change (Z.log2 (2 ^ 32 - 1)) with 31 in *. lia.
Qed.
Lemma crc_bit_word x : word x -> word (crc_bit x).
Proof.
  intros Hx. assert (word (Z.shiftr x 1)) as Hs.
  { unfold word in *. rewrite Z.shiftr_div_pow2 by lia. change (2 ^ 1) with 2. Z.div_mod_to_equations; lia. }
  unfold crc_bit. destruct (Z.odd x); [apply lxor_word; [done|]|done]. unfold word. vm_compute. split; congruence.
Qed.
(** A register that is not zero does not become zero. *)
Lemma crc_bit_nonzero x : word x -> crc_bit x = 0 -> x = 0.
Proof.
  intros Hx. unfold crc_bit. destruct (Z.odd x) eqn:Eo.
  - intros E%Z.lxor_eq. exfalso. unfold word in Hx. rewrite Z.shiftr_div_pow2 in E by lia. change (2 ^ 1) with 2 in E.
    change 0xEDB88320 with 3988292384 in E. Z.div_mod_to_equations. lia.
  - intros E. rewrite Z.shiftr_div_pow2 in E by lia. change (2 ^ 1) with 2 in E. unfold word in Hx.
    rewrite <- Z.negb_even in Eo. apply negb_false_iff, Z.even_spec in Eo as [k ->]. Z.div_mod_to_equations. lia.
Qed.
Lemma crc_bits_word n x : word x -> word (crc_bits n x).
Proof. intros Hx. induction n as [|n IH]; [done|]. cbn. now apply crc_bit_word. Qed.
Lemma crc_bits_nonzero n x : word x -> crc_bits n x = 0 -> x = 0.
Proof.
  intros Hx. induction n as [|n IH]; [done|]. cbn. intros E%crc_bit_nonzero; [auto|now apply (crc_bits_word n)].
Qed.

Definition bytes (p : list Z) : Prop := Forall (fun b => 0 <= b < 256) p.
Lemma byte_word b : 0 <= b < 256 -> word b.
Proof. unfold word. lia. Qed.
Lemma crc_word p c : bytes p -> word c -> word (crc p c).
Proof.
  intros Hp. revert c. induction Hp as [|b p Hb _ IH]; intros c Hc; [done|]. cbn. apply IH. unfold crc_byte. apply crc_bits_word, lxor_word; [done|now apply byte_word].
Qed.

(** What two messages of the same length do to two registers differs by what
    their difference does to the difference of the registers. *)
Lemma crc_lxor p q c d : length p = length q -> Z.lxor (crc p c) (crc q d) = crc (zip_with Z.lxor p q) (Z.lxor c d).
Proof.
  revert q c d. induction p as [|a p IH]; intros [|b q] c d Hl; try done. cbn. rewrite IH by now injection Hl. f_equal.
  unfold crc_byte. rewrite <- crc_bits_lxor. f_equal. rewrite !Z.lxor_assoc. f_equal. rewrite <- !Z.lxor_assoc. f_equal. apply Z.lxor_comm.
Qed.
Lemma crc_app p q c : crc (p ++ q) c = crc q (crc p c).
Proof. apply fold_left_app. Qed.
Lemma crc_zeros n c : word c -> crc (replicate n 0) c = 0 -> c = 0.
Proof.
  revert c. induction n as [|n IH]; intros c Hc; [done|]. cbn. intros E. apply (crc_bits_nonzero 8); [done|].
  unfold crc_byte in *. rewrite Z.lxor_0_r in *. apply IH; [now apply crc_bits_word|done].
Qed.

(** Up to four bytes are in the register at once. *)
Fixpoint le (p : list Z) : Z := match p with [] => 0 | b :: p => Z.lxor b (Z.shiftl (le p) 8) end.
Lemma crc_le p c : crc p c = crc_bits (8 * length p) (Z.lxor c (le p)).
Proof.
  revert c. induction p as [|b p IH]; intros c; [cbn; now rewrite Z.lxor_0_r|]. cbn [crc fold_left length le].
  change (fold_left crc_byte p ?x) with (crc p x). rewrite IH. replace (8 * S (length p))%nat with (8 * length p + 8)%nat by lia.
  rewrite crc_bits_add. f_equal. rewrite <- Z.lxor_assoc, crc_bits_lxor. unfold crc_byte. f_equal. change 8 with (Z.of_nat 8). now rewrite crc_bits_shift.
Qed.
Lemma le_zero p : bytes p -> le p = 0 -> p = replicate (length p) 0.
Proof.
  induction 1 as [|b p Hb Hp IH]; [done|]. cbn [le length replicate]. intros E%Z.lxor_eq.
  assert (le p = 0 /\ b = 0) as [E1 ->]; [|now rewrite IH at 1].
  rewrite Z.shiftl_mul_pow2 in E by lia. change (2 ^ 8) with 256 in E. lia.
Qed.
Lemma le_bound p : bytes p -> 0 <= le p < 2 ^ (8 * Z.of_nat (length p)).
Proof.
  induction 1 as [|b p Hb Hp IH]; [vm_compute; split; congruence|]. cbn [le length].
  assert (Z.lxor b (Z.shiftl (le p) 8) = b + le p * 256) as ->.
  { rewrite <- Z.add_nocarry_lxor; [now rewrite Z.shiftl_mul_pow2 by lia|]. apply Z.bits_inj'; intros i Hi. rewrite Z.land_spec, Z.bits_0.
    destruct (decide (i < 8)); [rewrite Z.shiftl_spec_low by lia; apply andb_false_r|].
    rewrite (Z.bits_above_log2 b); [done|lia|]. pose proof (Z.log2_le_mono b 255 ltac:(lia)). change (Z.log2 255) with 7 in *. lia. }
  replace (8 * Z.of_nat (S (length p))) with (8 + 8 * Z.of_nat (length p)) by lia. rewrite Z.pow_add_r by lia. change (2 ^ 8) with 256. lia.
Qed.
Lemma le_word p : bytes p -> (length p <= 4)%nat -> word (le p).
Proof.
  intros Hp Hl. pose proof (le_bound p Hp) as [H0 H1]. split; [done|]. eapply Z.lt_le_trans; [exact H1|]. apply Z.pow_le_mono_r; lia.
Qed.

Lemma lxor_eq_bytes p q : length p = length q -> zip_with Z.lxor p q = replicate (length p) 0 -> p = q.
Proof.
  revert q. induction p as [|a p IH]; intros [|b q] Hl E; try done. cbn in E. injection E as Ea E. apply Z.lxor_eq in Ea as ->. f_equal.
  apply IH; [now injection Hl|done].
Qed.
Lemma lxor_bytes p q : bytes p -> bytes q -> bytes (zip_with Z.lxor p q).
Proof.
  intros Hp. revert q. induction Hp as [|a p Ha _ IH]; intros q Hq; [constructor|]. destruct Hq as [|b q Hb Hq]; [constructor|].
  cbn. constructor; [now apply lxor_byte|now apply IH].
Qed.

(** Four bytes that leave the same register behind them, and the same after any
    common continuation, are the same. *)
Lemma burst_zero p q post c : bytes p -> bytes q -> length p = length q -> (length p <= 4)%nat -> word c ->
  crc post (crc p c) = crc post (crc q c) -> p = q.
Proof.
  intros Hp Hq Hl H4 Hc E. apply lxor_eq_bytes; [done|]. pose proof (lxor_bytes p q Hp Hq) as Hz.
  assert (length (zip_with Z.lxor p q) = length p) as Hlz by (rewrite length_zip_with; lia).
  assert (crc (zip_with Z.lxor p q) 0 = 0) as E0.
  { assert (crc (zip_with Z.lxor p q) 0 = Z.lxor (crc p c) (crc q c)) as -> by (rewrite crc_lxor by done; now rewrite Z.lxor_nilpotent).
    apply (crc_zeros (length post)).
    - apply lxor_word; now apply crc_word.
    - assert (replicate (length post) 0 = zip_with Z.lxor post post) as ->.
      { clear. induction post as [|b post IH]; [done|]. cbn. now rewrite Z.lxor_nilpotent, IH. }
      rewrite <- crc_lxor by done. rewrite E. apply Z.lxor_nilpotent. }
  rewrite crc_le, Z.lxor_0_l in E0. apply crc_bits_nonzero in E0; [|apply le_word; [done|lia]].
  rewrite <- Hlz. now apply le_zero.
Qed.
End CrcFacts.

(** * Correctness of MD5 *)

Module Md5Facts.
Import Md5 Md5Spec.

Definition bytes (p : list Z) : Prop := Forall (fun b => 0 <= b < 256) p.

(** ** Words and bytes *)

Lemma lor_shift a b n : 0 <= n -> 0 <= a < 2 ^ n -> Z.lor a (Z.shiftl b n) = a + b * 2 ^ n.
Proof.
  intros Hn Ha. rewrite <- Z.shiftl_mul_pow2 by done. rewrite <- Z.lxor_lor, <- Z.add_nocarry_lxor; try done.
  all: apply Z.bits_inj'; intros i Hi; rewrite Z.land_spec, Z.bits_0;
    (destruct (decide (i < n)); [rewrite Z.shiftl_spec_low by done; apply andb_false_r|]);
    (destruct (Z.eq_dec a 0) as [->|]; [now rewrite Z.bits_0|]);
    rewrite (Z.bits_above_log2 a); [done|lia|]; apply Z.log2_lt_pow2; try lia; apply Z.lt_le_trans with (2 ^ n); [lia|]; apply Z.pow_le_mono_r; lia.
Qed.

Lemma decode_word b0 b1 b2 b3 : 0 <= b0 < 256 -> 0 <= b1 < 256 -> 0 <= b2 < 256 -> 0 <= b3 < 256 ->
  Z.lor (Z.lor (Z.lor b0 (Z.shiftl b1 8)) (Z.shiftl b2 16)) (Z.shiftl b3 24) = le_word [b0; b1; b2; b3].
Proof.
  intros. rewrite (lor_shift b0 b1 8) by lia. rewrite (lor_shift _ b2 16) by lia. rewrite (lor_shift _ b3 24) by lia. cbn [le_word]. lia.
Qed.

Lemma decode_ok n p : bytes p -> (4 * n <= length p)%nat ->
  MD5Decode n p = Ok ((fun i => le_word (take 4 (drop (4 * i) p))) <$> seq 0 n).
Proof.
  revert p. induction n as [|n IH]; intros p Hp Hl; [done|].
  destruct p as [|b0 [|b1 [|b2 [|b3 p]]]]; cbn [length] in Hl; try lia. cbn [MD5Decode].
  unfold bytes in *. rewrite !Forall_cons_iff in Hp. destruct Hp as (H0 & H1 & H2 & H3 & Hp).
  rewrite IH by (done || lia). cbn [mbind res_bind]. rewrite decode_word by done. cbn [seq fmap list_fmap]. f_equal. f_equal.
  rewrite <- fmap_S_seq, <- list_fmap_compose. apply list_fmap_ext. intros i x _. cbn [compose].
  now replace (4 * S x)%nat with (4 + 4 * x)%nat by lia.
Qed.

Lemma encode_word x : [Z.land x 0xFF; Z.land (Z.shiftr x 8) 0xFF; Z.land (Z.shiftr x 16) 0xFF; Z.land (Z.shiftr x 24) 0xFF] = le_bytes 4 x.
Proof.
  unfold le_bytes. cbn [seq fmap list_fmap]. change 0xFF with (Z.ones 8). rewrite !Z.land_ones, !Z.shiftr_div_pow2 by lia.
  change (8 * Z.of_nat 0) with 0. change (8 * Z.of_nat 1) with 8. change (8 * Z.of_nat 2) with 16. change (8 * Z.of_nat 3) with 24.
  change (2 ^ 0) with 1. now rewrite Z.div_1_r.
Qed.
Lemma encode_cons x l : MD5Encode (x :: l) = le_bytes 4 x ++ MD5Encode l.
Proof. rewrite <- encode_word. done. Qed.

Lemma le_bytes_two lo hi x : 0 <= lo < 2 ^ 32 -> 0 <= hi < 2 ^ 32 -> lo + 2 ^ 32 * hi = x mod 2 ^ 64 -> le_bytes 4 lo ++ le_bytes 4 hi = le_bytes 8 x.
Proof.
  intros Hl Hh E. assert (forall k, 0 <= k -> k + 8 <= 64 -> x / 2 ^ k mod 256 = (lo + 2 ^ 32 * hi) / 2 ^ k mod 256) as Hx.
  { intros k Hk Hk2. rewrite E. change 256 with (2 ^ 8). rewrite <- !Z.shiftr_div_pow2, <- !Z.land_ones by lia. apply Z.bits_inj'. intros i Hi.
    rewrite !Z.land_spec. destruct (decide (i < 8)); [|now rewrite Z.ones_spec_high, !andb_false_r by lia].
    rewrite Z.ones_spec_low, !andb_true_r, !Z.shiftr_spec by lia. now rewrite Z.land_spec, Z.ones_spec_low, andb_true_r by lia. }
  unfold le_bytes. cbn [seq fmap list_fmap app].
  repeat match goal with |- _ :: _ = _ :: _ => f_equal end;
    match goal with |- _ = x / 2 ^ ?e mod 256 => rewrite (Hx e) by lia end;
    cbn -[Z.div Z.modulo Z.mul Z.add]; Z.div_mod_to_equations; lia.
Qed.

(** ** One block *)

(** The variables in the order in which statement [i] names them. *)
Definition regs (i : nat) : reg * reg * reg * reg :=
  match (i mod 4)%nat with 0%nat => (Ra, Rb, Rc, Rd) | 1%nat => (Rd, Ra, Rb, Rc) | 2%nat => (Rc, Rd, Ra, Rb) | _ => (Rb, Rc, Rd, Ra) end.
Definition view (i : nat) (w : words) : words :=
  let '(a, b, c, d) := regs i in mk_words (get w a) (get w b) (get w c) (get w d).

Lemma body_ok i : (i < 64)%nat -> body !! i = Some (round i, regs i, index i, shifts i, default 0 (T !! i)) /\ (index i < 16)%nat.
Proof.
  intros Hi. refine (proj1 (Forall_seq (fun i => body !! i = Some (round i, regs i, index i, shifts i, default 0 (T !! i)) /\ (index i < 16)%nat) 0 64) _ i _); [|lia].
  refine (bool_decide_unpack (Forall _ _) _). vm_compute. exact Logic.I.
Qed.

Lemma regs_next i : exists a b c d, regs i = (a, b, c, d) /\ regs (S i) = (d, a, b, c) /\ a <> b /\ a <> c /\ a <> d.
Proof.
  unfold regs. pose proof (Nat.mod_upper_bound i 4 ltac:(lia)) as Hm.
  assert (S i mod 4 = (i mod 4 + 1) mod 4)%nat as -> by (rewrite Nat.Div0.add_mod_idemp_l; f_equal; lia).
  destruct (i mod 4)%nat as [|[|[|[|]]]]; cbn; try lia; do 4 eexists; split_and!; try reflexivity; discriminate.
Qed.
Lemma get_set_eq r v w : get (set r v w) r = v.
Proof. now destruct r. Qed.
Lemma get_set_ne r s v w : r <> s -> get (set r v w) s = get w s.
Proof. now destruct r, s. Qed.

Lemma exec_step x w st : length x = 16%nat -> (exists i, (i < 64)%nat /\ body !! i = Some st) -> exists w', exec x w st = Ok w'.
Proof.
  intros Hx (i & Hi & E). destruct (body_ok i Hi) as [E' Hidx]. pose proof (eq_trans (eq_sym E) E') as Es. injection Es as ->.
  destruct (regs_next i) as (a & b & c & d & -> & _). cbn [exec]. destruct (lookup_lt_is_Some_2 x (index i)) as [v ->]; [lia|]. cbn. eauto.
Qed.

Lemma exec_operation x w i st : length x = 16%nat -> (i < 64)%nat -> body !! i = Some st ->
  exists w', exec x w st = Ok w' /\ view (S i) w' = operation x i (view i w).
Proof.
  intros Hx Hi E. destruct (body_ok i Hi) as [E' Hidx]. pose proof (eq_trans (eq_sym E) E') as Es. injection Es as ->.
  unfold view. destruct (regs_next i) as (a & b & c & d & -> & -> & Hab & Hac & Had). cbn [exec].
  unfold operation. destruct (lookup_lt_is_Some_2 x (index i)) as [v ->]; [lia|]. cbn [from_option_res mbind res_bind default].
  eexists. split; [done|]. now rewrite get_set_eq, !get_set_ne by congruence.
Qed.

Lemma exec_prefix x w n : length x = 16%nat -> (n <= 64)%nat ->
  exists w', exec_all x (take n body) w = Ok w' /\ view n w' = operations x n (view 0 w).
Proof.
  intros Hx. induction n as [|n IH]; intros Hn; [exists w; done|]. destruct IH as (w1 & E1 & V1); [lia|].
  destruct (lookup_lt_is_Some_2 body n) as [st Est]; [change (length body) with 64%nat; lia|].
  rewrite (take_S_r _ _ _ Est). unfold exec_all in *. rewrite foldM_app, E1. cbn [mbind res_bind foldM].
  destruct (exec_operation x w1 n st Hx) as (w2 & E2 & V2); [lia|done|]. rewrite E2. cbn [mbind res_bind]. exists w2. split; [done|].
  cbn [operations]. now rewrite V2, V1.
Qed.

Lemma view_0 i w : (i mod 4 = 0)%nat -> view i w = w.
Proof. intros E. unfold view, regs. rewrite E. now destruct w. Qed.

Lemma exec_body x w : length x = 16%nat -> exec_all x body w = Ok (operations x 64 w).
Proof.
  intros Hx. destruct (exec_prefix x w (length body) Hx) as (w' & E & V); [apply Nat.eq_le_incl; reflexivity|].
  rewrite firstn_all in E. rewrite E, <- (view_0 (length body) w'), V, view_0 by reflexivity. reflexivity.
Qed.

Lemma length_block_words b : length (block_words b) = 16%nat.
Proof. unfold block_words. now rewrite length_fmap, length_seq. Qed.

Lemma transform_bind w b x v : MD5Decode 16 b = Ok x -> exec_all x body w = Ok v ->
  MD5Transform w b = Ok (mk_words (u32 (wa w + wa v)) (u32 (wb w + wb v)) (u32 (wc w + wc v)) (u32 (wd w + wd v))).
Proof. intros E1 E2. unfold MD5Transform. rewrite E1. cbn [mbind res_bind]. rewrite E2. reflexivity. Qed.

Lemma transform_ok w b : bytes b -> length b = 64%nat -> MD5Transform w b = Ok (compress w b).
Proof.
  intros Hb Hl. apply (transform_bind w b (block_words b)); [apply decode_ok; [done|lia]|]. apply exec_body, length_block_words.
Qed.

(** ** Blocks of a message *)

Definition init : words := mk_words 0x67452301 0xEFCDAB89 0x98BADCFE 0x10325476.

Lemma hash_add n k m w : hash (n + k) m w = hash k (drop (64 * n) m) (hash n m w).
Proof.
  revert m w. induction n as [|n IH]; intros m w; [done|]. cbn [hash Nat.add]. rewrite IH, drop_drop. do 2 f_equal. lia.
Qed.
Lemma hash_app n m t w : (64 * n <= length m)%nat -> hash n (m ++ t) w = hash n m w.
Proof.
  revert m w. induction n as [|n IH]; intros m w Hn; [done|]. cbn [hash].
  rewrite drop_app_le, take_app_le by lia. apply IH. rewrite length_drop. lia.
Qed.

Lemma bytes_take n p : bytes p -> bytes (take n p).
Proof. apply Forall_take. Qed.
Lemma bytes_drop n p : bytes p -> bytes (drop n p).
Proof. apply Forall_drop. Qed.
Lemma bytes_app p q : bytes p -> bytes q -> bytes (p ++ q).
Proof. intros. now apply Forall_app. Qed.

Lemma slice_within p i n : 0 <= i -> i + Z.of_nat n <= Z.of_nat (length p) -> slice p i n = Ok (take n (drop (Z.to_nat i) p)).
Proof. intros H0 H1. unfold slice. now replace ((0 <=? i) && (i + Z.of_nat n <=? Z.of_nat (length p))) with true by (symmetry; rewrite andb_true_iff, !Z.leb_le; lia). Qed.
Lemma copy_at_ok d i s : (i + length s <= length d)%nat -> copy_at d (Z.of_nat i) s = Ok (take i d ++ s ++ drop (i + length s) d).
Proof. intros Hl. unfold copy_at. rewrite (proj2 (Z.leb_le _ _)) by lia. now rewrite Nat2Z.id. Qed.

(** The loop transforms the whole blocks that follow [i]. *)
Lemma loop_ok fuel input i st : bytes input -> (i <= length input)%nat -> Z.of_nat (length input) + 64 < 2 ^ 32 ->
  ((length input - i) / 64 < fuel)%nat ->
  transform_loop fuel input (Z.of_nat i) (Z.of_nat (length input)) st =
    Ok (Z.of_nat (i + 64 * ((length input - i) / 64)), hash ((length input - i) / 64) (drop i input) st).
Proof.
  intros Hb. revert i st. induction fuel as [|fuel IH]; intros i st Hi Hlen Hf; [lia|]. cbn [transform_loop].
  rewrite wrapU_small by lia. destruct (Z.leb_spec (Z.of_nat i + 64) (Z.of_nat (length input))) as [Hle|Hgt].
  - rewrite slice_within by lia. cbn [mbind res_bind]. rewrite Nat2Z.id.
    rewrite transform_ok by (rewrite ?length_take, ?length_drop; auto using bytes_take, bytes_drop; lia). cbn [mbind res_bind].
    assert ((length input - i) / 64 = S ((length input - (i + 64)) / 64))%nat as Eq.
    { replace (length input - i)%nat with (length input - (i + 64) + 1 * 64)%nat by lia. rewrite Nat.div_add by lia. lia. }
    replace (Z.of_nat i + 64) with (Z.of_nat (i + 64)) by lia. rewrite IH by lia. rewrite Eq. cbn [hash].
    rewrite drop_drop. do 2 f_equal. lia.
  - rewrite Nat.div_small by lia. cbn [hash]. now replace (i + 64 * 0)%nat with i by lia.
Qed.

(** ** The context *)

(** The context after the bytes [m]. *)
Record rep (m : list Z) (ctx : MD5_CTX) : Prop := {
  rep_c0 : 0 <= count0 ctx < 2 ^ 32;
  rep_c1 : 0 <= count1 ctx < 2 ^ 32;
  rep_count : count0 ctx + 2 ^ 32 * count1 ctx = (8 * Z.of_nat (length m)) mod 2 ^ 64;
  rep_state : state ctx = hash (length m / 64) m init;
  rep_length : length (buffer ctx) = 64%nat;
  rep_buffer : take (length m mod 64) (buffer ctx) = drop (64 * (length m / 64)) m
}.

Lemma init_rep junk : length junk = 64%nat -> rep [] (MD5Init junk).
Proof. intros Hj. split; try (cbn; lia); done. Qed.

Lemma index_ok m ctx : rep m ctx -> Z.land (Z.shiftr (count0 ctx) 3) 0x3F = Z.of_nat (length m mod 64).
Proof.
  intros R. change 0x3F with (Z.ones 6). rewrite Z.land_ones, Z.shiftr_div_pow2 by lia. change (2 ^ 3) with 8. change (2 ^ 6) with 64.
  pose proof (rep_c0 _ _ R). pose proof (rep_count _ _ R) as E. change (2 ^ 64) with 18446744073709551616 in E. change (2 ^ 32) with 4294967296 in *.
  rewrite Nat2Z.inj_mod. change (Z.of_nat 64) with 64. Z.div_mod_to_equations. lia.
Qed.

(** The bit count is a 64-bit number in two words. *)
Lemma count_ok c0 c1 n k : 0 <= c0 < 2 ^ 32 -> 0 <= c1 < 2 ^ 32 -> 0 <= k < 2 ^ 32 -> c0 + 2 ^ 32 * c1 = (8 * n) mod 2 ^ 64 ->
  let bits := u32 (Z.shiftl k 3) in
  let c0' := u32 (c0 + bits) in
  let c1' := u32 ((if c0' <? bits then u32 (c1 + 1) else c1) + Z.shiftr k 29) in
  c0' + 2 ^ 32 * c1' = (8 * (n + k)) mod 2 ^ 64.
Proof.
  intros H0 H1 Hk E. cbv zeta. rewrite Z.shiftl_mul_pow2, Z.shiftr_div_pow2 by lia. change (2 ^ 3) with 8. change (2 ^ 29) with 536870912. unfold wrapU.
  change (2 ^ 64) with 18446744073709551616 in *. change (2 ^ 32) with 4294967296 in *.
  destruct (Z.ltb_spec ((c0 + (k * 8) mod 4294967296) mod 4294967296) ((k * 8) mod 4294967296)); Z.div_mod_to_equations; lia.
Qed.

Lemma rep_block m ctx t : rep m ctx -> length t = (64 - length m mod 64)%nat ->
  take (length m mod 64) (buffer ctx) ++ t = take 64 (drop (64 * (length m / 64)) (m ++ t)) /\
  compress (state ctx) (take (length m mod 64) (buffer ctx) ++ t) = hash (S (length m / 64)) (m ++ t) init.
Proof.
  intros R Ht. pose proof (Nat.div_mod_eq (length m) 64) as Ed. pose proof (Nat.mod_upper_bound (length m) 64 ltac:(lia)).
  assert (take (length m mod 64) (buffer ctx) ++ t = take 64 (drop (64 * (length m / 64)) (m ++ t))) as Eb.
  { rewrite (rep_buffer _ _ R), drop_app_le by lia. rewrite take_ge; [done|]. rewrite length_app, length_drop. lia. }
  split; [done|]. rewrite Eb, (rep_state _ _ R). replace (S (length m / 64)) with (length m / 64 + 1)%nat by lia.
  rewrite hash_add. cbn [hash]. now rewrite hash_app by lia.
Qed.

(** The blocks of the input after those that complete the buffer. *)
Lemma hash_rest m t r : (length t = 64 - length m mod 64)%nat ->
  hash (length r / 64) r (hash (S (length m / 64)) (m ++ t) init) = hash (length (m ++ t ++ r) / 64) (m ++ t ++ r) init /\
  drop (64 * (length (m ++ t ++ r) / 64)) (m ++ t ++ r) = drop (64 * (length r / 64)) r /\
  (length (m ++ t ++ r) mod 64 = length r mod 64)%nat.
Proof.
  intros Ht. pose proof (Nat.div_mod_eq (length m) 64) as Ed. pose proof (Nat.mod_upper_bound (length m) 64 ltac:(lia)).
  assert (length (m ++ t) = 64 * S (length m / 64))%nat as El by (rewrite length_app; lia).
  rewrite app_assoc. assert (length ((m ++ t) ++ r) / 64 = S (length m / 64) + length r / 64)%nat as Eq.
  { rewrite length_app, El. rewrite Nat.add_comm, Nat.mul_comm, Nat.div_add by lia. lia. }
  assert (length ((m ++ t) ++ r) mod 64 = length r mod 64)%nat as Em.
  { rewrite length_app, El. rewrite Nat.add_comm, Nat.mul_comm, Nat.Div0.mod_add. done. }
  split_and!; [| |done].
  - rewrite Eq, hash_add, (hash_app (S _) (m ++ t) r) by lia. f_equal. rewrite <- El. now rewrite drop_app_length.
  - rewrite Eq. replace (64 * (S (length m / 64) + length r / 64))%nat with (length (m ++ t) + 64 * (length r / 64))%nat by lia.
    rewrite <- drop_drop, drop_app_length. done.
Qed.

Lemma take_copied (r : nat) (s b : list Z) : (r + length s <= length b)%nat ->
  take (r + length s) (take r b ++ s ++ drop (r + length s) b) = take r b ++ s.
Proof.
  intros Hl. rewrite app_assoc. rewrite take_app_le by (rewrite length_app, length_take; lia).
  apply take_ge. rewrite length_app, length_take. lia.
Qed.
Lemma length_copied (r : nat) (s b : list Z) : (r + length s <= length b)%nat -> length (take r b ++ s ++ drop (r + length s) b) = length b.
Proof. intros Hl. rewrite !length_app, length_take, length_drop. lia. Qed.

(** One call appends its input to the message. *)
Lemma update_ok m ctx input : rep m ctx -> bytes m -> bytes input -> Z.of_nat (length input) + 64 < 2 ^ 32 ->
  exists ctx', MD5Update ctx input = Ok ctx' /\ rep (m ++ input) ctx'.
Proof.
  intros R Hm Hi Hlen. unfold MD5Update. rewrite (index_ok m ctx R). rewrite (wrapU_small 32 (Z.of_nat (length input))) by lia.
  pose proof (Nat.mod_upper_bound (length m) 64 ltac:(lia)) as Hr. pose proof (rep_length _ _ R) as Hbuf.
  pose proof (count_ok _ _ (Z.of_nat (length m)) (Z.of_nat (length input)) (rep_c0 _ _ R) (rep_c1 _ _ R) ltac:(lia) (rep_count _ _ R)) as Hc.
  cbv zeta in Hc |- *. rewrite <- Nat2Z.inj_add, <- length_app in Hc.
  set (c0 := u32 (count0 ctx + _)) in *. set (c1 := u32 ((if c0 <? _ then _ else _) + _)) in *.
  assert (0 <= c0 < 2 ^ 32) by (apply wrapU_bound; lia). assert (0 <= c1 < 2 ^ 32) by (apply wrapU_bound; lia).
  clearbody c0 c1. replace (64 - Z.of_nat (length m mod 64)) with (Z.of_nat (64 - length m mod 64)) by lia. rewrite Nat2Z.id.
  destruct (Z.leb_spec (Z.of_nat (64 - length m mod 64)) (Z.of_nat (length input))) as [Hle|Hgt].
  - assert (input = take (64 - length m mod 64) input ++ drop (64 - length m mod 64) input) as Es by now rewrite take_drop.
    assert (length (take (64 - length m mod 64) input) = 64 - length m mod 64)%nat as Hlt by (rewrite length_take; lia).
    rewrite slice_within by lia. cbn [Z.to_nat mbind res_bind]. rewrite drop_0.
    rewrite copy_at_ok by lia. cbn [mbind res_bind]. rewrite Hlt, (drop_ge (buffer ctx)) by lia. rewrite app_nil_r.
    destruct (rep_block m ctx _ R Hlt) as [Eb Ec].
    rewrite transform_ok, Ec; [|rewrite Eb; auto using bytes_take, bytes_drop, bytes_app|rewrite length_app, length_take; lia].
    cbn [mbind res_bind]. assert ((length input - (64 - length m mod 64)) / 64 < S (length input / 64))%nat as Hf.
    { apply Nat.lt_succ_r, Nat.Div0.div_le_mono. lia. }
    rewrite loop_ok by (done || lia). clear Hf. cbn [mbind res_bind fst snd].
    destruct (hash_rest m _ (drop (64 - length m mod 64) input) Hlt) as (E1 & E2 & E3). rewrite <- Es in E1, E2, E3.
    rewrite length_drop in E1, E2, E3. set (r := (64 - length m mod 64)%nat) in *. set (k := ((length input - r) / 64)%nat) in *.
    pose proof (Nat.div_mod_eq (length input - r) 64) as Ek. fold k in Ek. pose proof (Nat.mod_upper_bound (length input - r) 64 ltac:(lia)).
    rewrite wrapU_small by lia. replace (Z.to_nat (Z.of_nat (length input) - Z.of_nat (r + 64 * k))) with ((length input - r) mod 64)%nat by lia.
    rewrite slice_within by lia. cbn [mbind res_bind]. rewrite Nat2Z.id.
    replace (drop (r + 64 * k) input) with (drop (64 * (length (m ++ input) / 64)) (m ++ input)) by (rewrite E2, drop_drop; done).
    set (rest := drop _ (m ++ input)) in *. assert (length rest = (length input - r) mod 64)%nat as Hrest by (rewrite E2, !length_drop; lia).
    rewrite (take_ge rest) by lia. change 0 with (Z.of_nat 0) at 1. rewrite copy_at_ok by (rewrite length_app, length_take, Hlt; lia).
    eexists. split; [reflexivity|]. split; cbn [count0 count1 state buffer]; try done.
    + rewrite length_copied; rewrite length_app, length_take, Hlt; lia.
    + rewrite E3, <- Hrest. apply (take_copied 0 rest). rewrite length_app, length_take, Hlt. lia.
  - cbn [mbind res_bind]. rewrite Z.sub_0_r, wrapU_small, Nat2Z.id by lia. rewrite slice_within by lia. cbn [mbind res_bind Z.to_nat].
    rewrite drop_0, firstn_all. rewrite copy_at_ok by lia. cbn [mbind res_bind]. eexists. split; [reflexivity|].
    assert (length (m ++ input) / 64 = length m / 64 /\ length (m ++ input) mod 64 = length m mod 64 + length input)%nat as [Eq Em].
    { pose proof (Nat.div_mod_eq (length m) 64) as Ed. rewrite length_app.
      assert (length m + length input = (length m mod 64 + length input) + (length m / 64) * 64)%nat as -> by lia.
      rewrite Nat.div_add, Nat.Div0.mod_add by lia. rewrite Nat.div_small, Nat.mod_small by lia. lia. }
    split; cbn [count0 count1 state buffer]; try done.
    + rewrite Eq, (rep_state _ _ R), hash_app; [done|]. pose proof (Nat.div_mod_eq (length m) 64). lia.
    + rewrite length_copied by lia. done.
    + rewrite Em, Eq, take_copied by lia. rewrite (rep_buffer _ _ R). rewrite drop_app_le; [done|]. pose proof (Nat.div_mod_eq (length m) 64). lia.
Qed.

(** ** The digest *)

Lemma le_bytes_bytes n x : bytes (le_bytes n x).
Proof. unfold bytes, le_bytes. apply Forall_fmap, Forall_forall. intros i _. cbn. apply Z.mod_pos_bound. lia. Qed.
Lemma length_le_bytes n x : length (le_bytes n x) = n.
Proof. unfold le_bytes. now rewrite length_fmap, length_seq. Qed.
Lemma padding_bytes n : bytes (take n PADDING).
Proof. apply bytes_take. refine (bool_decide_unpack (Forall _ _) _). vm_compute. exact Logic.I. Qed.

Lemma padding_ok m : let index := Z.of_nat (length m mod 64) in let padlen := if index <? 56 then 56 - index else 120 - index in
  (m ++ take (Z.to_nat padlen) PADDING) ++ le_bytes 8 (8 * Z.of_nat (length m)) = padded m.
Proof.
  cbv zeta. unfold padded, PADDING. rewrite <- app_assoc. f_equal. rewrite app_assoc. f_equal.
  pose proof (Nat.mod_upper_bound (length m) 64 ltac:(lia)).
  set (n := (if _ <? _ then _ else _)). replace (Z.to_nat n) with (S (Z.to_nat ((55 - Z.of_nat (length m)) mod 64))).
  { cbn [take app]. f_equal. rewrite take_replicate. f_equal. Z.div_mod_to_equations. lia. }
  subst n. destruct (Z.ltb_spec (Z.of_nat (length m mod 64)) 56); rewrite Nat2Z.inj_mod in *; change (Z.of_nat 64) with 64 in *; Z.div_mod_to_equations; lia.
Qed.

Lemma padded_blocks m : length (padded m) = (64 * (length (padded m) / 64))%nat.
Proof.
  apply Nat.Div0.div_exact. unfold padded. rewrite !length_app, length_replicate, length_le_bytes. cbn [length]. apply Nat2Z.inj.
  rewrite Nat2Z.inj_mod. cbn [Z.of_nat]. rewrite !Nat2Z.inj_add. rewrite Z2Nat.id by (apply Z.mod_pos_bound; lia).
  change (Z.of_nat 64) with 64. change (Z.of_nat 1) with 1. change (Z.of_nat 8) with 8. Z.div_mod_to_equations. lia.
Qed.

Lemma encode_two a b : MD5Encode [a; b] = le_bytes 4 a ++ le_bytes 4 b.
Proof. now rewrite !encode_cons, app_nil_r. Qed.
Lemma encode_four a b c d : MD5Encode [a; b; c; d] = le_bytes 4 a ++ le_bytes 4 b ++ le_bytes 4 c ++ le_bytes 4 d.
Proof. now rewrite !encode_cons, app_nil_r. Qed.

Lemma final_ok m ctx : rep m ctx -> bytes m -> MD5Final ctx = Ok (md5 m).
Proof.
  intros R Hm. unfold MD5Final. rewrite (index_ok m ctx R). cbv zeta. set (pad := take _ PADDING).
  assert (Z.of_nat (length pad) <= 64) as Hpad by (subst pad; rewrite length_take; change (length PADDING) with 64%nat; lia).
  rewrite encode_two.
  rewrite (le_bytes_two _ _ (8 * Z.of_nat (length m))) by (try apply R).
  destruct (update_ok m ctx pad R Hm (padding_bytes _) ltac:(lia)) as (ctx1 & -> & R1). cbn [mbind res_bind].
  destruct (update_ok _ ctx1 (le_bytes 8 (8 * Z.of_nat (length m))) R1) as (ctx2 & -> & R2);
    [apply bytes_app; [done|apply padding_bytes]|apply le_bytes_bytes|rewrite length_le_bytes; lia|]. cbn [mbind res_bind].
  rewrite encode_four. subst pad. rewrite (padding_ok m) in R2.
  rewrite (rep_state _ _ R2). done.
Qed.

Lemma updates_ok chunks m ctx : rep m ctx -> bytes m -> Forall (fun c => bytes c /\ Z.of_nat (length c) + 64 < 2 ^ 32) chunks ->
  exists ctx', foldM (fun c ctx => MD5Update ctx c) chunks ctx = Ok ctx' /\ rep (m ++ concat chunks) ctx'.
Proof.
  intros R Hm Hc. revert m ctx R Hm. induction Hc as [|c chunks [Hb Hl] _ IH]; intros m ctx R Hm.
  - exists ctx. cbn. now rewrite app_nil_r.
  - cbn [foldM concat]. destruct (update_ok m ctx c R Hm Hb Hl) as (ctx1 & E1 & R1). rewrite E1. cbn [mbind res_bind].
    destruct (IH (m ++ c) ctx1 R1) as (ctx2 & E2 & R2); [now apply bytes_app|]. exists ctx2. now rewrite app_assoc.
Qed.

End Md5Facts.

(** * Properties *)

Module Props.
Import Crc CrcSpec Md5 Md5Spec.

Definition is_bytes (p : list Z) : Prop := Forall (fun b => 0 <= b < 256) p.
(** An unsigned int holds the length with room for one more block. *)
Definition chunk_ok (c : list Z) : Prop := is_bytes c /\ Z.of_nat (length c) + 64 < 2 ^ 32.
#[export] Instance is_bytes_dec p : Decision (is_bytes p).
Proof. unfold is_bytes. apply _. Defined.
#[export] Instance chunk_ok_dec c : Decision (chunk_ok c).
Proof. unfold chunk_ok. apply _. Defined.



(** Two files that differ only inside four consecutive bytes have different
    checksums, and the table never is read outside its 256 entries: the loader's
    checksum finds every such damage. *)
Theorem crc_detects_burst pre mid mid' post crc0 :
  is_bytes (pre ++ mid ++ post) -> is_bytes mid' -> length mid = length mid' -> (length mid <= 4)%nat -> 0 <= crc0 < 2 ^ 32 -> mid <> mid' ->
  exists c c', aic_crc32 (pre ++ mid ++ post) crc0 = Ok c /\ aic_crc32 (pre ++ mid' ++ post) crc0 = Ok c' /\
    c = crc (pre ++ mid ++ post) crc0 /\ c <> c'.
Proof.
  intros Hb Hm' Hl H4 H0 Hne. unfold is_bytes in *. rewrite !Forall_app in Hb. destruct Hb as (Hpre & Hm & Hpost).
  do 2 eexists. split_and!; [apply CrcFacts.aic_crc32_ok; now rewrite !Forall_app|apply CrcFacts.aic_crc32_ok; now rewrite !Forall_app|done|].
  rewrite !CrcFacts.crc_app. intros E. apply Hne. apply (CrcFacts.burst_zero mid mid' post (crc pre crc0)); try done. now apply CrcFacts.crc_word.
Qed.

Lemma crc_detects_burst_witness :
  exists c c', aic_crc32 ([1] ++ [2; 3] ++ [4]) 0xffffffff = Ok c /\ aic_crc32 ([1] ++ [2; 7] ++ [4]) 0xffffffff = Ok c' /\
    c = crc ([1] ++ [2; 3] ++ [4]) 0xffffffff /\ c <> c'.
Proof.
  apply (crc_detects_burst [1] [2; 3] [2; 7] [4] 0xffffffff); try (unfold is_bytes; repeat constructor; lia); try (cbn; lia); congruence.
Defined.

End Props.
