(* ===== verification/LoaderCmd.v ===== *)
(** The commands of the firmware loader: [aicbluetooth_cmds.c] of
    [aic_load_fw], with the part of [aicwf_usb.h] they use.

    The loader runs in one thread, the probe of the USB device: it sends one
    request after the other and sleeps until each is confirmed.  [Fw] has the
    state of the driver, the error-and-state monad the loader's code is written
    in, the command manager and the requests to the boot ROM of the chip.  What
    the outside does to a request (allocations, the bus, the messages that come
    in while the thread sleeps, a fatal signal) is a [turn]; the list of turns is
    part of the state, and every theorem holds for every list. *)
From Stdlib Require Import ZArith Lia String.
From stdpp Require Import base list numbers option gmap strings.
From S2P Require Import Prelude CmdMgr Regulatory ConfigTables UserConfig Digest.

#[local] Open Scope Z_scope.
#[local] Open Scope aic_scope.

Module Cfg.
Import ConfigTables.Conf.
Definition info : Type := Uc.info.
End Cfg.

Module Fw.
Import Mgr.

(** ** Data *)

Inductive rwnx_cmd_mgr_state := RWNX_CMD_MGR_STATE_DEINIT | RWNX_CMD_MGR_STATE_INITED | RWNX_CMD_MGR_STATE_CRASHED.
#[export] Instance rwnx_cmd_mgr_state_eq_dec : EqDecision rwnx_cmd_mgr_state.
Proof. solve_decision. Defined.

(** [enum AICWF_IC]. *)
Inductive AICWF_IC :=
| PRODUCT_ID_AIC8800 | PRODUCT_ID_AIC8801 | PRODUCT_ID_AIC8800DC | PRODUCT_ID_AIC8800DW | PRODUCT_ID_AIC8800D80
| PRODUCT_ID_AIC8800D81 | PRODUCT_ID_AIC8800D80X2 | PRODUCT_ID_AIC8800D81X2 | PRODUCT_ID_AIC8800D89X2 | PRODUCT_ID_AIC8800D40X2.
#[export] Instance AICWF_IC_eq_dec : EqDecision AICWF_IC.
Proof. solve_decision. Defined.

(** A structure on the caller's stack: a byte is [None] until it is written. *)
Definition stack_bytes : Type := list (option Z).

(** [e2a_msg] is the contents of the structure it points to. *)
Record rwnx_cmd := mk_cmd {
  cmd_id : Z; cmd_reqid : Z; cmd_tkn : Z; cmd_flags : Z; cmd_done : bool (* the completion *); cmd_result : Z;
  cmd_e2a_msg : option stack_bytes
}.
#[export] Instance rwnx_cmd_eta : RecordEta rwnx_cmd := fun c =>
  mk_cmd (cmd_id c) (cmd_reqid c) (cmd_tkn c) (cmd_flags c) (cmd_done c) (cmd_result c) (cmd_e2a_msg c).

Record ipc_e2a_msg := mk_e2a { e2a_id : Z; e2a_param_len : Z; e2a_param : list Z }.

(** What happens to one request. *)
Record turn := mk_turn {
  msg_alloc : bool;              (* rwnx_msg_zalloc finds memory *)
  cmd_alloc : bool;              (* kzalloc of the rwnx_cmd *)
  bus_down : bool;               (* bus_if->state == BUS_DOWN_ST *)
  arrive : list ipc_e2a_msg;     (* messages received before the wait ends *)
  killed : bool;                 (* a fatal signal, instead of the timeout *)
  late : list ipc_e2a_msg        (* messages between the timeout and the lock *)
}.
(** Nothing comes back. *)
Definition silent : turn := mk_turn true true false [] false [].

(** What a request comes to: handed to the bus, then confirmed, timed out or
    interrupted; or refused by the command manager, dropped because the bus is
    down, or without memory for the message. *)
Inductive event := Sent (frame : list Z) | Confirmed | TimedOut | Killed | Refused | Dropped | NoMemory.
#[export] Instance event_eq_dec : EqDecision event.
Proof. solve_decision. Defined.

(** [struct aic_usb_dev] with its command manager, the variables of the module
    and what the outside has seen and will do. *)
Record dev := mk_dev {
  mgr_state : rwnx_cmd_mgr_state;
  cmds : list nat;               (* the list, as pointers *)
  heap : gmap nat rwnx_cmd;
  next_ptr : nat;
  next_tkn : Z; queue_sz : Z; max_queue_sz : Z;
  chipid : AICWF_IC; fw_version_uint : Z;
  chip_id : Z; chip_sub_id : Z; chip_mcu_id : Z;
  userconfig : Cfg.info;
  flash_write_size : Z; flash_write_bin_crc : Z;
  turns : list turn;
  trace : list event;
  md5s : list (list Z)           (* the digests printed *)
}.
#[export] Instance dev_eta : RecordEta dev := fun d =>
  mk_dev (mgr_state d) (cmds d) (heap d) (next_ptr d) (next_tkn d) (queue_sz d) (max_queue_sz d) (chipid d) (fw_version_uint d)
    (chip_id d) (chip_sub_id d) (chip_mcu_id d) (userconfig d) (flash_write_size d) (flash_write_bin_crc d) (turns d) (trace d) (md5s d).

(** ** The monad: the state survives a fault. *)

Definition M (A : Type) : Type := dev -> res A * dev.
#[export] Instance M_ret : MRet M := fun A a d => (Ok a, d).
#[export] Instance M_bind : MBind M := fun A B f m d =>
  match m d with (Ok a, d') => f a d' | (Fault e, d') => (Fault e, d') end.
Definition gets {A} (f : dev -> A) : M A := fun d => (Ok (f d), d).
Definition modify (f : dev -> dev) : M unit := fun d => (Ok tt, f d).
Definition lift {A} (r : res A) : M A := fun d => (r, d).
Definition crash {A} (e : fault) : M A := fun d => (Fault e, d).
Definition emit (e : event) : M unit := modify (fun d => d <| trace ::= fun l => l ++ [e] |>).

(** [if (ret = m) return ret; k], and [if (m) return c; k]. *)
Definition orelse (m k : M Z) : M Z := r ← m; if r =? 0 then k else mret r.
Definition orfail (c : Z) (m k : M Z) : M Z := r ← m; if r =? 0 then k else mret c.

(** ** Memory of the commands *)

Definition deref (p : nat) : M rwnx_cmd := c ← gets (fun d => heap d !! p); lift (from_option_res UseAfterFree c).
Definition put (p : nat) (c : rwnx_cmd) : M unit := modify (fun d => d <| heap ::= <[p := c]> |>).
Definition kfree (p : nat) : M unit := modify (fun d => d <| heap ::= delete p |>).
Definition kzalloc (c : rwnx_cmd) : M nat :=
  p ← gets next_ptr; _ ← modify (fun d => d <| next_ptr ::= S |> <| heap ::= <[p := c]> |>); mret p.

(** ** The command manager *)

Definition RWNX_CMD_MAX_QUEUED : Z := 8.
Definition RWNX_CMD_E2AMSG_LEN_MAX : Z := 1024.
Definition ERESTARTSYS : Z := 512.

Definition rwnx_cmd_mgr_init : M unit :=
  modify (fun d => d <| max_queue_sz := RWNX_CMD_MAX_QUEUED |> <| cmds := [] |> <| mgr_state := RWNX_CMD_MGR_STATE_INITED |>).

Definition cmd_complete (p : nat) : M unit :=
  _ ← modify (fun d => d <| cmds ::= filter (fun q => q <> p) |> <| queue_sz ::= fun n => u32 (n - 1) |>);
  c ← deref p;
  let flags := setf (cmd_flags c) RWNX_CMD_FLAG_DONE in
  if has flags RWNX_CMD_FLAG_NONBLOCK then kfree p
  else if RWNX_CMD_WAIT_COMPLETE flags then put p (c <| cmd_flags := flags |> <| cmd_result := 0 |> <| cmd_done := true |>)
  else put p (c <| cmd_flags := flags |>).

(** [memcpy] into a structure on the stack. *)
Definition stack_copy (dst : stack_bytes) (src : list Z) : res stack_bytes :=
  if (length src <=? length dst)%nat then Ok (map Some src ++ drop (length src) dst) else Fault OutOfBounds.

Definition store_cfm (m : ipc_e2a_msg) (len : Z) (c : rwnx_cmd) : M rwnx_cmd :=
  match cmd_e2a_msg c with
  | Some b =>
      if len =? 0 then mret c
      else data ← lift (slice (e2a_param m) 0 (Z.to_nat len)); b ← lift (stack_copy b data); mret (c <| cmd_e2a_msg := Some b |>)
  | None => mret c
  end.

(** The loop of [cmd_mgr_msgind]; the handlers [dbg_hdlrs] are all null, so a
    callback is never run and every match is found. *)
Fixpoint msg_scan (l : list nat) (m : ipc_e2a_msg) : M unit :=
  match l with
  | [] => mret tt
  | p :: l =>
      c ← deref p;
      if (cmd_reqid c =? e2a_id m) && has (cmd_flags c) RWNX_CMD_FLAG_WAIT_CFM then
        let c := c <| cmd_flags ::= fun f => clrf f RWNX_CMD_FLAG_WAIT_CFM |> in
        let len := if RWNX_CMD_E2AMSG_LEN_MAX <? e2a_param_len m then RWNX_CMD_E2AMSG_LEN_MAX else e2a_param_len m in
        c ← store_cfm m len c; _ ← put p c;
        if RWNX_CMD_WAIT_COMPLETE (cmd_flags c) then cmd_complete p else mret tt
      else msg_scan l m
  end.
Definition cmd_mgr_msgind (m : ipc_e2a_msg) : M unit := l ← gets cmds; msg_scan l m.

(** [msg_hdlrs[MSG_T(id)][MSG_I(id)]]: two tables, the first pointer null, the
    second with the [DBG_MAX] entries of the debug task. *)
Definition msg_hdlr (id : Z) : res unit :=
  if Z.shiftr id 10 =? 0 then Fault NullDeref
  else if (Z.shiftr id 10 =? 1) && (Z.land id 1023 <? 19) then Ok tt
  else Fault OutOfBounds.
Definition rwnx_rx_handle_msg (m : ipc_e2a_msg) : M unit := _ ← lift (msg_hdlr (e2a_id m)); cmd_mgr_msgind m.

Fixpoint deliver (l : list ipc_e2a_msg) : M unit :=
  match l with [] => mret tt | m :: l => _ ← rwnx_rx_handle_msg m; deliver l end.

(** [wait_for_completion_killable_timeout]. *)
Definition wait (p : nat) (t : turn) : M Z :=
  _ ← deliver (arrive t); c ← deref p;
  mret (if cmd_done c then 1 else if killed t then - ERESTARTSYS else 0).

Definition aicwf_set_cmd_tx (m : lmac_msg) : M unit := f ← lift (Wire.aicwf_set_cmd_tx m (Wire.RWNX_CMD_A2EMSG_LEN m)); emit (Sent f).

(** Is the last command of the list still to be pushed or acknowledged? *)
Definition last_waits (l : option nat) : M bool :=
  match l with
  | Some q => c ← deref q; mret (has (cmd_flags c) (Z.lor RWNX_CMD_FLAG_WAIT_ACK RWNX_CMD_FLAG_WAIT_PUSH))
  | None => mret false
  end.

(** A command that timed out is taken out of the list, unless it was done in the last moment. *)
Definition give_up_cmd (p : nat) (c : rwnx_cmd) : M unit :=
  if has (cmd_flags c) RWNX_CMD_FLAG_DONE then mret tt
  else _ ← put p (c <| cmd_result := u32 (- ETIMEDOUT) |>); cmd_complete p.

(** [cmd_mgr_queue]: the result, and what the confirmation left in the
    structure of the caller. *)
Definition cmd_mgr_queue (p : nat) (m : lmac_msg) (t : turn) : M (Z * option stack_bytes) :=
  d ← gets (fun d => d); c ← deref p;
  if decide (mgr_state d = RWNX_CMD_MGR_STATE_CRASHED) then
    _ ← put p (c <| cmd_result := u32 (- EPIPE) |>); _ ← emit Refused; mret (- EPIPE, cmd_e2a_msg c)
  else if negb (bool_decide (cmds d = [])) && (queue_sz d =? max_queue_sz d) then
    _ ← put p (c <| cmd_result := u32 (- ENOMEM) |>); _ ← emit Refused; mret (- ENOMEM, cmd_e2a_msg c)
  else
    defer_push ← last_waits (last (cmds d));
    let flags := if (defer_push : bool) then setf (cmd_flags c) RWNX_CMD_FLAG_WAIT_PUSH else cmd_flags c in
    let flags := req_cfm_flags flags in
    _ ← put p (c <| cmd_flags := flags |> <| cmd_tkn := next_tkn d |> <| cmd_result := u32 (- EINTR) |> <| cmd_done := false |>);
    _ ← modify (fun d => d <| next_tkn ::= fun n => u32 (n + 1) |> <| cmds ::= fun l => l ++ [p] |> <| queue_sz ::= fun n => u32 (n + 1) |>);
    if defer_push then mret (0, cmd_e2a_msg c)
    else
      _ ← aicwf_set_cmd_tx m;
      if has flags RWNX_CMD_FLAG_NONBLOCK then
        c ← deref p; _ ← put p (c <| cmd_result := 0 |>); mret (0, cmd_e2a_msg c)
      else
        w ← wait p t;
        c ← deref p;
        if w =? 0 then
          _ ← emit TimedOut;
          _ ← deliver (late t);
          _ ← modify (fun d => d <| mgr_state := RWNX_CMD_MGR_STATE_CRASHED |>);
          c ← deref p;
          _ ← give_up_cmd p c;
          mret (0, cmd_e2a_msg c)
        else
          _ ← emit (if 0 <? w then Confirmed else Killed);
          _ ← kfree p; mret (0, cmd_e2a_msg c).

(** ** Requests *)

Definition TASK_DBG : Z := 1.
Definition DRV_TASK_ID : Z := 100.
Definition DBG_MEM_READ_REQ : Z := 1024.
Definition DBG_MEM_READ_CFM : Z := 1025.
Definition DBG_MEM_WRITE_REQ : Z := 1026.
Definition DBG_MEM_WRITE_CFM : Z := 1027.
Definition DBG_MEM_BLOCK_WRITE_REQ : Z := 1035.
Definition DBG_MEM_BLOCK_WRITE_CFM : Z := 1036.
Definition DBG_START_APP_REQ : Z := 1037.
Definition DBG_MEM_MASK_WRITE_REQ : Z := 1041.
Definition DBG_MEM_MASK_WRITE_CFM : Z := 1042.
Definition HOST_START_APP_AUTO : Z := 1.
Definition HOST_START_APP_REBOOT : Z := 3.

(** A word as it lies in memory. *)
Definition word32 (x : Z) : list Z := [Z.land x 255; Z.land (Z.shiftr x 8) 255; Z.land (Z.shiftr x 16) 255; Z.land (Z.shiftr x 24) 255].

Definition next_turn : M turn :=
  l ← gets turns; _ ← modify (fun d => d <| turns ::= tail |>); mret (default silent (head l)).

Definition rwnx_send_msg (t : turn) (m : lmac_msg) (reqcfm : bool) (reqid : Z) (cfm : option stack_bytes) : M (Z * option stack_bytes) :=
  if bus_down t then _ ← emit Dropped; mret (0, cfm)
  else if negb (cmd_alloc t) then crash NullDeref
  else
    p ← kzalloc (mk_cmd (msg_id m) reqid 0 (if reqcfm then RWNX_CMD_FLAG_REQ_CFM else 0) false (u32 (- EINTR)) cfm);
    if reqcfm then
      c ← deref p; _ ← put p (c <| cmd_flags ::= fun f => clrf f RWNX_CMD_FLAG_WAIT_ACK |>);
      cmd_mgr_queue p m t
    else _ ← aicwf_set_cmd_tx m; _ ← kfree p; mret (0, cfm).

(** [rwnx_msg_zalloc] of the parameters, and the message they are sent in. *)
Definition request (id : Z) (param : list Z) (reqcfm : bool) (reqid : Z) (cfm : option stack_bytes) : M (Z * option stack_bytes) :=
  t ← next_turn;
  if negb (msg_alloc t) then _ ← emit NoMemory; mret (- ENOMEM, cfm)
  else rwnx_send_msg t (mk_msg id TASK_DBG DRV_TASK_ID (Z.of_nat (length param)) param) reqcfm reqid cfm.

Definition rwnx_send_dbg_mem_mask_write_req (mem_addr mem_mask mem_data : Z) : M Z :=
  r ← request DBG_MEM_MASK_WRITE_REQ (word32 mem_addr ++ word32 mem_mask ++ word32 mem_data) true DBG_MEM_MASK_WRITE_CFM None; mret r.1.
Definition rwnx_send_dbg_mem_write_req (mem_addr mem_data : Z) : M Z :=
  r ← request DBG_MEM_WRITE_REQ (word32 mem_addr ++ word32 mem_data) true DBG_MEM_WRITE_CFM None; mret r.1.
(** [mem_data] is the buffer from the pointer on; the message has room for 1024
    bytes, the rest of it is zero. *)
Definition rwnx_send_dbg_mem_block_write_req (mem_addr mem_size : Z) (mem_data : list Z) : M Z :=
  t ← gets (fun d => default silent (head (turns d)));
  if negb (msg_alloc t) then _ ← next_turn; _ ← emit NoMemory; mret (- ENOMEM)
  else if 1024 <? mem_size then crash OutOfBounds
  else
    data ← lift (slice mem_data 0 (Z.to_nat mem_size));
    r ← request DBG_MEM_BLOCK_WRITE_REQ (word32 mem_addr ++ word32 mem_size ++ data ++ replicate (1024 - length data) 0) true DBG_MEM_BLOCK_WRITE_CFM None;
    mret r.1.

(** [struct dbg_mem_read_cfm]: the address and the word. *)
Definition fresh_cfm : stack_bytes := replicate 8 None.
Definition rwnx_send_dbg_mem_read_req (mem_addr : Z) (cfm : stack_bytes) : M (Z * stack_bytes) :=
  r ← request DBG_MEM_READ_REQ (word32 mem_addr) true DBG_MEM_READ_CFM (Some cfm); mret (r.1, default cfm r.2).
Definition memdata (cfm : stack_bytes) : M Z :=
  match cfm with
  | [_; _; _; _; Some a; Some b; Some c; Some d] => mret (a + b * 256 + c * 65536 + d * 16777216)
  | _ => crash Uninitialised
  end.

Definition rwnx_send_dbg_start_app_req (boot_addr boot_type : Z) : M Z :=
  r ← request DBG_START_APP_REQ (word32 boot_addr ++ word32 boot_type) false 0 None; mret r.1.

Definition rwnx_send_reboot : M Z := rwnx_send_dbg_start_app_req 2000 HOST_START_APP_REBOOT.

End Fw.
