(* ===== verification/Loader.v ===== *)
(** The firmware loader: [aicbluetooth.c], [aic_compat_8800d80.c],
    [aic_compat_8800d80x2.c] and the start-up part of [aicwf_usb.c] of
    [aic_load_fw], as the Makefile builds them (USB with Bluetooth and message
    endpoint, no [CONFIG_M2D_OTA_AUTO_SUPPORT], [CONFIG_LOAD_BT_CONF],
    [CONFIG_FLASH_CALRES], [CONFIG_PMIC_SETTING]).

    [Image]: reading a file, its upload in blocks, the flash image.
    [Table]: the patch table, its parser and what is written for it.
    [Conf]: the tables of settings.  [Start]: the download for each chip and
    the part of [aicwf_usb_probe] that decides about it.
    The files, the module parameters and what uninitialised memory held are an
    [env].  [vmalloc] is taken to succeed. *)
From Stdlib Require Import ZArith Lia String.
From stdpp Require Import base list numbers option gmap strings pretty.
From S2P Require Import Prelude UserConfig Digest LoaderCmd.

#[local] Open Scope Z_scope.
#[local] Open Scope aic_scope.

(** A file: what [i_size_read] says and what [kernel_read] finds. *)
Record file := mk_file { i_size : Z; content : list Z }.

Record env := mk_env {
  filp_open : string -> option file;
  aic_fw_path : string;
  testmode : Z; adap_test : Z;
  paringid : list Z;                                 (* char[100] *)
  ble_scan_wakeup_reboot_time : Z; gpio_num : Z; gpio_dft_lvl : Z; flash_erase_len : Z;
  stack_md5 : list Z; stack_parser : list Z          (* the buffer of the MD5 context, [command] *)
}.

(** * Files *)

Module Image.
Import Fw.

Section WithEnv.
Context (e : env).

Definition FW_PATH_MAX : nat := 200.
Definition aic_default_fw_path : string := "/lib/firmware".

Definition chip_dir (c : AICWF_IC) : option string :=
  match c with
  | PRODUCT_ID_AIC8800 => Some "aic8800"%string
  | PRODUCT_ID_AIC8800D80 => Some "aic8800D80"%string
  | PRODUCT_ID_AIC8800D80X2 => Some "aic8800D80X2"%string
  | _ => None
  end.

(** The path that [snprintf] builds; it stays unwritten for another chip. *)
Definition fw_path (c : AICWF_IC) (name : string) : res string :=
  if (0 <? String.length (aic_fw_path e))%nat then Ok (aic_fw_path e ++ "/" ++ name)%string
  else match chip_dir c with
       | Some dir => Ok (aic_default_fw_path ++ "/" ++ dir ++ "/" ++ name)%string
       | None => Fault Uninitialised
       end.

(** The size and the buffer; the size is -1 when there is none. *)
Definition aic_load_firmware (name : string) : M (Z * list Z) :=
  c ← gets chipid;
  path ← lift (fw_path c name);
  if (FW_PATH_MAX <=? String.length path)%nat then mret (-1, [])
  else
    match filp_open e path with
    | None => mret (-1, [])
    | Some f =>
        let size := s32 (i_size f) in
        if size <=? 0 then mret (-1, [])
        else
          let buffer := take (Z.to_nat size) (content f) in
          if Z.of_nat (length buffer) =? size then
            md5 ← lift (Md5.digest (stack_md5 e) [buffer]);
            _ ← modify (fun d => d <| md5s ::= fun l => l ++ [md5] |>);
            mret (size, buffer)
          else mret (-1, [])
    end.

(** The loop over whole blocks; [limit] is [size - 1024]. *)
Fixpoint block_loop (fuel : nat) (fw_addr i limit : Z) (dst : list Z) : M (Z * Z) :=
  if i <? limit then
    match fuel with
    | O => crash OutOfFuel
    | S fuel =>
        err ← rwnx_send_dbg_mem_block_write_req (u32 (fw_addr + i)) 1024 (drop (Z.to_nat (4 * (i / 4))) dst);
        if err =? 0 then block_loop fuel fw_addr (u32 (i + 1024)) limit dst else mret (i, err)
    end
  else mret (i, 0).

Definition upload_blocks (fw_addr size : Z) (dst : list Z) : M Z :=
  r ← (if 1024 <? size then block_loop (length dst / 1024) fw_addr 0 (u32 (size - 1024)) dst else mret (0, 0));
  let '(i, err) := r in
  if (err =? 0) && (i <? u32 size) then
    rwnx_send_dbg_mem_block_write_req (u32 (fw_addr + i)) (u32 (size - i)) (drop (Z.to_nat (4 * (i / 4))) dst)
  else mret err.

Definition rwnx_plat_bin_fw_upload_android (fw_addr : Z) (filename : string) : M Z :=
  f ← aic_load_firmware filename;
  let '(size, dst) := f in
  if size <=? 0 then mret (-1) else upload_blocks fw_addr size dst.

(** [rwnx_plat_flash_bin_upload_android]: the flash is erased first, 256 KiB at
    a time, unless its first word is blank. *)
Definition ENOENT : Z := 2.
Definition ERASE : Z := 0xf150e250.
Fixpoint erase_loop (fuel : nat) (fw_addr i limit : Z) : M (Z * Z) :=
  if i <? limit then
    match fuel with
    | O => crash OutOfFuel
    | S fuel =>
        err ← rwnx_send_dbg_mem_mask_write_req (u32 (fw_addr + i)) ERASE 0x40000;
        if err =? 0 then erase_loop fuel fw_addr (u32 (i + 0x40000)) limit else mret (i, err)
    end
  else mret (i, 0).
(** The error with which the function is left, and the one it goes on with. *)
Definition erase_flash (fw_addr size : Z) : M (Z * Z) :=
  r ← (if 0x40000 <? size then erase_loop (Z.to_nat (size / 0x40000)) fw_addr 0 (u32 (size - 0x40000)) else mret (0, 0));
  let '(i, err) := r in
  if negb (err =? 0) then mret (err, err)
  else if i <? u32 size then err ← rwnx_send_dbg_mem_mask_write_req (u32 (fw_addr + i)) ERASE (u32 (size - i)); mret (0, err)
  else mret (0, err).

Definition rwnx_plat_flash_bin_upload_android (fw_addr : Z) (filename : string) : M Z :=
  f ← aic_load_firmware filename;
  let '(size, dst) := f in
  _ ← modify (fun d => d <| flash_write_size := size |>);
  if size <=? 0 then mret ENOENT
  else if negb (size =? flash_erase_len e) || has (flash_erase_len e) 0xFFF then mret (-1)
  else
    r ← rwnx_send_dbg_mem_read_req fw_addr fresh_cfm;
    if negb (r.1 =? 0) then mret r.1
    else
      word ← memdata r.2;
      out ← (if word =? 0xffffffff then mret (0, 0) else erase_flash fw_addr size);
      if negb (out.1 =? 0) then mret out.1
      else
        crc ← lift (Crc.aic_crc32 dst 0xffffffff);
        _ ← modify (fun d => d <| flash_write_bin_crc := crc |>);
        (* [err] of the last erase is overwritten when a whole block follows *)
        if 1024 <? size then upload_blocks fw_addr size dst
        else if out.2 =? 0 then upload_blocks fw_addr size dst else mret out.2.

(** [rwnx_plat_userconfig_upload_android]. *)
Definition rwnx_plat_userconfig_upload_android (filename : string) : M Z :=
  f ← aic_load_firmware filename;
  let '(size, dst) := f in
  if size <=? 0 then mret 0
  else
    u ← gets userconfig; u ← lift (Uc.loader_userconfig_parsing dst (stack_parser e) u);
    _ ← modify (fun d => d <| userconfig := u |>); mret 0.

End WithEnv.
End Image.

(** * The patch table *)

Module Table.
Import Fw.

(** [struct aicbt_patch_table]; the list is the chain of [next], [data] are
    words, [None] the null pointer. *)
Record aicbt_patch_table := mk_entry { pt_name : list Z; pt_type : Z; pt_data : option (list Z); pt_len : Z }.
#[export] Instance aicbt_patch_table_eta : RecordEta aicbt_patch_table := fun p => mk_entry (pt_name p) (pt_type p) (pt_data p) (pt_len p).
#[export] Instance aicbt_patch_table_eq_dec : EqDecision aicbt_patch_table.
Proof. solve_decision. Defined.

(** "AICBT_PT_TAG" with its terminator. *)
Definition AICBT_PT_TAG : list Z := [65; 73; 67; 66; 84; 95; 80; 84; 95; 84; 65; 71; 0].
Definition AICBT_PT_INF : Z := 0.
Definition AICBT_PT_BTMODE : Z := 3.
Definition AICBT_PT_PWRON : Z := 4.

Definition le_word (b : list Z) : Z :=
  match b with [b0; b1; b2; b3] => b0 + b1 * 256 + b2 * 65536 + b3 * 16777216 | _ => 0 end.
Fixpoint words (b : list Z) : list Z :=
  match b with b0 :: b1 :: b2 :: b3 :: b => le_word [b0; b1; b2; b3] :: words b | _ => [] end.

Fixpoint memcmp (p tag : list Z) : res bool :=
  match tag, p with
  | [], _ => Ok true
  | _, [] => Fault OutOfBounds
  | t :: tag, b :: p => if t =? b then memcmp p tag else Ok false
  end.

(** One turn of the loop: the entry at [p] and the position behind it. *)
Definition read_entry (raw : list Z) (p : Z) : res (aicbt_patch_table * Z) :=
  name ← slice raw p 16;
  type ← le32 raw (p + 16);
  len ← le32 raw (p + 20);
  if (1000 <=? type) || (len =? 0) then Ok (mk_entry name type None 0, p + 24)
  else
    let n := u32 (len * 8) in
    data ← slice raw (p + 24) (Z.to_nat n);
    Ok (mk_entry name type (Some (words data ++ replicate (Z.to_nat (2 * len - n / 4)) 0)) len, p + 24 + n).

Fixpoint read_entries (fuel : nat) (raw : list Z) (size p : Z) : res (list aicbt_patch_table) :=
  if p <? size then
    match fuel with
    | O => Fault OutOfFuel
    | S fuel =>
        r ← read_entry raw p;
        l ← read_entries fuel raw size r.2; Ok (r.1 :: l)
    end
  else Ok [].

(** The table in a file; [None] when the tag is wrong. *)
Definition parse_table (raw : list Z) (size : Z) : res (option (list aicbt_patch_table)) :=
  tag ← memcmp raw AICBT_PT_TAG;
  if (tag : bool) then l ← read_entries (S (length raw / 24)) raw size 16; Ok (Some l) else Ok None.

(** [head] is null for an empty table. *)
Definition aicbt_patch_table_alloc (e : env) (filename : string) : M (option (list aicbt_patch_table)) :=
  f ← Image.aic_load_firmware e filename;
  let '(size, raw) := f in
  if size <=? 0 then mret None
  else t ← lift (parse_table raw size); mret (match t with Some [] => None | _ => t end).

(** ** Loading it *)

Record aicbt_info_t := mk_btinfo { btmode : Z; btport : Z; uart_baud : Z; uart_flowctrl : Z; lpm_enable : Z; txpwr_lvl : Z }.
Definition aicbt_info_8800 : aicbt_info_t := mk_btinfo 2 1 1500000 1 0 0x6020.
Definition aicbt_info_8800d80 : aicbt_info_t := mk_btinfo 5 1 1500000 1 0 0x6F2F.
Definition aicbt_info_8800d80x2 : aicbt_info_t := mk_btinfo 5 1 1500000 1 0 0x6F2F.
Definition zero_btinfo : aicbt_info_t := mk_btinfo 0 0 0 0 0 0.
(** [aicbt_info[chipid]]: the array has seven elements. *)
Definition aicbt_info (c : AICWF_IC) : res aicbt_info_t :=
  match c with
  | PRODUCT_ID_AIC8800 => Ok aicbt_info_8800
  | PRODUCT_ID_AIC8801 | PRODUCT_ID_AIC8800DC | PRODUCT_ID_AIC8800DW | PRODUCT_ID_AIC8800D81 => Ok zero_btinfo
  | PRODUCT_ID_AIC8800D80 => Ok aicbt_info_8800d80
  | PRODUCT_ID_AIC8800D80X2 => Ok aicbt_info_8800d80x2
  | PRODUCT_ID_AIC8800D81X2 | PRODUCT_ID_AIC8800D89X2 | PRODUCT_ID_AIC8800D40X2 => Fault OutOfBounds
  end.
(** [aicbsp_info]. *)
Definition hwinfo : Z := -1.
Definition cpmode : Z := 0.

Definition put_word (i : nat) (v : Z) (data : list Z) : res (list Z) :=
  if (i <? length data)%nat then Ok (<[i := v]> data) else Fault OutOfBounds.
(** The values of a [AICBT_PT_BTMODE] entry are overwritten. *)
Definition set_btmode (i : aicbt_info_t) (data : list Z) : res (list Z) :=
  d ← put_word 1 (if hwinfo <? 0 then 1 else 0) data;
  d ← put_word 3 (u32 hwinfo) d;
  d ← put_word 5 cpmode d;
  d ← put_word 7 (btmode i) d;
  d ← put_word 9 (btport i) d;
  d ← put_word 11 (uart_baud i) d;
  d ← put_word 13 (uart_flowctrl i) d;
  d ← put_word 15 (lpm_enable i) d;
  put_word 17 (txpwr_lvl i) d.

(** The loop over the pairs of address and value. *)
Fixpoint write_pairs (n : nat) (data : list Z) : M Z :=
  match n, data with
  | O, _ => mret 0
  | S n, a :: v :: data => orelse (rwnx_send_dbg_mem_write_req a v) (write_pairs n data)
  | S _, _ => crash OutOfBounds
  end.

(** [data] as the loop finds it. *)
Definition entry_data (i : aicbt_info_t) (p : aicbt_patch_table) : res (list Z) :=
  if pt_type p =? AICBT_PT_BTMODE then data ← from_option_res NullDeref (pt_data p); set_btmode i data
  else Ok (default [] (pt_data p)).

Fixpoint aicbt_patch_table_load (t : list aicbt_patch_table) : M Z :=
  match t with
  | [] => mret 0
  | p :: t =>
      c ← gets chipid;
      data ← lift (if pt_type p =? AICBT_PT_BTMODE then i ← aicbt_info c; entry_data i p else entry_data zero_btinfo p);
      if pt_type p =? 6 then aicbt_patch_table_load t      (* prints the version *)
      else orelse (write_pairs (Z.to_nat (pt_len p)) data) (aicbt_patch_table_load t)
  end.

(** [struct aicbt_patch_info_t]: the words from [adid_addrinf] to
    [ext_patch_nb], and what [ext_patch_param] points to. *)
Record aicbt_patch_info_t := mk_info { info_len : Z; info_words : list Z; ext_patch_param : list Z }.
Definition addr_adid (i : aicbt_patch_info_t) : Z := default 0 (info_words i !! 1%nat).
Definition addr_patch (i : aicbt_patch_info_t) : Z := default 0 (info_words i !! 3%nat).
Definition ext_patch_nb (i : aicbt_patch_info_t) : Z := default 0 (info_words i !! 9%nat).

(** The information and the first entry, whose length is cut. *)
Definition aicbt_patch_info_unpack (i : aicbt_patch_info_t) (p : aicbt_patch_table) : res (aicbt_patch_info_t * aicbt_patch_table) :=
  if pt_type p =? AICBT_PT_INF then
    let base_len := 4 in
    let '(info_len, memcpy_len) := if base_len <? pt_len p then (base_len, base_len + 1) else (pt_len p, pt_len p) in
    let p' := p <| pt_len := info_len |> in
    if info_len =? 0 then Ok (mk_info info_len (info_words i) (ext_patch_param i), p')
    else
      data ← from_option_res NullDeref (pt_data p);
      let n := Z.to_nat (2 * memcpy_len) in
      if (length data <? n)%nat then Fault OutOfBounds
      else
        let i' := mk_info info_len (take n data ++ drop n (info_words i)) (ext_patch_param i) in
        Ok (if 0 <? ext_patch_nb i' then mk_info info_len (info_words i') (drop n data) else i', p')
  else Ok (i, p).

(** [rwnx_plat_bin_fw_patch_table_upload_android]: the result of the load is dropped. *)
Definition rwnx_plat_bin_fw_patch_table_upload_android (e : env) (filename : string) : M Z :=
  f ← Image.aic_load_firmware e filename;
  let '(size, raw) := f in
  if size <=? 0 then mret (-1)
  else
    t ← lift (parse_table raw size);
    match t with
    | None => mret (-1)
    | Some t => _ ← aicbt_patch_table_load t; mret 0
    end.

(** [aicbt_ext_patch_data_load]; the file names end in the number and ".bin". *)
Fixpoint ext_patches (e : env) (n : nat) (param : list Z) (filename : string) : M Z :=
  match n, param with
  | O, _ => mret 0
  | S n, id :: addr :: param =>
      orfail (-1) (Image.rwnx_plat_bin_fw_upload_android e addr (filename ++ pretty (s32 id) ++ ".bin")) (ext_patches e n param filename)
  | S _, _ => crash OutOfBounds
  end.
Definition aicbt_ext_patch_data_load (e : env) (i : aicbt_patch_info_t) (filename : string) : M Z :=
  if 0 <? ext_patch_nb i then
    orelse (rwnx_send_dbg_mem_write_req 0x40580000 0x00040220)
      (ext_patches e (Z.to_nat (ext_patch_nb i)) (ext_patch_param i) filename)
  else mret 0.

End Table.

(** * Settings *)

Module Conf.
Import Fw.

Definition RAM_FW_ADDR : Z := 0x110000.
Definition RAM_FMAC_FW_ADDR_8800D80 : Z := 0x100000.
Definition RAM_FMAC_FW_ADDR_8800D80_U02 : Z := 0x120000.
Definition RAM_FMAC_FW_ADDR_8800D80X2 : Z := 0x120000.
Definition CHIP_REV_U01 : Z := 0x1.
Definition CHIP_REV_U02 : Z := 0x3.
Definition CHIP_REV_U03 : Z := 0x7.
Definition CHIP_REV_U05 : Z := 0x1f.
Definition CHIP_SUB_REV_U04 : Z := 0x20.

Definition patch_tbl : list (Z * Z) :=
  [(0x0044, 0x00000002); (0x0048, 0x00000060); (0x004c, 0x00040050); (0x0050, 0x00000000); (0x0054, 0x00190000);
   (0x0058, 0x00190140); (0x005c, 0x00000ee0); (0x0060, 0x00191020); (0x0064, 0x0002EFE0); (0x0068, 0x00000008);
   (0x006c, 0x00000040); (0x0070, 0x00000040); (0x0074, 0x00000020); (0x0078, 0x00000000); (0x007c, 0x00000020);
   (0x0080, 0x001d0000); (0x0084, 0x0000fc00); (0x0088, 0x001dfc00); (0x00A8, 0x8D080103); (0x00D0, 0x00010103);
   (0x00D4, 0x0404087C); (0x00D8, 0x001C0000); (0x00DC, 0x00008000); (0x00E0, 0x04020A08); (0x00E4, 0x00000001);
   (0x00FC, 0x00000302); (0x0100, 0x0000000F)].
Definition adaptivity_patch_tbl : list (Z * Z) := [(0x0004, 0x0000320A); (0x0094, 0x00000000); (0x00F8, 0x00010138)].
Definition patch_tbl_d80 : list (Z * Z) := [(0x00b4, 0xf3010000); (0x0170, 0x0001000A)].
Definition adaptivity_patch_tbl_d80 : list (Z * Z) := [(0x000C, 0x0000320A); (0x009C, 0x00000000); (0x0168, 0x00010000)].
Definition patch_tbl_d80x2 : list (Z * Z) :=
  [(0x021c, 0x04000000); (0x0220, 0x04010101); (0x0224, 0x50000a01); (0x0228, 0x50000a00); (0x01f0, 0x00000001)].
Definition adaptivity_patch_tbl_d80x2 : list (Z * Z) := [(0x000C, 0x0000320A); (0x009C, 0x00000000); (0x01D0, 0x00010000)].

Definition syscfg_tbl_pmic_u02 : list (Z * Z) :=
  [(0x40040000, 0x00001AC8); (0x40040084, 0x00011580); (0x40040080, 0x00000001); (0x40100058, 0x00000000)].
Definition syscfg_tbl_u04 : list (Z * Z) :=
  [(0x40040000, 0x0000042C); (0x40040004, 0x0000DD44); (0x40040008, 0x00000448); (0x4004000C, 0x0000044C); (0x0019B800, 0xB9F0F19B);
   (0x0019B804, 0x0019B81D); (0x0019B808, 0xBF00FA79); (0x0019B80C, 0xF007BF00); (0x0019B810, 0x4605B672); (0x0019B814, 0x21E0F04F);
   (0x0019B818, 0xBE0BF664); (0x0019B81C, 0xF665B510); (0x0019B820, 0x4804FC9D); (0x0019B824, 0xFA9EF66C); (0x0019B828, 0xFCA8F665);
   (0x0019B82C, 0x4010E8BD); (0x0019B830, 0xBAC6F66C); (0x0019B834, 0x0019A0C4); (0x40040084, 0x0019B800); (0x40040080, 0x0000000F);
   (0x40100058, 0x00000000)].
Definition syscfg_tbl : list (Z * Z) :=
  [(0x40500014, 0x00000101); (0x40500018, 0x0000010d); (0x40500004, 0x00000010); (0x50000000, 0x03220204); (0x50019150, 0x00000002);
   (0x50017008, 0x00000000)].
Definition syscfg_tbl_8800d80 : list (Z * Z) := [].
Definition syscfg_tbl_8800d80x2 : list (Z * Z) := [(0x40500010, 0x00000006); (0x40500024, 0x0000001f)].
Definition sys_reboot_tbl : list (Z * Z) := [(0x50017000, 0x0001ffff); (0x50017008, 0x00000002)].

(** A loop that writes a table and returns at the first error. *)
Fixpoint write_tbl (l : list (Z * Z)) : M Z :=
  match l with [] => mret 0 | (a, v) :: l => orelse (rwnx_send_dbg_mem_write_req a v) (write_tbl l) end.

Definition read_word (addr : Z) (cfm : stack_bytes) (k : Z -> stack_bytes -> M Z) : M Z :=
  r ← rwnx_send_dbg_mem_read_req addr cfm;
  if r.1 =? 0 then w ← memdata r.2; k w r.2 else mret r.1.

Definition system_config_8800 : M Z :=
  read_word 0x40500000 fresh_cfm (fun w cfm =>
    _ ← modify (fun d => d <| chip_id := u8 (Z.shiftr w 16) |>);
    read_word 0x00000004 cfm (fun w _ =>
      _ ← modify (fun d => d <| chip_sub_id := u8 (Z.shiftr w 4) |>);
      d ← gets (fun d => d);
      orelse (if chip_id d =? CHIP_REV_U02 then write_tbl syscfg_tbl_pmic_u02 else mret 0)
        (orelse (if (chip_id d =? CHIP_REV_U03) && (chip_sub_id d =? CHIP_SUB_REV_U04) then write_tbl syscfg_tbl_u04 else mret 0)
           (write_tbl syscfg_tbl)))).

Definition system_config_8800d80 : M Z :=
  read_word 0x40500000 fresh_cfm (fun w _ =>
    _ ← modify (fun d => if Z.land (Z.shiftr w 25) 1 =? 0 then d <| chip_mcu_id := 1 |> else d);
    _ ← modify (fun d => d <| chip_id := u8 (Z.shiftr w 16) |>);
    write_tbl syscfg_tbl_8800d80).

Definition system_config_8800d80x2 : M Z :=
  read_word 0x40500000 fresh_cfm (fun w cfm =>
    _ ← modify (fun d => d <| chip_id := u8 (Z.shiftr w 16) |>);
    read_word 0x40500004 cfm (fun w _ =>
      _ ← modify (fun d => if Z.land (Z.shiftr w 17) 1 =? 0 then d <| chip_mcu_id := 1 |> else d);
      write_tbl syscfg_tbl_8800d80x2)).

Definition system_config : M Z :=
  c ← gets chipid;
  match c with
  | PRODUCT_ID_AIC8800 => system_config_8800
  | PRODUCT_ID_AIC8800D80 => system_config_8800d80
  | PRODUCT_ID_AIC8800D80X2 => system_config_8800d80x2
  | _ => mret (-1)
  end.

Definition system_reboot : M Z := write_tbl sys_reboot_tbl.
Definition rf_config : M Z := rwnx_send_dbg_mem_mask_write_req 0x40344058 0x00800000 0x00000000.

(** The table as the firmware reads it: pairs of address and value from [start] on. *)
Fixpoint pairs_at (start base : Z) (l : list (Z * Z)) : list (Z * Z) :=
  match l with
  | [] => []
  | (a, v) :: l => (start, u32 (a + base)) :: (u32 (start + 4), v) :: pairs_at (u32 (start + 8)) base l
  end.
(** [patch_config] goes on after an error; the last result counts. *)
Fixpoint write_last (ret : Z) (l : list (Z * Z)) : M Z :=
  match l with [] => mret ret | (a, v) :: l => ret ← rwnx_send_dbg_mem_write_req a v; write_last ret l end.

Section WithEnv.
Context (e : env).
Definition adap (l : list (Z * Z)) : list (Z * Z) := if adap_test e =? 0 then [] else l.

Definition patch_config : M Z :=
  let start_addr := 0x1e6000 in
  let patch_num := 2 * Z.of_nat (length patch_tbl) in
  let adap_patch_num := 2 * Z.of_nat (length (adap adaptivity_patch_tbl)) in
  r ← rwnx_send_dbg_mem_read_req (RAM_FW_ADDR + 0x0180) fresh_cfm;
  config_base ← memdata r.2;
  ret ← rwnx_send_dbg_mem_write_req 0x1e5318 start_addr;
  ret ← rwnx_send_dbg_mem_write_req 0x1e531c (patch_num + adap_patch_num);
  write_last ret (pairs_at start_addr config_base (patch_tbl ++ adap adaptivity_patch_tbl)).

(** [aic_patch_t]: the offsets that are written. *)
Definition AIC_PATCH_MAGIG_NUM : Z := 0x48435450.
Definition AIC_PATCH_MAGIG_NUM_2 : Z := 0x50544348.
Definition patch_header (base start count : Z) : list (Z * Z) :=
  [(u32 base, AIC_PATCH_MAGIG_NUM); (u32 (base + 8), AIC_PATCH_MAGIG_NUM_2); (u32 (base + 4), start); (u32 (base + 12), count)].
Definition patch_blocks (base : Z) : list (Z * Z) :=
  [(u32 (base + 48), 0); (u32 (base + 52), 0); (u32 (base + 56), 0); (u32 (base + 60), 0)].
Definition install (base start config_base : Z) (tbl : list (Z * Z)) : M Z :=
  orelse (write_tbl (patch_header base start (Z.of_nat (length tbl))))
    (orelse (write_tbl (pairs_at start config_base tbl)) (write_tbl (patch_blocks base))).

Definition aicwf_patch_config_8800d80 : M Z :=
  id ← gets chip_id;
  let fw := if id =? CHIP_REV_U01 then RAM_FMAC_FW_ADDR_8800D80 else RAM_FMAC_FW_ADDR_8800D80_U02 in
  let tbl := patch_tbl_d80 ++ adap adaptivity_patch_tbl_d80 in
  let rd_patch_addr := fw + 0x198 in
  read_word rd_patch_addr fresh_cfm (fun config_base cfm =>
    read_word (rd_patch_addr + 8) cfm (fun base cfm =>
      read_word (fw + 0x01C) cfm (fun version cfm =>
        _ ← modify (fun d => d <| fw_version_uint := version |>);
        if 0x06090100 <? version then
          read_word (rd_patch_addr + 12) cfm (fun start _ => install base start config_base tbl)
        else install base 0x001D7000 config_base tbl))).

Definition aicwf_patch_config_8800d80x2 : M Z :=
  let fw := RAM_FMAC_FW_ADDR_8800D80X2 in
  let tbl := patch_tbl_d80x2 ++ adap adaptivity_patch_tbl_d80x2 in
  let rd_patch_addr := fw + 0x1A8 in
  r ← rwnx_send_dbg_mem_read_req rd_patch_addr fresh_cfm;
  if negb (r.1 =? 0) then mret r.1
  else
    read_word rd_patch_addr r.2 (fun config_base cfm =>
      read_word (rd_patch_addr + 8) cfm (fun base cfm =>
        read_word (fw + 0x01C) cfm (fun version cfm =>
          _ ← modify (fun d => d <| fw_version_uint := version |>);
          read_word (rd_patch_addr + 12) cfm (fun start _ => install base start config_base tbl)))).

End WithEnv.
End Conf.

(** * The download *)

Module Start.
Import Fw Image Table Conf.

Definition USB_VENDOR_ID_AIC_V2 : Z := 0x368B.
Definition USB_DEVICE_ID_AIC : Z := 0x8800.
Definition USB_DEVICE_ID_AIC_8801 : Z := 0x8801.
Definition USB_DEVICE_ID_AIC_8800D80 : Z := 0x8D80.
Definition USB_DEVICE_ID_AIC_8800D81 : Z := 0x8D81.
Definition USB_DEVICE_ID_AIC_8800D40 : Z := 0x8D40.
Definition USB_DEVICE_ID_AIC_8800D41 : Z := 0x8D41.
Definition USB_DEVICE_ID_AIC_8800D80X2 : Z := 0x8D90.
Definition USB_DEVICE_ID_AIC_8800D81X2 : Z := 0x8D91.
Definition USB_DEVICE_ID_AIC_8800D89X2 : Z := 0x8D99.
Definition USB_DEVICE_ID_AIC_8800D40X2 : Z := 0x8D92.

Definition aicloadfw_chipmatch (vid pid : Z) : option AICWF_IC :=
  if pid =? USB_DEVICE_ID_AIC then Some PRODUCT_ID_AIC8800
  else if pid =? USB_DEVICE_ID_AIC_8801 then Some PRODUCT_ID_AIC8801
  else if pid =? USB_DEVICE_ID_AIC_8800D80 then Some PRODUCT_ID_AIC8800D80
  else if pid =? USB_DEVICE_ID_AIC_8800D81 then Some PRODUCT_ID_AIC8800D81
  else if pid =? USB_DEVICE_ID_AIC_8800D40 then Some PRODUCT_ID_AIC8800D80
  else if pid =? USB_DEVICE_ID_AIC_8800D41 then Some PRODUCT_ID_AIC8800D81
  else if (pid =? USB_DEVICE_ID_AIC_8800D80X2) && (vid =? USB_VENDOR_ID_AIC_V2) then Some PRODUCT_ID_AIC8800D80X2
  else if (pid =? USB_DEVICE_ID_AIC_8800D81X2) && (vid =? USB_VENDOR_ID_AIC_V2) then Some PRODUCT_ID_AIC8800D81X2
  else if (pid =? USB_DEVICE_ID_AIC_8800D89X2) && (vid =? USB_VENDOR_ID_AIC_V2) then Some PRODUCT_ID_AIC8800D89X2
  else if (pid =? USB_DEVICE_ID_AIC_8800D40X2) && (vid =? USB_VENDOR_ID_AIC_V2) then Some PRODUCT_ID_AIC8800D80X2
  else None.

Definition FW_NORMAL_MODE : Z := 0.
Definition FW_TEST_MODE : Z := 1.
Definition FW_BLE_SCAN_WAKEUP_MODE : Z := 2.
Definition FW_BLE_SCAN_AD_FILTER_MODE : Z := 5.

Definition RAM_FW_BLE_SCAN_WAKEUP_ADDR : Z := 0x100000.
Definition RAM_FW_BLE_SCAN_WAKEUP_ADDR_8800D80 : Z := 0x160000.
Definition FW_RAM_ADID_BASE_ADDR : Z := 0x161928.
Definition FW_RAM_PATCH_BASE_ADDR : Z := 0x100000.
Definition FW_RAM_PATCH_BASE_ADDR_U03 : Z := 0x100000.
Definition RAM_FMAC_RF_FW_ADDR_8800D80 : Z := 0x110000.
Definition RAM_FMAC_RF_FW_ADDR_8800D80_U02 : Z := 0x120000.
Definition RAM_FMAC_RF_FW_ADDR_8800D80X2 : Z := 0x120000.

(** ** Hexadecimal identities *)

Definition is_hex (c : Z) : bool := ((48 <=? c) && (c <=? 57)) || ((65 <=? c) && (c <=? 70)) || ((97 <=? c) && (c <=? 102)).
Definition hex_value (c : Z) : Z :=
  if (48 <=? c) && (c <=? 57) then c - 48
  else if (65 <=? c) && (c <=? 70) then c - 65 + 10
  else if (97 <=? c) && (c <=? 102) then c - 97 + 10 else 0.
(** As many characters are read as hexadecimal digits occur in the string. *)
Definition rwnx_atoli (value : list Z) : Z :=
  let value := Uc.c_str value in
  fold_left (fun result c => u32 (u32 (result * 16) + hex_value c)) (take (length (filter (fun c => is_hex c = true) value)) value) 0.

(** The commas at the places 4, 9, 14, ...; any other character there makes it 0. *)
Fixpoint count_ids (fuel : nat) (c : list Z) (i len num : Z) : res Z :=
  if i <? len then
    match fuel with
    | O => Fault OutOfFuel
    | S fuel =>
        ch ← rd8 c i;
        if ch =? 44 then count_ids fuel c (i + 5) len (num + 1) else if ch =? 0 then Ok num else Ok 0
    end
  else Ok num.
(** [n] more identities, from the [i]th on; the caller's array [ids] has 8 elements. *)
Fixpoint parse_ids (n : nat) (i : nat) (c ids : list Z) : res (list Z) :=
  match n with
  | O => Ok ids
  | S n => four ← slice c (5 * Z.of_nat i) 4; ids ← put_word i (rwnx_atoli (four ++ [0])) ids; parse_ids n (S i) c ids
  end.
Definition get_paring_ids (c ids : list Z) : res (Z * list Z) :=
  s ← Uc.terminated c;
  let len := Z.of_nat (length s) in
  num ← count_ids (length c) c 4 len 0;
  if (num =? 0) && (len =? 0) then Ok (0, ids)
  else r ← parse_ids (Z.to_nat (num + 1)) 0 c ids; Ok (num + 1, r).

Section WithEnv.
Context (e : env).

Definition upload := rwnx_plat_bin_fw_upload_android e.

(** [write_blocks[i]] goes to [addr + 4 * i]; results are not looked at. *)
Fixpoint write_words (addr : Z) (n : nat) (l : list Z) : M unit :=
  match n, l with
  | O, _ => mret tt
  | S n, w :: l => _ ← rwnx_send_dbg_mem_write_req addr w; write_words (addr + 4) n l
  | S _, [] => crash OutOfBounds
  end.

(** ** The wake-up modes: the application is only told, never confirmed *)

Definition ble_scan_wakeup : M Z :=
  _ ← upload RAM_FW_BLE_SCAN_WAKEUP_ADDR "fw_ble_scan.bin";
  _ ← rwnx_send_dbg_mem_write_req 0x15FF00 0x53454C42;
  _ ← rwnx_send_dbg_mem_write_req 0x15FF04 (u32 (ble_scan_wakeup_reboot_time e));
  r ← lift (get_paring_ids (paringid e) (replicate 8 0));
  _ ← write_words 0x15FF08 (Z.to_nat r.1) r.2;
  _ ← rwnx_send_dbg_start_app_req RAM_FW_BLE_SCAN_WAKEUP_ADDR HOST_START_APP_AUTO;
  mret (-1).

(** [struct ble_wakeup_param_t] as words: the head and five filters of twelve
    words: the mask, the bytes trigger, role, length and type, the data, the
    address of the white list and the padding. *)
Definition ad_filter (mask trigger role len type : Z) (data : list Z) : list Z :=
  mask :: words ([trigger; role; len; type] ++ data ++ replicate (40 - length data) 0).
Definition ble_wakeup_param : list Z :=
  [0x53454C42; 1000; u32 (ble_scan_wakeup_reboot_time e); gpio_num e; 3; gpio_dft_lvl e; 1] ++
  ad_filter 0xffe00000 1 0x01 12 0x09 [0x59; 0x4B; 0x32; 0x42; 0x41; 0x5F; 0x54; 0x45; 0x53; 0x54; 0x33] ++
  ad_filter 0xc0000000 1 0x01 3 0x03 [0x12; 0x18] ++
  ad_filter 0 1 0x00 0 0 [] ++
  ad_filter 0 1 0x11 0 0 [] ++
  ad_filter 0xffe00000 3 0x11 0 0x09 [].
Definition sizeof_ble_wakeup_param_t : Z := 268.

Definition ad_filter_words (addr : Z) : M unit :=
  _ ← upload addr "fw_ble_scan_ad_filter.bin";
  write_words 0x15FE00 (Z.to_nat (sizeof_ble_wakeup_param_t / 4 + 1)) ble_wakeup_param.
Definition ble_ad_filter (addr : Z) : M Z :=
  _ ← ad_filter_words addr; _ ← rwnx_send_dbg_start_app_req addr HOST_START_APP_AUTO; mret (-1).
Definition ble_ad_filter_8800d80x2 : M Z :=
  _ ← ad_filter_words RAM_FW_BLE_SCAN_WAKEUP_ADDR_8800D80;
  _ ← rwnx_send_dbg_mem_write_req 0x40500048 RAM_FW_BLE_SCAN_WAKEUP_ADDR_8800D80;
  _ ← rwnx_send_dbg_mem_write_req 0x4050012c 0x00000040;
  mret (-1).

(** ** One function per chip *)

Definition start_app (addr : Z) : M Z := rwnx_send_dbg_start_app_req addr HOST_START_APP_AUTO.
(** [if (m) return -1; ...; return 0;] *)
Fixpoint steps (l : list (M Z)) : M Z := match l with [] => mret 0 | m :: l => orfail (-1) m (steps l) end.

(** The firmware under its name, then the Bluetooth part of the chip revision. *)
Definition load_8800 (name : string) (u03 : bool) : list (M Z) :=
  [upload RAM_FW_ADDR name;
   upload FW_RAM_ADID_BASE_ADDR (if u03 then "fw_adid_u03.bin" else "fw_adid.bin");
   upload (if u03 then FW_RAM_PATCH_BASE_ADDR_U03 else FW_RAM_PATCH_BASE_ADDR) (if u03 then "fw_patch_u03.bin" else "fw_patch.bin")].
Definition finish_8800 (u03 : bool) : list (M Z) :=
  [rwnx_plat_bin_fw_patch_table_upload_android e (if u03 then "fw_patch_table_u03.bin" else "fw_patch_table.bin");
   rwnx_plat_userconfig_upload_android e "aic_userconfig.txt";
   patch_config e; rf_config; start_app RAM_FW_ADDR].
Definition aicfw_download_fw_8800 : M Z :=
  id ← gets chip_id;
  let u03 := id =? CHIP_REV_U03 in
  if testmode e =? FW_TEST_MODE then steps (load_8800 "fmacfw_rf.bin" u03 ++ finish_8800 u03)
  else if testmode e =? FW_BLE_SCAN_WAKEUP_MODE then ble_scan_wakeup
  else if testmode e =? FW_BLE_SCAN_AD_FILTER_MODE then ble_ad_filter RAM_FW_BLE_SCAN_WAKEUP_ADDR
  else steps (load_8800 "fmacfw.bin" u03 ++ finish_8800 u03).

Definition IS_CHIP_ID_H (id : Z) : bool := Z.land id 0xC0 =? 0xC0.
Definition aicfw_download_fw_8800d80 : M Z :=
  id ← gets chip_id;
  if testmode e =? FW_NORMAL_MODE then
    if negb (id =? CHIP_REV_U01) then
      steps [upload RAM_FMAC_FW_ADDR_8800D80_U02 (if IS_CHIP_ID_H id then "fmacfw_8800d80_h_u02.bin" else "fmacfw_8800d80_u02.bin");
             aicwf_patch_config_8800d80 e; start_app RAM_FMAC_FW_ADDR_8800D80_U02]
    else steps [upload RAM_FMAC_FW_ADDR_8800D80 "fmacfw_8800d80.bin"; start_app RAM_FMAC_FW_ADDR_8800D80]
  else if testmode e =? FW_TEST_MODE then
    if negb (id =? CHIP_REV_U01) then
      steps [upload RAM_FMAC_RF_FW_ADDR_8800D80_U02 "lmacfw_rf_8800d80_u02.bin"; start_app RAM_FMAC_RF_FW_ADDR_8800D80_U02]
    else steps [upload RAM_FMAC_RF_FW_ADDR_8800D80 "fmacfw_rf_8800d80.bin"; start_app RAM_FMAC_RF_FW_ADDR_8800D80]
  else if testmode e =? FW_BLE_SCAN_AD_FILTER_MODE then ble_ad_filter RAM_FW_BLE_SCAN_WAKEUP_ADDR_8800D80
  else mret 0.

(** The Bluetooth core of a chip with a controller of its own is switched on;
    at most 21 readings. *)
Fixpoint pwron_loop (retry : nat) (cfm : stack_bytes) : M Z :=
  read_word 0x40506030 cfm (fun w cfm =>
    if Z.land w 4 =? 0 then match retry with O => mret (-1) | S retry => pwron_loop retry cfm end else mret 0).
Definition bt_pwron : M Z :=
  read_word 0x40506030 fresh_cfm (fun w cfm =>
    if Z.land w 4 =? 0 then
      read_word 0x40506004 cfm (fun w cfm =>
        orelse (rwnx_send_dbg_mem_write_req 0x40506004 (clrf (setf w (BIT 17)) (BIT 18))) (pwron_loop 20 cfm))
    else mret 0).

Definition bt_8800d80x2 (rev : string) (i : aicbt_patch_info_t) (t : list aicbt_patch_table) : list (M Z) :=
  [upload (addr_adid i) ("fw_adid_8800d80x2_" ++ rev ++ ".bin");
   upload (addr_patch i) ("fw_patch_8800d80x2_" ++ rev ++ ".bin");
   aicbt_ext_patch_data_load e i ("fw_patch_8800d80x2_" ++ rev ++ "_ext");
   aicbt_patch_table_load t].
Definition aicfw_download_fw_8800d80x2 : M Z :=
  d ← gets (fun d => d);
  let u03 := chip_id d <? CHIP_REV_U05 in
  let rev := (if u03 then "u03" else "u05")%string in
  t ← aicbt_patch_table_alloc e ("fw_patch_table_8800d80x2_" ++ rev ++ ".bin");
  match t with
  | Some (head :: t) =>
      let i := mk_info 0 [0; 0x003018f8; 0; if u03 then 0x0030b494 else 0x0030b48c; 0; 0; 0; 0; 0; 0] [] in
      r ← lift (aicbt_patch_info_unpack i head);
      let '(i, head) := r in
      if info_len i =? 0 then mret (-1)
      else
        orelse (if chip_mcu_id d =? 0 then mret 0 else bt_pwron)
          (if testmode e =? FW_NORMAL_MODE then
             steps (bt_8800d80x2 rev i (head :: t) ++
                    [upload RAM_FMAC_FW_ADDR_8800D80X2 "fmacfw_8800d80x2.bin"; aicwf_patch_config_8800d80x2 e; start_app RAM_FMAC_FW_ADDR_8800D80X2])
           else if testmode e =? FW_TEST_MODE then
             steps (bt_8800d80x2 rev i (head :: t) ++
                    [upload RAM_FMAC_RF_FW_ADDR_8800D80X2 "lmacfw_rf_8800d80x2.bin"; start_app RAM_FMAC_RF_FW_ADDR_8800D80X2])
           else if testmode e =? FW_BLE_SCAN_AD_FILTER_MODE then ble_ad_filter_8800d80x2
           else mret 0)
  | _ => mret (-1)
  end.

Definition aicfw_download_fw : M Z :=
  c ← gets chipid;
  match c with
  | PRODUCT_ID_AIC8800 => aicfw_download_fw_8800
  | PRODUCT_ID_AIC8800D80 => aicfw_download_fw_8800d80
  | PRODUCT_ID_AIC8800D80X2 => aicfw_download_fw_8800d80x2
  | _ => mret (-1)
  end.

(** ** The probe *)

(** The first test of [aicwf_usb_probe]. *)
Definition probe_refused (fw_loaded pid : Z) : bool :=
  (fw_loaded =? 1) &&
  ((pid =? USB_DEVICE_ID_AIC_8801) || (pid =? USB_DEVICE_ID_AIC_8800D81) || (pid =? USB_DEVICE_ID_AIC_8800D41) ||
   (pid =? USB_DEVICE_ID_AIC_8800D81X2) || (pid =? USB_DEVICE_ID_AIC_8800D89X2)).
Definition running_chip (c : AICWF_IC) : bool :=
  match c with PRODUCT_ID_AIC8801 | PRODUCT_ID_AIC8800D81 | PRODUCT_ID_AIC8800D81X2 | PRODUCT_ID_AIC8800D89X2 => true | _ => false end.

(** From [aic_bt_platform_init] on: the device stays ([app_cmp]), or the jump to
    [out_free_bus] is taken; [ret] is 0 then as well. *)
Definition probe_load (high_speed : bool) (fw_loaded : Z) : M bool :=
  _ ← rwnx_cmd_mgr_init;
  c ← gets chipid;
  if negb high_speed then _ ← system_reboot; mret false
  else if (fw_loaded =? 0) && running_chip c then _ ← rwnx_send_reboot; mret false
  else
    r ← system_config;
    if negb (r =? 0) then mret false
    else
      r ← aicfw_download_fw;
      mret (r =? 0).

End WithEnv.
End Start.
