(* ===== verification/LoaderFacts.v ===== *)
(** Lemmas about the loader's monad, requests and files. *)
From Stdlib Require Import ZArith Lia String.
From stdpp Require Import base list numbers option gmap strings pretty.
From S2P Require Import Prelude CmdMgr UserConfig Digest LoaderCmd Loader.

#[local] Open Scope Z_scope.
#[local] Open Scope aic_scope.

(** * Exchanges *)

Module Exch.
Import Fw.

(** A request and the answer to it. *)
Inductive exch :=
| ERead (addr v : Z)
| EWrite (addr v : Z)
| EMask (addr mask v : Z)
| EBlock (addr : Z) (data : list Z)
| EStart (addr ty : Z).
#[export] Instance exch_eq_dec : EqDecision exch.
Proof. solve_decision. Defined.

Definition msg_of (x : exch) : Mgr.lmac_msg :=
  let m id l := Mgr.mk_msg id TASK_DBG DRV_TASK_ID (Z.of_nat (length l)) l in
  match x with
  | ERead a _ => m DBG_MEM_READ_REQ (word32 a)
  | EWrite a v => m DBG_MEM_WRITE_REQ (word32 a ++ word32 v)
  | EMask a k v => m DBG_MEM_MASK_WRITE_REQ (word32 a ++ word32 k ++ word32 v)
  | EBlock a l => m DBG_MEM_BLOCK_WRITE_REQ (word32 a ++ word32 (Z.of_nat (length l)) ++ l ++ replicate (1024 - length l) 0)
  | EStart a ty => m DBG_START_APP_REQ (word32 a ++ word32 ty)
  end.
Definition cfm_of (x : exch) : option Z :=
  match x with
  | ERead _ _ => Some DBG_MEM_READ_CFM | EWrite _ _ => Some DBG_MEM_WRITE_CFM | EMask _ _ _ => Some DBG_MEM_MASK_WRITE_CFM
  | EBlock _ _ => Some DBG_MEM_BLOCK_WRITE_CFM | EStart _ _ => None
  end.
(** The bytes on the bus. *)
Definition frame_of (x : exch) : list Z :=
  let m := msg_of x in
  let len := 8 + Mgr.param_len m in
  [Z.land (len + 4) 255; Z.land (Z.shiftr (len + 4) 8) 15; 17; 0; 0; 0; 0; 0] ++
  Wire.put_u16 (Mgr.msg_id m) ++ Wire.put_u16 TASK_DBG ++ Wire.put_u16 DRV_TASK_ID ++ Wire.put_u16 (Mgr.param_len m) ++ Mgr.param m.
Definition events (x : exch) : list event := Sent (frame_of x) :: match cfm_of x with Some _ => [Confirmed] | None => [] end.

(** The turn that answers the request. *)
Definition reply_ok (x : exch) (m : ipc_e2a_msg) : Prop :=
  match x with
  | ERead _ v => e2a_param_len m = 8 /\ (8 <= length (e2a_param m))%nat /\ take 4 (drop 4 (e2a_param m)) = word32 v /\ 0 <= v < 2 ^ 32
  | _ => True
  end.
Definition answer (id : Z) (l : list ipc_e2a_msg) : option ipc_e2a_msg := List.find (fun m => e2a_id m =? id) l.
Definition known (m : ipc_e2a_msg) : Prop := msg_hdlr (e2a_id m) = Ok tt.
Definition serves (x : exch) (t : turn) : Prop :=
  msg_alloc t = true /\ cmd_alloc t = true /\ bus_down t = false /\
  match cfm_of x with
  | None => True
  | Some id => Forall known (arrive t) /\ match answer id (arrive t) with Some m => reply_ok x m | None => False end
  end.
#[export] Instance serves_dec x t : Decision (serves x t).
Proof.
  unfold serves, known. repeat (apply and_dec; [apply _|]). destruct (cfm_of x) as [id|]; [|apply _]. apply and_dec; [apply _|].
  destruct (answer id (arrive t)) as [m|]; [|apply _]. unfold reply_ok. destruct x; try apply _.

Defined.

(** A message of the block has room for its data. *)
Definition fits (x : exch) : Prop := match x with EBlock _ l => (length l <= 1024)%nat | _ => True end.

(** ** What a piece of the loader does when everything is answered *)

Definition ready (d : dev) : Prop :=
  mgr_state d = RWNX_CMD_MGR_STATE_INITED /\ cmds d = [] /\ queue_sz d = 0 /\ max_queue_sz d = RWNX_CMD_MAX_QUEUED.
(** The device without what every request changes. *)
Definition core (d : dev) : dev := d <| heap := ∅ |> <| next_ptr := O |> <| next_tkn := 0 |> <| turns := [] |> <| trace := [] |>.

Definition runs {A} (c : dev) (m : M A) (xs : list exch) (a : A) (c' : dev) : Prop :=
  forall d ts rest, ready d -> core d = c -> turns d = ts ++ rest -> Forall2 serves xs ts ->
  exists d', m d = (Ok a, d') /\ ready d' /\ core d' = c' /\ turns d' = rest /\ trace d' = trace d ++ flat_map events xs.

Lemma runs_ret {A} c (a : A) : runs c (mret a) [] a c.
Proof.
  intros d ts rest Hr Hc Ht Hs. apply Forall2_nil_inv_l in Hs as ->. exists d. cbn. rewrite app_nil_r. auto.
Qed.
Lemma runs_bind {A B} c (m : M A) (f : A -> M B) xs ys a b c' c'' :
  runs c m xs a c' -> runs c' (f a) ys b c'' -> runs c (m ≫= f) (xs ++ ys) b c''.
Proof.
  intros Hm Hf d ts rest Hr Hc Ht Hs. apply Forall2_app_inv_l in Hs as (t1 & t2 & H1 & H2 & ->).
  rewrite <- app_assoc in Ht. destruct (Hm d t1 (t2 ++ rest) Hr Hc Ht H1) as (d1 & E1 & R1 & C1 & T1 & L1).
  destruct (Hf d1 t2 rest R1 C1 T1 H2) as (d2 & E2 & R2 & C2 & T2 & L2). exists d2. unfold mbind, M_bind. rewrite E1.
  rewrite L2, L1, flat_map_app, <- app_assoc. auto.
Qed.
Lemma runs_gets {A} c (f : dev -> A) : (forall d, core d = c -> f d = f c) -> runs c (gets f) [] (f c) c.
Proof.
  intros Hf d ts rest Hr Hc Ht Hs. apply Forall2_nil_inv_l in Hs as ->. exists d. unfold gets. cbn. rewrite app_nil_r, (Hf d Hc). auto.
Qed.
Lemma runs_lift {A} c (r : res A) a : r = Ok a -> runs c (lift r) [] a c.
Proof. intros ->. apply (runs_ret c a). Qed.

(** ** Steps of the monad *)

Lemma bind_ok {A B} (m : M A) (f : A -> M B) d a d' : m d = (Ok a, d') -> (m ≫= f) d = f a d'.
Proof. intros E. unfold mbind, M_bind. now rewrite E. Qed.
Lemma bind_gets {A B} (g : dev -> A) (f : A -> M B) d : (gets g ≫= f) d = f (g d) d.
Proof. reflexivity. Qed.
Lemma bind_modify {B} g (f : unit -> M B) d : (modify g ≫= f) d = f tt (g d).
Proof. reflexivity. Qed.
Lemma bind_emit {B} ev (f : unit -> M B) d : (emit ev ≫= f) d = f tt (d <| trace ::= fun l => l ++ [ev] |>).
Proof. reflexivity. Qed.
Lemma bind_put {B} p c (f : unit -> M B) d : (put p c ≫= f) d = f tt (d <| heap ::= <[p := c]> |>).
Proof. reflexivity. Qed.
Lemma bind_kfree {B} p (f : unit -> M B) d : (kfree p ≫= f) d = f tt (d <| heap ::= delete p |>).
Proof. reflexivity. Qed.
Lemma bind_ret {A B} (a : A) (f : A -> M B) d : (mret a ≫= f) d = f a d.
Proof. reflexivity. Qed.
Lemma bind_lift {A B} (r : res A) a (f : A -> M B) d : r = Ok a -> (lift r ≫= f) d = f a d.
Proof. intros ->. reflexivity. Qed.
Lemma bind_deref {B} p c (f : rwnx_cmd -> M B) d : heap d !! p = Some c -> (deref p ≫= f) d = f c d.
Proof. intros E. unfold mbind, M_bind, deref, gets, lift. unfold mbind, M_bind. now rewrite E. Qed.
Lemma bind_assoc {A B C} (m : M A) (f : A -> M B) (g : B -> M C) d : ((m ≫= f) ≫= g) d = (m ≫= fun a => f a ≫= g) d.
Proof. unfold mbind, M_bind. now destruct (m d) as [[a|e] d']. Qed.

(** ** One request *)

Lemma deliver_none l d : cmds d = [] -> Forall known l -> deliver l d = (Ok tt, d).
Proof.
  intros Hc. induction 1 as [|m l Hm _ IH]; [done|]. cbn [deliver]. unfold mbind, M_bind, rwnx_rx_handle_msg.
  unfold mbind, M_bind, lift. unfold known in Hm. rewrite Hm. unfold cmd_mgr_msgind, mbind, M_bind, gets. rewrite Hc. cbn [msg_scan].
  unfold mret, M_ret. exact IH.
Qed.

(** The message that confirms the only command. *)
Definition settled (p : nat) (c : rwnx_cmd) (b : option stack_bytes) (d : dev) : dev :=
  d <| cmds := [] |> <| queue_sz ::= fun n => u32 (n - 1) |>
    <| heap ::= <[p := c <| cmd_flags := 34 |> <| cmd_result := 0 |> <| cmd_done := true |> <| cmd_e2a_msg := b |>]> |>.
Definition copied (b : option stack_bytes) (m : ipc_e2a_msg) (b' : option stack_bytes) : Prop :=
  match b with
  | None => b' = None
  | Some b => e2a_param_len m = 8 /\ (8 <= length (e2a_param m))%nat /\ length b = 8%nat /\ b' = Some (map Some (take 8 (e2a_param m)))
  end.

Lemma scan_match p c m d b' : cmds d = [p] -> heap d !! p = Some c -> cmd_flags c = 18 -> cmd_reqid c = e2a_id m -> copied (cmd_e2a_msg c) m b' ->
  msg_scan [p] m d = (Ok tt, settled p c b' d).
Proof.
  intros Hl Hp Hf Hid Hb. cbn [msg_scan]. unfold deref. unfold mbind, M_bind, gets, lift. rewrite Hp. cbn [from_option_res].
  rewrite Hid, Z.eqb_refl, Hf. change (has 18 Mgr.RWNX_CMD_FLAG_WAIT_CFM) with true. cbn [andb].
  set (c1 := c <| cmd_flags ::= _ |>). assert (cmd_flags c1 = 2) as F1 by (cbn; now rewrite Hf).
  assert (store_cfm m (if RWNX_CMD_E2AMSG_LEN_MAX <? e2a_param_len m then RWNX_CMD_E2AMSG_LEN_MAX else e2a_param_len m) c1 d =
    (Ok (c1 <| cmd_e2a_msg := b' |>), d)) as ->.
  { unfold store_cfm, copied in *. change (cmd_e2a_msg c1) with (cmd_e2a_msg c). destruct (cmd_e2a_msg c) as [b|] eqn:Eb.
    - destruct Hb as (-> & Hlen & Hb & ->). change (RWNX_CMD_E2AMSG_LEN_MAX <? 8) with false. cbv iota. change (8 =? 0) with false. cbv iota.
      unfold mbind, M_bind, lift. rewrite Md5Facts.slice_within by lia. change (Z.to_nat 8) with 8%nat. change (Z.to_nat 0) with 0%nat. rewrite drop_0.
      unfold stack_copy. rewrite length_take, Nat.min_l by lia. rewrite (proj2 (Nat.leb_le 8 (length b))) by lia. rewrite drop_ge by lia. now rewrite app_nil_r.
    - subst b'. unfold mret, M_ret. do 2 f_equal. destruct c; cbn in *; now subst. }
  set (c2 := c1 <| cmd_e2a_msg := b' |>). unfold put, modify. change (cmd_flags c2) with (cmd_flags c1). rewrite F1.
  change (Mgr.RWNX_CMD_WAIT_COMPLETE 2) with true. cbv iota. unfold cmd_complete, deref, put, modify. unfold mbind, M_bind, gets, lift. cbn [heap dev_eta record_eta field_set cmds].
  rewrite lookup_insert_eq. cbn [from_option_res]. change (cmd_flags c2) with (cmd_flags c1). rewrite F1.
  change (setf 2 Mgr.RWNX_CMD_FLAG_DONE) with 34. change (has 34 Mgr.RWNX_CMD_FLAG_NONBLOCK) with false. change (Mgr.RWNX_CMD_WAIT_COMPLETE 34) with true. cbv iota.
  f_equal. unfold settled. destruct d; cbn in *. subst. rewrite insert_insert_eq. rewrite filter_cons_False by auto. done.
Qed.

Lemma deliver_match p c l m d b' : cmds d = [p] -> heap d !! p = Some c -> cmd_flags c = 18 -> Forall known l ->
  answer (cmd_reqid c) l = Some m -> copied (cmd_e2a_msg c) m b' -> deliver l d = (Ok tt, settled p c b' d).
Proof.
  intros Hl Hp Hf Hk. revert m. induction Hk as [|m0 l Hm Hk IH]; intros m Ha Hb; [done|]. cbn [deliver]. unfold answer in Ha. cbn [List.find] in Ha.
  unfold rwnx_rx_handle_msg. unfold known in Hm. unfold mbind, M_bind, lift. rewrite Hm. unfold cmd_mgr_msgind, mbind, M_bind, gets. rewrite Hl.
  destruct (Z.eqb_spec (e2a_id m0) (cmd_reqid c)) as [E|E].
  - injection Ha as ->. rewrite (scan_match p c m d b') by auto. rewrite deliver_none; [done|done|exact Hk].
  - assert (msg_scan [p] m0 d = (Ok tt, d)) as ->.
    { cbn [msg_scan]. unfold deref. unfold mbind, M_bind, gets, lift. rewrite Hp. cbn [from_option_res].
      rewrite (proj2 (Z.eqb_neq (cmd_reqid c) (e2a_id m0))) by auto. done. }
    now apply (IH m).
Qed.

Lemma set_cmd_tx_ok id param : (length param <= 1100)%nat ->
  let m := Mgr.mk_msg id TASK_DBG DRV_TASK_ID (Z.of_nat (length param)) param in
  Wire.aicwf_set_cmd_tx m (Wire.RWNX_CMD_A2EMSG_LEN m) =
    Ok ([Z.land (8 + Z.of_nat (length param) + 4) 255; Z.land (Z.shiftr (8 + Z.of_nat (length param) + 4) 8) 15; 17; 0; 0; 0; 0; 0] ++
        Wire.put_u16 id ++ Wire.put_u16 TASK_DBG ++ Wire.put_u16 DRV_TASK_ID ++ Wire.put_u16 (Z.of_nat (length param)) ++ param).
Proof.
  intros Hl m. unfold Wire.aicwf_set_cmd_tx. subst m. cbn [Mgr.param_len Mgr.param Mgr.msg_id Mgr.dest_id Mgr.src_id].
  change (Wire.CMD_BUF_MAX - 16) with 1520. rewrite (proj2 (Z.ltb_ge 1520 _)) by lia. rewrite (proj2 (Z.ltb_ge (Z.of_nat (length param)) _)) by lia.
  rewrite Nat2Z.id, firstn_all. unfold Wire.RWNX_CMD_A2EMSG_LEN. cbn [Mgr.param_len]. f_equal.
  set (b := _ ++ Wire.put_u16 id ++ _). rewrite take_app_le.
  - apply take_ge. subst b. rewrite !length_app. cbn [length Wire.put_u16]. lia.
  - subst b. rewrite !length_app. cbn [length Wire.put_u16]. lia.
Qed.

(** What a confirmed request leaves in the caller's structure. *)
Definition cfm_after (cfm : option stack_bytes) (m : ipc_e2a_msg) : option stack_bytes :=
  match cfm with None => None | Some _ => Some (map Some (take 8 (e2a_param m))) end.

Lemma queue_confirmed d p c t id param m :
  ready d -> heap d !! p = Some c -> cmd_flags c = 2 -> Forall known (arrive t) -> answer (cmd_reqid c) (arrive t) = Some m ->
  copied (cmd_e2a_msg c) m (cfm_after (cmd_e2a_msg c) m) -> (length param <= 1100)%nat ->
  exists d', cmd_mgr_queue p (Mgr.mk_msg id TASK_DBG DRV_TASK_ID (Z.of_nat (length param)) param) t d = (Ok (0, cfm_after (cmd_e2a_msg c) m), d') /\
    ready d' /\ core d' = core d /\ turns d' = turns d /\
    trace d' = trace d ++ [Sent ([Z.land (8 + Z.of_nat (length param) + 4) 255; Z.land (Z.shiftr (8 + Z.of_nat (length param) + 4) 8) 15; 17; 0; 0; 0; 0; 0] ++
        Wire.put_u16 id ++ Wire.put_u16 TASK_DBG ++ Wire.put_u16 DRV_TASK_ID ++ Wire.put_u16 (Z.of_nat (length param)) ++ param); Confirmed].
Proof.
  intros (R1 & R2 & R3 & R4) Hp Hf Hk Ha Hcp Hlen. unfold cmd_mgr_queue. set (msg := Mgr.mk_msg id _ _ _ _).
  rewrite bind_gets, (bind_deref p c) by done. rewrite R1. rewrite decide_False by discriminate.
  rewrite R2. change (bool_decide (@nil nat = [])) with true. cbn [negb andb]. change (last []) with (@None nat). cbn [last_waits].
  rewrite bind_ret. cbv zeta. rewrite Hf. change (Mgr.req_cfm_flags 2) with 18. rewrite bind_put, bind_modify. cbv iota.
  rewrite (bind_ok (aicwf_set_cmd_tx msg) _ _ tt _) by (unfold aicwf_set_cmd_tx; rewrite (bind_lift _ _ _ _ (set_cmd_tx_ok id param Hlen)); reflexivity).
  change (has 18 Mgr.RWNX_CMD_FLAG_NONBLOCK) with false. cbv iota.
  match goal with |- context [(wait p t ≫= _) ?x] => set (d3 := x) end.
  set (c2 := c <| cmd_flags := 18 |> <| cmd_tkn := next_tkn d |> <| cmd_result := u32 (- Mgr.EINTR) |> <| cmd_done := false |>).
  assert (heap d3 !! p = Some c2) as Hp3 by (subst d3; cbn; apply lookup_insert_eq).
  set (d4 := settled p c2 (cfm_after (cmd_e2a_msg c) m) d3).
  assert (deliver (arrive t) d3 = (Ok tt, d4)) as Ed.
  { apply (deliver_match p c2 (arrive t) m d3 (cfm_after (cmd_e2a_msg c) m)); [subst d3; cbn; now rewrite R2|done|done|done|done|done]. }
  assert (heap d4 !! p = Some (c2 <| cmd_flags := 34 |> <| cmd_result := 0 |> <| cmd_done := true |> <| cmd_e2a_msg := cfm_after (cmd_e2a_msg c) m |>)) as Hp4
    by (apply lookup_insert_eq).
  rewrite (bind_ok (wait p t) _ d3 1 d4) by (unfold wait; rewrite (bind_ok _ _ _ _ _ Ed), (bind_deref _ _ _ _ Hp4); reflexivity).
  rewrite (bind_deref _ _ _ _ Hp4). change (1 =? 0) with false. change (0 <? 1) with true. cbv iota. rewrite bind_emit, bind_kfree.
  eexists. split; [reflexivity|]. subst d4. unfold settled. subst d3. unfold ready, core. destruct d. cbn in *. subst. cbn.
  split_and!; try done. rewrite <- app_assoc. reflexivity.
Qed.

Lemma request_confirmed d t rest id param reqid cfm m :
  ready d -> turns d = t :: rest -> msg_alloc t = true -> cmd_alloc t = true -> bus_down t = false ->
  Forall known (arrive t) -> answer reqid (arrive t) = Some m -> copied cfm m (cfm_after cfm m) -> (length param <= 1100)%nat ->
  exists d', request id param true reqid cfm d = (Ok (0, cfm_after cfm m), d') /\ ready d' /\ core d' = core d /\ turns d' = rest /\
    trace d' = trace d ++ [Sent ([Z.land (8 + Z.of_nat (length param) + 4) 255; Z.land (Z.shiftr (8 + Z.of_nat (length param) + 4) 8) 15; 17; 0; 0; 0; 0; 0] ++
        Wire.put_u16 id ++ Wire.put_u16 TASK_DBG ++ Wire.put_u16 DRV_TASK_ID ++ Wire.put_u16 (Z.of_nat (length param)) ++ param); Confirmed].
Proof.
  intros R Ht Hma Hca Hbd Hk Ha Hcp Hlen. unfold request, next_turn. rewrite bind_assoc, bind_gets, bind_assoc, bind_modify, bind_ret.
  rewrite Ht. change (default silent (head (t :: rest))) with t. rewrite Hma. cbn [negb]. unfold rwnx_send_msg. rewrite Hbd, Hca. cbn [negb].
  unfold kzalloc. rewrite bind_assoc, bind_gets, bind_assoc, bind_modify, bind_ret. erewrite bind_deref by (cbn; apply lookup_insert_eq). rewrite bind_put.
  match goal with |- context [cmd_mgr_queue ?p ?msg t ?d2] =>
    edestruct (queue_confirmed d2 p (mk_cmd id reqid 0 2 false (u32 (- Mgr.EINTR)) cfm) t id param m) as (d' & E & R' & C' & T' & L') end;
    [| | | | | | |exists d'; split; [exact E|]]; try done.
  - cbn. apply lookup_insert_eq.
  - split; [exact R'|]. split; [rewrite C'; now destruct d|]. split; [rewrite T'; cbn; now rewrite Ht|]. rewrite L'. done.
Qed.

Lemma request_unconfirmed d t rest id param reqid cfm :
  ready d -> turns d = t :: rest -> msg_alloc t = true -> cmd_alloc t = true -> bus_down t = false -> (length param <= 1100)%nat ->
  exists d', request id param false reqid cfm d = (Ok (0, cfm), d') /\ ready d' /\ core d' = core d /\ turns d' = rest /\
    trace d' = trace d ++ [Sent ([Z.land (8 + Z.of_nat (length param) + 4) 255; Z.land (Z.shiftr (8 + Z.of_nat (length param) + 4) 8) 15; 17; 0; 0; 0; 0; 0] ++
        Wire.put_u16 id ++ Wire.put_u16 TASK_DBG ++ Wire.put_u16 DRV_TASK_ID ++ Wire.put_u16 (Z.of_nat (length param)) ++ param)].
Proof.
  intros (R1 & R2 & R3 & R4) Ht Hma Hca Hbd Hlen. unfold request, next_turn. rewrite bind_assoc, bind_gets, bind_assoc, bind_modify, bind_ret.
  rewrite Ht. change (default silent (head (t :: rest))) with t. rewrite Hma. cbn [negb]. unfold rwnx_send_msg. rewrite Hbd, Hca. cbn [negb].
  unfold kzalloc. rewrite bind_assoc, bind_gets, bind_assoc, bind_modify, bind_ret.
  erewrite (bind_ok (aicwf_set_cmd_tx _)) by (unfold aicwf_set_cmd_tx; rewrite (bind_lift _ _ _ _ (set_cmd_tx_ok id param Hlen)); reflexivity).
  rewrite bind_kfree. eexists. split; [reflexivity|]. unfold ready, core. destruct d. cbn in *. subst. done.
Qed.

(** ** The requests *)

Lemma word32_bytes x : word32 x = Md5Spec.le_bytes 4 x.
Proof. unfold word32. apply Md5Facts.encode_word. Qed.
Lemma word32_val x : 0 <= x < 2 ^ 32 -> Table.le_word (word32 x) = x.
Proof.
  intros Hx. rewrite word32_bytes. unfold Md5Spec.le_bytes. cbn [seq fmap list_fmap Table.le_word].
  change (8 * Z.of_nat 0) with 0. change (8 * Z.of_nat 1) with 8. change (8 * Z.of_nat 2) with 16. change (8 * Z.of_nat 3) with 24.
  change (2 ^ 0) with 1. change (2 ^ 8) with 256. change (2 ^ 16) with 65536. change (2 ^ 24) with 16777216. change (2 ^ 32) with 4294967296 in Hx.
  Z.div_mod_to_equations. lia.
Qed.
Lemma length_word32 x : length (word32 x) = 4%nat.
Proof. done. Qed.

Lemma serves_cons_inv x xs ts : Forall2 serves (x :: xs) ts -> exists t ts', ts = t :: ts' /\ serves x t /\ Forall2 serves xs ts'.
Proof. intros H. inversion H; subst; eauto. Qed.

Lemma runs_request {A} c x (m : M A) a :
  (forall d t rest, ready d -> turns d = t :: rest -> serves x t ->
     exists d', m d = (Ok a, d') /\ ready d' /\ core d' = core d /\ turns d' = rest /\ trace d' = trace d ++ events x) ->
  runs c m [x] a c.
Proof.
  intros H d ts rest Hr Hc Ht Hs. apply serves_cons_inv in Hs as (t & ts' & -> & Hx & Hn). apply Forall2_nil_inv_l in Hn as ->.
  destruct (H d t rest Hr Ht Hx) as (d' & E & R & C & T & L). exists d'. cbn [flat_map]. rewrite app_nil_r. rewrite C. auto.
Qed.

(** The requests without a structure for the answer. *)
Lemma runs_confirmed c x id param reqid :
  msg_of x = Mgr.mk_msg id TASK_DBG DRV_TASK_ID (Z.of_nat (length param)) param -> cfm_of x = Some reqid -> (length param <= 1100)%nat ->
  runs c (r ← request id param true reqid None; mret r.1) [x] 0 c.
Proof.
  intros Hm Hid Hlen. apply runs_request. intros d t rest Hr Ht (S1 & S2 & S3 & S4). rewrite Hid in S4. destruct S4 as [Sk Sa].
  destruct (answer reqid (arrive t)) as [m|] eqn:Ea; [|done].
  destruct (request_confirmed d t rest id param reqid None m Hr Ht S1 S2 S3 Sk Ea eq_refl Hlen) as (d' & E & R & C & T & L).
  exists d'. rewrite (bind_ok _ _ _ _ _ E). split; [done|]. repeat (split; [done|]). rewrite L. unfold events, frame_of. rewrite Hm, Hid. done.
Qed.

Lemma runs_write c a v : runs c (rwnx_send_dbg_mem_write_req a v) [EWrite a v] 0 c.
Proof. apply (runs_confirmed c (EWrite a v) DBG_MEM_WRITE_REQ (word32 a ++ word32 v) DBG_MEM_WRITE_CFM); [done|done|]. rewrite length_app, !length_word32. lia. Qed.
Lemma runs_mask c a k v : runs c (rwnx_send_dbg_mem_mask_write_req a k v) [EMask a k v] 0 c.
Proof.
  apply (runs_confirmed c (EMask a k v) DBG_MEM_MASK_WRITE_REQ (word32 a ++ word32 k ++ word32 v) DBG_MEM_MASK_WRITE_CFM); [done|done|].
  rewrite !length_app, !length_word32. lia.
Qed.
Lemma runs_start c a ty : runs c (rwnx_send_dbg_start_app_req a ty) [EStart a ty] 0 c.
Proof.
  apply runs_request. intros d t rest Hr Ht (S1 & S2 & S3 & _).
  destruct (request_unconfirmed d t rest DBG_START_APP_REQ (word32 a ++ word32 ty) 0 None Hr Ht S1 S2 S3) as (d' & E & R & C & T & L); [rewrite length_app, !length_word32; lia|].
  exists d'. unfold rwnx_send_dbg_start_app_req. rewrite (bind_ok _ _ _ _ _ E). split; [done|]. repeat (split; [done|]). rewrite L. done.
Qed.
Lemma runs_block c a n mem : 0 <= n <= 1024 -> n <= Z.of_nat (length mem) ->
  runs c (rwnx_send_dbg_mem_block_write_req a n mem) [EBlock a (take (Z.to_nat n) mem)] 0 c.
Proof.
  intros Hn Hm. apply runs_request. intros d t rest Hr Ht Hs. unfold rwnx_send_dbg_mem_block_write_req.
  rewrite bind_gets, Ht. change (default silent (head (t :: rest))) with t. destruct Hs as (S1 & S2 & S3 & S4). rewrite S1. cbn [negb].
  rewrite (proj2 (Z.ltb_ge 1024 n)) by lia. rewrite (bind_lift _ (take (Z.to_nat n) mem)) by (rewrite Md5Facts.slice_within by lia; change (Z.to_nat 0) with 0%nat; now rewrite drop_0).
  set (l := take (Z.to_nat n) mem) in *. assert (Z.of_nat (length l) = n) as El by (subst l; rewrite length_take; lia). rewrite <- El.
  destruct (runs_confirmed (core d) (EBlock a l) DBG_MEM_BLOCK_WRITE_REQ
    (word32 a ++ word32 (Z.of_nat (length l)) ++ l ++ replicate (1024 - length l) 0) DBG_MEM_BLOCK_WRITE_CFM eq_refl eq_refl) with (d := d) (ts := [t]) (rest := rest)
    as (d' & E & R & C & T & L); [rewrite !length_app, length_replicate, !length_word32; lia|done|done|done| |].
  - constructor; [|constructor]. unfold serves. auto.
  - exists d'. cbn [flat_map] in L. rewrite app_nil_r in L. auto.
Qed.

(** A read, and what is done with the word. *)
Lemma runs_read {A} c a v cfm (k : Z * stack_bytes -> M A) xs r c' : length cfm = 8%nat ->
  (forall cfm', length cfm' = 8%nat -> memdata cfm' = mret v -> runs c (k (0, cfm')) xs r c') ->
  runs c (rwnx_send_dbg_mem_read_req a cfm ≫= k) (ERead a v :: xs) r c'.
Proof.
  intros Hb Hk d ts rest Hr Hc Ht Hs. apply serves_cons_inv in Hs as (t & ts' & -> & (S1 & S2 & S3 & S4) & Hn). cbn [cfm_of] in S4. destruct S4 as [Sk Sa].
  destruct (answer DBG_MEM_READ_CFM (arrive t)) as [m|] eqn:Ea; [|done]. destruct Sa as (P1 & P2 & P3 & P4).
  destruct (request_confirmed d t (ts' ++ rest) DBG_MEM_READ_REQ (word32 a) DBG_MEM_READ_CFM (Some cfm) m Hr Ht S1 S2 S3 Sk Ea) as (d1 & E & R & C & T & L);
    [repeat split; done|cbn; lia|]. cbn [cfm_after] in E. set (cfm' := map Some (take 8 (e2a_param m))) in *.
  assert (memdata cfm' = mret v /\ length cfm' = 8%nat) as [Hmd Hl8].
  { subst cfm'. rewrite length_map, length_take. split; [|lia]. destruct (e2a_param m) as [|b0 [|b1 [|b2 [|b3 [|b4 [|b5 [|b6 [|b7 l]]]]]]]]; cbn [length] in P2; try lia.
    cbn [take drop] in P3. cbn [take map memdata]. rewrite <- (word32_val v P4), <- P3. done. }
  destruct (Hk cfm' Hl8 Hmd d1 ts' rest R (eq_trans C Hc) T Hn) as (d2 & E2 & R2 & C2 & T2 & L2). exists d2.
  rewrite (bind_ok (rwnx_send_dbg_mem_read_req a cfm) k d (0, cfm') d1) by (unfold rwnx_send_dbg_mem_read_req; rewrite (bind_ok _ _ _ _ _ E); reflexivity).
  split; [exact E2|]. repeat (split; [done|]). rewrite L2, L. cbn [flat_map]. now rewrite <- app_assoc.
Qed.
Lemma runs_read_word c a v cfm k xs r c' : length cfm = 8%nat ->
  (forall cfm', length cfm' = 8%nat -> runs c (k v cfm') xs r c') -> runs c (Conf.read_word a cfm k) (ERead a v :: xs) r c'.
Proof.
  intros Hb Hk. apply runs_read; [done|]. intros cfm' Hl Hm. cbn [fst snd]. rewrite Z.eqb_refl. rewrite Hm.
  apply (runs_bind c _ _ [] xs v r c c'); [apply runs_ret|now apply Hk].
Qed.

(** ** Sequences *)

Lemma runs_modify c g : (forall d, ready d -> core d = c -> ready (g d) /\ core (g d) = g c /\ turns (g d) = turns d /\ trace (g d) = trace d) ->
  runs c (modify g) [] tt (g c).
Proof.
  intros Hg d ts rest Hr Hc Ht Hs. apply Forall2_nil_inv_l in Hs as ->. destruct (Hg d Hr Hc) as (R & C & T & L). exists (g d).
  split; [done|]. rewrite C, T, L. cbn. now rewrite app_nil_r.
Qed.
Lemma runs_orelse c m k xs ys r c' c'' : runs c m xs 0 c' -> runs c' k ys r c'' -> runs c (orelse m k) (xs ++ ys) r c''.
Proof. intros Hm Hk. unfold orelse. apply (runs_bind c m _ xs ys 0 r c' c'' Hm). now rewrite Z.eqb_refl. Qed.
Lemma runs_orfail c e m k xs ys r c' c'' : runs c m xs 0 c' -> runs c' k ys r c'' -> runs c (orfail e m k) (xs ++ ys) r c''.
Proof. intros Hm Hk. unfold orfail. apply (runs_bind c m _ xs ys 0 r c' c'' Hm). now rewrite Z.eqb_refl. Qed.
Lemma runs_steps_nil c : runs c (Start.steps []) [] 0 c.
Proof. apply runs_ret. Qed.
Lemma runs_steps_cons c m l xs ys r c' c'' : runs c m xs 0 c' -> runs c' (Start.steps l) ys r c'' -> runs c (Start.steps (m :: l)) (xs ++ ys) r c''.
Proof. apply runs_orfail. Qed.

Definition writes (l : list (Z * Z)) : list exch := (fun p => EWrite p.1 p.2) <$> l.
Lemma runs_write_tbl c l : runs c (Conf.write_tbl l) (writes l) 0 c.
Proof.
  induction l as [|[a v] l IH]; [apply runs_ret|]. cbn [Conf.write_tbl writes fmap list_fmap fst snd].
  apply (runs_orelse c _ _ [EWrite a v] (writes l) 0 c c); [apply runs_write|exact IH].
Qed.
Lemma runs_write_last c l : runs c (Conf.write_last 0 l) (writes l) 0 c.
Proof.
  induction l as [|[a v] l IH]; [apply runs_ret|]. cbn [Conf.write_last writes fmap list_fmap fst snd].
  apply (runs_bind c _ _ [EWrite a v] (writes l) 0 0 c c); [apply runs_write|exact IH].
Qed.

End Exch.

(** * Files and blocks *)

Module Blocks.
Import Fw Image Exch.

(** The bytes of a file that is found and read whole. *)
Definition whole (f : file) : bool := (0 <? i_size f) && (i_size f <? 2 ^ 31) && (Z.of_nat (length (content f)) =? i_size f).
Definition file_at (e : env) (c : AICWF_IC) (name : string) : option (list Z) :=
  match fw_path e c name with
  | Ok path =>
      if (String.length path <? FW_PATH_MAX)%nat then
        f ← filp_open e path;
        if whole f then Some (content f) else None
      else None
  | Fault _ => None
  end.

(** Block [j] of the upload of [l] to [a]. *)
Definition block_at (a : Z) (l : list Z) (j : nat) : exch := EBlock (u32 (a + 1024 * Z.of_nat j)) (take 1024 (drop (1024 * j) l)).
Definition block_count (l : list Z) : nat := (length l + 1023) / 1024.
Definition upload_xs (a : Z) (l : list Z) : list exch := block_at a l <$> seq 0 (block_count l).

Lemma block_count_bounds l : l <> [] -> exists n, block_count l = S n /\ (1024 * n < length l <= 1024 * S n)%nat.
Proof.
  intros Hl. assert (0 < length l)%nat by (destruct l; cbn; [done|lia]). unfold block_count.
  pose proof (Nat.div_mod_eq (length l + 1023) 1024). pose proof (Nat.mod_upper_bound (length l + 1023) 1024 ltac:(lia)).
  exists ((length l + 1023) / 1024 - 1)%nat. lia.
Qed.

Lemma runs_block_at c a l j : (1024 * j < length l)%nat -> Z.of_nat (length l) < 2 ^ 31 ->
  let n := if (1024 * S j <? length l)%nat then 1024 else Z.of_nat (length l) - 1024 * Z.of_nat j in
  runs c (rwnx_send_dbg_mem_block_write_req (u32 (a + 1024 * Z.of_nat j)) n (drop (Z.to_nat (4 * (1024 * Z.of_nat j / 4))) l)) [block_at a l j] 0 c.
Proof.
  intros Hj Hl. cbv zeta. assert (Z.to_nat (4 * (1024 * Z.of_nat j / 4)) = 1024 * j)%nat as -> by (Z.div_mod_to_equations; lia).
  unfold block_at. destruct (Nat.ltb_spec (1024 * S j) (length l)).
  - apply (runs_block c _ 1024 (drop (1024 * j) l)); [lia|rewrite length_drop; lia].
  - assert (take 1024 (drop (1024 * j) l) = take (Z.to_nat (Z.of_nat (length l) - 1024 * Z.of_nat j)) (drop (1024 * j) l)) as ->.
    { rewrite !take_ge by (rewrite length_drop; lia). done. }
    destruct (Nat.le_gt_cases (length l) (1024 * S j)); [|lia]. apply runs_block; [lia|rewrite length_drop; lia].
Qed.

Lemma runs_block_loop c a l n k : (1 <= n)%nat -> (1024 * n < length l <= 1024 * S n)%nat -> Z.of_nat (length l) < 2 ^ 31 -> (k <= n)%nat ->
  forall fuel, (k <= fuel)%nat ->
  runs c (block_loop fuel a (1024 * Z.of_nat (n - k)) (u32 (Z.of_nat (length l) - 1024)) l) (block_at a l <$> seq (n - k) k) (1024 * Z.of_nat n, 0) c.
Proof.
  intros H1 Hn Hl. rewrite wrapU_small by lia. induction k as [|k IH]; intros Hk fuel Hf.
  - rewrite Nat.sub_0_r. assert (block_loop fuel a (1024 * Z.of_nat n) (Z.of_nat (length l) - 1024) l = mret (1024 * Z.of_nat n, 0)) as ->; [|apply runs_ret].
    destruct fuel; cbn [block_loop]; now rewrite (proj2 (Z.ltb_ge (1024 * Z.of_nat n) _)) by lia.
  - destruct fuel as [|fuel]; [lia|]. cbn [block_loop]. rewrite (proj2 (Z.ltb_lt (1024 * Z.of_nat (n - S k)) (Z.of_nat (length l) - 1024))) by lia.
    replace (seq (n - S k) (S k)) with ((n - S k)%nat :: seq (n - k) k) by (cbn [seq]; do 2 f_equal; lia). cbn [fmap list_fmap].
    pose proof (runs_block_at c a l (n - S k) ltac:(lia) Hl) as Hb. cbv zeta in Hb. rewrite (proj2 (Nat.ltb_lt (1024 * S (n - S k)) (length l))) in Hb by lia.
    apply (runs_bind c _ _ [block_at a l (n - S k)] _ 0 _ c c Hb). cbn [Z.eqb]. rewrite wrapU_small by lia.
    replace (1024 * Z.of_nat (n - S k) + 1024) with (1024 * Z.of_nat (n - k)) by lia. apply IH; lia.
Qed.

Lemma runs_upload_blocks c a l : l <> [] -> Z.of_nat (length l) < 2 ^ 31 ->
  runs c (upload_blocks a (Z.of_nat (length l)) l) (upload_xs a l) 0 c.
Proof.
  intros Hne Hl. destruct (block_count_bounds l Hne) as (n & Ec & Hn). unfold upload_blocks, upload_xs. rewrite Ec, seq_S, fmap_app. cbn [fmap list_fmap].
  apply (runs_bind c _ _ (block_at a l <$> seq 0 n) [block_at a l n] (1024 * Z.of_nat n, 0) 0 c c).
  - destruct (Z.ltb_spec 1024 (Z.of_nat (length l))) as [Hg|Hg].
    + assert (1 <= n)%nat by lia. pose proof (runs_block_loop c a l n n ltac:(lia) Hn Hl ltac:(lia) (length l / 1024)%nat) as Hb.
      rewrite Nat.sub_diag in Hb. apply Hb. pose proof (Nat.div_mod_eq (length l) 1024). pose proof (Nat.mod_upper_bound (length l) 1024 ltac:(lia)). lia.
    + assert (n = 0)%nat as -> by lia. apply runs_ret.
  - cbn [Z.eqb andb]. rewrite (wrapU_small 32 (Z.of_nat (length l))) by lia. rewrite (proj2 (Z.ltb_lt (1024 * Z.of_nat n) (Z.of_nat (length l)))) by lia. rewrite (wrapU_small 32 (Z.of_nat (length l) - 1024 * Z.of_nat n)) by lia.
    pose proof (runs_block_at c a l n ltac:(lia) Hl) as Hb. cbv zeta in Hb. rewrite (proj2 (Nat.ltb_ge (1024 * S n) (length l))) in Hb by lia. exact Hb.
Qed.

Definition env_ok (e : env) : Prop := length (stack_md5 e) = 64%nat.

Definition printed (l : list Z) (c : dev) : dev := c <| md5s ::= fun h => h ++ [Md5Spec.md5 l] |>.

Lemma file_at_bounds e c name l : file_at e c name = Some l -> l <> [] /\ Z.of_nat (length l) < 2 ^ 31.
Proof.
  unfold file_at. destruct (fw_path e c name); [|done]. destruct (String.length a <? FW_PATH_MAX)%nat; [|done].
  destruct (filp_open e a) as [f|]; [|done]. cbn. destruct (whole f) eqn:E; [|done]. unfold whole in E. change (2 ^ 31) with 2147483648 in *.
  intros [= <-]. apply andb_true_iff in E as [[E1 E2]%andb_true_iff E3]. apply Z.ltb_lt in E1, E2. apply Z.eqb_eq in E3.
  split; [intros E; rewrite E in E3; cbn in E3; lia|lia].
Qed.

Lemma runs_load e c name l : env_ok e -> file_at e (chipid c) name = Some l -> Forall (fun b => 0 <= b < 256) l ->
  runs c (aic_load_firmware e name) [] (Z.of_nat (length l), l) (printed l c).
Proof.
  intros He Hf Hb. pose proof (file_at_bounds _ _ _ _ Hf) as [Hne Hl]. unfold file_at in Hf. unfold aic_load_firmware.
  destruct (fw_path e (chipid c) name) as [path|] eqn:Ep; [|done]. destruct (String.length path <? FW_PATH_MAX)%nat eqn:El; [|done].
  destruct (filp_open e path) as [f|] eqn:Eo; [|done]. cbn in Hf. destruct (whole f) eqn:E; [|done]. unfold whole in E. change (2 ^ 31) with 2147483648 in *. injection Hf as Ec.
  apply andb_true_iff in E as [[E1 E2]%andb_true_iff E3]. apply Z.ltb_lt in E1, E2. apply Z.eqb_eq in E3. rewrite Ec in E3.
  apply (runs_bind c _ _ [] [] (chipid c) _ c _); [apply runs_gets; intros d <-; done|].
  apply (runs_bind c _ _ [] [] path _ c _); [now apply runs_lift|]. rewrite (proj2 (Nat.leb_gt FW_PATH_MAX (String.length path))) by now apply Nat.ltb_lt.
  rewrite Eo, Ec, <- E3, wrapS_small by lia. cbv zeta. rewrite (proj2 (Z.leb_gt (Z.of_nat (length l)) 0)) by lia. rewrite Nat2Z.id, firstn_all, Z.eqb_refl.
  apply (runs_bind c _ _ [] [] (Md5Spec.md5 l) _ c _).
  { apply runs_lift. unfold Md5.digest. cbn [foldM]. destruct (Md5Facts.update_ok [] (Md5.MD5Init (stack_md5 e)) l) as (ctx & -> & R);
      [now apply Md5Facts.init_rep|constructor|exact Hb|lia|]. cbn [mbind res_bind]. now apply Md5Facts.final_ok. }
  apply (runs_bind c _ _ [] [] tt _ (printed l c) _); [|apply runs_ret].
  apply (runs_modify c (fun d => d <| md5s ::= fun h => h ++ [Md5Spec.md5 l] |>)). intros d Hr <-. split_and!; [exact Hr|done|done|done].
Qed.

Lemma runs_upload e c a name l : env_ok e -> file_at e (chipid c) name = Some l -> Forall (fun b => 0 <= b < 256) l ->
  runs c (rwnx_plat_bin_fw_upload_android e a name) (upload_xs a l) 0 (printed l c).
Proof.
  intros He Hf Hb. pose proof (file_at_bounds _ _ _ _ Hf) as [Hne Hl]. unfold rwnx_plat_bin_fw_upload_android.
  apply (runs_bind c _ _ [] (upload_xs a l) (Z.of_nat (length l), l) 0 (printed l c) _); [now apply runs_load|].
  destruct (Z.leb_spec (Z.of_nat (length l)) 0); [destruct l; [done|cbn in *; lia]|]. now apply runs_upload_blocks.
Qed.

(** ** The memory of the chip *)

(** The bytes at consecutive addresses. *)
Fixpoint store (a : Z) (l : list Z) (m : gmap Z Z) : gmap Z Z :=
  match l with [] => m | b :: l => store (u32 (a + 1)) l (<[a := b]> m) end.
(** What the writes leave there; a write under a mask is not interpreted. *)
Definition effect (x : exch) (m : gmap Z Z) : gmap Z Z :=
  match x with EWrite a v => store a (word32 v) m | EBlock a l => store a l m | _ => m end.
Definition image (xs : list exch) (m : gmap Z Z) : gmap Z Z := fold_left (fun m x => effect x m) xs m.

Lemma store_app a l1 l2 m : 0 <= a -> a + Z.of_nat (length (l1 ++ l2)) <= 2 ^ 32 ->
  store a (l1 ++ l2) m = store (u32 (a + Z.of_nat (length l1))) l2 (store a l1 m).
Proof.
  revert a m. induction l1 as [|b l1 IH]; intros a m Ha Hl; cbn [app store length] in *.
  - destruct l2 as [|b l2]; [done|]. cbn [length] in Hl. now rewrite Z.add_0_r, wrapU_small by lia.
  - destruct (l1 ++ l2) as [|x l] eqn:E.
    + apply app_eq_nil in E as [-> ->]. done.
    + rewrite <- E in *. assert (0 < length (l1 ++ l2))%nat by (rewrite E; cbn; lia). rewrite wrapU_small by lia. rewrite IH by lia. do 2 f_equal. lia.
Qed.
Lemma store_lookup a l m x : 0 <= a -> a + Z.of_nat (length l) <= 2 ^ 32 ->
  store a l m !! x = if decide (a <= x < a + Z.of_nat (length l)) then l !! Z.to_nat (x - a) else m !! x.
Proof.
  revert a m. induction l as [|b l IH]; intros a m Ha Hl; cbn [store length] in *.
  - rewrite decide_False by lia. done.
  - destruct l as [|b' l].
    + cbn [store length] in *. destruct (decide (x = a)) as [->|Hne].
      * rewrite lookup_insert_eq, decide_True by lia. now rewrite Z.sub_diag.
      * rewrite lookup_insert_ne by done. now rewrite decide_False by lia.
    + rewrite wrapU_small by (cbn [length] in Hl; lia). rewrite IH by (cbn [length] in *; lia). destruct (decide (x = a)) as [->|Hne].
      * rewrite decide_False, decide_True by (cbn [length] in *; lia). rewrite lookup_insert_eq, Z.sub_diag. done.
      * rewrite lookup_insert_ne by done. destruct (decide (a + 1 <= x < a + 1 + Z.of_nat (length (b' :: l)))).
        -- rewrite decide_True by lia. replace (Z.to_nat (x - a)) with (S (Z.to_nat (x - (a + 1)))) by lia. done.
        -- now rewrite decide_False by lia.
Qed.

Lemma image_upload a l m : 0 <= a -> a + Z.of_nat (length l) <= 2 ^ 32 -> l <> [] -> image (upload_xs a l) m = store a l m.
Proof.
  intros Ha Hl Hne. destruct (block_count_bounds l Hne) as (n & Ec & Hn). unfold upload_xs. rewrite Ec. clear Ec.
  assert (forall k, (k <= n)%nat -> image (block_at a l <$> seq 0 k) m = store a (take (1024 * k) l) m) as Hk.
  { induction k as [|k IH]; intros Hk; [done|]. rewrite seq_S, fmap_app. unfold image in *. rewrite fold_left_app, IH by lia. cbn [fmap list_fmap fold_left effect block_at].
    replace (1024 * S k)%nat with (1024 * k + 1024)%nat by lia. rewrite <- (take_take_drop l (1024 * k) 1024).
    rewrite store_app by (rewrite ?length_app, ?length_take; lia). rewrite length_take, Nat.min_l by lia. do 2 f_equal. lia. }
  rewrite seq_S, fmap_app. unfold image in *. rewrite fold_left_app, Hk by lia. cbn [fmap list_fmap fold_left effect block_at].
  rewrite (take_ge (drop _ l)) by (rewrite length_drop; lia). rewrite <- (take_drop (1024 * n) l) at 3.
  rewrite store_app by (rewrite ?take_drop; lia). rewrite length_take, Nat.min_l by lia. do 2 f_equal. lia.
Qed.
End Blocks.

(** * The patch table *)

Module Tables.
Import Fw Image Table Exch Blocks.

Definition is_byte (b : Z) : Prop := 0 <= b < 256.
Definition is_word (w : Z) : Prop := 0 <= w < 2 ^ 32.

(** A table as a file. *)
Definition encode_entry (p : aicbt_patch_table) : list Z :=
  pt_name p ++ word32 (pt_type p) ++ word32 (pt_len p) ++ flat_map word32 (default [] (pt_data p)).
Definition encode_table (t : list aicbt_patch_table) : list Z := AICBT_PT_TAG ++ [0; 0; 0] ++ flat_map encode_entry t.

Definition wf_entry (p : aicbt_patch_table) : Prop :=
  length (pt_name p) = 16%nat /\ Forall is_byte (pt_name p) /\ is_word (pt_type p) /\
  match pt_data p with
  | None => pt_len p = 0
  | Some l => pt_type p < 1000 /\ 0 < pt_len p < 2 ^ 29 /\ Z.of_nat (length l) = 2 * pt_len p /\ Forall is_word l
  end.

Lemma words_flat l : Forall is_word l -> words (flat_map word32 l) = l.
Proof.
  induction 1 as [|w l Hw _ IH]; [done|]. cbn [flat_map]. assert (words (word32 w ++ flat_map word32 l) = le_word (word32 w) :: words (flat_map word32 l)) as -> by done.
  now rewrite IH, word32_val.
Qed.
Lemma length_flat_words l : length (flat_map word32 l) = (4 * length l)%nat.
Proof. induction l as [|w l IH]; [done|]. cbn [flat_map length]. rewrite length_app, length_word32, IH. lia. Qed.

Lemma le32_mid pre w post i : is_word w -> i = Z.of_nat (length pre) -> le32 (pre ++ word32 w ++ post) i = Ok w.
Proof.
  intros Hw ->. assert (forall k, 0 <= k < 4 -> rd8 (pre ++ word32 w ++ post) (Z.of_nat (length pre) + k) = rd8 (word32 w) k) as Hr.
  { intros k Hk. rewrite rd8_app_r by lia. replace (Z.of_nat (length pre) + k - Z.of_nat (length pre)) with k by lia. apply rd8_app_l. rewrite length_word32. lia. }
  unfold le32, le16. rewrite <- (Z.add_0_r (Z.of_nat (length pre))) at 1. rewrite (Hr 0), (Hr 1) by lia.
  replace (Z.of_nat (length pre) + 2 + 1) with (Z.of_nat (length pre) + 3) by lia. rewrite (Hr 2), (Hr 3) by lia.
  transitivity (Ok (le_word (word32 w))); [|now rewrite word32_val]. change (rd8 (word32 w) 0) with (Ok (Z.land w 255)).
  change (rd8 (word32 w) 1) with (Ok (Z.land (Z.shiftr w 8) 255)). change (rd8 (word32 w) 2) with (Ok (Z.land (Z.shiftr w 16) 255)).
  change (rd8 (word32 w) 3) with (Ok (Z.land (Z.shiftr w 24) 255)). cbn [mbind res_bind word32 le_word]. f_equal. lia.
Qed.

Lemma read_entry_ok pre p post i : wf_entry p -> i = Z.of_nat (length pre) ->
  read_entry (pre ++ encode_entry p ++ post) i = Ok (p, i + Z.of_nat (length (encode_entry p))).
Proof.
  intros (Hn & _ & Ht & Hd) ->. unfold read_entry, encode_entry. set (l := default [] (pt_data p)). rewrite <- !app_assoc.
  rewrite slice_app by (done || (now rewrite Hn)). cbn [mbind res_bind].
  assert (is_word (pt_len p)) as Hlw.
  { unfold is_word. destruct (pt_data p); [|rewrite Hd; lia]. destruct Hd as (_ & Hd & _). change (2 ^ 29) with 536870912 in Hd. lia. }
  assert (length (pre ++ pt_name p) = length pre + 16)%nat as E1 by (rewrite length_app; lia).
  rewrite (app_assoc pre (pt_name p)).
  rewrite (le32_mid (pre ++ pt_name p) (pt_type p) _ (Z.of_nat (length pre) + 16)); [|done|rewrite E1; lia]. cbn [mbind res_bind].
  rewrite (app_assoc (pre ++ pt_name p) (word32 (pt_type p))).
  rewrite (le32_mid ((pre ++ pt_name p) ++ word32 (pt_type p)) (pt_len p) _ (Z.of_nat (length pre) + 20)); [|done|rewrite length_app, E1, length_word32; lia]. cbn [mbind res_bind].
  subst l. destruct p as [name type data len]. cbn [pt_name pt_type pt_data pt_len] in *. destruct data as [l|].
  - destruct Hd as (H1 & H2 & H3 & H4). change (2 ^ 29) with 536870912 in H2. rewrite (proj2 (Z.leb_gt 1000 type)) by lia. rewrite (proj2 (Z.eqb_neq len 0)) by lia. change (default [] (Some l)) with l. cbn [orb].
    rewrite wrapU_small by lia. rewrite (app_assoc _ (word32 len)). rewrite slice_app.
    + cbn [mbind res_bind]. rewrite words_flat by done. replace (2 * len - len * 8 / 4) with 0 by (Z.div_mod_to_equations; lia). change (replicate (Z.to_nat 0) 0) with (@nil Z).
      rewrite app_nil_r. do 2 f_equal. rewrite !length_app, !length_word32, length_flat_words. lia.
    + rewrite !length_app, !length_word32. lia.
    + rewrite length_flat_words. lia.
  - subst len. rewrite Z.eqb_refl, orb_true_r. change (default [] None) with (@nil Z). do 2 f_equal. rewrite !length_app, !length_word32. cbn [flat_map length]. lia.
Qed.

Lemma length_entry p : length (pt_name p) = 16%nat -> (24 <= length (encode_entry p))%nat.
Proof. intros Hn. unfold encode_entry. rewrite !length_app, !length_word32. lia. Qed.

Lemma read_entries_ok t pre fuel : Forall wf_entry t -> (length t <= fuel)%nat ->
  read_entries fuel (pre ++ flat_map encode_entry t) (Z.of_nat (length (pre ++ flat_map encode_entry t))) (Z.of_nat (length pre)) = Ok t.
Proof.
  intros Hw. revert pre fuel. induction Hw as [|p t Hp _ IH]; intros pre fuel Hf.
  - cbn [flat_map]. rewrite app_nil_r. destruct fuel; cbn [read_entries]; now rewrite Z.ltb_irrefl.
  - destruct fuel as [|fuel]; [cbn in Hf; lia|]. cbn [read_entries flat_map]. pose proof (length_entry p (proj1 Hp)).
    rewrite (proj2 (Z.ltb_lt (Z.of_nat (length pre)) _)) by (rewrite !length_app; lia).
    rewrite read_entry_ok by done. cbn [mbind res_bind fst snd]. rewrite (app_assoc pre).
    replace (Z.of_nat (length pre) + Z.of_nat (length (encode_entry p))) with (Z.of_nat (length (pre ++ encode_entry p))) by (rewrite length_app; lia).
    rewrite IH by (cbn in Hf; lia). done.
Qed.

Lemma entries_length t : Forall wf_entry t -> (24 * length t <= length (flat_map encode_entry t))%nat.
Proof.
  induction 1 as [|p t Hp _ IH]; [done|]. cbn [flat_map length]. rewrite length_app. pose proof (length_entry p (proj1 Hp)). lia.
Qed.

Lemma memcmp_refl tag post : memcmp (tag ++ post) tag = Ok true.
Proof. induction tag as [|b tag IH]; [now destruct post|]. cbn. now rewrite Z.eqb_refl. Qed.

Lemma parse_encode t : Forall wf_entry t -> parse_table (encode_table t) (Z.of_nat (length (encode_table t))) = Ok (Some t).
Proof.
  intros Hw. unfold parse_table, encode_table. rewrite memcmp_refl. cbn [mbind res_bind]. rewrite (app_assoc AICBT_PT_TAG).
  change 16 with (Z.of_nat (length (AICBT_PT_TAG ++ [0; 0; 0]))). rewrite read_entries_ok; [done|done|].
  pose proof (entries_length t Hw). apply Nat.le_le_succ_r, Nat.div_le_lower_bound; [lia|]. rewrite length_app. lia.
Qed.

(** A table that is cut off inside an entry. *)
Lemma le32_short buf i : 0 <= i -> Z.of_nat (length buf) < i + 4 -> le32 buf i = Fault OutOfBounds.
Proof.
  intros Hi Hl. destruct (le32 buf i) as [v|f] eqn:E; [|f_equal; now apply (oob_le32 buf i)]. exfalso. unfold le32, le16 in E.
  apply bind_Ok_inv in E as (a & _ & E). apply bind_Ok_inv in E as (b & E & _). apply bind_Ok_inv in E as (b0 & _ & E). apply bind_Ok_inv in E as (b1 & E & _).
  apply rd8_inv in E. lia.
Qed.
Lemma slice_short buf i n : Z.of_nat (length buf) < i + Z.of_nat n -> slice buf i n = Fault OutOfBounds.
Proof. intros Hl. unfold slice. rewrite (proj2 (Z.leb_gt (i + Z.of_nat n) _)) by done. now rewrite andb_false_r. Qed.

Lemma read_entry_short pre p n : wf_entry p -> (n < length (encode_entry p))%nat ->
  read_entry (pre ++ take n (encode_entry p)) (Z.of_nat (length pre)) = Fault OutOfBounds.
Proof.
  intros (Hn & _ & Ht & Hd) Hlt. set (buf := pre ++ take n (encode_entry p)).
  assert (Z.of_nat (length buf) = Z.of_nat (length pre) + Z.of_nat n) as Hlen by (subst buf; rewrite length_app, length_take; lia).
  unfold read_entry. destruct (Nat.lt_ge_cases n 16); [now rewrite slice_short by lia|].
  rewrite Md5Facts.slice_within by lia. cbn [mbind res_bind].
  destruct (Nat.lt_ge_cases n 20); [now rewrite (le32_short buf (Z.of_nat (length pre) + 16)) by lia|].
  assert (is_word (pt_len p)) as Hlw.
  { unfold is_word. destruct (pt_data p); [|rewrite Hd; lia]. destruct Hd as (_ & Hd & _). change (2 ^ 29) with 536870912 in Hd. lia. }
  assert (length (pre ++ pt_name p) = length pre + 16)%nat as E1 by (rewrite length_app; lia).
  assert (forall l, buf = (pre ++ pt_name p) ++ word32 (pt_type p) ++ l -> le32 buf (Z.of_nat (length pre) + 16) = Ok (pt_type p)) as Htype.
  { intros l ->. apply le32_mid; [done|rewrite E1; lia]. }
  assert (buf = (pre ++ pt_name p) ++ word32 (pt_type p) ++ take (n - 20) (word32 (pt_len p) ++ flat_map word32 (default [] (pt_data p)))) as Ebuf.
  { subst buf. unfold encode_entry. rewrite <- (app_assoc pre). f_equal. rewrite take_app_ge by lia. f_equal. rewrite take_app_ge by (rewrite length_word32; lia).
    f_equal. f_equal. rewrite length_word32. lia. }
  rewrite (Htype _ Ebuf). cbn [mbind res_bind]. destruct (Nat.lt_ge_cases n 24); [now rewrite (le32_short buf (Z.of_nat (length pre) + 20)) by lia|].
  rewrite take_app_ge in Ebuf by (rewrite length_word32; lia). rewrite app_assoc in Ebuf.
  assert (le32 buf (Z.of_nat (length pre) + 20) = Ok (pt_len p)) as ->.
  { rewrite Ebuf. apply le32_mid; [done|]. rewrite length_app, E1, length_word32. lia. }
  cbn [mbind res_bind]. unfold encode_entry in Hlt. rewrite !length_app, !length_word32, Hn, length_flat_words in Hlt.
  destruct (pt_data p) as [l|]; [|cbn in Hlt; lia]. destruct Hd as (Hd1 & Hd2 & Hd3 & _). change (2 ^ 29) with 536870912 in Hd2. change (default [] (Some l)) with l in *.
  rewrite (proj2 (Z.leb_gt 1000 (pt_type p))) by lia. rewrite (proj2 (Z.eqb_neq (pt_len p) 0)) by lia. cbn [orb]. rewrite wrapU_small by lia.
  now rewrite slice_short by lia.
Qed.

Lemma read_entries_short t p n pre fuel : Forall wf_entry t -> wf_entry p -> (0 < n < length (encode_entry p))%nat -> (length t < fuel)%nat ->
  let raw := pre ++ flat_map encode_entry t ++ take n (encode_entry p) in
  read_entries fuel raw (Z.of_nat (length raw)) (Z.of_nat (length pre)) = Fault OutOfBounds.
Proof.
  intros Hw Hp Hn. revert pre fuel. induction Hw as [|q t Hq _ IH]; intros pre fuel Hf; (destruct fuel as [|fuel]; [lia|]); cbn [flat_map app read_entries].
  - rewrite (proj2 (Z.ltb_lt (Z.of_nat (length pre)) _)) by (rewrite length_app, length_take; lia). now rewrite read_entry_short.
  - pose proof (length_entry q (proj1 Hq)). rewrite <- app_assoc. rewrite (proj2 (Z.ltb_lt (Z.of_nat (length pre)) _)) by (rewrite !length_app; lia).
    rewrite read_entry_ok by done. cbn [mbind res_bind fst snd]. rewrite (app_assoc pre).
    replace (Z.of_nat (length pre) + Z.of_nat (length (encode_entry q))) with (Z.of_nat (length (pre ++ encode_entry q))) by (rewrite length_app; lia).
    cbv zeta in IH. rewrite IH; [done|cbn in Hf; lia].
Qed.

(** ** What is written for a table *)

Fixpoint pairs_of (data : list Z) : list (Z * Z) := match data with a :: v :: data => (a, v) :: pairs_of data | _ => [] end.
(** The data of an entry as [aicbt_patch_table_load] finds it. *)
Definition load_data (c : AICWF_IC) (p : aicbt_patch_table) : res (list Z) :=
  if pt_type p =? AICBT_PT_BTMODE then i ← aicbt_info c; entry_data i p else entry_data zero_btinfo p.
Definition entry_writes (c : AICWF_IC) (p : aicbt_patch_table) : list (Z * Z) :=
  match load_data c p with
  | Ok data => if pt_type p =? 6 then [] else take (Z.to_nat (pt_len p)) (pairs_of data)
  | Fault _ => []
  end.
Definition table_writes (c : AICWF_IC) (t : list aicbt_patch_table) : list (Z * Z) := flat_map (entry_writes c) t.
(** The entry's data is there, and long enough for the values of a BTMODE entry. *)
Definition loadable (c : AICWF_IC) (p : aicbt_patch_table) : Prop :=
  match load_data c p with Ok data => pt_type p = 6 \/ (2 * Z.to_nat (pt_len p) <= length data)%nat | Fault _ => False end.

Lemma runs_write_pairs c n data : (2 * n <= length data)%nat -> runs c (write_pairs n data) (writes (take n (pairs_of data))) 0 c.
Proof.
  revert data. induction n as [|n IH]; intros data Hl; [destruct data; apply runs_ret|].
  destruct data as [|a [|v data]]; cbn [length] in Hl; try lia. cbn [write_pairs pairs_of take writes fmap list_fmap fst snd].
  apply (runs_orelse c _ _ [EWrite a v] _ 0 c c); [apply runs_write|apply IH; lia].
Qed.
Lemma writes_app l1 l2 : writes (l1 ++ l2) = writes l1 ++ writes l2.
Proof. apply fmap_app. Qed.

Lemma runs_table_load c t : Forall (loadable (chipid c)) t -> runs c (aicbt_patch_table_load t) (writes (table_writes (chipid c) t)) 0 c.
Proof.
  induction 1 as [|p t Hp _ IH]; [apply runs_ret|]. cbn [aicbt_patch_table_load table_writes flat_map]. rewrite writes_app.
  fold (table_writes (chipid c) t). unfold loadable in Hp.
  apply (runs_bind c _ _ [] _ (chipid c) 0 c c); [apply runs_gets; intros d <-; done|].
  fold (load_data (chipid c) p). unfold entry_writes. destruct (load_data (chipid c) p) as [data|] eqn:Ed; [|done].
  apply (runs_bind c _ _ [] _ data 0 c c); [now apply runs_lift|]. destruct (Z.eqb_spec (pt_type p) 6) as [E6|E6]; [exact IH|].
  destruct Hp as [Hp|Hp]; [done|]. apply (runs_orelse c _ _ _ _ 0 c c); [now apply runs_write_pairs|exact IH].
Qed.

(** A BTMODE entry of nine pairs or more: the values are the driver's. *)
Definition btmode_values (i : aicbt_info_t) : list Z :=
  [1; u32 (-1); 0; btmode i; btport i; uart_baud i; uart_flowctrl i; lpm_enable i; txpwr_lvl i].
Lemma set_btmode_ok i data : (18 <= length data)%nat ->
  exists data', set_btmode i data = Ok data' /\ length data' = length data /\
    pairs_of data' = zip (fst <$> take 9 (pairs_of data)) (btmode_values i) ++ drop 9 (pairs_of data).
Proof.
  intros Hl. do 18 (destruct data as [|? data]; [cbn [length] in Hl; lia|]). eexists. split; [reflexivity|]. split; reflexivity.
Qed.

Lemma wf_loadable c i p : wf_entry p -> (pt_type p = AICBT_PT_BTMODE -> 9 <= pt_len p) -> aicbt_info c = Ok i -> loadable c p.
Proof.
  intros (_ & _ & _ & Hd) H9 Hi. unfold loadable, load_data, entry_data. rewrite Hi. destruct (Z.eqb_spec (pt_type p) AICBT_PT_BTMODE) as [E|E].
  - specialize (H9 E). cbn [mbind res_bind]. rewrite E. change (AICBT_PT_BTMODE =? AICBT_PT_BTMODE) with true. cbv iota. destruct (pt_data p) as [l|]; [|lia]. destruct Hd as (_ & _ & Hl & _).
    cbn [from_option_res mbind res_bind]. destruct (set_btmode_ok i l) as (l' & -> & Hl' & _); [lia|]. right. lia.
  - destruct (Z.eqb_spec (pt_type p) AICBT_PT_BTMODE); [done|]. destruct (pt_data p) as [l|]; right; [|rewrite Hd; cbn; lia].
    destruct Hd as (_ & _ & Hl & _). change (default [] (Some l)) with l. lia.
Qed.

Lemma entry_writes_plain c p l : pt_data p = Some l -> pt_type p <> AICBT_PT_BTMODE -> pt_type p <> 6 -> Z.of_nat (length l) = 2 * pt_len p ->
  entry_writes c p = pairs_of l.
Proof.
  intros Hl H3 H6 Hn. unfold entry_writes, load_data, entry_data. rewrite !(proj2 (Z.eqb_neq _ _)) by done. rewrite Hl. change (default [] (Some l)) with l.
  apply take_ge. assert (forall n l, (length l = 2 * n)%nat -> length (pairs_of l) = n) as Hp; [|rewrite (Hp (Z.to_nat (pt_len p))); lia].
  clear. intros n. induction n as [|n IH]; intros [|a [|v l]] H; cbn in *; try lia. f_equal. apply IH. lia.
Qed.

End Tables.
