(* ===== verification/LoaderTrace.v ===== *)
(** What the firmware loader hands to the bus, whatever comes back.

    [Trace]: how the pieces of the loader extend the trace of requests in any
    environment, for any device and any list of turns.  [StartProps]: when the
    application is started. *)
From Stdlib Require Import ZArith Lia String.
From stdpp Require Import base list numbers option gmap strings pretty.
From S2P Require Import Prelude CmdMgr ConfigTables UserConfig Digest LoaderCmd Loader LoaderFacts.

#[local] Open Scope Z_scope.
#[local] Open Scope aic_scope.

(** * What is sent, in any environment *)

Module Trace.
Import Fw Image Table Conf Start.

(** A request to start the application. *)
Definition starts (f : list Z) : bool := bool_decide (take 2 (drop 8 f) = Wire.put_u16 DBG_START_APP_REQ).
Definition other (ev : event) : Prop := match ev with Sent f => starts f = false | _ => True end.
(** The request was not refused for a reason that the result tells. *)
Definition clean (ev : event) : Prop := match ev with Refused | NoMemory => False | _ => True end.

(** The state of the command manager along a trace: a timeout crashes it, and
    nothing is handed to the bus then. *)
Fixpoint replay (s : rwnx_cmd_mgr_state) (l : list event) : option rwnx_cmd_mgr_state :=
  match l with
  | [] => Some s
  | Sent _ :: l => if decide (s = RWNX_CMD_MGR_STATE_CRASHED) then None else replay s l
  | TimedOut :: l => replay RWNX_CMD_MGR_STATE_CRASHED l
  | _ :: l => replay s l
  end.

(** [m] adds nothing to the trace. *)
Definition still {A} (m : M A) : Prop := forall d, trace (m d).2 = trace d /\ mgr_state (m d).2 = mgr_state d.
(** [m] sends other requests, and none was refused if its result is good. *)
Definition sends_on (s : rwnx_cmd_mgr_state) {A} (ok : A -> bool) (m : M A) : Prop := forall d, mgr_state d = s ->
  exists l s', trace (m d).2 = trace d ++ l /\ Forall other l /\ replay s l = Some s' /\
  (forall a, (m d).1 = Ok a -> mgr_state (m d).2 = s' /\ (ok a = true -> Forall clean l)).
Definition sends {A} (ok : A -> bool) (m : M A) : Prop := forall s, sends_on s ok m.
(** [m] sends other requests and then, perhaps, starts the application. *)
Definition ends {A} (P : Prop) (m : M A) : Prop := forall d, exists l s, trace (m d).2 = trace d ++ l ++ s /\ Forall other l /\
  is_Some (replay (mgr_state d) l) /\ (s = [] \/ exists f, s = [Sent f] /\ starts f = true /\ (P -> Forall clean l)).

(** ** Pieces that add nothing *)

Create HintDb still.
Lemma still_ret {A} (a : A) : still (mret a).
Proof. done. Qed.
Lemma still_bind {A B} (m : M A) (f : A -> M B) : still m -> (forall a, still (f a)) -> still (m ≫= f).
Proof.
  intros Hm Hf d. destruct (Hm d) as [E1 E2]. unfold mbind, M_bind. destruct (m d) as [[a|e] d']; cbn in *; [|done].
  destruct (Hf a d') as [-> ->]. done.
Qed.
Lemma still_gets {A} (f : dev -> A) : still (gets f).
Proof. done. Qed.
Lemma still_lift {A} (r : res A) : still (lift r).
Proof. done. Qed.
Lemma still_crash {A} e : still (@crash A e).
Proof. done. Qed.
Lemma still_if {A} (b : bool) (m n : M A) : still m -> still n -> still (if b then m else n).
Proof. now destruct b. Qed.
Lemma still_put p c : still (put p c).
Proof. done. Qed.
Lemma still_kfree p : still (kfree p).
Proof. done. Qed.
#[export] Hint Resolve still_ret still_gets still_lift still_crash still_if still_put still_kfree : still.
#[export] Hint Extern 1 (still (_ ≫= _)) => (apply still_bind; [|intros ?]) : still.
#[export] Hint Extern 1 (still (modify _)) => (intros ?; split; reflexivity) : still.

Lemma still_deref p : still (deref p).
Proof. unfold deref. auto with still. Qed.
#[export] Hint Resolve still_deref : still.
Lemma still_kzalloc c : still (kzalloc c).
Proof. unfold kzalloc. auto with still. Qed.
Lemma still_cmd_complete p : still (cmd_complete p).
Proof. unfold cmd_complete. apply still_bind; [auto with still|intros _]. apply still_bind; [auto with still|intros c]. cbv zeta. auto with still. Qed.
#[export] Hint Resolve still_kzalloc still_cmd_complete : still.
Lemma still_store_cfm m n c : still (store_cfm m n c).
Proof. unfold store_cfm. destruct (cmd_e2a_msg c); auto with still. Qed.
#[export] Hint Resolve still_store_cfm : still.
Lemma still_msg_scan l m : still (msg_scan l m).
Proof. induction l as [|p l IH]; cbn [msg_scan]; [auto with still|]. apply still_bind; [auto with still|intros c]. cbv zeta. auto 6 with still. Qed.
#[export] Hint Resolve still_msg_scan : still.
Lemma still_deliver l : still (deliver l).
Proof. induction l as [|m l IH]; cbn [deliver]; [auto with still|]. unfold rwnx_rx_handle_msg, cmd_mgr_msgind. auto 6 with still. Qed.
#[export] Hint Resolve still_deliver : still.
Lemma still_wait p t : still (wait p t).
Proof. unfold wait. auto with still. Qed.
Lemma still_last_waits l : still (last_waits l).
Proof. destruct l; cbn [last_waits]; auto with still. Qed.
Lemma still_give_up p c : still (give_up_cmd p c).
Proof. unfold give_up_cmd. auto with still. Qed.
Lemma still_next_turn : still next_turn.
Proof. unfold next_turn. auto with still. Qed.
Lemma still_memdata c : still (memdata c).
Proof. unfold memdata. repeat (case_match; auto with still). Qed.
Lemma still_load e name : still (aic_load_firmware e name).
Proof.
  unfold aic_load_firmware. apply still_bind; [auto with still|intros c]. apply still_bind; [auto with still|intros path].
  apply still_if; [auto with still|]. destruct (filp_open e path); [|auto with still]. cbv zeta. auto 6 with still.
Qed.
#[export] Hint Resolve still_wait still_last_waits still_give_up still_next_turn still_memdata still_load : still.

(** ** Pieces that send *)

Lemma replay_app s l1 l2 s1 : replay s l1 = Some s1 -> replay s (l1 ++ l2) = replay s1 l2.
Proof.
  revert s. induction l1 as [|ev l1 IH]; intros s; cbn [replay app]; [now intros [= ->]|]. destruct ev; try apply IH. destruct (decide _); [done|apply IH].
Qed.
Lemma sends_still {A} ok (m : M A) : still m -> sends ok m.
Proof.
  intros Hm s d <-. destruct (Hm d) as [E1 E2]. exists [], (mgr_state d). rewrite app_nil_r. split_and!; [done|done|done|]. intros a _. auto.
Qed.
Lemma sends_on_bind {A B} s (ok1 : A -> bool) (ok : B -> bool) (m : M A) (f : A -> M B) : sends_on s ok1 m -> (forall a s', sends_on s' ok (f a)) ->
  (forall a d b, ok1 a = false -> (f a d).1 = Ok b -> ok b = false) -> sends_on s ok (m ≫= f).
Proof.
  intros Hm Hf Hbad d Hs. destruct (Hm d Hs) as (l1 & s1 & E1 & O1 & R1 & C1). unfold mbind, M_bind. destruct (m d) as [[a|e] d1] eqn:E; cbn [fst snd] in *.
  - destruct (C1 a eq_refl) as [S1 C1']. destruct (Hf a s1 d1 S1) as (l2 & s2 & E2 & O2 & R2 & C2). exists (l1 ++ l2), s2. rewrite E2, E1, app_assoc.
    split; [done|]. split; [now apply Forall_app|]. split; [now rewrite (replay_app _ _ _ _ R1)|].
    intros b Eb. destruct (C2 b Eb) as [S2 C2']. split; [done|]. intros Hb. apply Forall_app. split; [|now apply C2'].
    apply C1'. destruct (ok1 a) eqn:Ea; [done|]. rewrite (Hbad a d1 b Ea Eb) in Hb. discriminate.
  - exists l1, s1. now split_and!.
Qed.
Lemma sends_bind {A B} (ok1 : A -> bool) (ok : B -> bool) (m : M A) (f : A -> M B) : sends ok1 m -> (forall a, sends ok (f a)) ->
  (forall a d b, ok1 a = false -> (f a d).1 = Ok b -> ok b = false) -> sends ok (m ≫= f).
Proof. intros Hm Hf Hbad s. apply (sends_on_bind s ok1); [apply Hm|intros; apply Hf|done]. Qed.
Lemma sends_on_after {A B} s (ok : B -> bool) (m : M A) (f : A -> M B) : still m -> (forall a, sends_on s ok (f a)) -> sends_on s ok (m ≫= f).
Proof.
  intros Hm Hf d Hs. destruct (Hm d) as [E1 E2]. unfold mbind, M_bind. destruct (m d) as [[a|e] d1]; cbn [fst snd] in *.
  - destruct (Hf a d1) as (l & s' & E & R); [congruence|]. rewrite E1 in E. eauto.
  - exists [], s. rewrite app_nil_r. now split_and!.
Qed.
Lemma sends_on_gets {B} s (ok : B -> bool) (f : dev -> M B) : (forall d, mgr_state d = s -> sends_on s ok (f d)) -> sends_on s ok (gets (fun d => d) ≫= f).
Proof. intros Hf d Hs. rewrite Exch.bind_gets. now apply Hf. Qed.
(** After a piece that adds nothing. *)
Lemma sends_after {A B} (ok : B -> bool) (m : M A) (f : A -> M B) : still m -> (forall a, sends ok (f a)) -> sends ok (m ≫= f).
Proof. intros Hm Hf s. apply sends_on_after; [done|intros; apply Hf]. Qed.
(** Without a claim about the result. *)
Lemma sends_any {A} ok (m : M A) : sends ok m -> sends (fun _ => false) m.
Proof.
  intros Hm s d Hs. destruct (Hm s d Hs) as (l & s' & E & O & R & C). exists l, s'. split_and!; try done. intros a Ea. now destruct (C a Ea).
Qed.
Lemma sends_bind_any {A B} ok1 (m : M A) (f : A -> M B) : sends ok1 m -> (forall a, sends (fun _ => false) (f a)) -> sends (fun _ => false) (m ≫= f).
Proof. intros Hm Hf. apply (sends_bind (fun _ => false)); [now apply (sends_any ok1)|done|done]. Qed.
(** An event that is no frame and no timeout. *)
Definition harmless (ev : event) : Prop := match ev with Sent _ | TimedOut => False | _ => True end.
Lemma sends_emit {A} ok ev (a : A) : harmless ev -> (clean ev \/ ok a = false) -> sends ok (_ ← emit ev; mret a).
Proof.
  intros Ho Hc s d <-. exists [ev], (mgr_state d). cbn. split; [done|]. split; [constructor; [now destruct ev|done]|]. split; [now destruct ev|].
  intros b [= <-]. split; [done|]. intros Hb. destruct Hc as [Hc|Hc]; [now constructor|congruence].
Qed.

Definition zero (r : Z) : bool := r =? 0.
Definition zero1 {A} (r : Z * A) : bool := r.1 =? 0.

Lemma sends_orelse m k : sends zero m -> sends zero k -> sends zero (orelse m k).
Proof.
  intros Hm Hk. unfold orelse. apply (sends_bind zero); [done| |].
  - intros a. destruct (a =? 0); [done|]. apply sends_still, still_ret.
  - intros a d b Ea. unfold zero in Ea. rewrite Ea. intros [= <-]. exact Ea.
Qed.
Lemma sends_orfail c m k : c <> 0 -> sends zero m -> sends zero k -> sends zero (orfail c m k).
Proof.
  intros Hc Hm Hk. unfold orfail. apply (sends_bind zero); [done| |].
  - intros a. destruct (a =? 0); [done|]. apply sends_still, still_ret.
  - intros a d b Ea. unfold zero in Ea. rewrite Ea. intros [= <-]. now apply Z.eqb_neq.
Qed.
Lemma sends_ret {A} ok (a : A) : sends ok (mret a).
Proof. apply sends_still, still_ret. Qed.
Lemma sends_crash {A} ok e : sends ok (@crash A e).
Proof. apply sends_still, still_crash. Qed.
Lemma sends_if {A} ok (b : bool) (m n : M A) : sends ok m -> sends ok n -> sends ok (if b then m else n).
Proof. now destruct b. Qed.

(** ** The requests *)

Lemma tx_id m f : 0 <= Mgr.param_len m -> Wire.aicwf_set_cmd_tx m (Wire.RWNX_CMD_A2EMSG_LEN m) = Ok f -> take 2 (drop 8 f) = Wire.put_u16 (Mgr.msg_id m).
Proof.
  intros Hl. unfold Wire.aicwf_set_cmd_tx. destruct (_ <? _); [done|]. destruct (_ <? _); [done|]. intros [= <-]. unfold Wire.RWNX_CMD_A2EMSG_LEN.
  replace (Z.to_nat (8 + Mgr.param_len m + 8)) with (16 + Z.to_nat (Mgr.param_len m))%nat by lia. reflexivity.
Qed.
(** The requests the loader waits for. *)
Definition req_id (id : Z) : Prop := id = DBG_MEM_READ_REQ \/ id = DBG_MEM_WRITE_REQ \/ id = DBG_MEM_BLOCK_WRITE_REQ \/ id = DBG_MEM_MASK_WRITE_REQ.
Lemma sends_tx {A} s (ok : A -> bool) id param (k : M A) : req_id id -> s <> RWNX_CMD_MGR_STATE_CRASHED -> sends_on s ok k ->
  sends_on s ok (_ ← aicwf_set_cmd_tx (Mgr.mk_msg id TASK_DBG DRV_TASK_ID (Z.of_nat (length param)) param); k).
Proof.
  intros Hid Hs Hk d Hd. set (m := Mgr.mk_msg id _ _ _ _).
  destruct (Wire.aicwf_set_cmd_tx m (Wire.RWNX_CMD_A2EMSG_LEN m)) as [f|f] eqn:E.
  - set (d1 := d <| trace ::= fun l => l ++ [Sent f] |>).
    assert ((_ ← aicwf_set_cmd_tx m; k) d = k d1) as -> by (apply (Exch.bind_ok (aicwf_set_cmd_tx m) (fun _ => k) d tt d1); unfold aicwf_set_cmd_tx; rewrite E; reflexivity).
    destruct (Hk d1 Hd) as (l & s' & E1 & O1 & R1 & C1). exists (Sent f :: l), s'. rewrite E1. change (trace d1) with (trace d ++ [Sent f]). cbn [replay].
    rewrite <- app_assoc. split; [done|]. split.
    { constructor; [|done]. cbn. unfold starts. rewrite (tx_id m f) by (done || (cbn; lia)). cbn [Mgr.msg_id m]. apply bool_decide_eq_false.
      destruct Hid as [->|[->|[->| ->]]]; vm_compute; discriminate. }
    rewrite decide_False by done. split; [done|]. intros a Ea. destruct (C1 a Ea) as [? C2]. split; [done|]. intros Ha. constructor; [done|]. now apply C2.
  - assert ((_ ← aicwf_set_cmd_tx m; k) d = (Fault f, d)) as ->.
    { unfold mbind, M_bind, aicwf_set_cmd_tx. rewrite E. reflexivity. }
    exists [], s. cbn. rewrite app_nil_r. now split_and!.
Qed.

Lemma sends_on_emit {A} s (ok : A -> bool) ev (k : M A) : harmless ev -> clean ev -> sends_on s ok k -> sends_on s ok (_ ← emit ev; k).
Proof.
  intros Hh Hc Hk d Hd. rewrite Exch.bind_emit. set (d1 := d <| trace ::= fun l => l ++ [ev] |>). destruct (Hk d1 Hd) as (l & s' & E & O & R & C).
  exists (ev :: l), s'. rewrite E. change (trace d1) with (trace d ++ [ev]). rewrite <- app_assoc. split; [done|].
  split; [constructor; [now destruct ev|done]|]. split; [now destruct ev|]. intros a Ea. destruct (C a Ea) as [? C2]. split; [done|]. intros Ha. constructor; [done|now apply C2].
Qed.
(** A timeout: what comes before the manager is marked as crashed, and after. *)
Lemma sends_timeout {A} s (ok : A -> bool) (m : M unit) (k : M A) : still m -> still k ->
  sends_on s ok (_ ← emit TimedOut; _ ← m; _ ← modify (fun d => d <| mgr_state := RWNX_CMD_MGR_STATE_CRASHED |>); k).
Proof.
  intros Hm Hk d Hd. rewrite Exch.bind_emit. set (d1 := d <| trace ::= _ |>). exists [TimedOut], RWNX_CMD_MGR_STATE_CRASHED.
  destruct (Hm d1) as [E1 E2]. unfold mbind, M_bind. destruct (m d1) as [[[]|e] d2]; cbn [fst snd modify] in *.
  - set (d3 := d2 <| mgr_state := _ |>). destruct (Hk d3) as [-> ->]. subst d3. cbn. rewrite E1. split; [done|]. split; [now repeat constructor|]. split; [done|].
    intros a _. split; [done|]. now repeat constructor.
  - rewrite E1. split; [done|]. split; [now repeat constructor|]. now split.
Qed.

Lemma sends_queue p id param t : req_id id -> sends zero1 (cmd_mgr_queue p (Mgr.mk_msg id TASK_DBG DRV_TASK_ID (Z.of_nat (length param)) param) t).
Proof.
  intros Hid s. unfold cmd_mgr_queue. apply sends_on_gets. intros d Hd. apply sends_on_after; [auto with still|intros c].
  destruct (decide _) as [Hs|Hs].
  { apply sends_on_after; [auto with still|intros _]. apply (sends_emit zero1); [done|now right]. }
  rewrite Hd in Hs. destruct (_ && _).
  { apply sends_on_after; [auto with still|intros _]. apply (sends_emit zero1); [done|now right]. }
  apply sends_on_after; [auto with still|intros push]. cbv zeta. apply sends_on_after; [auto with still|intros _]. apply sends_on_after; [auto with still|intros _].
  destruct push; [apply sends_still; auto with still|]. apply sends_tx; [done|done|]. destruct (has _ _).
  { apply sends_still. auto with still. }
  apply sends_on_after; [auto with still|intros w]. apply sends_on_after; [auto with still|intros c']. destruct (w =? 0).
  - apply sends_timeout; auto with still.
  - apply sends_on_emit; [now destruct (0 <? w)|now destruct (0 <? w)|]. apply sends_still. auto with still.
Qed.
Lemma sends_request id param reqid cfm : req_id id -> sends zero1 (request id param true reqid cfm).
Proof.
  intros Hid. unfold request. apply sends_after; [auto with still|intros t]. apply sends_if; [apply sends_emit; [done|now right]|].
  unfold rwnx_send_msg. apply sends_if; [apply sends_emit; [done|now left]|]. apply sends_if; [apply sends_crash|].
  apply sends_after; [auto with still|intros p]. apply sends_after; [auto with still|intros c]. apply sends_after; [auto with still|intros _]. now apply sends_queue.
Qed.
Lemma sends_result {A} (m : M (Z * A)) : sends zero1 m -> sends zero (r ← m; mret r.1).
Proof.
  intros Hm. apply (sends_bind zero1); [done|intros a; apply sends_ret|]. intros [r a] d b Ha. intros [= <-]. exact Ha.
Qed.

Create HintDb sends.
#[export] Hint Resolve sends_ret sends_crash sends_if sends_orelse sends_orfail : sends.
Lemma sends_write a v : sends zero (rwnx_send_dbg_mem_write_req a v).
Proof. apply sends_result, sends_request. unfold req_id. auto. Qed.
Lemma sends_mask a k v : sends zero (rwnx_send_dbg_mem_mask_write_req a k v).
Proof. apply sends_result, sends_request. unfold req_id. auto. Qed.
Lemma sends_block a n l : sends zero (rwnx_send_dbg_mem_block_write_req a n l).
Proof.
  unfold rwnx_send_dbg_mem_block_write_req. apply sends_after; [auto with still|intros t]. apply sends_if.
  - apply sends_after; [auto with still|intros _]. apply sends_emit; [done|now right].
  - apply sends_if; [apply sends_crash|]. apply sends_after; [auto with still|intros data]. apply sends_result, sends_request. unfold req_id. auto.
Qed.
Lemma sends_read a c : sends zero1 (rwnx_send_dbg_mem_read_req a c).
Proof.
  unfold rwnx_send_dbg_mem_read_req. apply (sends_bind zero1); [apply sends_request; unfold req_id; auto|intros; apply sends_ret|].
  intros [r c'] d b Ha. intros [= <-]. exact Ha.
Qed.
#[export] Hint Resolve sends_write sends_mask sends_block sends_read : sends.
Lemma sends_read_word a c k : (forall w c', sends zero (k w c')) -> sends zero (read_word a c k).
Proof.
  intros Hk. unfold read_word. apply (sends_bind zero1); [apply sends_read| |].
  - intros r. apply sends_if; [|apply sends_ret]. apply sends_after; [auto with still|intros w; apply Hk].
  - intros r d b Ha. unfold zero1 in Ha. rewrite Ha. intros [= <-]. exact Ha.
Qed.

(** ** The pieces of the loader *)

Lemma sends_block_loop fuel a i lim dst : sends (fun r => r.2 =? 0) (block_loop fuel a i lim dst).
Proof.
  revert i. induction fuel as [|fuel IH]; intros i; cbn [block_loop]; (apply sends_if; [|apply sends_ret]); [apply sends_crash|].
  apply (sends_bind zero); [apply sends_block| |].
  - intros r. apply sends_if; [apply IH|apply sends_ret].
  - intros r d b Hr. unfold zero in Hr. rewrite Hr. intros [= <-]. exact Hr.
Qed.
Lemma sends_upload_blocks a n dst : sends zero (upload_blocks a n dst).
Proof.
  unfold upload_blocks. apply (sends_bind (fun r => r.2 =? 0)).
  - apply sends_if; [apply sends_block_loop|apply sends_ret].
  - intros [i err]. apply sends_if; [apply sends_block|apply sends_ret].
  - intros [i err] d b Hr. cbn [snd] in Hr. rewrite Hr. cbn [andb]. intros [= <-]. exact Hr.
Qed.
Lemma sends_upload e a name : sends zero (rwnx_plat_bin_fw_upload_android e a name).
Proof.
  unfold rwnx_plat_bin_fw_upload_android. apply sends_after; [auto with still|intros [n dst]]. apply sends_if; [apply sends_ret|apply sends_upload_blocks].
Qed.
Lemma sends_userconfig e name : sends zero (rwnx_plat_userconfig_upload_android e name).
Proof.
  unfold rwnx_plat_userconfig_upload_android. apply sends_still, still_bind; [auto with still|]. intros [n dst]. auto 7 with still.
Qed.
Lemma sends_write_tbl l : sends zero (write_tbl l).
Proof. induction l as [|[a v] l IH]; cbn [write_tbl]; auto with sends. Qed.
Lemma sends_write_pairs n data : sends zero (write_pairs n data).
Proof.
  revert data. induction n as [|n IH]; intros data; [destruct data; apply sends_ret|]. destruct data as [|a [|v data]]; cbn [write_pairs]; auto with sends.
Qed.
#[export] Hint Resolve sends_upload sends_userconfig sends_write_tbl sends_write_pairs sends_read_word : sends.
Lemma sends_table_load t : sends zero (aicbt_patch_table_load t).
Proof.
  induction t as [|p t IH]; cbn [aicbt_patch_table_load]; [apply sends_ret|]. apply sends_after; [auto with still|intros c]. apply sends_after; [auto with still|intros data].
  auto with sends.
Qed.
Lemma sends_ext_patches e n l name : sends zero (ext_patches e n l name).
Proof.
  revert l. induction n as [|n IH]; intros l; [destruct l; apply sends_ret|]. destruct l as [|a [|v l]]; cbn [ext_patches]; auto with sends.
Qed.
Lemma sends_ext_load e i name : sends zero (aicbt_ext_patch_data_load e i name).
Proof. unfold aicbt_ext_patch_data_load. apply sends_if; [|apply sends_ret]. apply sends_orelse; [apply sends_write|apply sends_ext_patches]. Qed.
Lemma sends_install b s c l : sends zero (install b s c l).
Proof. unfold install. auto 6 with sends. Qed.
#[export] Hint Resolve sends_table_load sends_ext_load sends_install : sends.
Lemma sends_patch_config_d80 e : sends zero (aicwf_patch_config_8800d80 e).
Proof.
  unfold aicwf_patch_config_8800d80. apply sends_after; [auto with still|intros id]. cbv zeta. apply sends_read_word; intros cb cfm.
  apply sends_read_word; intros b cfm2. apply sends_read_word; intros v cfm3. apply sends_after; [auto with still|intros _]. auto with sends.
Qed.
Lemma sends_patch_config_d80x2 e : sends zero (aicwf_patch_config_8800d80x2 e).
Proof.
  unfold aicwf_patch_config_8800d80x2. cbv zeta. apply (sends_bind zero1); [apply sends_read| |].
  - intros r. apply sends_if; [apply sends_ret|]. apply sends_read_word; intros cb cfm.
    apply sends_read_word; intros b cfm2. apply sends_read_word; intros v cfm3. apply sends_after; [auto with still|intros _]. auto with sends.
  - intros r d b Hr. unfold zero1 in Hr. rewrite Hr. cbn [negb]. intros [= <-]. exact Hr.
Qed.
Lemma sends_pwron_loop n cfm : sends zero (pwron_loop n cfm).
Proof. revert cfm. induction n as [|n IH]; intros cfm; cbn [pwron_loop]; apply sends_read_word; intros w cfm'; auto with sends. Qed.
Lemma sends_bt_pwron : sends zero bt_pwron.
Proof.
  unfold bt_pwron. apply sends_read_word; intros w cfm. apply sends_if; [|apply sends_ret]. apply sends_read_word; intros w' cfm'.
  apply sends_orelse; [apply sends_write|apply sends_pwron_loop].
Qed.
Lemma sends_write_words a n l : sends (fun _ => false) (write_words a n l).
Proof.
  revert a l. induction n as [|n IH]; intros a l; [destruct l; apply sends_ret|]. destruct l as [|w l]; cbn [write_words]; [apply sends_crash|].
  apply (sends_bind_any zero); [apply sends_write|intros; apply IH].
Qed.
Lemma sends_write_last r l : sends (fun _ => false) (write_last r l).
Proof.
  revert r. induction l as [|[a v] l IH]; intros r; cbn [write_last]; [apply sends_ret|]. apply (sends_bind_any zero); [apply sends_write|intros; apply IH].
Qed.
Lemma sends_patch_config e : sends (fun _ => false) (patch_config e).
Proof.
  unfold patch_config. cbv zeta. apply (sends_bind_any zero1); [apply sends_read|intros r]. apply sends_after; [auto with still|intros cb].
  apply (sends_bind_any zero); [apply sends_write|intros _]. apply (sends_bind_any zero); [apply sends_write|intros r']. apply sends_write_last.
Qed.
Lemma sends_table_upload e name : sends (fun _ => false) (rwnx_plat_bin_fw_patch_table_upload_android e name).
Proof.
  unfold rwnx_plat_bin_fw_patch_table_upload_android. apply sends_after; [auto with still|intros [n raw]]. apply sends_if; [apply sends_ret|].
  apply sends_after; [auto with still|intros [t|]]; [|apply sends_ret]. apply (sends_bind_any zero); [apply sends_table_load|intros; apply sends_ret].
Qed.
Lemma sends_system_config : sends zero system_config.
Proof.
  unfold system_config. apply sends_after; [auto with still|intros c]. destruct c; try apply sends_ret.
  - apply sends_read_word; intros w cfm. apply sends_after; [auto with still|intros _]. apply sends_read_word; intros w' cfm'.
    apply sends_after; [auto with still|intros _]. apply sends_after; [auto with still|intros d]. auto 7 with sends.
  - apply sends_read_word; intros w cfm. apply sends_after; [intros ?; split; cbn; case_match; reflexivity|intros _]. apply sends_after; [auto with still|intros _]. auto with sends.
  - apply sends_read_word; intros w cfm. apply sends_after; [auto with still|intros _]. apply sends_read_word; intros w' cfm'.
    apply sends_after; [intros ?; split; cbn; case_match; reflexivity|intros _]. auto with sends.
Qed.

(** ** The request that starts the application *)

Lemma ends_sends {A} P ok (m : M A) : sends ok m -> ends P m.
Proof. intros Hm d. destruct (Hm _ d eq_refl) as (l & s & E & O & R & _). exists l, []. rewrite app_nil_r. eauto. Qed.
Lemma ends_if {A} P (b : bool) (m n : M A) : ends P m -> ends P n -> ends P (if b then m else n).
Proof. now destruct b. Qed.
Lemma ends_after_sends {A B} (P : Prop) (ok : A -> bool) (m : M A) (f : A -> M B) : sends ok m ->
  (forall a, ok a = true -> ends P (f a)) -> (forall a, ok a = false -> still (f a)) -> ends P (m ≫= f).
Proof.
  intros Hm Hf Hbad d. destruct (Hm _ d eq_refl) as (l1 & s1 & E1 & O1 & R1 & C1). unfold mbind, M_bind. destruct (m d) as [[a|e] d1]; cbn [fst snd] in *.
  - destruct (C1 a eq_refl) as [S1 C2]. destruct (ok a) eqn:Ea.
    + destruct (Hf a Ea d1) as (l2 & t & E2 & O2 & R2 & T). exists (l1 ++ l2), t. rewrite E2, E1, <- !app_assoc. split; [done|]. split; [now apply Forall_app|].
      rewrite (replay_app _ _ _ _ R1), <- S1. split; [done|]. destruct T as [->|(f0 & -> & Hs & Hc)]; [now left|right]. exists f0. split; [done|]. split; [done|].
      intros HP. apply Forall_app. split; [now apply C2|now apply Hc].
    + destruct (Hbad a Ea d1) as [-> _]. exists l1, []. rewrite app_nil_r. split_and!; [done|done|rewrite R1; eauto|now left].
  - exists l1, []. rewrite app_nil_r. split_and!; [done|done|rewrite R1; eauto|now left].
Qed.
Lemma ends_after_any {A B} ok (m : M A) (f : A -> M B) : sends ok m -> (forall a, ends False (f a)) -> ends False (m ≫= f).
Proof.
  intros Hm Hf d. destruct (Hm _ d eq_refl) as (l1 & s1 & E1 & O1 & R1 & C1). unfold mbind, M_bind. destruct (m d) as [[a|e] d1]; cbn [fst snd] in *.
  - destruct (C1 a eq_refl) as [S1 _]. destruct (Hf a d1) as (l2 & t & E2 & O2 & R2 & T). exists (l1 ++ l2), t. rewrite E2, E1, <- !app_assoc. split; [done|]. split; [now apply Forall_app|].
    rewrite (replay_app _ _ _ _ R1), <- S1. split; [done|]. destruct T as [->|(f0 & -> & Hs & _)]; [now left|right]. now exists f0.
  - exists l1, []. rewrite app_nil_r. split_and!; [done|done|rewrite R1; eauto|now left].
Qed.
Lemma ends_after {A B} P (m : M A) (f : A -> M B) : still m -> (forall a, ends P (f a)) -> ends P (m ≫= f).
Proof. intros Hm Hf. apply (ends_after_sends P (fun _ => true)); [now apply sends_still|auto|discriminate]. Qed.
Lemma ends_then {A B} P (m : M A) (f : A -> M B) : ends P m -> (forall a, still (f a)) -> ends P (m ≫= f).
Proof.
  intros Hm Hf d. destruct (Hm d) as (l & s & E & R). exists l, s. split; [|done]. unfold mbind, M_bind. destruct (m d) as [[a|e] d']; cbn [fst snd] in *; [|done].
  destruct (Hf a d') as [-> _]. exact E.
Qed.
Lemma ends_weaken {A} (P : Prop) (m : M A) : ends P m -> ends False m.
Proof. intros Hm d. destruct (Hm d) as (l & s & E & O & R & T). exists l, s. split_and!; try done. destruct T as [->|(f & -> & Hf & _)]; [now left|right]. now exists f. Qed.

Lemma ends_start P a ty : ends P (rwnx_send_dbg_start_app_req a ty).
Proof.
  unfold rwnx_send_dbg_start_app_req. apply ends_then; [|intros; auto with still]. unfold request. apply ends_after; [auto with still|intros t].
  apply ends_if; [apply (ends_sends P (fun _ => false)), (sends_emit (fun _ => false)); [done|now right]|]. unfold rwnx_send_msg.
  apply ends_if; [apply (ends_sends P (fun _ => false)), (sends_emit (fun _ => false)); [done|now right]|].
  apply ends_if; [apply (ends_sends P (fun _ => false)), sends_crash|]. apply ends_after; [auto with still|intros p]. cbv iota.
  apply ends_then; [|intros; auto with still]. set (m := Mgr.mk_msg _ _ _ _ _). intros d. unfold aicwf_set_cmd_tx.
  destruct (Wire.aicwf_set_cmd_tx m (Wire.RWNX_CMD_A2EMSG_LEN m)) as [f|f] eqn:E.
  - exists [], [Sent f]. cbn. split_and!; [done|done|eauto|right]. exists f. split_and!; [done| |done]. unfold starts. rewrite (tx_id m f) by (done || (cbn; lia)).
    now apply bool_decide_eq_true.
  - exists [], []. cbn. rewrite app_nil_r. split_and!; [done|done|eauto|now left].
Qed.
Lemma ends_orfail P c m k : sends zero m -> ends P k -> ends P (orfail c m k).
Proof.
  intros Hm Hk. unfold orfail. apply (ends_after_sends P zero); [done| |]; intros r Hr; unfold zero in Hr; rewrite Hr; [done|apply still_ret].
Qed.
Lemma ends_orelse P m k : sends zero m -> ends P k -> ends P (orelse m k).
Proof.
  intros Hm Hk. unfold orelse. apply (ends_after_sends P zero); [done| |]; intros r Hr; unfold zero in Hr; rewrite Hr; [done|apply still_ret].
Qed.
Lemma ends_steps P l m : Forall (sends zero) l -> ends P m -> ends P (steps (l ++ [m])).
Proof.
  intros Hl Hm. induction Hl as [|k l Hk _ IH]; cbn [app steps].
  - unfold orfail. apply ends_then; [done|]. intros a. auto with still.
  - now apply ends_orfail.
Qed.
(** Some of the steps drop errors. *)
Lemma ends_steps_any l m : Forall (sends (fun _ => false)) l -> ends False m -> ends False (steps (l ++ [m])).
Proof.
  intros Hl Hm. induction Hl as [|k l Hk _ IH]; cbn [app steps].
  - unfold orfail. apply ends_then; [done|]. intros a. auto with still.
  - unfold orfail. apply (ends_after_any (fun _ => false)); [done|]. intros r. apply ends_if; [done|]. apply (ends_sends _ (fun _ => false)), sends_ret.
Qed.
End Trace.

Module StartProps.
Import Fw Image Table Conf Start Trace.

Lemma start_ends P a : ends P (start_app a).
Proof. unfold start_app. apply ends_start. Qed.

Lemma ends_8800 e : ends False (aicfw_download_fw_8800 e).
Proof.
  assert (forall name u03, ends False (steps (load_8800 e name u03 ++ finish_8800 e u03))) as Hsteps.
  { intros name u03. unfold load_8800, finish_8800. cbn [app].
    match goal with |- ends _ (steps [?a; ?b; ?c; ?x; ?y; ?z; ?w; ?s]) => apply (ends_steps_any [a; b; c; x; y; z; w] s) end; [|apply start_ends].
    repeat (apply Forall_cons; split); try apply Forall_nil_2; try (apply (sends_any zero); auto with sends; fail).
    - apply sends_table_upload.
    - apply sends_patch_config.
    - apply (sends_any zero), sends_mask. }
  unfold aicfw_download_fw_8800. apply ends_after; [auto with still|intros id]. cbv zeta. apply ends_if; [apply Hsteps|].
  apply ends_if; [|apply ends_if; [|apply Hsteps]].
  - unfold ble_scan_wakeup. apply (ends_after_any zero); [apply sends_upload|intros _]. do 2 (apply (ends_after_any zero); [apply sends_write|intros _]).
    apply ends_after; [auto with still|intros r]. apply (ends_after_any (fun _ => false)); [apply sends_write_words|intros _].
    apply ends_then; [apply ends_start|auto with still].
  - unfold ble_ad_filter, ad_filter_words. apply (ends_after_any (fun _ => false)).
    + apply (sends_bind_any zero); [apply sends_upload|intros; apply sends_write_words].
    + intros _. apply ends_then; [apply ends_start|auto with still].
Qed.

(** In the modes with a wake-up image nothing is said about refusals. *)
Definition plain (e : env) : Prop := testmode e = FW_NORMAL_MODE \/ testmode e = FW_TEST_MODE.
Lemma ends_wake e P a : ~ plain e -> (P -> plain e) -> ends P (ble_ad_filter e a).
Proof.
  intros Hn HP. assert (ends False (ble_ad_filter e a)) as He.
  { unfold ble_ad_filter, ad_filter_words. apply (ends_after_any (fun _ => false)).
    + apply (sends_bind_any zero); [apply sends_upload|intros; apply sends_write_words].
    + intros _. apply ends_then; [apply ends_start|auto with still]. }
  intros d. destruct (He d) as (l & s & E & O & R & T). exists l, s. split_and!; [done|done|done|].
  destruct T as [->|(f & -> & Hf & _)]; [now left|right]. exists f. split_and!; [done|done|]. intros Hp. now destruct (Hn (HP Hp)).
Qed.

Lemma ends_d80 e : ends (plain e) (aicfw_download_fw_8800d80 e).
Proof.
  unfold aicfw_download_fw_8800d80. apply ends_after; [auto with still|intros id].
  destruct (Z.eqb_spec (testmode e) FW_NORMAL_MODE) as [E0|E0].
  { apply ends_if; [apply (ends_steps _ [_; _])|apply (ends_steps _ [_])]; try apply start_ends; repeat constructor; auto with sends. apply sends_patch_config_d80. }
  destruct (Z.eqb_spec (testmode e) FW_TEST_MODE) as [E1|E1].
  { apply ends_if; apply (ends_steps _ [_]); try apply start_ends; repeat constructor; auto with sends. }
  apply ends_if; [|apply (ends_sends _ (fun _ => false)), sends_ret]. apply ends_wake; [unfold plain; tauto|done].
Qed.
Lemma ends_d80x2 e : ends (plain e) (aicfw_download_fw_8800d80x2 e).
Proof.
  unfold aicfw_download_fw_8800d80x2. apply ends_after; [auto with still|intros d]. cbv zeta. apply ends_after.
  { unfold aicbt_patch_table_alloc. apply still_bind; [auto with still|intros [n raw]]. auto 6 with still. }
  intros [[|head t]|]; try (apply (ends_sends _ (fun _ => false)), sends_ret). apply ends_after; [auto with still|intros [i head']].
  apply ends_if; [apply (ends_sends _ (fun _ => false)), sends_ret|]. apply ends_orelse; [apply sends_if; [apply sends_ret|apply sends_bt_pwron]|].
  destruct (Z.eqb_spec (testmode e) FW_NORMAL_MODE) as [E0|E0].
  { unfold bt_8800d80x2. apply (ends_steps _ [_; _; _; _; _; _]); [|apply start_ends]. repeat constructor; auto with sends. apply sends_patch_config_d80x2. }
  destruct (Z.eqb_spec (testmode e) FW_TEST_MODE) as [E1|E1].
  { unfold bt_8800d80x2. apply (ends_steps _ [_; _; _; _; _]); [|apply start_ends]. repeat constructor; auto with sends. }
  apply ends_if; [|apply (ends_sends _ (fun _ => false)), sends_ret]. apply (ends_sends _ (fun _ => false)). unfold ble_ad_filter_8800d80x2, ad_filter_words.
  apply (sends_bind_any (fun _ => false)); [apply (sends_bind_any zero); [apply sends_upload|intros; apply sends_write_words]|intros _].
  do 2 (apply (sends_bind_any zero); [apply sends_write|intros _]). apply sends_ret.
Qed.

(** C7. The application is started at most once, by the last frame, whatever comes
    back from the chip: the frames before it are no start requests, and after a
    timeout none of them is handed to the bus.  On an 8800D80 or 8800D80X2 in
    the normal or the test mode it is started only if no request was refused by
    the command manager or without memory. *)
Theorem download_start_last e d :
  exists l s, trace (aicfw_download_fw e d).2 = trace d ++ l ++ s /\
    Forall other l /\ is_Some (replay (mgr_state d) l) /\
    (s = [] \/ exists f, s = [Sent f] /\ starts f = true /\
      (chipid d <> PRODUCT_ID_AIC8800 -> testmode e = FW_NORMAL_MODE \/ testmode e = FW_TEST_MODE -> Forall clean l)).
Proof.
  unfold aicfw_download_fw. rewrite Exch.bind_gets. fold (plain e).
  assert (forall P (m : M Z), ends P m -> (chipid d <> PRODUCT_ID_AIC8800 -> plain e -> P) -> exists l s, trace (m d).2 = trace d ++ l ++ s /\
    Forall other l /\ is_Some (replay (mgr_state d) l) /\
    (s = [] \/ exists f, s = [Sent f] /\ starts f = true /\ (chipid d <> PRODUCT_ID_AIC8800 -> plain e -> Forall clean l))) as H.
  { intros P m He HP. destruct (He d) as (l & s & E & O & R & T). exists l, s. split_and!; [done|done|done|].
    destruct T as [->|(f & -> & Hf & Hc)]; [now left|right]. exists f. split_and!; [done|done|]. auto. }
  destruct (chipid d) eqn:Ec; [apply (H False); [apply ends_8800|done]| | | |apply (H (plain e)); [apply ends_d80|auto]| |apply (H (plain e)); [apply ends_d80x2|auto]| | |];
    apply (H True); try (apply (ends_sends _ (fun _ => false)), sends_ret); done.
Qed.
End StartProps.
