(* ===== verification/LoaderEnds.v ===== *)
(** The firmware loader comes to an end: no loop runs for ever, whatever the
    files hold and whatever comes back from the chip.

    The loops of the model take fuel; [fueled] and [halts] say that it does not
    run out. *)
From Stdlib Require Import ZArith Lia String.
From stdpp Require Import base list numbers option gmap strings pretty.
From S2P Require Import Prelude CmdMgr UserConfig Digest LoaderCmd Loader LoaderFacts LoaderTrace.

#[local] Open Scope Z_scope.
#[local] Open Scope aic_scope.

Module Halt.
Import Fw Image Table Conf Start.

Definition fueled {A} (r : res A) : Prop := r <> Fault OutOfFuel.
Definition halts {A} (m : M A) : Prop := forall d, fueled (m d).1.

(** ** Results *)

Create HintDb halt.
Lemma fueled_ok {A} (a : A) : fueled (Ok a).
Proof. done. Qed.
Lemma fueled_bind {A B} (m : res A) (f : A -> res B) : fueled m -> (forall a, m = Ok a -> fueled (f a)) -> fueled (m ≫= f).
Proof. destruct m as [a|e]; cbn; [auto|]. intros H _ [= ->]. now apply H. Qed.
Lemma fueled_if {A} (b : bool) (m n : res A) : fueled m -> fueled n -> fueled (if b then m else n).
Proof. now destruct b. Qed.
Lemma fueled_option {A} e (o : option A) : e <> OutOfFuel -> fueled (from_option_res e o).
Proof. intros He. destruct o; cbn; [done|]. now intros [= ->]. Qed.
Lemma fueled_oob {A} (r : res A) : oob_only r -> fueled r.
Proof. intros H E. now apply H in E. Qed.
Lemma fueled_foldM {A T} (f : A -> T -> res T) l t : (forall a t, fueled (f a t)) -> fueled (foldM f l t).
Proof. intros H. revert t. induction l as [|a l IH]; intros t; cbn [foldM]; [done|]. apply fueled_bind; [apply H|auto]. Qed.
Lemma fueled_slice buf i n : fueled (slice buf i n).
Proof. unfold slice. now case_match. Qed.
Lemma fueled_le32 buf i : fueled (le32 buf i).
Proof. apply fueled_oob, oob_le32. Qed.
Lemma fueled_rd8 buf i : fueled (rd8 buf i).
Proof. apply fueled_oob, oob_rd8. Qed.
#[export] Hint Resolve fueled_ok fueled_if fueled_slice fueled_le32 fueled_rd8 fueled_foldM : halt.
#[export] Hint Extern 1 (fueled (_ ≫= _)) => (apply fueled_bind; [|intros ? ?]) : halt.
#[export] Hint Extern 2 (fueled (from_option_res _ _)) => (apply fueled_option; discriminate) : halt.
#[export] Hint Extern 2 (fueled (Fault _)) => (intros [=]) : halt.

(** ** The digest *)

Lemma fueled_decode n l : fueled (Md5.MD5Decode n l).
Proof.
  revert l. induction n as [|n IH]; intros l; [now destruct l|]. destruct l as [|b0 [|b1 [|b2 [|b3 l]]]]; cbn [Md5.MD5Decode]; try done. apply fueled_bind; auto with halt.
Qed.
Lemma fueled_exec_all x l w : fueled (Md5.exec_all x l w).
Proof.
  apply fueled_foldM. intros [[[[m [[[a b] c] d]] i] s] ac] w'. cbn [Md5.exec]. auto with halt.
Qed.
Lemma fueled_transform st b : fueled (Md5.MD5Transform st b).
Proof. unfold Md5.MD5Transform. apply fueled_bind; [apply fueled_decode|intros x _]. apply fueled_bind; [apply fueled_exec_all|intros w _]. done. Qed.
Lemma fueled_copy_at d i s : fueled (Md5.copy_at d i s).
Proof. unfold Md5.copy_at. now case_match. Qed.
#[export] Hint Resolve fueled_transform fueled_copy_at : halt.
(** The position gains a block each time. *)
Lemma fueled_transform_loop fuel input i n st : 0 <= i <= n -> n < 2 ^ 31 -> n - i < 64 * Z.of_nat fuel -> fueled (Md5.transform_loop fuel input i n st).
Proof.
  change (2 ^ 31) with 2147483648. revert i st. induction fuel as [|fuel IH]; intros i st Hi Hn Hf; cbn [Md5.transform_loop]; rewrite wrapU_small by lia; [lia|].
  destruct (Z.leb_spec (i + 64) n); [|done]. apply fueled_bind; [auto with halt|intros b _]. apply fueled_bind; [auto with halt|intros st' _]. apply IH; lia.
Qed.
Lemma fueled_update ctx input : Z.of_nat (length input) < 2 ^ 31 -> fueled (Md5.MD5Update ctx input).
Proof.
  intros Hl. unfold Md5.MD5Update. cbv zeta. rewrite (wrapU_small 32 (Z.of_nat (length input))) by lia.
  set (index := Z.land _ 63). assert (0 <= index < 64) as Hidx by (subst index; change 63 with (Z.ones 6); rewrite Z.land_ones by lia; apply Z.mod_pos_bound; lia).
  apply fueled_bind.
  - destruct (Z.leb_spec (64 - index) (Z.of_nat (length input))); [|done]. apply fueled_bind; [auto with halt|intros p _]. apply fueled_bind; [auto with halt|intros buf _].
    apply fueled_bind; [auto with halt|intros st _]. apply fueled_bind; [|done]. apply fueled_transform_loop; [lia|done|].
    pose proof (Nat.div_mod_eq (length input) 64). pose proof (Nat.mod_upper_bound (length input) 64 ltac:(lia)). lia.
  - intros [[[i st] ix] buf] _. auto 6 with halt.
Qed.
Lemma fueled_digest junk l : Z.of_nat (length l) < 2 ^ 31 -> fueled (Md5.digest junk [l]).
Proof.
  intros Hl. unfold Md5.digest. cbn [foldM]. apply fueled_bind; [apply fueled_bind; [now apply fueled_update|done]|intros ctx _].
  unfold Md5.MD5Final. cbv zeta. apply fueled_bind.
  - apply fueled_update. assert (forall n, (length (take n Md5.PADDING) <= 64)%nat) as Hp by (intros n; rewrite length_take; cbn; lia). specialize (Hp (Z.to_nat (if Z.land (Z.shiftr (Md5.count0 ctx) 3) 63 <? 56 then 56 - Z.land (Z.shiftr (Md5.count0 ctx) 3) 63 else 120 - Z.land (Z.shiftr (Md5.count0 ctx) 3) 63))). lia.
  - intros ctx' _. apply fueled_bind; [apply fueled_update; cbn; lia|done].
Qed.

(** ** The user configuration *)

Lemma fueled_put buf i b : fueled (Uc.put buf i b).
Proof. unfold Uc.put. now case_match. Qed.
Lemma fueled_terminated buf : fueled (Uc.terminated buf).
Proof. unfold Uc.terminated. now case_match. Qed.
#[export] Hint Resolve fueled_put fueled_terminated : halt.
Lemma fueled_char_step P b s : fueled (Uc.char_step P b s).
Proof.
  assert (forall s, fueled (Uc.fill P b s)) as Hf by (intros s'; unfold Uc.fill; cbv zeta; auto 8 with halt).
  unfold Uc.char_step. apply fueled_if; [|auto with halt]. unfold Uc.end_line, Uc.set_value. apply fueled_bind; [|done].
  apply fueled_if; [|done]. apply fueled_if; [|done]. destruct (List.find _ _) as [[k ls]|]; auto with halt.
Qed.
Lemma fueled_parsing buf junk u : fueled (Uc.loader_userconfig_parsing buf junk u).
Proof. apply fueled_bind; [apply fueled_foldM, fueled_char_step|done]. Qed.

(** ** The patch table and the identities *)

Lemma fueled_memcmp p tag : fueled (memcmp p tag).
Proof. revert p. induction tag as [|t tag IH]; intros p; [now destruct p|]. destruct p as [|b p]; [done|]. cbn [memcmp]. auto with halt. Qed.
Lemma fueled_read_entry raw p : fueled (read_entry raw p).
Proof. unfold read_entry. cbv zeta. auto 8 with halt. Qed.
Lemma read_entry_forward raw p x q : 0 <= p -> read_entry raw p = Ok (x, q) -> p + 24 <= q <= Z.of_nat (length raw).
Proof.
  intros Hp. unfold read_entry. destruct (slice raw p 16) as [name|] eqn:En; [|discriminate]. cbn [mbind res_bind].
  destruct (le32 raw (p + 16)) as [type|] eqn:Et; [|discriminate]. cbn [mbind res_bind].
  destruct (le32 raw (p + 20)) as [len|] eqn:El; [|discriminate]. cbn [mbind res_bind].
  assert (p + 24 <= Z.of_nat (length raw)) as Hl.
  { destruct (Z.le_gt_cases (p + 24) (Z.of_nat (length raw))); [done|]. rewrite Tables.le32_short in El by lia. discriminate. }
  destruct (_ || _); [intros [= _ <-]; lia|]. cbv zeta. set (n := u32 (len * 8)). assert (0 <= n < 2 ^ 32) as Hn by (apply wrapU_bound; lia).
  destruct (slice raw (p + 24) (Z.to_nat n)) as [data|] eqn:Ed; [|discriminate]. cbn [mbind res_bind]. intros [= _ <-].
  unfold slice in Ed. destruct (_ && _) eqn:E; [|discriminate]. apply andb_true_iff in E as [_ E]. apply Z.leb_le in E. lia.
Qed.
Lemma fueled_read_entries fuel raw size p : 0 <= p -> size <= Z.of_nat (length raw) -> Z.of_nat (length raw) <= p + 24 * Z.of_nat fuel ->
  fueled (read_entries fuel raw size p).
Proof.
  revert p. induction fuel as [|fuel IH]; intros p Hp Hs Hf; cbn [read_entries]; (destruct (Z.ltb_spec p size); [|done]); [lia|].
  apply fueled_bind; [apply fueled_read_entry|intros [x q] E]. apply read_entry_forward in E; [|done]. apply fueled_bind; [apply IH; cbn [snd]; lia|done].
Qed.
Lemma fueled_parse_table raw size : size <= Z.of_nat (length raw) -> fueled (parse_table raw size).
Proof.
  intros Hs. unfold parse_table. apply fueled_bind; [apply fueled_memcmp|intros tag _]. apply fueled_if; [|done]. apply fueled_bind; [|done].
  apply fueled_read_entries; [lia|done|]. pose proof (Nat.div_mod_eq (length raw) 24). pose proof (Nat.mod_upper_bound (length raw) 24 ltac:(lia)). lia.
Qed.
Lemma fueled_count_ids fuel c i len num : len <= Z.of_nat (length c) -> len - i <= 5 * Z.of_nat fuel -> fueled (count_ids fuel c i len num).
Proof.
  intros Hl. revert i num. induction fuel as [|fuel IH]; intros i num Hf; cbn [count_ids]; (destruct (Z.ltb_spec i len); [|done]); [lia|].
  apply fueled_bind; [auto with halt|intros ch _]. apply fueled_if; [apply IH; lia|auto with halt].
Qed.
Lemma fueled_put_word i v l : fueled (put_word i v l).
Proof. unfold put_word. now case_match. Qed.
#[export] Hint Resolve fueled_put_word : halt.
Lemma fueled_parse_ids n i c ids : fueled (parse_ids n i c ids).
Proof. revert i ids. induction n as [|n IH]; intros i ids; cbn [parse_ids]; auto with halt. Qed.
Lemma fueled_get_paring_ids c ids : fueled (get_paring_ids c ids).
Proof.
  unfold get_paring_ids. apply fueled_bind; [auto with halt|intros s Hs]. cbv zeta. apply fueled_bind.
  - assert (length s <= length c)%nat as Hl; [|apply fueled_count_ids; lia]. unfold Uc.terminated in Hs. destruct (Nat.ltb_spec (length (Uc.c_str c)) (length c)); [|done]. injection Hs as <-. lia.
  - intros num _. apply fueled_if; [done|]. apply fueled_bind; [apply fueled_parse_ids|done].
Qed.

(** ** Requests *)

Lemma halts_bind_post {A B} (m : M A) (f : A -> M B) : halts m -> (forall a d, (m d).1 = Ok a -> halts (f a)) -> halts (m ≫= f).
Proof.
  intros Hm Hf d. unfold mbind, M_bind. pose proof (Hm d) as H1. pose proof (fun a => Hf a d) as H2. destruct (m d) as [[a|e] d']; cbn [fst] in *; [now apply (H2 a)|].
  intros [= ->]. now apply H1.
Qed.
Lemma halts_bind {A B} (m : M A) (f : A -> M B) : halts m -> (forall a, halts (f a)) -> halts (m ≫= f).
Proof. intros Hm Hf. now apply halts_bind_post. Qed.
Lemma halts_if {A} (b : bool) (m n : M A) : halts m -> halts n -> halts (if b then m else n).
Proof. now destruct b. Qed.
Lemma halts_ret {A} (a : A) : halts (mret a).
Proof. done. Qed.
Lemma halts_gets {A} (f : dev -> A) : halts (gets f).
Proof. done. Qed.
Lemma halts_modify f : halts (modify f).
Proof. done. Qed.
Lemma halts_emit ev : halts (emit ev).
Proof. done. Qed.
Lemma halts_put p c : halts (put p c).
Proof. done. Qed.
Lemma halts_kfree p : halts (kfree p).
Proof. done. Qed.
Lemma halts_lift {A} (r : res A) : fueled r -> halts (lift r).
Proof. intros H d. exact H. Qed.
Lemma halts_crash {A} e : e <> OutOfFuel -> halts (@crash A e).
Proof. intros He d. cbn. now intros [= ->]. Qed.
#[export] Hint Resolve halts_if halts_ret halts_gets halts_modify halts_emit halts_put halts_kfree halts_lift : halt.
#[export] Hint Extern 1 (halts (_ ≫= _)) => (apply halts_bind; [|intros ?]) : halt.
#[export] Hint Extern 2 (halts (crash _)) => (apply halts_crash; discriminate) : halt.

Lemma halts_deref p : halts (deref p).
Proof. unfold deref. auto with halt. Qed.
Lemma halts_kzalloc c : halts (kzalloc c).
Proof. unfold kzalloc. auto with halt. Qed.
#[export] Hint Resolve halts_deref halts_kzalloc : halt.
Lemma halts_cmd_complete p : halts (cmd_complete p).
Proof. unfold cmd_complete. cbv zeta. auto 6 with halt. Qed.
Lemma fueled_stack_copy dst src : fueled (stack_copy dst src).
Proof. unfold stack_copy. now case_match. Qed.
#[export] Hint Resolve halts_cmd_complete fueled_stack_copy : halt.
Lemma halts_store_cfm m n c : halts (store_cfm m n c).
Proof. unfold store_cfm. destruct (cmd_e2a_msg c); auto 6 with halt. Qed.
#[export] Hint Resolve halts_store_cfm : halt.
Lemma halts_msg_scan l m : halts (msg_scan l m).
Proof. induction l as [|p l IH]; cbn [msg_scan]; cbv zeta; auto 8 with halt. Qed.
#[export] Hint Resolve halts_msg_scan : halt.
Lemma fueled_msg_hdlr id : fueled (msg_hdlr id).
Proof. unfold msg_hdlr. auto with halt. Qed.
#[export] Hint Resolve fueled_msg_hdlr : halt.
Lemma halts_deliver l : halts (deliver l).
Proof. induction l as [|m l IH]; cbn [deliver]; unfold rwnx_rx_handle_msg, cmd_mgr_msgind; auto 8 with halt. Qed.
#[export] Hint Resolve halts_deliver : halt.
Lemma halts_tx m : halts (aicwf_set_cmd_tx m).
Proof. unfold aicwf_set_cmd_tx, Wire.aicwf_set_cmd_tx. auto 6 with halt. Qed.
#[export] Hint Resolve halts_tx : halt.
Lemma halts_queue p m t : halts (cmd_mgr_queue p m t).
Proof.
  unfold cmd_mgr_queue. apply halts_bind; [auto with halt|intros d]. apply halts_bind; [auto with halt|intros c]. destruct (decide _); [auto 6 with halt|].
  apply halts_if; [auto 6 with halt|]. apply halts_bind; [unfold last_waits; destruct (last _); auto with halt|intros push]. cbv zeta. do 2 (apply halts_bind; [auto with halt|intros _]).
  apply halts_if; [auto with halt|]. apply halts_bind; [auto with halt|intros _]. apply halts_if; [auto 6 with halt|]. apply halts_bind; [unfold wait; auto with halt|intros w].
  apply halts_bind; [auto with halt|intros c']. apply halts_if; [|auto 6 with halt]. do 3 (apply halts_bind; [auto with halt|intros _]).
  apply halts_bind; [auto with halt|intros c2]. apply halts_bind; [unfold give_up_cmd; auto 6 with halt|auto with halt].
Qed.
#[export] Hint Resolve halts_queue : halt.
Lemma halts_next_turn : halts next_turn.
Proof. unfold next_turn. auto with halt. Qed.
#[export] Hint Resolve halts_next_turn : halt.
Lemma halts_request id param r reqid cfm : halts (request id param r reqid cfm).
Proof. unfold request, rwnx_send_msg. auto 12 with halt. Qed.
#[export] Hint Resolve halts_request : halt.
Lemma halts_write a v : halts (rwnx_send_dbg_mem_write_req a v).
Proof. unfold rwnx_send_dbg_mem_write_req. auto with halt. Qed.
Lemma halts_mask a k v : halts (rwnx_send_dbg_mem_mask_write_req a k v).
Proof. unfold rwnx_send_dbg_mem_mask_write_req. auto with halt. Qed.
Lemma halts_start a v : halts (rwnx_send_dbg_start_app_req a v).
Proof. unfold rwnx_send_dbg_start_app_req. auto with halt. Qed.
Lemma halts_read a c : halts (rwnx_send_dbg_mem_read_req a c).
Proof. unfold rwnx_send_dbg_mem_read_req. auto with halt. Qed.
Lemma halts_block a n l : halts (rwnx_send_dbg_mem_block_write_req a n l).
Proof. unfold rwnx_send_dbg_mem_block_write_req. auto 8 with halt. Qed.
Lemma halts_memdata c : halts (memdata c).
Proof. unfold memdata. repeat (case_match; auto with halt). Qed.
#[export] Hint Resolve halts_write halts_mask halts_start halts_read halts_block halts_memdata : halt.
Lemma halts_orelse m k : halts m -> halts k -> halts (orelse m k).
Proof. unfold orelse. auto with halt. Qed.
Lemma halts_orfail c m k : halts m -> halts k -> halts (orfail c m k).
Proof. unfold orfail. auto with halt. Qed.
Lemma halts_steps l : Forall halts l -> halts (steps l).
Proof. induction 1; cbn [steps]; [auto with halt|]. now apply halts_orfail. Qed.
Lemma halts_read_word a c k : (forall w c', halts (k w c')) -> halts (read_word a c k).
Proof. intros Hk. unfold read_word. auto 6 with halt. Qed.
#[export] Hint Resolve halts_orelse halts_orfail : halt.
#[export] Hint Extern 1 (halts (read_word _ _ _)) => (apply halts_read_word; intros ? ?) : halt.

(** ** Files *)

(** What a file that was read comes with. *)
Lemma load_post e name d n l : (aic_load_firmware e name d).1 = Ok (n, l) -> n <= 0 \/ n = Z.of_nat (length l) /\ n < 2 ^ 31.
Proof.
  unfold aic_load_firmware. rewrite Exch.bind_gets. unfold mbind at 1, M_bind at 1. unfold lift at 1. destruct (fw_path e (chipid d) name) as [path|]; [|discriminate].
  destruct (_ <=? _)%nat; [intros [= <- <-]; left; lia|]. destruct (filp_open e path) as [f|]; [|intros [= <- <-]; left; lia]. cbv zeta.
  destruct (Z.leb_spec (s32 (i_size f)) 0); [intros [= <- <-]; left; lia|]. destruct (Z.eqb_spec (Z.of_nat (length (take (Z.to_nat (s32 (i_size f))) (content f)))) (s32 (i_size f))) as [E|E];
    [|intros [= <- <-]; left; lia].
  unfold mbind, M_bind, lift. destruct (Md5.digest _ _); [|discriminate]. cbn. intros [= <- <-]. right. split; [done|]. pose proof (wrapS_bound 32 (i_size f)). lia.
Qed.
Lemma halts_load e name : halts (aic_load_firmware e name).
Proof.
  unfold aic_load_firmware. apply halts_bind; [auto with halt|intros c]. apply halts_bind.
  { apply halts_lift. unfold fw_path. destruct (chip_dir c); auto with halt. }
  intros path. apply halts_if; [auto with halt|]. destruct (filp_open e path) as [f|]; [|auto with halt]. cbv zeta. apply halts_if; [auto with halt|].
  apply halts_if; [|auto with halt]. apply halts_bind; [|auto with halt]. apply halts_lift, fueled_digest. rewrite length_take. pose proof (wrapS_bound 32 (i_size f)). lia.
Qed.
#[export] Hint Resolve halts_load : halt.
Lemma halts_block_loop fuel a i lim dst : 0 <= i <= lim + 1024 -> lim < 2 ^ 31 -> lim <= i + 1024 * Z.of_nat fuel -> halts (block_loop fuel a i lim dst).
Proof.
  intros Hi Hl. change (2 ^ 31) with 2147483648 in Hl. revert i Hi. induction fuel as [|fuel IH]; intros i Hi Hf; cbn [block_loop]; (destruct (Z.ltb_spec i lim); [|auto with halt]); [lia|].
  apply halts_bind; [auto with halt|intros err]. apply halts_if; [|auto with halt]. rewrite wrapU_small by lia. apply IH; lia.
Qed.
Lemma halts_upload_blocks a dst : Z.of_nat (length dst) < 2 ^ 31 -> halts (upload_blocks a (Z.of_nat (length dst)) dst).
Proof.
  intros Hl. change (2 ^ 31) with 2147483648 in Hl. unfold upload_blocks. apply halts_bind; [|intros [i err]; auto with halt].
  destruct (Z.ltb_spec 1024 (Z.of_nat (length dst))); [|auto with halt]. rewrite wrapU_small by lia. apply halts_block_loop; [lia|lia|].
  pose proof (Nat.div_mod_eq (length dst) 1024). pose proof (Nat.mod_upper_bound (length dst) 1024 ltac:(lia)). lia.
Qed.
Lemma halts_upload e a name : halts (rwnx_plat_bin_fw_upload_android e a name).
Proof.
  unfold rwnx_plat_bin_fw_upload_android. apply halts_bind_post; [auto with halt|]. intros [n dst] d E. apply load_post in E.
  destruct (Z.leb_spec n 0); [auto with halt|]. destruct E as [E|[-> E]]; [lia|]. now apply halts_upload_blocks.
Qed.
Lemma halts_erase_loop fuel a i lim : 0 <= i <= lim + 0x40000 -> lim < 2 ^ 31 -> lim <= i + 0x40000 * Z.of_nat fuel -> halts (erase_loop fuel a i lim).
Proof.
  intros Hi Hl. change (2 ^ 31) with 2147483648 in Hl. revert i Hi. induction fuel as [|fuel IH]; intros i Hi Hf; cbn [erase_loop]; (destruct (Z.ltb_spec i lim); [|auto with halt]); [lia|].
  apply halts_bind; [auto with halt|intros err]. apply halts_if; [|auto with halt]. rewrite wrapU_small by lia. apply IH; lia.
Qed.
Lemma halts_erase_flash a n : n < 2 ^ 31 -> halts (erase_flash a n).
Proof.
  intros Hn. change (2 ^ 31) with 2147483648 in Hn. unfold erase_flash. apply halts_bind; [|intros [i err]; auto 6 with halt].
  destruct (Z.ltb_spec 0x40000 n); [|auto with halt]. rewrite wrapU_small by lia. apply halts_erase_loop; [lia|lia|]. Z.div_mod_to_equations. lia.
Qed.
Lemma fueled_crc l c : fueled (Crc.aic_crc32 l c).
Proof. revert c. induction l as [|b l IH]; intros c; cbn [Crc.aic_crc32]; auto with halt. Qed.
Lemma halts_flash_upload e a name : halts (rwnx_plat_flash_bin_upload_android e a name).
Proof.
  unfold rwnx_plat_flash_bin_upload_android. apply halts_bind_post; [auto with halt|]. intros [n dst] d E. apply load_post in E. apply halts_bind; [auto with halt|intros _].
  destruct (Z.leb_spec n 0); [auto with halt|]. destruct E as [E|[-> E]]; [lia|]. apply halts_if; [auto with halt|]. apply halts_bind; [auto with halt|intros r].
  apply halts_if; [auto with halt|]. apply halts_bind; [auto with halt|intros w]. apply halts_bind; [apply halts_if; [auto with halt|now apply halts_erase_flash]|intros out].
  apply halts_if; [auto with halt|]. apply halts_bind; [|intros crc; pose proof (halts_upload_blocks a dst E); auto with halt].
  apply halts_lift, fueled_crc.
Qed.
Lemma halts_userconfig e name : halts (rwnx_plat_userconfig_upload_android e name).
Proof.
  unfold rwnx_plat_userconfig_upload_android. apply halts_bind; [auto with halt|intros [n dst]]. apply halts_if; [auto with halt|]. apply halts_bind; [auto with halt|intros u].
  apply halts_bind; [apply halts_lift, fueled_parsing|auto with halt].
Qed.
#[export] Hint Resolve halts_upload halts_userconfig : halt.
Lemma halts_table_load t : halts (aicbt_patch_table_load t).
Proof.
  assert (forall n data, halts (write_pairs n data)) as Hw.
  { intros n. induction n as [|n IH]; intros data; [destruct data; apply halts_ret|]. destruct data as [|a [|v rest]]; cbn [write_pairs]; auto with halt. }
  assert (forall i p, fueled (entry_data i p)) as He by (intros i p; unfold entry_data, set_btmode; auto 14 with halt).
  induction t as [|p t IH]; cbn [aicbt_patch_table_load]; [auto with halt|]. apply halts_bind; [auto with halt|intros c]. apply halts_bind; [|intros data; auto with halt].
  apply halts_lift. apply fueled_if; [|done]. apply fueled_bind; [|auto]. unfold aicbt_info. destruct c; auto with halt.
Qed.
#[export] Hint Resolve halts_table_load : halt.
Lemma halts_table_upload e name : halts (rwnx_plat_bin_fw_patch_table_upload_android e name).
Proof.
  unfold rwnx_plat_bin_fw_patch_table_upload_android. apply halts_bind_post; [auto with halt|]. intros [n raw] d E. apply load_post in E. destruct (Z.leb_spec n 0); [auto with halt|]. destruct E as [E|[-> E]]; [lia|].
  apply halts_bind; [apply halts_lift, fueled_parse_table; lia|]. intros [t|]; auto with halt.
Qed.
Lemma halts_table_alloc e name : halts (aicbt_patch_table_alloc e name).
Proof.
  unfold aicbt_patch_table_alloc. apply halts_bind_post; [auto with halt|]. intros [n raw] d E. apply load_post in E. destruct (Z.leb_spec n 0); [auto with halt|]. destruct E as [E|[-> E]]; [lia|].
  apply halts_bind; [apply halts_lift, fueled_parse_table; lia|auto with halt].
Qed.
Lemma halts_ext_load e i name : halts (aicbt_ext_patch_data_load e i name).
Proof.
  unfold aicbt_ext_patch_data_load. apply halts_if; [|auto with halt]. apply halts_orelse; [auto with halt|]. generalize (ext_patch_param i) as l.
  induction (Z.to_nat (ext_patch_nb i)) as [|n IH]; intros l; [destruct l; apply halts_ret|]. destruct l as [|a [|v l]]; cbn [ext_patches]; auto with halt.
Qed.
Lemma fueled_unpack i p : fueled (aicbt_patch_info_unpack i p).
Proof. unfold aicbt_patch_info_unpack. destruct (_ <? _); cbv zeta; auto 8 with halt. Qed.
Lemma halts_write_tbl l : halts (write_tbl l).
Proof. induction l as [|[a v] l IH]; cbn [write_tbl]; auto with halt. Qed.
#[export] Hint Resolve halts_table_upload halts_table_alloc halts_ext_load fueled_unpack halts_write_tbl : halt.
Lemma halts_patch_config e : halts (patch_config e).
Proof.
  assert (forall l r, halts (write_last r l)) as Hw by (intros l; induction l as [|[a v] l IH]; intros r; cbn [write_last]; auto with halt).
  unfold patch_config. cbv zeta. auto 8 with halt.
Qed.
Lemma halts_install b s c l : halts (install b s c l).
Proof. unfold install. auto with halt. Qed.
#[export] Hint Resolve halts_patch_config halts_install : halt.
Lemma halts_patch_config_d80 e : halts (aicwf_patch_config_8800d80 e).
Proof. unfold aicwf_patch_config_8800d80. cbv zeta. auto 12 with halt. Qed.
Lemma halts_patch_config_d80x2 e : halts (aicwf_patch_config_8800d80x2 e).
Proof. unfold aicwf_patch_config_8800d80x2. cbv zeta. auto 12 with halt. Qed.
Lemma halts_pwron_loop n cfm : halts (pwron_loop n cfm).
Proof. revert cfm. induction n as [|n IH]; intros cfm; cbn [pwron_loop]; auto 6 with halt. Qed.
Lemma halts_bt_pwron : halts bt_pwron.
Proof. pose proof halts_pwron_loop. unfold bt_pwron. auto 8 with halt. Qed.
Lemma halts_write_words a n l : halts (write_words a n l).
Proof. revert a l. induction n as [|n IH]; intros a l; [destruct l; apply halts_ret|]. destruct l as [|w l]; cbn [write_words]; auto with halt. Qed.
#[export] Hint Resolve halts_patch_config_d80 halts_patch_config_d80x2 halts_bt_pwron halts_write_words fueled_get_paring_ids : halt.
Lemma halts_ad_filter e a : halts (ad_filter_words e a).
Proof. unfold ad_filter_words, upload. auto with halt. Qed.
Lemma halts_start_app a : halts (start_app a).
Proof. unfold start_app. auto with halt. Qed.
#[export] Hint Resolve halts_ad_filter halts_start_app : halt.
#[export] Hint Extern 1 (halts (steps _)) => (apply halts_steps; unfold load_8800, finish_8800, bt_8800d80x2, upload, rf_config; cbn [app]; repeat constructor) : halt.
Lemma halts_8800 e : halts (aicfw_download_fw_8800 e).
Proof.
  unfold aicfw_download_fw_8800. apply halts_bind; [auto with halt|intros id]. cbv zeta. apply halts_if; [auto with halt|]. apply halts_if; [|apply halts_if].
  - unfold ble_scan_wakeup, upload. auto 12 with halt.
  - unfold ble_ad_filter. auto with halt.
  - auto with halt.
Qed.
Lemma halts_d80 e : halts (aicfw_download_fw_8800d80 e).
Proof. unfold aicfw_download_fw_8800d80, ble_ad_filter. auto 12 with halt. Qed.
Lemma halts_d80x2 e : halts (aicfw_download_fw_8800d80x2 e).
Proof.
  unfold aicfw_download_fw_8800d80x2. apply halts_bind; [auto with halt|intros d]. cbv zeta. apply halts_bind; [auto with halt|intros [[|head t]|]]; [auto with halt| |auto with halt].
  apply halts_bind; [auto with halt|intros [i head']]. apply halts_if; [auto with halt|]. apply halts_orelse; [auto with halt|]. unfold ble_ad_filter_8800d80x2. auto 8 with halt.
Qed.
Lemma halts_system_config : halts system_config.
Proof. unfold system_config. apply halts_bind; [auto with halt|intros c]. destruct c; auto with halt; unfold system_config_8800, system_config_8800d80, system_config_8800d80x2; auto 12 with halt. Qed.
Lemma halts_download e : halts (aicfw_download_fw e).
Proof. unfold aicfw_download_fw. apply halts_bind; [auto with halt|intros c]. destruct c; auto with halt; [apply halts_8800|apply halts_d80|apply halts_d80x2]. Qed.
End Halt.

Module HaltProps.
Import Fw Image Table Conf Start Halt.

(** C8. The probe comes to an end: whatever the files are, whatever state the device
    is in and whatever the chip sends or does not send, no loop of the loader -
    the blocks of an upload, the digest, the parser of the configuration, the
    entries of a patch table, the identities of the wake-up mode, the readings
    until the Bluetooth core is up - runs for ever; the same holds of the upload
    to the flash with its erase loop. *)
Theorem loader_terminates e high_speed fw_loaded addr name d :
  (probe_load e high_speed fw_loaded d).1 <> Fault OutOfFuel /\
  (rwnx_plat_flash_bin_upload_android e addr name d).1 <> Fault OutOfFuel.
Proof.
  split; [|apply Halt.halts_flash_upload]. revert d. change (Halt.halts (probe_load e high_speed fw_loaded)). unfold probe_load.
  apply Halt.halts_bind; [done|intros _]. apply Halt.halts_bind; [done|intros c].
  pose proof Halt.halts_system_config. pose proof (Halt.halts_download e). unfold system_reboot, rwnx_send_reboot. auto 8 with halt.
Qed.
End HaltProps.
