(* ===== verification/LoaderScript.v ===== *)
(** The exchanges of a whole probe of the firmware loader, when every request is
    answered: the system configuration, the uploads, the patch table, the patch
    configuration and the download of each chip. *)
From Stdlib Require Import ZArith Lia String.
From stdpp Require Import base list numbers option gmap strings pretty.
From S2P Require Import Prelude CmdMgr UserConfig Digest LoaderCmd Loader LoaderFacts.

#[local] Open Scope Z_scope.
#[local] Open Scope aic_scope.

(** * The exchanges of a probe *)

Module Script.
Import Fw Image Table Conf Start Exch Blocks Tables.

(** ** Files as a probe finds them *)

Definition bytes_ok (l : list Z) : Prop := Forall (fun b => 0 <= b < 256) l.
(** The name is found with these contents. *)
Definition found (e : env) (c : AICWF_IC) (name : string) (l : list Z) : Prop := file_at e c name = Some l /\ bytes_ok l.
(** A table of patches that can be read back and loaded. *)
Definition good_table (t : list aicbt_patch_table) : Prop :=
  t <> [] /\ Forall wf_entry t /\ Forall (fun p => pt_type p = AICBT_PT_BTMODE -> 9 <= pt_len p) t.

(** The memory of the probe after the files [ls] were read. *)
Definition read_files (ls : list (list Z)) (c : dev) : dev := foldr printed c (reverse ls).

Lemma printed_chipid l c : chipid (printed l c) = chipid c.
Proof. done. Qed.

Lemma runs_upload_found e c a name l : env_ok e -> found e (chipid c) name l -> runs c (upload e a name) (upload_xs a l) 0 (printed l c).
Proof. intros He [Hf Hb]. now apply runs_upload. Qed.

Lemma encode_bytes t : Forall wf_entry t -> bytes_ok (encode_table t).
Proof.
  assert (forall w, bytes_ok (word32 w)) as Hw.
  { intros w. unfold bytes_ok, word32. assert (forall x, 0 <= Z.land x 255 < 256) as H; [|repeat constructor; apply H].
    intros x. change 255 with (Z.ones 8). rewrite Z.land_ones by lia. apply Z.mod_pos_bound. lia. }
  assert (forall l, bytes_ok (flat_map word32 l)) as Hws.
  { intros l. induction l as [|w l IH]; [constructor|]. apply Forall_app. split; [apply Hw|exact IH]. }
  intros H. unfold encode_table, bytes_ok. apply Forall_app. split; [repeat constructor; lia|]. apply Forall_app. split; [repeat constructor; lia|].
  induction H as [|p t (Hn & Hb & _) _ IH]; [constructor|]. cbn [flat_map]. apply Forall_app. split; [|exact IH]. unfold encode_entry.
  repeat (apply Forall_app; split); try apply Hw; try apply Hws. exact Hb.
Qed.
Lemma runs_load_table e c name t : env_ok e -> Forall wf_entry t -> file_at e (chipid c) name = Some (encode_table t) ->
  runs c (aic_load_firmware e name) [] (Z.of_nat (length (encode_table t)), encode_table t) (printed (encode_table t) c).
Proof. intros He Ht Hf. apply runs_load; [done|done|]. now apply encode_bytes. Qed.

Lemma encode_size t : (Z.of_nat (length (encode_table t)) <=? 0) = false.
Proof. apply Z.leb_gt. unfold encode_table. rewrite length_app. cbn. lia. Qed.

Lemma runs_table_upload e c name t : env_ok e -> good_table t -> file_at e (chipid c) name = Some (encode_table t) -> (exists i, aicbt_info (chipid c) = Ok i) ->
  runs c (rwnx_plat_bin_fw_patch_table_upload_android e name) (writes (table_writes (chipid c) t)) 0 (printed (encode_table t) c).
Proof.
  intros He (Hne & Hw & H3) Hf [i Hi]. unfold rwnx_plat_bin_fw_patch_table_upload_android.
  apply (runs_bind c _ _ [] _ (Z.of_nat (length (encode_table t)), encode_table t) 0 (printed (encode_table t) c) _); [now apply runs_load_table|]. rewrite encode_size.
  set (c1 := printed (encode_table t) c). apply (runs_bind c1 _ _ [] _ (Some t) 0 c1 c1); [apply runs_lift; now apply parse_encode|].
  rewrite <- (app_nil_r (writes _)). apply (runs_bind c1 _ _ (writes (table_writes (chipid c) t)) [] 0 0 c1 c1); [|apply runs_ret].
  apply (runs_table_load c1 t). apply Forall_forall. intros p Hp. rewrite Forall_forall in Hw, H3. apply (wf_loadable _ i); auto.
Qed.

Lemma runs_table_alloc e c name t : env_ok e -> good_table t -> file_at e (chipid c) name = Some (encode_table t) ->
  runs c (aicbt_patch_table_alloc e name) [] (Some t) (printed (encode_table t) c).
Proof.
  intros He (Hne & Hw & _) Hf. unfold aicbt_patch_table_alloc.
  apply (runs_bind c _ _ [] [] (Z.of_nat (length (encode_table t)), encode_table t) _ (printed (encode_table t) c) _); [now apply runs_load_table|]. rewrite encode_size.
  set (c1 := printed (encode_table t) c). apply (runs_bind c1 _ _ [] [] (Some t) _ c1 c1); [apply runs_lift; now apply parse_encode|].
  destruct t; [done|apply runs_ret].
Qed.

(** The user configuration is not there, or can be read. *)
Definition configured (e : env) (c c' : dev) : Prop :=
  match file_at e (chipid c) "aic_userconfig.txt" with
  | Some l => bytes_ok l /\ exists u, Uc.loader_userconfig_parsing l (stack_parser e) (userconfig c) = Ok u /\ c' = (printed l c) <| userconfig := u |>
  | None => (exists path, fw_path e (chipid c) "aic_userconfig.txt" = Ok path /\ filp_open e path = None) /\ c' = c
  end.
Lemma runs_userconfig e c c' : env_ok e -> configured e c c' -> runs c (rwnx_plat_userconfig_upload_android e "aic_userconfig.txt") [] 0 c'.
Proof.
  intros He Hc. unfold configured in Hc. unfold rwnx_plat_userconfig_upload_android. destruct (file_at _ _ _) as [l|] eqn:Ef.
  - destruct Hc as (Hb & u & Hu & ->). pose proof (file_at_bounds _ _ _ _ Ef) as [Hne _].
    apply (runs_bind c _ _ [] [] (Z.of_nat (length l), l) _ (printed l c) _); [now apply runs_load|].
    rewrite (proj2 (Z.leb_gt (Z.of_nat (length l)) 0)) by (destruct l; [done|cbn; lia]).
    apply (runs_bind _ _ _ [] [] (userconfig c) _ (printed l c) _); [apply (runs_gets (printed l c)); intros d E; transitivity (userconfig (core d)); [done|now rewrite E]|].
    apply (runs_bind _ _ _ [] [] u _ (printed l c) _); [now apply runs_lift|].
    apply (runs_bind _ _ _ [] [] tt _ ((printed l c) <| userconfig := u |>) _); [|apply runs_ret].
    apply (runs_modify (printed l c) (fun d => d <| userconfig := u |>)). intros d Hr <-. split_and!; [exact Hr|done|done|done].
  - destruct Hc as ((path & Hp & Ho) & ->).
    apply (runs_bind c _ _ [] [] (-1, []) _ c _); [|apply runs_ret]. unfold aic_load_firmware.
    apply (runs_bind c _ _ [] [] (chipid c) _ c _); [apply runs_gets; intros d <-; done|].
    apply (runs_bind c _ _ [] [] path _ c _); [now apply runs_lift|]. rewrite Ho. destruct (_ <=? _)%nat; apply runs_ret.
Qed.

(** ** System configuration *)

Lemma runs_set c g (k : M Z) xs r c' : (forall d, ready d -> ready (g d) /\ core (g d) = g (core d) /\ turns (g d) = turns d /\ trace (g d) = trace d) ->
  runs (g c) k xs r c' -> runs c (_ ← modify g; k) xs r c'.
Proof.
  intros Hg Hk. apply (runs_bind c _ _ [] xs tt r (g c) c'); [|exact Hk]. apply (runs_modify c g). intros d Hr <-. now apply Hg.
Qed.
Definition sysconf_8800 (id sub : Z) : list (Z * Z) :=
  (if id =? CHIP_REV_U02 then syscfg_tbl_pmic_u02 else []) ++
  (if (id =? CHIP_REV_U03) && (sub =? CHIP_SUB_REV_U04) then syscfg_tbl_u04 else []) ++ syscfg_tbl.
Lemma runs_system_config_8800 c w v : chipid c = PRODUCT_ID_AIC8800 ->
  let id := u8 (Z.shiftr w 16) in let sub := u8 (Z.shiftr v 4) in
  runs c system_config (ERead 0x40500000 w :: ERead 0x00000004 v :: writes (sysconf_8800 id sub)) 0 (c <| chip_id := id |> <| chip_sub_id := sub |>).
Proof.
  intros Hc id sub. unfold system_config. apply (runs_bind c _ _ [] _ (chipid c) 0 c _); [apply runs_gets; intros d <-; done|]. rewrite Hc.
  unfold system_config_8800. apply runs_read_word; [done|]. intros cfm Hcfm. apply runs_set; [intros d Hr; split_and!; [exact Hr|done|done|done]|].
  apply runs_read_word; [done|]. intros cfm' _. apply runs_set; [intros d Hr; split_and!; [exact Hr|done|done|done]|].
  set (c2 := c <| chip_id := id |> <| chip_sub_id := sub |>). intros d ts rest Hr Hd Ht Hs. rewrite bind_gets.
  assert (chip_id d = id /\ chip_sub_id d = sub) as [-> ->].
  { split; [change (chip_id (core d) = id)|change (chip_sub_id (core d) = sub)]; rewrite Hd; done. }
  revert d ts rest Hr Hd Ht Hs. change (runs c2 (orelse (if id =? CHIP_REV_U02 then write_tbl syscfg_tbl_pmic_u02 else mret 0)
    (orelse (if (id =? CHIP_REV_U03) && (sub =? CHIP_SUB_REV_U04) then write_tbl syscfg_tbl_u04 else mret 0) (write_tbl syscfg_tbl))) (writes (sysconf_8800 id sub)) 0 c2).
  unfold sysconf_8800. rewrite !writes_app. apply (runs_orelse c2 _ _ _ _ 0 c2 c2); [destruct (_ =? _); [apply runs_write_tbl|apply runs_ret]|].
  apply (runs_orelse c2 _ _ _ _ 0 c2 c2); [destruct (_ && _); [apply runs_write_tbl|apply runs_ret]|]. apply runs_write_tbl.
Qed.
Definition mcu (w bit : Z) (c : dev) : dev := if Z.land (Z.shiftr w bit) 1 =? 0 then c <| chip_mcu_id := 1 |> else c.
Lemma runs_system_config_8800d80 c w : chipid c = PRODUCT_ID_AIC8800D80 ->
  runs c system_config [ERead 0x40500000 w] 0 ((mcu w 25 c) <| chip_id := u8 (Z.shiftr w 16) |>).
Proof.
  intros Hc. unfold system_config. apply (runs_bind c _ _ [] _ (chipid c) 0 c _); [apply runs_gets; intros d <-; done|]. rewrite Hc.
  unfold system_config_8800d80. apply runs_read_word; [done|]. intros cfm Hcfm. fold (mcu w 25).
  apply runs_set; [intros d Hr; unfold mcu; case_match; split_and!; try exact Hr; done|]. apply runs_set; [intros d Hr; split_and!; [exact Hr|done|done|done]|].
  apply runs_write_tbl.
Qed.
Lemma runs_system_config_8800d80x2 c w v : chipid c = PRODUCT_ID_AIC8800D80X2 ->
  runs c system_config (ERead 0x40500000 w :: ERead 0x40500004 v :: writes syscfg_tbl_8800d80x2) 0 (mcu v 17 (c <| chip_id := u8 (Z.shiftr w 16) |>)).
Proof.
  intros Hc. unfold system_config. apply (runs_bind c _ _ [] _ (chipid c) 0 c _); [apply runs_gets; intros d <-; done|]. rewrite Hc.
  unfold system_config_8800d80x2. apply runs_read_word; [done|]. intros cfm Hcfm.
  apply runs_set; [intros d Hr; split_and!; [exact Hr|done|done|done]|]. apply runs_read_word; [done|]. intros cfm' _. fold (mcu v 17).
  apply runs_set; [intros d Hr; unfold mcu; case_match; split_and!; try exact Hr; done|]. apply runs_write_tbl.
Qed.

(** ** The patch configuration *)

Definition adapted (e : env) (l a : list (Z * Z)) : list (Z * Z) := l ++ adap e a.
Definition patch_xs_8800 (e : env) (base : Z) : list exch :=
  let tbl := adapted e patch_tbl adaptivity_patch_tbl in
  ERead (RAM_FW_ADDR + 0x0180) base ::
  writes ((0x1e5318, 0x1e6000) :: (0x1e531c, 2 * Z.of_nat (length tbl)) :: pairs_at 0x1e6000 base tbl).
Lemma runs_patch_config e c base : runs c (patch_config e) (patch_xs_8800 e base) 0 c.
Proof.
  unfold patch_config, patch_xs_8800. cbv zeta. apply runs_read; [done|]. intros cfm _ Hm. cbn [snd]. rewrite Hm.
  apply (runs_bind c _ _ [] _ base 0 c c); [apply runs_ret|]. cbn [writes fmap list_fmap fst snd].
  apply (runs_bind c _ _ [_] _ 0 0 c c (runs_write c _ _)).
  assert (2 * Z.of_nat (length patch_tbl) + 2 * Z.of_nat (length (adap e adaptivity_patch_tbl)) = 2 * Z.of_nat (length (adapted e patch_tbl adaptivity_patch_tbl))) as ->
    by (unfold adapted; rewrite length_app; lia).
  apply (runs_bind c _ _ [_] _ 0 0 c c (runs_write c _ _)). apply (runs_write_last c).
Qed.

(** What [install] writes: the head of the patch, the pairs and the empty block
    descriptors. *)
Definition install_writes (base start config_base : Z) (tbl : list (Z * Z)) : list (Z * Z) :=
  patch_header base start (Z.of_nat (length tbl)) ++ pairs_at start config_base tbl ++ patch_blocks base.
Lemma runs_install c base start config_base tbl : runs c (install base start config_base tbl) (writes (install_writes base start config_base tbl)) 0 c.
Proof.
  unfold install, install_writes. rewrite !writes_app. apply (runs_orelse c _ _ _ _ 0 c c); [apply runs_write_tbl|].
  apply (runs_orelse c _ _ _ _ 0 c c); apply runs_write_tbl.
Qed.

(** The words the firmware answers with: where its configuration lies, where the
    patch goes, its version and, when it is new enough, where the pairs go. *)
Record fw_words := mk_words { config_base : Z; patch_base : Z; fw_version : Z; pairs_start : Z }.
Definition start_of (w : fw_words) : Z := if 0x06090100 <? fw_version w then pairs_start w else 0x001D7000.
Definition patch_xs_d80 (e : env) (id : Z) (w : fw_words) : list exch :=
  let fw := if id =? CHIP_REV_U01 then RAM_FMAC_FW_ADDR_8800D80 else RAM_FMAC_FW_ADDR_8800D80_U02 in
  [ERead (fw + 0x198) (config_base w); ERead (fw + 0x198 + 8) (patch_base w); ERead (fw + 0x01C) (fw_version w)] ++
  (if 0x06090100 <? fw_version w then [ERead (fw + 0x198 + 12) (pairs_start w)] else []) ++
  writes (install_writes (patch_base w) (start_of w) (config_base w) (adapted e patch_tbl_d80 adaptivity_patch_tbl_d80)).
Lemma runs_patch_config_d80 e c w : runs c (aicwf_patch_config_8800d80 e) (patch_xs_d80 e (chip_id c) w) 0 (c <| fw_version_uint := fw_version w |>).
Proof.
  unfold aicwf_patch_config_8800d80, patch_xs_d80, start_of. cbv zeta. apply (runs_bind c _ _ [] _ (chip_id c) 0 c _); [apply runs_gets; intros d <-; done|].
  cbn [app]. apply runs_read_word; [done|]. intros cfm H1. apply runs_read_word; [done|]. intros cfm2 H2. apply runs_read_word; [done|]. intros cfm3 H3.
  apply runs_set; [intros d Hr; split_and!; [exact Hr|done|done|done]|]. destruct (_ <? fw_version w).
  - cbn [app]. apply runs_read_word; [done|]. intros cfm4 _. apply runs_install.
  - apply runs_install.
Qed.
Definition patch_xs_d80x2 (e : env) (w : fw_words) : list exch :=
  let fw := RAM_FMAC_FW_ADDR_8800D80X2 in
  [ERead (fw + 0x1A8) (config_base w); ERead (fw + 0x1A8) (config_base w); ERead (fw + 0x1A8 + 8) (patch_base w); ERead (fw + 0x01C) (fw_version w);
   ERead (fw + 0x1A8 + 12) (pairs_start w)] ++
  writes (install_writes (patch_base w) (pairs_start w) (config_base w) (adapted e patch_tbl_d80x2 adaptivity_patch_tbl_d80x2)).
Lemma runs_patch_config_d80x2 e c w : runs c (aicwf_patch_config_8800d80x2 e) (patch_xs_d80x2 e w) 0 (c <| fw_version_uint := fw_version w |>).
Proof.
  unfold aicwf_patch_config_8800d80x2, patch_xs_d80x2. cbv zeta. cbn [app]. apply runs_read; [done|]. intros cfm H0 _. cbn [fst snd Z.eqb negb].
  apply runs_read_word; [done|]. intros cfm1 H1. apply runs_read_word; [done|]. intros cfm2 H2. apply runs_read_word; [done|]. intros cfm3 H3.
  apply runs_set; [intros d Hr; split_and!; [exact Hr|done|done|done]|]. apply runs_read_word; [done|]. intros cfm4 _. apply runs_install.
Qed.

(** ** The download *)

Lemma runs_steps1 c m l xs ys r c' c'' : runs c m xs 0 c' -> runs c' (steps l) ys r c'' -> runs c (steps (m :: l)) (xs ++ ys) r c''.
Proof. apply runs_steps_cons. Qed.
Lemma runs_last c m xs c' : runs c m xs 0 c' -> runs c (steps [m]) xs 0 c'.
Proof. intros H. rewrite <- (app_nil_r xs). apply (runs_steps1 c m [] xs [] 0 c' c' H). apply runs_steps_nil. Qed.
Lemma runs_start_app c a : runs c (start_app a) [EStart a HOST_START_APP_AUTO] 0 c.
Proof. unfold start_app. apply runs_start. Qed.
Lemma runs_chip {A} c (k : Z -> M A) xs r c' : runs c (k (chip_id c)) xs r c' -> runs c (id ← gets chip_id; k id) xs r c'.
Proof. apply (runs_bind c _ _ [] xs (chip_id c) r c c'). apply runs_gets. intros d <-. done. Qed.

(** The files of an 8800. *)
Record files_8800 := mk_files { fw_file : list Z; adid_file : list Z; patch_file : list Z; patch_table : list aicbt_patch_table }.
Definition fw_name_8800 (e : env) : string := if testmode e =? FW_TEST_MODE then "fmacfw_rf.bin" else "fmacfw.bin".
Definition found_8800 (e : env) (u03 : bool) (fs : files_8800) : Prop :=
  let at' := found e PRODUCT_ID_AIC8800 in
  at' (fw_name_8800 e) (fw_file fs) /\ at' (if u03 then "fw_adid_u03.bin" else "fw_adid.bin")%string (adid_file fs) /\
  at' (if u03 then "fw_patch_u03.bin" else "fw_patch.bin")%string (patch_file fs) /\ good_table (patch_table fs) /\
  file_at e PRODUCT_ID_AIC8800 (if u03 then "fw_patch_table_u03.bin" else "fw_patch_table.bin") = Some (encode_table (patch_table fs)).
Definition files_of (fs : files_8800) : list (list Z) := [fw_file fs; adid_file fs; patch_file fs; encode_table (patch_table fs)].
Definition download_xs_8800 (e : env) (fs : files_8800) (base : Z) : list exch :=
  upload_xs RAM_FW_ADDR (fw_file fs) ++ upload_xs FW_RAM_ADID_BASE_ADDR (adid_file fs) ++ upload_xs FW_RAM_PATCH_BASE_ADDR (patch_file fs) ++
  writes (table_writes PRODUCT_ID_AIC8800 (patch_table fs)) ++ patch_xs_8800 e base ++
  [EMask 0x40344058 0x00800000 0; EStart RAM_FW_ADDR HOST_START_APP_AUTO].

Lemma runs_8800 e c fs base c' : env_ok e -> chipid c = PRODUCT_ID_AIC8800 -> testmode e <> FW_BLE_SCAN_WAKEUP_MODE -> testmode e <> FW_BLE_SCAN_AD_FILTER_MODE ->
  found_8800 e (chip_id c =? CHIP_REV_U03) fs -> configured e (read_files (files_of fs) c) c' ->
  runs c (aicfw_download_fw_8800 e) (download_xs_8800 e fs base) 0 c'.
Proof.
  intros He Hc M2 M5 (F1 & F2 & F3 & Ht & F4) Hu. unfold aicfw_download_fw_8800. apply runs_chip. cbv zeta. set (u03 := chip_id c =? CHIP_REV_U03) in *.
  assert (runs c (steps (load_8800 e (fw_name_8800 e) u03 ++ finish_8800 e u03)) (download_xs_8800 e fs base) 0 c') as Hrun.
  2:{ unfold fw_name_8800 in Hrun. destruct (Z.eqb_spec (testmode e) FW_TEST_MODE); [exact Hrun|].
      rewrite (proj2 (Z.eqb_neq (testmode e) FW_BLE_SCAN_WAKEUP_MODE)), (proj2 (Z.eqb_neq (testmode e) FW_BLE_SCAN_AD_FILTER_MODE)) by done. exact Hrun. }
  unfold load_8800, finish_8800, download_xs_8800. cbn [app].
  set (c1 := printed (fw_file fs) c). set (c2 := printed (adid_file fs) c1). set (c3 := printed (patch_file fs) c2). set (c4 := printed (encode_table (patch_table fs)) c3).
  apply (runs_steps1 c _ _ _ _ 0 c1 c'); [apply runs_upload_found; [done|now rewrite Hc]|].
  apply (runs_steps1 c1 _ _ _ _ 0 c2 c'); [apply runs_upload_found; [done|now rewrite (Hc : chipid c1 = PRODUCT_ID_AIC8800)]|].
  apply (runs_steps1 c2 _ _ _ _ 0 c3 c'); [replace (if u03 then FW_RAM_PATCH_BASE_ADDR_U03 else FW_RAM_PATCH_BASE_ADDR) with FW_RAM_PATCH_BASE_ADDR by (now destruct u03); apply runs_upload_found; [done|now rewrite (Hc : chipid c2 = PRODUCT_ID_AIC8800)]|].
  apply (runs_steps1 c3 _ _ _ _ 0 c4 c').
  { assert (chipid c3 = PRODUCT_ID_AIC8800) as <- by exact Hc. apply runs_table_upload; [done|done| |exists aicbt_info_8800; now rewrite (Hc : chipid c3 = PRODUCT_ID_AIC8800)].
    now rewrite (Hc : chipid c3 = PRODUCT_ID_AIC8800). }
  apply (runs_steps1 c4 _ _ [] _ 0 c' c'); [now apply runs_userconfig|].
  apply (runs_steps1 c' _ _ (patch_xs_8800 e base) [_; _] 0 c' c'); [apply runs_patch_config|].
  apply (runs_steps1 c' _ _ [_] [_] 0 c' c'); [apply runs_mask|]. apply runs_last, runs_start_app.
Qed.

(** The image of an 8800D80. *)
Definition fw_name_d80 (e : env) (id : Z) : string :=
  if testmode e =? FW_NORMAL_MODE then
    if id =? CHIP_REV_U01 then "fmacfw_8800d80.bin" else if IS_CHIP_ID_H id then "fmacfw_8800d80_h_u02.bin" else "fmacfw_8800d80_u02.bin"
  else if id =? CHIP_REV_U01 then "fmacfw_rf_8800d80.bin" else "lmacfw_rf_8800d80_u02.bin".
Definition fw_addr_d80 (e : env) (id : Z) : Z :=
  if id =? CHIP_REV_U01 then if testmode e =? FW_NORMAL_MODE then RAM_FMAC_FW_ADDR_8800D80 else RAM_FMAC_RF_FW_ADDR_8800D80 else RAM_FMAC_FW_ADDR_8800D80_U02.
(** Only the U02 in the normal mode is patched. *)
Definition patched_d80 (e : env) (id : Z) : bool := (testmode e =? FW_NORMAL_MODE) && negb (id =? CHIP_REV_U01).
Definition download_xs_d80 (e : env) (id : Z) (fw : list Z) (w : fw_words) : list exch :=
  upload_xs (fw_addr_d80 e id) fw ++ (if patched_d80 e id then patch_xs_d80 e id w else []) ++ [EStart (fw_addr_d80 e id) HOST_START_APP_AUTO].
Definition after_d80 (e : env) (fw : list Z) (w : fw_words) (c : dev) : dev :=
  if patched_d80 e (chip_id c) then (printed fw c) <| fw_version_uint := fw_version w |> else printed fw c.

Lemma runs_d80 e c fw w : env_ok e -> chipid c = PRODUCT_ID_AIC8800D80 -> testmode e = FW_NORMAL_MODE \/ testmode e = FW_TEST_MODE ->
  found e PRODUCT_ID_AIC8800D80 (fw_name_d80 e (chip_id c)) fw ->
  runs c (aicfw_download_fw_8800d80 e) (download_xs_d80 e (chip_id c) fw w) 0 (after_d80 e fw w c).
Proof.
  intros He Hc Hm Hf. unfold aicfw_download_fw_8800d80. apply runs_chip. unfold download_xs_d80, fw_addr_d80, after_d80, patched_d80. unfold fw_name_d80 in Hf.
  set (id := chip_id c) in *. set (c1 := printed fw c). rewrite <- Hc in Hf. destruct Hm as [Em|Em]; rewrite Em in *; cbn [Z.eqb FW_NORMAL_MODE FW_TEST_MODE] in *.
  - destruct (id =? CHIP_REV_U01); cbn [negb andb] in *.
    + apply (runs_steps1 c _ _ _ _ 0 c1 c1); [now apply runs_upload_found|]. apply runs_last, runs_start_app.
    + apply (runs_steps1 c _ _ _ _ 0 c1 _); [now apply runs_upload_found|]. apply (runs_steps1 c1 _ _ (patch_xs_d80 e id w) [_] 0 (c1 <| fw_version_uint := fw_version w |>) _); [apply (runs_patch_config_d80 e c1)|].
      apply runs_last, runs_start_app.
  - destruct (id =? CHIP_REV_U01); cbn [negb andb] in *; (apply (runs_steps1 c _ _ _ _ 0 c1 c1); [now apply runs_upload_found|]); apply runs_last, runs_start_app.
Qed.

(** ** The Bluetooth part of an 8800D80X2 *)

(** The readings while the core comes up: it is up already, or it is switched on
    and is up after some readings. *)
Inductive pwron := AlreadyUp (w : Z) | SwitchedOn (w ctl : Z) (down : list Z) (up : Z).
Definition is_up (w : Z) : bool := negb (Z.land w 4 =? 0).
Definition pwron_ok (p : pwron) : Prop :=
  match p with
  | AlreadyUp w => is_up w = true
  | SwitchedOn w _ down up => is_up w = false /\ Forall (fun w => is_up w = false) down /\ (length down <= 20)%nat /\ is_up up = true
  end.
Definition pwron_xs (p : pwron) : list exch :=
  match p with
  | AlreadyUp w => [ERead 0x40506030 w]
  | SwitchedOn w ctl down up =>
      [ERead 0x40506030 w; ERead 0x40506004 ctl; EWrite 0x40506004 (clrf (setf ctl (BIT 17)) (BIT 18))] ++ (ERead 0x40506030 <$> down) ++ [ERead 0x40506030 up]
  end.
Lemma runs_pwron_loop c n cfm down up : length cfm = 8%nat -> Forall (fun w => is_up w = false) down -> (length down <= n)%nat -> is_up up = true ->
  runs c (pwron_loop n cfm) ((ERead 0x40506030 <$> down) ++ [ERead 0x40506030 up]) 0 c.
Proof.
  unfold is_up. intros Hl Hd. revert n cfm Hl. induction Hd as [|w down Hw _ IH]; intros n cfm Hl Hn Hu.
  - cbn [fmap list_fmap app]. assert (pwron_loop n cfm = read_word 0x40506030 cfm (fun w cfm =>
      if Z.land w 4 =? 0 then match n with O => mret (-1) | S n => pwron_loop n cfm end else mret 0)) as -> by now destruct n.
    apply runs_read_word; [done|]. intros cfm' _. apply negb_true_iff in Hu. rewrite Hu. apply runs_ret.
  - destruct n as [|n]; [cbn in Hn; lia|]. cbn [fmap list_fmap app pwron_loop]. apply runs_read_word; [done|]. intros cfm' Hl'.
    apply negb_false_iff in Hw. rewrite Hw. apply IH; [done|cbn in Hn; lia|done].
Qed.
Lemma runs_bt_pwron c p : pwron_ok p -> runs c bt_pwron (pwron_xs p) 0 c.
Proof.
  destruct p as [w|w ctl down up]; cbn [pwron_ok pwron_xs]; unfold is_up.
  - intros H. unfold bt_pwron. apply runs_read_word; [done|]. intros cfm _. apply negb_true_iff in H. rewrite H. apply runs_ret.
  - intros (H1 & H2 & H3 & H4). unfold bt_pwron. cbn [app]. apply runs_read_word; [done|]. intros cfm Hl. apply negb_false_iff in H1. rewrite H1.
    apply runs_read_word; [done|]. intros cfm' Hl'. apply (runs_orelse c _ _ [_] _ 0 c c); [apply runs_write|]. now apply runs_pwron_loop.
Qed.

(** An extension patch: its number, its address and the file. *)
Record ext_patch := mk_ext { ext_id : Z; ext_addr : Z; ext_file : list Z }.
Definition ext_param (l : list ext_patch) : list Z := flat_map (fun x => [ext_id x; ext_addr x]) l.
Definition ext_xs (l : list ext_patch) : list exch :=
  if (length l =? 0)%nat then [] else EWrite 0x40580000 0x00040220 :: flat_map (fun x => upload_xs (ext_addr x) (ext_file x)) l.
Definition ext_name (base : string) (x : ext_patch) : string := (base ++ pretty (s32 (ext_id x)) ++ ".bin")%string.
Lemma runs_ext_patches e base l rest c : env_ok e -> Forall (fun x => found e (chipid c) (ext_name base x) (ext_file x)) l ->
  runs c (ext_patches e (length l) (ext_param l ++ rest) base) (flat_map (fun x => upload_xs (ext_addr x) (ext_file x)) l) 0 (read_files (ext_file <$> l) c).
Proof.
  intros He Hl. unfold read_files. revert c Hl. induction l as [|x l IH]; intros c Hl.
  - cbn. destruct rest; apply runs_ret.
  - apply Forall_cons in Hl as [Hx Hl]. cbn [ext_param flat_map app length ext_patches fmap list_fmap]. rewrite reverse_cons, foldr_app. cbn [foldr].
    apply (runs_orfail c _ _ _ _ _ 0 (printed (ext_file x) c) _); [now apply runs_upload_found|]. apply IH. exact Hl.
Qed.
Lemma runs_ext_load e base l rest i c : env_ok e -> ext_patch_nb i = Z.of_nat (length l) -> ext_patch_param i = ext_param l ++ rest \/ l = [] ->
  Forall (fun x => found e (chipid c) (ext_name base x) (ext_file x)) l ->
  runs c (aicbt_ext_patch_data_load e i base) (ext_xs l) 0 (read_files (ext_file <$> l) c).
Proof.
  intros He Hn Hp Hl. unfold aicbt_ext_patch_data_load, ext_xs. rewrite Hn. destruct l as [|x l]; [apply runs_ret|]. destruct Hp as [Hp|]; [|done].
  cbn [length]. rewrite (proj2 (Z.ltb_lt 0 _)) by lia. cbn [Nat.eqb]. apply (runs_orelse c _ _ [_] _ 0 c _); [apply runs_write|].
  rewrite Hp, Nat2Z.id. now apply (runs_ext_patches e base (x :: l)).
Qed.

(** The information entry at the head of the table. *)
Lemma unpack_head i p i' p' : wf_entry p -> pt_type p = AICBT_PT_INF -> aicbt_patch_info_unpack i p = Ok (i', p') ->
  forall c, loadable c p'.
Proof.
  intros (_ & _ & _ & Hd) Ht. unfold aicbt_patch_info_unpack. rewrite Ht, Z.eqb_refl. cbv zeta.
  assert (forall len, len <= pt_len p -> forall c, loadable c (p <| pt_len := len |>)) as Hload.
  { intros len Hlen c. unfold loadable, load_data, entry_data. cbn. rewrite Ht. cbn. right. destruct (pt_data p) as [l|]; cbn; [lia|]. lia. }
  destruct (Z.ltb_spec 4 (pt_len p)).
  - cbn [Z.eqb]. destruct (pt_data p) as [l|]; [|discriminate]. cbn [from_option_res mbind res_bind]. destruct (_ <? _)%nat; [discriminate|]. intros [= _ <-]. now apply Hload; lia.
  - destruct (pt_len p =? 0); [intros [= _ <-]; now apply Hload|]. destruct (pt_data p) as [l|]; [|discriminate]. cbn [from_option_res mbind res_bind].
    destruct (_ <? _)%nat; [discriminate|]. intros [= _ <-]. now apply Hload.
Qed.

(** The files of an 8800D80X2. *)
Record files_d80x2 := mk_files_x2 { x2_table : list aicbt_patch_table; x2_adid : list Z; x2_patch : list Z; x2_exts : list ext_patch; x2_fw : list Z }.
Definition rev_d80x2 (id : Z) : string := if id <? CHIP_REV_U05 then "u03" else "u05".
(** The information before the table is read. *)
Definition info0_d80x2 (id : Z) : aicbt_patch_info_t :=
  mk_info 0 [0; 0x003018f8; 0; if id <? CHIP_REV_U05 then 0x0030b494 else 0x0030b48c; 0; 0; 0; 0; 0; 0] [].
Definition fw_name_d80x2 (e : env) : string := if testmode e =? FW_NORMAL_MODE then "fmacfw_8800d80x2.bin" else "lmacfw_rf_8800d80x2.bin".
(** The head of the table is an information entry that holds [i]; [head] is the entry that is left of it. *)
Definition found_d80x2 (e : env) (id : Z) (fs : files_d80x2) (i : aicbt_patch_info_t) (head : aicbt_patch_table) (tl : list aicbt_patch_table) : Prop :=
  let at' := found e PRODUCT_ID_AIC8800D80X2 in let rev := rev_d80x2 id in
  good_table (x2_table fs) /\ file_at e PRODUCT_ID_AIC8800D80X2 ("fw_patch_table_8800d80x2_" ++ rev ++ ".bin") = Some (encode_table (x2_table fs)) /\
  (exists p, x2_table fs = p :: tl /\ pt_type p = AICBT_PT_INF /\ aicbt_patch_info_unpack (info0_d80x2 id) p = Ok (i, head)) /\ info_len i <> 0 /\
  at' ("fw_adid_8800d80x2_" ++ rev ++ ".bin")%string (x2_adid fs) /\ at' ("fw_patch_8800d80x2_" ++ rev ++ ".bin")%string (x2_patch fs) /\
  ext_patch_nb i = Z.of_nat (length (x2_exts fs)) /\ ((exists rest, ext_patch_param i = ext_param (x2_exts fs) ++ rest) \/ x2_exts fs = []) /\
  Forall (fun x => at' (ext_name ("fw_patch_8800d80x2_" ++ rev ++ "_ext") x) (ext_file x)) (x2_exts fs) /\ at' (fw_name_d80x2 e) (x2_fw fs).
Definition x2_files (fs : files_d80x2) : list (list Z) := [encode_table (x2_table fs); x2_adid fs; x2_patch fs] ++ (ext_file <$> x2_exts fs) ++ [x2_fw fs].
Definition download_xs_d80x2 (e : env) (mcu : Z) (p : pwron) (fs : files_d80x2) (i : aicbt_patch_info_t) (head : aicbt_patch_table) (tl : list aicbt_patch_table) (w : fw_words) : list exch :=
  (if mcu =? 0 then [] else pwron_xs p) ++ upload_xs (addr_adid i) (x2_adid fs) ++ upload_xs (addr_patch i) (x2_patch fs) ++ ext_xs (x2_exts fs) ++
  writes (table_writes PRODUCT_ID_AIC8800D80X2 (head :: tl)) ++ upload_xs RAM_FMAC_FW_ADDR_8800D80X2 (x2_fw fs) ++
  (if testmode e =? FW_NORMAL_MODE then patch_xs_d80x2 e w else []) ++ [EStart RAM_FMAC_FW_ADDR_8800D80X2 HOST_START_APP_AUTO].
Definition after_d80x2 (e : env) (fs : files_d80x2) (w : fw_words) (c : dev) : dev :=
  let c' := read_files (x2_files fs) c in if testmode e =? FW_NORMAL_MODE then c' <| fw_version_uint := fw_version w |> else c'.

Lemma read_files_app l1 l2 c : read_files (l1 ++ l2) c = read_files l2 (read_files l1 c).
Proof. unfold read_files. now rewrite reverse_app, foldr_app. Qed.
Lemma read_files_chipid l c : chipid (read_files l c) = chipid c.
Proof. unfold read_files. induction (reverse l) as [|x l' IH]; [done|]. exact IH. Qed.

Lemma runs_d80x2 e c p fs i head tl w : env_ok e -> chipid c = PRODUCT_ID_AIC8800D80X2 -> testmode e = FW_NORMAL_MODE \/ testmode e = FW_TEST_MODE ->
  pwron_ok p -> found_d80x2 e (chip_id c) fs i head tl ->
  runs c (aicfw_download_fw_8800d80x2 e) (download_xs_d80x2 e (chip_mcu_id c) p fs i head tl w) 0 (after_d80x2 e fs w c).
Proof.
  intros He Hc Hm Hp (Ht & Ft & (q & Eq & Hq & Eu) & Hi & F1 & F2 & Hn & Hx & Hxs & F3). unfold aicfw_download_fw_8800d80x2.
  intros d0 ts rest Hr Hd0 Hts Hs. rewrite bind_gets. rewrite <- (eq_refl : chip_id (core d0) = chip_id d0), <- (eq_refl : chip_mcu_id (core d0) = chip_mcu_id d0), Hd0.
  revert d0 ts rest Hr Hd0 Hts Hs. match goal with |- forall d ts rest, _ -> _ -> _ -> _ -> exists d', ?m d = _ /\ _ => change (runs c m (download_xs_d80x2 e (chip_mcu_id c) p fs i head tl w) 0 (after_d80x2 e fs w c)) end.
  fold (rev_d80x2 (chip_id c)) (info0_d80x2 (chip_id c)). cbv zeta. set (rev := rev_d80x2 (chip_id c)) in *. set (id := chip_id c) in *.
  set (c1 := printed (encode_table (x2_table fs)) c). assert (chipid c1 = PRODUCT_ID_AIC8800D80X2) as Hc1 by exact Hc.
  apply (runs_bind c _ _ [] _ (Some (x2_table fs)) 0 c1 _); [apply runs_table_alloc; [done|done|now rewrite Hc]|]. rewrite Eq.
  apply (runs_bind c1 _ _ [] _ (i, head) 0 c1 _); [now apply runs_lift|]. rewrite (proj2 (Z.eqb_neq (info_len i) 0)) by done.
  unfold download_xs_d80x2. apply (runs_orelse c1 _ _ _ _ 0 c1 _); [destruct (_ =? _); [apply runs_ret|now apply runs_bt_pwron]|].
  set (c2 := printed (x2_adid fs) c1). set (c3 := printed (x2_patch fs) c2). set (c4 := read_files (ext_file <$> x2_exts fs) c3). set (c5 := printed (x2_fw fs) c4).
  assert (chipid c2 = PRODUCT_ID_AIC8800D80X2) as Hc2 by exact Hc. assert (chipid c3 = PRODUCT_ID_AIC8800D80X2) as Hc3 by exact Hc.
  assert (chipid c4 = PRODUCT_ID_AIC8800D80X2) as Hc4 by (subst c4; now rewrite read_files_chipid).
  assert (read_files (x2_files fs) c = c5) as Ec5.
  { unfold x2_files. rewrite !read_files_app. done. }
  assert (forall l xs r c', runs c4 (steps l) xs r c' ->
    runs c1 (steps (bt_8800d80x2 e rev i (head :: tl) ++ l)) (upload_xs (addr_adid i) (x2_adid fs) ++ upload_xs (addr_patch i) (x2_patch fs) ++ ext_xs (x2_exts fs) ++
      writes (table_writes PRODUCT_ID_AIC8800D80X2 (head :: tl)) ++ xs) r c') as Hbt.
  { intros l xs r c' Hl. unfold bt_8800d80x2. cbn [app]. apply (runs_steps1 c1 _ _ _ _ r c2 c'); [apply runs_upload_found; [done|now rewrite Hc1]|].
    apply (runs_steps1 c2 _ _ _ _ r c3 c'); [apply runs_upload_found; [done|now rewrite Hc2]|].
    apply (runs_steps1 c3 _ _ _ _ r c4 c').
    { destruct Hx as [[rest Hx]|Hx]; [apply (runs_ext_load e _ _ rest i)|apply (runs_ext_load e _ _ [] i)]; auto; now rewrite Hc3. }
    rewrite <- Hc4. apply (runs_steps1 c4 _ _ _ _ r c4 c'); [|exact Hl]. apply runs_table_load.
    destruct Ht as (_ & Hw & H3). rewrite Eq in Hw, H3. apply Forall_cons in Hw as [Hwq Hw], H3 as [_ H3].
    constructor; [now apply (unpack_head (info0_d80x2 id) q i head)|]. apply Forall_forall. intros x Hxt. rewrite Forall_forall in Hw, H3.
    apply (wf_loadable _ aicbt_info_8800d80x2); auto. now rewrite Hc4. }
  unfold after_d80x2. cbv zeta. rewrite Ec5. unfold fw_name_d80x2 in F3. assert (found e (chipid c4) (if testmode e =? FW_NORMAL_MODE then "fmacfw_8800d80x2.bin" else "lmacfw_rf_8800d80x2.bin") (x2_fw fs)) as F4 by now rewrite Hc4.
  destruct Hm as [Em|Em]; rewrite Em in *; cbn [Z.eqb FW_NORMAL_MODE FW_TEST_MODE] in *; apply Hbt.
  - apply (runs_steps1 c4 _ _ _ _ 0 c5 _); [now apply runs_upload_found|].
    apply (runs_steps1 c5 _ _ (patch_xs_d80x2 e w) [_] 0 (c5 <| fw_version_uint := fw_version w |>) _); [apply runs_patch_config_d80x2|]. apply runs_last, runs_start_app.
  - apply (runs_steps1 c4 _ _ _ _ 0 c5 _); [now apply runs_upload_found|]. apply runs_last, runs_start_app.
Qed.
End Script.
