(* ===== verification/LoaderProps.v ===== *)
(** Properties of the firmware loader: the plan a probe follows, uploads and
    patch tables, and what goes wrong. *)
From Stdlib Require Import ZArith Lia String.
From stdpp Require Import base list numbers option gmap strings pretty.
From S2P Require Import Prelude CmdMgr UserConfig Digest LoaderCmd Loader LoaderFacts LoaderScript.

#[local] Open Scope Z_scope.
#[local] Open Scope aic_scope.

(** * Properties *)

Module Props.
Import Fw Image Table Conf Start Exch Blocks Tables Script.

(** ** The plan of a probe *)

Definition with_id (w : Z) (c : dev) : dev := c <| chip_id := u8 (Z.shiftr w 16) |>.
(** What the loader has to exchange with a chip, for every answer of the chip
    ([w], [v] and the words of the firmware), and how the device is left. *)
Inductive probe_plan (e : env) (c : dev) : list exch -> dev -> Prop :=
| plan_8800 w v fs base c' :
    let id := u8 (Z.shiftr w 16) in let sub := u8 (Z.shiftr v 4) in let c1 := with_id w c <| chip_sub_id := sub |> in
    chipid c = PRODUCT_ID_AIC8800 -> testmode e <> FW_BLE_SCAN_WAKEUP_MODE -> testmode e <> FW_BLE_SCAN_AD_FILTER_MODE ->
    found_8800 e (id =? CHIP_REV_U03) fs -> configured e (read_files (files_of fs) c1) c' ->
    probe_plan e c ((ERead 0x40500000 w :: ERead 0x00000004 v :: writes (sysconf_8800 id sub)) ++ download_xs_8800 e fs base) c'
| plan_8800d80 w fw ws :
    let id := u8 (Z.shiftr w 16) in let c1 := with_id w (mcu w 25 c) in
    chipid c = PRODUCT_ID_AIC8800D80 -> testmode e = FW_NORMAL_MODE \/ testmode e = FW_TEST_MODE ->
    found e PRODUCT_ID_AIC8800D80 (fw_name_d80 e id) fw ->
    probe_plan e c ([ERead 0x40500000 w] ++ download_xs_d80 e id fw ws) (after_d80 e fw ws c1)
| plan_8800d80x2 w v p fs i head tl ws :
    let id := u8 (Z.shiftr w 16) in let c1 := mcu v 17 (with_id w c) in
    chipid c = PRODUCT_ID_AIC8800D80X2 -> testmode e = FW_NORMAL_MODE \/ testmode e = FW_TEST_MODE -> pwron_ok p -> found_d80x2 e id fs i head tl ->
    probe_plan e c ((ERead 0x40500000 w :: ERead 0x40500004 v :: writes syscfg_tbl_8800d80x2) ++ download_xs_d80x2 e (chip_mcu_id c1) p fs i head tl ws)
      (after_d80x2 e fs ws c1).

Lemma plan_chip e c xs c' : probe_plan e c xs c' -> running_chip (chipid c) = false.
Proof. now intros [? ? ? ? ? ? ? ?  ->|? ? ? ? ? ->|? ? ? ? ? ? ? ? ? ? ->]. Qed.

Lemma runs_then_download e c m xs ys c1 c' : runs c m xs 0 c1 -> runs c1 (aicfw_download_fw e) ys 0 c' ->
  runs c (r ← m; if negb (r =? 0) then mret false else r ← aicfw_download_fw e; mret (r =? 0)) (xs ++ ys) true c'.
Proof.
  intros Hm Hd. apply (runs_bind c _ _ xs ys 0 true c1 c' Hm). cbn [Z.eqb negb]. rewrite <- (app_nil_r ys).
  apply (runs_bind c1 _ _ ys [] 0 true c' c' Hd). apply runs_ret.
Qed.
Lemma runs_download e c chip m xs c' : chipid c = chip ->
  m = match chip with PRODUCT_ID_AIC8800 => aicfw_download_fw_8800 e | PRODUCT_ID_AIC8800D80 => aicfw_download_fw_8800d80 e
      | PRODUCT_ID_AIC8800D80X2 => aicfw_download_fw_8800d80x2 e | _ => mret (-1) end ->
  runs c m xs 0 c' -> runs c (aicfw_download_fw e) xs 0 c'.
Proof.
  intros <- -> Hm. unfold aicfw_download_fw. apply (runs_bind c _ _ [] xs (chipid c) 0 c c'); [|exact Hm]. apply runs_gets. intros d <-. done.
Qed.

Lemma plan_runs e c xs c' : env_ok e -> probe_plan e c xs c' ->
  runs c (r ← system_config; if negb (r =? 0) then mret false else r ← aicfw_download_fw e; mret (r =? 0)) xs true c'.
Proof.
  intros He Hp. destruct Hp as [w v fs base c' id sub c1 Hc M2 M5 Hf Hu|w fw ws id c1 Hc Hm Hf|w v p fs i head tl ws id c1 Hc Hm Hp Hf].
  - apply (runs_then_download e c _ _ _ c1 c'); [now apply runs_system_config_8800|]. apply (runs_download e c1 PRODUCT_ID_AIC8800 _ _ _ Hc eq_refl). now apply runs_8800.
  - apply (runs_then_download e c _ _ _ c1 _); [now apply runs_system_config_8800d80|].
    assert (chipid c1 = PRODUCT_ID_AIC8800D80) as Hc1 by (rewrite <- Hc; subst c1; unfold mcu; now case_match).
    apply (runs_download e c1 PRODUCT_ID_AIC8800D80 _ _ _ Hc1 eq_refl). now apply (runs_d80 e c1).
  - apply (runs_then_download e c _ _ _ c1 _); [now apply runs_system_config_8800d80x2|].
    assert (chipid c1 = PRODUCT_ID_AIC8800D80X2) as Hc1 by (rewrite <- Hc; subst c1; unfold mcu; now case_match).
    apply (runs_download e c1 PRODUCT_ID_AIC8800D80X2 _ _ _ Hc1 eq_refl). apply (runs_d80x2 e c1); try done.
    assert (chip_id c1 = id) as -> by (subst c1; unfold mcu; now case_match). exact Hf.
Qed.

(** C6. A probe of an 8800, an 8800D80 or an 8800D80X2 whose requests are all
    answered loads the firmware: the trace of the bus is the plan - the system
    configuration of the revision that was read, every file in blocks at its
    address, the patch table, the patch of the firmware and at the end the start
    of the application - and the probe keeps the device. *)
Theorem probe_loads e fw_loaded d ts rest xs c' :
  env_ok e -> queue_sz d = 0 -> probe_plan e (core (rwnx_cmd_mgr_init d).2) xs c' -> turns d = ts ++ rest -> Forall2 serves xs ts ->
  exists d', probe_load e true fw_loaded d = (Ok true, d') /\ trace d' = trace d ++ flat_map events xs /\ turns d' = rest /\ core d' = c' /\ ready d'.
Proof.
  intros He Hq Hp Ht Hs. unfold probe_load. set (d1 := (rwnx_cmd_mgr_init d).2) in *.
  destruct (plan_runs e (core d1) xs c' He Hp d1 ts rest) as (d' & E & R & C & T & L); [now repeat split|done|exact Ht|exact Hs|].
  exists d'. rewrite (bind_ok _ _ d tt d1) by done. rewrite bind_gets. cbn [negb].
  apply plan_chip in Hp. rewrite (Hp : running_chip (chipid d1) = false), andb_false_r. split_and!; done.
Qed.

(** ** Uploads *)

(** C33. A file is uploaded in blocks of 1024 bytes, the last one shorter; when they
    are all confirmed, the memory of the chip from the address on is the file,
    the rest of it is what it was, and the MD5 digest of the file is printed. *)
Theorem upload_installs e c a name l m :
  env_ok e -> found e (chipid c) name l -> 0 <= a -> a + Z.of_nat (length l) <= 2 ^ 32 ->
  runs c (rwnx_plat_bin_fw_upload_android e a name) (upload_xs a l) 0 (printed l c) /\
  forall x, image (upload_xs a l) m !! x = if decide (a <= x < a + Z.of_nat (length l)) then l !! Z.to_nat (x - a) else m !! x.
Proof.
  intros He Hf Ha Hl. split; [now apply runs_upload_found|]. intros x. destruct Hf as [Hf _]. apply file_at_bounds in Hf as [Hne _].
  rewrite image_upload by done. now apply store_lookup.
Qed.

(** ** The patch table *)

(** C35. A table that is written as a file is read back, entry by entry. *)
Theorem patch_table_roundtrip t : Forall wf_entry t -> parse_table (encode_table t) (Z.of_nat (length (encode_table t))) = Ok (Some t).
Proof. apply parse_encode. Qed.

(** C36. A table that is cut off anywhere inside an entry is read past its end. *)
Theorem patch_table_truncated t p n : Forall wf_entry t -> wf_entry p -> (0 < n < length (encode_entry p))%nat ->
  let raw := encode_table t ++ take n (encode_entry p) in parse_table raw (Z.of_nat (length raw)) = Fault OutOfBounds.
Proof.
  intros Ht Hp Hn raw. subst raw. unfold parse_table, encode_table. rewrite <- !(app_assoc AICBT_PT_TAG), memcmp_refl. cbn [mbind res_bind].
  rewrite <- !app_assoc, (app_assoc AICBT_PT_TAG).
  change 16 with (Z.of_nat (length (AICBT_PT_TAG ++ [0; 0; 0]))). pose proof (read_entries_short t p n (AICBT_PT_TAG ++ [0; 0; 0])) as H. cbv zeta in H. rewrite H; [done|done|done|done|].
  pose proof (entries_length t Ht). apply Nat.lt_succ_r, Nat.div_le_lower_bound; [lia|]. rewrite !length_app. lia.
Qed.

(** The writes of an entry, in the terms of the file: none for the version
    entry; the values of the first nine pairs of the mode entry are the driver's. *)
Definition meant (i : aicbt_info_t) (p : aicbt_patch_table) : list (Z * Z) :=
  let l := pairs_of (default [] (pt_data p)) in
  if pt_type p =? 6 then [] else if pt_type p =? AICBT_PT_BTMODE then zip (fst <$> take 9 l) (btmode_values i) ++ drop 9 l else l.
Lemma length_pairs_of n l : length l = (2 * n)%nat -> length (pairs_of l) = n.
Proof. revert l. induction n as [|n IH]; intros [|a [|v l]] H; cbn in *; try lia. f_equal. apply IH. lia. Qed.
Lemma entry_writes_meant c i p : wf_entry p -> (pt_type p = AICBT_PT_BTMODE -> 9 <= pt_len p) -> aicbt_info c = Ok i -> entry_writes c p = meant i p.
Proof.
  intros (_ & _ & _ & Hd) H9 Hi. unfold meant. destruct (Z.eqb_spec (pt_type p) 6) as [E6|E6].
  { unfold entry_writes. rewrite E6. now destruct (load_data c p). }
  destruct (Z.eqb_spec (pt_type p) AICBT_PT_BTMODE) as [E3|E3].
  - specialize (H9 E3). destruct (pt_data p) as [l|] eqn:El; [|lia]. destruct Hd as (_ & _ & Hl & _). change (default [] (Some l)) with l.
    destruct (set_btmode_ok i l) as (l' & Hs & Hl' & Hp); [lia|]. rewrite <- Hp.
    unfold entry_writes, load_data, entry_data. rewrite E3, Hi, El. cbn [Z.eqb AICBT_PT_BTMODE from_option_res mbind res_bind].
    change (AICBT_PT_BTMODE =? AICBT_PT_BTMODE) with true. cbv iota. rewrite Hs. change (AICBT_PT_BTMODE =? 6) with false. cbv iota.
    apply take_ge. rewrite (length_pairs_of (Z.to_nat (pt_len p))) by lia. lia.
  - destruct (pt_data p) as [l|] eqn:El.
    + destruct Hd as (_ & _ & Hl & _). now apply entry_writes_plain.
    + unfold entry_writes, load_data, entry_data. rewrite El in *. rewrite Hd. rewrite !(proj2 (Z.eqb_neq _ _)) by done. done.
Qed.

(** C34. Loading a well-formed table writes what its entries say, in their order. *)
Theorem patch_table_meaning e c name t i :
  env_ok e -> good_table t -> file_at e (chipid c) name = Some (encode_table t) -> aicbt_info (chipid c) = Ok i ->
  runs c (rwnx_plat_bin_fw_patch_table_upload_android e name) (writes (flat_map (meant i) t)) 0 (printed (encode_table t) c).
Proof.
  intros He Hg Hf Hi. assert (table_writes (chipid c) t = flat_map (meant i) t) as <-; [|apply runs_table_upload; eauto].
  destruct Hg as (_ & Hw & H9). clear Hf. unfold table_writes. induction Hw as [|p t Hp _ IH]; [done|]. apply Forall_cons in H9 as [H9 Ht]. cbn [flat_map].
  f_equal; [now apply entry_writes_meant|now apply IH].
Qed.

(** ** What goes wrong *)

Lemma bind_fault {A B} (m : M A) (f : A -> M B) d e d' : m d = (Fault e, d') -> (m ≫= f) d = (Fault e, d').
Proof. intros E. unfold mbind, M_bind. now rewrite E. Qed.
(** The turn of a request that is sent, and nothing is received. *)
Definition reaches_bus (t : turn) : Prop := msg_alloc t = true /\ cmd_alloc t = true /\ bus_down t = false.

Lemma request_enters d t rest id param cfm reqid : turns d = t :: rest -> reaches_bus t ->
  exists d1 p, request id param true reqid cfm d =
      cmd_mgr_queue p (Mgr.mk_msg id TASK_DBG DRV_TASK_ID (Z.of_nat (length param)) param) t d1 /\
    p = next_ptr d /\ next_ptr d1 = S p /\ heap d1 = <[p := mk_cmd id reqid 0 2 false (u32 (- Mgr.EINTR)) cfm]> (heap d) /\
    cmds d1 = cmds d /\ mgr_state d1 = mgr_state d /\ queue_sz d1 = queue_sz d /\ max_queue_sz d1 = max_queue_sz d /\ turns d1 = rest.
Proof.
  intros Ht (Hma & Hca & Hbd). unfold request, next_turn. rewrite bind_assoc, bind_gets, bind_assoc, bind_modify, bind_ret.
  rewrite Ht. change (default silent (head (t :: rest))) with t. rewrite Hma. cbn [negb]. unfold rwnx_send_msg. rewrite Hbd, Hca. cbn [negb].
  unfold kzalloc. rewrite bind_assoc, bind_gets, bind_assoc, bind_modify, bind_ret. erewrite bind_deref by (cbn; apply lookup_insert_eq). rewrite bind_put.
  eexists _, _. split; [reflexivity|]. cbn. rewrite Ht, insert_insert_eq. split_and!; done.
Qed.

(** The only command, up to the wait. *)
Lemma queue_waits d p c t id param : ready d -> heap d !! p = Some c -> cmd_flags c = 2 -> (length param <= 1100)%nat ->
  exists d1 c1 f, cmd_mgr_queue p (Mgr.mk_msg id TASK_DBG DRV_TASK_ID (Z.of_nat (length param)) param) t d =
    (w ← wait p t; c ← deref p;
     if w =? 0 then
       _ ← emit TimedOut; _ ← deliver (late t); _ ← modify (fun d => d <| mgr_state := RWNX_CMD_MGR_STATE_CRASHED |>);
       c ← deref p; _ ← give_up_cmd p c; mret (0, cmd_e2a_msg c)
     else _ ← emit (if 0 <? w then Confirmed else Killed); _ ← kfree p; mret (0, cmd_e2a_msg c)) d1 /\
    cmds d1 = [p] /\ heap d1 = <[p := c1]> (heap d) /\ cmd_flags c1 = 18 /\ cmd_reqid c1 = cmd_reqid c /\ cmd_e2a_msg c1 = cmd_e2a_msg c /\ cmd_done c1 = false /\
    mgr_state d1 = mgr_state d /\ queue_sz d1 = 1 /\ max_queue_sz d1 = max_queue_sz d /\ next_ptr d1 = next_ptr d /\ turns d1 = turns d /\ trace d1 = trace d ++ [Sent f].
Proof.
  intros (R1 & R2 & R3 & R4) Hp Hf Hlen. unfold cmd_mgr_queue. set (msg := Mgr.mk_msg id _ _ _ _).
  rewrite bind_gets, (bind_deref p c) by done. rewrite R1. rewrite decide_False by discriminate.
  rewrite R2. change (bool_decide (@nil nat = [])) with true. cbn [negb andb]. change (last []) with (@None nat). cbn [last_waits].
  rewrite bind_ret. cbv zeta. rewrite Hf. change (Mgr.req_cfm_flags 2) with 18. rewrite bind_put, bind_modify. cbv iota.
  rewrite (bind_ok (aicwf_set_cmd_tx msg) _ _ tt _) by (unfold aicwf_set_cmd_tx; rewrite (bind_lift _ _ _ _ (set_cmd_tx_ok id param Hlen)); reflexivity).
  change (has 18 Mgr.RWNX_CMD_FLAG_NONBLOCK) with false. cbv iota. eexists _, _, _. split; [reflexivity|]. cbn. rewrite R2, R3. split_and!; done.
Qed.

(** C37. A wait that a fatal signal ends frees the command while it is still in the
    list: the next request that reaches the bus looks at the freed command. *)
Theorem killed_wait_use_after_free d t1 t2 rest a v b w :
  ready d -> turns d = t1 :: t2 :: rest -> reaches_bus t1 -> reaches_bus t2 -> arrive t1 = [] -> killed t1 = true ->
  exists d1, rwnx_send_dbg_mem_write_req a v d = (Ok 0, d1) /\ (rwnx_send_dbg_mem_write_req b w d1).1 = Fault UseAfterFree.
Proof.
  intros (R1 & R2 & R3 & R4) Ht H1 H2 Har Hk. unfold rwnx_send_dbg_mem_write_req.
  edestruct (request_enters d t1 (t2 :: rest) DBG_MEM_WRITE_REQ (word32 a ++ word32 v) None DBG_MEM_WRITE_CFM Ht H1) as (e1 & p & E & Hp & N1 & Hh1 & C1 & M1 & Q1 & X1 & T1).
  destruct (queue_waits e1 p (mk_cmd DBG_MEM_WRITE_REQ DBG_MEM_WRITE_CFM 0 2 false (u32 (- Mgr.EINTR)) None) t1 DBG_MEM_WRITE_REQ (word32 a ++ word32 v)) as (e2 & c2 & f & E2 & C2 & Hh2 & F2 & I2 & B2 & D2 & M2 & Q2 & X2 & N2 & T2 & _).
  { unfold ready. rewrite M1, C1, Q1, X1. done. } { rewrite Hh1. apply lookup_insert_eq. } { done. } { rewrite length_app, !length_word32; lia. }
  rewrite E2 in E. rewrite Hh1, insert_insert_eq in Hh2.
  assert (heap e2 !! p = Some c2) as Hl by (rewrite Hh2; apply lookup_insert_eq).
  rewrite (bind_ok (wait p t1) _ e2 (- ERESTARTSYS) e2) in E
    by (unfold wait; rewrite Har; cbn [deliver]; rewrite bind_ret, (bind_deref _ _ _ _ Hl), D2, Hk; reflexivity).
  rewrite (bind_deref _ _ _ _ Hl) in E. change (- ERESTARTSYS =? 0) with false in E. cbv iota in E. rewrite bind_emit, bind_kfree in E.
  match type of E with _ = mret _ ?x => set (d1 := x) in E end. exists d1. rewrite (bind_ok _ _ _ _ _ E). split; [done|].
  edestruct (request_enters d1 t2 rest DBG_MEM_WRITE_REQ (word32 b ++ word32 w) None DBG_MEM_WRITE_CFM) as (e3 & p3 & E3 & Hp3 & N3 & Hh3 & C3 & M3 & Q3 & X3 & T3).
  { subst d1. cbn. now rewrite T2. } { done. }
  unfold mbind, M_bind. rewrite E3. unfold cmd_mgr_queue. rewrite bind_gets. erewrite bind_deref by (rewrite Hh3; apply lookup_insert_eq).
  assert (mgr_state e3 = RWNX_CMD_MGR_STATE_INITED) as -> by (rewrite M3; subst d1; cbn; now rewrite M2, M1).
  rewrite decide_False by discriminate. rewrite C3, Q3, X3. subst d1. cbn [queue_sz max_queue_sz cmds dev_eta record_eta field_set trace heap]. rewrite C2, Q2, X2, X1, R4.
  change (1 =? RWNX_CMD_MAX_QUEUED) with false. rewrite andb_false_r. cbv iota. change (last [p]) with (Some p). cbn [last_waits].
  assert (heap e3 !! p = None) as Hn.
  { rewrite Hh3. cbn [heap dev_eta record_eta field_set next_ptr] in *. rewrite lookup_insert_ne by (rewrite Hp3; cbn; rewrite N2, N1; lia). cbn. apply lookup_delete_eq. }
  unfold mbind, M_bind. unfold deref, mbind, M_bind, gets, lift. rewrite Hn. done.
Qed.

(** A confirmation of a read that is longer than the eight bytes of the caller's
    structure is copied over its end. *)
Theorem confirmation_overflows_stack d t rest a m :
  ready d -> turns d = t :: rest -> reaches_bus t -> arrive t = [m] -> e2a_id m = DBG_MEM_READ_CFM ->
  8 < e2a_param_len m <= Z.of_nat (length (e2a_param m)) -> e2a_param_len m <= RWNX_CMD_E2AMSG_LEN_MAX ->
  (rwnx_send_dbg_mem_read_req a fresh_cfm d).1 = Fault OutOfBounds.
Proof.
  intros (R1 & R2 & R3 & R4) Ht H1 Har Hid Hlen Hmax. unfold rwnx_send_dbg_mem_read_req.
  edestruct (request_enters d t rest DBG_MEM_READ_REQ (word32 a) (Some fresh_cfm) DBG_MEM_READ_CFM Ht H1) as (e1 & p & E & Hp & N1 & Hh1 & C1 & M1 & Q1 & X1 & T1).
  destruct (queue_waits e1 p (mk_cmd DBG_MEM_READ_REQ DBG_MEM_READ_CFM 0 2 false (u32 (- Mgr.EINTR)) (Some fresh_cfm)) t DBG_MEM_READ_REQ (word32 a)) as (e2 & c2 & f & E2 & C2 & Hh2 & F2 & I2 & B2 & D2 & M2 & Q2 & X2 & N2 & T2 & _).
  { unfold ready. rewrite M1, C1, Q1, X1. done. } { rewrite Hh1. apply lookup_insert_eq. } { done. } { rewrite length_word32; lia. }
  assert (heap e2 !! p = Some c2) as Hl by (rewrite Hh2; apply lookup_insert_eq). cbn in I2, B2.
  rewrite E2 in E.
  assert (rwnx_rx_handle_msg m e2 = (Fault OutOfBounds, e2)) as Hrx.
  { unfold rwnx_rx_handle_msg. rewrite Hid. rewrite (bind_lift _ tt) by done. unfold cmd_mgr_msgind. rewrite bind_gets, C2. cbn [msg_scan].
    rewrite (bind_deref _ _ _ _ Hl), I2, Hid, Z.eqb_refl, F2. change (has 18 Mgr.RWNX_CMD_FLAG_WAIT_CFM) with true. cbn [andb]. cbv zeta.
    set (c3 := c2 <| cmd_flags ::= _ |>). rewrite (proj2 (Z.ltb_ge RWNX_CMD_E2AMSG_LEN_MAX (e2a_param_len m))) by done. unfold store_cfm. change (cmd_e2a_msg c3) with (cmd_e2a_msg c2). rewrite B2.
    rewrite (proj2 (Z.eqb_neq (e2a_param_len m) 0)) by lia. unfold mbind at 1, M_bind at 1. rewrite (bind_lift _ (take (Z.to_nat (e2a_param_len m)) (e2a_param m))).
    - unfold stack_copy. rewrite (proj2 (Nat.leb_gt _ _)); [done|]. rewrite length_take. cbn. lia.
    - rewrite Md5Facts.slice_within by lia. done. }
  assert (wait p t e2 = (Fault OutOfBounds, e2)) as Hw by (unfold wait; rewrite Har; cbn [deliver]; apply bind_fault; now apply bind_fault).
  rewrite (bind_fault _ _ _ _ _ Hw) in E. now rewrite (bind_fault _ _ _ _ _ E).
Qed.

(** The wake-up mode with the advertisement filter never gets to the start of
    the application: the loop that writes the parameters runs one word past the
    structure, 67 words long. *)
Lemma write_words_overrun a n l d : (length l < n)%nat -> exists e, (write_words a n l d).1 = Fault e.
Proof.
  revert a l d. induction n as [|n IH]; intros a l d Hl; [lia|]. destruct l as [|w l]; cbn [write_words]; [now eexists|].
  unfold mbind, M_bind. destruct (rwnx_send_dbg_mem_write_req a w d) as [[r|e] d']; [|now eexists]. apply IH. cbn in Hl. lia.
Qed.
Theorem ad_filter_overruns e a d : exists f, (ble_ad_filter e a d).1 = Fault f.
Proof.
  unfold ble_ad_filter. unfold mbind, M_bind. assert (exists f, (ad_filter_words e a d).1 = Fault f) as [f Hf].
  { unfold ad_filter_words, mbind, M_bind. destruct (upload e a _ d) as [[r|f] d']; [|now eexists]. apply write_words_overrun. vm_compute. lia. }
  destruct (ad_filter_words e a d) as [[?|f0] d0]; [discriminate|]. now exists f0.
Qed.
End Props.

(** * The hypotheses can hold *)

Module Witnesses.
Import Fw Image Table Conf Start Exch Blocks Tables Script Props.

(** A chip that answers everything. *)
Definition reply (x : exch) : turn :=
  mk_turn true true false
    (match cfm_of x with
     | None => []
     | Some id => [mk_e2a id 8 (match x with ERead a v => word32 a ++ word32 v | _ => replicate 8 0 end)]
     end) false [].
Definition readable (x : exch) : Prop := match x with ERead _ v => 0 <= v < 2 ^ 32 | _ => True end.
#[export] Instance readable_dec x : Decision (readable x).
Proof. destruct x; apply _. Defined.
Lemma reply_serves xs : Forall readable xs -> Forall2 serves xs (reply <$> xs).
Proof.
  induction 1 as [|x xs Hx _ IH]; [constructor|]. constructor; [|exact IH]. unfold serves. split_and!; try done. destruct x; cbn in *; try done;
    (split; [now repeat constructor|]); try done.
Qed.

Definition w_file (l : list Z) : file := mk_file (Z.of_nat (length l)) l.
Definition w_table : list aicbt_patch_table :=
  [mk_entry (replicate 16 65) AICBT_PT_BTMODE (Some (flat_map (fun i => [0x161900 + i; 7]) (Z.of_nat <$> seq 0 10))) 10;
   mk_entry (replicate 16 66) AICBT_PT_PWRON (Some [0x40500004; 0x10]) 1; mk_entry (replicate 16 67) 6 None 0].
Definition w_bytes (n : nat) (b : Z) : list Z := replicate n b.
Definition w_open (path : string) : option file :=
  w_file <$> (list_to_map [("/lib/firmware/aic8800/fmacfw.bin", w_bytes 1500 7); ("/lib/firmware/aic8800/fw_adid_u03.bin", w_bytes 10 8);
    ("/lib/firmware/aic8800/fw_patch_u03.bin", w_bytes 1024 9); ("/lib/firmware/aic8800/fw_patch_table_u03.bin", encode_table w_table)] : gmap string (list Z)) !! path.
Definition w_env : env := mk_env w_open "" 0 1 (w_bytes 100 0) 5 0 0 0 (w_bytes 64 0) (w_bytes 0 0).
Definition w_files : files_8800 := mk_files (w_bytes 1500 7) (w_bytes 10 8) (w_bytes 1024 9) w_table.
(** Revision U03, sub-revision U04. *)
Definition w_id : Z := 0x70000.
Definition w_sub : Z := 0x200.
Definition w_xs : list exch :=
  (ERead 0x40500000 w_id :: ERead 0x00000004 w_sub :: writes (sysconf_8800 7 0x20)) ++ download_xs_8800 w_env w_files 0x150000.
Definition w_dev (ts : list turn) : dev :=
  mk_dev RWNX_CMD_MGR_STATE_DEINIT [] ∅ 0 0 0 0 PRODUCT_ID_AIC8800 0 0 0 0 Uc.userconfig_info 0 0 ts [] [].
Definition w_ready (ts : list turn) : dev := (rwnx_cmd_mgr_init (w_dev ts)).2.

Lemma w_good_table : good_table w_table.
Proof.
  split; [done|]. split.
  - repeat constructor; try (vm_compute; congruence); try (now vm_compute); refine (bool_decide_unpack (Forall _ _) _); now vm_compute.
  - repeat constructor; vm_compute; congruence.
Qed.
Lemma w_found name l : file_at w_env PRODUCT_ID_AIC8800 name = Some l -> forallb (fun b => (0 <=? b) && (b <? 256)) l = true -> found w_env PRODUCT_ID_AIC8800 name l.
Proof. intros H Hb. split; [exact H|]. apply Forall_forall. intros b Hin. apply list_elem_of_In in Hin. rewrite forallb_forall in Hb. specialize (Hb b Hin). lia. Qed.
Lemma w_plan ts : probe_plan w_env (core (w_ready ts)) w_xs
  (foldr printed (with_id w_id (core (w_ready ts)) <| chip_sub_id := 0x20 |>) (reverse (files_of w_files))).
Proof.
  apply (plan_8800 w_env (core (w_ready ts)) w_id w_sub w_files 0x150000); try done.
  - split_and!; [apply w_found; vm_compute; done..|exact w_good_table|vm_compute; done].
  - unfold configured. assert (forall c, chipid c = PRODUCT_ID_AIC8800 -> file_at w_env (chipid c) "aic_userconfig.txt" = None) as H by (intros c ->; vm_compute; done).
    rewrite H by done. split; [|done]. eexists. split; [reflexivity|vm_compute; done].
Qed.

Lemma probe_loads_witness : exists d', probe_load w_env true 0 (w_dev (reply <$> w_xs)) = (Ok true, d') /\ trace d' = flat_map events w_xs.
Proof.
  destruct (probe_loads w_env 0 (w_dev (reply <$> w_xs)) (reply <$> w_xs) [] w_xs _ eq_refl eq_refl (w_plan _)) as (d' & E & L & _).
  - now rewrite app_nil_r.
  - apply reply_serves. refine (bool_decide_unpack (Forall _ _) _). vm_compute. exact Logic.I.
  - exists d'. split; [exact E|exact L].
Defined.

Lemma upload_installs_witness :
  let l := w_bytes 1500 7 in
  runs (w_ready []) (rwnx_plat_bin_fw_upload_android w_env 0x110000 "fmacfw.bin") (upload_xs 0x110000 l) 0 (printed l (w_ready [])) /\
  image (upload_xs 0x110000 l) ∅ !! 0x110400 = Some 7.
Proof.
  intros l. destruct (upload_installs w_env (w_ready []) 0x110000 "fmacfw.bin" l ∅) as [H1 H2].
  - done.
  - apply w_found; vm_compute; done.
  - lia.
  - vm_compute. discriminate.
  - split; [exact H1|]. rewrite H2. vm_compute. reflexivity.
Defined.

Lemma patch_table_roundtrip_witness : parse_table (encode_table w_table) 176 = Ok (Some w_table).
Proof. apply (patch_table_roundtrip w_table). apply w_good_table. Defined.

Lemma patch_table_truncated_witness :
  let p := mk_entry (w_bytes 16 66) AICBT_PT_PWRON (Some [0x40500004; 0x10]) 1 in
  parse_table (encode_table w_table ++ take 29 (encode_entry p)) 205 = Fault OutOfBounds.
Proof.
  intros p. apply (patch_table_truncated w_table p 29); [apply w_good_table| |vm_compute; lia].
  apply (Forall_lookup_1 _ w_table 1 p); [apply w_good_table|done].
Defined.

Lemma patch_table_meaning_witness :
  let c := w_ready [] in
  runs c (rwnx_plat_bin_fw_patch_table_upload_android w_env "fw_patch_table_u03.bin")
    (writes (zip ((fun i => 0x161900 + Z.of_nat i) <$> seq 0 10) (btmode_values aicbt_info_8800 ++ [7]) ++ [(0x40500004, 0x10)])) 0 (printed (encode_table w_table) c).
Proof.
  intros c. apply (patch_table_meaning w_env c "fw_patch_table_u03.bin" w_table aicbt_info_8800); [done|exact w_good_table|vm_compute; done|done].
Defined.

(** Two writes; a signal ends the wait of the first. *)
Lemma killed_wait_use_after_free_witness :
  exists d1, rwnx_send_dbg_mem_write_req 0 1 (w_ready [mk_turn true true false [] true []; silent]) = (Ok 0, d1) /\
    (rwnx_send_dbg_mem_write_req 4 2 d1).1 = Fault UseAfterFree.
Proof. apply (killed_wait_use_after_free _ (mk_turn true true false [] true []) silent []); repeat split. Defined.

Lemma confirmation_overflows_stack_witness :
  (rwnx_send_dbg_mem_read_req 0 fresh_cfm (w_ready [mk_turn true true false [mk_e2a DBG_MEM_READ_CFM 9 (w_bytes 9 0)] false []])).1 = Fault OutOfBounds.
Proof.
  apply (confirmation_overflows_stack _ (mk_turn true true false [mk_e2a DBG_MEM_READ_CFM 9 (w_bytes 9 0)] false []) [] 0 (mk_e2a DBG_MEM_READ_CFM 9 (w_bytes 9 0)));
    repeat split; vm_compute; congruence.
Defined.
End Witnesses.
